(* ===== verification/_CoqProject ===== *)
-Q . S2P
Prelude.v
GoStrings.v
Decimals.v
GoStrconv.v
Errors.v
Options.v
Transport.v
Credential.v
RateLimit.v
Executor.v
Session.v
Unified.v
Candles.v
PriceLevels.v
DepthLoop.v
BinanceBook.v
UsdmBook.v
StreamBook.v
StreamLoop.v
BybitBook.v
Crc32.v
GoTime.v
KrakenBook.v
KrakenFuturesBook.v
MexcProtobuf.v
Smoke.v
ClientErrors.v
SpotAdapter.v
Pages.v
BinanceSpot.v
OKXSpot.v
BybitSpot.v
BitgetSpot.v
MEXCSpot.v
KuCoinSpot.v
GateIOSpot.v
HTXSpot.v
CoinbaseSpot.v
KrakenSpot.v
CryptoComSpot.v
KorbitSpot.v
UpbitSpot.v
BithumbSpot.v
CoinoneSpot.v
SpotExchanges.v
Clients.v
ClientAnswers.v
TradeSafety.v
StreamCommands.v
StreamReconnect.v
StreamClient.v
GateIOStream.v
GateIOFuturesStream.v
HTXStream.v
CryptoComStream.v
StreamExchanges.v
EndpointLimits.v
RestClient.v
HMACClients.v
TokenClients.v
RestSafety.v
RestExchanges.v
Endpoints.v
BinanceEndpoints.v
OKXEndpoints.v
BybitEndpoints.v
BitgetEndpoints.v
MEXCEndpoints.v
KuCoinEndpoints.v
GateIOEndpoints.v
HTXEndpoints.v
CoinbaseEndpoints.v
KrakenEndpoints.v
CryptoComEndpoints.v
KorbitEndpoints.v
UpbitEndpoints.v
BithumbEndpoints.v
CoinoneEndpoints.v
OrderRequests.v
OrderExchanges.v
