(* ===== verification/Prelude.v ===== *)
(** * A verification of the CEX SDK

    The repository is a Go SDK for cryptocurrency exchanges.  Its own logic, as
    opposed to the response formats of the exchanges, is what this library models:
    the HTTP pipeline that sends requests through fixed egress routes under rate
    limits, the clients that validate, encode and sign them, the WebSocket sessions
    that reconnect, the order books that are replicated from streams, the unified
    adapters, and the exact arithmetic of the unified contract.  Every definition
    is executable; the map of PROJECT.json gives the lines of src/ that each one
    translates.

    ** How the parts work together

    A client resolves its request options (Options) into an egress route and a
    timeout, checks the route against its credential (Credential) and calls the
    executor (Executor), which waits for the rate limiter (RateLimit), sends
    the request through the registry of routes (Transport) and classifies the
    outcome into the SDK's errors (Errors).  A market stream is a session
    (Session) over a connection of the same registry; it counts its connections
    in a generation that the order books read.  The Binance books (DepthLoop,
    BinanceBook, UsdmBook) combine a stream of changes with REST snapshots, the
    Bybit and Kraken books (StreamBook, StreamLoop, BybitBook, KrakenBook) a
    stream that carries both, as the Kraken Futures book does (KrakenFuturesBook).  MEXC's
    stream arrives in Protobuf (MexcProtobuf).  The clients of the exchanges turn
    the answers of the pipeline into values and errors (ClientErrors, Clients,
    ClientAnswers).  The streams of Gate.io, Gate.io Futures, HTX and
    Crypto.com record what they subscribe to and wait for the exchange to confirm
    it (StreamCommands), on sessions that their clients configure (StreamClient).
    The unified contract (Unified, Candles) is what the adapters
    of all exchanges share: SpotAdapter has what they do alike, one file for each
    exchange what they do differently, and SpotExchanges all of them together.
    Each adapter calls the methods of a REST client (the Endpoints files), which
    validate a request, put it into parameters and have the client (HMACClients,
    TokenClients, over the template of RestClient) sign it and send it under the
    limits of its endpoint (EndpointLimits); OrderExchanges follows an order from
    the unified contract to what its exchange reads in the request.
    The smoke runners (Smoke) check an exchange through
    it with real requests, and TradeSafety follows an order from the runner
    through the pipeline and the client and back.

    ** The files

    - Prelude: Go's integers, durations in nanoseconds, the [result] monad of
      fallible code, automation and list lemmas.
    - GoStrings, Decimals, GoStrconv, GoTime, Crc32: what the code uses of
      the packages strings, unicode, utf8 and regexp, of math/big's rationals, of
      strconv, of time.Parse for RFC 3339, and of hash/crc32.
      Go strings are byte strings.
    - Errors: errors.go, and the error values of every package as one type with
      [errors.Is] and [errors.As].  Messages are kept up to their operands.
    - Options: options.go.
    - Transport: transport/route.go and transport/registry.go; the registry is
      a map of routes and a closed flag.
    - Credential: credential/credential.go; secrets live on a heap of byte
      slices, so that destroying them is a statement about the memory shared
      with every alias.
    - RateLimit: ratelimit/limiter.go; each method is a function of the backend
      and of the clock value it reads, run under the backend's mutex.
    - Executor: exchange/executor.go; [Execute] runs against a script of what
      each attempt meets and returns the list of its events.
    - Session: stream/session.go, stream/types.go and stream/connector.go; [Run]
      is a program counter over the critical sections of the session's mutex,
      and [step] interleaves it with Close, Reconnect, Write and cancellation.
    - Unified, Candles: unified/types.go, constraints.go and candles.go.
    - PriceLevels: the levels of a side of an order book, as every
      local_order_book.go has them, the abstract side they implement (a partial
      function from prices to quantities) and the relation [shows] between a
      side and a published view.
    - DepthLoop: [runInputs] of exchange/binance/local_order_book.go and of
      exchange/binance/usdm/local_order_book.go, once, over the type class
      [DepthProtocol]; BinanceBook and UsdmBook are its instances.
    - StreamBook: the [replica] that a snapshot and deltas define.
    - StreamLoop: the processor and the message loop that
      exchange/bybit/local_order_book.go and exchange/kraken/local_order_book.go
      have in common, over the type class [StreamProtocol]; BybitBook,
      KrakenBook and KrakenFuturesBook are its instances, with [Run], the
      validation of events and the subscriptions that their configuration builds.
    - MexcProtobuf: exchange/mexc/protobuf.go; the package protowire is the type
      class [Protowire] with its documented laws [ProtowireLaws].
    - Smoke: net's addresses (GoNet), and smoke/read.go and smoke/trade.go in a monad
      that logs the calls of a run; the exchange answers each call as a function of all calls before it.
    - ClientErrors, Clients: from the answer of an exchange to a value or an error,
      as client.go (and PlaceOrder of orders.go, after its request) of every
      package under exchange/ has it; Clients has a Module per client.
    - SpotAdapter: what the fifteen files exchange/*/unified.go have in common when
      an order is placed, as the type class [SpotAdapter] with the laws
      [SpotAdapterLaws]; Pages: the loop over pages of open orders.
    - BinanceSpot, OKXSpot, BybitSpot, BitgetSpot, MEXCSpot, KuCoinSpot, GateIOSpot,
      HTXSpot, CoinbaseSpot, KrakenSpot, CryptoComSpot, KorbitSpot, UpbitSpot,
      BithumbSpot, CoinoneSpot: the methods PlaceOrder, Order, CancelOrder and
      OpenOrders of exchange/*/unified.go, with the native requests of requests.go,
      their validation, and the conversions both ways.  A record [Client] has the
      calls of the native client after its validation; calls read and change a
      world of any type, so that what is sent, and that nothing is, can be stated.
    - SpotExchanges: [placeOrder], [orderInfo], [cancelOrder] and [openOrders] of
      any of the fifteen exchanges, and the theorems over all of them.
    - ClientAnswers: the theorems over all clients; TradeSafety: over the runner,
      the pipeline and the clients together.
    - StreamCommands: the subscriptions and pending commands of a stream
      ([change], [resubscribe], [handleControl] and the rollbacks of
      websocket.go), over the type class [CommandStream], as an interleaving of
      the stream's goroutines with the exchange; [CommandStreamLaws] is what the
      theorems ask of a stream.  StreamReconnect: a lost connection.
    - StreamClient: what the stream clients of all exchanges share: their checks,
      routes, permissions, reconnect policies and lists of subscriptions.
    - GateIOStream, GateIOFuturesStream, HTXStream, CryptoComStream: websocket.go,
      websocket_decode.go (and websocket_mbp.go) of these exchanges, with the
      instances of [CommandStream]; StreamExchanges: the theorems over all four.

    - EndpointLimits: the limits.go of every package: what a request charges, the
      rules it sets, and the headers of an answer that move a bucket; a Module per
      client.  RestClient: what the client.go files share - [New], the resolution of
      options, the public and the private way to the pipeline - and the class
      [Library] of what they use of Go's packages for hashes, keys and encodings.
      HMACClients, TokenClients: a Module per client, nineteen in all, with its
      [New], its request builder and its signature.
    - RestSafety: the class [SignedClient] of a client with an account, with the law
      that what it signs verifies, and what each exchange verifies, as its
      instances; RestExchanges: the theorems, over [RestExchange], which names the
      nineteen clients.
    - Endpoints: a method of a client as a check, a request and a reading of the
      answer; BinanceEndpoints, OKXEndpoints, BybitEndpoints, BitgetEndpoints,
      MEXCEndpoints, KuCoinEndpoints, GateIOEndpoints, HTXEndpoints,
      CoinbaseEndpoints, KrakenEndpoints, CryptoComEndpoints, KorbitEndpoints,
      UpbitEndpoints, BithumbEndpoints, CoinoneEndpoints: the methods of orders.go,
      account.go and market.go with the encodings of requests.go.
    - OrderRequests: [url.ParseQuery], which reads what [Values.Encode] writes, and
      how the parameters of an order travel and how they are read
      back, as the class [OrderClient] with [OrderClientLaws]; OrderExchanges: the
      fifteen instances together, and the theorem over them.

    ** What the theorems show

    - A mutation is sent at most once and, when it may have been executed, its
      failure says so and is not retryable; reads retry within their policy;
      after a 429 or 418 the charged keys are blocked for the announced time in
      every later execution of the limiter, unless the header names more seconds
      than a duration holds (Executor).
    - In every execution the units granted in any window stay within the limit;
      a charge is all or nothing; the wait that is asked for suffices
      (RateLimit).
    - Connections get generations 1, 2, 3, ...; every connection but the current
      one is closed; a closed session stays closed and its [Run] returns;
      delays and consecutive failures are bounded (Session).
    - Whatever is delivered, lost, delayed or repeated, a published view is the
      book of its update ID: for Binance Spot and USD-M, where a snapshot lists the
      best levels up to its limit and events carry the changes, as far as the
      levels of a snapshot reach; for Bybit and Kraken without any
      contract, as the replica of an unbroken chain of messages, which
      [StreamBook.replica_true] identifies with the exchange's book when the
      messages are faithful.  The synchronization loop cannot stall, a gapless
      feed is published message by message, and a one-byte difference under
      Kraken's checksum is always detected.
    - Every MEXC message survives its encoding, and no bytes make a message with
      two bodies (MexcProtobuf).
    - An error of any of the nineteen clients may be retried only where it should,
      and for fourteen of them an order that the exchange accepted is never
      reported as a failure without a reason; the gaps of the other five are
      theorems as well (ClientAnswers).
    - A client that its [New] accepts has a usable route, URL, timeout and
      credential; a private request leaves only for an entitled account, through
      the resolved route, with a signature that the exchange verifies on what it
      receives; a refused call leaves no trace (RestExchanges).
    - What a client sends for a valid unified order is read by the exchange as
      exactly the native order of its adapter; at most one request leaves, signed
      and entitled (OrderExchanges).
    - On every exchange a unified order is sent exactly once if the contract, the
      adapter and the exchange allow it, and refused before anything is sent if
      not; its native order says exactly what it says; market names can be read
      back; answers name the exchange and the market of the request; the lists of
      open orders end, and OKX's is complete (SpotExchanges).
    - Whatever happens to a stream with confirmed commands, once everything on its
      way is answered the recorded subscriptions are what the exchange streams; a
      new connection restores them; the session stays on the resolved route, a
      private stream needs a credential allowed there, and a command that cannot
      be encoded ends the session.  This asks that no subscription is changed
      while an answer about it is awaited; without that the theorem
      [late_refusal_loses_a_subscription] shows what goes wrong (StreamExchanges).
    - A read run changes nothing; a trade run places at most one harmless order
      and cancels it whenever it may exist (Smoke), so that a sent order that
      fails is explained or cancelled, except one that Binance Spot answered
      unreadably (TradeSafety).
    - Validations accept exactly what their specifications say (Options,
      Transport, Credential, Unified), sums and comparisons of decimals are
      exact, and aggregated candles have the open, close, extremes and volume of
      their interval (Candles).

    ** Scripts, fuel and bounds

    The loops over pages of open orders take their number of pages as fuel and
    answer [None] when it runs out; [open_orders_end] gives the fuel that is enough.
    Executions are folds over lists of inputs, so no fuel bounds them; an input
    that a state does not expect changes nothing, and theorems quantify over all
    lists.  The retry loop of [Execute] recurses on the attempts left, which its
    policy bounds by five.  [GoStrings.trim_runes] has the length of its text as
    fuel, of which each step consumes at least one byte.  The doubling loops of
    [ExponentialBackoff] and [waitBeforeRetry] recurse on the attempts that are
    left to count.  Integers wrap where Go's do,
    except the IDs of stream commands: their counter starts at the microseconds
    since 1970 and wraps after some nine quintillion commands.

    ** What is not modelled

    The WebSocket adapters of the other exchanges and the private ones of HTX and
    Crypto.com, the methods of the futures clients (usdm, futures), the market data
    of the unified adapters (markets, tickers, candles, order books, trades and
    balances), generated catalogues, commands and diagnostics.  A handler of an
    order book that returns an error ends its stream; a limiter's rules do not
    change while it is in use.  The network, the clock, random
    numbers, decoded JSON and the answers of handlers are inputs; encoding/json
    (the classes [JSON], [Decoder] and [OrderCoding]), crypto, encoding/hex and
    base64, time formats ([Library]), url.Parse, http.ParseTime and the protowire
    package are parameters.  The
    exchange at the other end of a stream is the environment of StreamCommands: it
    reads the commands that reach it in order and refuses any of them, except one
    that asks for what it does already; a write that fails has sent nothing or its
    connection is lost.  The log of
    a stream's callbacks is part of the session's events, but what callbacks do
    is not.  Planned next: the remaining WebSocket adapters, the market data of the
    unified adapters, the methods of the futures clients, and the books of MEXC, OKX, Coinbase, Bitget, Gate.io, KuCoin, HTX
    and Crypto.com. *)

From stdpp Require Export base tactics list sorting gmap strings pretty.
From Stdlib Require Export ZArith QArith Lia.

#[global] Open Scope Z_scope.

(** A byte of a Go string. *)
Abbreviation ascii := Ascii.ascii.

(** ** Machine integers *)

(** Go's [int], [int64] and [time.Duration] are 64-bit two's complement,
    [int32] is its 32-bit counterpart and [uint64] wraps modulo [2^64]. *)
Definition MaxInt64 : Z := 9223372036854775807.
Definition MinInt64 : Z := -9223372036854775808.
Definition MaxUint64 : Z := 18446744073709551615.

Definition int64 (z : Z) : Z := (z + 2 ^ 63) mod 2 ^ 64 - 2 ^ 63.
Definition int32 (z : Z) : Z := (z + 2 ^ 31) mod 2 ^ 32 - 2 ^ 31.
Definition uint64 (z : Z) : Z := z mod 2 ^ 64.

Definition is_int64 (z : Z) : Prop := MinInt64 ≤ z ≤ MaxInt64.
Definition is_uint64 (z : Z) : Prop := 0 ≤ z ≤ MaxUint64.

#[export] Instance is_int64_dec z : Decision (is_int64 z).
Proof. unfold is_int64. apply _. Defined.
#[export] Instance is_uint64_dec z : Decision (is_uint64 z).
Proof. unfold is_uint64. apply _. Defined.

Lemma int64_id z : is_int64 z → int64 z = z.
Proof.
  unfold is_int64, int64, MinInt64, MaxInt64. intros ?.
  rewrite Z.mod_small; lia.
Qed.

Lemma int64_range z : is_int64 (int64 z).
Proof.
  unfold is_int64, int64, MinInt64, MaxInt64.
  pose proof (Z.mod_pos_bound (z + 2 ^ 63) (2 ^ 64)). lia.
Qed.

Lemma uint64_id z : is_uint64 z → uint64 z = z.
Proof. unfold is_uint64, uint64, MaxUint64. intros ?. rewrite Z.mod_small; lia. Qed.

Lemma uint64_range z : is_uint64 (uint64 z).
Proof.
  unfold is_uint64, uint64, MaxUint64.
  pose proof (Z.mod_pos_bound z (2 ^ 64)). lia.
Qed.

Definition is_int32 (z : Z) : Prop := - 2 ^ 31 ≤ z < 2 ^ 31.

Lemma int32_id z : is_int32 z → int32 z = z.
Proof. unfold is_int32, int32. intros ?. rewrite Z.mod_small; lia. Qed.

Lemma is_int32_int64 z : is_int32 z → is_int64 z.
Proof. unfold is_int32, is_int64, MinInt64, MaxInt64. lia. Qed.

(** Converting to [uint64] and back. *)
Lemma int64_uint64 z : is_int64 z → int64 (uint64 z) = z.
Proof.
  intros Hz. rewrite <-(int64_id z Hz) at 2. unfold int64, uint64. f_equal.
  by rewrite Zplus_mod_idemp_l.
Qed.

(** Durations in nanoseconds, as package [time] counts them. *)
Definition Nanosecond : Z := 1.
Definition Millisecond : Z := 1000000.
Definition Second : Z := 1000000000.
Definition Minute : Z := 60 * Second.

(** ** Fallible results *)

(** A Go function that returns [(T, error)] returns [Err] when its error is not
    nil; the accompanying value is then the zero value, except where a
    definition of this development says otherwise. *)
Inductive result (E A : Type) : Type :=
  | Ok (a : A)
  | Err (e : E).
Arguments Ok {E A} _.
Arguments Err {E A} _.

#[export] Instance result_ret {E} : MRet (result E) := λ A a, Ok a.
#[export] Instance result_bind {E} : MBind (result E) := λ A B f m,
  match m with Ok a => f a | Err e => Err e end.
#[export] Instance result_fmap {E} : FMap (result E) := λ A B f m,
  match m with Ok a => Ok (f a) | Err e => Err e end.

Definition is_Ok {E A} (r : result E A) : bool :=
  match r with Ok _ => true | Err _ => false end.

(** [if cond { return err }]: guards of the code, in its order. *)
Definition require {E} (ok : bool) (e : E) : result E unit :=
  if ok then Ok tt else Err e.

Lemma result_bind_Ok {E A B} (m : result E A) (f : A → result E B) b :
  m ≫= f = Ok b ↔ ∃ a, m = Ok a ∧ f a = Ok b.
Proof. destruct m; naive_solver. Qed.

Lemma result_bind_Err {E A B} (m : result E A) (f : A → result E B) e :
  m ≫= f = Err e ↔ m = Err e ∨ ∃ a, m = Ok a ∧ f a = Err e.
Proof. destruct m; naive_solver. Qed.

Lemma require_Ok {E} b (e : E) u : require b e = Ok u ↔ b = true.
Proof. destruct b, u; naive_solver. Qed.

Lemma require_Err {E} b (e e' : E) : require b e = Err e' ↔ b = false ∧ e' = e.
Proof. destruct b; naive_solver. Qed.

(** Loops of the form [for _, x := range xs { if err := f(x); err != nil ... }]. *)
Fixpoint fold_result {E A S} (f : S → A → result E S) (s : S) (xs : list A) : result E S :=
  match xs with
  | [] => Ok s
  | x :: xs => s' ← f s x; fold_result f s' xs
  end.

Lemma fold_result_app {E A S} (f : S → A → result E S) s xs ys :
  fold_result f s (xs ++ ys) = s' ← fold_result f s xs; fold_result f s' ys.
Proof.
  revert s. induction xs as [|x xs IH]; intros s; [done|]. simpl.
  destruct (f s x); simpl; [apply IH|done].
Qed.

(** A loop each of whose rounds succeeds. *)
Lemma fold_result_all {E A S} (f : S → A → result E S) (g : S → A → S) (P : A → Prop) xs s :
  (∀ s x, P x → f s x = Ok (g s x)) → Forall P xs → fold_result f s xs = Ok (foldl g s xs).
Proof.
  intros Hf Hxs. revert s. induction Hxs as [|x xs Hx _ IH]; intros s; [done|].
  cbn [fold_result foldl]. rewrite Hf by done. apply IH.
Qed.

Lemma fold_result_invariant {E A S} (f : S → A → result E S) (P : S → Prop) xs s s' :
  (∀ s x s', P s → f s x = Ok s' → P s') →
  P s → fold_result f s xs = Ok s' → P s'.
Proof.
  intros Hf. revert s. induction xs as [|x xs IH]; intros s Hs; simpl; [naive_solver|].
  rewrite result_bind_Ok. naive_solver.
Qed.

Lemma fold_result_is_Ok {E A S} (f : S → A → result E S) (P : A → Prop) xs s :
  (∀ s x, P x → is_Ok (f s x) = true) →
  Forall P xs → is_Ok (fold_result f s xs) = true.
Proof.
  intros Hf Hxs. revert s. induction Hxs as [|x xs Hx _ IH]; intros s; [done|]. simpl.
  specialize (Hf s x Hx). destruct (f s x); [apply IH|done].
Qed.

Lemma is_Ok_true {E A} (r : result E A) : is_Ok r = true ↔ ∃ a, r = Ok a.
Proof. destruct r; naive_solver. Qed.

(** [invert_result] turns an equation on a monadic computation into the
    equations of its parts. *)
Ltac invert_result :=
  repeat match goal with
  | H : (_ ≫= _) = Ok _ |- _ => apply result_bind_Ok in H as (? & ? & H)
  | H : require _ _ = Ok _ |- _ => apply require_Ok in H
  | H : Ok _ = Ok _ |- _ => injection H as H; subst
  | H : Ok _ = Err _ |- _ => discriminate H
  | H : Err _ = Ok _ |- _ => discriminate H
  | H : Err _ = Err _ |- _ => injection H as H; subst
  end.

(** Boolean guards of the code as propositions. *)
Lemma negb_bool_decide `{Decision P} : negb (bool_decide P) = true ↔ ¬ P.
Proof. rewrite negb_true_iff. apply bool_decide_eq_false. Qed.

Create Rewrite HintDb go_bool.
#[export] Hint Rewrite @bool_decide_eq_true @bool_decide_eq_false @negb_bool_decide
  andb_true_iff orb_true_iff andb_false_iff orb_false_iff negb_true_iff negb_false_iff
  Z.ltb_lt Z.leb_le Z.eqb_eq Z.ltb_ge Z.leb_gt Z.eqb_neq
  String.eqb_eq String.eqb_neq : go_bool.

Ltac go_bool := autorewrite with go_bool in *.

(** [guard_cases] splits on a [bool_decide] guard, of the goal first, and
    replaces it everywhere. *)
Ltac split_guard P :=
  let H := fresh "Hguard" in
  destruct (decide P) as [H|H];
  [rewrite ?(bool_decide_eq_true_2 P H) in * | rewrite ?(bool_decide_eq_false_2 P H) in *].

Ltac guard_cases :=
  match goal with
  | |- context [bool_decide ?P] => split_guard P
  | _ : context [bool_decide ?P] |- _ => split_guard P
  end; simpl in *.

(** ** Record updates *)

(** [r <| f := v |>] is the record [r] with the field [f] set to [v], the
    assignment [r.f = v] of the code.  An instance of [Settable] is the eta
    expansion of the record; abstracting a projection in it gives its setter. *)
Class Settable (R : Type) : Type := eta_record : R → R.
Class Setter {R T : Type} (f : R → T) : Type := set_field : T → R → R.
Arguments set_field {R T} f {_} _ _.

Ltac solve_setter :=
  lazymatch goal with
  | |- @Setter ?R ?T ?f =>
      let e := constr:(ltac:(let i := constr:(_ : Settable R) in exact i)) in
      let e := eval cbv delta [eta_record] in e in
      let e := eval hnf in e in
      let h := eval pattern f in e in
      lazymatch h with ?g _ => exact (λ (v : T) (r : R), g (λ _, v) r) end
  end.
#[export] Hint Extern 0 (Setter _) => solve_setter : typeclass_instances.

Notation "r <| f := v |>" := (set_field f v r)
  (at level 1, f at level 200, left associativity, format "r  <| f  :=  v |>").

(** ** Sorting and lists *)

Section sort.
Context {A : Type} (R : relation A) `{!RelDecision R, !Transitive R, !Total R}.

Lemma elem_of_sort x l : x ∈ merge_sort R l ↔ x ∈ l.
Proof. by rewrite (merge_sort_Permutation R l). Qed.

Lemma length_sort l : length (merge_sort R l) = length l.
Proof. by rewrite (merge_sort_Permutation R l). Qed.

Lemma NoDup_sort l : NoDup (merge_sort R l) ↔ NoDup l.
Proof. by rewrite (merge_sort_Permutation R l). Qed.

Lemma sort_StronglySorted l : StronglySorted R (merge_sort R l).
Proof. by apply StronglySorted_merge_sort. Qed.
End sort.

Lemma StronglySorted_take {A} (R : relation A) n l :
  StronglySorted R l → StronglySorted R (take n l).
Proof.
  intros Hl. revert n. induction Hl as [|x l _ IH Hx]; intros [|n]; simpl; constructor; auto.
  by apply Forall_take.
Qed.

Lemma StronglySorted_drop {A} (R : relation A) n l :
  StronglySorted R l → StronglySorted R (drop n l).
Proof.
  intros Hl. revert n. induction Hl as [|x l Hl IH Hx]; intros [|n]; simpl; auto; by constructor.
Qed.

Lemma StronglySorted_take_drop {A} (R : relation A) n l x y :
  StronglySorted R l → x ∈ take n l → y ∈ drop n l → R x y.
Proof.
  intros Hl. rewrite <-(take_drop n l) in Hl.
  intros Hx Hy. by eapply StronglySorted_app_1_elem_of.
Qed.

Lemma StronglySorted_strict {A} (R R' : relation A) l :
  (∀ x y, x ∈ l → y ∈ l → x ≠ y → R x y → R' x y) →
  NoDup l → StronglySorted R l → StronglySorted R' l.
Proof.
  intros HR Hnd Hl. induction Hl as [|x l Hl IH Hx]; [constructor|].
  apply NoDup_cons in Hnd as [Hxl Hnd].
  constructor; [apply IH; [set_solver|done]|].
  rewrite Forall_forall in Hx |- *. intros y Hy.
  apply HR; [set_solver..| |by apply Hx]. intros ->. done.
Qed.

Lemma StronglySorted_fmap_in {A B} (f : A → B) (R : relation A) (R' : relation B) l :
  StronglySorted R l → (∀ x y, x ∈ l → y ∈ l → R x y → R' (f x) (f y)) → StronglySorted R' (f <$> l).
Proof.
  induction 1 as [|x l Hl IH Hx]; intros Hf; [constructor|]. rewrite fmap_cons. constructor.
  - apply IH. intros; apply Hf; [by right|by right|done].
  - apply Forall_fmap, Forall_forall. rewrite Forall_forall in Hx. intros y Hy.
    apply Hf; [by left|by right|by apply Hx].
Qed.

Lemma filter_all {A} (P : A → Prop) `{!∀ x, Decision (P x)} l : Forall P l → filter P l = l.
Proof. induction 1; [done|]. rewrite filter_cons, decide_True by done. by f_equal. Qed.

Lemma filter_none {A} (P : A → Prop) `{!∀ x, Decision (P x)} l :
  Forall (λ x, ¬ P x) l → filter P l = [].
Proof. induction 1; [done|]. by rewrite filter_cons, decide_False. Qed.

Lemma Forall_filter {A} (P Q : A → Prop) `{!∀ x, Decision (P x)} l :
  Forall Q l → Forall Q (filter P l).
Proof. induction 1; [constructor|]. rewrite filter_cons. case_decide; auto. Qed.

Lemma StronglySorted_filter {A} (R : relation A) (P : A → Prop) `{!∀ x, Decision (P x)} l :
  StronglySorted R l → StronglySorted R (filter P l).
Proof.
  induction 1 as [|x l Hl IH Hx]; [constructor|]. rewrite filter_cons.
  case_decide; [|done]. constructor; [done|]. by apply Forall_filter.
Qed.

(** The total of a list of integers. *)
Definition sumZ {A} (f : A → Z) (l : list A) : Z := foldr (λ x s, f x + s) 0 l.
Arguments sumZ : simpl never.

Lemma sumZ_cons {A} (f : A → Z) x l : sumZ f (x :: l) = f x + sumZ f l.
Proof. done. Qed.

Lemma sumZ_app {A} (f : A → Z) l k : sumZ f (l ++ k) = sumZ f l + sumZ f k.
Proof. induction l as [|x l IH]; [done|]. rewrite <-app_comm_cons, !sumZ_cons, IH. lia. Qed.

Lemma sumZ_nonneg {A} (f : A → Z) l : Forall (λ x, 0 ≤ f x) l → 0 ≤ sumZ f l.
Proof. induction 1; [done|]. rewrite sumZ_cons. lia. Qed.

Lemma sumZ_Permutation {A} (f : A → Z) l k : l ≡ₚ k → sumZ f l = sumZ f k.
Proof. induction 1; rewrite ?sumZ_cons in *; lia. Qed.
