(* ===== verification/GoStrings.v ===== *)
(** * The string functions of Go's standard library that the SDK uses

    A Go string is a sequence of bytes; here a [string] is a sequence of
    [ascii], one per byte.  [strings.TrimSpace], [strings.Trim],
    [strings.ToUpper], [strings.Cut], [strings.EqualFold] and the decimal
    pattern that every package of the SDK compiles are defined on them. *)

From S2P Require Import Prelude.

(** ** Trimming *)

Fixpoint drop_while {A} (f : A → bool) (l : list A) : list A :=
  match l with
  | [] => []
  | x :: l' => if f x then drop_while f l' else l
  end.

(** [strings.TrimFunc] for a predicate on single bytes. *)
Definition TrimFunc (f : ascii → bool) (s : string) : string :=
  String.string_of_list_ascii
    (reverse (drop_while f (reverse (drop_while f (String.list_ascii_of_string s))))).

Definition in_cutset (cutset : string) (c : ascii) : bool :=
  bool_decide (c ∈ String.list_ascii_of_string cutset).

(** [strings.Trim] and [strings.TrimLeft] with an ASCII cutset. *)
Definition Trim (s cutset : string) : string := TrimFunc (in_cutset cutset) s.
Definition TrimLeft (s cutset : string) : string :=
  String.string_of_list_ascii (drop_while (in_cutset cutset) (String.list_ascii_of_string s)).

(** The UTF-8 encodings of the runes [unicode.IsSpace] accepts: one byte
    (tab, line feed, vertical tab, form feed, carriage return, space), two
    bytes (U+0085, U+00A0) and three bytes (U+1680, U+2000..U+200A, U+2028,
    U+2029, U+202F, U+205F, U+3000). *)
Definition space1 (a : ascii) : bool :=
  let n := Ascii.N_of_ascii a in
  bool_decide (9 ≤ n ≤ 13)%N || bool_decide (n = 32%N).
Definition space2 (a b : ascii) : bool :=
  bool_decide (Ascii.N_of_ascii a = 194%N) &&
  (bool_decide (Ascii.N_of_ascii b = 133%N) || bool_decide (Ascii.N_of_ascii b = 160%N)).
Definition space3 (a b c : ascii) : bool :=
  let a := Ascii.N_of_ascii a in let b := Ascii.N_of_ascii b in let c := Ascii.N_of_ascii c in
  bool_decide (a = 225%N ∧ b = 154%N ∧ c = 128%N) ||
  bool_decide (a = 226%N ∧ b = 128%N ∧
    (128 ≤ c ≤ 138 ∨ c = 168 ∨ c = 169 ∨ c = 175)%N) ||
  bool_decide (a = 226%N ∧ b = 129%N ∧ c = 159%N) ||
  bool_decide (a = 227%N ∧ b = 128%N ∧ c = 128%N).

(** [space_prefix s1 s2 s3 l] is the number of bytes of the space rune [l]
    starts with, 0 when it starts with none. *)
Section trim_runes.
Context (s1 : ascii → bool) (s2 : ascii → ascii → bool) (s3 : ascii → ascii → ascii → bool).

Definition space_prefix (l : list ascii) : nat :=
  match l with
  | a :: b :: c :: _ =>
      if s1 a then 1 else if s2 a b then 2 else if s3 a b c then 3 else 0
  | [a; b] => if s1 a then 1 else if s2 a b then 2 else 0
  | [a] => if s1 a then 1 else 0
  | [] => 0
  end%nat.

Fixpoint trim_runes (fuel : nat) (l : list ascii) : list ascii :=
  match fuel with
  | O => l
  | S fuel =>
      match space_prefix l with
      | O => l
      | n => trim_runes fuel (drop n l)
      end
  end.

Definition trim_side (l : list ascii) : list ascii := trim_runes (length l) l.

Lemma space_prefix_app_0 l k : space_prefix (l ++ k) = 0%nat → space_prefix l = 0%nat.
Proof. destruct l as [|a [|b [|c l]]]; simpl; repeat case_match; naive_solver. Qed.

Lemma space_prefix_le l : (space_prefix l ≤ length l)%nat.
Proof. destruct l as [|a [|b [|c l]]]; simpl; repeat case_match; lia. Qed.

Lemma trim_runes_done fuel l :
  (length l ≤ fuel)%nat → space_prefix (trim_runes fuel l) = 0%nat.
Proof.
  revert l. induction fuel as [|fuel IH]; intros l Hl; simpl.
  { by destruct l; [|simpl in *; lia]. }
  destruct (space_prefix l) as [|n] eqn:Hn; [done|].
  apply IH. rewrite length_drop. pose proof (space_prefix_le l). lia.
Qed.

Lemma trim_side_done l : space_prefix (trim_side l) = 0%nat.
Proof. by apply trim_runes_done. Qed.

Lemma trim_side_id l : space_prefix l = 0%nat → trim_side l = l.
Proof. unfold trim_side. destruct l as [|a l]; [done|]. simpl length. simpl. by intros ->. Qed.

Lemma trim_runes_suffix fuel l : ∃ k, l = k ++ trim_runes fuel l.
Proof.
  revert l. induction fuel as [|fuel IH]; intros l; simpl; [by exists []|].
  destruct (space_prefix l) as [|n]; [by exists []|].
  destruct (IH (drop (S n) l)) as [k Hk]. exists (take (S n) l ++ k).
  rewrite <-app_assoc, <-Hk. by rewrite take_drop.
Qed.
End trim_runes.

(** [strings.TrimSpace]: the encodings are read forwards at the start of the
    string and backwards at its end. *)
Definition TrimSpace (s : string) : string :=
  let left := trim_side space1 space2 space3 (String.list_ascii_of_string s) in
  String.string_of_list_ascii (reverse
    (trim_side space1 (λ a b, space2 b a) (λ a b c, space3 c b a) (reverse left))).

Lemma TrimSpace_idemp s : TrimSpace (TrimSpace s) = TrimSpace s.
Proof.
  unfold TrimSpace at 1 3. cbv zeta.
  set (left := trim_side space1 space2 space3 (String.list_ascii_of_string s)).
  set (right := trim_side space1 (λ a b, space2 b a) (λ a b c, space3 c b a) (reverse left)).
  unfold TrimSpace. cbv zeta. fold left. fold right.
  rewrite String.list_ascii_of_string_of_list_ascii.
  rewrite (trim_side_id _ _ _ (reverse right)).
  - rewrite reverse_involutive, trim_side_id; [done|]. apply trim_side_done.
  - destruct (trim_runes_suffix space1 (λ a b, space2 b a) (λ a b c, space3 c b a)
      (length (reverse left)) (reverse left)) as [k Hk].
    fold (trim_side space1 (λ a b, space2 b a) (λ a b c, space3 c b a) (reverse left)) in Hk.
    fold right in Hk. apply (f_equal reverse) in Hk.
    rewrite reverse_involutive, reverse_app in Hk.
    apply (space_prefix_app_0 _ _ _ _ (reverse k)). rewrite <-Hk. apply trim_side_done.
Qed.

(** ** Case *)

(** [strings.ToUpper] on the ASCII letters; other bytes are unchanged.  Go maps the
    letters of all of Unicode: the model is exact for the ASCII names of assets,
    markets, headers and codes that the SDK folds. *)
Definition upper_ascii (c : ascii) : ascii :=
  let n := Ascii.N_of_ascii c in
  if bool_decide (97 ≤ n ≤ 122)%N then Ascii.ascii_of_N (n - 32) else c.
Definition ToUpper (s : string) : string :=
  String.string_of_list_ascii (upper_ascii <$> String.list_ascii_of_string s).
Definition EqualFold (s t : string) : bool := bool_decide (ToUpper s = ToUpper t).

(** ** Decimal digits *)

Definition is_digit (c : ascii) : bool := bool_decide (48 ≤ Ascii.N_of_ascii c ≤ 57)%N.
Definition digit_value (c : ascii) : Z := Z.of_N (Ascii.N_of_ascii c) - 48.

Definition dot : ascii := Ascii.ascii_of_N 46.

(** [strings.Cut] at the first occurrence of a byte: the text before it and,
    when it occurs, the text after it. *)
Fixpoint Cut (sep : ascii) (s : string) : string * option string :=
  match s with
  | EmptyString => ("", None)
  | String c s' =>
      if bool_decide (c = sep) then ("", Some s')
      else let '(before, after) := Cut sep s' in (String c before, after)
  end.

Fixpoint all_digits (s : string) : bool :=
  match s with
  | EmptyString => true
  | String c s' => is_digit c && all_digits s'
  end.

Definition nonempty_digits (s : string) : bool := bool_decide (s ≠ "") && all_digits s.

(** The regular expression [^[0-9]+(?:\.[0-9]+)?$], which the packages name
    [positiveDecimalPattern] or [decimalPattern]. *)
Definition positiveDecimalPattern (s : string) : bool :=
  match Cut dot s with
  | (whole, None) => nonempty_digits whole
  | (whole, Some fraction) => nonempty_digits whole && nonempty_digits fraction
  end.

(** The number a string of digits denotes in base 10. *)
Fixpoint digits_value (acc : Z) (s : string) : Z :=
  match s with
  | EmptyString => acc
  | String c s' => digits_value (10 * acc + digit_value c) s'
  end.

(** Trimming the cutset [0.] leaves the empty string: the test the code uses
    for a decimal text that denotes zero. *)
Definition decimalIsZero (value : string) : bool := bool_decide (Trim value "0." = "").

Lemma is_digit_value c : is_digit c = true → 0 ≤ digit_value c ≤ 9.
Proof. unfold is_digit, digit_value. rewrite bool_decide_eq_true. lia. Qed.

Lemma digits_value_app acc s t :
  digits_value acc (s +:+ t) = digits_value (digits_value acc s) t.
Proof. revert acc. induction s as [|c s IH]; intros acc; [done|]. apply IH. Qed.

Lemma digits_value_nonneg s : ∀ acc, 0 ≤ acc → all_digits s = true → 0 ≤ digits_value acc s.
Proof.
  induction s as [|c s IH]; intros acc Hacc; simpl; [done|].
  rewrite andb_true_iff. intros [Hc Hs]. apply is_digit_value in Hc. apply IH; [lia|done].
Qed.

Lemma digits_value_linear s : ∀ acc,
  digits_value acc s = acc * 10 ^ Z.of_nat (String.length s) + digits_value 0 s.
Proof.
  induction s as [|c s IH]; intros acc; simpl String.length; cbn [digits_value]; [lia|].
  rewrite IH, (IH (10 * 0 + _)). rewrite Nat2Z.inj_succ, Z.pow_succ_r by lia. lia.
Qed.

(** Every byte of [s] satisfies [f]. *)
Fixpoint string_forall (f : ascii → bool) (s : string) : bool :=
  match s with
  | EmptyString => true
  | String c s' => f c && string_forall f s'
  end.

Lemma drop_while_nil {A} (f : A → bool) l : drop_while f l = [] ↔ Forall (λ x, f x = true) l.
Proof.
  induction l as [|x l IH]; simpl; [by split|].
  rewrite Forall_cons. destruct (f x); naive_solver.
Qed.

Lemma drop_while_head {A} (f : A → bool) l x k : drop_while f l = x :: k → f x = false.
Proof. induction l as [|y l IH]; simpl; [done|]. destruct (f y) eqn:?; naive_solver. Qed.

Lemma string_forall_list f s :
  string_forall f s = true ↔ Forall (λ c, f c = true) (String.list_ascii_of_string s).
Proof.
  induction s as [|c s IH]; simpl; [by split|].
  rewrite andb_true_iff, IH. by rewrite Forall_cons.
Qed.

Lemma TrimFunc_empty f s : TrimFunc f s = "" ↔ string_forall f s = true.
Proof.
  rewrite string_forall_list. unfold TrimFunc.
  set (l := String.list_ascii_of_string s). split.
  - intros H. destruct (drop_while f l) as [|x k] eqn:Hl; [by apply drop_while_nil|].
    pose proof (drop_while_head _ _ _ _ Hl) as Hx.
    apply (f_equal String.list_ascii_of_string) in H.
    rewrite String.list_ascii_of_string_of_list_ascii in H.
    apply (f_equal reverse) in H. rewrite reverse_involutive in H.
    apply drop_while_nil in H. rewrite reverse_cons, Forall_app, Forall_singleton in H.
    naive_solver congruence.
  - intros H%drop_while_nil. by rewrite H.
Qed.

Lemma decimalIsZero_spec s :
  decimalIsZero s = string_forall (in_cutset "0.") s.
Proof.
  unfold decimalIsZero, Trim. apply Bool.eq_iff_eq_true.
  by rewrite bool_decide_eq_true, TrimFunc_empty.
Qed.

(** [strings.Split] at every occurrence of a byte. *)
Fixpoint Split (sep : ascii) (s : string) : list string :=
  match s with
  | EmptyString => [""]
  | String c s' =>
      if bool_decide (c = sep) then "" :: Split sep s'
      else match Split sep s' with
           | part :: parts => String c part :: parts
           | [] => [String c ""]
           end
  end.

(** [strings.ContainsFunc(s, unicode.IsControl)]: the control characters are
    the C0 set, DEL, and the C1 set, which UTF-8 writes as C2 followed by 80 to
    9F; C2 is never a continuation byte. *)
Fixpoint ContainsControl (s : string) : bool :=
  match s with
  | EmptyString => false
  | String c s' =>
      bool_decide (Ascii.N_of_ascii c < 32)%N || bool_decide (Ascii.N_of_ascii c = 127)%N ||
      match s' with
      | String c' _ => bool_decide (Ascii.N_of_ascii c = 194)%N &&
                       bool_decide (128 ≤ Ascii.N_of_ascii c' ≤ 159)%N
      | EmptyString => false
      end || ContainsControl s'
  end.

Definition is_upper (c : ascii) : bool := bool_decide (65 ≤ Ascii.N_of_ascii c ≤ 90)%N.

(** The regular expression [^[A-Z0-9]+$]. *)
Definition upperDigitsPattern (s : string) : bool :=
  bool_decide (s ≠ "") && string_forall (λ c, is_upper c || is_digit c) s.

(** [strings.ReplaceAll] of a byte by nothing. *)
Fixpoint RemoveAll (c : ascii) (s : string) : string :=
  match s with
  | EmptyString => ""
  | String c' s' => if bool_decide (c' = c) then RemoveAll c s' else String c' (RemoveAll c s')
  end.

(** [strings.ToLower] on ASCII letters, as [ToUpper]. *)
Definition lower_ascii (c : ascii) : ascii :=
  if is_upper c then Ascii.ascii_of_N (Ascii.N_of_ascii c + 32) else c.
Definition ToLower (s : string) : string := String.string_of_list_ascii (lower_ascii <$> String.list_ascii_of_string s).

(** [utf8.Valid]: no overlong forms, no surrogates, nothing above U+10FFFF. *)
Definition in_range (low high : N) (c : ascii) : bool := bool_decide (low ≤ Ascii.N_of_ascii c ≤ high)%N.
Definition continuation : ascii → bool := in_range 128 191.

Fixpoint utf8_list (l : list ascii) : bool :=
  match l with
  | [] => true
  | a :: l =>
      if in_range 0 127 a then utf8_list l
      else if in_range 194 223 a then
        match l with b :: l => continuation b && utf8_list l | _ => false end
      else if in_range 224 239 a then
        match l with
        | b :: c :: l =>
            (if in_range 224 224 a then in_range 160 191 b
             else if in_range 237 237 a then in_range 128 159 b else continuation b) &&
            continuation c && utf8_list l
        | _ => false
        end
      else if in_range 240 244 a then
        match l with
        | b :: c :: d :: l =>
            (if in_range 240 240 a then in_range 144 191 b
             else if in_range 244 244 a then in_range 128 143 b else continuation b) &&
            continuation c && continuation d && utf8_list l
        | _ => false
        end
      else false
  end.

Definition utf8_Valid (s : string) : bool := utf8_list (String.list_ascii_of_string s).

(** The bytes after the first [n], as [s[n:]]. *)
Fixpoint drop_bytes (n : nat) (s : string) : string :=
  match n, s with
  | O, _ | _, EmptyString => s
  | S n, String _ s => drop_bytes n s
  end.

Lemma drop_bytes_append s t : drop_bytes (String.length s) (s +:+ t) = t.
Proof. induction s as [|c s IH]; [by destruct t|done]. Qed.

Lemma length_drop_bytes n s : String.length (drop_bytes n s) = (String.length s - n)%nat.
Proof. revert s. induction n as [|n IH]; intros [|c s]; simpl; [done..|apply IH]. Qed.

(** The order of [sort.Strings]. *)
Definition string_le (s t : string) : Prop := String.leb s t = true.
#[export] Instance string_le_dec : RelDecision string_le.
Proof. intros s t. unfold string_le. apply _. Defined.
