(* ===== verification/Decimals.v ===== *)
(** * Exact decimals: the uses of [math/big]

    A [big.Rat] is kept reduced by the library, so it is a [Q] in lowest
    terms.  [Rat_SetString] is [new(big.Rat).SetString] on the texts its
    callers have checked against their decimal pattern, [RatString] is
    [big.Rat.RatString], and comparison is [Qcompare]. *)

From S2P Require Import Prelude GoStrings.

(** [new(big.Rat).SetString(value)] for a text of the form
    [digits[.digits]]: the digits read in base 10, scaled by the length of the
    fraction, reduced.  Every caller tests the pattern first. *)
Definition Rat_SetString (value : string) : option Q :=
  if positiveDecimalPattern value then
    match Cut dot value with
    | (whole, None) => Some (Qred (digits_value 0 whole # 1))
    | (whole, Some fraction) =>
        Some (Qred (digits_value 0 (whole +:+ fraction)
                    # Z.to_pos (10 ^ Z.of_nat (String.length fraction))))
    end
  else None.

(** [big.Rat.Sign]. *)
Definition Rat_Sign (q : Q) : Z := Z.sgn (Qnum q).

(** [big.Rat.RatString]: numerator, slash, denominator; the numerator alone when the denominator is one. *)
Definition RatString (q : Q) : string :=
  if bool_decide (Qden q = 1%positive) then pretty (Qnum q)
  else pretty (Qnum q) +:+ "/" +:+ pretty (Qden q).

(** ** Comparison *)

#[export] Instance Qle_decision : RelDecision Qle.
Proof.
  refine (λ x y, match decide (Qle_bool x y = true) with
                 | left H => left _ | right H => right _ end).
  - by apply Qle_bool_iff.
  - by rewrite <-Qle_bool_iff.
Defined.

#[export] Instance Qlt_decision : RelDecision Qlt.
Proof.
  refine (λ x y, match decide (Qle_bool y x = true) with
                 | left H => right _ | right H => left _ end).
  - apply Qle_not_lt. by apply Qle_bool_iff.
  - apply Qnot_le_lt. by rewrite <-Qle_bool_iff.
Defined.

#[export] Instance Q_eq_decision : EqDecision Q.
Proof. solve_decision. Defined.

#[export] Instance Qle_transitive : Transitive Qle := Qle_trans.
#[export] Instance Qle_reflexive : Reflexive Qle := Qle_refl.
#[export] Instance Qle_total : Total Qle.
Proof. intros x y. destruct (Qlt_le_dec x y); [left; by apply Qlt_le_weak|by right]. Qed.

(** Reduced rationals that are numerically equal are equal. *)
Definition reduced (q : Q) : Prop := Qred q = q.

Lemma reduced_Qred q : reduced (Qred q).
Proof. apply Qred_complete, Qred_correct. Qed.

Lemma reduced_eq p q : reduced p → reduced q → (p == q)%Q → p = q.
Proof. unfold reduced. intros <- <- H. apply Qred_complete. by rewrite !Qred_correct in H. Qed.

Lemma reduced_le_ne p q : reduced p → reduced q → (p <= q)%Q → p ≠ q → (p < q)%Q.
Proof.
  intros Hp Hq Hle Hne. apply Qle_lteq in Hle as [?|Heq]; [done|].
  destruct Hne. by apply reduced_eq.
Qed.

(** ** Printed numbers contain no slash, so [RatString] is injective *)

Definition slash : ascii := Ascii.ascii_of_N 47.
Definition not_char (sep c : ascii) : bool := negb (bool_decide (c = sep)).

Lemma string_forall_append f s t :
  string_forall f (s +:+ t) = string_forall f s && string_forall f t.
Proof. induction s as [|c s IH]; simpl; [done|]. by rewrite IH, andb_assoc. Qed.

Lemma pretty_N_go_forall (f : ascii → bool) x : ∀ s,
  (∀ n, f (pretty_N_char n) = true) →
  string_forall f s = true → string_forall f (pretty_N_go x s) = true.
Proof.
  induction (N.lt_wf_0 x) as [x _ IH]; intros s Hf Hs.
  destruct (decide (x = 0%N)) as [->|Hx]; [by rewrite pretty_N_go_0|].
  rewrite pretty_N_go_step by lia. apply IH; [apply N.div_lt; lia|done|].
  simpl. by rewrite Hf, Hs.
Qed.

Lemma pretty_N_forall (f : ascii → bool) (x : N) :
  (∀ n, f (pretty_N_char n) = true) → string_forall f (pretty x) = true.
Proof.
  intros Hf. unfold pretty, pretty_N. case_decide; simpl.
  - specialize (Hf 0%N). simpl in Hf. by rewrite Hf.
  - by apply pretty_N_go_forall.
Qed.

(** The characters of a printed number: digits and the minus sign. *)
Definition is_number_char (c : ascii) : bool :=
  is_digit c || bool_decide (c = Ascii.ascii_of_N 45).

Lemma pretty_Z_forall (f : ascii → bool) (z : Z) :
  (∀ n, f (pretty_N_char n) = true) → f (Ascii.ascii_of_N 45) = true →
  string_forall f (pretty z) = true.
Proof.
  intros Hf Hd. destruct z as [|p|p]; [|by apply pretty_N_forall|].
  { specialize (Hf 0%N). simpl in Hf. simpl. by rewrite Hf. }
  unfold pretty, pretty_Z. rewrite string_forall_append.
  apply andb_true_iff; split; [|by apply pretty_N_forall].
  change (f (Ascii.ascii_of_N 45) && true = true). by rewrite Hd.
Qed.

Lemma pretty_Z_not_char (sep : ascii) (z : Z) :
  is_number_char sep = false → string_forall (not_char sep) (pretty z) = true.
Proof.
  intros Hsep. apply pretty_Z_forall.
  - intros n. unfold not_char. apply negb_true_iff, bool_decide_eq_false. intros <-.
    revert Hsep. unfold pretty_N_char. by repeat case_match.
  - unfold not_char. apply negb_true_iff, bool_decide_eq_false. by intros <-.
Qed.

Lemma Cut_none sep s : string_forall (not_char sep) s = true → Cut sep s = (s, None).
Proof.
  induction s as [|c s IH]; simpl; [done|].
  unfold not_char at 1. case_bool_decide; [done|]. simpl. intros ?. by rewrite IH.
Qed.

Lemma Cut_some sep s t :
  string_forall (not_char sep) s = true → Cut sep (s +:+ String sep t) = (s, Some t).
Proof.
  induction s as [|c s IH]; simpl; intros H; [by rewrite bool_decide_eq_true_2|].
  unfold not_char at 1 in H. case_bool_decide; [done|]. simpl in H. by rewrite IH.
Qed.

#[export] Instance RatString_inj : Inj (=) (=) RatString.
Proof.
  intros [n1 d1] [n2 d2]. unfold RatString; cbn [Qnum Qden].
  pose proof (Cut_none slash _ (pretty_Z_not_char slash n1 eq_refl)) as N1.
  pose proof (Cut_none slash _ (pretty_Z_not_char slash n2 eq_refl)) as N2.
  pose proof (λ t, Cut_some slash _ t (pretty_Z_not_char slash n1 eq_refl)) as S1.
  pose proof (λ t, Cut_some slash _ t (pretty_Z_not_char slash n2 eq_refl)) as S2.
  repeat case_bool_decide; subst; intros Heq.
  - apply (inj pretty) in Heq. congruence.
  - apply (f_equal (Cut slash)) in Heq. rewrite N1 in Heq.
    change ("/" +:+ ?x) with (String slash x) in Heq. by rewrite S2 in Heq.
  - apply (f_equal (Cut slash)) in Heq. rewrite N2 in Heq.
    change ("/" +:+ ?x) with (String slash x) in Heq. by rewrite S1 in Heq.
  - apply (f_equal (Cut slash)) in Heq.
    change ("/" +:+ ?x) with (String slash x) in Heq.
    rewrite S1, S2 in Heq. simplify_eq.
    by repeat match goal with H : pretty _ = pretty _ |- _ => apply (inj pretty) in H; subst end.
Qed.

(** ** Parsed decimals *)

Lemma Rat_SetString_is_Some value :
  positiveDecimalPattern value = true ↔ is_Some (Rat_SetString value).
Proof.
  unfold Rat_SetString. destruct (positiveDecimalPattern value).
  - destruct (Cut dot value) as [? []]; naive_solver.
  - split; [done|by intros [? ?]].
Qed.

Lemma Rat_SetString_reduced value q : Rat_SetString value = Some q → reduced q.
Proof.
  unfold Rat_SetString. intros. repeat case_match; simplify_eq; apply reduced_Qred.
Qed.

Lemma Qred_sign n d : Z.sgn (Qnum (Qred (n # d))) = Z.sgn n.
Proof.
  pose proof (Qred_correct (n # d)) as H. unfold Qeq in H. cbn [Qnum Qden] in H.
  destruct (Qred (n # d)) as [n' d']; cbn [Qnum Qden] in *.
  apply (f_equal Z.sgn) in H. rewrite !Z.sgn_mul in H. simpl in H. lia.
Qed.

Lemma nonempty_digits_all s : nonempty_digits s = true → all_digits s = true.
Proof. unfold nonempty_digits. rewrite andb_true_iff. naive_solver. Qed.

Lemma all_digits_append s t : all_digits (s +:+ t) = all_digits s && all_digits t.
Proof. induction s as [|c s IH]; simpl; [done|]. by rewrite IH, andb_assoc. Qed.

Lemma digit_zero c : is_digit c = true → (in_cutset "0." c = true ↔ digit_value c = 0).
Proof. destruct c as [[] [] [] [] [] [] [] []]; vm_compute; naive_solver. Qed.

Lemma digits_value_zero s : ∀ acc, 0 ≤ acc → all_digits s = true →
  (digits_value acc s = 0 ↔ acc = 0 ∧ string_forall (in_cutset "0.") s = true).
Proof.
  induction s as [|c s IH]; intros acc Hacc; simpl; [naive_solver|].
  rewrite !andb_true_iff. intros [Hc Hs].
  pose proof (digit_zero c Hc). pose proof (is_digit_value c Hc).
  rewrite IH by (done || lia). split.
  - intros [? ?]. split_and!; [lia| |done]. apply H. lia.
  - intros (-> & Hz & ?). apply H in Hz. split; [lia|done].
Qed.

Lemma Cut_dot_forall s whole after :
  Cut dot s = (whole, after) →
  string_forall (in_cutset "0.") s =
    string_forall (in_cutset "0.") (whole +:+ default "" after).
Proof.
  revert whole after. induction s as [|c s IH]; intros whole after; simpl.
  { naive_solver. }
  case_bool_decide as Hc; [subst; by intros [= <- <-]|].
  destruct (Cut dot s) as [w a]. intros [= <- <-]. simpl. by rewrite (IH w a).
Qed.

(** The value of a decimal text is nonnegative, and it is zero exactly when
    trimming zeros and points leaves nothing, the test the code uses. *)
Lemma Rat_SetString_Sign value q :
  Rat_SetString value = Some q →
  Rat_Sign q = if decimalIsZero value then 0 else 1.
Proof.
  unfold Rat_SetString, positiveDecimalPattern. rewrite decimalIsZero_spec.
  destruct (Cut dot value) as [w a] eqn:Hcut. rewrite (Cut_dot_forall _ _ _ Hcut).
  unfold Rat_Sign. destruct a as [f|]; simpl default; intros H.
  - destruct (nonempty_digits w && nonempty_digits f) eqn:Hd; [|done].
    apply andb_true_iff in Hd as [Hw%nonempty_digits_all Hf%nonempty_digits_all].
    injection H as <-. rewrite Qred_sign.
    assert (all_digits (w +:+ f) = true) as Hwf by (by rewrite all_digits_append, Hw, Hf).
    pose proof (digits_value_nonneg _ 0 ltac:(lia) Hwf).
    pose proof (digits_value_zero _ 0 ltac:(lia) Hwf).
    destruct (string_forall _ _); [|destruct (decide (digits_value 0 (w +:+ f) = 0))];
      naive_solver lia.
  - destruct (nonempty_digits w) eqn:Hw; [|done]. apply nonempty_digits_all in Hw.
    injection H as <-. rewrite Qred_sign.
    assert (all_digits (w +:+ "") = true) as Hw' by (by rewrite all_digits_append, Hw).
    assert (digits_value 0 (w +:+ "") = digits_value 0 w) as Heq by (by rewrite digits_value_app).
    rewrite <-Heq.
    pose proof (digits_value_nonneg _ 0 ltac:(lia) Hw').
    pose proof (digits_value_zero _ 0 ltac:(lia) Hw').
    destruct (string_forall _ _); [|destruct (decide (digits_value 0 (w +:+ "") = 0))];
      naive_solver lia.
Qed.

(** ** Printed naturals read back *)

Lemma all_digits_forall s : all_digits s = string_forall is_digit s.
Proof. induction s as [|c s IH]; simpl; [done|]. by rewrite IH. Qed.

Lemma pretty_N_char_digit n : is_digit (pretty_N_char n) = true.
Proof. unfold pretty_N_char. by repeat case_match. Qed.

Lemma digit_value_pretty_char n : (n < 10)%N → digit_value (pretty_N_char n) = Z.of_N n.
Proof.
  intros Hn. assert (n = 0 ∨ n = 1 ∨ n = 2 ∨ n = 3 ∨ n = 4 ∨ n = 5 ∨ n = 6 ∨ n = 7 ∨ n = 8 ∨ n = 9)%N
    as Hc by lia.
  by repeat destruct Hc as [->|Hc]; [..|subst].
Qed.

Lemma digits_value_pretty_go x : ∀ s, digits_value 0 (pretty_N_go x s) = digits_value (Z.of_N x) s.
Proof.
  induction (N.lt_wf_0 x) as [x _ IH]. intros s.
  destruct (decide (x = 0%N)) as [->|Hx]; [by rewrite pretty_N_go_0|].
  rewrite pretty_N_go_step by lia. rewrite IH by (apply N.div_lt; lia). cbn [digits_value].
  rewrite digit_value_pretty_char by (apply N.mod_lt; lia). f_equal.
  pose proof (N.div_mod x 10 ltac:(lia)). lia.
Qed.

Lemma pretty_Zpos p : pretty (Z.pos p) = pretty_N_go (N.pos p) "".
Proof. done. Qed.

Lemma digits_value_pretty z : 0 ≤ z → digits_value 0 (pretty z) = z.
Proof.
  intros Hz. destruct z as [|p|p]; [done| |lia].
  by rewrite pretty_Zpos, digits_value_pretty_go.
Qed.

Lemma all_digits_pretty z : 0 ≤ z → all_digits (pretty z) = true.
Proof.
  intros Hz. rewrite all_digits_forall. destruct z as [|p|p]; [done| |lia].
  apply pretty_N_forall. apply pretty_N_char_digit.
Qed.

Lemma all_digits_not_dot s : all_digits s = true → string_forall (not_char dot) s = true.
Proof.
  induction s as [|c s IH]; simpl; [done|]. rewrite !andb_true_iff. intros [Hc Hs].
  split; [|by apply IH]. unfold not_char. apply negb_true_iff, bool_decide_eq_false. by intros ->.
Qed.

Lemma pretty_Z_nonempty (z : Z) : pretty z ≠ "".
Proof.
  intros H. assert (Inj (=) (=) (pretty : Z → string)) as Hinj by apply _.
  destruct z as [|p|p]; [done| |].
  - rewrite pretty_Zpos in H.
    apply (f_equal (digits_value 0)) in H. rewrite digits_value_pretty_go in H. simpl in H. lia.
  - unfold pretty, pretty_Z in H. done.
Qed.

(** ** Substrings *)

Lemma string_length_append s t : String.length (s +:+ t) = (String.length s + String.length t)%nat.
Proof. induction s as [|c s IH]; simpl; [done|]. by rewrite IH. Qed.

Lemma substring_all s : String.substring 0 (String.length s) s = s.
Proof. induction s as [|c s IH]; simpl; [done|]. by rewrite IH. Qed.

(** A prefix and the rest. *)
Lemma substring_split n s :
  (n ≤ String.length s)%nat →
  String.substring 0 n s +:+ String.substring n (String.length s - n) s = s ∧
  String.length (String.substring 0 n s) = n ∧
  String.length (String.substring n (String.length s - n) s) = (String.length s - n)%nat.
Proof.
  revert n. induction s as [|c s IH]; intros n Hn; simpl in Hn.
  { assert (n = 0%nat) as -> by lia. done. }
  destruct n as [|n]; simpl.
  - rewrite substring_all. done.
  - destruct (IH n ltac:(lia)) as (H1 & H2 & H3).
    split_and!; [|by f_equal|done]. exact (f_equal (String c) H1).
Qed.
