(* ===== verification/GoStrconv.v ===== *)
(** * Package [strconv] in base 10 and 64 bits

    [ParseUint] and [ParseInt] with base 10 and bit size 64; [None] is their
    error.  [FormatUint] and [FormatInt] are [pretty]. *)

From S2P Require Import Prelude GoStrings Decimals.

(** [strconv.ParseUint(s, 10, 64)]: digits only, in range. *)
Definition ParseUint (s : string) : option Z :=
  if nonempty_digits s then
    let v := digits_value 0 s in
    if bool_decide (v ≤ MaxUint64) then Some v else None
  else None.

(** A magnitude with its sign, in range. *)
Definition signed (neg : bool) (magnitude : option Z) : option Z :=
  v ← magnitude;
  if neg then if bool_decide (v ≤ 2 ^ 63) then Some (- v) else None
  else if bool_decide (v < 2 ^ 63) then Some v else None.

(** [strconv.ParseInt(s, 10, 64)]: a sign, then [ParseUint] within the range. *)
Definition ParseInt (s : string) : option Z :=
  match s with
  | String c rest =>
      if bool_decide (c = Ascii.ascii_of_N 45) then signed true (ParseUint rest)
      else if bool_decide (c = Ascii.ascii_of_N 43) then signed false (ParseUint rest)
      else signed false (ParseUint s)
  | EmptyString => None
  end.

Lemma ParseUint_range s v : ParseUint s = Some v → is_uint64 v.
Proof.
  unfold ParseUint, nonempty_digits. destruct (_ && _) eqn:Hd; [|done]. apply andb_true_iff in Hd as [_ Hd].
  case_bool_decide; [|done]. intros [= <-].
  split; [by apply digits_value_nonneg|done].
Qed.

Lemma signed_range neg s v : signed neg (ParseUint s) = Some v → is_int64 v.
Proof.
  unfold signed. destruct (ParseUint s) as [u|] eqn:Hu; [|done]. apply ParseUint_range in Hu.
  unfold is_uint64, is_int64, MinInt64, MaxInt64, MaxUint64 in *. simpl.
  destruct neg; case_bool_decide; intros [= <-]; lia.
Qed.

Lemma ParseInt_range s v : ParseInt s = Some v → is_int64 v.
Proof.
  destruct s as [|c s]; [done|]. unfold ParseInt.
  case_bool_decide; [apply signed_range|]. case_bool_decide; apply signed_range.
Qed.
