(* ===== verification/Errors.v ===== *)
(** * Errors of the SDK: [errors.go] and the error values of every package

    Go errors form trees: an error is a sentinel variable, a formatted message,
    a message wrapping another error ([%w]) or one of the SDK's error structs.
    [Is] is [errors.Is] against a sentinel and [As] is [errors.As] against a
    struct type.  A message is kept up to the operands of its verbs: the text
    of [Errorf] and [Wrapf] is the format string. *)

From S2P Require Import Prelude GoStrings.

(** The sentinel variables the packages export or keep, and the two errors of
    package [context]. *)
Inductive sentinel : Type :=
  | ErrAuthentication | ErrAuthorization | ErrValidation | ErrInsufficientBalance
  | ErrOrderNotFound | ErrRateLimited | ErrNetwork | ErrTimeout
  | ErrUnknownExecutionState | ErrExchangeUnavailable | ErrUnsupportedCapability
  | ErrInternal
  | ErrMissingEgressRoute | ErrInvalidRequestOption
  | ErrInvalidEgressRoute | ErrUnknownEgressRoute | ErrLocalAddressUnavailable
  | ErrRegistryClosed | ErrPublicIPMismatch
  | ErrInvalidDescriptor | ErrEgressRouteNotAllowed | ErrPermissionNotAllowed
  | ErrInvalidRule | ErrUnknownRule
  | ErrNotConnected | ErrSessionClosed | ErrSessionAlreadyRun | errReconnectRequested
  | ErrDepthBufferOverflow
  | ErrTradeSmokeFailed
  | ContextCanceled | ContextDeadlineExceeded.

#[export] Instance sentinel_eq_dec : EqDecision sentinel.
Proof. solve_decision. Defined.

(** [ErrorCategory] is a Go string type with these constants. *)
Definition ErrorAuthentication : string := "AUTHENTICATION".
Definition ErrorAuthorization : string := "AUTHORIZATION".
Definition ErrorValidation : string := "VALIDATION".
Definition ErrorInsufficientBalance : string := "INSUFFICIENT_BALANCE".
Definition ErrorOrderNotFound : string := "ORDER_NOT_FOUND".
Definition ErrorRateLimited : string := "RATE_LIMITED".
Definition ErrorNetwork : string := "NETWORK".
Definition ErrorTimeout : string := "TIMEOUT".
Definition ErrorUnknownExecutionState : string := "UNKNOWN_EXECUTION_STATE".
Definition ErrorExchangeUnavailable : string := "EXCHANGE_UNAVAILABLE".
Definition ErrorUnsupportedCapability : string := "UNSUPPORTED_CAPABILITY".
Definition ErrorInternal : string := "INTERNAL".

(** The fields of [APIError], over the type of the errors it may wrap. *)
Record APIErrorOf (E : Type) : Type := MkAPIError {
  Category : string;
  Exchange : string;
  AccountID : string;
  RequestID : string;
  Retryable : bool;
  HTTPStatus : Z;
  ExchangeCode : string;
  ExchangeMessage : string;
  Cause : option E
}.
Arguments MkAPIError {E} _ _ _ _ _ _ _ _ _.
Arguments Category {E} _.
Arguments Exchange {E} _.
Arguments AccountID {E} _.
Arguments RequestID {E} _.
Arguments Retryable {E} _.
Arguments HTTPStatus {E} _.
Arguments ExchangeCode {E} _.
Arguments ExchangeMessage {E} _.
Arguments Cause {E} _.

Inductive error : Type :=
  | Sentinel (s : sentinel)
  | Errorf (message : string)
  | Wrapf (message : string) (wrapped : error)
  | API (apiError : APIErrorOf error)
  | RequestError (routeID : string) (cause : error)
  | UrlError (url : string) (cause : error)
  | HandshakeError (status : Z) (retryAfter requestID : string) (cause : option error)
  | permanentError (cause : error)
  | reconnectMessageError (cause : error)
  | evidenceError (reason : string).

Abbreviation APIError := (APIErrorOf error).

(** [&trade.APIError{Category, Exchange, AccountID, Retryable, Cause}]. *)
Definition newAPIError (category exchange account : string) (retryable : bool)
    (cause : error) : APIError :=
  MkAPIError category exchange account "" retryable 0 "" "" (Some cause).

(** [sentinelForCategory]. *)
Definition sentinelForCategory (category : string) : option sentinel :=
  if bool_decide (category = ErrorAuthentication) then Some ErrAuthentication
  else if bool_decide (category = ErrorAuthorization) then Some ErrAuthorization
  else if bool_decide (category = ErrorValidation) then Some ErrValidation
  else if bool_decide (category = ErrorInsufficientBalance) then Some ErrInsufficientBalance
  else if bool_decide (category = ErrorOrderNotFound) then Some ErrOrderNotFound
  else if bool_decide (category = ErrorRateLimited) then Some ErrRateLimited
  else if bool_decide (category = ErrorNetwork) then Some ErrNetwork
  else if bool_decide (category = ErrorTimeout) then Some ErrTimeout
  else if bool_decide (category = ErrorUnknownExecutionState) then Some ErrUnknownExecutionState
  else if bool_decide (category = ErrorExchangeUnavailable) then Some ErrExchangeUnavailable
  else if bool_decide (category = ErrorUnsupportedCapability) then Some ErrUnsupportedCapability
  else if bool_decide (category = ErrorInternal) then Some ErrInternal
  else None.

(** [APIError.safeToRenderCause]. *)
Definition safeToRenderCause (apiError : APIError) : bool :=
  bool_decide (Category apiError = ErrorValidation) ||
  bool_decide (Category apiError = ErrorUnsupportedCapability).

(** [APIError.Error], given the text of the cause it may render; [None] is
    the nil receiver. *)
Definition APIError_Error_with (causeText : option string) (apiError : APIError) : string :=
  let message := Exchange apiError +:+ " request failed" in
  let message :=
    if bool_decide (ExchangeCode apiError ≠ "")
    then message +:+ " with code " +:+ ExchangeCode apiError else message in
  let message :=
    if bool_decide (ExchangeMessage apiError ≠ "")
    then message +:+ ": " +:+ ExchangeMessage apiError else message in
  match bool_decide (ExchangeMessage apiError = ""), causeText, safeToRenderCause apiError with
  | true, Some text, true => message +:+ ": " +:+ text
  | true, _, _ =>
      if bool_decide (Category apiError ≠ "")
      then message +:+ ": " +:+ Category apiError else message
  | false, _, _ => message
  end.

(** The text of a sentinel, as its [errors.New] gives it. *)
Definition sentinel_text (s : sentinel) : string :=
  match s with
  | ErrAuthentication => "authentication failed"
  | ErrAuthorization => "authorization failed"
  | ErrValidation => "validation failed"
  | ErrInsufficientBalance => "insufficient balance"
  | ErrOrderNotFound => "order not found"
  | ErrRateLimited => "rate limited"
  | ErrNetwork => "network error"
  | ErrTimeout => "request timeout"
  | ErrUnknownExecutionState => "execution state is unknown"
  | ErrExchangeUnavailable => "exchange unavailable"
  | ErrUnsupportedCapability => "unsupported capability"
  | ErrInternal => "internal error"
  | ErrMissingEgressRoute => "missing egress route"
  | ErrInvalidRequestOption => "invalid request option"
  | ErrInvalidEgressRoute => "invalid egress route"
  | ErrUnknownEgressRoute => "unknown egress route"
  | ErrLocalAddressUnavailable => "local address unavailable"
  | ErrRegistryClosed => "egress registry closed"
  | ErrPublicIPMismatch => "observed public IP does not match expected public IP"
  | ErrInvalidDescriptor => "invalid credential descriptor"
  | ErrEgressRouteNotAllowed => "egress route is not allowed for credentials"
  | ErrPermissionNotAllowed => "permission is not allowed for credentials"
  | ErrInvalidRule => "invalid rate limit rule"
  | ErrUnknownRule => "unknown rate limit rule"
  | ErrNotConnected => "stream is not connected"
  | ErrSessionClosed => "stream session is closed"
  | ErrSessionAlreadyRun => "stream session has already run"
  | errReconnectRequested => "stream reconnect requested"
  | ErrDepthBufferOverflow => "depth event buffer overflow"
  | ErrTradeSmokeFailed => "trade smoke failed"
  | ContextCanceled => "context canceled"
  | ContextDeadlineExceeded => "context deadline exceeded"
  end.

(** [error.Error()]. *)
Fixpoint error_text (e : error) : string :=
  match e with
  | Sentinel s => sentinel_text s
  | Errorf message => message
  | Wrapf message _ => message
  | API apiError =>
      APIError_Error_with
        match Cause apiError with Some c => Some (error_text c) | None => None end apiError
  | RequestError routeID _ => "send request through route %q failed"
  | UrlError url cause => url +:+ ": " +:+ error_text cause
  | HandshakeError status _ _ _ =>
      if bool_decide (status = 0) then "WebSocket handshake failed"
      else "WebSocket handshake failed with HTTP status " +:+ pretty status
  | permanentError cause => error_text cause
  | reconnectMessageError cause => error_text cause
  | evidenceError reason => reason
  end.

(** [APIError.Error]; [None] is the nil pointer. *)
Definition APIError_Error (apiError : option APIError) : string :=
  match apiError with
  | None => "<nil>"
  | Some apiError => error_text (API apiError)
  end.

(** [APIError.Unwrap]. *)
Definition APIError_Unwrap (apiError : option APIError) : list error :=
  match apiError with
  | None => []
  | Some apiError =>
      match sentinelForCategory (Category apiError) with
      | Some categoryError => [Sentinel categoryError]
      | None => []
      end ++
      match Cause apiError with Some cause => [cause] | None => [] end
  end.

(** The direct successors [errors.Is] and [errors.As] follow. *)
Definition Unwrap (e : error) : list error :=
  match e with
  | Sentinel _ | Errorf _ | evidenceError _ => []
  | Wrapf _ wrapped => [wrapped]
  | API apiError => APIError_Unwrap (Some apiError)
  | RequestError _ cause | UrlError _ cause => [cause]
  | HandshakeError _ _ _ cause => match cause with Some cause => [cause] | None => [] end
  | permanentError cause | reconnectMessageError cause => [cause]
  end.

(** [errors.Is(e, target)] for a sentinel [target]. *)
Fixpoint Is (e : error) (target : sentinel) : bool :=
  match e with
  | Sentinel s => bool_decide (s = target)
  | Errorf _ | evidenceError _ => false
  | Wrapf _ wrapped => Is wrapped target
  | API apiError =>
      bool_decide (sentinelForCategory (Category apiError) = Some target) ||
      match Cause apiError with Some cause => Is cause target | None => false end
  | RequestError _ cause | UrlError _ cause => Is cause target
  | HandshakeError _ _ _ cause =>
      match cause with Some cause => Is cause target | None => false end
  | permanentError cause | reconnectMessageError cause => Is cause target
  end.

(** [errors.As]: the first error of the tree, in preorder, that [select]
    accepts. *)
Fixpoint As {T} (select : error → option T) (e : error) : option T :=
  match select e with
  | Some t => Some t
  | None =>
      match e with
      | Sentinel _ | Errorf _ | evidenceError _ => None
      | Wrapf _ wrapped => As select wrapped
      | API apiError =>
          match sentinelForCategory (Category apiError) ≫= select ∘ Sentinel with
          | Some t => Some t
          | None => match Cause apiError with Some cause => As select cause | None => None end
          end
      | RequestError _ cause | UrlError _ cause => As select cause
      | HandshakeError _ _ _ cause =>
          match cause with Some cause => As select cause | None => None end
      | permanentError cause | reconnectMessageError cause => As select cause
      end
  end.

Definition AsAPIError : error → option APIError :=
  As (λ e, match e with API apiError => Some apiError | _ => None end).

(** ** Properties *)

(** [errors.Is] as the standard library describes it: the error itself, or one
    of its successors. *)
Lemma Is_Unwrap e target :
  Is e target =
    match e with Sentinel s => bool_decide (s = target) | _ => false end ||
    existsb (λ e', Is e' target) (Unwrap e).
Proof.
  destruct e as [s| |m e|a| | |? ? ? [c|]| | |]; simpl; rewrite ?orb_false_r; try done.
  rewrite existsb_app. f_equal.
  - destruct (sentinelForCategory (Category a)) as [s|]; simpl; [|done].
    rewrite orb_false_r. apply bool_decide_ext; naive_solver.
  - destruct (Cause a); simpl; [by rewrite orb_false_r|done].
Qed.

(** The errors whose category the SDK assigns match the sentinel of that
    category and everything their cause matches. *)
Lemma Is_newAPIError category exchange account retryable cause target :
  Is (API (newAPIError category exchange account retryable cause)) target =
    bool_decide (sentinelForCategory category = Some target) || Is cause target.
Proof. done. Qed.

(** The text of an [APIError] whose category is neither validation nor
    unsupported capability does not depend on its cause: causes from credential
    providers or the HTTP stack never reach a log line through [Error]. *)
Theorem APIError_Error_hides_cause (a : APIError) (c1 c2 : option error) :
  safeToRenderCause a = false →
  let with_cause c :=
    MkAPIError (Category a) (Exchange a) (AccountID a) (RequestID a) (Retryable a)
      (HTTPStatus a) (ExchangeCode a) (ExchangeMessage a) c in
  APIError_Error (Some (with_cause c1)) = APIError_Error (Some (with_cause c2)).
Proof.
  intros Ha. cbv zeta. unfold APIError_Error, error_text; fold error_text.
  unfold APIError_Error_with, safeToRenderCause in *; cbn [Category Cause Exchange
    ExchangeCode ExchangeMessage] in *.
  rewrite Ha. by destruct (bool_decide (ExchangeMessage a = "")), c1, c2.
Qed.

Lemma APIError_Error_hides_cause_witness :
  APIError_Error (Some (newAPIError ErrorNetwork "binance" "main" true
    (UrlError "https://example.test?signature=must-not-leak" (Errorf "EOF")))) =
  "binance request failed: NETWORK".
Proof.
  etrans; [|vm_compute; reflexivity].
  apply (APIError_Error_hides_cause (newAPIError ErrorNetwork "binance" "main" true (Errorf ""))
    (Some (UrlError "https://example.test?signature=must-not-leak" (Errorf "EOF"))) None).
  vm_compute; reflexivity.
Defined.
