(* ===== verification/Options.v ===== *)
(** * Request options: [options.go]

    A [RequestOption] is a function that edits the options or fails; the nil
    function is [None].  [ResolveRequestOptions] folds them over the client's
    default route. *)

From S2P Require Import Prelude GoStrings Errors.

(** [transport.EgressRouteID] is a Go string type. *)
Record RequestOptions : Type := MkRequestOptions {
  EgressRouteID : string;
  Timeout : Z
}.

Abbreviation RequestOption := (RequestOptions → result error RequestOptions).

Definition invalidOption (message : string) : error :=
  Wrapf message (Sentinel ErrInvalidRequestOption).

(** [WithEgressRoute]. *)
Definition WithEgressRoute (routeID : string) : RequestOption := λ options,
  let cleanRouteID := TrimSpace routeID in
  if bool_decide (cleanRouteID = "") then Err (invalidOption "%w: egress route ID is empty")
  else Ok (MkRequestOptions cleanRouteID (Timeout options)).

(** [WithTimeout]. *)
Definition WithTimeout (timeout : Z) : RequestOption := λ options,
  if bool_decide (timeout ≤ 0) then Err (invalidOption "%w: timeout must be positive")
  else Ok (MkRequestOptions (EgressRouteID options) timeout).

(** The body of the loop of [ResolveRequestOptions]. *)
Definition applyOption (resolved : RequestOptions) (apply : option RequestOption)
    : result error RequestOptions :=
  match apply with
  | None => Err (invalidOption "%w: option %d is nil")
  | Some apply => apply resolved
  end.

Arguments applyOption : simpl never.

(** [ResolveRequestOptions]. *)
Definition ResolveRequestOptions (defaultRouteID : string)
    (requestOptions : list (option RequestOption)) : result error RequestOptions :=
  resolved ← fold_result applyOption (MkRequestOptions (TrimSpace defaultRouteID) 0) requestOptions;
  if bool_decide (TrimSpace (EgressRouteID resolved) = "")
  then Err (Sentinel ErrMissingEgressRoute)
  else Ok resolved.

(** The options a caller can build with the package's constructors. *)
Inductive option_spec : Type := SpecRoute (routeID : string) | SpecTimeout (timeout : Z).

Definition build (spec : option_spec) : option RequestOption :=
  match spec with
  | SpecRoute routeID => Some (WithEgressRoute routeID)
  | SpecTimeout timeout => Some (WithTimeout timeout)
  end.

Definition route_of (spec : option_spec) : option string :=
  match spec with SpecRoute routeID => Some (TrimSpace routeID) | _ => None end.
Definition timeout_of (spec : option_spec) : option Z :=
  match spec with SpecTimeout timeout => Some timeout | _ => None end.

(** What a list of options asks for: its last route and its last timeout. *)
Definition last_of {A} (f : option_spec → option A) (d : A) (specs : list option_spec) : A :=
  default d (last (omap f specs)).

Lemma last_of_snoc {A} (f : option_spec → option A) d specs spec :
  last_of f d (specs ++ [spec]) = default (last_of f d specs) (f spec).
Proof.
  unfold last_of. rewrite omap_app. simpl. destruct (f spec); simpl.
  - by rewrite last_snoc.
  - by rewrite app_nil_r.
Qed.

Definition spec_valid (spec : option_spec) : Prop :=
  match spec with
  | SpecRoute routeID => TrimSpace routeID ≠ ""
  | SpecTimeout timeout => 0 < timeout
  end.

Lemma build_valid options spec :
  spec_valid spec →
  applyOption options (build spec) = Ok (MkRequestOptions
    (default (EgressRouteID options) (route_of spec))
    (default (Timeout options) (timeout_of spec))).
Proof.
  unfold applyOption; destruct spec as [r|t]; simpl; unfold WithEgressRoute, WithTimeout; intros H;
    case_bool_decide; done || lia.
Qed.

Lemma fold_build_valid o specs :
  Forall spec_valid specs →
  fold_result applyOption o (build <$> specs) =
    Ok (MkRequestOptions (last_of route_of (EgressRouteID o) specs)
                         (last_of timeout_of (Timeout o) specs)).
Proof.
  induction specs as [|spec specs IH] using rev_ind; intros H; [by destruct o|].
  apply Forall_app in H as [H Hs%Forall_inv].
  rewrite fmap_app, fold_result_app, IH by done. simpl.
  rewrite build_valid by done. simpl. by rewrite !last_of_snoc.
Qed.

#[export] Instance spec_valid_dec spec : Decision (spec_valid spec).
Proof. destruct spec; simpl; apply _. Defined.

Lemma fold_build_invalid o specs :
  ¬ Forall spec_valid specs →
  ∃ e, fold_result applyOption o (build <$> specs) = Err e ∧ Is e ErrInvalidRequestOption = true.
Proof.
  revert o. induction specs as [|spec specs IH]; intros o H; [by destruct H|].
  simpl. destruct (decide (spec_valid spec)) as [Hs|Hs].
  - rewrite (build_valid _ _ Hs). simpl. apply IH. intros ?. apply H. by constructor.
  - unfold applyOption; destruct spec as [r|t]; simpl in *; unfold WithEgressRoute, WithTimeout;
      case_bool_decide; try done || lia; eauto.
Qed.

Lemma last_of_valid o specs :
  Forall spec_valid specs → 0 ≤ Timeout o → TrimSpace (EgressRouteID o) = EgressRouteID o →
  TrimSpace (last_of route_of (EgressRouteID o) specs) =
    last_of route_of (EgressRouteID o) specs ∧
  0 ≤ last_of timeout_of (Timeout o) specs.
Proof.
  intros H Ht Hr. induction specs as [|spec specs IH] using rev_ind; [done|].
  apply Forall_app in H as [H Hs%Forall_inv]. rewrite !last_of_snoc.
  destruct (IH H) as [IHr IHt]. destruct spec; simpl in *; [|by split; [|lia]].
  by rewrite TrimSpace_idemp.
Qed.

(** [ResolveRequestOptions] over any list of the package's options
    succeeds exactly when every option is valid and a route is named: the
    result then carries the last route and the last timeout, the route is
    trimmed and not empty, and the timeout is not negative.  An invalid option
    yields [ErrInvalidRequestOption], a missing route [ErrMissingEgressRoute]. *)
Theorem ResolveRequestOptions_spec (defaultRouteID : string) (specs : list option_spec) :
  match ResolveRequestOptions defaultRouteID (build <$> specs) with
  | Ok resolved =>
      Forall spec_valid specs ∧
      EgressRouteID resolved = last_of route_of (TrimSpace defaultRouteID) specs ∧
      Timeout resolved = last_of timeout_of 0 specs ∧
      TrimSpace (EgressRouteID resolved) = EgressRouteID resolved ∧
      EgressRouteID resolved ≠ "" ∧ 0 ≤ Timeout resolved
  | Err e =>
      ¬ Forall spec_valid specs ∧ Is e ErrInvalidRequestOption = true ∨
      Forall spec_valid specs ∧ last_of route_of (TrimSpace defaultRouteID) specs = "" ∧
        e = Sentinel ErrMissingEgressRoute
  end.
Proof.
  unfold ResolveRequestOptions. set (o := MkRequestOptions (TrimSpace defaultRouteID) 0).
  destruct (decide (Forall spec_valid specs)) as [H|H].
  - rewrite fold_build_valid by done. simpl.
    destruct (last_of_valid o specs H) as [Hr Ht]; [done|apply TrimSpace_idemp|].
    simpl in *. rewrite Hr. case_bool_decide; [by right|]. done.
  - destruct (fold_build_invalid o specs H) as (e & -> & He). simpl. by left.
Qed.
