(* ===== verification/Transport.v ===== *)
(** * Egress routes: [transport/route.go] and [transport/registry.go]

    [normalizeRoute] is the validation of one route, [NewRegistry] the loop
    that validates all of them and builds one HTTP transport per source
    address.  A [Registry] is the map of routes and the closed flag; each
    method is a function of it, and only [Close] changes it.  The host's
    address check and the network are parameters. *)

From S2P Require Import Prelude GoStrings Decimals Errors.

(** ** [net.IP] *)

(** A [net.IP] is nil or a slice of bytes. *)
Abbreviation IP := (option (list Z)).

Definition IPv4len : nat := 4.
Definition IPv6len : nat := 16.
Definition v4InV6Prefix : list Z := [0; 0; 0; 0; 0; 0; 0; 0; 0; 0; 255; 255].

Definition To4 (ip : IP) : IP :=
  match ip with
  | None => None
  | Some b =>
      if bool_decide (length b = IPv4len) then Some b
      else if bool_decide (length b = IPv6len) && bool_decide (take 12 b = v4InV6Prefix)
      then Some (drop 12 b) else None
  end.

Definition ip_bytes (ip : IP) : list Z := default [] ip.

Definition IP_Equal (ip x : IP) : bool :=
  let a := ip_bytes ip in
  let b := ip_bytes x in
  if bool_decide (length a = length b) then bool_decide (a = b)
  else if bool_decide (length a = IPv4len ∧ length b = IPv6len)
  then bool_decide (take 12 b = v4InV6Prefix) && bool_decide (a = drop 12 b)
  else if bool_decide (length a = IPv6len ∧ length b = IPv4len)
  then bool_decide (take 12 a = v4InV6Prefix) && bool_decide (b = drop 12 a)
  else false.

Definition IPv4zero : IP := Some (v4InV6Prefix ++ [0; 0; 0; 0]).
Definition IPv6unspecified : IP := Some (replicate 16 0).

Definition IsUnspecified (ip : IP) : bool :=
  IP_Equal ip IPv4zero || IP_Equal ip IPv6unspecified.

Definition IsMulticast (ip : IP) : bool :=
  match To4 ip with
  | Some (first :: _) => bool_decide (Z.land first 240 = 224)
  | _ =>
      match ip_bytes ip with
      | first :: rest => bool_decide (length rest = 15%nat) && bool_decide (first = 255)
      | [] => false
      end
  end.

(** [IP.String] on the four-byte addresses the registry keeps. *)
Definition IP_String (ip : IP) : string :=
  match ip with
  | Some [a; b; c; d] =>
      pretty a +:+ String dot (pretty b +:+ String dot (pretty c +:+ String dot (pretty d)))
  | _ => "<nil>"
  end.

(** ** [route.go] *)

Record EgressRoute : Type := MkEgressRoute {
  ID : string;
  LocalSourceIP : IP;
  LocalPrivateIP : IP;
  ExpectedPublicIP : IP
}.

(** [cloneIP]: [append(net.IP(nil), ip...)] is nil for an empty slice. *)
Definition cloneIP (ip : IP) : IP :=
  match ip with
  | None => None
  | Some [] => None
  | Some b => Some b
  end.

Definition invalidRoute (message : string) : error :=
  Wrapf message (Sentinel ErrInvalidEgressRoute).

Definition resolveLocalSourceIP (route : EgressRoute) : result error IP :=
  let hasSource := bool_decide (is_Some (LocalSourceIP route)) in
  let hasLegacy := bool_decide (is_Some (LocalPrivateIP route)) in
  if negb hasSource && negb hasLegacy then
    Err (invalidRoute "%w: route %q local source IP is required")
  else if hasSource && hasLegacy &&
          negb (IP_Equal (LocalSourceIP route) (LocalPrivateIP route)) then
    Err (invalidRoute "%w: route %q local source IP conflicts with legacy local private IP")
  else if hasSource then Ok (LocalSourceIP route)
  else Ok (LocalPrivateIP route).

(** [ip == nil || ip.IsUnspecified() || ip.IsMulticast()], negated. *)
Definition bindable (ip : IP) : bool :=
  bool_decide (is_Some ip) && negb (IsUnspecified ip) && negb (IsMulticast ip).

Definition normalizeRoute (route : EgressRoute) : result error EgressRoute :=
  let id := TrimSpace (ID route) in
  if bool_decide (id = "") then Err (invalidRoute "%w: route ID is required")
  else
    localIP ← resolveLocalSourceIP
      (MkEgressRoute id (LocalSourceIP route) (LocalPrivateIP route) (ExpectedPublicIP route));
    let localIP := To4 localIP in
    if negb (bindable localIP) then
      Err (invalidRoute "%w: route %q local source IP must be a bindable IPv4 address")
    else
      let source := cloneIP localIP in
      let legacy := match LocalPrivateIP route with Some _ => cloneIP localIP | None => None end in
      match ExpectedPublicIP route with
      | None => Ok (MkEgressRoute id source legacy None)
      | Some _ =>
          let expectedIP := To4 (ExpectedPublicIP route) in
          if negb (bindable expectedIP) then
            Err (invalidRoute "%w: route %q expected public IP must be an IPv4 address")
          else Ok (MkEgressRoute id source legacy (cloneIP expectedIP))
      end.

Definition cloneRoute (route : EgressRoute) : EgressRoute :=
  MkEgressRoute (ID route) (cloneIP (LocalSourceIP route))
    (cloneIP (LocalPrivateIP route)) (cloneIP (ExpectedPublicIP route)).

(** ** [registry.go]: configuration *)

(** A [LocalAddressVerifier] returns nil or an error. *)
Abbreviation LocalAddressVerifier := (IP → option error).

Record registryConfig : Type := MkRegistryConfig {
  verifyAddress : LocalAddressVerifier;
  dialTimeout : Z;
  keepAlive : Z;
  responseHeaderTimeout : Z
}.

Abbreviation RegistryOption := (registryConfig → result error registryConfig).

Definition WithLocalAddressVerifier (verifier : option LocalAddressVerifier) : RegistryOption :=
  λ config,
    match verifier with
    | None => Err (Errorf "local address verifier cannot be nil")
    | Some verifier => Ok (MkRegistryConfig verifier (dialTimeout config) (keepAlive config)
                             (responseHeaderTimeout config))
    end.

Definition WithDialTimeout (timeout : Z) : RegistryOption := λ config,
  if bool_decide (timeout ≤ 0) then Err (Errorf "dial timeout must be positive")
  else Ok (MkRegistryConfig (verifyAddress config) timeout (keepAlive config)
             (responseHeaderTimeout config)).

Definition WithResponseHeaderTimeout (timeout : Z) : RegistryOption := λ config,
  if bool_decide (timeout ≤ 0) then Err (Errorf "response header timeout must be positive")
  else Ok (MkRegistryConfig (verifyAddress config) (dialTimeout config) (keepAlive config)
             timeout).

Definition defaultDialTimeout : Z := 5 * Second.
Definition defaultKeepAlive : Z := 30 * Second.
Definition defaultResponseHeaderTimeout : Z := 10 * Second.

(** What [newHTTPTransport] sets on the clone of the default transport. *)
Record httpTransport : Type := MkHTTPTransport {
  LocalAddr : IP;
  Proxy : bool;
  DialTimeout : Z;
  DialKeepAlive : Z;
  ResponseHeaderTimeout : Z;
  ForceAttemptHTTP2 : bool
}.

Definition newHTTPTransport (localIP : IP) (config : registryConfig) : httpTransport :=
  MkHTTPTransport (cloneIP localIP) false (dialTimeout config) (keepAlive config)
    (responseHeaderTimeout config) true.

Record routeTransport : Type := MkRouteTransport {
  route : EgressRoute;
  transport : httpTransport
}.

(** [Registry]: the routes by ID and the closed flag. *)
Record Registry : Type := MkRegistry {
  routes : gmap string routeTransport;
  closed : bool
}.

(** ** [NewRegistry] *)

Definition applyRegistryOption (config : registryConfig) (apply : option RegistryOption)
    : result error registryConfig :=
  match apply with
  | None => Err (Errorf "registry option %d is nil")
  | Some apply =>
      match apply config with
      | Ok config => Ok config
      | Err e => Err (Wrapf "apply registry option %d: %w" e)
      end
  end.

(** The variables of the validation loop. *)
Record registryScan : Type := MkRegistryScan {
  normalized : list EgressRoute;
  seenIDs : gset string;
  seenLocalIPs : gmap string string
}.

Definition scanRoute (config : registryConfig) (scan : registryScan) (r : EgressRoute)
    : result error registryScan :=
  clean ← normalizeRoute r;
  if bool_decide (ID clean ∈ seenIDs scan) then
    Err (invalidRoute "%w: duplicate route ID %q")
  else if bool_decide (is_Some (seenLocalIPs scan !! IP_String (LocalSourceIP clean))) then
    Err (invalidRoute "%w: routes %q and %q use the same local source IP %s")
  else
    match verifyAddress config (LocalSourceIP clean) with
    | Some e => Err (Wrapf "verify route %q: %w" e)
    | None =>
        Ok (MkRegistryScan (normalized scan ++ [clean]) ({[ID clean]} ∪ seenIDs scan)
              (<[IP_String (LocalSourceIP clean) := ID clean]> (seenLocalIPs scan)))
    end.

Definition addRoute (config : registryConfig) (m : gmap string routeTransport)
    (r : EgressRoute) : gmap string routeTransport :=
  <[ID r := MkRouteTransport r (newHTTPTransport (LocalSourceIP r) config)]> m.

(** [NewRegistry]; [systemVerifier] is [VerifySystemLocalAddress]. *)
Definition NewRegistry (systemVerifier : LocalAddressVerifier) (rs : list EgressRoute)
    (options : list (option RegistryOption)) : result error Registry :=
  if bool_decide (rs = []) then Err (invalidRoute "%w: at least one route is required")
  else
    config ← fold_result applyRegistryOption
      (MkRegistryConfig systemVerifier defaultDialTimeout defaultKeepAlive
         defaultResponseHeaderTimeout) options;
    scan ← fold_result (scanRoute config) (MkRegistryScan [] ∅ ∅) rs;
    Ok (MkRegistry (foldl (addRoute config) ∅ (normalized scan)) false).

(** ** Methods *)

Definition lookup_route (registry : Registry) (routeID : string)
    : result error routeTransport :=
  if closed registry then Err (Sentinel ErrRegistryClosed)
  else match routes registry !! routeID with
       | None => Err (Wrapf "%w: %q" (Sentinel ErrUnknownEgressRoute))
       | Some entry => Ok entry
       end.

(** [sanitizedTransportCause]. *)
Definition AsUrlError : error → option error :=
  As (λ e, match e with UrlError _ cause => Some cause | _ => None end).
Definition sanitizedTransportCause (e : error) : error := default e (AsUrlError e).

Section methods.
(** [network t ctx request] is the outcome of sending a copy of [request]
    through the transport [t], with redirects refused. *)
Context {Ctx Request Response : Type}
  (network : httpTransport → Ctx → Request → result error Response).

(** [Registry.Do]; [None] is a nil context or request. *)
Definition Registry_Do (registry : Registry) (ctx : option Ctx) (routeID : string)
    (request : option Request) : result error Response :=
  match ctx, request with
  | None, _ => Err (Errorf "request context cannot be nil")
  | _, None => Err (Errorf "HTTP request cannot be nil")
  | Some ctx, Some request =>
      entry ← lookup_route registry routeID;
      match network (transport entry) ctx request with
      | Err e => Err (RequestError routeID (sanitizedTransportCause e))
      | Ok response => Ok response
      end
  end.

(** The client [Registry.HTTPClient] returns is bound to a route ID; its
    round tripper looks the route up in the registry at every request. *)
Record boundRoundTripper : Type := MkBoundRoundTripper { boundRouteID : string }.

Definition HTTPClient (registry : Registry) (routeID : string)
    : result error boundRoundTripper :=
  _ ← lookup_route registry routeID; Ok (MkBoundRoundTripper routeID).

Definition RoundTrip (registry : Registry) (roundTripper : boundRoundTripper)
    (ctx : Ctx) (request : option Request) : result error Response :=
  match request with
  | None => Err (Errorf "HTTP request cannot be nil")
  | Some request =>
      entry ← lookup_route registry (boundRouteID roundTripper);
      network (transport entry) ctx request
  end.
End methods.

Definition Registry_Route (registry : Registry) (routeID : string) : result error EgressRoute :=
  entry ← lookup_route registry routeID; Ok (cloneRoute (route entry)).

Definition route_le (r1 r2 : EgressRoute) : Prop := String.le (ID r1) (ID r2).

#[export] Instance route_le_dec : RelDecision route_le.
Proof. intros r1 r2. unfold route_le. apply _. Defined.

(** [Registry.Routes]: clones of all the routes, sorted by ID. *)
Definition Routes (registry : Registry) : list EgressRoute :=
  merge_sort route_le
    ((λ entry, cloneRoute (route entry)) <$> (map_to_list (routes registry)).*2).

(** [Registry.Close]; closing idle connections does not change the model's
    state. *)
Definition Close (registry : Registry) : Registry :=
  if closed registry then registry else MkRegistry (routes registry) true.

(** ** Properties of addresses *)

Definition is_IPv4 (ip : IP) : Prop := ∃ a b c d, ip = Some [a; b; c; d].

Lemma To4_IPv4 ip b : To4 ip = Some b → is_IPv4 (Some b).
Proof.
  assert (∀ l : list Z, length l = 4%nat → is_IPv4 (Some l)) as H.
  { intros [|a [|b' [|c [|d [|]]]]]; try done. by exists a, b', c, d. }
  unfold To4, IPv4len, IPv6len. intros Hip. destruct ip as [l|]; [|done].
  case_bool_decide; [simplify_eq; by apply H|].
  case_bool_decide; simpl in Hip; [|done]. case_bool_decide; simplify_eq.
  apply H. rewrite length_drop. lia.
Qed.

Lemma cloneIP_IPv4 ip : is_IPv4 ip → cloneIP ip = ip.
Proof. by intros (a & b & c & d & ->). Qed.

Lemma IP_String_inj ip1 ip2 :
  is_IPv4 ip1 → is_IPv4 ip2 → IP_String ip1 = IP_String ip2 → ip1 = ip2.
Proof.
  intros (a1 & b1 & c1 & d1 & ->) (a2 & b2 & c2 & d2 & ->). unfold IP_String.
  assert (∀ x y s t, pretty (x : Z) +:+ String dot s = pretty (y : Z) +:+ String dot t →
                     x = y ∧ s = t) as Hdot.
  { intros x y s t H. apply (f_equal (Cut dot)) in H.
    rewrite !Cut_some in H by (by apply pretty_Z_not_char). by simplify_eq. }
  intros [-> [-> [-> H%(inj pretty)]%Hdot]%Hdot]%Hdot. by subst.
Qed.

(** ** Validated routes *)

(** What [normalizeRoute] guarantees of the route it returns. *)
Record good_route (r : EgressRoute) : Prop := {
  good_ID : ID r ≠ "" ∧ TrimSpace (ID r) = ID r;
  good_source : is_IPv4 (LocalSourceIP r) ∧ bindable (LocalSourceIP r) = true;
  good_legacy : LocalPrivateIP r = None ∨ LocalPrivateIP r = LocalSourceIP r;
  good_expected : ExpectedPublicIP r = None ∨
    is_IPv4 (ExpectedPublicIP r) ∧ bindable (ExpectedPublicIP r) = true
}.

Lemma bindable_clone ip :
  bindable (To4 ip) = true → is_IPv4 (cloneIP (To4 ip)) ∧ bindable (cloneIP (To4 ip)) = true.
Proof.
  intros H. assert (is_IPv4 (To4 ip)) as Hip.
  { unfold bindable in H. rewrite !andb_true_iff, bool_decide_eq_true in H.
    destruct H as [[[b Hb] _] _]. rewrite Hb. by eapply To4_IPv4. }
  by rewrite cloneIP_IPv4.
Qed.

Lemma normalizeRoute_good r clean : normalizeRoute r = Ok clean → good_route clean.
Proof.
  unfold normalizeRoute. case_bool_decide as Hid; [done|]. intros H.
  apply result_bind_Ok in H as (ip & _ & H).
  destruct (bindable (To4 ip)) eqn:Hb; simpl in H; [|done].
  apply bindable_clone in Hb.
  assert (∀ e, (e = None ∨ is_IPv4 e ∧ bindable e = true) →
    good_route (MkEgressRoute (TrimSpace (ID r)) (cloneIP (To4 ip))
      match LocalPrivateIP r with Some _ => cloneIP (To4 ip) | None => None end e)) as Hgood.
  { intros e He. constructor; simpl; [split; [done|by apply TrimSpace_idemp]|done| |done].
    destruct (LocalPrivateIP r); [by right|by left]. }
  destruct (ExpectedPublicIP r) as [b|]; [|simplify_eq; apply Hgood; by left].
  destruct (bindable (To4 (Some b))) eqn:Hb'; simpl in H; [|done].
  apply bindable_clone in Hb'. simplify_eq. apply Hgood. by right.
Qed.

(** The invariant of the validation loop. *)
Record scan_ok (config : registryConfig) (scan : registryScan) : Prop := {
  scan_good : Forall good_route (normalized scan);
  scan_verified :
    Forall (λ r, verifyAddress config (LocalSourceIP r) = None) (normalized scan);
  scan_ids : NoDup (ID <$> normalized scan);
  scan_seen : ∀ id, id ∈ seenIDs scan ↔ id ∈ ID <$> normalized scan;
  scan_ips : NoDup (LocalSourceIP <$> normalized scan);
  scan_seen_ips : ∀ r, r ∈ normalized scan →
    is_Some (seenLocalIPs scan !! IP_String (LocalSourceIP r))
}.

Lemma scanRoute_ok config scan r scan' :
  scan_ok config scan → scanRoute config scan r = Ok scan' →
  scan_ok config scan' ∧ length (normalized scan') = S (length (normalized scan)).
Proof.
  intros [Hg Hv Hids Hseen Hips Hsips]. unfold scanRoute. intros H.
  apply result_bind_Ok in H as (clean & Hclean%normalizeRoute_good & H).
  case_bool_decide as Hid; [done|]. case_bool_decide as Hip; [done|].
  destruct (verifyAddress config (LocalSourceIP clean)) eqn:Hver; simplify_eq. simpl.
  split; [|rewrite length_app; simpl; lia].
  constructor; simpl; rewrite ?fmap_app, ?Forall_app, ?Forall_singleton; try done.
  - apply NoDup_app. split_and!; [done| |apply NoDup_singleton].
    intros id Hin Hx. simpl in Hx. apply list_elem_of_singleton in Hx as ->.
    by apply Hid, Hseen.
  - intros id. rewrite elem_of_union, elem_of_singleton, elem_of_app, Hseen. simpl.
    rewrite list_elem_of_singleton. naive_solver.
  - apply NoDup_app. split_and!; [done| |apply NoDup_singleton].
    intros ip Hin Hx. simpl in Hx. apply list_elem_of_singleton in Hx as ->.
    apply list_elem_of_fmap in Hin as (r' & Heq & Hin). apply Hip. rewrite Heq. by apply Hsips.
  - intros r' [Hin|Hin]%elem_of_app.
    + rewrite lookup_insert. case_decide; [done|by apply Hsips].
    + apply list_elem_of_singleton in Hin as ->. by rewrite lookup_insert_eq.
Qed.

Lemma scan_all config rs scan scan' :
  scan_ok config scan → fold_result (scanRoute config) scan rs = Ok scan' →
  scan_ok config scan' ∧
  length (normalized scan') = (length (normalized scan) + length rs)%nat.
Proof.
  revert scan. induction rs as [|r rs IH]; intros scan Hscan H; simpl in H.
  { simplify_eq. split; [done|simpl; lia]. }
  apply result_bind_Ok in H as (scan1 & H1 & H).
  destruct (scanRoute_ok _ _ _ _ Hscan H1) as [Hscan1 Hlen].
  destruct (IH _ Hscan1 H) as [? ->]. split; [done|simpl; lia].
Qed.

(** The map [NewRegistry] fills from routes with distinct IDs. *)
Lemma addRoute_lookup config rs m id :
  NoDup (ID <$> rs) →
  foldl (addRoute config) m rs !! id =
    match list_find (λ r, ID r = id) rs with
    | Some (_, r) => Some (MkRouteTransport r (newHTTPTransport (LocalSourceIP r) config))
    | None => m !! id
    end.
Proof.
  revert m. induction rs as [|r rs IH]; intros m Hnd; simpl; [done|].
  apply NoDup_cons in Hnd as [Hr Hnd]. rewrite IH by done.
  destruct (list_find (λ r, ID r = id) rs) as [[i r']|] eqn:Hfind.
  - apply list_find_Some in Hfind as (Hr' & <- & _).
    case_decide as Heq; [|by simpl].
    destruct Hr. rewrite Heq. apply list_elem_of_fmap_2. by eapply list_elem_of_lookup_2.
  - unfold addRoute. rewrite lookup_insert. by case_decide.
Qed.

Lemma addRoute_size config rs m :
  NoDup (ID <$> rs) → (∀ r, r ∈ rs → m !! ID r = None) →
  size (foldl (addRoute config) m rs) = (size m + length rs)%nat.
Proof.
  revert m. induction rs as [|r rs IH]; intros m Hnd Hm; simpl; [lia|].
  apply NoDup_cons in Hnd as [Hr Hnd]. rewrite IH; [|done|].
  - unfold addRoute. rewrite map_size_insert_None by (apply Hm; left). lia.
  - intros r' Hr'. unfold addRoute. rewrite lookup_insert_ne; [apply Hm; by right|].
    intros Heq. apply Hr. rewrite Heq. by apply list_elem_of_fmap_2.
Qed.

Lemma scan_ok_init config : scan_ok config (MkRegistryScan [] ∅ ∅).
Proof. constructor; simpl; try constructor; set_solver. Qed.

(** A registry that [NewRegistry] returns is open and holds every
    configured route; each entry is keyed by its trimmed, nonempty ID, its
    source address is a bindable IPv4 address the host verified, and its HTTP
    transport binds that very address and uses no proxy; distinct routes never
    share a source address. *)
Theorem NewRegistry_sound systemVerifier rs options registry :
  NewRegistry systemVerifier rs options = Ok registry →
  ∃ config,
    closed registry = false ∧ size (routes registry) = length rs ∧
    (∀ id entry, routes registry !! id = Some entry →
      ID (route entry) = id ∧ good_route (route entry) ∧
      verifyAddress config (LocalSourceIP (route entry)) = None ∧
      transport entry = newHTTPTransport (LocalSourceIP (route entry)) config ∧
      LocalAddr (transport entry) = LocalSourceIP (route entry) ∧
      Proxy (transport entry) = false) ∧
    (∀ id1 id2 e1 e2, routes registry !! id1 = Some e1 → routes registry !! id2 = Some e2 →
      id1 ≠ id2 → LocalSourceIP (route e1) ≠ LocalSourceIP (route e2)).
Proof.
  unfold NewRegistry. case_bool_decide; [done|]. intros Hreg.
  apply result_bind_Ok in Hreg as (config & _ & Hreg).
  apply result_bind_Ok in Hreg as (scan & Hscan & Hreg). simplify_eq. exists config; simpl.
  destruct (scan_all _ _ _ _ (scan_ok_init config) Hscan) as [[Hg Hv Hids _ Hips _] Hlen].
  simpl in Hlen.
  assert (∀ id entry, foldl (addRoute config) ∅ (normalized scan) !! id = Some entry →
    ∃ i, normalized scan !! i = Some (route entry) ∧ ID (route entry) = id ∧
      transport entry = newHTTPTransport (LocalSourceIP (route entry)) config) as Hlook.
  { intros id entry. rewrite addRoute_lookup by done.
    destruct (list_find _ _) as [[i r]|] eqn:Hf; [|by rewrite lookup_empty].
    apply list_find_Some in Hf as (Hr & <- & _). intros [= <-]. by exists i. }
  split_and!; [done| | |].
  - rewrite addRoute_size; [|done|by intros; apply lookup_empty]. rewrite map_size_empty. simpl. lia.
  - intros id entry (i & Hi & Hid & Ht)%Hlook.
    assert (good_route (route entry)) as Hgood by (by eapply Forall_lookup_1 in Hg).
    rewrite Ht. simpl. split_and!; try done.
    + eapply Forall_lookup_1 in Hv; [|done]. done.
    + apply cloneIP_IPv4, Hgood.
  - intros id1 id2 e1 e2 (i & Hi & <- & _)%Hlook (j & Hj & <- & _)%Hlook Hne Heq.
    apply Hne. assert (i = j) as ->; [|congruence].
    eapply (NoDup_lookup _ i j _ Hips); rewrite list_lookup_fmap; [by rewrite Hi|].
    rewrite Hj. simpl. by rewrite Heq.
Qed.

(** An example host with two private addresses. *)
Definition example_verifier : LocalAddressVerifier := λ ip,
  if bool_decide (ip = Some [10; 0; 10; 21] ∨ ip = Some [203; 0; 113; 11]) then None
  else Some (Wrapf "%w: %s is not assigned to this host" (Sentinel ErrLocalAddressUnavailable)).

Definition example_routes : list EgressRoute :=
  [ MkEgressRoute " nat-a " (Some [10; 0; 10; 21]) None (Some [203; 0; 113; 10]);
    MkEgressRoute "direct-a" (Some (v4InV6Prefix ++ [203; 0; 113; 11])) None None ].

Lemma NewRegistry_sound_witness :
  ∃ registry, NewRegistry example_verifier example_routes [Some (WithDialTimeout Second)] =
    Ok registry ∧ closed registry = false ∧ size (routes registry) = 2%nat.
Proof.
  eexists. split; [vm_compute; reflexivity|].
  match goal with |- closed ?r = _ ∧ _ =>
    destruct (NewRegistry_sound example_verifier example_routes [Some (WithDialTimeout Second)] r)
      as (config & Hc & Hs & _) end.
  - vm_compute; reflexivity.
  - split; [exact Hc|exact Hs].
Defined.

(** Once a registry is closed it stays closed and keeps its routes, and
    every operation that reaches a route is refused with [ErrRegistryClosed]
    without touching the network: requests, bound clients (also those created
    before the close) and route queries. *)
Theorem Close_refuses {Ctx Request Response : Type}
    (network : httpTransport → Ctx → Request → result error Response)
    (registry : Registry) (ctx : Ctx) (id : string) (request : Request)
    (roundTripper : boundRoundTripper) :
  Close (Close registry) = Close registry ∧
  routes (Close registry) = routes registry ∧
  Registry_Do network (Close registry) (Some ctx) id (Some request) =
    Err (Sentinel ErrRegistryClosed) ∧
  HTTPClient (Close registry) id = Err (Sentinel ErrRegistryClosed) ∧
  RoundTrip network (Close registry) roundTripper ctx (Some request) =
    Err (Sentinel ErrRegistryClosed) ∧
  Registry_Route (Close registry) id = Err (Sentinel ErrRegistryClosed).
Proof.
  assert (closed (Close registry) = true) as Hc.
  { unfold Close. by destruct (closed registry) eqn:?. }
  assert (∀ id, lookup_route (Close registry) id = Err (Sentinel ErrRegistryClosed)) as Hl.
  { intros id'. unfold lookup_route. by rewrite Hc. }
  split_and!.
  - unfold Close at 1. by rewrite Hc.
  - unfold Close. by destruct (closed registry).
  - unfold Registry_Do. by rewrite Hl.
  - unfold HTTPClient. by rewrite Hl.
  - unfold RoundTrip. by rewrite Hl.
  - unfold Registry_Route. by rewrite Hl.
Qed.
