(* ===== verification/Credential.v ===== *)
(** * Credentials: [credential/credential.go]

    The validation of a credential's metadata, the permission and egress-route
    guards, and the destruction of secret material. *)

From S2P Require Import Prelude GoStrings Errors.

(** [Permission] is a Go string type. *)
Definition PermissionRead : string := "read".
Definition PermissionTrade : string := "trade".

(** [model.ExchangeID.Valid]. *)
Definition ExchangeID_Valid (id : string) : bool := bool_decide (TrimSpace id ≠ "").

Record Descriptor : Type := MkDescriptor {
  AccountID : string;
  Exchange : string;
  SecretRef : string;
  Permissions : list string;
  AllowedEgressRouteIDs : list string
}.

Definition invalidDescriptor (message : string) : error :=
  Wrapf message (Sentinel ErrInvalidDescriptor).

(** The loop body over [descriptor.Permissions]. *)
Definition checkPermission (seenPermissions : gset string) (permission : string)
    : result error (gset string) :=
  if bool_decide (permission ≠ PermissionRead) && bool_decide (permission ≠ PermissionTrade)
  then Err (invalidDescriptor "%w: unknown permission %q")
  else if bool_decide (permission ∈ seenPermissions)
  then Err (invalidDescriptor "%w: duplicate permission %q")
  else Ok ({[permission]} ∪ seenPermissions).

(** The loop body over [descriptor.AllowedEgressRouteIDs]. *)
Definition checkRouteID (seen : gset string) (routeID : string) : result error (gset string) :=
  let cleanRouteID := TrimSpace routeID in
  if bool_decide (cleanRouteID = "")
  then Err (invalidDescriptor "%w: allowed egress route ID is empty")
  else if bool_decide (cleanRouteID ≠ routeID)
  then Err (invalidDescriptor "%w: allowed egress route %q has surrounding whitespace")
  else if bool_decide (routeID ∈ seen)
  then Err (invalidDescriptor "%w: duplicate allowed egress route %q")
  else Ok ({[routeID]} ∪ seen).

(** [Descriptor.Validate]. *)
Definition Validate (descriptor : Descriptor) : result error unit :=
  if bool_decide (TrimSpace (AccountID descriptor) = "")
  then Err (invalidDescriptor "%w: account ID is required")
  else if negb (ExchangeID_Valid (Exchange descriptor))
  then Err (invalidDescriptor "%w: exchange is required")
  else if bool_decide (TrimSpace (SecretRef descriptor) = "")
  then Err (invalidDescriptor "%w: secret reference is required")
  else if bool_decide (Permissions descriptor = [])
  then Err (invalidDescriptor "%w: at least one permission is required")
  else
    _ ← fold_result checkPermission ∅ (Permissions descriptor);
    if bool_decide (AllowedEgressRouteIDs descriptor = [])
    then Err (invalidDescriptor "%w: at least one allowed egress route is required")
    else
      _ ← fold_result checkRouteID ∅ (AllowedEgressRouteIDs descriptor);
      Ok tt.

(** [slices.Contains] on the two lists. *)
Definition AllowsEgressRoute (descriptor : Descriptor) (routeID : string) : bool :=
  bool_decide (routeID ∈ AllowedEgressRouteIDs descriptor).
Definition AllowsPermission (descriptor : Descriptor) (permission : string) : bool :=
  bool_decide (permission ∈ Permissions descriptor).

Definition RequirePermission (descriptor : Descriptor) (permission : string)
    : result error unit :=
  if AllowsPermission descriptor permission then Ok tt
  else Err (Wrapf "%w: account %q does not have %q permission" (Sentinel ErrPermissionNotAllowed)).

Definition RequireEgressRoute (descriptor : Descriptor) (routeID : string)
    : result error unit :=
  if AllowsEgressRoute descriptor routeID then Ok tt
  else Err (Wrapf "%w: account %q cannot use route %q" (Sentinel ErrEgressRouteNotAllowed)).

(** [Material] refers to byte slices of the heap: a slice is the name of its
    array, and [Destroy] writes zeros through those names, then removes every
    key of the [Extra] map. *)
Abbreviation heap := (gmap nat (list Z)).

Record Material : Type := MkMaterial {
  APIKey : option nat;
  SecretKey : option nat;
  Passphrase : option nat;
  Extra : gmap string nat
}.

(** [zero(value)]: every byte of the array becomes 0; a nil slice has none. *)
Definition zero (h : heap) (value : option nat) : heap :=
  match value with
  | None => h
  | Some a => alter (λ bytes, replicate (length bytes) 0) a h
  end.

(** [Material.Destroy]; [None] is the nil receiver. *)
Definition Destroy (h : heap) (material : option Material) : heap * option Material :=
  match material with
  | None => (h, None)
  | Some m =>
      let h := zero (zero (zero h (APIKey m)) (SecretKey m)) (Passphrase m) in
      let h := foldl (λ h entry, zero h (Some entry.2)) h (map_to_list (Extra m)) in
      (h, Some (MkMaterial (APIKey m) (SecretKey m) (Passphrase m) ∅))
  end.

(** ** Properties of [Validate] *)

(** A descriptor the SDK may use. *)
Definition valid_permissions (l : list string) : Prop :=
  l ≠ [] ∧ NoDup l ∧ Forall (λ p, p = PermissionRead ∨ p = PermissionTrade) l.
Definition valid_routes (l : list string) : Prop :=
  l ≠ [] ∧ NoDup l ∧ Forall (λ r, r ≠ "" ∧ TrimSpace r = r) l.
Definition valid_descriptor (d : Descriptor) : Prop :=
  TrimSpace (AccountID d) ≠ "" ∧ TrimSpace (Exchange d) ≠ "" ∧ TrimSpace (SecretRef d) ≠ "" ∧
  valid_permissions (Permissions d) ∧ valid_routes (AllowedEgressRouteIDs d).

Section distinct.
Context (check : gset string → string → result error (gset string)) (P : string → Prop)
  `{!∀ x, Decision (P x)}
  (check_spec : ∀ seen x,
    match check seen x with
    | Ok seen' => P x ∧ x ∉ seen ∧ seen' = ({[x]} ∪ seen)
    | Err e => (¬ P x ∨ x ∈ seen) ∧ Is e ErrInvalidDescriptor = true
    end).

(** A loop that rejects an invalid or repeated element accepts exactly the
    duplicate-free lists of valid elements. *)
Lemma fold_distinct seen l :
  match fold_result check seen l with
  | Ok _ => NoDup l ∧ Forall P l ∧ (∀ x, x ∈ l → x ∉ seen)
  | Err e => ¬ (NoDup l ∧ Forall P l ∧ (∀ x, x ∈ l → x ∉ seen)) ∧
             Is e ErrInvalidDescriptor = true
  end.
Proof using Type*.
  revert seen. induction l as [|x l IH]; intros seen; simpl.
  { split_and!; [constructor|constructor|set_solver]. }
  pose proof (check_spec seen x) as Hx. destruct (check seen x) as [seen'|e]; simpl.
  - destruct Hx as (HP & Hseen & ->). specialize (IH ({[x]} ∪ seen)).
    destruct (fold_result check _ l) as [s|e].
    + destruct IH as (Hnd & Hall & Hdis). rewrite NoDup_cons, Forall_cons. set_solver.
    + destruct IH as [Hn He]. split; [|done]. intros (Hnd & Hall & Hdis). apply Hn.
      apply NoDup_cons in Hnd as [Hxl Hnd]. apply Forall_cons in Hall as [_ Hall].
      split_and!; [done..|]. intros y Hy.
      rewrite not_elem_of_union, not_elem_of_singleton. set_solver.
  - destruct Hx as [Hx He]. split; [|done]. intros (Hnd & Hall & Hdis).
    apply Forall_cons in Hall as [HP _]. destruct Hx as [Hx|Hx]; [done|].
    by apply (Hdis x); [left|].
Qed.
End distinct.

Lemma checkPermission_spec seen x :
  match checkPermission seen x with
  | Ok seen' => (x = PermissionRead ∨ x = PermissionTrade) ∧ x ∉ seen ∧ seen' = ({[x]} ∪ seen)
  | Err e => ((¬ (x = PermissionRead ∨ x = PermissionTrade)) ∨ x ∈ seen) ∧
             Is e ErrInvalidDescriptor = true
  end.
Proof. unfold checkPermission. repeat case_bool_decide; simpl; naive_solver. Qed.

Lemma checkRouteID_spec seen x :
  match checkRouteID seen x with
  | Ok seen' => (x ≠ "" ∧ TrimSpace x = x) ∧ x ∉ seen ∧ seen' = ({[x]} ∪ seen)
  | Err e => ((¬ (x ≠ "" ∧ TrimSpace x = x)) ∨ x ∈ seen) ∧ Is e ErrInvalidDescriptor = true
  end.
Proof.
  unfold checkRouteID. repeat case_bool_decide; simpl; split_and?; try done; try naive_solver.
  left. intros [H1 H2]. congruence.
Qed.

(** [Descriptor.Validate] accepts exactly the descriptors whose account,
    exchange and secret reference are not blank, whose permissions are a
    nonempty, duplicate-free list of known permissions and whose allowed routes
    are a nonempty, duplicate-free list of trimmed IDs; it reports every other
    descriptor as [ErrInvalidDescriptor]. *)
Theorem Validate_spec (descriptor : Descriptor) :
  match Validate descriptor with
  | Ok _ => valid_descriptor descriptor
  | Err e => ¬ valid_descriptor descriptor ∧ Is e ErrInvalidDescriptor = true
  end.
Proof.
  unfold Validate, valid_descriptor, valid_permissions, valid_routes, ExchangeID_Valid.
  case_bool_decide; [naive_solver|]. case_bool_decide; simpl; [|naive_solver].
  case_bool_decide; [naive_solver|]. case_bool_decide; [naive_solver|].
  pose proof (fold_distinct checkPermission _ checkPermission_spec ∅ (Permissions descriptor)) as Hp.
  destruct (fold_result checkPermission ∅ _) as [s|e]; simpl; [|set_solver].
  case_bool_decide; [naive_solver|].
  pose proof (fold_distinct checkRouteID _ checkRouteID_spec ∅ (AllowedEgressRouteIDs descriptor)) as Hr.
  destruct (fold_result checkRouteID ∅ _) as [s'|e]; simpl; [naive_solver|set_solver].
Qed.

(** ** Properties of [Destroy] *)

Definition all_zero (h : heap) (a : nat) : Prop :=
  ∀ bytes, h !! a = Some bytes → Forall (λ b, b = 0) bytes.

Lemma zero_all_zero h v a :
  (all_zero h a → all_zero (zero h v) a) ∧ (v = Some a → all_zero (zero h v) a).
Proof.
  unfold all_zero, zero. destruct v as [b|]; [simpl|naive_solver].
  split.
  - intros H bytes. rewrite lookup_alter. case_decide; [|by apply H].
    intros (l & _ & ->)%fmap_Some. by apply Forall_replicate.
  - intros [= <-] bytes. rewrite lookup_alter_eq.
    intros (l & _ & ->)%fmap_Some. by apply Forall_replicate.
Qed.

Lemma zero_list h (l : list (string * nat)) a :
  all_zero h a ∨ a ∈ l.*2 →
  all_zero (foldl (λ h entry, zero h (Some entry.2)) h l) a.
Proof.
  revert h. induction l as [|[k b] l IH]; intros h; simpl; [set_solver|].
  intros H. apply IH. destruct (zero_all_zero h (Some b) a) as [H1 H2].
  rewrite elem_of_cons in H. naive_solver.
Qed.

(** After [Material.Destroy] every byte of every secret array the material
    refers to is zero, aliased arrays included, and the extra secrets are
    gone from the map. *)
Theorem Destroy_zeroes (h : heap) (m : Material) (a : nat) :
  APIKey m = Some a ∨ SecretKey m = Some a ∨ Passphrase m = Some a ∨
    (∃ key, Extra m !! key = Some a) →
  let '(h', m') := Destroy h (Some m) in
  all_zero h' a ∧ (∃ m0, m' = Some m0 ∧ Extra m0 = ∅).
Proof.
  intros Ha. simpl. split; [|by eexists].
  apply zero_list.
  destruct (zero_all_zero h (APIKey m) a) as [A1 A2].
  destruct (zero_all_zero (zero h (APIKey m)) (SecretKey m) a) as [B1 B2].
  destruct (zero_all_zero (zero (zero h (APIKey m)) (SecretKey m)) (Passphrase m) a) as [C1 C2].
  destruct Ha as [?|[?|[?|[key Hkey]]]]; [naive_solver..|].
  right. apply list_elem_of_fmap. exists (key, a). split; [done|].
  by apply elem_of_map_to_list.
Qed.

Lemma Destroy_zeroes_witness :
  all_zero (Destroy {[0%nat := [7; 8]; 1%nat := [9]]}
    (Some (MkMaterial (Some 0%nat) None None {["memo" := 1%nat]}))).1 1%nat.
Proof.
  apply (Destroy_zeroes {[0%nat := [7; 8]; 1%nat := [9]]}
    (MkMaterial (Some 0%nat) None None {["memo" := 1%nat]}) 1%nat).
  right; right; right. exists "memo". vm_compute; reflexivity.
Defined.
