(* ===== verification/RateLimit.v ===== *)
(** * The rolling-window rate limiter: [ratelimit/limiter.go]

    Times are nanoseconds since Go's zero time, so that [Time.IsZero] is
    equality with 0 and [Time.After] is [<].  The backend's map of rules and
    map of buckets are [gmap]s; each method is a function of the backend and of
    the clock value it reads, and runs atomically, under the backend's mutex. *)

From S2P Require Import Prelude GoStrings Errors.

Record Rule : Type := MkRule { RuleKey : string; Limit : Z; Window : Z }.
Record Charge : Type := MkCharge { ChargeKey : string; Units : Z }.

Record Snapshot : Type := MkSnapshot {
  SnapshotRule : Rule;
  WindowStart : Z;
  Used : Z;
  SnapshotBlockedUntil : Z
}.

Record usageEvent : Type := MkUsageEvent { event_at : Z; event_units : Z }.

Record bucket : Type := MkBucket {
  events : list usageEvent;
  used : Z;
  blockedUntil : Z
}.

Record memoryBackend : Type := MkMemoryBackend {
  rules : gmap string Rule;
  buckets : gmap string bucket
}.

Definition emptyBucket : bucket := MkBucket [] 0 0.
Definition newMemoryBackend : memoryBackend := MkMemoryBackend ∅ ∅.

(** [memoryBackend.SetRule]: a rule that is new or whose limit or window
    changed starts with a fresh bucket. *)
Definition backend_SetRule (backend : memoryBackend) (rule : Rule) : memoryBackend :=
  let fresh :=
    match rules backend !! RuleKey rule with
    | None => true
    | Some previous =>
        negb (bool_decide (Limit previous = Limit rule)) ||
        negb (bool_decide (Window previous = Window rule))
    end in
  MkMemoryBackend (<[RuleKey rule := rule]> (rules backend))
    (if fresh then <[RuleKey rule := emptyBucket]> (buckets backend) else buckets backend).

(** [Limiter.SetRule]. *)
Definition SetRule (backend : memoryBackend) (rule : Rule) : result error memoryBackend :=
  let rule := MkRule (TrimSpace (RuleKey rule)) (Limit rule) (Window rule) in
  if bool_decide (RuleKey rule = "") || bool_decide (Limit rule ≤ 0) ||
     bool_decide (Window rule ≤ 0)
  then Err (Wrapf "%w: key, positive limit, and positive window are required"
              (Sentinel ErrInvalidRule))
  else Ok (backend_SetRule backend rule).

(** [New] with its initial rules. *)
Definition New (initial : list Rule) : result error memoryBackend :=
  fold_result SetRule newMemoryBackend initial.

(** The pruning loop of [bucketFor]: events not after the cutoff are dropped
    from the front and their units given back. *)
Fixpoint dropExpired (cutoff used : Z) (events : list usageEvent) : list usageEvent * Z :=
  match events with
  | [] => ([], used)
  | event :: rest =>
      if negb (bool_decide (cutoff < event_at event))
      then dropExpired cutoff (int64 (used - event_units event)) rest
      else (events, used)
  end.

Definition prune (rule : Rule) (now : Z) (state : bucket) : bucket :=
  let '(es, u) := dropExpired (now - Window rule) (used state) (events state) in
  MkBucket es u (blockedUntil state).

(** [memoryBackend.bucketFor]: the bucket of the rule, created when missing,
    pruned in place. *)
Definition bucketFor (backend : memoryBackend) (rule : Rule) (now : Z)
    : bucket * memoryBackend :=
  let state := prune rule now (default emptyBucket (buckets backend !! RuleKey rule)) in
  (state, MkMemoryBackend (rules backend) (<[RuleKey rule := state]> (buckets backend))).

(** [eventExpiration]; 0 is the zero time. *)
Fixpoint eventExpiration (events : list usageEvent) (units window : Z) : Z :=
  match events with
  | [] => 0
  | event :: rest =>
      let units := int64 (units - event_units event) in
      if bool_decide (units ≤ 0) then event_at event + window
      else eventExpiration rest units window
  end.

(** One iteration of the first loop of [tryAcquire], for a rule and its
    bucket: the wait it leaves in [waitUntil]. *)
Definition checkCharge (now waitUntil : Z) (rule : Rule) (state : bucket) (units : Z) : Z :=
  let waitUntil :=
    if bool_decide (now < blockedUntil state) && bool_decide (waitUntil < blockedUntil state)
    then blockedUntil state else waitUntil in
  let excess := int64 (used state + units - Limit rule) in
  if bool_decide (0 < excess) then
    let expiresAt := eventExpiration (events state) excess (Window rule) in
    if bool_decide (waitUntil < expiresAt) then expiresAt else waitUntil
  else waitUntil.

Fixpoint checkCharges (now : Z) (charges : list Charge) (waitUntil : Z)
    (backend : memoryBackend) : memoryBackend * result error Z :=
  match charges with
  | [] => (backend, Ok waitUntil)
  | charge :: rest =>
      match rules backend !! ChargeKey charge with
      | None => (backend, Err (Wrapf "%w: %q" (Sentinel ErrUnknownRule)))
      | Some rule =>
          if bool_decide (Limit rule < Units charge)
          then (backend, Err (Wrapf "%w: charge %d exceeds rule %q limit %d"
                                (Sentinel ErrInvalidRule)))
          else
            let '(state, backend) := bucketFor backend rule now in
            checkCharges now rest (checkCharge now waitUntil rule state (Units charge)) backend
      end
  end.

(** The second loop of [tryAcquire]; the lookup of a missing rule would read
    Go's zero rule. *)
Definition consume (now : Z) (backend : memoryBackend) (charge : Charge) : memoryBackend :=
  let rule := default (MkRule "" 0 0) (rules backend !! ChargeKey charge) in
  let '(state, backend) := bucketFor backend rule now in
  MkMemoryBackend (rules backend)
    (<[RuleKey rule :=
         MkBucket (events state ++ [MkUsageEvent now (Units charge)])
           (int64 (used state + Units charge)) (blockedUntil state)]> (buckets backend)).

(** [memoryBackend.tryAcquire]: [Ok 0] grants, [Ok w] asks to wait until [w]. *)
Definition tryAcquire (backend : memoryBackend) (now : Z) (charges : list Charge)
    : memoryBackend * result error Z :=
  match checkCharges now charges 0 backend with
  | (backend, Err e) => (backend, Err e)
  | (backend, Ok waitUntil) =>
      if negb (bool_decide (waitUntil = 0)) then (backend, Ok waitUntil)
      else (foldl (consume now) backend charges, Ok 0)
  end.

(** [normalizeCharges]: trimmed keys, units added per key, sorted by key. *)
Definition addCharge (combined : gmap string Z) (charge : Charge) : result error (gmap string Z) :=
  let key := TrimSpace (ChargeKey charge) in
  if bool_decide (key = "") || bool_decide (Units charge ≤ 0)
  then Err (Errorf "charge key and positive units are required")
  else Ok (<[key := int64 (default 0 (combined !! key) + Units charge)]> combined).

Definition charge_le (c1 c2 : Charge) : Prop := String.le (ChargeKey c1) (ChargeKey c2).

#[export] Instance charge_le_dec : RelDecision charge_le.
Proof. intros c1 c2. unfold charge_le. apply _. Defined.

Definition normalizeCharges (charges : list Charge) : result error (list Charge) :=
  combined ← fold_result addCharge ∅ charges;
  Ok (merge_sort charge_le ((λ entry, MkCharge entry.1 entry.2) <$> map_to_list combined)).

(** [memoryBackend.Wait] against a script of what each iteration meets: the
    state other goroutines left in the backend, the clock at the attempt and
    after it, and whether the context ends before the timer. *)
Record waitIteration : Type := MkWaitIteration {
  interference : memoryBackend → memoryBackend;
  iteration_now : Z;
  iteration_until : Z;
  iteration_done : option error
}.

Fixpoint backend_Wait (script : list waitIteration) (backend : memoryBackend)
    (charges : list Charge) : memoryBackend * option (result error unit) :=
  match script with
  | [] => (backend, None)
  | it :: script =>
      match tryAcquire (interference it backend) (iteration_now it) charges with
      | (backend, Err e) => (backend, Some (Err e))
      | (backend, Ok waitUntil) =>
          if bool_decide (waitUntil = 0) then (backend, Some (Ok tt))
          else if bool_decide (waitUntil - iteration_until it ≤ 0)
          then backend_Wait script backend charges
          else match iteration_done it with
               | Some e => (backend, Some (Err e))
               | None => backend_Wait script backend charges
               end
      end
  end.

(** [Limiter.Wait]. *)
Definition Wait (script : list waitIteration) (backend : memoryBackend)
    (charges : list Charge) : memoryBackend * option (result error unit) :=
  match normalizeCharges charges with
  | Err e => (backend, Some (Err e))
  | Ok [] => (backend, Some (Ok tt))
  | Ok normalized => backend_Wait script backend normalized
  end.

(** [ObserveUsed] of the limiter and its backend. *)
Definition ObserveUsed (backend : memoryBackend) (now : Z) (key : string) (observed : Z)
    : memoryBackend * option error :=
  if bool_decide (observed < 0)
  then (backend, Some (Errorf "observed usage cannot be negative"))
  else
    match rules backend !! key with
    | None => (backend, Some (Wrapf "%w: %q" (Sentinel ErrUnknownRule)))
    | Some rule =>
        let '(state, backend) := bucketFor backend rule now in
        if bool_decide (used state < observed) then
          let delta := int64 (observed - used state) in
          (MkMemoryBackend (rules backend)
             (<[RuleKey rule := MkBucket (events state ++ [MkUsageEvent now delta]) observed
                                  (blockedUntil state)]> (buckets backend)), None)
        else (backend, None)
    end.

(** [BlockFor] of the limiter and its backend: all the keys are checked before
    any bucket changes. *)
Definition blockKey (until : Z) (buckets : gmap string bucket) (key : string)
    : gmap string bucket :=
  let state := default emptyBucket (buckets !! key) in
  if bool_decide (blockedUntil state < until)
  then <[key := MkBucket (events state) (used state) until]> buckets
  else <[key := state]> buckets.

Definition BlockFor (backend : memoryBackend) (now : Z) (keys : list string) (duration : Z)
    : memoryBackend * option error :=
  if bool_decide (duration ≤ 0) then (backend, Some (Errorf "block duration must be positive"))
  else
    let until := now + duration in
    if negb (forallb (λ key, bool_decide (is_Some (rules backend !! key))) keys)
    then (backend, Some (Wrapf "%w: %q" (Sentinel ErrUnknownRule)))
    else (MkMemoryBackend (rules backend) (foldl (blockKey until) (buckets backend) keys), None).

(** [Limiter.Snapshot]. *)
Definition backend_Snapshot (backend : memoryBackend) (now : Z) (key : string)
    : memoryBackend * result error Snapshot :=
  match rules backend !! key with
  | None => (backend, Err (Wrapf "%w: %q" (Sentinel ErrUnknownRule)))
  | Some rule =>
      let '(state, backend) := bucketFor backend rule now in
      let windowStart := match events state with [] => 0 | event :: _ => event_at event end in
      (backend, Ok (MkSnapshot rule windowStart (used state) (blockedUntil state)))
  end.

(** A rule of two units per ten nanoseconds: two requests pass, the third is
    told to wait for the first event to expire. *)
Example tryAcquire_runs :
  let backend := default newMemoryBackend
    (match New [MkRule "ip" 2 10] with Ok b => Some b | Err _ => None end) in
  let '(b1, r1) := tryAcquire backend 100 [MkCharge "ip" 1] in
  let '(b2, r2) := tryAcquire b1 103 [MkCharge "ip" 1] in
  let '(b3, r3) := tryAcquire b2 105 [MkCharge "ip" 1] in
  let '(b4, r4) := tryAcquire b3 110 [MkCharge "ip" 1] in
  (r1, r2, r3, r4) = (Ok 0, Ok 0, Ok 110, Ok 0).
Proof. vm_compute. reflexivity. Qed.

(** ** Well-formed buckets and backends *)

Definition bucket_of (backend : memoryBackend) (key : string) : bucket :=
  default emptyBucket (buckets backend !! key).

Definition event_le (e1 e2 : usageEvent) : Prop := event_at e1 ≤ event_at e2.

(** Counters stay below [2^62], so that the sums of the code do not wrap. *)
Definition small : Z := 2 ^ 62.

Record bucket_ok (T : Z) (b : bucket) : Prop := {
  ok_used : used b = sumZ event_units (events b);
  ok_positive : Forall (λ e, 0 < event_units e) (events b);
  ok_sorted : StronglySorted event_le (events b);
  ok_past : Forall (λ e, event_at e ≤ T) (events b);
  ok_small : used b < small;
  ok_blocked : 0 ≤ blockedUntil b
}.

Record backend_ok (T : Z) (backend : memoryBackend) : Prop := {
  ok_rules : ∀ key rule, rules backend !! key = Some rule →
    RuleKey rule = key ∧ 0 < Limit rule < small ∧ 0 < Window rule;
  ok_buckets : ∀ key, bucket_ok T (bucket_of backend key)
}.

Lemma emptyBucket_ok T : bucket_ok T emptyBucket.
Proof. split; simpl; try constructor; unfold small; lia. Qed.

Lemma bucket_ok_mono T T' b : T ≤ T' → bucket_ok T b → bucket_ok T' b.
Proof.
  intros HT []. split; try done.
  eapply Forall_impl; [done|]. simpl. lia.
Qed.

Lemma backend_ok_mono T T' b : T ≤ T' → backend_ok T b → backend_ok T' b.
Proof. intros HT []. split; [done|]. intros. by eapply bucket_ok_mono. Qed.

(** The units of the events after a time. *)
Definition sum_after (c : Z) (es : list usageEvent) : Z :=
  sumZ event_units (filter (λ e, c < event_at e) es).

Lemma sum_after_cons c e es :
  sum_after c (e :: es) = (if decide (c < event_at e) then event_units e else 0) + sum_after c es.
Proof. unfold sum_after. rewrite filter_cons. case_decide; rewrite ?sumZ_cons; lia. Qed.

Lemma sum_after_app c es es' : sum_after c (es ++ es') = sum_after c es + sum_after c es'.
Proof. unfold sum_after. by rewrite filter_app, sumZ_app. Qed.

Lemma sum_after_filter c c' es :
  c' ≤ c → sum_after c (filter (λ e, c' < event_at e) es) = sum_after c es.
Proof.
  intros Hc. induction es as [|e es IH]; [done|]. rewrite filter_cons, sum_after_cons.
  case_decide; rewrite ?sum_after_cons, IH; [done|]. case_decide; lia.
Qed.

Lemma sum_after_bounds c es :
  Forall (λ e, 0 < event_units e) es → 0 ≤ sum_after c es ≤ sumZ event_units es.
Proof.
  induction 1 as [|e es He _ IH]; [done|]. rewrite sum_after_cons, sumZ_cons.
  case_decide; lia.
Qed.

Lemma dropExpired_spec cutoff es u :
  Forall (λ e, 0 < event_units e) es → StronglySorted event_le es →
  u = sumZ event_units es → u < small →
  dropExpired cutoff u es =
    (filter (λ e, cutoff < event_at e) es, sum_after cutoff es).
Proof.
  intros Hpos Hsort. revert u. induction Hsort as [|e es Hs IH He]; intros u Hu Hsmall.
  { by subst. }
  apply Forall_cons in Hpos as [Hpe Hpos]. rewrite sumZ_cons in Hu.
  pose proof (sum_after_bounds cutoff es Hpos).
  simpl. rewrite sum_after_cons, filter_cons. case_bool_decide as Hc; simpl.
  - rewrite !decide_True by done.
    assert (Forall (λ e', cutoff < event_at e') es).
    { eapply Forall_impl; [exact He|]. unfold event_le. simpl. lia. }
    unfold sum_after. rewrite filter_all by done. by subst.
  - rewrite !decide_False by done.
    rewrite int64_id by (unfold is_int64, MinInt64, MaxInt64, small in *; lia).
    rewrite IH by (done || lia). done.
Qed.

Lemma prune_spec T rule now b :
  bucket_ok T b →
  prune rule now b =
    MkBucket (filter (λ e, now - Window rule < event_at e) (events b))
      (sum_after (now - Window rule) (events b)) (blockedUntil b).
Proof. intros []. unfold prune. by rewrite dropExpired_spec. Qed.

Lemma prune_ok T rule now b : bucket_ok T b → bucket_ok T (prune rule now b).
Proof.
  intros Hb. rewrite (prune_spec T) by done. destruct Hb.
  pose proof (sum_after_bounds (now - Window rule) (events b) ok_positive0).
  split; simpl; try done; try by apply Forall_filter.
  - by apply StronglySorted_filter.
  - lia.
Qed.

Lemma prune_idemp rule now b : prune rule now (prune rule now b) = prune rule now b.
Proof.
  unfold prune.
  destruct (dropExpired (now - Window rule) (used b) (events b)) as [es u] eqn:H. simpl.
  assert (dropExpired (now - Window rule) u es = (es, u)) as ->; [|done].
  revert u es H. generalize (used b). induction (events b) as [|e l IH]; simpl; intros w u es H.
  - by simplify_eq.
  - case_bool_decide as Hc; simpl in H; [|by eapply IH].
    simplify_eq. simpl. by rewrite bool_decide_eq_true_2.
Qed.

(** [eventExpiration] finds an event whose expiry frees the requested units. *)
Lemma eventExpiration_spec es units window :
  Forall (λ e, 0 < event_units e) es → StronglySorted event_le es →
  0 < units ≤ sumZ event_units es → sumZ event_units es < small →
  ∃ e, e ∈ es ∧ eventExpiration es units window = event_at e + window ∧
    units ≤ sumZ event_units es - sum_after (event_at e) es.
Proof.
  intros Hpos Hsort. revert units. induction Hsort as [|e es Hs IH He]; intros units Hu Hsmall.
  { unfold sumZ in Hu. simpl in Hu. lia. }
  apply Forall_cons in Hpos as [Hpe Hpos]. rewrite sumZ_cons in *.
  pose proof (sum_after_bounds (event_at e) es Hpos).
  simpl. rewrite int64_id by (unfold is_int64, MinInt64, MaxInt64, small in *; lia).
  case_bool_decide as Hc.
  - exists e. split_and!; [by left|done|]. rewrite sum_after_cons, decide_False by lia. lia.
  - destruct (IH Hpos (units - event_units e)) as (e' & He' & -> & Hle); [lia..|].
    exists e'. split_and!; [by right|done|]. rewrite sum_after_cons, decide_False; [lia|].
    rewrite Forall_forall in He. specialize (He e' He'). unfold event_le in He. lia.
Qed.

(** ** One charge against one bucket *)

Definition charge_wait (now : Z) (rule : Rule) (state : bucket) (units : Z) : Z :=
  Z.max (if bool_decide (now < blockedUntil state) then blockedUntil state else 0)
    (let excess := used state + units - Limit rule in
     if bool_decide (0 < excess) then eventExpiration (events state) excess (Window rule) else 0).

Lemma checkCharge_max T now waitUntil rule state units :
  bucket_ok T state → 0 ≤ waitUntil → 0 < units ≤ Limit rule → Limit rule < small →
  checkCharge now waitUntil rule state units = Z.max waitUntil (charge_wait now rule state units).
Proof.
  intros Hb Hw Hu Hl. destruct Hb. unfold checkCharge, charge_wait.
  pose proof (sum_after_bounds now (events state) ok_positive0).
  rewrite int64_id by (unfold is_int64, MinInt64, MaxInt64, small in *; lia).
  destruct (bool_decide (now < blockedUntil state)) eqn:?; simpl;
    repeat case_bool_decide; lia.
Qed.

(** A charge waits, if at all, until a later time than now; at that time, and
    at any time from which the wait is over, it fits. *)
Lemma charge_wait_later T now rule state units :
  bucket_ok T state → 0 < units ≤ Limit rule → Limit rule < small → 0 < Window rule → 0 ≤ now →
  state = prune rule now state →
  let w := charge_wait now rule state units in
  (w = 0 ∨ now < w) ∧
  ∀ t, now ≤ t → w ≤ t → charge_wait t rule (prune rule t state) units = 0.
Proof.
  intros Hb Hu Hl Hw Hnow Hprune. cbv zeta.
  pose proof (ok_sorted _ _ Hb) as Hsort. pose proof (ok_positive _ _ Hb) as Hpos.
  pose proof (ok_used _ _ Hb) as Hused. pose proof (ok_small _ _ Hb) as Hsmall.
  assert (Forall (λ e, now - Window rule < event_at e) (events state)) as Hlive.
  { rewrite Hprune, (prune_spec T) by done. apply Forall_forall. simpl.
    intros e [? _]%list_elem_of_filter. done. }
  unfold charge_wait at 1 2.
  set (excess := used state + units - Limit rule).
  assert (0 < excess → ∃ e, e ∈ events state ∧
    eventExpiration (events state) excess (Window rule) = event_at e + Window rule ∧
    excess ≤ used state - sum_after (event_at e) (events state)) as Hexp.
  { intros. rewrite Hused. apply eventExpiration_spec; try done; unfold excess in *; lia. }
  split.
  - destruct (decide (0 < excess)) as [He|He].
    + rewrite (bool_decide_eq_true_2 _ He). destruct (Hexp He) as (e & Hin & -> & _).
      rewrite Forall_forall in Hlive. specialize (Hlive e Hin).
      guard_cases; lia.
    + rewrite (bool_decide_eq_false_2 _ He). guard_cases; lia.
  - intros t Ht Hwt. unfold charge_wait. rewrite (prune_spec T) by done. cbn [events used blockedUntil].
    pose proof (sum_after_bounds (t - Window rule) (events state) Hpos).
    unfold charge_wait in Hwt. fold excess in Hwt.
    assert (¬ t < blockedUntil state) by (guard_cases; lia).
    rewrite (bool_decide_eq_false_2 (t < _)) by done.
    rewrite (bool_decide_eq_false_2 (0 < _)); [done|].
    destruct (decide (0 < excess)) as [He|He]; [|unfold excess in He; lia].
    destruct (Hexp He) as (e & Hin & Heq & Hle).
    rewrite (bool_decide_eq_true_2 (0 < excess)), Heq in Hwt by done.
    assert (event_at e ≤ t - Window rule) as Hcut by lia.
    assert (sum_after (t - Window rule) (events state) ≤ sum_after (event_at e) (events state)).
    { rewrite <-(sum_after_filter (t - Window rule) (event_at e)) by done.
      apply sum_after_bounds. by apply Forall_filter. }
    unfold excess in *. lia.
Qed.

(** ** Checking the charges of a request *)

(** [b'] is [b] with some of its buckets pruned at [now]. *)
Record pruned (now : Z) (b b' : memoryBackend) : Prop := {
  pruned_rules : rules b' = rules b;
  pruned_bucket : ∀ key, bucket_of b' key = bucket_of b key ∨
    ∃ rule, rules b !! key = Some rule ∧ bucket_of b' key = prune rule now (bucket_of b key)
}.

Definition rule_of (b : memoryBackend) (key : string) : Rule :=
  default (MkRule "" 0 0) (rules b !! key).

Definition wait_of (now : Z) (b : memoryBackend) (c : Charge) : Z :=
  let rule := rule_of b (ChargeKey c) in
  charge_wait now rule (prune rule now (bucket_of b (ChargeKey c))) (Units c).

Definition waits (now : Z) (b : memoryBackend) (charges : list Charge) (w : Z) : Z :=
  foldl (λ w c, w `max` wait_of now b c) w charges.

(** The charge names a known rule whose limit it can ever satisfy. *)
Definition admitted (b : memoryBackend) (c : Charge) : Prop :=
  ∃ rule, rules b !! ChargeKey c = Some rule ∧ Units c ≤ Limit rule.

Lemma pruned_refl now b : pruned now b b.
Proof. split; auto. Qed.

Lemma pruned_trans now b1 b2 b3 : pruned now b1 b2 → pruned now b2 b3 → pruned now b1 b3.
Proof.
  intros [R1 H1] [R2 H2]. split; [congruence|]. intros key.
  destruct (H1 key) as [E1|(r1 & L1 & E1)], (H2 key) as [E2|(r2 & L2 & E2)];
    rewrite E2, ?E1; eauto.
  - right. exists r2. by rewrite <-R1.
  - right. rewrite R1 in L2. simplify_eq. eauto using prune_idemp.
Qed.

Lemma pruned_ok T now b b' : pruned now b b' → backend_ok T b → backend_ok T b'.
Proof.
  intros [R H] [Hr Hb]. split; [by rewrite R|]. intros key.
  destruct (H key) as [->|(r & _ & ->)]; auto using prune_ok.
Qed.

Lemma pruned_wait_of now b b' c : pruned now b b' → wait_of now b' c = wait_of now b c.
Proof.
  intros [R H]. unfold wait_of, rule_of. rewrite R. f_equal.
  destruct (H (ChargeKey c)) as [->|(r & -> & ->)]; [done|]. apply prune_idemp.
Qed.

Lemma pruned_waits now b b' cs w : pruned now b b' → waits now b' cs w = waits now b cs w.
Proof.
  intros H. unfold waits. revert w. induction cs as [|c cs IH]; intros w; [done|]. simpl.
  by rewrite (pruned_wait_of now b), IH.
Qed.

Lemma pruned_admitted now b b' c : pruned now b b' → admitted b' c ↔ admitted b c.
Proof. intros [R _]. unfold admitted. by rewrite R. Qed.

Lemma pruned_admitted_all now b b' cs :
  pruned now b b' → Forall (admitted b') cs ↔ Forall (admitted b) cs.
Proof. intros H. apply Forall_iff. intros c. by apply (pruned_admitted now). Qed.

Lemma bucket_of_insert R bs key b key' :
  bucket_of (MkMemoryBackend R (<[key := b]> bs)) key' =
    if decide (key = key') then b else default emptyBucket (bs !! key').
Proof. unfold bucket_of. simpl. rewrite lookup_insert. by case_decide. Qed.

Lemma bucketFor_spec T b key rule now :
  backend_ok T b → rules b !! key = Some rule →
  let r := bucketFor b rule now in
  r.1 = prune rule now (bucket_of b key) ∧ pruned now b r.2 ∧ bucket_of r.2 key = r.1.
Proof.
  intros Hb Hr. destruct (ok_rules _ _ Hb _ _ Hr) as [Hkey _]. subst key.
  split_and!; [done| |].
  - split; [done|]. intros key. simpl. rewrite bucket_of_insert. case_decide; [|by left].
    subst. right. eauto.
  - simpl. rewrite bucket_of_insert. by case_decide.
Qed.

Lemma waits_nonneg now b cs w : 0 ≤ w → 0 ≤ waits now b cs w.
Proof. unfold waits. revert w. induction cs; intros w Hw; [done|]. simpl. apply IHcs. lia. Qed.

Lemma checkCharges_spec T now cs w b :
  backend_ok T b → Forall (λ c, 0 < Units c) cs → 0 ≤ w →
  let r := checkCharges now cs w b in
  pruned now b r.1 ∧
  match r.2 with
  | Ok w' => Forall (admitted b) cs ∧ w' = waits now b cs w
  | Err e => ¬ Forall (admitted b) cs
  end.
Proof.
  intros Hb Hpos. revert w b Hb. induction Hpos as [|c cs Hc Hpos IH]; intros w b Hb Hw.
  { simpl. auto using pruned_refl. }
  cbv zeta. cbn [checkCharges]. destruct (rules b !! ChargeKey c) as [rule|] eqn:Hr.
  2:{ split; [apply pruned_refl|]. simpl. intros [(? & ? & _) _]%Forall_cons. congruence. }
  case_bool_decide as Hl.
  { split; [apply pruned_refl|]. simpl. intros [(? & ? & ?) _]%Forall_cons. simplify_eq. lia. }
  destruct (bucketFor_spec T b _ rule now Hb Hr) as (Hs & Hp & _).
  destruct (bucketFor b rule now) as [state b1]. cbn [fst snd] in *.
  destruct (ok_rules _ _ Hb _ _ Hr) as (Hk & Hlim & _).
  rewrite (checkCharge_max T) by (rewrite ?Hs; try lia; apply prune_ok, Hb).
  assert (charge_wait now rule state (Units c) = wait_of now b c) as ->.
  { unfold wait_of, rule_of. by rewrite Hr, Hs. }
  destruct (IH (w `max` wait_of now b c) b1) as [Hp' Hres]; [by eapply pruned_ok|lia|].
  split; [by eapply pruned_trans|].
  destruct (checkCharges _ _ _ b1) as [b2 [w'|e]]; cbn [fst snd] in *.
  - destruct Hres as [Had ->]. split; [|exact (pruned_waits now b b1 cs _ Hp)].
    constructor; [exists rule; split; [done|lia]|].
    by apply (pruned_admitted_all now b b1).
  - intros [_ Had]%Forall_cons. apply Hres. by apply (pruned_admitted_all now b b1).
Qed.

Lemma waits_le now b cs w c : c ∈ cs → wait_of now b c ≤ waits now b cs w.
Proof.
  unfold waits. revert w. induction cs as [|c' cs IH]; intros w; [by intros ?%elem_of_nil|].
  simpl. intros [->|Hin]%elem_of_cons; [|by apply IH].
  assert (∀ l v, v ≤ foldl (λ w c, w `max` wait_of now b c) v l) as Hge.
  { induction l as [|? ? IHl]; intros v; simpl; [done|]. specialize (IHl (v `max` wait_of now b a)). lia. }
  specialize (Hge cs (w `max` wait_of now b c')). lia.
Qed.

Lemma waits_attained now b cs w :
  waits now b cs w = w ∨ ∃ c, c ∈ cs ∧ waits now b cs w = wait_of now b c.
Proof.
  unfold waits. revert w. induction cs as [|c cs IH]; intros w; [by left|]. simpl.
  destruct (IH (w `max` wait_of now b c)) as [->|(c' & ? & ->)].
  - destruct (Z.max_spec w (wait_of now b c)) as [[_ ->]|[_ ->]]; [|by left].
    right. exists c. by split; [left|].
  - right. exists c'. by split; [right|].
Qed.

(** ** Consuming the charges of a granted request *)

Definition grant (now : Z) (rule : Rule) (b : bucket) (units : Z) : bucket :=
  let p := prune rule now b in
  MkBucket (events p ++ [MkUsageEvent now units]) (used p + units) (blockedUntil p).

(** The charge fits in its bucket at [now], which is not blocked. *)
Definition fits (now : Z) (b : memoryBackend) (c : Charge) : Prop :=
  ∃ rule, rules b !! ChargeKey c = Some rule ∧
    let p := prune rule now (bucket_of b (ChargeKey c)) in
    used p + Units c ≤ Limit rule ∧ blockedUntil p ≤ now.

Lemma append_event_ok T now b units :
  bucket_ok T b → T ≤ now → 0 < units → used b + units < small →
  bucket_ok now (MkBucket (events b ++ [MkUsageEvent now units]) (used b + units) (blockedUntil b)).
Proof.
  intros [Hu Hp Hs Hpast Hsm Hbl] HT Hpos Hsum. split; cbn [events used blockedUntil]; try done.
  - rewrite sumZ_app, Hu, sumZ_cons. unfold sumZ. simpl. lia.
  - apply Forall_app. split; [done|]. by constructor.
  - apply StronglySorted_app. split_and!; [|done|by repeat constructor].
    intros e1 e2 H1 ->%list_elem_of_singleton. rewrite Forall_forall in Hpast.
    specialize (Hpast e1 H1). unfold event_le. simpl in *. lia.
  - apply Forall_app. split; [|by constructor]. eapply Forall_impl; [done|]. simpl. lia.
Qed.

Lemma consume_spec T now b c :
  backend_ok T b → T ≤ now → 0 < Units c → fits now b c →
  let b' := consume now b c in
  rules b' = rules b ∧ backend_ok now b' ∧
  ∀ key, bucket_of b' key =
    if decide (ChargeKey c = key) then grant now (rule_of b key) (bucket_of b key) (Units c)
    else bucket_of b key.
Proof.
  intros Hb HT Hpos (rule & Hr & Hfit & _). cbv zeta.
  destruct (ok_rules _ _ Hb _ _ Hr) as (Hk & Hlim & _).
  destruct (bucketFor_spec T b _ rule now Hb Hr) as (Hs & Hp & _).
  pose proof (prune_ok T rule now _ (ok_buckets _ _ Hb (ChargeKey c))) as Hpo.
  assert (∀ key, bucket_of (consume now b c) key =
    if decide (ChargeKey c = key) then grant now (rule_of b key) (bucket_of b key) (Units c)
    else bucket_of b key) as Hbuckets.
  { intros key. unfold consume, rule_of. rewrite Hr. simpl.
    rewrite bucket_of_insert, Hk. case_decide as Heq; [subst key|].
    - unfold grant. rewrite Hr. simpl. fold (bucket_of b (ChargeKey c)). rewrite int64_id; [done|].
      pose proof (sum_after_bounds now _ (ok_positive _ _ Hpo)) as Hnn.
      rewrite <-(ok_used _ _ Hpo) in Hnn. simpl in *. unfold is_int64, MinInt64, MaxInt64, small in *. lia.
    - by rewrite lookup_insert_ne by done. }
  split_and!; [done| |done]. split.
  - simpl. apply Hb.
  - intros key. rewrite Hbuckets. case_decide; [subst key|].
    + unfold rule_of. rewrite Hr. simpl. eapply append_event_ok; [done..|]. simpl in *. lia.
    + eapply bucket_ok_mono; [done|]. apply Hb.
Qed.

Lemma consume_all T now b cs :
  backend_ok T b → T ≤ now → Forall (λ c, 0 < Units c) cs → NoDup (ChargeKey <$> cs) →
  Forall (fits now b) cs →
  let b' := foldl (consume now) b cs in
  rules b' = rules b ∧ backend_ok now b' ∧
  (∀ c, c ∈ cs → bucket_of b' (ChargeKey c) =
     grant now (rule_of b (ChargeKey c)) (bucket_of b (ChargeKey c)) (Units c)) ∧
  (∀ key, key ∉ ChargeKey <$> cs → bucket_of b' key = bucket_of b key).
Proof.
  intros Hb HT Hpos. revert T b Hb HT. induction Hpos as [|c cs Hc Hpos IH]; intros T b Hb HT Hnd Hfit.
  { simpl. split_and!; [done|by eapply backend_ok_mono|by intros ? ?%elem_of_nil|done]. }
  apply Forall_cons in Hfit as [Hfc Hfit]. simpl in Hnd. apply NoDup_cons in Hnd as [Hnot Hnd].
  destruct (consume_spec T now b c Hb HT Hc Hfc) as (Hr1 & Hb1 & Hk1).
  assert (∀ c', c' ∈ cs → bucket_of (consume now b c) (ChargeKey c') = bucket_of b (ChargeKey c'))
    as Hother.
  { intros c' Hc'. rewrite Hk1. case_decide as Heq; [|done].
    destruct Hnot. rewrite Heq. by apply list_elem_of_fmap_2. }
  destruct (IH now (consume now b c)) as (Hr & Hb' & Hin & Hout); [done|done|done| |].
  { rewrite Forall_forall in Hfit |- *. intros c' Hc'. destruct (Hfit c' Hc') as (r & ? & ?).
    exists r. rewrite Hr1, Hother by done. done. }
  cbn [foldl]. split_and!; [congruence|done| |].
  - intros c' [->|Hc']%elem_of_cons.
    + rewrite Hout, Hk1, decide_True by done. done.
    + rewrite Hin by done. unfold rule_of. by rewrite Hr1, Hother.
  - intros key [Hne Hkey]%not_elem_of_cons. by rewrite Hout, Hk1, decide_False by (done || congruence).
Qed.

Lemma wait_of_fits T now b c :
  backend_ok T b → 0 ≤ now → 0 < Units c → admitted b c →
  (wait_of now b c = 0 ↔ fits now b c) ∧ (wait_of now b c = 0 ∨ now < wait_of now b c).
Proof.
  intros Hb Hnow Hpos (rule & Hr & Hle). destruct (ok_rules _ _ Hb _ _ Hr) as (Hk & Hlim & Hw).
  pose proof (prune_ok T rule now _ (ok_buckets _ _ Hb (ChargeKey c))) as Hpo.
  destruct (charge_wait_later T now rule (prune rule now (bucket_of b (ChargeKey c))) (Units c))
    as [Hlater _]; rewrite ?prune_idemp; try done; [lia|].
  unfold wait_of, fits, rule_of. rewrite Hr. simpl. split; [|done].
  split.
  - intros H0. exists rule. split; [done|]. cbv zeta. unfold charge_wait in H0. cbv zeta in H0.
    pose proof (ok_blocked _ _ Hpo).
    set (p := prune _ _ _) in *.
    destruct (decide (0 < used p + Units c - Limit rule)) as [He|He].
    + exfalso. rewrite (bool_decide_eq_true_2 _ He) in H0.
      destruct (eventExpiration_spec (events p) (used p + Units c - Limit rule) (Window rule))
        as (e & Hin & Heq & _); rewrite <-?(ok_used _ _ Hpo).
      * apply Hpo.
      * apply Hpo.
      * lia.
      * apply Hpo.
      * rewrite Heq in H0. unfold p in Hin. rewrite (prune_spec T) in Hin by apply Hb.
        apply list_elem_of_filter in Hin as [? _]. lia.
    + split; [lia|]. guard_cases; lia.
  - intros (rule' & ? & Hfit & Hbl). simplify_eq. unfold charge_wait.
    rewrite !bool_decide_eq_false_2 by (simpl in *; lia). done.
Qed.

(** ** Granting and refusing requests *)

Lemma tryAcquire_cases T now b cs :
  backend_ok T b → 0 ≤ now → Forall (λ c, 0 < Units c) cs →
  let r := tryAcquire b now cs in
  match r.2 with
  | Err e => ¬ Forall (admitted b) cs ∧ pruned now b r.1
  | Ok w =>
      Forall (admitted b) cs ∧ w = waits now b cs 0 ∧
      if decide (w = 0) then
        Forall (fits now b) cs ∧
        ∃ b1, pruned now b b1 ∧ r.1 = foldl (consume now) b1 cs ∧ Forall (fits now b1) cs
      else ¬ Forall (fits now b) cs ∧ now < w ∧ pruned now b r.1
  end.
Proof.
  intros Hb Hnow Hpos. cbv zeta. unfold tryAcquire.
  destruct (checkCharges_spec T now cs 0 b Hb Hpos ltac:(lia)) as [Hp Hres].
  destruct (checkCharges now cs 0 b) as [b1 [w|e]]; cbn [fst snd] in *; [|by split].
  destruct Hres as [Had Hw].
  pose proof (pruned_ok T _ _ _ Hp Hb) as Hb1.
  assert (∀ b', pruned now b b' → ∀ c, c ∈ cs →
    (wait_of now b c = 0 ↔ fits now b' c) ∧ (wait_of now b c = 0 ∨ now < wait_of now b c)) as Hfits.
  { intros b' Hp' c Hc. rewrite <-(pruned_wait_of now b b') by done.
    rewrite Forall_forall in Had, Hpos.
    eapply wait_of_fits; eauto using pruned_ok. apply (pruned_admitted now b b'); auto. }
  destruct (decide (w = 0)) as [->|Hw0]; simpl.
  - split; [done|]. split; [done|].
    assert (∀ b', pruned now b b' → Forall (fits now b') cs) as Hall.
    { intros b' Hp'. apply Forall_forall. intros c Hc. destruct (Hfits b' Hp' c Hc) as [Hiff Hor].
      apply Hiff. pose proof (waits_le now b cs 0 c Hc). lia. }
    split; [apply Hall, pruned_refl|]. exists b1. auto.
  - rewrite (bool_decide_eq_false_2 _ Hw0). simpl. rewrite decide_False by done.
    destruct (waits_attained now b cs 0) as [?|(c & Hc & Heq)]; [congruence|].
    destruct (Hfits b (pruned_refl _ _) c Hc) as [Hiff Hor].
    split_and!; [done..| |lia|done].
    rewrite Forall_forall. intros Hall. apply Hw0. rewrite Hw, Heq. by apply Hiff, Hall.
Qed.

Lemma pruned_grant T now b b1 key units :
  backend_ok T b → pruned now b b1 →
  grant now (rule_of b1 key) (bucket_of b1 key) units =
  grant now (rule_of b key) (bucket_of b key) units.
Proof.
  intros Hb [Hr Hp]. unfold rule_of. rewrite Hr.
  destruct (Hp key) as [->|(rule & -> & ->)]; [done|]. unfold grant. simpl. by rewrite prune_idemp.
Qed.

Lemma tryAcquire_granted T now b cs b' :
  backend_ok T b → T ≤ now → 0 ≤ now → Forall (λ c, 0 < Units c) cs →
  NoDup (ChargeKey <$> cs) → tryAcquire b now cs = (b', Ok 0) →
  rules b' = rules b ∧ backend_ok now b' ∧
  (∀ c, c ∈ cs → bucket_of b' (ChargeKey c) =
     grant now (rule_of b (ChargeKey c)) (bucket_of b (ChargeKey c)) (Units c)) ∧
  (∀ key, key ∉ ChargeKey <$> cs → bucket_of b' key = bucket_of b key ∨
     ∃ rule, rules b !! key = Some rule ∧ bucket_of b' key = prune rule now (bucket_of b key)).
Proof.
  intros Hb HT Hnow Hpos Hnd Htry.
  pose proof (tryAcquire_cases T now b cs Hb Hnow Hpos) as H. cbv zeta in H.
  rewrite Htry in H. simpl in H. destruct H as (_ & _ & _ & b1 & Hp & -> & Hfit1).
  destruct (consume_all T now b1 cs) as (Hr & Hb' & Hin & Hout); eauto using pruned_ok.
  split_and!; [rewrite Hr; apply Hp|done| |].
  - intros c Hc. rewrite Hin by done. by eapply pruned_grant.
  - intros key Hkey. rewrite Hout by done. apply Hp.
Qed.

(** [tryAcquire] is all or nothing.  On a well-formed backend, a request
    with distinct keys and positive units is refused with an error exactly when
    some charge names no rule or exceeds its limit; granted exactly when every
    charge fits in its pruned, unblocked bucket, and then every charged bucket
    receives exactly its event and no other bucket changes; otherwise told a
    later time.  A request that is not granted only prunes expired events. *)
Theorem tryAcquire_all_or_nothing T now b cs :
  backend_ok T b → T ≤ now → 0 ≤ now → Forall (λ c, 0 < Units c) cs →
  NoDup (ChargeKey <$> cs) →
  let r := tryAcquire b now cs in
  match r.2 with
  | Err e => ¬ Forall (admitted b) cs ∧ pruned now b r.1
  | Ok w =>
      Forall (admitted b) cs ∧
      if decide (w = 0) then
        Forall (fits now b) cs ∧ rules r.1 = rules b ∧ backend_ok now r.1 ∧
        (∀ c, c ∈ cs → bucket_of r.1 (ChargeKey c) =
           grant now (rule_of b (ChargeKey c)) (bucket_of b (ChargeKey c)) (Units c)) ∧
        (∀ key, key ∉ ChargeKey <$> cs → bucket_of r.1 key = bucket_of b key ∨
           ∃ rule, rules b !! key = Some rule ∧ bucket_of r.1 key = prune rule now (bucket_of b key))
      else ¬ Forall (fits now b) cs ∧ now < w ∧ pruned now b r.1
  end.
Proof.
  intros Hb HT Hnow Hpos Hnd. cbv zeta.
  pose proof (tryAcquire_cases T now b cs Hb Hnow Hpos) as H. cbv zeta in H.
  destruct (tryAcquire b now cs) as [b' [w|e]] eqn:Htry; cbn [fst snd] in *; [|done].
  destruct H as (Had & _ & H). split; [done|]. case_decide; [|done]. subst w.
  split; [apply H|]. by eapply tryAcquire_granted.
Qed.

Lemma prune_prune T rule now t b :
  bucket_ok T b → now ≤ t → prune rule t (prune rule now b) = prune rule t b.
Proof.
  intros Hb Ht. rewrite (prune_spec T rule t (prune _ _ _)) by by apply prune_ok.
  rewrite !(prune_spec T) by done. cbn [events used blockedUntil]. f_equal.
  - rewrite list_filter_filter. apply list_filter_iff. intros e. lia.
  - apply sum_after_filter. lia.
Qed.

(** A wait is always for a later time and always enough: when [tryAcquire]
    answers with a time, retrying at that time or later without interference
    grants the request, so the loop of [Wait] does not starve by itself. *)
Theorem tryAcquire_wait_suffices T now b cs b' w :
  backend_ok T b → 0 ≤ now → Forall (λ c, 0 < Units c) cs →
  tryAcquire b now cs = (b', Ok w) → w ≠ 0 →
  now < w ∧ ∀ t, w ≤ t → ∃ b'', tryAcquire b' t cs = (b'', Ok 0).
Proof.
  intros Hb Hnow Hpos Htry Hw.
  pose proof (tryAcquire_cases T now b cs Hb Hnow Hpos) as H. rewrite Htry in H. simpl in H.
  rewrite decide_False in H by done. destruct H as (Had & Hwait & _ & Hlt & Hp).
  split; [done|]. intros t Ht.
  pose proof (pruned_ok T _ _ _ Hp Hb) as Hb'.
  pose proof (tryAcquire_cases T t b' cs Hb' ltac:(lia) Hpos) as H. cbv zeta in H.
  destruct (tryAcquire b' t cs) as [b'' [w'|e]]; simpl in *.
  2:{ destruct H as [[] _]. by apply (pruned_admitted_all now b b'). }
  exists b''. destruct H as (_ & -> & _). do 2 f_equal.
  destruct (waits_attained t b' cs 0) as [?|(c & Hc & ->)]; [done|].
  rewrite Forall_forall in Had, Hpos. destruct (Had c Hc) as (rule & Hr & Hle).
  destruct (ok_rules _ _ Hb _ _ Hr) as (_ & Hlim & Hwin).
  pose proof (ok_buckets _ _ Hb (ChargeKey c)) as Hbk.
  assert (0 < Units c ≤ Limit rule) as Hunits by (split; [by apply Hpos|done]).
  destruct (charge_wait_later T now rule (prune rule now (bucket_of b (ChargeKey c))) (Units c)
    (prune_ok _ _ _ _ Hbk) Hunits ltac:(lia) ltac:(done) Hnow (eq_sym (prune_idemp _ _ _)))
    as [_ Hlater].
  specialize (Hlater t ltac:(lia)). rewrite (prune_prune T) in Hlater by (done || lia).
  pose proof (waits_le now b cs 0 c Hc) as Hc0. unfold wait_of, rule_of in *.
  rewrite (pruned_rules _ _ _ Hp), Hr in *. simpl in *.
  rewrite <-Hlater by lia. f_equal.
  destruct (pruned_bucket _ _ _ Hp (ChargeKey c)) as [->|(rule' & ? & ->)]; [done|].
  simplify_eq. apply (prune_prune T); [done|lia].
Qed.

(** ** Normalised charges *)

Definition charge_key (c : Charge) : string := TrimSpace (ChargeKey c).

Definition valid_charge (c : Charge) : Prop := charge_key c ≠ "" ∧ 0 < Units c.

Definition units_for (key : string) (cs : list Charge) : Z :=
  sumZ Units (filter (λ c, charge_key c = key) cs).

Lemma units_for_cons key c cs :
  units_for key (c :: cs) = (if decide (charge_key c = key) then Units c else 0) + units_for key cs.
Proof. unfold units_for. rewrite filter_cons. case_decide; rewrite ?sumZ_cons; lia. Qed.

Lemma int64_add_l a b : int64 (int64 a + b) = int64 (a + b).
Proof.
  unfold int64. f_equal.
  replace ((a + 2 ^ 63) mod 2 ^ 64 - 2 ^ 63 + b + 2 ^ 63) with ((a + 2 ^ 63) mod 2 ^ 64 + b) by lia.
  rewrite Zplus_mod_idemp_l. f_equal. lia.
Qed.

#[export] Instance valid_charge_dec c : Decision (valid_charge c).
Proof. unfold valid_charge. apply _. Defined.

Lemma addCharge_spec m c :
  addCharge m c =
    if decide (valid_charge c)
    then Ok (<[charge_key c := int64 (default 0 (m !! charge_key c) + Units c)]> m)
    else Err (Errorf "charge key and positive units are required").
Proof.
  unfold addCharge, valid_charge. fold (charge_key c).
  guard_cases; [by rewrite decide_False by naive_solver|].
  guard_cases; [by rewrite decide_False by (intros [_ ?]; lia)|].
  by rewrite decide_True by (split; [done|lia]).
Qed.

Lemma addCharges_spec cs m :
  match fold_result addCharge m cs with
  | Ok m' => Forall valid_charge cs ∧ ∀ key,
      m' !! key = if decide (key ∈ charge_key <$> cs)
                  then Some (int64 (default 0 (m !! key) + units_for key cs)) else m !! key
  | Err _ => ¬ Forall valid_charge cs
  end.
Proof.
  revert m. induction cs as [|c cs IH]; intros m; [split; done|]. cbn [fold_result].
  rewrite addCharge_spec. case_decide as Hc; simpl; [|by intros [? _]%Forall_cons].
  match goal with |- context [fold_result _ ?m1 cs] => specialize (IH m1) end.
  destruct (fold_result addCharge _ cs) as [m'|e]; [|by intros [_ ?]%Forall_cons].
  destruct IH as [Hv Hm]. split; [by constructor|].
  intros key. rewrite Hm, units_for_cons, lookup_insert.
  destruct (decide (charge_key c = key)) as [<-|Hne]; simpl.
  - rewrite (decide_True (P := charge_key c ∈ _ :: _)) by left.
    case_decide as Hin; [by rewrite int64_add_l, Z.add_assoc|].
    assert (units_for (charge_key c) cs = 0) as ->; [|by rewrite Z.add_0_r].
    unfold units_for. rewrite filter_none; [done|]. apply Forall_forall. intros c' Hc' Heq.
    destruct Hin. rewrite <-Heq. by apply list_elem_of_fmap_2.
  - rewrite Z.add_0_l.
    change (list_fmap Charge string charge_key cs) with (charge_key <$> cs).
    destruct (decide (key ∈ charge_key <$> cs)) as [Hin|Hin].
    + by rewrite decide_True by by right.
    + by rewrite decide_False by (intros [->|?]%elem_of_cons; done).
Qed.

#[export] Instance charge_le_trans : Transitive charge_le.
Proof. intros c1 c2 c3. unfold charge_le. apply transitivity. Qed.
#[export] Instance charge_le_total : Total charge_le.
Proof. intros c1 c2. apply (total String.le). Qed.

(** [normalizeCharges] refuses exactly the lists with a charge whose
    trimmed key is empty or whose units are not positive; otherwise its result
    has one charge per trimmed key, whose units are the 64-bit sum of the units
    asked for that key, sorted by key, whatever the order of the argument. *)
Theorem normalizeCharges_spec cs :
  match normalizeCharges cs with
  | Ok ns =>
      Forall valid_charge cs ∧ StronglySorted charge_le ns ∧ NoDup (ChargeKey <$> ns) ∧
      ∀ key units, MkCharge key units ∈ ns ↔
        key ∈ charge_key <$> cs ∧ units = int64 (units_for key cs)
  | Err _ => ¬ Forall valid_charge cs
  end.
Proof.
  unfold normalizeCharges. pose proof (addCharges_spec cs ∅) as H.
  destruct (fold_result addCharge ∅ cs) as [m|e]; simpl; [|done].
  destruct H as [Hv Hm]. split_and!; [done|by apply sort_StronglySorted; apply _| |].
  - rewrite (merge_sort_Permutation charge_le), <-list_fmap_compose.
    apply (NoDup_fst_map_to_list m).
  - intros key units. rewrite elem_of_sort, list_elem_of_fmap.
    transitivity (m !! key = Some units).
    + rewrite <-elem_of_map_to_list. split; [intros ([] & ? & ?); naive_solver|].
      intros. by exists (key, units).
    + rewrite Hm, lookup_empty. case_decide; naive_solver.
Qed.

(** ** The window bound over executions *)

(** The calls a limiter serves between two changes of its rules.  An acquire is
    one attempt of [Wait]; what other goroutines do between the attempts of a
    waiting caller are further operations of the same sequence. *)
Inductive operation : Type :=
  | OpAcquire (now : Z) (charges : list Charge)
  | OpObserve (now : Z) (key : string) (observed : Z)
  | OpBlock (now : Z) (keys : list string) (duration : Z)
  | OpSnapshot (now : Z) (key : string).

Definition op_time (op : operation) : Z :=
  match op with
  | OpAcquire now _ | OpObserve now _ _ | OpBlock now _ _ | OpSnapshot now _ => now
  end.

Definition op_before (op1 op2 : operation) : Prop := op_time op1 ≤ op_time op2.

(** The integers of the call stay away from the ends of Go's [int]. *)
Definition op_sized (op : operation) : Prop :=
  0 ≤ op_time op ∧
  match op with
  | OpAcquire _ charges => ∀ key, is_int64 (units_for key charges)
  | OpObserve _ _ observed => observed < small
  | _ => True
  end.

(** The backend after the call, and what the call granted. *)
Definition apply_op (b : memoryBackend) (op : operation) : memoryBackend * list Charge :=
  match op with
  | OpAcquire now charges =>
      match normalizeCharges charges with
      | Err _ => (b, [])
      | Ok normalized =>
          match tryAcquire b now normalized with
          | (b', Ok w) => (b', if bool_decide (w = 0) then normalized else [])
          | (b', Err _) => (b', [])
          end
      end
  | OpObserve now key observed => ((ObserveUsed b now key observed).1, [])
  | OpBlock now keys duration => ((BlockFor b now keys duration).1, [])
  | OpSnapshot now key => ((backend_Snapshot b now key).1, [])
  end.

(** The grants of an execution, each with its time. *)
Abbreviation log := (list (Z * Charge)).

Definition run_op (s : memoryBackend * log) (op : operation) : memoryBackend * log :=
  let '(b, granted) := apply_op s.1 op in
  (b, s.2 ++ ((λ c, (op_time op, c)) <$> granted)).

Definition run (b : memoryBackend) (ops : list operation) : memoryBackend * log :=
  foldl run_op (b, []) ops.

Definition granted_after (key : string) (lo : Z) (l : log) : Z :=
  sumZ (λ e, Units e.2) (filter (λ e, ChargeKey e.2 = key ∧ lo < e.1) l).

Definition granted_between (key : string) (lo hi : Z) (l : log) : Z :=
  sumZ (λ e, Units e.2) (filter (λ e, ChargeKey e.2 = key ∧ lo < e.1 ≤ hi) l).

Record log_ok (T : Z) (b : memoryBackend) (l : log) : Prop := {
  log_backend : backend_ok T b;
  log_recorded : ∀ key rule c, rules b !! key = Some rule → T - Window rule ≤ c →
    granted_after key c l ≤ sum_after c (events (bucket_of b key));
  log_bounded : ∀ key rule t, rules b !! key = Some rule →
    granted_between key (t - Window rule) t l ≤ Limit rule;
  log_positive : Forall (λ e, 0 < Units e.2) l
}.

Lemma granted_after_app key lo l l' :
  granted_after key lo (l ++ l') = granted_after key lo l + granted_after key lo l'.
Proof. unfold granted_after. by rewrite filter_app, sumZ_app. Qed.

Lemma granted_between_app key lo hi l l' :
  granted_between key lo hi (l ++ l') = granted_between key lo hi l + granted_between key lo hi l'.
Proof. unfold granted_between. by rewrite filter_app, sumZ_app. Qed.

Lemma granted_between_le_after key lo hi l :
  Forall (λ e, 0 < Units e.2) l → granted_between key lo hi l ≤ granted_after key lo l.
Proof.
  unfold granted_between, granted_after. induction 1 as [|e l He _ IH]; [done|].
  rewrite !filter_cons. repeat case_decide; rewrite ?sumZ_cons; try lia. naive_solver lia.
Qed.

(** The grants of one request: at most one charge per key. *)
Lemma granted_now key lo now cs c :
  NoDup (ChargeKey <$> cs) → c ∈ cs → ChargeKey c = key →
  granted_after key lo ((λ c, (now, c)) <$> cs) = if decide (lo < now) then Units c else 0.
Proof.
  intros Hnd Hin Hkey. unfold granted_after. induction cs as [|c' cs IH]; [by apply elem_of_nil in Hin|].
  simpl in Hnd. apply NoDup_cons in Hnd as [Hnot Hnd]. rewrite fmap_cons, filter_cons. simpl.
  apply elem_of_cons in Hin as [<-|Hin].
  - rewrite (filter_none (λ e : Z * Charge, _) (_ <$> cs)).
    + repeat case_decide; unfold sumZ; simpl; naive_solver lia.
    + apply Forall_forall. intros e (c' & -> & Hc')%list_elem_of_fmap [Heq _]. simpl in Heq.
      destruct Hnot. rewrite Hkey, <-Heq. by apply list_elem_of_fmap_2.
  - rewrite decide_False; [by apply IH|]. intros [Heq _].
    destruct Hnot. rewrite Heq, <-Hkey. by apply list_elem_of_fmap_2.
Qed.

Lemma granted_none key lo now cs :
  key ∉ ChargeKey <$> cs → granted_after key lo ((λ c, (now, c)) <$> cs) = 0.
Proof.
  intros Hnot. unfold granted_after. rewrite filter_none; [done|].
  apply Forall_forall. intros e (c & -> & Hc)%list_elem_of_fmap [Heq _]. simpl in Heq.
  destruct Hnot. rewrite <-Heq. by apply list_elem_of_fmap_2.
Qed.

Lemma log_step T now b b' l :
  log_ok T b l → T ≤ now → backend_ok now b' → rules b' = rules b →
  (∀ key rule c, rules b !! key = Some rule → now - Window rule ≤ c →
     sum_after c (events (bucket_of b key)) ≤ sum_after c (events (bucket_of b' key))) →
  log_ok now b' l.
Proof.
  intros [Hb Hrec Hbound Hpos] HT Hb' Hr Hsum. split; [done|rewrite Hr..|done]; [|done].
  intros key rule c Hk Hc. etransitivity; [|by eapply Hsum]. apply (Hrec _ rule); [done|lia].
Qed.

Lemma prune_sum_after T rule now c b :
  bucket_ok T b → now - Window rule ≤ c →
  sum_after c (events (prune rule now b)) = sum_after c (events b).
Proof. intros Hb Hc. rewrite (prune_spec T) by done. by apply sum_after_filter. Qed.

Lemma log_pruned T now b b' l : log_ok T b l → T ≤ now → pruned now b b' → log_ok now b' l.
Proof.
  intros Hl HT Hp. pose proof (log_backend _ _ _ Hl) as Hb.
  eapply log_step; [done..| |apply Hp|].
  - eapply backend_ok_mono; [done|]. by eapply pruned_ok.
  - intros key rule c Hk Hc. destruct (pruned_bucket _ _ _ Hp key) as [->|(rule' & ? & ->)]; [done|].
    simplify_eq. by rewrite (prune_sum_after T) by (done || apply Hb).
Qed.

Lemma log_granted T now b b' cs l :
  log_ok T b l → T ≤ now → 0 ≤ now → Forall (λ c, 0 < Units c) cs → NoDup (ChargeKey <$> cs) →
  tryAcquire b now cs = (b', Ok 0) →
  log_ok now b' (l ++ ((λ c, (now, c)) <$> cs)).
Proof.
  intros [Hb Hrec Hbound Hlpos] HT Hnow Hpos Hnd Htry.
  pose proof (tryAcquire_cases T now b cs Hb Hnow Hpos) as Hfit. rewrite Htry in Hfit.
  destruct Hfit as (_ & _ & Hfit & _). rewrite Forall_forall in Hfit.
  destruct (tryAcquire_granted T now b cs b') as (Hr & Hb' & Hin & Hout); try done.
  assert (Forall (λ e : Z * Charge, 0 < Units e.2) ((λ c, (now, c)) <$> cs)) as Hnew.
  { apply Forall_fmap. done. }
  split; [done| | |by apply Forall_app].
  - intros key rule c Hk Hc. rewrite Hr in Hk. rewrite granted_after_app.
    specialize (Hrec key rule c Hk ltac:(lia)).
    destruct (decide (key ∈ ChargeKey <$> cs)) as [(ch & -> & Hch)%list_elem_of_fmap|Hnot].
    + rewrite (granted_now _ c now cs ch), Hin by done. unfold grant. cbn [events].
      rewrite sum_after_app, sum_after_cons. unfold rule_of. rewrite Hk. simpl.
      rewrite (prune_sum_after T) by (done || apply Hb). change (sum_after c []) with 0. lia.
    + rewrite granted_none by done. destruct (Hout key Hnot) as [->|(r & ? & ->)]; [lia|].
      simplify_eq. rewrite (prune_sum_after T) by (done || apply Hb). lia.
  - intros key rule t Hk. rewrite Hr in Hk. rewrite granted_between_app.
    pose proof (granted_between_le_after key (t - Window rule) t _ Hlpos) as Hle1.
    pose proof (granted_between_le_after key (t - Window rule) t _ Hnew) as Hle2.
    destruct (decide (key ∈ ChargeKey <$> cs)) as [(ch & -> & Hch)%list_elem_of_fmap|Hnot].
    2:{ rewrite granted_none in Hle2 by done. specialize (Hbound key rule t Hk). lia. }
    rewrite (granted_now _ _ now cs ch) in Hle2 by done.
    destruct (Hfit ch Hch) as (rule' & ? & Hused & _). simplify_eq.
    specialize (Hbound _ _ t Hk).
    destruct (decide (t < now)) as [Hlt|Hge].
    { enough (granted_between (ChargeKey ch) (t - Window rule) t ((λ c, (now, c)) <$> cs) = 0) by lia.
      unfold granted_between. rewrite filter_none; [done|].
      apply Forall_forall. intros e (c & -> & _)%list_elem_of_fmap [_ ?]. simpl in *. lia. }
    case_decide as Hw; [|lia].
    specialize (Hrec _ _ (t - Window rule) Hk ltac:(lia)).
    pose proof (prune_ok T rule now _ (ok_buckets _ _ Hb (ChargeKey ch))) as Hpo.
    rewrite <-(prune_sum_after T rule now) in Hrec by (apply Hb || lia).
    pose proof (sum_after_bounds (t - Window rule) _ (ok_positive _ _ Hpo)) as Hb2.
    rewrite <-(ok_used _ _ Hpo) in Hb2. simpl in *. lia.
Qed.

Lemma backend_Snapshot_pruned T b now key :
  backend_ok T b → pruned now b (backend_Snapshot b now key).1.
Proof.
  intros Hb. unfold backend_Snapshot. destruct (rules b !! key) as [rule|] eqn:Hr.
  - destruct (bucketFor_spec T b key rule now Hb Hr) as (_ & Hp & _).
    by destruct (bucketFor b rule now).
  - apply pruned_refl.
Qed.

(** [ObserveUsed] prunes, then raises the usage of one bucket if it was lower. *)
Lemma ObserveUsed_spec T b now key observed :
  backend_ok T b → T ≤ now → observed < small →
  let b' := (ObserveUsed b now key observed).1 in
  backend_ok now b' ∧ rules b' = rules b ∧
  ∀ key' rule c, rules b !! key' = Some rule → now - Window rule ≤ c →
    sum_after c (events (bucket_of b key')) ≤ sum_after c (events (bucket_of b' key')).
Proof.
  intros Hb HT Hobs. cbv zeta. unfold ObserveUsed.
  assert (backend_ok now b) as Hbn by (by apply (backend_ok_mono T)).
  case_bool_decide; [by split_and!|].
  destruct (rules b !! key) as [rule|] eqn:Hr; [|by split_and!].
  destruct (bucketFor_spec T b key rule now Hb Hr) as (Hs & Hp & Hbk).
  destruct (ok_rules _ _ Hb _ _ Hr) as (Hk & _).
  pose proof (prune_ok T rule now _ (ok_buckets _ _ Hb key)) as Hpo.
  destruct (bucketFor b rule now) as [state b1]. cbn [fst snd] in *.
  pose proof (pruned_ok T _ _ _ Hp Hb) as Hb1. rewrite <-Hs in Hpo.
  assert (∀ key' rule' c, rules b !! key' = Some rule' → now - Window rule' ≤ c →
    sum_after c (events (bucket_of b1 key')) = sum_after c (events (bucket_of b key'))) as Hsum.
  { intros key' rule' c Hk' Hc.
    destruct (pruned_bucket _ _ _ Hp key') as [->|(r & ? & ->)]; [done|].
    simplify_eq. by rewrite (prune_sum_after T) by (done || apply Hb). }
  guard_cases.
  2:{ split_and!; [by eapply backend_ok_mono|apply Hp|]. intros ? ? ? ? ?. by erewrite Hsum. }
  pose proof (sum_after_bounds now _ (ok_positive _ _ Hpo)) as Hnn.
  rewrite <-(ok_used _ _ Hpo) in Hnn.
  rewrite int64_id by (unfold is_int64, MinInt64, MaxInt64, small in *; lia).
  assert (bucket_ok now (MkBucket (events state ++ [MkUsageEvent now (observed - used state)])
    observed (blockedUntil state))) as Hnew.
  { pose proof (append_event_ok T now state (observed - used state) Hpo HT ltac:(lia) ltac:(lia)) as Ha.
    by replace (used state + (observed - used state)) with observed in Ha by lia. }
  split_and!; [|apply Hp|].
  - split; simpl; [rewrite (pruned_rules _ _ _ Hp); apply Hb|]. intros key'.
    rewrite bucket_of_insert. case_decide; [done|]. eapply bucket_ok_mono; [done|]. apply Hb1.
  - intros key' rule' c Hk' Hc. rewrite bucket_of_insert. fold (bucket_of b1 key').
    rewrite <-(Hsum key' rule' c) by done. case_decide as Heq; [|done].
    rewrite Hk in Heq. subst key'. rewrite Hbk. simpl.
    rewrite sum_after_app, sum_after_cons. simpl. change (sum_after c []) with 0. case_decide; lia.
Qed.

Lemma blockKey_spec until bs key key' :
  let b := default emptyBucket (bs !! key') in
  default emptyBucket (blockKey until bs key !! key') =
    MkBucket (events b) (used b)
      (if decide (key = key') then blockedUntil b `max` until else blockedUntil b).
Proof.
  cbv zeta. unfold blockKey.
  assert (∀ b, b = MkBucket (events b) (used b) (blockedUntil b)) as Heta by by intros [].
  case_bool_decide; rewrite lookup_insert; case_decide; subst; simpl; try done.
  - f_equal. lia.
  - destruct (default emptyBucket (bs !! key')) eqn:Hd; simpl in *. f_equal. lia.
Qed.

Lemma blockKeys_spec until keys bs key :
  let b := default emptyBucket (bs !! key) in
  default emptyBucket (foldl (blockKey until) bs keys !! key) =
    MkBucket (events b) (used b)
      (if decide (key ∈ keys) then blockedUntil b `max` until else blockedUntil b).
Proof.
  revert bs. induction keys as [|k keys IH]; intros bs; cbv zeta; cbn [foldl].
  { rewrite decide_False by (by apply not_elem_of_nil). by destruct (default _ _). }
  rewrite IH, blockKey_spec. simpl. f_equal.
  destruct (decide (k = key)) as [->|Hne].
  - rewrite (decide_True (P := key ∈ key :: _)) by left. case_decide; lia.
  - destruct (decide (key ∈ keys)).
    + by rewrite decide_True by by right.
    + by rewrite decide_False by (intros [->|?]%elem_of_cons; done).
Qed.

Lemma BlockFor_step T b now keys duration :
  backend_ok T b → T ≤ now → 0 ≤ now →
  let b' := (BlockFor b now keys duration).1 in
  backend_ok now b' ∧ rules b' = rules b ∧
  ∀ key, events (bucket_of b' key) = events (bucket_of b key).
Proof.
  intros Hb HT Hnow. cbv zeta. unfold BlockFor.
  assert (backend_ok now b) as Hbn by (by apply (backend_ok_mono T)).
  case_bool_decide; [by split_and!|]. destruct (negb _); [by split_and!|].
  simpl. assert (∀ key, bucket_of (MkMemoryBackend (rules b)
    (foldl (blockKey (now + duration)) (buckets b) keys)) key = _) as Hbk
    by (intros key; apply blockKeys_spec).
  split_and!; [|done|intros key; by rewrite Hbk].
  split; [apply Hb|]. intros key. rewrite Hbk.
  destruct (ok_buckets _ _ Hbn key). split; simpl; try done. unfold bucket_of in *. case_decide; lia.
Qed.

Lemma normalizeCharges_ok cs ns :
  normalizeCharges cs = Ok ns → (∀ key, is_int64 (units_for key cs)) →
  NoDup (ChargeKey <$> ns) ∧ Forall (λ c, 0 < Units c) ns.
Proof.
  intros Hn Hsize. unfold normalizeCharges in Hn. pose proof (addCharges_spec cs ∅) as H.
  destruct (fold_result addCharge ∅ cs) as [m|e]; [|done]. injection Hn as <-.
  destruct H as [Hv Hm]. split.
  - rewrite (merge_sort_Permutation charge_le), <-list_fmap_compose.
    apply (NoDup_fst_map_to_list m).
  - apply Forall_forall. intros c. rewrite elem_of_sort, list_elem_of_fmap.
    intros ([key units] & -> & Hin%elem_of_map_to_list). simpl in *.
    rewrite Hm, lookup_empty in Hin. simpl in Hin. case_decide as Hkey; [|done]. injection Hin as <-.
    rewrite int64_id by apply Hsize. clear -Hv Hkey.
    apply list_elem_of_fmap in Hkey as (c & -> & Hin). unfold units_for.
    assert (∀ cs', Forall valid_charge cs' → 0 ≤ units_for (charge_key c) cs') as Hnn.
    { induction 1 as [|c' cs' [_ ?] _ IH]; [done|]. rewrite units_for_cons. case_decide; lia. }
    fold (units_for (charge_key c) cs). induction Hv as [|c' cs [_ Hc'] Hv IH]; [by apply elem_of_nil in Hin|].
    rewrite units_for_cons. specialize (Hnn cs Hv). apply elem_of_cons in Hin as [->|Hin].
    + rewrite decide_True by done. lia.
    + specialize (IH Hin). case_decide; lia.
Qed.

Lemma run_op_ok T b l op :
  log_ok T b l → T ≤ op_time op → op_sized op →
  let s := run_op (b, l) op in log_ok (op_time op) s.1 s.2 ∧ rules s.1 = rules b.
Proof.
  intros Hl HT [Hnow Hsize]. pose proof (log_backend _ _ _ Hl) as Hb. unfold run_op.
  assert (∀ b', backend_ok (op_time op) b' → rules b' = rules b →
    (∀ key rule c, rules b !! key = Some rule → op_time op - Window rule ≤ c →
     sum_after c (events (bucket_of b key)) ≤ sum_after c (events (bucket_of b' key))) →
    log_ok (op_time op) b' (l ++ []) ∧ rules b' = rules b) as Hstep.
  { intros b' Hb' Hr Hsum. rewrite app_nil_r. split; [|done]. by eapply log_step. }
  assert (∀ b', pruned (op_time op) b b' →
    log_ok (op_time op) b' (l ++ []) ∧ rules b' = rules b) as Hpruned.
  { intros b' Hp. rewrite app_nil_r. split; [by eapply log_pruned|apply Hp]. }
  destruct op as [now cs|now key obs|now keys d|now key]; simpl in *.
  - destruct (normalizeCharges cs) as [ns|e] eqn:Hns; [|apply Hpruned, pruned_refl].
    destruct (normalizeCharges_ok cs ns Hns Hsize) as [Hnd Hpos].
    pose proof (tryAcquire_cases T now b ns Hb Hnow Hpos) as H. cbv zeta in H.
    destruct (tryAcquire b now ns) as [b' [w|e]] eqn:Htry; simpl in *; [|apply Hpruned, H].
    case_bool_decide as Hw.
    + subst w. split; [by eapply log_granted|].
      destruct (tryAcquire_granted T now b ns b') as (Hr & _); done.
    + rewrite decide_False in H by done. apply Hpruned, H.
  - destruct (ObserveUsed_spec T b now key obs Hb HT Hsize) as (? & ? & ?). by apply Hstep.
  - destruct (BlockFor_step T b now keys d Hb HT Hnow) as (? & ? & Hev). apply Hstep; [done..|].
    intros. by rewrite Hev.
  - by apply Hpruned, (backend_Snapshot_pruned T).
Qed.

Lemma run_ok T b l ops :
  log_ok T b l → Forall (λ op, T ≤ op_time op) ops → StronglySorted op_before ops →
  Forall op_sized ops →
  let s := foldl run_op (b, l) ops in ∃ T', log_ok T' s.1 s.2 ∧ rules s.1 = rules b.
Proof.
  intros Hl HT Hsort. revert T b l Hl HT.
  induction Hsort as [|op ops Hsort IH Hop]; intros T b l Hl HT Hsize; [by exists T|].
  apply Forall_cons in HT as [HT _]. apply Forall_cons in Hsize as [Hs Hsize].
  destruct (run_op_ok T b l op Hl HT Hs) as [Hl' Hr]. cbn [foldl].
  destruct (run_op (b, l) op) as [b' l']. cbn [fst snd] in *.
  destruct (IH _ b' l' Hl' Hop Hsize) as (T' & ? & ?). exists T'. split; [done|congruence].
Qed.

(** ** Executions of a limiter *)

Lemma log_ok_nil T b : backend_ok T b → log_ok T b [].
Proof.
  intros Hb. split; [done| | |done].
  - intros key rule c _ _. apply sum_after_bounds, Hb.
  - intros key rule t Hr. pose proof (ok_rules _ _ Hb _ _ Hr). unfold granted_between, sumZ. simpl. lia.
Qed.

Lemma run_log_ok T b l ops t :
  log_ok T b l → T ≤ t → Forall (λ op, T ≤ op_time op ≤ t) ops → StronglySorted op_before ops →
  Forall op_sized ops →
  let s := foldl run_op (b, l) ops in log_ok t s.1 s.2 ∧ rules s.1 = rules b.
Proof.
  intros Hl HTt HT Hsort. revert T b l Hl HTt HT.
  induction Hsort as [|op ops Hsort IH Hop]; intros T b l Hl HTt HT Hsize.
  { split; [|done]. simpl. eapply log_pruned; [exact Hl|done|apply pruned_refl]. }
  apply Forall_cons in HT as [HT HTs]. apply Forall_cons in Hsize as [Hs Hsize].
  destruct (run_op_ok T b l op Hl (proj1 HT) Hs) as [Hl' Hr]. cbn [foldl].
  destruct (run_op (b, l) op) as [b' l']. cbn [fst snd] in *. rewrite <-Hr.
  apply (IH (op_time op)); [done|lia| |done].
  rewrite Forall_forall in Hop, HTs |- *. intros op' Hin.
  specialize (Hop _ Hin). specialize (HTs _ Hin). unfold op_before in Hop. lia.
Qed.

Definition blocked_until (b : memoryBackend) (key : string) : Z := blockedUntil (bucket_of b key).

Lemma pruned_blocked T now b b' key :
  backend_ok T b → pruned now b b' → blocked_until b' key = blocked_until b key.
Proof.
  intros Hb [_ Hp]. unfold blocked_until. destruct (Hp key) as [->|(rule & _ & ->)]; [done|].
  by rewrite (prune_spec T) by apply Hb.
Qed.

(** An acquisition is not granted on a key that is blocked, and keeps it so. *)
Lemma tryAcquire_blocked T now b cs key :
  backend_ok T b → T ≤ now → 0 ≤ now → Forall (λ c, 0 < Units c) cs → NoDup (ChargeKey <$> cs) →
  blocked_until (tryAcquire b now cs).1 key = blocked_until b key ∧
  ((tryAcquire b now cs).2 = Ok 0 → key ∈ ChargeKey <$> cs → blocked_until b key ≤ now).
Proof.
  intros Hb HT Hnow Hpos Hnd. pose proof (tryAcquire_cases T now b cs Hb Hnow Hpos) as H. cbv zeta in H.
  destruct (tryAcquire b now cs) as [b' [w|e]] eqn:Htry; simpl in H |- *.
  2:{ split; [by eapply pruned_blocked, H|done]. }
  destruct H as (_ & _ & H). case_decide as Hw; [subst w|].
  2:{ split; [by eapply pruned_blocked, H|congruence]. }
  destruct (tryAcquire_granted T now b cs b') as (_ & _ & Hin & Hout); try done. split.
  - destruct (decide (key ∈ ChargeKey <$> cs)) as [(c & -> & Hc)%list_elem_of_fmap|Hk]; unfold blocked_until.
    + rewrite Hin by done. unfold grant. simpl. by rewrite (prune_spec T) by apply Hb.
    + destruct (Hout key Hk) as [->|(rule & _ & ->)]; [done|]. by rewrite (prune_spec T) by apply Hb.
  - intros _ (c & -> & Hc)%list_elem_of_fmap. destruct H as [Hfits _]. rewrite Forall_forall in Hfits.
    destruct (Hfits c Hc) as (rule & _ & _ & Hbl). by rewrite (prune_spec T) in Hbl by apply Hb.
Qed.

Lemma bucketFor_blocked T b key rule now :
  backend_ok T b → rules b !! key = Some rule →
  blockedUntil (bucketFor b rule now).1 = blocked_until b key ∧
  ∀ key', blocked_until (bucketFor b rule now).2 key' = blocked_until b key'.
Proof.
  intros Hb Hr. destruct (bucketFor_spec T b key rule now Hb Hr) as (-> & Hp & _). split.
  - by rewrite (prune_spec T) by apply Hb.
  - intros key'. by eapply pruned_blocked.
Qed.

(** No call shortens a block, and none is granted on a blocked key. *)
Lemma apply_op_blocked T b op key :
  backend_ok T b → T ≤ op_time op → op_sized op →
  blocked_until b key ≤ blocked_until (apply_op b op).1 key ∧
  Forall (λ c, ChargeKey c = key → blocked_until b key ≤ op_time op) (apply_op b op).2.
Proof.
  intros Hb HT [Hnow Hsize]. destruct op as [now cs|now key' obs|now keys d|now key']; simpl in *.
  - destruct (normalizeCharges cs) as [ns|e] eqn:Hns; [|done].
    destruct (normalizeCharges_ok cs ns Hns Hsize) as [Hnd Hpos].
    pose proof (tryAcquire_blocked T now b ns key Hb HT Hnow Hpos Hnd) as [Hkeep Hgrant].
    destruct (tryAcquire b now ns) as [b' [w|e]]; simpl in *; [|split; [lia|done]].
    split; [lia|]. case_bool_decide as Hw; [|done]. subst w. apply Forall_forall. intros c Hc <-.
    by apply Hgrant; [|apply list_elem_of_fmap_2].
  - split; [|done]. unfold ObserveUsed. case_bool_decide; [simpl; lia|].
    destruct (rules b !! key') as [rule|] eqn:Hr; [|simpl; lia].
    destruct (bucketFor_blocked T b key' rule now Hb Hr) as [Hs Hk].
    destruct (ok_rules _ _ Hb _ _ Hr) as [Hkey _].
    destruct (bucketFor b rule now) as [state b1]. simpl in *. specialize (Hk key).
    case_bool_decide; simpl; [|lia]. unfold blocked_until. rewrite bucket_of_insert. rewrite Hkey.
    unfold blocked_until in *. fold (bucket_of b1 key). case_decide as Heq; simpl; [rewrite <-Heq|]; lia.
  - split; [|done]. unfold BlockFor. case_bool_decide; [simpl; lia|]. destruct (negb _); [simpl; lia|].
    simpl. unfold blocked_until, bucket_of at 2. simpl. rewrite blockKeys_spec. simpl.
    unfold bucket_of. case_decide; lia.
  - split; [|done]. apply Z.eq_le_incl. symmetry.
    by apply (pruned_blocked T now _ _ key Hb), (backend_Snapshot_pruned T).
Qed.

(** In every execution from a limiter on, nothing that charges a key is granted
    before the time until which the key was blocked. *)
Lemma run_blocked T b ops key e :
  backend_ok T b → Forall (λ op, T ≤ op_time op) ops → StronglySorted op_before ops →
  Forall op_sized ops → e ∈ (run b ops).2 → ChargeKey e.2 = key → blocked_until b key ≤ e.1.
Proof.
  intros Hb HT Hsort Hsize. unfold run.
  assert (∀ (until : Z) b l, log_ok T b l → until ≤ blocked_until b key →
    Forall (λ e, ChargeKey e.2 = key → until ≤ e.1) l →
    Forall (λ e, ChargeKey e.2 = key → until ≤ e.1) (foldl run_op (b, l) ops).2) as H.
  { clear b Hb e. revert T HT. induction Hsort as [|op ops Hsort IH Hop]; intros T HT until b l Hl Hu Hall; [done|].
    apply Forall_cons in HT as [HT _]. apply Forall_cons in Hsize as [Hs Hsize].
    pose proof (apply_op_blocked T b op key (log_backend _ _ _ Hl) HT Hs) as [Hkeep Hnew].
    destruct (run_op_ok T b l op Hl HT Hs) as [Hl' _]. cbn [foldl]. unfold run_op in *. cbn [fst snd] in *.
    destruct (apply_op b op) as [b' granted]. cbn [fst snd] in *.
    apply (IH Hsize (op_time op)); [done|done|lia|]. apply Forall_app. split; [done|].
    apply Forall_fmap. eapply Forall_impl; [exact Hnew|]. simpl. intros c Hc Hk. specialize (Hc Hk). lia. }
  intros He Hk. pose proof (H _ b [] (log_ok_nil T b Hb) (Z.le_refl _) (Forall_nil_2 _)) as Hall.
  rewrite Forall_forall in Hall. by apply (Hall e He).
Qed.

(** What other goroutines do between two clock values: calls of the limiter. *)
Definition other_calls (T t : Z) (f : memoryBackend → memoryBackend) : Prop :=
  ∃ ops, StronglySorted op_before ops ∧ Forall op_sized ops ∧
         Forall (λ op, T ≤ op_time op ≤ t) ops ∧ ∀ b, f b = (run b ops).1.

(** The clock values of a script of [Wait] between [T] and [t], and what the
    other goroutines do meanwhile. *)
Fixpoint timed (T : Z) (script : list waitIteration) (t : Z) : Prop :=
  match script with
  | [] => T ≤ t
  | it :: script => T ≤ iteration_now it ∧ other_calls T (iteration_now it) (interference it) ∧
                    timed (iteration_now it) script t
  end.

Lemma timed_le T script t : timed T script t → T ≤ t.
Proof.
  revert T. induction script as [|it script IH]; intros T; simpl; [done|].
  intros (? & _ & ?%IH). lia.
Qed.

Lemma backend_Wait_ok T script b ns t :
  backend_ok T b → 0 ≤ T → timed T script t → NoDup (ChargeKey <$> ns) → Forall (λ c, 0 < Units c) ns →
  backend_ok t (backend_Wait script b ns).1 ∧ rules (backend_Wait script b ns).1 = rules b.
Proof.
  intros Hb HT Ht Hnd Hpos. revert T b Hb HT Ht.
  induction script as [|it script IH]; intros T b Hb HT Ht; simpl in *.
  { split; [by eapply backend_ok_mono|done]. }
  destruct Ht as (Hle & (ops & Hsort & Hsize & Hops & Hf) & Ht).
  pose proof (timed_le _ _ _ Ht) as Hend.
  destruct (run_log_ok T b [] ops (iteration_now it) (log_ok_nil T b Hb) Hle Hops Hsort Hsize)
    as [[Hb1 _ _ _] Hr1]. fold (run b ops) in Hb1, Hr1. rewrite <-Hf in Hb1, Hr1.
  set (b1 := interference it b) in *.
  pose proof (tryAcquire_cases (iteration_now it) (iteration_now it) b1 ns Hb1 ltac:(lia) Hpos) as H.
  cbv zeta in H.
  assert (∀ b2, pruned (iteration_now it) b1 b2 → backend_ok (iteration_now it) b2 ∧ rules b2 = rules b) as Hp.
  { intros b2 Hp. split; [by eapply pruned_ok|]. rewrite <-Hr1. apply Hp. }
  assert (∀ b2, backend_ok (iteration_now it) b2 ∧ rules b2 = rules b → backend_ok t b2 ∧ rules b2 = rules b) as Hm.
  { intros b2 [? ?]. split; [by eapply backend_ok_mono|done]. }
  assert (∀ b2, backend_ok (iteration_now it) b2 ∧ rules b2 = rules b →
    backend_ok t (backend_Wait script b2 ns).1 ∧ rules (backend_Wait script b2 ns).1 = rules b) as Hw.
  { intros b2 [Hb2 Hr2]. rewrite <-Hr2. apply (IH (iteration_now it)); [done|lia|done]. }
  destruct (tryAcquire b1 (iteration_now it) ns) as [b2 [w|e]] eqn:Htry; simpl in *; [|by apply Hm, Hp, H].
  destruct H as (_ & _ & H). case_bool_decide as Hw0.
  - subst w. refine (Hm b2 _). destruct (tryAcquire_granted (iteration_now it) (iteration_now it) b1 ns b2) as (Hr2 & Hb2 & _);
      [exact Hb1|lia|lia|done|done|exact Htry|].
    split; [done|congruence].
  - rewrite decide_False in H by done. destruct H as (_ & _ & H%Hp).
    case_bool_decide; [by apply Hw|]. destruct (iteration_done it); [by apply Hm|by apply Hw].
Qed.

Lemma Wait_ok T script b charges t :
  backend_ok T b → 0 ≤ T → timed T script t → (∀ key, is_int64 (units_for key charges)) →
  backend_ok t (Wait script b charges).1 ∧ rules (Wait script b charges).1 = rules b.
Proof.
  intros Hb HT Ht Hsize. unfold Wait.
  assert (backend_ok t b) as Hbt by (by eapply backend_ok_mono; [eapply timed_le|]).
  destruct (normalizeCharges charges) as [[|c ns]|e] eqn:Hn; [done| |done].
  destruct (normalizeCharges_ok _ _ Hn Hsize). by apply (backend_Wait_ok T).
Qed.

Lemma New_fresh initial b :
  New initial = Ok b → Forall (λ r, Limit r < small) initial →
  backend_ok 0 b ∧ ∀ key, bucket_of b key = emptyBucket.
Proof.
  intros Hnew Hsmall.
  cut (∀ b0, (backend_ok 0 b0 ∧ ∀ key, bucket_of b0 key = emptyBucket) →
    fold_result SetRule b0 initial = Ok b →
    backend_ok 0 b ∧ ∀ key, bucket_of b key = emptyBucket).
  { intros H. apply (H newMemoryBackend); [|done]. split; [|done]. split; [done|].
    intros. apply emptyBucket_ok. }
  clear Hnew. induction Hsmall as [|rule initial Hr _ IH]; intros b0 Hb0; simpl; [naive_solver|].
  rewrite result_bind_Ok. intros (b1 & Hset & Hrest). apply (IH b1); [|done]. clear -Hset Hb0 Hr.
  destruct Hb0 as [Hok Hempty]. unfold SetRule in Hset. cbn [RuleKey Limit Window] in Hset.
  case_match eqn:Hg; [done|]. go_bool. injection Hset as <-.
  assert (∀ key, bucket_of (backend_SetRule b0
    (MkRule (TrimSpace (RuleKey rule)) (Limit rule) (Window rule))) key = emptyBucket) as Hbk.
  { intros key. unfold bucket_of, backend_SetRule. simpl. case_match; [|apply Hempty].
    rewrite lookup_insert. case_decide; [done|apply Hempty]. }
  split; [|done]. split; [|intros key; rewrite Hbk; apply emptyBucket_ok].
  intros key r. simpl. rewrite lookup_insert. case_decide; [|apply Hok].
  intros [= <-]. simpl. split; [done|]. lia.
Qed.

(** C2: the rolling-window limit holds at every instant.  After [New], in any
    time-ordered execution of acquisitions (normalised and attempted as [Wait]
    does), usage observations, blocks and snapshots, the units granted for a
    rule within any window [t - Window, t] never exceed the rule's limit. *)
Theorem granted_within_limit initial b0 ops key rule t :
  New initial = Ok b0 → Forall (λ r, Limit r < small) initial →
  StronglySorted op_before ops → Forall op_sized ops →
  rules b0 !! key = Some rule →
  granted_between key (t - Window rule) t (run b0 ops).2 ≤ Limit rule.
Proof.
  intros Hnew Hsmall Hsort Hsize Hrule.
  destruct (New_fresh initial b0 Hnew Hsmall) as [Hb Hempty].
  assert (log_ok 0 b0 []) as Hl.
  { split; [done| | |done].
    - intros. by rewrite Hempty.
    - intros k r t' Hr. destruct (ok_rules _ _ Hb _ _ Hr) as (_ & ? & _).
      change (granted_between k (t' - Window r) t' []) with 0. lia. }
  destruct (run_ok 0 b0 [] ops Hl) as (T' & Hl' & Hr); [|done..|].
  { eapply Forall_impl; [exact Hsize|]. by intros op [? _]. }
  apply (log_bounded _ _ _ Hl'). by rewrite Hr.
Qed.

(** ** Concrete executions *)

Definition demo_rule : Rule := MkRule "ip" 2 10.
Definition demo_backend : memoryBackend := backend_SetRule newMemoryBackend demo_rule.

Lemma demo_New : New [demo_rule] = Ok demo_backend.
Proof. vm_compute. reflexivity. Qed.

Lemma demo_ok : backend_ok 0 demo_backend.
Proof. eapply New_fresh; [apply demo_New|]. by repeat constructor. Qed.

Lemma tryAcquire_all_or_nothing_witness :
  fits 100 demo_backend (MkCharge "ip" 2) ∧
  backend_ok 100 (tryAcquire demo_backend 100 [MkCharge "ip" 2]).1.
Proof.
  pose proof (tryAcquire_all_or_nothing 0 100 demo_backend [MkCharge "ip" 2] demo_ok
    ltac:(lia) ltac:(lia) ltac:(by repeat constructor) (NoDup_singleton _)) as H.
  cbv zeta in H.
  assert ((tryAcquire demo_backend 100 [MkCharge "ip" 2]).2 = Ok 0) as E
    by (vm_compute; reflexivity).
  rewrite E in H. destruct H as [_ (Hfit & _ & Hok & _)].
  split; [apply (Forall_inv Hfit)|exact Hok].
Defined.

Lemma tryAcquire_wait_suffices_witness :
  let b := (tryAcquire demo_backend 0 [MkCharge "ip" 2]).1 in
  (∃ b', tryAcquire b 0 [MkCharge "ip" 1] = (b', Ok 10)) ∧
  ∃ b' b'', tryAcquire b 0 [MkCharge "ip" 1] = (b', Ok 10) ∧
    tryAcquire b' 12 [MkCharge "ip" 1] = (b'', Ok 0).
Proof.
  cbv zeta. split; [eexists; vm_compute; reflexivity|].
  destruct (tryAcquire (tryAcquire demo_backend 0 [MkCharge "ip" 2]).1 0 [MkCharge "ip" 1])
    as [b' r] eqn:E.
  assert (r = Ok 10) as -> by (vm_compute in E; congruence).
  destruct (tryAcquire_wait_suffices 0 0 (tryAcquire demo_backend 0 [MkCharge "ip" 2]).1
    [MkCharge "ip" 1] b' 10) as [_ H]; [|lia|by repeat constructor|exact E|lia|].
  - destruct (tryAcquire demo_backend 0 [MkCharge "ip" 2]) as [b1 r1] eqn:E1.
    destruct (tryAcquire_granted 0 0 demo_backend [MkCharge "ip" 2] b1) as (_ & Hb1 & _);
      [exact demo_ok|lia|lia|by repeat constructor|apply NoDup_singleton| |exact Hb1].
    rewrite E1. vm_compute in E1. congruence.
  - destruct (H 12 ltac:(lia)) as [b'' Hb'']. exists b', b''. split; [reflexivity|exact Hb''].
Defined.

Definition demo_ops : list operation :=
  [OpAcquire 1 [MkCharge "ip" 1; MkCharge " ip " 1]; OpObserve 3 "ip" 2; OpAcquire 4 [MkCharge "ip" 1];
   OpBlock 5 ["ip"] 2; OpAcquire 11 [MkCharge "ip" 1]; OpSnapshot 12 "ip"].

Lemma granted_within_limit_witness :
  (run demo_backend demo_ops).2 = [(1, MkCharge "ip" 2); (11, MkCharge "ip" 1)] ∧
  granted_between "ip" 1 11 (run demo_backend demo_ops).2 ≤ 2.
Proof.
  split; [vm_compute; reflexivity|].
  apply (granted_within_limit [demo_rule] demo_backend demo_ops "ip" demo_rule 11 demo_New).
  - by repeat constructor.
  - repeat constructor; unfold op_before; simpl; lia.
  - assert (∀ key u k, 0 ≤ u ≤ 1 → is_int64 (units_for key [MkCharge k u])) as Hone.
    { intros key u k Hu. rewrite units_for_cons. change (units_for key []) with 0. simpl.
      unfold is_int64, MinInt64, MaxInt64. case_decide; lia. }
    assert (∀ key, is_int64 (units_for key [MkCharge "ip" 1; MkCharge " ip " 1])) as Htwo.
    { intros key. pose proof (Hone key 1 " ip ") as H1. rewrite units_for_cons in *.
      rewrite units_for_cons in *. change (units_for key []) with 0 in *. simpl.
      unfold is_int64, MinInt64, MaxInt64 in *. repeat case_decide; simpl; lia. }
    repeat apply Forall_cons_2; try apply Forall_nil_2; (split; [simpl; lia|]); simpl; try done.
    all: intros key; apply Hone; lia.
  - vm_compute. reflexivity.
Defined.
