(* ===== verification/Executor.v ===== *)
(** * The HTTP execution pipeline: [exchange/executor.go]

    [Execute] runs against a script: what each attempt meets of the limiter,
    the request builder, the sender, the context, the clock and the random
    source ([attemptEnv]).  It threads the limiter's backend, which it shares
    with every other client, and returns the events it caused in order, so that
    "sent at most once" is a statement about a list. *)

From S2P Require Import Prelude GoStrings Errors Transport Credential RateLimit.

Definition defaultMaxResponseBodyBytes : Z := Z.shiftl 32 20.

(** [OperationKind] is a Go [uint8]. *)
Definition OperationRead : Z := 0.
Definition OperationMutation : Z := 1.

(** [http.Header] by canonical key, and [Header.Get]. *)
Abbreviation Header := (gmap string (list string)).
Definition Header_Get (headers : Header) (key : string) : string :=
  match headers !! key with Some (value :: _) => value | _ => "" end.

(** An [http.Request] as it is sent: the pipeline reads its method and its path,
    none when it has no URL; the headers by canonical key, each with one value.
    The body of an [http.Response] is its bytes and the error that ends it, nil
    for end of file. *)
Record Request : Type := MkRequest {
  Method : string;
  URL_Path : option string;
  URL_Host : string;
  URL_RawQuery : string;
  req_Header : gmap string string;
  req_Body : string
}.
Record httpBody : Type := MkBody { body_bytes : list ascii; body_error : option error }.
Record httpResponse : Type := MkHTTPResponse {
  http_StatusCode : Z;
  http_Header : Header;
  http_Body : httpBody
}.

Record Execution : Type := MkExecution {
  exec_Exchange : string;
  exec_EndpointID : string;
  exec_AccountID : string;
  exec_EgressRouteID : string;
  exec_Timeout : Z;
  exec_Charges : list Charge;
  exec_Operation : Z;
  exec_hasBuild : bool
}.

Record ReadRetryPolicy : Type := MkReadRetryPolicy {
  MaxAttempts : Z;
  BaseDelay : Z;
  MaxDelay : Z
}.

Definition defaultReadRetryPolicy : ReadRetryPolicy :=
  MkReadRetryPolicy 2 (50 * Millisecond) (500 * Millisecond).

Record ExecutionObservation : Type := MkExecutionObservation {
  obs_Exchange : string;
  obs_EndpointID : string;
  obs_EgressRouteID : string;
  obs_Operation : Z;
  obs_Attempt : Z;
  obs_Duration : Z;
  obs_StatusCode : Z;
  obs_ErrorCategory : string
}.

Record Response : Type := MkResponse {
  StatusCode : Z;
  resp_Header : Header;
  Body : list ascii
}.
Definition emptyResponse : Response := MkResponse 0 ∅ [].

(** [ReadRetryPolicy.validate]. *)
Definition validate (policy : ReadRetryPolicy) : result error unit :=
  if bool_decide (MaxAttempts policy < 1) || bool_decide (5 < MaxAttempts policy)
  then Err (Errorf "read retry max attempts must be between 1 and 5")
  else if bool_decide (BaseDelay policy < 0) || bool_decide (MaxDelay policy < 0) ||
          bool_decide (MaxDelay policy < BaseDelay policy)
  then Err (Errorf "read retry delays must be non-negative and max delay must be at least base delay")
  else Ok tt.

Record ExecutorConfig : Type := MkExecutorConfig {
  conf_Sender : bool;
  conf_Limiter : option memoryBackend;
  conf_MaxResponseBodyBytes : Z;
  conf_ReadRetryPolicy : option ReadRetryPolicy;
  conf_Observer : bool
}.

(** The sender and the observer are interfaces the script and the events stand
    for; the limiter's state is threaded through [Execute]. *)
Record Executor : Type := MkExecutor {
  maxResponseBodyBytes : Z;
  readRetryPolicy : ReadRetryPolicy;
  observer : bool
}.

(** [NewExecutor]. *)
Definition NewExecutor (config : ExecutorConfig) : result error Executor :=
  require (conf_Sender config) (Errorf "exchange executor sender is required");;
  require (bool_decide (is_Some (conf_Limiter config)))
    (Errorf "exchange executor limiter is required");;
  let max := if bool_decide (conf_MaxResponseBodyBytes config = 0)
             then defaultMaxResponseBodyBytes else conf_MaxResponseBodyBytes config in
  require (negb (bool_decide (max < 0)))
    (Errorf "maximum response body size cannot be negative");;
  let retryPolicy := default defaultReadRetryPolicy (conf_ReadRetryPolicy config) in
  validate retryPolicy;;
  Ok (MkExecutor max retryPolicy (conf_Observer config)).

(** ** Errors of an attempt *)

(** [Execution.transportError]. *)
Definition transportError (execution : Execution) (err : error) : error :=
  if Is err ErrUnknownEgressRoute || Is err ErrRegistryClosed || Is err ErrLocalAddressUnavailable
  then API (newAPIError ErrorValidation (exec_Exchange execution) (exec_AccountID execution)
              false err)
  else
    let category := ErrorNetwork in
    let retryable := bool_decide (exec_Operation execution = OperationRead) in
    let category := if Is err ContextCanceled || Is err ContextDeadlineExceeded
                    then ErrorTimeout else category in
    let '(category, retryable) :=
      if bool_decide (exec_Operation execution = OperationMutation)
      then (ErrorUnknownExecutionState, false) else (category, retryable) in
    API (newAPIError category (exec_Exchange execution) (exec_AccountID execution) retryable err).

(** [Execution.responseError]. *)
Definition responseError (execution : Execution) (err : error) : error :=
  let '(category, retryable) :=
    if bool_decide (exec_Operation execution = OperationMutation)
    then (ErrorUnknownExecutionState, false)
    else (ErrorExchangeUnavailable, bool_decide (exec_Operation execution = OperationRead)) in
  API (newAPIError category (exec_Exchange execution) (exec_AccountID execution) retryable err).

(** [retryableReadStatus]: 408, 425, 500, 502, 503, 504. *)
Definition retryableReadStatus (status : Z) : bool :=
  bool_decide (status ∈ [408; 425; 500; 502; 503; 504]).

(** [retryableAPIError]. *)
Definition retryableAPIError (err : error) : bool :=
  match AsAPIError err with Some apiError => Retryable apiError | None => false end.

(** ** Retry-After *)

(** [strconv.Atoi]: an optional sign and decimal digits within 64 bits. *)
Definition Atoi (s : string) : option Z :=
  let '(negative, digits) :=
    match s with
    | String c rest =>
        if bool_decide (c = Ascii.ascii_of_N 45) then (true, rest)
        else if bool_decide (c = Ascii.ascii_of_N 43) then (false, rest) else (false, s)
    | EmptyString => (false, s)
    end in
  if nonempty_digits digits then
    let value := if negative : bool then - digits_value 0 digits else digits_value 0 digits in
    if bool_decide (is_int64 value) then Some value else None
  else None.

(** [Time.Sub] saturates. *)
Definition Time_Sub (t u : Z) : Z := MinInt64 `max` (MaxInt64 `min` (t - u)).

(** [retryAfterDuration]; [parseTime] is [http.ParseTime] of the same header. *)
Definition retryAfterDuration (parseTime : string → option Z) (value : string) (now : Z) : Z :=
  match Atoi (TrimSpace value) with
  | Some seconds =>
      if bool_decide (0 < seconds) then int64 (seconds * Second)
      else match parseTime value with
           | Some retryAt => if bool_decide (now < retryAt) then Time_Sub retryAt now else Second
           | None => Second
           end
  | None =>
      match parseTime value with
      | Some retryAt => if bool_decide (now < retryAt) then Time_Sub retryAt now else Second
      | None => Second
      end
  end.

(** The loop of [applyRetryAfter] over the keys of the charges. *)
Fixpoint distinctKeys (seen : gset string) (charges : list Charge) : list string :=
  match charges with
  | [] => []
  | charge :: rest =>
      if decide (ChargeKey charge ∈ seen) then distinctKeys seen rest
      else ChargeKey charge :: distinctKeys ({[ChargeKey charge]} ∪ seen) rest
  end.

(** ** The pipeline *)

(** What a caller outside the pipeline sees of an execution. *)
Inductive event : Type :=
  | Built
  | Sent (routeID : string) (request : Request)
  | BlockedKeys (keys : list string) (duration : Z)
  | Observed (observation : ExecutionObservation)
  | Slept (delay : Z).

(** What one attempt meets.  [env_ctxErr] is [requestCtx.Err()] after a failure,
    [env_random] the draw of [rand.Int64N] and [env_interrupt] the context's
    error when it ends before the retry timer. *)
Record attemptEnv : Type := MkAttemptEnv {
  env_wait : list waitIteration;
  env_build : result error (option Request);
  env_do : result error httpResponse;
  env_ctxErr : option error;
  env_now : Z;
  env_elapsed : Z;
  env_random : Z;
  env_interrupt : option error
}.

(** A call that returns, panics, or is still blocked at the end of the script. *)
Inductive outcome (A : Type) : Type :=
  | Returned (a : A)
  | Panicked
  | Blocked.
Arguments Returned {A} _.
Arguments Panicked {A}.
Arguments Blocked {A}.

Section executor.
Context (parseTime : string → option Z) (executor : Executor).

(** [Executor.observe]. *)
Definition observe (execution : Execution) (endpointID : string) (attempt : Z)
    (env : attemptEnv) (statusCode : Z) (err : option error) : list event :=
  if observer executor then
    let category := match err ≫= AsAPIError with Some a => Category a | None => "" end in
    [Observed (MkExecutionObservation (exec_Exchange execution) endpointID
       (exec_EgressRouteID execution) (exec_Operation execution) attempt (env_elapsed env)
       statusCode category)]
  else [].

(** [Executor.applyRetryAfter]; the error of [BlockFor] is dropped. *)
Definition applyRetryAfter (backend : memoryBackend) (headers : Header)
    (charges : list Charge) (now : Z) : memoryBackend * list event :=
  let duration := retryAfterDuration parseTime (Header_Get headers "Retry-After") now in
  let keys := distinctKeys ∅ charges in
  if bool_decide (keys ≠ [])
  then ((BlockFor backend now keys duration).1, [BlockedKeys keys duration])
  else (backend, []).

(** [io.ReadAll(io.LimitReader(body, n))]: the limited reader reports the end
    of the file after [n] bytes, at once when [n] is not positive. *)
Definition readLimited (body : httpBody) (n : Z) : list ascii * option error :=
  if bool_decide (n ≤ Z.of_nat (length (body_bytes body)))
  then (take (Z.to_nat n) (body_bytes body), None)
  else (body_bytes body, body_error body).

(** The category of a limiter failure. *)
Definition waitError (execution : Execution) (err : error) : error :=
  let timeout := Is err ContextCanceled || Is err ContextDeadlineExceeded in
  API (newAPIError (if timeout then ErrorTimeout else ErrorInternal)
         (exec_Exchange execution) (exec_AccountID execution) timeout err).

(** [Executor.executeAttempt] from the response on. *)
Definition receive (execution : Execution) (attempt : Z) (env : attemptEnv)
    (backend : memoryBackend) (endpointID : string) (httpResponse : httpResponse)
    : memoryBackend * list event * (Response * bool * option error) :=
  let read := bool_decide (exec_Operation execution = OperationRead) in
  let status := http_StatusCode httpResponse in
  let '(body, err) :=
    readLimited (http_Body httpResponse) (int64 (maxResponseBodyBytes executor + 1)) in
  match err with
  | Some err =>
      let apiError := responseError execution (Wrapf "read response body: %w" err) in
      let retry := read && bool_decide (env_ctxErr env = None) in
      (backend, observe execution endpointID attempt env status (Some apiError),
        (emptyResponse, retry, Some apiError))
  | None =>
      if bool_decide (maxResponseBodyBytes executor < Z.of_nat (length body)) then
        let apiError := responseError execution (Errorf "response body exceeds %d bytes") in
        (backend, observe execution endpointID attempt env status (Some apiError),
          (emptyResponse, false, Some apiError))
      else
        let response := MkResponse status (http_Header httpResponse) body in
        let '(backend, blocked) :=
          if bool_decide (status = 429) || bool_decide (status = 418)
          then applyRetryAfter backend (resp_Header response) (exec_Charges execution) (env_now env)
          else (backend, []) in
        let retry := read && retryableReadStatus status in
        (backend, blocked ++ observe execution endpointID attempt env status None,
          (response, retry, None))
  end.

(** [Executor.executeAttempt]. *)
Definition executeAttempt (execution : Execution) (attempt : Z) (env : attemptEnv)
    (backend : memoryBackend)
    : memoryBackend * list event * outcome (Response * bool * option error) :=
  let endpointID := exec_EndpointID execution in
  let read := bool_decide (exec_Operation execution = OperationRead) in
  let fail backend events endpointID retry err :=
    (backend, events ++ observe execution endpointID attempt env 0 (Some err),
      Returned (emptyResponse, retry, Some err)) in
  match Wait (env_wait env) backend (exec_Charges execution) with
  | (backend, None) => (backend, [], Blocked)
  | (backend, Some (Err err)) => fail backend [] endpointID false (waitError execution err)
  | (backend, Some (Ok _)) =>
      match env_build env with
      | Err err => fail backend [Built] endpointID false err
      | Ok None =>
          fail backend [Built] endpointID false (Errorf "request builder returned nil request")
      | Ok (Some request) =>
          let endpointID :=
            match URL_Path request with
            | Some path => if bool_decide (endpointID = "")
                           then Method request +:+ " " +:+ path else endpointID
            | None => endpointID
            end in
          let sent := [Built; Sent (exec_EgressRouteID execution) request] in
          match env_do env with
          | Err err =>
              let apiError := transportError execution err in
              let retry := read && retryableAPIError apiError && bool_decide (env_ctxErr env = None) in
              fail backend sent endpointID retry apiError
          | Ok httpResponse =>
              let '(backend, events, r) :=
                receive execution attempt env backend endpointID httpResponse in
              (backend, sent ++ events, Returned r)
          end
      end
  end.

(** The doubling loop of [waitBeforeRetry], [retry] running up to [attempt]. *)
Fixpoint doubleDelay (steps : nat) (delay : Z) : Z :=
  match steps with
  | O => delay
  | S steps =>
      let max := MaxDelay (readRetryPolicy executor) in
      if negb (bool_decide (delay < max)) then delay
      else if bool_decide (Z.quot max 2 < delay) then max
      else doubleDelay steps (int64 (delay * 2))
  end.

(** [Executor.waitBeforeRetry]; [rand.Int64N] panics unless its argument is
    positive. *)
Definition waitBeforeRetry (env : attemptEnv) (attempt : Z)
    : list event * outcome (option error) :=
  let max := MaxDelay (readRetryPolicy executor) in
  let delay := doubleDelay (Z.to_nat (attempt - 1)) (BaseDelay (readRetryPolicy executor)) in
  let delay := if bool_decide (max < delay) then max else delay in
  if bool_decide (0 < delay) && bool_decide (int64 (delay + 1) ≤ 0) then ([], Panicked)
  else
    let delay := if bool_decide (0 < delay) then env_random env mod int64 (delay + 1) else delay in
    if bool_decide (delay = 0) then ([], Returned None)
    else ([Slept delay], Returned (env_interrupt env)).

(** The retry loop of [Execute]: [remaining] is [maxAttempts - attempt + 1]. *)
Fixpoint executeLoop (execution : Execution) (envs : Z → attemptEnv) (remaining : nat)
    (attempt : Z) (backend : memoryBackend)
    : memoryBackend * list event * outcome (Response * option error) :=
  match remaining with
  | O => (backend, [], Returned (emptyResponse, Some (Errorf "execution retry loop exhausted")))
  | S remaining =>
      let env := envs attempt in
      match executeAttempt execution attempt env backend with
      | (backend, events, Blocked) => (backend, events, Blocked)
      | (backend, events, Panicked) => (backend, events, Panicked)
      | (backend, events, Returned (response, retry, err)) =>
          if negb retry || bool_decide (remaining = O)
          then (backend, events, Returned (response, err))
          else
            match waitBeforeRetry env attempt with
            | (slept, Returned None) =>
                let '(backend, events', r) :=
                  executeLoop execution envs remaining (attempt + 1) backend in
                (backend, events ++ slept ++ events', r)
            | (slept, Returned (Some waitErr)) =>
                (backend, events ++ slept,
                  Returned (emptyResponse, Some (transportError execution waitErr)))
            | (slept, Panicked) => (backend, events ++ slept, Panicked)
            | (slept, Blocked) => (backend, events ++ slept, Blocked)
            end
      end
  end.

(** [Executor.Execute]; [ctx] tells whether a context was given. *)
Definition Execute (ctx : bool) (execution : Execution) (envs : Z → attemptEnv)
    (backend : memoryBackend)
    : memoryBackend * list event * outcome (Response * option error) :=
  let refuse err := (backend, [], Returned (emptyResponse, Some err)) in
  if negb ctx then refuse (Errorf "execution context cannot be nil")
  else if negb (ExchangeID_Valid (exec_Exchange execution))
  then refuse (Errorf "execution exchange is required")
  else if bool_decide (TrimSpace (exec_EgressRouteID execution) = "")
  then refuse (Sentinel ErrMissingEgressRoute)
  else if negb (exec_hasBuild execution) then refuse (Errorf "request builder is required")
  else if negb (bool_decide (exec_Operation execution = OperationRead)) &&
          negb (bool_decide (exec_Operation execution = OperationMutation))
  then refuse (Errorf "unsupported operation kind %d")
  else
    let maxAttempts := if bool_decide (exec_Operation execution = OperationRead)
                       then MaxAttempts (readRetryPolicy executor) else 1 in
    executeLoop execution envs (Z.to_nat maxAttempts) 1 backend.
End executor.

(** ** Requests sent, and delays *)

Definition is_sent (e : event) : bool := match e with Sent _ _ => true | _ => false end.
Definition sends (events : list event) : nat := length (filter is_sent events).

Definition slept_at_most (max : Z) (e : event) : Prop :=
  match e with Slept delay => 0 < delay ≤ max | _ => True end.

Lemma sends_app es es' : sends (es ++ es') = (sends es + sends es')%nat.
Proof. unfold sends. by rewrite filter_app, length_app. Qed.

Lemma sends_built es : sends (Built :: es) = sends es.
Proof. done. Qed.

(** Durations and limits of an executor that [NewExecutor] accepts; the largest
    delay leaves room for the [+ 1] of the jitter. *)
Record executor_ok (executor : Executor) : Prop := {
  ok_attempts : 1 ≤ MaxAttempts (readRetryPolicy executor) ≤ 5;
  ok_base : 0 ≤ BaseDelay (readRetryPolicy executor) ≤ MaxDelay (readRetryPolicy executor);
  ok_max : MaxDelay (readRetryPolicy executor) < MaxInt64
}.

Section executor_properties.
Context (parseTime : string → option Z) (executor : Executor).

Lemma observe_sends execution endpointID attempt env status err :
  sends (observe executor execution endpointID attempt env status err) = 0%nat.
Proof. unfold observe. by destruct (observer executor). Qed.

Lemma observe_slept execution endpointID attempt env status err max :
  Forall (slept_at_most max) (observe executor execution endpointID attempt env status err).
Proof. unfold observe. destruct (observer executor); by repeat constructor. Qed.

Lemma applyRetryAfter_quiet b h charges now max :
  let events := (applyRetryAfter parseTime b h charges now).2 in
  sends events = 0%nat ∧ Forall (slept_at_most max) events.
Proof. cbv zeta. unfold applyRetryAfter. case_match; split; by repeat constructor. Qed.

Lemma receive_quiet execution attempt env b endpointID response max :
  let r := receive parseTime executor execution attempt env b endpointID response in
  sends r.1.2 = 0%nat ∧ Forall (slept_at_most max) r.1.2.
Proof.
  cbv zeta. unfold receive.
  assert (∀ status err, sends (observe executor execution endpointID attempt env status err) = 0%nat ∧
    Forall (slept_at_most max) (observe executor execution endpointID attempt env status err)) as Ho
    by auto using observe_sends, observe_slept.
  destruct (readLimited _ _) as [body [err|]]; [apply Ho|]. case_match; [apply Ho|].
  cbn [resp_Header]. destruct (bool_decide (http_StatusCode response = 429) || _); [|apply Ho].
  pose proof (applyRetryAfter_quiet b (http_Header response) (exec_Charges execution)
    (env_now env) max) as [Hs Hd].
  destruct (applyRetryAfter _ _ _ _ _) as [b' blocked]; cbn [fst snd] in *.
  rewrite sends_app, Hs. split; [apply Ho|]. apply Forall_app. split; [done|apply Ho].
Qed.

Lemma receive_retry execution attempt env b endpointID response :
  exec_Operation execution = OperationMutation →
  (receive parseTime executor execution attempt env b endpointID response).2.1.2 = false.
Proof.
  intros Hop. unfold receive. rewrite Hop. simpl.
  destruct (readLimited _ _) as [body [err|]]; [done|]. case_match; [done|].
  by destruct (if _ || _ then _ else _).
Qed.

(** One attempt sends at most one request and sleeps not at all. *)
Lemma executeAttempt_quiet execution attempt env b max :
  let r := executeAttempt parseTime executor execution attempt env b in
  (sends r.1.2 ≤ 1)%nat ∧ Forall (slept_at_most max) r.1.2.
Proof.
  cbv zeta. unfold executeAttempt.
  assert (∀ l endpointID err, (sends l ≤ 1)%nat → Forall (slept_at_most max) l →
    let r := l ++ observe executor execution endpointID attempt env 0 err in
    (sends r ≤ 1)%nat ∧ Forall (slept_at_most max) r) as Hl.
  { intros l ep err Hs Hd. cbv zeta. rewrite sends_app, observe_sends.
    split; [lia|]. apply Forall_app. auto using observe_slept. }
  destruct (Wait _ _ _) as [b' [[u|e]|]]; cbn [fst snd].
  3:{ split; [unfold sends; simpl; lia|done]. }
  2:{ apply Hl; [unfold sends; simpl; lia|done]. }
  destruct (env_build env) as [[req|]|e]; cbn [fst snd].
  2,3: apply Hl; [unfold sends; simpl; lia|by repeat constructor].
  destruct (env_do env) as [response|e]; cbn [fst snd].
  2: apply Hl; [unfold sends; simpl; lia|by repeat constructor].
  match goal with |- context [receive _ _ _ _ _ _ ?ep _] =>
    pose proof (receive_quiet execution attempt env b' ep response max) as H end.
  cbv zeta in H. destruct (receive _ _ _ _ _ _ _ _) as [[b2 events] r]. cbn [fst snd] in *.
  rewrite sends_app. destruct H as [-> H]. split; [unfold sends; simpl; lia|].
  by repeat constructor.
Qed.

Lemma executeAttempt_mutation execution attempt env b b' events response retry err :
  exec_Operation execution = OperationMutation →
  executeAttempt parseTime executor execution attempt env b =
    (b', events, Returned (response, retry, err)) →
  retry = false.
Proof.
  intros Hop. unfold executeAttempt. rewrite Hop.
  destruct (Wait _ _ _) as [b1 [[u|e]|]]; [|naive_solver..].
  destruct (env_build env) as [[req|]|e]; [|naive_solver..].
  destruct (env_do env) as [hr|e]; [|naive_solver].
  match goal with |- context [receive _ _ _ _ _ _ ?ep _] =>
    pose proof (receive_retry execution attempt env b1 ep hr Hop) as H end.
  destruct (receive _ _ _ _ _ _ _ _) as [[b2 es] [[r1 r2] r3]]. naive_solver.
Qed.

Lemma doubleDelay_range steps delay :
  executor_ok executor → 0 ≤ delay ≤ MaxDelay (readRetryPolicy executor) →
  0 ≤ doubleDelay executor steps delay ≤ MaxDelay (readRetryPolicy executor).
Proof.
  intros [_ Hbase Hmax]. revert delay. induction steps as [|steps IH]; intros delay Hd; [done|].
  simpl. guard_cases; [|lia]. guard_cases; [lia|]. apply IH.
  assert (2 * delay ≤ MaxDelay (readRetryPolicy executor)).
  { rewrite Z.quot_div_nonneg in Hguard0 by lia.
    pose proof (Z.mul_div_le (MaxDelay (readRetryPolicy executor)) 2). lia. }
  rewrite int64_id by (unfold is_int64, MinInt64, MaxInt64 in *; lia). lia.
Qed.

Lemma waitBeforeRetry_sends env attempt : sends (waitBeforeRetry executor env attempt).1 = 0%nat.
Proof. unfold waitBeforeRetry. by repeat case_match. Qed.

Lemma waitBeforeRetry_spec env attempt :
  executor_ok executor →
  let r := waitBeforeRetry executor env attempt in
  sends r.1 = 0%nat ∧ Forall (slept_at_most (MaxDelay (readRetryPolicy executor))) r.1 ∧
  ∃ err, r.2 = Returned err.
Proof.
  intros Hok. pose proof Hok as [_ Hbase Hmax]. cbv zeta. unfold waitBeforeRetry.
  pose proof (doubleDelay_range (Z.to_nat (attempt - 1)) _ Hok Hbase) as Hd.
  set (delay := doubleDelay _ _ _) in *. rewrite (bool_decide_eq_false_2 (_ < delay)) by lia.
  rewrite int64_id by (unfold is_int64, MinInt64, MaxInt64 in *; lia).
  rewrite (bool_decide_eq_false_2 (delay + 1 ≤ 0)), andb_false_r by lia.
  destruct (decide (0 < delay)) as [Hpos|Hpos].
  - rewrite !(bool_decide_eq_true_2 _ Hpos).
    pose proof (Z.mod_pos_bound (env_random env) (delay + 1)).
    guard_cases; (split; [done|]; split; [|eauto]); [done|].
    constructor; [simpl; lia|done].
  - rewrite !(bool_decide_eq_false_2 _ Hpos), bool_decide_eq_true_2 by lia.
    split_and!; [done..|eauto].
Qed.

Lemma executeLoop_bounded execution envs remaining attempt b :
  executor_ok executor →
  let r := executeLoop parseTime executor execution envs remaining attempt b in
  (sends r.1.2 ≤ remaining)%nat ∧
  Forall (slept_at_most (MaxDelay (readRetryPolicy executor))) r.1.2 ∧
  ((∀ i b, (Wait (env_wait (envs i)) b (exec_Charges execution)).2 ≠ None) →
   ∃ response err, r.2 = Returned (response, err)).
Proof.
  intros Hok. revert attempt b. induction remaining as [|n IH]; intros attempt b; cbv zeta.
  { simpl. split_and!; [done|done|eauto]. }
  cbn [executeLoop].
  pose proof (executeAttempt_quiet execution attempt (envs attempt) b
    (MaxDelay (readRetryPolicy executor))) as [Hs Hq].
  assert ((∀ i b, (Wait (env_wait (envs i)) b (exec_Charges execution)).2 ≠ None) →
    ∃ x, (executeAttempt parseTime executor execution attempt (envs attempt) b).2 = Returned x)
    as Hret.
  { intros Hw. unfold executeAttempt. specialize (Hw attempt b).
    destruct (Wait _ _ _) as [b1 [[u|e]|]]; simpl in *; [|eauto|done].
    destruct (env_build _) as [[req|]|e]; simpl; eauto.
    destruct (env_do _) as [hr|e]; simpl; eauto.
    destruct (receive _ _ _ _ _ _ _ _) as [[b2 es] r3]. simpl. eauto. }
  destruct (executeAttempt _ _ _ _ _ _) as [[b1 events] r1]. cbn [fst snd] in *.
  destruct r1 as [[[response retry] err]| |]; cbn [fst snd].
  2,3: split_and!; [lia|done|intros Hw; by destruct (Hret Hw)].
  destruct (negb retry || _) eqn:Hg; cbn [fst snd]; [split_and!; [lia|done|eauto]|].
  pose proof (waitBeforeRetry_spec (envs attempt) attempt Hok) as (Hws & Hwq & werr & Hwr).
  destruct (waitBeforeRetry _ _ _) as [slept r2]. cbn [fst snd] in *. subst r2.
  destruct werr as [werr|]; cbn [fst snd].
  { rewrite sends_app. split_and!; [lia|by apply Forall_app|eauto]. }
  destruct (IH (attempt + 1) b1) as (Hs' & Hq' & Hr').
  destruct (executeLoop _ _ _ _ _ _ _) as [[b2 events'] r2]. cbn [fst snd] in *.
  rewrite !sends_app. split_and!; [lia| |done].
  apply Forall_app. split; [done|]. by apply Forall_app.
Qed.

Lemma Execute_cases ctx execution envs b :
  (∃ err, Execute parseTime executor ctx execution envs b =
     (b, [], Returned (emptyResponse, Some err))) ∨
  (Execute parseTime executor ctx execution envs b =
     executeLoop parseTime executor execution envs
       (Z.to_nat (if bool_decide (exec_Operation execution = OperationRead)
                  then MaxAttempts (readRetryPolicy executor) else 1)) 1 b ∧
   TrimSpace (exec_EgressRouteID execution) ≠ "").
Proof.
  unfold Execute. destruct (negb ctx); [eauto|]. destruct (negb _); [eauto|].
  guard_cases; [eauto|]. destruct (negb (exec_hasBuild _)); [eauto|].
  destruct (negb _ && negb _); eauto.
Qed.

(** A mutation makes one attempt and never retries. *)
Lemma Execute_mutation ctx execution envs b b' events response err :
  exec_Operation execution = OperationMutation →
  Execute parseTime executor ctx execution envs b = (b', events, Returned (response, err)) →
  events = [] ∧ is_Some err ∨
  executeAttempt parseTime executor execution 1 (envs 1) b =
    (b', events, Returned (response, false, err)).
Proof.
  intros Hop. destruct (Execute_cases ctx execution envs b) as [[e ->]|[-> _]]; [naive_solver|].
  rewrite Hop. simpl. pose proof (executeAttempt_mutation execution 1 (envs 1) b) as Hm.
  destruct (executeAttempt _ _ _ _ _ _) as [[b1 es] [[[r retry] err1]| |]]; [|naive_solver..].
  specialize (Hm _ _ _ _ _ Hop eq_refl). subst retry. simpl. naive_solver.
Qed.
End executor_properties.

Lemma validate_Ok policy :
  validate policy = Ok tt ↔
    1 ≤ MaxAttempts policy ≤ 5 ∧ 0 ≤ BaseDelay policy ≤ MaxDelay policy.
Proof.
  unfold validate. destruct (_ || _) eqn:H1; go_bool; [split; [done|lia]|].
  destruct (_ || _) eqn:H2; go_bool; split; try done; lia.
Qed.

Lemma NewExecutor_ok config executor :
  NewExecutor config = Ok executor →
  MaxDelay (default defaultReadRetryPolicy (conf_ReadRetryPolicy config)) < MaxInt64 →
  executor_ok executor.
Proof.
  unfold NewExecutor. intros H Hmax. invert_result. simplify_eq/=.
  match goal with H : validate _ = Ok ?u |- _ => destruct u; apply validate_Ok in H as [??] end.
  split; simpl; lia.
Qed.

Lemma Execute_mutation_quiet parseTime executor ctx execution envs b :
  exec_Operation execution = OperationMutation →
  (sends (Execute parseTime executor ctx execution envs b).1.2 ≤ 1)%nat ∧
  ∀ delay, Slept delay ∉ (Execute parseTime executor ctx execution envs b).1.2.
Proof.
  intros Hop. destruct (Execute_cases parseTime executor ctx execution envs b) as [[e ->]|[-> _]].
  { simpl. split; [unfold sends; simpl; lia|]. intros d ?%elem_of_nil. done. }
  rewrite Hop. simpl.
  pose proof (executeAttempt_quiet parseTime executor execution 1 (envs 1) b 0) as [Hs Hq].
  destruct (executeAttempt _ _ _ _ _ _) as [[b1 es] [[[r retry] err1]| |]]; cbn [fst snd] in *.
  all: rewrite ?orb_true_r; simpl; (split; [done|]).
  all: intros d Hd; rewrite Forall_forall in Hq; specialize (Hq _ Hd); simpl in Hq; lia.
Qed.

(** C1: a mutation is sent at most once, whatever the limiter, the builder, the
    network and the context do, and whatever the retry policy says. *)
Theorem mutation_sent_once parseTime executor ctx execution envs b :
  exec_Operation execution = OperationMutation →
  (sends (Execute parseTime executor ctx execution envs b).1.2 ≤ 1)%nat ∧
  ∀ delay, Slept delay ∉ (Execute parseTime executor ctx execution envs b).1.2.
Proof. apply Execute_mutation_quiet. Qed.

(** The draw of the jitter is out of range for the largest delay: [NewExecutor]
    accepts [MaxDelay = math.MaxInt64], and [rand.Int64N(MaxDelay + 1)] panics
    because the sum wraps. *)
Example largest_delay_panics :
  let policy := MkReadRetryPolicy 2 MaxInt64 MaxInt64 in
  NewExecutor (MkExecutorConfig true (Some newMemoryBackend) 1024 (Some policy) true) =
    Ok (MkExecutor 1024 policy true) ∧
  ∀ env, waitBeforeRetry (MkExecutor 1024 policy true) env 1 = ([], Panicked).
Proof. split; [vm_compute; reflexivity|]. intros env. reflexivity. Qed.

(** C32: an executor that [NewExecutor] built with a [MaxDelay] below
    [math.MaxInt64] sends at most [MaxAttempts] requests, at most five, never
    sleeps longer than [MaxDelay] between two of them, does not panic, and
    returns as soon as the limiter's waits return.  With
    [MaxDelay = math.MaxInt64], which [NewExecutor] accepts, a retry panics. *)
Theorem Execute_bounded parseTime config executor ctx execution envs b :
  NewExecutor config = Ok executor →
  MaxDelay (default defaultReadRetryPolicy (conf_ReadRetryPolicy config)) < MaxInt64 →
  let r := Execute parseTime executor ctx execution envs b in
  Z.of_nat (sends r.1.2) ≤ MaxAttempts (readRetryPolicy executor) ≤ 5 ∧
  Forall (slept_at_most (MaxDelay (readRetryPolicy executor))) r.1.2 ∧
  ((∀ i b, (Wait (env_wait (envs i)) b (exec_Charges execution)).2 ≠ None) →
   ∃ response err, r.2 = Returned (response, err)).
Proof.
  intros Hnew Hmax. pose proof (NewExecutor_ok _ _ Hnew Hmax) as Hok.
  pose proof Hok as [Hatt _ _]. cbv zeta.
  destruct (Execute_cases parseTime executor ctx execution envs b) as [[e ->]|[-> _]].
  { simpl. split_and!; [unfold sends; simpl; lia|lia|done|eauto]. }
  destruct (executeLoop_bounded parseTime executor execution envs
    (Z.to_nat (if bool_decide (exec_Operation execution = OperationRead)
               then MaxAttempts (readRetryPolicy executor) else 1)) 1 b Hok) as (Hs & Hd & Hr).
  split_and!; [|lia|done|done]. case_bool_decide; lia.
Qed.

Lemma AsAPIError_API a : AsAPIError (API a) = Some a.
Proof. done. Qed.

(** The sender refused the route: nothing can have reached the exchange. *)
Definition route_refused (err : error) : bool :=
  Is err ErrUnknownEgressRoute || Is err ErrRegistryClosed || Is err ErrLocalAddressUnavailable.

(** An error of a mutation that was handed to the sender. *)
Lemma failed_mutation parseTime executor ctx execution envs b b' events response e :
  exec_Operation execution = OperationMutation →
  Execute parseTime executor ctx execution envs b = (b', events, Returned (response, Some e)) →
  sends events ≠ 0%nat →
  ∃ a, e = API a ∧ Retryable a = false ∧
    ((Category a = ErrorUnknownExecutionState ∧ Is e ErrUnknownExecutionState = true) ∨
     (Category a = ErrorValidation ∧
      ∃ cause, env_do (envs 1) = Err cause ∧ route_refused cause = true)).
Proof.
  intros Hop Hex Hs.
  destruct (Execute_mutation _ _ _ _ _ _ _ _ _ _ Hop Hex) as [[-> _]|Hatt]; [done|].
  revert Hatt. unfold executeAttempt. rewrite Hop.
  destruct (Wait _ _ _) as [b1 [[u|w]|]]; [| |naive_solver].
  2:{ intros [= <- <- <- <-]. by rewrite observe_sends in Hs. }
  destruct (env_build (envs 1)) as [[req|]|w].
  2,3: intros [= <- <- <- <-]; by rewrite sends_built, observe_sends in Hs.
  destruct (env_do (envs 1)) as [hr|w] eqn:Hdo.
  - unfold receive. destruct (readLimited _ _) as [body [err|]].
    + intros [= _ _ _ _ <-]. unfold responseError. rewrite Hop. eexists. split; [reflexivity|]. split; [done|]. by left.
    + destruct (bool_decide (maxResponseBodyBytes executor < _)).
      * intros [= _ _ _ <-]. unfold responseError. rewrite Hop. eexists. split; [reflexivity|]. split; [done|]. by left.
      * by destruct (if _ || _ then _ else _).
  - simpl. intros [= _ _ _ <-]. unfold transportError.
    destruct (Is w ErrUnknownEgressRoute || _ || _) eqn:Hr.
    + eexists. split; [reflexivity|]. split; [done|]. right. eauto.
    + rewrite Hop. simpl. eexists. split; [reflexivity|]. split; [done|]. by left.
Qed.

(** C4: when a mutation was handed to the sender and [Execute] still reports an
    error, the error says that the execution state is unknown, unless the
    sender refused the route itself; it is never marked retryable. *)
Theorem mutation_failure_is_ambiguous parseTime executor ctx execution envs b b' events response e :
  exec_Operation execution = OperationMutation →
  Execute parseTime executor ctx execution envs b = (b', events, Returned (response, Some e)) →
  sends events ≠ 0%nat →
  ∃ a, e = API a ∧ Retryable a = false ∧
    ((Category a = ErrorUnknownExecutionState ∧ Is e ErrUnknownExecutionState = true) ∨
     (Category a = ErrorValidation ∧
      ∃ cause, env_do (envs 1) = Err cause ∧ route_refused cause = true)).
Proof. apply failed_mutation. Qed.

(** ** Throttling *)

Lemma retryAfterDuration_positive parseTime value now :
  (∀ seconds, Atoi (TrimSpace value) = Some seconds → seconds ≤ 9223372036) →
  0 < retryAfterDuration parseTime value now.
Proof.
  intros Hs. unfold retryAfterDuration.
  assert (0 < match parseTime value with
    | Some retryAt => if bool_decide (now < retryAt) then Time_Sub retryAt now else Second
    | None => Second end) as Hd.
  { destruct (parseTime value); [|done]. unfold Time_Sub, MinInt64, MaxInt64. guard_cases; [lia|done]. }
  destruct (Atoi (TrimSpace value)) as [seconds|]; [|done]. guard_cases; [|done].
  specialize (Hs seconds eq_refl). unfold Second.
  rewrite int64_id by (unfold is_int64, MinInt64, MaxInt64; lia). lia.
Qed.

Lemma elem_of_distinctKeys charges seen key :
  key ∈ distinctKeys seen charges ↔ key ∈ ChargeKey <$> charges ∧ key ∉ seen.
Proof.
  revert seen. induction charges as [|c cs IH]; intros seen; simpl; [set_solver|].
  case_decide as Hc.
  - rewrite IH, elem_of_cons. split; [naive_solver|]. intros [[->|?] ?]; [done|naive_solver].
  - rewrite !elem_of_cons, IH, not_elem_of_union, not_elem_of_singleton.
    destruct (decide (key = ChargeKey c)); naive_solver.
Qed.

Lemma distinctKeys_NoDup charges seen : NoDup (distinctKeys seen charges).
Proof.
  revert seen. induction charges as [|c cs IH]; intros seen; simpl; [constructor|].
  case_decide; [done|]. constructor; [|done]. rewrite elem_of_distinctKeys. set_solver.
Qed.

(** The answers that throttle: 429 and 418. *)
Definition throttled (status : Z) : bool := bool_decide (status = 429) || bool_decide (status = 418).

Lemma throttled_not_retried status : throttled status = true → retryableReadStatus status = false.
Proof.
  unfold throttled. intros [Hs|Hs]%orb_true_iff; apply bool_decide_eq_true in Hs as ->; vm_compute; reflexivity.
Qed.

Section throttling.
Context (parseTime : string → option Z) (executor : Executor) (execution : Execution).

(** What an attempt does to the limiter after its wait, and whether it sent. *)
Lemma executeAttempt_cases attempt env b b2 es r :
  executeAttempt parseTime executor execution attempt env b = (b2, es, r) →
  let b1 := (Wait (env_wait env) b (exec_Charges execution)).1 in
  (b2 = b1 ∧ (∀ response retry, r = Returned (response, retry, None) → throttled (StatusCode response) = false) ∨
   ∃ response, r = Returned (response, false, None) ∧ throttled (StatusCode response) = true ∧
     b2 = (applyRetryAfter parseTime b1 (resp_Header response) (exec_Charges execution) (env_now env)).1) ∧
  (∀ response retry err, r = Returned (response, retry, err) → retry = true ∨ err = None → sends es = 1%nat).
Proof.
  assert (∀ l ep err, sends (l ++ observe executor execution ep attempt env 0 err) = sends l) as Hobs.
  { intros. rewrite sends_app, observe_sends. lia. }
  unfold executeAttempt. destruct (Wait _ _ _) as [b1 [[u|e]|]]; cbn [fst].
  2,3: intros [= <- <- <-]; split; [left; naive_solver|naive_solver].
  destruct (env_build env) as [[request|]|e].
  2,3: intros [= <- <- <-]; split; [left; naive_solver|naive_solver].
  destruct (env_do env) as [hr|e].
  2: { intros [= <- <- <-]. split; [left; naive_solver|]. intros. exact (Hobs [Built; Sent _ _] _ _). }
  match goal with |- context [receive _ _ _ _ _ _ ?ep _] =>
    pose proof (receive_quiet parseTime executor execution attempt env b1 ep hr 0) as Hq;
    destruct (receive _ _ _ _ _ _ ep _) as [[b3 events] r3] eqn:Hr end.
  intros [= <- <- <-]. cbn [fst snd] in Hq. destruct Hq as [Hq _]. split.
  2: { intros. exact (f_equal S Hq). }
  unfold receive in Hr. destruct (readLimited _ _) as [body [err|]]; [simplify_eq; left; naive_solver|].
  destruct (bool_decide (maxResponseBodyBytes executor < _)); [simplify_eq; left; naive_solver|].
  fold (throttled (http_StatusCode hr)) in Hr.
  destruct (throttled (http_StatusCode hr)) eqn:Ht.
  - cbn [resp_Header] in Hr. destruct (applyRetryAfter _ _ _ _ _) as [b4 blocked] eqn:Ha. simplify_eq.
    right. eexists. rewrite (throttled_not_retried _ Ht), andb_false_r. split_and!; [done|done|]. simpl. by rewrite Ha.
  - simplify_eq. left. split; [done|]. intros response retry [= <- _]. done.
Qed.

(** The clock of the attempts from [attempt] on, and what other goroutines do to
    the limiter meanwhile. *)
Definition clocked (T : Z) (envs : Z → attemptEnv) (attempt : Z) : Prop :=
  timed T (env_wait (envs attempt)) (env_now (envs attempt)) ∧
  ∀ k, attempt ≤ k → timed (env_now (envs k)) (env_wait (envs (k + 1))) (env_now (envs (k + 1))).

Lemma clocked_next T envs attempt : clocked T envs attempt → clocked (env_now (envs attempt)) envs (attempt + 1).
Proof. intros [_ H]. split; [apply H; lia|]. intros k Hk. apply H. lia. Qed.

Context (Hsized : ∀ key, is_int64 (units_for key (exec_Charges execution))).

Lemma executeLoop_throttled envs remaining attempt T b b' events response :
  backend_ok T b → 0 ≤ T → clocked T envs attempt →
  executeLoop parseTime executor execution envs remaining attempt b = (b', events, Returned (response, None)) →
  throttled (StatusCode response) = true →
  ∃ k b1, k = attempt + Z.of_nat (sends events) - 1 ∧ 0 ≤ env_now (envs k) ∧
    backend_ok (env_now (envs k)) b1 ∧ rules b1 = rules b ∧
    b' = (applyRetryAfter parseTime b1 (resp_Header response) (exec_Charges execution) (env_now (envs k))).1.
Proof.
  revert attempt T b b' events. induction remaining as [|n IH]; intros attempt T b b' events Hb HT Hclock Hrun Hthr;
    simpl in Hrun; [done|].
  destruct (executeAttempt _ _ _ _ _ _) as [[b2 es] r] eqn:Ha.
  apply executeAttempt_cases in Ha as [Hcase Hsent].
  pose proof Hclock as [Htimed _]. pose proof (timed_le _ _ _ Htimed) as Hle.
  destruct (Wait_ok T _ b _ _ Hb HT Htimed Hsized) as [Hb1 Hr1].
  destruct r as [[[resp retry] err]| |]; [|done..].
  destruct (negb retry || bool_decide (n = 0%nat)) eqn:Hlast.
  - injection Hrun as <- <- <- ->. rewrite (Hsent _ _ _ eq_refl) by auto.
    destruct Hcase as [[_ Hno]|(response & [= -> ->] & _ & ->)]; [by rewrite (Hno _ _ eq_refl) in Hthr|].
    exists attempt. eexists. split; [lia|]. split; [lia|]. by split_and!.
  - apply orb_false_iff in Hlast as [->%negb_false_iff _].
    destruct Hcase as [[-> _]|(? & [=] & _)].
    destruct (waitBeforeRetry _ _ _) as [slept [[werr|]| |]] eqn:Hw; [done| |done..].
    destruct (executeLoop _ _ _ _ _ _ _) as [[b3 es3] r3] eqn:Hloop. injection Hrun as <- <- ->.
    destruct (IH _ _ _ _ _ Hb1 ltac:(lia) (clocked_next _ _ _ Hclock) Hloop Hthr) as (k & b4 & -> & ? & ? & ? & ?).
    pose proof (waitBeforeRetry_sends executor (envs attempt) attempt) as Hq. rewrite Hw in Hq. simpl in Hq.
    exists (attempt + Z.of_nat (sends (es ++ slept ++ es3)) - 1), b4.
    rewrite !sends_app, (Hsent _ _ _ eq_refl), Hq by auto.
    replace (attempt + Z.of_nat (1 + (0 + sends es3)) - 1) with (attempt + 1 + Z.of_nat (sends es3) - 1) by lia.
    split_and!; [done|done|done|congruence|done].
Qed.
End throttling.

(** [applyRetryAfter] blocks the keys of the charges for the announced time. *)
Lemma applyRetryAfter_blocks parseTime T b now headers charges key :
  backend_ok T b → T ≤ now → 0 ≤ now →
  (∀ c, c ∈ charges → is_Some (rules b !! ChargeKey c)) →
  let d := retryAfterDuration parseTime (Header_Get headers "Retry-After") now in
  let b' := (applyRetryAfter parseTime b headers charges now).1 in
  backend_ok now b' ∧ (0 < d → key ∈ ChargeKey <$> charges → now + d ≤ blocked_until b' key).
Proof.
  intros Hb HT Hnow Hrules. cbv zeta. unfold applyRetryAfter. set (d := retryAfterDuration _ _ _).
  pose proof (BlockFor_step T b now (distinctKeys ∅ charges) d Hb HT Hnow) as (Hok & _ & _).
  case_bool_decide as Hkeys; (split; [done || by eapply (backend_ok_mono T)|]); intros Hd Hkey.
  2: { assert (key ∈ distinctKeys ∅ charges) as Hin by (apply elem_of_distinctKeys; set_solver).
       rewrite Hkeys in Hin. by apply elem_of_nil in Hin. }
  unfold BlockFor. rewrite (bool_decide_eq_false_2 (d ≤ 0)) by lia. rewrite (proj2 (forallb_forall _ _)).
  2: { intros k Hk. apply bool_decide_eq_true. apply list_elem_of_In in Hk.
       apply elem_of_distinctKeys in Hk as [(c' & -> & Hc')%list_elem_of_fmap _]. by apply Hrules. }
  unfold blocked_until, bucket_of. simpl. rewrite blockKeys_spec. simpl.
  rewrite decide_True by (apply elem_of_distinctKeys; set_solver). lia.
Qed.

(** C31: a 429 or 418 answer throttles every client of the limiter.  When
    [Execute] returns such an answer, of its last attempt [k], every key that the
    request charged is blocked until the announced time after that answer: in
    every later execution of the limiter, whatever its clients do, nothing that
    charges one of the keys is granted earlier.  The charged keys have rules and
    their units fit in an [int]; a number of seconds in the header is at most
    9223372036, so that it fits in a duration (a larger one wraps). *)
Theorem throttled_keys_are_blocked parseTime executor ctx execution envs T b b' events response :
  backend_ok T b → 0 ≤ T → clocked T envs 1 →
  (∀ c, c ∈ exec_Charges execution → is_Some (rules b !! ChargeKey c)) →
  (∀ key, is_int64 (units_for key (exec_Charges execution))) →
  Execute parseTime executor ctx execution envs b = (b', events, Returned (response, None)) →
  StatusCode response = 429 ∨ StatusCode response = 418 →
  (∀ seconds, Atoi (TrimSpace (Header_Get (resp_Header response) "Retry-After")) = Some seconds →
     seconds ≤ 9223372036) →
  let k := Z.of_nat (sends events) in
  let now := env_now (envs k) in
  let d := retryAfterDuration parseTime (Header_Get (resp_Header response) "Retry-After") now in
  0 < d ∧
  ∀ ops t granted c, StronglySorted op_before ops → Forall op_sized ops →
    Forall (λ op, now ≤ op_time op) ops → (t, granted) ∈ (run b' ops).2 →
    c ∈ exec_Charges execution → ChargeKey granted = ChargeKey c → now + d ≤ t.
Proof.
  intros Hb HT Hclock Hrules Hsized Hrun Hstatus Hsec.
  assert (throttled (StatusCode response) = true) as Hthr.
  { unfold throttled. by destruct Hstatus as [->| ->]. }
  destruct (Execute_cases parseTime executor ctx execution envs b) as [[e He]|[He _]]; [congruence|].
  rewrite He in Hrun.
  destruct (executeLoop_throttled parseTime executor execution Hsized _ _ _ _ _ _ _ _ Hb HT Hclock Hrun Hthr)
    as (k & b1 & -> & Hnow & Hb1 & Hr1 & ->). clear He Hrun. cbv zeta.
  replace (1 + Z.of_nat (sends events) - 1) with (Z.of_nat (sends events)) in * by lia.
  set (now := env_now _) in *.
  pose proof (retryAfterDuration_positive parseTime _ now Hsec) as Hd. split; [done|].
  intros ops t granted c Hsort Hsize Hops Hgranted Hc Hkey.
  assert (∀ c, c ∈ exec_Charges execution → is_Some (rules b1 !! ChargeKey c)) as Hrules1
    by (rewrite Hr1; exact Hrules).
  destruct (applyRetryAfter_blocks parseTime now b1 now (resp_Header response) (exec_Charges execution)
    (ChargeKey c) Hb1 (Z.le_refl _) Hnow Hrules1) as [Hb2 Hblocked].
  specialize (Hblocked Hd ltac:(by apply list_elem_of_fmap_2)).
  pose proof (run_blocked now _ ops (ChargeKey c) (t, granted) Hb2 Hops Hsort Hsize Hgranted Hkey) as Hlater.
  simpl in Hlater. lia.
Qed.

(** ** Two overflows *)

(** C40: a very long [Retry-After] blocks nothing.  When the header asks for
    9223372037 to 18446744073 seconds, the duration in nanoseconds wraps to a
    negative number, [BlockFor] refuses it and the dropped error leaves the
    limiter as it was. *)
Theorem long_retry_after_does_not_block parseTime b text seconds charges now :
  Atoi (TrimSpace text) = Some seconds → 9223372037 ≤ seconds ≤ 18446744073 →
  (applyRetryAfter parseTime b {["Retry-After" := [text]]} charges now).1 = b.
Proof.
  intros Htext Hs. unfold applyRetryAfter. case_bool_decide; [|done].
  assert (Header_Get {["Retry-After" := [text]]} "Retry-After" = text) as -> by reflexivity.
  unfold retryAfterDuration. rewrite Htext, bool_decide_eq_true_2 by lia.
  assert (int64 (seconds * Second) = seconds * Second - 2 ^ 64) as ->.
  { unfold int64, Second. rewrite <-(Z.mod_unique (seconds * 1000000000 + 2 ^ 63) (2 ^ 64) 1
      (seconds * 1000000000 + 2 ^ 63 - 2 ^ 64)); lia. }
  unfold BlockFor. rewrite bool_decide_eq_true_2; [done|]. unfold Second. lia.
Qed.

(** The largest body limit loses every body.  [NewExecutor] accepts a limit
    of [math.MaxInt64] bytes, but the reader's limit, one more, wraps to a
    negative number: every response is returned as a success with an empty
    body, whatever the server sent and however reading it would have failed. *)
Theorem largest_body_limit_reads_nothing parseTime executor execution attempt env b endpointID response :
  maxResponseBodyBytes executor = MaxInt64 →
  let r := (receive parseTime executor execution attempt env b endpointID response).2 in
  r.1.1 = MkResponse (http_StatusCode response) (http_Header response) [] ∧ r.2 = None.
Proof.
  intros Hmax. unfold receive. rewrite Hmax.
  assert (int64 (MaxInt64 + 1) = MinInt64) as -> by (vm_compute; reflexivity).
  unfold readLimited. rewrite bool_decide_eq_true_2 by (unfold MinInt64; lia). cbn [take Z.to_nat MinInt64].
  rewrite bool_decide_eq_false_2 by (unfold MaxInt64; simpl; lia).
  by destruct (bool_decide _ || bool_decide _); [destruct (applyRetryAfter _ _ _ _ _)|].
Qed.

(** ** Concrete executions *)

Definition no_dates : string → option Z := λ _, None.

Definition demo_env (r : result error httpResponse) : attemptEnv :=
  MkAttemptEnv [] (Ok (Some (MkRequest "POST" (Some "/api/v3/order") "api.binance.com" "symbol=BTCUSDT" ∅ ""))) r None 5 7 3 None.

Definition demo_executor : Executor := MkExecutor 1024 defaultReadRetryPolicy true.

Definition demo_execution (operation : Z) : Execution :=
  MkExecution "binance" "" "main" "seoul" 0 [] operation true.

Definition demo_config : ExecutorConfig :=
  MkExecutorConfig true (Some newMemoryBackend) 1024 None true.

Definition connection_reset : result error httpResponse := Err (Errorf "connection reset").

Lemma mutation_sent_once_witness :
  (sends (Execute no_dates demo_executor true (demo_execution 1)
    (λ _, demo_env connection_reset) newMemoryBackend).1.2 ≤ 1)%nat.
Proof.
  apply (mutation_sent_once no_dates demo_executor true (demo_execution 1)). reflexivity.
Defined.

Lemma Execute_bounded_witness :
  let r := Execute no_dates demo_executor true (demo_execution 0)
    (λ _, demo_env connection_reset) newMemoryBackend in
  sends r.1.2 = 2%nat ∧ Z.of_nat (sends r.1.2) ≤ 2.
Proof.
  split; [vm_compute; reflexivity|].
  destruct (Execute_bounded no_dates demo_config demo_executor true (demo_execution 0)
    (λ _, demo_env connection_reset) newMemoryBackend) as [[H _] _];
    [vm_compute; reflexivity|vm_compute; reflexivity|exact H].
Defined.

Lemma mutation_failure_is_ambiguous_witness :
  ∃ b' events response e,
    Execute no_dates demo_executor true (demo_execution 1)
      (λ _, demo_env connection_reset) newMemoryBackend =
      (b', events, Returned (response, Some e)) ∧
    ∃ a, e = API a ∧ Retryable a = false.
Proof.
  destruct (Execute no_dates demo_executor true (demo_execution 1)
    (λ _, demo_env connection_reset) newMemoryBackend) as [[b' events] o] eqn:E.
  vm_compute in E. injection E as Eb Ee Eo. subst o.
  do 4 eexists. split; [reflexivity|].
  destruct (mutation_failure_is_ambiguous no_dates demo_executor true (demo_execution 1)
    (λ _, demo_env connection_reset) newMemoryBackend
    (Execute no_dates demo_executor true (demo_execution 1)
      (λ _, demo_env connection_reset) newMemoryBackend).1.1
    (Execute no_dates demo_executor true (demo_execution 1)
      (λ _, demo_env connection_reset) newMemoryBackend).1.2
    emptyResponse
    (transportError (demo_execution 1) (Errorf "connection reset")))
    as (a & Ha & Hr & _); [reflexivity|vm_compute; reflexivity|vm_compute; lia|].
  exists a. split; [|exact Hr]. rewrite <-Ha. vm_compute. reflexivity.
Defined.

(** A read that is answered with 429 and two seconds to wait, at time 100. *)
Definition demo_throttled : httpResponse :=
  MkHTTPResponse 429 {["Retry-After" := ["2"]]} (MkBody [] None).
Definition demo_waiting (k : Z) : attemptEnv :=
  MkAttemptEnv [MkWaitIteration id (100 * k - 50) (100 * k - 50) None]
    (Ok (Some (MkRequest "GET" (Some "/api/v3/time") "api.binance.com" "" ∅ ""))) (Ok demo_throttled) None (100 * k) 7 3 None.
Definition demo_read : Execution := MkExecution "binance" "" "" "seoul" 0 [MkCharge "ip" 1] 0 true.

(** Two later requests: the first, after one second, is not granted. *)
Definition demo_later : list operation :=
  [OpAcquire 1000000000 [MkCharge "ip" 1]; OpAcquire 2000000100 [MkCharge "ip" 1]].

Lemma demo_clocked : clocked 0 demo_waiting 1.
Proof.
  assert (∀ T k, T ≤ 100 * k - 50 → timed T (env_wait (demo_waiting k)) (100 * k)) as Ht.
  { intros T k HT. simpl. split; [done|]. split; [|lia]. exists []. by repeat constructor. }
  split; [apply Ht; lia|]. intros k _. apply Ht. simpl. lia.
Qed.

Lemma demo_charge_sized key : is_int64 (units_for key [MkCharge "ip" 1]).
Proof.
  rewrite units_for_cons. change (units_for key []) with 0. simpl.
  unfold is_int64, MinInt64, MaxInt64. case_decide; lia.
Qed.

Lemma throttled_keys_are_blocked_witness :
  ∃ b' events response,
    Execute no_dates demo_executor true demo_read demo_waiting demo_backend =
      (b', events, Returned (response, None)) ∧
    (run b' demo_later).2 = [(2000000100, MkCharge "ip" 1)] ∧
    ∀ t granted, (t, granted) ∈ (run b' demo_later).2 → ChargeKey granted = "ip" → 2000000100 ≤ t.
Proof.
  destruct (Execute no_dates demo_executor true demo_read demo_waiting demo_backend)
    as [[b' events] [[response [err|]]| |]] eqn:Hrun; try (vm_compute in Hrun; discriminate).
  exists b', events, response. split; [reflexivity|].
  assert (b' = (Execute no_dates demo_executor true demo_read demo_waiting demo_backend).1.1) as Hb'
    by (rewrite Hrun; reflexivity).
  assert (events = (Execute no_dates demo_executor true demo_read demo_waiting demo_backend).1.2) as Hes
    by (rewrite Hrun; reflexivity).
  assert (response = MkResponse 429 {["Retry-After" := ["2"]]} []) as Hresp
    by (vm_compute in Hrun; injection Hrun as _ _ <-; reflexivity).
  split; [rewrite Hb'; vm_compute; reflexivity|].
  destruct (throttled_keys_are_blocked no_dates demo_executor true demo_read demo_waiting 0 demo_backend
    b' events response demo_ok) as [_ H]; [lia|exact demo_clocked| |exact demo_charge_sized|exact Hrun| | |].
  - intros c ->%list_elem_of_singleton. vm_compute. by eexists.
  - left. by rewrite Hresp.
  - intros seconds Hs. rewrite Hresp in Hs. vm_compute in Hs. injection Hs as <-. lia.
  - intros t granted Hin Hkey.
    apply (λ Hsorted Hsized Hlater, H demo_later t granted (MkCharge "ip" 1) Hsorted Hsized Hlater Hin) in Hkey;
      [| | | |by left].
    + rewrite Hresp, Hes in Hkey. vm_compute in Hkey |- *. exact Hkey.
    + repeat constructor; unfold op_before; simpl; lia.
    + apply Forall_cons_2; [|apply Forall_cons_2; [|constructor]]; (split; [simpl; lia|exact demo_charge_sized]).
    + rewrite Hes. repeat constructor; vm_compute; discriminate.
Defined.

Lemma long_retry_after_does_not_block_witness :
  (applyRetryAfter no_dates demo_backend {["Retry-After" := ["10000000000"]]} [MkCharge "ip" 1] 100).1 =
    demo_backend.
Proof.
  apply (long_retry_after_does_not_block no_dates demo_backend "10000000000" 10000000000);
    [vm_compute; reflexivity|lia].
Defined.

(** An executor that [NewExecutor] builds, and the answer to a request. *)
Lemma largest_body_limit_reads_nothing_witness :
  ∃ executor,
    NewExecutor (MkExecutorConfig true (Some newMemoryBackend) MaxInt64 None true) = Ok executor ∧
    (receive no_dates executor (demo_execution 0) 1 (demo_env connection_reset) newMemoryBackend ""
      (MkHTTPResponse 200 ∅ (MkBody (String.list_ascii_of_string "{}") None))).2.1.1 =
      MkResponse 200 ∅ [].
Proof.
  exists (MkExecutor MaxInt64 defaultReadRetryPolicy true). split; [vm_compute; reflexivity|].
  refine (proj1 (largest_body_limit_reads_nothing no_dates (MkExecutor MaxInt64 defaultReadRetryPolicy true)
    (demo_execution 0) 1 (demo_env connection_reset) newMemoryBackend ""
    (MkHTTPResponse 200 ∅ (MkBody (String.list_ascii_of_string "{}") None)) _)).
  reflexivity.
Defined.
