(* ===== verification/Session.v ===== *)
(** * Reconnecting WebSocket sessions: [stream/session.go], [types.go], [connector.go]

    [Run] is a program counter over the critical sections of the session's
    mutex.  [step] advances the world by one input: a result that the
    environment hands to [Run] (a dial, a message, a timer), or a call of
    [Close], [Reconnect], [Write] or the cancellation of the context, which may
    come between any two steps of [Run].  An input that does not fit the
    program counter changes nothing, so every list of inputs is an execution. *)

From S2P Require Import Prelude GoStrings Errors Executor.

Definition closeNormal : Z := 1000.
Definition closeGoingAway : Z := 1001.
Definition defaultPingTimeout : Z := 5 * Second.
Definition defaultMaxReconnectDelay : Z := 5 * Minute.

Record Message : Type := MkMessage { Message_Type : Z; Message_Data : string }.

Record DialRequest : Type := MkDialRequest { Endpoint : string; DialHeader : Header }.

(** [ReconnectOnMessageError]. *)
Definition ReconnectOnMessageError (err : option error) : option error :=
  match err with None => None | Some err => Some (reconnectMessageError err) end.

(** ** Reconnect policies and delays *)

Definition AsHandshakeError : error → option (Z * string) :=
  As (λ e, match e with
           | HandshakeError status retryAfter _ _ => Some (status, retryAfter)
           | _ => None end).

Definition AsPermanentError : error → bool :=
  λ e, bool_decide (is_Some (As (λ e, match e with permanentError c => Some c | _ => None end) e)).

Definition AsReconnectMessageError : error → bool :=
  λ e, bool_decide
    (is_Some (As (λ e, match e with reconnectMessageError c => Some c | _ => None end) e)).

(** [DefaultReconnectPolicy]. *)
Definition DefaultReconnectPolicy (err : option error) : bool :=
  match err with
  | None => false
  | Some err =>
      if Is err ContextCanceled || Is err ContextDeadlineExceeded || Is err ErrSessionClosed
      then false
      else
        let permanentStatus :=
          match AsHandshakeError err with
          | Some (status, _) =>
              bool_decide (400 ≤ status) && bool_decide (status < 500) &&
              negb (bool_decide (status = 408)) && negb (bool_decide (status = 429)) &&
              negb (bool_decide (status = 418))
          | None => false
          end in
        if permanentStatus then false else negb (AsPermanentError err)
  end.

(** The loop of [ExponentialBackoff], [index] running up to the attempt. *)
Fixpoint exponentialLoop (maximum : Z) (steps : nat) (delay : Z) : Z :=
  match steps with
  | O => delay
  | S steps =>
      if negb (bool_decide (delay < maximum)) then delay
      else if bool_decide (Z.quot maximum 2 < delay) then maximum
      else exponentialLoop maximum steps (int64 (delay * 2))
  end.

Definition ExponentialBackoff (minimum maximum attempt : Z) : Z :=
  if bool_decide (minimum ≤ 0) || bool_decide (maximum < minimum) then 0
  else
    let attempt := if bool_decide (attempt < 1) then 1 else attempt in
    let delay := exponentialLoop maximum (Z.to_nat (attempt - 1)) minimum in
    if bool_decide (maximum < delay) then maximum else delay.

(** A [Backoff] is a function of the draw of [rand.Int64N] and the attempt. *)
Abbreviation Backoff := (Z → Z → Z).

Definition FullJitterBackoff (minimum maximum : Z) : Backoff := λ random attempt,
  let ceiling := ExponentialBackoff minimum maximum attempt in
  if bool_decide (ceiling ≤ 0) then 0 else random mod int64 (ceiling + 1).

(** [handshakeRetryAfter]. *)
Definition handshakeRetryAfter (parseTime : string → option Z) (err : error) (now : Z) : Z :=
  match AsHandshakeError err with
  | None => 0
  | Some (_, value) =>
      let byDate :=
        match parseTime value with
        | Some retryAt => if bool_decide (now < retryAt) then Time_Sub retryAt now else 0
        | None => 0
        end in
      match Atoi value with
      | Some seconds => if bool_decide (0 < seconds) then int64 (seconds * Second) else byDate
      | None => byDate
      end
  end.

(** ** Configuration *)

Record SessionConfig : Type := MkSessionConfig {
  Connector : bool;
  Session_EgressRouteID : string;
  Session_Request : DialRequest;
  RequestSource : bool;
  OnConnect : bool;
  Observer : bool;
  ReconnectPolicy : option (error → bool);
  Session_Backoff : option Backoff;
  MaxReconnectAttempts : Z;
  MaxReconnectDelay : Z;
  PingInterval : Z;
  PingTimeout : Z
}.

(** The parts of a parsed URL that [validateEndpoint] looks at; [url.Parse] is
    the argument [parseURL]. *)
Record URL : Type := MkURL { Scheme : string; Host : string; hasUser : bool; Fragment : string }.

Definition validateEndpoint (parseURL : string → option URL) (endpoint : string)
    : result error unit :=
  match parseURL endpoint with
  | None => Err (Errorf "invalid WebSocket endpoint")
  | Some parsed =>
      if bool_decide (Host parsed = "") || hasUser parsed || negb (bool_decide (Fragment parsed = ""))
      then Err (Errorf "invalid WebSocket endpoint")
      else if negb (bool_decide (Scheme parsed = "ws")) && negb (bool_decide (Scheme parsed = "wss"))
      then Err (Errorf "WebSocket endpoint must use ws or wss")
      else Ok tt
  end.

(** What the defaults of [NewSession] leave in the configuration. *)
Definition withDefaults (config : SessionConfig) : SessionConfig :=
  MkSessionConfig (Connector config) (Session_EgressRouteID config) (Session_Request config)
    (RequestSource config) (OnConnect config) (Observer config)
    (Some (default (λ err, DefaultReconnectPolicy (Some err)) (ReconnectPolicy config)))
    (Some (default (FullJitterBackoff (250 * Millisecond) (30 * Second)) (Session_Backoff config)))
    (MaxReconnectAttempts config)
    (if bool_decide (MaxReconnectDelay config = 0) then defaultMaxReconnectDelay
     else MaxReconnectDelay config)
    (PingInterval config)
    (if bool_decide (0 < PingInterval config) && bool_decide (PingTimeout config = 0)
     then defaultPingTimeout else PingTimeout config).

(** [NewSession]. *)
Definition NewSession (parseURL : string → option URL) (config : SessionConfig)
    : result error SessionConfig :=
  require (Connector config) (Errorf "stream connector is required");;
  require (negb (bool_decide (Session_EgressRouteID config = "")))
    (Errorf "stream egress route is required");;
  (if negb (RequestSource config)
   then validateEndpoint parseURL (Endpoint (Session_Request config))
   else require (bool_decide (Endpoint (Session_Request config) = "") &&
                 bool_decide (DialHeader (Session_Request config) = ∅))
          (Errorf "static dial request and request source cannot be used together"));;
  require (negb (bool_decide (MaxReconnectAttempts config < 0)))
    (Errorf "maximum reconnect attempts cannot be negative");;
  require (negb (bool_decide (PingInterval config < 0) || bool_decide (PingTimeout config < 0)))
    (Errorf "ping durations cannot be negative");;
  require (negb (bool_decide (MaxReconnectDelay config < 0)))
    (Errorf "maximum reconnect delay cannot be negative");;
  Ok (withDefaults config).

(** ** The session and its critical sections *)

(** Connections are numbered in the order the connector returns them; [cancel]
    tells whether a cancel function is installed. *)
Record Session : Type := MkSession {
  connection : option nat;
  generation : Z;
  started : bool;
  closed : bool;
  reconnect : bool;
  cancel : bool
}.

Definition newSession : Session := MkSession None 0 false false false false.

(** [Session.start]. *)
Definition start (session : Session) : result error Session :=
  if closed session then Err (Sentinel ErrSessionClosed)
  else if started session then Err (Sentinel ErrSessionAlreadyRun)
  else Ok (MkSession (connection session) (generation session) true (closed session)
             (reconnect session) true).

(** [Session.install]. *)
Definition install (session : Session) (conn : nat) : Session * (Z * bool) :=
  if closed session then (session, (generation session, false))
  else
    let generation := uint64 (generation session + 1) in
    (MkSession (Some conn) generation (started session) (closed session) false (cancel session),
      (generation, true)).

(** [Session.remove]. *)
Definition remove (session : Session) (conn : nat) : Session :=
  if bool_decide (connection session = Some conn)
  then MkSession None (generation session) (started session) (closed session)
         (reconnect session) (cancel session)
  else session.

(** [Session.reconnectCause]. *)
Definition reconnectCause (session : Session) (conn : nat) (cause : error) : Session * error :=
  if bool_decide (connection session = Some conn) && reconnect session
  then (MkSession (connection session) (generation session) (started session) (closed session)
          false (cancel session), Sentinel errReconnectRequested)
  else (session, cause).

(** ** The world a session runs in *)

Inductive State : Type :=
  | StateConnecting | StateConnected | StateDisconnected | StateClosed.

Record StateChange : Type := MkStateChange {
  sc_State : State;
  sc_RouteID : string;
  sc_Generation : Z;
  sc_Attempt : Z;
  sc_Cause : option error
}.

Inductive effect : Type :=
  | Notified (change : StateChange)
  | Installed (conn : nat) (generation : Z)
  | ClosedConn (conn : nat) (code : Z)
  | Handled (conn : nat) (message : Message)
  | Pinged (conn : nat)
  | Wrote (conn : nat) (message : Message).

(** The program counter of [Run], with its local variables. *)
Inductive location : Type :=
  | NotRunning
  | LoopTop (attempt : Z)
  | Dialing (attempt : Z)
  | Connecting (attempt : Z) (request : DialRequest)
  | Installing (attempt : Z) (conn : nat)
  | Hooking (attempt : Z) (conn : nat) (gen : Z)
  | Consuming (conn : nat) (gen : Z)
  | Consumed (conn : nat) (gen : Z) (err : error) (handlerFailed : bool)
  | Removing (conn : nat) (gen : Z) (err : error) (handlerFailed : bool)
  | Reconnecting (cause : error) (attempt : Z)
  | Waiting (attempt delay : Z)
  | Finishing (err : error)
  | Finished (err : error).

(** [nextConn] numbers the next connection; [ctxErr] is [ctx.Err()] of the run
    context. *)
Record world : Type := MkWorld {
  session : Session;
  ctxErr : option error;
  nextConn : nat;
  pc : location;
  effects : list effect
}.

(** Results handed to [Run], then calls from elsewhere.  [InMessage] carries the
    message and the handler's verdict, [InReconnectStep] the draw and the clock
    that the delay depends on. *)
Inductive input : Type :=
  | InRun
  | InStep
  | InSource (source : result error DialRequest)
  | InConnect (err : option error)
  | InHook (err : option error)
  | InMessage (message : Message) (err : option error)
  | InReadError (err : error)
  | InPing (err : option error)
  | InDone
  | InReconnectStep (random now : Z)
  | InTimer
  | InClose
  | InReconnect
  | InCancel (err : error)
  | InWrite (message : Message).

Section run.
Context (parseURL : string → option URL) (parseTime : string → option Z)
  (config : SessionConfig).

(** [Session.stopError]. *)
Definition stopError (w : world) : option error :=
  if closed (session w) then Some (Sentinel ErrSessionClosed) else ctxErr w.

(** [Session.observe]. *)
Definition notify (state : State) (gen attempt : Z) (cause : option error) : list effect :=
  if Observer config
  then [Notified (MkStateChange state (Session_EgressRouteID config) gen attempt cause)] else [].

Definition goto (w : world) (next : location) (es : list effect) : world :=
  MkWorld (session w) (ctxErr w) (nextConn w) next (effects w ++ es).

Definition set_session (w : world) (s : Session) : world :=
  MkWorld s (ctxErr w) (nextConn w) (pc w) (effects w).

(** [Session.dialRequest]; [source] is what the request source returns. *)
Definition dialRequest (source : result error DialRequest) : result error DialRequest :=
  request ← (if RequestSource config then source else Ok (Session_Request config));
  match validateEndpoint parseURL (Endpoint request) with
  | Err err => Err (permanentError err)
  | Ok _ => Ok request
  end.

(** The delay of [waitToReconnect]. *)
Definition reconnectDelay (cause : error) (attempt random now : Z) : Z :=
  let delay := default (λ _ _, 0) (Session_Backoff config) random attempt in
  let retryDelay := handshakeRetryAfter parseTime cause now in
  let delay := if bool_decide (delay < retryDelay) then retryDelay else delay in
  let delay := if bool_decide (MaxReconnectDelay config < delay)
               then MaxReconnectDelay config else delay in
  if bool_decide (delay < 0) then 0 else delay.

(** [waitToReconnect] up to its timer. *)
Definition waitToReconnect (w : world) (cause : error) (attempt random now : Z) : location :=
  match stopError w with
  | Some err => Finishing err
  | None =>
      if negb (default (λ _, false) (ReconnectPolicy config) cause) then Finishing cause
      else if bool_decide (0 < MaxReconnectAttempts config) &&
              bool_decide (MaxReconnectAttempts config < attempt) then Finishing cause
      else Waiting attempt (reconnectDelay cause attempt random now)
  end.

(** The steps of [Run]. *)
Definition runStep (w : world) (i : input) : world :=
  match pc w, i with
  | LoopTop attempt, InStep =>
      match stopError w with
      | Some err => goto w (Finishing err) []
      | None => goto w (Dialing attempt)
                  (notify StateConnecting (generation (session w)) attempt None)
      end
  | Dialing attempt, InSource source =>
      match dialRequest source with
      | Err err => goto w (Reconnecting err (int64 (attempt + 1))) []
      | Ok request => goto w (Connecting attempt request) []
      end
  | Connecting attempt request, InConnect (Some err) =>
      let attempt := int64 (attempt + 1) in
      goto w (Reconnecting err attempt)
        (notify StateDisconnected (generation (session w)) attempt (Some err))
  | Connecting attempt request, InConnect None =>
      MkWorld (session w) (ctxErr w) (S (nextConn w)) (Installing attempt (nextConn w)) (effects w)
  | Installing attempt conn, InStep =>
      let '(s, (gen, accepted)) := install (session w) conn in
      if negb accepted
      then goto w (Finishing (Sentinel ErrSessionClosed)) [ClosedConn conn closeNormal]
      else goto (set_session w s)
             (if OnConnect config then Hooking attempt conn gen else Consuming conn gen)
             (Installed conn gen :: notify StateConnected gen 0 None)
  | Hooking attempt conn gen, InHook None => goto w (Consuming conn gen) []
  | Hooking attempt conn gen, InHook (Some err) =>
      let attempt := int64 (attempt + 1) in
      goto (set_session w (remove (session w) conn)) (Reconnecting err attempt)
        (ClosedConn conn closeGoingAway :: notify StateDisconnected gen attempt (Some err))
  | Consuming conn gen, InMessage message None => goto w (Consuming conn gen) [Handled conn message]
  | Consuming conn gen, InMessage message (Some err) =>
      goto w (Consumed conn gen err (negb (AsReconnectMessageError err))) [Handled conn message]
  | Consuming conn gen, InReadError err => goto w (Consumed conn gen err false) []
  | Consuming conn gen, InPing err =>
      if bool_decide (0 < PingInterval config) then
        match err with
        | None => goto w (Consuming conn gen) [Pinged conn]
        | Some err => goto w (Consumed conn gen err false) [Pinged conn]
        end
      else w
  | Consuming conn gen, InDone =>
      match ctxErr w, stopError w with
      | Some _, Some err => goto w (Consumed conn gen err false) [ClosedConn conn closeNormal]
      | _, _ => w
      end
  | Consumed conn gen err handlerFailed, InStep =>
      let '(s, err) := reconnectCause (session w) conn err in
      goto (set_session w s) (Removing conn gen err handlerFailed) []
  | Removing conn gen err handlerFailed, InStep =>
      let w := goto (set_session w (remove (session w) conn)) (pc w)
                 [ClosedConn conn closeGoingAway] in
      if handlerFailed then goto w (Finishing err) []
      else match stopError w with
           | Some stopErr => goto w (Finishing stopErr) []
           | None => goto w (Reconnecting err 1) (notify StateDisconnected gen 1 (Some err))
           end
  | Reconnecting cause attempt, InReconnectStep random now =>
      goto w (waitToReconnect w cause attempt random now) []
  | Waiting attempt delay, InTimer =>
      match stopError w with
      | Some err => goto w (Finishing err) []
      | None => goto w (LoopTop attempt) []
      end
  | Waiting attempt delay, InDone =>
      match ctxErr w, stopError w with
      | Some _, Some err => goto w (Finishing err) []
      | _, _ => w
      end
  | Finishing err, InStep =>
      let s := session w in
      MkWorld (MkSession None (generation s) (started s) (closed s) (reconnect s) false)
        (if cancel s then Some (default (Sentinel ContextCanceled) (ctxErr w)) else ctxErr w)
        (nextConn w) (Finished err)
        (effects w ++
           match connection s with Some conn => [ClosedConn conn closeNormal] | None => [] end ++
           notify StateClosed (generation s) 0 None)
  | _, _ => w
  end.

(** [Session.Close]. *)
Definition Session_Close (w : world) : world :=
  let s := session w in
  if closed s then w
  else
    MkWorld (MkSession None (generation s) (started s) true false (cancel s))
      (if cancel s then Some (default (Sentinel ContextCanceled) (ctxErr w)) else ctxErr w)
      (nextConn w) (pc w)
      (effects w ++ match connection s with Some conn => [ClosedConn conn closeNormal] | None => [] end).

(** [Session.Reconnect].  The flag and the close that follows the unlock are one
    step, and the verdict of the connection's own [Close] is not returned: a
    reader sees the closed connection only after both. *)
Definition Reconnect (w : world) : world * option error :=
  let s := session w in
  if closed s then (w, Some (Sentinel ErrSessionClosed))
  else match connection s with
       | None => (w, Some (Sentinel ErrNotConnected))
       | Some conn =>
           (goto (set_session w (MkSession (connection s) (generation s) (started s) (closed s)
                                   true (cancel s))) (pc w) [ClosedConn conn closeGoingAway], None)
       end.

(** [Session.Write], up to the connection's own verdict. *)
Definition Write (w : world) (message : Message) : world * option error :=
  if closed (session w) then (w, Some (Sentinel ErrSessionClosed))
  else match connection (session w) with
       | None => (w, Some (Sentinel ErrNotConnected))
       | Some conn => (goto w (pc w) [Wrote conn message], None)
       end.

Definition step (w : world) (i : input) : world :=
  match i with
  | InRun =>
      match start (session w) with
      | Err _ => w
      | Ok s => goto (set_session w s) (LoopTop 0) []
      end
  | InClose => Session_Close w
  | InReconnect => (Reconnect w).1
  | InCancel err => MkWorld (session w) (Some (default err (ctxErr w))) (nextConn w) (pc w) (effects w)
  | InWrite message => (Write w message).1
  | _ => runStep w i
  end.

Definition initial : world := MkWorld newSession None 0 NotRunning [].

Definition execute (inputs : list input) : world := foldl step initial inputs.

(** One step of some input; executions are its reflexive transitive closure. *)
Inductive transition : relation world :=
  | transition_step w i : transition w (step w i).

Definition reachable (w : world) : Prop := rtc transition initial w.
End run.

(** ** Invariants of reachable worlds *)

Definition current_conn (l : location) : option (nat * Z) :=
  match l with
  | Hooking _ conn gen | Consuming conn gen | Consumed conn gen _ _ | Removing conn gen _ _ =>
      Some (conn, gen)
  | _ => None
  end.

(** The connection [Run] holds, installed or not. *)
Definition held_conn (l : location) : option nat :=
  match l with
  | Installing _ conn => Some conn
  | _ => fst <$> current_conn l
  end.

Definition running (l : location) : bool :=
  match l with NotRunning | Finished _ => false | _ => true end.

(** The generations of the connections installed so far, in order. *)
Definition installs (es : list effect) : list Z :=
  omap (λ e, match e with Installed _ gen => Some gen | _ => None end) es.

Record session_ok (w : world) : Prop := {
  ok_connection : ∀ conn, connection (session w) = Some conn →
    current_conn (pc w) = Some (conn, generation (session w));
  ok_held : ∀ conn, held_conn (pc w) = Some conn → (conn < nextConn w)%nat;
  ok_released : ∀ conn, (conn < nextConn w)%nat →
    held_conn (pc w) = Some conn ∨ ∃ code, ClosedConn conn code ∈ effects w;
  ok_generation : generation (session w) = uint64 (Z.of_nat (length (installs (effects w))));
  ok_installs : installs (effects w) = (λ k, uint64 (Z.of_nat k)) <$> seq 1 (length (installs (effects w)));
  ok_closed : closed (session w) = true → connection (session w) = None;
  ok_running : running (pc w) = true → cancel (session w) = true;
  ok_cancelled : running (pc w) = true → closed (session w) = true → is_Some (ctxErr w)
}.

Lemma installs_app es es' : installs (es ++ es') = installs es ++ installs es'.
Proof. unfold installs. by rewrite omap_app. Qed.

Section invariants.
Context (parseURL : string → option URL) (parseTime : string → option Z)
  (config : SessionConfig).

Lemma installs_notify state gen attempt cause : installs (notify config state gen attempt cause) = [].
Proof. unfold notify. by destruct (Observer config). Qed.

Lemma session_initial_ok : session_ok initial.
Proof. by split; simpl; try lia. Qed.

(** Steps that neither install, release nor take a connection. *)
Lemma session_ok_goto w next es :
  session_ok w → installs es = [] → current_conn next = current_conn (pc w) →
  held_conn next = held_conn (pc w) → (running next = true → running (pc w) = true) →
  session_ok (goto w next es).
Proof.
  intros [] Hes Hcur Hheld Hrun. unfold goto.
  split; simpl; rewrite ?installs_app, ?Hes, ?app_nil_r, ?Hcur, ?Hheld; auto.
  intros conn Hconn. destruct (ok_released0 conn Hconn) as [?|[code ?]]; [by left|right].
  exists code. apply elem_of_app. by left.
Qed.

(** Steps that release the connection held. *)
Lemma session_ok_release w s next es :
  session_ok w → installs es = [] → connection s = None →
  generation s = generation (session w) → closed s = closed (session w) →
  cancel s = cancel (session w) → current_conn next = None → held_conn next = None →
  (∀ conn, held_conn (pc w) = Some conn → ∃ code, ClosedConn conn code ∈ es) →
  (running next = true → running (pc w) = true) →
  session_ok (goto (set_session w s) next es).
Proof.
  intros [] Hes Hc Hg Hcl Hca Hcur Hheld Hrel Hrun.
  split; simpl; rewrite ?installs_app, ?Hes, ?app_nil_r, ?Hcur, ?Hheld, ?Hc, ?Hg, ?Hcl, ?Hca; auto; try done.
  intros conn Hconn. right. destruct (ok_released0 conn Hconn) as [Hh|[code ?]].
  - destruct (Hrel conn Hh) as [code ?]. exists code. apply elem_of_app. by right.
  - exists code. apply elem_of_app. by left.
Qed.

Lemma remove_connection s conn conn' :
  (∀ c, connection s = Some c → c = conn') → conn = conn' → connection (remove s conn) = None.
Proof.
  intros Hc ->. unfold remove. case_bool_decide; [done|].
  destruct (connection s) as [c|] eqn:E; [|done]. by rewrite (Hc c eq_refl) in *.
Qed.

Lemma remove_fields s conn :
  generation (remove s conn) = generation s ∧ closed (remove s conn) = closed s ∧
  cancel (remove s conn) = cancel s.
Proof. unfold remove. by case_bool_decide. Qed.

Lemma installing_ok w attempt conn :
  session_ok w → pc w = Installing attempt conn →
  session_ok (runStep parseURL parseTime config w InStep).
Proof.
  intros Hok Hpc. unfold runStep. rewrite Hpc. unfold install.
  destruct (closed (session w)) eqn:Hcl; simpl.
  - replace w with (set_session w (session w)) by by destruct w.
    apply session_ok_release; try done; simpl.
    + destruct (connection (session w)) eqn:E; [|done].
      apply (ok_connection _ Hok) in E. rewrite Hpc in E. done.
    + rewrite Hpc. intros c [= <-]. exists closeNormal. by left.
    + by rewrite Hpc.
  - destruct Hok. assert (∀ l, current_conn (if OnConnect config then Hooking attempt conn l
      else Consuming conn l) = Some (conn, l)) as Hcur by (by destruct (OnConnect config)).
    assert (∀ l, held_conn (if OnConnect config then Hooking attempt conn l
      else Consuming conn l) = Some conn) as Hheld by (by destruct (OnConnect config)).
    assert (installs (effects w ++ Installed conn (uint64 (generation (session w) + 1)) ::
        notify config StateConnected (uint64 (generation (session w) + 1)) 0 None) =
      installs (effects w) ++ [uint64 (generation (session w) + 1)]) as Hins.
    { rewrite installs_app. f_equal. simpl. by rewrite installs_notify. }
    assert (uint64 (generation (session w) + 1) =
      uint64 (Z.of_nat (S (length (installs (effects w)))))) as Hgen.
    { rewrite ok_generation0. unfold uint64. rewrite Zplus_mod_idemp_l. f_equal. lia. }
    split; simpl; rewrite ?Hcur, ?Hheld, ?Hins, ?length_app; simpl.
    + by intros c [= <-].
    + intros c [= <-]. apply ok_held0. by rewrite Hpc.
    + intros c Hc. destruct (ok_released0 c Hc) as [Hh|[code ?]]; [left|right].
      * rewrite Hpc in Hh. done.
      * exists code. apply elem_of_app. by left.
    + rewrite Hgen. f_equal. lia.
    + rewrite Nat.add_comm, <-Nat.add_1_r, Nat.add_1_r, seq_S, fmap_app, <-ok_installs0.
      simpl. by rewrite Hgen.
    + congruence.
    + intros _. apply ok_running0. by rewrite Hpc.
    + congruence.
Qed.

(** A step of [Run] that keeps its hold on the connection, or has none. *)
Ltac keeps Hpc :=
  apply session_ok_goto; rewrite ?Hpc; simpl; rewrite ?installs_notify; done.

Lemma goto_goto w l l' es es' : goto (goto w l es) l' es' = goto w l' (es ++ es').
Proof. unfold goto. simpl. by rewrite app_assoc. Qed.

Lemma connecting_ok w attempt request :
  session_ok w → pc w = Connecting attempt request →
  session_ok (MkWorld (session w) (ctxErr w) (S (nextConn w)) (Installing attempt (nextConn w))
    (effects w)).
Proof.
  intros [] Hpc. rewrite Hpc in *. split; simpl; auto.
  - intros c [= <-]. lia.
  - intros c Hc. destruct (decide (c = nextConn w)) as [->|]; [by left|].
    destruct (ok_released0 c) as [?|?]; [lia|done|by right].
Qed.

Lemma release_ok w conn gen next es :
  session_ok w → current_conn (pc w) = Some (conn, gen) → held_conn (pc w) = Some conn →
  running (pc w) = true → installs es = [] → held_conn next = None → current_conn next = None →
  (∃ code, ClosedConn conn code ∈ es) →
  session_ok (goto (set_session w (remove (session w) conn)) next es).
Proof.
  intros Hok Hcur Hheld Hrun Hes Hh Hc Hcode.
  destruct (remove_fields (session w) conn) as (? & ? & ?).
  apply session_ok_release; try done.
  - eapply (remove_connection _ _ conn); [|done]. intros c Hconn.
    apply (ok_connection _ Hok) in Hconn. congruence.
  - intros c Hc'. rewrite Hheld in Hc'. by simplify_eq.
Qed.

Lemma reconnectCause_ok w conn cause :
  session_ok w → session_ok (set_session w (reconnectCause (session w) conn cause).1).
Proof. intros []. unfold reconnectCause. case_match; by split. Qed.

Lemma finishing_ok w err :
  session_ok w → pc w = Finishing err →
  session_ok (runStep parseURL parseTime config w InStep).
Proof.
  intros [] Hpc. unfold runStep. rewrite Hpc in *. split; simpl; try done.
  - intros c Hc. right. destruct (ok_released0 c Hc) as [?|[code ?]]; [done|].
    exists code. apply elem_of_app. by left.
  - rewrite !installs_app, installs_notify, app_nil_r.
    by destruct (connection (session w)); simpl; rewrite ?app_nil_r.
  - rewrite !installs_app, installs_notify, app_nil_r.
    by destruct (connection (session w)); simpl; rewrite ?app_nil_r.
Qed.

Lemma runStep_ok w i : session_ok w → session_ok (runStep parseURL parseTime config w i).
Proof.
  intros Hok. destruct (pc w) eqn:Hpc.
  all: try (unfold runStep; rewrite Hpc; done).
  - unfold runStep. rewrite Hpc. destruct i; try done. destruct (stopError w); keeps Hpc.
  - unfold runStep. rewrite Hpc. destruct i; try done. destruct (dialRequest _ _ _); keeps Hpc.
  - unfold runStep. rewrite Hpc. destruct i as [| | |[e|]| | | | | | | | | | |]; try done; [keeps Hpc|].
    by eapply connecting_ok.
  - destruct i; try (unfold runStep; rewrite Hpc; done). by eapply installing_ok.
  - unfold runStep. rewrite Hpc. destruct i as [| | | |[e|]| | | | | | | | | |]; try done; [|keeps Hpc].
    eapply (release_ok w conn gen); rewrite ?Hpc; simpl; rewrite ?installs_notify; try done.
    exists closeGoingAway. by left.
  - unfold runStep. rewrite Hpc. destruct i as [| | | | |m [e|]| |[e|]| | | | | | |]; try done; try keeps Hpc.
    + case_match; [keeps Hpc|done].
    + case_match; [keeps Hpc|done].
    + destruct (ctxErr w), (stopError w); try done. keeps Hpc.
  - unfold runStep. rewrite Hpc. destruct i; try done.
    pose proof (reconnectCause_ok w conn err Hok) as Hok'.
    destruct (reconnectCause (session w) conn err) as [s err'].
    apply session_ok_goto; simpl; rewrite ?Hpc; done.
  - unfold runStep. rewrite Hpc. destruct i; try done. cbv zeta.
    assert (∀ next es, held_conn next = None → current_conn next = None → installs es = [] →
      session_ok (goto (goto (set_session w (remove (session w) conn)) (pc w)
        [ClosedConn conn closeGoingAway]) next es)) as Hrel.
    { intros next es Hh Hc Hes. rewrite goto_goto.
      eapply (release_ok w conn gen); rewrite ?Hpc; simpl; try done.
      exists closeGoingAway. by left. }
    repeat case_match; rewrite <-Hpc; apply Hrel; simpl; rewrite ?installs_notify; done.
  - unfold runStep. rewrite Hpc. destruct i; try done. unfold waitToReconnect.
    repeat case_match; keeps Hpc.
  - unfold runStep. rewrite Hpc. destruct i; try done.
    + destruct (ctxErr w), (stopError w); try done. keeps Hpc.
    + destruct (stopError w); keeps Hpc.
  - destruct i; try (unfold runStep; rewrite Hpc; done). by eapply finishing_ok.
Qed.

Lemma Session_Close_ok w : session_ok w → session_ok (Session_Close w).
Proof.
  intros Hok. unfold Session_Close. destruct (closed (session w)) eqn:Hcl; [done|]. destruct Hok.
  assert (installs (effects w ++ match connection (session w) with
    Some conn => [ClosedConn conn closeNormal] | None => [] end) = installs (effects w)) as Hins.
  { rewrite installs_app. destruct (connection (session w)); apply app_nil_r. }
  split; simpl; rewrite ?Hins; try done.
  - intros c Hc. destruct (ok_released0 c Hc) as [?|[code ?]]; [by left|right].
    exists code. apply elem_of_app. by left.
  - intros Hr _. by rewrite (ok_running0 Hr).
Qed.

(** Calls that change nothing but the reconnect flag and the effects. *)
Lemma session_ok_call w s es :
  session_ok w → installs es = [] → connection s = connection (session w) →
  generation s = generation (session w) → closed s = closed (session w) →
  cancel s = cancel (session w) → session_ok (goto (set_session w s) (pc w) es).
Proof.
  intros [] Hes Hc Hg Hcl Hca. split; simpl; rewrite ?installs_app, ?Hes, ?app_nil_r, ?Hc, ?Hg, ?Hcl, ?Hca; auto.
  intros conn Hconn. destruct (ok_released0 conn Hconn) as [?|[code ?]]; [by left|right].
  exists code. apply elem_of_app. by left.
Qed.

Lemma set_session_id w : set_session w (session w) = w.
Proof. by destruct w. Qed.

Lemma Reconnect_ok w : session_ok w → session_ok (Reconnect w).1.
Proof.
  intros Hok. unfold Reconnect. repeat case_match; try done. by apply session_ok_call.
Qed.

Lemma Write_ok w message : session_ok w → session_ok (Write w message).1.
Proof.
  intros Hok. unfold Write. repeat case_match; try done.
  rewrite <-(set_session_id w) at 1. by apply session_ok_call.
Qed.

Lemma cancel_ok w err :
  session_ok w →
  session_ok (MkWorld (session w) (Some err) (nextConn w) (pc w) (effects w)).
Proof. intros []. split; simpl; auto. Qed.

Lemma start_ok w s :
  session_ok w → pc w = NotRunning → start (session w) = Ok s →
  session_ok (goto (set_session w s) (LoopTop 0) []).
Proof.
  intros [] Hpc Hs. unfold start in Hs. rewrite Hpc in *. repeat case_match; simplify_eq.
  split; simpl; rewrite ?app_nil_r; auto.
Qed.

Lemma runStep_started w i :
  started (session (runStep parseURL parseTime config w i)) = started (session w) ∧
  (pc (runStep parseURL parseTime config w i) = NotRunning ↔ pc w = NotRunning).
Proof.
  destruct (pc w) eqn:Hpc; unfold runStep; rewrite Hpc; [split; done|..]; destruct i;
    simpl; unfold waitToReconnect, install, remove, reconnectCause;
    repeat case_match; simplify_eq/=; try (split; [done|split; congruence]).
Qed.

Lemma step_started w i :
  started (session (step parseURL parseTime config w i)) = started (session w) ∨
  started (session (step parseURL parseTime config w i)) = true.
Proof.
  destruct i; try (left; apply runStep_started).
  - simpl. unfold start. repeat case_match; simplify_eq/=; auto.
  - simpl. unfold Session_Close. left. by case_match.
  - simpl. unfold Reconnect. left. by repeat case_match.
  - by left.
  - simpl. unfold Write. left. by repeat case_match.
Qed.

Lemma started_running w : reachable parseURL parseTime config w →
  started (session w) = false ↔ pc w = NotRunning.
Proof.
  revert w. apply rtc_ind_r; [done|]. intros w1 w2 _ Ht IH. destruct Ht as [w i].
  destruct (runStep_started w i) as [Hs Hp].
  destruct i; try (unfold step; rewrite Hs, Hp; exact IH).
  - unfold step, start. repeat case_match; simplify_eq/=; split; congruence || tauto.
  - simpl. unfold Session_Close. by case_match.
  - simpl. unfold Reconnect. by repeat case_match.
  - done.
  - simpl. unfold Write. by repeat case_match.
Qed.

Lemma reachable_ok w : reachable parseURL parseTime config w → session_ok w.
Proof.
  intros Hr. assert (session_ok w ∧ reachable parseURL parseTime config w) as [? _]; [|done].
  revert w Hr. apply rtc_ind_r; [split; [apply session_initial_ok|apply rtc_refl]|].
  intros w1 w2 Hr Ht [Hok _]. split; [|by eapply rtc_r].
  destruct Ht as [w i]. destruct i; simpl; try (by apply runStep_ok).
  - destruct (start (session w)) as [s|] eqn:Hs; [|done]. apply start_ok; try done.
    apply started_running; [done|]. unfold start in Hs. by repeat case_match.
  - by apply Session_Close_ok.
  - by apply Reconnect_ok.
  - by apply cancel_ok.
  - by apply Write_ok.
Qed.
End invariants.

(** ** What callers can rely on *)

(** The state in which the answers of the environment are still awaited, in
    steps that remain once the session is closed. *)
Definition remaining_steps (l : location) : nat :=
  match l with
  | NotRunning | Finished _ => 0
  | Finishing _ => 1
  | LoopTop _ | Installing _ _ | Removing _ _ _ _ | Reconnecting _ _ | Waiting _ _ => 2
  | Connecting _ _ | Consumed _ _ _ _ => 3
  | Dialing _ | Consuming _ _ => 4
  | Hooking _ _ _ => 5
  end.

(** The input answers what [Run] waits for at this location; a connection being
    read or a timer is interrupted by the context. *)
Definition awaited (l : location) (i : input) : bool :=
  match l, i with
  | LoopTop _, InStep | Installing _ _, InStep | Consumed _ _ _ _, InStep
  | Removing _ _ _ _, InStep | Finishing _, InStep => true
  | Dialing _, InSource _ | Connecting _ _, InConnect _ | Hooking _ _ _, InHook _ => true
  | Consuming _ _, InDone | Waiting _ _, InDone | Waiting _ _, InTimer => true
  | Reconnecting _ _, InReconnectStep _ _ => true
  | _, _ => false
  end.

Section client.
Context (parseURL : string → option URL) (parseTime : string → option Z)
  (config : SessionConfig).

Local Abbreviation step := (step parseURL parseTime config).
Local Abbreviation reachable := (reachable parseURL parseTime config).

(** Generations count connections.  In every reachable world the
    generations installed so far are 1, 2, 3, ... (modulo [2^64]), the session
    reports the last of them, and its current connection, if any, is the one
    that [Run] is hooking, reading or removing, with that generation. *)
Theorem generations_count_connections w :
  reachable w →
  let n := length (installs (effects w)) in
  installs (effects w) = (λ k, uint64 (Z.of_nat k)) <$> seq 1 n ∧
  generation (session w) = uint64 (Z.of_nat n) ∧
  ∀ conn, connection (session w) = Some conn →
    current_conn (pc w) = Some (conn, generation (session w)).
Proof.
  intros Hr. destruct (reachable_ok parseURL parseTime config w Hr). auto.
Qed.

(** C35: no connection leaks.  Every connection the connector ever returned has
    been closed, except the one that [Run] holds; when [Run] has returned, all
    of them are closed. *)
Theorem connections_are_released w conn :
  reachable w → (conn < nextConn w)%nat →
  (held_conn (pc w) = Some conn ∨ ∃ code, ClosedConn conn code ∈ effects w) ∧
  (∀ err, pc w = Finished err → ∃ code, ClosedConn conn code ∈ effects w).
Proof.
  intros Hr Hc. pose proof (ok_released _ (reachable_ok _ _ _ _ Hr) conn Hc) as Hrel.
  split; [done|]. intros err Hpc. rewrite Hpc in Hrel. destruct Hrel; done.
Qed.

Lemma runStep_closed w i :
  closed (session w) = true →
  closed (session (runStep parseURL parseTime config w i)) = true ∧
  installs (effects (runStep parseURL parseTime config w i)) = installs (effects w).
Proof.
  intros Hcl. unfold runStep, stopError, waitToReconnect, reconnectCause.
  destruct (pc w), i; try done; rewrite ?Hcl; simpl;
    rewrite ?installs_app, ?installs_notify, ?app_nil_r; try done.
  all: unfold install; rewrite ?Hcl; simpl; rewrite ?installs_app; simpl; rewrite ?app_nil_r; try done.
  all: repeat case_match; simplify_eq/=; rewrite ?installs_app; simpl;
    rewrite ?installs_notify, ?app_nil_r, ?(proj1 (proj2 (remove_fields _ _))); try done.
Qed.

Lemma step_closed w i :
  closed (session w) = true →
  closed (session (step w i)) = true ∧ installs (effects (step w i)) = installs (effects w).
Proof.
  intros Hcl. destruct i; try by apply runStep_closed.
  - simpl. unfold start. by rewrite Hcl.
  - simpl. unfold Session_Close. by rewrite Hcl.
  - simpl. unfold Reconnect. by rewrite Hcl.
  - done.
  - simpl. unfold Write. by rewrite Hcl.
Qed.

Lemma foldl_step_reachable inputs w : reachable w → reachable (foldl step w inputs).
Proof.
  revert w. induction inputs as [|i inputs IH]; intros w Hr; [done|]. simpl.
  apply IH. eapply rtc_r; [done|]. constructor.
Qed.

(** C34: closing is final.  After [Close], whatever happens, the session stays
    closed without a connection, installs no other, refuses to run again, and
    refuses writes and reconnections. *)
Theorem closed_is_final w inputs :
  reachable w → closed (session w) = true →
  let w' := foldl step w inputs in
  closed (session w') = true ∧ connection (session w') = None ∧
  installs (effects w') = installs (effects w) ∧
  start (session w') = Err (Sentinel ErrSessionClosed) ∧
  (∀ message, (Write w' message).2 = Some (Sentinel ErrSessionClosed)) ∧
  (Reconnect w').2 = Some (Sentinel ErrSessionClosed).
Proof.
  intros Hr Hcl. cbv zeta.
  assert (closed (session (foldl step w inputs)) = true ∧
    installs (effects (foldl step w inputs)) = installs (effects w)) as [Hc Hi].
  { clear Hr. revert w Hcl. induction inputs as [|i inputs IH]; intros w Hcl; [done|].
    destruct (step_closed w i Hcl) as [Hc Hi]. simpl. destruct (IH _ Hc) as [? ->]. done. }
  pose proof (reachable_ok _ _ _ _ (foldl_step_reachable inputs w Hr)) as Hok.
  split_and!; [done|by apply (ok_closed _ Hok)|done|..].
  - unfold start. by rewrite Hc.
  - intros m. unfold Write. by rewrite Hc.
  - unfold Reconnect. by rewrite Hc.
Qed.

Lemma awaited_progress w i :
  reachable w → closed (session w) = true → awaited (pc w) i = true →
  (remaining_steps (pc (step w i)) < remaining_steps (pc w))%nat.
Proof.
  intros Hr Hcl Haw. pose proof (reachable_ok _ _ _ _ Hr) as Hok.
  pose proof (ok_cancelled _ Hok) as Hctx.
  destruct (pc w) eqn:Hpc, i; try done; specialize (Hctx eq_refl Hcl) as [e He];
    unfold step, runStep, waitToReconnect, stopError, install, goto; rewrite ?Hpc, ?Hcl, ?He; simpl; try lia.
  all: repeat case_match; simplify_eq/=; lia.
Qed.

(** A closed session finishes.  Once [Close] was called on a running
    session, [Run] returns after at most five answers of the environment,
    whatever they are: no dial, hook, message or timer can keep it alive. *)
Theorem closed_session_finishes w (answer : location → input) :
  reachable w → closed (session w) = true → running (pc w) = true →
  (∀ l, running l = true → awaited l (answer l) = true) →
  ∃ n err, (n ≤ 5)%nat ∧ pc (Nat.iter n (λ w, step w (answer (pc w))) w) = Finished err.
Proof.
  intros Hr Hcl Hrun Hans.
  assert (∀ k w, (remaining_steps (pc w) ≤ k)%nat → reachable w → closed (session w) = true →
    pc w ≠ NotRunning →
    ∃ n err, (n ≤ k)%nat ∧ pc (Nat.iter n (λ w, step w (answer (pc w))) w) = Finished err) as H.
  { clear w Hr Hcl Hrun. induction k as [|k IH]; intros w Hk Hr Hcl Hpc.
    - destruct (pc w) eqn:E; simpl in Hk; try lia; [done|]. by exists 0%nat, err.
    - destruct (running (pc w)) eqn:Hrun.
      + pose proof (awaited_progress w _ Hr Hcl (Hans _ Hrun)) as Hlt.
        destruct (IH (step w (answer (pc w)))) as (n & err & Hn & Hfin).
        * lia.
        * eapply rtc_r; [done|constructor].
        * by apply step_closed.
        * intros Hnr. assert (reachable (step w (answer (pc w)))) as Hr'
            by (eapply rtc_r; [done|constructor]).
          pose proof (proj2 (started_running _ _ _ _ Hr') Hnr) as Hs.
          destruct (step_started parseURL parseTime config w (answer (pc w))) as [Hst|Hst]; [|congruence].
          assert (pc w = NotRunning) by (apply (started_running _ _ _ _ Hr); congruence). done.
        * exists (S n), err. split; [lia|]. by rewrite Nat.iter_succ_r.
      + destruct (pc w) eqn:E; try done. exists 0%nat, err. split; [lia|done]. }
  destruct (H 5%nat w) as (n & err & ? & ?); eauto.
  - destruct (pc w); simpl; lia.
  - intros Heq. by rewrite Heq in Hrun.
Qed.
End client.

(** ** Delays and attempts *)

Lemma exponentialLoop_spec maximum steps delay :
  0 < delay ≤ maximum → maximum ≤ MaxInt64 →
  exponentialLoop maximum steps delay = maximum `min` (delay * 2 ^ Z.of_nat steps).
Proof.
  intros Hd Hmax. revert delay Hd. induction steps as [|steps IH]; intros delay Hd.
  { simpl. lia. }
  cbn [exponentialLoop]. rewrite Nat2Z.inj_succ, Z.pow_succ_r by lia.
  assert (0 < 2 ^ Z.of_nat steps) as Hpow by (apply Z.pow_pos_nonneg; lia).
  rewrite Z.quot_div_nonneg by lia.
  pose proof (Z.mul_div_le maximum 2). pose proof (Z.mul_succ_div_gt maximum 2).
  guard_cases; [|nia]. guard_cases; [nia|].
  rewrite int64_id by (unfold is_int64, MinInt64, MaxInt64 in *; lia).
  rewrite IH by lia. f_equal. lia.
Qed.

(** [ExponentialBackoff] doubles and saturates without overflow: for
    [0 < minimum ≤ maximum] the delay before attempt [n] is
    [minimum * 2 ^ (n - 1)] capped at [maximum], for every Go [int] attempt,
    and [FullJitterBackoff] stays between 0 and that delay. *)
Theorem Backoff_spec minimum maximum random attempt :
  0 < minimum ≤ maximum → maximum < MaxInt64 →
  ExponentialBackoff minimum maximum attempt =
    maximum `min` (minimum * 2 ^ (1 `max` attempt - 1)) ∧
  0 ≤ FullJitterBackoff minimum maximum random attempt ≤ ExponentialBackoff minimum maximum attempt.
Proof.
  intros Hmin Hmax.
  assert (ExponentialBackoff minimum maximum attempt =
    maximum `min` (minimum * 2 ^ (1 `max` attempt - 1))) as Heq.
  { unfold ExponentialBackoff. rewrite !bool_decide_eq_false_2 by lia. simpl.
    rewrite exponentialLoop_spec by lia.
    replace (if bool_decide (attempt < 1) then 1 else attempt) with (1 `max` attempt)
      by (guard_cases; lia).
    rewrite Z2Nat.id by lia. rewrite bool_decide_eq_false_2 by lia. done. }
  split; [done|]. unfold FullJitterBackoff.
  assert (0 < 2 ^ (1 `max` attempt - 1)) by (apply Z.pow_pos_nonneg; lia).
  assert (0 < ExponentialBackoff minimum maximum attempt ≤ maximum) as Hr by (rewrite Heq; nia).
  rewrite bool_decide_eq_false_2 by lia.
  rewrite int64_id by (unfold is_int64, MinInt64, MaxInt64 in *; lia).
  pose proof (Z.mod_pos_bound random (ExponentialBackoff minimum maximum attempt + 1)). lia.
Qed.

Lemma Backoff_spec_witness :
  ExponentialBackoff (250 * Millisecond) (30 * Second) 100 = 30 * Second ∧
  0 ≤ FullJitterBackoff (250 * Millisecond) (30 * Second) 12345 3 ≤ Second.
Proof.
  destruct (Backoff_spec (250 * Millisecond) (30 * Second) 0 100) as [H1 _];
    [split; by vm_compute|by vm_compute|].
  destruct (Backoff_spec (250 * Millisecond) (30 * Second) 12345 3) as [H2 H3];
    [split; by vm_compute|by vm_compute|].
  split; [rewrite H1; vm_compute; reflexivity|]. rewrite H2 in H3. exact H3.
Defined.

Section attempts.
Context (parseURL : string → option URL) (parseTime : string → option Z)
  (config : SessionConfig).
Context (Hdelay : 0 ≤ MaxReconnectDelay config).

(** With a maximum of reconnect attempts, the counter never passes it. *)
Definition attempt_ok (l : location) : Prop :=
  let max := MaxReconnectAttempts config in
  match l with
  | LoopTop a | Dialing a | Connecting a _ | Installing a _ | Hooking a _ _ =>
      0 < max < MaxInt64 → 0 ≤ a ≤ max
  | Reconnecting _ a => 0 < max < MaxInt64 → 1 ≤ a ≤ max + 1
  | Waiting a delay =>
      (0 < max < MaxInt64 → 1 ≤ a ≤ max) ∧ 0 ≤ delay ≤ MaxReconnectDelay config
  | _ => True
  end.

Lemma reconnectDelay_range cause attempt random now :
  0 ≤ reconnectDelay parseTime config cause attempt random now ≤ MaxReconnectDelay config.
Proof.
  unfold reconnectDelay. cbv zeta.
  set (d := default _ _ _ _). set (r := handshakeRetryAfter _ _ _).
  set (d1 := if bool_decide (d < r) then r else d).
  destruct (decide (MaxReconnectDelay config < d1)) as [H|H];
    [rewrite (bool_decide_eq_true_2 _ H)|rewrite (bool_decide_eq_false_2 _ H)]; guard_cases; lia.
Qed.

Lemma waitToReconnect_attempt w cause attempt random now :
  attempt_ok (Reconnecting cause attempt) →
  attempt_ok (waitToReconnect parseTime config w cause attempt random now).
Proof.
  intros Hok. unfold waitToReconnect. destruct (stopError w); [done|].
  destruct (negb _); [done|]. destruct (_ && _) eqn:Hg; [done|]. go_bool.
  split; [|apply reconnectDelay_range]. simpl in Hok. intros Hmax. specialize (Hok Hmax).
  destruct Hg; lia.
Qed.

Lemma next_attempt a max :
  0 < max < MaxInt64 → 0 ≤ a ≤ max → 1 ≤ int64 (a + 1) ≤ max + 1.
Proof. intros. rewrite int64_id by (unfold is_int64, MinInt64 in *; lia). lia. Qed.

Lemma runStep_attempt w i :
  attempt_ok (pc w) → attempt_ok (pc (runStep parseURL parseTime config w i)).
Proof.
  intros Hok. unfold runStep. destruct (pc w) eqn:Hpc; simpl in Hok; destruct i;
    rewrite ?Hpc; simpl; try done.
  all: try (by apply waitToReconnect_attempt).
  all: repeat case_match; simplify_eq/=; rewrite ?Hpc; simpl; try done.
  all: try (intros Hmax; specialize (Hok Hmax); by apply next_attempt || lia).
  all: intros Hmax; lia.
Qed.

Lemma step_attempt w i :
  attempt_ok (pc w) → attempt_ok (pc (step parseURL parseTime config w i)).
Proof.
  intros Hok. destruct i; try by apply runStep_attempt.
  - simpl. case_match; [simpl; lia|done].
  - simpl. unfold Session_Close. by case_match.
  - simpl. unfold Reconnect. by repeat case_match.
  - done.
  - simpl. unfold Write. by repeat case_match.
Qed.
End attempts.

(** Reconnection is bounded.  In a session that [NewSession] accepted, every
    wait before a reconnection lasts between 0 and [MaxReconnectDelay], whatever
    the backoff function and the server's [Retry-After] say, and with a maximum
    of [m] reconnect attempts at most [m] consecutive failures are waited for. *)
Theorem reconnection_is_bounded parseURL parseTime config0 config w attempt delay :
  NewSession parseURL config0 = Ok config →
  reachable parseURL parseTime config w → pc w = Waiting attempt delay →
  0 ≤ delay ≤ MaxReconnectDelay config ∧
  (0 < MaxReconnectAttempts config < MaxInt64 → 1 ≤ attempt ≤ MaxReconnectAttempts config).
Proof.
  intros Hnew Hr Hpc.
  assert (0 ≤ MaxReconnectDelay config) as Hdelay.
  { unfold NewSession in Hnew. invert_result. go_bool. simpl. guard_cases; [|lia].
    unfold defaultMaxReconnectDelay, Minute, Second. lia. }
  assert (attempt_ok config (pc w)) as Hok.
  { clear Hpc. revert w Hr. apply rtc_ind_r; [done|]. intros w1 w2 _ Ht IH.
    destruct Ht. by apply step_attempt. }
  rewrite Hpc in Hok. destruct Hok. auto.
Qed.

(** ** A concrete session *)

Definition demo_url : string → option URL := λ _, Some (MkURL "wss" "stream.example" false "").

Definition demo_session : SessionConfig :=
  MkSessionConfig true "seoul" (MkDialRequest "wss://stream.example" ∅) false true true
    None None 3 0 0 0.

Definition demo_session_config : SessionConfig := withDefaults demo_session.

Lemma demo_NewSession : NewSession demo_url demo_session = Ok demo_session_config.
Proof. reflexivity. Qed.

Abbreviation demo_step := (step demo_url no_dates demo_session_config).
Abbreviation demo_run := (foldl demo_step initial).

Lemma demo_reachable inputs : reachable demo_url no_dates demo_session_config (demo_run inputs).
Proof. apply foldl_step_reachable, rtc_refl. Qed.

(** A failed dial, two connections, the second one being read. *)
Definition demo_inputs : list input :=
  let dial := [InStep; InSource (Ok (MkDialRequest "" ∅))] in
  [InRun] ++ dial ++ [InConnect (Some (Errorf "refused")); InReconnectStep 7 0; InTimer] ++
  dial ++ [InConnect None; InStep; InHook None; InMessage (MkMessage 1 "hello") None;
           InReadError (Errorf "EOF"); InStep; InStep; InReconnectStep 9 0; InTimer] ++
  dial ++ [InConnect None; InStep; InHook None].

Lemma generations_count_connections_witness :
  installs (effects (demo_run demo_inputs)) = [1; 2] ∧
  generation (session (demo_run demo_inputs)) = 2 ∧
  current_conn (pc (demo_run demo_inputs)) = Some (1%nat, 2).
Proof.
  pose proof (generations_count_connections demo_url no_dates demo_session_config
    (demo_run demo_inputs) (demo_reachable demo_inputs)) as (H1 & H2 & H3).
  assert (generation (session (demo_run demo_inputs)) = 2) as Hg by (vm_compute; reflexivity).
  split; [etrans; [exact H1|vm_compute; reflexivity]|].
  split; [exact Hg|]. rewrite <-Hg. apply H3. vm_compute. reflexivity.
Defined.

Lemma connections_are_released_witness :
  let w := demo_run (demo_inputs ++ [InClose; InDone; InStep; InStep; InStep]) in
  pc w = Finished (Sentinel ErrSessionClosed) ∧
  (∃ code, ClosedConn 0 code ∈ effects w) ∧ ∃ code, ClosedConn 1 code ∈ effects w.
Proof.
  cbv zeta. split; [vm_compute; reflexivity|].
  split; eapply (connections_are_released demo_url no_dates demo_session_config _ _
    (demo_reachable _)); vm_compute; try reflexivity; lia.
Defined.

Lemma closed_is_final_witness :
  let w := demo_run (demo_inputs ++ [InClose]) in
  connection (session (foldl demo_step w [InRun; InConnect None])) = None.
Proof.
  cbv zeta.
  apply (closed_is_final demo_url no_dates demo_session_config
    (demo_run (demo_inputs ++ [InClose])) [InRun; InConnect None] (demo_reachable _)).
  vm_compute. reflexivity.
Defined.

Definition demo_answer (l : location) : input :=
  match l with
  | Dialing _ => InSource (Ok (MkDialRequest "" ∅))
  | Connecting _ _ => InConnect None
  | Hooking _ _ _ => InHook None
  | Consuming _ _ | Waiting _ _ => InDone
  | Reconnecting _ _ => InReconnectStep 0 0
  | _ => InStep
  end.

Lemma closed_session_finishes_witness :
  ∃ n err, (n ≤ 5)%nat ∧
    pc (Nat.iter n (λ w, demo_step w (demo_answer (pc w))) (demo_run (demo_inputs ++ [InClose])))
      = Finished err.
Proof.
  apply (closed_session_finishes demo_url no_dates demo_session_config
    (demo_run (demo_inputs ++ [InClose])) demo_answer (demo_reachable _)).
  - vm_compute. reflexivity.
  - vm_compute. reflexivity.
  - intros [] H; first [discriminate H | reflexivity].
Defined.

Lemma reconnection_is_bounded_witness :
  let w := demo_run [InRun; InStep; InSource (Ok (MkDialRequest "" ∅));
                     InConnect (Some (HandshakeError 429 "86400" "" None)); InReconnectStep 7 0] in
  pc w = Waiting 1 defaultMaxReconnectDelay ∧ 0 ≤ defaultMaxReconnectDelay ≤ 5 * Minute ∧ 1 ≤ 3.
Proof.
  cbv zeta. split; [vm_compute; reflexivity|].
  destruct (reconnection_is_bounded demo_url no_dates demo_session demo_session_config
    (demo_run [InRun; InStep; InSource (Ok (MkDialRequest "" ∅));
       InConnect (Some (HandshakeError 429 "86400" "" None)); InReconnectStep 7 0])
    1 defaultMaxReconnectDelay demo_NewSession (demo_reachable _)) as [H1 H2];
    [vm_compute; reflexivity|].
  split; [exact H1|]. apply H2. vm_compute. split; reflexivity.
Defined.
