(* ===== verification/Unified.v ===== *)
(** * The unified Spot contract: [unified/types.go] and [unified/constraints.go]

    Markets, requests and their validation, and the exact check of an order
    against a market's increments and minimums. *)

From Stdlib Require Qcanon.
From S2P Require Import Prelude GoStrings Decimals Errors.

(** The regular expression [^[A-Z0-9]+$] of asset codes. *)
Definition is_asset_char (c : ascii) : bool :=
  let n := Ascii.N_of_ascii c in
  bool_decide (48 ≤ n ≤ 57)%N || bool_decide (65 ≤ n ≤ 90)%N.
Definition assetPattern (s : string) : bool :=
  bool_decide (s ≠ "") && string_forall is_asset_char s.

Record Market : Type := MkMarket { Base : string; Quote : string }.

#[export] Instance Market_eq_dec : EqDecision Market.
Proof. solve_decision. Defined.

(** [Market.String]. *)
Definition Market_String (market : Market) : string := Base market +:+ "/" +:+ Quote market.

(** [validationError]; the format stands for the formatted message. *)
Definition validationError (format : string) : error := Wrapf format (Sentinel ErrValidation).

(** [Market.Validate]. *)
Definition Market_Validate (market : Market) : result error unit :=
  if negb (assetPattern (Base market)) || negb (assetPattern (Quote market))
  then Err (validationError "market assets must use uppercase letters and digits")
  else if bool_decide (Base market = Quote market)
  then Err (validationError "market base and quote assets must differ")
  else Ok tt.

Definition SideBuy : string := "buy".
Definition SideSell : string := "sell".
Definition OrderTypeLimit : string := "limit".
Definition OrderTypeMarket : string := "market".
Definition TimeInForceGTC : string := "gtc".
Definition TimeInForceIOC : string := "ioc".
Definition TimeInForceFOK : string := "fok".
Definition TimeInForcePostOnly : string := "post_only".

Record MarketInfo : Type := MkMarketInfo {
  info_Exchange : string;
  info_Market : Market;
  NativeMarket : string;
  info_Status : string;
  PriceIncrement : string;
  QuantityIncrement : string;
  QuoteAmountIncrement : string;
  MinimumBaseQuantity : string;
  MinimumQuoteAmount : string
}.

Record BookLevel : Type := MkBookLevel { Price : string; Quantity : string }.

Definition OrderStatusAcknowledged : string := "acknowledged".
Definition OrderStatusNew : string := "new".
Definition OrderStatusPartiallyFilled : string := "partially_filled".
Definition OrderStatusFilled : string := "filled".
Definition OrderStatusCanceled : string := "canceled".
Definition OrderStatusRejected : string := "rejected".
Definition OrderStatusExpired : string := "expired".
Definition OrderStatusCancelPending : string := "cancel_pending".
Definition OrderStatusUnknown : string := "unknown".

(** The answers of a client, without their raw JSON. *)
Record Ticker : Type := MkTicker {
  ticker_Exchange : string;
  ticker_Market : Market;
  ticker_NativeMarket : string;
  ticker_Price : string
}.

Record OrderBook : Type := MkOrderBook {
  ob_Exchange : string;
  ob_Market : Market;
  ob_NativeMarket : string;
  Bids : list BookLevel;
  Asks : list BookLevel;
  ob_Timestamp : Z
}.

Record PublicTrade : Type := MkPublicTrade {
  trade_ID : string;
  trade_Price : string;
  trade_Quantity : string;
  trade_Side : string;
  trade_Timestamp : Z
}.

Record Balance : Type := MkBalance { Asset : string; Available : string; Locked : string }.

Record Order : Type := MkOrder {
  ord_Exchange : string;
  ord_ID : string;
  ord_ClientOrderID : string;
  ord_Market : Market;
  ord_NativeMarket : string;
  ord_Side : string;
  ord_Type : string;
  ord_Status : string;
  ord_Price : string;
  ord_Quantity : string;
  ord_QuoteAmount : string;
  ord_ExecutedQuantity : string
}.

Record TickerRequest : Type := MkTickerRequest { tickerRequest_Market : Market }.

Record OrderBookRequest : Type := MkOrderBookRequest { book_Market : Market; book_Limit : Z }.
Record RecentTradesRequest : Type := MkRecentTradesRequest { trades_Market : Market; trades_Limit : Z }.
Record CandlesRequest : Type := MkCandlesRequest {
  candles_Market : Market;
  Interval : string;
  candles_Limit : Z
}.

Record PlaceOrderRequest : Type := MkPlaceOrderRequest {
  order_Market : Market;
  Side : string;
  order_Type : string;
  TimeInForce : string;
  order_Quantity : string;
  QuoteAmount : string;
  order_Price : string;
  ClientOrderID : string
}.

Record OrderRequest : Type := MkOrderRequest {
  request_Market : Market;
  OrderID : string;
  request_ClientOrderID : string
}.

Record OpenOrdersRequest : Type := MkOpenOrdersRequest {
  open_Market : option Market;
  AllMarkets : bool
}.

(** [OrderBookRequest.Validate], [RecentTradesRequest.Validate]. *)
Definition OrderBookRequest_Validate (request : OrderBookRequest) : result error unit :=
  Market_Validate (book_Market request);;
  if bool_decide (book_Limit request < 0) || bool_decide (16 < book_Limit request)
  then Err (validationError "order book limit must be between 1 and 16 or zero for default")
  else Ok tt.

Definition RecentTradesRequest_Validate (request : RecentTradesRequest) : result error unit :=
  Market_Validate (trades_Market request);;
  if bool_decide (trades_Limit request < 0) || bool_decide (100 < trades_Limit request)
  then Err (validationError "recent trade limit must be between 1 and 100 or zero for default")
  else Ok tt.

(** [CandleInterval.valid], [CandlesRequest.Validate]. *)
Definition CandleInterval_valid (value : string) : bool :=
  bool_decide (value ∈ ["1m"; "3m"; "5m"; "15m"; "30m"; "1h"; "4h"]).

Definition CandlesRequest_Validate (request : CandlesRequest) : result error unit :=
  Market_Validate (candles_Market request);;
  if negb (CandleInterval_valid (Interval request))
  then Err (validationError "unsupported candle interval %q")
  else if bool_decide (candles_Limit request < 0) || bool_decide (200 < candles_Limit request)
  then Err (validationError "candle limit must be between 1 and 200 or zero for default")
  else Ok tt.

(** [TimeInForce.valid]. *)
Definition TimeInForce_valid (value : string) : bool :=
  bool_decide (value = TimeInForceGTC) || bool_decide (value = TimeInForceIOC) ||
  bool_decide (value = TimeInForceFOK) || bool_decide (value = TimeInForcePostOnly).

(** [validatePositiveDecimal]. *)
Definition validatePositiveDecimal (name value : string) : result error unit :=
  if negb (positiveDecimalPattern value) || decimalIsZero value
  then Err (validationError (name +:+ " must be a positive decimal string"))
  else Ok tt.

(** [PlaceOrderRequest.Validate]. *)
Definition PlaceOrderRequest_Validate (request : PlaceOrderRequest) : result error unit :=
  Market_Validate (order_Market request);;
  require (bool_decide (Side request = SideBuy) || bool_decide (Side request = SideSell))
    (validationError "side must be buy or sell");;
  require (negb (bool_decide (ClientOrderID request = "")))
    (validationError "client order ID is required for safe reconciliation");;
  require (bool_decide (TrimSpace (ClientOrderID request) = ClientOrderID request))
    (validationError "client order ID cannot have surrounding whitespace");;
  if bool_decide (order_Type request = OrderTypeLimit) then
    validatePositiveDecimal "quantity" (order_Quantity request);;
    validatePositiveDecimal "price" (order_Price request);;
    require (bool_decide (QuoteAmount request = ""))
      (validationError "limit order does not accept quote amount");;
    require (bool_decide (TimeInForce request = "") || TimeInForce_valid (TimeInForce request))
      (validationError "unsupported time in force %q")
  else if bool_decide (order_Type request = OrderTypeMarket) then
    require (bool_decide (order_Price request = "") && bool_decide (TimeInForce request = ""))
      (validationError "market order does not accept price or time in force");;
    if bool_decide (Side request = SideBuy) then
      validatePositiveDecimal "quote amount" (QuoteAmount request);;
      require (bool_decide (order_Quantity request = ""))
        (validationError "market buy does not accept quantity")
    else
      validatePositiveDecimal "quantity" (order_Quantity request);;
      require (bool_decide (QuoteAmount request = ""))
        (validationError "market sell does not accept quote amount")
  else Err (validationError "order type must be limit or market").

(** [OrderRequest.Validate]. *)
Definition OrderRequest_Validate (request : OrderRequest) : result error unit :=
  Market_Validate (request_Market request);;
  if eqb (bool_decide (OrderID request = "")) (bool_decide (request_ClientOrderID request = ""))
  then Err (validationError "exactly one of order ID or client order ID is required")
  else
    let value := if bool_decide (OrderID request = "") then request_ClientOrderID request
                 else OrderID request in
    if negb (bool_decide (TrimSpace value = value))
    then Err (validationError "order identity cannot have surrounding whitespace")
    else Ok tt.

(** [OpenOrdersRequest.Validate]. *)
Definition OpenOrdersRequest_Validate (request : OpenOrdersRequest) : result error unit :=
  match open_Market request with
  | None =>
      if negb (AllMarkets request)
      then Err (validationError "market is required unless AllMarkets is true")
      else Ok tt
  | Some market =>
      if AllMarkets request
      then Err (validationError "market and AllMarkets cannot be used together")
      else Market_Validate market
  end.

(** [UnsupportedCapabilityError]. *)
Definition UnsupportedCapabilityError (exchange format : string) : error :=
  API (MkAPIError ErrorUnsupportedCapability exchange "" "" false 0 "" ""
    (Some (Wrapf format (Sentinel ErrUnsupportedCapability)))).

(** ** Market constraints *)

(** [DecimalIncrement]. *)
Definition DecimalIncrement (places : Z) : string :=
  if bool_decide (places < 0) then ""
  else if bool_decide (places = 0) then "1"
  else "0." +:+ String.string_of_list_ascii
                  (replicate (Z.to_nat (places - 1)) (Ascii.ascii_of_N 48)) +:+ "1".

(** [decimalRat]. *)
Definition decimalRat (value : string) : result error Q :=
  if negb (positiveDecimalPattern value) && negb (bool_decide (value = "0")) &&
     negb (bool_decide (value = "0.0"))
  then Err (Errorf "invalid decimal %q")
  else match Rat_SetString value with
       | None => Err (Errorf "invalid decimal %q")
       | Some q => Ok q
       end.

(** [big.Rat]'s [Quo], [Mul], [IsInt] and [Cmp], which keep terms reduced. *)
Definition Rat_Quo (x y : Q) : Q := Qred (x / y).
Definition Rat_Mul (x y : Q) : Q := Qred (x * y).
Definition Rat_IsInt (x : Q) : bool := bool_decide (Qden x = 1%positive).

(** [validateIncrement]. *)
Definition validateIncrement (name value increment : string) : result error unit :=
  if bool_decide (increment = "") then Ok tt
  else
    match decimalRat value with
    | Err _ => Err (validationError (name +:+ " is not a decimal: %v"))
    | Ok valueRat =>
        let invalid := Err (Errorf ("invalid market " +:+ name +:+ " increment %q")) in
        match decimalRat increment with
        | Err _ => invalid
        | Ok incrementRat =>
            if bool_decide (Rat_Sign incrementRat ≤ 0) then invalid
            else if negb (Rat_IsInt (Rat_Quo valueRat incrementRat))
            then Err (validationError (name +:+ " must be a multiple of %s"))
            else Ok tt
        end
    end.

(** [validateMinimum]. *)
Definition validateMinimum (name value minimum : string) : result error unit :=
  if bool_decide (minimum = "") then Ok tt
  else
    match decimalRat value with
    | Err _ => Err (validationError (name +:+ " is not a decimal: %v"))
    | Ok valueRat =>
        let invalid := Err (Errorf ("invalid market minimum " +:+ name +:+ " %q")) in
        match decimalRat minimum with
        | Err _ => invalid
        | Ok minimumRat =>
            if bool_decide (Rat_Sign minimumRat < 0) then invalid
            else if bool_decide (valueRat < minimumRat)%Q
            then Err (validationError (name +:+ " is below minimum %s"))
            else Ok tt
        end
    end.

(** [decimalProduct]. *)
Definition decimalProduct (left right : string) : result error Q :=
  leftRat ← decimalRat left;
  rightRat ← decimalRat right;
  Ok (Rat_Mul leftRat rightRat).

(** [MarketInfo.ValidateOrder]. *)
Definition ValidateOrder (info : MarketInfo) (request : PlaceOrderRequest) : result error unit :=
  PlaceOrderRequest_Validate request;;
  require (bool_decide (info_Market info = order_Market request))
    (validationError "order market %s does not match market rules for %s");;
  (if bool_decide (order_Type request = OrderTypeLimit)
   then validateIncrement "price" (order_Price request) (PriceIncrement info)
   else Ok tt);;
  (if negb (bool_decide (order_Quantity request = ""))
   then
     validateIncrement "quantity" (order_Quantity request) (QuantityIncrement info);;
     validateMinimum "quantity" (order_Quantity request) (MinimumBaseQuantity info)
   else Ok tt);;
  (if negb (bool_decide (QuoteAmount request = ""))
   then
     validateIncrement "quote amount" (QuoteAmount request) (QuoteAmountIncrement info);;
     validateMinimum "quote amount" (QuoteAmount request) (MinimumQuoteAmount info)
   else Ok tt);;
  if bool_decide (order_Type request = OrderTypeLimit) &&
     negb (bool_decide (MinimumQuoteAmount info = ""))
  then
    match decimalProduct (order_Price request) (order_Quantity request) with
    | Err _ => Err (validationError "cannot calculate limit order notional: %v")
    | Ok notional =>
        match decimalRat (MinimumQuoteAmount info) with
        | Err err => Err (Wrapf "invalid market minimum quote amount %q: %w" err)
        | Ok minimum =>
            if bool_decide (notional < minimum)%Q
            then Err (validationError "limit order notional is below minimum quote amount %s")
            else Ok tt
        end
    end
  else Ok tt.

(** ** Decimal texts *)

(** The text denotes a positive decimal. *)
Definition positive (value : string) : Prop :=
  ∃ q, Rat_SetString value = Some q ∧ (0 < q)%Q.

Definition multiple_of (value increment : string) : Prop :=
  increment = "" ∨ ∃ v i k, Rat_SetString value = Some v ∧ Rat_SetString increment = Some i ∧
    (0 < i)%Q ∧ (v == inject_Z k * i)%Q.

Definition at_least (value minimum : string) : Prop :=
  minimum = "" ∨ ∃ v m, Rat_SetString value = Some v ∧ Rat_SetString minimum = Some m ∧ (m <= v)%Q.

Lemma Rat_Sign_pos q : 0 < Rat_Sign q ↔ (0 < q)%Q.
Proof.
  unfold Rat_Sign, Qlt. simpl. rewrite Z.mul_1_r. destruct (Qnum q); simpl; lia.
Qed.

Lemma Rat_SetString_nonneg value q : Rat_SetString value = Some q → 0 ≤ Rat_Sign q.
Proof. intros H%Rat_SetString_Sign. rewrite H. by destruct (decimalIsZero value). Qed.

Lemma validatePositiveDecimal_Ok name value :
  validatePositiveDecimal name value = Ok tt ↔ positive value.
Proof.
  unfold validatePositiveDecimal, positive.
  destruct (Rat_SetString value) as [q|] eqn:Hq.
  - assert (positiveDecimalPattern value = true) as -> by (apply Rat_SetString_is_Some; by rewrite Hq).
    pose proof (Rat_SetString_Sign _ _ Hq) as Hs. simpl.
    destruct (decimalIsZero value); split; intros H; try done.
    + destruct H as (? & [= <-] & H%Rat_Sign_pos). lia.
    + exists q. split; [done|]. apply Rat_Sign_pos. lia.
  - destruct (positiveDecimalPattern value) eqn:Hp.
    { apply Rat_SetString_is_Some in Hp as [? Hp]. congruence. }
    split; [done|]. by intros (? & ? & _).
Qed.

Lemma decimalRat_Ok value q : decimalRat value = Ok q ↔ Rat_SetString value = Some q.
Proof.
  unfold decimalRat. destruct (positiveDecimalPattern value) eqn:Hp; simpl.
  - destruct (Rat_SetString value); naive_solver.
  - assert (Rat_SetString value = None) as ->.
    { apply eq_None_not_Some. rewrite <-Rat_SetString_is_Some. congruence. }
    split; [|done]. by repeat case_match.
Qed.

Lemma Rat_IsInt_spec q : Rat_IsInt (Qred q) = true ↔ ∃ k, (q == inject_Z k)%Q.
Proof.
  unfold Rat_IsInt. rewrite bool_decide_eq_true. split.
  - intros Hd. exists (Qnum (Qred q)). rewrite <-(Qred_correct q) at 1.
    destruct (Qred q) as [n d]; simpl in *. by subst.
  - intros [k Hk]. apply Qred_complete in Hk. rewrite Hk.
    change (inject_Z k) with (k # 1). rewrite (proj2 (Qcanon.Qred_iff (k # 1))); [done|]. apply Z.gcd_1_r.
Qed.

Lemma Quo_IsInt v i :
  (0 < i)%Q → Rat_IsInt (Rat_Quo v i) = true ↔ ∃ k, (v == inject_Z k * i)%Q.
Proof.
  intros Hi. unfold Rat_Quo. rewrite Rat_IsInt_spec.
  assert (¬ i == 0)%Q as Hne. { intros H. rewrite H in Hi. by apply Qlt_irrefl in Hi. }
  split; intros [k Hk]; exists k.
  - rewrite <-Hk. unfold Qdiv. rewrite <-Qmult_assoc, (Qmult_comm (/ i)), Qmult_inv_r by done.
    by rewrite Qmult_1_r.
  - by rewrite Hk, Qdiv_mult_l by done.
Qed.

Lemma validateIncrement_Ok name value increment :
  validateIncrement name value increment = Ok tt ↔ multiple_of value increment.
Proof.
  unfold validateIncrement, multiple_of. case_bool_decide as Hi; [naive_solver|].
  destruct (decimalRat value) as [v|e] eqn:Hv.
  2:{ split; [done|]. intros [?|(? & ? & ? & Hv' & _)]; [done|].
      apply decimalRat_Ok in Hv'. congruence. }
  apply decimalRat_Ok in Hv. cbv zeta.
  destruct (decimalRat increment) as [i|e] eqn:Hinc.
  2:{ split; [done|]. intros [?|(? & ? & ? & _ & Hi' & _)]; [done|].
      apply decimalRat_Ok in Hi'. congruence. }
  apply decimalRat_Ok in Hinc.
  case_bool_decide as Hs.
  { split; [done|]. intros [?|(? & ? & ? & _ & Hi' & Hpos & _)]; [done|].
    simplify_eq. apply Rat_Sign_pos in Hpos. lia. }
  assert (0 < i)%Q as Hpos by (apply Rat_Sign_pos; lia).
  destruct (Rat_IsInt (Rat_Quo v i)) eqn:Hint; simpl.
  - apply Quo_IsInt in Hint as [k Hk]; [|done]. split; [|done]. intros _. right. by exists v, i, k.
  - split; [done|]. intros [?|(? & ? & k & ? & ? & _ & Hk)]; [done|]. simplify_eq.
    assert (Rat_IsInt (Rat_Quo v i) = true) by (apply Quo_IsInt; eauto). congruence.
Qed.

Lemma validateMinimum_Ok name value minimum :
  validateMinimum name value minimum = Ok tt ↔ at_least value minimum.
Proof.
  unfold validateMinimum, at_least. case_bool_decide as Hi; [naive_solver|].
  destruct (decimalRat value) as [v|e] eqn:Hv.
  2:{ split; [done|]. intros [?|(? & ? & Hv' & _)]; [done|].
      apply decimalRat_Ok in Hv'. congruence. }
  apply decimalRat_Ok in Hv. cbv zeta.
  destruct (decimalRat minimum) as [m|e] eqn:Hm.
  2:{ split; [done|]. intros [?|(? & ? & _ & Hm' & _)]; [done|].
      apply decimalRat_Ok in Hm'. congruence. }
  apply decimalRat_Ok in Hm. pose proof (Rat_SetString_nonneg _ _ Hm).
  rewrite bool_decide_eq_false_2 by lia.
  case_bool_decide as Hlt.
  - split; [done|]. intros [?|(? & ? & ? & ? & Hle)]; [done|]. simplify_eq.
    by apply Qle_not_lt in Hle.
  - split; [|done]. intros _. right. exists v, m. split_and!; [done..|]. by apply Qnot_lt_le.
Qed.

(** ** Valid requests *)

Definition valid_market (market : Market) : Prop :=
  assetPattern (Base market) = true ∧ assetPattern (Quote market) = true ∧
  Base market ≠ Quote market.

(** The amounts that an order of each type and side carries. *)
Definition valid_amounts (request : PlaceOrderRequest) : Prop :=
  (order_Type request = OrderTypeLimit ∧
   positive (order_Quantity request) ∧ positive (order_Price request) ∧ QuoteAmount request = "" ∧
   (TimeInForce request = "" ∨ TimeInForce_valid (TimeInForce request) = true)) ∨
  (order_Type request = OrderTypeMarket ∧ order_Price request = "" ∧ TimeInForce request = "" ∧
   (Side request = SideBuy ∧ positive (QuoteAmount request) ∧ order_Quantity request = "" ∨
    Side request = SideSell ∧ positive (order_Quantity request) ∧ QuoteAmount request = "")).

Definition valid_order (request : PlaceOrderRequest) : Prop :=
  valid_market (order_Market request) ∧
  (Side request = SideBuy ∨ Side request = SideSell) ∧
  ClientOrderID request ≠ "" ∧ TrimSpace (ClientOrderID request) = ClientOrderID request ∧
  valid_amounts request.

Lemma Market_Validate_Ok market u : Market_Validate market = Ok u ↔ valid_market market.
Proof.
  unfold Market_Validate, valid_market. destruct u.
  destruct (assetPattern (Base market)), (assetPattern (Quote market)); simpl; try naive_solver.
  case_bool_decide; naive_solver.
Qed.

Lemma require_iff {E} (b : bool) (e : E) u (P : Prop) :
  (b = true ↔ P) → require b e = Ok u ↔ P.
Proof. intros <-. apply require_Ok. Qed.

(** A conjunction of guards, one at a time. *)
Lemma bind_iff {E A} (m : result E unit) (f : unit → result E A) a (P Q : Prop) :
  (m = Ok tt ↔ P) → (P → f tt = Ok a ↔ Q) → (m ≫= f) = Ok a ↔ P ∧ Q.
Proof.
  intros HP HQ. rewrite result_bind_Ok. split.
  - intros ([] & ? & ?). rewrite <-HQ; tauto.
  - intros [? ?]. exists tt. rewrite HQ; tauto.
Qed.

Lemma PlaceOrderRequest_Validate_Ok request :
  PlaceOrderRequest_Validate request = Ok tt ↔ valid_order request.
Proof.
  unfold PlaceOrderRequest_Validate, valid_order, valid_amounts.
  apply bind_iff; [apply Market_Validate_Ok|intros _].
  apply bind_iff; [apply require_iff; rewrite orb_true_iff, !bool_decide_eq_true; done|intros Hside].
  apply bind_iff; [apply require_iff; by rewrite negb_bool_decide|intros _].
  apply bind_iff; [apply require_iff; by rewrite bool_decide_eq_true|intros _].
  case_bool_decide as Hl.
  { transitivity (positive (order_Quantity request) ∧ positive (order_Price request) ∧
      QuoteAmount request = "" ∧
      (TimeInForce request = "" ∨ TimeInForce_valid (TimeInForce request) = true)).
    - apply bind_iff; [apply validatePositiveDecimal_Ok|intros _].
      apply bind_iff; [apply validatePositiveDecimal_Ok|intros _].
      apply bind_iff; [apply require_iff; by rewrite bool_decide_eq_true|intros _].
      apply require_iff. by rewrite orb_true_iff, bool_decide_eq_true.
    - rewrite Hl. unfold OrderTypeLimit, OrderTypeMarket. naive_solver. }
  case_bool_decide as Hm; [|naive_solver].
  transitivity ((order_Price request = "" ∧ TimeInForce request = "") ∧
    (Side request = SideBuy ∧ positive (QuoteAmount request) ∧ order_Quantity request = "" ∨
     Side request ≠ SideBuy ∧ positive (order_Quantity request) ∧ QuoteAmount request = "")).
  - apply bind_iff; [apply require_iff; by rewrite andb_true_iff, !bool_decide_eq_true|intros _].
    case_bool_decide as Hs.
    + transitivity (positive (QuoteAmount request) ∧ order_Quantity request = ""); [|naive_solver].
      apply bind_iff; [apply validatePositiveDecimal_Ok|intros _].
      apply require_iff; by rewrite bool_decide_eq_true.
    + transitivity (positive (order_Quantity request) ∧ QuoteAmount request = ""); [|naive_solver].
      apply bind_iff; [apply validatePositiveDecimal_Ok|intros _].
      apply require_iff; by rewrite bool_decide_eq_true.
  - assert (OrderTypeMarket ≠ OrderTypeLimit) by done.
    assert (Side request = SideSell ↔ Side request ≠ SideBuy) as ->; [|rewrite Hm; tauto].
    split; [by intros ->|]. by destruct Hside.
Qed.

Lemma Market_Validate_Err market e : Market_Validate market = Err e → Is e ErrValidation = true.
Proof. unfold Market_Validate. intros. repeat case_match; by simplify_eq. Qed.

Lemma validatePositiveDecimal_Err name value e :
  validatePositiveDecimal name value = Err e → Is e ErrValidation = true.
Proof. unfold validatePositiveDecimal. intros. case_match; by simplify_eq. Qed.

(** Errors of a chain of guards, each of which is a validation error. *)
Ltac validation_error H :=
  repeat first
    [ apply result_bind_Err in H as [H|(? & _ & H)]
    | apply require_Err in H as [_ ->]
    | apply Market_Validate_Err in H
    | apply validatePositiveDecimal_Err in H ]; try done.

Lemma PlaceOrderRequest_Validate_Err request e :
  PlaceOrderRequest_Validate request = Err e → Is e ErrValidation = true.
Proof.
  intros H. unfold PlaceOrderRequest_Validate in H.
  validation_error H. case_bool_decide; [validation_error H|].
  case_bool_decide; [|by simplify_eq].
  validation_error H. case_bool_decide; validation_error H.
Qed.

(** [PlaceOrderRequest.Validate] accepts exactly the orders of the unified
    contract: a valid market and side, a client order ID without surrounding
    space, and for a limit order a positive quantity and price and no quote
    amount, for a market buy a positive quote amount alone, for a market sell a
    positive quantity alone.  Every refusal is a validation error. *)
Theorem PlaceOrderRequest_Validate_spec request :
  match PlaceOrderRequest_Validate request with
  | Ok _ => valid_order request
  | Err e => ¬ valid_order request ∧ Is e ErrValidation = true
  end.
Proof.
  destruct (PlaceOrderRequest_Validate request) as [[]|e] eqn:H.
  - by apply PlaceOrderRequest_Validate_Ok.
  - split; [|by eapply PlaceOrderRequest_Validate_Err].
    rewrite <-PlaceOrderRequest_Validate_Ok. congruence.
Qed.

(** ** Orders a market allows *)

(** The notional of a limit order reaches the market's minimum. *)
Definition notional_reaches (price quantity minimum : string) : Prop :=
  minimum = "" ∨ ∃ p q m, Rat_SetString price = Some p ∧ Rat_SetString quantity = Some q ∧
    Rat_SetString minimum = Some m ∧ (m <= p * q)%Q.

Definition order_allowed (info : MarketInfo) (request : PlaceOrderRequest) : Prop :=
  valid_order request ∧ info_Market info = order_Market request ∧
  (order_Type request = OrderTypeLimit →
     multiple_of (order_Price request) (PriceIncrement info) ∧
     notional_reaches (order_Price request) (order_Quantity request) (MinimumQuoteAmount info)) ∧
  (order_Quantity request ≠ "" →
     multiple_of (order_Quantity request) (QuantityIncrement info) ∧
     at_least (order_Quantity request) (MinimumBaseQuantity info)) ∧
  (QuoteAmount request ≠ "" →
     multiple_of (QuoteAmount request) (QuoteAmountIncrement info) ∧
     at_least (QuoteAmount request) (MinimumQuoteAmount info)).

Lemma notional_Ok price quantity minimum :
  minimum ≠ "" →
  match decimalProduct price quantity with
  | Err _ => Err (validationError "cannot calculate limit order notional: %v")
  | Ok notional =>
      match decimalRat minimum with
      | Err err => Err (Wrapf "invalid market minimum quote amount %q: %w" err)
      | Ok m =>
          if bool_decide (notional < m)%Q
          then Err (validationError "limit order notional is below minimum quote amount %s")
          else Ok tt
      end
  end = Ok tt ↔ notional_reaches price quantity minimum.
Proof.
  intros Hne. unfold notional_reaches, decimalProduct. split.
  - intros H. right. destruct (decimalRat price) as [p|] eqn:Hp; [|done].
    destruct (decimalRat quantity) as [q|] eqn:Hq; [|done]. simpl in H.
    destruct (decimalRat minimum) as [m|] eqn:Hm; [|done]. case_bool_decide as Hlt; [done|].
    exists p, q, m. rewrite <-!decimalRat_Ok. split_and!; [done..|].
    apply Qnot_lt_le in Hlt. unfold Rat_Mul in Hlt. by rewrite Qred_correct in Hlt.
  - intros [?|(p & q & m & Hp & Hq & Hm & Hle)]; [done|].
    rewrite <-!decimalRat_Ok in *. rewrite Hp, Hq, Hm. simpl.
    rewrite bool_decide_eq_false_2; [done|]. unfold Rat_Mul. rewrite Qred_correct.
    by apply Qle_not_lt.
Qed.

(** C36: [MarketInfo.ValidateOrder] accepts an order exactly when it is valid,
    names the market of the rules, and each amount it carries is, as an exact
    rational, an integer multiple of the market's increment and no less than its
    minimum; a limit order's price times quantity must reach the minimum quote
    amount.  Rules the exchange did not provide (empty texts) constrain nothing. *)
Theorem ValidateOrder_spec info request :
  ValidateOrder info request = Ok tt ↔ order_allowed info request.
Proof.
  unfold ValidateOrder, order_allowed.
  transitivity (valid_order request ∧ info_Market info = order_Market request ∧
    (order_Type request = OrderTypeLimit →
       multiple_of (order_Price request) (PriceIncrement info)) ∧
    (order_Quantity request ≠ "" →
       multiple_of (order_Quantity request) (QuantityIncrement info) ∧
       at_least (order_Quantity request) (MinimumBaseQuantity info)) ∧
    (QuoteAmount request ≠ "" →
       multiple_of (QuoteAmount request) (QuoteAmountIncrement info) ∧
       at_least (QuoteAmount request) (MinimumQuoteAmount info)) ∧
    (order_Type request = OrderTypeLimit →
       notional_reaches (order_Price request) (order_Quantity request) (MinimumQuoteAmount info)));
    [|tauto].
  apply bind_iff; [apply PlaceOrderRequest_Validate_Ok|intros _].
  apply bind_iff; [apply require_iff; by rewrite bool_decide_eq_true|intros _].
  apply bind_iff; [case_bool_decide; [rewrite validateIncrement_Ok|]; tauto|intros _].
  apply bind_iff.
  { case_bool_decide; simpl; [tauto|].
    rewrite (bind_iff _ _ _ _ _ (validateIncrement_Ok _ _ _) (λ _, validateMinimum_Ok _ _ _)). tauto. }
  intros _. apply bind_iff.
  { case_bool_decide; simpl; [tauto|].
    rewrite (bind_iff _ _ _ _ _ (validateIncrement_Ok _ _ _) (λ _, validateMinimum_Ok _ _ _)). tauto. }
  intros _. case_bool_decide as Hl; simpl; [|tauto].
  case_bool_decide as Hm; simpl.
  - split; [|done]. intros _ _. by left.
  - rewrite notional_Ok by done. tauto.
Qed.
