(* ===== verification/Candles.v ===== *)
(** * Exact decimal sums and candle aggregation: [unified/candles.go]

    A [scaledDecimal] is an integer and a number of fractional digits, so sums
    and comparisons are exact.  The maps of [AggregateCandles] are [gmap]s. *)

From S2P Require Import Prelude GoStrings Decimals Errors Unified.

Record scaledDecimal : Type := MkScaledDecimal { integer : Z; scale : nat }.

(** [parseScaledDecimal]. *)
Definition parseScaledDecimal (value : string) : result error scaledDecimal :=
  if negb (positiveDecimalPattern value) then Err (Errorf "invalid decimal %q")
  else
    let '(whole, fraction) := Cut dot value in
    let fraction := default "" fraction in
    Ok (MkScaledDecimal (digits_value 0 (whole +:+ fraction)) (String.length fraction)).

(** [scaleInteger]. *)
Definition scaleInteger (value : scaledDecimal) (target : nat) : Z :=
  if bool_decide (scale value < target)%nat
  then integer value * 10 ^ Z.of_nat (target - scale value) else integer value.

(** [addScaledDecimals]. *)
Definition addScaledDecimals (left right : scaledDecimal) : scaledDecimal :=
  let target := if bool_decide (scale left < scale right)%nat then scale right else scale left in
  MkScaledDecimal (scaleInteger left target + scaleInteger right target) target.

Definition zeros (n : nat) : string :=
  String.string_of_list_ascii (replicate n (Ascii.ascii_of_N 48)).

(** [scaledDecimal.String]. *)
Definition scaledDecimal_String (value : scaledDecimal) : string :=
  let digits := pretty (integer value) in
  if bool_decide (scale value = 0%nat) then digits
  else
    let digits :=
      if bool_decide (String.length digits ≤ scale value)%nat
      then zeros (scale value - String.length digits + 1) +:+ digits else digits in
    let position := (String.length digits - scale value)%nat in
    String.substring 0 position digits +:+ "." +:+
      String.substring position (String.length digits - position) digits.

(** [compareDecimals]. *)
Definition compareDecimals (left right : string) : result error comparison :=
  leftValue ← parseScaledDecimal left;
  rightValue ← parseScaledDecimal right;
  let target := if bool_decide (scale leftValue < scale rightValue)%nat
                then scale rightValue else scale leftValue in
  Ok (scaleInteger leftValue target ?= scaleInteger rightValue target).

(** [AddDecimals]. *)
Definition addDecimal (total : scaledDecimal) (value : string) : result error scaledDecimal :=
  match parseScaledDecimal value with
  | Err err => Err (Wrapf "decode decimal sum value: %w" err)
  | Ok parsed => Ok (addScaledDecimals total parsed)
  end.

Definition AddDecimals (values : list string) : result error string :=
  match values with
  | [] => Err (validationError "at least one decimal value is required")
  | _ =>
      total ← fold_result addDecimal (MkScaledDecimal 0 0) values;
      Ok (scaledDecimal_String total)
  end.

(** ** Aggregation *)

Record Candle : Type := MkCandle {
  StartTime : Z;
  Open : string;
  High : string;
  Low : string;
  Close : string;
  Volume : string
}.

Record bucketCandle : Type := MkBucketCandle { candle : Candle; volume : scaledDecimal }.

(** The loop that indexes the source by start time, first candle kept. *)
Definition indexCandle (acc : gmap Z Candle * list Z) (item : Candle)
    : result error (gmap Z Candle * list Z) :=
  let '(byStart, starts) := acc in
  if bool_decide (StartTime item < 0)
  then Err (Errorf "aggregate candle timestamp must not be negative")
  else match byStart !! StartTime item with
       | Some _ => Ok (byStart, starts)
       | None => Ok (<[StartTime item := item]> byStart, starts ++ [StartTime item])
       end.

(** The loop over the sorted starts. *)
Definition aggregateStep (intervalMillis : Z) (byStart : gmap Z Candle)
    (buckets : gmap Z bucketCandle) (start : Z) : result error (gmap Z bucketCandle) :=
  let item := default (MkCandle 0 "" "" "" "" "") (byStart !! start) in
  let bucketStart := start - Z.rem start intervalMillis in
  match parseScaledDecimal (Volume item) with
  | Err err => Err (Wrapf "decode aggregate candle volume: %w" err)
  | Ok vol =>
      match buckets !! bucketStart with
      | None =>
          match compareDecimals (High item) (Low item) with
          | Err err => Err (Wrapf "decode aggregate candle price: %w" err)
          | Ok _ =>
              Ok (<[bucketStart := MkBucketCandle
                     (MkCandle bucketStart (Open item) (High item) (Low item) (Close item) "")
                     vol]> buckets)
          end
      | Some current =>
          let c := candle current in
          match compareDecimals (High item) (High c) with
          | Err err => Err (Wrapf "decode aggregate candle high: %w" err)
          | Ok comparison =>
              let high := match comparison with Gt => High item | _ => High c end in
              match compareDecimals (Low item) (Low c) with
              | Err err => Err (Wrapf "decode aggregate candle low: %w" err)
              | Ok comparison =>
                  let low := match comparison with Lt => Low item | _ => Low c end in
                  Ok (<[bucketStart := MkBucketCandle
                         (MkCandle (StartTime c) (Open c) high low (Close item) (Volume c))
                         (addScaledDecimals (volume current) vol)]> buckets)
              end
          end
      end
  end.

(** The descending order of [sort.Slice] over the bucket starts. *)
Definition later (x y : Z) : Prop := y ≤ x.
#[export] Instance later_dec : RelDecision later.
Proof. intros x y. unfold later. apply _. Defined.
#[export] Instance later_trans : Transitive later.
Proof. intros x y z. unfold later. lia. Qed.
#[export] Instance later_total : Total later.
Proof. intros x y. unfold later. lia. Qed.

Definition finishCandle (buckets : gmap Z bucketCandle) (start : Z) : Candle :=
  let b := default (MkBucketCandle (MkCandle 0 "" "" "" "" "") (MkScaledDecimal 0 0))
             (buckets !! start) in
  let c := candle b in
  MkCandle (StartTime c) (Open c) (High c) (Low c) (Close c) (scaledDecimal_String (volume b)).

Arguments finishCandle : simpl never.

(** [AggregateCandles]; the interval is in nanoseconds. *)
Definition AggregateCandles (source : list Candle) (interval limit : Z) : result error (list Candle) :=
  require (negb (bool_decide (interval ≤ 0) || negb (bool_decide (Z.rem interval Millisecond = 0))))
    (validationError "aggregate candle interval must be a positive millisecond duration");;
  require (negb (bool_decide (limit < 1)))
    (validationError "aggregate candle limit must be positive");;
  indexed ← fold_result indexCandle (∅, []) source;
  let '(byStart, starts) := indexed in
  let intervalMillis := Z.quot interval Millisecond in
  buckets ← fold_result (aggregateStep intervalMillis byStart) ∅ (merge_sort Z.le starts);
  let bucketStarts := merge_sort later (elements (dom buckets)) in
  Ok (finishCandle buckets <$> take (Z.to_nat limit) bucketStarts).

Example AggregateCandles_runs :
  AggregateCandles
    [MkCandle 60000 "2" "3.5" "1" "3" "0.75"; MkCandle 0 "1" "2.10" "0.9" "2" "1.25";
     MkCandle 120000 "3" "3" "3" "3" "7"; MkCandle 60000 "9" "9" "9" "9" "9"]
    (120 * Second) 5 =
  Ok [MkCandle 120000 "3" "3" "3" "3" "7"; MkCandle 0 "1" "3.5" "0.9" "3" "2.00"].
Proof. vm_compute. reflexivity. Qed.

(** ** Scaled decimals denote rationals *)

Definition sd_value (d : scaledDecimal) : Q := integer d # Z.to_pos (10 ^ Z.of_nat (scale d)).

Lemma pow10_pos n : 0 < 10 ^ Z.of_nat n.
Proof. apply Z.pow_pos_nonneg; lia. Qed.

(** Fractions over powers of ten, as equations on integers. *)
Lemma sd_eq_scaled n k m l :
  (n # Z.to_pos (10 ^ Z.of_nat k) == m # Z.to_pos (10 ^ Z.of_nat l))%Q ↔
  n * 10 ^ Z.of_nat l = m * 10 ^ Z.of_nat k.
Proof.
  unfold Qeq. cbn [Qnum Qden]. by rewrite !Z2Pos.id by apply pow10_pos.
Qed.

Lemma scaleInteger_value d target :
  (scale d ≤ target)%nat →
  scaleInteger d target * 10 ^ Z.of_nat (scale d) = integer d * 10 ^ Z.of_nat target.
Proof.
  intros Hle. unfold scaleInteger. guard_cases.
  - rewrite <-Z.mul_assoc, <-Z.pow_add_r by lia. do 2 f_equal. lia.
  - by replace target with (scale d) by lia.
Qed.

Lemma scaleInteger_sd d target :
  (scale d ≤ target)%nat →
  (scaleInteger d target # Z.to_pos (10 ^ Z.of_nat target) == sd_value d)%Q.
Proof. intros Hle. apply sd_eq_scaled. by apply scaleInteger_value. Qed.

Lemma common_scale a b :
  let t := if bool_decide (scale a < scale b)%nat then scale b else scale a in
  (scale a ≤ t)%nat ∧ (scale b ≤ t)%nat.
Proof. simpl. guard_cases; lia. Qed.

Lemma addScaledDecimals_value a b :
  (sd_value (addScaledDecimals a b) == sd_value a + sd_value b)%Q.
Proof.
  destruct (common_scale a b) as [Ha Hb]. unfold addScaledDecimals.
  set (t := if bool_decide _ then _ else _) in *.
  rewrite <-(scaleInteger_sd a t), <-(scaleInteger_sd b t) by done.
  unfold sd_value. cbn [integer scale]. unfold Qeq, Qplus. cbn [Qnum Qden].
  rewrite Pos2Z.inj_mul. lia.
Qed.

Lemma compare_value a b :
  let t := if bool_decide (scale a < scale b)%nat then scale b else scale a in
  (scaleInteger a t ?= scaleInteger b t) = (sd_value a ?= sd_value b)%Q.
Proof.
  destruct (common_scale a b) as [Ha Hb]. cbv zeta in *.
  set (t := if bool_decide _ then _ else _) in *.
  rewrite <-(scaleInteger_sd a t), <-(scaleInteger_sd b t) by done.
  unfold Qcompare. cbn [Qnum Qden].
  apply Zmult_compare_compat_r. rewrite Z2Pos.id by apply pow10_pos.
  pose proof (pow10_pos t). lia.
Qed.

Lemma parseScaledDecimal_Ok value d :
  parseScaledDecimal value = Ok d →
  Rat_SetString value = Some (Qred (sd_value d)) ∧ 0 ≤ integer d.
Proof.
  unfold parseScaledDecimal, Rat_SetString, sd_value.
  destruct (positiveDecimalPattern value) eqn:Hp; [|done]. simpl.
  unfold positiveDecimalPattern in Hp. destruct (Cut dot value) as [w [f|]]; simpl; intros [= <-]; simpl.
  - apply andb_true_iff in Hp as [Hw%nonempty_digits_all Hf%nonempty_digits_all].
    split; [done|]. apply digits_value_nonneg; [done|]. by rewrite all_digits_append, Hw.
  - apply nonempty_digits_all in Hp. rewrite digits_value_app. split; [done|].
    change (0 ≤ digits_value 0 w). by apply digits_value_nonneg.
Qed.

Lemma parseScaledDecimal_Err value e : parseScaledDecimal value = Err e → Rat_SetString value = None.
Proof.
  unfold parseScaledDecimal, Rat_SetString. destruct (positiveDecimalPattern value); [|done].
  simpl. by destruct (Cut dot value).
Qed.

(** The rational a decimal text denotes, zero when it is not a decimal. *)
Definition dec (value : string) : Q := default 0%Q (Rat_SetString value).

Lemma parse_dec value d : parseScaledDecimal value = Ok d → (sd_value d == dec value)%Q.
Proof. intros [H _]%parseScaledDecimal_Ok. unfold dec. rewrite H. simpl. by rewrite Qred_correct. Qed.

Lemma compareDecimals_Ok left right c :
  compareDecimals left right = Ok c →
  c = (dec left ?= dec right)%Q ∧ is_Some (Rat_SetString left) ∧ is_Some (Rat_SetString right).
Proof.
  unfold compareDecimals. intros H.
  destruct (parseScaledDecimal left) as [l|] eqn:Hl; [|done].
  destruct (parseScaledDecimal right) as [r|] eqn:Hr; [|done]. cbn in H.
  injection H as <-. rewrite compare_value, (parse_dec _ _ Hl), (parse_dec _ _ Hr).
  apply parseScaledDecimal_Ok in Hl as [-> _], Hr as [-> _]. eauto.
Qed.

(** ** Printing *)

Lemma zeros_digits n : all_digits (zeros n) = true ∧ String.length (zeros n) = n ∧
  ∀ acc, digits_value acc (zeros n) = acc * 10 ^ Z.of_nat n.
Proof.
  unfold zeros. induction n as [|n (H1 & H2 & H3)]; [split_and!; try done; intros; simpl; lia|].
  split_and!; [exact H1|exact (f_equal S H2)|].
  intros acc. etransitivity; [exact (H3 (10 * acc + digit_value (Ascii.ascii_of_N 48)))|].
  rewrite Nat2Z.inj_succ, Z.pow_succ_r by lia.
  change (digit_value (Ascii.ascii_of_N 48)) with 0. lia.
Qed.

Lemma nonempty_digits_length s : all_digits s = true → (0 < String.length s)%nat → nonempty_digits s = true.
Proof. unfold nonempty_digits. intros -> H. by destruct s; [simpl in H; lia|]. Qed.

(** The digits that [scaledDecimal.String] splits. *)
Definition paddedDigits (value : scaledDecimal) : string :=
  let digits := pretty (integer value) in
  if bool_decide (String.length digits ≤ scale value)%nat
  then zeros (scale value - String.length digits + 1) +:+ digits else digits.

Lemma paddedDigits_spec d :
  0 ≤ integer d →
  all_digits (paddedDigits d) = true ∧ digits_value 0 (paddedDigits d) = integer d ∧
  (scale d < String.length (paddedDigits d))%nat.
Proof.
  intros Hd. unfold paddedDigits. cbv zeta.
  pose proof (all_digits_pretty _ Hd) as Ha. pose proof (digits_value_pretty _ Hd) as Hv.
  case_bool_decide; [|split_and!; [done|done|lia]].
  destruct (zeros_digits (scale d - String.length (pretty (integer d)) + 1)) as (H1 & H2 & H3).
  rewrite all_digits_append, H1, Ha, digits_value_app, H3, Z.mul_0_l, Hv.
  rewrite string_length_append, H2. split_and!; [done|done|lia].
Qed.

Lemma parse_String d :
  0 ≤ integer d → parseScaledDecimal (scaledDecimal_String d) = Ok d.
Proof.
  intros Hd. unfold scaledDecimal_String. cbv zeta. fold (paddedDigits d).
  case_bool_decide as Hs.
  - unfold parseScaledDecimal, positiveDecimalPattern.
    pose proof (all_digits_pretty _ Hd) as Ha.
    rewrite Cut_none by by apply all_digits_not_dot.
    rewrite nonempty_digits_length; [|done|].
    2:{ pose proof (pretty_Z_nonempty (integer d)). destruct (pretty (integer d)); [done|simpl; lia]. }
    simpl. rewrite digits_value_app, digits_value_pretty by done. destruct d; simpl in *. by subst.
  - destruct (paddedDigits_spec d Hd) as (Ha & Hv & Hlen).
    set (n := (String.length (paddedDigits d) - scale d)%nat).
    destruct (substring_split n (paddedDigits d)) as (Hsplit & H1 & H2); [lia|].
    set (w := String.substring 0 n _) in *. set (f := String.substring n _ _) in *.
    rewrite <-Hsplit, all_digits_append, andb_true_iff in Ha. destruct Ha as [Hw Hf].
    unfold parseScaledDecimal, positiveDecimalPattern.
    change ("." +:+ f) with (String dot f).
    rewrite Cut_some by by apply all_digits_not_dot.
    rewrite (nonempty_digits_length w), (nonempty_digits_length f) by (done || lia).
    simpl. rewrite Hsplit, Hv, H2. destruct d as [i k]; cbn [integer scale] in *. do 2 f_equal. lia.
Qed.

Definition sumQ (l : list Q) : Q := foldr Qplus 0%Q l.

Lemma addScaledDecimals_nonneg a b :
  0 ≤ integer a → 0 ≤ integer b → 0 ≤ integer (addScaledDecimals a b).
Proof.
  intros Ha Hb. unfold addScaledDecimals, scaleInteger. cbn [integer].
  apply Z.add_nonneg_nonneg; case_bool_decide; try lia; apply Z.mul_nonneg_nonneg; lia.
Qed.

Lemma addDecimals_spec values total :
  0 ≤ integer total →
  match fold_result addDecimal total values with
  | Ok d => 0 ≤ integer d ∧ (sd_value d == sd_value total + sumQ (dec <$> values))%Q ∧
            Forall (λ v, is_Some (Rat_SetString v)) values
  | Err _ => ∃ v, v ∈ values ∧ Rat_SetString v = None
  end.
Proof.
  revert total. induction values as [|v values IH]; intros total Ht; cbn [fold_result].
  { split_and!; [done|simpl; by rewrite Qplus_0_r|done]. }
  destruct (addDecimal total v) as [t|e] eqn:Ha; unfold addDecimal in Ha;
    destruct (parseScaledDecimal v) as [d|e'] eqn:Hp; simplify_eq.
  2:{ exists v. split; [by left|]. by eapply parseScaledDecimal_Err. }
  pose proof (parse_dec _ _ Hp) as Hdec. apply parseScaledDecimal_Ok in Hp as [Hv Hd].
  specialize (IH (addScaledDecimals total d) (addScaledDecimals_nonneg _ _ Ht Hd)). simpl.
  destruct (fold_result addDecimal (addScaledDecimals total d) values) as [r|e].
  - destruct IH as (Hr & Hsum & Hall).
    split_and!; [done| |constructor; [by rewrite Hv|done]].
    rewrite Hsum, addScaledDecimals_value, Hdec. by rewrite Qplus_assoc.
  - destruct IH as (v' & ? & ?). exists v'. split; [by right|done].
Qed.

(** [AddDecimals] is an exact sum: for at least one decimal text it returns
    the text of a decimal whose value is the rational sum of the values, and it
    fails exactly when there is no text or some text is not a decimal. *)
Theorem AddDecimals_exact values :
  match AddDecimals values with
  | Ok text =>
      values ≠ [] ∧ Forall (λ v, is_Some (Rat_SetString v)) values ∧
      ∃ q, Rat_SetString text = Some q ∧ (q == sumQ (dec <$> values))%Q
  | Err _ => values = [] ∨ ∃ v, v ∈ values ∧ Rat_SetString v = None
  end.
Proof.
  unfold AddDecimals. destruct values as [|v values]; [by left|].
  pose proof (addDecimals_spec (v :: values) (MkScaledDecimal 0 0) ltac:(done)) as H.
  destruct (fold_result addDecimal _ _) as [d|e]; [|by right].
  destruct H as (Hd & Hsum & Hall). cbn [mbind result_bind].
  split_and!; [done|done|].
  destruct (parseScaledDecimal_Ok _ _ (parse_String d Hd)) as [Hq _].
  exists (Qred (sd_value d)). split; [done|]. rewrite Qred_correct, Hsum.
  unfold sd_value. simpl. by rewrite Qplus_0_l.
Qed.

(** ** What aggregation computes *)

Definition bucketStart (w : Z) (item : Candle) : Z := StartTime item - Z.rem (StartTime item) w.

Definition group (w : Z) (items : list Candle) (b : Z) : list Candle :=
  filter (λ item, bucketStart w item = b) items.

(** The candle is the first of the source with its start time. *)
Definition first_at (source : list Candle) (item : Candle) : Prop :=
  ∃ before after, source = before ++ item :: after ∧
    Forall (λ other, StartTime other ≠ StartTime item) before.

(** [c] has the open, close, extremes and volume of the candles of [g], in
    their order. *)
Record summarises (g : list Candle) (c : Candle) (vol : Q) : Prop := {
  sum_open : Open <$> head g = Some (Open c);
  sum_close : Close <$> last g = Some (Close c);
  sum_high : (∃ item, item ∈ g ∧ High c = High item) ∧
    Forall (λ item, is_Some (Rat_SetString (High item)) ∧ (dec (High item) <= dec (High c))%Q) g;
  sum_low : (∃ item, item ∈ g ∧ Low c = Low item) ∧
    Forall (λ item, is_Some (Rat_SetString (Low item)) ∧ (dec (Low c) <= dec (Low item))%Q) g;
  sum_volume : (vol == sumQ ((λ item, dec (Volume item)) <$> g))%Q
}.

Definition bucket_ok (w : Z) (items : list Candle) (b : Z) (o : option bucketCandle) : Prop :=
  match o with
  | None => group w items b = []
  | Some bc =>
      StartTime (candle bc) = b ∧ 0 ≤ integer (volume bc) ∧
      summarises (group w items b) (candle bc) (sd_value (volume bc))
  end.

Lemma group_app w items items' b : group w (items ++ items') b = group w items b ++ group w items' b.
Proof. unfold group. apply filter_app. Qed.

Lemma sumQ_app l k : (sumQ (l ++ k) == sumQ l + sumQ k)%Q.
Proof. induction l as [|x l IH]; simpl; [by rewrite Qplus_0_l|]. by rewrite IH, Qplus_assoc. Qed.

(** The extreme of a group when one candle joins it. *)
Lemma join_high g item (high : string) cmp :
  compareDecimals (High item) high = Ok cmp →
  (∃ i, i ∈ g ∧ high = High i) →
  Forall (λ i, is_Some (Rat_SetString (High i)) ∧ (dec (High i) <= dec high)%Q) g →
  let high' := match cmp with Gt => High item | _ => high end in
  (∃ i, i ∈ g ++ [item] ∧ high' = High i) ∧
  Forall (λ i, is_Some (Rat_SetString (High i)) ∧ (dec (High i) <= dec high')%Q) (g ++ [item]).
Proof.
  intros (Hc & Hi & _)%compareDecimals_Ok (i & Hin & Heq) Hall.
  assert (∀ high', (dec high <= dec high')%Q → (dec (High item) <= dec high')%Q →
    Forall (λ i, is_Some (Rat_SetString (High i)) ∧ (dec (High i) <= dec high')%Q) (g ++ [item])) as Hf.
  { intros high' H1 H2. apply Forall_app. split; [|by repeat constructor].
    eapply Forall_impl; [exact Hall|]. intros j [? ?]. split; [done|]. by transitivity (dec high). }
  destruct cmp; symmetry in Hc; cbv zeta.
  - apply Qeq_alt in Hc. split; [exists i; split; [set_solver|done]|].
    apply Hf; [done|]. by rewrite Hc.
  - apply Qlt_alt in Hc. split; [exists i; split; [set_solver|done]|].
    apply Hf; [done|]. by apply Qlt_le_weak.
  - apply Qgt_alt in Hc. split; [exists item; split; [set_solver|done]|].
    apply Hf; [|done]. by apply Qlt_le_weak.
Qed.

Lemma join_low g item (low : string) cmp :
  compareDecimals (Low item) low = Ok cmp →
  (∃ i, i ∈ g ∧ low = Low i) →
  Forall (λ i, is_Some (Rat_SetString (Low i)) ∧ (dec low <= dec (Low i))%Q) g →
  let low' := match cmp with Lt => Low item | _ => low end in
  (∃ i, i ∈ g ++ [item] ∧ low' = Low i) ∧
  Forall (λ i, is_Some (Rat_SetString (Low i)) ∧ (dec low' <= dec (Low i))%Q) (g ++ [item]).
Proof.
  intros (Hc & Hi & _)%compareDecimals_Ok (i & Hin & Heq) Hall.
  assert (∀ low', (dec low' <= dec low)%Q → (dec low' <= dec (Low item))%Q →
    Forall (λ i, is_Some (Rat_SetString (Low i)) ∧ (dec low' <= dec (Low i))%Q) (g ++ [item])) as Hf.
  { intros low' H1 H2. apply Forall_app. split; [|by repeat constructor].
    eapply Forall_impl; [exact Hall|]. intros j [? ?]. split; [done|]. by transitivity (dec low). }
  destruct cmp; symmetry in Hc; cbv zeta.
  - apply Qeq_alt in Hc. split; [exists i; split; [set_solver|done]|].
    apply Hf; [done|]. by rewrite Hc.
  - apply Qlt_alt in Hc. split; [exists item; split; [set_solver|done]|].
    apply Hf; [|done]. by apply Qlt_le_weak.
  - apply Qgt_alt in Hc. split; [exists i; split; [set_solver|done]|].
    apply Hf; [done|]. by apply Qlt_le_weak.
Qed.

Lemma summarises_single item cmp vol :
  compareDecimals (High item) (Low item) = Ok cmp → (vol == dec (Volume item))%Q →
  summarises [item]
    (MkCandle (StartTime item) (Open item) (High item) (Low item) (Close item) "") vol.
Proof.
  intros (_ & ? & ?)%compareDecimals_Ok Hvol. split; simpl; [done|done| | |].
  - split; [exists item; split; [by left|done]|].
    constructor; [|done]. split; [done|apply Qle_refl].
  - split; [exists item; split; [by left|done]|].
    constructor; [|done]. split; [done|apply Qle_refl].
  - by rewrite Hvol, Qplus_0_r.
Qed.

Lemma aggregateStep_ok w byStart items buckets start item buckets' :
  byStart !! start = Some item → StartTime item = start →
  (∀ b, bucket_ok w items b (buckets !! b)) →
  aggregateStep w byStart buckets start = Ok buckets' →
  ∀ b, bucket_ok w (items ++ [item]) b (buckets' !! b).
Proof.
  intros Hitem Hstart Hok Hstep b. unfold aggregateStep in Hstep. rewrite Hitem in Hstep.
  cbn [default] in Hstep. change (id item) with item in Hstep. subst start.
  fold (bucketStart w item) in Hstep.
  destruct (parseScaledDecimal (Volume item)) as [v|] eqn:Hv; [|done].
  pose proof (parse_dec _ _ Hv) as Hvol. apply parseScaledDecimal_Ok in Hv as [_ Hnn].
  assert (group w [item] b = if decide (bucketStart w item = b) then [item] else []) as Hg1
    by (unfold group; by rewrite filter_cons).
  assert (bucketStart w item ≠ b → bucket_ok w (items ++ [item]) b (buckets !! b)) as Hother.
  { intros Hne. specialize (Hok b). unfold bucket_ok in *. rewrite group_app, Hg1, decide_False by done.
    by rewrite app_nil_r. }
  pose proof (Hok (bucketStart w item)) as Hcur.
  destruct (buckets !! bucketStart w item) as [cur|] eqn:Hlook.
  - destruct Hcur as (Hst & Hcn & [Ho Hcl [Hh1 Hh2] [Hl1 Hl2] Hvs]).
    destruct (compareDecimals (High item) _) as [ch|] eqn:Hch; [|done].
    destruct (compareDecimals (Low item) _) as [cl|] eqn:Hcl'; [|done]. injection Hstep as <-.
    rewrite lookup_insert. destruct (decide (bucketStart w item = b)) as [<-|]; [|by apply Hother].
    unfold bucket_ok. rewrite group_app, Hg1. cbn [candle volume StartTime].
    split_and!; [done|by apply addScaledDecimals_nonneg|].
    split; cbn [Open Close High Low].
    + destruct (group w items (bucketStart w item)); [done|]. exact Ho.
    + by rewrite last_snoc.
    + by eapply join_high.
    + by eapply join_low.
    + rewrite addScaledDecimals_value, Hvs, Hvol, fmap_app, sumQ_app. simpl. by rewrite Qplus_0_r.
  - destruct (compareDecimals (High item) _) as [ch|] eqn:Hch; [|done]. injection Hstep as <-.
    rewrite lookup_insert. destruct (decide (bucketStart w item = b)) as [<-|]; [|by apply Hother].
    unfold bucket_ok in *. rewrite group_app, Hg1, Hcur.
    cbn [candle volume StartTime]. split_and!; [done|done|].
    destruct (summarises_single item ch (sd_value v) Hch Hvol). by split.
Qed.

(** ** Indexing the source *)

Record indexed (source : list Candle) (acc : gmap Z Candle * list Z) : Prop := {
  ix_lookup : ∀ t item, acc.1 !! t = Some item ↔ first_at source item ∧ StartTime item = t;
  ix_starts : ∀ t, t ∈ acc.2 ↔ is_Some (acc.1 !! t);
  ix_all : Forall (λ item, is_Some (acc.1 !! StartTime item)) source;
  ix_NoDup : NoDup acc.2;
  ix_nonneg : Forall (λ t, 0 ≤ t) acc.2
}.

Lemma first_at_snoc source c item :
  first_at (source ++ [c]) item ↔
    first_at source item ∨ item = c ∧ Forall (λ o, StartTime o ≠ StartTime c) source.
Proof.
  unfold first_at. split.
  - intros (before & after & Heq & Hb). destruct after as [|x a _] using rev_ind.
    + apply app_inj_tail in Heq as [-> ->]. by right.
    + left. exists before, a. split; [|done].
      rewrite app_comm_cons, app_assoc in Heq. by apply app_inj_tail in Heq as [-> _].
  - intros [(before & after & -> & Hb)|[-> Hs]].
    + exists before, (after ++ [c]). by rewrite <-app_assoc.
    + by exists source, [].
Qed.

Lemma indexCandle_ok pre acc c acc' :
  indexed pre acc → indexCandle acc c = Ok acc' → indexed (pre ++ [c]) acc'.
Proof.
  intros [Hl Hs Ha Hn Hp] Hstep. destruct acc as [m l]. unfold indexCandle in Hstep. simpl in *.
  case_bool_decide as Hneg; [done|].
  destruct (m !! StartTime c) as [old|] eqn:Hold; injection Hstep as <-; split; simpl; try done.
  - intros t item. rewrite Hl, first_at_snoc. split; [naive_solver|].
    intros [[?|[-> Hf]] <-]; [done|]. apply Hl in Hold as [(b & a & -> & _) Ht].
    apply Forall_app in Hf as [_ [Hf _]%Forall_cons]. done.
  - apply Forall_app. split; [done|]. constructor; [|done]. by rewrite Hold.
  - intros t item. rewrite lookup_insert, first_at_snoc.
    assert (Forall (λ o, StartTime o ≠ StartTime c) pre) as Hfresh.
    { eapply Forall_impl; [exact Ha|]. intros o [x Hx] Heq. simpl in *. congruence. }
    case_decide as Ht.
    + subst t. split; [intros [= <-]; auto|]. intros [[Hf|[-> _]] Heq]; [|done].
      destruct Hf as (b & a & -> & _). apply Forall_app in Hfresh as [_ [Hf _]%Forall_cons]. done.
    + rewrite Hl. split; [naive_solver|]. intros [[?|[-> _]] ?]; naive_solver.
  - intros t. rewrite elem_of_app, list_elem_of_singleton, Hs, lookup_insert.
    case_decide as Ht; [subst; naive_solver|]. naive_solver.
  - apply Forall_app. split.
    + eapply Forall_impl; [exact Ha|]. intros o [x Hx]. rewrite lookup_insert. by case_decide; eauto.
    + constructor; [|done]. rewrite lookup_insert_eq. eauto.
  - apply NoDup_app. split_and!; [done| |apply NoDup_singleton].
    intros t Ht ->%list_elem_of_singleton. apply Hs in Ht as [? ?]. congruence.
  - apply Forall_app. split; [done|]. constructor; [lia|done].
Qed.

(** ** The aggregation theorem *)

Lemma aggregate_fold w byStart starts items buckets buckets' :
  (∀ b, bucket_ok w items b (buckets !! b)) →
  Forall (λ t, ∃ item, byStart !! t = Some item ∧ StartTime item = t) starts →
  fold_result (aggregateStep w byStart) buckets starts = Ok buckets' →
  ∀ b, bucket_ok w (items ++ omap (λ t, byStart !! t) starts) b (buckets' !! b).
Proof.
  revert items buckets. induction starts as [|t starts IH]; intros items buckets Hok Hst Hfold b.
  { simpl in *. injection Hfold as <-. by rewrite app_nil_r. }
  apply Forall_cons in Hst as [(item & Hitem & Ht) Hst]. cbn [fold_result] in Hfold.
  apply result_bind_Ok in Hfold as (b1 & Hstep & Hfold).
  pose proof (aggregateStep_ok w byStart items buckets t item b1 Hitem Ht Hok Hstep) as Hok1.
  specialize (IH _ _ Hok1 Hst Hfold b). cbn [omap list_omap]. rewrite Hitem.
  by rewrite <-app_assoc in IH.
Qed.

(** The candles of the sorted start times. *)
Lemma sorted_items source byStart starts :
  indexed source (byStart, starts) →
  let sorted := merge_sort Z.le starts in
  let items := omap (λ t, byStart !! t) sorted in
  Forall (λ t, ∃ item, byStart !! t = Some item ∧ StartTime item = t) sorted ∧
  StronglySorted (λ a b, StartTime a < StartTime b) items ∧
  (∀ item, item ∈ items ↔ first_at source item).
Proof.
  intros [Hl Hs _ Hn _]. cbv zeta. cbn [fst snd] in *.
  assert (Forall (λ t, ∃ item, byStart !! t = Some item ∧ StartTime item = t)
    (merge_sort Z.le starts)) as Hall.
  { apply Forall_forall. intros t Ht. apply elem_of_sort in Ht. apply Hs in Ht as [item Hi].
    exists item. split; [done|]. by apply Hl in Hi as [_ ?]. }
  split_and!; [done| |].
  - assert (StronglySorted Z.lt (merge_sort Z.le starts)) as Hsort.
    { apply (StronglySorted_strict Z.le); [lia|by apply NoDup_sort|]. apply sort_StronglySorted; apply _. }
    induction Hsort as [|t l Hl' IH Ht]; [constructor|].
    apply Forall_cons in Hall as [(item & Hi & <-) Hall]. cbn [omap list_omap]. rewrite Hi.
    constructor; [by apply IH|]. apply Forall_forall. intros c (t' & Ht' & Hc)%list_elem_of_omap.
    rewrite Forall_forall in Ht. specialize (Ht t' Ht'). apply Hl in Hc as [_ ->]. lia.
  - intros item. rewrite list_elem_of_omap. split.
    + intros (t & _ & Hi). by apply Hl in Hi as [? _].
    + intros Hf. assert (byStart !! StartTime item = Some item) as Hi by by apply Hl.
      exists (StartTime item). split; [|done]. apply elem_of_sort, Hs. eauto.
Qed.

Lemma bucket_ok_dom w items (buckets : gmap Z bucketCandle) b :
  (∀ b, bucket_ok w items b (buckets !! b)) →
  b ∈ elements (dom buckets) ↔ ∃ item, item ∈ items ∧ bucketStart w item = b.
Proof.
  intros Hok. rewrite elem_of_elements, elem_of_dom. specialize (Hok b).
  assert (group w items b ≠ [] ↔ ∃ item, item ∈ items ∧ bucketStart w item = b) as <-.
  { unfold group. split.
    - destruct (filter _ items) as [|x l] eqn:Hf; [done|]. intros _. exists x.
      assert (x ∈ filter (λ item, bucketStart w item = b) items) as Hx by (rewrite Hf; left).
      by apply list_elem_of_filter in Hx as [? ?].
    - intros (x & Hx & Hb) Hf. assert (x ∈ filter (λ item, bucketStart w item = b) items) as Hin
        by by apply list_elem_of_filter.
      rewrite Hf in Hin. by apply elem_of_nil in Hin. }
  destruct (buckets !! b) as [bc|]; simpl in *; [|by rewrite Hok; split; [intros []|]].
  destruct Hok as (_ & _ & [Ho _ _ _ _]). split; [|eauto]. intros _ Hg. by rewrite Hg in Ho.
Qed.

Lemma index_source source acc :
  fold_result indexCandle (∅, []) source = Ok acc → indexed source acc.
Proof.
  cut (∀ pre acc0 rest, indexed pre acc0 → fold_result indexCandle acc0 rest = Ok acc →
    indexed (pre ++ rest) acc).
  { intros Hcut. apply (Hcut [] (∅, []) source). split; simpl; [..|constructor|done].
    - intros t item. rewrite lookup_empty. split; [done|].
      intros [(b & a & Heq & _) _]. by destruct b.
    - intros t. rewrite lookup_empty, elem_of_nil. split; [done|by intros []].
    - done. }
  intros pre acc0 rest. revert pre acc0. induction rest as [|c rest IH]; intros pre acc0 Hpre Hf.
  - injection Hf as ->. by rewrite app_nil_r.
  - apply result_bind_Ok in Hf as (acc1 & Hstep & Hf).
    apply (indexCandle_ok _ _ _ _ Hpre) in Hstep. specialize (IH _ _ Hstep Hf).
    by rewrite <-app_assoc in IH.
Qed.

Lemma finishCandle_ok w items (buckets : gmap Z bucketCandle) b :
  (∀ b, bucket_ok w items b (buckets !! b)) → b ∈ elements (dom buckets) →
  ∃ vol, StartTime (finishCandle buckets b) = b ∧
    Rat_SetString (Volume (finishCandle buckets b)) = Some vol ∧
    summarises (group w items b) (finishCandle buckets b) vol.
Proof.
  intros Hok [bc Hlook]%elem_of_elements%elem_of_dom. unfold finishCandle.
  specialize (Hok b). rewrite Hlook in *. simpl in *.
  destruct Hok as (Hst & Hnn & [Ho Hcl Hh Hl Hv]).
  destruct (parseScaledDecimal_Ok _ _ (parse_String _ Hnn)) as [Hq _].
  exists (Qred (sd_value (volume bc))). split_and!; [done|done|]. split; try done.
  by rewrite Qred_correct.
Qed.

(** The candles of the [limit] latest buckets. *)
Lemma newest_candles (finish : Z → Candle) (bs : list Z) (limit : Z) :
  0 ≤ limit → StronglySorted Z.gt bs → (∀ b, b ∈ bs → StartTime (finish b) = b) →
  let r := finish <$> take (Z.to_nat limit) bs in
  StronglySorted (λ a b, StartTime b < StartTime a) r ∧ Z.of_nat (length r) ≤ limit ∧
  (∀ b, b ∈ bs → (∃ c, c ∈ r ∧ StartTime c = b) ∨
                 (Z.of_nat (length r) = limit ∧ ∀ c, c ∈ r → b < StartTime c)).
Proof.
  intros Hlim Hgt Hst. cbv zeta. set (n := Z.to_nat limit).
  assert (∀ b, b ∈ take n bs → b ∈ bs) as Htake.
  { intros b Hb. rewrite <-(take_drop n bs). apply elem_of_app. by left. }
  split_and!.
  - apply (StronglySorted_fmap_in _ Z.gt); [by apply StronglySorted_take|]. intros a b Ha Hb Hab.
    rewrite !Hst by auto. lia.
  - rewrite length_fmap, length_take. lia.
  - intros b Hb. rewrite <-(take_drop n bs) in Hb. apply elem_of_app in Hb as [Hb|Hb].
    + left. exists (finish b). split; [by apply list_elem_of_fmap_2|auto].
    + right. split.
      * rewrite length_fmap, length_take. assert (drop n bs ≠ []) as Hd
          by (intros Hd; rewrite Hd in Hb; by apply elem_of_nil in Hb).
        assert (n < length bs)%nat; [|lia].
        destruct (decide (length bs ≤ n)%nat); [|lia]. by rewrite drop_ge in Hd.
      * intros c (b' & -> & Hb')%list_elem_of_fmap. rewrite Hst by auto.
        pose proof (StronglySorted_take_drop Z.gt _ bs b' b Hgt Hb' Hb). lia.
Qed.

(** C37: [AggregateCandles] is right.  Let [items] be the source candles in
    ascending order of start time, the first kept of each start time.  The
    result is in strictly descending order and no longer than the limit; each
    candle starts at an interval boundary and has the first open, last close,
    greatest high, least low (compared as rationals) and the exact sum of the
    volumes of the items in its interval; and an item whose interval is missing
    is older than a full result. *)
Theorem AggregateCandles_spec source interval limit r :
  AggregateCandles source interval limit = Ok r →
  let w := Z.quot interval Millisecond in
  ∃ items,
    StronglySorted (λ a b, StartTime a < StartTime b) items ∧
    (∀ item, item ∈ items ↔ first_at source item) ∧
    StronglySorted (λ a b, StartTime b < StartTime a) r ∧
    Z.of_nat (length r) ≤ limit ∧
    (∀ c, c ∈ r → ∃ vol, Rat_SetString (Volume c) = Some vol ∧
       summarises (group w items (StartTime c)) c vol) ∧
    (∀ item, item ∈ items →
       (∃ c, c ∈ r ∧ StartTime c = bucketStart w item) ∨
       (Z.of_nat (length r) = limit ∧ ∀ c, c ∈ r → bucketStart w item < StartTime c)).
Proof.
  unfold AggregateCandles. intros H. cbv zeta.
  apply result_bind_Ok in H as (? & _ & H). apply result_bind_Ok in H as (? & Hlim & H).
  apply require_Ok in Hlim. rewrite negb_bool_decide in Hlim.
  apply result_bind_Ok in H as ([byStart starts] & Hix & H). cbv zeta in H.
  set (w := Z.quot interval Millisecond) in *.
  apply result_bind_Ok in H as (buckets & Hfold & H). injection H as <-.
  pose proof (index_source _ _ Hix) as Hindexed.
  destruct (sorted_items source byStart starts Hindexed) as (Hall & Hsort & Hin).
  set (items := omap (λ t, byStart !! t) (merge_sort Z.le starts)) in *.
  pose proof (aggregate_fold w byStart _ [] ∅ buckets (λ b, eq_refl) Hall Hfold) as Hok.
  cbn [app] in Hok. fold items in Hok.
  set (bs := merge_sort later (elements (dom buckets))).
  assert (∀ b, b ∈ bs ↔ ∃ item, item ∈ items ∧ bucketStart w item = b) as Hbs.
  { intros b. unfold bs. rewrite elem_of_sort. by apply bucket_ok_dom. }
  assert (StronglySorted Z.gt bs) as Hgt.
  { apply (StronglySorted_strict later); [unfold later; lia| |apply sort_StronglySorted; apply _].
    apply NoDup_sort, NoDup_elements. }
  assert (∀ b, b ∈ bs → ∃ vol, StartTime (finishCandle buckets b) = b ∧
    Rat_SetString (Volume (finishCandle buckets b)) = Some vol ∧
    summarises (group w items b) (finishCandle buckets b) vol) as Hfin.
  { intros b Hb. apply elem_of_sort in Hb. by apply finishCandle_ok. }
  destruct (newest_candles (finishCandle buckets) bs limit) as (Hsr & Hlen & Hmiss);
    [lia|done|by intros b (? & ? & _)%Hfin|].
  exists items. split_and!; [done|done|done|done| |].
  - intros c (b & -> & Hb)%list_elem_of_fmap. destruct (Hfin b) as (vol & Hst & Hv & Hsum).
    { rewrite <-(take_drop (Z.to_nat limit) bs). apply elem_of_app. by left. }
    exists vol. split; [done|]. by rewrite Hst.
  - intros item Hi. apply Hmiss, Hbs. eauto.
Qed.

Lemma AggregateCandles_spec_witness :
  ∃ items,
    (∀ item, item ∈ items ↔ first_at
       [MkCandle 60000 "2" "3.5" "1" "3" "0.75"; MkCandle 0 "1" "2.10" "0.9" "2" "1.25"] item) ∧
    ∃ vol, Rat_SetString "2.00" = Some vol ∧
      summarises (group 120000 items 0) (MkCandle 0 "1" "3.5" "0.9" "3" "2.00") vol.
Proof.
  destruct (AggregateCandles_spec
    [MkCandle 60000 "2" "3.5" "1" "3" "0.75"; MkCandle 0 "1" "2.10" "0.9" "2" "1.25"]
    (120 * Second) 5 [MkCandle 0 "1" "3.5" "0.9" "3" "2.00"]) as (items & _ & H1 & _ & _ & H2 & _);
    [vm_compute; reflexivity|].
  exists items. split; [exact H1|]. apply (H2 (MkCandle 0 "1" "3.5" "0.9" "3" "2.00")). by left.
Defined.
