(* ===== verification/PriceLevels.v ===== *)
(** * Price levels: one side of a local order book

    The local order books of the exchanges keep each side as a Go map from the
    reduced text of a price to the level, so that 1.0 and 1.00 are the same
    price.  This file has the operations they share (upsert, delete, sorted
    views), the abstract side they implement, a partial function from price keys
    to quantities, and the lemmas that relate the two. *)

From S2P Require Import Prelude GoStrings Decimals.

Record localDepthLevel : Type := MkLocalDepthLevel {
  priceText : string;
  quantityText : string;
  price : Q
}.

Abbreviation Levels := (gmap string localDepthLevel).

(** A published level. *)
Record BookLevel : Type := MkBookLevel { Price : string; Quantity : string }.

(** A parsed update: its key, its price and the texts it came from. *)
Record levelUpdate : Type := MkLevelUpdate {
  upd_key : string;
  upd_price : Q;
  upd_priceText : string;
  upd_quantityText : string
}.

(** A zero quantity removes the level. *)
Definition update_level (levels : Levels) (u : levelUpdate) : Levels :=
  if decimalIsZero (upd_quantityText u) then delete (upd_key u) levels
  else <[upd_key u := MkLocalDepthLevel (upd_priceText u) (upd_quantityText u) (upd_price u)]> levels.

(** The orders of the two sides: [descending] for bids. *)
Definition level_le (descending : bool) (l1 l2 : localDepthLevel) : Prop :=
  if descending then (price l2 <= price l1)%Q else (price l1 <= price l2)%Q.

#[export] Instance level_le_dec descending : RelDecision (level_le descending).
Proof. intros l1 l2. unfold level_le. destruct descending; apply _. Defined.
#[export] Instance level_le_trans descending : Transitive (level_le descending).
Proof.
  intros l1 l2 l3. unfold level_le.
  destruct descending; intros; [by transitivity (price l2)|by transitivity (price l2)].
Qed.
#[export] Instance level_le_total descending : Total (level_le descending).
Proof. intros l1 l2. unfold level_le. destruct descending; apply (total Qle). Qed.

Definition sorted_levels (descending : bool) (levels : Levels) : list localDepthLevel :=
  merge_sort (level_le descending) (snd <$> map_to_list levels).

Definition to_BookLevel (l : localDepthLevel) : BookLevel := MkBookLevel (priceText l) (quantityText l).

(** [sortedLocalLevels]: Go sorts the values of the map, whose prices are
    distinct, so that the order of its iteration does not matter. *)
Definition sortedLocalLevels (values : Levels) (depth : Z) (descending : bool) : list BookLevel :=
  to_BookLevel <$> take (Z.to_nat depth) (sorted_levels descending values).

(** ** The abstract side of a book *)

(** A quantity per price key; [None] is an empty level. *)
Abbreviation side := (string → option Q).

Definition quantities (levels : Levels) : side :=
  λ key, levels !! key ≫= λ l, Rat_SetString (quantityText l).

(** The abstract effect of an update. *)
Definition update_side (s : side) (u : levelUpdate) : side := λ key,
  if decide (key = upd_key u) then
    if decimalIsZero (upd_quantityText u) then None else Rat_SetString (upd_quantityText u)
  else s key.

Definition same_side (s1 s2 : side) : Prop := ∀ key, s1 key = s2 key.

#[export] Instance same_side_equiv : Equivalence same_side.
Proof.
  split; unfold same_side; [done|by intros s1 s2 H key; symmetry|].
  intros s1 s2 s3 H1 H2 key. by rewrite H1.
Qed.

#[export] Instance update_side_proper : Proper (same_side ==> eq ==> same_side) update_side.
Proof.
  intros s1 s2 Hs u ? <- key. unfold update_side. by repeat case_match.
Qed.

#[export] Instance update_sides_proper :
  Proper (same_side ==> eq ==> same_side) (foldl update_side).
Proof.
  intros s1 s2 Hs us ? <-. revert s1 s2 Hs. induction us as [|u us IH]; intros s1 s2 Hs; [done|].
  simpl. apply IH. by rewrite Hs.
Qed.

(** ** Well-formed updates and levels *)

Record update_ok (u : levelUpdate) : Prop := {
  ok_upd_key : upd_key u = RatString (upd_price u);
  ok_upd_price : Rat_SetString (upd_priceText u) = Some (upd_price u);
  ok_upd_positive : (0 < upd_price u)%Q;
  ok_upd_quantity : is_Some (Rat_SetString (upd_quantityText u))
}.

Record level_ok (key : string) (l : localDepthLevel) : Prop := {
  ok_key : key = RatString (price l);
  ok_price : Rat_SetString (priceText l) = Some (price l);
  ok_positive : (0 < price l)%Q;
  ok_quantity : ∃ q, Rat_SetString (quantityText l) = Some q ∧ (0 < q)%Q
}.

Definition levels_ok (levels : Levels) : Prop := map_Forall level_ok levels.

Lemma levels_ok_empty : levels_ok ∅.
Proof. apply map_Forall_empty. Qed.

Lemma Qpos_of_text text q :
  Rat_SetString text = Some q → decimalIsZero text = false → (0 < q)%Q.
Proof.
  intros Hq Hz. pose proof (Rat_SetString_Sign _ _ Hq) as Hs. rewrite Hz in Hs.
  unfold Rat_Sign in Hs. unfold Qlt. simpl. rewrite Z.mul_1_r. destruct (Qnum q); simpl in *; lia.
Qed.

Lemma update_level_ok levels u : levels_ok levels → update_ok u → levels_ok (update_level levels u).
Proof.
  intros Hl [Hk Hp Hpos [q Hq]]. unfold update_level. destruct (decimalIsZero _) eqn:Hz.
  - intros k l Hl'. apply lookup_delete_Some in Hl' as [_ Hl']. by apply Hl.
  - intros k l Hl'. apply lookup_insert_Some in Hl' as [[<- <-]|[_ Hl']]; [|by apply Hl].
    split; simpl; [done|done|done|]. exists q. split; [done|]. by eapply Qpos_of_text.
Qed.

Lemma quantities_none : same_side (quantities ∅) (λ _, None).
Proof. intros key. unfold quantities. by rewrite lookup_empty. Qed.

Lemma quantities_update levels u :
  same_side (quantities (update_level levels u)) (update_side (quantities levels) u).
Proof.
  intros key. unfold quantities, update_side, update_level.
  destruct (decimalIsZero (upd_quantityText u)).
  - rewrite lookup_delete. destruct (decide (upd_key u = key)) as [->|];
      [by rewrite decide_True|by rewrite decide_False].
  - rewrite lookup_insert. destruct (decide (upd_key u = key)) as [->|];
      [by rewrite decide_True|by rewrite decide_False].
Qed.

Lemma quantities_updates levels us :
  same_side (quantities (foldl update_level levels us)) (foldl update_side (quantities levels) us).
Proof.
  revert levels. induction us as [|u us IH]; intros levels; [done|]. simpl.
  rewrite IH. apply update_sides_proper; [apply quantities_update|done].
Qed.

Lemma update_levels_ok levels us :
  levels_ok levels → Forall update_ok us → levels_ok (foldl update_level levels us).
Proof.
  intros Hl Hus. revert levels Hl. induction Hus as [|u us Hu _ IH]; intros levels Hl; [done|].
  simpl. apply IH. by apply update_level_ok.
Qed.

(** ** Views *)

Definition price_lt (descending : bool) (p1 p2 : Q) : Prop :=
  if descending then (p2 < p1)%Q else (p1 < p2)%Q.

(** [view] shows the best [depth] levels of a side: its prices are positive and
    strictly ordered, its quantities are those of the side, and a level left out
    is behind all of a full view. *)
Record shows (descending : bool) (depth : Z) (s : side) (view : list BookLevel) : Prop := {
  shows_length : Z.of_nat (length view) ≤ 0 `max` depth;
  shows_order : StronglySorted
    (λ b1 b2, ∃ p1 p2, Rat_SetString (Price b1) = Some p1 ∧ Rat_SetString (Price b2) = Some p2 ∧
                       price_lt descending p1 p2) view;
  shows_levels : ∀ b, b ∈ view → ∃ p q, Rat_SetString (Price b) = Some p ∧ (0 < p)%Q ∧
    Rat_SetString (Quantity b) = Some q ∧ (0 < q)%Q ∧ s (RatString p) = Some q;
  shows_best : ∀ key q, s key = Some q →
    (∃ b p, b ∈ view ∧ Rat_SetString (Price b) = Some p ∧ RatString p = key) ∨
    (Z.of_nat (length view) = 0 `max` depth ∧
     ∀ b p, b ∈ view → Rat_SetString (Price b) = Some p →
       ∃ p', RatString p' = key ∧ price_lt descending p p')
}.

Lemma elem_of_sorted_levels descending levels l :
  l ∈ sorted_levels descending levels ↔ ∃ key, levels !! key = Some l.
Proof.
  unfold sorted_levels. rewrite elem_of_sort, list_elem_of_fmap. split.
  - intros ([key l'] & -> & H%elem_of_map_to_list). by exists key.
  - intros [key H]. exists (key, l). by rewrite elem_of_map_to_list.
Qed.

Lemma sorted_levels_strict descending levels :
  levels_ok levels →
  StronglySorted (λ l1 l2, price_lt descending (price l1) (price l2)) (sorted_levels descending levels).
Proof.
  intros Hok. assert (NoDup (price <$> sorted_levels descending levels)) as Hnd.
  { unfold sorted_levels. rewrite (merge_sort_Permutation (level_le descending)).
    rewrite <-list_fmap_compose. apply NoDup_fmap_2_strong; [|apply NoDup_map_to_list].
    intros [k1 l1] [k2 l2] H1%elem_of_map_to_list H2%elem_of_map_to_list Heq. simpl in *.
    pose proof (ok_key _ _ (Hok _ _ H1)) as K1. pose proof (ok_key _ _ (Hok _ _ H2)) as K2.
    rewrite Heq in K1. subst. congruence. }
  apply (StronglySorted_strict (level_le descending)).
  - intros l1 l2 [k1 H1]%elem_of_sorted_levels [k2 H2]%elem_of_sorted_levels Hne Hle.
    destruct (Hok _ _ H1) as [K1 P1 _ _], (Hok _ _ H2) as [K2 P2 _ _].
    assert (price l1 ≠ price l2) as Hp by (intros E; rewrite E in K1; subst; congruence).
    apply Rat_SetString_reduced in P1, P2.
    unfold level_le, price_lt in *. destruct descending; apply reduced_le_ne; done || congruence.
  - by apply NoDup_fmap_1 in Hnd.
  - apply sort_StronglySorted; apply _.
Qed.

Lemma StronglySorted_fmap_mem {A B} (f : A → B) (R : relation B) l :
  StronglySorted (λ x y, R (f x) (f y)) l → StronglySorted R (f <$> l).
Proof.
  induction 1 as [|x l Hl IH Hx]; [constructor|]. rewrite fmap_cons. constructor; [done|].
  by apply Forall_fmap.
Qed.

Lemma quantities_level levels key l :
  levels_ok levels → levels !! key = Some l →
  ∃ q, Rat_SetString (quantityText l) = Some q ∧ (0 < q)%Q ∧ quantities levels key = Some q.
Proof.
  intros Hok Hl. destruct (Hok _ _ Hl) as [_ _ _ (q & Hq & Hpos)].
  exists q. split_and!; [done|done|]. unfold quantities. by rewrite Hl.
Qed.

(** The views that the local books publish show their levels. *)
Lemma sortedLocalLevels_shows descending depth levels :
  levels_ok levels →
  shows descending depth (quantities levels) (sortedLocalLevels levels depth descending).
Proof.
  intros Hok. pose proof (sorted_levels_strict descending levels Hok) as Hs.
  unfold sortedLocalLevels. set (l := sorted_levels descending levels) in *.
  assert (∀ x, x ∈ take (Z.to_nat depth) l → ∃ key, levels !! key = Some x) as Hin.
  { intros x Hx. apply (elem_of_sorted_levels descending).
    fold l. rewrite <-(take_drop (Z.to_nat depth) l). apply elem_of_app. by left. }
  split.
  - rewrite length_fmap, length_take. lia.
  - apply StronglySorted_fmap_mem. simpl.
    pose proof (StronglySorted_take _ (Z.to_nat depth) l Hs) as Ht.
    revert Hin. induction Ht as [|x k Hk IH Hx]; intros Hin; [constructor|]. constructor.
    + apply IH. intros y Hy. apply Hin. by right.
    + rewrite Forall_forall in Hx |- *. intros y Hy. exists (price x), (price y).
      destruct (Hin x) as [kx Hkx]; [by left|]. destruct (Hin y) as [ky Hky]; [by right|].
      split_and!; [apply (ok_price _ _ (Hok _ _ Hkx))|apply (ok_price _ _ (Hok _ _ Hky))|by apply Hx].
  - intros b (x & -> & Hx)%list_elem_of_fmap. destruct (Hin x Hx) as [key Hkey].
    destruct (quantities_level levels key x Hok Hkey) as (q & Hq & Hpos & Hqs).
    destruct (Hok _ _ Hkey) as [Hk Hp Hpp _]. subst key. exists (price x), q. done.
  - intros key q Hkq. unfold quantities in Hkq.
    destruct (levels !! key) as [x|] eqn:Hx; [|done].
    destruct (Hok _ _ Hx) as [Hk Hp _ _].
    assert (x ∈ l) as Hxl by (apply elem_of_sorted_levels; eauto).
    rewrite <-(take_drop (Z.to_nat depth) l) in Hxl. apply elem_of_app in Hxl as [Hxl|Hxl].
    + left. exists (to_BookLevel x), (price x). split_and!; [by apply list_elem_of_fmap_2|done|done].
    + right. split.
      * rewrite length_fmap, length_take. assert (drop (Z.to_nat depth) l ≠ []) as Hd
          by (intros Hd; rewrite Hd in Hxl; by apply elem_of_nil in Hxl).
        assert (Z.to_nat depth < length l)%nat; [|lia].
        destruct (decide (length l ≤ Z.to_nat depth)%nat); [|lia]. by rewrite drop_ge in Hd.
      * intros b p (y & -> & Hy)%list_elem_of_fmap Hbp.
        destruct (Hin y Hy) as [ky Hky]. simpl in Hbp.
        rewrite (ok_price _ _ (Hok _ _ Hky)) in Hbp. injection Hbp as <-.
        exists (price x). split; [done|]. exact (StronglySorted_take_drop _ _ _ _ _ Hs Hy Hxl).
Qed.

Lemma shows_same descending depth s1 s2 v :
  same_side s1 s2 → shows descending depth s1 v → shows descending depth s2 v.
Proof.
  intros Hs []. split; [done|done| |].
  - intros b Hb. destruct (shows_levels0 b Hb) as (p & q & ? & ? & ? & ? & ?).
    exists p, q. by rewrite <-Hs.
  - intros key q Hq. rewrite <-Hs in Hq. eauto.
Qed.

#[export] Instance shows_proper descending depth :
  Proper (same_side ==> eq ==> iff) (shows descending depth).
Proof.
  intros s1 s2 Hs v ? <-. split; apply shows_same; [done|by symmetry].
Qed.

(** ** Lists of updates as an exchange writes them *)

Section parsed_updates.
Context {A E : Type} (parse : A → result E levelUpdate).
Context (parse_ok : ∀ fields u, parse fields = Ok u → update_ok u).

(** Parse one item and apply it: what the books' [applyLocalLevel] do. *)
Definition apply_parsed (levels : Levels) (fields : A) : result E Levels :=
  update ← parse fields;
  Ok (update_level levels update).

(** The updates of the items that parse. *)
Definition updates_of (items : list A) : list levelUpdate :=
  omap (λ fields, match parse fields with Ok u => Some u | Err _ => None end) items.

Definition parses (fields : A) : Prop := ∃ u, parse fields = Ok u.

Lemma updates_of_ok items : Forall update_ok (updates_of items).
Proof.
  apply Forall_forall. intros u (fields & _ & H)%list_elem_of_omap.
  destruct (parse fields) as [u'|] eqn:Hp; [|done]. injection H as <-. by eapply parse_ok.
Qed.

Lemma apply_parsed_Ok levels items levels' :
  fold_result apply_parsed levels items = Ok levels' ↔
    Forall parses items ∧ levels' = foldl update_level levels (updates_of items).
Proof.
  revert levels. induction items as [|x items IH]; intros levels; cbn [fold_result].
  { split; [intros [= <-]; done|by intros [_ ->]]. }
  assert (apply_parsed levels x =
    match parse x with Ok u => Ok (update_level levels u) | Err e => Err e end) as -> by done.
  unfold updates_of. simpl. destruct (parse x) as [u|e] eqn:Hp; simpl.
  - fold (updates_of items). rewrite IH, Forall_cons. split; [|naive_solver].
    intros [? ?]. split; [split; [by exists u|done]|done].
  - split; [done|]. intros [[[u Hu] _]%Forall_cons _]. congruence.
Qed.

Lemma apply_parsed_levels_ok levels items levels' :
  levels_ok levels → fold_result apply_parsed levels items = Ok levels' →
  levels_ok levels' ∧
  same_side (quantities levels') (foldl update_side (quantities levels) (updates_of items)).
Proof.
  intros Hl [_ ->]%apply_parsed_Ok.
  split; [by apply update_levels_ok; [|apply updates_of_ok]|apply quantities_updates].
Qed.
(** A loop that only checks its items. *)
Definition check_items (items : list A) : result E unit :=
  fold_result (λ _ fields, parse fields;; Ok tt) tt items.

Lemma check_items_Ok items u : check_items items = Ok u ↔ Forall parses items.
Proof.
  destruct u. unfold check_items. induction items as [|x items IH]; [done|]. cbn [fold_result].
  rewrite Forall_cons, <-IH. unfold parses. destruct (parse x) as [u|e]; simpl; [naive_solver|].
  split; [done|]. by intros [[u Hu] _].
Qed.

Lemma apply_items_Ok levels items :
  Forall parses items → levels_ok levels →
  ∃ levels', fold_result apply_parsed levels items = Ok levels' ∧ levels_ok levels' ∧
    same_side (quantities levels') (foldl update_side (quantities levels) (updates_of items)).
Proof.
  intros Hp Hl. exists (foldl update_level levels (updates_of items)).
  assert (fold_result apply_parsed levels items = Ok (foldl update_level levels (updates_of items)))
    as Hf by (by apply apply_parsed_Ok).
  split; [done|]. by apply (apply_parsed_levels_ok _ items).
Qed.
End parsed_updates.

(** The parser of a price and a quantity text that the books share, with the
    errors they report. *)
Definition parse_texts {E} (invalid_level invalid_price : E) (priceField quantityField : string)
    : result E levelUpdate :=
  if negb (positiveDecimalPattern priceField) || decimalIsZero priceField ||
     negb (positiveDecimalPattern quantityField)
  then Err invalid_level
  else
    match Rat_SetString priceField with
    | Some price =>
        if bool_decide (Rat_Sign price ≤ 0) then Err invalid_price
        else Ok (MkLevelUpdate (RatString price) price priceField quantityField)
    | None => Err invalid_price
    end.

Lemma parsed_update_ok p q (price : Q) :
  decimalIsZero p = false → Rat_SetString p = Some price → positiveDecimalPattern q = true →
  update_ok (MkLevelUpdate (RatString price) price p q).
Proof.
  intros Hz Hp Hq. split; simpl; [done|done|by eapply Qpos_of_text|].
  by apply Rat_SetString_is_Some.
Qed.

Lemma parse_texts_ok {E} (e1 e2 : E) p q u : parse_texts e1 e2 p q = Ok u → update_ok u.
Proof.
  unfold parse_texts.
  destruct (positiveDecimalPattern p) eqn:Hp; [|done]. destruct (decimalIsZero p) eqn:Hz; [done|].
  destruct (positiveDecimalPattern q) eqn:Hq; [|done]. simpl.
  destruct (Rat_SetString p) as [price|] eqn:Hprice; [|done].
  case_bool_decide; [done|]. intros [= <-]. by apply parsed_update_ok.
Qed.

Lemma parse_texts_fields {E} (e1 e2 : E) p q u : parse_texts e1 e2 p q = Ok u →
  upd_key u = RatString (upd_price u) ∧ Rat_SetString p = Some (upd_price u) ∧ upd_quantityText u = q.
Proof.
  unfold parse_texts. destruct (_ || _); [done|].
  destruct (Rat_SetString p) as [price|] eqn:Hprice; [|done]. case_bool_decide; [done|]. by intros [= <-].
Qed.

(** ** Books of a subscribed depth *)

(** The levels behind the first [depth] are deleted, each at the [key] that the
    source computes for it. *)
Definition prune_levels (key : localDepthLevel → string) (values : Levels) (depth : Z)
    (descending : bool) : Levels :=
  foldl (λ values level, delete (key level) values) values
    (drop (Z.to_nat depth) (sorted_levels descending values)).

Lemma lookup_delete_list (key : localDepthLevel → string) (ls : list localDepthLevel)
    (values : Levels) k l :
  foldl (λ values level, delete (key level) values) values ls !! k = Some l ↔
    values !! k = Some l ∧ k ∉ key <$> ls.
Proof.
  revert values. induction ls as [|x ls IH]; intros values; simpl; [set_solver|].
  rewrite IH, lookup_delete_Some. set_solver.
Qed.

Lemma StronglySorted_irrefl_NoDup {A} (R : relation A) `{!Irreflexive R} l :
  StronglySorted R l → NoDup l.
Proof.
  induction 1 as [|x l _ IH Hx]; constructor; [|done].
  intros Hin. rewrite Forall_forall in Hx. by apply (irreflexivity R x), Hx.
Qed.

(** Two strictly sorted lists with the same elements are equal. *)
Lemma StronglySorted_ext {A} (R : relation A) `{!StrictOrder R} l1 l2 :
  StronglySorted R l1 → StronglySorted R l2 → (∀ x, x ∈ l1 ↔ x ∈ l2) → l1 = l2.
Proof.
  intros H1 H2 Hx.
  assert (AntiSymm (=) R) by (intros x y Hxy Hyx; destruct (irreflexivity R x); by transitivity y).
  apply (StronglySorted_unique R); [done|done|].
  apply NoDup_Permutation; [by eapply StronglySorted_irrefl_NoDup, H1; apply _
    |by eapply StronglySorted_irrefl_NoDup, H2; apply _|done].
Qed.

#[export] Instance price_lt_strict descending :
  StrictOrder (λ l1 l2, price_lt descending (price l1) (price l2)).
Proof.
  split.
  - intros l. unfold complement, price_lt. destruct descending; apply Qlt_irrefl.
  - intros l1 l2 l3. unfold price_lt. destruct descending; eauto using Qlt_trans.
Qed.

Section prune.
Context (key : localDepthLevel → string) (levels : Levels).
Context (Hok : levels_ok levels) (Hkey : ∀ k l, levels !! k = Some l → key l = k).

Lemma prune_lookup depth descending k l :
  prune_levels key levels depth descending !! k = Some l ↔
    levels !! k = Some l ∧ l ∈ take (Z.to_nat depth) (sorted_levels descending levels).
Proof.
  unfold prune_levels. rewrite lookup_delete_list.
  set (s := sorted_levels descending levels).
  assert (∀ x, x ∈ s → levels !! key x = Some x) as Hs.
  { intros x [kx Hx]%elem_of_sorted_levels. by rewrite (Hkey _ _ Hx). }
  pose proof (sorted_levels_strict descending levels Hok) as Hsort. fold s in Hsort.
  split; intros [Hl Hin]; (split; [done|]); pose proof (Hkey _ _ Hl) as Hk.
  - assert (l ∈ s) as Hls by (apply elem_of_sorted_levels; eauto).
    rewrite <-(take_drop (Z.to_nat depth) s) in Hls. apply elem_of_app in Hls as [?|Hd]; [done|].
    destruct Hin. rewrite <-Hk. by apply list_elem_of_fmap_2.
  - intros (x & Hkx & Hx)%list_elem_of_fmap.
    assert (x = l) as ->.
    { assert (x ∈ s) as Hxs by (rewrite <-(take_drop (Z.to_nat depth) s); apply elem_of_app; by right).
      apply Hs in Hxs. rewrite <-Hkx in Hxs. congruence. }
    pose proof (StronglySorted_take_drop _ _ _ _ _ Hsort Hin Hx) as Hlt.
    by apply (irreflexivity (λ l1 l2, price_lt descending (price l1) (price l2)) l).
Qed.

Lemma prune_levels_ok depth descending : levels_ok (prune_levels key levels depth descending).
Proof. intros k l [Hl _]%prune_lookup. by apply Hok. Qed.

(** The pruned side is sorted into the first [depth] levels. *)
Lemma sorted_prune depth descending :
  sorted_levels descending (prune_levels key levels depth descending) =
  take (Z.to_nat depth) (sorted_levels descending levels).
Proof.
  apply (StronglySorted_ext (λ l1 l2, price_lt descending (price l1) (price l2))).
  - apply sorted_levels_strict, prune_levels_ok.
  - by apply StronglySorted_take, sorted_levels_strict.
  - intros l. rewrite elem_of_sorted_levels. setoid_rewrite prune_lookup. split; [naive_solver|].
    intros Hl. assert (l ∈ sorted_levels descending levels) as [k Hk]%elem_of_sorted_levels; [|eauto].
    rewrite <-(take_drop (Z.to_nat depth) (sorted_levels _ _)). apply elem_of_app. by left.
Qed.

Lemma prune_size depth descending : Z.of_nat (size (prune_levels key levels depth descending)) ≤ 0 `max` depth.
Proof.
  assert (∀ m : Levels, size m = length (sorted_levels descending m)) as Hsize.
  { intros m. unfold sorted_levels. by rewrite length_sort, length_fmap, length_map_to_list. }
  rewrite Hsize, sorted_prune, length_take. lia.
Qed.
End prune.

(** The level of a view at a key. *)
Definition viewed (view : list BookLevel) (key : string) (q : Q) : Prop :=
  ∃ b p, b ∈ view ∧ Rat_SetString (Price b) = Some p ∧ RatString p = key ∧
         Rat_SetString (Quantity b) = Some q.

(** [s'] is [s] without the levels behind the best [depth]. *)
Definition top_of (depth : Z) (descending : bool) (s s' : side) : Prop :=
  ∃ view, shows descending depth s view ∧ ∀ key q, s' key = Some q ↔ viewed view key q.

Lemma viewed_shown descending depth s view key q :
  shows descending depth s view → viewed view key q → s key = Some q.
Proof.
  intros [_ _ Hl _] (b & p & Hb & Hp & <- & Hq).
  destruct (Hl b Hb) as (p' & q' & Hp' & _ & Hq' & _ & Hs). congruence.
Qed.

Definition price_key (b : BookLevel) : option string := RatString <$> Rat_SetString (Price b).

Lemma shows_keys_NoDup descending depth s view :
  shows descending depth s view → NoDup (price_key <$> view).
Proof.
  intros [_ Hs _ _]. induction Hs as [|b view _ IH Hb]; [constructor|]. rewrite fmap_cons.
  constructor; [|done]. intros (b' & Hk & Hb')%list_elem_of_fmap.
  rewrite Forall_forall in Hb. destruct (Hb b' Hb') as (p & p' & Hp & Hp' & Hlt).
  unfold price_key in Hk. rewrite Hp, Hp' in Hk. simpl in Hk. injection Hk as ->%(inj RatString).
  unfold price_lt in Hlt. destruct descending; by apply Qlt_irrefl in Hlt.
Qed.

Lemma price_lt_asym descending p1 p2 :
  price_lt descending p1 p2 → price_lt descending p2 p1 → False.
Proof.
  unfold price_lt. destruct descending; intros H1 H2; exact (Qlt_irrefl _ (Qlt_trans _ _ _ H1 H2)).
Qed.

(** Two views of the same depth show the same levels. *)
Lemma shows_unique descending depth s view1 view2 key q :
  shows descending depth s view1 → shows descending depth s view2 →
  viewed view1 key q → viewed view2 key q.
Proof.
  intros H1 H2 Hv. pose proof (viewed_shown _ _ _ _ _ _ H1 Hv) as Hs.
  destruct (shows_best _ _ _ _ H2 key q Hs) as [(b & p & Hb & Hp & Hk)|[Hfull Hbehind]].
  { exists b, p. split_and!; try done.
    destruct (shows_levels _ _ _ _ H2 b Hb) as (p' & q' & Hp' & _ & Hq' & _ & Hs'). congruence. }
  exfalso. destruct Hv as (b1 & p1 & Hb1 & Hp1 & Hk1 & _).
  assert (∀ b, b ∈ view2 → price_key b ∈ price_key <$> view1 ∧ price_key b ≠ price_key b1) as Hsub.
  { intros b Hb. destruct (shows_levels _ _ _ _ H2 b Hb) as (p & qb & Hp & _ & _ & _ & Hsb).
    destruct (Hbehind b p Hb Hp) as (p1' & Hk1' & Hlt).
    assert (p1' = p1) as -> by (apply (inj RatString); congruence). split.
    - destruct (shows_best _ _ _ _ H1 _ _ Hsb) as [(b' & p' & Hb' & Hp' & Hk')|[_ Hbehind1]].
      + apply list_elem_of_fmap. exists b'. split; [|done]. unfold price_key. rewrite Hp, Hp'. simpl. congruence.
      + destruct (Hbehind1 b1 p1 Hb1 Hp1) as (p' & ->%(inj RatString) & Hlt'). by destruct (price_lt_asym _ _ _ Hlt Hlt').
    - unfold price_key. rewrite Hp, Hp1. simpl. intros [= ->%(inj RatString)]. by destruct (price_lt_asym _ _ _ Hlt Hlt). }
  assert (price_key b1 :: (price_key <$> view2) ⊆+ price_key <$> view1) as Hperm%submseteq_length.
  { apply NoDup_submseteq.
    - constructor; [|by eapply shows_keys_NoDup].
      intros (b & Hkb & Hb)%list_elem_of_fmap. by apply (proj2 (Hsub b Hb)).
    - intros k Hk. apply elem_of_cons in Hk as [->|(b & -> & Hb)%list_elem_of_fmap].
      + by apply list_elem_of_fmap_2.
      + by apply Hsub. }
  cbn [length] in Hperm. rewrite !length_fmap in Hperm. pose proof (shows_length _ _ _ _ H1). lia.
Qed.

(** Pruning keeps the top of a side. *)
Lemma prune_top_of key levels depth descending :
  levels_ok levels → (∀ k l, levels !! k = Some l → key l = k) →
  top_of depth descending (quantities levels) (quantities (prune_levels key levels depth descending)).
Proof.
  intros Hok Hkey. exists (sortedLocalLevels levels depth descending).
  split; [by apply sortedLocalLevels_shows|]. intros k q. unfold quantities, sortedLocalLevels. split.
  - destruct (_ !! k) as [l|] eqn:Hl; [|done]. intros Hq.
    apply (prune_lookup key levels Hok Hkey) in Hl as [Hl Hin]. destruct (Hok _ _ Hl) as [Hk Hp _ _].
    exists (to_BookLevel l), (price l). split_and!; [by apply list_elem_of_fmap_2|done|done|done].
  - intros (b & p & (l & -> & Hin)%list_elem_of_fmap & Hp & Hk & Hq).
    assert (l ∈ sorted_levels descending levels) as [k' Hk']%elem_of_sorted_levels.
    { rewrite <-(take_drop (Z.to_nat depth) (sorted_levels _ _)). apply elem_of_app. by left. }
    destruct (Hok _ _ Hk') as [Hkk Hpp _ _]. simpl in *. assert (k = k') as -> by congruence.
    assert (prune_levels key levels depth descending !! k' = Some l) as ->
      by (by apply (prune_lookup key levels Hok Hkey)). done.
Qed.

Lemma top_of_same depth descending s1 s2 s1' s2' :
  same_side s1 s2 → top_of depth descending s1 s1' → top_of depth descending s2 s2' →
  same_side s1' s2'.
Proof.
  intros Hs (v1 & Hv1 & H1) (v2 & Hv2 & H2) key. apply (shows_same _ _ _ s2) in Hv1; [|done].
  apply option_eq. intros q. rewrite H1, H2. split; by eapply shows_unique.
Qed.

(** ** Lists of the best levels of a side *)

(** Behind every level of a list of as many levels as were asked for: what such
    a list says nothing about. *)
Definition beyond (descending : bool) (limit : Z) (listed : list BookLevel) (key : string) : Prop :=
  Z.of_nat (length listed) = 0 `max` limit ∧
  ∀ b p, b ∈ listed → Rat_SetString (Price b) = Some p →
    ∃ p', RatString p' = key ∧ price_lt descending p p'.

(** [s] is [t], except that it may lack levels of [outside]. *)
Definition same_within (outside : string → Prop) (s t : side) : Prop := ∀ key,
  s key = t key ∨ (s key = None ∧ outside key).

#[export] Instance same_within_proper outside :
  Proper (same_side ==> same_side ==> iff) (same_within outside).
Proof.
  intros s1 s2 Hs t1 t2 Ht. unfold same_within.
  split; intros H key; [rewrite <-(Hs key), <-(Ht key)|rewrite (Hs key), (Ht key)]; apply H.
Qed.

(** The view shows the best levels of [t], except that it may lack levels of
    [outside]. *)
Definition shows_up_to (outside : string → Prop) (descending : bool) (depth : Z) (t : side)
    (view : list BookLevel) : Prop :=
  ∃ s, same_within outside s t ∧ shows descending depth s view.

(** The view does not reach further than the list: the list is short of its
    limit, so that it is complete, or the view is full and each of its levels is
    at least as good as a level of the list. *)
Definition reaches_no_further (descending : bool) (limit depth : Z) (listed view : list BookLevel) : Prop :=
  Z.of_nat (length listed) < 0 `max` limit ∨
  (Z.of_nat (length view) = 0 `max` depth ∧
   ∀ b p, b ∈ view → Rat_SetString (Price b) = Some p →
     ∃ b' p', b' ∈ listed ∧ Rat_SetString (Price b') = Some p' ∧ ¬ price_lt descending p' p).

Lemma shows_up_to_shows descending limit depth listed t view :
  shows_up_to (beyond descending limit listed) descending depth t view →
  reaches_no_further descending limit depth listed view →
  shows descending depth t view.
Proof.
  intros (s & Hst & [Hlen Hord Hlev Hbest]) Hreach. split; [done|done| |].
  - intros b Hb. destruct (Hlev b Hb) as (p & q & ? & ? & ? & ? & Hs). exists p, q.
    split_and!; try done. destruct (Hst (RatString p)) as [<-|[? _]]; congruence.
  - intros key q Hq. destruct (Hst key) as [Hs|[_ [Hfull Hbeyond]]]; [apply (Hbest key q); congruence|].
    destruct Hreach as [?|[Hview Hreach]]; [lia|]. right. split; [done|].
    intros b p Hb Hp. destruct (Hreach b p Hb Hp) as (b' & p' & Hb' & Hp' & Hn).
    destruct (Hbeyond b' p' Hb' Hp') as (p'' & Hk & Hlt). exists p''. split; [done|].
    unfold price_lt in *. destruct descending; apply Qnot_lt_le in Hn;
      [by eapply Qlt_le_trans|by eapply Qle_lt_trans].
Qed.

Lemma update_sides_untouched us s key :
  (∀ u, u ∈ us → upd_key u ≠ key) → foldl update_side s us key = s key.
Proof.
  revert s. induction us as [|u us IH]; intros s Hus; [done|]. simpl.
  rewrite IH by (intros; apply Hus; by right). unfold update_side.
  rewrite decide_False; [done|]. intros ->. by apply (Hus u); [left|].
Qed.

Lemma update_sides_touched us u s t key :
  u ∈ us → upd_key u = key → foldl update_side s us key = foldl update_side t us key.
Proof.
  revert u s t. induction us as [|x us IH]; intros u s t Hu Hk; [by apply elem_of_nil in Hu|]. simpl.
  destruct (decide (Exists (λ u, upd_key u = key) us)) as [(u' & Hu' & Hk')%Exists_exists|Hno].
  { by eapply IH. }
  apply not_Exists_Forall in Hno; [|apply _]. rewrite Forall_forall in Hno.
  rewrite !update_sides_untouched by exact Hno.
  apply elem_of_cons in Hu as [<-|Hu]; [|by destruct (Hno u Hu)].
  unfold update_side. by rewrite !decide_True.
Qed.

(** Updates tell the truth of the levels they touch, and keep that of the
    others. *)
Lemma update_sides_within outside us s t t' :
  same_within outside s t → same_side (foldl update_side t us) t' →
  same_within outside (foldl update_side s us) t'.
Proof.
  intros Hs Ht key. rewrite <-(Ht key).
  destruct (decide (Exists (λ u, upd_key u = key) us)) as [(u & Hu & Hk)%Exists_exists|Hno].
  - left. by eapply update_sides_touched.
  - apply not_Exists_Forall in Hno; [|apply _]. rewrite Forall_forall in Hno.
    rewrite !update_sides_untouched by exact Hno. apply Hs.
Qed.

Lemma update_sides_value us s key v :
  (∀ u, u ∈ us → upd_key u = key → update_side s u key = v) →
  s key = v ∨ (∃ u, u ∈ us ∧ upd_key u = key) → foldl update_side s us key = v.
Proof.
  revert s. induction us as [|u us IH]; intros s Hus Hv; simpl.
  { destruct Hv as [?|(u & Hu & _)]; [done|by apply elem_of_nil in Hu]. }
  assert (∀ u', u' ∈ us → upd_key u' = key → update_side (update_side s u) u' key = v) as Hus'.
  { intros u' Hu' Hk. pose proof (Hus u' ltac:(by right) Hk) as Hu. revert Hu. unfold update_side.
    by destruct (decide (key = upd_key u')). }
  apply IH; [done|]. destruct (decide (upd_key u = key)) as [Hk|Hk].
  { left. apply Hus; [by left|done]. }
  destruct Hv as [Hv|(u' & [->|Hu']%elem_of_cons & Hk')]; [|done|eauto].
  left. unfold update_side. by rewrite decide_False.
Qed.

(** The side built from a list of the best levels. *)
Section listed.
Context {A E : Type} (parse : A → result E levelUpdate) (fields : BookLevel → A).
Context (parse_level : ∀ b u, parse (fields b) = Ok u →
  upd_key u = RatString (upd_price u) ∧ Rat_SetString (Price b) = Some (upd_price u) ∧
  upd_quantityText u = Quantity b).

Lemma listed_within descending limit t listed :
  shows descending limit t listed → Forall (parses parse) (fields <$> listed) →
  same_within (beyond descending limit listed)
    (foldl update_side (λ _, None) (updates_of parse (fields <$> listed))) t.
Proof.
  intros [_ _ Hlev Hbest] Hparse key.
  assert (∀ b, b ∈ listed → ∃ u, u ∈ updates_of parse (fields <$> listed) ∧
    Rat_SetString (Price b) = Some (upd_price u) ∧ upd_key u = RatString (upd_price u)) as Hin.
  { intros b Hb. rewrite Forall_forall in Hparse.
    destruct (Hparse (fields b)) as [u Hu]; [by apply list_elem_of_fmap_2|].
    destruct (parse_level b u Hu) as (Hk & Hp & _). exists u. split_and!; try done.
    apply list_elem_of_omap. exists (fields b). rewrite Hu. split; [by apply list_elem_of_fmap_2|done]. }
  assert (∀ u, u ∈ updates_of parse (fields <$> listed) → upd_key u = key →
    update_side (λ _, None) u key = t key) as Hval.
  { intros u (x & (b & -> & Hb)%list_elem_of_fmap & Hu)%list_elem_of_omap Hk.
    destruct (parse (fields b)) as [u'|] eqn:Hpb; [|done]. injection Hu as ->.
    destruct (parse_level b u Hpb) as (Hk' & Hp & Hq).
    destruct (Hlev b Hb) as (p & q & Hp' & _ & Hq' & Hpos & Ht).
    assert (p = upd_price u) as -> by congruence. rewrite <-Hk', Hk in Ht. rewrite Ht.
    unfold update_side. rewrite decide_True, Hq, Hq' by done.
    destruct (decimalIsZero (Quantity b)) eqn:Hz; [|done].
    apply Rat_SetString_Sign in Hq'. rewrite Hz in Hq'. unfold Rat_Sign in Hq'.
    unfold Qlt in Hpos. simpl in Hpos. rewrite Z.mul_1_r in Hpos. destruct (Qnum q); simpl in *; lia. }
  destruct (t key) as [q|] eqn:Ht.
  - destruct (Hbest key q Ht) as [(b & p & Hb & Hp & Hk)|Hbeyond].
    + left. apply update_sides_value; [done|]. right. destruct (Hin b Hb) as (u & Hu & Hp' & Hk').
      exists u. split; [done|]. congruence.
    + destruct (decide (Exists (λ u, upd_key u = key) (updates_of parse (fields <$> listed))))
        as [(u & Hu & Hk)%Exists_exists|Hno].
      * left. apply update_sides_value; eauto.
      * right. split; [|exact Hbeyond]. apply not_Exists_Forall in Hno; [|apply _].
        rewrite Forall_forall in Hno. by rewrite update_sides_untouched.
  - left. apply update_sides_value; [done|by left].
Qed.
End listed.
