(* ===== verification/DepthLoop.v ===== *)
(** * The depth synchronization loop: REST snapshots and diff events

    [exchange/binance/local_order_book.go] and
    [exchange/binance/usdm/local_order_book.go] run the same loop, [runInputs],
    over messages that differ: [DepthProtocol] is what the loop asks of them,
    how an event is validated, connected to a snapshot and applied.  The files
    BinanceBook and UsdmBook are its instances.

    [runInputs] is a state machine over the cases of its [select]: [step]
    consumes one of them and returns the new state of the loop, what the loop
    did, and the result when it returns.  The snapshot loader and the retry
    timer are the [fetching] and [retry] flags; a case that is not enabled in a
    state changes nothing.  The handler's verdict comes with the input. *)

From S2P Require Import Prelude GoStrings Errors.

Definition validationError (format : string) : error := Wrapf format (Sentinel ErrValidation).

(** [LocalOrderBook], without its REST client. *)
Record LocalOrderBook : Type := MkLocalOrderBook {
  symbol : string;
  routeID : string;
  maxBufferedEvents : Z;
  viewDepth : Z;
  snapshotTimeout : Z;
  snapshotRetryInterval : Z
}.

(** [LocalOrderBookConfig]; the REST client is only known to be there. *)
Record LocalOrderBookConfig : Type := MkConfig {
  conf_RESTClient : bool;
  conf_Symbol : string;
  conf_EgressRouteID : string;
  SnapshotLimit : Z;
  MaxBufferedEvents : Z;
  ViewDepth : Z;
  SnapshotTimeout : Z;
  SnapshotRetryInterval : Z
}.

Definition defaultDepthBufferSize : Z := 4096.
Definition defaultDepthViewSize : Z := 20.
Definition defaultSnapshotTimeout : Z := 10 * Second.
Definition defaultSnapshotRetry : Z := 250 * Millisecond.

(** [NewLocalOrderBook], given the exchange's checks of a symbol and of a
    snapshot limit, the limit it takes by default and the error of a missing
    client. *)
Definition newLocalOrderBook (missing_client : error) (validateSymbol : string → result error unit)
    (defaultLimit : Z) (validateLimit : Z → result error unit) (config : LocalOrderBookConfig)
    : result error LocalOrderBook :=
  require (conf_RESTClient config) missing_client;;
  validateSymbol (conf_Symbol config);;
  let symbol := ToUpper (conf_Symbol config) in
  let routeID := TrimSpace (conf_EgressRouteID config) in
  require (negb (bool_decide (routeID = ""))) (Sentinel ErrMissingEgressRoute);;
  let limit := if bool_decide (SnapshotLimit config = 0) then defaultLimit else SnapshotLimit config in
  validateLimit limit;;
  let buffer := if bool_decide (MaxBufferedEvents config = 0) then defaultDepthBufferSize
                else MaxBufferedEvents config in
  require (negb (bool_decide (buffer < 1)))
    (validationError "local order book event buffer size must be positive");;
  let depth := if bool_decide (ViewDepth config = 0)
               then if bool_decide (limit < defaultDepthViewSize) then limit else defaultDepthViewSize
               else ViewDepth config in
  require (negb (bool_decide (depth < 1) || bool_decide (limit < depth)))
    (validationError "local order book view depth must not exceed snapshot limit");;
  let timeout := if bool_decide (SnapshotTimeout config = 0) then defaultSnapshotTimeout
                 else SnapshotTimeout config in
  let retry := if bool_decide (SnapshotRetryInterval config = 0) then defaultSnapshotRetry
               else SnapshotRetryInterval config in
  require (negb (bool_decide (timeout < 0) || bool_decide (retry < 0)))
    (validationError "local order book snapshot durations must be positive");;
  Ok (MkLocalOrderBook symbol routeID buffer depth timeout retry).

(** What applying an event to a state reports besides errors. *)
Inductive application (State : Type) : Type := Stale | Gap | Applied (state : State).
Arguments Stale {State}.
Arguments Gap {State}.
Arguments Applied {State} state.

(** The parts of the loop that depend on the messages of the exchange. *)
Class DepthProtocol (Event Snapshot State View : Type) : Type := {
  (** The checks of [validateInput] after the one of the generation. *)
  validateDepth : string → Event → result error unit;
  validateSnapshot : Snapshot → result error unit;
  (** The snapshot already contains a leading event of the buffer. *)
  covered : Snapshot → Event → bool;
  (** The first event left in the buffer reaches back to the snapshot. *)
  connects : Snapshot → Event → result error bool;
  (** The state to replay the buffer on, and whether it has its first event. *)
  candidateState : Snapshot → Event → result error State;
  candidate_has_first : bool;
  applyEvent : State → Event → result error (application State);
  viewOf : State → string → Z → Z → Z → Z → View
}.

Section loop.
Context {Event Snapshot State View : Type} `{P : !DepthProtocol Event Snapshot State View}.

Record depthInput : Type := MkDepthInput { input_generation : Z; event : Event }.

(** The variables of [runInputs]; [retry] tells whether the retry timer is set. *)
Record loop : Type := MkLoop {
  buffer : list depthInput;
  currentGeneration : Z;
  state : option State;
  pendingSnapshot : option Snapshot;
  synchronizationID : Z;
  gapCount : Z;
  fetching : bool;
  retry : bool
}.

Definition initial : loop := MkLoop [] 0 None None 0 0 false false.

Inductive effect : Type := Fetch | Published (v : View).

(** The cases of the [select]. *)
Inductive input : Type :=
  | CtxDone (err : error)
  | StreamDone (err : option error)
  | RetryTimer
  | SnapshotResult (r : result error Snapshot) (handler : option error)
  | Depth (i : depthInput) (handler : option error).

Definition startSnapshot (l : loop) : loop * list effect :=
  if fetching l then (l, [])
  else (MkLoop (buffer l) (currentGeneration l) (state l) (pendingSnapshot l)
          (synchronizationID l) (gapCount l) true false, [Fetch]).

Definition set_buffer (l : loop) (b : list depthInput) : loop :=
  MkLoop b (currentGeneration l) (state l) (pendingSnapshot l)
    (synchronizationID l) (gapCount l) (fetching l) (retry l).

(** The pending snapshot is dropped and a retry armed. *)
Definition abandonSnapshot (l : loop) (b : list depthInput) (gaps : Z) : loop :=
  MkLoop b (currentGeneration l) (state l) None (synchronizationID l) gaps (fetching l) true.

(** The leading events that the snapshot already contains. *)
Fixpoint dropCovered (snapshot : Snapshot) (buffer : list depthInput) : list depthInput :=
  match buffer with
  | [] => []
  | i :: rest => if covered snapshot (event i) then dropCovered snapshot rest else buffer
  end.

(** The replay loop of [trySynchronize]: the state reached, or the events from
    the first gap on. *)
Fixpoint replay (candidate : State) (buffer : list depthInput) : result error (State + list depthInput) :=
  match buffer with
  | [] => Ok (inl candidate)
  | i :: rest =>
      match applyEvent candidate (event i) with
      | Err err => Err err
      | Ok Gap => Ok (inr buffer)
      | Ok Stale => replay candidate rest
      | Ok (Applied candidate) => replay candidate rest
      end
  end.

(** [trySynchronize]: whether the state was synchronized. *)
Definition trySynchronize (l : loop) : result error (loop * bool) :=
  match pendingSnapshot l with
  | None => Ok (l, false)
  | Some snapshot =>
      match buffer l with
      | [] => Ok (l, false)
      | _ =>
        match dropCovered snapshot (buffer l) with
        | [] => Ok (set_buffer l [], false)
        | (first :: rest) as b =>
            connected ← connects snapshot (event first);
            if negb connected then Ok (abandonSnapshot l b (gapCount l), false)
            else
              candidate ← candidateState snapshot (event first);
              replayed ← replay candidate (if candidate_has_first then rest else b);
              match replayed with
              | inr rest => Ok (abandonSnapshot l rest (uint64 (gapCount l + 1)), false)
              | inl candidate =>
                  Ok (MkLoop [] (currentGeneration l) (Some candidate) None
                        (uint64 (synchronizationID l + 1)) (gapCount l) (fetching l) (retry l), true)
              end
        end
      end
  end.

Section book.
Context (book : LocalOrderBook).

Definition publish (l : loop) : list effect :=
  match state l with
  | None => []
  | Some s => [Published (viewOf s (symbol book) (currentGeneration l) (synchronizationID l)
                            (gapCount l) (viewDepth book))]
  end.

(** [LocalOrderBook.validateInput]. *)
Definition validateInput (i : depthInput) : result error unit :=
  if bool_decide (input_generation i = 0)
  then Err (validationError "local order book WebSocket generation is zero")
  else validateDepth (symbol book) (event i).

(** A turn of the loop: the next state and what it did, or what it did and
    the error that the loop returns. *)
Abbreviation turn := (result (list effect * error) (loop * list effect)).

Definition try {A} (r : result error A) (k : A → turn) : turn :=
  match r with Ok a => k a | Err err => Err ([], err) end.

(** The handler is called with the published view. *)
Definition publishing (l : loop) (handler : option error) : turn :=
  match handler with Some err => Err (publish l, err) | None => Ok (l, publish l) end.

(** The tail of the snapshot and input cases: synchronize, publish. *)
Definition synchronizeAndPublish (l : loop) (handler : option error) : turn :=
  try (trySynchronize l) (λ '(l, synchronized),
    if synchronized : bool then publishing l handler else Ok (l, [])).

(** The state reset of a new connection generation. *)
Definition enterGeneration (l : loop) (generation : Z) : loop :=
  if bool_decide (currentGeneration l = 0) || bool_decide (currentGeneration l < generation)
  then MkLoop [] generation None None (synchronizationID l) (gapCount l) (fetching l) (retry l)
  else l.

Definition setState (l : loop) (s : option State) : loop :=
  MkLoop (buffer l) (currentGeneration l) s (pendingSnapshot l)
    (synchronizationID l) (gapCount l) (fetching l) (retry l).

(** The input case of the loop, after the generation checks. *)
Definition handleDepth (l : loop) (i : depthInput) (handler : option error) : turn :=
  match state l with
  | Some s =>
      try (applyEvent s (event i)) (λ application,
        match application with
        | Stale => Ok (l, [])
        | Gap =>
            Ok (startSnapshot (MkLoop [i] (currentGeneration l) None None (synchronizationID l)
                  (uint64 (gapCount l + 1)) (fetching l) (retry l)))
        | Applied s => publishing (setState l (Some s)) handler
        end)
  | None =>
      let l := set_buffer l (buffer l ++ [i]) in
      if bool_decide (maxBufferedEvents book < Z.of_nat (length (buffer l)))
      then Err ([], Sentinel ErrDepthBufferOverflow)
      else
        r ← (match pendingSnapshot l with
             | Some _ => synchronizeAndPublish l handler
             | None => Ok (l, [])
             end);
        let '(l, published) := r in
        if bool_decide (state l = None) && bool_decide (pendingSnapshot l = None) &&
           negb (fetching l) && negb (retry l)
        then let '(l, fetch) := startSnapshot l in Ok (l, published ++ fetch)
        else Ok (l, published)
  end.

Definition set_fetching (l : loop) (f r : bool) : loop :=
  MkLoop (buffer l) (currentGeneration l) (state l) (pendingSnapshot l)
    (synchronizationID l) (gapCount l) f r.

(** One turn of the loop. *)
Definition step (l : loop) (i : input) : result (list effect * option error) (loop * list effect) :=
  let continue (r : turn) := match r with Ok r => Ok r | Err (es, err) => Err (es, Some err) end in
  match i with
  | CtxDone err => Err ([], Some err)
  | StreamDone err => Err ([], err)
  | RetryTimer =>
      if retry l then Ok (startSnapshot (set_fetching l (fetching l) false)) else Ok (l, [])
  | SnapshotResult r handler =>
      if fetching l then
        match r with
        | Err _ => Ok (set_fetching l false true, [])
        | Ok snapshot =>
            continue (try (validateSnapshot snapshot) (λ _,
              synchronizeAndPublish
                (MkLoop (buffer l) (currentGeneration l) (state l) (Some snapshot)
                   (synchronizationID l) (gapCount l) false (retry l)) handler))
        end
      else Ok (l, [])
  | Depth i handler =>
      continue (try (validateInput i) (λ _,
        if bool_decide (input_generation i < currentGeneration l) then Ok (l, [])
        else handleDepth (enterGeneration l (input_generation i)) i handler))
  end.

(** [runInputs] over the cases that its select takes: its state while it
    runs, everything it did, and its result once it has returned, nil as
    [None]. *)
Fixpoint runInputs (l : loop) (inputs : list input) : loop * list effect * option (option error) :=
  match inputs with
  | [] => (l, [], None)
  | i :: inputs =>
      match step l i with
      | Err (effects, err) => (l, effects, Some err)
      | Ok (l, effects) =>
          let '(l, effects', r) := runInputs l inputs in (l, effects ++ effects', r)
      end
  end.

(** ** [Run] *)

(** A message of the market stream: whether it is a response and then whether
    the response carries an error, its type, and its decoded event. *)
Record MarketStreamMessage : Type := MkMarketMessage {
  Response : option bool;
  m_EventType : string;
  m_Event : result error Event
}.

(** The function that [Run] gives to the stream: what it sends to the loop.
    [full] tells whether the channel is full, [cancelled] the error of a context
    that is done; when the channel has room and the context is done, Go's
    select may take either case, and [send_first] is its choice. *)
Definition onMessage (name : string) (generation : Z) (full : bool) (cancelled : option error)
    (send_first : bool) (message : MarketStreamMessage) : result error (option depthInput) :=
  match Response message with
  | Some true => Err (Errorf (name +:+ " depth subscription failed with code %d: %s"))
  | Some false => Ok None
  | None =>
      if negb (bool_decide (m_EventType message = "depthUpdate")) then Ok None
      else
        event ← m_Event message;
        match full, cancelled with
        | true, None => Err (Sentinel ErrDepthBufferOverflow)
        | true, Some err => Err err
        | false, Some err => if send_first then Ok (Some (MkDepthInput generation event)) else Err err
        | false, None => Ok (Some (MkDepthInput generation event))
        end
  end.

(** The market stream, as far as [Run] checks it. *)
Record MarketStream : Type := MkMarketStream {
  market_routeID : string;
  hasDiffDepthStream : string → bool
}.

(** [Run]: the result once it has returned, and what it did. *)
Definition Run (name : string) (ctx : bool) (market : option MarketStream) (handler : bool)
    (inputs : list input) : list effect * option (option error) :=
  match (
    require ctx (Errorf (name +:+ " local order book context is nil"));;
    market ← (match market with
              | Some market => Ok market
              | None => Err (Errorf (name +:+ " local order book market stream is required"))
              end);
    require handler (Errorf (name +:+ " local order book handler is required"));;
    require (bool_decide (market_routeID market = routeID book))
      (validationError "local order book REST and WebSocket routes must match");;
    require (hasDiffDepthStream market (symbol book))
      (validationError "market stream does not contain the required diff depth subscription"))
  with
  | Err err => ([], Some (Some err))
  | Ok _ => let '(_, es, r) := runInputs initial inputs in (es, r)
  end.

(** ** The loop never loses its way *)

(** What holds between two turns, whatever the exchange sends. *)
Record loop_ok (max : Z) (l : loop) : Prop := {
  lo_synchronized : is_Some (state l) →
    buffer l = [] ∧ pendingSnapshot l = None ∧ fetching l = false ∧ retry l = false;
  lo_pending : is_Some (pendingSnapshot l) → buffer l = [] ∧ fetching l = false ∧ retry l = false;
  lo_exclusive : fetching l = true → retry l = false;
  lo_progress : state l = None → buffer l ≠ [] → fetching l = true ∨ retry l = true;
  lo_generation : Forall (λ i, input_generation i = currentGeneration l) (buffer l);
  lo_bound : Z.of_nat (length (buffer l)) ≤ 0 `max` max
}.

Lemma loop_initial_ok max : loop_ok max initial.
Proof. split; simpl; try done; try lia; by intros []. Qed.

Lemma startSnapshot_ok max l :
  loop_ok max l → state l = None → pendingSnapshot l = None → loop_ok max (startSnapshot l).1.
Proof.
  intros Hok Hs Hp. unfold startSnapshot. destruct (fetching l) eqn:Hf; [done|]. destruct Hok.
  split; simpl; rewrite ?Hs, ?Hp; try done; try (by intros []); auto.
Qed.

Lemma dropCovered_suffix snapshot b : ∃ k, b = k ++ dropCovered snapshot b.
Proof.
  induction b as [|i b [k IH]]; [by exists []|]. simpl. destruct (covered _ _); [|by exists []].
  exists (i :: k). simpl. by rewrite <-IH.
Qed.

Lemma replay_suffix c b rest : replay c b = Ok (inr rest) → ∃ k, b = k ++ rest.
Proof.
  revert c. induction b as [|i b IH]; intros c; simpl; [done|].
  destruct (applyEvent c (event i)) as [[| |c1]|]; [..|done].
  - intros H. destruct (IH _ H) as [k ->]. by exists (i :: k).
  - intros [= <-]. by exists [].
  - intros H. destruct (IH _ H) as [k ->]. by exists (i :: k).
Qed.

Local Abbreviation max := (maxBufferedEvents book).

Lemma sub_buffer gen m (k b : list depthInput) :
  Forall (λ i, input_generation i = gen) (k ++ b) → Z.of_nat (length (k ++ b)) ≤ m →
  Forall (λ i, input_generation i = gen) b ∧ Z.of_nat (length b) ≤ m.
Proof. rewrite Forall_app, length_app. intros [_ ?] ?. split; [done|lia]. Qed.

(** Synchronization from a pending snapshot: into a state, or a retry, or
    waiting for events after the snapshot. *)
Lemma trySynchronize_ok l l' synchronized :
  state l = None → is_Some (pendingSnapshot l) → fetching l = false → retry l = false →
  Forall (λ i, input_generation i = currentGeneration l) (buffer l) →
  Z.of_nat (length (buffer l)) ≤ 0 `max` max →
  trySynchronize l = Ok (l', synchronized) →
  loop_ok max l' ∧ (synchronized = true ↔ is_Some (state l')).
Proof.
  intros Hs [p Hp] Hf Hr Hg Hb Htry. unfold trySynchronize in Htry. rewrite Hp in Htry.
  destruct (buffer l) as [|i0 b0] eqn:Hbuf.
  { injection Htry as <- <-. split; [|rewrite Hs; split; [done|by intros []]].
    split; rewrite ?Hs, ?Hp, ?Hf, ?Hr, ?Hbuf; try done; by intros []. }
  rewrite <-Hbuf in Hg, Hb, Htry. clear Hbuf.
  destruct (dropCovered_suffix p (buffer l)) as [k Hk].
  rewrite Hk in Hg, Hb. pose proof (sub_buffer _ _ _ _ Hg Hb) as [Hg1 Hb1].
  destruct (dropCovered p (buffer l)) as [|first rest] eqn:Hdrop.
  { injection Htry as <- <-. simpl. rewrite Hs. split; [|split; [done|by intros []]].
    split; simpl; rewrite ?Hs, ?Hp, ?Hf, ?Hr; try done; try lia; by intros []. }
  assert (∀ b gaps, Forall (λ i, input_generation i = currentGeneration l) b →
    Z.of_nat (length b) ≤ 0 `max` max → loop_ok max (abandonSnapshot l b gaps)) as Hab.
  { intros b gaps Hgb Hbb. split; simpl; rewrite ?Hs, ?Hf; try done; auto; by intros []. }
  apply result_bind_Ok in Htry as (connected & _ & Htry). destruct connected; cbn [negb] in Htry.
  2: { injection Htry as <- <-. split; [by apply Hab|]. simpl. rewrite Hs. split; [done|by intros []]. }
  apply result_bind_Ok in Htry as (c & _ & Htry). apply result_bind_Ok in Htry as (r & Hrep & Htry).
  destruct r as [c'|rest']; injection Htry as <- <-.
  - split; [|split; eauto]. split; simpl; rewrite ?Hf, ?Hr; try done; try lia.
  - assert (∃ k', first :: rest = k' ++ rest') as [k' Hk'].
    { destruct candidate_has_first; apply replay_suffix in Hrep as [k' Hk']; [|eauto].
      exists (first :: k'). by rewrite Hk'. }
    rewrite Hk' in Hg1, Hb1. pose proof (sub_buffer _ _ _ _ Hg1 Hb1) as [Hg2 Hb2].
    split; [by apply Hab|]. simpl. rewrite Hs. split; [done|by intros []].
Qed.

Lemma synchronizeAndPublish_ok l l' es handler :
  state l = None → is_Some (pendingSnapshot l) → fetching l = false → retry l = false →
  Forall (λ i, input_generation i = currentGeneration l) (buffer l) →
  Z.of_nat (length (buffer l)) ≤ 0 `max` max →
  synchronizeAndPublish l handler = Ok (l', es) → loop_ok max l'.
Proof.
  intros Hs Hp Hf Hr Hg Hb H. unfold synchronizeAndPublish, try in H.
  destruct (trySynchronize l) as [[l1 s]|] eqn:Htry; [|done].
  destruct (trySynchronize_ok _ _ _ Hs Hp Hf Hr Hg Hb Htry) as [Hok _].
  unfold publishing in H. destruct s, handler; simplify_eq; done.
Qed.

Lemma enterGeneration_ok l gen :
  loop_ok max l → currentGeneration l ≤ gen →
  loop_ok max (enterGeneration l gen) ∧
  (currentGeneration (enterGeneration l gen) = gen).
Proof.
  intros Hok Hgen. unfold enterGeneration. destruct (bool_decide _ || bool_decide _) eqn:Hg.
  - split; [|done]. destruct Hok. split; simpl; try done; try lia; by intros [].
  - split; [done|]. go_bool. lia.
Qed.

Lemma handleDepth_ok l i handler l' es :
  loop_ok max l → input_generation i = currentGeneration l → 1 ≤ max →
  handleDepth l i handler = Ok (l', es) → loop_ok max l'.
Proof.
  intros Hok Hgen Hmax H. unfold handleDepth in H. destruct (state l) as [s|] eqn:Hs.
  - destruct (lo_synchronized _ _ Hok) as (Hb & Hp & Hf & Hr); [by rewrite Hs|].
    unfold try, publishing in H. destruct (applyEvent s (event i)) as [[| |s']|]; [..|done].
    + by simplify_eq.
    + unfold startSnapshot in H. simpl in H. rewrite Hf in H. simplify_eq.
      split; simpl; try done; try (by intros []); try lia; auto.
    + destruct handler; [done|]. simplify_eq.
      split; simpl; rewrite ?Hb, ?Hp, ?Hf, ?Hr; simpl; try done; try lia.
  - cbv zeta in H. cbn [set_buffer buffer] in H.
    case_bool_decide as Hlen; [done|].
    assert (Forall (λ i, input_generation i = currentGeneration l) (buffer l ++ [i])) as Hg.
    { apply Forall_app. split; [apply Hok|by constructor]. }
    apply result_bind_Ok in H as ([l1 published] & H1 & H).
    assert (loop_ok max l1 ∨ (l1 = set_buffer l (buffer l ++ [i]) ∧ pendingSnapshot l = None)) as Hl1.
    { cbn [pendingSnapshot set_buffer] in H1. destruct (pendingSnapshot l) as [p|] eqn:Hp.
      - left. destruct (lo_pending _ _ Hok) as (_ & Hf & Hr); [by rewrite Hp|].
        eapply (synchronizeAndPublish_ok (set_buffer l (buffer l ++ [i]))); simpl; eauto; lia.
      - right. by simplify_eq. }
    destruct Hl1 as [Hl1|[-> Hp]].
    + destruct (_ && _ && _ && _) eqn:Hc; [|by simplify_eq]. go_bool.
      destruct (startSnapshot l1) as [l2 fetch] eqn:E. simplify_eq.
      replace l' with (startSnapshot l1).1 by by rewrite E.
      apply startSnapshot_ok; [done|tauto..].
    + simpl in H. rewrite (bool_decide_eq_true_2 (state l = None)) in H by done.
      rewrite (bool_decide_eq_true_2 (pendingSnapshot l = None)) in H by done. simpl in H.
      unfold startSnapshot in H. simpl in H.
      destruct (fetching l) eqn:Hf, (retry l) eqn:Hr; simpl in H; simplify_eq.
      all: split; simpl; rewrite ?Hs, ?Hp, ?Hf, ?Hr; try done; try (by intros []); try lia; auto.
      pose proof (lo_exclusive _ _ Hok Hf). congruence.
Qed.

Lemma step_ok l i l' es :
  loop_ok max l → 1 ≤ max → step l i = Ok (l', es) → loop_ok max l'.
Proof.
  intros Hok Hmax H. unfold step in H. destruct i as [err|err| |r handler|i handler]; [done|done|..].
  - destruct (retry l) eqn:Hr; [|by simplify_eq].
    assert (state l = None) as Hs.
    { destruct (state l) eqn:E; [|done]. destruct (lo_synchronized _ _ Hok) as (_&_&_&?);
        [by rewrite E|]. congruence. }
    assert (pendingSnapshot l = None) as Hp.
    { destruct (pendingSnapshot l) eqn:E; [|done]. destruct (lo_pending _ _ Hok) as (_&_&?);
        [by rewrite E|]. congruence. }
    assert (fetching l = false) as Hf.
    { destruct (fetching l) eqn:E; [|done]. pose proof (lo_exclusive _ _ Hok E). congruence. }
    unfold startSnapshot in H. simpl in H. rewrite Hf in H. simplify_eq.
    destruct Hok. split; simpl; rewrite ?Hs, ?Hp; try done; try (by intros []); auto.
  - destruct (fetching l) eqn:Hf; [|by simplify_eq].
    assert (state l = None) as Hs.
    { destruct (state l) eqn:E; [|done]. destruct (lo_synchronized _ _ Hok) as (_&_&?&_);
        [by rewrite E|]. congruence. }
    assert (pendingSnapshot l = None) as Hp.
    { destruct (pendingSnapshot l) eqn:E; [|done]. destruct (lo_pending _ _ Hok) as (_&?&_);
        [by rewrite E|]. congruence. }
    destruct r as [snapshot|err].
    + unfold try in H. destruct (validateSnapshot snapshot); [|done].
      destruct (synchronizeAndPublish _ handler) as [[l1 es1]|[]] eqn:E; [|done]. simplify_eq.
      eapply synchronizeAndPublish_ok; [..|exact E]; simpl;
        [exact Hs|eauto|done|exact (lo_exclusive _ _ Hok Hf)
        |apply (lo_generation _ _ Hok)|apply (lo_bound _ _ Hok)].
    + simplify_eq. destruct Hok.
      split; simpl; rewrite ?Hs, ?Hp; try done; try (by intros []); auto.
  - unfold try in H. destruct (validateInput i); [|done]. case_bool_decide as Hg; [by simplify_eq|].
    destruct (enterGeneration_ok l (input_generation i) Hok) as [Hok' Hgen]; [lia|].
    destruct (handleDepth _ i handler) as [[l1 es1]|[]] eqn:E; [|done]. simplify_eq.
    eapply handleDepth_ok; [exact Hok'|by rewrite Hgen|done|exact E].
Qed.

(** ** Published views are true *)

(** What the messages of an exchange must guarantee for its views to be true:
    a predicate on states and views that snapshots establish and events keep. *)
Section published.
Context (event_true : Event → Prop) (snapshot_true : Snapshot → Prop).
Context (state_true : State → Prop) (view_true : View → Prop).

Definition buffered_true (i : depthInput) : Prop :=
  (∃ u, validateDepth (symbol book) (event i) = Ok u) ∧ event_true (event i).

Definition pending_true (p : Snapshot) : Prop := (∃ u, validateSnapshot p = Ok u) ∧ snapshot_true p.

Context (apply_true : ∀ s i s', state_true s → buffered_true i →
  applyEvent s (event i) = Ok (Applied s') → state_true s').
Context (candidate_true : ∀ p i s, pending_true p → buffered_true i → covered p (event i) = false →
  connects p (event i) = Ok true → candidateState p (event i) = Ok s → state_true s).
Context (view_state_true : ∀ s g sync gaps, state_true s →
  view_true (viewOf s (symbol book) g sync gaps (viewDepth book))).

Definition effect_true (e : effect) : Prop :=
  match e with Published v => view_true v | Fetch => True end.

Record loop_true (l : loop) : Prop := {
  lt_state : ∀ s, state l = Some s → state_true s;
  lt_pending : ∀ p, pendingSnapshot l = Some p → pending_true p;
  lt_buffer : Forall buffered_true (buffer l)
}.

(** Inputs that say the truth. *)
Definition input_true (i : input) : Prop :=
  match i with
  | SnapshotResult (Ok p) _ => snapshot_true p
  | Depth i _ => event_true (event i)
  | _ => True
  end.

(** What a turn may do. *)
Definition turn_true {E} (r : result (list effect * E) (loop * list effect)) : Prop :=
  match r with
  | Ok (l, es) => loop_true l ∧ Forall effect_true es
  | Err (es, _) => Forall effect_true es
  end.

Lemma publish_true l : loop_true l → Forall effect_true (publish l).
Proof.
  intros [Hs _ _]. unfold publish. destruct (state l) as [s|]; [|done].
  constructor; [|done]. by apply view_state_true, Hs.
Qed.

Lemma publishing_true l handler : loop_true l → turn_true (publishing l handler).
Proof. intros Hl. unfold publishing. destruct handler; simpl; auto using publish_true. Qed.

Lemma startSnapshot_true l : loop_true l → turn_true (E:=error) (Ok (startSnapshot l)).
Proof.
  intros Hl. unfold startSnapshot. destruct (fetching l); simpl; [done|].
  destruct Hl. split; [by split|by repeat constructor].
Qed.

Lemma replay_true c b c' :
  state_true c → Forall buffered_true b → replay c b = Ok (inl c') → state_true c'.
Proof.
  intros Hc Hb. revert c Hc. induction Hb as [|i b Hi _ IH]; intros c Hc; simpl; [naive_solver|].
  destruct (applyEvent c (event i)) as [[| |c1]|] eqn:H; [..|done]; [by apply IH|done|].
  apply IH. by eapply apply_true.
Qed.

Lemma dropCovered_head p b i rest : dropCovered p b = i :: rest → covered p (event i) = false.
Proof.
  induction b as [|i0 b IH]; simpl; [done|]. destruct (covered p (event i0)) eqn:Hc; [done|].
  by intros [= <- <-].
Qed.

Lemma dropCovered_true id b : Forall buffered_true b → Forall buffered_true (dropCovered id b).
Proof.
  intros Hb. destruct (dropCovered_suffix id b) as [k Hk]. rewrite Hk in Hb.
  by apply Forall_app in Hb as [_ ?].
Qed.

Lemma trySynchronize_true l l' s :
  loop_true l → trySynchronize l = Ok (l', s) → loop_true l'.
Proof.
  intros Hl Htry. pose proof Hl as [Hs Hp Hb]. unfold trySynchronize in Htry.
  destruct (pendingSnapshot l) as [p|] eqn:Hpend; [|by simplify_eq].
  destruct (buffer l) as [|i0 b0] eqn:Hbuf; [by simplify_eq|]. rewrite <-Hbuf in Hb, Htry. clear Hbuf.
  pose proof (dropCovered_true p _ Hb) as Hd.
  destruct (dropCovered p (buffer l)) as [|first rest] eqn:Hdrop.
  { simplify_eq. split; simpl; [done|by rewrite Hpend|done]. }
  apply dropCovered_head in Hdrop.
  apply result_bind_Ok in Htry as (connected & Hconn & Htry).
  destruct connected; cbn [negb] in Htry; [|simplify_eq; by split].
  apply result_bind_Ok in Htry as (c & Hc & Htry). apply result_bind_Ok in Htry as (r & Hrep & Htry).
  apply Forall_cons in Hd as [Hfirst Hrest].
  assert (state_true c) as Hct by (by eapply candidate_true; [apply Hp|..]).
  assert (Forall buffered_true (if candidate_has_first then rest else first :: rest)) as Hd
    by (destruct candidate_has_first; [done|by constructor]).
  destruct r as [c'|rest']; simplify_eq.
  - split; simpl; [|done|done]. intros ? [= <-]. by eapply replay_true.
  - apply replay_suffix in Hrep as [k Hk]. rewrite Hk in Hd. apply Forall_app in Hd as [_ Hd].
    by split.
Qed.

Lemma synchronizeAndPublish_true l handler :
  loop_true l → turn_true (synchronizeAndPublish l handler).
Proof.
  intros Hl. unfold synchronizeAndPublish, try.
  destruct (trySynchronize l) as [[l' s]|] eqn:Htry; [|simpl; done].
  pose proof (trySynchronize_true _ _ _ Hl Htry) as Hl'.
  destruct s; [by apply publishing_true|by simpl].
Qed.

Lemma validateInput_valid i u : validateInput i = Ok u → ∃ u, validateDepth (symbol book) (event i) = Ok u.
Proof. unfold validateInput. case_bool_decide; [done|]. eauto. Qed.

Lemma handleDepth_true l i handler :
  loop_true l → buffered_true i → turn_true (handleDepth l i handler).
Proof.
  intros Hl Hi. pose proof Hl as [Hs Hp Hb]. unfold handleDepth.
  destruct (state l) as [s|] eqn:Hst.
  - unfold try. destruct (applyEvent s (event i)) as [[| |s']|] eqn:H; [..|by constructor].
    + by simpl.
    + apply startSnapshot_true. split; simpl; [done|done|by constructor].
    + apply publishing_true. split; simpl; [|done|done]. intros ? [= <-].
      exact (apply_true s i s' (Hs s eq_refl) Hi H).
  - cbv zeta. case_bool_decide; [by simpl|].
    assert (loop_true (set_buffer l (buffer l ++ [i]))) as Hl1.
    { split; simpl; [by rewrite Hst|done|]. apply Forall_app. split; [done|by constructor]. }
    match goal with |- turn_true (?r ≫= _) => assert (turn_true r) as Hr end.
    { destruct (pendingSnapshot _); [by apply synchronizeAndPublish_true|by simpl]. }
    match goal with |- turn_true (?r ≫= _) => destruct r as [[l2 es]|[es err]] end; [|done].
    cbn [mbind result_bind]. destruct Hr as [Hl2 Hes].
    destruct (_ && _ && _ && _); [|by simpl].
    pose proof (startSnapshot_true l2 Hl2) as H2. destruct (startSnapshot l2) as [l3 es3].
    simpl in *. split; [apply H2|]. apply Forall_app. split; [done|apply H2].
Qed.

Lemma step_true l i : loop_true l → input_true i → turn_true (step l i).
Proof.
  intros Hl Hi. pose proof Hl as [Hs Hp Hb].
  destruct i as [err|err| |r handler|i handler]; simpl in *; [done|done|..].
  - destruct (retry l); [|by simpl]. apply startSnapshot_true. by split.
  - destruct (fetching l); [|by simpl]. destruct r as [p|err].
    + unfold try. destruct (validateSnapshot p) as [u|] eqn:Hv; [|by simpl].
      match goal with |- context [synchronizeAndPublish ?l1 handler] =>
        assert (loop_true l1) as Hl1 end.
      { split; simpl; [done| |done]. intros ? [= <-].
        split; [by exists u|done]. }
      pose proof (synchronizeAndPublish_true _ handler Hl1) as H.
      by destruct (synchronizeAndPublish _ _) as [[]|[]].
    + split; [split; [exact Hs|exact Hp|exact Hb]|constructor].
  - unfold try. destruct (validateInput i) as [u|] eqn:Hv; [|by simpl].
    case_bool_decide; [by simpl|].
    assert (loop_true (enterGeneration l (input_generation i))) as Hl1.
    { unfold enterGeneration. destruct (_ || _); [by split|done]. }
    pose proof (handleDepth_true _ i handler Hl1 (conj (validateInput_valid _ _ Hv) Hi)) as Htt.
    by destruct (handleDepth _ _ _) as [[]|[]].
Qed.

Lemma runInputs_true inputs l :
  loop_true l → Forall input_true inputs → Forall effect_true (runInputs l inputs).1.2.
Proof.
  intros Hl Hin. revert l Hl. induction Hin as [|i inputs Hi _ IH]; intros l Hl; [constructor|].
  cbn [runInputs]. pose proof (step_true l i Hl Hi) as Hstep.
  destruct (step l i) as [[l' es]|[es err]]; [|done].
  destruct Hstep as [Hl' Hes]. specialize (IH l' Hl').
  destruct (runInputs l' inputs) as [[l2 es2] r]. simpl in *. by apply Forall_app.
Qed.

Lemma published_true inputs v :
  Forall input_true inputs → Published v ∈ (runInputs initial inputs).1.2 → view_true v.
Proof.
  intros Hin Hv. pose proof (runInputs_true inputs initial ltac:(by split) Hin) as H.
  rewrite Forall_forall in H. exact (H _ Hv).
Qed.
End published.

(** The snapshots that the loader delivered. *)
Definition snapshots_of (inputs : list input) : list Snapshot :=
  omap (λ i, match i with SnapshotResult (Ok p) _ => Some p | _ => None end) inputs.

Lemma inputs_true_of (event_true : Event → Prop) (snapshot_true : Snapshot → Prop) inputs :
  Forall (input_true event_true snapshot_true) inputs →
  Forall (input_true event_true (λ p, snapshot_true p ∧ p ∈ snapshots_of inputs)) inputs.
Proof.
  rewrite !Forall_forall. intros H i Hi. specialize (H i Hi).
  destruct i as [| | |[p|] h|]; try done. split; [done|].
  apply list_elem_of_omap. by exists (SnapshotResult (Ok p) h).
Qed.

Lemma runInputs_ok inputs l :
  loop_ok max l → 1 ≤ max → (runInputs l inputs).2 = None → loop_ok max (runInputs l inputs).1.1.
Proof.
  intros Hl Hmax. revert l Hl. induction inputs as [|i inputs IH]; intros l Hl; [done|]. cbn [runInputs].
  destruct (step l i) as [[l' es]|[es err]] eqn:Hstep; [|done].
  pose proof (step_ok l i l' es Hl Hmax Hstep) as Hl'. specialize (IH l' Hl').
  destruct (runInputs l' inputs) as [[l2 es2] r]. simpl in *. done.
Qed.
End book.
End loop.
