(* ===== verification/BinanceBook.v ===== *)
(** * The Binance Spot local order book: [exchange/binance/local_order_book.go]

    The instance of [DepthLoop.DepthProtocol] for Spot: update IDs count every
    change, so that an event continues a book when its first update ID is at
    most the next one. *)

From S2P Require Import Prelude GoStrings Decimals Errors PriceLevels DepthLoop.

Record OrderBook : Type := MkOrderBook {
  LastUpdateID : Z;
  Bids : list BookLevel;
  Asks : list BookLevel
}.

Record DepthEvent : Type := MkDepthEvent {
  EventType : string;
  EventTime : Z;
  Symbol : string;
  FirstUpdateID : Z;
  FinalUpdateID : Z;
  ev_Bids : list (list string);
  ev_Asks : list (list string)
}.

Record localDepthState : Type := MkLocalDepthState {
  bids : Levels;
  asks : Levels;
  lastUpdateID : Z;
  eventTime : Z
}.

Record LocalOrderBookView : Type := MkView {
  view_Symbol : string;
  view_Generation : Z;
  view_SynchronizationID : Z;
  view_GapCount : Z;
  view_LastUpdateID : Z;
  view_EventTime : Z;
  view_Bids : list BookLevel;
  view_Asks : list BookLevel
}.

(** ** Configuration *)

Definition defaultDepthSnapshotLimit : Z := 5000.

Definition validateSymbol (symbol : string) : result error unit :=
  require (negb (bool_decide (TrimSpace symbol = "") || negb (bool_decide (TrimSpace symbol = symbol))))
    (validationError "symbol is required and cannot have surrounding whitespace").

Definition validateSnapshotLimit (limit : Z) : result error unit :=
  require (negb (bool_decide (limit < 1) || bool_decide (5000 < limit)))
    (validationError "local order book snapshot limit must be between 1 and 5000").

Definition NewLocalOrderBook : LocalOrderBookConfig → result error LocalOrderBook :=
  newLocalOrderBook (Errorf "Binance local order book REST client is required") validateSymbol
    defaultDepthSnapshotLimit validateSnapshotLimit.

(** [MarketStream.hasDiffDepthStream], over the names of its streams. *)
Definition hasDiffDepthStream (streams : gset string) (symbol : string) : bool :=
  let prefix := ToLower symbol +:+ "@depth" in
  bool_decide (prefix ∈ streams) || bool_decide (prefix +:+ "@100ms" ∈ streams).

(** ** Levels *)

(** [parseDepthFields], with the texts of the fields. *)
Definition parseDepthFields (fields : list string) : result error levelUpdate :=
  match fields with
  | [priceField; quantityField] =>
      parse_texts (validationError "local order book level is invalid")
        (validationError "local order book price is invalid") priceField quantityField
  | _ => Err (validationError "local order book level is invalid")
  end.

(** [applyLocalLevel]. *)
Definition applyLocalLevel : Levels → list string → result error Levels :=
  apply_parsed parseDepthFields.

Definition level_fields (level : BookLevel) : list string := [Price level; Quantity level].

(** [newLocalDepthState]. *)
Definition newLocalDepthState (snapshot : OrderBook) : result error localDepthState :=
  bids ← fold_result applyLocalLevel ∅ (level_fields <$> Bids snapshot);
  asks ← fold_result applyLocalLevel ∅ (level_fields <$> Asks snapshot);
  Ok (MkLocalDepthState bids asks (LastUpdateID snapshot) 0).

(** [validateDepthSnapshot]. *)
Definition validateDepthSnapshot (snapshot : OrderBook) : result error unit :=
  require (negb (bool_decide (LastUpdateID snapshot ≤ 0) || bool_decide (LastUpdateID snapshot = MaxInt64)))
    (validationError "local order book snapshot update ID is invalid");;
  check_items parseDepthFields (level_fields <$> Bids snapshot);;
  check_items parseDepthFields (level_fields <$> Asks snapshot).

(** [localDepthState.apply]. *)
Definition apply (state : localDepthState) (event : DepthEvent) : result error (application localDepthState) :=
  if bool_decide (FinalUpdateID event ≤ lastUpdateID state) then Ok Stale
  else if bool_decide (int64 (lastUpdateID state + 1) < FirstUpdateID event) then Ok Gap
  else
    bids ← fold_result applyLocalLevel (bids state) (ev_Bids event);
    asks ← fold_result applyLocalLevel (asks state) (ev_Asks event);
    Ok (Applied (MkLocalDepthState bids asks (FinalUpdateID event) (EventTime event))).

(** [localDepthState.view]. *)
Definition view (state : localDepthState) (symbol : string)
    (generation synchronizationID gapCount depth : Z) : LocalOrderBookView :=
  MkView symbol generation synchronizationID gapCount (lastUpdateID state) (eventTime state)
    (sortedLocalLevels (bids state) depth true) (sortedLocalLevels (asks state) depth false).

(** The checks of [validateInput] on the event. *)
Definition validateDepthEvent (symbol : string) (e : DepthEvent) : result error unit :=
  if negb (bool_decide (EventType e = "depthUpdate")) || negb (bool_decide (Symbol e = symbol))
  then Err (validationError "local order book received an unexpected depth event")
  else if bool_decide (FirstUpdateID e ≤ 0) || bool_decide (FinalUpdateID e < FirstUpdateID e)
  then Err (validationError "local order book depth update IDs are invalid")
  else check_items parseDepthFields (ev_Bids e ++ ev_Asks e).

(** The leading events that [trySynchronize] drops. *)
Definition coveredBySnapshot (snapshot : OrderBook) (event : DepthEvent) : bool :=
  bool_decide (FinalUpdateID event ≤ LastUpdateID snapshot).

(** The test of [trySynchronize] on the first event that is left. *)
Definition connectsToSnapshot (snapshot : OrderBook) (first : DepthEvent) : result error bool :=
  if bool_decide (LastUpdateID snapshot = MaxInt64)
  then Err (validationError "local order book snapshot update ID is invalid")
  else
    let target := int64 (LastUpdateID snapshot + 1) in
    Ok (negb (bool_decide (target < FirstUpdateID first))).

#[export] Instance spot : DepthProtocol DepthEvent OrderBook localDepthState LocalOrderBookView := {
  validateDepth := validateDepthEvent;
  validateSnapshot := validateDepthSnapshot;
  covered := coveredBySnapshot;
  connects := connectsToSnapshot;
  candidateState snapshot _ := newLocalDepthState snapshot;
  candidate_has_first := false;
  applyEvent := apply;
  viewOf := view
}.

(** [LocalOrderBook.Run] over Spot messages. *)
Definition Run : LocalOrderBook → bool → option MarketStream → bool → list input →
    list effect * option (option error) := λ book, DepthLoop.Run book "Binance".

(** ** Parsing *)

Lemma parseDepthFields_ok fields u : parseDepthFields fields = Ok u → update_ok u.
Proof. destruct fields as [|p [|q [|]]]; try done. apply parse_texts_ok. Qed.

Lemma level_fields_ok b u : parseDepthFields (level_fields b) = Ok u →
  upd_key u = RatString (upd_price u) ∧ Rat_SetString (Price b) = Some (upd_price u) ∧
  upd_quantityText u = Quantity b.
Proof. apply parse_texts_fields. Qed.

Abbreviation updates := (updates_of parseDepthFields).

(** ** The exchange's book and its messages *)

Section truth.
(** The book of the exchange at every update ID: bids for [true], asks for
    [false]. *)
Context (truth : Z → bool → side).

Definition event_fields (e : DepthEvent) (d : bool) : list (list string) :=
  if d then ev_Bids e else ev_Asks e.
Definition snapshot_levels (s : OrderBook) (d : bool) : list BookLevel :=
  if d then Bids s else Asks s.

(** A depth event carries the final quantity of every level that changed in
    its range of update IDs, so that it brings any book of the range to the
    book of its last ID. *)
Record event_faithful (e : DepthEvent) : Prop := {
  ev_int64 : is_int64 (FirstUpdateID e) ∧ is_int64 (FinalUpdateID e);
  ev_effect : ∀ n d, FirstUpdateID e - 1 ≤ n ≤ FinalUpdateID e →
    same_side (foldl update_side (truth n d) (updates (event_fields e d))) (truth (FinalUpdateID e) d)
}.

(** The limit of a snapshot request: [config.SnapshotLimit]. *)
Context (limit : Z).

(** A REST snapshot lists the best [limit] levels of each side of the book of
    its update ID, all of them when there are no more. *)
Definition snapshot_faithful (s : OrderBook) : Prop := ∀ d,
  shows d limit (truth (LastUpdateID s) d) (snapshot_levels s d).

Definition valid_event (e : DepthEvent) : Prop :=
  0 < FirstUpdateID e ≤ FinalUpdateID e ∧
  Forall (parses parseDepthFields) (ev_Bids e) ∧ Forall (parses parseDepthFields) (ev_Asks e).

Definition valid_snapshot (s : OrderBook) : Prop :=
  0 < LastUpdateID s ∧ LastUpdateID s ≠ MaxInt64 ∧
  Forall (parses parseDepthFields) (level_fields <$> Bids s) ∧
  Forall (parses parseDepthFields) (level_fields <$> Asks s).

(** Snapshots and events that say the truth. *)
Definition snapshot_true (s : OrderBook) : Prop := is_int64 (LastUpdateID s) ∧ snapshot_faithful s.

Definition inputs_true : list input → Prop := Forall (input_true event_faithful snapshot_true).

Definition state_levels (s : localDepthState) (d : bool) : Levels := if d then bids s else asks s.
Definition view_levels (v : LocalOrderBookView) (d : bool) : list BookLevel :=
  if d then view_Bids v else view_Asks v.

Section state.
(** The snapshots that were delivered. *)
Context (snapshots : list OrderBook).

(** The local state is the exchange's book of its update ID, except that it may
    lack levels behind those that a snapshot listed. *)
Record state_true (s : localDepthState) : Prop := {
  st_int64 : 0 < lastUpdateID s ≤ MaxInt64;
  st_ok : ∀ d, levels_ok (state_levels s d);
  st_sides : ∃ p, p ∈ snapshots ∧ ∀ d,
    same_within (beyond d limit (snapshot_levels p d))
      (quantities (state_levels s d)) (truth (lastUpdateID s) d)
}.

Lemma validateDepthSnapshot_Ok s u : validateDepthSnapshot s = Ok u → valid_snapshot s.
Proof.
  unfold validateDepthSnapshot, valid_snapshot. intros H.
  apply result_bind_Ok in H as (? & Hid & H). apply require_Ok in Hid.
  apply result_bind_Ok in H as (? & Hb%check_items_Ok & Ha%check_items_Ok).
  rewrite negb_true_iff, orb_false_iff, !bool_decide_eq_false in Hid.
  destruct Hid. split_and!; [lia|done..].
Qed.

Lemma spot_newLocalDepthState_true s :
  valid_snapshot s → snapshot_true s → s ∈ snapshots →
  ∃ st, newLocalDepthState s = Ok st ∧ state_true st ∧ lastUpdateID st = LastUpdateID s.
Proof.
  intros (Hpos & _ & Hb & Ha) [Hint Hf] Hin. unfold newLocalDepthState, applyLocalLevel.
  destruct (apply_items_Ok parseDepthFields parseDepthFields_ok ∅ _ Hb levels_ok_empty) as (b & -> & Hbo & Hbq). simpl.
  destruct (apply_items_Ok parseDepthFields parseDepthFields_ok ∅ _ Ha levels_ok_empty) as (a & -> & Hao & Haq). simpl.
  eexists. split; [done|]. split; [|done].
  split; simpl; [unfold is_int64, MaxInt64 in *; lia|by intros []|]. exists s. split; [done|].
  assert (∀ d, same_within (beyond d limit (snapshot_levels s d))
    (foldl update_side (quantities ∅) (updates (level_fields <$> snapshot_levels s d)))
    (truth (LastUpdateID s) d)) as Hl.
  { intros d. rewrite quantities_none. apply (listed_within parseDepthFields level_fields level_fields_ok);
      [apply Hf|by destruct d]. }
  intros []; simpl; [rewrite Hbq; apply (Hl true)|rewrite Haq; apply (Hl false)].
Qed.

Lemma apply_true s e :
  state_true s → valid_event e → event_faithful e →
  match apply s e with
  | Ok (Applied s') => state_true s' ∧ lastUpdateID s' = FinalUpdateID e ∧
                       lastUpdateID s < FinalUpdateID e
  | Ok Gap => lastUpdateID s + 1 < FirstUpdateID e
  | Ok Stale => FinalUpdateID e ≤ lastUpdateID s
  | Err _ => False
  end.
Proof.
  intros [Hid Hok (p & Hp & Hsides)] (Hids & Hvb & Hva) [[Hi1 Hi2] Heff]. unfold apply, applyLocalLevel.
  case_bool_decide as Hst; [done|].
  rewrite int64_id by (unfold is_int64, MinInt64, MaxInt64 in *; lia).
  case_bool_decide as Hgap; [done|].
  destruct (apply_items_Ok parseDepthFields parseDepthFields_ok (bids s) _ Hvb (Hok true)) as (b & -> & Hbo' & Hbq). simpl.
  destruct (apply_items_Ok parseDepthFields parseDepthFields_ok (asks s) _ Hva (Hok false)) as (a & -> & Hao' & Haq). simpl.
  assert (∀ d, same_within (beyond d limit (snapshot_levels p d))
    (foldl update_side (quantities (state_levels s d)) (updates (event_fields e d)))
    (truth (FinalUpdateID e) d)) as He.
  { intros d. eapply update_sides_within; [apply Hsides|]. apply Heff. lia. }
  split; [|split; [done|lia]]. split; simpl; [unfold is_int64, MaxInt64 in *; lia|by intros []|].
  exists p. split; [done|]. intros []; simpl; [rewrite Hbq; apply (He true)|rewrite Haq; apply (He false)].
Qed.

(** ** Published views are the exchange's book *)

(** Up to the levels behind those that one of the snapshots listed, a view shows
    the best levels of the exchange's book of its update ID; it shows just the
    best levels if it does not reach further than that snapshot. *)
Definition view_true (book : LocalOrderBook) (v : LocalOrderBookView) : Prop :=
  ∃ p, p ∈ snapshots ∧ ∀ d,
    shows_up_to (beyond d limit (snapshot_levels p d)) d (viewDepth book)
      (truth (view_LastUpdateID v) d) (view_levels v d) ∧
    (reaches_no_further d limit (viewDepth book) (snapshot_levels p d) (view_levels v d) →
     shows d (viewDepth book) (truth (view_LastUpdateID v) d) (view_levels v d)).

Lemma spot_view_state_true book s g sync gaps :
  state_true s → view_true book (view s (symbol book) g sync gaps (viewDepth book)).
Proof.
  intros [_ Hok (p & Hp & Hsides)]. exists p. split; [done|]. intros d.
  assert (shows_up_to (beyond d limit (snapshot_levels p d)) d (viewDepth book)
    (truth (lastUpdateID s) d) (sortedLocalLevels (state_levels s d) (viewDepth book) d)) as Hv.
  { eexists. split; [apply Hsides|]. apply sortedLocalLevels_shows, Hok. }
  destruct d; (split; [exact Hv|apply shows_up_to_shows, Hv]).
Qed.
End state.

Lemma validateDepthEvent_valid symbol e u : validateDepthEvent symbol e = Ok u → valid_event e.
Proof.
  unfold validateDepthEvent. destruct (_ || _); [done|].
  destruct (_ || _) eqn:Hids; [done|]. intros HC%check_items_Ok. go_bool.
  apply Forall_app in HC as [HB HA]. split; [lia|done].
Qed.

(** C3: every view handed to the handler is the exchange's book.  If REST
    snapshots list the best [limit] levels of a book that evolves with its update
    ID, and depth events carry its changes, then for every interleaving of
    connection generations, lost events, snapshots, failures and retries, each
    published view has a delivered snapshot such that the view shows the best
    levels of the exchange's book at exactly the view's [LastUpdateID], up to
    levels behind those that the snapshot listed; and it shows exactly the best
    levels if the snapshot was complete, or if the view is full and each of its
    levels is at least as good as a level of the snapshot. *)
Theorem published_views_are_true book inputs v :
  inputs_true inputs →
  Published v ∈ (runInputs book initial inputs).1.2 → view_true (snapshots_of inputs) book v.
Proof.
  intros Hin%inputs_true_of.
  apply (published_true book event_faithful (λ p, snapshot_true p ∧ p ∈ snapshots_of inputs)
    (state_true (snapshots_of inputs)) (view_true (snapshots_of inputs) book)); [..|exact Hin].
  - intros s i s' Hs [[u Hv] Hf] H. apply validateDepthEvent_valid in Hv.
    pose proof (apply_true _ s (event i) Hs Hv Hf) as Ht. simpl in H. rewrite H in Ht. apply Ht.
  - intros p i s [[u Hv] [Hf Hp]] _ _ _ H. apply validateDepthSnapshot_Ok in Hv.
    destruct (spot_newLocalDepthState_true _ p Hv Hf Hp) as (s' & Hs' & Ht & _). simpl in H. congruence.
  - intros s g sync gaps. apply spot_view_state_true.
Qed.
End truth.

(** Synchronization cannot stall.  While [runInputs] runs, whatever it was
    sent: if it holds events without a synchronized book then a snapshot is
    being fetched or a retry is armed, never both; a synchronized book leaves
    nothing buffered, pending, fetched or armed; and the buffer keeps within
    its bound and to the current connection generation. *)
Theorem synchronization_cannot_stall book inputs :
  1 ≤ maxBufferedEvents book →
  (runInputs book initial inputs).2 = None →
  let l := (runInputs book initial inputs).1.1 in
  (state l = None → buffer l ≠ [] → fetching l = true ∨ retry l = true) ∧
  ¬ (fetching l = true ∧ retry l = true) ∧
  (is_Some (state l) →
     buffer l = [] ∧ pendingSnapshot l = None ∧ fetching l = false ∧ retry l = false) ∧
  Z.of_nat (length (buffer l)) ≤ maxBufferedEvents book ∧
  Forall (λ i, input_generation i = currentGeneration l) (buffer l).
Proof.
  intros Hmax Hrun. cbv zeta.
  destruct (runInputs_ok book inputs initial (loop_initial_ok _) Hmax Hrun) as [H1 H2 H3 H4 H5 H6].
  split_and!; [done| |done|lia|done]. intros [Hf Hr]. specialize (H3 Hf). congruence.
Qed.

(** ** A concrete synchronization *)

(** A book of one level, whose snapshots are asked for with limit 1. *)
Definition demo_book : LocalOrderBook := MkLocalOrderBook "BTCUSDT" "seoul" 4 1 0 0.

(** A bid at 100, whose quantity becomes 2 with update 11, and one at 99, which
    the snapshot does not list. *)
Definition demo_truth (n : Z) (d : bool) : side := λ key,
  if negb d then None
  else if decide (key = "100") then Some (if bool_decide (n ≤ 10) then 1%Q else 2%Q)
  else if decide (key = "99") then Some 5%Q else None.

Definition demo_snapshot : OrderBook := MkOrderBook 10 [MkBookLevel "100.0" "1"] [].
Definition demo_event : DepthEvent := MkDepthEvent "depthUpdate" 5 "BTCUSDT" 11 12 [["100"; "2.0"]] [].

Definition demo_inputs : list input :=
  [Depth (MkDepthInput 1 demo_event) None; SnapshotResult (Err (Errorf "timeout")) None; RetryTimer;
   SnapshotResult (Ok demo_snapshot) None].

Definition demo_view : LocalOrderBookView :=
  MkView "BTCUSDT" 1 1 0 12 5 [MkBookLevel "100" "2.0"] [].

Lemma demo_updates : updates [["100"; "2.0"]] = [MkLevelUpdate "100" 100 "100" "2.0"].
Proof. vm_compute. reflexivity. Qed.

Lemma demo_event_faithful : event_faithful demo_truth demo_event.
Proof.
  split; [by vm_compute|]. intros n [] Hn key; [|done]. unfold event_fields.
  cbn [ev_Bids demo_event]. rewrite demo_updates. simpl. unfold update_side, demo_truth.
  cbn [upd_key upd_quantityText negb]. destruct (decide (key = "100")) as [->|]; [vm_compute; reflexivity|done].
Qed.

Lemma demo_snapshot_faithful : snapshot_faithful demo_truth 1 demo_snapshot.
Proof.
  intros []; [|by split; [|constructor|intros b []%elem_of_nil|]]. split.
  - by vm_compute.
  - by repeat constructor.
  - intros b ->%list_elem_of_singleton. exists 100%Q, 1%Q. by split_and!; vm_compute.
  - intros key q. unfold demo_truth. cbn [negb]. destruct (decide (key = "100")) as [->|].
    + intros _. left. exists (MkBookLevel "100.0" "1"), 100%Q. by split_and!; [left|vm_compute..].
    + destruct (decide (key = "99")) as [->|]; [|done]. intros _. right. split; [done|].
      intros b p ->%list_elem_of_singleton Hp. vm_compute in Hp. injection Hp as <-.
      exists 99%Q. by split; vm_compute.
Qed.

Lemma demo_inputs_true : inputs_true demo_truth 1 demo_inputs.
Proof.
  constructor; [exact demo_event_faithful|]. constructor; [exact I|]. constructor; [exact I|].
  constructor; [|constructor]. split; [|exact demo_snapshot_faithful].
  unfold is_int64, MinInt64, MaxInt64. simpl. lia.
Qed.

Lemma published_views_are_true_witness :
  (runInputs demo_book initial demo_inputs).1.2 = [Fetch; Fetch; Published demo_view] ∧
  shows true 1 (demo_truth 12 true) [MkBookLevel "100" "2.0"].
Proof.
  assert ((runInputs demo_book initial demo_inputs).1.2 = [Fetch; Fetch; Published demo_view])
    as Hrun by (vm_compute; reflexivity).
  split; [exact Hrun|].
  destruct (published_views_are_true demo_truth 1 demo_book demo_inputs demo_view demo_inputs_true)
    as (p & Hp & Hv).
  { rewrite Hrun. right. right. left. }
  apply list_elem_of_singleton in Hp as ->. apply (proj2 (Hv true)). right. split; [reflexivity|].
  intros b q ->%list_elem_of_singleton Hq. exists (MkBookLevel "100.0" "1"), 100%Q.
  vm_compute in Hq. injection Hq as <-. split_and!; [left|vm_compute; reflexivity|]. by vm_compute.
Defined.

Lemma synchronization_cannot_stall_witness :
  let l := (runInputs demo_book initial (take 2 demo_inputs)).1.1 in
  state l = None ∧ buffer l ≠ [] ∧ (fetching l = true ∨ retry l = true).
Proof.
  cbv zeta. split; [vm_compute; reflexivity|]. split; [vm_compute; discriminate|].
  apply (synchronization_cannot_stall demo_book (take 2 demo_inputs)).
  - vm_compute. discriminate.
  - vm_compute. reflexivity.
  - vm_compute. reflexivity.
  - vm_compute. discriminate.
Defined.
