(* ===== verification/UsdmBook.v ===== *)
(** * The Binance USD-M local order book: [exchange/binance/usdm/local_order_book.go]

    The instance of [DepthLoop.DepthProtocol] for USD-M futures: update IDs are
    not contiguous, each event names the last update ID of the one before it,
    and the first event after a snapshot must span the snapshot's ID. *)

From S2P Require Import Prelude GoStrings Decimals Errors PriceLevels DepthLoop.

Record OrderBook : Type := MkOrderBook {
  LastUpdateID : Z;
  MessageTime : Z;
  snapshot_TransactionTime : Z;
  Bids : list BookLevel;
  Asks : list BookLevel
}.

Record StreamDepth : Type := MkStreamDepth {
  EventType : string;
  EventTime : Z;
  TransactionTime : Z;
  Symbol : string;
  FirstUpdateID : Z;
  FinalUpdateID : Z;
  PreviousUpdate : Z;
  ev_Bids : list BookLevel;
  ev_Asks : list BookLevel
}.

Record localDepthState : Type := MkLocalDepthState {
  bids : Levels;
  asks : Levels;
  lastUpdateID : Z;
  eventTime : Z;
  transactionTime : Z
}.

Record LocalOrderBookView : Type := MkView {
  view_Symbol : string;
  view_Generation : Z;
  view_SynchronizationID : Z;
  view_GapCount : Z;
  view_LastUpdateID : Z;
  view_EventTime : Z;
  view_TransactionTime : Z;
  view_Bids : list BookLevel;
  view_Asks : list BookLevel
}.

(** ** Configuration *)

Definition defaultDepthSnapshotLimit : Z := 1000.

Definition validateSymbol (symbol : string) : result error unit :=
  require (negb (bool_decide (symbol = "") || negb (bool_decide (TrimSpace symbol = symbol))))
    (validationError "symbol is required without surrounding whitespace").

Definition validateSnapshotLimit (limit : Z) : result error unit :=
  require (bool_decide (limit ∈ [5; 10; 20; 50; 100; 500; 1000]))
    (validationError "local order book snapshot limit must be 5, 10, 20, 50, 100, 500, or 1000").

Definition NewLocalOrderBook : LocalOrderBookConfig → result error LocalOrderBook :=
  newLocalOrderBook (Errorf "Binance USD-M local order book REST client is required") validateSymbol
    defaultDepthSnapshotLimit validateSnapshotLimit.

(** A subscription of the market stream. *)
Record StreamSubscription : Type := MkSubscription { Route : string; Name : string }.

Definition StreamRoutePublic : string := "public".

(** [MarketStream.hasDiffDepthStream], over its subscriptions. *)
Definition hasDiffDepthStream (subscriptions : list StreamSubscription) (symbol : string) : bool :=
  let prefix := ToLower symbol +:+ "@depth" in
  existsb (λ subscription,
    bool_decide (Route subscription = StreamRoutePublic) &&
    (bool_decide (Name subscription = prefix) || bool_decide (Name subscription = prefix +:+ "@100ms") ||
     bool_decide (Name subscription = prefix +:+ "@500ms"))) subscriptions.

(** ** Levels *)

Definition parseDepthLevel (level : BookLevel) : result error levelUpdate :=
  parse_texts (validationError "local order book level is invalid")
    (validationError "local order book price is invalid") (Price level) (Quantity level).

Definition applyLocalLevel : Levels → BookLevel → result error Levels := apply_parsed parseDepthLevel.

Definition newLocalDepthState (snapshot : OrderBook) : result error localDepthState :=
  bids ← fold_result applyLocalLevel ∅ (Bids snapshot);
  asks ← fold_result applyLocalLevel ∅ (Asks snapshot);
  Ok (MkLocalDepthState bids asks (LastUpdateID snapshot) 0 0).

Definition validateDepthSnapshot (snapshot : OrderBook) : result error unit :=
  require (negb (bool_decide (LastUpdateID snapshot ≤ 0) || bool_decide (LastUpdateID snapshot = MaxInt64)))
    (validationError "local order book snapshot update ID is invalid");;
  check_items parseDepthLevel (Bids snapshot);;
  check_items parseDepthLevel (Asks snapshot).

Definition applyLevels (state : localDepthState) (event : StreamDepth) : result error localDepthState :=
  bids ← fold_result applyLocalLevel (bids state) (ev_Bids event);
  asks ← fold_result applyLocalLevel (asks state) (ev_Asks event);
  Ok (MkLocalDepthState bids asks (FinalUpdateID event) (EventTime event) (TransactionTime event)).

Definition applyNext (state : localDepthState) (event : StreamDepth) : result error (application localDepthState) :=
  if bool_decide (FinalUpdateID event ≤ lastUpdateID state) then Ok Stale
  else if negb (bool_decide (PreviousUpdate event = lastUpdateID state)) then Ok Gap
  else
    state ← applyLevels state event;
    Ok (Applied state).

(** [localDepthState.view]. *)
Definition view (state : localDepthState) (symbol : string)
    (generation synchronizationID gapCount depth : Z) : LocalOrderBookView :=
  MkView symbol generation synchronizationID gapCount (lastUpdateID state) (eventTime state)
    (transactionTime state)
    (sortedLocalLevels (bids state) depth true) (sortedLocalLevels (asks state) depth false).

(** The checks of [validateInput] on the event. *)
Definition validateDepthEvent (symbol : string) (e : StreamDepth) : result error unit :=
  if negb (bool_decide (EventType e = "depthUpdate")) || negb (bool_decide (Symbol e = symbol))
  then Err (validationError "local order book received an unexpected depth event")
  else if bool_decide (FirstUpdateID e ≤ 0) || bool_decide (FinalUpdateID e < FirstUpdateID e) ||
          bool_decide (PreviousUpdate e < 0)
  then Err (validationError "local order book depth update IDs are invalid")
  else check_items parseDepthLevel (ev_Bids e ++ ev_Asks e).

(** The leading events that [trySynchronize] drops. *)
Definition coveredBySnapshot (snapshot : OrderBook) (event : StreamDepth) : bool :=
  bool_decide (FinalUpdateID event < LastUpdateID snapshot).

(** The test of [trySynchronize] on the first event that is left. *)
Definition connectsToSnapshot (snapshot : OrderBook) (first : StreamDepth) : result error bool :=
  Ok (negb (bool_decide (LastUpdateID snapshot < FirstUpdateID first) ||
            bool_decide (FinalUpdateID first < LastUpdateID snapshot))).

(** The snapshot with the first event applied. *)
Definition candidate (snapshot : OrderBook) (first : StreamDepth) : result error localDepthState :=
  state ← newLocalDepthState snapshot;
  applyLevels state first.

#[export] Instance usdm : DepthProtocol StreamDepth OrderBook localDepthState LocalOrderBookView := {
  validateDepth := validateDepthEvent;
  validateSnapshot := validateDepthSnapshot;
  covered := coveredBySnapshot;
  connects := connectsToSnapshot;
  candidateState := candidate;
  candidate_has_first := true;
  applyEvent := applyNext;
  viewOf := view
}.

(** [LocalOrderBook.runInputs] over USD-M messages. *)
Definition runInputs : LocalOrderBook → loop → list input → loop * list effect * option (option error) :=
  DepthLoop.runInputs.

(** [LocalOrderBook.Run] over USD-M messages. *)
Definition Run : LocalOrderBook → bool → option MarketStream → bool → list input →
    list effect * option (option error) := λ book, DepthLoop.Run book "Binance USD-M".

Lemma usdm_parse_ok level u : parseDepthLevel level = Ok u → update_ok u.
Proof. apply parse_texts_ok. Qed.

Lemma book_level_ok (b : BookLevel) u : parseDepthLevel b = Ok u →
  upd_key u = RatString (upd_price u) ∧ Rat_SetString (Price b) = Some (upd_price u) ∧
  upd_quantityText u = Quantity b.
Proof. apply parse_texts_fields. Qed.

Abbreviation updates := (updates_of parseDepthLevel).

(** ** The exchange's book and its messages *)

Section truth.
(** The book of the exchange at every update ID: bids for [true], asks for
    [false]. *)
Context (truth : Z → bool → side).

Definition event_levels (e : StreamDepth) (d : bool) : list BookLevel := if d then ev_Bids e else ev_Asks e.
Definition snapshot_levels (s : OrderBook) (d : bool) : list BookLevel := if d then Bids s else Asks s.

(** An event carries the final quantity of every level that changed after the
    event before it, so that it brings any book from there on to the book of its
    last ID. *)
Record event_faithful (e : StreamDepth) : Prop := {
  ev_ids : PreviousUpdate e < FirstUpdateID e;
  ev_effect : ∀ n d, PreviousUpdate e ≤ n ≤ FinalUpdateID e →
    same_side (foldl update_side (truth n d) (updates (event_levels e d))) (truth (FinalUpdateID e) d)
}.

(** The limit of a snapshot request: [config.SnapshotLimit]. *)
Context (limit : Z).

(** A REST snapshot lists the best [limit] levels of each side of the book of
    its update ID, all of them when there are no more. *)
Definition snapshot_faithful (s : OrderBook) : Prop := ∀ d,
  shows d limit (truth (LastUpdateID s) d) (snapshot_levels s d).

Definition inputs_true : list input → Prop := Forall (input_true event_faithful snapshot_faithful).

Definition state_levels (s : localDepthState) (d : bool) : Levels := if d then bids s else asks s.
Definition view_levels (v : LocalOrderBookView) (d : bool) : list BookLevel :=
  if d then view_Bids v else view_Asks v.

Section state.
(** The snapshots that were delivered. *)
Context (snapshots : list OrderBook).

(** The local state is the exchange's book of its update ID, except that it may
    lack levels behind those that a snapshot listed. *)
Record state_true (s : localDepthState) : Prop := {
  st_ok : ∀ d, levels_ok (state_levels s d);
  st_sides : ∃ p, p ∈ snapshots ∧ ∀ d,
    same_within (beyond d limit (snapshot_levels p d))
      (quantities (state_levels s d)) (truth (lastUpdateID s) d)
}.

Lemma usdm_newLocalDepthState_true p s u :
  validateDepthSnapshot p = Ok u → snapshot_faithful p → p ∈ snapshots → newLocalDepthState p = Ok s →
  state_true s ∧ lastUpdateID s = LastUpdateID p.
Proof.
  intros Hv Hf Hin Hs. unfold validateDepthSnapshot in Hv. apply result_bind_Ok in Hv as (? & _ & Hv).
  apply result_bind_Ok in Hv as (? & Hb%check_items_Ok & Ha%check_items_Ok).
  unfold newLocalDepthState, applyLocalLevel in Hs.
  destruct (apply_items_Ok parseDepthLevel usdm_parse_ok ∅ _ Hb levels_ok_empty) as (b & Eb & Hbo & Hbq).
  destruct (apply_items_Ok parseDepthLevel usdm_parse_ok ∅ _ Ha levels_ok_empty) as (a & Ea & Hao & Haq).
  rewrite Eb in Hs. cbn [mbind result_bind] in Hs. rewrite Ea in Hs. injection Hs as <-.
  split; [|done]. split; simpl; [by intros []|]. exists p. split; [done|].
  assert (∀ d, same_within (beyond d limit (snapshot_levels p d))
    (foldl update_side (quantities ∅) (updates (snapshot_levels p d))) (truth (LastUpdateID p) d)) as Hl.
  { intros d. rewrite quantities_none.
    pose proof (listed_within parseDepthLevel id book_level_ok d limit _ _ (Hf d)) as Hl.
    rewrite list_fmap_id in Hl. apply Hl. by destruct d. }
  intros []; simpl; [rewrite Hbq; apply (Hl true)|rewrite Haq; apply (Hl false)].
Qed.

Lemma validateDepthEvent_items symbol e u : validateDepthEvent symbol e = Ok u →
  Forall (parses parseDepthLevel) (ev_Bids e) ∧ Forall (parses parseDepthLevel) (ev_Asks e).
Proof.
  unfold validateDepthEvent. destruct (_ || _); [done|]. destruct (_ || _); [done|].
  by intros H%check_items_Ok%Forall_app.
Qed.

Lemma applyLevels_true s e s' symbol u :
  state_true s → validateDepthEvent symbol e = Ok u → event_faithful e →
  PreviousUpdate e ≤ lastUpdateID s ≤ FinalUpdateID e →
  applyLevels s e = Ok s' → state_true s'.
Proof.
  intros [Hok (p & Hp & Hsides)] [Hvb Hva]%validateDepthEvent_items [_ Heff] Hspan Hs.
  unfold applyLevels, applyLocalLevel in Hs.
  destruct (apply_items_Ok parseDepthLevel usdm_parse_ok (bids s) _ Hvb (Hok true)) as (b & Eb & Hbo' & Hbq).
  destruct (apply_items_Ok parseDepthLevel usdm_parse_ok (asks s) _ Hva (Hok false)) as (a & Ea & Hao' & Haq).
  rewrite Eb in Hs. cbn [mbind result_bind] in Hs. rewrite Ea in Hs. injection Hs as <-.
  assert (∀ d, same_within (beyond d limit (snapshot_levels p d))
    (foldl update_side (quantities (state_levels s d)) (updates (event_levels e d)))
    (truth (FinalUpdateID e) d)) as He.
  { intros d. eapply update_sides_within; [apply Hsides|]. by apply Heff. }
  split; simpl; [by intros []|]. exists p. split; [done|].
  intros []; simpl; [rewrite Hbq; apply (He true)|rewrite Haq; apply (He false)].
Qed.

(** Up to the levels behind those that one of the snapshots listed, a view shows
    the best levels of the exchange's book of its update ID; it shows just the
    best levels if it does not reach further than that snapshot. *)
Definition view_true (book : LocalOrderBook) (v : LocalOrderBookView) : Prop :=
  ∃ p, p ∈ snapshots ∧ ∀ d,
    shows_up_to (beyond d limit (snapshot_levels p d)) d (viewDepth book)
      (truth (view_LastUpdateID v) d) (view_levels v d) ∧
    (reaches_no_further d limit (viewDepth book) (snapshot_levels p d) (view_levels v d) →
     shows d (viewDepth book) (truth (view_LastUpdateID v) d) (view_levels v d)).

Lemma usdm_view_state_true book s g sync gaps :
  state_true s → view_true book (view s (symbol book) g sync gaps (viewDepth book)).
Proof.
  intros [Hok (p & Hp & Hsides)]. exists p. split; [done|]. intros d.
  assert (shows_up_to (beyond d limit (snapshot_levels p d)) d (viewDepth book)
    (truth (lastUpdateID s) d) (sortedLocalLevels (state_levels s d) (viewDepth book) d)) as Hv.
  { eexists. split; [apply Hsides|]. apply sortedLocalLevels_shows, Hok. }
  destruct d; (split; [exact Hv|apply shows_up_to_shows, Hv]).
Qed.
End state.

(** Every view of the USD-M book is the exchange's book, up to levels behind
    those that a delivered snapshot listed.  If snapshots list the best [limit]
    levels of one book and the events each cover its changes since the event
    before, then for every interleaving of connections, lost events, snapshots,
    failures and retries, each published view shows the best levels of the
    exchange's book at exactly the view's [LastUpdateID], in the sense of
    [view_true]. *)
Theorem usdm_views_are_true book inputs v :
  inputs_true inputs →
  Published v ∈ (runInputs book initial inputs).1.2 → view_true (snapshots_of inputs) book v.
Proof.
  intros Hin%inputs_true_of.
  apply (published_true book event_faithful (λ p, snapshot_faithful p ∧ p ∈ snapshots_of inputs)
    (state_true (snapshots_of inputs)) (view_true (snapshots_of inputs) book)); [..|exact Hin].
  - intros s i s' Hs [[u Hv] Hf] H. simpl in H, Hv. unfold applyNext in H.
    case_bool_decide as Hst; [done|]. case_bool_decide as Hpu; [|done]. cbn [negb] in H.
    apply result_bind_Ok in H as (s1 & Hs1 & [= <-]).
    eapply applyLevels_true; [exact Hs|exact Hv|exact Hf|lia|exact Hs1].
  - intros p i s [[u Hv] [Hf Hp]] [[u' Hvi] Hfi] _ Hconn H. simpl in Hv, Hvi, Hconn, H.
    unfold connectsToSnapshot in Hconn. injection Hconn as Hconn.
    rewrite negb_true_iff, orb_false_iff, !bool_decide_eq_false in Hconn.
    apply result_bind_Ok in H as (s0 & Hs0 & H).
    destruct (usdm_newLocalDepthState_true _ p s0 u Hv Hf Hp Hs0) as [Ht Hid].
    pose proof (ev_ids _ Hfi). eapply applyLevels_true; [exact Ht|exact Hvi|exact Hfi|lia|exact H].
  - intros s g sync gaps. apply usdm_view_state_true.
Qed.
End truth.

(** ** A concrete synchronization *)

Definition demo_book : LocalOrderBook := MkLocalOrderBook "BTCUSDT" "seoul" 4 2 0 0.

(** One bid at 100, whose quantity becomes 2 with update 12 and 3 with 20. *)
Definition demo_truth (n : Z) (d : bool) : side := λ key,
  if d && bool_decide (key = "100")
  then Some (if bool_decide (n < 12) then 1%Q else if bool_decide (n < 20) then 2%Q else 3%Q) else None.

Definition demo_snapshot : OrderBook := MkOrderBook 10 0 0 [MkBookLevel "100.0" "1"] [].
Definition demo_event1 : StreamDepth :=
  MkStreamDepth "depthUpdate" 5 6 "BTCUSDT" 9 12 7 [MkBookLevel "100" "2.0"] [].
Definition demo_event2 : StreamDepth :=
  MkStreamDepth "depthUpdate" 7 8 "BTCUSDT" 15 20 12 [MkBookLevel "100" "3"] [].

Definition demo_inputs : list input :=
  [Depth (MkDepthInput 1 demo_event1) None; SnapshotResult (Ok demo_snapshot) None;
   Depth (MkDepthInput 1 demo_event2) None].

Definition demo_view : LocalOrderBookView :=
  MkView "BTCUSDT" 1 1 0 20 7 8 [MkBookLevel "100" "3"] [].

Lemma demo_side (us : list levelUpdate) (m : Z) text :
  us = [MkLevelUpdate "100" 100 text (upd_quantityText (hd (MkLevelUpdate "" 0 "" "") us))] →
  decimalIsZero (upd_quantityText (hd (MkLevelUpdate "" 0 "" "") us)) = false →
  Rat_SetString (upd_quantityText (hd (MkLevelUpdate "" 0 "" "") us)) = demo_truth m true "100" →
  ∀ s : side, (∀ key, key ≠ "100" → s key = None) →
  same_side (foldl update_side s us) (demo_truth m true).
Proof.
  intros -> Hz Hq s Hs key. cbn [hd upd_quantityText] in *. simpl. unfold update_side. simpl. rewrite Hz.
  destruct (decide (key = "100")) as [->|Hne]; [done|]. rewrite Hs by done.
  unfold demo_truth. by rewrite (bool_decide_eq_false_2 (key = "100")).
Qed.

Lemma demo_truth_other n key : key ≠ "100" → demo_truth n true key = None.
Proof. intros H. unfold demo_truth. by rewrite (bool_decide_eq_false_2 (key = "100")). Qed.

Lemma usdm_inputs_true : inputs_true demo_truth 5 demo_inputs.
Proof.
  constructor; [|constructor; [|constructor; [|constructor]]].
  - split; [done|]. intros n [] _; [|done].
    apply (demo_side _ 12 "100"); try (vm_compute; reflexivity). apply demo_truth_other.
  - intros []; [|by split; [|constructor|intros b []%elem_of_nil|]]. split.
    + by vm_compute.
    + by repeat constructor.
    + intros b ->%list_elem_of_singleton. exists 100%Q, 1%Q. by split_and!; vm_compute.
    + intros key q. destruct (decide (key = "100")) as [->|Hne]; [|by rewrite demo_truth_other].
      intros _. left. exists (MkBookLevel "100.0" "1"), 100%Q. by split_and!; [left|vm_compute..].
  - split; [done|]. intros n [] _; [|done].
    apply (demo_side _ 20 "100"); try (vm_compute; reflexivity). apply demo_truth_other.
Qed.

Lemma usdm_views_are_true_witness :
  Published demo_view ∈ (runInputs demo_book initial demo_inputs).1.2 ∧
  shows true 2 (demo_truth 20 true) [MkBookLevel "100" "3"].
Proof.
  assert (Published demo_view ∈ (runInputs demo_book initial demo_inputs).1.2) as Hrun.
  { assert ((runInputs demo_book initial demo_inputs).1.2 !! 2%nat = Some (Published demo_view)) as H
      by (vm_compute; reflexivity). exact (list_elem_of_lookup_2 _ _ _ H). }
  split; [exact Hrun|].
  destruct (usdm_views_are_true demo_truth 5 demo_book demo_inputs demo_view usdm_inputs_true Hrun)
    as (p & Hp & Hv).
  apply list_elem_of_singleton in Hp as ->. apply (proj2 (Hv true)). left. reflexivity.
Defined.
