(* ===== verification/StreamBook.v ===== *)
(** * Books replicated from one stream: snapshot, then deltas

    Bybit, Kraken and Kraken Futures send the snapshot of a book and its changes
    on the same WebSocket.  A [replica] is the abstract side such a stream defines: the best
    [depth] levels of the snapshot, then of the replica with each delta applied.
    The files of the exchanges prove that what they publish is the replica of
    a gapless chain of messages; [replica_true] turns that into the exchange's
    own book when its messages are faithful. *)

From S2P Require Import Prelude GoStrings Decimals PriceLevels.

Section replica.
Context {Event : Type} (changes : Event → bool → list levelUpdate) (depth : Z).

Definition empty_side : side := λ _, None.

Inductive replica : list Event → bool → side → Prop :=
  | replica_snapshot e d s :
      top_of depth d (foldl update_side empty_side (changes e d)) s → replica [e] d s
  | replica_delta es e d s s' :
      replica es d s → top_of depth d (foldl update_side s (changes e d)) s' →
      replica (es ++ [e]) d s'.

(** Books without a depth keep every level: the side after the events. *)
Definition applied (es : list Event) (d : bool) : side :=
  foldl update_side empty_side (mjoin ((λ e, changes e d) <$> es)).

Lemma applied_snoc es e d : applied (es ++ [e]) d = foldl update_side (applied es d) (changes e d).
Proof. unfold applied. rewrite fmap_app, join_app, foldl_app. simpl. by rewrite app_nil_r. Qed.

Lemma quantities_empty : same_side (quantities ∅) empty_side.
Proof. intros k. unfold quantities. by rewrite lookup_empty. Qed.

(** A side on which the changes of one more event have been made. *)
Lemma applied_update levels es e d :
  same_side (quantities levels) (applied es d) →
  same_side (quantities (foldl update_level levels (changes e d))) (applied (es ++ [e]) d).
Proof.
  intros Hs. rewrite applied_snoc, quantities_updates. by apply update_sides_proper.
Qed.

Lemma applied_first e d :
  same_side (quantities (foldl update_level ∅ (changes e d))) (applied [e] d).
Proof. apply (applied_update ∅ [] e d). apply quantities_empty. Qed.

Context (key : localDepthLevel → string).
Context (key_stored : ∀ k l, level_ok k l → key l = k).

(** What the books do to a side. *)
Definition advance (levels : Levels) (e : Event) (d : bool) : Levels :=
  prune_levels key (foldl update_level levels (changes e d)) depth d.

Lemma advance_ok levels e d :
  levels_ok levels → Forall update_ok (changes e d) → levels_ok (advance levels e d).
Proof.
  intros Hl Hc. apply prune_levels_ok; [by apply update_levels_ok|].
  intros k l Hk. apply key_stored. by apply (update_levels_ok _ _ Hl Hc).
Qed.

Lemma advance_top_of levels e d :
  levels_ok levels → Forall update_ok (changes e d) →
  top_of depth d (foldl update_side (quantities levels) (changes e d))
    (quantities (advance levels e d)).
Proof.
  intros Hl Hc. pose proof (update_levels_ok _ _ Hl Hc) as Hok.
  destruct (prune_top_of key _ depth d Hok (λ k l H, key_stored k l (Hok k l H))) as (v & Hv & Hq).
  exists v. split; [|done]. eapply shows_same; [apply quantities_updates|done].
Qed.

Lemma advance_snapshot e d :
  Forall update_ok (changes e d) → replica [e] d (quantities (advance ∅ e d)).
Proof.
  intros Hc. constructor. destruct (advance_top_of ∅ e d levels_ok_empty Hc) as (v & Hv & Hq).
  exists v. split; [|done]. eapply shows_same; [|exact Hv].
  apply update_sides_proper; [apply quantities_empty|done].
Qed.

Lemma advance_delta es levels e d :
  levels_ok levels → Forall update_ok (changes e d) →
  replica es d (quantities levels) → replica (es ++ [e]) d (quantities (advance levels e d)).
Proof. intros Hl Hc Hr. econstructor; [exact Hr|]. by apply advance_top_of. Qed.

(** A side holds no more than [depth] levels. *)
Lemma advance_size levels e d :
  levels_ok levels → Forall update_ok (changes e d) →
  Z.of_nat (size (advance levels e d)) ≤ 0 `max` depth.
Proof.
  intros Hl Hc. pose proof (update_levels_ok _ _ Hl Hc) as Hok. apply prune_size; [done|].
  intros k l Hk. apply key_stored. by apply Hok.
Qed.

(** ** The exchange's book *)

(** If the book of the exchange after each message of the chain is [truth] of
    its position, the replica is the book after the last one. *)
Definition faithful_chain (truth : nat → bool → side) (es : list Event) : Prop :=
  ∀ n e d, es !! n = Some e →
    top_of depth d (foldl update_side (if n is S m then truth m d else empty_side) (changes e d))
      (truth n d).

Lemma replica_nonempty es d s : replica es d s → es ≠ [].
Proof. destruct 1; [done|]. by destruct es. Qed.

Lemma replica_true truth es d s :
  replica es d s → faithful_chain truth es → same_side s (truth (pred (length es)) d).
Proof.
  induction 1 as [e d s Htop|es e d s s' Hr IH Htop]; intros Hf.
  - exact (top_of_same _ _ _ _ _ _ (reflexivity _) Htop (Hf 0%nat e d eq_refl)).
  - rewrite length_app, Nat.add_comm. cbn [length Nat.add pred].
    assert (faithful_chain truth es) as Hf'.
    { intros n e' d' Hn. apply Hf. by apply lookup_app_l_Some. }
    specialize (IH Hf'). pose proof (replica_nonempty _ _ _ Hr) as Hne.
    assert ((es ++ [e]) !! length es = Some e) as Hlast
      by (rewrite lookup_app_r, Nat.sub_diag by lia; done).
    pose proof (Hf _ _ d Hlast) as Htop'. destruct (length es) as [|m] eqn:Hlen.
    { by apply length_zero_iff_nil in Hlen. }
    refine (top_of_same _ _ _ _ _ _ _ Htop Htop').
    by apply update_sides_proper.
Qed.
End replica.
