(* ===== verification/StreamLoop.v ===== *)
(** * The processor of a snapshot-and-delta stream

    [exchange/bybit/local_order_book.go] and [exchange/kraken/local_order_book.go]
    run the same processor over messages that differ: [StreamProtocol] is what
    it asks of them, how an event is validated, what it does to the state of the
    book, and how a state is shown.  [process] is the step for an event and
    [run_messages] the function that [Run] gives to the stream, over what it
    makes of each message ([reaction]).  The answers of the reconnection and of
    the handler come with the events.

    The second half is proved once for all protocols: a published view shows a
    state that continues an unbroken run of the events of its connection. *)

From S2P Require Import Prelude GoStrings Errors.

(** What an event does to the state of a book. *)
Inductive verdict (State : Type) : Type :=
  | Started (s : State)
  | Continued (s : State)
  | Repeated
  | Broken.
Arguments Started {State} s.
Arguments Continued {State} s.
Arguments Repeated {State}.
Arguments Broken {State}.

Class StreamProtocol (Wire State View : Type) : Type := {
  (** The events that the message loop passes on. *)
  relevant : Wire → bool;
  (** [validateEvent]. *)
  validateWire : Wire → result error unit;
  (** The [switch] of [process]. *)
  judge : option State → Wire → result error (verdict State);
  (** [view], from the generation, the synchronization ID and the gap count. *)
  viewOf : State → Z → Z → Z → View;
  (** The error of a generation that is zero. *)
  zero_generation : error
}.

Section stream.
Context {Wire State View : Type} `{P : !StreamProtocol Wire State View}.

(** [localOrderBookProcessor], without its book. *)
Record processor : Type := MkProcessor {
  generation : Z;
  synchronizationID : Z;
  gapCount : Z;
  state : option State
}.

Definition newProcessor : processor := MkProcessor 0 0 0 None.

(** What [process] asks of its caller: nothing, to reconnect, or to hand a
    view to the handler. *)
Inductive outcome : Type := Nothing | Reconnect | Publish (v : View).

(** [sequenceGap] and [checksumGap]. *)
Definition sequenceGap (p : processor) : processor * outcome :=
  (MkProcessor (generation p) (synchronizationID p) (uint64 (gapCount p + 1)) None, Reconnect).

(** The state of another connection is dropped. *)
Definition enterGeneration (p : processor) (g : Z) : processor :=
  if bool_decide (generation p = 0) || bool_decide (generation p < g)
  then MkProcessor g (synchronizationID p) (gapCount p) None else p.

Definition publish (p : processor) (s : State) (synchronizations : Z) : processor * outcome :=
  let p := MkProcessor (generation p) synchronizations (gapCount p) (Some s) in
  (p, Publish (viewOf s (generation p) (synchronizationID p) (gapCount p))).

(** [process]. *)
Definition process (p : processor) (g : Z) (w : Wire) : result error (processor * outcome) :=
  if bool_decide (g = 0) then Err zero_generation
  else if bool_decide (g < generation p) then Ok (p, Nothing)
  else
    let p := enterGeneration p g in
    validateWire w;;
    verdict ← judge (state p) w;
    Ok (match verdict with
        | Started s => publish p s (uint64 (synchronizationID p + 1))
        | Continued s => publish p s (synchronizationID p)
        | Repeated => (p, Nothing)
        | Broken => sequenceGap p
        end).

(** An event with the generation of the stream when it is handled, and the
    answer of the reconnection or of the handler it leads to. *)
Record arrival : Type := MkArrival {
  a_generation : Z;
  a_wire : Wire;
  a_answer : option error
}.

(** What the message loop makes of a message: an error, nothing, or events. *)
Inductive reaction : Type := Fails (err : error) | Ignores | Events (events : list arrival).

Abbreviation turn := (result (list outcome * error) (processor * list outcome)).

(** The loop over the events of a message; a reconnection leaves it. *)
Fixpoint handleEvents (p : processor) (events : list arrival) : turn :=
  match events with
  | [] => Ok (p, [])
  | a :: events =>
      if negb (relevant (a_wire a)) then handleEvents p events
      else
        match process p (a_generation a) (a_wire a) with
        | Err err => Err ([], err)
        | Ok (p, Nothing) => handleEvents p events
        | Ok (p, Reconnect) =>
            match a_answer a with Some err => Err ([Reconnect], err) | None => Ok (p, [Reconnect]) end
        | Ok (p, o) =>
            match a_answer a with
            | Some err => Err ([o], err)
            | None =>
                match handleEvents p events with
                | Err (os, err) => Err (o :: os, err)
                | Ok (p, os) => Ok (p, o :: os)
                end
            end
        end
  end.

Definition onMessage (p : processor) (r : reaction) : turn :=
  match r with
  | Fails err => Err ([], err)
  | Ignores => Ok (p, [])
  | Events events => handleEvents p events
  end.

(** The processor over the messages of the stream, with what it did. *)
Fixpoint run_messages (p : processor) (rs : list reaction) : processor * list outcome * option error :=
  match rs with
  | [] => (p, [], None)
  | r :: rs =>
      match onMessage p r with
      | Err (os, err) => (p, os, Some err)
      | Ok (p, os) => let '(p, os', e) := run_messages p rs in (p, os ++ os', e)
      end
  end.

(** A message with one valid event of the current connection or of a newer one,
    whose answer is no error. *)
Lemma onMessage_event p g w :
  g ≠ 0 → generation p ≤ g → relevant w = true → validateWire w = Ok tt →
  onMessage p (Events [MkArrival g w None]) =
    let p := enterGeneration p g in
    match judge (state p) w with
    | Err err => Err ([], err)
    | Ok Repeated => Ok (p, [])
    | Ok Broken => Ok ((sequenceGap p).1, [Reconnect])
    | Ok (Started s) => let r := publish p s (uint64 (synchronizationID p + 1)) in Ok (r.1, [r.2])
    | Ok (Continued s) => let r := publish p s (synchronizationID p) in Ok (r.1, [r.2])
    end.
Proof.
  intros Hg Hgen Hrel Hv. cbn. rewrite Hrel. unfold process.
  rewrite (bool_decide_eq_false_2 (g = 0)), (bool_decide_eq_false_2 (g < generation p)), Hv by (done || lia).
  cbn [negb mbind result_bind]. by destruct (judge _ w) as [[]|].
Qed.

Lemma enterGeneration_generation p g : g ≠ 0 → ¬ g < generation p → generation (enterGeneration p g) = g.
Proof. intros H1 H2. unfold enterGeneration. do 2 case_bool_decide; simpl; try done; lia. Qed.

(** The current connection is entered once. *)
Lemma enterGeneration_same p : generation p ≠ 0 → enterGeneration p (generation p) = p.
Proof. intros H. unfold enterGeneration. by rewrite !bool_decide_eq_false_2 by lia. Qed.

(** ** Runs of events *)

(** The relevant events of a connection, in the order of their delivery. *)
Definition wires (g : Z) (events : list arrival) : list Wire :=
  omap (λ a, if bool_decide (a_generation a = g) && relevant (a_wire a) then Some (a_wire a) else None) events.

Definition arrivals (rs : list reaction) : list arrival :=
  mjoin ((λ r, match r with Events events => events | _ => [] end) <$> rs).

(** A book without a state publishes nothing until an event starts one. *)
Section silence.
Context (starts : Wire → Prop).
Context (judge_without_state : ∀ w v, ¬ starts w → judge None w = Ok v → v = Broken).

Lemma process_silent p g w p' o :
  state p = None → ¬ starts w → process p g w = Ok (p', o) →
  state p' = None ∧ ∀ v, o ≠ Publish v.
Proof.
  intros Hp Hw. unfold process. repeat (case_bool_decide; [naive_solver|]).
  assert (state (enterGeneration p g) = None) as ->
    by (unfold enterGeneration; by destruct (_ || _)).
  destruct (validateWire w); [|done]. cbn [mbind result_bind].
  destruct (judge None w) as [v|] eqn:Hj; [|done]. apply judge_without_state in Hj as ->; [|done].
  intros [= <- <-]. done.
Qed.

Definition silent {E} (r : result (list outcome * E) (processor * list outcome)) : Prop :=
  match r with
  | Ok (p, os) => state p = None ∧ ∀ v, Publish v ∉ os
  | Err (os, _) => ∀ v, Publish v ∉ os
  end.

Lemma handleEvents_silent p events :
  state p = None → Forall (λ a, ¬ starts (a_wire a)) events → silent (handleEvents p events).
Proof.
  intros Hp Hs. revert p Hp. induction Hs as [|a events Ha _ IH]; intros p Hp; cbn [handleEvents];
    [split; [done|set_solver]|].
  destruct (negb _); [by apply IH|].
  destruct (process p _ _) as [[p' o]|] eqn:Hproc; [|cbn; set_solver].
  destruct (process_silent _ _ _ _ _ Hp Ha Hproc) as [Hp' Ho].
  destruct o as [| |v]; [by apply IH| |by destruct (Ho v)].
  destruct (a_answer a); [|split; [done|]]; intros v; set_solver.
Qed.

Lemma run_messages_silent p rs :
  state p = None → Forall (λ a, ¬ starts (a_wire a)) (arrivals rs) →
  ∀ v, Publish v ∉ (run_messages p rs).1.2.
Proof.
  revert p. induction rs as [|r rs IH]; intros p Hp Hs v; [set_solver|].
  assert (Forall (λ a, ¬ starts (a_wire a)) (arrivals [r]) ∧
    Forall (λ a, ¬ starts (a_wire a)) (arrivals rs)) as [Hr Hrs].
  { apply Forall_app. unfold arrivals in *. simpl in *. by rewrite app_nil_r. }
  assert (silent (onMessage p r)) as Hm.
  { destruct r as [err| |events]; cbn [onMessage]; [cbn; set_solver|split; [done|set_solver]|].
    apply handleEvents_silent; [done|]. unfold arrivals in Hr. simpl in Hr. by rewrite app_nil_r in Hr. }
  cbn [run_messages]. destruct (onMessage p r) as [[p' os]|[os err]]; [|by apply Hm].
  destruct Hm as [Hp' Hos]. specialize (IH p' Hp' Hrs v).
  destruct (run_messages p' rs) as [[p2 os2] e]. simpl in *. rewrite elem_of_app.
  intros [H|H]; [by apply (Hos v)|done].
Qed.
End silence.

(** Only a break asks for a reconnection, and it leaves no state. *)
Lemma process_reconnect p g w p' : process p g w = Ok (p', Reconnect) → state p' = None.
Proof.
  unfold process. repeat (case_bool_decide; [naive_solver|]). destruct (validateWire w); [|done].
  cbn [mbind result_bind]. destruct (judge _ w) as [[]|]; naive_solver.
Qed.

Section chains.
Context (starts : Wire → Prop) (follows repeats : Wire → Wire → Prop).

(** [chained run ws w]: the run is the chain [ws], a first event and events that
    follow one another up to [w], with repetitions of its events between. *)
Inductive chained : list Wire → list Wire → Wire → Prop :=
  | chained_first w : starts w → chained [w] [w] w
  | chained_next run ws w w' : chained run ws w → follows w w' → chained (run ++ [w']) (ws ++ [w']) w'
  | chained_repeat run ws w w' : chained run ws w → repeats w w' → chained (run ++ [w']) ws w.

(** Without repetitions the chain is the run. *)
Lemma chained_complete run ws w : (∀ w w', ¬ repeats w w') → chained run ws w → run = ws.
Proof. intros Hno. induction 1 as [|???? _ ->|????? _ H]; [done..|]. by apply Hno in H. Qed.

Context (typed : Wire → Prop) (replicates : State → list Wire → Wire → Prop).
Context (judge_started : ∀ o w s, typed w → validateWire w = Ok tt →
  judge o w = Ok (Started s) → starts w ∧ replicates s [w] w).
Context (judge_continued : ∀ o (w' : Wire) s', typed w' → validateWire w' = Ok tt →
  judge o w' = Ok (Continued s') →
  ∃ s, o = Some s ∧ ∀ ws w, replicates s ws w → follows w w' ∧ replicates s' (ws ++ [w']) w').
Context (judge_repeated : ∀ o (w' : Wire), validateWire w' = Ok tt → judge o w' = Ok Repeated →
  ∃ s, o = Some s ∧ ∀ ws w, replicates s ws w → repeats w w').

Definition state_replicates (g : Z) (events : list arrival) (s : State) : Prop :=
  ∃ pre run ws w, wires g events = pre ++ run ∧ chained run ws w ∧ replicates s ws w.

Definition processor_replicates (events : list arrival) (p : processor) : Prop :=
  ∀ s, state p = Some s → state_replicates (generation p) events s.

Definition view_replicates (events : list arrival) (v : View) : Prop :=
  ∃ s g sync gaps pre run post ws w, v = viewOf s g sync gaps ∧
    wires g events = pre ++ run ++ post ∧ chained run ws w ∧ replicates s ws w.

Definition outcome_replicates (events : list arrival) (o : outcome) : Prop :=
  match o with Publish v => view_replicates events v | _ => True end.

Definition turn_replicates {E} (events : list arrival)
    (r : result (list outcome * E) (processor * list outcome)) : Prop :=
  match r with
  | Ok (p, os) => processor_replicates events p ∧ Forall (outcome_replicates events) os
  | Err (os, _) => Forall (outcome_replicates events) os
  end.

Lemma wires_app g l l' : wires g (l ++ l') = wires g l ++ wires g l'.
Proof. apply omap_app. Qed.

Lemma wires_this a : relevant (a_wire a) = true → wires (a_generation a) [a] = [a_wire a].
Proof. intros H. unfold wires. simpl. by rewrite bool_decide_eq_true_2, H. Qed.

Lemma wires_other g a : a_generation a ≠ g ∨ relevant (a_wire a) = false → wires g [a] = [].
Proof.
  intros [H|H]; unfold wires; simpl; [by rewrite bool_decide_eq_false_2|by rewrite H, andb_false_r].
Qed.

Lemma outcome_replicates_later l l' os :
  Forall (outcome_replicates l) os → Forall (outcome_replicates (l ++ l')) os.
Proof.
  intros H. eapply Forall_impl; [exact H|]. intros [| |v]; try done.
  intros (s & g & sync & gaps & pre & run & post & ws & w & Hv & Hw & Hr).
  exists s, g, sync, gaps, pre, run, (post ++ wires g l'), ws, w.
  split; [done|split; [|done]]. by rewrite wires_app, Hw, <-!(assoc (++)).
Qed.

Lemma processor_replicates_skip l a p :
  processor_replicates l p → a_generation a ≠ generation p ∨ relevant (a_wire a) = false →
  processor_replicates (l ++ [a]) p.
Proof.
  intros Hp Ha s Hs. destruct (Hp s Hs) as (pre & run & ws & w & Hw & Hr). exists pre, run, ws, w.
  by rewrite wires_app, (wires_other _ _ Ha), app_nil_r.
Qed.

(** The two ways a state is published. *)
Lemma publish_replicates l p s n :
  state_replicates (generation p) l s →
  processor_replicates l (publish p s n).1 ∧ outcome_replicates l (publish p s n).2.
Proof.
  intros Hs. split; simpl; [by intros s' [= <-]|]. destruct Hs as (pre & run & ws & w & Hw & Hr).
  exists s, (generation p), n, (gapCount p), pre, run, [], ws, w. by rewrite app_nil_r.
Qed.

Lemma process_replicates l a p r :
  processor_replicates l p → relevant (a_wire a) = true → typed (a_wire a) →
  process p (a_generation a) (a_wire a) = Ok r →
  processor_replicates (l ++ [a]) r.1 ∧ outcome_replicates (l ++ [a]) r.2 ∧
  (r.2 = Reconnect → state r.1 = None).
Proof.
  intros Hp Hrel Ht. unfold process. case_bool_decide as Hg0; [done|].
  case_bool_decide as Hold.
  { intros [= <-]. split_and!; [apply processor_replicates_skip; [done|left; simpl in *; lia]|done|done]. }
  pose proof (enterGeneration_generation p _ Hg0 Hold) as Hgen.
  assert (processor_replicates l (enterGeneration p (a_generation a))) as Hp1.
  { unfold enterGeneration. destruct (_ || _); [by intros s|done]. }
  revert Hgen Hp1. generalize (enterGeneration p (a_generation a)) as p1. intros p1 Hgen Hp1.
  destruct (validateWire (a_wire a)) as [[]|] eqn:Hv; [|done]. cbn [mbind result_bind].
  pose proof (wires_this a Hrel) as Hw.
  destruct (judge (state p1) (a_wire a)) as [[s|s| |]|] eqn:Hj; [..|done]; cbn [mbind result_bind]; intros [= <-].
  - destruct (judge_started _ _ _ Ht Hv Hj) as [Hst Hr].
    destruct (publish_replicates (l ++ [a]) p1 s (uint64 (synchronizationID p1 + 1))) as [H1 H2]; [|done].
    exists (wires (generation p1) l), [a_wire a], [a_wire a], (a_wire a).
    rewrite wires_app, Hgen, Hw. split_and!; [done|by constructor|done].
  - destruct (judge_continued _ _ _ Ht Hv Hj) as (s0 & Hs0 & Hlaw).
    destruct (Hp1 s0 Hs0) as (pre & run & ws & w & Hwl & Hch & Hr). destruct (Hlaw _ _ Hr) as [Hf Hr'].
    destruct (publish_replicates (l ++ [a]) p1 s (synchronizationID p1)) as [H1 H2]; [|done].
    exists pre, (run ++ [a_wire a]), (ws ++ [a_wire a]), (a_wire a).
    rewrite wires_app, Hwl, Hgen, Hw, (assoc (++)). split_and!; [done|by eapply chained_next|done].
  - destruct (judge_repeated _ _ Hv Hj) as (s0 & Hs0 & Hlaw). split_and!; [|done|done].
    intros s Hs. simpl in Hs. assert (s = s0) as -> by congruence.
    destruct (Hp1 s0 Hs0) as (pre & run & ws & w & Hwl & Hch & Hr).
    exists pre, (run ++ [a_wire a]), ws, w. simpl.
    rewrite wires_app, Hwl, Hgen, Hw, (assoc (++)). split_and!; [done|eapply chained_repeat; eauto|done].
  - split_and!; [by intros s|done|done].
Qed.

Lemma handleEvents_replicates l events p :
  processor_replicates l p → Forall (λ a, typed (a_wire a)) events →
  turn_replicates (l ++ events) (handleEvents p events).
Proof.
  intros Hp Ht. revert l p Hp. induction Ht as [|a events Ha _ IH]; intros l p Hp; cbn [handleEvents].
  { rewrite app_nil_r. by repeat constructor. }
  assert (l ++ a :: events = (l ++ [a]) ++ events) as -> by by rewrite <-(assoc (++)).
  destruct (relevant (a_wire a)) eqn:Hrel; cbn [negb];
    [|by apply IH, processor_replicates_skip; [|right]].
  destruct (process p _ _) as [[p' o]|err] eqn:Hproc; [|by constructor].
  destruct (process_replicates l a p _ Hp Hrel Ha Hproc) as (Hp' & Ho & Hre). simpl in Hp', Ho, Hre.
  destruct o as [| |v].
  - by apply IH.
  - destruct (a_answer a); [by repeat constructor|]. split; [|by repeat constructor].
    intros s Hs. by rewrite (Hre eq_refl) in Hs.
  - assert (Forall (outcome_replicates ((l ++ [a]) ++ events)) [Publish v]) as Hv.
    { apply outcome_replicates_later. by repeat constructor. }
    destruct (a_answer a); [exact Hv|]. specialize (IH _ _ Hp').
    destruct (handleEvents p' events) as [[p2 os]|[os err]].
    + destruct IH as [IH1 IH2]. split; [done|]. by apply (Forall_app_2 _ [Publish v]).
    + by apply (Forall_app_2 _ [Publish v]).
Qed.

Lemma onMessage_replicates l r p :
  processor_replicates l p → Forall (λ a, typed (a_wire a)) (arrivals [r]) →
  turn_replicates (l ++ arrivals [r]) (onMessage p r).
Proof.
  intros Hp. unfold arrivals. cbn [fmap list_fmap mjoin list_join]. rewrite app_nil_r. intros Ht.
  destruct r; simpl; [by constructor|rewrite app_nil_r; by repeat constructor|by apply handleEvents_replicates].
Qed.

Lemma run_messages_replicates l rs p :
  processor_replicates l p → Forall (λ a, typed (a_wire a)) (arrivals rs) →
  Forall (outcome_replicates (l ++ arrivals rs)) (run_messages p rs).1.2.
Proof.
  revert l p. induction rs as [|r rs IH]; intros l p Hp; [constructor|].
  assert (arrivals (r :: rs) = arrivals [r] ++ arrivals rs) as ->.
  { unfold arrivals. simpl. by rewrite app_nil_r. }
  intros [Ht1 Ht2]%Forall_app. cbn [run_messages].
  pose proof (onMessage_replicates l r p Hp Ht1) as Hstep. rewrite (assoc (++)).
  destruct (onMessage p r) as [[p' os]|[os err]]; [|by apply outcome_replicates_later].
  destruct Hstep as [Hp' Hos]. specialize (IH _ _ Hp' Ht2).
  destruct (run_messages p' rs) as [[p2 os2] e]. simpl in *. apply Forall_app.
  split; [by apply outcome_replicates_later|done].
Qed.

(** A published view shows a state that continues an unbroken run. *)
Lemma published_replicates rs v :
  Forall (λ a, typed (a_wire a)) (arrivals rs) →
  Publish v ∈ (run_messages newProcessor rs).1.2 → view_replicates (arrivals rs) v.
Proof.
  intros Ht Hv. pose proof (run_messages_replicates [] rs newProcessor ltac:(by intros s) Ht) as H.
  rewrite Forall_forall in H. exact (H _ Hv).
Qed.
End chains.
End stream.
