(* ===== verification/BybitBook.v ===== *)
(** * The Bybit V5 local order book: [exchange/bybit/local_order_book.go]

    One WebSocket stream carries the snapshot and the deltas: the instance of
    [StreamLoop.StreamProtocol] whose events continue a book when their update
    ID is the next one and their sequence grows.  [Run] feeds the processor from
    the messages of a public stream, whose decoded data, reconnection and
    handler answers are inputs. *)

From S2P Require Import Prelude GoStrings Decimals Errors PriceLevels StreamBook StreamLoop.

Definition validationError (format : string) : error := Wrapf format (Sentinel ErrValidation).

Definition CategorySpot : string := "spot".
Definition CategoryLinear : string := "linear".

Record StreamOrderBook : Type := MkStreamOrderBook {
  ev_Symbol : string;
  ev_Bids : list (list string);
  ev_Asks : list (list string);
  ev_UpdateID : Z;
  ev_Sequence : Z;
  ev_MatchingTime : Z
}.

(** [StreamMessage], with the result of decoding its data. *)
Record StreamMessage : Type := MkStreamMessage {
  Topic : string;
  Type_ : string;
  Timestamp : Z;
  Operation : string;
  Success : option bool;
  ReturnMessage : string;
  Pong : bool;
  Data : result error StreamOrderBook
}.

(** ** Topics *)

Definition maxPublicTopics : Z := 1000.
Definition maxPublicArgumentCharacters : Z := 21000.

Definition validateCategory (category : string) : result error unit :=
  require (negb (negb (bool_decide (category = CategorySpot)) &&
                 negb (bool_decide (category = CategoryLinear))))
    (validationError "category must be spot or linear").

(** The candle intervals of the exchange. *)
Definition CandleInterval_valid (interval : string) : bool :=
  bool_decide (interval ∈ ["1"; "3"; "5"; "15"; "30"; "60"; "120"; "240"; "360"; "720"; "D"; "W"; "M"]).

Definition validatePublicTopic (topic : string) : result error unit :=
  require (negb (bool_decide (topic = "") || negb (bool_decide (TrimSpace topic = topic)) ||
                 ContainsControl topic))
    (validationError "public WebSocket topic contains invalid whitespace");;
  let parts := Split dot topic in
  let part n := nth n parts "" in
  let length := Z.of_nat (length parts) in
  (if bool_decide (part 0%nat = "tickers") || bool_decide (part 0%nat = "publicTrade") then
     require (bool_decide (length = 2)) (validationError "invalid public WebSocket topic %q")
   else if bool_decide (part 0%nat = "orderbook") then
     require (negb (negb (bool_decide (length = 3)) ||
                    negb (bool_decide (part 1%nat ∈ ["1"; "50"; "200"; "1000"]))))
       (validationError "invalid orderbook WebSocket topic %q")
   else if bool_decide (part 0%nat = "kline") then
     require (negb (negb (bool_decide (length = 3)) || negb (CandleInterval_valid (part 1%nat))))
       (validationError "invalid kline WebSocket topic %q")
   else Err (validationError "unsupported public WebSocket topic %q"));;
  require (upperDigitsPattern (List.last parts ""))
    (validationError "WebSocket symbol must contain uppercase letters and digits").

(** The loop of [validatePublicTopics]: the topics seen and their characters. *)
Definition validateTopic (seen : list string * Z) (topic : string) : result error (list string * Z) :=
  validatePublicTopic topic;;
  require (negb (bool_decide (topic ∈ seen.1))) (validationError "duplicate public WebSocket topic %q");;
  Ok (seen.1 ++ [topic], seen.2 + Z.of_nat (String.length topic)).

Definition validatePublicTopics (category : string) (topics : list string) : result error (list string) :=
  validateCategory category;;
  require (negb (bool_decide (topics = [])))
    (validationError "at least one public WebSocket topic is required");;
  require (negb (bool_decide (maxPublicTopics < Z.of_nat (length topics))))
    (validationError "WebSocket topic count cannot exceed %d");;
  seen ← fold_result validateTopic ([], 0) topics;
  require (negb (bool_decide (maxPublicArgumentCharacters < seen.2)))
    (validationError "public WebSocket topic arguments exceed %d characters");;
  Ok seen.1.

Definition buildPublicTopic (category topic : string) : result error string :=
  validated ← validatePublicTopics category [topic];
  Ok (nth 0 validated "").

Definition OrderBookStreamTopic (category symbol : string) (depth : Z) : result error string :=
  buildPublicTopic category ("orderbook." +:+ pretty depth +:+ "." +:+ symbol).

(** ** Configuration *)

Record LocalOrderBookConfig : Type := MkConfig {
  conf_Category : string;
  conf_Symbol : string;
  conf_Depth : Z;
  conf_ViewDepth : Z;
  conf_EgressRouteID : string
}.

Record LocalOrderBook : Type := MkLocalOrderBook {
  category : string;
  symbol : string;
  depth : Z;
  viewDepth : Z;
  routeID : string;
  topic : string
}.

Definition defaultLocalOrderBookViewDepth : Z := 20.

Definition NewLocalOrderBook (config : LocalOrderBookConfig) : result error LocalOrderBook :=
  validateCategory (conf_Category config);;
  let symbol := TrimSpace (conf_Symbol config) in
  topic ← OrderBookStreamTopic (conf_Category config) symbol (conf_Depth config);
  let routeID := TrimSpace (conf_EgressRouteID config) in
  require (negb (bool_decide (routeID = ""))) (Sentinel ErrMissingEgressRoute);;
  let viewDepth :=
    if bool_decide (conf_ViewDepth config = 0)
    then if bool_decide (conf_Depth config < defaultLocalOrderBookViewDepth)
         then conf_Depth config else defaultLocalOrderBookViewDepth
    else conf_ViewDepth config in
  require (negb (bool_decide (viewDepth < 1) || bool_decide (conf_Depth config < viewDepth)))
    (validationError "local order book view depth must not exceed subscribed depth");;
  Ok (MkLocalOrderBook (conf_Category config) symbol (conf_Depth config) viewDepth routeID topic).

(** ** The book *)

Record localOrderBookState : Type := MkState {
  bids : Levels;
  asks : Levels;
  updateID : Z;
  sequence : Z;
  timestamp : Z;
  matchingTime : Z
}.

Record LocalOrderBookView : Type := MkView {
  view_Category : string;
  view_Symbol : string;
  view_Depth : Z;
  view_Generation : Z;
  view_SynchronizationID : Z;
  view_GapCount : Z;
  view_UpdateID : Z;
  view_Sequence : Z;
  view_Timestamp : Z;
  view_MatchingTime : Z;
  view_Bids : list BookLevel;
  view_Asks : list BookLevel
}.

Definition parseLocalOrderBookLevel (fields : list string) : result error levelUpdate :=
  match fields with
  | [price; quantity] =>
      parse_texts (validationError "local order book level is invalid")
        (validationError "local order book price is invalid") price quantity
  | _ => Err (validationError "local order book level is invalid")
  end.

Definition applyLocalOrderBookLevel : Levels → list string → result error Levels :=
  apply_parsed parseLocalOrderBookLevel.

(** The key that [pruneLocalOrderBookLevels] computes from the text of a level. *)
Definition prunedKey (level : localDepthLevel) : string :=
  match Rat_SetString (priceText level) with Some price => RatString price | None => "" end.

Definition pruneLocalOrderBookLevels : Levels → Z → bool → Levels := prune_levels prunedKey.

(** [localOrderBookState.apply]. *)
Definition apply (state : localOrderBookState) (timestamp : Z) (event : StreamOrderBook) (depth : Z)
    : result error localOrderBookState :=
  bids ← fold_result applyLocalOrderBookLevel (bids state) (ev_Bids event);
  asks ← fold_result applyLocalOrderBookLevel (asks state) (ev_Asks event);
  Ok (MkState (pruneLocalOrderBookLevels bids depth true) (pruneLocalOrderBookLevels asks depth false)
        (ev_UpdateID event) (ev_Sequence event) timestamp (ev_MatchingTime event)).

Definition newLocalOrderBookState (timestamp : Z) (event : StreamOrderBook) (depth : Z)
    : result error localOrderBookState :=
  apply (MkState ∅ ∅ 0 0 0 0) timestamp event depth.

Section book.
Context (book : LocalOrderBook).

Definition validateEvent (messageType : string) (event : StreamOrderBook) : result error unit :=
  require (negb (negb (bool_decide (messageType = "snapshot")) && negb (bool_decide (messageType = "delta"))))
    (validationError "local order book message type is invalid");;
  require (negb (negb (bool_decide (ev_Symbol event = symbol book)) ||
                 bool_decide (ev_UpdateID event ≤ 0) || bool_decide (ev_Sequence event ≤ 0)))
    (validationError "local order book event identity or sequence is invalid");;
  require (negb (bool_decide (messageType = "delta") && bool_decide (depth book = 1)))
    (validationError "level 1 order book must contain snapshots only");;
  require (negb (bool_decide (messageType = "snapshot") &&
                 (bool_decide (depth book < Z.of_nat (length (ev_Bids event))) ||
                  bool_decide (depth book < Z.of_nat (length (ev_Asks event))))))
    (validationError "local order book snapshot exceeds subscribed depth");;
  check_items parseLocalOrderBookLevel (ev_Bids event ++ ev_Asks event).

(** [localOrderBookState.view]. *)
Definition view (state : localOrderBookState) (generation synchronizationID gapCount : Z) : LocalOrderBookView :=
  MkView (category book) (symbol book) (depth book) generation synchronizationID gapCount
    (updateID state) (sequence state) (timestamp state) (matchingTime state)
    (sortedLocalLevels (bids state) (viewDepth book) true)
    (sortedLocalLevels (asks state) (viewDepth book) false).

(** A book message as [process] takes it. *)
Record wire : Type := MkWire { w_Type : string; w_Timestamp : Z; w_event : StreamOrderBook }.

(** The [switch] of [process]. *)
Definition processEvent (state : option localOrderBookState) (w : wire)
    : result error (verdict localOrderBookState) :=
  let event := w_event w in
  if bool_decide (w_Type w = "snapshot") then
    s ← newLocalOrderBookState (w_Timestamp w) event (depth book);
    Ok (Started s)
  else if bool_decide (w_Type w = "delta") then
    match state with
    | None => Ok Broken
    | Some s =>
        if bool_decide (ev_UpdateID event = 1) then Ok Broken
        else if bool_decide (ev_UpdateID event = updateID s) then Ok Repeated
        else if bool_decide (updateID s = MaxInt64) ||
                negb (bool_decide (ev_UpdateID event = int64 (updateID s + 1))) ||
                bool_decide (ev_Sequence event ≤ sequence s)
        then Ok Broken
        else
          s ← apply s (w_Timestamp w) event (depth book);
          Ok (Continued s)
    end
  else Err (validationError "local order book message type is invalid").

#[export] Instance bybit : StreamProtocol wire localOrderBookState LocalOrderBookView := {
  relevant _ := true;
  validateWire w := validateEvent (w_Type w) (w_event w);
  judge := processEvent;
  viewOf := view;
  zero_generation := validationError "local order book WebSocket generation is zero"
}.

(** ** [Run] *)

(** A message with the generation of the stream when it is handled, and the
    answer of the reconnection or of the handler it leads to. *)
Record delivery : Type := MkDelivery {
  d_generation : Z;
  d_message : StreamMessage;
  d_answer : option error
}.

(** The function that [Run] gives to the stream, up to its call of [process]. *)
Definition react (d : delivery) : reaction :=
  let message := d_message d in
  if negb (bool_decide (Operation message = "")) then
    match Success message with
    | Some false => Fails (Errorf "Bybit order book subscription failed: %s")
    | _ => Ignores
    end
  else if Pong message || negb (bool_decide (Topic message = topic book)) then Ignores
  else
    match Data message with
    | Err err => Fails err
    | Ok event =>
        Events [MkArrival (d_generation d) (MkWire (Type_ message) (Timestamp message) event) (d_answer d)]
    end.

Record PublicStream : Type := MkPublicStream {
  stream_routeID : string;
  stream_category : string;
  stream_topics : gset string
}.

Definition hasTopic (public : PublicStream) (category topic : string) : bool :=
  bool_decide (stream_category public = category) && bool_decide (topic ∈ stream_topics public).

(** [Run]: what it did and its result, [None] while it is running.  A session
    reconnects when its handler returns a [ReconnectOnMessageError]; here every
    error of the caller's handler ends the stream, as others do. *)
Definition Run (ctx : bool) (public : option PublicStream) (handler : bool) (ds : list delivery)
    : list (outcome (View:=LocalOrderBookView)) * option error :=
  match (
    require ctx (Errorf "Bybit local order book context is nil");;
    public ← (match public with
              | Some public => Ok public
              | None => Err (Errorf "Bybit local order book public stream is required")
              end);
    require handler (Errorf "Bybit local order book handler is required");;
    require (bool_decide (stream_routeID public = routeID book))
      (validationError "local order book and public WebSocket routes must match");;
    require (hasTopic public (category book) (topic book))
      (validationError "public stream does not contain the required order book topic"))
  with
  | Err err => ([], Some err)
  | Ok _ => let '(_, os, r) := run_messages newProcessor (react <$> ds) in (os, r)
  end.
End book.

(** ** Published views are replicas *)

Definition changes (w : wire) (d : bool) : list levelUpdate :=
  updates_of parseLocalOrderBookLevel (if d then ev_Bids (w_event w) else ev_Asks (w_event w)).

Definition starts (w : wire) : Prop := w_Type w = "snapshot".

(** [w2] continues [w1] without a gap. *)
Definition follows (w1 w2 : wire) : Prop :=
  w_Type w2 = "delta" ∧ ev_UpdateID (w_event w2) = ev_UpdateID (w_event w1) + 1 ∧
  ev_Sequence (w_event w1) < ev_Sequence (w_event w2).

(** [w2] repeats the update ID of [w1]. *)
Definition repeats (w1 w2 : wire) : Prop :=
  w_Type w2 = "delta" ∧ ev_UpdateID (w_event w2) = ev_UpdateID (w_event w1).

(** Go's types: update IDs are int64. *)
Definition typed (w : wire) : Prop := is_int64 (ev_UpdateID (w_event w)).

Lemma bybit_prunedKey_stored k l : level_ok k l → prunedKey l = k.
Proof. intros [Hk Hp _ _]. unfold prunedKey. by rewrite Hp. Qed.

Lemma bybit_parse_ok fields u : parseLocalOrderBookLevel fields = Ok u → update_ok u.
Proof. destruct fields as [|p [|q [|]]]; try done. apply parse_texts_ok. Qed.

Lemma bybit_changes_ok w d : Forall update_ok (changes w d).
Proof. apply updates_of_ok, bybit_parse_ok. Qed.

Lemma bybit_validateEvent_Ok book ty e u :
  validateEvent book ty e = Ok u →
  (ty = "snapshot" ∨ ty = "delta") ∧ 0 < ev_UpdateID e ∧ 0 < ev_Sequence e ∧
  Forall (parses parseLocalOrderBookLevel) (ev_Bids e) ∧
  Forall (parses parseLocalOrderBookLevel) (ev_Asks e).
Proof.
  unfold validateEvent. intros H. apply result_bind_Ok in H as (? & Hty%require_Ok & H).
  apply result_bind_Ok in H as (? & Hid%require_Ok & H).
  apply result_bind_Ok in H as (? & _ & H). apply result_bind_Ok in H as (? & _ & H).
  apply check_items_Ok, Forall_app in H as [Hb Ha].
  rewrite negb_true_iff, !orb_false_iff, !bool_decide_eq_false in Hid.
  rewrite negb_true_iff, andb_false_iff, !negb_false_iff, !bool_decide_eq_true in Hty.
  destruct Hid as [[_ ?] ?]. split_and!; try done; lia.
Qed.

(** The levels of a valid event are applied to both sides. *)
Lemma bybit_apply_Ok s t w depth :
  Forall (parses parseLocalOrderBookLevel) (ev_Bids (w_event w)) →
  Forall (parses parseLocalOrderBookLevel) (ev_Asks (w_event w)) →
  apply s t (w_event w) depth =
    Ok (MkState (advance changes depth prunedKey (bids s) w true)
          (advance changes depth prunedKey (asks s) w false)
          (ev_UpdateID (w_event w)) (ev_Sequence (w_event w)) t (ev_MatchingTime (w_event w))).
Proof.
  intros Hb Ha. unfold apply, applyLocalOrderBookLevel.
  rewrite (proj2 (apply_parsed_Ok parseLocalOrderBookLevel _ _ _) (conj Hb eq_refl)). simpl.
  by rewrite (proj2 (apply_parsed_Ok parseLocalOrderBookLevel _ _ _) (conj Ha eq_refl)).
Qed.

Lemma bybit_advance_ok depth levels w d :
  levels_ok levels → levels_ok (advance changes depth prunedKey levels w d).
Proof. intros H. apply advance_ok; [apply bybit_prunedKey_stored|done|apply bybit_changes_ok]. Qed.

Section replicas.
Context (book : LocalOrderBook).

(** The state is the replica of a chain of events up to [w]. *)
Record replicates (s : localOrderBookState) (ws : list wire) (w : wire) : Prop := {
  rep_updateID : updateID s = ev_UpdateID (w_event w);
  rep_sequence : sequence s = ev_Sequence (w_event w);
  rep_int64 : is_int64 (updateID s);
  rep_bids_ok : levels_ok (bids s);
  rep_asks_ok : levels_ok (asks s);
  rep_bids : replica changes (depth book) ws true (quantities (bids s));
  rep_asks : replica changes (depth book) ws false (quantities (asks s))
}.

Lemma bybit_started o w s :
  typed w → validateWire (StreamProtocol:=bybit book) w = Ok tt →
  processEvent book o w = Ok (Started s) → starts w ∧ replicates s [w] w.
Proof.
  intros Ht (_ & _ & _ & Hb & Ha)%bybit_validateEvent_Ok. unfold processEvent. case_bool_decide as Hs.
  - unfold newLocalOrderBookState. rewrite (bybit_apply_Ok _ _ w _ Hb Ha). intros [= <-].
    split; [done|]. split; simpl; try done; try (by apply bybit_advance_ok, levels_ok_empty);
      apply advance_snapshot; auto using bybit_prunedKey_stored, bybit_changes_ok.
  - case_bool_decide; [|done]. destruct o as [s0|]; [|done].
    case_bool_decide; [done|]. case_bool_decide; [done|]. destruct (_ || _ || _); [done|].
    rewrite (bybit_apply_Ok _ _ w _ Hb Ha). done.
Qed.

Lemma bybit_continued o w' s' :
  typed w' → validateWire (StreamProtocol:=bybit book) w' = Ok tt →
  processEvent book o w' = Ok (Continued s') →
  ∃ s, o = Some s ∧ ∀ ws w, replicates s ws w → follows w w' ∧ replicates s' (ws ++ [w']) w'.
Proof.
  intros Ht (_ & Hpos & _ & Hb & Ha)%bybit_validateEvent_Ok. unfold processEvent. case_bool_decide.
  { by destruct (newLocalOrderBookState _ _ _). }
  case_bool_decide as Hd; [|done]. destruct o as [s|]; [|done].
  case_bool_decide; [done|]. case_bool_decide; [done|]. destruct (_ || _ || _) eqn:Hlink; [done|].
  rewrite (bybit_apply_Ok _ _ w' _ Hb Ha). intros [= <-]. exists s. split; [done|].
  intros ws w [Hid Hseq Hint Hbo Hao Hrb Hra]. go_bool. destruct Hlink as [[Hmax Hnext] Hlt].
  rewrite int64_id in Hnext by (unfold is_int64, MinInt64, MaxInt64 in *; lia).
  split; [split_and!; [done|lia|lia]|]. split; simpl; try done; try (by apply bybit_advance_ok);
    apply advance_delta; auto using bybit_prunedKey_stored, bybit_changes_ok.
Qed.

Lemma bybit_repeated o w' :
  processEvent book o w' = Ok Repeated →
  ∃ s, o = Some s ∧ ∀ ws w, replicates s ws w → repeats w w'.
Proof.
  unfold processEvent. case_bool_decide; [by destruct (newLocalOrderBookState _ _ _)|].
  case_bool_decide as Hd; [|done]. destruct o as [s|]; [|done].
  case_bool_decide; [done|]. case_bool_decide as Hsame; [|destruct (_ || _ || _); [done|by destruct (apply _ _ _ _)]].
  intros _. exists s. split; [done|]. intros ws w Hr. split; [done|]. rewrite Hsame. apply Hr.
Qed.

(** C21: every view that the Bybit book hands out is a replica.  Whatever the
    public stream delivers (gaps, repeated or reordered messages, new
    connections, failures), a published view shows the best levels of the
    replica of an unbroken run of the book messages of its own connection: a
    snapshot, then deltas with consecutive update IDs and growing sequences up
    to the update ID and sequence of the view, with nothing left out but
    repetitions of an update ID. *)
Theorem bybit_views_are_replicas ctx public handler ds v :
  Forall (λ a, typed (a_wire a)) (arrivals (react book <$> ds)) →
  Publish v ∈ (Run book ctx public handler ds).1 →
  ∃ pre run post ws w,
    wires (P:=bybit book) (view_Generation v) (arrivals (react book <$> ds)) = pre ++ run ++ post ∧
    chained starts follows repeats run ws w ∧
    ev_UpdateID (w_event w) = view_UpdateID v ∧ ev_Sequence (w_event w) = view_Sequence v ∧
    (∃ s, replica changes (depth book) ws true s ∧ shows true (viewDepth book) s (view_Bids v)) ∧
    (∃ s, replica changes (depth book) ws false s ∧ shows false (viewDepth book) s (view_Asks v)).
Proof.
  intros Ht Hv. unfold Run in Hv. destruct (_ ;; _) as [u|err] in Hv; [|by apply elem_of_nil in Hv].
  pose proof (published_replicates starts follows repeats typed replicates bybit_started bybit_continued
    (λ o w' _, bybit_repeated o w') (react book <$> ds) v Ht) as H.
  destruct (run_messages newProcessor (react book <$> ds)) as [[p os] e]. simpl in *.
  destruct (H Hv) as (s & g & sync & gaps & pre & run & post & ws & w & -> & Hw & Hch & Hr).
  destruct Hr as [Hid Hseq _ Hbo Hao Hb Ha]. exists pre, run, post, ws, w.
  split_and!; try done; eexists; (split; [eassumption|]); by apply sortedLocalLevels_shows.
Qed.

(** ** A gapless feed is published in full *)

(** Delivers the book message [w] of the connection [g], with no failure of the
    handler. *)
Definition carries (g : Z) (d : delivery) (w : wire) : Prop :=
  react book d = Events [MkArrival g w None] ∧ typed w ∧
  validateEvent book (w_Type w) (w_event w) = Ok tt.

(** After [w], on the connection [g]. *)
Definition state_at (g : Z) (w : wire) (p : processor) : Prop :=
  generation p = g ∧ ∃ s, state p = Some s ∧ updateID s = ev_UpdateID (w_event w) ∧
    sequence s = ev_Sequence (w_event w).

Lemma snapshot_published g p d w :
  g ≠ 0 → generation p ≤ g → carries g d w → starts w →
  ∃ p' v, onMessage (P:=bybit book) p (react book d) = Ok (p', [Publish v]) ∧ state_at g w p' ∧
    view_UpdateID v = ev_UpdateID (w_event w) ∧ gapCount p' = gapCount p.
Proof.
  intros Hg Hgen (-> & _ & Hv) Hs. rewrite onMessage_event by done. simpl. unfold processEvent.
  apply bybit_validateEvent_Ok in Hv as (_ & _ & _ & Hb & Ha).
  rewrite Hs, bool_decide_eq_true_2 by done. unfold newLocalOrderBookState.
  rewrite (bybit_apply_Ok _ _ w _ Hb Ha). cbn. do 2 eexists. split; [done|]. split_and!.
  - split; [simpl; apply enterGeneration_generation; lia|by eexists].
  - done.
  - simpl. unfold enterGeneration. by destruct (_ || _).
Qed.

Lemma delta_published g p d w w' :
  g ≠ 0 → state_at g w p → 0 < ev_UpdateID (w_event w) → carries g d w' → follows w w' →
  ∃ p' v, onMessage (P:=bybit book) p (react book d) = Ok (p', [Publish v]) ∧ state_at g w' p' ∧
    view_UpdateID v = ev_UpdateID (w_event w') ∧ gapCount p' = gapCount p.
Proof.
  intros Hg (<- & s & Hst & Hid & Hseq) Hpos (-> & Hint & Hv) (Hty & Hnext & Hlt).
  rewrite onMessage_event, enterGeneration_same by done. simpl. unfold processEvent.
  apply bybit_validateEvent_Ok in Hv as (_ & _ & _ & Hb & Ha).
  rewrite Hty, bool_decide_eq_false_2, bool_decide_eq_true_2, Hst by done.
  unfold typed, is_int64, MinInt64, MaxInt64 in Hint.
  rewrite (bool_decide_eq_false_2 (_ = 1)), (bool_decide_eq_false_2 (_ = updateID s)) by lia.
  rewrite (bool_decide_eq_false_2 (updateID s = MaxInt64)) by (unfold MaxInt64; lia).
  rewrite int64_id by (unfold is_int64, MinInt64, MaxInt64; lia).
  rewrite (bool_decide_eq_true_2 (_ = updateID s + 1)) by lia.
  rewrite (bool_decide_eq_false_2 (_ ≤ sequence s)) by lia. cbn [orb negb].
  rewrite (bybit_apply_Ok _ _ w' _ Hb Ha). cbn. do 2 eexists. split; [done|].
  split_and!; [split; [done|by eexists]|done|done].
Qed.

(** The deltas after [w]. *)
Lemma deltas_published g p w ds ws :
  g ≠ 0 → state_at g w p → 0 < ev_UpdateID (w_event w) → Forall2 (carries g) ds ws →
  (∀ n w1 w2, (w :: ws) !! n = Some w1 → (w :: ws) !! S n = Some w2 → follows w1 w2) →
  ∃ p' vs, run_messages (P:=bybit book) p (react book <$> ds) = (p', Publish <$> vs, None) ∧
    view_UpdateID <$> vs = ev_UpdateID ∘ w_event <$> ws ∧ gapCount p' = gapCount p.
Proof.
  intros Hg Hat Hpos Hcs. revert p w Hat Hpos.
  induction Hcs as [|d' w' ds ws Hc _ IH]; intros p w Hat Hpos Hlink; [by exists p, []|].
  pose proof (Hlink 0%nat w w' eq_refl eq_refl) as Hf.
  destruct (delta_published g p d' w w' Hg Hat Hpos Hc Hf) as (p2 & v & Hrun & Hat' & Hv & Hgap).
  destruct (IH p2 w' Hat') as (p' & vs & Hrun' & Hvs & Hgap').
  { destruct Hf as (_ & ? & _). lia. }
  { intros n w1 w2 H1 H2. by apply (Hlink (S n)). }
  exists p', (v :: vs). rewrite fmap_cons. cbn [run_messages]. rewrite Hrun, Hrun'. split; [done|].
  split; [rewrite !fmap_cons; by rewrite Hv, Hvs|congruence].
Qed.

(** C22: a gapless feed is published in full.  When a connection delivers a
    valid snapshot and then valid deltas that continue it, the book publishes
    exactly one view for each message, with the message's update ID: no
    reconnection, no gap and no error, whatever happened on earlier
    connections. *)
Theorem bybit_gapless_feed_is_published g p d w ds ws :
  g ≠ 0 → generation p ≤ g →
  carries g d w → starts w → Forall2 (carries g) ds ws →
  (∀ n w1 w2, (w :: ws) !! n = Some w1 → (w :: ws) !! S n = Some w2 → follows w1 w2) →
  ∃ p' vs, run_messages (P:=bybit book) p (react book <$> d :: ds) = (p', Publish <$> vs, None) ∧
    view_UpdateID <$> vs = ev_UpdateID ∘ w_event <$> w :: ws ∧ gapCount p' = gapCount p.
Proof.
  intros Hg Hgen Hc Hs Hcs Hlink.
  destruct (snapshot_published g p d w Hg Hgen Hc Hs) as (p1 & v & Hrun & Hat & Hv & Hgap).
  assert (0 < ev_UpdateID (w_event w)) as Hpos.
  { destruct Hc as (_ & _ & Hval). by apply bybit_validateEvent_Ok in Hval as (_ & ? & _). }
  destruct (deltas_published g p1 w ds ws Hg Hat Hpos Hcs Hlink) as (p' & vs & Hrun' & Hvs & Hgap').
  exists p', (v :: vs). rewrite fmap_cons. cbn [run_messages]. rewrite Hrun, Hrun'. split; [done|].
  split; [rewrite !fmap_cons; by rewrite Hv, Hvs|congruence].
Qed.
End replicas.

(** ** A concrete stream *)

Definition demo_book : LocalOrderBook :=
  MkLocalOrderBook "spot" "BTCUSDT" 50 2 "seoul" "orderbook.50.BTCUSDT".

Example bybit_demo_book_built :
  NewLocalOrderBook (MkConfig "spot" " BTCUSDT" 50 2 "seoul ") = Ok demo_book.
Proof. vm_compute. reflexivity. Qed.

Definition demo_public : PublicStream := MkPublicStream "seoul" "spot" {["orderbook.50.BTCUSDT"]}.

Definition demo_snapshot : StreamOrderBook :=
  MkStreamOrderBook "BTCUSDT" [["100.0"; "1"]; ["99"; "3"]; ["98"; "1"]] [["101"; "2"]] 10 7 1.
Definition demo_delta (u : Z) : StreamOrderBook :=
  MkStreamOrderBook "BTCUSDT" [["100"; "0.0"]; ["99.0"; "4"]] [] u (u + 1) 2.

Definition demo_delivery (g : Z) (ty : string) (e : StreamOrderBook) : delivery :=
  MkDelivery g (MkStreamMessage "orderbook.50.BTCUSDT" ty 5 "" None "" false (Ok e)) None.

(** A gap after the second message, and a new connection. *)
Definition demo_deliveries : list delivery :=
  [demo_delivery 1 "snapshot" demo_snapshot; demo_delivery 1 "delta" (demo_delta 11);
   demo_delivery 1 "delta" (demo_delta 13); demo_delivery 2 "snapshot" demo_snapshot].

Definition demo_view : LocalOrderBookView :=
  MkView "spot" "BTCUSDT" 50 1 1 0 11 12 5 2 [MkBookLevel "99.0" "4"; MkBookLevel "98" "1"]
    [MkBookLevel "101" "2"].

Lemma bybit_demo_typed : Forall (λ a, typed (a_wire a)) (arrivals (react demo_book <$> demo_deliveries)).
Proof.
  repeat (constructor; [cbv [typed a_wire w_event is_int64 MinInt64 MaxInt64 demo_delta demo_snapshot
    ev_UpdateID]; lia|]). constructor.
Qed.

Lemma bybit_views_are_replicas_witness :
  (Run demo_book true (Some demo_public) true demo_deliveries).1 !! 1%nat = Some (Publish demo_view) ∧
  ∃ pre run post ws w,
    wires (P:=bybit demo_book) 1 (arrivals (react demo_book <$> demo_deliveries)) = pre ++ run ++ post ∧
    chained starts follows repeats run ws w ∧ ev_UpdateID (w_event w) = 11.
Proof.
  assert ((Run demo_book true (Some demo_public) true demo_deliveries).1 !! 1%nat =
    Some (Publish demo_view)) as Hrun by (vm_compute; reflexivity).
  split; [exact Hrun|].
  destruct (bybit_views_are_replicas demo_book true (Some demo_public) true demo_deliveries demo_view
    bybit_demo_typed (list_elem_of_lookup_2 _ _ _ Hrun))
    as (pre & run & post & ws & w & Hw & Hc & Hu & _).
  exists pre, run, post, ws, w. split; [exact Hw|]. split; [exact Hc|exact Hu].
Defined.

Lemma bybit_demo_carries g ty e :
  is_int64 (ev_UpdateID e) → validateEvent demo_book ty e = Ok tt →
  carries demo_book g (demo_delivery g ty e) (MkWire ty 5 e).
Proof. done. Qed.

Lemma bybit_gapless_feed_is_published_witness :
  ∃ p' vs, run_messages (P:=bybit demo_book) newProcessor (react demo_book <$> take 2 demo_deliveries) =
      (p', Publish <$> vs, None) ∧
    view_UpdateID <$> vs = [10; 11].
Proof.
  destruct (bybit_gapless_feed_is_published demo_book 1 newProcessor
    (demo_delivery 1 "snapshot" demo_snapshot) (MkWire "snapshot" 5 demo_snapshot)
    [demo_delivery 1 "delta" (demo_delta 11)] [MkWire "delta" 5 (demo_delta 11)])
    as (p' & vs & Hrun & Hvs & _).
  - discriminate.
  - discriminate.
  - apply bybit_demo_carries; [|vm_compute; reflexivity].
    cbv [is_int64 MinInt64 MaxInt64 demo_snapshot ev_UpdateID]. lia.
  - reflexivity.
  - constructor; [|constructor]. apply bybit_demo_carries; [|vm_compute; reflexivity].
    cbv [is_int64 MinInt64 MaxInt64 demo_delta ev_UpdateID]. lia.
  - intros [|[|n]] w1 w2 H1 H2; [|discriminate H2|discriminate H2].
    injection H1 as <-. injection H2 as <-. vm_compute. split; [reflexivity|split; reflexivity].
  - exists p', vs. split; [exact Hrun|exact Hvs].
Defined.
