(* ===== verification/Crc32.v ===== *)
(** * CRC-32: [hash/crc32.ChecksumIEEE]

    The checksum that Kraken puts on its order book messages, by bits of the
    reversed IEEE polynomial, and what it detects: two payloads that differ in
    one byte have different checksums, because each step of the remainder is
    injective. *)

From S2P Require Import Prelude GoStrings.

Definition IEEE : Z := 0xEDB88320.

Definition is_uint32 (z : Z) : Prop := 0 ≤ z < 2 ^ 32.

Definition crc_bit (crc : Z) : Z :=
  if Z.odd crc then Z.lxor (Z.shiftr crc 1) IEEE else Z.shiftr crc 1.

Definition crc_byte (crc : Z) (c : ascii) : Z :=
  Nat.iter 8 crc_bit (Z.lxor crc (Z.of_N (Ascii.N_of_ascii c))).

Fixpoint crc_string (crc : Z) (s : string) : Z :=
  match s with
  | EmptyString => crc
  | String c s => crc_string (crc_byte crc c) s
  end.

Definition ChecksumIEEE (s : string) : Z := Z.lxor (crc_string 0xFFFFFFFF s) 0xFFFFFFFF.

(** The check value of the CRC catalogue. *)
Example ChecksumIEEE_check : ChecksumIEEE "123456789" = 0xCBF43926.
Proof. vm_compute. reflexivity. Qed.

Lemma lxor_uint32 a b : is_uint32 a → is_uint32 b → is_uint32 (Z.lxor a b).
Proof.
  intros [Ha Ha'] [Hb Hb']. assert (0 ≤ Z.lxor a b) as H0 by (by apply Z.lxor_nonneg).
  split; [done|]. destruct (decide (Z.lxor a b = 0)) as [->|Hne]; [done|].
  apply Z.log2_lt_pow2; [lia|]. pose proof (Z.log2_lxor a b Ha Hb) as Hlog.
  assert (∀ x, 0 ≤ x < 2 ^ 32 → Z.log2 x < 32) as Hx.
  { intros x Hx. destruct (decide (x = 0)) as [->|]; [done|]. apply Z.log2_lt_pow2; lia. }
  pose proof (Hx a (conj Ha Ha')). pose proof (Hx b (conj Hb Hb')). lia.
Qed.

Lemma lxor_cancel_r a b c : Z.lxor a c = Z.lxor b c → a = b.
Proof.
  intros H. rewrite <-(Z.lxor_0_r a), <-(Z.lxor_0_r b), <-(Z.lxor_nilpotent c), <-!Z.lxor_assoc.
  by rewrite H.
Qed.

Lemma lxor_cancel_l a b c : Z.lxor c a = Z.lxor c b → a = b.
Proof. rewrite !(Z.lxor_comm c). apply lxor_cancel_r. Qed.

Lemma shiftr_uint32 c : is_uint32 c → is_uint32 (Z.shiftr c 1) ∧ Z.testbit (Z.shiftr c 1) 31 = false.
Proof.
  intros [H0 H1]. rewrite Z.shiftr_spec by lia. rewrite Z.shiftr_div_pow2 by lia.
  split; [split; [apply Z.div_pos; lia|apply Z.div_lt_upper_bound; lia]|].
  destruct (decide (c = 0)) as [->|]; [done|]. apply Z.bits_above_log2; [done|].
  apply Z.log2_lt_pow2; [lia|]. done.
Qed.

Lemma crc_bit_uint32 c : is_uint32 c → is_uint32 (crc_bit c).
Proof.
  intros Hc. destruct (shiftr_uint32 c Hc) as [Hs _]. unfold crc_bit.
  destruct (Z.odd c); [|done]. by apply lxor_uint32.
Qed.

(** The top bit of the remainder tells which branch was taken. *)
Lemma crc_bit_top c : is_uint32 c → Z.testbit (crc_bit c) 31 = Z.odd c.
Proof.
  intros Hc. destruct (shiftr_uint32 c Hc) as [_ Ht]. unfold crc_bit.
  destruct (Z.odd c); [|done]. rewrite Z.lxor_spec, Ht. done.
Qed.

Lemma crc_bit_inj a b : is_uint32 a → is_uint32 b → crc_bit a = crc_bit b → a = b.
Proof.
  intros Ha Hb Heq. assert (Z.odd a = Z.odd b) as Hodd.
  { by rewrite <-(crc_bit_top a Ha), <-(crc_bit_top b Hb), Heq. }
  assert (Z.shiftr a 1 = Z.shiftr b 1) as Hs.
  { unfold crc_bit in Heq. rewrite Hodd in Heq. destruct (Z.odd b); [|done]. by eapply lxor_cancel_r. }
  rewrite !Z.shiftr_div_pow2 in Hs by lia. change (2 ^ 1) with 2 in Hs.
  rewrite (Z.div_mod a 2), (Z.div_mod b 2), Hs, !Zmod_odd, Hodd by lia. done.
Qed.

Lemma crc_bits_uint32 n c : is_uint32 c → is_uint32 (Nat.iter n crc_bit c).
Proof. intros Hc. induction n as [|n IH]; [done|]. simpl. by apply crc_bit_uint32. Qed.

Lemma crc_bits_inj n a b :
  is_uint32 a → is_uint32 b → Nat.iter n crc_bit a = Nat.iter n crc_bit b → a = b.
Proof.
  intros Ha Hb. induction n as [|n IH]; simpl; [done|]. intros H.
  apply IH, crc_bit_inj; [by apply crc_bits_uint32|by apply crc_bits_uint32|done].
Qed.

Lemma byte_uint32 c : is_uint32 (Z.of_N (Ascii.N_of_ascii c)).
Proof. pose proof (Ascii.N_ascii_bounded c). split; lia. Qed.

Lemma crc_byte_uint32 crc c : is_uint32 crc → is_uint32 (crc_byte crc c).
Proof. intros H. by apply crc_bits_uint32, lxor_uint32, byte_uint32. Qed.

Lemma crc_byte_inj_crc crc1 crc2 c :
  is_uint32 crc1 → is_uint32 crc2 → crc_byte crc1 c = crc_byte crc2 c → crc1 = crc2.
Proof.
  intros H1 H2 H. apply crc_bits_inj in H; [by eapply lxor_cancel_r|..];
    by apply lxor_uint32, byte_uint32.
Qed.

Lemma crc_byte_inj_byte crc c1 c2 : is_uint32 crc → crc_byte crc c1 = crc_byte crc c2 → c1 = c2.
Proof.
  intros Hcrc H. apply crc_bits_inj in H; [|by apply lxor_uint32, byte_uint32..].
  apply lxor_cancel_l, N2Z.inj in H.
  by rewrite <-(Ascii.ascii_N_embedding c1), <-(Ascii.ascii_N_embedding c2), H.
Qed.

Lemma crc_string_uint32 crc s : is_uint32 crc → is_uint32 (crc_string crc s).
Proof. revert crc. induction s as [|c s IH]; intros crc H; [done|]. by apply IH, crc_byte_uint32. Qed.

Lemma crc_string_inj crc1 crc2 s :
  is_uint32 crc1 → is_uint32 crc2 → crc_string crc1 s = crc_string crc2 s → crc1 = crc2.
Proof.
  revert crc1 crc2. induction s as [|c s IH]; intros crc1 crc2 H1 H2; simpl; [done|]. intros H.
  apply IH in H; [|by apply crc_byte_uint32..]. by eapply crc_byte_inj_crc.
Qed.

Lemma crc_string_append crc s t : crc_string crc (s +:+ t) = crc_string (crc_string crc s) t.
Proof. revert crc. induction s as [|c s IH]; intros crc; [done|]. apply IH. Qed.

Lemma ChecksumIEEE_uint32 s : is_uint32 (ChecksumIEEE s).
Proof. apply lxor_uint32; [by apply crc_string_uint32|done]. Qed.

Lemma ChecksumIEEE_detects pre post c1 c2 :
  c1 ≠ c2 → ChecksumIEEE (pre +:+ String c1 post) ≠ ChecksumIEEE (pre +:+ String c2 post).
Proof.
  intros Hne H. apply lxor_cancel_r in H. rewrite !crc_string_append in H. simpl in H.
  assert (is_uint32 (crc_string 0xFFFFFFFF pre)) as Hpre by (by apply crc_string_uint32).
  apply crc_string_inj in H; [|by apply crc_byte_uint32..]. by apply Hne, (crc_byte_inj_byte _ _ _ Hpre).
Qed.
