(* ===== verification/GoTime.v ===== *)
(** * Timestamps: [time.Parse(time.RFC3339Nano, value)]

    Whether the standard library accepts a text in the layout
    [2006-01-02T15:04:05.999999999Z07:00], with its leniencies: an hour of one
    digit, a comma before the fraction, any number of fraction digits, and zone
    offsets up to 24:60. *)

From S2P Require Import Prelude GoStrings.

(** [getnum]: two digits, or one when the width is not fixed. *)
Definition getnum (fixed : bool) (s : string) : option (Z * string) :=
  match s with
  | String a s1 =>
      if is_digit a then
        match s1 with
        | String b s2 =>
            if is_digit b then Some (10 * digit_value a + digit_value b, s2)
            else if fixed then None else Some (digit_value a, s1)
        | EmptyString => if fixed then None else Some (digit_value a, s1)
        end
      else None
  | EmptyString => None
  end.

Definition getyear (s : string) : option (Z * string) :=
  match s with
  | String a (String b (String c (String d s'))) =>
      let digits := String a (String b (String c (String d ""))) in
      if all_digits digits then Some (digits_value 0 digits, s') else None
  | _ => None
  end.

Definition skip (c : ascii) (s : string) : option string :=
  match s with
  | String c' s' => if bool_decide (c = c') then Some s' else None
  | EmptyString => None
  end.

Definition within (low high z : Z) : option unit :=
  if bool_decide (low ≤ z ≤ high) then Some tt else None.

Definition char (n : N) : ascii := Ascii.ascii_of_N n.

Fixpoint drop_digits (s : string) : string :=
  match s with
  | String c s' => if is_digit c then drop_digits s' else s
  | EmptyString => s
  end.

(** The optional fraction of a second, after [.] or [,]. *)
Definition fraction (s : string) : string :=
  match s with
  | String c (String d s') =>
      if (bool_decide (c = char 46) || bool_decide (c = char 44)) && is_digit d
      then drop_digits s' else s
  | _ => s
  end.

(** The zone: [Z] or a signed offset. *)
Definition zone (s : string) : option string :=
  match s with
  | String sign s' =>
      if bool_decide (sign = char 90) then Some s'
      else if bool_decide (sign = char 43) || bool_decide (sign = char 45) then
        '(hour, s) ← getnum true s';
        s ← skip (char 58) s;
        '(minute, s) ← getnum true s;
        within 0 24 hour;; within 0 60 minute;; Some s
      else None
  | EmptyString => None
  end.

Definition isLeap (year : Z) : bool :=
  bool_decide (year mod 4 = 0) && (negb (bool_decide (year mod 100 = 0)) || bool_decide (year mod 400 = 0)).

Definition daysIn (month year : Z) : Z :=
  if bool_decide (month = 2) then if isLeap year then 29 else 28
  else if bool_decide (month ∈ [4; 6; 9; 11]) then 30 else 31.

Definition Parse_RFC3339Nano (value : string) : option unit :=
  '(year, s) ← getyear value;
  s ← skip (char 45) s; '(month, s) ← getnum true s;
  within 1 12 month;;
  s ← skip (char 45) s; '(day, s) ← getnum true s;
  s ← skip (char 84) s; '(hour, s) ← getnum false s;
  within 0 23 hour;;
  s ← skip (char 58) s; '(minute, s) ← getnum true s;
  within 0 59 minute;;
  s ← skip (char 58) s; '(second, s) ← getnum true s;
  within 0 59 second;;
  s ← zone (fraction s);
  if bool_decide (s = "") then within 1 (daysIn month year) day else None.

Example Parse_utc : Parse_RFC3339Nano "2024-02-29T07:08:09.123456Z" = Some tt.
Proof. vm_compute. reflexivity. Qed.
Example Parse_offset : Parse_RFC3339Nano "2024-12-31T7:08:09,5+09:00" = Some tt.
Proof. vm_compute. reflexivity. Qed.
Example Parse_no_leap_day : Parse_RFC3339Nano "2023-02-29T07:08:09Z" = None.
Proof. vm_compute. reflexivity. Qed.
