(* ===== verification/KrakenBook.v ===== *)
(** * The Kraken Spot local order book: [exchange/kraken/local_order_book.go]

    A stream of snapshots and updates whose messages carry a CRC-32 of the ten
    best levels of each side.  [process] is the processor's step for an event;
    [Run] feeds it from the messages of a public stream, whose decoded data,
    reconnection and handler answers are inputs. *)

From S2P Require Import Prelude GoStrings Decimals Errors PriceLevels StreamBook StreamLoop Crc32 GoTime.

Definition ExchangeKraken : string := "kraken".

Definition validationError (format : string) : error :=
  API (newAPIError ErrorValidation ExchangeKraken "" false (Errorf format)).

(** ** Subscriptions *)

Definition SpotChannelTicker : string := "ticker".
Definition SpotChannelBook : string := "book".
Definition SpotChannelTrade : string := "trade".
Definition SpotChannelOHLC : string := "ohlc".
Definition SpotChannelInstrument : string := "instrument".

Record SpotPublicSubscription : Type := MkSubscription {
  Channel : string;
  Symbols : list string;
  Depth : Z;
  Interval : Z;
  EventTrigger : string;
  Snapshot : option bool
}.

Definition maximumSpotSymbolsPerRequest : Z := 100.

Definition validSpotOHLCInterval (interval : Z) : bool :=
  bool_decide (interval ∈ [1; 5; 15; 30; 60; 240; 1440; 10080; 21600]).

(** The characters of a symbol: A-Z, 0-9 and [/ . - _]. *)
Definition symbol_character (c : ascii) : bool :=
  is_upper c || is_digit c || in_cutset "/.-_" c.

Definition slash : ascii := Ascii.ascii_of_N 47.

Definition validateSpotStreamSymbol (symbol : string) : result error unit :=
  let length := Z.of_nat (String.length symbol) in
  require (negb (bool_decide (length < 3) || bool_decide (32 < length) ||
                 negb (bool_decide (TrimSpace symbol = symbol)) || ContainsControl symbol ||
                 string_forall (not_char slash) symbol))
    (validationError "Spot WebSocket symbol has an invalid format");;
  require (string_forall symbol_character symbol)
    (validationError "Spot WebSocket symbol has an invalid format").

(** The loop over the sorted symbols, with the previous one. *)
Definition checkSymbol (previous : option string) (symbol : string) : result error (option string) :=
  validateSpotStreamSymbol symbol;;
  require (negb (bool_decide (previous = Some symbol)))
    (validationError "duplicate Spot WebSocket symbol %q");;
  Ok (Some symbol).

Definition validateSpotPublicSubscription (s : SpotPublicSubscription)
    : result error SpotPublicSubscription :=
  (if bool_decide (Channel s ∈ [SpotChannelTicker; SpotChannelBook; SpotChannelTrade; SpotChannelOHLC]) then
     require (negb (bool_decide (Symbols s = []) ||
                    bool_decide (maximumSpotSymbolsPerRequest < Z.of_nat (length (Symbols s)))))
       (validationError "Spot WebSocket symbol count must be between 1 and %d")
   else if bool_decide (Channel s = SpotChannelInstrument) then
     require (bool_decide (Symbols s = [])) (validationError "instrument channel does not accept symbols")
   else Err (validationError "unsupported Spot public WebSocket channel %q"));;
  let symbols := merge_sort string_le (Symbols s) in
  fold_result checkSymbol None symbols;;
  (if bool_decide (Channel s = SpotChannelBook)
   then require (bool_decide (Depth s ∈ [0; 10; 25; 100; 500; 1000]))
          (validationError "unsupported Spot book depth %d")
   else require (bool_decide (Depth s = 0))
          (validationError "depth is available only for Spot book channel"));;
  (if bool_decide (Channel s = SpotChannelOHLC)
   then require (validSpotOHLCInterval (Interval s)) (validationError "unsupported Spot OHLC interval %d")
   else require (bool_decide (Interval s = 0))
          (validationError "interval is available only for Spot OHLC channel"));;
  (if bool_decide (Channel s = SpotChannelTicker)
   then require (bool_decide (EventTrigger s ∈ [""; "trades"; "bbo"]))
          (validationError "unsupported Spot ticker event trigger %q")
   else require (bool_decide (EventTrigger s = ""))
          (validationError "event trigger is available only for Spot ticker channel"));;
  Ok (MkSubscription (Channel s) symbols (Depth s) (Interval s) (EventTrigger s) (Snapshot s)).

Definition effectiveSpotBookDepth (depth : Z) : Z := if bool_decide (depth = 0) then 10 else depth.

(** ** Configuration *)

Record SpotLocalOrderBookConfig : Type := MkConfig {
  conf_Symbol : string;
  conf_Depth : Z;
  conf_ViewDepth : Z;
  conf_EgressRouteID : string
}.

Record SpotLocalOrderBook : Type := MkSpotLocalOrderBook {
  symbol : string;
  depth : Z;
  viewDepth : Z;
  routeID : string
}.

Definition defaultLocalOrderBookViewDepth : Z := 20.

Definition NewSpotLocalOrderBook (config : SpotLocalOrderBookConfig) : result error SpotLocalOrderBook :=
  subscription ← validateSpotPublicSubscription
    (MkSubscription SpotChannelBook [conf_Symbol config] (conf_Depth config) 0 "" None);
  let depth := effectiveSpotBookDepth (Depth subscription) in
  let routeID := TrimSpace (conf_EgressRouteID config) in
  require (negb (bool_decide (routeID = ""))) (Sentinel ErrMissingEgressRoute);;
  let viewDepth :=
    if bool_decide (conf_ViewDepth config = 0)
    then if bool_decide (depth < defaultLocalOrderBookViewDepth) then depth else defaultLocalOrderBookViewDepth
    else conf_ViewDepth config in
  require (negb (bool_decide (viewDepth < 1) || bool_decide (depth < viewDepth)))
    (validationError "Spot local order book view depth must not exceed subscribed depth");;
  Ok (MkSpotLocalOrderBook (nth 0 (Symbols subscription) "") depth viewDepth routeID).

(** ** The book *)

Record SpotStreamBook : Type := MkSpotStreamBook {
  ev_Symbol : string;
  ev_Bids : list BookLevel;
  ev_Asks : list BookLevel;
  ev_Checksum : Z;
  ev_Timestamp : string
}.

Record spotLocalOrderBookState : Type := MkState {
  bids : Levels;
  asks : Levels;
  checksum : Z;
  timestamp : string
}.

Record SpotLocalOrderBookView : Type := MkView {
  view_Symbol : string;
  view_Depth : Z;
  view_ViewDepth : Z;
  view_Generation : Z;
  view_SynchronizationID : Z;
  view_GapCount : Z;
  view_Checksum : Z;
  view_Timestamp : string;
  view_Bids : list BookLevel;
  view_Asks : list BookLevel
}.

Definition parseSpotLocalOrderBookLevel (value : BookLevel) : result error levelUpdate :=
  parse_texts (validationError "Spot local order book level is invalid")
    (validationError "Spot local order book price is invalid") (Price value) (Quantity value).

Definition applySpotLocalOrderBookLevel : Levels → BookLevel → result error Levels :=
  apply_parsed parseSpotLocalOrderBookLevel.

Definition prunedKey (level : localDepthLevel) : string := RatString (price level).

Definition pruneSpotLocalOrderBookLevels : Levels → Z → bool → Levels := prune_levels prunedKey.

(** ** The checksum *)

Definition spotLocalOrderBookChecksumDecimal (value : string) : string :=
  TrimLeft (RemoveAll dot value) "0".

Definition appendSpotLocalOrderBookChecksumLevels (payload : string) (values : Levels)
    (descending : bool) : string :=
  foldl (λ payload level,
      payload +:+ spotLocalOrderBookChecksumDecimal (priceText level)
              +:+ spotLocalOrderBookChecksumDecimal (quantityText level))
    payload (take 10 (sorted_levels descending values)).

(** What is summed: asks from the lowest, then bids from the highest. *)
Definition checksumPayload (asks bids : Levels) : string :=
  appendSpotLocalOrderBookChecksumLevels (appendSpotLocalOrderBookChecksumLevels "" asks false) bids true.

Definition spotLocalOrderBookChecksum (asks bids : Levels) : Z := ChecksumIEEE (checksumPayload asks bids).

(** [spotLocalOrderBookState.apply]. *)
Definition apply (state : spotLocalOrderBookState) (event : SpotStreamBook) (depth : Z)
    : result error spotLocalOrderBookState :=
  bids ← fold_result applySpotLocalOrderBookLevel (bids state) (ev_Bids event);
  asks ← fold_result applySpotLocalOrderBookLevel (asks state) (ev_Asks event);
  let bids := pruneSpotLocalOrderBookLevels bids depth true in
  let asks := pruneSpotLocalOrderBookLevels asks depth false in
  Ok (MkState bids asks (spotLocalOrderBookChecksum asks bids) (ev_Timestamp event)).

Section book.
Context (book : SpotLocalOrderBook).

Definition validateEvent (messageType : string) (event : SpotStreamBook) : result error unit :=
  require (negb (negb (bool_decide (messageType = "snapshot")) && negb (bool_decide (messageType = "update"))))
    (validationError "Spot local order book message type is invalid");;
  require (bool_decide (ev_Symbol event = symbol book))
    (validationError "Spot local order book symbol is invalid");;
  require (negb (bool_decide (messageType = "snapshot") &&
                 (bool_decide (depth book < Z.of_nat (length (ev_Bids event))) ||
                  bool_decide (depth book < Z.of_nat (length (ev_Asks event))))))
    (validationError "Spot local order book snapshot exceeds subscribed depth");;
  require (bool_decide (Parse_RFC3339Nano (ev_Timestamp event) = Some tt))
    (validationError "Spot local order book timestamp is invalid");;
  check_items parseSpotLocalOrderBookLevel (ev_Bids event ++ ev_Asks event).

(** [spotLocalOrderBookState.view]. *)
Definition view (state : spotLocalOrderBookState) (generation synchronizationID gapCount : Z)
    : SpotLocalOrderBookView :=
  MkView (symbol book) (depth book) (viewDepth book) generation synchronizationID gapCount
    (checksum state) (timestamp state)
    (sortedLocalLevels (bids state) (viewDepth book) true)
    (sortedLocalLevels (asks state) (viewDepth book) false).

(** A book message as [process] takes it. *)
Record wire : Type := MkWire { w_Type : string; w_event : SpotStreamBook }.

(** The [switch] of [process]. *)
Definition processEvent (state : option spotLocalOrderBookState) (w : wire)
    : result error (verdict spotLocalOrderBookState) :=
  let event := w_event w in
  if bool_decide (w_Type w = "snapshot") then
    s ← apply (MkState ∅ ∅ 0 "") event (depth book);
    if negb (bool_decide (checksum s = ev_Checksum event)) then Ok Broken
    else Ok (Started s)
  else if bool_decide (w_Type w = "update") then
    match state with
    | None => Ok Broken
    | Some s =>
        s ← apply s event (depth book);
        if negb (bool_decide (checksum s = ev_Checksum event)) then Ok Broken
        else Ok (Continued s)
    end
  else Err (validationError "Spot local order book message type is invalid").

#[export] Instance kraken : StreamProtocol wire spotLocalOrderBookState SpotLocalOrderBookView := {
  relevant w := bool_decide (ev_Symbol (w_event w) = symbol book);
  validateWire w := validateEvent (w_Type w) (w_event w);
  judge := processEvent;
  viewOf := view;
  zero_generation := validationError "Spot local order book WebSocket generation is zero"
}.

(** ** [Run] *)

(** An event of a message, with the generation of the stream when it is handled
    and the answer of the reconnection or of the handler it leads to. *)
Record delivery : Type := MkDelivery {
  d_generation : Z;
  d_event : SpotStreamBook;
  d_answer : option error
}.

Record SpotStreamMessage : Type := MkMessage {
  m_Channel : string;
  m_Type : string;
  m_Data : result error (list delivery)
}.

Definition arrivalOf (messageType : string) (d : delivery) : arrival :=
  MkArrival (d_generation d) (MkWire messageType (d_event d)) (d_answer d).

(** The function that [Run] gives to the stream, up to its loop. *)
Definition react (message : SpotStreamMessage) : reaction :=
  if negb (bool_decide (m_Channel message = SpotChannelBook)) then Ignores
  else
    match m_Data message with
    | Err err => Fails err
    | Ok [] => Fails (validationError "Spot local order book message data is empty")
    | Ok events => Events (arrivalOf (m_Type message) <$> events)
    end.

Record SpotPublicStream : Type := MkPublicStream {
  stream_routeID : string;
  publicSubscriptions : list SpotPublicSubscription
}.

Definition hasBookSubscription (public : SpotPublicStream) (symbol : string) (depth : Z) : bool :=
  existsb (λ s,
    negb (negb (bool_decide (Channel s = SpotChannelBook)) ||
          negb (bool_decide (effectiveSpotBookDepth (Depth s) = depth)) ||
          bool_decide (Snapshot s = Some false)) &&
    bool_decide (symbol ∈ Symbols s)) (publicSubscriptions public).

(** [Run]: what it did and its result, [None] while it is running. *)
Definition Run (ctx : bool) (public : option SpotPublicStream) (handler : bool)
    (ms : list SpotStreamMessage) : list (outcome (View:=SpotLocalOrderBookView)) * option error :=
  match (
    require ctx (Errorf "Kraken Spot local order book context is nil");;
    public ← (match public with
              | Some public => Ok public
              | None => Err (Errorf "Kraken Spot local order book public stream is required")
              end);
    require handler (Errorf "Kraken Spot local order book handler is required");;
    require (bool_decide (stream_routeID public = routeID book))
      (validationError "Spot local order book and public WebSocket routes must match");;
    require (hasBookSubscription public (symbol book) (depth book))
      (validationError "public stream does not contain the required Spot book subscription"))
  with
  | Err err => ([], Some err)
  | Ok _ => let '(_, os, r) := run_messages newProcessor (react <$> ms) in (os, r)
  end.
End book.

(** ** The runs of messages that a book replicates *)

Definition changes (w : wire) (d : bool) : list levelUpdate :=
  updates_of parseSpotLocalOrderBookLevel (if d then ev_Bids (w_event w) else ev_Asks (w_event w)).

Definition starts (w : wire) : Prop := w_Type w = "snapshot".
Definition follows (_ w2 : wire) : Prop := w_Type w2 = "update".

Lemma kraken_prunedKey_stored k l : level_ok k l → prunedKey l = k.
Proof. by intros [Hk _ _ _]. Qed.

Lemma kraken_parse_ok value u : parseSpotLocalOrderBookLevel value = Ok u → update_ok u.
Proof. apply parse_texts_ok. Qed.

Lemma kraken_changes_ok w d : Forall update_ok (changes w d).
Proof. apply updates_of_ok, kraken_parse_ok. Qed.

Lemma kraken_validateEvent_Ok book ty e u :
  validateEvent book ty e = Ok u →
  Forall (parses parseSpotLocalOrderBookLevel) (ev_Bids e) ∧
  Forall (parses parseSpotLocalOrderBookLevel) (ev_Asks e).
Proof.
  unfold validateEvent. intros H. do 4 (apply result_bind_Ok in H as (? & _ & H)).
  by apply check_items_Ok, Forall_app in H.
Qed.

(** A state with its checksum. *)
Definition checked_state (bids asks : Levels) (t : string) : spotLocalOrderBookState :=
  MkState bids asks (spotLocalOrderBookChecksum asks bids) t.

(** The state after an event. *)
Definition advanced (depth : Z) (s : spotLocalOrderBookState) (w : wire) : spotLocalOrderBookState :=
  checked_state (advance changes depth prunedKey (bids s) w true)
    (advance changes depth prunedKey (asks s) w false) (ev_Timestamp (w_event w)).

Lemma kraken_apply_Ok s w depth :
  Forall (parses parseSpotLocalOrderBookLevel) (ev_Bids (w_event w)) →
  Forall (parses parseSpotLocalOrderBookLevel) (ev_Asks (w_event w)) →
  apply s (w_event w) depth = Ok (advanced depth s w).
Proof.
  intros Hb Ha. unfold apply, applySpotLocalOrderBookLevel.
  rewrite (proj2 (apply_parsed_Ok parseSpotLocalOrderBookLevel _ _ _) (conj Hb eq_refl)). simpl.
  by rewrite (proj2 (apply_parsed_Ok parseSpotLocalOrderBookLevel _ _ _) (conj Ha eq_refl)).
Qed.

Lemma kraken_advance_ok depth levels w d :
  levels_ok levels → levels_ok (advance changes depth prunedKey levels w d).
Proof. intros H. apply advance_ok; [apply kraken_prunedKey_stored|done|apply kraken_changes_ok]. Qed.

(** ** Published views are checked replicas *)

Section replicas.
Context (book : SpotLocalOrderBook).

(** The state is the replica of a chain of messages up to [w], and its checksum
    the one of [w]. *)
Record replicates (s : spotLocalOrderBookState) (ws : list wire) (w : wire) : Prop := {
  rep_checksum : checksum s = ev_Checksum (w_event w);
  rep_summed : spotLocalOrderBookChecksum (asks s) (bids s) = checksum s;
  rep_bids_ok : levels_ok (bids s);
  rep_asks_ok : levels_ok (asks s);
  rep_bids : replica changes (depth book) ws true (quantities (bids s));
  rep_asks : replica changes (depth book) ws false (quantities (asks s))
}.

Lemma kraken_started o w s :
  validateWire (StreamProtocol:=kraken book) w = Ok tt →
  processEvent book o w = Ok (Started s) → starts w ∧ replicates s [w] w.
Proof.
  intros (Hb & Ha)%kraken_validateEvent_Ok. unfold processEvent. case_bool_decide as Hs.
  - rewrite (kraken_apply_Ok _ _ _ Hb Ha). cbn [mbind result_bind].
    case_bool_decide as Hsum; [|done]. intros [= <-]. split; [done|].
    split; try done; try (by apply kraken_advance_ok, levels_ok_empty);
      apply advance_snapshot; auto using kraken_prunedKey_stored, kraken_changes_ok.
  - case_bool_decide; [|done]. destruct o as [s0|]; [|done].
    rewrite (kraken_apply_Ok _ _ _ Hb Ha). cbn. by case_bool_decide.
Qed.

Lemma kraken_continued o w' s' :
  validateWire (StreamProtocol:=kraken book) w' = Ok tt →
  processEvent book o w' = Ok (Continued s') →
  ∃ s, o = Some s ∧ ∀ ws w, replicates s ws w → follows w w' ∧ replicates s' (ws ++ [w']) w'.
Proof.
  intros (Hb & Ha)%kraken_validateEvent_Ok. unfold processEvent.
  case_bool_decide; [|case_bool_decide as Hu; [|done]; destruct o as [s|]; [|done]];
    rewrite (kraken_apply_Ok _ _ _ Hb Ha); cbn [mbind result_bind];
    case_bool_decide as Hsum; try done.
  intros [= <-]. exists s. split; [done|]. intros ws w [_ _ Hbo Hao Hrb Hra].
  split; [done|]. split; try done; try (by apply kraken_advance_ok);
    apply advance_delta; auto using kraken_prunedKey_stored, kraken_changes_ok.
Qed.

Lemma kraken_repeated o w : processEvent book o w ≠ Ok Repeated.
Proof.
  unfold processEvent. case_bool_decide; [|case_bool_decide; [destruct o|]]; try done;
    destruct (apply _ _ _); try done; cbn; by case_bool_decide.
Qed.

(** C23: every view that the Kraken book hands out is a checked replica.
    Whatever the public stream delivers, a published view shows the best levels
    of the replica of an unbroken run of the book messages of its connection
    (a snapshot and all the updates after it up to the last one, none left out
    and none added), and its checksum is both the one the exchange put on that
    last message and the CRC-32 of the replica. *)
Theorem kraken_views_are_checked_replicas ctx public handler ms v :
  Publish v ∈ (Run book ctx public handler ms).1 →
  ∃ pre ws post bids asks w,
    wires (P:=kraken book) (view_Generation v) (arrivals (react <$> ms)) = pre ++ ws ++ post ∧
    chained starts follows (λ _ _, False) ws ws w ∧ ev_Checksum (w_event w) = view_Checksum v ∧
    spotLocalOrderBookChecksum asks bids = view_Checksum v ∧
    replica changes (depth book) ws true (quantities bids) ∧
    replica changes (depth book) ws false (quantities asks) ∧
    shows true (viewDepth book) (quantities bids) (view_Bids v) ∧
    shows false (viewDepth book) (quantities asks) (view_Asks v).
Proof.
  intros Hv. unfold Run in Hv. destruct (_ ;; _) as [u|err] in Hv; [|by apply elem_of_nil in Hv].
  pose proof (published_replicates (P:=kraken book) starts follows (λ _ _, False) (λ _, True) replicates
    (λ o w s _, kraken_started o w s) (λ o w s _, kraken_continued o w s)
    (λ o w _ H, False_ind _ (kraken_repeated o w H)) (react <$> ms) v (Forall_true _ _ (λ _, I))) as H.
  destruct (run_messages newProcessor (react <$> ms)) as [[p os] e]. simpl in *.
  destruct (H Hv) as (s & g & sync & gaps & pre & run & post & ws & w & -> & Hw & Hch & Hr).
  pose proof (chained_complete _ _ _ _ _ _ (λ _ _ F, F) Hch) as ->. destruct Hr as [Hsum Hsum' Hbo Hao Hb Ha].
  exists pre, ws, post, (bids s), (asks s), w.
  split_and!; try done; by apply sortedLocalLevels_shows.
Qed.

(** C24: a one-byte error is detected.  If after a valid update the text that
    is summed differs in one byte from the one that the exchange summed, the
    book publishes nothing: it drops its state, counts a gap and reconnects. *)
Theorem kraken_one_byte_error_is_detected p s w pre post c1 c2 :
  generation p ≠ 0 → state p = Some s → w_Type w = "update" →
  validateEvent book (w_Type w) (w_event w) = Ok tt →
  checksumPayload (asks (advanced (depth book) s w)) (bids (advanced (depth book) s w)) =
    pre +:+ String c1 post →
  ev_Checksum (w_event w) = ChecksumIEEE (pre +:+ String c2 post) → c1 ≠ c2 →
  process (P:=kraken book) p (generation p) w =
    Ok (MkProcessor (generation p) (synchronizationID p) (uint64 (gapCount p + 1)) None, Reconnect).
Proof.
  intros Hg Hs Hty Hv Hpay Hsum Hne. unfold process.
  rewrite (bool_decide_eq_false_2 (_ = 0)), (bool_decide_eq_false_2 (generation p < _)) by (done || lia).
  rewrite enterGeneration_same by done. cbn [validateWire kraken judge]. rewrite Hv. cbn [mbind result_bind].
  apply kraken_validateEvent_Ok in Hv as [Hvb Hva]. unfold processEvent.
  rewrite Hty, bool_decide_eq_false_2, bool_decide_eq_true_2, Hs by done.
  rewrite (kraken_apply_Ok _ _ _ Hvb Hva). cbn [mbind result_bind].
  rewrite bool_decide_eq_false_2; [done|].
  cbn [checksum advanced checked_state asks bids] in *. unfold spotLocalOrderBookChecksum.
  rewrite Hpay, Hsum. by apply ChecksumIEEE_detects.
Qed.
End replicas.

(** ** A concrete stream *)

Definition demo_book : SpotLocalOrderBook := MkSpotLocalOrderBook "BTC/USD" 10 2 "seoul".

Example kraken_demo_book_built : NewSpotLocalOrderBook (MkConfig "BTC/USD" 0 2 " seoul") = Ok demo_book.
Proof. vm_compute. reflexivity. Qed.

Definition demo_public : SpotPublicStream :=
  MkPublicStream "seoul" [MkSubscription SpotChannelBook ["BTC/USD"; "ETH/USD"] 0 0 "" None].

Definition demo_snapshot : SpotStreamBook :=
  MkSpotStreamBook "BTC/USD" [MkBookLevel "99.5" "1.0"; MkBookLevel "99.0" "2"]
    [MkBookLevel "100.5" "0.30"] 1721100439 "2024-01-01T00:00:00Z".
Definition demo_update (sum : Z) : SpotStreamBook :=
  MkSpotStreamBook "BTC/USD" [MkBookLevel "99.5" "0.0"] [MkBookLevel "100.6" "0.5"] sum
    "2024-01-01T00:00:01Z".

Definition demo_message (ty : string) (e : SpotStreamBook) : SpotStreamMessage :=
  MkMessage "book" ty (Ok [MkDelivery 1 e None]).

(** The last message has a wrong checksum. *)
Definition demo_messages : list SpotStreamMessage :=
  [demo_message "snapshot" demo_snapshot; demo_message "update" (demo_update 1172292043);
   demo_message "update" (demo_update 7)].

Definition demo_view : SpotLocalOrderBookView :=
  MkView "BTC/USD" 10 2 1 1 0 1172292043 "2024-01-01T00:00:01Z" [MkBookLevel "99.0" "2"]
    [MkBookLevel "100.5" "0.30"; MkBookLevel "100.6" "0.5"].

Lemma kraken_views_are_checked_replicas_witness :
  (Run demo_book true (Some demo_public) true demo_messages).1 !! 1%nat = Some (Publish demo_view) ∧
  (Run demo_book true (Some demo_public) true demo_messages).1 !! 2%nat = Some Reconnect ∧
  ∃ pre ws post w,
    wires (P:=kraken demo_book) 1 (arrivals (react <$> demo_messages)) = pre ++ ws ++ post ∧
    chained starts follows (λ _ _, False) ws ws w ∧ ev_Checksum (w_event w) = 1172292043.
Proof.
  assert ((Run demo_book true (Some demo_public) true demo_messages).1 !! 1%nat =
    Some (Publish demo_view)) as Hrun by (vm_compute; reflexivity).
  split; [exact Hrun|]. split; [vm_compute; reflexivity|].
  destruct (kraken_views_are_checked_replicas demo_book true (Some demo_public) true demo_messages demo_view
    (list_elem_of_lookup_2 _ _ _ Hrun)) as (pre & ws & post & b & a & w & Hw & Hc & Hs & _).
  exists pre, ws, post, w. split; [exact Hw|]. split; [exact Hc|exact Hs].
Defined.

Definition demo_state : spotLocalOrderBookState :=
  match apply (MkState ∅ ∅ 0 "") demo_snapshot 10 with Ok s => s | Err _ => MkState ∅ ∅ 0 "" end.

(** The exchange has a quantity of 3 at 99.0, the book one of 2. *)
Definition demo_wrong : wire := MkWire "update" (demo_update (ChecksumIEEE "100530100659903")).

Lemma kraken_one_byte_error_is_detected_witness :
  process (P:=kraken demo_book) (MkProcessor 1 1 0 (Some demo_state)) 1 demo_wrong =
    Ok (MkProcessor 1 1 1 None, Reconnect).
Proof.
  refine (kraken_one_byte_error_is_detected demo_book (MkProcessor 1 1 0 (Some demo_state)) demo_state
    demo_wrong "10053010065990" "" (char 50) (char 51) _ _ _ _ _ _ _).
  - discriminate.
  - reflexivity.
  - reflexivity.
  - vm_compute. reflexivity.
  - vm_compute. reflexivity.
  - vm_compute. reflexivity.
  - vm_compute. discriminate.
Defined.
