(* ===== verification/KrakenFuturesBook.v ===== *)
(** * The Kraken Futures local order book: [exchange/kraken/futures/local_order_book.go]

    A snapshot of all levels, then updates of one level each, with consecutive
    sequences.  The book has no depth: [sortedLocalLevels] of [PriceLevels] cuts
    its views only.  The processor is the instance [krakenFutures] of
    [StreamProtocol]: [processSnapshot] and [processUpdate] are [process] for the
    two kinds of event. *)

From S2P Require Import Prelude GoStrings Decimals Errors PriceLevels StreamBook StreamLoop.

Definition ExchangeKraken : string := "kraken".

Definition validationError (format : string) : error :=
  API (newAPIError ErrorValidation ExchangeKraken "" false (Errorf format)).

(** ** Subscriptions *)

Definition PublicFeedTicker : string := "ticker".
Definition PublicFeedTickerLite : string := "ticker_lite".
Definition PublicFeedTrade : string := "trade".
Definition PublicFeedBook : string := "book".
Definition PublicFeedHeartbeat : string := "heartbeat".

Record PublicStreamSubscription : Type := MkSubscription { Feed : string; ProductIDs : list string }.

Definition maximumStreamProductsPerFeed : Z := 100.

(** The characters of a product: A-Z, 0-9 and [_ : - .]. *)
Definition product_character (c : ascii) : bool :=
  is_upper c || is_digit c || in_cutset "_:-." c.

Definition validateStreamProduct (product : string) : result error unit :=
  let length := Z.of_nat (String.length product) in
  require (negb (bool_decide (length < 3) || bool_decide (64 < length) ||
                 negb (bool_decide (TrimSpace product = product)) || ContainsControl product))
    (validationError "Futures WebSocket product has an invalid format");;
  require (string_forall product_character product)
    (validationError "Futures WebSocket product has an invalid format").

(** The loop over the sorted products, with the previous one. *)
Definition checkProduct (previous : option string) (product : string) : result error (option string) :=
  validateStreamProduct product;;
  require (negb (bool_decide (previous = Some product)))
    (validationError "duplicate Futures WebSocket product %q");;
  Ok (Some product).

Definition validateStreamProducts (products : list string) : result error (list string) :=
  let validated := merge_sort string_le products in
  fold_result checkProduct None validated;;
  Ok validated.

Definition validatePublicStreamSubscription (subscription : PublicStreamSubscription)
    : result error PublicStreamSubscription :=
  (if bool_decide (Feed subscription ∈
        [PublicFeedTicker; PublicFeedTickerLite; PublicFeedTrade; PublicFeedBook]) then
     require (negb (bool_decide (ProductIDs subscription = []) ||
                    bool_decide (maximumStreamProductsPerFeed < Z.of_nat (length (ProductIDs subscription)))))
       (validationError "Futures WebSocket product count must be between 1 and %d")
   else if bool_decide (Feed subscription = PublicFeedHeartbeat) then
     require (bool_decide (ProductIDs subscription = []))
       (validationError "Futures heartbeat feed does not accept products")
   else Err (validationError "unsupported Futures public WebSocket feed %q"));;
  products ← validateStreamProducts (ProductIDs subscription);
  Ok (MkSubscription (Feed subscription) products).

(** ** Configuration *)

Record LocalOrderBookConfig : Type := MkConfig {
  conf_ProductID : string;
  conf_ViewDepth : Z;
  conf_EgressRouteID : string
}.

Record LocalOrderBook : Type := MkLocalOrderBook {
  productID : string;
  viewDepth : Z;
  routeID : string
}.

Definition defaultLocalOrderBookViewDepth : Z := 20.

Definition NewLocalOrderBook (config : LocalOrderBookConfig) : result error LocalOrderBook :=
  subscription ← validatePublicStreamSubscription
    (MkSubscription PublicFeedBook [conf_ProductID config]);
  let routeID := TrimSpace (conf_EgressRouteID config) in
  require (negb (bool_decide (routeID = ""))) (Sentinel ErrMissingEgressRoute);;
  let viewDepth :=
    if bool_decide (conf_ViewDepth config = 0) then defaultLocalOrderBookViewDepth
    else conf_ViewDepth config in
  require (negb (bool_decide (viewDepth < 1)))
    (validationError "Futures local order book view depth must be positive");;
  Ok (MkLocalOrderBook (nth 0 (ProductIDs subscription) "") viewDepth routeID).

(** ** The book *)

(** [StreamBookLevel] is [BookLevel]. *)
Record StreamBookSnapshot : Type := MkSnapshot {
  snap_Feed : string;
  snap_ProductID : string;
  snap_Sequence : Z;
  snap_Timestamp : Z;
  snap_Bids : list BookLevel;
  snap_Asks : list BookLevel
}.

Record StreamBookUpdate : Type := MkUpdate {
  upd_Feed : string;
  upd_ProductID : string;
  upd_Sequence : Z;
  upd_Timestamp : Z;
  upd_Side : string;
  upd_Price : string;
  upd_Quantity : string
}.

Definition SideBuy : string := "buy".
Definition SideSell : string := "sell".

Record localOrderBookState : Type := MkState {
  bids : Levels;
  asks : Levels;
  sequence : Z;
  timestamp : Z
}.

Record LocalOrderBookView : Type := MkView {
  view_ProductID : string;
  view_ViewDepth : Z;
  view_Generation : Z;
  view_SynchronizationID : Z;
  view_GapCount : Z;
  view_Sequence : Z;
  view_Timestamp : Z;
  view_Bids : list BookLevel;
  view_Asks : list BookLevel
}.

Definition parseLocalOrderBookLevel (allowZero : bool) (value : BookLevel) : result error levelUpdate :=
  let invalid := validationError "Futures local order book level is invalid" in
  if negb allowZero && decimalIsZero (Quantity value) then Err invalid
  else
    parse_texts invalid (validationError "Futures local order book price is invalid")
      (Price value) (Quantity value).

Definition applyLocalOrderBookLevel (allowZero : bool) : Levels → BookLevel → result error Levels :=
  apply_parsed (parseLocalOrderBookLevel allowZero).

(** The level of an update. *)
Definition updateLevel (event : StreamBookUpdate) : BookLevel :=
  MkBookLevel (upd_Price event) (upd_Quantity event).

(** The events of [processSnapshot] and of [processUpdate]. *)
Inductive wire : Type :=
  | SnapshotEvent (event : StreamBookSnapshot)
  | UpdateEvent (event : StreamBookUpdate).

Section book.
Context (book : LocalOrderBook).

Definition validateSnapshot (event : StreamBookSnapshot) : result error unit :=
  require (negb (negb (bool_decide (snap_Feed event = "book_snapshot")) ||
                 negb (bool_decide (snap_ProductID event = productID book)) ||
                 bool_decide (snap_Sequence event = 0) || bool_decide (snap_Timestamp event ≤ 0)))
    (validationError "Futures local order book snapshot identity or sequence is invalid");;
  check_items (parseLocalOrderBookLevel false) (snap_Bids event ++ snap_Asks event).

Definition validateUpdate (event : StreamBookUpdate) : result error unit :=
  require (negb (negb (bool_decide (upd_Feed event = PublicFeedBook)) ||
                 negb (bool_decide (upd_ProductID event = productID book)) ||
                 bool_decide (upd_Sequence event = 0) || bool_decide (upd_Timestamp event ≤ 0) ||
                 (negb (bool_decide (upd_Side event = SideBuy)) &&
                  negb (bool_decide (upd_Side event = SideSell)))))
    (validationError "Futures local order book update identity or sequence is invalid");;
  parseLocalOrderBookLevel true (updateLevel event);;
  Ok tt.

(** [localOrderBookState.view]. *)
Definition view (state : localOrderBookState) (generation synchronizationID gapCount : Z)
    : LocalOrderBookView :=
  MkView (productID book) (viewDepth book) generation synchronizationID gapCount
    (sequence state) (timestamp state)
    (sortedLocalLevels (bids state) (viewDepth book) true)
    (sortedLocalLevels (asks state) (viewDepth book) false).

(** [processSnapshot] after its validation. *)
Definition processSnapshot (event : StreamBookSnapshot) : result error (verdict localOrderBookState) :=
  bids ← fold_result (applyLocalOrderBookLevel false) ∅ (snap_Bids event);
  asks ← fold_result (applyLocalOrderBookLevel false) ∅ (snap_Asks event);
  Ok (Started (MkState bids asks (snap_Sequence event) (snap_Timestamp event))).

(** [processUpdate] after its validation. *)
Definition processUpdate (state : option localOrderBookState) (event : StreamBookUpdate)
    : result error (verdict localOrderBookState) :=
  match state with
  | None => Ok Broken
  | Some s =>
      if bool_decide (upd_Sequence event ≤ sequence s) then Ok Repeated
      else if bool_decide (sequence s = MaxUint64) ||
              negb (bool_decide (upd_Sequence event = uint64 (sequence s + 1)))
      then Ok Broken
      else if bool_decide (upd_Side event = SideBuy) then
        bids ← applyLocalOrderBookLevel true (bids s) (updateLevel event);
        Ok (Continued (MkState bids (asks s) (upd_Sequence event) (upd_Timestamp event)))
      else
        asks ← applyLocalOrderBookLevel true (asks s) (updateLevel event);
        Ok (Continued (MkState (bids s) asks (upd_Sequence event) (upd_Timestamp event)))
  end.

#[export] Instance krakenFutures : StreamProtocol wire localOrderBookState LocalOrderBookView := {
  relevant _ := true;
  validateWire w :=
    match w with SnapshotEvent event => validateSnapshot event | UpdateEvent event => validateUpdate event end;
  judge state w :=
    match w with SnapshotEvent event => processSnapshot event | UpdateEvent event => processUpdate state event end;
  viewOf := view;
  zero_generation := validationError "Futures local order book WebSocket generation is zero"
}.

(** ** [Run] *)

(** [StreamMessage], with the results of decoding its frame. *)
Record StreamMessage : Type := MkMessage {
  m_Event : string;
  m_Feed : string;
  m_ProductID : string;
  m_Snapshot : result error StreamBookSnapshot;
  m_Update : result error StreamBookUpdate
}.

(** A message with the generation of the stream when it is handled, and the
    answer of the reconnection or of the handler it leads to. *)
Record delivery : Type := MkDelivery {
  d_generation : Z;
  d_message : StreamMessage;
  d_answer : option error
}.

(** The function that [Run] gives to the stream, up to its call of the processor. *)
Definition react (d : delivery) : reaction :=
  let message := d_message d in
  let event w := Events [MkArrival (d_generation d) w (d_answer d)] in
  if negb (bool_decide (m_Event message = "")) then Ignores
  else if bool_decide (m_Feed message = "book_snapshot") then
    if negb (bool_decide (m_ProductID message = productID book)) then Ignores
    else match m_Snapshot message with Err err => Fails err | Ok e => event (SnapshotEvent e) end
  else if bool_decide (m_Feed message = PublicFeedBook) then
    if negb (bool_decide (m_ProductID message = productID book)) then Ignores
    else match m_Update message with Err err => Fails err | Ok e => event (UpdateEvent e) end
  else Ignores.

Record PublicStream : Type := MkPublicStream {
  stream_routeID : string;
  publicSubscriptions : list PublicStreamSubscription
}.

Definition hasBookSubscription (public : PublicStream) (productID : string) : bool :=
  existsb (λ s, bool_decide (Feed s = PublicFeedBook) && bool_decide (productID ∈ ProductIDs s))
    (publicSubscriptions public).

(** [Run]: what it did and its result, [None] while it is running. *)
Definition Run (ctx : bool) (public : option PublicStream) (handler : bool) (ds : list delivery)
    : list (outcome (View:=LocalOrderBookView)) * option error :=
  match (
    require ctx (Errorf "Kraken Futures local order book context is nil");;
    public ← (match public with
              | Some public => Ok public
              | None => Err (Errorf "Kraken Futures local order book public stream is required")
              end);
    require handler (Errorf "Kraken Futures local order book handler is required");;
    require (bool_decide (stream_routeID public = routeID book))
      (validationError "Futures local order book and public WebSocket routes must match");;
    require (hasBookSubscription public (productID book))
      (validationError "public stream does not contain the required Futures book product"))
  with
  | Err err => ([], Some err)
  | Ok _ => let '(_, os, r) := run_messages newProcessor (react <$> ds) in (os, r)
  end.
End book.

(** ** Published views are replicas *)

Definition sequence_of (w : wire) : Z :=
  match w with SnapshotEvent event => snap_Sequence event | UpdateEvent event => upd_Sequence event end.

(** The changes of an event on the bids or the asks. *)
Definition changes (w : wire) (d : bool) : list levelUpdate :=
  match w with
  | SnapshotEvent event =>
      updates_of (parseLocalOrderBookLevel false) (if d then snap_Bids event else snap_Asks event)
  | UpdateEvent event =>
      if Bool.eqb d (bool_decide (upd_Side event = SideBuy))
      then updates_of (parseLocalOrderBookLevel true) [updateLevel event] else []
  end.

Definition starts (w : wire) : Prop := if w is SnapshotEvent _ then True else False.

(** [w2] continues [w1] without a gap. *)
Definition follows (w1 w2 : wire) : Prop := ¬ starts w2 ∧ sequence_of w2 = sequence_of w1 + 1.

(** [w2] is not newer than [w1]. *)
Definition repeats (w1 w2 : wire) : Prop := ¬ starts w2 ∧ sequence_of w2 ≤ sequence_of w1.

(** Go's types: sequences are uint64. *)
Definition typed (w : wire) : Prop := is_uint64 (sequence_of w).

Lemma kf_parse_ok allowZero value u : parseLocalOrderBookLevel allowZero value = Ok u → update_ok u.
Proof. unfold parseLocalOrderBookLevel. destruct (_ && _); [done|]. apply parse_texts_ok. Qed.

Lemma kf_changes_ok w d : Forall update_ok (changes w d).
Proof.
  destruct w as [e|e]; unfold changes; [apply updates_of_ok, kf_parse_ok|].
  destruct (Bool.eqb _ _); [apply updates_of_ok, kf_parse_ok|constructor].
Qed.

Section replicas.
Context (book : LocalOrderBook).

Lemma kf_validateSnapshot_Ok e :
  validateSnapshot book e = Ok tt →
  Forall (parses (parseLocalOrderBookLevel false)) (snap_Bids e) ∧
  Forall (parses (parseLocalOrderBookLevel false)) (snap_Asks e).
Proof.
  intros H. apply result_bind_Ok in H as (? & _ & H). by apply check_items_Ok, Forall_app in H.
Qed.

Lemma kf_validateUpdate_Ok e :
  validateUpdate book e = Ok tt → ∃ u, parseLocalOrderBookLevel true (updateLevel e) = Ok u.
Proof. intros H. apply result_bind_Ok in H as (? & _ & H). apply result_bind_Ok in H as (u & Hu & _). by exists u. Qed.

(** The state is the replica of a chain of events up to [w]. *)
Record replicates (s : localOrderBookState) (ws : list wire) (w : wire) : Prop := {
  rep_sequence : sequence s = sequence_of w;
  rep_uint64 : is_uint64 (sequence s);
  rep_bids_ok : levels_ok (bids s);
  rep_asks_ok : levels_ok (asks s);
  rep_bids : same_side (quantities (bids s)) (applied changes ws true);
  rep_asks : same_side (quantities (asks s)) (applied changes ws false)
}.

Lemma kf_started o w s :
  typed w → validateWire (StreamProtocol:=krakenFutures book) w = Ok tt →
  judge (StreamProtocol:=krakenFutures book) o w = Ok (Started s) → starts w ∧ replicates s [w] w.
Proof.
  intros Ht Hv Hj. destruct w as [e|e]; simpl in Hv, Hj.
  - apply kf_validateSnapshot_Ok in Hv as [Hb Ha]. unfold processSnapshot, applyLocalOrderBookLevel in Hj.
    rewrite (proj2 (apply_parsed_Ok _ _ _ _) (conj Hb eq_refl)) in Hj. cbn [mbind result_bind] in Hj.
    rewrite (proj2 (apply_parsed_Ok _ _ _ _) (conj Ha eq_refl)) in Hj. injection Hj as <-.
    split; [done|].
    split; simpl; [done|done|apply (update_levels_ok ∅ (changes (SnapshotEvent e) true))
      |apply (update_levels_ok ∅ (changes (SnapshotEvent e) false))
      |apply (applied_first changes (SnapshotEvent e) true)
      |apply (applied_first changes (SnapshotEvent e) false)];
      auto using levels_ok_empty, kf_changes_ok.
  - unfold processUpdate in Hj. destruct o as [s0|]; [|done]. do 2 (case_match; [done|]).
    by case_match; destruct (applyLocalOrderBookLevel _ _ _).
Qed.

(** An update on a side of the book. *)
Lemma kf_apply_side levels levels' ws e d :
  levels_ok levels → same_side (quantities levels) (applied changes ws d) →
  bool_decide (upd_Side e = SideBuy) = d →
  applyLocalOrderBookLevel true levels (updateLevel e) = Ok levels' →
  levels_ok levels' ∧ same_side (quantities levels') (applied changes (ws ++ [UpdateEvent e]) d) ∧
  applied changes (ws ++ [UpdateEvent e]) (negb d) = applied changes ws (negb d).
Proof.
  intros Hok Hs Hd Ha. unfold applyLocalOrderBookLevel, apply_parsed in Ha.
  destruct (parseLocalOrderBookLevel true (updateLevel e)) as [u|] eqn:Hu; [|done]. injection Ha as <-.
  assert (changes (UpdateEvent e) d = [u]) as Hc
    by (unfold changes, updates_of; rewrite Hd, Bool.eqb_reflx; simpl; by rewrite Hu).
  pose proof (applied_update changes levels ws (UpdateEvent e) d Hs) as Hs'.
  pose proof (kf_changes_ok (UpdateEvent e) d) as Hcok. rewrite Hc in Hs', Hcok.
  split_and!; [by apply (update_levels_ok levels [u])|done|].
  rewrite applied_snoc. unfold changes at 2. by rewrite Hd, Bool.eqb_negb1.
Qed.

(** A snapshot can only start a book. *)
Lemma kf_snapshot_starts e v : processSnapshot e = Ok v → ∃ s, v = Started s.
Proof. unfold processSnapshot. intros H. invert_result. eauto. Qed.

Lemma kf_continued o w' s' :
  typed w' → judge (StreamProtocol:=krakenFutures book) o w' = Ok (Continued s') →
  ∃ s, o = Some s ∧ ∀ ws w, replicates s ws w → follows w w' ∧ replicates s' (ws ++ [w']) w'.
Proof.
  intros Ht Hj. destruct w' as [e|e]; simpl in Hj.
  { by apply kf_snapshot_starts in Hj as [? ?]. }
  destruct o as [s|]; [|done]. unfold processUpdate in Hj. case_match; [done|].
  destruct (_ || _) eqn:Hlink; [done|]. exists s. split; [done|].
  intros ws w [Hseq Hint Hbo Hao Hb Ha]. go_bool. destruct Hlink as [Hmax Hnext].
  rewrite uint64_id in Hnext by (unfold is_uint64, MaxUint64 in *; lia).
  assert (follows w (UpdateEvent e)) as Hf by (split; [by intros []|simpl in *; lia]).
  split; [exact Hf|].
  case_bool_decide as Hside; destruct (applyLocalOrderBookLevel _ _ _) as [levels|] eqn:Happly; [|done| |done];
    injection Hj as <-.
  - destruct (kf_apply_side _ _ _ _ true Hbo Hb (bool_decide_eq_true_2 _ Hside) Happly) as (? & ? & Ho).
    split; simpl; try done. simpl in Ho. by rewrite Ho.
  - destruct (kf_apply_side _ _ _ _ false Hao Ha (bool_decide_eq_false_2 _ Hside) Happly) as (? & ? & Ho).
    split; simpl; try done. simpl in Ho. by rewrite Ho.
Qed.

Lemma kf_repeated o w' :
  judge (StreamProtocol:=krakenFutures book) o w' = Ok Repeated →
  ∃ s, o = Some s ∧ ∀ ws w, replicates s ws w → repeats w w'.
Proof.
  intros Hj. destruct w' as [e|e]; simpl in Hj.
  { by apply kf_snapshot_starts in Hj as [? ?]. }
  destruct o as [s|]; [|done]. unfold processUpdate in Hj. case_bool_decide as Hle.
  - exists s. split; [done|]. intros ws w [Hseq _ _ _ _ _]. split; [by intros []|]. simpl. lia.
  - destruct (_ || _); [done|]. by case_match; destruct (applyLocalOrderBookLevel _ _ _).
Qed.

(** C25: every view that the Kraken Futures book hands out is a replica.
    Whatever the public stream delivers, a published view shows the best levels
    of the book that an unbroken run of the messages of its own connection
    defines: a snapshot, then updates with consecutive sequences up to the one
    of the view, with nothing left out but updates that are not newer than one
    before them. *)
Theorem krakenFutures_views_are_replicas ctx public handler ds v :
  Forall (λ a, typed (a_wire a)) (arrivals (react book <$> ds)) →
  Publish v ∈ (Run book ctx public handler ds).1 →
  ∃ pre run post ws w,
    wires (P:=krakenFutures book) (view_Generation v) (arrivals (react book <$> ds)) = pre ++ run ++ post ∧
    chained starts follows repeats run ws w ∧ sequence_of w = view_Sequence v ∧
    shows true (viewDepth book) (applied changes ws true) (view_Bids v) ∧
    shows false (viewDepth book) (applied changes ws false) (view_Asks v).
Proof.
  intros Ht Hv. unfold Run in Hv. destruct (_ ;; _) as [u|err] in Hv; [|by apply elem_of_nil in Hv].
  pose proof (published_replicates (P:=krakenFutures book) starts follows repeats typed replicates
    kf_started (λ o w s H _, kf_continued o w s H) (λ o w _, kf_repeated o w) (react book <$> ds) v Ht) as H.
  destruct (run_messages newProcessor (react book <$> ds)) as [[p os] e]. simpl in *.
  destruct (H Hv) as (s & g & sync & gaps & pre & run & post & ws & w & -> & Hw & Hch & Hr).
  destruct Hr as [Hseq _ Hbo Hao Hb Ha]. exists pre, run, post, ws, w.
  split_and!; try done; [rewrite <-Hb|rewrite <-Ha]; by apply sortedLocalLevels_shows.
Qed.

Lemma kf_judge_without_state w v :
  ¬ starts w → judge (StreamProtocol:=krakenFutures book) None w = Ok v → v = Broken.
Proof. destruct w; simpl; [done|]. by intros _ [= <-]. Qed.

(** After a gap nothing is published until a new snapshot.  When the book
    asks for a reconnection, no message of any connection but a snapshot makes
    it hand out a view: a book with a hole is never shown. *)
Theorem krakenFutures_gap_silences p g w p' ds v :
  process (P:=krakenFutures book) p g w = Ok (p', Reconnect) →
  Forall (λ a, ¬ starts (a_wire a)) (arrivals (react book <$> ds)) →
  Publish v ∉ (run_messages (P:=krakenFutures book) p' (react book <$> ds)).1.2.
Proof.
  intros Hp Hs. apply (run_messages_silent starts kf_judge_without_state); [|done].
  by eapply process_reconnect.
Qed.
End replicas.

(** ** A concrete stream *)

Definition demo_book : LocalOrderBook := MkLocalOrderBook "PI_XBTUSD" 2 "route-b".

Example krakenFutures_demo_book_built :
  NewLocalOrderBook (MkConfig "PI_XBTUSD" 2 " route-b") = Ok demo_book.
Proof. vm_compute. reflexivity. Qed.

Definition demo_public : PublicStream :=
  MkPublicStream "route-b" [MkSubscription PublicFeedBook ["PF_ETHUSD"; "PI_XBTUSD"]].

Definition demo_snapshot : StreamBookSnapshot :=
  MkSnapshot "book_snapshot" "PI_XBTUSD" 10 1000
    [MkBookLevel "100.0" "1.0"; MkBookLevel "99.0" "2.0"; MkBookLevel "98.0" "3.0"]
    [MkBookLevel "101.0" "1.0"; MkBookLevel "102.0" "2.0"].
Definition demo_update (sequence : Z) (side price quantity : string) : StreamBookUpdate :=
  MkUpdate "book" "PI_XBTUSD" sequence (990 + sequence) side price quantity.

Definition undecoded {A} : result error A := Err (Errorf "Kraken Futures stream decode").
Definition demo_snapshot_delivery : delivery :=
  MkDelivery 1 (MkMessage "" "book_snapshot" "PI_XBTUSD" (Ok demo_snapshot) undecoded) None.
Definition demo_delivery (e : StreamBookUpdate) : delivery :=
  MkDelivery 1 (MkMessage "" "book" "PI_XBTUSD" undecoded (Ok e)) None.

(** A stale update before the last, and a gap at the end. *)
Definition demo_deliveries : list delivery :=
  [demo_snapshot_delivery; demo_delivery (demo_update 11 "buy" "100.00" "0");
   demo_delivery (demo_update 11 "sell" "101" "9"); demo_delivery (demo_update 12 "sell" "101.0" "5.0");
   demo_delivery (demo_update 14 "sell" "101.0" "6.0")].

Definition demo_view : LocalOrderBookView :=
  MkView "PI_XBTUSD" 2 1 1 0 12 1002 [MkBookLevel "99.0" "2.0"; MkBookLevel "98.0" "3.0"]
    [MkBookLevel "101.0" "5.0"; MkBookLevel "102.0" "2.0"].

Lemma krakenFutures_demo_typed :
  Forall (λ a, typed (a_wire a)) (arrivals (react demo_book <$> demo_deliveries)).
Proof.
  repeat (constructor; [cbv [typed a_wire sequence_of is_uint64 MaxUint64 demo_snapshot demo_update
    snap_Sequence upd_Sequence]; lia|]). constructor.
Qed.

Lemma krakenFutures_views_are_replicas_witness :
  (Run demo_book true (Some demo_public) true demo_deliveries).1 !! 2%nat = Some (Publish demo_view) ∧
  ∃ pre run post ws w,
    wires (P:=krakenFutures demo_book) 1 (arrivals (react demo_book <$> demo_deliveries)) = pre ++ run ++ post ∧
    chained starts follows repeats run ws w ∧ sequence_of w = 12.
Proof.
  assert ((Run demo_book true (Some demo_public) true demo_deliveries).1 !! 2%nat =
    Some (Publish demo_view)) as Hrun by (vm_compute; reflexivity).
  split; [exact Hrun|].
  destruct (krakenFutures_views_are_replicas demo_book true (Some demo_public) true demo_deliveries demo_view
    krakenFutures_demo_typed (list_elem_of_lookup_2 _ _ _ Hrun))
    as (pre & run & post & ws & w & Hw & Hc & Hs & _).
  exists pre, run, post, ws, w. split; [exact Hw|]. split; [exact Hc|exact Hs].
Defined.

(** The book after the snapshot meets sequence 14, then 11 and 12. *)
Lemma krakenFutures_gap_silences_witness :
  ∃ p p', process (P:=krakenFutures demo_book) p 1 (UpdateEvent (demo_update 14 "buy" "100" "1")) =
    Ok (p', Reconnect) ∧ gapCount p' = 1 ∧
  (∀ v, Publish v ∉ (run_messages (P:=krakenFutures demo_book) p'
    (react demo_book <$> [demo_delivery (demo_update 11 "buy" "100" "1");
                          demo_delivery (demo_update 12 "buy" "100" "2")])).1.2).
Proof.
  eexists (run_messages (P:=krakenFutures demo_book) newProcessor (react demo_book <$> [demo_snapshot_delivery])).1.1,
    (MkProcessor 1 1 1 None).
  split; [vm_compute; reflexivity|]. split; [reflexivity|]. intros v.
  refine (krakenFutures_gap_silences demo_book
    (run_messages (P:=krakenFutures demo_book) newProcessor (react demo_book <$> [demo_snapshot_delivery])).1.1 1
    (UpdateEvent (demo_update 14 "buy" "100" "1")) (MkProcessor 1 1 1 None) _ v _ _).
  - vm_compute; reflexivity.
  - repeat (constructor; [intros []|]). constructor.
Defined.
