(* ===== verification/MexcProtobuf.v ===== *)
(** * The binary messages of MEXC: [exchange/mexc/protobuf.go]

    [walkProtobuf] reads the fields of a Protobuf message one after the other
    and hands each to a visitor, which stores it in a struct; nested messages are
    decoded by a visitor in turn.  Package protowire is third-party code: its
    readers are the class [Protowire], and [ProtowireLaws] has what the code
    relies on, that a reader consumes at least the byte it needs and never more
    than there is, and that it reads back what the writers of protowire append.

    A struct that is returned beside an error is discarded by every caller, so
    that the decoders return one or the other. *)

From S2P Require Import Prelude GoStrings GoStrconv Errors PriceLevels.

(** ** Package protowire *)

(** The type of a field, the consumed length after it; negative lengths are
    errors.  The constants are the wire types that the code distinguishes. *)
Class Protowire : Type := {
  VarintType : Z;
  BytesType : Z;
  ConsumeTag : string → Z * Z * Z;
  ConsumeVarint : string → Z * Z;
  ConsumeBytes : string → string * Z;
  ConsumeFieldValue : Z → Z → string → Z;
  ParseError : Z → error;
  AppendTag : Z → Z → string;
  AppendVarint : Z → string;
  AppendBytes : string → string
}.

Definition valid_number (number : Z) : Prop := 1 ≤ number < 2 ^ 29.
Definition length_of (s : string) : Z := Z.of_nat (String.length s).

Class ProtowireLaws (P : Protowire) : Prop := {
  types_differ : VarintType ≠ BytesType;
  tag_bounds data number typeID n :
    ConsumeTag data = (number, typeID, n) → n < 0 ∨ 0 < n ≤ length_of data;
  varint_bounds data : (ConsumeVarint data).2 ≤ length_of data;
  bytes_bounds data : (ConsumeBytes data).2 ≤ length_of data;
  value_bounds number typeID data : ConsumeFieldValue number typeID data ≤ length_of data;
  tag_roundtrip number typeID rest :
    valid_number number → typeID = VarintType ∨ typeID = BytesType →
    ConsumeTag (AppendTag number typeID +:+ rest) = (number, typeID, length_of (AppendTag number typeID));
  varint_roundtrip v rest :
    is_uint64 v → ConsumeVarint (AppendVarint v +:+ rest) = (v, length_of (AppendVarint v));
  bytes_roundtrip b rest :
    is_int64 (length_of b) → ConsumeBytes (AppendBytes b +:+ rest) = (b, length_of (AppendBytes b))
}.

(** ** The messages *)

Record protobufField : Type := MkField {
  number : Z;
  typeID : Z;
  bytes : string;
  varint : Z
}.

Definition MessageText : Z := 1.
Definition MessageBinary : Z := 2.

Record StreamAggregateTrade : Type := MkAggregateTrade {
  deal_Price : string;
  deal_Quantity : string;
  deal_TradeType : Z;
  deal_Time : Z;
  deal_TradeID : string;
  deal_Raw : string
}.
#[export] Instance StreamAggregateTrade_settable : Settable StreamAggregateTrade := λ r,
  MkAggregateTrade (deal_Price r) (deal_Quantity r) (deal_TradeType r) (deal_Time r) (deal_TradeID r)
    (deal_Raw r).

(** [BookLevel] is the one of [PriceLevels]. *)
#[export] Instance BookLevel_settable : Settable BookLevel := λ r, MkBookLevel (Price r) (Quantity r).

Record StreamBookTicker : Type := MkBookTicker {
  ticker_BidPrice : string;
  ticker_BidQuantity : string;
  ticker_AskPrice : string;
  ticker_AskQuantity : string;
  ticker_Version : string;
  ticker_LastOrderCreateTime : Z;
  ticker_Raw : string
}.
#[export] Instance StreamBookTicker_settable : Settable StreamBookTicker := λ r,
  MkBookTicker (ticker_BidPrice r) (ticker_BidQuantity r) (ticker_AskPrice r) (ticker_AskQuantity r)
    (ticker_Version r) (ticker_LastOrderCreateTime r) (ticker_Raw r).

Record StreamCandle : Type := MkCandle {
  candle_Interval : string;
  candle_WindowStart : Z;
  candle_Open : string;
  candle_Close : string;
  candle_High : string;
  candle_Low : string;
  candle_Volume : string;
  candle_Amount : string;
  candle_WindowEnd : Z;
  candle_Raw : string
}.
#[export] Instance StreamCandle_settable : Settable StreamCandle := λ r,
  MkCandle (candle_Interval r) (candle_WindowStart r) (candle_Open r) (candle_Close r)
    (candle_High r) (candle_Low r) (candle_Volume r) (candle_Amount r) (candle_WindowEnd r)
    (candle_Raw r).

Record StreamAccount : Type := MkAccount {
  account_Asset : string;
  account_CoinID : string;
  account_Balance : string;
  account_BalanceChange : string;
  account_Frozen : string;
  account_FrozenChange : string;
  account_ChangeType : string;
  account_Time : Z;
  account_Raw : string
}.
#[export] Instance StreamAccount_settable : Settable StreamAccount := λ r,
  MkAccount (account_Asset r) (account_CoinID r) (account_Balance r) (account_BalanceChange r)
    (account_Frozen r) (account_FrozenChange r) (account_ChangeType r) (account_Time r)
    (account_Raw r).

Record StreamAccountDeal : Type := MkAccountDeal {
  fill_Price : string;
  fill_Quantity : string;
  fill_Amount : string;
  fill_TradeType : Z;
  fill_Maker : bool;
  fill_SelfTrade : bool;
  fill_TradeID : string;
  fill_ClientOrderID : string;
  fill_OrderID : string;
  fill_FeeAmount : string;
  fill_FeeCurrency : string;
  fill_Time : Z;
  fill_Raw : string
}.
#[export] Instance StreamAccountDeal_settable : Settable StreamAccountDeal := λ r,
  MkAccountDeal (fill_Price r) (fill_Quantity r) (fill_Amount r) (fill_TradeType r) (fill_Maker r)
    (fill_SelfTrade r) (fill_TradeID r) (fill_ClientOrderID r) (fill_OrderID r)
    (fill_FeeAmount r) (fill_FeeCurrency r) (fill_Time r) (fill_Raw r).

Record StreamAccountOrder : Type := MkAccountOrder {
  order_ID : string;
  order_ClientOrderID : string;
  order_Price : string;
  order_Quantity : string;
  order_Amount : string;
  order_AveragePrice : string;
  order_OrderType : Z;
  order_TradeType : Z;
  order_Maker : bool;
  order_RemainingAmount : string;
  order_RemainingQuantity : string;
  order_LastDealQuantity : string;
  order_CumulativeQuantity : string;
  order_CumulativeAmount : string;
  order_Status : Z;
  order_CreatedAt : Z;
  order_Market : string;
  order_TriggerType : Z;
  order_TriggerPrice : string;
  order_State : Z;
  order_OCOID : string;
  order_RouteFactor : string;
  order_SymbolID : string;
  order_MarketID : string;
  order_MarketCurrencyID : string;
  order_CurrencyID : string;
  order_Raw : string
}.
#[export] Instance StreamAccountOrder_settable : Settable StreamAccountOrder := λ r,
  MkAccountOrder (order_ID r) (order_ClientOrderID r) (order_Price r) (order_Quantity r) (order_Amount r)
    (order_AveragePrice r) (order_OrderType r) (order_TradeType r) (order_Maker r)
    (order_RemainingAmount r) (order_RemainingQuantity r) (order_LastDealQuantity r)
    (order_CumulativeQuantity r) (order_CumulativeAmount r) (order_Status r)
    (order_CreatedAt r) (order_Market r) (order_TriggerType r) (order_TriggerPrice r)
    (order_State r) (order_OCOID r) (order_RouteFactor r) (order_SymbolID r)
    (order_MarketID r) (order_MarketCurrencyID r) (order_CurrencyID r) (order_Raw r).

Record StreamAggregateTrades : Type := MkAggregateTrades {
  trades_Deals : list StreamAggregateTrade;
  trades_EventType : string;
  trades_Raw : string
}.
#[export] Instance StreamAggregateTrades_settable : Settable StreamAggregateTrades := λ r,
  MkAggregateTrades (trades_Deals r) (trades_EventType r) (trades_Raw r).

Record StreamDiffDepth : Type := MkDiffDepth {
  diff_Asks : list BookLevel;
  diff_Bids : list BookLevel;
  diff_EventType : string;
  diff_FromVersion : string;
  diff_ToVersion : string;
  diff_LastOrderCreateTime : Z;
  diff_Raw : string
}.
#[export] Instance StreamDiffDepth_settable : Settable StreamDiffDepth := λ r,
  MkDiffDepth (diff_Asks r) (diff_Bids r) (diff_EventType r) (diff_FromVersion r) (diff_ToVersion r)
    (diff_LastOrderCreateTime r) (diff_Raw r).

Record StreamPartialDepth : Type := MkPartialDepth {
  partial_Asks : list BookLevel;
  partial_Bids : list BookLevel;
  partial_EventType : string;
  partial_Version : string;
  partial_LastOrderCreateTime : Z;
  partial_Raw : string
}.
#[export] Instance StreamPartialDepth_settable : Settable StreamPartialDepth := λ r,
  MkPartialDepth (partial_Asks r) (partial_Bids r) (partial_EventType r) (partial_Version r)
    (partial_LastOrderCreateTime r) (partial_Raw r).

Record StreamControl : Type := MkControl {
  control_ID : Z;
  control_Code : Z;
  control_Message : string;
  control_Raw : string
}.

Record StreamMessage : Type := MkMessage {
  Channel : string;
  Symbol : string;
  SymbolID : string;
  CreateTime : Z;
  SendTime : Z;
  Control : option StreamControl;
  AggregateTrades : option StreamAggregateTrades;
  DiffDepth : option StreamDiffDepth;
  PartialDepth : option StreamPartialDepth;
  BookTicker : option StreamBookTicker;
  Candle : option StreamCandle;
  Account : option StreamAccount;
  AccountDeal : option StreamAccountDeal;
  AccountOrder : option StreamAccountOrder;
  Raw : string
}.
#[export] Instance StreamMessage_settable : Settable StreamMessage := λ r,
  MkMessage (Channel r) (Symbol r) (SymbolID r) (CreateTime r) (SendTime r) (Control r)
    (AggregateTrades r) (DiffDepth r) (PartialDepth r) (BookTicker r) (Candle r) (Account r)
    (AccountDeal r) (AccountOrder r) (Raw r).

Definition newMessage (raw : string) : StreamMessage :=
  MkMessage "" "" "" 0 0 None None None None None None None None None raw.

Definition clearBody (message : StreamMessage) : StreamMessage :=
  message <| AggregateTrades := None |> <| DiffDepth := None |> <| PartialDepth := None |>
    <| BookTicker := None |> <| Candle := None |> <| Account := None |>
    <| AccountDeal := None |> <| AccountOrder := None |>.

(** ** Reading fields *)

Section protobuf.
Context {P : Protowire}.

(** A loop over [data], which [fuel] bounds: every round consumes a tag, so the
    length of the data is enough ([walkProtobuf_unfold]). *)
Fixpoint walk {A} (fuel : nat) (visit : A → protobufField → result error A) (result : A) (data : string)
    : Prelude.result error A :=
  match fuel, data with
  | O, _ | _, EmptyString => Ok result
  | S fuel, _ =>
      let '(number, typeID, tagLength) := ConsumeTag data in
      if bool_decide (tagLength < 0) then Err (ParseError tagLength)
      else
        let data := drop_bytes (Z.to_nat tagLength) data in
        let '(field, valueLength) :=
          if bool_decide (typeID = VarintType) then
            let '(v, n) := ConsumeVarint data in (MkField number typeID "" v, n)
          else if bool_decide (typeID = BytesType) then
            let '(b, n) := ConsumeBytes data in (MkField number typeID b 0, n)
          else (MkField number typeID "" 0, ConsumeFieldValue number typeID data) in
        if bool_decide (valueLength < 0) then Err (ParseError valueLength)
        else
          result ← visit result field;
          walk fuel visit result (drop_bytes (Z.to_nat valueLength) data)
  end.

Definition walkProtobuf {A} (visit : A → protobufField → result error A) (result : A) (data : string)
    : Prelude.result error A :=
  walk (String.length data) visit result data.

Definition protobufBytes (field : protobufField) (name : string) : result error string :=
  if negb (bool_decide (typeID field = BytesType))
  then Err (Errorf ("MEXC Protobuf " +:+ name +:+ " has wire type %d"))
  else Ok (bytes field).

Definition protobufString (field : protobufField) (name : string) : result error string :=
  value ← protobufBytes field name;
  if negb (utf8_Valid value) then Err (Errorf ("MEXC Protobuf " +:+ name +:+ " is not valid UTF-8"))
  else Ok value.

Definition protobufInt64 (field : protobufField) (name : string) : result error Z :=
  if negb (bool_decide (typeID field = VarintType))
  then Err (Errorf ("MEXC Protobuf " +:+ name +:+ " has wire type %d"))
  else Ok (int64 (varint field)).

Definition protobufInt32 (field : protobufField) (name : string) : result error Z :=
  value ← protobufInt64 field name;
  Ok (int32 value).

Definition protobufBool (field : protobufField) (name : string) : result error bool :=
  value ← protobufInt64 field name;
  if negb (bool_decide (value = 0)) && negb (bool_decide (value = 1))
  then Err (Errorf ("MEXC Protobuf " +:+ name +:+ " is not boolean"))
  else Ok (bool_decide (value = 1)).

Definition decodeStreamAggregateTrade (data : string) : result error StreamAggregateTrade :=
  walkProtobuf (λ result field,
    match number field with
    | 1 => v ← protobufString field "trade price"; Ok (result <| deal_Price := v |>)
    | 2 => v ← protobufString field "trade quantity"; Ok (result <| deal_Quantity := v |>)
    | 3 => v ← protobufInt32 field "trade type"; Ok (result <| deal_TradeType := v |>)
    | 4 => v ← protobufInt64 field "trade time"; Ok (result <| deal_Time := v |>)
    | 5 => v ← protobufString field "trade ID"; Ok (result <| deal_TradeID := v |>)
    | _ => Ok result
    end) (MkAggregateTrade "" "" 0 0 "" data) data.

Definition decodeStreamBookLevel (data : string) : result error BookLevel :=
  walkProtobuf (λ result field,
    match number field with
    | 1 => v ← protobufString field "book price"; Ok (result <| Price := v |>)
    | 2 => v ← protobufString field "book quantity"; Ok (result <| Quantity := v |>)
    | _ => Ok result
    end) (MkBookLevel "" "") data.

Definition decodeStreamBookTicker (data : string) : result error StreamBookTicker :=
  walkProtobuf (λ result field,
    match number field with
    | 1 => v ← protobufString field "best bid price"; Ok (result <| ticker_BidPrice := v |>)
    | 2 => v ← protobufString field "best bid quantity"; Ok (result <| ticker_BidQuantity := v |>)
    | 3 => v ← protobufString field "best ask price"; Ok (result <| ticker_AskPrice := v |>)
    | 4 => v ← protobufString field "best ask quantity"; Ok (result <| ticker_AskQuantity := v |>)
    | 5 => v ← protobufString field "book ticker version"; Ok (result <| ticker_Version := v |>)
    | 6 => v ← protobufInt64 field "last order create time"; Ok (result <| ticker_LastOrderCreateTime := v |>)
    | _ => Ok result
    end) (MkBookTicker "" "" "" "" "" 0 data) data.

Definition decodeStreamCandle (data : string) : result error StreamCandle :=
  walkProtobuf (λ result field,
    match number field with
    | 1 => v ← protobufString field "candle interval"; Ok (result <| candle_Interval := v |>)
    | 2 => v ← protobufInt64 field "candle window start"; Ok (result <| candle_WindowStart := v |>)
    | 3 => v ← protobufString field "candle open"; Ok (result <| candle_Open := v |>)
    | 4 => v ← protobufString field "candle close"; Ok (result <| candle_Close := v |>)
    | 5 => v ← protobufString field "candle high"; Ok (result <| candle_High := v |>)
    | 6 => v ← protobufString field "candle low"; Ok (result <| candle_Low := v |>)
    | 7 => v ← protobufString field "candle volume"; Ok (result <| candle_Volume := v |>)
    | 8 => v ← protobufString field "candle amount"; Ok (result <| candle_Amount := v |>)
    | 9 => v ← protobufInt64 field "candle window end"; Ok (result <| candle_WindowEnd := v |>)
    | _ => Ok result
    end) (MkCandle "" 0 "" "" "" "" "" "" 0 data) data.

Definition decodeStreamAccount (data : string) : result error StreamAccount :=
  walkProtobuf (λ result field,
    match number field with
    | 1 => v ← protobufString field "account asset"; Ok (result <| account_Asset := v |>)
    | 2 => v ← protobufString field "account coin ID"; Ok (result <| account_CoinID := v |>)
    | 3 => v ← protobufString field "account balance"; Ok (result <| account_Balance := v |>)
    | 4 => v ← protobufString field "account balance change"; Ok (result <| account_BalanceChange := v |>)
    | 5 => v ← protobufString field "account frozen balance"; Ok (result <| account_Frozen := v |>)
    | 6 => v ← protobufString field "account frozen change"; Ok (result <| account_FrozenChange := v |>)
    | 7 => v ← protobufString field "account change type"; Ok (result <| account_ChangeType := v |>)
    | 8 => v ← protobufInt64 field "account time"; Ok (result <| account_Time := v |>)
    | _ => Ok result
    end) (MkAccount "" "" "" "" "" "" "" 0 data) data.

Definition decodeStreamAccountDeal (data : string) : result error StreamAccountDeal :=
  walkProtobuf (λ result field,
    match number field with
    | 1 => v ← protobufString field "account deal price"; Ok (result <| fill_Price := v |>)
    | 2 => v ← protobufString field "account deal quantity"; Ok (result <| fill_Quantity := v |>)
    | 3 => v ← protobufString field "account deal amount"; Ok (result <| fill_Amount := v |>)
    | 4 => v ← protobufInt32 field "account deal trade type"; Ok (result <| fill_TradeType := v |>)
    | 5 => v ← protobufBool field "account deal maker"; Ok (result <| fill_Maker := v |>)
    | 6 => v ← protobufBool field "account deal self trade"; Ok (result <| fill_SelfTrade := v |>)
    | 7 => v ← protobufString field "account deal trade ID"; Ok (result <| fill_TradeID := v |>)
    | 8 => v ← protobufString field "account deal client order ID"; Ok (result <| fill_ClientOrderID := v |>)
    | 9 => v ← protobufString field "account deal order ID"; Ok (result <| fill_OrderID := v |>)
    | 10 => v ← protobufString field "account deal fee amount"; Ok (result <| fill_FeeAmount := v |>)
    | 11 => v ← protobufString field "account deal fee currency"; Ok (result <| fill_FeeCurrency := v |>)
    | 12 => v ← protobufInt64 field "account deal time"; Ok (result <| fill_Time := v |>)
    | _ => Ok result
    end) (MkAccountDeal "" "" "" 0 false false "" "" "" "" "" 0 data) data.

Definition decodeStreamAccountOrder (data : string) : result error StreamAccountOrder :=
  walkProtobuf (λ result field,
    match number field with
    | 1 => v ← protobufString field "account order ID"; Ok (result <| order_ID := v |>)
    | 2 => v ← protobufString field "account order client ID"; Ok (result <| order_ClientOrderID := v |>)
    | 3 => v ← protobufString field "account order price"; Ok (result <| order_Price := v |>)
    | 4 => v ← protobufString field "account order quantity"; Ok (result <| order_Quantity := v |>)
    | 5 => v ← protobufString field "account order amount"; Ok (result <| order_Amount := v |>)
    | 6 => v ← protobufString field "account order average price"; Ok (result <| order_AveragePrice := v |>)
    | 7 => v ← protobufInt32 field "account order type"; Ok (result <| order_OrderType := v |>)
    | 8 => v ← protobufInt32 field "account order trade type"; Ok (result <| order_TradeType := v |>)
    | 9 => v ← protobufBool field "account order maker"; Ok (result <| order_Maker := v |>)
    | 10 => v ← protobufString field "account order remaining amount"; Ok (result <| order_RemainingAmount := v |>)
    | 11 => v ← protobufString field "account order remaining quantity"; Ok (result <| order_RemainingQuantity := v |>)
    | 12 => v ← protobufString field "account order last deal quantity"; Ok (result <| order_LastDealQuantity := v |>)
    | 13 => v ← protobufString field "account order cumulative quantity"; Ok (result <| order_CumulativeQuantity := v |>)
    | 14 => v ← protobufString field "account order cumulative amount"; Ok (result <| order_CumulativeAmount := v |>)
    | 15 => v ← protobufInt32 field "account order status"; Ok (result <| order_Status := v |>)
    | 16 => v ← protobufInt64 field "account order create time"; Ok (result <| order_CreatedAt := v |>)
    | 17 => v ← protobufString field "account order market"; Ok (result <| order_Market := v |>)
    | 18 => v ← protobufInt32 field "account order trigger type"; Ok (result <| order_TriggerType := v |>)
    | 19 => v ← protobufString field "account order trigger price"; Ok (result <| order_TriggerPrice := v |>)
    | 20 => v ← protobufInt32 field "account order state"; Ok (result <| order_State := v |>)
    | 21 => v ← protobufString field "account order OCO ID"; Ok (result <| order_OCOID := v |>)
    | 22 => v ← protobufString field "account order route factor"; Ok (result <| order_RouteFactor := v |>)
    | 23 => v ← protobufString field "account order symbol ID"; Ok (result <| order_SymbolID := v |>)
    | 24 => v ← protobufString field "account order market ID"; Ok (result <| order_MarketID := v |>)
    | 25 => v ← protobufString field "account order market currency ID"; Ok (result <| order_MarketCurrencyID := v |>)
    | 26 => v ← protobufString field "account order currency ID"; Ok (result <| order_CurrencyID := v |>)
    | _ => Ok result
    end) (MkAccountOrder "" "" "" "" "" "" 0 0 false "" "" "" "" "" 0 0 "" 0 "" 0 "" "" "" "" "" "" data) data.

Definition decodeStreamAggregateTrades (data : string) : result error StreamAggregateTrades :=
  walkProtobuf (λ result field,
    match number field with
    | 1 =>
        body ← protobufBytes field "aggregate trade";
        deal ← decodeStreamAggregateTrade body;
        Ok (result <| trades_Deals := trades_Deals result ++ [deal] |>)
    | 2 => v ← protobufString field "aggregate trade event type"; Ok (result <| trades_EventType := v |>)
    | _ => Ok result
    end) (MkAggregateTrades [] "" data) data.

Definition decodeStreamDiffDepth (data : string) : result error StreamDiffDepth :=
  walkProtobuf (λ result field,
    match number field with
    | 1 =>
        body ← protobufBytes field "depth level";
        level ← decodeStreamBookLevel body;
        Ok (result <| diff_Asks := diff_Asks result ++ [level] |>)
    | 2 =>
        body ← protobufBytes field "depth level";
        level ← decodeStreamBookLevel body;
        Ok (result <| diff_Bids := diff_Bids result ++ [level] |>)
    | 3 => v ← protobufString field "depth event type"; Ok (result <| diff_EventType := v |>)
    | 4 => v ← protobufString field "depth from version"; Ok (result <| diff_FromVersion := v |>)
    | 5 => v ← protobufString field "depth to version"; Ok (result <| diff_ToVersion := v |>)
    | 6 => v ← protobufInt64 field "last order create time"; Ok (result <| diff_LastOrderCreateTime := v |>)
    | _ => Ok result
    end) (MkDiffDepth [] [] "" "" "" 0 data) data.

Definition decodeStreamPartialDepth (data : string) : result error StreamPartialDepth :=
  walkProtobuf (λ result field,
    match number field with
    | 1 =>
        body ← protobufBytes field "partial depth level";
        level ← decodeStreamBookLevel body;
        Ok (result <| partial_Asks := partial_Asks result ++ [level] |>)
    | 2 =>
        body ← protobufBytes field "partial depth level";
        level ← decodeStreamBookLevel body;
        Ok (result <| partial_Bids := partial_Bids result ++ [level] |>)
    | 3 => v ← protobufString field "partial depth event type"; Ok (result <| partial_EventType := v |>)
    | 4 => v ← protobufString field "partial depth version"; Ok (result <| partial_Version := v |>)
    | 5 => v ← protobufInt64 field "last order create time"; Ok (result <| partial_LastOrderCreateTime := v |>)
    | _ => Ok result
    end) (MkPartialDepth [] [] "" "" 0 data) data.

Definition wrapDecode {A} (r : result error A) : result error A :=
  match r with Err err => Err (Wrapf "decode MEXC WebSocket Protobuf wrapper: %w" err) | Ok a => Ok a end.

Definition visitMessage (result : StreamMessage) (field : protobufField) : Prelude.result error StreamMessage :=
  let body {A} name (decode : string → Prelude.result error A) (store : StreamMessage → A → StreamMessage) :=
    body ← protobufBytes field name;
    decoded ← decode body;
    Ok (store (clearBody result) decoded) in
  match number field with
  | 1 => v ← protobufString field "channel"; Ok (result <| Channel := v |>)
  | 3 => v ← protobufString field "symbol"; Ok (result <| Symbol := v |>)
  | 4 => v ← protobufString field "symbol ID"; Ok (result <| SymbolID := v |>)
  | 5 => v ← protobufInt64 field "create time"; Ok (result <| CreateTime := v |>)
  | 6 => v ← protobufInt64 field "send time"; Ok (result <| SendTime := v |>)
  | 303 => body "partial depth" decodeStreamPartialDepth (λ m v, m <| PartialDepth := Some v |>)
  | 304 => body "account order" decodeStreamAccountOrder (λ m v, m <| AccountOrder := Some v |>)
  | 306 => body "account deal" decodeStreamAccountDeal (λ m v, m <| AccountDeal := Some v |>)
  | 307 => body "account" decodeStreamAccount (λ m v, m <| Account := Some v |>)
  | 308 => body "candle" decodeStreamCandle (λ m v, m <| Candle := Some v |>)
  | 313 => body "diff depth" decodeStreamDiffDepth (λ m v, m <| DiffDepth := Some v |>)
  | 314 => body "aggregate trades" decodeStreamAggregateTrades (λ m v, m <| AggregateTrades := Some v |>)
  | 315 => body "book ticker" decodeStreamBookTicker (λ m v, m <| BookTicker := Some v |>)
  | _ => Ok result
  end.

Definition decodeStreamProtobuf (data : string) : result error StreamMessage :=
  if bool_decide (data = "") then Err (Errorf "MEXC WebSocket Protobuf message is empty")
  else
    result ← wrapDecode (walkProtobuf visitMessage (newMessage data) data);
    if bool_decide (Channel result = "") then Err (Errorf "MEXC WebSocket Protobuf channel is empty")
    else Ok result.

(** [json.Valid] and [json.Unmarshal] into the struct of a control message, its
    raw ID, code and message, are parameters. *)
Context (Valid : string → bool) (Unmarshal : string → result error (string * Z * string)).

Definition decodeStreamControl (data : string) : result error StreamMessage :=
  let trimmed := TrimSpace data in
  require (negb (bool_decide (trimmed = "") || negb (Valid trimmed) ||
                 negb (bool_decide (String.get 0 trimmed = Some (Ascii.ascii_of_N 123)))))
    (Errorf "MEXC WebSocket control message is not valid JSON");;
  wire ← match Unmarshal trimmed with
         | Err err => Err (Wrapf "decode MEXC WebSocket control message: %w" err)
         | Ok wire => Ok wire
         end;
  let '(ID, code, message) := wire in
  id ← (if negb (bool_decide (ID = "")) && negb (bool_decide (TrimSpace ID = "null")) then
          match ParseUint (TrimSpace ID) with
          | Some parsed => Ok parsed
          | None => Err (Wrapf "decode MEXC WebSocket control ID: %w" (Errorf "strconv.ParseUint: %s"))
          end
        else Ok 0);
  Ok ((newMessage trimmed) <| Control := Some (MkControl id code message trimmed) |>).

Definition DecodeStreamMessage (messageType : Z) (data : string) : result error StreamMessage :=
  if bool_decide (messageType = MessageText) then decodeStreamControl data
  else if bool_decide (messageType = MessageBinary) then decodeStreamProtobuf data
  else Err (Errorf "unsupported MEXC WebSocket message type %d").
End protobuf.

(** ** The loop of [walkProtobuf] *)

Section laws.
Context `{HP : !ProtowireLaws P}.

(** Fuel beyond the length of the data changes nothing. *)
Lemma walk_enough {A} (visit : A → protobufField → result error A) fuel fuel' a data :
  (String.length data ≤ fuel)%nat → (String.length data ≤ fuel')%nat →
  walk fuel visit a data = walk fuel' visit a data.
Proof.
  revert fuel' a data. induction fuel as [|fuel IH]; intros fuel' a data Hf Hf'.
  { destruct data; [by destruct fuel'|simpl in Hf; lia]. }
  destruct data as [|c data]; [by destruct fuel'|]. destruct fuel' as [|fuel']; [simpl in Hf'; lia|].
  cbn [walk]. destruct (ConsumeTag _) as [[n t] l] eqn:Htag. case_bool_decide; [done|].
  destruct (tag_bounds _ _ _ _ Htag) as [?|Hl]; [lia|].
  destruct (if bool_decide _ then _ else _) as [field vl]. case_bool_decide; [done|].
  destruct (visit a field) as [a'|]; [|done]. apply IH; rewrite !length_drop_bytes; simpl in *; lia.
Qed.

(** One round of the loop. *)
Definition readField (data : string) : result error (protobufField * string) :=
  let '(number, typeID, tagLength) := ConsumeTag data in
  require (negb (bool_decide (tagLength < 0))) (ParseError tagLength);;
  let data := drop_bytes (Z.to_nat tagLength) data in
  let '(field, valueLength) :=
    if bool_decide (typeID = VarintType) then
      let '(v, n) := ConsumeVarint data in (MkField number typeID "" v, n)
    else if bool_decide (typeID = BytesType) then
      let '(b, n) := ConsumeBytes data in (MkField number typeID b 0, n)
    else (MkField number typeID "" 0, ConsumeFieldValue number typeID data) in
  require (negb (bool_decide (valueLength < 0))) (ParseError valueLength);;
  Ok (field, drop_bytes (Z.to_nat valueLength) data).

(** The loop as the source has it, without fuel: the equation that determines
    it, since every round leaves less data. *)
Lemma walkProtobuf_unfold {A} (visit : A → protobufField → result error A) a data :
  walkProtobuf visit a data =
    if bool_decide (data = "") then Ok a
    else
      r ← readField data;
      a ← visit a r.1;
      walkProtobuf visit a r.2.
Proof.
  destruct data as [|c data]; [done|]. unfold walkProtobuf at 1. cbn [walk String.length].
  rewrite bool_decide_eq_false_2 by done. unfold readField.
  destruct (ConsumeTag _) as [[n t] l] eqn:Htag. case_bool_decide; [done|]. cbn [negb require mbind result_bind].
  destruct (tag_bounds _ _ _ _ Htag) as [?|Hl]; [lia|].
  destruct (if bool_decide _ then _ else _) as [field vl]. case_bool_decide; [done|].
  cbn [negb require mbind result_bind fst snd].
  destruct (visit a field) as [a'|]; [|done]. cbn [mbind result_bind].
  apply walk_enough; [|lia]. rewrite !length_drop_bytes. simpl. lia.
Qed.

Lemma readField_shorter data r : readField data = Ok r → (String.length r.2 < String.length data)%nat.
Proof.
  unfold readField. destruct (ConsumeTag _) as [[n t] l] eqn:Htag.
  intros H. apply result_bind_Ok in H as (? & Hl%require_Ok & H).
  destruct (tag_bounds _ _ _ _ Htag) as [?|Hl']; [go_bool; lia|].
  destruct (if bool_decide _ then _ else _) as [field vl].
  apply result_bind_Ok in H as (? & _ & [= <-]).
  simpl. rewrite !length_drop_bytes. unfold length_of in Hl'. lia.
Qed.

(** ** Encoding *)

Inductive value : Type := Varint (v : Z) | Bytes (b : string).
Abbreviation field := (Z * value)%type.

Definition encode_field (f : field) : string :=
  match f with
  | (n, Varint v) => AppendTag n VarintType +:+ AppendVarint v
  | (n, Bytes b) => AppendTag n BytesType +:+ AppendBytes b
  end.
Definition encode (fs : list field) : string := foldr (λ f s, encode_field f +:+ s) "" fs.

Definition toField (f : field) : protobufField :=
  match f with
  | (n, Varint v) => MkField n VarintType "" v
  | (n, Bytes b) => MkField n BytesType b 0
  end.

Definition field_valid (f : field) : Prop :=
  valid_number f.1 ∧ match f.2 with Varint v => is_uint64 v | Bytes b => is_int64 (length_of b) end.

Lemma string_app_assoc (s t u : string) : (s +:+ t) +:+ u = s +:+ (t +:+ u).
Proof. induction s as [|c s IH]; [done|]. change (String c ((s +:+ t) +:+ u) = String c (s +:+ t +:+ u)). by rewrite IH. Qed.

Lemma drop_length_of s t : drop_bytes (Z.to_nat (length_of s)) (s +:+ t) = t.
Proof. unfold length_of. rewrite Nat2Z.id. apply drop_bytes_append. Qed.

Lemma length_of_nonneg s : ¬ length_of s < 0.
Proof. unfold length_of. lia. Qed.

Lemma length_of_guard s (e : error) : require (negb (bool_decide (length_of s < 0))) e = Ok tt.
Proof. by rewrite bool_decide_eq_false_2 by apply length_of_nonneg. Qed.

Lemma readField_encode f rest : field_valid f → readField (encode_field f +:+ rest) = Ok (toField f, rest).
Proof.
  intros [Hn Hv]. unfold readField.
  destruct f as [n [v|b]]; cbn [encode_field fst snd toField] in *; rewrite string_app_assoc;
    rewrite tag_roundtrip, length_of_guard by auto; cbn [mbind result_bind]; rewrite drop_length_of.
  - rewrite bool_decide_eq_true_2, varint_roundtrip, length_of_guard by done.
    cbn [mbind result_bind]. by rewrite drop_length_of.
  - rewrite bool_decide_eq_false_2 by (intros ?; by apply types_differ).
    rewrite bool_decide_eq_true_2, bytes_roundtrip, length_of_guard by done.
    cbn [mbind result_bind]. by rewrite drop_length_of.
Qed.

Lemma encode_field_nonempty f : field_valid f → encode_field f ≠ "".
Proof.
  intros Hf Hempty. pose proof (readField_encode f "" Hf) as Hr. rewrite Hempty in Hr.
  apply readField_shorter in Hr. simpl in Hr. lia.
Qed.

(** Walking over encoded fields is folding the visitor over them. *)
Lemma walk_encode {A} (visit : A → protobufField → result error A) fs a :
  Forall field_valid fs → walkProtobuf visit a (encode fs) = fold_result visit a (toField <$> fs).
Proof.
  intros Hfs. revert a. induction Hfs as [|f fs Hf _ IH]; intros a; [done|].
  rewrite walkProtobuf_unfold, bool_decide_eq_false_2.
  - cbn [encode foldr]. rewrite readField_encode by done. cbn [mbind result_bind fst snd].
    rewrite fmap_cons. cbn [fold_result]. destruct (visit a (toField f)); [apply IH|done].
  - cbn [encode foldr]. pose proof (encode_field_nonempty f Hf). by destruct (encode_field f).
Qed.

(** ** Round trips of the messages *)

Definition utf8 (s : string) : Prop := utf8_Valid s = true ∧ is_int64 (length_of s).

Lemma protobufString_Bytes n s name : utf8 s → protobufString (MkField n BytesType s 0) name = Ok s.
Proof. intros [H _]. unfold protobufString, protobufBytes. simpl. rewrite bool_decide_eq_true_2 by done. simpl. by rewrite H. Qed.

Lemma protobufBytes_Bytes n s name : protobufBytes (MkField n BytesType s 0) name = Ok s.
Proof. unfold protobufBytes. simpl. by rewrite bool_decide_eq_true_2. Qed.

Lemma protobufInt64_Varint n z name :
  is_int64 z → protobufInt64 (MkField n VarintType "" (uint64 z)) name = Ok z.
Proof. intros Hz. unfold protobufInt64. simpl. rewrite bool_decide_eq_true_2 by done. simpl. by rewrite int64_uint64. Qed.

Lemma protobufInt32_Varint n z name :
  is_int32 z → protobufInt32 (MkField n VarintType "" (uint64 z)) name = Ok z.
Proof.
  intros Hz. unfold protobufInt32. rewrite protobufInt64_Varint by by apply is_int32_int64.
  simpl. by rewrite int32_id.
Qed.

Lemma protobufBool_Varint n (b : bool) name :
  protobufBool (MkField n VarintType "" (if b then 1 else 0)) name = Ok b.
Proof.
  unfold protobufBool, protobufInt64. simpl. rewrite bool_decide_eq_true_2 by done. by destruct b.
Qed.

(** Fields of a message that the encoding may contain. *)
Lemma field_valid_Varint n z : valid_number n → field_valid (n, Varint (uint64 z)).
Proof. intros Hn. split; [done|]. apply uint64_range. Qed.
Lemma field_valid_bool n (b : bool) : valid_number n → field_valid (n, Varint (if b then 1 else 0)).
Proof. intros Hn. split; [done|]. unfold is_uint64, MaxUint64. simpl. by destruct b. Qed.
Lemma field_valid_Bytes n s : valid_number n → utf8 s → field_valid (n, Bytes s).
Proof. intros Hn [_ Hs]. by split. Qed.

Ltac valid_field :=
  first [apply field_valid_Varint|apply field_valid_bool|apply field_valid_Bytes];
  solve [done|unfold valid_number; lia].
Ltac valid_fields := repeat (apply Forall_cons_2; [valid_field|]); apply Forall_nil_2.

(** Evaluates a visitor on the fields of a message, one after the other. *)
Lemma fold_result_step {A B E} (visit : A → B → result E A) a a' f fs r :
  visit a f = Ok a' → fold_result visit a' fs = r → fold_result visit a (f :: fs) = r.
Proof. cbn [fold_result]. by intros ->. Qed.

Ltac read_field :=
  eapply fold_result_step;
  [try unfold visitMessage; cbn [number toField];
   first [rewrite protobufString_Bytes by done|rewrite protobufInt64_Varint by done
         |rewrite protobufInt32_Varint by done|rewrite protobufBool_Varint];
   reflexivity|].
Ltac read_fields := cbn [fmap list_fmap]; repeat read_field.

Tactic Notation "roundtrip" reference(fields) constr(m) :=
  unfold fields; rewrite walk_encode by valid_fields; read_fields; by destruct m.

Definition deal_fields (m : StreamAggregateTrade) : list field :=
  [(1, Bytes (deal_Price m)); (2, Bytes (deal_Quantity m));
   (3, Varint (uint64 (deal_TradeType m))); (4, Varint (uint64 (deal_Time m)));
   (5, Bytes (deal_TradeID m))].
Definition deal_valid (m : StreamAggregateTrade) : Prop :=
  utf8 (deal_Price m) ∧ utf8 (deal_Quantity m) ∧ is_int32 (deal_TradeType m) ∧
  is_int64 (deal_Time m) ∧ utf8 (deal_TradeID m).

Lemma deal_roundtrip m :
  deal_valid m → decodeStreamAggregateTrade (encode (deal_fields m)) = Ok (m <| deal_Raw := encode (deal_fields m) |>).
Proof.
  unfold deal_valid, decodeStreamAggregateTrade. intros. destruct_and?. roundtrip deal_fields m.
Qed.

Definition level_fields (m : BookLevel) : list field :=
  [(1, Bytes (Price m)); (2, Bytes (Quantity m))].
Definition level_valid (m : BookLevel) : Prop :=
  utf8 (Price m) ∧ utf8 (Quantity m).

Lemma level_roundtrip m :
  level_valid m → decodeStreamBookLevel (encode (level_fields m)) = Ok m.
Proof.
  unfold level_valid, decodeStreamBookLevel. intros. destruct_and?. roundtrip level_fields m.
Qed.

Definition ticker_fields (m : StreamBookTicker) : list field :=
  [(1, Bytes (ticker_BidPrice m)); (2, Bytes (ticker_BidQuantity m));
   (3, Bytes (ticker_AskPrice m)); (4, Bytes (ticker_AskQuantity m));
   (5, Bytes (ticker_Version m)); (6, Varint (uint64 (ticker_LastOrderCreateTime m)))].
Definition ticker_valid (m : StreamBookTicker) : Prop :=
  utf8 (ticker_BidPrice m) ∧ utf8 (ticker_BidQuantity m) ∧ utf8 (ticker_AskPrice m) ∧
  utf8 (ticker_AskQuantity m) ∧ utf8 (ticker_Version m) ∧
  is_int64 (ticker_LastOrderCreateTime m).

Lemma ticker_roundtrip m :
  ticker_valid m → decodeStreamBookTicker (encode (ticker_fields m)) = Ok (m <| ticker_Raw := encode (ticker_fields m) |>).
Proof.
  unfold ticker_valid, decodeStreamBookTicker. intros. destruct_and?. roundtrip ticker_fields m.
Qed.

Definition candle_fields (m : StreamCandle) : list field :=
  [(1, Bytes (candle_Interval m)); (2, Varint (uint64 (candle_WindowStart m)));
   (3, Bytes (candle_Open m)); (4, Bytes (candle_Close m)); (5, Bytes (candle_High m));
   (6, Bytes (candle_Low m)); (7, Bytes (candle_Volume m)); (8, Bytes (candle_Amount m));
   (9, Varint (uint64 (candle_WindowEnd m)))].
Definition candle_valid (m : StreamCandle) : Prop :=
  utf8 (candle_Interval m) ∧ is_int64 (candle_WindowStart m) ∧ utf8 (candle_Open m) ∧
  utf8 (candle_Close m) ∧ utf8 (candle_High m) ∧ utf8 (candle_Low m) ∧
  utf8 (candle_Volume m) ∧ utf8 (candle_Amount m) ∧ is_int64 (candle_WindowEnd m).

Lemma candle_roundtrip m :
  candle_valid m → decodeStreamCandle (encode (candle_fields m)) = Ok (m <| candle_Raw := encode (candle_fields m) |>).
Proof.
  unfold candle_valid, decodeStreamCandle. intros. destruct_and?. roundtrip candle_fields m.
Qed.

Definition account_fields (m : StreamAccount) : list field :=
  [(1, Bytes (account_Asset m)); (2, Bytes (account_CoinID m));
   (3, Bytes (account_Balance m)); (4, Bytes (account_BalanceChange m));
   (5, Bytes (account_Frozen m)); (6, Bytes (account_FrozenChange m));
   (7, Bytes (account_ChangeType m)); (8, Varint (uint64 (account_Time m)))].
Definition account_valid (m : StreamAccount) : Prop :=
  utf8 (account_Asset m) ∧ utf8 (account_CoinID m) ∧ utf8 (account_Balance m) ∧
  utf8 (account_BalanceChange m) ∧ utf8 (account_Frozen m) ∧ utf8 (account_FrozenChange m) ∧
  utf8 (account_ChangeType m) ∧ is_int64 (account_Time m).

Lemma account_roundtrip m :
  account_valid m → decodeStreamAccount (encode (account_fields m)) = Ok (m <| account_Raw := encode (account_fields m) |>).
Proof.
  unfold account_valid, decodeStreamAccount. intros. destruct_and?. roundtrip account_fields m.
Qed.

Definition fill_fields (m : StreamAccountDeal) : list field :=
  [(1, Bytes (fill_Price m)); (2, Bytes (fill_Quantity m)); (3, Bytes (fill_Amount m));
   (4, Varint (uint64 (fill_TradeType m))); (5, Varint (if fill_Maker m then 1 else 0));
   (6, Varint (if fill_SelfTrade m then 1 else 0)); (7, Bytes (fill_TradeID m));
   (8, Bytes (fill_ClientOrderID m)); (9, Bytes (fill_OrderID m));
   (10, Bytes (fill_FeeAmount m)); (11, Bytes (fill_FeeCurrency m));
   (12, Varint (uint64 (fill_Time m)))].
Definition fill_valid (m : StreamAccountDeal) : Prop :=
  utf8 (fill_Price m) ∧ utf8 (fill_Quantity m) ∧ utf8 (fill_Amount m) ∧
  is_int32 (fill_TradeType m) ∧ utf8 (fill_TradeID m) ∧ utf8 (fill_ClientOrderID m) ∧
  utf8 (fill_OrderID m) ∧ utf8 (fill_FeeAmount m) ∧ utf8 (fill_FeeCurrency m) ∧
  is_int64 (fill_Time m).

Lemma fill_roundtrip m :
  fill_valid m → decodeStreamAccountDeal (encode (fill_fields m)) = Ok (m <| fill_Raw := encode (fill_fields m) |>).
Proof.
  unfold fill_valid, decodeStreamAccountDeal. intros. destruct_and?. roundtrip fill_fields m.
Qed.

Definition order_fields (m : StreamAccountOrder) : list field :=
  [(1, Bytes (order_ID m)); (2, Bytes (order_ClientOrderID m)); (3, Bytes (order_Price m));
   (4, Bytes (order_Quantity m)); (5, Bytes (order_Amount m));
   (6, Bytes (order_AveragePrice m)); (7, Varint (uint64 (order_OrderType m)));
   (8, Varint (uint64 (order_TradeType m))); (9, Varint (if order_Maker m then 1 else 0));
   (10, Bytes (order_RemainingAmount m)); (11, Bytes (order_RemainingQuantity m));
   (12, Bytes (order_LastDealQuantity m)); (13, Bytes (order_CumulativeQuantity m));
   (14, Bytes (order_CumulativeAmount m)); (15, Varint (uint64 (order_Status m)));
   (16, Varint (uint64 (order_CreatedAt m))); (17, Bytes (order_Market m));
   (18, Varint (uint64 (order_TriggerType m))); (19, Bytes (order_TriggerPrice m));
   (20, Varint (uint64 (order_State m))); (21, Bytes (order_OCOID m));
   (22, Bytes (order_RouteFactor m)); (23, Bytes (order_SymbolID m));
   (24, Bytes (order_MarketID m)); (25, Bytes (order_MarketCurrencyID m));
   (26, Bytes (order_CurrencyID m))].
Definition order_valid (m : StreamAccountOrder) : Prop :=
  utf8 (order_ID m) ∧ utf8 (order_ClientOrderID m) ∧ utf8 (order_Price m) ∧
  utf8 (order_Quantity m) ∧ utf8 (order_Amount m) ∧ utf8 (order_AveragePrice m) ∧
  is_int32 (order_OrderType m) ∧ is_int32 (order_TradeType m) ∧
  utf8 (order_RemainingAmount m) ∧ utf8 (order_RemainingQuantity m) ∧
  utf8 (order_LastDealQuantity m) ∧ utf8 (order_CumulativeQuantity m) ∧
  utf8 (order_CumulativeAmount m) ∧ is_int32 (order_Status m) ∧
  is_int64 (order_CreatedAt m) ∧ utf8 (order_Market m) ∧ is_int32 (order_TriggerType m) ∧
  utf8 (order_TriggerPrice m) ∧ is_int32 (order_State m) ∧ utf8 (order_OCOID m) ∧
  utf8 (order_RouteFactor m) ∧ utf8 (order_SymbolID m) ∧ utf8 (order_MarketID m) ∧
  utf8 (order_MarketCurrencyID m) ∧ utf8 (order_CurrencyID m).

Lemma order_roundtrip m :
  order_valid m → decodeStreamAccountOrder (encode (order_fields m)) = Ok (m <| order_Raw := encode (order_fields m) |>).
Proof.
  unfold order_valid, decodeStreamAccountOrder. intros. destruct_and?. roundtrip order_fields m.
Qed.
(** ** Repeated fields *)

Definition nested (n : Z) (fs : list field) : field := (n, Bytes (encode fs)).
Definition nested_valid (fs : list field) : Prop := is_int64 (length_of (encode fs)).

Lemma field_valid_nested n fs : valid_number n → nested_valid fs → field_valid (nested n fs).
Proof. by split. Qed.

Lemma Forall_nested {A} n (fields : A → list field) (valid : A → Prop) xs :
  valid_number n → Forall (λ x, valid x ∧ nested_valid (fields x)) xs →
  Forall field_valid ((λ x, nested n (fields x)) <$> xs).
Proof. intros Hn Hxs. apply Forall_fmap. eapply Forall_impl; [exact Hxs|]. intros x [_ Hx]. by split. Qed.

Definition trades_fields (m : StreamAggregateTrades) : list field :=
  ((λ d, nested 1 (deal_fields d)) <$> trades_Deals m) ++ [(2, Bytes (trades_EventType m))].
Definition trades_valid (m : StreamAggregateTrades) : Prop :=
  Forall (λ d, deal_valid d ∧ nested_valid (deal_fields d)) (trades_Deals m) ∧ utf8 (trades_EventType m).
Definition deal_received (d : StreamAggregateTrade) : StreamAggregateTrade :=
  d <| deal_Raw := encode (deal_fields d) |>.
Definition trades_received (m : StreamAggregateTrades) : StreamAggregateTrades :=
  m <| trades_Deals := deal_received <$> trades_Deals m |> <| trades_Raw := encode (trades_fields m) |>.

(** A visitor that appends the value it makes of each of the nested messages. *)
Lemma fold_nested {A B E} (visit : A → protobufField → result E A) (n : Z) (fields : B → list field)
    (valid : B → Prop) (push : A → B → A) xs a rest :
  (∀ a x, valid x → visit a (MkField n BytesType (encode (fields x)) 0) = Ok (push a x)) →
  Forall (λ x, valid x ∧ nested_valid (fields x)) xs →
  fold_result visit a (toField <$> ((λ x, nested n (fields x)) <$> xs) ++ rest) =
    fold_result visit (foldl push a xs) (toField <$> rest).
Proof.
  intros Hv Hxs. rewrite fmap_app, fold_result_app, <-list_fmap_compose.
  assert (fold_result visit a (toField ∘ (λ x, nested n (fields x)) <$> xs) = Ok (foldl push a xs)) as ->; [|done].
  revert a. induction Hxs as [|x xs [Hx _] _ IH]; intros a; [done|].
  rewrite fmap_cons. cbn [fold_result foldl]. rewrite <-IH. cbn [compose nested toField]. by rewrite Hv.
Qed.

Lemma trades_roundtrip m :
  trades_valid m → decodeStreamAggregateTrades (encode (trades_fields m)) = Ok (trades_received m).
Proof.
  intros [Hd He]. unfold decodeStreamAggregateTrades, trades_received.
  rewrite walk_encode by (apply Forall_app; split;
    [eapply Forall_nested; [unfold valid_number; lia|exact Hd]|valid_fields]).
  generalize (encode (trades_fields m)) as raw. intros raw. unfold trades_fields.
  rewrite (fold_nested _ 1 deal_fields deal_valid
    (λ a d, a <| trades_Deals := trades_Deals a ++ [deal_received d] |>)).
  - read_fields. destruct m as [ds e r]. cbn [trades_Deals trades_EventType].
    assert (∀ pre, foldl (λ a d, a <| trades_Deals := trades_Deals a ++ [deal_received d] |>)
      (MkAggregateTrades pre "" raw) ds = MkAggregateTrades (pre ++ (deal_received <$> ds)) "" raw) as ->; [|done].
    clear. induction ds as [|d ds IH]; intros pre; [by rewrite app_nil_r|].
    cbn [foldl]. etrans; [apply (IH (pre ++ [deal_received d]))|]. by rewrite fmap_cons, <-(assoc (++)).
  - intros a d Hdv. cbn [number]. rewrite protobufBytes_Bytes. cbn [mbind result_bind].
    by rewrite deal_roundtrip.
  - exact Hd.
Qed.

Ltac level_visit :=
  intros ???; cbn [number]; rewrite protobufBytes_Bytes; cbn [mbind result_bind];
  rewrite level_roundtrip by done.

Definition diff_fields (m : StreamDiffDepth) : list field :=
  ((λ l, nested 1 (level_fields l)) <$> diff_Asks m) ++ ((λ l, nested 2 (level_fields l)) <$> diff_Bids m) ++
  [(3, Bytes (diff_EventType m)); (4, Bytes (diff_FromVersion m)); (5, Bytes (diff_ToVersion m));
   (6, Varint (uint64 (diff_LastOrderCreateTime m)))].
Definition diff_valid (m : StreamDiffDepth) : Prop :=
  Forall (λ l, level_valid l ∧ nested_valid (level_fields l)) (diff_Asks m) ∧
  Forall (λ l, level_valid l ∧ nested_valid (level_fields l)) (diff_Bids m) ∧
  utf8 (diff_EventType m) ∧ utf8 (diff_FromVersion m) ∧ utf8 (diff_ToVersion m) ∧
  is_int64 (diff_LastOrderCreateTime m).
Definition diff_received (m : StreamDiffDepth) : StreamDiffDepth := m <| diff_Raw := encode (diff_fields m) |>.

Lemma diff_push_Asks ls pre bids e from to t raw :
  foldl (λ a l, a <| diff_Asks := diff_Asks a ++ [l] |>) (MkDiffDepth pre bids e from to t raw) ls = MkDiffDepth (pre ++ ls) bids e from to t raw.
Proof.
  revert pre. induction ls as [|l ls IH]; intros pre; [by rewrite app_nil_r|].
  cbn [foldl]. etrans; [apply (IH (pre ++ [l]))|]. by rewrite <-(assoc (++)).
Qed.

Lemma diff_push_Bids ls asks pre e from to t raw :
  foldl (λ a l, a <| diff_Bids := diff_Bids a ++ [l] |>) (MkDiffDepth asks pre e from to t raw) ls =
    MkDiffDepth asks (pre ++ ls) e from to t raw.
Proof.
  revert pre. induction ls as [|l ls IH]; intros pre; [by rewrite app_nil_r|].
  cbn [foldl]. etrans; [apply (IH (pre ++ [l]))|]. by rewrite <-(assoc (++)).
Qed.

Lemma diff_roundtrip m :
  diff_valid m → decodeStreamDiffDepth (encode (diff_fields m)) = Ok (diff_received m).
Proof.
  intros (Ha & Hb & Hv). destruct_and?. unfold decodeStreamDiffDepth, diff_received.
  rewrite walk_encode by (do 2 (apply Forall_app; split;
    [eapply Forall_nested; [unfold valid_number; lia|eassumption]|]); valid_fields).
  generalize (encode (diff_fields m)) as raw. intros raw. unfold diff_fields.
  rewrite (fold_nested _ 1 level_fields level_valid (λ a l, a <| diff_Asks := diff_Asks a ++ [l] |>)); [|by level_visit|done].
  rewrite (fold_nested _ 2 level_fields level_valid (λ a l, a <| diff_Bids := diff_Bids a ++ [l] |>)); [|by level_visit|done].
  rewrite diff_push_Asks, diff_push_Bids. read_fields. by destruct m.
Qed.

Definition partial_fields (m : StreamPartialDepth) : list field :=
  ((λ l, nested 1 (level_fields l)) <$> partial_Asks m) ++ ((λ l, nested 2 (level_fields l)) <$> partial_Bids m) ++
  [(3, Bytes (partial_EventType m)); (4, Bytes (partial_Version m));
   (5, Varint (uint64 (partial_LastOrderCreateTime m)))].
Definition partial_valid (m : StreamPartialDepth) : Prop :=
  Forall (λ l, level_valid l ∧ nested_valid (level_fields l)) (partial_Asks m) ∧
  Forall (λ l, level_valid l ∧ nested_valid (level_fields l)) (partial_Bids m) ∧
  utf8 (partial_EventType m) ∧ utf8 (partial_Version m) ∧ is_int64 (partial_LastOrderCreateTime m).
Definition partial_received (m : StreamPartialDepth) : StreamPartialDepth := m <| partial_Raw := encode (partial_fields m) |>.

Lemma partial_push_Asks ls pre bids e version t raw :
  foldl (λ a l, a <| partial_Asks := partial_Asks a ++ [l] |>) (MkPartialDepth pre bids e version t raw) ls = MkPartialDepth (pre ++ ls) bids e version t raw.
Proof.
  revert pre. induction ls as [|l ls IH]; intros pre; [by rewrite app_nil_r|].
  cbn [foldl]. etrans; [apply (IH (pre ++ [l]))|]. by rewrite <-(assoc (++)).
Qed.

Lemma partial_push_Bids ls asks pre e version t raw :
  foldl (λ a l, a <| partial_Bids := partial_Bids a ++ [l] |>) (MkPartialDepth asks pre e version t raw) ls =
    MkPartialDepth asks (pre ++ ls) e version t raw.
Proof.
  revert pre. induction ls as [|l ls IH]; intros pre; [by rewrite app_nil_r|].
  cbn [foldl]. etrans; [apply (IH (pre ++ [l]))|]. by rewrite <-(assoc (++)).
Qed.

Lemma partial_roundtrip m :
  partial_valid m → decodeStreamPartialDepth (encode (partial_fields m)) = Ok (partial_received m).
Proof.
  intros (Ha & Hb & Hv). destruct_and?. unfold decodeStreamPartialDepth, partial_received.
  rewrite walk_encode by (do 2 (apply Forall_app; split;
    [eapply Forall_nested; [unfold valid_number; lia|eassumption]|]); valid_fields).
  generalize (encode (partial_fields m)) as raw. intros raw. unfold partial_fields.
  rewrite (fold_nested _ 1 level_fields level_valid (λ a l, a <| partial_Asks := partial_Asks a ++ [l] |>)); [|by level_visit|done].
  rewrite (fold_nested _ 2 level_fields level_valid (λ a l, a <| partial_Bids := partial_Bids a ++ [l] |>)); [|by level_visit|done].
  rewrite partial_push_Asks, partial_push_Bids. read_fields. by destruct m.
Qed.

(** ** Whole messages *)

Inductive body : Type :=
  | BodyAggregateTrades (b : StreamAggregateTrades) | BodyDiffDepth (b : StreamDiffDepth)
  | BodyPartialDepth (b : StreamPartialDepth) | BodyBookTicker (b : StreamBookTicker)
  | BodyCandle (b : StreamCandle) | BodyAccount (b : StreamAccount)
  | BodyAccountDeal (b : StreamAccountDeal) | BodyAccountOrder (b : StreamAccountOrder).

(** The number and the fields of a body. *)
Definition body_fields (b : body) : Z * list field :=
  match b with
  | BodyPartialDepth b => (303, partial_fields b)
  | BodyAccountOrder b => (304, order_fields b)
  | BodyAccountDeal b => (306, fill_fields b)
  | BodyAccount b => (307, account_fields b)
  | BodyCandle b => (308, candle_fields b)
  | BodyDiffDepth b => (313, diff_fields b)
  | BodyAggregateTrades b => (314, trades_fields b)
  | BodyBookTicker b => (315, ticker_fields b)
  end.

Definition body_valid (b : body) : Prop :=
  nested_valid (body_fields b).2 ∧
  match b with
  | BodyPartialDepth b => partial_valid b
  | BodyAccountOrder b => order_valid b
  | BodyAccountDeal b => fill_valid b
  | BodyAccount b => account_valid b
  | BodyCandle b => candle_valid b
  | BodyDiffDepth b => diff_valid b
  | BodyAggregateTrades b => trades_valid b
  | BodyBookTicker b => ticker_valid b
  end.

(** The message with the body, which has the bytes it was read from. *)
Definition with_body (m : StreamMessage) (b : body) : StreamMessage :=
  match b with
  | BodyPartialDepth b => m <| PartialDepth := Some (partial_received b) |>
  | BodyAccountOrder b => m <| AccountOrder := Some (b <| order_Raw := encode (order_fields b) |>) |>
  | BodyAccountDeal b => m <| AccountDeal := Some (b <| fill_Raw := encode (fill_fields b) |>) |>
  | BodyAccount b => m <| Account := Some (b <| account_Raw := encode (account_fields b) |>) |>
  | BodyCandle b => m <| Candle := Some (b <| candle_Raw := encode (candle_fields b) |>) |>
  | BodyDiffDepth b => m <| DiffDepth := Some (diff_received b) |>
  | BodyAggregateTrades b => m <| AggregateTrades := Some (trades_received b) |>
  | BodyBookTicker b => m <| BookTicker := Some (b <| ticker_Raw := encode (ticker_fields b) |>) |>
  end.

Definition message_fields (channel symbol symbolID : string) (createTime sendTime : Z) (b : body) : list field :=
  [(1, Bytes channel); (3, Bytes symbol); (4, Bytes symbolID); (5, Varint (uint64 createTime));
   (6, Varint (uint64 sendTime)); nested (body_fields b).1 (body_fields b).2].

Lemma visit_body m b :
  body_valid b →
  visitMessage m (MkField (body_fields b).1 BytesType (encode (body_fields b).2) 0) =
    Ok (with_body (clearBody m) b).
Proof.
  intros [_ Hv]. destruct b; cbn [body_fields fst snd]; unfold visitMessage; cbn [number];
    rewrite protobufBytes_Bytes; cbn [mbind result_bind];
    first [rewrite partial_roundtrip by done|rewrite order_roundtrip by done|rewrite fill_roundtrip by done
          |rewrite account_roundtrip by done|rewrite candle_roundtrip by done|rewrite diff_roundtrip by done
          |rewrite trades_roundtrip by done|rewrite ticker_roundtrip by done]; done.
Qed.

(** C28: a message is read as it was written.  Whatever one of the eight events
    of MEXC is sent with whatever texts and times, what [decodeStreamProtobuf]
    makes of its encoding is that event: every field in its place, the levels
    and the trades in their order, numbers with their sign, and the bytes it came
    from. *)
Theorem protobuf_roundtrip channel symbol symbolID createTime sendTime b :
  channel ≠ "" → utf8 channel → utf8 symbol → utf8 symbolID → is_int64 createTime → is_int64 sendTime →
  body_valid b →
  let data := encode (message_fields channel symbol symbolID createTime sendTime b) in
  decodeStreamProtobuf data =
    Ok (with_body (MkMessage channel symbol symbolID createTime sendTime None None None None None None
                     None None None data) b).
Proof.
  intros Hne Hc Hs Hi Hct Hst Hb data.
  assert (Forall field_valid (message_fields channel symbol symbolID createTime sendTime b)) as Hvalid.
  { unfold message_fields. repeat (apply Forall_cons_2; [first [valid_field|apply field_valid_nested]|]);
      [by destruct b; unfold valid_number; simpl; lia|apply Hb|apply Forall_nil_2]. }
  assert (data ≠ "") as Hdata.
  { unfold data, message_fields. cbn [encode foldr].
    pose proof (encode_field_nonempty (1, Bytes channel)) as Hf.
    destruct (encode_field (1, Bytes channel)); [|done]. destruct Hf; [|done]. by apply Forall_inv in Hvalid. }
  unfold decodeStreamProtobuf. rewrite bool_decide_eq_false_2 by done.
  assert (walkProtobuf visitMessage (newMessage data) data =
    Ok (with_body (MkMessage channel symbol symbolID createTime sendTime None None None None None None
                     None None None data) b)) as ->.
  { unfold data at 2. rewrite walk_encode by done. generalize data. intros raw. unfold message_fields.
    unfold nested. read_fields. eapply fold_result_step; [by apply visit_body|done]. }
  cbn [wrapDecode mbind result_bind]. rewrite bool_decide_eq_false_2; [done|]. by destruct b.
Qed.
End laws.

(** ** What every decoded message satisfies *)

Section decoded.
Context `{P : Protowire}.

Lemma walk_invariant {A} (visit : A → protobufField → result error A) (I : A → Prop) fuel a data a' :
  (∀ a f a', I a → visit a f = Ok a' → I a') → I a → walk fuel visit a data = Ok a' → I a'.
Proof.
  intros Hv. revert a data. induction fuel as [|fuel IH]; intros a data Ha; [by intros [= <-]|].
  destruct data as [|c data]; [by intros [= <-]|]. cbn [walk].
  destruct (ConsumeTag _) as [[n t] l]. case_bool_decide; [done|].
  destruct (if bool_decide _ then _ else _) as [field vl]. case_bool_decide; [done|].
  intros (a2 & Ha2 & Hw)%result_bind_Ok. by eapply IH, Hw; eapply Hv.
Qed.

Definition set {A} (o : option A) : nat := if o is Some _ then 1 else 0.

(** The number of bodies of a message. *)
Definition bodies (m : StreamMessage) : nat :=
  set (AggregateTrades m) + set (DiffDepth m) + set (PartialDepth m) + set (BookTicker m) +
  set (Candle m) + set (Account m) + set (AccountDeal m) + set (AccountOrder m).

(** A decoded message has at most one body.  Whatever bytes MEXC sends, a
    message that [decodeStreamProtobuf] returns has a channel, the bytes it came
    from, no control response and at most one of the eight events, the last one
    of its fields: consumers that test the pointers in turn see one event. *)
Theorem protobuf_one_body data m :
  decodeStreamProtobuf data = Ok m →
  (bodies m ≤ 1)%nat ∧ Control m = None ∧ Raw m = data ∧ Channel m ≠ "".
Proof.
  unfold decodeStreamProtobuf. case_bool_decide; [done|]. intros (m' & Hm & Hc)%result_bind_Ok.
  case_bool_decide as Hch; [done|]. injection Hc as <-.
  destruct (walkProtobuf _ _ _) as [m2|] eqn:Hw; [injection Hm as ->|done].
  assert ((bodies m' ≤ 1)%nat ∧ Control m' = None ∧ Raw m' = data) as (? & ? & ?); [|done].
  refine (walk_invariant visitMessage
    (λ m, (bodies m ≤ 1)%nat ∧ Control m = None ∧ Raw m = data) _ _ _ _ _ _ Hw).
  - intros a f a' (Hb & Hcon & Hraw). unfold visitMessage.
    repeat case_match; intros Hv; invert_result; (split_and!; [first [exact Hb|cbn; lia]|done|done]).
  - split_and!; [cbn; lia|done|done].
Qed.
End decoded.

(** ** A protowire

    The wire format itself, as an instance of the class with its laws. *)

Fixpoint append_varint (fuel : nat) (v : Z) : string :=
  match fuel with
  | O => ""
  | S fuel =>
      if bool_decide (v < 128) then String (Ascii.ascii_of_N (Z.to_N v)) ""
      else String (Ascii.ascii_of_N (Z.to_N (v mod 128 + 128))) (append_varint fuel (v / 128))
  end.

Fixpoint consume_varint (s : string) : Z * Z :=
  match s with
  | EmptyString => (0, -1)
  | String c s =>
      let b := Z.of_N (Ascii.N_of_ascii c) in
      if bool_decide (b < 128) then (b, 1)
      else let '(v, n) := consume_varint s in
           if bool_decide (n < 0) then (0, -1) else (b - 128 + 128 * v, n + 1)
  end.

Definition demo_consume_tag (s : string) : Z * Z * Z :=
  let '(v, n) := consume_varint s in
  if bool_decide (n < 0) then (0, 0, n)
  else if bool_decide (v / 8 < 1) then (0, 0, -1) else (v / 8, v mod 8, n).

Fixpoint take_bytes (n : nat) (s : string) : string :=
  match n, s with S n, String c s => String c (take_bytes n s) | _, _ => "" end.

Definition demo_consume_bytes (s : string) : string * Z :=
  let '(v, n) := consume_varint s in
  let rest := drop_bytes (Z.to_nat n) s in
  if bool_decide (n < 0) then ("", n)
  else if bool_decide (length_of rest < v) then ("", -1)
  else (take_bytes (Z.to_nat v) rest, n + v).

#[export] Instance demo_protowire : Protowire := {
  VarintType := 0;
  BytesType := 2;
  ConsumeTag := demo_consume_tag;
  ConsumeVarint := consume_varint;
  ConsumeBytes := demo_consume_bytes;
  ConsumeFieldValue _ typeID s :=
    if bool_decide (typeID = 1) then if bool_decide (length_of s < 8) then -1 else 8
    else if bool_decide (typeID = 5) then if bool_decide (length_of s < 4) then -1 else 4 else -1;
  ParseError _ := Errorf "proto: parse error";
  AppendTag number typeID := append_varint 10 (number * 8 + typeID);
  AppendVarint := append_varint 10;
  AppendBytes b := append_varint 10 (length_of b) +:+ b
}.

Lemma byte_code z : 0 ≤ z < 256 → Z.of_N (Ascii.N_of_ascii (Ascii.ascii_of_N (Z.to_N z))) = z.
Proof. intros Hz. rewrite Ascii.N_ascii_embedding by lia. lia. Qed.

Lemma consume_varint_bounds s v n : consume_varint s = (v, n) → n = -1 ∨ 0 < n ≤ length_of s ∧ 0 ≤ v.
Proof.
  unfold length_of. revert v n. induction s as [|c s IH]; intros v n; simpl; [intros [= <- <-]; by left|].
  case_bool_decide as Hb; [intros [= <- <-]; right; lia|].
  destruct (consume_varint s) as [v' n']. destruct (IH v' n' eq_refl) as [->|[? ?]];
    case_bool_decide; intros [= <- <-]; [by left|lia|lia|right; lia].
Qed.

Lemma length_append s t : length_of (s +:+ t) = length_of s + length_of t.
Proof. unfold length_of. induction s as [|c s IH]; [done|].
  change (String c s +:+ t) with (String c (s +:+ t)). cbn [String.length]. lia.
Qed.

Lemma append_varint_roundtrip fuel v rest :
  0 ≤ v < 128 ^ Z.of_nat (S fuel) →
  consume_varint (append_varint (S fuel) v +:+ rest) = (v, length_of (append_varint (S fuel) v)).
Proof.
  revert v. induction fuel as [|fuel IH]; intros v Hv.
  { cbn [append_varint]. change (128 ^ _) with 128 in Hv. rewrite bool_decide_eq_true_2 by lia.
    simpl. rewrite byte_code by lia. by rewrite bool_decide_eq_true_2 by lia. }
  remember (S fuel) as fuel' eqn:Hfuel. cbn [append_varint]. case_bool_decide as Hlt.
  - simpl. rewrite byte_code by lia. by rewrite bool_decide_eq_true_2.
  - assert (0 ≤ v / 128 < 128 ^ Z.of_nat fuel') as Hd.
    { rewrite Nat2Z.inj_succ, Z.pow_succ_r in Hv by lia.
      split; [apply Z.div_pos; lia|apply Z.div_lt_upper_bound; lia]. }
    pose proof (Z.mod_pos_bound v 128).
    change (String ?c ?s +:+ rest) with (String c (s +:+ rest)). cbn [consume_varint].
    rewrite byte_code by lia. rewrite bool_decide_eq_false_2 by lia.
    rewrite IH by done.
    rewrite bool_decide_eq_false_2 by apply length_of_nonneg. f_equal.
    + pose proof (Z.div_mod v 128). lia.
    + unfold length_of. cbn [String.length]. lia.
Qed.

Lemma take_bytes_append s t : take_bytes (String.length s) (s +:+ t) = s.
Proof. induction s as [|c s IH]; [by destruct t|].
  change (String c s +:+ t) with (String c (s +:+ t)). cbn. f_equal. exact IH.
Qed.

#[export] Instance demo_protowire_laws : ProtowireLaws demo_protowire.
Proof.
  assert (∀ v, is_uint64 v → 0 ≤ v < 128 ^ Z.of_nat 10) as Hu.
  { unfold is_uint64, MaxUint64. lia. }
  split.
  - done.
  - intros data n t l. cbn. unfold demo_consume_tag. destruct (consume_varint data) as [v k] eqn:Hc.
    apply consume_varint_bounds in Hc. case_bool_decide; [intros [= <- <- <-]; by left|].
    case_bool_decide; intros [= <- <- <-]; [by left|]. right. lia.
  - intros data. cbn. destruct (consume_varint data) as [v k] eqn:Hc. apply consume_varint_bounds in Hc.
    simpl. unfold length_of in *. lia.
  - intros data. cbn. unfold demo_consume_bytes. destruct (consume_varint data) as [v k] eqn:Hc.
    apply consume_varint_bounds in Hc. case_bool_decide; simpl; [unfold length_of; lia|].
    case_bool_decide as Hlt; simpl; [unfold length_of; lia|].
    unfold length_of in *. rewrite length_drop_bytes in Hlt. lia.
  - intros n t data. cbn. unfold length_of. repeat (case_bool_decide; try lia).
  - intros n t rest Hn Ht. cbn -[append_varint]. unfold demo_consume_tag, valid_number in *. cbn in Ht.
    rewrite append_varint_roundtrip by (apply Hu; unfold is_uint64, MaxUint64; lia).
    rewrite bool_decide_eq_false_2 by apply length_of_nonneg.
    assert ((n * 8 + t) / 8 = n ∧ (n * 8 + t) mod 8 = t) as [-> ->].
    { destruct Ht as [->| ->]; Z.div_mod_to_equations; lia. }
    by rewrite bool_decide_eq_false_2 by lia.
  - intros v rest Hv. cbn -[append_varint]. by apply append_varint_roundtrip, Hu.
  - intros b rest Hb. cbn -[append_varint]. unfold demo_consume_bytes. rewrite string_app_assoc.
    rewrite append_varint_roundtrip by (unfold is_int64, MaxInt64, length_of in *; lia).
    rewrite bool_decide_eq_false_2 by apply length_of_nonneg. rewrite drop_length_of.
    rewrite bool_decide_eq_false_2 by (rewrite length_append; unfold length_of; lia).
    unfold length_of at 1. rewrite Nat2Z.id, take_bytes_append. f_equal. by rewrite length_append.
Qed.

Definition demo_diff : StreamDiffDepth :=
  MkDiffDepth [MkBookLevel "93180.19" "0.00024330"] [MkBookLevel "93179.00" "0"] "spot@public.aggre.depth.v3.api.pb@100ms"
    "10589632359" "10589632360" (-1) "".

Example protobuf_demo_bytes :
  encode (level_fields (MkBookLevel "100.5" "2")) =
    String (Ascii.ascii_of_N 10) (String (Ascii.ascii_of_N 5) "100.5") +:+
    String (Ascii.ascii_of_N 18) (String (Ascii.ascii_of_N 1) "2").
Proof. vm_compute. reflexivity. Qed.

Lemma utf8_ascii s : utf8_Valid s = true → length_of s < 1000 → utf8 s.
Proof. intros H1 H2. split; [done|]. unfold is_int64, MinInt64, MaxInt64, length_of in *. lia. Qed.

Lemma demo_nested_valid fs : length_of (encode fs) < 1000 → nested_valid fs.
Proof. unfold nested_valid, is_int64, MinInt64, MaxInt64, length_of. lia. Qed.

Lemma demo_level_valid l :
  utf8 (Price l) → utf8 (Quantity l) → length_of (encode (level_fields l)) < 1000 →
  level_valid l ∧ nested_valid (level_fields l).
Proof. intros Hp Hq Hl. split; [done|by apply demo_nested_valid]. Qed.

Lemma protobuf_roundtrip_witness :
  ∃ raw m, decodeStreamProtobuf raw = Ok m ∧ Symbol m = "BTCUSDT" ∧ CreateTime m = 1736411507002 ∧
    DiffDepth m = Some (diff_received demo_diff).
Proof.
  eexists _, _. split.
  - refine (protobuf_roundtrip "spot@public.aggre.depth.v3.api.pb@100ms@BTCUSDT" "BTCUSDT" ""
      1736411507002 (-7) (BodyDiffDepth demo_diff) _ _ _ _ _ _ _).
    + discriminate.
    + apply utf8_ascii; reflexivity.
    + apply utf8_ascii; reflexivity.
    + apply utf8_ascii; reflexivity.
    + cbv [is_int64 MinInt64 MaxInt64]. lia.
    + cbv [is_int64 MinInt64 MaxInt64]. lia.
    + split; [apply demo_nested_valid; vm_compute; reflexivity|].
      split_and!; try (constructor; [|constructor]; apply demo_level_valid); try (apply utf8_ascii);
        try (vm_compute; reflexivity). cbv [is_int64 MinInt64 MaxInt64 demo_diff diff_LastOrderCreateTime]. lia.
  - split_and!; reflexivity.
Defined.

(** Two bodies: the second one counts. *)
Lemma protobuf_one_body_witness :
  ∃ data m, decodeStreamProtobuf data = Ok m ∧ set (BookTicker m) = 0%nat ∧ set (DiffDepth m) = 1%nat ∧
    (bodies m ≤ 1)%nat ∧ Raw m = data.
Proof.
  set (ticker := MkBookTicker "1" "2" "3" "4" "5" 6 "").
  set (data := encode [(1, Bytes "channel"); nested 315 (ticker_fields ticker); nested 313 (diff_fields demo_diff)]).
  destruct (decodeStreamProtobuf data) as [m|e] eqn:Hm; [|vm_compute in Hm; discriminate].
  exists data, m. destruct (protobuf_one_body data m Hm) as (Hb & _ & Hr & _).
  split; [exact Hm|]. vm_compute in Hm. injection Hm as Hm. subst m. split_and!; done.
Defined.
