(* ===== verification/Smoke.v ===== *)
(** * The operational checks: [smoke/read.go] and [smoke/trade.go]

    A runner calls a client of the unified contract and a verifier of the egress
    route, checks what they answer, and reports.  [smoke] is the monad of their
    code: it logs every call, and what a call answers may depend on all the calls
    before it.  A call carries the options of its request and whether its context
    is the caller's or the one of the cleanup, which the caller cannot cancel.

    The times that a report records are left out; a timeout of a check is an
    answer of the client.  [Raw] payloads are left out as well. *)

From S2P Require Import Prelude GoStrings Decimals Errors Unified Candles.

(** ** Package [net]: IP addresses

    A [net.IP] is a slice of bytes; nil and the empty slice are the empty string.
    [IP_Equal] is [IP.Equal] and [IP_String] is [IP.String], with the
    compression of RFC 5952 for IPv6. *)

Module GoNet.
Abbreviation IP := string.

Definition v4InV6Prefix : string :=
  String.string_of_list_ascii (Ascii.ascii_of_N <$> [0;0;0;0;0;0;0;0;0;0;255;255]%N).

(** [IP.Equal]: an IPv4 address equals its IPv6 form. *)
Definition IP_Equal (ip x : IP) : bool :=
  let n := String.length ip in
  let m := String.length x in
  if bool_decide (n = m) then bool_decide (ip = x)
  else if bool_decide (n = 4%nat) && bool_decide (m = 16%nat) then bool_decide (x = v4InV6Prefix +:+ ip)
  else if bool_decide (n = 16%nat) && bool_decide (m = 4%nat) then bool_decide (ip = v4InV6Prefix +:+ x)
  else false.

Definition hex_digit (n : N) : ascii :=
  if bool_decide (n < 10)%N then Ascii.ascii_of_N (48 + n) else Ascii.ascii_of_N (87 + n).

(** A group of 16 bits, without leading zeros. *)
Definition hex_group (g : N) : string :=
  let digits := [g / 4096; g / 256 mod 16; g / 16 mod 16; g mod 16]%N in
  match drop_while (λ d, bool_decide (d = 0)%N) digits with
  | [] => "0"
  | ds => String.string_of_list_ascii (hex_digit <$> ds)
  end.

Fixpoint groups (l : list N) : list N :=
  match l with a :: b :: l => (a * 256 + b)%N :: groups l | _ => [] end.

Fixpoint zeros_from (l : list N) : nat :=
  match l with 0%N :: l => S (zeros_from l) | _ => 0 end.

(** The first longest run of zero groups: its position and length. *)
Definition longest_zeros (l : list N) : nat * nat :=
  foldl (λ best i, let n := zeros_from (drop i l) in if bool_decide (best.2 < n)%nat then (i, n) else best)
    (0%nat, 0%nat) (seq 0 (length l)).

Definition join (sep : string) (l : list string) : string :=
  match l with [] => "" | s :: l => foldl (λ acc s, acc +:+ sep +:+ s) s l end.

Definition ipv6_text (l : list N) : string :=
  let '(i, n) := longest_zeros l in
  let text l := join ":" (hex_group <$> l) in
  if bool_decide (n < 2)%nat then text l else text (take i l) +:+ "::" +:+ text (drop (i + n) l).

Definition ipv4_text (l : list N) : string := join "." ((λ n : N, pretty n) <$> l).

Definition IP_String (ip : IP) : string :=
  let l := Ascii.N_of_ascii <$> String.list_ascii_of_string ip in
  if bool_decide (l = []) then "<nil>"
  else if bool_decide (length l = 4%nat) then ipv4_text l
  else if bool_decide (length l = 16%nat) then
    if bool_decide (take 12 l = [0;0;0;0;0;0;0;0;0;0;255;255]%N) then ipv4_text (drop 12 l)
    else ipv6_text (groups l)
  else "?" +:+ String.string_of_list_ascii (mjoin ((λ n, [hex_digit (n / 16); hex_digit (n mod 16)]%N) <$> l)).

Definition ip_of_bytes (l : list N) : IP := String.string_of_list_ascii (Ascii.ascii_of_N <$> l).

Example IP_String_v4 : IP_String (ip_of_bytes [203; 0; 113; 7]%N) = "203.0.113.7".
Proof. vm_compute. reflexivity. Qed.

Example IP_String_v6 :
  IP_String (ip_of_bytes [32;1;13;184;0;0;0;0;0;0;0;0;0;0;0;1]%N) = "2001:db8::1" ∧
  IP_String (ip_of_bytes [0;0;0;0;0;0;0;0;0;0;0;0;0;0;0;0]%N) = "::" ∧
  IP_String (ip_of_bytes [0;0;0;0;0;0;0;0;0;0;255;255;10;0;0;1]%N) = "10.0.0.1".
Proof. vm_compute. done. Qed.

Example IP_Equal_mapped :
  IP_Equal (ip_of_bytes [10;0;0;1]%N) (ip_of_bytes [0;0;0;0;0;0;0;0;0;0;255;255;10;0;0;1]%N) = true.
Proof. vm_compute. reflexivity. Qed.
End GoNet.
Import GoNet.

(** ** Calls *)

Inductive context : Type := Caller | Cleanup.

Record requestOptions : Type := MkRequestOptions { EgressRoute : string; Timeout : Z }.

Inductive request : Type :=
  | VerifyPublicIP (endpoint : string)
  | MarketsCall
  | TickerCall (r : TickerRequest)
  | OrderBookCall (r : OrderBookRequest)
  | RecentTradesCall (r : RecentTradesRequest)
  | CandlesCall (r : CandlesRequest)
  | BalancesCall
  | PlaceOrderCall (r : PlaceOrderRequest)
  | OrderCall (r : OrderRequest)
  | CancelOrderCall (r : OrderRequest).

Record call : Type := MkCall { call_context : context; call_options : requestOptions; call_request : request }.

(** [transport.PublicIPCheck]. *)
Record PublicIPCheck : Type := MkPublicIPCheck {
  ip_RouteID : string;
  LocalSourceIP : IP;
  LocalPrivateIP : IP;
  ExpectedPublicIP : IP;
  ObservedPublicIP : IP;
  MatchesExpected : bool
}.

(** The client and the verifier.  Go returns a value beside an error. *)
Abbreviation answer A := (list call → A * option error).
Record environment : Type := MkEnvironment {
  env_Exchange : string;
  env_VerifyPublicIP : answer PublicIPCheck;
  env_Markets : answer (list MarketInfo);
  env_Ticker : answer Ticker;
  env_OrderBook : answer OrderBook;
  env_RecentTrades : answer (list PublicTrade);
  env_Candles : answer (list Candle);
  env_Balances : answer (list Balance);
  env_PlaceOrder : answer Order;
  env_Order : answer Order;
  env_CancelOrder : answer Order
}.

Definition smoke (A : Type) : Type := list call → A * list call.
#[export] Instance smoke_ret : MRet smoke := λ A a calls, (a, calls).
#[export] Instance smoke_bind : MBind smoke := λ A B f m calls, let '(a, calls) := m calls in f a calls.

(** The call is the last one its answer sees. *)
Definition perform {A} (c : call) (f : answer A) : smoke (A * option error) := λ calls,
  (f (calls ++ [c]), calls ++ [c]).

(** ** Reports *)

Definition CheckPassed : string := "passed".
Definition CheckFailed : string := "failed".
Definition CheckSkipped : string := "skipped".

Record CheckFailure : Type := MkCheckFailure {
  Kind : string;
  Reason : string;
  fail_Category : string;
  fail_ExchangeCode : string;
  fail_HTTPStatus : Z;
  fail_Retryable : bool
}.

Record CheckEvidence : Type := MkEvidence {
  Count : Z;
  ev_NativeMarket : string;
  OrderStatus : string;
  ev_LocalSourceIP : string;
  ev_ExpectedPublicIP : string;
  ev_ObservedPublicIP : string
}.
Definition noEvidence : CheckEvidence := MkEvidence 0 "" "" "" "" "".
#[export] Instance CheckEvidence_settable : Settable CheckEvidence := λ r,
  MkEvidence (Count r) (ev_NativeMarket r) (OrderStatus r) (ev_LocalSourceIP r) (ev_ExpectedPublicIP r)
    (ev_ObservedPublicIP r).

Record CheckResult : Type := MkCheckResult {
  Name : string;
  Status : string;
  Evidence : CheckEvidence;
  Failure : option CheckFailure
}.

Definition ReadReportVersion : Z := 2.
Definition DefaultPublicIPEndpoint : string := "https://api.ipify.org".
Definition defaultCheckTimeout : Z := 10 * Second.

Definition invalidEvidence (reason : string) : error := evidenceError reason.

(** [categoryForError]: the first sentinel of the list that the error matches. *)
Definition categories : list (sentinel * string) :=
  [(ErrAuthentication, ErrorAuthentication); (ErrAuthorization, ErrorAuthorization);
   (ErrValidation, ErrorValidation); (ErrInsufficientBalance, ErrorInsufficientBalance);
   (ErrOrderNotFound, ErrorOrderNotFound); (ErrRateLimited, ErrorRateLimited);
   (ErrNetwork, ErrorNetwork); (ErrTimeout, ErrorTimeout);
   (ErrUnknownExecutionState, ErrorUnknownExecutionState);
   (ErrExchangeUnavailable, ErrorExchangeUnavailable);
   (ErrUnsupportedCapability, ErrorUnsupportedCapability); (ErrInternal, ErrorInternal)].

Definition categoryForError (err : error) : string :=
  match List.find (λ item, Is err item.1) categories with
  | Some (_, category) => category
  | None => ErrorInternal
  end.

(** The reason of an [*evidenceError], which no other package can make. *)
Definition evidenceReason (e : error) : option string :=
  match e with evidenceError reason => Some reason | _ => None end.

Definition classifyFailure (err : error) : CheckFailure :=
  match As evidenceReason err with
  | Some reason => MkCheckFailure "evidence" reason "" "" 0 false
  | None =>
      match AsAPIError err with
      | Some a => MkCheckFailure "api" "" (Category a) (ExchangeCode a) (HTTPStatus a) (Retryable a)
      | None =>
          if Is err ErrPublicIPMismatch then MkCheckFailure "egress" "public_ip_mismatch" "" "" 0 false
          else if Is err ContextDeadlineExceeded then MkCheckFailure "timeout" "" ErrorTimeout "" 0 false
          else if Is err ContextCanceled then MkCheckFailure "canceled" "" "" "" 0 false
          else MkCheckFailure "error" "" (categoryForError err) "" 0 false
      end
  end.

(** A check with the variables that its closure assigns, of type [X]. *)
Definition executeCheck {X} (name : string) (check : smoke (CheckEvidence * option error * X))
    : smoke (CheckResult * X) :=
  '(evidence, err, x) ← check;
  mret (match err with
        | None => MkCheckResult name CheckPassed evidence None
        | Some err => MkCheckResult name CheckFailed evidence (Some (classifyFailure err))
        end, x).

(** A check without such variables. *)
Definition runCheck (name : string) (check : smoke (CheckEvidence * option error)) : smoke CheckResult :=
  r ← executeCheck name (r ← check; mret (r, ()));
  mret r.1.

Definition skippedCheck (name reason : string) : CheckResult :=
  MkCheckResult name CheckSkipped noEvidence (Some (MkCheckFailure "prerequisite" reason "" "" 0 false)).

Definition passed (check : CheckResult) : bool := bool_decide (Status check = CheckPassed).

(** ** Decimals *)

Definition decimal (value : string) (allowZero : bool) : result error Q :=
  if negb (positiveDecimalPattern value) then Err (Errorf "invalid decimal")
  else
    match Rat_SetString value with
    | Some parsed =>
        if bool_decide (Rat_Sign parsed < 0) || (negb allowZero && bool_decide (Rat_Sign parsed = 0))
        then Err (Errorf "invalid decimal") else Ok parsed
    | None => Err (Errorf "invalid decimal")
    end.

Definition validateDecimal (value : string) (allowZero : bool) : result error unit :=
  decimal value allowZero;; Ok tt.

(** [validateDecimal(value, allowZero) == nil]. *)
Definition isDecimal (value : string) (allowZero : bool) : bool := is_Ok (validateDecimal value allowZero).

Definition validateCandle (candle : Candle) : result error unit :=
  let price value := match decimal value false with
                     | Ok q => Ok q
                     | Err _ => Err (invalidEvidence "invalid_candle_price")
                     end in
  require (negb (bool_decide (StartTime candle ≤ 0))) (invalidEvidence "invalid_candle_time");;
  open ← price (Open candle);
  high ← price (High candle);
  low ← price (Low candle);
  closeValue ← price (Close candle);
  require (isDecimal (Volume candle) true) (invalidEvidence "invalid_candle_volume");;
  require (negb (bool_decide (high < low)%Q || bool_decide (high < open)%Q || bool_decide (high < closeValue)%Q ||
                 bool_decide (open < low)%Q || bool_decide (closeValue < low)%Q))
    (invalidEvidence "invalid_candle_range").

(** A value with an error that does not depend on it. *)
Definition check_error (evidence : CheckEvidence) (r : result error unit) : CheckEvidence * option error :=
  (evidence, match r with Ok _ => None | Err err => Some err end).

Definition ipString (value : IP) : string := if bool_decide (value = "") then "" else IP_String value.

(** ** The runners *)

Section runners.
Context (env : environment).

(** [verifyEgress]. *)
Definition verifyEgress (c : context) (options : requestOptions) (endpoint : string)
    : smoke (CheckEvidence * option error) :=
  '(check, err) ← perform (MkCall c options (VerifyPublicIP endpoint)) (env_VerifyPublicIP env);
  let localSourceIP := if bool_decide (LocalSourceIP check = "") then LocalPrivateIP check else LocalSourceIP check in
  let evidence := MkEvidence 0 "" "" (ipString localSourceIP) (ipString (ExpectedPublicIP check))
                    (ipString (ObservedPublicIP check)) in
  mret (match err with
        | Some err => (evidence, Some err)
        | None =>
            check_error evidence (
              require (bool_decide (ip_RouteID check = EgressRoute options)) (invalidEvidence "unexpected_route");;
              require (negb (bool_decide (ExpectedPublicIP check = "")))
                (invalidEvidence "expected_public_ip_missing");;
              require (negb (bool_decide (ObservedPublicIP check = "") || negb (MatchesExpected check) ||
                             negb (IP_Equal (ObservedPublicIP check) (ExpectedPublicIP check))))
                (invalidEvidence "public_ip_mismatch"))
        end).

(** A check of the answer to a request of the caller: its evidence, and what the
    answer has to satisfy. *)
Definition checkAnswer {A} (options : requestOptions) (r : request) (f : answer A)
    (evidence : A → CheckEvidence) (check : A → CheckEvidence * option error)
    : smoke (CheckEvidence * option error) :=
  '(a, err) ← perform (MkCall Caller options r) f;
  mret (match err with Some err => (evidence a, Some err) | None => check a end).

(** *** [SpotReadRunner] *)

Record SpotReadRunner : Type := MkReadRunner {
  read_market : Market;
  read_routeID : string;
  read_publicIPEndpoint : string;
  read_checkTimeout : Z;
  includeBalances : bool
}.

Record SpotReadConfig : Type := MkReadConfig {
  rc_Client : bool;
  rc_EgressVerifier : bool;
  rc_Market : Market;
  rc_EgressRouteID : string;
  rc_PublicIPEndpoint : string;
  rc_CheckTimeout : Z;
  rc_IncludeBalances : bool
}.

Definition ExchangeID_Valid (id : string) : bool := negb (bool_decide (TrimSpace id = "")).

Definition withEndpoint (endpoint : string) : string :=
  if bool_decide (endpoint = "") then DefaultPublicIPEndpoint else endpoint.
Definition withTimeout (timeout : Z) : Z := if bool_decide (timeout = 0) then defaultCheckTimeout else timeout.

Definition NewSpotReadRunner (config : SpotReadConfig) : result error SpotReadRunner :=
  require (rc_Client config) (Errorf "smoke Spot client is required");;
  require (ExchangeID_Valid (env_Exchange env)) (Errorf "smoke Spot client exchange is required");;
  require (rc_EgressVerifier config) (Errorf "smoke egress verifier is required");;
  Market_Validate (rc_Market config);;
  let routeID := TrimSpace (rc_EgressRouteID config) in
  require (negb (bool_decide (routeID = ""))) (Sentinel ErrMissingEgressRoute);;
  let timeout := withTimeout (rc_CheckTimeout config) in
  require (negb (bool_decide (timeout < 0))) (Errorf "smoke check timeout must be positive");;
  Ok (MkReadRunner (rc_Market config) routeID (withEndpoint (rc_PublicIPEndpoint config)) timeout
        (rc_IncludeBalances config)).

Definition read_options (runner : SpotReadRunner) : requestOptions :=
  MkRequestOptions (read_routeID runner) (read_checkTimeout runner).

Definition checkMarkets (runner : SpotReadRunner) : smoke (CheckEvidence * option error) :=
  let evidence markets := noEvidence <| Count := Z.of_nat (length markets) |> in
  checkAnswer (read_options runner) MarketsCall (env_Markets env) evidence (λ markets,
    match List.find (λ m, bool_decide (info_Market m = read_market runner)) markets with
    | None => (evidence markets, Some (invalidEvidence "market_not_found"))
    | Some m =>
        check_error ((evidence markets) <| ev_NativeMarket := NativeMarket m |>) (
          require (bool_decide (info_Exchange m = env_Exchange env)) (invalidEvidence "unexpected_exchange");;
          require (negb (bool_decide (TrimSpace (NativeMarket m) = ""))) (invalidEvidence "native_market_missing"))
    end).

Definition checkTicker (runner : SpotReadRunner) : smoke (CheckEvidence * option error) :=
  let evidence ticker := noEvidence <| ev_NativeMarket := ticker_NativeMarket ticker |> in
  checkAnswer (read_options runner) (TickerCall (MkTickerRequest (read_market runner))) (env_Ticker env) evidence
    (λ ticker, check_error (evidence ticker) (
      require (bool_decide (ticker_Exchange ticker = env_Exchange env) &&
               bool_decide (ticker_Market ticker = read_market runner))
        (invalidEvidence "unexpected_ticker_identity");;
      require (negb (bool_decide (TrimSpace (ticker_NativeMarket ticker) = "")))
        (invalidEvidence "native_market_missing");;
      require (isDecimal (ticker_Price ticker) false) (invalidEvidence "invalid_ticker_price"))).

Definition bookEvidence (book : OrderBook) : CheckEvidence :=
  noEvidence <| Count := Z.of_nat (length (Bids book) + length (Asks book)) |>
    <| ev_NativeMarket := ob_NativeMarket book |>.

(** [book.Exchange == client.Exchange() && book.Market == market]. *)
Definition bookIdentity (market : Market) (book : OrderBook) : bool :=
  bool_decide (ob_Exchange book = env_Exchange env) && bool_decide (ob_Market book = market).

Definition validLevel (level : BookLevel) : bool :=
  isDecimal (Price level) false && isDecimal (Quantity level) false.

Definition checkOrderBook (runner : SpotReadRunner) : smoke (CheckEvidence * option error) :=
  checkAnswer (read_options runner) (OrderBookCall (MkOrderBookRequest (read_market runner) 5)) (env_OrderBook env)
    bookEvidence (λ book, check_error (bookEvidence book) (
      require (bookIdentity (read_market runner) book) (invalidEvidence "unexpected_order_book_identity");;
      require (negb (bool_decide (TrimSpace (ob_NativeMarket book) = ""))) (invalidEvidence "native_market_missing");;
      require (negb (bool_decide (Bids book = []) || bool_decide (Asks book = [])))
        (invalidEvidence "empty_order_book_side");;
      require (forallb validLevel (Bids book ++ Asks book)) (invalidEvidence "invalid_order_book_level"))).

Definition checkRecentTrades (runner : SpotReadRunner) : smoke (CheckEvidence * option error) :=
  let evidence trades := noEvidence <| Count := Z.of_nat (length trades) |> in
  checkAnswer (read_options runner) (RecentTradesCall (MkRecentTradesRequest (read_market runner) 5))
    (env_RecentTrades env) evidence (λ trades, check_error (evidence trades) (
      require (negb (bool_decide (trades = []))) (invalidEvidence "recent_trades_empty");;
      require (forallb (λ item, isDecimal (trade_Price item) false && isDecimal (trade_Quantity item) false &&
                 (bool_decide (trade_Side item = SideBuy) || bool_decide (trade_Side item = SideSell))) trades)
        (invalidEvidence "invalid_recent_trade"))).

Definition checkCandles (runner : SpotReadRunner) : smoke (CheckEvidence * option error) :=
  let evidence candles := noEvidence <| Count := Z.of_nat (length candles) |> in
  checkAnswer (read_options runner) (CandlesCall (MkCandlesRequest (read_market runner) "1m" 5)) (env_Candles env)
    evidence (λ candles, check_error (evidence candles) (
      require (negb (bool_decide (candles = []))) (invalidEvidence "candles_empty");;
      fold_result (λ _ candle, validateCandle candle) tt candles)).

Definition checkBalances (runner : SpotReadRunner) : smoke (CheckEvidence * option error) :=
  let evidence balances := noEvidence <| Count := Z.of_nat (length balances) |> in
  checkAnswer (read_options runner) BalancesCall (env_Balances env) evidence
    (λ balances, check_error (evidence balances) (
      require (forallb (λ b, negb (bool_decide (TrimSpace (Asset b) = "")) && isDecimal (Available b) true &&
                 isDecimal (Locked b) true) balances) (invalidEvidence "invalid_balance"))).

Record ReadReport : Type := MkReadReport {
  rr_Version : Z;
  rr_Kind : string;
  rr_Exchange : string;
  rr_Product : string;
  rr_Market : Market;
  rr_EgressRouteID : string;
  PrivateRead : bool;
  rr_Passed : bool;
  rr_Checks : list CheckResult
}.
Definition emptyReadReport : ReadReport := MkReadReport 0 "" "" "" (MkMarket "" "") "" false false [].

(** The loop of [Run] over its checks. *)
Fixpoint runChecks (checks : list (string * smoke (CheckEvidence * option error))) : smoke (list CheckResult) :=
  match checks with
  | [] => mret []
  | (name, check) :: checks =>
      result ← runCheck name check;
      results ← runChecks checks;
      mret (result :: results)
  end.

Definition failures (checks : list CheckResult) : nat := length (filter (λ c, passed c = false) checks).

Definition readChecks (runner : SpotReadRunner) : list (string * smoke (CheckEvidence * option error)) :=
  [("markets", checkMarkets runner); ("ticker", checkTicker runner); ("order_book", checkOrderBook runner);
   ("recent_trades", checkRecentTrades runner); ("candles", checkCandles runner)] ++
  if includeBalances runner then [("balances", checkBalances runner)] else [].

(** [SpotReadRunner.Run]; [ctx] tells whether its context is not nil. *)
Definition ReadRun (runner : SpotReadRunner) (ctx : bool) : smoke (ReadReport * option error) :=
  if negb ctx then mret (emptyReadReport, Some (Errorf "smoke context cannot be nil"))
  else
    egress ← runCheck "egress_ip" (verifyEgress Caller (read_options runner) (read_publicIPEndpoint runner));
    rest ← (if negb (passed egress)
            then mret ((λ item, skippedCheck item.1 "egress_verification_failed") <$> readChecks runner)
            else runChecks (readChecks runner));
    let checks := egress :: rest in
    let report := MkReadReport ReadReportVersion "spot_read" (env_Exchange env) "spot" (read_market runner)
                    (read_routeID runner) (includeBalances runner) (bool_decide (failures checks = 0%nat)) checks in
    mret (report, if bool_decide (0 < failures checks)%nat
                  then Some (Wrapf "%w: %d checks did not pass" (Errorf "read smoke failed")) else None).

(** *** [SpotTradeRunner] *)

Record SpotTradeRunner : Type := MkTradeRunner {
  market : Market;
  routeID : string;
  publicIPEndpoint : string;
  checkTimeout : Z;
  side : string;
  price : string;
  quantity : string;
  clientOrderID : string
}.

Record SpotTradeConfig : Type := MkTradeConfig {
  tc_Client : bool;
  tc_EgressVerifier : bool;
  tc_Market : Market;
  tc_EgressRouteID : string;
  tc_PublicIPEndpoint : string;
  tc_CheckTimeout : Z;
  tc_Side : string;
  tc_Price : string;
  tc_Quantity : string;
  tc_MaxNotional : string;
  tc_ClientOrderID : string;
  tc_Confirmation : string
}.

(** The bytes of [RealOrderConfirmation]. *)
Definition RealOrderConfirmation : string := "실제-주문-생성에-동의합니다".

Definition positiveOr (value message : string) : result error Q :=
  match decimal value false with Ok q => Ok q | Err _ => Err (Errorf message) end.

Definition NewSpotTradeRunner (config : SpotTradeConfig) : result error SpotTradeRunner :=
  require (tc_Client config) (Errorf "smoke Spot client is required");;
  require (ExchangeID_Valid (env_Exchange env)) (Errorf "smoke Spot client exchange is required");;
  require (tc_EgressVerifier config) (Errorf "smoke egress verifier is required");;
  Market_Validate (tc_Market config);;
  let routeID := TrimSpace (tc_EgressRouteID config) in
  require (negb (bool_decide (routeID = ""))) (Sentinel ErrMissingEgressRoute);;
  require (negb (negb (bool_decide (tc_Side config = SideBuy)) && negb (bool_decide (tc_Side config = SideSell))))
    (Errorf "trade smoke side must be buy or sell");;
  price ← positiveOr (tc_Price config) "trade smoke price must be a positive decimal";
  quantity ← positiveOr (tc_Quantity config) "trade smoke quantity must be a positive decimal";
  maximum ← positiveOr (tc_MaxNotional config) "trade smoke maximum notional must be a positive decimal";
  require (negb (bool_decide (maximum < Rat_Mul price quantity)%Q))
    (Errorf "trade smoke order notional exceeds configured maximum");;
  require (negb (bool_decide (tc_ClientOrderID config = "") ||
                 negb (bool_decide (TrimSpace (tc_ClientOrderID config) = tc_ClientOrderID config))))
    (Errorf "trade smoke client order ID is required without surrounding whitespace");;
  require (bool_decide (tc_Confirmation config = RealOrderConfirmation))
    (Errorf "trade smoke real-order confirmation does not match");;
  let timeout := withTimeout (tc_CheckTimeout config) in
  require (negb (bool_decide (timeout < 0))) (Errorf "smoke check timeout must be positive");;
  Ok (MkTradeRunner (tc_Market config) routeID (withEndpoint (tc_PublicIPEndpoint config)) timeout (tc_Side config)
        (tc_Price config) (tc_Quantity config) (tc_ClientOrderID config)).

Record TradeReport : Type := MkTradeReport {
  Version : Z;
  report_Kind : string;
  Exchange : string;
  Product : string;
  report_Market : Market;
  report_EgressRouteID : string;
  report_Side : string;
  Passed : bool;
  CleanupAttempted : bool;
  CancellationConfirmed : bool;
  Checks : list CheckResult
}.
#[export] Instance TradeReport_settable : Settable TradeReport := λ r,
  MkTradeReport (Version r) (report_Kind r) (Exchange r) (Product r) (report_Market r) (report_EgressRouteID r)
    (report_Side r) (Passed r) (CleanupAttempted r) (CancellationConfirmed r) (Checks r).

Definition append (report : TradeReport) (checks : list CheckResult) : TradeReport :=
  report <| Checks := Checks report ++ checks |>.

Context (runner : SpotTradeRunner).

Definition trade_options : requestOptions := MkRequestOptions (routeID runner) (checkTimeout runner).

(** The best price of one side: the loop of [bestPrices]. *)
Definition bestPrice (better : Q → Q → bool) (levels : list BookLevel) : result error (option Q) :=
  fold_result (λ best level,
    match decimal (Price level) false with
    | Ok p =>
        if negb (isDecimal (Quantity level) false) then Err (invalidEvidence "invalid_order_book_level")
        else Ok (match best with
                 | None => Some p
                 | Some b => if better p b then Some p else Some b
                 end)
    | Err _ => Err (invalidEvidence "invalid_order_book_level")
    end) None levels.

Definition bestPrices (book : OrderBook) : result error (option Q * option Q) :=
  require (negb (bool_decide (Bids book = []) || bool_decide (Asks book = [])))
    (invalidEvidence "empty_order_book_side");;
  bestBid ← bestPrice (λ p b, bool_decide (b < p)%Q) (Bids book);
  bestAsk ← bestPrice (λ p b, bool_decide (p < b)%Q) (Asks book);
  Ok (bestBid, bestAsk).

(** What [checkOrderBookSafety] asks of the book.  The last case is a nil pointer:
    [bookSafety_no_nil] shows that a runner of [NewSpotTradeRunner] never meets it. *)
Definition bookSafety (book : OrderBook) : result error unit :=
  require (bookIdentity (market runner) book) (invalidEvidence "unexpected_order_book_identity");;
  best ← bestPrices book;
  match best, decimal (price runner) false with
  | (Some bestBid, Some bestAsk), Ok orderPrice =>
      require (bool_decide (bestBid < bestAsk)%Q) (invalidEvidence "crossed_order_book");;
      require (negb (bool_decide (side runner = SideBuy) && bool_decide (bestAsk <= orderPrice)%Q))
        (invalidEvidence "buy_price_crosses_best_ask");;
      require (negb (bool_decide (side runner = SideSell) && bool_decide (orderPrice <= bestBid)%Q))
        (invalidEvidence "sell_price_crosses_best_bid")
  | _, _ => Err (Errorf "nil pointer dereference")
  end.

Definition checkOrderBookSafety : smoke (CheckEvidence * option error) :=
  checkAnswer trade_options (OrderBookCall (MkOrderBookRequest (market runner) 5)) (env_OrderBook env)
    bookEvidence (λ book, check_error (bookEvidence book) (bookSafety book)).

Definition validateOrderIdentity (order : Order) : result error unit :=
  require (bool_decide (ord_Exchange order = env_Exchange env) && bool_decide (ord_Market order = market runner))
    (invalidEvidence "unexpected_order_identity");;
  require (negb (bool_decide (ord_ID order = "") && bool_decide (ord_ClientOrderID order = "")))
    (invalidEvidence "order_identity_missing");;
  require (negb (negb (bool_decide (ord_ClientOrderID order = "")) &&
                 negb (bool_decide (ord_ClientOrderID order = clientOrderID runner))))
    (invalidEvidence "unexpected_client_order_id").

Definition orderEvidence (order : Order) : CheckEvidence := noEvidence <| OrderStatus := ord_Status order |>.

(** The identity an order is asked for by, once its ID is known. *)
Definition identify (identity : OrderRequest) (order : Order) : OrderRequest :=
  if bool_decide (ord_ID order = "") then identity else MkOrderRequest (market runner) (ord_ID order) "".

Definition placeRequest : PlaceOrderRequest :=
  MkPlaceOrderRequest (market runner) (side runner) OrderTypeLimit TimeInForcePostOnly (quantity runner) ""
    (price runner) (clientOrderID runner).

(** The closure of [place_order], with [placeRequestSucceeded] and [identity]. *)
Definition placeCheck (identity : OrderRequest)
    : smoke (CheckEvidence * option error * (bool * OrderRequest)) :=
  '(order, err) ← perform (MkCall Caller trade_options (PlaceOrderCall placeRequest)) (env_PlaceOrder env);
  mret (match err with
        | Some err => (noEvidence, Some err, (false, identity))
        | None =>
            match validateOrderIdentity order with
            | Err err => (orderEvidence order, Some err, (true, identity))
            | Ok _ => (orderEvidence order, None, (true, identify identity order))
            end
        end).

(** The closure of [query_order], with [identity]. *)
Definition queryCheck (identity : OrderRequest) : smoke (CheckEvidence * option error * OrderRequest) :=
  '(order, err) ← perform (MkCall Caller trade_options (OrderCall identity)) (env_Order env);
  mret (match err with
        | Some err => (noEvidence, Some err, identity)
        | None =>
            match validateOrderIdentity order with
            | Err err => (orderEvidence order, Some err, identity)
            | Ok _ => (orderEvidence order, None, identify identity order)
            end
        end).

Definition cancelCheck (identity : OrderRequest) : smoke (CheckEvidence * option error) :=
  '(order, err) ← perform (MkCall Cleanup trade_options (CancelOrderCall identity)) (env_CancelOrder env);
  mret (match err with Some err => (noEvidence, Some err) | None => (orderEvidence order, None) end).

(** What [verify_canceled] asks of the order. *)
Definition orderCanceled (order : Order) : result error unit :=
  validateOrderIdentity order;;
  require (bool_decide (ord_Status order = OrderStatusCanceled)) (invalidEvidence "order_not_canceled");;
  require (negb (bool_decide (ord_ExecutedQuantity order = "") || negb (isDecimal (ord_ExecutedQuantity order) true)))
    (invalidEvidence "invalid_executed_quantity");;
  match decimal (ord_ExecutedQuantity order) true with
  | Ok executed => require (bool_decide (Rat_Sign executed = 0)) (invalidEvidence "order_executed")
  | Err err => Err err
  end.

(** The closure of [verify_canceled], with [report.CancellationConfirmed]. *)
Definition verifyCheck (identity : OrderRequest) : smoke (CheckEvidence * option error * bool) :=
  '(order, err) ← perform (MkCall Cleanup trade_options (OrderCall identity)) (env_Order env);
  mret (match err with
        | Some err => (noEvidence, Some err, false)
        | None =>
            match orderCanceled order with
            | Err err => (orderEvidence order, Some err, false)
            | Ok _ => (orderEvidence order, None, true)
            end
        end).

Definition skipAfterPlaceChecks (report : TradeReport) (reason : string) : TradeReport :=
  append report [skippedCheck "query_order" reason; skippedCheck "cancel_order" reason;
                 skippedCheck "verify_canceled" reason].
Definition skipMutationChecks (report : TradeReport) (reason : string) : TradeReport :=
  append report [skippedCheck "place_order" reason; skippedCheck "query_order" reason;
                 skippedCheck "cancel_order" reason; skippedCheck "verify_canceled" reason].
Definition skipTradeChecks (report : TradeReport) (reason : string) : TradeReport :=
  append report [skippedCheck "order_book_safety" reason; skippedCheck "place_order" reason;
                 skippedCheck "query_order" reason; skippedCheck "cancel_order" reason;
                 skippedCheck "verify_canceled" reason].

Definition finish (report : TradeReport) : TradeReport * option error :=
  let report := report <| Passed := bool_decide (failures (Checks report) = 0%nat) && CancellationConfirmed report |> in
  (report, if Passed report then None
           else Some (Wrapf "%w: %d checks did not pass" (Sentinel ErrTradeSmokeFailed))).

Definition emptyTradeReport : TradeReport := MkTradeReport 0 "" "" "" (MkMarket "" "") "" "" false false false [].

(** [mayExist]. *)
Definition mayExist (succeeded : bool) (result : CheckResult) : bool :=
  succeeded || passed result ||
  match Failure result with
  | Some failure => bool_decide (fail_Category failure = ErrorUnknownExecutionState)
  | None => false
  end.

(** [Run] from the query on. *)
Definition cleanUp (report : TradeReport) (identity : OrderRequest) : smoke (TradeReport * option error) :=
  '(query, identity) ← executeCheck "query_order" (queryCheck identity);
  let report := (append report [query]) <| CleanupAttempted := true |> in
  cancel ← runCheck "cancel_order" (cancelCheck identity);
  '(verify, confirmed) ← executeCheck "verify_canceled" (verifyCheck identity);
  mret (finish ((append report [cancel; verify]) <| CancellationConfirmed := confirmed |>)).

(** [SpotTradeRunner.Run]; [ctx] tells whether its context is not nil. *)
Definition Run (ctx : bool) : smoke (TradeReport * option error) :=
  if negb ctx then mret (emptyTradeReport, Some (Errorf "smoke context cannot be nil"))
  else
    let report := MkTradeReport ReadReportVersion "spot_trade" (env_Exchange env) "spot" (market runner)
                    (routeID runner) (side runner) false false false [] in
    egress ← runCheck "egress_ip" (verifyEgress Caller trade_options (publicIPEndpoint runner));
    let report := append report [egress] in
    if negb (passed egress) then mret (finish (skipTradeChecks report "egress_verification_failed"))
    else
      safety ← runCheck "order_book_safety" checkOrderBookSafety;
      let report := append report [safety] in
      if negb (passed safety) then mret (finish (skipMutationChecks report "order_book_safety_failed"))
      else
        let identity := MkOrderRequest (market runner) "" (clientOrderID runner) in
        '(place, (succeeded, identity)) ← executeCheck "place_order" (placeCheck identity);
        let report := append report [place] in
        if negb (mayExist succeeded place) then mret (finish (skipAfterPlaceChecks report "order_not_created"))
        else cleanUp report identity.
End runners.

(** ** The calls of a trade run *)

Section trade.
Context (env : environment) (runner : SpotTradeRunner).

Definition egressCall : call := MkCall Caller (trade_options runner) (VerifyPublicIP (publicIPEndpoint runner)).
Definition bookCall : call :=
  MkCall Caller (trade_options runner) (OrderBookCall (MkOrderBookRequest (market runner) 5)).
Definition placeCall : call := MkCall Caller (trade_options runner) (PlaceOrderCall (placeRequest runner)).
Definition queryCall (identity : OrderRequest) : call := MkCall Caller (trade_options runner) (OrderCall identity).
Definition cancelCall (identity : OrderRequest) : call :=
  MkCall Cleanup (trade_options runner) (CancelOrderCall identity).
Definition verifyCall (identity : OrderRequest) : call := MkCall Cleanup (trade_options runner) (OrderCall identity).

Definition before_place : list call := [egressCall; bookCall].
Definition after_place : list call := before_place ++ [placeCall].

(** The calls of the query and of the cleanup. *)
Definition cleanup_calls (identity identity' : OrderRequest) : list call :=
  [queryCall identity; cancelCall identity'; verifyCall identity'].

(** The book that was seen, the answer to the order, the last answer. *)
Definition book_seen : OrderBook := (env_OrderBook env before_place).1.
Definition place_answer : Order * option error := env_PlaceOrder env after_place.
Definition ownIdentity : OrderRequest := MkOrderRequest (market runner) "" (clientOrderID runner).

(** The order may exist: it was answered without an error, or with one that says
    that its execution is unknown. *)
Definition order_may_exist : bool :=
  match place_answer.2 with
  | None => true
  | Some err => bool_decide (fail_Category (classifyFailure err) = ErrorUnknownExecutionState)
  end.

Lemma runCheck_eq name check calls :
  runCheck name check calls =
    let '(evidence, err, calls) := check calls in
    (match err with
     | None => MkCheckResult name CheckPassed evidence None
     | Some err => MkCheckResult name CheckFailed evidence (Some (classifyFailure err))
     end, calls).
Proof. unfold runCheck, executeCheck, mbind, smoke_bind, mret, smoke_ret. by destruct (check calls) as [[? ?] ?]. Qed.

Lemma verifyEgress_calls c options endpoint calls :
  (verifyEgress env c options endpoint calls).2 = calls ++ [MkCall c options (VerifyPublicIP endpoint)].
Proof.
  unfold verifyEgress, perform, mbind, smoke_bind, mret, smoke_ret.
  by destruct (env_VerifyPublicIP _ _) as [check err].
Qed.

Lemma checkOrderBookSafety_eq calls :
  checkOrderBookSafety env runner calls =
    (match (env_OrderBook env (calls ++ [bookCall])).2 with
     | Some err => (bookEvidence (env_OrderBook env (calls ++ [bookCall])).1, Some err)
     | None => check_error (bookEvidence (env_OrderBook env (calls ++ [bookCall])).1)
                 (bookSafety env runner (env_OrderBook env (calls ++ [bookCall])).1)
     end, calls ++ [bookCall]).
Proof.
  unfold checkOrderBookSafety, checkAnswer, perform, mbind, smoke_bind, mret, smoke_ret. fold bookCall.
  by destruct (env_OrderBook _ _) as [book [err|]].
Qed.

(** What is placed, and under which identity it is then asked for. *)
Lemma placeCheck_eq identity calls :
  ∃ ev err succeeded identity', placeCheck env runner identity calls =
    ((ev, err, (succeeded, identity')), calls ++ [placeCall]) ∧
    let place := match err with
                 | None => MkCheckResult "place_order" CheckPassed ev None
                 | Some err => MkCheckResult "place_order" CheckFailed ev (Some (classifyFailure err))
                 end in
    mayExist succeeded place =
      match (env_PlaceOrder env (calls ++ [placeCall])).2 with
      | None => true
      | Some err => bool_decide (fail_Category (classifyFailure err) = ErrorUnknownExecutionState)
      end ∧
    (identity' = identity ∨ ord_ID (env_PlaceOrder env (calls ++ [placeCall])).1 ≠ "" ∧
       identity' = MkOrderRequest (market runner) (ord_ID (env_PlaceOrder env (calls ++ [placeCall])).1) "").
Proof.
  unfold placeCheck, perform, mbind, smoke_bind, mret, smoke_ret. fold placeCall.
  destruct (env_PlaceOrder _ _) as [order [err|]]; simpl; [by eauto 10|].
  destruct (validateOrderIdentity env runner order); [|by eauto 10].
  eexists _, _, _, _. split; [done|]. split; [done|]. unfold identify.
  case_bool_decide; [by left|by right].
Qed.

Lemma queryCheck_calls identity calls :
  ∃ r identity', queryCheck env runner identity calls = ((r, identity'), calls ++ [queryCall identity]).
Proof.
  unfold queryCheck, perform, mbind, smoke_bind, mret, smoke_ret. fold (queryCall identity).
  destruct (env_Order _ _) as [order [err|]]; [by eauto|].
  destruct (validateOrderIdentity env runner order); by eauto.
Qed.

Lemma cancelCheck_calls identity calls :
  (cancelCheck env runner identity calls).2 = calls ++ [cancelCall identity].
Proof.
  unfold cancelCheck, perform, mbind, smoke_bind, mret, smoke_ret.
  by destruct (env_CancelOrder _ _) as [order [err|]].
Qed.

(** The cancellation is confirmed by the last answer. *)
Lemma verifyCheck_eq identity calls :
  ∃ r confirmed, verifyCheck env runner identity calls = ((r, confirmed), calls ++ [verifyCall identity]) ∧
    (confirmed = true → ∃ order, env_Order env (calls ++ [verifyCall identity]) = (order, None) ∧
       orderCanceled env runner order = Ok tt).
Proof.
  unfold verifyCheck, perform, mbind, smoke_bind, mret, smoke_ret. fold (verifyCall identity).
  destruct (env_Order _ _) as [order [err|]]; [by do 2 eexists|].
  destruct (orderCanceled env runner order) as [[]|] eqn:Ho; do 2 eexists; (split; [done|]); [eauto|done].
Qed.

Lemma finish_passed report :
  Passed (finish report).1 = bool_decide ((finish report).2 = None) ∧
  CleanupAttempted (finish report).1 = CleanupAttempted report ∧ Checks (finish report).1 = Checks report ∧
  ((finish report).2 = None → failures (Checks report) = 0%nat ∧ CancellationConfirmed report = true).
Proof.
  unfold finish. set (report' := _ <| Passed := _ |>).
  assert (Passed report' = bool_decide (failures (Checks report) = 0%nat) && CancellationConfirmed report) as Hp by done.
  cbn [fst snd]. split; [|split; [done|split; [done|]]].
  - by destruct (Passed report').
  - rewrite Hp. case_bool_decide; simpl; [|done]. by destruct (CancellationConfirmed report).
Qed.

(** The cleanup always makes its three calls. *)
Lemma cleanUp_calls report identity calls :
  ∃ identity' result, cleanUp env runner report identity calls = (result, calls ++ cleanup_calls identity identity') ∧
    CleanupAttempted result.1 = true ∧ Passed result.1 = bool_decide (result.2 = None) ∧
    (result.2 = None → ∃ order,
       env_Order env (calls ++ cleanup_calls identity identity') = (order, None) ∧
       orderCanceled env runner order = Ok tt ∧ failures (Checks result.1) = 0%nat).
Proof.
  unfold cleanUp, executeCheck, mbind, smoke_bind, mret, smoke_ret.
  destruct (queryCheck_calls identity calls) as ([qe qr] & identity' & ->).
  rewrite runCheck_eq. pose proof (cancelCheck_calls identity' (calls ++ [queryCall identity])) as Hc.
  destruct (cancelCheck env runner identity' _) as [[ce cr] calls2]. simpl in Hc. subst calls2.
  destruct (verifyCheck_eq identity' ((calls ++ [queryCall identity]) ++ [cancelCall identity'])) as ([ve vr] & confirmed & -> & Hconf).
  exists identity'. eexists. split; [unfold cleanup_calls; rewrite <-!(assoc (++)); done|].
  match goal with |- context [finish ?r] => destruct (finish_passed r) as (H1 & H2 & H3 & H4) end.
  split; [by rewrite H2|]. split; [done|]. intros Hn. destruct (H4 Hn) as [Hf Hcn]. rewrite H3.
  destruct (Hconf Hcn) as (order & Ho & Hcancel). exists order. unfold cleanup_calls.
  rewrite <-!(assoc (++)) in Ho. done.
Qed.

(** The five ways of a run. *)
Inductive run_shape : (TradeReport * option error) → list call → Prop :=
  | run_no_context r : run_shape r []
  | run_no_egress r : r.2 ≠ None → run_shape r [egressCall]
  | run_unsafe r : r.2 ≠ None → run_shape r before_place
  | run_not_placed r :
      r.2 ≠ None → bookSafety env runner book_seen = Ok tt → order_may_exist = false →
      run_shape r after_place
  | run_cleaned_up r identity identity' :
      bookSafety env runner book_seen = Ok tt → order_may_exist = true →
      (identity = ownIdentity ∨
       ord_ID place_answer.1 ≠ "" ∧ identity = MkOrderRequest (market runner) (ord_ID place_answer.1) "") →
      CleanupAttempted r.1 = true → Passed r.1 = bool_decide (r.2 = None) →
      (r.2 = None → ∃ order,
         env_Order env (after_place ++ cleanup_calls identity identity') = (order, None) ∧
         orderCanceled env runner order = Ok tt ∧ failures (Checks r.1) = 0%nat) →
      run_shape r (after_place ++ cleanup_calls identity identity').

Lemma finish_skipped report check :
  passed check = false → check ∈ Checks report → (finish report).2 ≠ None.
Proof.
  intros Hp Hin Hn. apply finish_passed in Hn as [Hf _]. unfold failures in Hf.
  apply length_zero_iff_nil in Hf. assert (check ∈ filter (λ c, passed c = false) (Checks report)) as H
    by by apply list_elem_of_filter. rewrite Hf in H. by apply elem_of_nil in H.
Qed.

Lemma Run_shape ctx : let '(r, calls) := Run env runner ctx [] in run_shape r calls.
Proof.
  unfold Run. destruct ctx; cbn [negb]; [|constructor].
  unfold mbind, smoke_bind, mret, smoke_ret.
  rewrite runCheck_eq. pose proof (verifyEgress_calls Caller (trade_options runner) (publicIPEndpoint runner) []) as Hc.
  destruct (verifyEgress env Caller _ _ []) as [[ev err] calls]. simpl in Hc. subst calls. fold egressCall.
  destruct err as [err|].
  { simpl. constructor. eapply finish_skipped; [|by left]. done. }
  change (passed (MkCheckResult "egress_ip" CheckPassed ev None)) with true. cbn [negb].
  rewrite runCheck_eq, checkOrderBookSafety_eq. change ([egressCall] ++ [bookCall]) with before_place.
  fold book_seen. destruct (env_OrderBook env before_place).2 as [err|].
  { simpl. constructor. eapply finish_skipped; [|by right; left]. done. }
  unfold check_error. destruct (bookSafety env runner book_seen) as [[]|err] eqn:Hbook.
  2:{ simpl. constructor. eapply finish_skipped; [|by right; left]. done. }
  change (passed (MkCheckResult "order_book_safety" CheckPassed (bookEvidence book_seen) None)) with true. cbn [negb].
  unfold executeCheck at 1. unfold mbind, smoke_bind, mret, smoke_ret.
  destruct (placeCheck_eq ownIdentity before_place) as (pe & perr & succeeded & identity & Heq & Hmay & Hid).
  fold ownIdentity. rewrite Heq. change (before_place ++ [placeCall]) with after_place in *. fold place_answer in Hmay, Hid.
  cbv zeta in Hmay. rewrite Hmay. fold order_may_exist.
  destruct order_may_exist eqn:Hexist; cbn [negb].
  - match goal with |- context [cleanUp env runner ?r identity after_place] =>
      destruct (cleanUp_calls r identity after_place) as (identity' & result & -> & H1 & H2 & H3) end.
    by eapply run_cleaned_up.
  - simpl. constructor; [|done|done]. eapply finish_skipped; [|by do 3 right; left]. done.
Qed.
(** ** Prices *)

(** The best of the prices of a side, by any order. *)
Lemma bestPrice_Ok (better : Q → Q → bool) (R : Q → Q → Prop) levels best :
  Reflexive R → Transitive R →
  (∀ p b, better p b = true → R p b) → (∀ p b, better p b = false → R b p) →
  bestPrice better levels = Ok best →
  ∀ l, l ∈ levels → ∃ b q, best = Some b ∧ decimal (Price l) false = Ok q ∧ R b q.
Proof.
  intros Hrefl Htrans Hbetter Hworse. unfold bestPrice. set (f := λ best level, _).
  assert (∀ levels init, fold_result f init levels = Ok best →
    (∀ i, init = Some i → ∃ b, best = Some b ∧ R b i) ∧
    ∀ l, l ∈ levels → ∃ b q, best = Some b ∧ decimal (Price l) false = Ok q ∧ R b q) as H.
  { clear levels. induction levels as [|x levels IH]; intros init Hf.
    { injection Hf as ->. split; [by eauto|]. intros l Hl. by apply elem_of_nil in Hl. }
    cbn [fold_result] in Hf. apply result_bind_Ok in Hf as (next & Hx & Hf). unfold f at 1 in Hx.
    destruct (decimal (Price x) false) as [p|] eqn:Hp; [|done]. destruct (negb _); [done|].
    injection Hx as Hx. destruct (IH _ Hf) as [Hnext Hall].
    assert (∃ n, next = Some n ∧ R n p ∧ ∀ i, init = Some i → R n i) as (n & -> & Hnp & Hni).
    { subst next. destruct init as [i|]; [|by exists p].
      destruct (better p i) eqn:Hb; eexists; (split; [done|]); naive_solver. }
    destruct (Hnext n eq_refl) as (b & -> & Hbn). split.
    - intros i ->. exists b. split; [done|]. etrans; eauto.
    - intros l [->|Hl]%elem_of_cons; [|by apply Hall]. exists b, p. split; [done|]. split; [done|]. by etrans. }
  intros Hf. by apply H in Hf as [_ ?].
Qed.

#[local] Instance Qge_reflexive : Reflexive (λ b q : Q, (q <= b)%Q).
Proof. intros q. apply Qle_refl. Qed.
#[local] Instance Qge_transitive : Transitive (λ b q : Q, (q <= b)%Q).
Proof. intros a b c Hab Hbc. by eapply Qle_trans. Qed.

(** A book that [checkOrderBookSafety] accepts is not touched by the order. *)
Definition price_does_not_cross (book : OrderBook) : Prop :=
  ∃ p, decimal (price runner) false = Ok p ∧
    (side runner = SideBuy → ∀ l, l ∈ Asks book → ∃ q, decimal (Price l) false = Ok q ∧ (p < q)%Q) ∧
    (side runner = SideSell → ∀ l, l ∈ Bids book → ∃ q, decimal (Price l) false = Ok q ∧ (q < p)%Q).

Lemma bookSafety_does_not_cross book : bookSafety env runner book = Ok tt → price_does_not_cross book.
Proof.
  unfold bookSafety, bestPrices. intros H. apply result_bind_Ok in H as (? & _ & H).
  apply result_bind_Ok in H as ([bid ask] & Hbest & H). apply result_bind_Ok in Hbest as (? & _ & Hbest).
  apply result_bind_Ok in Hbest as (bid' & Hbid & Hbest). apply result_bind_Ok in Hbest as (ask' & Hask & [= -> ->]).
  destruct bid as [bid|], ask as [ask|]; try done.
  destruct (decimal (price runner) false) as [p|] eqn:Hp; [|done].
  apply result_bind_Ok in H as (? & _ & H). apply result_bind_Ok in H as (? & Hbuy%require_Ok & Hsell%require_Ok).
  exists p. split; [done|]. rewrite negb_true_iff, andb_false_iff, !bool_decide_eq_false in Hbuy, Hsell. split.
  - intros Hside l Hl. destruct Hbuy as [?|Hlt]; [done|]. apply Qnot_le_lt in Hlt.
    eapply (bestPrice_Ok _ Qle) in Hask as (b & q & [= <-] & Hq & Hle); [|apply _|apply _|..|exact Hl].
    + exists q. split; [done|]. by eapply Qlt_le_trans.
    + intros ??. rewrite bool_decide_eq_true. apply Qlt_le_weak.
    + intros ??. rewrite bool_decide_eq_false. apply Qnot_lt_le.
  - intros Hside l Hl. destruct Hsell as [?|Hlt]; [done|]. apply Qnot_le_lt in Hlt.
    eapply (bestPrice_Ok _ (λ b q, (q <= b)%Q)) in Hbid as (b & q & [= <-] & Hq & Hle); [|apply _|apply _|..|exact Hl].
    + exists q. split; [done|]. by eapply Qle_lt_trans.
    + intros ??. rewrite bool_decide_eq_true. apply Qlt_le_weak.
    + intros ??. rewrite bool_decide_eq_false. apply Qnot_lt_le.
Qed.

(** The last case of [bookSafety] does not occur. *)
Lemma bookSafety_no_nil book p :
  decimal (price runner) false = Ok p → bookSafety env runner book ≠ Err (Errorf "nil pointer dereference").
Proof.
  intros Hp. unfold bookSafety. rewrite Hp. destruct (bookIdentity _ _ _); [|done]. cbn [require mbind result_bind].
  destruct (bestPrices book) as [[bid ask]|err] eqn:Hbest.
  - unfold bestPrices in Hbest. apply result_bind_Ok in Hbest as (? & Hne%require_Ok & Hbest).
    apply result_bind_Ok in Hbest as (bid' & Hbid & Hbest). apply result_bind_Ok in Hbest as (ask' & Hask & [= -> ->]).
    rewrite negb_true_iff, orb_false_iff, !bool_decide_eq_false in Hne. destruct Hne as [Hb Ha].
    destruct (Bids book) as [|l1 ?] eqn:Hbids; [done|]. destruct (Asks book) as [|l2 ?] eqn:Hasks; [done|].
    eapply (bestPrice_Ok _ (λ _ _, True)) in Hbid as (? & ? & -> & _); [|done..|by left].
    eapply (bestPrice_Ok _ (λ _ _, True)) in Hask as (? & ? & -> & _); [|done..|by left].
    unfold require. cbn. by repeat (case_match; try done).
  - unfold bestPrices in Hbest. cbn. intros [= ->]. revert Hbest. unfold require. case_match; [|done]. cbn.
    assert (∀ better levels, bestPrice better levels ≠ Err (Errorf "nil pointer dereference")) as Hno.
    { intros better levels. unfold bestPrice. generalize (None : option Q).
      induction levels as [|l levels IH]; intros init; [done|]. cbn [fold_result].
      unfold invalidEvidence in *. unfold mbind, result_bind. destruct (decimal (Price l) false); [|by intros [=]].
      destruct (isDecimal (Quantity l) false); [apply IH|by intros [=]]. }
    destruct (bestPrice _ (Bids book)) eqn:H1; cbn; [|by intros [= ->]; apply Hno in H1].
    destruct (bestPrice _ (Asks book)) eqn:H2; cbn; [done|by intros [= ->]; apply Hno in H2].
Qed.

(** ** What a trade run guarantees *)

Definition is_place (c : call) : bool := match call_request c with PlaceOrderCall _ => true | _ => false end.

(** C27: a smoke run sends at most one order, and a harmless one.  Whatever the
    exchange answers, a run places at most one order; it is the configured
    post-only limit order, and the book that was read before has no level on the
    other side that its price would touch; every call of the run, on every way
    through it, goes through the configured route with the configured timeout. *)
Theorem trade_order_is_safe ctx r calls :
  Run env runner ctx [] = (r, calls) →
  (length (List.filter is_place calls) ≤ 1)%nat ∧
  (∀ c, c ∈ calls → call_options c = trade_options runner) ∧
  (∀ request, PlaceOrderCall request ∈ call_request <$> calls →
     request = placeRequest runner ∧ price_does_not_cross book_seen).
Proof.
  intros Hrun. pose proof (Run_shape ctx) as Hs. rewrite Hrun in Hs. destruct Hs as [| | | |r id id' Hsafe].
  1-4: split; [cbn; lia|]; split; [intros c Hc; unfold after_place, before_place in Hc; set_solver|];
    cbn; intros request Hr; repeat (apply elem_of_cons in Hr as [Hr|Hr]; [try discriminate Hr|]);
    try (by apply elem_of_nil in Hr).
  - injection Hr as ->. split; [done|by apply bookSafety_does_not_cross].
  - split; [cbn; lia|]. split; [intros c Hc; unfold after_place, before_place, cleanup_calls in Hc; set_solver|].
    intros request Hr. split; [|by apply bookSafety_does_not_cross].
    cbn in Hr. repeat (apply elem_of_cons in Hr as [Hr|Hr]; [try discriminate Hr; by injection Hr|]).
    by apply elem_of_nil in Hr.
Qed.

(** A run that placed the order either learned that it does not exist, or went
    through the cleanup. *)
Lemma run_placed r calls :
  run_shape r calls → placeCall ∈ calls →
  order_may_exist = false ∧ calls = after_place ∧ r.2 ≠ None ∨
  order_may_exist = true ∧ CleanupAttempted r.1 = true ∧
  ∃ identity identity', calls = after_place ++ cleanup_calls identity identity' ∧
    (identity = ownIdentity ∨
     ord_ID place_answer.1 ≠ "" ∧ identity = MkOrderRequest (market runner) (ord_ID place_answer.1) "") ∧
    (r.2 = None → ∃ order, env_Order env calls = (order, None) ∧ orderCanceled env runner order = Ok tt).
Proof.
  intros Hs Hplace. destruct Hs as [r|r Hn|r Hn|r Hn Hb Hm|r id id' Hb Hm Hid Hatt Hp Hok].
  - by apply elem_of_nil in Hplace.
  - apply list_elem_of_singleton in Hplace. discriminate Hplace.
  - unfold before_place in Hplace. repeat (apply elem_of_cons in Hplace as [Hplace|Hplace]; [discriminate Hplace|]).
    by apply elem_of_nil in Hplace.
  - by left.
  - right. split; [done|]. split; [done|]. exists id, id'. split_and!; [done|done|]. naive_solver.
Qed.

Lemma orderCanceled_Ok order :
  orderCanceled env runner order = Ok tt →
  ord_Status order = OrderStatusCanceled ∧
  ∃ executed, decimal (ord_ExecutedQuantity order) true = Ok executed ∧ Rat_Sign executed = 0.
Proof.
  unfold orderCanceled. intros H. apply result_bind_Ok in H as (? & _ & H).
  apply result_bind_Ok in H as (? & Hst%require_Ok & H). apply result_bind_Ok in H as (? & _ & H).
  destruct (decimal (ord_ExecutedQuantity order) true) as [ex|] eqn:Hex; [|done].
  apply require_Ok in H. go_bool. eauto.
Qed.

(** C26: an order that may exist is cancelled.  When an order was placed and the
    answer does not rule it out (it is no error, even if the order in it is not
    the expected one, or an error that leaves the execution unknown), the run
    goes on to query, cancel and verify it, under the ID of the answer or the
    client order ID, the last two out of reach of the caller's cancellation; and
    when it reports success, the exchange has confirmed the order as cancelled
    with nothing executed. *)
Theorem possible_orders_are_cancelled ctx report err calls :
  Run env runner ctx [] = ((report, err), calls) → placeCall ∈ calls → order_may_exist = true →
  ∃ identity identity',
    calls = after_place ++ cleanup_calls identity identity' ∧ CleanupAttempted report = true ∧
    (identity = ownIdentity ∨
     ord_ID place_answer.1 ≠ "" ∧ identity = MkOrderRequest (market runner) (ord_ID place_answer.1) "") ∧
    (err = None → ∃ order executed,
       env_Order env calls = (order, None) ∧ ord_Status order = OrderStatusCanceled ∧
       decimal (ord_ExecutedQuantity order) true = Ok executed ∧ Rat_Sign executed = 0).
Proof.
  intros Hrun Hplace Hmay. pose proof (Run_shape ctx) as Hs. rewrite Hrun in Hs.
  destruct (run_placed _ _ Hs Hplace) as [(? & _)|(_ & Hatt & id & id' & Hc & Hid & Hok)]; [congruence|].
  exists id, id'. split_and!; [done|done|done|]. intros Hn. destruct (Hok Hn) as (order & Ho & Hcan).
  apply orderCanceled_Ok in Hcan as (Hst & ex & Hex & Hz). by exists order, ex.
Qed.
End trade.


(** ** The calls of a read run *)

Section read.
Context (env : environment) (runner : SpotReadRunner).

Definition read_call (r : request) : call := MkCall Caller (read_options runner) r.

(** The requests of a read run, in order. *)
Definition read_requests : list request :=
  [MarketsCall; TickerCall (MkTickerRequest (read_market runner));
   OrderBookCall (MkOrderBookRequest (read_market runner) 5);
   RecentTradesCall (MkRecentTradesRequest (read_market runner) 5);
   CandlesCall (MkCandlesRequest (read_market runner) "1m" 5)] ++
  if includeBalances runner then [BalancesCall] else [].

Definition mutates (r : request) : bool :=
  match r with PlaceOrderCall _ | CancelOrderCall _ => true | _ => false end.

Lemma checkAnswer_calls {A} options r (f : answer A) evidence check calls :
  (checkAnswer options r f evidence check calls).2 = calls ++ [MkCall Caller options r].
Proof.
  unfold checkAnswer, perform, mbind, smoke_bind, mret, smoke_ret. by destruct (f _) as [a [err|]].
Qed.

(** Every check of a read run makes its one call. *)
Lemma readChecks_calls :
  Forall2 (λ check r, ∀ calls, (check.2 calls).2 = calls ++ [read_call r]) (readChecks env runner) read_requests.
Proof.
  unfold readChecks, read_requests. apply Forall2_app; [|destruct (includeBalances runner)];
    repeat (constructor; [intros; apply checkAnswer_calls|]); constructor.
Qed.

Lemma runCheck_calls name check c :
  (∀ calls, (check calls).2 = calls ++ [c]) →
  ∀ calls, (runCheck name check calls).2 = calls ++ [c] ∧ Name (runCheck name check calls).1 = name.
Proof.
  intros Hc calls. rewrite runCheck_eq. specialize (Hc calls). destruct (check calls) as [[ev [err|]] ?]; by subst.
Qed.

Lemma runChecks_calls checks requests calls :
  Forall2 (λ check r, ∀ calls, (check.2 calls).2 = calls ++ [read_call r]) checks requests →
  (runChecks checks calls).2 = calls ++ (read_call <$> requests) ∧ Name <$> (runChecks checks calls).1 = checks.*1.
Proof.
  intros H. revert calls. induction H as [|[name check] r checks requests Hc _ IH]; intros calls.
  { split; [symmetry; apply app_nil_r|done]. }
  cbn [runChecks]. unfold mbind, smoke_bind, mret, smoke_ret.
  destruct (runCheck_calls name check (read_call r) Hc calls) as [H1 H2].
  destruct (runCheck name check calls) as [result calls1]. simpl in H1, H2. subst.
  destruct (IH (calls ++ [read_call r])) as [H3 H4]. destruct (runChecks checks _) as [results calls2].
  cbn [fst snd] in *. subst. rewrite !fmap_cons, <-H4, <-(assoc (++)). done.
Qed.

(** A read run checks everything it promises and changes nothing.  Its report
    has the egress check and every read check, in order; it makes the egress call
    and, only when that check passed, the call of every other check, all of them
    reads through the configured route; and it succeeds exactly when every check
    of the report passed. *)
Theorem read_run_is_complete report err calls :
  ReadRun env runner true [] = ((report, err), calls) →
  let egress := read_call (VerifyPublicIP (read_publicIPEndpoint runner)) in
  Name <$> rr_Checks report = "egress_ip" :: (readChecks env runner).*1 ∧
  (calls = [egress] ∧ err ≠ None ∨
   calls = egress :: (read_call <$> read_requests) ∧ passed <$> head (rr_Checks report) = Some true) ∧
  Forall (λ c, mutates (call_request c) = false) calls ∧
  rr_Passed report = bool_decide (err = None) ∧
  (err = None ↔ Forall (λ c, passed c = true) (rr_Checks report)).
Proof.
  cbv zeta. unfold ReadRun. cbn [negb]. unfold mbind, smoke_bind.
  destruct (runCheck_calls "egress_ip" (verifyEgress env Caller (read_options runner) (read_publicIPEndpoint runner))
    (read_call (VerifyPublicIP (read_publicIPEndpoint runner)))
    (verifyEgress_calls env Caller (read_options runner) (read_publicIPEndpoint runner)) []) as [H1 H2].
  destruct (runCheck "egress_ip" _ []) as [egress calls1]. simpl in H1, H2. subst calls1.
  assert (∀ checks, (failures checks = 0%nat ↔ Forall (λ c, passed c = true) checks) ∧
    (bool_decide (0 < failures checks)%nat = false ↔ failures checks = 0%nat)) as Hfail.
  { intros checks. split.
    - unfold failures. rewrite length_zero_iff_nil. induction checks as [|c checks IH]; [done|].
      rewrite filter_cons, Forall_cons. destruct (passed c); simpl; naive_solver.
    - rewrite bool_decide_eq_false. lia. }
  assert (∀ checks : list CheckResult, bool_decide (failures checks = 0%nat) =
    bool_decide ((if bool_decide (0 < failures checks)%nat
                  then Some (Wrapf "%w: %d checks did not pass" (Errorf "read smoke failed")) else None) = None) ∧
    ((if bool_decide (0 < failures checks)%nat
      then Some (Wrapf "%w: %d checks did not pass" (Errorf "read smoke failed")) else None) = None ↔
     Forall (λ c, passed c = true) checks)) as Hend.
  { intros checks. destruct (Hfail checks) as [<- Hf]. destruct (failures checks); naive_solver. }
  assert (Forall (λ c, mutates (call_request c) = false) (read_call <$> read_requests)) as Hreads.
  { unfold read_requests. destruct (includeBalances runner); repeat constructor. }
  destruct (passed egress) eqn:Hp; cbn [negb].
  - destruct (runChecks_calls _ _ [read_call (VerifyPublicIP (read_publicIPEndpoint runner))] readChecks_calls) as [H3 H4].
    destruct (runChecks _ _) as [rest calls2]. cbn [fst snd] in H3, H4. subst calls2. cbv zeta.
    intros [= <- <- <-]. cbn [rr_Checks rr_Passed]. split_and!.
    + change (Name egress :: (Name <$> rest) = "egress_ip" :: (readChecks env runner).*1). by f_equal.
    + right. split; [done|]. simpl. by rewrite Hp.
    + by constructor.
    + apply Hend.
    + apply Hend.
  - intros [= <- <- <-]. cbn [rr_Checks rr_Passed]. split_and!.
    + change (Name egress :: (Name <$> ((λ item, skippedCheck item.1 "egress_verification_failed") <$>
        readChecks env runner)) = "egress_ip" :: (readChecks env runner).*1).
      rewrite <-list_fmap_compose. by f_equal.
    + left. split; [done|]. intros Hn. apply Hend in Hn. apply Forall_cons in Hn as [? _]. congruence.
    + by repeat constructor.
    + apply Hend.
    + apply Hend.
Qed.
End read.

(** ** Concrete runs *)

Section examples.
Definition demo_market : Market := MkMarket "BTC" "USDT".
Definition demo_ip : IP := ip_of_bytes [203; 0; 113; 7]%N.
Definition demo_order (status executed : string) : Order :=
  MkOrder "binance" "42" "smoke-1" demo_market "BTCUSDT" SideBuy OrderTypeLimit status "99" "1" "" executed.

(** An exchange that answers [place] to the order. *)
Definition demo_environment (place : Order * option error) : environment := {|
  env_Exchange := "binance";
  env_VerifyPublicIP _ := (MkPublicIPCheck "seoul" demo_ip "" demo_ip demo_ip true, None);
  env_Markets _ := ([MkMarketInfo "binance" demo_market "BTCUSDT" "" "" "" "" "" ""], None);
  env_Ticker _ := (MkTicker "binance" demo_market "BTCUSDT" "100", None);
  env_OrderBook _ :=
    (MkOrderBook "binance" demo_market "BTCUSDT" [MkBookLevel "99.5" "1"] [MkBookLevel "100.5" "2"] 1, None);
  env_RecentTrades _ := ([], None);
  env_Candles _ := ([], None);
  env_Balances _ := ([], None);
  env_PlaceOrder _ := place;
  env_Order _ := (demo_order OrderStatusCanceled "0", None);
  env_CancelOrder _ := (demo_order OrderStatusCanceled "0", None)
|}.

Definition demo_runner : SpotTradeRunner :=
  MkTradeRunner demo_market "seoul" DefaultPublicIPEndpoint Second SideBuy "99" "1" "smoke-1".

Definition lost_answer : error :=
  API (MkAPIError ErrorUnknownExecutionState "binance" "" "" false 0 "" "" (Some (Errorf "connection reset"))).
Definition demo_lost : environment := demo_environment (demo_order OrderStatusNew "0", Some lost_answer).

Definition demo_calls (env : environment) : list call := (Run env demo_runner true []).2.

Lemma trade_order_is_safe_witness :
  length (List.filter is_place (demo_calls demo_lost)) = 1%nat ∧
  (∀ c, c ∈ demo_calls demo_lost → call_options c = trade_options demo_runner).
Proof.
  split; [vm_compute; reflexivity|].
  apply (trade_order_is_safe demo_lost demo_runner true (Run demo_lost demo_runner true []).1). reflexivity.
Defined.

(** The answer to the order is lost, and the order is found and cancelled. *)
Lemma possible_orders_are_cancelled_witness :
  (Run demo_lost demo_runner true []).1.2 ≠ None ∧
  ∃ identity identity',
    demo_calls demo_lost = after_place demo_runner ++ cleanup_calls demo_runner identity identity'.
Proof.
  split; [vm_compute; discriminate|].
  destruct (possible_orders_are_cancelled demo_lost demo_runner true (Run demo_lost demo_runner true []).1.1
    (Run demo_lost demo_runner true []).1.2 (demo_calls demo_lost)) as (i & i' & H & _);
    [vm_compute; reflexivity|vm_compute; by right; right; left|vm_compute; reflexivity|].
  exists i, i'. exact H.
Defined.

Definition demo_reader : SpotReadRunner := MkReadRunner demo_market "seoul" DefaultPublicIPEndpoint Second true.

Lemma read_run_is_complete_witness :
  let r := ReadRun demo_lost demo_reader true [] in
  rr_Passed r.1.1 = false ∧ length r.2 = 7%nat ∧ Forall (λ c, mutates (call_request c) = false) r.2.
Proof.
  cbv zeta. split; [vm_compute; reflexivity|]. split; [vm_compute; reflexivity|].
  apply (read_run_is_complete demo_lost demo_reader (ReadRun demo_lost demo_reader true []).1.1
    (ReadRun demo_lost demo_reader true []).1.2). reflexivity.
Defined.
End examples.
