(* ===== verification/ClientErrors.v ===== *)
(** * What the REST clients make of an answer: the shared part

    Every [exchange/*/client.go] turns an HTTP answer into a payload or into an
    error of the SDK.  The clients do it separately, in the same way: this file
    has the status codes, the text functions and the error values they share,
    and what a caller may conclude from such an error ([settled]).  Clients has
    the clients. *)

From S2P Require Import Prelude GoStrings Decimals Errors Executor.

(** ** Exchanges: [model/exchange.go] *)

Definition ExchangeBinance : string := "binance".
Definition ExchangeBitget : string := "bitget".
Definition ExchangeUpbit : string := "upbit".
Definition ExchangeBybit : string := "bybit".
Definition ExchangeOKX : string := "okx".
Definition ExchangeCoinbase : string := "coinbase".
Definition ExchangeKraken : string := "kraken".
Definition ExchangeBithumb : string := "bithumb".
Definition ExchangeCoinone : string := "coinone".
Definition ExchangeKorbit : string := "korbit".
Definition ExchangeKuCoin : string := "kucoin".
Definition ExchangeGateIO : string := "gateio".
Definition ExchangeMEXC : string := "mexc".
Definition ExchangeHTX : string := "htx".
Definition ExchangeCryptoCom : string := "cryptocom".

(** ** [net/http] *)

Definition StatusOK : Z := 200.
Definition StatusMultipleChoices : Z := 300.
Definition StatusBadRequest : Z := 400.
Definition StatusUnauthorized : Z := 401.
Definition StatusForbidden : Z := 403.
Definition StatusNotFound : Z := 404.
Definition StatusRequestTimeout : Z := 408.
Definition StatusTeapot : Z := 418.
Definition StatusTooManyRequests : Z := 429.
Definition StatusInternalServerError : Z := 500.

Definition success (status : Z) : bool :=
  bool_decide (StatusOK ≤ status) && bool_decide (status < StatusMultipleChoices).

Definition byte (n : N) : ascii := Ascii.ascii_of_N n.

(** [http.CanonicalHeaderKey] of a key that is a token: the first letter and the
    letters after a hyphen are upper case, the others lower case. *)
Fixpoint canonical_key (upper : bool) (s : string) : string :=
  match s with
  | EmptyString => ""
  | String c s => String ((if upper then upper_ascii else lower_ascii) c) (canonical_key (bool_decide (c = byte 45)) s)
  end.

(** [http.Header.Get]. *)
Definition Get (headers : Header) (key : string) : string := Header_Get headers (canonical_key true key).

Fixpoint firstNonEmpty (values : list string) : string :=
  match values with
  | [] => ""
  | value :: values => if bool_decide (value ≠ "") then value else firstNonEmpty values
  end.

Definition body_text (response : Response) : string := String.string_of_list_ascii (Body response).

(** ** Texts

    [strings.ToLower] and [strings.ToUpper] on any text, as far as the ASCII
    bytes of their results go: beside the letters these are the runes U+0130 and
    U+212A, whose lower case is [i] and [k], and U+0131 and U+017F, whose upper
    case is [I] and [S].  The other runes stay as they are, where Go maps them to
    runes that are not ASCII either: the clients only look for ASCII texts. *)
Fixpoint lower_bytes (l : list ascii) : list ascii :=
  match l with
  | [] => []
  | a :: l1 =>
      match l1 with
      | b :: l2 =>
          if bool_decide (a = byte 0xC4 ∧ b = byte 0xB0) then byte 105 :: lower_bytes l2
          else
            match l2 with
            | c :: l3 =>
                if bool_decide (a = byte 0xE2 ∧ b = byte 0x84 ∧ c = byte 0xAA) then byte 107 :: lower_bytes l3
                else lower_ascii a :: lower_bytes l1
            | [] => lower_ascii a :: lower_bytes l1
            end
      | [] => [lower_ascii a]
      end
  end.

Fixpoint upper_bytes (l : list ascii) : list ascii :=
  match l with
  | [] => []
  | a :: l1 =>
      match l1 with
      | b :: l2 =>
          if bool_decide (a = byte 0xC4 ∧ b = byte 0xB1) then byte 73 :: upper_bytes l2
          else if bool_decide (a = byte 0xC5 ∧ b = byte 0xBF) then byte 83 :: upper_bytes l2
          else upper_ascii a :: upper_bytes l1
      | [] => [upper_ascii a]
      end
  end.

Definition map_bytes (f : list ascii → list ascii) (s : string) : string :=
  String.string_of_list_ascii (f (String.list_ascii_of_string s)).
Definition ToLowerText : string → string := map_bytes lower_bytes.
Definition ToUpperText : string → string := map_bytes upper_bytes.

(** ASCII texts change byte by byte. *)
Definition is_ascii : ascii → bool := in_range 0 127.

Lemma lower_bytes_ascii l : Forall (λ c, is_ascii c = true) l → lower_bytes l = lower_ascii <$> l.
Proof.
  induction 1 as [|a l Ha Hl IH]; [done|]. simpl. destruct l as [|b l]; [done|].
  rewrite bool_decide_eq_false_2 by (by intros [-> _]). destruct l as [|c l]; [by rewrite IH|].
  rewrite bool_decide_eq_false_2 by (by intros [-> _]). by rewrite IH.
Qed.

Lemma upper_bytes_ascii l : Forall (λ c, is_ascii c = true) l → upper_bytes l = upper_ascii <$> l.
Proof.
  induction 1 as [|a l Ha Hl IH]; [done|]. simpl. destruct l as [|b l]; [done|].
  rewrite !bool_decide_eq_false_2 by (by intros [-> _]). by rewrite IH.
Qed.

(** [strings.HasPrefix] and [strings.Contains]. *)
Definition HasPrefix (s prefix : string) : bool := String.prefix prefix s.
Fixpoint Contains (s text : string) : bool :=
  HasPrefix s text || match s with EmptyString => false | String _ s => Contains s text end.

(** [strings.TrimPrefix] and [strings.TrimSuffix]. *)
Definition TrimPrefix (s prefix : string) : string :=
  if HasPrefix s prefix then drop_bytes (String.length prefix) s else s.

Definition TrimSuffix (s suffix : string) : string :=
  let n := (String.length s - String.length suffix)%nat in
  if bool_decide (String.length suffix ≤ String.length s)%nat && bool_decide (drop_bytes n s = suffix)
  then String.substring 0 n s else s.

Example TrimSuffix_slash : TrimSuffix "wss://host/ws/" "/" = "wss://host/ws" ∧ TrimSuffix "x" "/" = "x".
Proof. by vm_compute. Qed.

Lemma HasPrefix_inv s prefix :
  HasPrefix s prefix = true → s = prefix +:+ drop_bytes (String.length prefix) s.
Proof.
  unfold HasPrefix. revert s. induction prefix as [|c prefix IH]; intros [|d s]; simpl; try done.
  destruct (Ascii.ascii_dec c d) as [->|]; [|done]. intros H. 
  change (String d s = String d (prefix +:+ drop_bytes (String.length prefix) s)). f_equal. by apply IH.
Qed.

Lemma cut_inj sep s s' t t' :
  string_forall (not_char sep) s = true → string_forall (not_char sep) s' = true →
  s +:+ String sep t = s' +:+ String sep t' → s = s' ∧ t = t'.
Proof.
  intros Hs Hs' Heq. apply (Cut_some sep s t) in Hs. apply (Cut_some sep s' t') in Hs'.
  rewrite Heq, Hs' in Hs. by simplify_eq.
Qed.

(** [strings.Join]. *)
Fixpoint Join (texts : list string) (separator : string) : string :=
  match texts with
  | [] => ""
  | [text] => text
  | text :: texts => text +:+ separator +:+ Join texts separator
  end.

(** [strings.Trim] of double quotes. *)
Definition quote : string := String (byte 34) "".
Definition trimQuotes (text : string) : string := Trim text quote.

Definition Itoa (n : Z) : string := pretty n.

Lemma Itoa_nonempty n : Itoa n ≠ "".
Proof. apply pretty_Z_nonempty. Qed.
Lemma Itoa_zero n : Itoa n = "0" → n = 0.
Proof. intros H. by apply (inj pretty n 0). Qed.

Example ToLowerText_letters : ToLowerText "EService:Un" = "eservice:un" ∧ ToUpperText "too_fast" = "TOO_FAST".
Proof. by vm_compute. Qed.
Example ToLowerText_kelvin : ToLowerText (String (byte 0xE2) (String (byte 0x84) (String (byte 0xAA) "EY"))) = "key".
Proof. by vm_compute. Qed.
Example Contains_texts : Contains "order not found" "not" = true ∧ Contains "order" "orders" = false.
Proof. by vm_compute. Qed.

(** ** [encoding/json] *)

(** [json.Valid], [json.Unmarshal] into a string and into a slice of strings. *)
Class JSON : Type := {
  Valid : string → bool;
  UnmarshalString : string → option string;
  UnmarshalStrings : string → option (list string)
}.

(** [optionalScalarText] of a [json.RawMessage]: the client's message for what is
    not a scalar, and whether true and false are. *)
Definition optionalScalarText `{JSON} (composite : string) (booleans : bool) (raw : string) : result error string :=
  let trimmed := TrimSpace raw in
  if bool_decide (trimmed = "" ∨ trimmed = "null") then Ok ""
  else if HasPrefix trimmed quote then
    match UnmarshalString trimmed with Some value => Ok value | None => Err (Errorf "json: unmarshal") end
  else if HasPrefix trimmed "{" || HasPrefix trimmed "[" || negb (Valid trimmed) then
    Err (Errorf composite)
  else if negb booleans && bool_decide (trimmed = "true" ∨ trimmed = "false") then
    Err (Errorf "value is not a string or number")
  else Ok trimmed.

(** ** Errors *)

(** The failures that leave the execution of a mutation unknown. *)
Definition unavailable (operation : Z) : string * bool :=
  if bool_decide (operation = OperationMutation) then (ErrorUnknownExecutionState, false)
  else (ErrorExchangeUnavailable, true).

(** A body that cannot be read. *)
Definition unreadable (operation : Z) : string * bool :=
  if bool_decide (operation = OperationMutation) then (ErrorUnknownExecutionState, false)
  else (ErrorExchangeUnavailable, bool_decide (operation = OperationRead)).

(** The [trade.APIError] of an answer. *)
Definition answerError (exchange accountID requestID : string) (class : string * bool) (response : Response)
    (code message : string) (cause : option error) : error :=
  API (MkAPIError class.1 exchange accountID requestID class.2 (StatusCode response) code message cause).

(** The error of a mutation says that its execution is unknown. *)
Definition unknown_execution (err : error) : Prop :=
  ∃ a, err = API a ∧ Category a = ErrorUnknownExecutionState ∧ Retryable a = false.

(** The error has a code or a message of the exchange; [none] stands for no code. *)
Definition exchange_says (none : string) (err : error) : Prop :=
  ∃ a, err = API a ∧ (ExchangeCode a ≠ none ∨ ExchangeMessage a ≠ "").

(** What the caller of a mutation may read from an error. *)
Definition settled (none : string) (err : error) : Prop := unknown_execution err ∨ exchange_says none err.

Lemma settled_unknown none exchange accountID requestID class response code message cause :
  class = (ErrorUnknownExecutionState, false) →
  settled none (answerError exchange accountID requestID class response code message cause).
Proof. intros ->. left. by eexists. Qed.

Lemma settled_code none exchange accountID requestID class response code message cause :
  code ≠ none → settled none (answerError exchange accountID requestID class response code message cause).
Proof. right. eexists. split; [done|]. by left. Qed.

Lemma settled_message none exchange accountID requestID class response code message cause :
  message ≠ "" → settled none (answerError exchange accountID requestID class response code message cause).
Proof. right. eexists. split; [done|]. by right. Qed.

Lemma success_bounds status : success status = true → 200 ≤ status < 300.
Proof. unfold success, StatusOK, StatusMultipleChoices. intros H. go_bool. lia. Qed.

(** A category and whether it may be retried go together. *)
Definition coherent (class : string * bool) : Prop :=
  class.2 = bool_decide (class.1 = ErrorRateLimited ∨ class.1 = ErrorExchangeUnavailable).

(** Every branch of a classification. *)
Ltac each_class := repeat (case_match; [done|]); try done.
