(* ===== verification/SpotAdapter.v ===== *)
(** * What the unified Spot adapters share: [exchange/*/unified.go]

    An adapter turns a request of the unified contract into a request of its
    exchange, has the native client send it, and turns the answer back.
    [SpotAdapter] is what differs from one exchange to the next when an order is
    placed, [SpotAdapterLaws] what every one of them promises, and [PlaceOrder]
    the way from a unified order to the network that they have in common. *)

From S2P Require Import Prelude GoStrings Decimals Errors Unified.

(** ** Calls of a client

    A call answers and changes the world outside, of any type [W]. *)

Definition io (W A : Type) : Type := W → result error A * W.
#[export] Instance io_ret {W} : MRet (io W) := λ A a w, (Ok a, w).
#[export] Instance io_bind {W} : MBind (io W) := λ A B f m w,
  let '(r, w') := m w in
  match r with
  | Err e => (Err e, w')
  | Ok a => f a w'
  end.

(** A computation that calls nothing. *)
Definition lift {W A} (r : result error A) : io W A := λ w, (r, w).

Lemma io_bind_lift {W A B} (r : result error A) (f : A → io W B) w :
  (lift r ≫= f) w = match r with Ok a => f a w | Err e => (Err e, w) end.
Proof. by destruct r. Qed.

Lemma io_bind_run {W A B} (m : io W A) (f : A → io W B) w :
  (m ≫= f) w = match m w with (Ok a, w') => f a w' | (Err e, w') => (Err e, w') end.
Proof. unfold mbind, io_bind. by destruct (m w) as [[]]. Qed.

(** A client's method refuses an invalid request before it sends anything. *)
Definition validated {W Req A} (validate : Req → result error unit) (send : Req → io W A) (request : Req) : io W A :=
  lift (validate request);; send request.

Lemma validated_run {W Req A} (validate : Req → result error unit) (send : Req → io W A) request w :
  validated validate send request w = match validate request with Ok _ => send request w | Err e => (Err e, w) end.
Proof. unfold validated. by rewrite io_bind_lift. Qed.

(** ** Texts *)

(** A regular expression [^[chars]{low,high}$]. *)
Definition matches (chars : ascii → bool) (low high : nat) (s : string) : bool :=
  bool_decide (low ≤ String.length s ≤ high)%nat && string_forall chars s.

Definition is_lower (c : ascii) : bool := in_range 97 122 c.
Definition is_letter (c : ascii) : bool := is_upper c || is_lower c.
Definition is_alphanumeric (c : ascii) : bool := is_digit c || is_letter c.

(** [strings.ContainsAny(value, "\r\n\x00")]. *)
Definition control : ascii → bool := λ c, bool_decide (Ascii.N_of_ascii c ∈ [13; 10; 0])%N.
Definition no_control (s : string) : bool := string_forall (λ c, negb (control c)) s.

(** Guards of the native requests. *)
Abbreviation unset s := (bool_decide (s = "")).
Abbreviation refuse b message := (require (negb b) (validationError message)).

(** The validation error of the packages that report it as an [APIError]. *)
Definition APIValidationError (exchange format : string) : error :=
  API (MkAPIError ErrorValidation exchange "" "" false 0 "" "" (Some (Errorf format))).

(** [validateRequiredText], which some packages call [validateSymbol], and
    [validateOptionalText]. *)
Definition validateRequiredText (name value : string) : result error unit :=
  refuse (unset (TrimSpace value) || negb (bool_decide (TrimSpace value = value)))
    (name +:+ " is required and cannot have surrounding whitespace").
Definition validateOptionalText (name value : string) : result error unit :=
  if unset value then Ok tt else validateRequiredText name value.

(** Named amounts of which each is unset or a positive decimal.  The order in
    which Go visits them in a map only decides which error comes first. *)
Definition validateAmounts (amounts : list (string * string)) : result error unit :=
  fold_result (λ _ amount, if unset amount.2 then Ok tt else validatePositiveDecimal amount.1 amount.2) tt amounts.

(** Visible ASCII characters, which no encoding of a space starts or ends with. *)
Definition is_visible : ascii → bool := in_range 33 126.

Lemma is_visible_range c : is_visible c = true → (33 ≤ Ascii.N_of_ascii c ≤ 126)%N.
Proof. apply bool_decide_eq_true_1. Qed.

Lemma space_prefix_visible s1 s2 s3 l :
  (∀ a b c, is_visible a = true → s1 a = false ∧ s2 a b = false ∧ s3 a b c = false) →
  Forall (λ c, is_visible c = true) l → space_prefix s1 s2 s3 l = 0%nat.
Proof.
  intros H Hl. destruct l as [|a [|b [|c l]]]; simpl; [done|..]; apply Forall_cons in Hl as [Ha _].
  - by destruct (H a a a Ha) as (-> & _).
  - by destruct (H a b a Ha) as (-> & -> & _).
  - by destruct (H a b c Ha) as (-> & -> & ->).
Qed.

Lemma string_forall_impl (f g : ascii → bool) s :
  (∀ c, f c = true → g c = true) → string_forall f s = true → string_forall g s = true.
Proof. intros H. rewrite !string_forall_list. intros Hs. eapply Forall_impl; [exact Hs|exact H]. Qed.

Lemma no_control_visible s : string_forall is_visible s = true → no_control s = true.
Proof.
  apply string_forall_impl. unfold is_visible, in_range, control. intros c.
  rewrite bool_decide_eq_true, negb_true_iff, bool_decide_eq_false, !elem_of_cons, elem_of_nil. lia.
Qed.

(** A chain of guards on the codes of characters. *)
Ltac no_guard := unfold space1, space2, space3; intros; cbv zeta in *; repeat case_bool_decide; simpl; try (done || lia).

Lemma TrimSpace_visible s : string_forall is_visible s = true → TrimSpace s = s.
Proof.
  intros Hs. apply string_forall_list in Hs. unfold TrimSpace. cbv zeta.
  rewrite (trim_side_id space1 space2 space3).
  2:{ apply space_prefix_visible; [|done]. intros a b c Ha%is_visible_range. split_and!; no_guard. }
  rewrite trim_side_id.
  - by rewrite reverse_involutive, String.string_of_list_ascii_of_string.
  - apply space_prefix_visible; [|by apply Forall_reverse].
    intros a b c Ha%is_visible_range. split_and!; no_guard.
Qed.

Lemma validateRequiredText_visible name s :
  s ≠ "" → string_forall is_visible s = true → validateRequiredText name s = Ok tt.
Proof.
  intros Hs Hv. unfold validateRequiredText. rewrite TrimSpace_visible by done.
  by rewrite (bool_decide_eq_false_2 (s = "")), bool_decide_eq_true_2 by done.
Qed.

Lemma validateOptionalText_trimmed name s :
  s = "" ∨ s ≠ "" ∧ TrimSpace s = s → validateOptionalText name s = Ok tt.
Proof.
  intros [->|[Hs Ht]]; [done|]. unfold validateOptionalText, validateRequiredText.
  by rewrite Ht, bool_decide_eq_false_2, bool_decide_eq_true_2 by done.
Qed.

(** ** Markets *)

Lemma is_asset_visible c : is_asset_char c = true → is_visible c = true.
Proof.
  unfold is_asset_char, is_visible, in_range. rewrite orb_true_iff, !bool_decide_eq_true. lia.
Qed.

Lemma assetPattern_Ok s : assetPattern s = true ↔ s ≠ "" ∧ string_forall is_asset_char s = true.
Proof. unfold assetPattern. by rewrite andb_true_iff, bool_decide_eq_true. Qed.

(** The name of a market: its assets with a separator between them. *)
Definition joined (sep : string) (market : Market) : string := Base market +:+ sep +:+ Quote market.

Lemma visible_market sep market :
  string_forall is_visible sep = true → valid_market market →
  joined sep market ≠ "" ∧ string_forall is_visible (joined sep market) = true.
Proof.
  intros Hsep ([Hb Hb']%assetPattern_Ok & [_ Hq']%assetPattern_Ok & _). unfold joined. split.
  - by destruct (Base market).
  - rewrite !string_forall_append, Hsep.
    by rewrite !(string_forall_impl _ _ _ is_asset_visible).
Qed.

Lemma asset_not_char sep s : is_asset_char sep = false → assetPattern s = true → string_forall (not_char sep) s = true.
Proof.
  intros Hsep [_ Hs]%assetPattern_Ok. revert Hs. apply string_forall_impl.
  intros c Hc. apply negb_true_iff, bool_decide_eq_false. congruence.
Qed.

(** The Korean exchanges write the quote asset first. *)
Definition swapped (market : Market) : Market := MkMarket (Quote market) (Base market).

Lemma swapped_valid market : valid_market market → valid_market (swapped market).
Proof. intros (? & ? & ?). by split_and!. Qed.

Lemma visible_swapped sep market :
  string_forall is_visible sep = true → valid_market market →
  joined sep (swapped market) ≠ "" ∧ string_forall is_visible (joined sep (swapped market)) = true.
Proof. intros Hsep H. by apply visible_market, swapped_valid. Qed.

(** A separator that is no character of an asset can be found again. *)
Lemma Cut_inv (sep : ascii) s before after : Cut sep s = (before, Some after) → s = before +:+ String sep after.
Proof.
  revert before after. induction s as [|c s IH]; [done|]. intros before after. simpl.
  case_bool_decide as Hc; [by intros [= <- <-]; subst|].
  destruct (Cut sep s) as [b [a|]]; [|done]. intros [= <- <-]. by rewrite (IH b a).
Qed.

Lemma Cut_joined sep market :
  is_asset_char sep = false → valid_market market →
  Cut sep (joined (String sep "") market) = (Base market, Some (Quote market)).
Proof.
  intros Hsep (Hb & _). by apply Cut_some, asset_not_char.
Qed.

Lemma joined_inj sep m1 m2 :
  is_asset_char sep = false → valid_market m1 → valid_market m2 →
  joined (String sep "") m1 = joined (String sep "") m2 → m1 = m2.
Proof.
  intros Hsep H1 H2 Heq. pose proof (Cut_joined sep m1 Hsep H1) as Hc. rewrite Heq, (Cut_joined sep m2) in Hc by done.
  injection Hc as Hb Hq. destruct m1, m2. simpl in *. by subst.
Qed.

(** The regular expression [^[A-Z0-9]{low,high}sep[A-Z0-9]{low,high}$]. *)
Definition pairPattern (sep : ascii) (low high : nat) (s : string) : bool :=
  match Cut sep s with
  | (base, Some quote) => matches is_asset_char low high base && matches is_asset_char low high quote
  | (_, None) => false
  end.

Definition assetLengths (low high : nat) (market : Market) : bool :=
  bool_decide (low ≤ String.length (Base market) ≤ high)%nat && bool_decide (low ≤ String.length (Quote market) ≤ high)%nat.

Lemma asset_char_not sep c : is_asset_char sep = false → is_asset_char c = true → not_char sep c = true.
Proof. intros Hsep Hc. unfold not_char. rewrite bool_decide_eq_false_2; [done|]. intros ->. congruence. Qed.

(** A pair has no other separator. *)
Lemma pairPattern_not_char sep low high c s :
  is_asset_char c = false → c ≠ sep → pairPattern sep low high s = true →
  string_forall (not_char c) s = true.
Proof.
  intros Hc Hsep. unfold pairPattern. destruct (Cut sep s) as [base [quote|]] eqn:Hs; [|done].
  apply Cut_inv in Hs as ->. unfold matches. intros H. go_bool.
  destruct H as [[_ Hb] [_ Hq]]. rewrite string_forall_append. apply andb_true_iff. split.
  - eapply string_forall_impl; [|exact Hb]. intros x. by apply asset_char_not.
  - simpl. apply andb_true_iff. split.
    + unfold not_char. by rewrite bool_decide_eq_false_2 by congruence.
    + eapply string_forall_impl; [|exact Hq]. intros x. by apply asset_char_not.
Qed.

Lemma pairPattern_joined sep low high market :
  is_asset_char sep = false → valid_market market →
  pairPattern sep low high (joined (String sep "") market) = assetLengths low high market.
Proof.
  intros Hsep H. unfold pairPattern, assetLengths, matches. rewrite Cut_joined by done.
  destruct H as ([_ ->]%assetPattern_Ok & [_ ->]%assetPattern_Ok & _). by rewrite !andb_true_r.
Qed.

Lemma Split_none sep s : string_forall (not_char sep) s = true → Split sep s = [s].
Proof.
  induction s as [|c s IH]; simpl; [done|]. intros [Hc Hs]%andb_true_iff.
  apply negb_true_iff in Hc. by rewrite Hc, IH.
Qed.

Lemma Split_joined sep market :
  is_asset_char sep = false → valid_market market →
  Split sep (joined (String sep "") market) = [Base market; Quote market].
Proof.
  intros Hsep (Hb & Hq & _). apply (asset_not_char sep) in Hb, Hq; [|done..]. unfold joined. simpl.
  induction (Base market) as [|c s IH]; simpl in *.
  - by rewrite bool_decide_eq_true_2, Split_none.
  - apply andb_true_iff in Hb as [Hc Hb]. apply negb_true_iff in Hc. by rewrite Hc, IH.
Qed.

(** ** Valid orders, one kind after the other *)

Lemma valid_order_cases (P : PlaceOrderRequest → Prop) :
  (∀ market side tif quantity price id, valid_market market → side ∈ [SideBuy; SideSell] →
     tif ∈ [""; TimeInForceGTC; TimeInForceIOC; TimeInForceFOK; TimeInForcePostOnly] →
     positive quantity → positive price → id ≠ "" → TrimSpace id = id →
     P (MkPlaceOrderRequest market side OrderTypeLimit tif quantity "" price id)) →
  (∀ market amount id, valid_market market → positive amount → id ≠ "" → TrimSpace id = id →
     P (MkPlaceOrderRequest market SideBuy OrderTypeMarket "" "" amount "" id)) →
  (∀ market quantity id, valid_market market → positive quantity → id ≠ "" → TrimSpace id = id →
     P (MkPlaceOrderRequest market SideSell OrderTypeMarket "" quantity "" "" id)) →
  ∀ request, valid_order request → P request.
Proof.
  intros Hl Hb Hs [market side type tif quantity amount price id] (Hm & Hside & Hid & Htrim & Ha). simpl in *.
  destruct Ha as [(Ht & Hq & Hp & Ha & Htif)|(Ht & Hp & Htif & [(Hs' & Ha & Hq)|(Hs' & Hq & Ha)])]; simpl in *; subst.
  - apply Hl; try done.
    + destruct Hside as [-> | ->]; [left|right; left].
    + destruct Htif as [->|Htif]; [left|]. right. unfold TimeInForce_valid in Htif.
      rewrite !orb_true_iff, !bool_decide_eq_true in Htif. rewrite !elem_of_cons. tauto.
  - by apply Hb.
  - by apply Hs.
Qed.

Lemma positive_Ok value :
  positive value →
  (∀ name, validatePositiveDecimal name value = Ok tt) ∧ bool_decide (value = "") = false ∧
  positiveDecimalPattern value = true ∧ decimalIsZero value = false.
Proof.
  intros H. assert (∀ name, validatePositiveDecimal name value = Ok tt) as Hv
    by (intros name; by apply validatePositiveDecimal_Ok).
  split; [done|]. split; [apply bool_decide_eq_false; intros ->; by destruct H as (? & ? & _)|].
  specialize (Hv ""). unfold validatePositiveDecimal in Hv. by destruct (positiveDecimalPattern value), (decimalIsZero value).
Qed.

(** The packages that compare as rationals. *)
Lemma positive_Rat value : positive value → ∃ q, Rat_SetString value = Some q ∧ bool_decide (Rat_Sign q ≤ 0) = false.
Proof.
  intros (q & Hq & Hpos). exists q. split; [done|]. apply bool_decide_eq_false. apply Rat_Sign_pos in Hpos. lia.
Qed.

(** The zero [Order]. *)
Definition noOrder : Order := MkOrder "" "" "" (MkMarket "" "") "" "" "" "" "" "" "" "".

(** ** Adapters *)

Class SpotAdapter : Type := {
  exchange : string;
  nativeMarket : Market → string;
  (** The orders that the adapter has a native order for. *)
  supported : PlaceOrderRequest → result error unit;
  (** What [PlaceOrder] needs beside the request before it can make an order. *)
  Account : Type;
  NativeOrder : Type;
  Reference : Type;
  nativeRequest : Account → PlaceOrderRequest → NativeOrder;
  validateNative : NativeOrder → result error unit;
  placed : Account → PlaceOrderRequest → Reference → result error Order;
  (** What the exchange asks of an order beyond the unified contract, and which
      time in force it takes for an unset one. *)
  accepts : Account → PlaceOrderRequest → bool;
  unsetTimeInForce : string
}.

(** [UnifiedSpot.PlaceOrder], and the method of the client that it calls: [send]
    is what the client does with a valid order. *)
Definition PlaceOrder `{SpotAdapter} {W} (prepare : PlaceOrderRequest → io W Account)
    (client : NativeOrder → io W Reference) (request : PlaceOrderRequest) : io W Order :=
  lift (PlaceOrderRequest_Validate request);;
  lift (supported request);;
  account ← prepare request;
  reference ← client (nativeRequest account request);
  lift (placed account request reference).

Definition clientPlaceOrder `{SpotAdapter} {W} (send : NativeOrder → io W Reference) : NativeOrder → io W Reference :=
  validated validateNative send.

(** For the exchanges that need no preparation, and for those that would make up a
    client order ID for a request without one. *)
Definition noAccount {W} : PlaceOrderRequest → io W unit := λ _, lift (Ok tt).
Definition generatedID {W} (newID : io W string) : PlaceOrderRequest → io W string := λ request,
  if unset (ClientOrderID request) then newID else lift (Ok "").
Definition clientOrderIDOf (generated : string) (request : PlaceOrderRequest) : string :=
  if unset (ClientOrderID request) then generated else ClientOrderID request.

(** What a unified order says to the exchange. *)
Record OrderTerms : Type := MkTerms {
  terms_Market : string;
  terms_Side : string;
  terms_Type : string;
  terms_TimeInForce : string;
  terms_Quantity : string;
  terms_QuoteAmount : string;
  terms_Price : string;
  terms_ClientOrderID : string
}.

Definition timeInForceTerm `{SpotAdapter} (value : string) : string :=
  if bool_decide (value = "") then unsetTimeInForce else value.

Definition terms `{SpotAdapter} (request : PlaceOrderRequest) : OrderTerms :=
  MkTerms (nativeMarket (order_Market request)) (Side request) (order_Type request)
    (timeInForceTerm (TimeInForce request)) (order_Quantity request) (QuoteAmount request) (order_Price request)
    (ClientOrderID request).

Class SpotAdapterLaws `{SpotAdapter} : Prop := {
  (** The client asks for exactly [accepts]. *)
  validate_nativeRequest account request :
    valid_order request → is_Ok (validateNative (nativeRequest account request)) = accepts account request;
  validateNative_Err order e : validateNative order = Err e → Is e ErrValidation = true;
  supported_Err request e : supported request = Err e → Is e ErrUnsupportedCapability = true;
  (** The native order says what the unified one does, and no more. *)
  nativeRequest_terms account request1 request2 :
    valid_order request1 → valid_order request2 → supported request1 = Ok tt → supported request2 = Ok tt →
    nativeRequest account request1 = nativeRequest account request2 ↔ terms request1 = terms request2;
  (** The answer is about the order that was asked for. *)
  placed_identity account request reference order :
    placed account request reference = Ok order → ord_Exchange order = exchange ∧ ord_Market order = order_Market request
}.

(** [nativeRequest_terms] from a function that reads the terms back. *)
Lemma terms_iff `{SpotAdapter} (readback : NativeOrder → OrderTerms) account request1 request2 :
  (∀ request, valid_order request → supported request = Ok tt →
     readback (nativeRequest account request) = terms request) →
  (∀ market1 market2 side type tif quantity amount price id,
     valid_market market1 → valid_market market2 → nativeMarket market1 = nativeMarket market2 →
     nativeRequest account (MkPlaceOrderRequest market1 side type tif quantity amount price id) =
     nativeRequest account (MkPlaceOrderRequest market2 side type tif quantity amount price id)) →
  (∀ market side quantity amount price id, unsetTimeInForce ≠ "" →
     nativeRequest account (MkPlaceOrderRequest market side OrderTypeLimit "" quantity amount price id) =
     nativeRequest account (MkPlaceOrderRequest market side OrderTypeLimit unsetTimeInForce quantity amount price id)) →
  valid_order request1 → valid_order request2 → supported request1 = Ok tt → supported request2 = Ok tt →
  nativeRequest account request1 = nativeRequest account request2 ↔ terms request1 = terms request2.
Proof.
  intros Hread Hmarket Hunset H1 H2 Hs1 Hs2. split.
  { intros Heq. by rewrite <-!Hread, Heq by done. }
  assert (∀ request, valid_order request →
    nativeRequest account request =
    nativeRequest account (MkPlaceOrderRequest (order_Market request) (Side request) (order_Type request)
      (if bool_decide (order_Type request = OrderTypeLimit) then timeInForceTerm (TimeInForce request)
       else TimeInForce request) (order_Quantity request) (QuoteAmount request) (order_Price request)
      (ClientOrderID request))) as Hcanon.
  { unfold timeInForceTerm. apply valid_order_cases; intros; simpl; [|done..].
    case_bool_decide; [|done]. subst. destruct (decide (unsetTimeInForce = "")) as [->|]; [done|by apply Hunset]. }
  assert (∀ request, valid_order request → order_Type request ≠ OrderTypeLimit → TimeInForce request = "") as Hmarkets.
  { apply (valid_order_cases (λ request, order_Type request ≠ OrderTypeLimit → TimeInForce request = "")); done. }
  intros Heq. rewrite (Hcanon request1), (Hcanon request2) by done. unfold terms in Heq.
  injection Heq as Hm Hs Ht Htif -> -> -> ->. rewrite Hs, Ht, Htif.
  case_bool_decide as Hl; [|rewrite !Hmarkets by congruence].
  all: apply Hmarket; [by destruct H1|by destruct H2|done].
Qed.

(** ** Proofs about native orders *)

Lemma is_Ok_bind {E A B} (m : result E A) (k : result E B) : is_Ok (m;; k) = is_Ok m && is_Ok k.
Proof. by destruct m. Qed.
Lemma is_Ok_require {E} b (e : E) : is_Ok (require b e) = b.
Proof. by destruct b. Qed.
Lemma is_Ok_if {E A} (b : bool) (x y : result E A) : is_Ok (if b then x else y) = if b then is_Ok x else is_Ok y.
Proof. by destruct b. Qed.

(** Every [bool_decide] of a closed proposition. *)
Ltac is_open P := idtac; match goal with x : _ |- _ => match P with context [x] => idtac end end.
Ltac eval_closed :=
  repeat match goal with
    | |- context [@bool_decide ?P ?d] =>
        assert_fails (is_open P);
        let b := eval vm_compute in (@bool_decide P d) in
        match b with
        | true => change (@bool_decide P d) with true
        | false => change (@bool_decide P d) with false
        end; cbn [andb orb negb eqb]
    end.

(** One goal for each side and time in force. *)
Ltac order_kinds :=
  repeat match goal with
    | H : ?x ∈ [] |- _ => by apply elem_of_nil in H
    | H : ?x ∈ _ :: _ |- _ => apply elem_of_cons in H as [H|H]; [try subst x|]
    end.

(** What the validity of an order says about the guards. *)
Ltac order_facts :=
  repeat match goal with
    | H : positive ?v |- _ => apply positive_Ok in H as (? & ? & ? & ?)
    | H : ?s ≠ "" |- _ => apply (proj2 (bool_decide_eq_false (s = ""))) in H
    end.

Ltac rewrite_facts := repeat match goal with H : bool_decide _ = _ |- _ => rewrite H; clear H end.

(** The guards of a validation, with the facts about the order. *)
Ltac eval_guards :=
  cbn [validateAmounts fold_result mret result_ret fst snd];
  repeat first
    [ rewrite is_Ok_bind | rewrite is_Ok_require | rewrite is_Ok_if
    | match goal with
      | H : bool_decide _ = _ |- _ => rewrite H
      | H : positiveDecimalPattern _ = _ |- _ => rewrite H
      | H : decimalIsZero _ = _ |- _ => rewrite H
      | H : ∀ name : string, _ = Ok tt |- _ => rewrite H
      | H : _ = Ok tt |- _ => rewrite H
      end ];
  eval_closed; cbn [is_Ok andb orb negb eqb]; rewrite ?andb_true_r, ?orb_false_r.

(** Nothing but validation errors. *)
Definition validates {A} (r : result error A) : Prop := ∀ e, r = Err e → Is e ErrValidation = true.

Lemma validates_Ok {A} (a : A) : validates (Ok a).
Proof. by intros e ?. Qed.
Lemma validates_refuse b message : validates (require b (validationError message)).
Proof. by intros e [_ ->]%require_Err. Qed.
Lemma validates_refuse_api b exchange message : validates (require b (APIValidationError exchange message)).
Proof. by intros e [_ ->]%require_Err. Qed.
Lemma validates_Err exchange message {A} : validates (A:=A) (Err (APIValidationError exchange message)).
Proof. by intros e [= <-]. Qed.
Lemma validates_bind {A B} (m : result error A) (k : A → result error B) :
  validates m → (∀ a, validates (k a)) → validates (m ≫= k).
Proof. intros Hm Hk e. rewrite result_bind_Err. intros [?|(a & _ & ?)]; [by apply Hm|by eapply Hk]. Qed.
Lemma validates_if {A} (b : bool) (x y : result error A) : validates x → validates y → validates (if b then x else y).
Proof. by destruct b. Qed.
Lemma validates_positive name value : validates (validatePositiveDecimal name value).
Proof. intros e. apply validatePositiveDecimal_Err. Qed.
Lemma validates_text name value : validates (validateRequiredText name value).
Proof. apply validates_refuse. Qed.
Lemma validates_optional name value : validates (validateOptionalText name value).
Proof. apply validates_if; [apply validates_Ok|apply validates_text]. Qed.
Lemma validates_amounts amounts : validates (validateAmounts amounts).
Proof.
  induction amounts as [|amount amounts IH]; [apply validates_Ok|].
  apply validates_bind; [|by intros []]. apply validates_if; [apply validates_Ok|apply validates_positive].
Qed.

Create HintDb validation.
#[export] Hint Resolve validates_Ok validates_Err validates_refuse validates_refuse_api validates_positive validates_text validates_optional
  validates_amounts : validation.

(** Walks through a validation. *)
Ltac solve_validates :=
  cbv zeta;
  first [ solve [auto with validation]
        | apply validates_bind; [|intros _]; solve_validates
        | apply validates_if; solve_validates
        | case_match; solve_validates ].

(** The premises of [terms_iff]: one goal for each kind of order; orders that differ
    in nothing but the market. *)
Ltac read_orders := intros request H _; revert request H; apply valid_order_cases; intros; order_kinds.
Ltac same_market native := intros * _ _ Hm; unfold nativeRequest; simpl; unfold native; simpl in *; by rewrite Hm.
