(* ===== verification/Pages.v ===== *)
(** * Lists that an exchange serves in pages: the loops of [exchange/*/unified.go]

    The adapters of OKX, Bybit, Coinbase and Bithumb ask for page after page, each
    with the cursor that the last one named, and refuse a cursor that they have
    used before. *)

From S2P Require Import Prelude Errors SpotAdapter.

Section pages.
Context {W Page A : Type}.
(** The request for the page at a cursor; what the adapter makes of the items of a
    page; the cursor of the page after it, [None] on the last one. *)
Context (fetch : string → io W Page) (read : Page → result error (list A))
  (next : Page → result error (option string)) (repeated : error).

(** The loop, from a cursor, with the set [seenCursors] and the items so far;
    [None] when [fuel] pages were not enough. *)
Fixpoint collect (fuel : nat) (seen : gset string) (cursor : string) (items : list A) (w : W)
    : option (result error (list A) * W) :=
  match fuel with
  | O => None
  | S fuel =>
      let '(page, w) := fetch cursor w in
      match page with
      | Err err => Some (Err err, w)
      | Ok page =>
          match read page with
          | Err err => Some (Err err, w)
          | Ok more =>
              match next page with
              | Err err => Some (Err err, w)
              | Ok None => Some (Ok (items ++ more), w)
              | Ok (Some cursor) =>
                  if bool_decide (cursor ∈ seen) then Some (Err repeated, w)
                  else collect fuel ({[cursor]} ∪ seen) cursor (items ++ more) w
              end
          end
      end
  end.

(** More fuel changes nothing. *)
Lemma collect_more fuel fuel' seen cursor items w r :
  (fuel ≤ fuel')%nat → collect fuel seen cursor items w = Some r → collect fuel' seen cursor items w = Some r.
Proof.
  revert fuel' seen cursor items w. induction fuel as [|fuel IH]; [done|].
  intros [|fuel'] seen cursor items w Hle; [lia|]. simpl.
  destruct (fetch cursor w) as [[page|err] w']; [|done].
  destruct (read page) as [more|err]; [|done]. destruct (next page) as [[c|]|err]; [|done..].
  case_bool_decide; [done|]. apply IH. lia.
Qed.

(** Whatever the exchange answers, as long as it names finitely many cursors the
    loop ends. *)
Lemma collect_ends (cursors seen : gset string) cursor items w :
  (∀ cursor w page w' c, fetch cursor w = (Ok page, w') → next page = Ok (Some c) → c ∈ cursors) → seen ⊆ cursors →
  is_Some (collect (S (size (cursors ∖ seen))) seen cursor items w).
Proof.
  intros Hc. remember (size (cursors ∖ seen)) as n eqn:Hn. revert seen cursor items w Hn.
  induction n as [n IH] using lt_wf_ind. intros seen cursor items w Hn Hseen. simpl.
  destruct (fetch cursor w) as [[page|err] w'] eqn:Hfetch; [|by eexists].
  destruct (read page) as [more|err]; [|by eexists].
  destruct (next page) as [[c|]|err] eqn:Hnext; [|by eexists..].
  case_bool_decide as Hin; [by eexists|]. apply (Hc _ _ _ _ _ Hfetch) in Hnext.
  assert (size (cursors ∖ ({[c]} ∪ seen)) < n)%nat as Hlt.
  { subst n. apply subset_size. set_solver. }
  destruct (IH _ Hlt ({[c]} ∪ seen) c (items ++ more) w' eq_refl) as [r Hr]; [set_solver|].
  exists r. eapply collect_more; [|exact Hr]. lia.
Qed.

(** The pages that an exchange serves from a cursor on, with the cursors between
    them. *)
Inductive serves : string → W → list string → list (list A) → W → Prop :=
  | serves_last cursor w page more w' :
      fetch cursor w = (Ok page, w') → read page = Ok more → next page = Ok None → serves cursor w [] [more] w'
  | serves_more cursor w page more w' c cursors rest w'' :
      fetch cursor w = (Ok page, w') → read page = Ok more → next page = Ok (Some c) →
      serves c w' cursors rest w'' → serves cursor w (c :: cursors) (more :: rest) w''.

(** The loop collects all of them, in their order. *)
Lemma collect_serves cursor w cursors pages w' seen items :
  serves cursor w cursors pages w' → NoDup cursors → Forall (λ c, c ∉ seen) cursors →
  collect (length pages) seen cursor items w = Some (Ok (items ++ concat pages), w').
Proof.
  intros H. revert seen items.
  induction H as [cursor w page more w' Hf Hr Hn|cursor w page more w' c cursors rest w'' Hf Hr Hn _ IH];
    intros seen items Hd Hs; simpl.
  - by rewrite Hf, Hr, Hn, app_nil_r.
  - rewrite Hf, Hr, Hn. apply NoDup_cons in Hd as [Hc Hd]. apply Forall_cons in Hs as [Hcs Hs].
    rewrite bool_decide_eq_false_2 by done. rewrite IH, app_assoc; [done|done|].
    apply Forall_forall. intros c' Hc'. rewrite Forall_forall in Hs. specialize (Hs c' Hc'). set_solver.
Qed.
End pages.

(** What becomes of the items one by one. *)
Lemma mapM_subset {I A} (g : I → result error A) items outcomes (page : list I) (other : A) :
  mapM g items = Ok outcomes → page ⊆ items →
  mapM g page = Ok ((λ item, match g item with Ok a => a | Err _ => other end) <$> page).
Proof.
  intros Hm Hsub. assert (∀ item, item ∈ items → ∃ a, g item = Ok a) as Hall.
  { clear Hsub. revert outcomes Hm. induction items as [|i items IH]; simpl; intros outcomes Hm item Hi.
    - by apply elem_of_nil in Hi.
    - apply result_bind_Ok in Hm as (a & Ha & Hm). apply result_bind_Ok in Hm as (rest & Hrest & _).
      apply elem_of_cons in Hi as [->|Hi]; [by exists a|by eapply IH]. }
  induction page as [|i page IH]; [done|]. simpl.
  destruct (Hall i) as [a Ha]; [apply Hsub; by left|]. rewrite Ha. simpl.
  rewrite IH; [done|]. intros x Hx. apply Hsub. by right.
Qed.

(** ** An exchange that continues after the last item

    A list of items with distinct names, of which a request gets the first [limit]
    after the item that its cursor names, or from the start when the cursor is
    empty. *)

Section after_cursor.
Context {I : Type} (name : I → string) (limit : nat).

Fixpoint after (cursor : string) (items : list I) : list I :=
  match items with
  | [] => []
  | item :: rest => if bool_decide (name item = cursor) then rest else after cursor rest
  end.

Definition page_after (cursor : string) (items : list I) : list I :=
  take limit (if bool_decide (cursor = "") then items else after cursor items).

Lemma after_app cursor front item rest :
  NoDup (name <$> front ++ item :: rest) → name item = cursor → after cursor (front ++ item :: rest) = rest.
Proof.
  intros Hd <-. induction front as [|x front IH]; simpl in *.
  - by rewrite bool_decide_eq_true_2.
  - apply NoDup_cons in Hd as [Hx Hd]. rewrite bool_decide_eq_false_2; [by apply IH|].
    intros Heq. apply Hx. rewrite Heq. apply list_elem_of_fmap_2, elem_of_app. right. left.
Qed.

(** The cursor after a page: none after a page that is not full. *)
Definition cursor_after (empty : error) (page : list I) : result error (option string) :=
  if bool_decide (length page < limit)%nat then Ok None
  else
    let cursor := match last page with Some item => name item | None => "" end in
    if unset cursor then Err empty else Ok (Some cursor).

Context {W A : Type} (fetch : string → io W (list I)) (read : list I → result error (list A)) (f : I → A)
  (items : list I) (empty : error).
Hypothesis limit_positive : (0 < limit)%nat.
Hypothesis names_distinct : NoDup (name <$> items).
Hypothesis names_set : Forall (λ item, name item ≠ "") items.
Hypothesis fetch_page : ∀ cursor w, cursor = "" ∨ cursor ∈ name <$> items →
  fetch cursor w = (Ok (page_after cursor items), w).
Hypothesis read_page : ∀ page, page ⊆ items → read page = Ok (f <$> page).

Lemma book_is_served w rest : ∀ front cursor,
  items = front ++ rest →
  (front = [] ∧ cursor = "" ∨ ∃ front' item, front = front' ++ [item] ∧ name item = cursor) →
  ∃ cursors pages, serves fetch read (cursor_after empty) cursor w cursors pages w ∧
    concat pages = f <$> rest ∧ NoDup cursors ∧ cursors ⊆ name <$> rest.
Proof.
  remember (length rest) as n eqn:Hn. revert rest Hn. induction n as [n IH] using lt_wf_ind.
  intros rest Hn front cursor Hitems Hcursor.
  assert (page_after cursor items = take limit rest) as Hpage.
  { unfold page_after. destruct Hcursor as [[-> ->]|(front' & item & -> & Hc)].
    - by rewrite bool_decide_eq_true_2, Hitems.
    - rewrite Hitems, <-app_assoc. simpl. rewrite bool_decide_eq_false_2.
      + f_equal. rewrite Hitems, <-app_assoc in names_distinct. by apply after_app.
      + rewrite <-Hc. rewrite Hitems, Forall_app, Forall_app, Forall_singleton in names_set. tauto. }
  assert (cursor = "" ∨ cursor ∈ name <$> items) as Hknown.
  { destruct Hcursor as [[_ ->]|(front' & item & -> & <-)]; [by left|right].
    rewrite Hitems, !fmap_app, !elem_of_app. left. right. by left. }
  assert (take limit rest ⊆ items) as Hsub.
  { intros x Hx%elem_of_take. destruct Hx as (i & Hx & _). rewrite Hitems. apply elem_of_app. right.
    by eapply list_elem_of_lookup_2. }
  destruct (decide (length rest < limit)%nat) as [Hlast|Hfull].
  { exists [], [f <$> rest]. split_and!; [|by rewrite concat_cons, app_nil_r|constructor|by intros ? ?%elem_of_nil].
    rewrite take_ge in Hpage by lia. rewrite take_ge in Hsub by lia. eapply serves_last.
    - by rewrite (fetch_page _ _ Hknown), Hpage.
    - by apply read_page.
    - unfold cursor_after. by rewrite bool_decide_eq_true_2. }
  destruct (exists_last (l:=take limit rest)) as (pre & x & Htake).
  { intros Hnil%(f_equal length). rewrite length_take in Hnil. simpl in Hnil. lia. }
  assert (rest = (pre ++ [x]) ++ drop limit rest) as Hrest by (by rewrite <-Htake, take_drop).
  set (rest' := drop limit rest) in *.
  assert (length (pre ++ [x]) = limit) as Hlimit by (rewrite <-Htake, length_take; lia).
  assert (name x ≠ "") as Hx.
  { rewrite Forall_forall in names_set. apply names_set, Hsub. rewrite Htake, elem_of_app. right. by left. }
  destruct (IH (length rest')) with (rest := rest') (front := front ++ pre ++ [x]) (cursor := name x)
    as (cursors & pages & Hserves & Hconcat & Hd & Hc).
  { subst n rest'. rewrite length_drop. lia. }
  { done. }
  { rewrite Hitems. rewrite Hrest at 1. by rewrite <-!app_assoc. }
  { right. exists (front ++ pre), x. by rewrite app_assoc. }
  exists (name x :: cursors), ((f <$> pre ++ [x]) :: pages). split_and!.
  - eapply serves_more; [by rewrite (fetch_page _ _ Hknown), Hpage, Htake|apply read_page; by rewrite <-Htake| |exact Hserves].
    unfold cursor_after. rewrite bool_decide_eq_false_2 by lia.
    rewrite last_snoc. by rewrite bool_decide_eq_false_2.
  - rewrite concat_cons, Hconcat, <-fmap_app. by rewrite <-Hrest.
  - constructor; [|done]. intros Hin. apply Hc in Hin.
    rewrite Hitems, Hrest, !fmap_app in names_distinct.
    apply NoDup_app in names_distinct as (_ & _ & Hd'). apply NoDup_app in Hd' as (_ & Hd' & _).
    apply (Hd' (name x)); [|done]. apply elem_of_app. right. by left.
  - intros c [->|Hin]%elem_of_cons.
    + rewrite Hrest, !fmap_app, !elem_of_app. left. right. by left.
    + rewrite Hrest, fmap_app, elem_of_app. right. by apply Hc.
Qed.

(** The loop over such pages returns the items, all of them and in their order. *)
Lemma collect_book repeated w :
  ∃ fuel, collect fetch read (cursor_after empty) repeated fuel ∅ "" [] w = Some (Ok (f <$> items), w).
Proof.
  destruct (book_is_served w items [] "") as (cursors & pages & Hs & Hc & Hd & _); [done|by left|].
  exists (length pages). rewrite <-Hc, <-(app_nil_l (concat pages)).
  eapply collect_serves; [exact Hs|done|]. apply Forall_forall. set_solver.
Qed.
End after_cursor.
