(* ===== verification/BinanceSpot.v ===== *)
(** * Binance Spot orders: [exchange/binance/requests.go] and [exchange/binance/unified.go]

    The native order requests with their validation, and the adapter between them
    and the unified contract. *)

From S2P Require Import Prelude GoStrings Decimals GoStrconv Errors Unified SpotAdapter ClientErrors.

Module Binance.
Definition SideBuy : string := "BUY".
Definition SideSell : string := "SELL".
Definition OrderTypeLimit : string := "LIMIT".
Definition OrderTypeMarket : string := "MARKET".
Definition OrderTypeStopLoss : string := "STOP_LOSS".
Definition OrderTypeStopLossLimit : string := "STOP_LOSS_LIMIT".
Definition OrderTypeTakeProfit : string := "TAKE_PROFIT".
Definition OrderTypeTakeProfitLimit : string := "TAKE_PROFIT_LIMIT".
Definition OrderTypeLimitMaker : string := "LIMIT_MAKER".
Definition TimeInForceGTC : string := "GTC".
Definition TimeInForceIOC : string := "IOC".
Definition TimeInForceFOK : string := "FOK".
Definition NewOrderResponseResult : string := "RESULT".

(** ** Native requests *)

Record NewOrderRequest : Type := MkNewOrder {
  Symbol : string;
  Side : string;
  Type_ : string;
  TimeInForce : string;
  Quantity : string;
  QuoteOrderQuantity : string;
  Price : string;
  ClientOrderID : string;
  StrategyID : option Z;
  StrategyType : option Z;
  StopPrice : string;
  TrailingDelta : option Z;
  IcebergQuantity : string;
  ResponseType : string;
  SelfTradePreventionMode : string;
  PegPriceType : string;
  PegOffsetValue : option Z;
  PegOffsetType : string
}.
#[export] Instance NewOrderRequest_settable : Settable NewOrderRequest := λ r,
  MkNewOrder (Symbol r) (Side r) (Type_ r) (TimeInForce r) (Quantity r) (QuoteOrderQuantity r) (Price r)
    (ClientOrderID r) (StrategyID r) (StrategyType r) (StopPrice r) (TrailingDelta r) (IcebergQuantity r)
    (ResponseType r) (SelfTradePreventionMode r) (PegPriceType r) (PegOffsetValue r) (PegOffsetType r).

Record QueryOrderRequest : Type := MkQueryOrder {
  query_Symbol : string;
  query_OrderID : option Z;
  query_OriginalClientOrderID : string
}.

Record CancelOrderRequest : Type := MkCancelOrder {
  cancel_Symbol : string;
  cancel_OrderID : option Z;
  cancel_OriginalClientOrderID : string;
  cancel_NewClientOrderID : string;
  cancel_Restriction : string
}.

Record NativeOpenOrdersRequest : Type := MkOpenOrders { native_Symbol : string; AllSymbols : bool }.

(** [clientOrderIDPattern]: [^[.A-Z:/a-z0-9_-]{1,36}$]. *)
Definition clientOrderIDPattern : string → bool :=
  matches (λ c, is_alphanumeric c || in_cutset ".:/_-" c) 1 36.

Definition validateSymbol (symbol : string) : result error unit := validateRequiredText "symbol" symbol.

Definition TimeInForce_valid (value : string) : bool :=
  bool_decide (value ∈ [TimeInForceGTC; TimeInForceIOC; TimeInForceFOK]).
Definition OrderType_valid (value : string) : bool :=
  bool_decide (value ∈ [OrderTypeLimit; OrderTypeMarket; OrderTypeStopLoss; OrderTypeStopLossLimit;
    OrderTypeTakeProfit; OrderTypeTakeProfitLimit; OrderTypeLimitMaker]).
Definition ResponseType_valid (value : string) : bool := bool_decide (value ∈ ["ACK"; NewOrderResponseResult; "FULL"]).

(** [NewOrderRequest.validate]. *)
Definition NewOrderRequest_validate (request : NewOrderRequest) : result error unit :=
  validateSymbol (Symbol request);;
  refuse (negb (bool_decide (Side request = SideBuy)) && negb (bool_decide (Side request = SideSell)))
    "side must be BUY or SELL";;
  refuse (negb (OrderType_valid (Type_ request))) "unsupported order type %q";;
  validateAmounts [("quantity", Quantity request); ("quoteOrderQty", QuoteOrderQuantity request);
    ("price", Price request); ("stopPrice", StopPrice request); ("icebergQty", IcebergQuantity request)];;
  refuse (negb (unset (Quantity request)) && negb (unset (QuoteOrderQuantity request)))
    "quantity and quoteOrderQty cannot both be set";;
  refuse (negb (unset (ClientOrderID request)) && negb (clientOrderIDPattern (ClientOrderID request)))
    "newClientOrderId has an invalid format";;
  refuse (match StrategyType request with Some n => bool_decide (n < 1000000) | None => false end)
    "strategyType must be at least 1000000";;
  refuse (match TrailingDelta request with Some n => bool_decide (n ≤ 0) | None => false end)
    "trailingDelta must be positive";;
  refuse (negb (unset (ResponseType request)) && negb (ResponseType_valid (ResponseType request)))
    "unsupported response type %q";;
  refuse (negb (unset (TimeInForce request)) && negb (TimeInForce_valid (TimeInForce request)))
    "unsupported time in force %q";;
  refuse (negb (unset (IcebergQuantity request)) && negb (bool_decide (TimeInForce request = TimeInForceGTC)))
    "iceberg order requires GTC time in force";;
  refuse (negb (eqb (bool_decide (PegOffsetValue request = None)) (unset (PegOffsetType request))))
    "pegOffsetValue and pegOffsetType must be set together";;
  refuse (negb (unset (PegPriceType request)) && negb (bool_decide (PegPriceType request = "PRIMARY_PEG")) &&
          negb (bool_decide (PegPriceType request = "MARKET_PEG")))
    "pegPriceType must be PRIMARY_PEG or MARKET_PEG";;
  refuse (negb (unset (PegOffsetType request)) && negb (bool_decide (PegOffsetType request = "PRICE_LEVEL")))
    "pegOffsetType must be PRICE_LEVEL";;
  refuse (match PegOffsetValue request with Some n => bool_decide (n < 0) || bool_decide (100 < n) | None => false end)
    "pegOffsetValue must be between 0 and 100";;
  let hasTrigger := negb (unset (StopPrice request)) || bool_decide (TrailingDelta request ≠ None) in
  let noPrice := unset (Price request) && unset (PegPriceType request) in
  if bool_decide (Type_ request = OrderTypeLimit) then
    refuse (unset (TimeInForce request) || unset (Quantity request) || noPrice)
      "LIMIT requires timeInForce, quantity, and price or pegPriceType"
  else if bool_decide (Type_ request = OrderTypeMarket) then
    refuse (eqb (unset (Quantity request)) (unset (QuoteOrderQuantity request)))
      "MARKET requires exactly one of quantity or quoteOrderQty";;
    refuse (negb (unset (Price request)) || negb (unset (TimeInForce request)) ||
            negb (unset (PegPriceType request)) || negb (unset (IcebergQuantity request)))
      "MARKET does not accept price, timeInForce, peg, or iceberg parameters"
  else if bool_decide (Type_ request = OrderTypeLimitMaker) then
    refuse (unset (Quantity request) || noPrice) "LIMIT_MAKER requires quantity and price or pegPriceType";;
    refuse (negb (unset (TimeInForce request))) "LIMIT_MAKER does not accept timeInForce"
  else if bool_decide (Type_ request ∈ [OrderTypeStopLoss; OrderTypeTakeProfit]) then
    refuse (unset (Quantity request) || negb hasTrigger) "%s requires quantity and stopPrice or trailingDelta"
  else if bool_decide (Type_ request ∈ [OrderTypeStopLossLimit; OrderTypeTakeProfitLimit]) then
    refuse (unset (TimeInForce request) || unset (Quantity request) || noPrice || negb hasTrigger)
      "%s requires timeInForce, quantity, price or pegPriceType, and stopPrice or trailingDelta"
  else Ok tt.

(** [validateOrderIdentity], [QueryOrderRequest.validate], [CancelOrderRequest.validate]. *)
Definition validateOrderIdentity (orderID : option Z) (clientOrderID : string) : result error unit :=
  let cleanClientOrderID := TrimSpace clientOrderID in
  refuse (bool_decide (orderID = None) && unset cleanClientOrderID) "orderId or origClientOrderId is required";;
  refuse (match orderID with Some n => bool_decide (n ≤ 0) | None => false end) "orderId must be positive";;
  refuse (negb (unset clientOrderID) && (negb (bool_decide (cleanClientOrderID = clientOrderID)) ||
          negb (clientOrderIDPattern clientOrderID))) "origClientOrderId has an invalid format".

Definition QueryOrderRequest_validate (request : QueryOrderRequest) : result error unit :=
  validateSymbol (query_Symbol request);;
  validateOrderIdentity (query_OrderID request) (query_OriginalClientOrderID request).

Definition CancelOrderRequest_validate (request : CancelOrderRequest) : result error unit :=
  validateSymbol (cancel_Symbol request);;
  validateOrderIdentity (cancel_OrderID request) (cancel_OriginalClientOrderID request);;
  refuse (negb (unset (cancel_Restriction request)) &&
          negb (bool_decide (cancel_Restriction request ∈ ["ONLY_NEW"; "ONLY_PARTIALLY_FILLED"])))
    "unsupported cancel restriction %q";;
  refuse (negb (unset (cancel_NewClientOrderID request)) &&
          negb (clientOrderIDPattern (cancel_NewClientOrderID request))) "newClientOrderId has an invalid format".

(** [OpenOrdersRequest.validate], in [order_queries.go]. *)
Definition OpenOrdersRequest_validate (request : NativeOpenOrdersRequest) : result error unit :=
  refuse (AllSymbols request && negb (unset (native_Symbol request)))
    "open orders cannot set symbol and AllSymbols together";;
  if negb (AllSymbols request) then validateSymbol (native_Symbol request) else Ok tt.

(** ** The client: what its methods do with a valid request is left open *)

Record NativeOrder : Type := MkOrder {
  ord_Symbol : string;
  ord_OrderID : Z;
  ord_ClientOrderID : string;
  ord_OriginalClientOrderID : string;
  ord_Price : string;
  ord_OriginalQuantity : string;
  ord_ExecutedQuantity : string;
  ord_OriginalQuoteQuantity : string;
  ord_Status : string;
  ord_Type : string;
  ord_Side : string
}.

Record Client (W : Type) : Type := MkClient {
  sendNewOrder : NewOrderRequest → io W NativeOrder;
  sendQueryOrder : QueryOrderRequest → io W NativeOrder;
  sendCancelOrder : CancelOrderRequest → io W NativeOrder;
  sendOpenOrders : NativeOpenOrdersRequest → io W (list NativeOrder)
}.
Arguments sendNewOrder {W}.
Arguments sendQueryOrder {W}.
Arguments sendCancelOrder {W}.
Arguments sendOpenOrders {W}.

(** ** The adapter *)

Definition binanceSymbol (market : Market) : string := Base market +:+ Quote market.

Definition toBinanceSide (side : string) : string := if bool_decide (side = Unified.SideBuy) then SideBuy else SideSell.

Definition toBinanceTimeInForce (value : string) : string :=
  if bool_decide (value = Unified.TimeInForceIOC) then TimeInForceIOC
  else if bool_decide (value = Unified.TimeInForceFOK) then TimeInForceFOK
  else if bool_decide (value = Unified.TimeInForceGTC) then TimeInForceGTC
  else "".

Definition toUnifiedBinanceSide (side : string) : string :=
  if bool_decide (side = SideBuy) then Unified.SideBuy else Unified.SideSell.

Definition toUnifiedBinanceOrderType (orderType : string) : string :=
  if bool_decide (orderType = OrderTypeMarket) then Unified.OrderTypeMarket else Unified.OrderTypeLimit.

Definition toUnifiedBinanceStatus (status : string) : string :=
  if bool_decide (status ∈ ["NEW"; "PENDING_NEW"; "PENDING_CANCEL"]) then OrderStatusNew
  else if bool_decide (status = "PARTIALLY_FILLED") then OrderStatusPartiallyFilled
  else if bool_decide (status = "FILLED") then OrderStatusFilled
  else if bool_decide (status = "CANCELED") then OrderStatusCanceled
  else if bool_decide (status = "REJECTED") then OrderStatusRejected
  else if bool_decide (status ∈ ["EXPIRED"; "EXPIRED_IN_MATCH"]) then OrderStatusExpired
  else OrderStatusUnknown.

Definition fromBinanceOrder (native : NativeOrder) (market : Market) : Order :=
  let clientOrderID := if negb (unset (ord_OriginalClientOrderID native)) then ord_OriginalClientOrderID native
                       else ord_ClientOrderID native in
  Unified.MkOrder ExchangeBinance (Itoa (ord_OrderID native)) clientOrderID market (ord_Symbol native)
    (toUnifiedBinanceSide (ord_Side native)) (toUnifiedBinanceOrderType (ord_Type native))
    (toUnifiedBinanceStatus (ord_Status native)) (ord_Price native) (ord_OriginalQuantity native)
    (ord_OriginalQuoteQuantity native) (ord_ExecutedQuantity native).

(** The order that [UnifiedSpot.PlaceOrder] has the client make. *)
Definition nativeOrder (request : PlaceOrderRequest) : NewOrderRequest :=
  let order := MkNewOrder (binanceSymbol (order_Market request)) (toBinanceSide (Unified.Side request)) "" "" "" "" ""
    (Unified.ClientOrderID request) None None "" None "" NewOrderResponseResult "" "" None "" in
  if bool_decide (order_Type request = Unified.OrderTypeLimit) then
    let order := order <| Type_ := OrderTypeLimit |> <| Quantity := order_Quantity request |>
      <| Price := order_Price request |> <| TimeInForce := toBinanceTimeInForce (Unified.TimeInForce request) |> in
    let order := if unset (TimeInForce order) then order <| TimeInForce := TimeInForceGTC |> else order in
    if bool_decide (Unified.TimeInForce request = TimeInForcePostOnly)
    then order <| Type_ := OrderTypeLimitMaker |> <| TimeInForce := "" |> else order
  else if bool_decide (order_Type request = Unified.OrderTypeMarket) then
    let order := order <| Type_ := OrderTypeMarket |> in
    if bool_decide (Unified.Side request = Unified.SideBuy)
    then order <| QuoteOrderQuantity := QuoteAmount request |>
    else order <| Quantity := order_Quantity request |>
  else order.

#[export] Instance adapter : SpotAdapter := {
  exchange := ExchangeBinance;
  nativeMarket := binanceSymbol;
  supported _ := Ok tt;
  Account := unit;
  SpotAdapter.NativeOrder := NewOrderRequest;
  Reference := NativeOrder;
  nativeRequest _ := nativeOrder;
  validateNative := NewOrderRequest_validate;
  placed _ request native := Ok (fromBinanceOrder native (order_Market request));
  accepts _ request := clientOrderIDPattern (Unified.ClientOrderID request);
  unsetTimeInForce := Unified.TimeInForceGTC
}.

Section unified_spot.
Context {W : Type} (client : Client W).

Definition PlaceOrder : PlaceOrderRequest → io W Order :=
  SpotAdapter.PlaceOrder noAccount (clientPlaceOrder (sendNewOrder client)).

Definition binanceOrderIdentity (request : OrderRequest) : result error QueryOrderRequest :=
  OrderRequest_Validate request;;
  let native := MkQueryOrder (binanceSymbol (request_Market request)) None (request_ClientOrderID request) in
  if negb (unset (OrderID request)) then
    match ParseInt (OrderID request) with
    | Some orderID =>
        refuse (bool_decide (orderID ≤ 0)) "Binance order ID must be a positive integer";;
        Ok (MkQueryOrder (binanceSymbol (request_Market request)) (Some orderID) (request_ClientOrderID request))
    | None => Err (validationError "Binance order ID must be a positive integer")
    end
  else Ok native.

Definition OrderInfo (request : OrderRequest) : io W Order :=
  nativeRequest ← lift (binanceOrderIdentity request);
  native ← validated QueryOrderRequest_validate (sendQueryOrder client) nativeRequest;
  mret (fromBinanceOrder native (request_Market request)).

Definition CancelOrder (request : OrderRequest) : io W Order :=
  identity ← lift (binanceOrderIdentity request);
  native ← validated CancelOrderRequest_validate (sendCancelOrder client)
    (MkCancelOrder (query_Symbol identity) (query_OrderID identity) (query_OriginalClientOrderID identity) "" "");
  mret (fromBinanceOrder native (request_Market request)).

Definition OpenOrders (request : OpenOrdersRequest) : io W (list Order) :=
  lift (OpenOrdersRequest_Validate request);;
  let symbol := match open_Market request with Some market => binanceSymbol market | None => "" end in
  nativeOrders ← validated OpenOrdersRequest_validate (sendOpenOrders client) (MkOpenOrders symbol (AllMarkets request));
  mret ((λ native, fromBinanceOrder native (default (MkMarket "" "") (open_Market request))) <$> nativeOrders).
End unified_spot.

(** ** The laws *)

(** What a native order says, in the words of the unified contract. *)
Definition readback (order : NewOrderRequest) : OrderTerms :=
  MkTerms (Symbol order) (toUnifiedBinanceSide (Side order)) (toUnifiedBinanceOrderType (Type_ order))
    (if bool_decide (Type_ order = OrderTypeLimitMaker) then TimeInForcePostOnly
     else if bool_decide (TimeInForce order = TimeInForceIOC) then Unified.TimeInForceIOC
     else if bool_decide (TimeInForce order = TimeInForceFOK) then Unified.TimeInForceFOK
     else Unified.TimeInForceGTC)
    (Quantity order) (QuoteOrderQuantity order) (Price order) (ClientOrderID order).

Lemma binance_validateSymbol_market market : valid_market market → validateSymbol (binanceSymbol market) = Ok tt.
Proof. intros H. apply validateRequiredText_visible; by apply (visible_market "" market). Qed.

#[local] Ltac eval_native :=
  cbv beta iota zeta delta [nativeOrder toBinanceSide toBinanceTimeInForce set_field
    order_Market Unified.Side order_Type Unified.TimeInForce order_Quantity QuoteAmount order_Price
    Unified.ClientOrderID Symbol Side Type_ TimeInForce Quantity QuoteOrderQuantity Price ClientOrderID StrategyID
    StrategyType StopPrice TrailingDelta IcebergQuantity ResponseType SelfTradePreventionMode PegPriceType
    PegOffsetValue PegOffsetType]; eval_closed; cbv beta iota.

Lemma binance_validate_nativeOrder request :
  valid_order request →
  is_Ok (NewOrderRequest_validate (nativeOrder request)) = clientOrderIDPattern (Unified.ClientOrderID request).
Proof.
  revert request. apply valid_order_cases; intros; order_kinds.
  all: pose proof (binance_validateSymbol_market market H) as Hsymbol; order_facts; eval_native.
  all: unfold NewOrderRequest_validate, validateAmounts; eval_native; eval_guards.
  all: by destruct (clientOrderIDPattern id).
Qed.

#[export] Instance laws : SpotAdapterLaws.
Proof.
  split.
  - intros [] request. apply binance_validate_nativeOrder.
  - unfold validateNative; simpl. intros order. change (validates (NewOrderRequest_validate order)).
    unfold NewOrderRequest_validate, validateSymbol. solve_validates.
  - done.
  - intros [] r1 r2. apply (@terms_iff adapter readback).
    + read_orders; by vm_compute.
    + same_market nativeOrder.
    + done.
  - by intros * [= <-].
Qed.
End Binance.
