(* ===== verification/OKXSpot.v ===== *)
(** * OKX Spot orders: [exchange/okx/requests.go] and [exchange/okx/unified.go] *)

From S2P Require Import Prelude GoStrings Decimals Errors Unified SpotAdapter Pages ClientErrors.

Module OKX.
Definition InstrumentTypeSpot : string := "SPOT".
Definition InstrumentTypeSwap : string := "SWAP".
Definition SideBuy : string := "buy".
Definition SideSell : string := "sell".
Definition TradeModeCash : string := "cash".
Definition OrderTypeMarket : string := "market".
Definition OrderTypeLimit : string := "limit".
Definition OrderTypePostOnly : string := "post_only".
Definition OrderTypeFOK : string := "fok".
Definition OrderTypeIOC : string := "ioc".
Definition TargetCurrencyBase : string := "base_ccy".
Definition TargetCurrencyQuote : string := "quote_ccy".

(** ** Native requests *)

Record NativePlaceOrder : Type := MkPlaceOrder {
  InstrumentType : string;
  InstrumentID : string;
  TradeMode : string;
  ClientOrderID : string;
  Side : string;
  PositionSide : string;
  OrderType : string;
  Quantity : string;
  Price : string;
  ReduceOnly : bool;
  TargetCurrency : string
}.
#[export] Instance NativePlaceOrder_settable : Settable NativePlaceOrder := λ r,
  MkPlaceOrder (InstrumentType r) (InstrumentID r) (TradeMode r) (ClientOrderID r) (Side r) (PositionSide r)
    (OrderType r) (Quantity r) (Price r) (ReduceOnly r) (TargetCurrency r).

(** [CancelOrderRequest] and [OrderInfoRequest] have the same fields and validation. *)
Record OrderIdentity : Type := MkIdentity {
  id_InstrumentID : string;
  id_OrderID : string;
  id_ClientOrderID : string
}.

Record NativeOpenOrders : Type := MkOpenOrders {
  open_InstrumentType : string;
  open_InstrumentID : string;
  open_OrderType : string;
  AfterOrderID : string;
  BeforeOrderID : string;
  Limit : Z
}.
#[export] Instance NativeOpenOrders_settable : Settable NativeOpenOrders := λ r,
  MkOpenOrders (open_InstrumentType r) (open_InstrumentID r) (open_OrderType r) (AfterOrderID r) (BeforeOrderID r)
    (Limit r).

(** [clientOrderIDPattern]: [^[0-9A-Za-z]{1,32}$]. *)
Definition clientOrderIDPattern : string → bool := matches is_alphanumeric 1 32.

Definition validateInstrumentType (instrumentType : string) : result error unit :=
  refuse (negb (bool_decide (instrumentType = InstrumentTypeSpot)) &&
          negb (bool_decide (instrumentType = InstrumentTypeSwap))) "instrument type must be SPOT or SWAP".

Definition OrderType_valid (orderType : string) : bool :=
  bool_decide (orderType ∈ [OrderTypeMarket; OrderTypeLimit; OrderTypePostOnly; OrderTypeFOK; OrderTypeIOC;
    "optimal_limit_ioc"]).
Definition requiresPrice (orderType : string) : bool :=
  bool_decide (orderType ∈ [OrderTypeLimit; OrderTypePostOnly; OrderTypeFOK; OrderTypeIOC]).
Definition PositionSide_valid (positionSide : string) : bool := bool_decide (positionSide ∈ ["net"; "long"; "short"]).

(** [PlaceOrderRequest.validate]. *)
Definition PlaceOrderRequest_validate (request : NativePlaceOrder) : result error unit :=
  let spot := bool_decide (InstrumentType request = InstrumentTypeSpot) in
  validateInstrumentType (InstrumentType request);;
  validateRequiredText "instId" (InstrumentID request);;
  refuse (negb (bool_decide (Side request = SideBuy)) && negb (bool_decide (Side request = SideSell)))
    "side must be buy or sell";;
  refuse (negb (OrderType_valid (OrderType request))) "unsupported order type %q";;
  validatePositiveDecimal "sz" (Quantity request);;
  (if requiresPrice (OrderType request) then validatePositiveDecimal "px" (Price request)
   else refuse (negb (unset (Price request))) "order type %q does not accept price");;
  refuse (negb (unset (ClientOrderID request)) && negb (clientOrderIDPattern (ClientOrderID request)))
    "clOrdId has an invalid format";;
  (if spot then
     refuse (negb (bool_decide (TradeMode request = TradeModeCash))) "Spot order trade mode must be cash";;
     refuse (negb (unset (PositionSide request)) || ReduceOnly request)
       "Spot order does not accept posSide or reduceOnly"
   else
     refuse (negb (bool_decide (TradeMode request = "cross")) && negb (bool_decide (TradeMode request = "isolated")))
       "SWAP order trade mode must be cross or isolated";;
     refuse (negb (unset (PositionSide request)) && negb (PositionSide_valid (PositionSide request)))
       "unsupported position side %q");;
  refuse (negb (unset (TargetCurrency request)) && negb (bool_decide (TargetCurrency request = TargetCurrencyBase)) &&
          negb (bool_decide (TargetCurrency request = TargetCurrencyQuote)))
    "target currency must be base_ccy or quote_ccy";;
  refuse (negb (unset (TargetCurrency request)) &&
          (negb spot || negb (bool_decide (OrderType request = OrderTypeMarket))))
    "target currency is available only for Spot market orders".

Definition validateOrderIdentity (orderID clientOrderID : string) : result error unit :=
  validateOptionalText "ordId" orderID;;
  validateOptionalText "clOrdId" clientOrderID;;
  refuse (unset orderID && unset clientOrderID) "ordId or clOrdId is required";;
  refuse (negb (unset clientOrderID) && negb (clientOrderIDPattern clientOrderID)) "clOrdId has an invalid format".

Definition OrderIdentity_validate (request : OrderIdentity) : result error unit :=
  validateRequiredText "instId" (id_InstrumentID request);;
  validateOrderIdentity (id_OrderID request) (id_ClientOrderID request).

Definition validateOrderPage (after before : string) (limit : Z) : result error unit :=
  validateOptionalText "after" after;;
  validateOptionalText "before" before;;
  refuse (bool_decide (limit < 0) || bool_decide (100 < limit))
    "order page limit must be between 1 and 100 or zero for default".

Definition OpenOrdersRequest_validate (request : NativeOpenOrders) : result error unit :=
  validateInstrumentType (open_InstrumentType request);;
  validateOptionalText "instId" (open_InstrumentID request);;
  refuse (negb (unset (open_OrderType request)) && negb (OrderType_valid (open_OrderType request)))
    "unsupported order type %q";;
  validateOrderPage (AfterOrderID request) (BeforeOrderID request) (Limit request).

(** ** The client *)

Record NativeOrder : Type := MkOrder {
  ord_InstrumentID : string;
  ord_OrderID : string;
  ord_ClientOrderID : string;
  ord_Price : string;
  ord_Quantity : string;
  ord_OrderType : string;
  ord_Side : string;
  ord_ExecutedQuantity : string;
  ord_State : string;
  ord_TargetCurrency : string
}.

Record OrderReference : Type := MkReference { ref_OrderID : string; ref_ClientOrderID : string }.

Record Client (W : Type) : Type := MkClient {
  sendPlaceOrder : NativePlaceOrder → io W OrderReference;
  sendOrderInfo : OrderIdentity → io W NativeOrder;
  sendCancelOrder : OrderIdentity → io W OrderReference;
  sendOpenOrders : NativeOpenOrders → io W (list NativeOrder)
}.
Arguments sendPlaceOrder {W}.
Arguments sendOrderInfo {W}.
Arguments sendCancelOrder {W}.
Arguments sendOpenOrders {W}.

(** ** The adapter *)

Definition okxSpotInstrumentID (market : Market) : string := Base market +:+ "-" +:+ Quote market.

Definition fromOKXSpotInstrumentID (value : string) : result error Market :=
  match Split (Ascii.ascii_of_N 45) value with
  | [base; quote] =>
      let market := MkMarket base quote in
      match Market_Validate market with
      | Ok _ => Ok market
      | Err err => Err (Wrapf "invalid OKX Spot instrument ID %q: %w" err)
      end
  | _ => Err (Errorf "invalid OKX Spot instrument ID %q")
  end.

Definition toOKXSide (side : string) : string := if bool_decide (side = Unified.SideBuy) then SideBuy else SideSell.
Definition toUnifiedOKXSide (side : string) : string :=
  if bool_decide (side = SideBuy) then Unified.SideBuy else Unified.SideSell.

Definition toOKXLimitOrderType (value : string) : string :=
  if bool_decide (value = TimeInForceIOC) then OrderTypeIOC
  else if bool_decide (value = TimeInForceFOK) then OrderTypeFOK
  else if bool_decide (value = TimeInForcePostOnly) then OrderTypePostOnly
  else OrderTypeLimit.

Definition toUnifiedOKXOrderType (orderType : string) : string :=
  if bool_decide (orderType = OrderTypeMarket) then Unified.OrderTypeMarket else Unified.OrderTypeLimit.

Definition toUnifiedOKXStatus (status : string) : string :=
  if bool_decide (status = "live") then OrderStatusNew
  else if bool_decide (status = "partially_filled") then OrderStatusPartiallyFilled
  else if bool_decide (status = "filled") then OrderStatusFilled
  else if bool_decide (status ∈ ["canceled"; "mmp_canceled"]) then OrderStatusCanceled
  else OrderStatusUnknown.

Definition fromOKXOrder (native : NativeOrder) (market : Market) : Order :=
  let '(quantity, quoteAmount) :=
    if bool_decide (ord_OrderType native = OrderTypeMarket) && bool_decide (ord_Side native = SideBuy) &&
       negb (bool_decide (ord_TargetCurrency native = TargetCurrencyBase))
    then ("", ord_Quantity native) else (ord_Quantity native, "") in
  Unified.MkOrder ExchangeOKX (ord_OrderID native) (ord_ClientOrderID native) market (ord_InstrumentID native)
    (toUnifiedOKXSide (ord_Side native)) (toUnifiedOKXOrderType (ord_OrderType native))
    (toUnifiedOKXStatus (ord_State native)) (ord_Price native) quantity quoteAmount (ord_ExecutedQuantity native).

(** The order that [UnifiedSpot.PlaceOrder] has the client make, and what it returns. *)
Definition nativeOrder (request : PlaceOrderRequest) : NativePlaceOrder :=
  let order := MkPlaceOrder InstrumentTypeSpot (okxSpotInstrumentID (order_Market request)) TradeModeCash
    (Unified.ClientOrderID request) (toOKXSide (Unified.Side request)) "" "" "" "" false "" in
  if bool_decide (order_Type request = Unified.OrderTypeLimit) then
    order <| OrderType := toOKXLimitOrderType (TimeInForce request) |> <| Quantity := order_Quantity request |>
      <| Price := order_Price request |>
  else
    let order := order <| OrderType := OrderTypeMarket |> in
    if bool_decide (Unified.Side request = Unified.SideBuy)
    then order <| Quantity := QuoteAmount request |> <| TargetCurrency := TargetCurrencyQuote |>
    else order <| Quantity := order_Quantity request |> <| TargetCurrency := TargetCurrencyBase |>.

Definition placedOrder (request : PlaceOrderRequest) (reference : OrderReference) : Order :=
  Unified.MkOrder ExchangeOKX (ref_OrderID reference) (ref_ClientOrderID reference) (order_Market request)
    (okxSpotInstrumentID (order_Market request)) (Unified.Side request) (order_Type request) OrderStatusAcknowledged
    (order_Price request) (order_Quantity request) (QuoteAmount request) "".

#[export] Instance adapter : SpotAdapter := {
  exchange := ExchangeOKX;
  nativeMarket := okxSpotInstrumentID;
  supported _ := Ok tt;
  Account := unit;
  SpotAdapter.NativeOrder := NativePlaceOrder;
  Reference := OrderReference;
  nativeRequest _ := nativeOrder;
  validateNative := PlaceOrderRequest_validate;
  placed _ request reference := Ok (placedOrder request reference);
  accepts _ request := clientOrderIDPattern (Unified.ClientOrderID request);
  unsetTimeInForce := Unified.TimeInForceGTC
}.

Section unified_spot.
Context {W : Type} (client : Client W).

Definition PlaceOrder : PlaceOrderRequest → io W Order :=
  SpotAdapter.PlaceOrder noAccount (clientPlaceOrder (sendPlaceOrder client)).

Definition OrderInfo (request : OrderRequest) : io W Order :=
  lift (OrderRequest_Validate request);;
  native ← validated OrderIdentity_validate (sendOrderInfo client)
    (MkIdentity (okxSpotInstrumentID (request_Market request)) (OrderID request) (request_ClientOrderID request));
  mret (fromOKXOrder native (request_Market request)).

Definition CancelOrder (request : OrderRequest) : io W Order :=
  lift (OrderRequest_Validate request);;
  let nativeMarket := okxSpotInstrumentID (request_Market request) in
  reference ← validated OrderIdentity_validate (sendCancelOrder client)
    (MkIdentity nativeMarket (OrderID request) (request_ClientOrderID request));
  mret (Unified.MkOrder ExchangeOKX (ref_OrderID reference) (ref_ClientOrderID reference) (request_Market request)
    nativeMarket "" "" OrderStatusCancelPending "" "" "" "").

(** The pages of the open orders: the request of [OpenOrders] at a cursor, and what
    becomes of a page. *)
Definition openOrdersRequest (request : OpenOrdersRequest) (cursor : string) : NativeOpenOrders :=
  MkOpenOrders InstrumentTypeSpot
    (match open_Market request with Some market => okxSpotInstrumentID market | None => "" end) "" cursor "" 100.

Definition fetchPage (request : OpenOrdersRequest) (cursor : string) : io W (list NativeOrder) :=
  validated OpenOrdersRequest_validate (sendOpenOrders client) (openOrdersRequest request cursor).

Definition readOrder (request : OpenOrdersRequest) (native : NativeOrder) : result error Order :=
  market ← (if AllMarkets request then fromOKXSpotInstrumentID (ord_InstrumentID native)
            else Ok (default (MkMarket "" "") (open_Market request)));
  Ok (fromOKXOrder native market).

Definition nextPage : list NativeOrder → result error (option string) :=
  cursor_after ord_OrderID 100 (Errorf "OKX open orders cursor is empty").

Definition OpenOrders (fuel : nat) (request : OpenOrdersRequest) (w : W) : option (result error (list Order) * W) :=
  match OpenOrdersRequest_Validate request with
  | Err err => Some (Err err, w)
  | Ok _ =>
      collect (fetchPage request) (mapM (readOrder request)) nextPage
        (Errorf "OKX open orders returned a repeated cursor") fuel ∅ "" [] w
  end.
End unified_spot.

(** ** The laws *)

Definition readback (order : NativePlaceOrder) : OrderTerms :=
  let market := bool_decide (OrderType order = OrderTypeMarket) in
  let quote := market && bool_decide (TargetCurrency order = TargetCurrencyQuote) in
  MkTerms (InstrumentID order) (toUnifiedOKXSide (Side order)) (toUnifiedOKXOrderType (OrderType order))
    (if bool_decide (OrderType order = OrderTypePostOnly) then TimeInForcePostOnly
     else if bool_decide (OrderType order = OrderTypeIOC) then TimeInForceIOC
     else if bool_decide (OrderType order = OrderTypeFOK) then TimeInForceFOK
     else TimeInForceGTC)
    (if quote then "" else Quantity order) (if quote then Quantity order else "") (Price order) (ClientOrderID order).

Lemma okx_instrumentID_valid name market :
  valid_market market → validateRequiredText name (okxSpotInstrumentID market) = Ok tt.
Proof. intros H. apply validateRequiredText_visible; by apply (visible_market "-" market). Qed.

#[local] Ltac eval_native :=
  cbv beta iota zeta delta [nativeOrder toOKXSide toOKXLimitOrderType set_field order_Market Unified.Side order_Type
    Unified.TimeInForce order_Quantity QuoteAmount order_Price Unified.ClientOrderID InstrumentType InstrumentID
    TradeMode ClientOrderID Side PositionSide OrderType Quantity Price ReduceOnly TargetCurrency]; eval_closed;
  cbv beta iota.

Lemma okx_validate_nativeOrder request :
  valid_order request →
  is_Ok (PlaceOrderRequest_validate (nativeOrder request)) = clientOrderIDPattern (Unified.ClientOrderID request).
Proof.
  revert request. apply valid_order_cases; intros; order_kinds.
  all: pose proof (okx_instrumentID_valid "instId" market H) as Hmarket; order_facts; eval_native.
  all: unfold PlaceOrderRequest_validate, validateInstrumentType, OrderType_valid, requiresPrice; eval_native; eval_guards.
  all: by destruct (clientOrderIDPattern id).
Qed.

#[export] Instance laws : SpotAdapterLaws.
Proof.
  split.
  - intros [] request. apply okx_validate_nativeOrder.
  - unfold validateNative; simpl. intros order. change (validates (PlaceOrderRequest_validate order)).
    unfold PlaceOrderRequest_validate, validateInstrumentType. solve_validates.
  - done.
  - intros [] r1 r2. apply (@terms_iff adapter readback).
    + read_orders; by vm_compute.
    + same_market nativeOrder.
    + done.
  - by intros * [= <-].
Qed.

(** ** Open orders *)

Lemma fromOKXSpotInstrumentID_spec market :
  valid_market market → fromOKXSpotInstrumentID (okxSpotInstrumentID market) = Ok market.
Proof.
  intros H. unfold fromOKXSpotInstrumentID, okxSpotInstrumentID.
  assert (Split (Ascii.ascii_of_N 45) (Base market +:+ "-" +:+ Quote market) = [Base market; Quote market]) as ->
    by exact (Split_joined (Ascii.ascii_of_N 45) market eq_refl H).
  destruct market as [base quote]. apply (Market_Validate_Ok _ tt) in H. cbn [Base Quote]. cbv zeta. by rewrite H.
Qed.

Lemma okx_openOrdersRequest_valid request cursor :
  OpenOrdersRequest_Validate request = Ok tt → cursor = "" ∨ cursor ≠ "" ∧ TrimSpace cursor = cursor →
  OpenOrdersRequest_validate (openOrdersRequest request cursor) = Ok tt.
Proof.
  intros Hv Hc. unfold OpenOrdersRequest_validate, openOrdersRequest. simpl.
  assert (validateOptionalText "instId" (match open_Market request with
    | Some market => okxSpotInstrumentID market | None => "" end) = Ok tt) as ->.
  { unfold OpenOrdersRequest_Validate in Hv. destruct (open_Market request) as [market|]; [|done].
    destruct (AllMarkets request); [done|]. apply Market_Validate_Ok in Hv.
    unfold validateOptionalText. case_bool_decide; [done|]. by apply okx_instrumentID_valid. }
  simpl. unfold validateOrderPage. simpl. by rewrite validateOptionalText_trimmed.
Qed.

(** What an exchange with the open orders [book] of each instrument type has for a
    request: the orders of the type, of the instrument and of the order type that
    it names. *)
Definition requested (book : string → list NativeOrder) (native : NativeOpenOrders) : list NativeOrder :=
  filter (λ order, (open_InstrumentID native = "" ∨ ord_InstrumentID order = open_InstrumentID native) ∧
                   (open_OrderType native = "" ∨ ord_OrderType order = open_OrderType native))
    (book (open_InstrumentType native)).

(** Its answer: the orders after the one that the request names, as many as its
    limit says. *)
Definition servesOpenOrders {W} (client : Client W) (book : string → list NativeOrder) : Prop :=
  ∀ native w, BeforeOrderID native = "" →
    sendOpenOrders client native w =
    (Ok (page_after ord_OrderID (Z.to_nat (Limit native)) (AfterOrderID native) (requested book native)), w).

(** The open Spot orders of the market that a unified request names, or of all
    markets. *)
Definition openOrdersOf (book : string → list NativeOrder) (request : OpenOrdersRequest) : list NativeOrder :=
  match open_Market request with
  | Some market => filter (λ order, ord_InstrumentID order = okxSpotInstrumentID market) (book InstrumentTypeSpot)
  | None => book InstrumentTypeSpot
  end.

Lemma requested_openOrders book request cursor :
  requested book (openOrdersRequest request cursor) = openOrdersOf book request.
Proof.
  unfold requested, openOrdersOf, openOrdersRequest. simpl. destruct (open_Market request) as [market|].
  - apply list_filter_iff. intros order. split; [|by auto]. intros [[Hempty|?] _]; [|done].
    unfold okxSpotInstrumentID in Hempty. exfalso. by destruct (Base market).
  - generalize (book InstrumentTypeSpot) as orders. induction orders as [|order orders IH]; [done|].
    rewrite filter_cons, IH. by rewrite decide_True by auto.
Qed.

(** Every open order comes out once and in its place, however many pages they take. *)
Lemma okx_OpenOrders_complete {W} (client : Client W) request book orders w :
  OpenOrdersRequest_Validate request = Ok tt →
  NoDup (ord_OrderID <$> book) →
  Forall (λ native, ord_OrderID native ≠ "" ∧ TrimSpace (ord_OrderID native) = ord_OrderID native) book →
  (∀ cursor w, sendOpenOrders client (openOrdersRequest request cursor) w =
     (Ok (page_after ord_OrderID 100 cursor book), w)) →
  mapM (readOrder request) book = Ok orders →
  ∃ fuel, OpenOrders client fuel request w = Some (Ok orders, w).
Proof.
  intros Hv Hd Hids Hserver Hread. unfold OpenOrders. rewrite Hv.
  pose proof (mapM_subset _ _ _ book noOrder Hread (reflexivity book)) as Hbook. rewrite Hread in Hbook.
  injection Hbook as ->.
  apply collect_book; [lia|done| | |intros page Hpage; by eapply mapM_subset].
  - eapply Forall_impl; [exact Hids|]. by intros ? [].
  - intros cursor w' Hcursor. unfold fetchPage, validated. cbn [mbind]. unfold io_bind, lift.
    rewrite okx_openOrdersRequest_valid; [apply Hserver|done|].
    destruct Hcursor as [->|(native & -> & Hin)%list_elem_of_fmap]; [by left|right].
    rewrite Forall_forall in Hids. by apply Hids.
Qed.
End OKX.
