(* ===== verification/BybitSpot.v ===== *)
(** * Bybit Spot orders: [exchange/bybit/requests.go] and [exchange/bybit/unified.go] *)

From S2P Require Import Prelude GoStrings Decimals Errors Unified SpotAdapter Pages ClientErrors.

Module Bybit.
Definition CategorySpot : string := "spot".
Definition CategoryLinear : string := "linear".
Definition SideBuy : string := "Buy".
Definition SideSell : string := "Sell".
Definition OrderTypeMarket : string := "Market".
Definition OrderTypeLimit : string := "Limit".
Definition TimeInForceGTC : string := "GTC".
Definition TimeInForceIOC : string := "IOC".
Definition TimeInForceFOK : string := "FOK".
Definition TimeInForcePostOnly : string := "PostOnly".
Definition MarketUnitBaseCoin : string := "baseCoin".
Definition MarketUnitQuoteCoin : string := "quoteCoin".

(** ** Native requests *)

Record NativePlaceOrder : Type := MkPlaceOrder {
  Category : string;
  Symbol : string;
  Side : string;
  OrderType : string;
  Quantity : string;
  Price : string;
  TimeInForce : string;
  PositionIndex : Z;
  OrderLinkID : string;
  ReduceOnly : bool;
  CloseOnTrigger : bool;
  MarketUnit : string
}.
#[export] Instance NativePlaceOrder_settable : Settable NativePlaceOrder := λ r,
  MkPlaceOrder (Category r) (Symbol r) (Side r) (OrderType r) (Quantity r) (Price r) (TimeInForce r) (PositionIndex r)
    (OrderLinkID r) (ReduceOnly r) (CloseOnTrigger r) (MarketUnit r).

(** [CancelOrderRequest] and [OrderInfoRequest]. *)
Record OrderIdentity : Type := MkIdentity {
  id_Category : string;
  id_Symbol : string;
  id_OrderID : string;
  id_OrderLinkID : string
}.

Record NativeOpenOrders : Type := MkOpenOrders {
  open_Category : string;
  open_Symbol : string;
  BaseCoin : string;
  SettleCoin : string;
  Limit : Z;
  Cursor : string
}.

(** [orderLinkIDPattern]: [^[0-9A-Za-z_-]{1,36}$]. *)
Definition orderLinkIDPattern : string → bool := matches (λ c, is_alphanumeric c || in_cutset "_-" c) 1 36.

Definition validateCategory (category : string) : result error unit :=
  refuse (negb (bool_decide (category = CategorySpot)) && negb (bool_decide (category = CategoryLinear)))
    "category must be spot or linear".

Definition TimeInForce_valid (timeInForce : string) : bool :=
  bool_decide (timeInForce ∈ [TimeInForceGTC; TimeInForceIOC; TimeInForceFOK; TimeInForcePostOnly]).

(** [PlaceOrderRequest.validate]. *)
Definition PlaceOrderRequest_validate (request : NativePlaceOrder) : result error unit :=
  let spot := bool_decide (Category request = CategorySpot) in
  validateCategory (Category request);;
  validateRequiredText "symbol" (Symbol request);;
  refuse (negb (bool_decide (Side request = SideBuy)) && negb (bool_decide (Side request = SideSell)))
    "side must be Buy or Sell";;
  refuse (negb (bool_decide (OrderType request = OrderTypeLimit)) &&
          negb (bool_decide (OrderType request = OrderTypeMarket))) "order type must be Limit or Market";;
  validatePositiveDecimal "qty" (Quantity request);;
  (if bool_decide (OrderType request = OrderTypeLimit) then validatePositiveDecimal "price" (Price request)
   else refuse (negb (unset (Price request))) "market order does not accept price");;
  refuse (negb (unset (TimeInForce request)) && negb (TimeInForce_valid (TimeInForce request)))
    "unsupported time in force %q";;
  refuse (bool_decide (PositionIndex request < 0) || bool_decide (2 < PositionIndex request))
    "position index must be 0, 1, or 2";;
  refuse (negb (unset (OrderLinkID request)) && negb (orderLinkIDPattern (OrderLinkID request)))
    "orderLinkId has an invalid format";;
  refuse (spot && (negb (bool_decide (PositionIndex request = 0)) || ReduceOnly request || CloseOnTrigger request))
    "Spot order does not accept positionIdx, reduceOnly, or closeOnTrigger";;
  refuse (negb (unset (MarketUnit request)) && negb (bool_decide (MarketUnit request = MarketUnitBaseCoin)) &&
          negb (bool_decide (MarketUnit request = MarketUnitQuoteCoin))) "market unit must be baseCoin or quoteCoin";;
  refuse (negb (unset (MarketUnit request)) &&
          (negb spot || negb (bool_decide (OrderType request = OrderTypeMarket))))
    "market unit is available only for Spot market orders".

Definition validateOrderIdentity (orderID orderLinkID : string) : result error unit :=
  validateOptionalText "orderId" orderID;;
  validateOptionalText "orderLinkId" orderLinkID;;
  refuse (unset orderID && unset orderLinkID) "orderId or orderLinkId is required";;
  refuse (negb (unset orderLinkID) && negb (orderLinkIDPattern orderLinkID)) "orderLinkId has an invalid format".

Definition CancelOrderRequest_validate (request : OrderIdentity) : result error unit :=
  validateCategory (id_Category request);;
  validateRequiredText "symbol" (id_Symbol request);;
  validateOrderIdentity (id_OrderID request) (id_OrderLinkID request).

Definition OrderInfoRequest_validate (request : OrderIdentity) : result error unit :=
  validateCategory (id_Category request);;
  validateOptionalText "symbol" (id_Symbol request);;
  validateOrderIdentity (id_OrderID request) (id_OrderLinkID request).

Definition validateOrderFilters (symbol baseCoin settleCoin : string) : result error unit :=
  validateOptionalText "symbol" symbol;;
  validateOptionalText "baseCoin" baseCoin;;
  validateOptionalText "settleCoin" settleCoin.

Definition validatePage (limit maximum : Z) (cursor : string) : result error unit :=
  refuse (bool_decide (limit < 0) || bool_decide (maximum < limit))
    "page limit must be between 1 and %d or zero for default";;
  validateOptionalText "cursor" cursor.

Definition OpenOrdersRequest_validate (request : NativeOpenOrders) : result error unit :=
  validateCategory (open_Category request);;
  validateOrderFilters (open_Symbol request) (BaseCoin request) (SettleCoin request);;
  refuse (bool_decide (open_Category request = CategorySpot) &&
          (negb (unset (BaseCoin request)) || negb (unset (SettleCoin request))))
    "Spot open orders support only symbol filter";;
  refuse (bool_decide (open_Category request = CategoryLinear) && unset (open_Symbol request) &&
          unset (BaseCoin request) && unset (SettleCoin request))
    "linear open orders require symbol, baseCoin, or settleCoin";;
  validatePage (Limit request) 50 (Cursor request).

(** ** The client *)

Record NativeOrder : Type := MkOrder {
  ord_OrderID : string;
  ord_OrderLinkID : string;
  ord_Symbol : string;
  ord_Side : string;
  ord_OrderType : string;
  ord_Price : string;
  ord_Quantity : string;
  ord_OrderStatus : string;
  ord_CumulativeExecutedQuantity : string
}.

Record OrderReference : Type := MkReference { ref_OrderID : string; ref_OrderLinkID : string }.
Record OrderPage : Type := MkPage { Orders : list NativeOrder; NextPageCursor : string }.

Record Client (W : Type) : Type := MkClient {
  sendPlaceOrder : NativePlaceOrder → io W OrderReference;
  sendOrderInfo : OrderIdentity → io W NativeOrder;
  sendCancelOrder : OrderIdentity → io W OrderReference;
  sendOpenOrders : NativeOpenOrders → io W OrderPage
}.
Arguments sendPlaceOrder {W}.
Arguments sendOrderInfo {W}.
Arguments sendCancelOrder {W}.
Arguments sendOpenOrders {W}.

(** ** The adapter *)

Definition bybitSpotSymbol (market : Market) : string := Base market +:+ Quote market.

Definition toBybitSide (side : string) : string := if bool_decide (side = Unified.SideBuy) then SideBuy else SideSell.
Definition toUnifiedBybitSide (side : string) : string :=
  if bool_decide (side = SideBuy) then Unified.SideBuy else Unified.SideSell.
Definition toBybitOrderType (orderType : string) : string :=
  if bool_decide (orderType = Unified.OrderTypeMarket) then OrderTypeMarket else OrderTypeLimit.
Definition toUnifiedBybitOrderType (orderType : string) : string :=
  if bool_decide (orderType = OrderTypeMarket) then Unified.OrderTypeMarket else Unified.OrderTypeLimit.

Definition toBybitTimeInForce (value : string) : string :=
  if bool_decide (value = Unified.TimeInForceGTC) then TimeInForceGTC
  else if bool_decide (value = Unified.TimeInForceIOC) then TimeInForceIOC
  else if bool_decide (value = Unified.TimeInForceFOK) then TimeInForceFOK
  else if bool_decide (value = Unified.TimeInForcePostOnly) then TimeInForcePostOnly
  else "".

Definition toUnifiedBybitStatus (status : string) : string :=
  if bool_decide (status ∈ ["New"; "Untriggered"; "Triggered"; "Created"]) then OrderStatusNew
  else if bool_decide (status = "PartiallyFilled") then OrderStatusPartiallyFilled
  else if bool_decide (status = "Filled") then OrderStatusFilled
  else if bool_decide (status ∈ ["Cancelled"; "PartiallyFilledCanceled"; "Deactivated"]) then OrderStatusCanceled
  else if bool_decide (status = "Rejected") then OrderStatusRejected
  else OrderStatusUnknown.

Definition fromBybitOrder (native : NativeOrder) (market : Market) : Order :=
  let '(quantity, quoteAmount) :=
    if bool_decide (ord_OrderType native = OrderTypeMarket) && bool_decide (ord_Side native = SideBuy)
    then ("", ord_Quantity native) else (ord_Quantity native, "") in
  Unified.MkOrder ExchangeBybit (ord_OrderID native) (ord_OrderLinkID native) market (ord_Symbol native)
    (toUnifiedBybitSide (ord_Side native)) (toUnifiedBybitOrderType (ord_OrderType native))
    (toUnifiedBybitStatus (ord_OrderStatus native)) (ord_Price native) quantity quoteAmount
    (ord_CumulativeExecutedQuantity native).

(** The order that [UnifiedSpot.PlaceOrder] has the client make, and what it returns. *)
Definition nativeOrder (request : PlaceOrderRequest) : NativePlaceOrder :=
  let order := MkPlaceOrder CategorySpot (bybitSpotSymbol (order_Market request)) (toBybitSide (Unified.Side request))
    (toBybitOrderType (order_Type request)) "" "" "" 0 (ClientOrderID request) false false "" in
  if bool_decide (order_Type request = Unified.OrderTypeLimit) then
    let order := order <| Quantity := order_Quantity request |> <| Price := order_Price request |>
      <| TimeInForce := toBybitTimeInForce (Unified.TimeInForce request) |> in
    if unset (TimeInForce order) then order <| TimeInForce := TimeInForceGTC |> else order
  else if bool_decide (Unified.Side request = Unified.SideBuy) then
    order <| Quantity := QuoteAmount request |> <| MarketUnit := MarketUnitQuoteCoin |>
  else order <| Quantity := order_Quantity request |> <| MarketUnit := MarketUnitBaseCoin |>.

Definition placedOrder (request : PlaceOrderRequest) (reference : OrderReference) : Order :=
  Unified.MkOrder ExchangeBybit (ref_OrderID reference) (ref_OrderLinkID reference) (order_Market request)
    (bybitSpotSymbol (order_Market request)) (Unified.Side request) (order_Type request) OrderStatusAcknowledged
    (order_Price request) (order_Quantity request) (QuoteAmount request) "".

#[export] Instance adapter : SpotAdapter := {
  exchange := ExchangeBybit;
  nativeMarket := bybitSpotSymbol;
  supported _ := Ok tt;
  Account := unit;
  SpotAdapter.NativeOrder := NativePlaceOrder;
  Reference := OrderReference;
  nativeRequest _ := nativeOrder;
  validateNative := PlaceOrderRequest_validate;
  placed _ request reference := Ok (placedOrder request reference);
  accepts _ request := orderLinkIDPattern (ClientOrderID request);
  unsetTimeInForce := Unified.TimeInForceGTC
}.

Section unified_spot.
Context {W : Type} (client : Client W).

Definition PlaceOrder : PlaceOrderRequest → io W Order :=
  SpotAdapter.PlaceOrder noAccount (clientPlaceOrder (sendPlaceOrder client)).

Definition identity (request : OrderRequest) : OrderIdentity :=
  MkIdentity CategorySpot (bybitSpotSymbol (request_Market request)) (OrderID request) (request_ClientOrderID request).

Definition OrderInfo (request : OrderRequest) : io W Order :=
  lift (OrderRequest_Validate request);;
  native ← validated OrderInfoRequest_validate (sendOrderInfo client) (identity request);
  mret (fromBybitOrder native (request_Market request)).

Definition CancelOrder (request : OrderRequest) : io W Order :=
  lift (OrderRequest_Validate request);;
  reference ← validated CancelOrderRequest_validate (sendCancelOrder client) (identity request);
  mret (Unified.MkOrder ExchangeBybit (ref_OrderID reference) (ref_OrderLinkID reference) (request_Market request)
    (bybitSpotSymbol (request_Market request)) "" "" OrderStatusCancelPending "" "" "" "").

(** The pages of the open orders. *)
Definition openOrdersRequest (request : OpenOrdersRequest) (cursor : string) : NativeOpenOrders :=
  MkOpenOrders CategorySpot
    (match open_Market request with Some market => bybitSpotSymbol market | None => "" end) "" "" 50 cursor.

Definition fetchPage (request : OpenOrdersRequest) (cursor : string) : io W OrderPage :=
  validated OpenOrdersRequest_validate (sendOpenOrders client) (openOrdersRequest request cursor).

Definition readPage (request : OpenOrdersRequest) (page : OrderPage) : result error (list Order) :=
  Ok ((λ native, fromBybitOrder native (default (MkMarket "" "") (open_Market request))) <$> Orders page).

Definition nextPage (page : OrderPage) : result error (option string) :=
  Ok (if unset (NextPageCursor page) then None else Some (NextPageCursor page)).

Definition OpenOrders (fuel : nat) (request : OpenOrdersRequest) (w : W) : option (result error (list Order) * W) :=
  match OpenOrdersRequest_Validate request with
  | Err err => Some (Err err, w)
  | Ok _ =>
      collect (fetchPage request) (readPage request) nextPage
        (Errorf "Bybit open orders returned a repeated cursor") fuel ∅ "" [] w
  end.
End unified_spot.

(** ** The laws *)

Definition readback (order : NativePlaceOrder) : OrderTerms :=
  let quote := bool_decide (MarketUnit order = MarketUnitQuoteCoin) in
  MkTerms (Symbol order) (toUnifiedBybitSide (Side order)) (toUnifiedBybitOrderType (OrderType order))
    (if bool_decide (TimeInForce order = TimeInForcePostOnly) then Unified.TimeInForcePostOnly
     else if bool_decide (TimeInForce order = TimeInForceIOC) then Unified.TimeInForceIOC
     else if bool_decide (TimeInForce order = TimeInForceFOK) then Unified.TimeInForceFOK
     else Unified.TimeInForceGTC)
    (if quote then "" else Quantity order) (if quote then Quantity order else "") (Price order) (OrderLinkID order).

Lemma bybit_symbol_valid name market :
  valid_market market → validateRequiredText name (bybitSpotSymbol market) = Ok tt.
Proof. intros H. apply validateRequiredText_visible; by apply (visible_market "" market). Qed.

#[local] Ltac eval_native :=
  cbv beta iota zeta delta [nativeOrder toBybitSide toBybitOrderType toBybitTimeInForce set_field order_Market
    Unified.Side order_Type Unified.TimeInForce order_Quantity QuoteAmount order_Price ClientOrderID Category Symbol
    Side OrderType Quantity Price TimeInForce PositionIndex OrderLinkID ReduceOnly CloseOnTrigger MarketUnit];
  eval_closed; cbv beta iota.

Lemma bybit_validate_nativeOrder request :
  valid_order request →
  is_Ok (PlaceOrderRequest_validate (nativeOrder request)) = orderLinkIDPattern (ClientOrderID request).
Proof.
  revert request. apply valid_order_cases; intros; order_kinds.
  all: pose proof (bybit_symbol_valid "symbol" market H) as Hmarket; order_facts; eval_native.
  all: unfold PlaceOrderRequest_validate, validateCategory, TimeInForce_valid; eval_native; eval_guards.
  all: by destruct (orderLinkIDPattern id).
Qed.

#[export] Instance laws : SpotAdapterLaws.
Proof.
  split.
  - intros [] request. apply bybit_validate_nativeOrder.
  - unfold validateNative; simpl. intros order. change (validates (PlaceOrderRequest_validate order)).
    unfold PlaceOrderRequest_validate, validateCategory. solve_validates.
  - done.
  - intros [] r1 r2. apply (@terms_iff adapter readback).
    + read_orders; by vm_compute.
    + same_market nativeOrder.
    + done.
  - by intros * [= <-].
Qed.
End Bybit.
