(* ===== verification/BitgetSpot.v ===== *)
(** * Bitget Spot orders: [exchange/bitget/requests.go] and [exchange/bitget/unified.go] *)

From S2P Require Import Prelude GoStrings Decimals Errors Unified SpotAdapter ClientErrors.

Module Bitget.
Definition CategorySpot : string := "SPOT".
Definition CategoryUSDTFutures : string := "USDT-FUTURES".
Definition SideBuy : string := "buy".
Definition SideSell : string := "sell".
Definition OrderTypeLimit : string := "limit".
Definition OrderTypeMarket : string := "market".
Definition TimeInForceGTC : string := "gtc".
Definition TimeInForceIOC : string := "ioc".
Definition TimeInForceFOK : string := "fok".
Definition TimeInForcePostOnly : string := "post_only".

(** ** Native requests *)

Record NativePlaceOrder : Type := MkPlaceOrder {
  Category : string;
  Symbol : string;
  Quantity : string;
  Price : string;
  Side : string;
  OrderType : string;
  TimeInForce : string;
  PositionSide : string;
  ClientOrderID : string;
  ReduceOnly : string;
  SelfTradePrevention : string
}.

Record NativeCancelOrder : Type := MkCancelOrder {
  cancel_OrderID : string;
  cancel_ClientOrderID : string;
  cancel_Category : string
}.

Record NativeOrderInfo : Type := MkOrderInfo { info_OrderID : string; info_ClientOrderID : string }.

(** Times are in nanoseconds. *)
Record NativeOpenOrders : Type := MkOpenOrders {
  open_Category : string;
  AllCategories : bool;
  open_Symbol : string;
  StartTime : option Z;
  EndTime : option Z;
  Limit : Z;
  Cursor : string
}.

(** [clientOrderIDPattern]: [^[0-9A-Za-z_:#\-+ ]{1,32}$]. *)
Definition clientOrderIDPattern : string → bool := matches (λ c, is_alphanumeric c || in_cutset "_:#-+ " c) 1 32.

Definition validateCategory (category : string) : result error unit :=
  refuse (negb (bool_decide (category = CategorySpot)) && negb (bool_decide (category = CategoryUSDTFutures)))
    "category must be SPOT or USDT-FUTURES".

Definition validateSymbol (symbol : string) : result error unit := validateRequiredText "symbol" symbol.
Definition validateOptionalSymbol (symbol : string) : result error unit :=
  if unset symbol then Ok tt else validateSymbol symbol.

Definition TimeInForce_valid (timeInForce : string) : bool :=
  bool_decide (timeInForce ∈ [TimeInForceGTC; TimeInForceIOC; TimeInForceFOK; TimeInForcePostOnly; "rpi"]).
Definition PositionSide_valid (positionSide : string) : bool := bool_decide (positionSide ∈ ["long"; "short"]).
Definition validSTP (value : string) : bool :=
  bool_decide (value ∈ ["none"; "cancel_taker"; "cancel_maker"; "cancel_both"]).

(** [PlaceOrderRequest.validate]. *)
Definition PlaceOrderRequest_validate (request : NativePlaceOrder) : result error unit :=
  validateCategory (Category request);;
  validateSymbol (Symbol request);;
  refuse (negb (bool_decide (Side request = SideBuy)) && negb (bool_decide (Side request = SideSell)))
    "side must be buy or sell";;
  refuse (negb (bool_decide (OrderType request = OrderTypeLimit)) &&
          negb (bool_decide (OrderType request = OrderTypeMarket))) "orderType must be limit or market";;
  validatePositiveDecimal "qty" (Quantity request);;
  (if bool_decide (OrderType request = OrderTypeLimit) then validatePositiveDecimal "price" (Price request)
   else refuse (negb (unset (Price request))) "market order does not accept price");;
  refuse (negb (unset (TimeInForce request)) && negb (TimeInForce_valid (TimeInForce request)))
    "unsupported timeInForce %q";;
  refuse (bool_decide (OrderType request = OrderTypeMarket) && negb (unset (TimeInForce request)))
    "market order does not accept timeInForce";;
  refuse (negb (unset (ClientOrderID request)) && negb (clientOrderIDPattern (ClientOrderID request)))
    "clientOid has an invalid format";;
  refuse (negb (unset (PositionSide request)) && negb (PositionSide_valid (PositionSide request)))
    "posSide must be long or short";;
  refuse (bool_decide (Category request = CategorySpot) &&
          (negb (unset (PositionSide request)) || negb (unset (ReduceOnly request))))
    "Spot order does not accept posSide or reduceOnly";;
  refuse (negb (unset (ReduceOnly request)) && negb (bool_decide (ReduceOnly request = "yes")) &&
          negb (bool_decide (ReduceOnly request = "no"))) "reduceOnly must be yes or no";;
  refuse (negb (unset (SelfTradePrevention request)) && negb (validSTP (SelfTradePrevention request)))
    "unsupported stpMode %q".

Definition validateOrderIdentity (orderID clientOrderID : string) : result error unit :=
  refuse (unset (TrimSpace orderID) && unset (TrimSpace clientOrderID)) "orderId or clientOid is required";;
  refuse (negb (bool_decide (orderID = TrimSpace orderID)) || negb (bool_decide (clientOrderID = TrimSpace clientOrderID)))
    "order identity cannot have surrounding whitespace";;
  refuse (negb (unset clientOrderID) && negb (clientOrderIDPattern clientOrderID)) "clientOid has an invalid format".

Definition CancelOrderRequest_validate (request : NativeCancelOrder) : result error unit :=
  validateOrderIdentity (cancel_OrderID request) (cancel_ClientOrderID request);;
  if negb (unset (cancel_Category request)) then validateCategory (cancel_Category request) else Ok tt.

Definition OrderInfoRequest_validate (request : NativeOrderInfo) : result error unit :=
  validateOrderIdentity (info_OrderID request) (info_ClientOrderID request).

Definition validatePage (start end_ : option Z) (maximumRange limit : Z) (cursor : string) : result error unit :=
  refuse (bool_decide (limit < 0) || bool_decide (100 < limit))
    "page limit must be between 1 and 100 or zero for default";;
  refuse (negb (bool_decide (TrimSpace cursor = cursor))) "cursor cannot have surrounding whitespace";;
  match start, end_ with
  | Some start, Some end_ =>
      refuse (bool_decide (end_ < start)) "startTime cannot be after endTime";;
      refuse (bool_decide (maximumRange < end_ - start)) "query time range exceeds %s"
  | _, _ => Ok tt
  end.

Definition OpenOrdersRequest_validate (request : NativeOpenOrders) : result error unit :=
  refuse (AllCategories request && negb (unset (open_Category request)))
    "open orders cannot set category and AllCategories together";;
  (if negb (AllCategories request) then validateCategory (open_Category request) else Ok tt);;
  validateOptionalSymbol (open_Symbol request);;
  validatePage (StartTime request) (EndTime request) (90 * 24 * 60 * Minute) (Limit request) (Cursor request).

(** ** The client *)

Record NativeOrder : Type := MkOrder {
  ord_OrderID : string;
  ord_ClientOrderID : string;
  ord_Symbol : string;
  ord_OrderType : string;
  ord_Side : string;
  ord_Price : string;
  ord_Quantity : string;
  ord_Amount : string;
  ord_ExecutedQuantity : string;
  ord_Status : string
}.

Record OrderReference : Type := MkReference { ref_OrderID : string; ref_ClientOrderID : string }.
Record OrderPage : Type := MkPage { Orders : list NativeOrder; page_Cursor : string }.

Record Client (W : Type) : Type := MkClient {
  sendPlaceOrder : NativePlaceOrder → io W OrderReference;
  sendOrderInfo : NativeOrderInfo → io W NativeOrder;
  sendCancelOrder : NativeCancelOrder → io W OrderReference;
  sendOpenOrders : NativeOpenOrders → io W OrderPage
}.
Arguments sendPlaceOrder {W}.
Arguments sendOrderInfo {W}.
Arguments sendCancelOrder {W}.
Arguments sendOpenOrders {W}.

(** ** The adapter *)

Definition bitgetSymbol (market : Market) : string := Base market +:+ Quote market.

Definition toBitgetSide (side : string) : string := if bool_decide (side = Unified.SideBuy) then SideBuy else SideSell.
Definition toUnifiedBitgetSide (side : string) : string :=
  if bool_decide (side = SideBuy) then Unified.SideBuy else Unified.SideSell.
Definition toBitgetOrderType (orderType : string) : string :=
  if bool_decide (orderType = Unified.OrderTypeMarket) then OrderTypeMarket else OrderTypeLimit.
Definition toUnifiedBitgetOrderType (orderType : string) : string :=
  if bool_decide (orderType = OrderTypeMarket) then Unified.OrderTypeMarket else Unified.OrderTypeLimit.

Definition toBitgetTimeInForce (value : string) : string :=
  if bool_decide (value = Unified.TimeInForceIOC) then TimeInForceIOC
  else if bool_decide (value = Unified.TimeInForceFOK) then TimeInForceFOK
  else if bool_decide (value = Unified.TimeInForcePostOnly) then TimeInForcePostOnly
  else if bool_decide (value = Unified.TimeInForceGTC) then TimeInForceGTC
  else "".

Definition toUnifiedBitgetStatus (status : string) : string :=
  if bool_decide (status ∈ ["live"; "new"]) then OrderStatusNew
  else if bool_decide (status = "partially_filled") then OrderStatusPartiallyFilled
  else if bool_decide (status = "filled") then OrderStatusFilled
  else if bool_decide (status = "cancelled") then OrderStatusCanceled
  else OrderStatusUnknown.

Definition fromBitgetOrder (native : NativeOrder) (market : Market) : Order :=
  let '(quantity, quoteAmount) :=
    if bool_decide (ord_OrderType native = OrderTypeMarket) && bool_decide (ord_Side native = SideBuy)
    then ("", if unset (ord_Amount native) then ord_Quantity native else ord_Amount native)
    else (ord_Quantity native, "") in
  Unified.MkOrder ExchangeBitget (ord_OrderID native) (ord_ClientOrderID native) market (ord_Symbol native)
    (toUnifiedBitgetSide (ord_Side native)) (toUnifiedBitgetOrderType (ord_OrderType native))
    (toUnifiedBitgetStatus (ord_Status native)) (ord_Price native) quantity quoteAmount (ord_ExecutedQuantity native).

(** The order that [UnifiedSpot.PlaceOrder] has the client make, and what it returns:
    an order without its price. *)
Definition nativeOrder (request : PlaceOrderRequest) : NativePlaceOrder :=
  let quantity :=
    if bool_decide (order_Type request = Unified.OrderTypeMarket) &&
       bool_decide (Unified.Side request = Unified.SideBuy)
    then QuoteAmount request else order_Quantity request in
  MkPlaceOrder CategorySpot (bitgetSymbol (order_Market request)) quantity (order_Price request)
    (toBitgetSide (Unified.Side request)) (toBitgetOrderType (order_Type request))
    (toBitgetTimeInForce (Unified.TimeInForce request)) "" (Unified.ClientOrderID request) "" "".

Definition placedOrder (request : PlaceOrderRequest) (native : OrderReference) : Order :=
  Unified.MkOrder ExchangeBitget (ref_OrderID native) (ref_ClientOrderID native) (order_Market request)
    (bitgetSymbol (order_Market request)) (Unified.Side request) (order_Type request) OrderStatusAcknowledged
    "" (order_Quantity request) (QuoteAmount request) "".

#[export] Instance adapter : SpotAdapter := {
  exchange := ExchangeBitget;
  nativeMarket := bitgetSymbol;
  supported _ := Ok tt;
  Account := unit;
  SpotAdapter.NativeOrder := NativePlaceOrder;
  Reference := OrderReference;
  nativeRequest _ := nativeOrder;
  validateNative := PlaceOrderRequest_validate;
  placed _ request reference := Ok (placedOrder request reference);
  accepts _ request := clientOrderIDPattern (Unified.ClientOrderID request);
  unsetTimeInForce := ""
}.

Section unified_spot.
Context {W : Type} (client : Client W).

Definition PlaceOrder : PlaceOrderRequest → io W Order :=
  SpotAdapter.PlaceOrder noAccount (clientPlaceOrder (sendPlaceOrder client)).

Definition OrderInfo (request : OrderRequest) : io W Order :=
  lift (OrderRequest_Validate request);;
  native ← validated OrderInfoRequest_validate (sendOrderInfo client)
    (MkOrderInfo (OrderID request) (request_ClientOrderID request));
  mret (fromBitgetOrder native (request_Market request)).

Definition CancelOrder (request : OrderRequest) : io W Order :=
  lift (OrderRequest_Validate request);;
  native ← validated CancelOrderRequest_validate (sendCancelOrder client)
    (MkCancelOrder (OrderID request) (request_ClientOrderID request) CategorySpot);
  mret (Unified.MkOrder ExchangeBitget (ref_OrderID native) (ref_ClientOrderID native) (request_Market request)
    (bitgetSymbol (request_Market request)) "" "" OrderStatusCancelPending "" "" "" "").

(** One page: the cursor of the answer is not looked at. *)
Definition OpenOrders (request : OpenOrdersRequest) : io W (list Order) :=
  lift (OpenOrdersRequest_Validate request);;
  let symbol := match open_Market request with Some market => bitgetSymbol market | None => "" end in
  nativeOrders ← validated OpenOrdersRequest_validate (sendOpenOrders client)
    (MkOpenOrders CategorySpot false symbol None None 0 "");
  mret ((λ native, fromBitgetOrder native (default (MkMarket "" "") (open_Market request))) <$> Orders nativeOrders).
End unified_spot.

(** ** The laws *)

Definition readback (order : NativePlaceOrder) : OrderTerms :=
  let quote := bool_decide (OrderType order = OrderTypeMarket) && bool_decide (Side order = SideBuy) in
  MkTerms (Symbol order) (toUnifiedBitgetSide (Side order)) (toUnifiedBitgetOrderType (OrderType order))
    (TimeInForce order) (if quote then "" else Quantity order) (if quote then Quantity order else "") (Price order)
    (ClientOrderID order).

Lemma bitget_symbol_valid market : valid_market market → validateSymbol (bitgetSymbol market) = Ok tt.
Proof. intros H. apply validateRequiredText_visible; by apply (visible_market "" market). Qed.

#[local] Ltac eval_native :=
  cbv beta iota zeta delta [nativeOrder toBitgetSide toBitgetOrderType toBitgetTimeInForce order_Market Unified.Side
    order_Type Unified.TimeInForce order_Quantity QuoteAmount order_Price Unified.ClientOrderID Category Symbol Quantity
    Price Side OrderType TimeInForce PositionSide ClientOrderID ReduceOnly SelfTradePrevention]; eval_closed;
  cbv beta iota.

Lemma bitget_validate_nativeOrder request :
  valid_order request →
  is_Ok (PlaceOrderRequest_validate (nativeOrder request)) = clientOrderIDPattern (Unified.ClientOrderID request).
Proof.
  revert request. apply valid_order_cases; intros; order_kinds.
  all: pose proof (bitget_symbol_valid market H) as Hmarket; order_facts; eval_native.
  all: unfold PlaceOrderRequest_validate, validateCategory, TimeInForce_valid; eval_native; eval_guards.
  all: by destruct (clientOrderIDPattern id).
Qed.

#[export] Instance laws : SpotAdapterLaws.
Proof.
  split.
  - intros [] request. apply bitget_validate_nativeOrder.
  - unfold validateNative; simpl. intros order. change (validates (PlaceOrderRequest_validate order)).
    unfold PlaceOrderRequest_validate, validateCategory, validateSymbol. solve_validates.
  - done.
  - intros [] r1 r2. apply (@terms_iff adapter readback).
    + read_orders; by vm_compute.
    + same_market nativeOrder.
    + done.
  - by intros * [= <-].
Qed.
End Bitget.
