(* ===== verification/MEXCSpot.v ===== *)
(** * MEXC Spot orders: [exchange/mexc/requests.go] and [exchange/mexc/unified.go] *)

From S2P Require Import Prelude GoStrings Decimals Errors Unified SpotAdapter ClientErrors.

Module MEXC.
Definition SideBuy : string := "BUY".
Definition SideSell : string := "SELL".
Definition OrderTypeLimit : string := "LIMIT".
Definition OrderTypeMarket : string := "MARKET".
Definition OrderTypeLimitMaker : string := "LIMIT_MAKER".
Definition OrderTypeImmediateOrCancel : string := "IMMEDIATE_OR_CANCEL".
Definition OrderTypeFillOrKill : string := "FILL_OR_KILL".

Abbreviation refuse b message := (require (negb b) (APIValidationError ExchangeMEXC message)).

(** ** Native requests *)

Record NativePlaceOrder : Type := MkPlaceOrder {
  ClientOrderID : string;
  Symbol : string;
  Side : string;
  Type_ : string;
  Quantity : string;
  QuoteQuantity : string;
  Price : string
}.
#[export] Instance NativePlaceOrder_settable : Settable NativePlaceOrder := λ r,
  MkPlaceOrder (ClientOrderID r) (Symbol r) (Side r) (Type_ r) (Quantity r) (QuoteQuantity r) (Price r).

(** [CancelOrderRequest] and [OrderInfoRequest]. *)
Record OrderIdentity : Type := MkIdentity {
  id_Symbol : string;
  id_OrderID : string;
  id_ClientOrderID : string
}.

Record NativeOpenOrders : Type := MkOpenOrders { open_Symbol : string; open_Symbols : list string }.

(** [^[A-Z0-9]{2,40}$], [^[0-9A-Za-z_-]{1,32}$], [^[0-9A-Za-z_-]{1,64}$]. *)
Definition symbolPattern : string → bool := matches is_asset_char 2 40.
Definition clientOrderIDPattern : string → bool := matches (λ c, is_alphanumeric c || in_cutset "_-" c) 1 32.
Definition orderIDPattern : string → bool := matches (λ c, is_alphanumeric c || in_cutset "_-" c) 1 64.

Definition validateSymbol (symbol : string) : result error unit :=
  refuse (negb (symbolPattern symbol)) "invalid MEXC symbol %q".

Definition validatePositiveDecimal (name value : string) : result error unit :=
  let invalid := APIValidationError ExchangeMEXC (name +:+ " must be a positive decimal") in
  require (positiveDecimalPattern value) invalid;;
  match Rat_SetString value with
  | Some number => require (negb (bool_decide (Rat_Sign number ≤ 0))) invalid
  | None => Err invalid
  end.

Definition validateOrderIdentity (orderID clientOrderID : string) : result error unit :=
  refuse (eqb (unset orderID) (unset clientOrderID)) "exactly one of order ID or client order ID is required";;
  refuse (negb (unset orderID) && negb (orderIDPattern orderID)) "invalid order ID %q";;
  refuse (negb (unset clientOrderID) && negb (clientOrderIDPattern clientOrderID)) "invalid client order ID %q".

(** [PlaceOrderRequest.validate]. *)
Definition PlaceOrderRequest_validate (request : NativePlaceOrder) : result error unit :=
  refuse (negb (clientOrderIDPattern (ClientOrderID request)))
    "client order ID is required and must match [0-9A-Za-z_-]{1,32}";;
  validateSymbol (Symbol request);;
  refuse (negb (bool_decide (Side request = SideBuy)) && negb (bool_decide (Side request = SideSell)))
    "order side must be BUY or SELL";;
  if bool_decide (Type_ request ∈ [OrderTypeLimit; OrderTypeLimitMaker; OrderTypeImmediateOrCancel;
                                   OrderTypeFillOrKill]) then
    validatePositiveDecimal "quantity" (Quantity request);;
    validatePositiveDecimal "price" (Price request);;
    refuse (negb (unset (QuoteQuantity request))) "priced order does not accept quote quantity"
  else if bool_decide (Type_ request = OrderTypeMarket) then
    refuse (negb (unset (Price request))) "market order does not accept price";;
    if bool_decide (Side request = SideBuy) then
      refuse (negb (unset (Quantity request))) "market buy accepts quote quantity only";;
      validatePositiveDecimal "quote quantity" (QuoteQuantity request)
    else
      refuse (negb (unset (QuoteQuantity request))) "market sell accepts base quantity only";;
      validatePositiveDecimal "quantity" (Quantity request)
  else Err (APIValidationError ExchangeMEXC "unsupported order type %q").

Definition OrderIdentity_validate (request : OrderIdentity) : result error unit :=
  validateSymbol (id_Symbol request);;
  validateOrderIdentity (id_OrderID request) (id_ClientOrderID request).

Definition OpenOrdersRequest_validate (request : NativeOpenOrders) : result error unit :=
  refuse (negb (unset (open_Symbol request)) && negb (bool_decide (open_Symbols request = [])))
    "open orders accepts symbol or symbols, not both";;
  if negb (unset (open_Symbol request)) then validateSymbol (open_Symbol request)
  else
    refuse (bool_decide (open_Symbols request = []) || bool_decide (5 < length (open_Symbols request))%nat)
      "open orders symbols must contain between 1 and 5 items";;
    fold_result (λ (seen : list string) symbol,
      validateSymbol symbol;;
      refuse (bool_decide (symbol ∈ seen)) "open orders symbols contain a duplicate";;
      Ok (symbol :: seen)) [] (open_Symbols request);;
    Ok tt.

(** ** The client *)

Record NativeOrder : Type := MkOrder {
  ord_Symbol : string;
  ord_OriginalClientOrderID : string;
  ord_OrderID : string;
  ord_ClientOrderID : string;
  ord_Price : string;
  ord_OriginalQuantity : string;
  ord_ExecutedQuantity : string;
  ord_Status : string;
  ord_Type : string;
  ord_Side : string;
  ord_OriginalQuoteOrderQuantity : string
}.

Record OrderReference : Type := MkReference { ref_Symbol : string; ref_OrderID : string }.
Record SymbolInfo : Type := MkSymbol { sym_Symbol : string; sym_BaseAsset : string; sym_QuoteAsset : string }.

Record Client (W : Type) : Type := MkClient {
  newMEXCClientOrderID : io W string;
  sendPlaceOrder : NativePlaceOrder → io W OrderReference;
  sendOrderInfo : OrderIdentity → io W NativeOrder;
  sendCancelOrder : OrderIdentity → io W NativeOrder;
  sendOpenOrders : NativeOpenOrders → io W (list NativeOrder);
  SelfSymbols : io W (list string);
  ExchangeInfo : io W (list SymbolInfo)
}.
Arguments newMEXCClientOrderID {W}.
Arguments sendPlaceOrder {W}.
Arguments sendOrderInfo {W}.
Arguments sendCancelOrder {W}.
Arguments sendOpenOrders {W}.
Arguments SelfSymbols {W}.
Arguments ExchangeInfo {W}.

(** ** The adapter *)

Definition mexcSymbol (market : Market) : string := Base market +:+ Quote market.

Definition marketFromMEXCSymbol (symbol : SymbolInfo) : result error Market :=
  let market := MkMarket (sym_BaseAsset symbol) (sym_QuoteAsset symbol) in
  require (is_Ok (Market_Validate market) && bool_decide (mexcSymbol market = sym_Symbol symbol))
    (Errorf "invalid MEXC Spot symbol %q");;
  Ok market.

Definition toMEXCSide (side : string) : string := if bool_decide (side = Unified.SideBuy) then SideBuy else SideSell.

Definition toMEXCLimitOrderType (value : string) : string :=
  if bool_decide (value = TimeInForceIOC) then OrderTypeImmediateOrCancel
  else if bool_decide (value = TimeInForceFOK) then OrderTypeFillOrKill
  else if bool_decide (value = TimeInForcePostOnly) then OrderTypeLimitMaker
  else OrderTypeLimit.

Definition fromMEXCSide (side : string) : result error string :=
  if bool_decide (side = SideBuy) then Ok Unified.SideBuy
  else if bool_decide (side = SideSell) then Ok Unified.SideSell
  else Err (Errorf "unsupported MEXC side %q").

Definition fromMEXCOrderType (orderType : string) : result error string :=
  if bool_decide (orderType = OrderTypeMarket) then Ok Unified.OrderTypeMarket
  else if bool_decide (orderType ∈ [OrderTypeLimit; OrderTypeLimitMaker; OrderTypeImmediateOrCancel;
                                    OrderTypeFillOrKill]) then Ok Unified.OrderTypeLimit
  else Err (Errorf "unsupported MEXC order type %q").

Definition fromMEXCOrderStatus (status : string) : string :=
  if bool_decide (status = "NEW") then OrderStatusNew
  else if bool_decide (status = "PARTIALLY_FILLED") then OrderStatusPartiallyFilled
  else if bool_decide (status = "FILLED") then OrderStatusFilled
  else if bool_decide (status ∈ ["CANCELED"; "PARTIALLY_CANCELED"]) then OrderStatusCanceled
  else OrderStatusUnknown.

Definition fromMEXCOrder (native : NativeOrder) (market : Market) : result error Order :=
  require (bool_decide (ord_Symbol native = mexcSymbol market)) (Errorf "MEXC order market %q does not match %q");;
  side ← fromMEXCSide (ord_Side native);
  orderType ← fromMEXCOrderType (ord_Type native);
  let clientOrderID := if unset (ord_OriginalClientOrderID native) then ord_ClientOrderID native
                       else ord_OriginalClientOrderID native in
  Ok (Unified.MkOrder ExchangeMEXC (ord_OrderID native) clientOrderID market (ord_Symbol native) side orderType
    (fromMEXCOrderStatus (ord_Status native)) (ord_Price native) (ord_OriginalQuantity native)
    (ord_OriginalQuoteOrderQuantity native) (ord_ExecutedQuantity native)).

Definition mapMEXCOrders (native : list NativeOrder) (markets : gmap string Market) : result error (list Order) :=
  mapM (λ item,
    match markets !! ord_Symbol item with
    | None => Err (Errorf "MEXC open orders contains unexpected symbol %q")
    | Some market => fromMEXCOrder item market
    end) native.

(** The order that [UnifiedSpot.PlaceOrder] has the client make, and what it returns. *)
Definition nativeOrder (generated : string) (request : PlaceOrderRequest) : NativePlaceOrder :=
  let order := MkPlaceOrder (clientOrderIDOf generated request) (mexcSymbol (order_Market request))
    (toMEXCSide (Unified.Side request)) OrderTypeMarket "" "" "" in
  if bool_decide (order_Type request = Unified.OrderTypeLimit) then
    order <| Type_ := toMEXCLimitOrderType (TimeInForce request) |> <| Quantity := order_Quantity request |>
      <| Price := order_Price request |>
  else if bool_decide (Unified.Side request = Unified.SideBuy) then
    order <| QuoteQuantity := QuoteAmount request |>
  else order <| Quantity := order_Quantity request |>.

Definition placedOrder (generated : string) (request : PlaceOrderRequest) (reference : OrderReference) : result error Order :=
  require (bool_decide (ref_Symbol reference = mexcSymbol (order_Market request)))
    (Errorf "MEXC placed order market %q does not match %q");;
  Ok (Unified.MkOrder ExchangeMEXC (ref_OrderID reference) (clientOrderIDOf generated request) (order_Market request)
    (mexcSymbol (order_Market request)) (Unified.Side request) (order_Type request) OrderStatusAcknowledged
    (order_Price request) (order_Quantity request) (QuoteAmount request) "").

#[export] Instance adapter : SpotAdapter := {
  exchange := ExchangeMEXC;
  nativeMarket := mexcSymbol;
  supported _ := Ok tt;
  Account := string;
  SpotAdapter.NativeOrder := NativePlaceOrder;
  Reference := OrderReference;
  nativeRequest := nativeOrder;
  validateNative := PlaceOrderRequest_validate;
  placed := placedOrder;
  accepts _ request :=
    clientOrderIDPattern (Unified.ClientOrderID request) && symbolPattern (mexcSymbol (order_Market request));
  unsetTimeInForce := Unified.TimeInForceGTC
}.

Section unified_spot.
Context {W : Type} (client : Client W).

Definition PlaceOrder : PlaceOrderRequest → io W Order :=
  SpotAdapter.PlaceOrder (generatedID (newMEXCClientOrderID client)) (clientPlaceOrder (sendPlaceOrder client)).

Definition identity (request : OrderRequest) : OrderIdentity :=
  MkIdentity (mexcSymbol (request_Market request)) (OrderID request) (request_ClientOrderID request).

Definition OrderInfo (request : OrderRequest) : io W Order :=
  lift (OrderRequest_Validate request);;
  native ← validated OrderIdentity_validate (sendOrderInfo client) (identity request);
  lift (fromMEXCOrder native (request_Market request)).

Definition CancelOrder (request : OrderRequest) : io W Order :=
  lift (OrderRequest_Validate request);;
  native ← validated OrderIdentity_validate (sendCancelOrder client) (identity request);
  lift (fromMEXCOrder native (request_Market request)).

Definition sendOpen : NativeOpenOrders → io W (list NativeOrder) :=
  validated OpenOrdersRequest_validate (sendOpenOrders client).

(** [mexcUnifiedOpenOrderBatchSize]. *)
Definition batchSize : nat := 5.

(** One symbol of a batch: [seen] and [requested] with it. *)
Definition requestSymbol (markets : gmap string Market) (state : gset string * gmap string Market) (symbol : string)
    : result error (gset string * gmap string Market) :=
  let '(seen, requested) := state in
  require (negb (bool_decide (symbol ∈ seen))) (Errorf "MEXC self symbols contains duplicate %q");;
  match markets !! symbol with
  | None => Err (Errorf "MEXC self symbol %q is missing from exchange info")
  | Some market => Ok ({[symbol]} ∪ seen, <[symbol := market]> requested)
  end.

(** The batches of [symbols], [fuel] at most. *)
Fixpoint openBatches (fuel : nat) (markets : gmap string Market) (seen : gset string) (symbols : list string)
    (orders : list Order) : io W (list Order) :=
  match fuel, symbols with
  | S fuel, _ :: _ =>
      let batch := take batchSize symbols in
      '(seen, requested) ← lift (fold_result (requestSymbol markets) (seen, ∅) batch);
      native ← sendOpen (MkOpenOrders "" batch);
      mapped ← lift (mapMEXCOrders native requested);
      openBatches fuel markets seen (drop batchSize symbols) (orders ++ mapped)
  | _, _ => mret orders
  end.

Definition allOpenOrders : io W (list Order) :=
  symbols ← SelfSymbols client;
  if bool_decide (symbols = []) then mret []
  else
    info ← ExchangeInfo client;
    markets ← lift (fold_result (λ (markets : gmap string Market) symbol,
      market ← marketFromMEXCSymbol symbol;
      Ok (<[sym_Symbol symbol := market]> markets)) ∅ info);
    openBatches (length symbols) markets ∅ symbols [].

Definition OpenOrders (request : OpenOrdersRequest) : io W (list Order) :=
  lift (OpenOrdersRequest_Validate request);;
  match open_Market request with
  | Some market =>
      let nativeMarket := mexcSymbol market in
      native ← sendOpen (MkOpenOrders nativeMarket []);
      lift (mapMEXCOrders native {[nativeMarket := market]})
  | None => allOpenOrders
  end.
End unified_spot.

(** ** The laws *)

Definition readback (order : NativePlaceOrder) : OrderTerms :=
  MkTerms (Symbol order) (if bool_decide (Side order = SideBuy) then Unified.SideBuy else Unified.SideSell)
    (if bool_decide (Type_ order = OrderTypeMarket) then Unified.OrderTypeMarket else Unified.OrderTypeLimit)
    (if bool_decide (Type_ order = OrderTypeLimitMaker) then TimeInForcePostOnly
     else if bool_decide (Type_ order = OrderTypeImmediateOrCancel) then TimeInForceIOC
     else if bool_decide (Type_ order = OrderTypeFillOrKill) then TimeInForceFOK
     else TimeInForceGTC)
    (Quantity order) (QuoteQuantity order) (Price order) (ClientOrderID order).

Lemma mexc_validatePositiveDecimal_Ok name value : positive value → validatePositiveDecimal name value = Ok tt.
Proof.
  intros H. unfold validatePositiveDecimal. destruct (positive_Rat _ H) as (q & -> & ->).
  by destruct (positive_Ok _ H) as (_ & _ & -> & _).
Qed.

#[local] Ltac eval_native :=
  cbv beta iota zeta delta [nativeOrder clientOrderIDOf toMEXCSide toMEXCLimitOrderType set_field order_Market
    Unified.Side order_Type Unified.TimeInForce order_Quantity QuoteAmount order_Price Unified.ClientOrderID
    ClientOrderID Symbol Side Type_ Quantity QuoteQuantity Price]; eval_closed; cbv beta iota.

Lemma mexc_validate_nativeOrder generated request :
  valid_order request →
  is_Ok (PlaceOrderRequest_validate (nativeOrder generated request)) =
  clientOrderIDPattern (Unified.ClientOrderID request) && symbolPattern (mexcSymbol (order_Market request)).
Proof.
  revert request. apply valid_order_cases; intros; order_kinds.
  all: repeat match goal with
    | H : positive ?v |- _ =>
        pose proof (λ name, mexc_validatePositiveDecimal_Ok name v H); apply positive_Ok in H as (_ & ? & _ & _)
    end; order_facts; eval_native.
  all: unfold PlaceOrderRequest_validate, validateSymbol; eval_native.
  all: rewrite_facts; eval_guards.
  all: by destruct (clientOrderIDPattern id), (symbolPattern (mexcSymbol market)).
Qed.

#[export] Instance laws : SpotAdapterLaws.
Proof.
  split.
  - apply mexc_validate_nativeOrder.
  - unfold validateNative; simpl. intros order. change (validates (PlaceOrderRequest_validate order)).
    unfold PlaceOrderRequest_validate, validateSymbol, validatePositiveDecimal. solve_validates.
  - done.
  - intros generated r1 r2. apply (@terms_iff adapter readback).
    + read_orders; order_facts; unfold nativeRequest; simpl; eval_native;
        rewrite_facts; by vm_compute.
    + same_market nativeOrder.
    + done.
  - intros * H. unfold placed in H. simpl in H. unfold placedOrder in H. apply result_bind_Ok in H as (? & _ & [= <-]). done.
Qed.
End MEXC.
