(* ===== verification/KuCoinSpot.v ===== *)
(** * KuCoin Spot orders: [exchange/kucoin/requests.go] and [exchange/kucoin/unified.go] *)

From S2P Require Import Prelude GoStrings Decimals Errors Unified SpotAdapter ClientErrors.

Module KuCoin.
Definition SideBuy : string := "buy".
Definition SideSell : string := "sell".
Definition OrderTypeLimit : string := "limit".
Definition OrderTypeMarket : string := "market".
Definition TimeInForceGTC : string := "GTC".
Definition TimeInForceGTT : string := "GTT".
Definition TimeInForceIOC : string := "IOC".
Definition TimeInForceFOK : string := "FOK".

Abbreviation refuse b message := (require (negb b) (APIValidationError ExchangeKuCoin message)).

(** ** Native requests *)

Record NativePlaceOrder : Type := MkPlaceOrder {
  ClientOrderID : string;
  Symbol : string;
  Type_ : string;
  Side : string;
  Price : string;
  Size : string;
  Funds : string;
  TimeInForce : string;
  PostOnly : bool;
  CancelAfter : Z;
  Remark : string;
  Tags : string
}.
#[export] Instance NativePlaceOrder_settable : Settable NativePlaceOrder := λ r,
  MkPlaceOrder (ClientOrderID r) (Symbol r) (Type_ r) (Side r) (Price r) (Size r) (Funds r) (TimeInForce r) (PostOnly r)
    (CancelAfter r) (Remark r) (Tags r).

(** [CancelOrderRequest] and [OrderInfoRequest]. *)
Record OrderIdentity : Type := MkIdentity {
  id_OrderID : string;
  id_ClientOrderID : string;
  id_Symbol : string
}.

Record NativeOpenOrders : Type := MkOpenOrders { open_Symbol : string; PageNumber : Z; PageSize : Z }.

(** [^[A-Z0-9]{2,20}-[A-Z0-9]{2,20}$], [^[0-9A-Za-z_-]{1,40}$], [^[0-9A-Za-z_-]{1,64}$]. *)
Definition hyphen : ascii := Ascii.ascii_of_N 45.
Definition symbolPattern : string → bool := pairPattern hyphen 2 20.
Definition clientOrderIDPattern : string → bool := matches (λ c, is_alphanumeric c || in_cutset "_-" c) 1 40.
Definition orderIDPattern : string → bool := matches (λ c, is_alphanumeric c || in_cutset "_-" c) 1 64.

Definition validateSymbol (symbol : string) : result error unit :=
  refuse (negb (symbolPattern symbol)) "invalid symbol %q";;
  let '(base, quote) := Cut hyphen symbol in
  refuse (bool_decide (base = default "" quote)) "symbol base and quote currencies must differ".

Definition validatePositiveDecimal (name value : string) : result error unit :=
  refuse (negb (positiveDecimalPattern value) || decimalIsZero value) (name +:+ " must be a positive decimal").

Definition validateOrderIdentity (orderID clientOrderID : string) : result error unit :=
  refuse (eqb (unset orderID) (unset clientOrderID)) "exactly one of order ID or client order ID is required";;
  if negb (unset orderID) then refuse (negb (orderIDPattern orderID)) "invalid order ID"
  else refuse (negb (clientOrderIDPattern clientOrderID)) "invalid client order ID".

Definition TimeInForce_valid (value : string) : bool :=
  bool_decide (value ∈ [TimeInForceGTC; TimeInForceGTT; TimeInForceIOC; TimeInForceFOK]).

(** [PlaceOrderRequest.validate]. *)
Definition PlaceOrderRequest_validate (request : NativePlaceOrder) : result error unit :=
  refuse (negb (clientOrderIDPattern (ClientOrderID request)))
    "client order ID is required and must match [0-9A-Za-z_-]{1,40}";;
  validateSymbol (Symbol request);;
  refuse (negb (bool_decide (Side request = SideBuy)) && negb (bool_decide (Side request = SideSell)))
    "order side must be buy or sell";;
  refuse (bool_decide (20 < String.length (Remark request))%nat || bool_decide (20 < String.length (Tags request))%nat)
    "order remark and tags cannot exceed 20 bytes";;
  if bool_decide (Type_ request = OrderTypeLimit) then
    validatePositiveDecimal "price" (Price request);;
    validatePositiveDecimal "size" (Size request);;
    refuse (negb (unset (Funds request))) "limit order does not accept funds";;
    refuse (negb (unset (TimeInForce request)) && negb (TimeInForce_valid (TimeInForce request)))
      "unsupported time in force %q";;
    refuse (PostOnly request && negb (unset (TimeInForce request)) &&
            negb (bool_decide (TimeInForce request = TimeInForceGTC)))
      "post-only order requires GTC or empty time in force";;
    refuse (bool_decide (0 < CancelAfter request) && negb (bool_decide (TimeInForce request = TimeInForceGTT)))
      "cancelAfter requires GTT time in force";;
    refuse (bool_decide (CancelAfter request < 0)) "cancelAfter cannot be negative"
  else if bool_decide (Type_ request = OrderTypeMarket) then
    refuse (negb (unset (Price request)) || negb (unset (TimeInForce request)) || PostOnly request ||
            negb (bool_decide (CancelAfter request = 0)))
      "market order does not accept price or limit execution options";;
    if bool_decide (Side request = SideBuy) then
      refuse (eqb (unset (Size request)) (unset (Funds request))) "market buy requires exactly one of size or funds";;
      if negb (unset (Size request)) then validatePositiveDecimal "size" (Size request)
      else validatePositiveDecimal "funds" (Funds request)
    else
      validatePositiveDecimal "size" (Size request);;
      refuse (negb (unset (Funds request))) "market sell does not accept funds"
  else Err (APIValidationError ExchangeKuCoin "order type must be limit or market").

Definition OrderIdentity_validate (request : OrderIdentity) : result error unit :=
  validateOrderIdentity (id_OrderID request) (id_ClientOrderID request);;
  validateSymbol (id_Symbol request).

Definition OpenOrdersRequest_validate (request : NativeOpenOrders) : result error unit :=
  validateSymbol (open_Symbol request);;
  refuse (bool_decide (PageNumber request < 0)) "open order page number cannot be negative";;
  refuse (bool_decide (PageSize request < 0) || bool_decide (50 < PageSize request))
    "open order page size must be between 1 and 50 or zero for default".

(** ** The client *)

Record NativeOrder : Type := MkOrder {
  ord_ID : string;
  ord_Symbol : string;
  ord_Type : string;
  ord_Side : string;
  ord_Price : string;
  ord_Size : string;
  ord_Funds : string;
  ord_DealSize : string;
  ord_ClientOrderID : string;
  ord_Active : bool;
  ord_CancelExists : bool
}.

Record OrderReference : Type := MkReference { ref_OrderID : string; ref_ClientOrderID : string }.
Record OrderPage : Type := MkPage { CurrentPage : Z; TotalPages : Z; Orders : list NativeOrder }.

Record Client (W : Type) : Type := MkClient {
  newKuCoinClientOrderID : io W string;
  sendPlaceOrder : NativePlaceOrder → io W OrderReference;
  sendOrderInfo : OrderIdentity → io W NativeOrder;
  sendCancelOrder : OrderIdentity → io W OrderReference;
  OpenOrderSymbols : io W (list string);
  sendOpenOrders : NativeOpenOrders → io W OrderPage
}.
Arguments newKuCoinClientOrderID {W}.
Arguments sendPlaceOrder {W}.
Arguments sendOrderInfo {W}.
Arguments sendCancelOrder {W}.
Arguments OpenOrderSymbols {W}.
Arguments sendOpenOrders {W}.

(** ** The adapter *)

Definition kucoinSymbol (market : Market) : string := Base market +:+ "-" +:+ Quote market.

Definition fromKuCoinSymbol (symbol : string) : result error Market :=
  let '(base, quote) := Cut hyphen symbol in
  let market := MkMarket base (default "" quote) in
  require (bool_decide (quote ≠ None) && is_Ok (Market_Validate market) && bool_decide (kucoinSymbol market = symbol))
    (Errorf "invalid KuCoin Spot symbol %q");;
  Ok market.

Definition toKuCoinSide (side : string) : string := if bool_decide (side = Unified.SideBuy) then SideBuy else SideSell.
Definition toUnifiedKuCoinSide (side : string) : string :=
  if bool_decide (side = SideBuy) then Unified.SideBuy else Unified.SideSell.

Definition toKuCoinTimeInForce (value : string) : string :=
  if bool_decide (value = Unified.TimeInForceGTC) then TimeInForceGTC
  else if bool_decide (value = Unified.TimeInForceIOC) then TimeInForceIOC
  else if bool_decide (value = Unified.TimeInForceFOK) then TimeInForceFOK
  else "".

Definition kucoinDecimalPositive (value : string) : result error bool :=
  if unset value then Ok false
  else if negb (positiveDecimalPattern value) then Err (Errorf "invalid decimal %q")
  else Ok (negb (decimalIsZero value)).

Definition kucoinDecimalsEqual (left right : string) : result error bool :=
  if unset left || unset right then Ok false
  else
    match Rat_SetString left, Rat_SetString right with
    | Some leftValue, Some rightValue => Ok (bool_decide (leftValue = rightValue))
    | _, _ => Err (Errorf "invalid decimals %q and %q")
    end.

Definition toUnifiedKuCoinOrderStatus (native : NativeOrder) : result error string :=
  match kucoinDecimalPositive (ord_DealSize native) with
  | Err err => Err (Wrapf "decode KuCoin order filled size: %w" err)
  | Ok filled =>
      if ord_Active native then Ok (if filled then OrderStatusPartiallyFilled else OrderStatusNew)
      else if ord_CancelExists native then Ok OrderStatusCanceled
      else
        match kucoinDecimalsEqual (ord_DealSize native) (ord_Size native) with
        | Err err => Err (Wrapf "decode KuCoin order size: %w" err)
        | Ok equal => Ok (if filled && equal then OrderStatusFilled else OrderStatusUnknown)
        end
  end.

Definition fromKuCoinOrder (native : NativeOrder) (market : Market) : result error Order :=
  require (bool_decide (ord_Symbol native = kucoinSymbol market)) (Errorf "KuCoin order market %q does not match %q");;
  status ← toUnifiedKuCoinOrderStatus native;
  let isMarket := bool_decide (ord_Type native = OrderTypeMarket) in
  let orderType := if isMarket then Unified.OrderTypeMarket else Unified.OrderTypeLimit in
  let '(quantity, quoteAmount) :=
    if isMarket && bool_decide (ord_Side native = SideBuy) then ("", ord_Funds native) else (ord_Size native, "") in
  Ok (Unified.MkOrder ExchangeKuCoin (ord_ID native) (ord_ClientOrderID native) market (ord_Symbol native)
    (toUnifiedKuCoinSide (ord_Side native)) orderType status (ord_Price native) quantity quoteAmount
    (ord_DealSize native)).

(** The order that [UnifiedSpot.PlaceOrder] has the client make, and what it returns. *)
Definition nativeOrder (generated : string) (request : PlaceOrderRequest) : NativePlaceOrder :=
  let order := MkPlaceOrder (clientOrderIDOf generated request) (kucoinSymbol (order_Market request)) OrderTypeMarket
    (toKuCoinSide (Unified.Side request)) "" "" "" "" false 0 "" "" in
  if bool_decide (order_Type request = Unified.OrderTypeLimit) then
    let order := order <| Type_ := OrderTypeLimit |> <| Price := order_Price request |>
      <| Size := order_Quantity request |> <| TimeInForce := toKuCoinTimeInForce (Unified.TimeInForce request) |> in
    if bool_decide (Unified.TimeInForce request = TimeInForcePostOnly)
    then order <| TimeInForce := TimeInForceGTC |> <| PostOnly := true |> else order
  else if bool_decide (Unified.Side request = Unified.SideBuy) then order <| Funds := QuoteAmount request |>
  else order <| Size := order_Quantity request |>.

Definition placedOrder (generated : string) (request : PlaceOrderRequest) (reference : OrderReference) : Order :=
  Unified.MkOrder ExchangeKuCoin (ref_OrderID reference) (clientOrderIDOf generated request) (order_Market request)
    (kucoinSymbol (order_Market request)) (Unified.Side request) (order_Type request) OrderStatusAcknowledged
    (order_Price request) (order_Quantity request) (QuoteAmount request) "".

#[export] Instance adapter : SpotAdapter := {
  exchange := ExchangeKuCoin;
  nativeMarket := kucoinSymbol;
  supported _ := Ok tt;
  Account := string;
  SpotAdapter.NativeOrder := NativePlaceOrder;
  Reference := OrderReference;
  nativeRequest := nativeOrder;
  validateNative := PlaceOrderRequest_validate;
  placed generated request reference := Ok (placedOrder generated request reference);
  accepts _ request := clientOrderIDPattern (Unified.ClientOrderID request) && assetLengths 2 20 (order_Market request);
  unsetTimeInForce := ""
}.

Section unified_spot.
Context {W : Type} (client : Client W).

Definition PlaceOrder : PlaceOrderRequest → io W Order :=
  SpotAdapter.PlaceOrder (generatedID (newKuCoinClientOrderID client)) (clientPlaceOrder (sendPlaceOrder client)).

Definition identity (request : OrderRequest) : OrderIdentity :=
  MkIdentity (OrderID request) (request_ClientOrderID request) (kucoinSymbol (request_Market request)).

Definition OrderInfo (request : OrderRequest) : io W Order :=
  lift (OrderRequest_Validate request);;
  native ← validated OrderIdentity_validate (sendOrderInfo client) (identity request);
  lift (fromKuCoinOrder native (request_Market request)).

Definition CancelOrder (request : OrderRequest) : io W Order :=
  lift (OrderRequest_Validate request);;
  reference ← validated OrderIdentity_validate (sendCancelOrder client) (identity request);
  let orderID := if unset (ref_OrderID reference) then OrderID request else ref_OrderID reference in
  let clientOrderID := if unset (ref_ClientOrderID reference) then request_ClientOrderID request
                       else ref_ClientOrderID reference in
  mret (Unified.MkOrder ExchangeKuCoin orderID clientOrderID (request_Market request)
    (kucoinSymbol (request_Market request)) "" "" OrderStatusCancelPending "" "" "" "").

(** An order on a page of [symbol]. *)
Definition readOrder (symbol : string) (native : NativeOrder) : result error Order :=
  require (bool_decide (ord_Symbol native = symbol)) (Errorf "KuCoin open orders for %q contains %q");;
  market ← fromKuCoinSymbol (ord_Symbol native);
  fromKuCoinOrder native market.

(** The pages of [symbol] from [pageNumber] on; [None] when [fuel] pages were not
    enough. *)
Fixpoint openPages (fuel : nat) (symbol : string) (pageNumber : Z) (orders : list Order) (w : W)
    : option (result error (list Order) * W) :=
  match fuel with
  | O => None
  | S fuel =>
      let '(page, w) := validated OpenOrdersRequest_validate (sendOpenOrders client)
                          (MkOpenOrders symbol pageNumber 50) w in
      match page with
      | Err err => Some (Err err, w)
      | Ok page =>
          if negb (bool_decide (CurrentPage page = pageNumber)) && bool_decide (0 < TotalPages page)
          then Some (Err (Errorf "KuCoin open orders returned page %d, want %d"), w)
          else
            match mapM (readOrder symbol) (Orders page) with
            | Err err => Some (Err err, w)
            | Ok more =>
                if bool_decide (TotalPages page = 0) || bool_decide (TotalPages page ≤ pageNumber)
                then Some (Ok (orders ++ more), w)
                else openPages fuel symbol (pageNumber + 1) (orders ++ more) w
            end
      end
  end.

Fixpoint openSymbols (fuel : nat) (symbols : list string) (orders : list Order) (w : W)
    : option (result error (list Order) * W) :=
  match symbols with
  | [] => Some (Ok orders, w)
  | symbol :: symbols =>
      match fromKuCoinSymbol symbol with
      | Err err => Some (Err err, w)
      | Ok _ =>
          match openPages fuel symbol 1 orders w with
          | Some (Ok orders, w) => openSymbols fuel symbols orders w
          | other => other
          end
      end
  end.

Definition OpenOrders (fuel : nat) (request : OpenOrdersRequest) (w : W) : option (result error (list Order) * W) :=
  match OpenOrdersRequest_Validate request with
  | Err err => Some (Err err, w)
  | Ok _ =>
      let '(symbols, w) := match open_Market request with
                           | Some market => (Ok [kucoinSymbol market], w)
                           | None => OpenOrderSymbols client w
                           end in
      match symbols with
      | Err err => Some (Err err, w)
      | Ok symbols => openSymbols fuel symbols [] w
      end
  end.
End unified_spot.

(** ** The laws *)

Definition readback (order : NativePlaceOrder) : OrderTerms :=
  MkTerms (Symbol order) (toUnifiedKuCoinSide (Side order))
    (if bool_decide (Type_ order = OrderTypeMarket) then Unified.OrderTypeMarket else Unified.OrderTypeLimit)
    (if PostOnly order then TimeInForcePostOnly
     else if bool_decide (TimeInForce order = TimeInForceGTC) then Unified.TimeInForceGTC
     else if bool_decide (TimeInForce order = TimeInForceIOC) then Unified.TimeInForceIOC
     else if bool_decide (TimeInForce order = TimeInForceFOK) then Unified.TimeInForceFOK
     else "")
    (Size order) (Funds order) (Price order) (ClientOrderID order).

Lemma kucoin_symbol_valid market :
  valid_market market → is_Ok (validateSymbol (kucoinSymbol market)) = assetLengths 2 20 market.
Proof.
  intros H. unfold validateSymbol. rewrite is_Ok_bind, is_Ok_require, negb_involutive.
  assert (symbolPattern (kucoinSymbol market) = assetLengths 2 20 market) as ->
    by exact (pairPattern_joined hyphen 2 20 market eq_refl H).
  assert (Cut hyphen (kucoinSymbol market) = (Base market, Some (Quote market))) as ->
    by exact (Cut_joined hyphen market eq_refl H).
  destruct H as (_ & _ & H). simpl. rewrite bool_decide_eq_false_2 by done. apply andb_true_r.
Qed.

#[local] Ltac eval_native :=
  cbv beta iota zeta delta [nativeOrder clientOrderIDOf toKuCoinSide toKuCoinTimeInForce set_field order_Market
    Unified.Side order_Type Unified.TimeInForce order_Quantity QuoteAmount order_Price Unified.ClientOrderID
    ClientOrderID Symbol Type_ Side Price Size Funds TimeInForce PostOnly CancelAfter Remark Tags]; eval_closed;
  cbv beta iota.

Lemma kucoin_validate_nativeOrder generated request :
  valid_order request →
  is_Ok (PlaceOrderRequest_validate (nativeOrder generated request)) =
  clientOrderIDPattern (Unified.ClientOrderID request) && assetLengths 2 20 (order_Market request).
Proof.
  revert request. apply valid_order_cases; intros; order_kinds.
  all: pose proof (kucoin_symbol_valid market H) as Hsymbol; order_facts; eval_native.
  all: unfold PlaceOrderRequest_validate, validatePositiveDecimal, TimeInForce_valid; eval_native.
  all: rewrite_facts; rewrite is_Ok_bind, is_Ok_bind, Hsymbol; eval_guards.
  all: by destruct (clientOrderIDPattern id), (assetLengths 2 20 market).
Qed.

#[export] Instance laws : SpotAdapterLaws.
Proof.
  split.
  - apply kucoin_validate_nativeOrder.
  - unfold validateNative; simpl. intros order. change (validates (PlaceOrderRequest_validate order)).
    unfold PlaceOrderRequest_validate, validateSymbol, validatePositiveDecimal. solve_validates.
  - done.
  - intros generated r1 r2. apply (@terms_iff adapter readback).
    + read_orders; order_facts; unfold nativeRequest; simpl; eval_native;
        rewrite_facts; by vm_compute.
    + same_market nativeOrder.
    + done.
  - by intros * [= <-].
Qed.
End KuCoin.
