(* ===== verification/GateIOSpot.v ===== *)
(** * Gate.io Spot orders: [exchange/gateio/requests.go] and [exchange/gateio/unified.go] *)

From S2P Require Import Prelude GoStrings Decimals Errors Unified SpotAdapter ClientErrors.

Module GateIO.
Definition SideBuy : string := "buy".
Definition SideSell : string := "sell".
Definition OrderTypeLimit : string := "limit".
Definition OrderTypeMarket : string := "market".
Definition TimeInForceGTC : string := "gtc".
Definition TimeInForceIOC : string := "ioc".
Definition TimeInForcePOC : string := "poc".
Definition TimeInForceFOK : string := "fok".

Abbreviation refuse b message := (require (negb b) (APIValidationError ExchangeGateIO message)).

(** ** Native requests *)

Record NativePlaceOrder : Type := MkPlaceOrder {
  ClientOrderID : string;
  CurrencyPair : string;
  Type_ : string;
  Account : string;
  Side : string;
  Amount : string;
  Price : string;
  TimeInForce : string
}.
#[export] Instance NativePlaceOrder_settable : Settable NativePlaceOrder := λ r,
  MkPlaceOrder (ClientOrderID r) (CurrencyPair r) (Type_ r) (Account r) (Side r) (Amount r) (Price r) (TimeInForce r).

(** [CancelOrderRequest] and [OrderInfoRequest]. *)
Record OrderIdentity : Type := MkIdentity { id_OrderID : string; id_CurrencyPair : string }.
Record NativeOpenOrders : Type := MkOpenOrders { Page : Z; Limit : Z }.

(** [^[A-Z0-9]{2,20}_[A-Z0-9]{2,20}$], [^[0-9A-Za-z._-]{1,64}$],
    [^t-[0-9A-Za-z._-]{1,28}$]. *)
Definition underscore : ascii := Ascii.ascii_of_N 95.
Definition currencyPairPattern : string → bool := pairPattern underscore 2 20.
Definition orderIDPattern : string → bool := matches (λ c, is_alphanumeric c || in_cutset "._-" c) 1 64.
Definition clientOrderIDPattern (s : string) : bool :=
  HasPrefix s "t-" && matches (λ c, is_alphanumeric c || in_cutset "._-" c) 1 28 (drop_bytes 2 s).

Definition validateCurrencyPair (value : string) : result error unit :=
  refuse (negb (currencyPairPattern value)) "invalid currency pair %q".

Definition validatePositiveDecimal (name value : string) : result error unit :=
  refuse (negb (positiveDecimalPattern value) || decimalIsZero value) (name +:+ " must be a positive decimal").

Definition validateOrderIdentity (orderID currencyPair : string) : result error unit :=
  refuse (negb (orderIDPattern orderID)) "invalid order ID";;
  validateCurrencyPair currencyPair.

Definition validatePage (page limit : Z) : result error unit :=
  refuse (bool_decide (page < 0)) "page cannot be negative";;
  refuse (bool_decide (limit < 0) || bool_decide (1000 < limit)) "limit must be between 1 and 1000 or zero";;
  refuse (bool_decide (0 < page) && bool_decide (0 < limit) && bool_decide (100000 < int64 (limit * (page - 1))))
    "page offset cannot exceed 100000".

(** [PlaceOrderRequest.validate]. *)
Definition PlaceOrderRequest_validate (request : NativePlaceOrder) : result error unit :=
  refuse (negb (clientOrderIDPattern (ClientOrderID request)))
    "client order ID must start with t- and contain 1 to 28 supported characters";;
  validateCurrencyPair (CurrencyPair request);;
  refuse (negb (bool_decide (Account request = "spot"))) "account must be spot";;
  refuse (negb (bool_decide (Side request = SideBuy)) && negb (bool_decide (Side request = SideSell)))
    "order side must be buy or sell";;
  validatePositiveDecimal "amount" (Amount request);;
  if bool_decide (Type_ request = OrderTypeLimit) then
    validatePositiveDecimal "price" (Price request);;
    refuse (negb (bool_decide (TimeInForce request ∈ [TimeInForceGTC; TimeInForceIOC; TimeInForcePOC; TimeInForceFOK])))
      "unsupported limit time in force %q"
  else if bool_decide (Type_ request = OrderTypeMarket) then
    refuse (negb (unset (Price request))) "market order does not accept price";;
    refuse (negb (bool_decide (TimeInForce request ∈ [TimeInForceIOC; TimeInForceFOK])))
      "market order time in force must be ioc or fok"
  else Err (APIValidationError ExchangeGateIO "order type must be limit or market").

Definition OrderIdentity_validate (request : OrderIdentity) : result error unit :=
  validateOrderIdentity (id_OrderID request) (id_CurrencyPair request).

Definition OpenOrdersRequest_validate (request : NativeOpenOrders) : result error unit :=
  validatePage (Page request) (Limit request).

(** ** The client *)

Record NativeOrder : Type := MkOrder {
  ord_ID : string;
  ord_ClientOrderID : string;
  ord_Status : string;
  ord_CurrencyPair : string;
  ord_Type : string;
  ord_Side : string;
  ord_Amount : string;
  ord_Price : string;
  ord_FilledAmount : string
}.

Record OpenOrderGroup : Type := MkGroup { group_CurrencyPair : string; Total : Z; Orders : list NativeOrder }.

Record Client (W : Type) : Type := MkClient {
  newGateIOClientOrderID : io W string;
  sendPlaceOrder : NativePlaceOrder → io W NativeOrder;
  sendOrderInfo : OrderIdentity → io W NativeOrder;
  sendCancelOrder : OrderIdentity → io W NativeOrder;
  sendOpenOrders : NativeOpenOrders → io W (list OpenOrderGroup)
}.
Arguments newGateIOClientOrderID {W}.
Arguments sendPlaceOrder {W}.
Arguments sendOrderInfo {W}.
Arguments sendCancelOrder {W}.
Arguments sendOpenOrders {W}.

(** ** The adapter *)

Definition gateIOSymbol (market : Market) : string := Base market +:+ "_" +:+ Quote market.

Definition fromGateIOSymbol (symbol : string) : result error Market :=
  let '(base, quote) := Cut underscore symbol in
  let market := MkMarket base (default "" quote) in
  require (bool_decide (quote ≠ None) && is_Ok (Market_Validate market) && bool_decide (gateIOSymbol market = symbol))
    (Errorf "invalid Gate.io Spot currency pair %q");;
  Ok market.

Definition toGateIOSide (side : string) : string := if bool_decide (side = Unified.SideBuy) then SideBuy else SideSell.

Definition fromGateIOSide (side : string) : result error string :=
  if bool_decide (side = SideBuy) then Ok Unified.SideBuy
  else if bool_decide (side = SideSell) then Ok Unified.SideSell
  else Err (Errorf "unsupported Gate.io side %q").

Definition fromGateIOOrderType (orderType : string) : result error string :=
  if bool_decide (orderType = OrderTypeLimit) then Ok Unified.OrderTypeLimit
  else if bool_decide (orderType = OrderTypeMarket) then Ok Unified.OrderTypeMarket
  else Err (Errorf "unsupported Gate.io order type %q").

Definition toGateIOTimeInForce (value : string) : string :=
  if bool_decide (value = Unified.TimeInForceGTC) then TimeInForceGTC
  else if bool_decide (value = Unified.TimeInForceIOC) then TimeInForceIOC
  else if bool_decide (value = Unified.TimeInForceFOK) then TimeInForceFOK
  else if bool_decide (value = TimeInForcePostOnly) then TimeInForcePOC
  else "".

Definition gateIODecimalPositive (value : string) : result error bool :=
  if unset value then Ok false
  else if negb (positiveDecimalPattern value) then Err (Errorf "invalid decimal %q")
  else Ok (negb (decimalIsZero value)).

Definition toUnifiedGateIOOrderStatus (native : NativeOrder) : result error string :=
  if bool_decide (ord_Status native = "open") then
    match gateIODecimalPositive (ord_FilledAmount native) with
    | Err err => Err (Wrapf "decode Gate.io filled amount: %w" err)
    | Ok filled => Ok (if filled then OrderStatusPartiallyFilled else OrderStatusNew)
    end
  else if bool_decide (ord_Status native = "closed") then Ok OrderStatusFilled
  else if bool_decide (ord_Status native = "cancelled") then Ok OrderStatusCanceled
  else Ok OrderStatusUnknown.

Definition fromGateIOOrder (native : NativeOrder) (expectedMarket : Market) : result error Order :=
  require (bool_decide (ord_CurrencyPair native = gateIOSymbol expectedMarket))
    (Errorf "Gate.io order market %q does not match %q");;
  side ← fromGateIOSide (ord_Side native);
  orderType ← fromGateIOOrderType (ord_Type native);
  status ← toUnifiedGateIOOrderStatus native;
  let '(quantity, quoteAmount) :=
    if bool_decide (orderType = Unified.OrderTypeMarket) && bool_decide (side = Unified.SideBuy)
    then ("", ord_Amount native) else (ord_Amount native, "") in
  Ok (Unified.MkOrder ExchangeGateIO (ord_ID native) (ord_ClientOrderID native) expectedMarket
    (ord_CurrencyPair native) side orderType status (ord_Price native) quantity quoteAmount (ord_FilledAmount native)).

(** The order that [UnifiedSpot.PlaceOrder] has the client make. *)
Definition nativeOrder (generated : string) (request : PlaceOrderRequest) : NativePlaceOrder :=
  let order := MkPlaceOrder (clientOrderIDOf generated request) (gateIOSymbol (order_Market request)) OrderTypeMarket
    "spot" (toGateIOSide (Unified.Side request)) "" "" TimeInForceIOC in
  if bool_decide (order_Type request = Unified.OrderTypeLimit) then
    let order := order <| Type_ := OrderTypeLimit |> <| Amount := order_Quantity request |>
      <| Price := order_Price request |> <| TimeInForce := toGateIOTimeInForce (Unified.TimeInForce request) |> in
    if unset (TimeInForce order) then order <| TimeInForce := TimeInForceGTC |> else order
  else if bool_decide (Unified.Side request = Unified.SideBuy) then order <| Amount := QuoteAmount request |>
  else order <| Amount := order_Quantity request |>.

Definition fromGateIOPlacedOrder (generated : string) (request : PlaceOrderRequest) (native : NativeOrder)
    : result error Order :=
  let nativeMarket := gateIOSymbol (order_Market request) in
  let clientOrderID := clientOrderIDOf generated request in
  require (unset (ord_CurrencyPair native) || bool_decide (ord_CurrencyPair native = nativeMarket))
    (Errorf "Gate.io order market %q does not match %q");;
  require (negb (unset (ord_ID native))) (Errorf "Gate.io order acknowledgement does not contain an order ID");;
  require (unset (ord_ClientOrderID native) || bool_decide (ord_ClientOrderID native = clientOrderID))
    (Errorf "Gate.io order client ID %q does not match %q");;
  status ← (if unset (ord_Status native) then Ok OrderStatusAcknowledged else toUnifiedGateIOOrderStatus native);
  Ok (Unified.MkOrder ExchangeGateIO (ord_ID native) clientOrderID (order_Market request) nativeMarket
    (Unified.Side request) (order_Type request) status (order_Price request) (order_Quantity request)
    (QuoteAmount request) (ord_FilledAmount native)).

#[export] Instance adapter : SpotAdapter := {
  exchange := ExchangeGateIO;
  nativeMarket := gateIOSymbol;
  supported _ := Ok tt;
  SpotAdapter.Account := string;
  SpotAdapter.NativeOrder := NativePlaceOrder;
  Reference := NativeOrder;
  nativeRequest := nativeOrder;
  validateNative := PlaceOrderRequest_validate;
  placed := fromGateIOPlacedOrder;
  accepts _ request := clientOrderIDPattern (Unified.ClientOrderID request) && assetLengths 2 20 (order_Market request);
  unsetTimeInForce := Unified.TimeInForceGTC
}.

Section unified_spot.
Context {W : Type} (client : Client W).

Definition PlaceOrder : PlaceOrderRequest → io W Order :=
  SpotAdapter.PlaceOrder (generatedID (newGateIOClientOrderID client)) (clientPlaceOrder (sendPlaceOrder client)).

Definition gateIOOrderIdentity (request : OrderRequest) : string :=
  if unset (OrderID request) then request_ClientOrderID request else OrderID request.

Definition identity (request : OrderRequest) : OrderIdentity :=
  MkIdentity (gateIOOrderIdentity request) (gateIOSymbol (request_Market request)).

Definition OrderInfo (request : OrderRequest) : io W Order :=
  lift (OrderRequest_Validate request);;
  native ← validated OrderIdentity_validate (sendOrderInfo client) (identity request);
  lift (fromGateIOOrder native (request_Market request)).

Definition CancelOrder (request : OrderRequest) : io W Order :=
  lift (OrderRequest_Validate request);;
  native ← validated OrderIdentity_validate (sendCancelOrder client) (identity request);
  order ← lift (fromGateIOOrder native (request_Market request));
  let id := if unset (Unified.ord_ID order) then OrderID request else Unified.ord_ID order in
  let clientOrderID := if unset (Unified.ord_ClientOrderID order) then request_ClientOrderID request
                       else Unified.ord_ClientOrderID order in
  mret (Unified.MkOrder (ord_Exchange order) id clientOrderID (ord_Market order) (ord_NativeMarket order)
    (Unified.ord_Side order) (Unified.ord_Type order) (Unified.ord_Status order) (Unified.ord_Price order)
    (ord_Quantity order) (ord_QuoteAmount order) (ord_ExecutedQuantity order)).

(** The totals that were named, the orders that were received, and the orders. *)
Record progress : Type := MkProgress { expected : gmap string Z; received : gmap string Z; orders : list Order }.

Definition readGroup (target : string) (state : progress) (group : OpenOrderGroup) : result error progress :=
  let pair := group_CurrencyPair group in
  if negb (unset target) && negb (bool_decide (pair = target)) then Ok state
  else
    market ← fromGateIOSymbol pair;
    require (match expected state !! pair with Some current => bool_decide (current = Total group) | None => true end)
      (Errorf "Gate.io open order total for %q changed from %d to %d");;
    more ← mapM (λ native, fromGateIOOrder native market) (Orders group);
    let count := default 0 (received state !! pair) + Z.of_nat (length (Orders group)) in
    require (negb (bool_decide (Total group < count)))
      (Errorf "Gate.io open orders for %q returned %d items, total is %d");;
    Ok (MkProgress (<[pair := Total group]> (expected state)) (<[pair := count]> (received state)) (orders state ++ more)).

Definition gateIOOpenOrdersComplete (target : string) (state : progress) : bool :=
  if negb (unset target) then
    match expected state !! target with
    | Some total => bool_decide (total ≤ default 0 (received state !! target))
    | None => true
    end
  else forallb (λ p, bool_decide (p.2 ≤ default 0 (received state !! p.1))) (map_to_list (expected state)).

(** The pages from [pageNumber] on; [pages] is how many the loop can still ask for. *)
Fixpoint openPages (pages : nat) (target : string) (pageNumber : Z) (state : progress) : io W (list Order) :=
  groups ← validated OpenOrdersRequest_validate (sendOpenOrders client) (MkOpenOrders pageNumber 1000);
  state ← lift (fold_result (readGroup target) state groups);
  if gateIOOpenOrdersComplete target state then mret (orders state)
  else
    match pages with
    | O => lift (Err (Errorf "Gate.io open orders exceed the supported page offset"))
    | S pages => openPages pages target (pageNumber + 1) state
    end.

Definition OpenOrders (request : OpenOrdersRequest) : io W (list Order) :=
  lift (OpenOrdersRequest_Validate request);;
  let target := match open_Market request with Some market => gateIOSymbol market | None => "" end in
  openPages 100 target 1 (MkProgress ∅ ∅ []).
End unified_spot.

(** ** The laws *)

Definition readback (order : NativePlaceOrder) : OrderTerms :=
  let market := bool_decide (Type_ order = OrderTypeMarket) in
  let quote := market && bool_decide (Side order = SideBuy) in
  MkTerms (CurrencyPair order) (if bool_decide (Side order = SideBuy) then Unified.SideBuy else Unified.SideSell)
    (if market then Unified.OrderTypeMarket else Unified.OrderTypeLimit)
    (if market then Unified.TimeInForceGTC
     else if bool_decide (TimeInForce order = TimeInForcePOC) then TimeInForcePostOnly
     else if bool_decide (TimeInForce order = TimeInForceIOC) then Unified.TimeInForceIOC
     else if bool_decide (TimeInForce order = TimeInForceFOK) then Unified.TimeInForceFOK
     else Unified.TimeInForceGTC)
    (if quote then "" else Amount order) (if quote then Amount order else "") (Price order) (ClientOrderID order).

Lemma gateio_symbol_valid market :
  valid_market market → currencyPairPattern (gateIOSymbol market) = assetLengths 2 20 market.
Proof. exact (pairPattern_joined underscore 2 20 market eq_refl). Qed.

#[local] Ltac eval_native :=
  cbv beta iota zeta delta [nativeOrder clientOrderIDOf toGateIOSide toGateIOTimeInForce set_field order_Market
    Unified.Side order_Type Unified.TimeInForce order_Quantity QuoteAmount order_Price Unified.ClientOrderID
    ClientOrderID CurrencyPair Type_ Account Side Amount Price TimeInForce]; eval_closed; cbv beta iota.

Lemma gateio_validate_nativeOrder generated request :
  valid_order request →
  is_Ok (PlaceOrderRequest_validate (nativeOrder generated request)) =
  clientOrderIDPattern (Unified.ClientOrderID request) && assetLengths 2 20 (order_Market request).
Proof.
  revert request. apply valid_order_cases; intros; order_kinds.
  all: pose proof (gateio_symbol_valid market H) as Hsymbol; order_facts; eval_native.
  all: unfold PlaceOrderRequest_validate, validatePositiveDecimal, validateCurrencyPair; eval_native.
  all: rewrite_facts; rewrite Hsymbol; eval_guards.
  all: by destruct (clientOrderIDPattern id), (assetLengths 2 20 market).
Qed.

#[export] Instance laws : SpotAdapterLaws.
Proof.
  split.
  - apply gateio_validate_nativeOrder.
  - unfold validateNative; simpl. intros order. change (validates (PlaceOrderRequest_validate order)).
    unfold PlaceOrderRequest_validate, validateCurrencyPair, validatePositiveDecimal. solve_validates.
  - done.
  - intros generated r1 r2. apply (@terms_iff adapter readback).
    + read_orders; order_facts; unfold nativeRequest; simpl; eval_native;
        rewrite_facts; by vm_compute.
    + same_market nativeOrder.
    + done.
  - intros * H. unfold placed in H. simpl in H. unfold fromGateIOPlacedOrder in H.
    repeat (apply result_bind_Ok in H as (? & _ & H)). by injection H as <-.
Qed.
End GateIO.
