(* ===== verification/HTXSpot.v ===== *)
(** * HTX Spot orders: [exchange/htx/requests.go] and [exchange/htx/unified.go] *)

From S2P Require Import Prelude GoStrings Decimals Errors Unified SpotAdapter ClientErrors.

Module HTX.
Definition SideBuy : string := "buy".
Definition SideSell : string := "sell".
Definition OrderKindMarket : string := "market".
Definition OrderKindLimit : string := "limit".
Definition OrderKindIOC : string := "ioc".
Definition OrderKindLimitMaker : string := "limit-maker".
Definition OrderKindLimitFOK : string := "limit-fok".
Definition QueryDirectionNext : string := "next".
Definition QueryDirectionPrev : string := "prev".

Abbreviation refuse b message := (require (negb b) (APIValidationError ExchangeHTX message)).

(** ** Native requests *)

Record NativePlaceOrder : Type := MkPlaceOrder {
  AccountID : string;
  ClientOrderID : string;
  Symbol : string;
  Side : string;
  Kind : string;
  Amount : string;
  Price : string;
  SelfMatchPrevent : bool
}.
#[export] Instance NativePlaceOrder_settable : Settable NativePlaceOrder := λ r,
  MkPlaceOrder (AccountID r) (ClientOrderID r) (Symbol r) (Side r) (Kind r) (Amount r) (Price r) (SelfMatchPrevent r).

Record NativeOrderInfo : Type := MkOrderInfo { info_OrderID : string; info_ClientOrderID : string }.

Record NativeCancelOrder : Type := MkCancelOrder {
  cancel_OrderID : string;
  cancel_ClientOrderID : string;
  cancel_Symbol : string
}.

Record NativeOpenOrders : Type := MkOpenOrders {
  open_AccountID : string;
  open_Symbol : string;
  open_Side : string;
  From : string;
  Direction : string;
  Size : Z
}.
#[export] Instance NativeOpenOrders_settable : Settable NativeOpenOrders := λ r,
  MkOpenOrders (open_AccountID r) (open_Symbol r) (open_Side r) (From r) (Direction r) (Size r).

(** [^[a-z0-9]{2,40}$], [^[0-9]{1,64}$], [^[0-9A-Za-z_-]{1,64}$]. *)
Definition symbolPattern : string → bool := matches (λ c, is_digit c || is_lower c) 2 40.
Definition accountIDPattern : string → bool := matches is_digit 1 64.
Definition orderIDPattern : string → bool := matches is_digit 1 64.
Definition clientOrderIDPattern : string → bool := matches (λ c, is_alphanumeric c || in_cutset "_-" c) 1 64.

Definition validateSymbol (symbol : string) : result error unit :=
  refuse (negb (symbolPattern symbol)) "invalid HTX symbol %q".

Definition validatePositiveDecimal (name value : string) : result error unit :=
  refuse (negb (positiveDecimalPattern value)) (name +:+ " must be a positive decimal string");;
  let invalid := APIValidationError ExchangeHTX (name +:+ " must be greater than zero") in
  match Rat_SetString value with
  | Some number => require (negb (bool_decide (Rat_Sign number ≤ 0))) invalid
  | None => Err invalid
  end.

Definition validateOrderIdentity (orderID clientOrderID : string) : result error unit :=
  refuse (eqb (unset orderID) (unset clientOrderID)) "exactly one order ID or client order ID is required";;
  refuse (negb (unset orderID) && negb (orderIDPattern orderID)) "invalid HTX order ID %q";;
  refuse (negb (unset clientOrderID) && negb (clientOrderIDPattern clientOrderID)) "invalid HTX client order ID %q".

Definition validateCursor (from direction : string) : result error unit :=
  refuse (unset from && negb (unset direction)) "query direction requires a cursor";;
  if negb (unset from) then
    refuse (negb (orderIDPattern from)) "invalid HTX cursor %q";;
    refuse (negb (bool_decide (direction = QueryDirectionNext)) && negb (bool_decide (direction = QueryDirectionPrev)))
      "cursor query direction must be next or prev"
  else Ok tt.

Definition OrderKind_valid (kind : string) : bool :=
  bool_decide (kind ∈ [OrderKindMarket; OrderKindLimit; OrderKindIOC; OrderKindLimitMaker; OrderKindLimitFOK]).

Definition OrderType_valid (value : string) : bool :=
  bool_decide (value ∈ ["buy-market"; "sell-market"; "buy-limit"; "sell-limit"; "buy-ioc"; "sell-ioc";
    "buy-limit-maker"; "sell-limit-maker"; "buy-limit-fok"; "sell-limit-fok"; "buy-stop-limit"; "sell-stop-limit";
    "buy-stop-limit-fok"; "sell-stop-limit-fok"]).

(** [PlaceOrderRequest.orderType]. *)
Definition orderType (request : NativePlaceOrder) : string := Side request +:+ "-" +:+ Kind request.

(** [PlaceOrderRequest.validate]. *)
Definition PlaceOrderRequest_validate (request : NativePlaceOrder) : result error unit :=
  refuse (negb (accountIDPattern (AccountID request))) "invalid HTX account ID %q";;
  refuse (negb (clientOrderIDPattern (ClientOrderID request)))
    "client order ID is required and must match [0-9A-Za-z_-]{1,64}";;
  validateSymbol (Symbol request);;
  refuse (negb (bool_decide (Side request = SideBuy)) && negb (bool_decide (Side request = SideSell)))
    "order side must be buy or sell";;
  refuse (negb (OrderKind_valid (Kind request))) "unsupported order kind %q";;
  validatePositiveDecimal "amount" (Amount request);;
  if bool_decide (Kind request = OrderKindMarket)
  then refuse (negb (unset (Price request))) "market order does not accept price"
  else validatePositiveDecimal "price" (Price request).

Definition OrderInfoRequest_validate (request : NativeOrderInfo) : result error unit :=
  validateOrderIdentity (info_OrderID request) (info_ClientOrderID request).

Definition CancelOrderRequest_validate (request : NativeCancelOrder) : result error unit :=
  validateOrderIdentity (cancel_OrderID request) (cancel_ClientOrderID request);;
  if negb (unset (cancel_Symbol request)) then validateSymbol (cancel_Symbol request) else Ok tt.

Definition OpenOrdersRequest_validate (request : NativeOpenOrders) : result error unit :=
  refuse (negb (unset (open_AccountID request)) && negb (accountIDPattern (open_AccountID request)))
    "invalid HTX account ID %q";;
  (if negb (unset (open_Symbol request)) then validateSymbol (open_Symbol request) else Ok tt);;
  refuse (negb (unset (open_Side request)) && negb (bool_decide (open_Side request = SideBuy)) &&
          negb (bool_decide (open_Side request = SideSell))) "open order side must be buy or sell";;
  validateCursor (From request) (Direction request);;
  refuse (bool_decide (Size request < 0) || bool_decide (500 < Size request))
    "open order size must be between 1 and 500 or zero".

(** ** The client *)

Record NativeOrder : Type := MkOrder {
  ord_ID : string;
  ord_ClientOrderID : string;
  ord_Symbol : string;
  ord_Amount : string;
  ord_Price : string;
  ord_Type : string;
  ord_FilledAmount : string;
  ord_State : string
}.

Record OrderReference : Type := MkReference { ref_OrderID : string; ref_ClientOrderID : string }.
Record AccountInfo : Type := MkAccount { acc_ID : string; acc_Type : string; acc_State : string }.
Record MarketSymbol : Type := MkSymbol { sym_Symbol : string; sym_BaseCurrency : string; sym_QuoteCurrency : string }.

Record Client (W : Type) : Type := MkClient {
  newHTXClientOrderID : io W string;
  Accounts : io W (list AccountInfo);
  MarketSymbols : io W (list MarketSymbol);
  sendPlaceOrder : NativePlaceOrder → io W OrderReference;
  sendOrderInfo : NativeOrderInfo → io W NativeOrder;
  sendCancelOrder : NativeCancelOrder → io W OrderReference;
  sendOpenOrders : NativeOpenOrders → io W (list NativeOrder)
}.
Arguments newHTXClientOrderID {W}.
Arguments Accounts {W}.
Arguments MarketSymbols {W}.
Arguments sendPlaceOrder {W}.
Arguments sendOrderInfo {W}.
Arguments sendCancelOrder {W}.
Arguments sendOpenOrders {W}.

(** ** The adapter *)

Definition htxSymbol (market : Market) : string := ToLowerText (Base market +:+ Quote market).

Definition marketFromHTXSymbol (symbol : MarketSymbol) : result error Market :=
  let market := MkMarket (ToUpperText (sym_BaseCurrency symbol)) (ToUpperText (sym_QuoteCurrency symbol)) in
  require (is_Ok (Market_Validate market) && bool_decide (htxSymbol market = sym_Symbol symbol))
    (Errorf "invalid HTX Spot symbol %q");;
  Ok market.

Definition toHTXSide (side : string) : string := if bool_decide (side = Unified.SideBuy) then SideBuy else SideSell.

Definition toHTXOrderKind (value : string) : string :=
  if bool_decide (value = TimeInForceIOC) then OrderKindIOC
  else if bool_decide (value = TimeInForceFOK) then OrderKindLimitFOK
  else if bool_decide (value = TimeInForcePostOnly) then OrderKindLimitMaker
  else OrderKindLimit.

Definition fromHTXOrderType (orderType : string) : result error (string * string) :=
  let side := if HasPrefix orderType "sell-" then Unified.SideSell else Unified.SideBuy in
  if negb (HasPrefix orderType "sell-") && negb (HasPrefix orderType "buy-") then
    Err (Errorf "unsupported HTX order type %q")
  else if bool_decide (orderType ∈ ["buy-market"; "sell-market"]) then Ok (side, Unified.OrderTypeMarket)
  else if negb (OrderType_valid orderType) then Err (Errorf "unsupported HTX order type %q")
  else Ok (side, Unified.OrderTypeLimit).

Definition fromHTXOrderStatus (status : string) : string :=
  if bool_decide (status ∈ ["created"; "submitted"]) then OrderStatusNew
  else if bool_decide (status = "partial-filled") then OrderStatusPartiallyFilled
  else if bool_decide (status = "filled") then OrderStatusFilled
  else if bool_decide (status ∈ ["partial-canceled"; "canceled"]) then OrderStatusCanceled
  else OrderStatusUnknown.

Definition fromHTXOrder (native : NativeOrder) (market : Market) : result error Order :=
  require (bool_decide (ord_Symbol native = htxSymbol market)) (Errorf "HTX order market %q does not match %q");;
  '(side, orderType) ← fromHTXOrderType (ord_Type native);
  let '(quantity, quoteAmount) :=
    if bool_decide (orderType = Unified.OrderTypeMarket) && bool_decide (side = Unified.SideBuy)
    then ("", ord_Amount native) else (ord_Amount native, "") in
  Ok (Unified.MkOrder ExchangeHTX (ord_ID native) (ord_ClientOrderID native) market (ord_Symbol native) side orderType
    (fromHTXOrderStatus (ord_State native)) (ord_Price native) quantity quoteAmount (ord_FilledAmount native)).

Definition mapHTXOrders (native : list NativeOrder) (markets : gmap string Market) : result error (list Order) :=
  mapM (λ item,
    match markets !! ord_Symbol item with
    | None => Err (Errorf "HTX open orders contains unexpected symbol %q")
    | Some market => fromHTXOrder item market
    end) native.

(** The order that [UnifiedSpot.PlaceOrder] has the client make, with a generated
    client order ID and the ID of the account, and what it returns. *)
Definition nativeOrder (account : string * string) (request : PlaceOrderRequest) : NativePlaceOrder :=
  let order := MkPlaceOrder account.2 (clientOrderIDOf account.1 request) (htxSymbol (order_Market request))
    (toHTXSide (Unified.Side request)) OrderKindMarket "" "" false in
  if bool_decide (order_Type request = Unified.OrderTypeLimit) then
    order <| Kind := toHTXOrderKind (TimeInForce request) |> <| Amount := order_Quantity request |>
      <| Price := order_Price request |>
  else if bool_decide (Unified.Side request = Unified.SideBuy) then order <| Amount := QuoteAmount request |>
  else order <| Amount := order_Quantity request |>.

Definition placedOrder (account : string * string) (request : PlaceOrderRequest) (reference : OrderReference) : Order :=
  Unified.MkOrder ExchangeHTX (ref_OrderID reference) (clientOrderIDOf account.1 request) (order_Market request)
    (htxSymbol (order_Market request)) (Unified.Side request) (order_Type request) OrderStatusAcknowledged
    (order_Price request) (order_Quantity request) (QuoteAmount request) "".

#[export] Instance adapter : SpotAdapter := {
  exchange := ExchangeHTX;
  nativeMarket := htxSymbol;
  supported _ := Ok tt;
  Account := string * string;
  SpotAdapter.NativeOrder := NativePlaceOrder;
  Reference := OrderReference;
  nativeRequest := nativeOrder;
  validateNative := PlaceOrderRequest_validate;
  placed account request reference := Ok (placedOrder account request reference);
  accepts account request :=
    accountIDPattern account.2 && clientOrderIDPattern (Unified.ClientOrderID request) &&
    symbolPattern (htxSymbol (order_Market request));
  unsetTimeInForce := Unified.TimeInForceGTC
}.

Section unified_spot.
Context {W : Type} (client : Client W).

(** [spotAccountID]: the account that works for Spot, of which there is one. *)
Definition selectAccount (accounts : list AccountInfo) : result error string :=
  accountID ← fold_result (λ accountID account,
    if bool_decide (acc_Type account = "spot") && bool_decide (acc_State account = "working") then
      require (unset accountID) (Errorf "HTX returned multiple working Spot accounts");;
      Ok (acc_ID account)
    else Ok accountID) "" accounts;
  require (negb (unset accountID)) (Errorf "HTX working Spot account was not found");;
  Ok accountID.

Definition spotAccountID : io W string :=
  accounts ← Accounts client;
  lift (selectAccount accounts).

Definition prepare (request : PlaceOrderRequest) : io W (string * string) :=
  generated ← generatedID (newHTXClientOrderID client) request;
  accountID ← spotAccountID;
  mret (generated, accountID).

Definition PlaceOrder : PlaceOrderRequest → io W Order :=
  SpotAdapter.PlaceOrder prepare (clientPlaceOrder (sendPlaceOrder client)).

Definition OrderInfo (request : OrderRequest) : io W Order :=
  lift (OrderRequest_Validate request);;
  native ← validated OrderInfoRequest_validate (sendOrderInfo client)
    (MkOrderInfo (OrderID request) (request_ClientOrderID request));
  lift (fromHTXOrder native (request_Market request)).

Definition CancelOrder (request : OrderRequest) : io W Order :=
  lift (OrderRequest_Validate request);;
  reference ← validated CancelOrderRequest_validate (sendCancelOrder client)
    (MkCancelOrder (OrderID request) (request_ClientOrderID request) (htxSymbol (request_Market request)));
  let orderID := if unset (ref_OrderID reference) then OrderID request else ref_OrderID reference in
  let clientOrderID := if unset (ref_ClientOrderID reference) then request_ClientOrderID request
                       else ref_ClientOrderID reference in
  mret (Unified.MkOrder ExchangeHTX orderID clientOrderID (request_Market request)
    (htxSymbol (request_Market request)) "" "" OrderStatusCancelPending "" "" "" "").

(** [htxUnifiedOpenOrderPageSize]. *)
Definition pageSize : nat := 500.

(** The markets that an open order can be of: all of [Markets], or the one asked for. *)
Definition orderMarkets (request : OpenOrdersRequest) : io W (gmap string Market) :=
  match open_Market request with
  | Some market => mret {[htxSymbol market := market]}
  | None =>
      symbols ← MarketSymbols client;
      items ← lift (mapM (λ symbol, market ← marketFromHTXSymbol symbol; Ok (sym_Symbol symbol, market)) symbols);
      mret (foldl (λ markets item, <[item.1 := item.2]> markets) ∅ items)
  end.

(** At most [pages] pages, from the one that [native] asks for. *)
Fixpoint openPages (pages : nat) (markets : gmap string Market) (native : NativeOpenOrders) (seen : gset string)
    (orders : list Order) : io W (list Order) :=
  match pages with
  | O => lift (Err (Errorf "HTX open orders exceed the supported page limit"))
  | S pages =>
      page ← validated OpenOrdersRequest_validate (sendOpenOrders client) native;
      mapped ← lift (mapHTXOrders page markets);
      let orders := orders ++ mapped in
      if bool_decide (length page < pageSize)%nat then mret orders
      else
        let cursor := match last page with Some item => ord_ID item | None => "" end in
        lift (require (negb (unset cursor)) (Errorf "HTX open order page is missing a cursor"));;
        lift (require (negb (bool_decide (cursor ∈ seen))) (Errorf "HTX open order cursor %q repeated"));;
        openPages pages markets (native <| From := cursor |> <| Direction := QueryDirectionNext |>)
          ({[cursor]} ∪ seen) orders
  end.

Definition OpenOrders (request : OpenOrdersRequest) : io W (list Order) :=
  lift (OpenOrdersRequest_Validate request);;
  markets ← orderMarkets request;
  accountID ← spotAccountID;
  let symbol := match open_Market request with Some market => htxSymbol market | None => "" end in
  openPages 100 markets (MkOpenOrders accountID symbol "" "" "" (Z.of_nat pageSize)) ∅ [].
End unified_spot.

(** ** The laws *)

Definition readback (order : NativePlaceOrder) : OrderTerms :=
  let market := bool_decide (Kind order = OrderKindMarket) in
  let quote := market && bool_decide (Side order = SideBuy) in
  MkTerms (Symbol order) (if bool_decide (Side order = SideBuy) then Unified.SideBuy else Unified.SideSell)
    (if market then Unified.OrderTypeMarket else Unified.OrderTypeLimit)
    (if bool_decide (Kind order = OrderKindLimitMaker) then TimeInForcePostOnly
     else if bool_decide (Kind order = OrderKindIOC) then TimeInForceIOC
     else if bool_decide (Kind order = OrderKindLimitFOK) then TimeInForceFOK
     else TimeInForceGTC)
    (if quote then "" else Amount order) (if quote then Amount order else "") (Price order) (ClientOrderID order).

Lemma htx_validatePositiveDecimal_Ok name value : positive value → validatePositiveDecimal name value = Ok tt.
Proof.
  intros H. unfold validatePositiveDecimal. destruct (positive_Rat _ H) as (q & -> & ->).
  by destruct (positive_Ok _ H) as (_ & _ & -> & _).
Qed.

#[local] Ltac eval_native :=
  cbv beta iota zeta delta [nativeOrder clientOrderIDOf toHTXSide toHTXOrderKind set_field order_Market
    Unified.Side order_Type Unified.TimeInForce order_Quantity QuoteAmount order_Price Unified.ClientOrderID
    AccountID ClientOrderID Symbol Side Kind Amount Price SelfMatchPrevent]; eval_closed; cbv beta iota.

Lemma htx_validate_nativeOrder account request :
  valid_order request →
  is_Ok (PlaceOrderRequest_validate (nativeOrder account request)) =
  accountIDPattern account.2 && clientOrderIDPattern (Unified.ClientOrderID request) &&
  symbolPattern (htxSymbol (order_Market request)).
Proof.
  revert request. apply valid_order_cases; intros; order_kinds.
  all: repeat match goal with
    | H : positive ?v |- _ =>
        pose proof (λ name, htx_validatePositiveDecimal_Ok name v H); apply positive_Ok in H as (_ & ? & _ & _)
    end; order_facts; eval_native.
  all: unfold PlaceOrderRequest_validate, validateSymbol, OrderKind_valid; eval_native; rewrite_facts; eval_guards.
  all: by destruct (accountIDPattern account.2), (clientOrderIDPattern id), (symbolPattern (htxSymbol market)).
Qed.

#[export] Instance laws : SpotAdapterLaws.
Proof.
  split.
  - apply htx_validate_nativeOrder.
  - unfold validateNative; simpl. intros order. change (validates (PlaceOrderRequest_validate order)).
    unfold PlaceOrderRequest_validate, validateSymbol, validatePositiveDecimal. solve_validates.
  - done.
  - intros account r1 r2. apply (@terms_iff adapter readback).
    + read_orders; order_facts; unfold nativeRequest; simpl; eval_native;
        rewrite_facts; unfold terms; cbn [nativeMarket adapter order_Market]; generalize (htxSymbol market); intros;
        by vm_compute.
    + same_market nativeOrder.
    + done.
  - by intros * [= <-].
Qed.
End HTX.
