(* ===== verification/CoinbaseSpot.v ===== *)
(** * Coinbase Spot orders: [exchange/coinbase/requests.go] and [exchange/coinbase/unified.go] *)

From S2P Require Import Prelude GoStrings Decimals Errors Unified SpotAdapter Pages ClientErrors.

Module Coinbase.
Definition SideBuy : string := "BUY".
Definition SideSell : string := "SELL".

Abbreviation refuse b message := (require (negb b) (APIValidationError ExchangeCoinbase message)).

(** ** Native requests *)

Record MarketIOCConfiguration : Type := MkMarketIOC { QuoteSize : string; market_BaseSize : string }.
Record LimitGTCConfiguration : Type := MkLimitGTC {
  gtc_BaseSize : string;
  gtc_LimitPrice : string;
  PostOnly : bool
}.

(** [SORLimitIOCConfiguration] and [LimitFOKConfiguration]. *)
Record LimitConfiguration : Type := MkLimit { BaseSize : string; LimitPrice : string }.

Record OrderConfiguration : Type := MkConfiguration {
  MarketMarketIOC : option MarketIOCConfiguration;
  LimitLimitGTC : option LimitGTCConfiguration;
  SORLimitIOC : option LimitConfiguration;
  LimitLimitFOK : option LimitConfiguration
}.

Record NativePlaceOrder : Type := MkPlaceOrder {
  ClientOrderID : string;
  ProductID : string;
  Side : string;
  Configuration : OrderConfiguration
}.

Record CancelOrdersRequest : Type := MkCancelOrders { OrderIDs : list string }.

(** Times in nanoseconds. *)
Record OrdersRequest : Type := MkOrders {
  ProductIDs : list string;
  OrderStatuses : list string;
  Start : option Z;
  End_ : option Z;
  OrderSide : string;
  Limit : Z;
  Cursor : string
}.
#[export] Instance OrdersRequest_settable : Settable OrdersRequest := λ r,
  MkOrders (ProductIDs r) (OrderStatuses r) (Start r) (End_ r) (OrderSide r) (Limit r) (Cursor r).

Definition validateRequiredText (name value : string) : result error unit :=
  refuse (unset (TrimSpace value) || negb (bool_decide (TrimSpace value = value)) || negb (no_control value))
    (name +:+ " is required without surrounding whitespace or control characters").
Definition validateOptionalText (name value : string) : result error unit :=
  if unset value then Ok tt else validateRequiredText name value.

Definition isPositiveDecimal (value : string) : bool := positiveDecimalPattern value && negb (decimalIsZero value).

Definition validateTextList (name : string) (values : list string) (maximum : nat) : result error unit :=
  refuse (bool_decide (maximum < length values)%nat) "%s list cannot exceed %d items";;
  fold_result (λ (seen : list string) value,
    validateRequiredText name value;;
    refuse (bool_decide (value ∈ seen)) "duplicate %s %q";;
    Ok (value :: seen)) [] values;;
  Ok tt.

(** [OrderConfiguration.validate]. *)
Definition validateLimit (limit : option LimitConfiguration) (message : string) : result error unit :=
  match limit with
  | Some limit => refuse (negb (isPositiveDecimal (BaseSize limit)) || negb (isPositiveDecimal (LimitPrice limit))) message
  | None => Ok tt
  end.

Definition count {A} (o : option A) : nat := match o with Some _ => 1%nat | None => 0%nat end.

Definition OrderConfiguration_validate (configuration : OrderConfiguration) : result error unit :=
  match MarketMarketIOC configuration with
  | Some market =>
      refuse (eqb (unset (QuoteSize market)) (unset (market_BaseSize market)))
        "market order must set exactly one of quote size or base size";;
      refuse (negb (unset (QuoteSize market)) && negb (isPositiveDecimal (QuoteSize market)) ||
              negb (unset (market_BaseSize market)) && negb (isPositiveDecimal (market_BaseSize market)))
        "market order size must be a positive decimal string"
  | None => Ok tt
  end;;
  match LimitLimitGTC configuration with
  | Some limit =>
      refuse (negb (isPositiveDecimal (gtc_BaseSize limit)) || negb (isPositiveDecimal (gtc_LimitPrice limit)))
        "limit order size and price must be positive decimal strings"
  | None => Ok tt
  end;;
  validateLimit (SORLimitIOC configuration) "SOR IOC order size and price must be positive decimal strings";;
  validateLimit (LimitLimitFOK configuration) "FOK order size and price must be positive decimal strings";;
  let n := (count (MarketMarketIOC configuration) + count (LimitLimitGTC configuration) +
            count (SORLimitIOC configuration) + count (LimitLimitFOK configuration))%nat in
  refuse (negb (bool_decide (n = 1%nat))) "exactly one supported order configuration is required".

(** [PlaceOrderRequest.validate]. *)
Definition PlaceOrderRequest_validate (request : NativePlaceOrder) : result error unit :=
  validateRequiredText "client order ID" (ClientOrderID request);;
  refuse (bool_decide (64 < String.length (ClientOrderID request))%nat) "client order ID cannot exceed 64 bytes";;
  validateRequiredText "product ID" (ProductID request);;
  refuse (negb (bool_decide (Side request = SideBuy)) && negb (bool_decide (Side request = SideSell)))
    "order side must be BUY or SELL";;
  OrderConfiguration_validate (Configuration request).

Definition CancelOrdersRequest_validate (request : CancelOrdersRequest) : result error unit :=
  refuse (bool_decide (OrderIDs request = []) || bool_decide (100 < length (OrderIDs request))%nat)
    "cancel request requires between 1 and 100 order IDs";;
  validateTextList "order ID" (OrderIDs request) 100.

Definition validateTimeRange (start end_ : option Z) : result error unit :=
  match start, end_ with
  | Some start, Some end_ => refuse (bool_decide (end_ < start)) "start time cannot be after end time"
  | _, _ => Ok tt
  end.

Definition validatePage (limit maximum : Z) (cursor : string) : result error unit :=
  refuse (bool_decide (limit < 0) || bool_decide (maximum < limit))
    "page limit must be between 1 and %d or zero for default";;
  validateOptionalText "cursor" cursor.

Definition OrdersRequest_validate (request : OrdersRequest) : result error unit :=
  validateTextList "product ID" (ProductIDs request) 100;;
  validateTextList "order status" (OrderStatuses request) 20;;
  validateTimeRange (Start request) (End_ request);;
  refuse (negb (unset (OrderSide request)) && negb (bool_decide (OrderSide request = SideBuy)) &&
          negb (bool_decide (OrderSide request = SideSell))) "order side must be BUY, SELL, or empty";;
  validatePage (Limit request) 1000 (Cursor request).

(** ** The client *)

Record NativeOrder : Type := MkOrder {
  ord_OrderID : string;
  ord_ProductID : string;
  ord_ClientOrderID : string;
  ord_Side : string;
  ord_Status : string;
  ord_OrderType : string;
  ord_FilledSize : string;
  ord_Configuration : OrderConfiguration
}.

Record OrderReference : Type := MkReference {
  ref_OrderID : string;
  ref_ProductID : string;
  ref_ClientOrderID : string
}.
Record CancelResult : Type := MkCancelResult { result_Success : bool; result_FailureReason : string; result_OrderID : string }.
Record OrderPage : Type := MkPage { Orders : list NativeOrder; HasNext : bool; page_Cursor : string }.

(** [OrderInfo] validates the ID that it puts into its path. *)
Record Client (W : Type) : Type := MkClient {
  random : io W string;
  sendPlaceOrder : NativePlaceOrder → io W OrderReference;
  nativeOrderInfo : string → io W NativeOrder;
  sendCancelOrders : CancelOrdersRequest → io W (list CancelResult);
  sendOrders : OrdersRequest → io W OrderPage
}.
Arguments random {W}.
Arguments sendPlaceOrder {W}.
Arguments nativeOrderInfo {W}.
Arguments sendCancelOrders {W}.
Arguments sendOrders {W}.

(** ** The adapter *)

Definition coinbaseProductID (market : Market) : string := Base market +:+ "-" +:+ Quote market.

Definition fromCoinbaseProductID (value : string) : result error Market :=
  match Split (Ascii.ascii_of_N 45) value with
  | [base; quote] =>
      let market := MkMarket base quote in
      match Market_Validate market with
      | Ok _ => Ok market
      | Err err => Err (Wrapf "invalid Coinbase Spot product ID %q: %w" err)
      end
  | _ => Err (Errorf "invalid Coinbase Spot product ID %q")
  end.

Definition toCoinbaseSide (side : string) : string := if bool_decide (side = Unified.SideBuy) then SideBuy else SideSell.
Definition toUnifiedCoinbaseSide (side : string) : string :=
  if bool_decide (side = SideBuy) then Unified.SideBuy else Unified.SideSell.

(** Price, quantity, quote amount and type. *)
Definition coinbaseOrderValues (native : NativeOrder) : string * string * string * string :=
  let configuration := ord_Configuration native in
  match MarketMarketIOC configuration, SORLimitIOC configuration, LimitLimitFOK configuration,
        LimitLimitGTC configuration with
  | Some market, _, _, _ => ("", market_BaseSize market, QuoteSize market, OrderTypeMarket)
  | None, Some limit, _, _ => (LimitPrice limit, BaseSize limit, "", OrderTypeLimit)
  | None, None, Some limit, _ => (LimitPrice limit, BaseSize limit, "", OrderTypeLimit)
  | None, None, None, Some limit => (gtc_LimitPrice limit, gtc_BaseSize limit, "", OrderTypeLimit)
  | None, None, None, None =>
      ("", "", "", if bool_decide (ord_OrderType native = "MARKET") then OrderTypeMarket else OrderTypeLimit)
  end.

Definition toUnifiedCoinbaseStatus (status filledSize : string) : string :=
  if bool_decide (status ∈ ["PENDING"; "QUEUED"; "CANCEL_QUEUED"; "EDIT_QUEUED"]) then OrderStatusNew
  else if bool_decide (status = "OPEN") then
    if isPositiveDecimal filledSize then OrderStatusPartiallyFilled else OrderStatusNew
  else if bool_decide (status = "FILLED") then OrderStatusFilled
  else if bool_decide (status = "CANCELLED") then OrderStatusCanceled
  else if bool_decide (status = "EXPIRED") then OrderStatusExpired
  else if bool_decide (status = "FAILED") then OrderStatusRejected
  else OrderStatusUnknown.

Definition fromCoinbaseOrder (native : NativeOrder) (market : Market) : Order :=
  let '(price, quantity, quoteAmount, orderType) := coinbaseOrderValues native in
  Unified.MkOrder ExchangeCoinbase (ord_OrderID native) (ord_ClientOrderID native) market (ord_ProductID native)
    (toUnifiedCoinbaseSide (ord_Side native)) orderType
    (toUnifiedCoinbaseStatus (ord_Status native) (ord_FilledSize native)) price quantity quoteAmount
    (ord_FilledSize native).

(** The order that [UnifiedSpot.PlaceOrder] has the client make, and what it returns. *)
Definition configurationOf (request : PlaceOrderRequest) : OrderConfiguration :=
  if bool_decide (order_Type request = OrderTypeMarket) then
    let configuration := if bool_decide (Unified.Side request = Unified.SideBuy)
                         then MkMarketIOC (QuoteAmount request) "" else MkMarketIOC "" (order_Quantity request) in
    MkConfiguration (Some configuration) None None None
  else if bool_decide (TimeInForce request = TimeInForceIOC) then
    MkConfiguration None None (Some (MkLimit (order_Quantity request) (order_Price request))) None
  else if bool_decide (TimeInForce request = TimeInForceFOK) then
    MkConfiguration None None None (Some (MkLimit (order_Quantity request) (order_Price request)))
  else
    MkConfiguration None (Some (MkLimitGTC (order_Quantity request) (order_Price request)
      (bool_decide (TimeInForce request = TimeInForcePostOnly)))) None None.

Definition nativeOrder (generated : string) (request : PlaceOrderRequest) : NativePlaceOrder :=
  MkPlaceOrder (clientOrderIDOf generated request) (coinbaseProductID (order_Market request))
    (toCoinbaseSide (Unified.Side request)) (configurationOf request).

Definition placedOrder (request : PlaceOrderRequest) (reference : OrderReference) : Order :=
  Unified.MkOrder ExchangeCoinbase (ref_OrderID reference) (ref_ClientOrderID reference) (order_Market request)
    (ref_ProductID reference) (Unified.Side request) (order_Type request) OrderStatusAcknowledged
    (order_Price request) (order_Quantity request) (QuoteAmount request) "".

#[export] Instance adapter : SpotAdapter := {
  exchange := ExchangeCoinbase;
  nativeMarket := coinbaseProductID;
  supported _ := Ok tt;
  Account := string;
  SpotAdapter.NativeOrder := NativePlaceOrder;
  Reference := OrderReference;
  nativeRequest := nativeOrder;
  validateNative := PlaceOrderRequest_validate;
  placed _ request reference := Ok (placedOrder request reference);
  accepts _ request :=
    no_control (Unified.ClientOrderID request) && bool_decide (String.length (Unified.ClientOrderID request) ≤ 64)%nat;
  unsetTimeInForce := Unified.TimeInForceGTC
}.

Section unified_spot.
Context {W : Type} (client : Client W).

(** [coinbaseClientOrderID] draws on the client's source of random bytes. *)
Definition PlaceOrder : PlaceOrderRequest → io W Order :=
  SpotAdapter.PlaceOrder (generatedID (random client)) (clientPlaceOrder (sendPlaceOrder client)).

Definition ordersPage (request : OrdersRequest) (cursor : string) : io W OrderPage :=
  validated OrdersRequest_validate (sendOrders client) (request <| Cursor := cursor |>).

(** [advanceCoinbaseOrderCursor], less the set of cursors that [collect] keeps. *)
Definition nextPage (page : OrderPage) : result error (option string) :=
  if HasNext page then
    if unset (page_Cursor page) then Err (Errorf "Coinbase orders cursor is empty while has_next is true")
    else Ok (Some (page_Cursor page))
  else Ok None.
Definition repeatedCursor : error := Errorf "Coinbase orders returned a repeated cursor".

(** The loop of [resolveCoinbaseOrder] over the pages of the market's orders. *)
Definition ordersOf (market : Market) : OrdersRequest := MkOrders [coinbaseProductID market] [] None None "" 1000 "".

Fixpoint searchPages (fuel : nat) (request : OrderRequest) (seen : gset string) (cursor : string) (w : W)
    : option (result error NativeOrder * W) :=
  match fuel with
  | O => None
  | S fuel =>
      let '(page, w) := ordersPage (ordersOf (request_Market request)) cursor w in
      match page with
      | Err err => Some (Err err, w)
      | Ok page =>
          match list_find (λ native, ord_ClientOrderID native = request_ClientOrderID request) (Orders page) with
          | Some (_, native) => Some (Ok native, w)
          | None =>
              match nextPage page with
              | Err err => Some (Err err, w)
              | Ok None => Some (Err (Errorf "Coinbase order with client ID %q was not found"), w)
              | Ok (Some cursor) =>
                  if bool_decide (cursor ∈ seen) then Some (Err repeatedCursor, w)
                  else searchPages fuel request ({[cursor]} ∪ seen) cursor w
              end
          end
      end
  end.

Definition resolveCoinbaseOrder (fuel : nat) (request : OrderRequest) (w : W) : option (result error NativeOrder * W) :=
  if unset (OrderID request) then searchPages fuel request ∅ "" w
  else Some (nativeOrderInfo client (OrderID request) w).

Definition OrderInfo (fuel : nat) (request : OrderRequest) (w : W) : option (result error Order * W) :=
  match OrderRequest_Validate request with
  | Err err => Some (Err err, w)
  | Ok _ =>
      match resolveCoinbaseOrder fuel request w with
      | Some (Ok native, w) => Some (Ok (fromCoinbaseOrder native (request_Market request)), w)
      | Some (Err err, w) => Some (Err err, w)
      | None => None
      end
  end.

(** The cancellation of an order that is known by its ID. *)
Definition cancelResolved (request : OrderRequest) (orderID clientOrderID : string) : io W Order :=
  results ← validated CancelOrdersRequest_validate (sendCancelOrders client) (MkCancelOrders [orderID]);
  lift (match results with
        | [result] =>
            require (bool_decide (result_OrderID result = orderID))
              (Errorf "Coinbase cancel response does not match order %q");;
            require (result_Success result) (Errorf "Coinbase cancel order %q failed: %s");;
            Ok (Unified.MkOrder ExchangeCoinbase orderID clientOrderID (request_Market request)
              (coinbaseProductID (request_Market request)) "" "" OrderStatusCancelPending "" "" "" "")
        | _ => Err (Errorf "Coinbase cancel response does not match order %q")
        end).

Definition CancelOrder (fuel : nat) (request : OrderRequest) (w : W) : option (result error Order * W) :=
  match OrderRequest_Validate request with
  | Err err => Some (Err err, w)
  | Ok _ =>
      if unset (OrderID request) then
        match resolveCoinbaseOrder fuel request w with
        | Some (Ok native, w) => Some (cancelResolved request (ord_OrderID native) (ord_ClientOrderID native) w)
        | Some (Err err, w) => Some (Err err, w)
        | None => None
        end
      else Some (cancelResolved request (OrderID request) (request_ClientOrderID request) w)
  end.

Definition openOrdersRequest (request : OpenOrdersRequest) : OrdersRequest :=
  MkOrders (match open_Market request with Some market => [coinbaseProductID market] | None => [] end)
    ["PENDING"; "OPEN"; "QUEUED"; "CANCEL_QUEUED"; "EDIT_QUEUED"] None None "" 1000 "".

Definition readOrder (request : OpenOrdersRequest) (native : NativeOrder) : result error Order :=
  market ← (if AllMarkets request then fromCoinbaseProductID (ord_ProductID native)
            else Ok (default (MkMarket "" "") (open_Market request)));
  Ok (fromCoinbaseOrder native market).

Definition OpenOrders (fuel : nat) (request : OpenOrdersRequest) (w : W) : option (result error (list Order) * W) :=
  match OpenOrdersRequest_Validate request with
  | Err err => Some (Err err, w)
  | Ok _ =>
      collect (ordersPage (openOrdersRequest request)) (λ page, mapM (readOrder request) (Orders page)) nextPage
        repeatedCursor fuel ∅ "" [] w
  end.
End unified_spot.

(** ** The laws *)

Definition readback (order : NativePlaceOrder) : OrderTerms :=
  let '(price, quantity, quoteAmount, orderType) :=
    coinbaseOrderValues (MkOrder "" "" "" "" "" "" "" (Configuration order)) in
  MkTerms (ProductID order) (toUnifiedCoinbaseSide (Side order)) orderType
    (match Configuration order with
     | MkConfiguration _ (Some limit) _ _ => if PostOnly limit then TimeInForcePostOnly else TimeInForceGTC
     | MkConfiguration _ _ (Some _) _ => TimeInForceIOC
     | MkConfiguration _ _ _ (Some _) => TimeInForceFOK
     | _ => TimeInForceGTC
     end) quantity quoteAmount price (ClientOrderID order).

Lemma coinbase_required_visible name s : s ≠ "" → string_forall is_visible s = true → validateRequiredText name s = Ok tt.
Proof.
  intros Hs Hv. unfold validateRequiredText.
  rewrite no_control_visible by done.
  rewrite TrimSpace_visible, (bool_decide_eq_false_2 (s = "")), bool_decide_eq_true_2 by done. done.
Qed.

Lemma coinbase_productID_valid name market :
  valid_market market → validateRequiredText name (coinbaseProductID market) = Ok tt.
Proof. intros H. apply coinbase_required_visible; by apply (visible_market "-" market). Qed.

Lemma coinbase_required_trimmed name s :
  bool_decide (s = "") = false → TrimSpace s = s → is_Ok (validateRequiredText name s) = no_control s.
Proof.
  intros Hs Ht. unfold validateRequiredText. rewrite Ht, Hs, bool_decide_eq_true_2 by done. by destruct (no_control s).
Qed.

Lemma coinbase_isPositive value : positive value → isPositiveDecimal value = true ∧ bool_decide (value = "") = false.
Proof. intros (_ & H & Hp & Hz)%positive_Ok. unfold isPositiveDecimal. by rewrite Hp, Hz. Qed.

#[local] Ltac eval_native :=
  cbv beta iota zeta delta [nativeOrder clientOrderIDOf configurationOf toCoinbaseSide order_Market Unified.Side
    order_Type TimeInForce order_Quantity QuoteAmount order_Price Unified.ClientOrderID ClientOrderID ProductID Side
    Configuration MarketMarketIOC LimitLimitGTC SORLimitIOC LimitLimitFOK QuoteSize market_BaseSize gtc_BaseSize
    gtc_LimitPrice BaseSize LimitPrice count validateLimit]; eval_closed;
  cbv beta iota.

Lemma coinbase_validate_nativeOrder generated request :
  valid_order request →
  is_Ok (PlaceOrderRequest_validate (nativeOrder generated request)) =
  no_control (Unified.ClientOrderID request) && bool_decide (String.length (Unified.ClientOrderID request) ≤ 64)%nat.
Proof.
  revert request. apply valid_order_cases; intros; order_kinds.
  all: pose proof (coinbase_productID_valid "product ID" market H) as Hproduct.
  all: repeat match goal with H : positive _ |- _ => apply coinbase_isPositive in H as [? ?] end; order_facts.
  all: eval_native; unfold PlaceOrderRequest_validate, OrderConfiguration_validate; eval_native.
  all: repeat match goal with
         | H : bool_decide _ = false |- _ => rewrite H | H : isPositiveDecimal _ = _ |- _ => rewrite H
         end.
  all: rewrite is_Ok_bind, coinbase_required_trimmed by done; eval_guards.
  all: f_equal; rewrite <-bool_decide_not; apply bool_decide_ext; lia.
Qed.

#[export] Instance laws : SpotAdapterLaws.
Proof.
  split.
  - intros generated request. apply coinbase_validate_nativeOrder.
  - unfold validateNative; simpl. intros order. change (validates (PlaceOrderRequest_validate order)).
    unfold PlaceOrderRequest_validate, validateRequiredText, OrderConfiguration_validate, validateLimit. solve_validates.
  - done.
  - intros generated r1 r2. apply (@terms_iff adapter readback).
    + read_orders; order_facts; unfold nativeRequest; simpl; eval_native;
        rewrite_facts; by vm_compute.
    + same_market nativeOrder.
    + done.
  - by intros * [= <-].
Qed.
(** The product ID of a market names it. *)
Lemma fromCoinbaseProductID_spec market :
  valid_market market → fromCoinbaseProductID (coinbaseProductID market) = Ok market.
Proof.
  intros H. unfold fromCoinbaseProductID, coinbaseProductID.
  assert (Split (Ascii.ascii_of_N 45) (Base market +:+ "-" +:+ Quote market) = [Base market; Quote market]) as ->
    by exact (Split_joined (Ascii.ascii_of_N 45) market eq_refl H).
  destruct market as [base quote]. apply (Market_Validate_Ok _ tt) in H. cbn [Base Quote]. cbv zeta. by rewrite H.
Qed.
End Coinbase.
