(* ===== verification/KrakenSpot.v ===== *)
(** * Kraken Spot orders: [exchange/kraken/requests.go] and [exchange/kraken/unified.go] *)

From S2P Require Import Prelude GoStrings Decimals Errors Unified SpotAdapter ClientErrors.

Module Kraken.
Definition SideBuy : string := "buy".
Definition SideSell : string := "sell".
Definition OrderTypeMarket : string := "market".
Definition OrderTypeLimit : string := "limit".
Definition TimeInForceGTC : string := "GTC".
Definition TimeInForceIOC : string := "IOC".
Definition TimeInForceFOK : string := "FOK".

Abbreviation refuse b message := (require (negb b) (APIValidationError ExchangeKraken message)).

(** ** Native requests *)

Record NativePlaceOrder : Type := MkPlaceOrder {
  Pair : string;
  Side : string;
  OrderType : string;
  TimeInForce : string;
  Volume : string;
  Price : string;
  ClientOrderID : string;
  PostOnly : bool;
  VolumeInQuote : bool;
  ValidateOnly : bool
}.
#[export] Instance NativePlaceOrder_settable : Settable NativePlaceOrder := λ r,
  MkPlaceOrder (Pair r) (Side r) (OrderType r) (TimeInForce r) (Volume r) (Price r) (ClientOrderID r) (PostOnly r)
    (VolumeInQuote r) (ValidateOnly r).

Record NativeCancelOrder : Type := MkCancelOrder {
  cancel_TransactionID : string;
  cancel_ClientOrderID : string;
  cancel_Pair : string
}.

Record NativeOrderInfo : Type := MkOrderInfo { TransactionIDs : list string; info_IncludeTrades : bool }.
Record NativeOpenOrders : Type := MkOpenOrders { open_IncludeTrades : bool; open_ClientOrderID : string }.

(** Times in nanoseconds from the zero [time.Time] on. *)
Record NativeClosedOrders : Type := MkClosedOrders {
  closed_IncludeTrades : bool;
  closed_ClientOrderID : string;
  Start : option Z;
  End_ : option Z;
  Offset : Z;
  CloseTime : string
}.

(** [^[0-9A-Za-z._/-]+$], [^[0-9A-Za-z-]+$], [^[0-9A-Za-z_-]{1,18}$]. *)
Definition pairPattern (s : string) : bool :=
  negb (unset s) && string_forall (λ c, is_alphanumeric c || in_cutset "._/-" c) s.
Definition transactionIDPattern (s : string) : bool :=
  negb (unset s) && string_forall (λ c, is_alphanumeric c || in_cutset "-" c) s.
Definition shortClientIDPattern : string → bool := matches (λ c, is_alphanumeric c || in_cutset "_-" c) 1 18.

(** [n] hexadecimal digits at the start of a text, and a hyphen that may follow them. *)
Definition is_hex (c : ascii) : bool := is_digit c || in_range 65 70 c || in_range 97 102 c.
Fixpoint hex_digits (n : nat) (s : string) : option string :=
  match n, s with
  | O, _ => Some s
  | S n, String c s => if is_hex c then hex_digits n s else None
  | S _, EmptyString => None
  end.
Definition maybe_hyphen (s : string) : string :=
  match s with
  | String c rest => if bool_decide (c = byte 45) then rest else s
  | EmptyString => s
  end.

(** [^[0-9A-Fa-f]{8}-?[0-9A-Fa-f]{4}-?[0-9A-Fa-f]{4}-?[0-9A-Fa-f]{4}-?[0-9A-Fa-f]{12}$]. *)
Definition uuidClientIDPattern (s : string) : bool :=
  match
    s ← hex_digits 8 s; s ← hex_digits 4 (maybe_hyphen s); s ← hex_digits 4 (maybe_hyphen s);
    s ← hex_digits 4 (maybe_hyphen s); hex_digits 12 (maybe_hyphen s)
  with
  | Some rest => unset rest
  | None => false
  end.

Definition validateRequiredText (name value : string) : result error unit :=
  refuse (unset (TrimSpace value) || negb (no_control value))
    (name +:+ " is required and cannot contain control characters").

(** [strings.Contains(s, "..")]. *)
Fixpoint two_dots (s : string) : bool :=
  match s with
  | String a (String b _ as rest) => bool_decide (a = dot) && bool_decide (b = dot) || two_dots rest
  | _ => false
  end.

Definition validatePair (pair : string) : result error unit :=
  validateRequiredText "pair" pair;;
  refuse (negb (pairPattern pair) || two_dots pair) "pair contains unsupported characters".

Definition validClientOrderID (value : string) : bool := shortClientIDPattern value || uuidClientIDPattern value.
Definition validateClientOrderID (value : string) : result error unit :=
  refuse (negb (unset value) && negb (validClientOrderID value))
    "client order ID must be up to 18 safe characters or a UUID".

Definition validateTimeRange (start end_ : option Z) : result error unit :=
  refuse (bool_decide (start = Some 0) || bool_decide (end_ = Some 0)) "time range values cannot be zero";;
  match start, end_ with
  | Some start, Some end_ => refuse (negb (bool_decide (start < end_))) "start time must be before end time"
  | _, _ => Ok tt
  end.

Definition isPositiveDecimal (value : string) : bool :=
  positiveDecimalPattern value && negb (string_forall (λ c, negb (in_range 49 57 c)) value).

(** [PlaceOrderRequest.validate]. *)
Definition PlaceOrderRequest_validate (request : NativePlaceOrder) : result error unit :=
  let limit := bool_decide (OrderType request = OrderTypeLimit) in
  let market := bool_decide (OrderType request = OrderTypeMarket) in
  let unsetTIF := unset (TimeInForce request) in
  let gtc := bool_decide (TimeInForce request = TimeInForceGTC) in
  validatePair (Pair request);;
  refuse (negb (bool_decide (Side request = SideBuy)) && negb (bool_decide (Side request = SideSell)))
    "order side must be buy or sell";;
  refuse (negb market && negb limit) "first Kraken Spot scope supports market and limit orders only";;
  refuse (negb (isPositiveDecimal (Volume request))) "order volume must be a positive decimal string";;
  refuse (limit && negb (isPositiveDecimal (Price request))) "limit order price must be a positive decimal string";;
  refuse (market && negb (unset (Price request))) "market order cannot include price";;
  refuse (PostOnly request && negb limit) "post-only is available for limit orders only";;
  refuse (negb unsetTIF && negb gtc && negb (bool_decide (TimeInForce request = TimeInForceIOC)) &&
          negb (bool_decide (TimeInForce request = TimeInForceFOK))) "unsupported time in force %q";;
  refuse (PostOnly request && negb unsetTIF && negb gtc) "post-only order time in force must be GTC";;
  refuse (VolumeInQuote request && (negb market || negb (bool_decide (Side request = SideBuy))))
    "quote currency volume is available only for market buy orders";;
  validateClientOrderID (ClientOrderID request).

Definition CancelOrderRequest_validate (request : NativeCancelOrder) : result error unit :=
  refuse (eqb (unset (cancel_TransactionID request)) (unset (cancel_ClientOrderID request)))
    "cancel request requires exactly one transaction ID or client order ID";;
  refuse (negb (unset (cancel_TransactionID request)) && negb (transactionIDPattern (cancel_TransactionID request)))
    "transaction ID contains unsupported characters";;
  validateClientOrderID (cancel_ClientOrderID request);;
  validatePair (cancel_Pair request).

Definition OrderInfoRequest_validate (request : NativeOrderInfo) : result error unit :=
  refuse (bool_decide (TransactionIDs request = []) || bool_decide (50 < length (TransactionIDs request))%nat)
    "order info requires between 1 and 50 transaction IDs";;
  fold_result (λ (seen : list string) id,
    refuse (negb (transactionIDPattern id)) "transaction ID contains unsupported characters";;
    refuse (bool_decide (id ∈ seen)) "duplicate transaction ID %q";;
    Ok (id :: seen)) [] (TransactionIDs request);;
  Ok tt.

Definition OpenOrdersRequest_validate (request : NativeOpenOrders) : result error unit :=
  validateClientOrderID (open_ClientOrderID request).

Definition ClosedOrdersRequest_validate (request : NativeClosedOrders) : result error unit :=
  validateClientOrderID (closed_ClientOrderID request);;
  validateTimeRange (Start request) (End_ request);;
  refuse (bool_decide (Offset request < 0)) "closed order offset cannot be negative";;
  refuse (negb (bool_decide (CloseTime request ∈ [""; "both"; "open"; "close"])))
    "unsupported closed order time filter %q".

(** ** The client *)

Record OrderDescription : Type := MkDescription {
  desc_Pair : string;
  desc_Side : string;
  desc_OrderType : string;
  desc_Price : string
}.

Record NativeOrder : Type := MkOrder {
  ord_TransactionID : string;
  ord_ClientOrderID : string;
  ord_Status : string;
  Description : OrderDescription;
  ord_Volume : string;
  ExecutedVolume : string;
  OrderFlags : string
}.

Record OrderPage : Type := MkPage { Orders : list NativeOrder; Count : Z }.
Record OrderReference : Type := MkReference { ref_TransactionIDs : list string }.
Record AssetPair : Type := MkAssetPair { pair_ID : string; AltName : string; WebSocketName : string }.

Record Client (W : Type) : Type := MkClient {
  AssetPairs : io W (list AssetPair);
  sendPlaceOrder : NativePlaceOrder → io W OrderReference;
  sendCancelOrder : NativeCancelOrder → io W unit;
  sendOrderInfo : NativeOrderInfo → io W (list NativeOrder);
  sendOpenOrders : NativeOpenOrders → io W OrderPage;
  sendClosedOrders : NativeClosedOrders → io W OrderPage
}.
Arguments AssetPairs {W}.
Arguments sendPlaceOrder {W}.
Arguments sendCancelOrder {W}.
Arguments sendOrderInfo {W}.
Arguments sendOpenOrders {W}.
Arguments sendClosedOrders {W}.

(** ** The adapter *)

Definition toKrakenAsset (asset : string) : string :=
  if bool_decide (asset = "BTC") then "XBT" else if bool_decide (asset = "DOGE") then "XDG" else asset.

Definition krakenPair (market : Market) : string := toKrakenAsset (Base market) +:+ toKrakenAsset (Quote market).

Definition normalizeKrakenAsset (asset : string) : string :=
  let '(base, suffix) := Cut dot asset in
  let base :=
    if bool_decide (base ∈ ["XXBT"; "XBT"]) then "BTC"
    else if bool_decide (base ∈ ["XXDG"; "XDG"]) then "DOGE"
    else if bool_decide (base = "XETH") then "ETH"
    else if bool_decide (base = "ZUSD") then "USD"
    else if bool_decide (base = "ZEUR") then "EUR"
    else if bool_decide (base = "ZGBP") then "GBP"
    else if bool_decide (base = "ZJPY") then "JPY"
    else if bool_decide (base = "ZCAD") then "CAD"
    else if bool_decide (base = "ZAUD") then "AUD"
    else base in
  let suffix := default "" suffix in
  if unset suffix then base else base +:+ "." +:+ suffix.

Definition slash : ascii := byte 47.

Definition fromKrakenWebSocketPair (value : string) : result error Market :=
  match Split slash value with
  | [base; quote] =>
      let market := MkMarket (normalizeKrakenAsset base) (normalizeKrakenAsset quote) in
      match Market_Validate market with
      | Ok _ => Ok market
      | Err err => Err (Wrapf "invalid Kraken WebSocket pair %q: %w" err)
      end
  | _ => Err (Errorf "invalid Kraken WebSocket pair %q")
  end.

Definition toKrakenSide (side : string) : string := if bool_decide (side = Unified.SideBuy) then SideBuy else SideSell.
Definition toUnifiedKrakenSide (side : string) : string :=
  if bool_decide (side = SideBuy) then Unified.SideBuy else Unified.SideSell.
Definition toKrakenOrderType (orderType : string) : string :=
  if bool_decide (orderType = Unified.OrderTypeMarket) then OrderTypeMarket else OrderTypeLimit.
Definition toUnifiedKrakenOrderType (orderType : string) : string :=
  if bool_decide (orderType = OrderTypeMarket) then Unified.OrderTypeMarket else Unified.OrderTypeLimit.

Definition toUnifiedKrakenStatus (status executedVolume : string) : string :=
  if bool_decide (status = "pending") then OrderStatusNew
  else if bool_decide (status = "open") then
    if isPositiveDecimal executedVolume then OrderStatusPartiallyFilled else OrderStatusNew
  else if bool_decide (status = "closed") then OrderStatusFilled
  else if bool_decide (status ∈ ["canceled"; "cancelled"]) then OrderStatusCanceled
  else if bool_decide (status = "expired") then OrderStatusExpired
  else OrderStatusUnknown.

Definition fromKrakenOrder (native : NativeOrder) (market : Market) : Order :=
  let nativeMarket := if unset (desc_Pair (Description native)) then krakenPair market
                      else desc_Pair (Description native) in
  let quote := existsb (λ flag, bool_decide (TrimSpace flag = "viqc")) (Split (byte 44) (OrderFlags native)) in
  let '(quantity, quoteAmount) := if quote then ("", ord_Volume native) else (ord_Volume native, "") in
  Unified.MkOrder ExchangeKraken (ord_TransactionID native) (ord_ClientOrderID native) market nativeMarket
    (toUnifiedKrakenSide (desc_Side (Description native)))
    (toUnifiedKrakenOrderType (desc_OrderType (Description native)))
    (toUnifiedKrakenStatus (ord_Status native) (ExecutedVolume native)) (desc_Price (Description native)) quantity
    quoteAmount (ExecutedVolume native).

Definition krakenOrderMatchesMarket (order : NativeOrder) (market : Market) : bool :=
  bool_decide (desc_Pair (Description order) ∈
    [krakenPair market; toKrakenAsset (Base market) +:+ "/" +:+ toKrakenAsset (Quote market);
     Base market +:+ Quote market; Base market +:+ "/" +:+ Quote market]).

(** The order that [UnifiedSpot.PlaceOrder] has the client make, and what it returns. *)
Definition nativeOrder (request : PlaceOrderRequest) : NativePlaceOrder :=
  let order := MkPlaceOrder (krakenPair (order_Market request)) (toKrakenSide (Unified.Side request))
    (toKrakenOrderType (order_Type request)) "" "" "" (Unified.ClientOrderID request) false false false in
  if bool_decide (order_Type request = Unified.OrderTypeMarket) then
    if bool_decide (Unified.Side request = Unified.SideBuy)
    then order <| Volume := QuoteAmount request |> <| VolumeInQuote := true |>
    else order <| Volume := order_Quantity request |>
  else
    let order := order <| Volume := order_Quantity request |> <| Price := order_Price request |> in
    if bool_decide (Unified.TimeInForce request = Unified.TimeInForceIOC) then
      order <| TimeInForce := TimeInForceIOC |>
    else if bool_decide (Unified.TimeInForce request = Unified.TimeInForceFOK) then
      order <| TimeInForce := TimeInForceFOK |>
    else if bool_decide (Unified.TimeInForce request = Unified.TimeInForcePostOnly) then
      order <| TimeInForce := TimeInForceGTC |> <| PostOnly := true |>
    else order.

Definition placedOrder (request : PlaceOrderRequest) (reference : OrderReference) : result error Order :=
  match ref_TransactionIDs reference with
  | [id] =>
      Ok (Unified.MkOrder ExchangeKraken id (Unified.ClientOrderID request) (order_Market request)
        (krakenPair (order_Market request)) (Unified.Side request) (order_Type request) OrderStatusAcknowledged
        (order_Price request) (order_Quantity request) (QuoteAmount request) "")
  | _ => Err (Errorf "Kraken order acknowledgement has %d transaction IDs, want 1")
  end.

#[export] Instance adapter : SpotAdapter := {
  exchange := ExchangeKraken;
  nativeMarket := krakenPair;
  supported _ := Ok tt;
  Account := unit;
  SpotAdapter.NativeOrder := NativePlaceOrder;
  Reference := OrderReference;
  nativeRequest _ := nativeOrder;
  validateNative := PlaceOrderRequest_validate;
  placed _ := placedOrder;
  accepts _ request := validClientOrderID (Unified.ClientOrderID request);
  unsetTimeInForce := Unified.TimeInForceGTC
}.

Section unified_spot.
Context {W : Type} (client : Client W).

Definition PlaceOrder : PlaceOrderRequest → io W Order :=
  SpotAdapter.PlaceOrder noAccount (clientPlaceOrder (sendPlaceOrder client)).

(** [krakenPairMarkets]: the market of every name of a pair. *)
Definition pairNames (pair : AssetPair) : list string :=
  [pair_ID pair; AltName pair; WebSocketName pair; RemoveAll slash (WebSocketName pair)].

Definition addPair (markets : gmap string Market) (pair : AssetPair) : result error (gmap string Market) :=
  if unset (WebSocketName pair) then Ok markets
  else
    market ← fromKrakenWebSocketPair (WebSocketName pair);
    Ok (foldl (λ markets alias, if unset alias then markets else <[alias := market]> markets) markets (pairNames pair)).

Definition krakenPairMarkets : io W (gmap string Market) :=
  pairs ← AssetPairs client;
  lift (fold_result addPair ∅ pairs).

Definition OpenOrders (request : OpenOrdersRequest) : io W (list Order) :=
  lift (OpenOrdersRequest_Validate request);;
  pairMarkets ← krakenPairMarkets;
  page ← validated OpenOrdersRequest_validate (sendOpenOrders client) (MkOpenOrders false "");
  lift (fold_result (λ orders native,
    match pairMarkets !! desc_Pair (Description native) with
    | None => Err (Errorf "Kraken order contains unknown pair %q")
    | Some market =>
        match open_Market request with
        | Some wanted => if bool_decide (market = wanted) then Ok (orders ++ [fromKrakenOrder native market]) else Ok orders
        | None => Ok (orders ++ [fromKrakenOrder native market])
        end
    end) [] (Orders page)).

(** [resolveKrakenOrderByClientID]: the orders of a page that may be meant, and the
    loop over the closed orders; [None] when [fuel] pages were not enough. *)
Definition candidates (request : OrderRequest) (page : OrderPage) : list NativeOrder :=
  filter (λ order, ord_ClientOrderID order = request_ClientOrderID request ∧
                   krakenOrderMatchesMarket order (request_Market request) = true) (Orders page).

Fixpoint searchClosed (fuel : nat) (request : OrderRequest) (offset : Z) (found : list NativeOrder) (w : W)
    : option (result error (list NativeOrder) * W) :=
  match fuel with
  | O => None
  | S fuel =>
      let '(closed, w) := validated ClosedOrdersRequest_validate (sendClosedOrders client)
                            (MkClosedOrders false (request_ClientOrderID request) None None offset "") w in
      match closed with
      | Err err => Some (Err err, w)
      | Ok closed =>
          let found := found ++ candidates request closed in
          let offset := offset + Z.of_nat (length (Orders closed)) in
          if bool_decide (Orders closed = []) || bool_decide (Count closed ≤ offset) then Some (Ok found, w)
          else searchClosed fuel request offset found w
      end
  end.

Definition single (found : list NativeOrder) : result error NativeOrder :=
  match found with
  | [native] => Ok native
  | _ => Err (Errorf "Kraken client order ID %q matched %d orders, want 1")
  end.

Definition resolveKrakenOrderByClientID (fuel : nat) (request : OrderRequest) (w : W)
    : option (result error NativeOrder * W) :=
  let '(open, w) := validated OpenOrdersRequest_validate (sendOpenOrders client)
                      (MkOpenOrders false (request_ClientOrderID request)) w in
  match open with
  | Err err => Some (Err err, w)
  | Ok open =>
      match candidates request open with
      | [] =>
          match searchClosed fuel request 0 [] w with
          | Some (found, w) => Some (found ≫= single, w)
          | None => None
          end
      | found => Some (single found, w)
      end
  end.

(** The order with the ID [OrderID request]. *)
Definition orderByID (request : OrderRequest) : io W NativeOrder :=
  orders ← validated OrderInfoRequest_validate (sendOrderInfo client) (MkOrderInfo [OrderID request] false);
  lift (match orders with
        | [native] =>
            require (bool_decide (ord_TransactionID native = OrderID request))
              (Errorf "Kraken order response does not match %q");;
            Ok native
        | _ => Err (Errorf "Kraken order response does not match %q")
        end).

Definition OrderInfo (fuel : nat) (request : OrderRequest) (w : W) : option (result error Order * W) :=
  match OrderRequest_Validate request with
  | Err err => Some (Err err, w)
  | Ok _ =>
      match (if unset (OrderID request) then resolveKrakenOrderByClientID fuel request w
             else Some (orderByID request w)) with
      | Some (Ok native, w) => Some (Ok (fromKrakenOrder native (request_Market request)), w)
      | Some (Err err, w) => Some (Err err, w)
      | None => None
      end
  end.

Definition CancelOrder (request : OrderRequest) : io W Order :=
  lift (OrderRequest_Validate request);;
  validated CancelOrderRequest_validate (sendCancelOrder client)
    (MkCancelOrder (OrderID request) (request_ClientOrderID request) (krakenPair (request_Market request)));;
  mret (Unified.MkOrder ExchangeKraken (OrderID request) (request_ClientOrderID request) (request_Market request)
    (krakenPair (request_Market request)) "" "" OrderStatusCancelPending "" "" "" "").
End unified_spot.

(** ** The laws *)

Definition readback (order : NativePlaceOrder) : OrderTerms :=
  let quote := VolumeInQuote order in
  MkTerms (Pair order) (toUnifiedKrakenSide (Side order)) (toUnifiedKrakenOrderType (OrderType order))
    (if PostOnly order then TimeInForcePostOnly
     else if bool_decide (TimeInForce order = TimeInForceIOC) then Unified.TimeInForceIOC
     else if bool_decide (TimeInForce order = TimeInForceFOK) then Unified.TimeInForceFOK
     else Unified.TimeInForceGTC)
    (if quote then "" else Volume order) (if quote then Volume order else "") (Price order) (ClientOrderID order).

Lemma Cut_chars (f : ascii → bool) s whole after :
  f dot = true → Cut dot s = (whole, after) →
  string_forall f whole = true → string_forall f (default "" after) = true → string_forall f s = true.
Proof.
  intros Hdot. revert whole. induction s as [|c s IH]; intros whole; simpl; [done|].
  case_bool_decide as Hc; [intros [= <- <-] _; simpl; by rewrite Hc, Hdot|].
  destruct (Cut dot s) as [before rest] eqn:Hcut. intros [= <- <-]. simpl.
  intros [-> Hw]%andb_true_iff Ha. by eapply IH.
Qed.

Definition is_decimal_char (c : ascii) : bool := is_digit c || bool_decide (c = dot).

Lemma decimal_chars value : positiveDecimalPattern value = true → string_forall is_decimal_char value = true.
Proof.
  unfold positiveDecimalPattern. assert (∀ s, nonempty_digits s = true → string_forall is_decimal_char s = true) as Hall.
  { intros s [_ Hs]%andb_true_iff. rewrite all_digits_forall in Hs. revert Hs. apply string_forall_impl.
    intros c Hc. unfold is_decimal_char. by rewrite Hc. }
  destruct (Cut dot value) as [whole [fraction|]] eqn:Hcut.
  - intros [Hw Hf]%andb_true_iff. eapply Cut_chars; [done|exact Hcut|by apply Hall..].
  - intros Hw. eapply Cut_chars; [done|exact Hcut|by apply Hall|done].
Qed.

Lemma no_nonzero_digit c : is_decimal_char c = true → in_range 49 57 c = false → in_cutset "0." c = true.
Proof. destruct c as [[] [] [] [] [] [] [] []]; vm_compute; done. Qed.

Lemma kraken_isPositive value : positive value → isPositiveDecimal value = true ∧ unset value = false.
Proof.
  intros (_ & H & Hp & Hz)%positive_Ok. unfold isPositiveDecimal. rewrite Hp. split; [|done].
  apply negb_true_iff, not_true_iff_false. intros Hno.
  rewrite decimalIsZero_spec in Hz. apply not_true_iff_false in Hz. apply Hz.
  apply decimal_chars in Hp. rewrite string_forall_list in *. rewrite Forall_forall in *.
  intros c Hc. apply no_nonzero_digit; [by apply Hp|by apply negb_true_iff, Hno].
Qed.

Lemma toKrakenAsset_pattern asset : assetPattern asset = true → assetPattern (toKrakenAsset asset) = true.
Proof. intros H. unfold toKrakenAsset. by repeat case_bool_decide. Qed.

Lemma no_two_dots s : string_forall is_asset_char s = true → two_dots s = false.
Proof.
  induction s as [|a [|b s] IH]; [done..|]. intros H. simpl in H.
  apply andb_true_iff in H as [Ha H]. cbn [two_dots]. rewrite (bool_decide_eq_false_2 (a = dot)); [by apply IH|].
  by intros ->.
Qed.

Lemma pair_valid market : valid_market market → validatePair (krakenPair market) = Ok tt.
Proof.
  intros (Hb & Hq & _). apply toKrakenAsset_pattern, assetPattern_Ok in Hb as [Hne Hb], Hq as [_ Hq].
  unfold krakenPair, validatePair. set (pair := toKrakenAsset (Base market) +:+ toKrakenAsset (Quote market)).
  assert (string_forall is_asset_char pair = true) as Hp by (unfold pair; by rewrite string_forall_append, Hb, Hq).
  assert (pair ≠ "") as Hpair by (unfold pair; by destruct (toKrakenAsset (Base market))).
  pose proof (string_forall_impl _ _ _ is_asset_visible Hp) as Hv.
  unfold validateRequiredText, pairPattern. rewrite TrimSpace_visible, no_control_visible, no_two_dots by done.
  rewrite (bool_decide_eq_false_2 (pair = "")) by done. simpl.
  rewrite (string_forall_impl is_asset_char _ pair); [done| |done].
  intros c Hc. destruct c as [[] [] [] [] [] [] [] []]; revert Hc; by vm_compute.
Qed.

#[local] Ltac eval_native :=
  cbv beta iota zeta delta [nativeOrder toKrakenSide toKrakenOrderType set_field order_Market Unified.Side order_Type
    Unified.TimeInForce order_Quantity QuoteAmount order_Price Unified.ClientOrderID Pair Side OrderType TimeInForce
    Volume Price ClientOrderID PostOnly VolumeInQuote ValidateOnly]; eval_closed;
  cbv beta iota.

Lemma kraken_validate_nativeOrder request :
  valid_order request →
  is_Ok (PlaceOrderRequest_validate (nativeOrder request)) = validClientOrderID (Unified.ClientOrderID request).
Proof.
  revert request. apply valid_order_cases; intros; order_kinds.
  all: pose proof (pair_valid market H) as Hpair.
  all: repeat match goal with H : positive _ |- _ => apply kraken_isPositive in H as [? ?] end; order_facts; eval_native.
  all: unfold PlaceOrderRequest_validate, validateClientOrderID; eval_native.
  all: repeat match goal with H : isPositiveDecimal _ = _ |- _ => rewrite H end; eval_guards.
  all: by destruct (validClientOrderID id).
Qed.

#[export] Instance laws : SpotAdapterLaws.
Proof.
  split.
  - intros [] request. apply kraken_validate_nativeOrder.
  - unfold validateNative; simpl. intros order. change (validates (PlaceOrderRequest_validate order)).
    unfold PlaceOrderRequest_validate, validatePair, validateRequiredText, validateClientOrderID. solve_validates.
  - done.
  - intros [] r1 r2. apply (@terms_iff adapter readback).
    + read_orders; by vm_compute.
    + same_market nativeOrder.
    + done.
  - intros [] request reference order. simpl. unfold placedOrder.
    by destruct (ref_TransactionIDs reference) as [|? [|]]; intros [= <-].
Qed.
End Kraken.
