(* ===== verification/CryptoComSpot.v ===== *)
(** * Crypto.com Spot orders: [exchange/cryptocom/requests.go] and [exchange/cryptocom/unified.go] *)

From S2P Require Import Prelude GoStrings Decimals GoStrconv Errors Unified SpotAdapter ClientErrors.

Module CryptoCom.
Definition OrderSideBuy : string := "BUY".
Definition OrderSideSell : string := "SELL".
Definition OrderTypeLimit : string := "LIMIT".
Definition OrderTypeMarket : string := "MARKET".
Definition TimeInForceGoodTillCancel : string := "GOOD_TILL_CANCEL".
Definition TimeInForceImmediateOrCancel : string := "IMMEDIATE_OR_CANCEL".
Definition TimeInForceFillOrKill : string := "FILL_OR_KILL".

Abbreviation refuse b message := (require (negb b) (APIValidationError ExchangeCryptoCom message)).

(** ** Native requests *)

Record NativePlaceOrder : Type := MkPlaceOrder {
  InstrumentName : string;
  Side : string;
  Type_ : string;
  Price : string;
  Quantity : string;
  Notional : string;
  ClientOrderID : string;
  TimeInForce : string;
  PostOnly : bool
}.
#[export] Instance NativePlaceOrder_settable : Settable NativePlaceOrder := λ r,
  MkPlaceOrder (InstrumentName r) (Side r) (Type_ r) (Price r) (Quantity r) (Notional r) (ClientOrderID r)
    (TimeInForce r) (PostOnly r).

(** [OrderInfoRequest] and [CancelOrderRequest] have the same fields and validation. *)
Record OrderIdentity : Type := MkIdentity { id_OrderID : string; id_ClientOrderID : string }.
Record NativeOpenOrders : Type := MkOpenOrders { open_InstrumentName : string }.

Definition underscore : ascii := byte 95.

(** [^[A-Z0-9]{1,20}_[A-Z0-9]{1,20}$], [^[0-9]{1,19}$]. *)
Definition instrumentNamePattern : string → bool := pairPattern underscore 1 20.
Definition orderIDPattern : string → bool := matches is_digit 1 19.

(** [^(0|[1-9][0-9]{0,})(\.[0-9]+)?$]: no zero before another digit of the whole part. *)
Definition no_leading_zero (whole : string) : bool :=
  match whole with
  | String c rest => in_range 49 57 c && all_digits rest || bool_decide (whole = "0")
  | EmptyString => false
  end.
Definition canonicalDecimalPattern (s : string) : bool :=
  match Cut dot s with
  | (whole, None) => no_leading_zero whole
  | (whole, Some fraction) => no_leading_zero whole && nonempty_digits fraction
  end.

Definition validateInstrumentName (value : string) : result error unit :=
  refuse (negb (instrumentNamePattern value)) "invalid Crypto.com instrument name %q".
Definition validateOptionalInstrumentName (value : string) : result error unit :=
  if unset value then Ok tt else validateInstrumentName value.

Definition validateClientOrderID (value : string) : result error unit :=
  refuse (unset value || bool_decide (36 < String.length value)%nat || negb (utf8_Valid value) ||
          negb (bool_decide (TrimSpace value = value)))
    "Crypto.com client order ID must contain 1 to 36 unpadded bytes";;
  refuse (ContainsControl value) "Crypto.com client order ID cannot contain control characters".

(** [strconv.ParseUint] with 63 bits. *)
Definition fits_int64 (value : string) : bool :=
  match ParseUint value with
  | Some n => bool_decide (n < 2 ^ 63)
  | None => false
  end.

Definition validateOrderIdentity (orderID clientOrderID : string) : result error unit :=
  refuse (eqb (unset orderID) (unset clientOrderID)) "exactly one order ID or client order ID is required";;
  (if negb (unset orderID) then
     refuse (negb (orderIDPattern orderID)) "invalid Crypto.com order ID %q";;
     refuse (negb (fits_int64 orderID)) "Crypto.com order ID exceeds int64 range"
   else Ok tt);;
  if negb (unset clientOrderID) then validateClientOrderID clientOrderID else Ok tt.

Definition validatePositiveDecimal (name value : string) : result error unit :=
  refuse (negb (canonicalDecimalPattern value)) (name +:+ " must be a positive decimal string");;
  let invalid := APIValidationError ExchangeCryptoCom (name +:+ " must be greater than zero") in
  match Rat_SetString value with
  | Some number => require (negb (bool_decide (Rat_Sign number ≤ 0))) invalid
  | None => Err invalid
  end.

Definition TimeInForce_valid (value : string) : bool :=
  bool_decide (value ∈ [TimeInForceGoodTillCancel; TimeInForceImmediateOrCancel; TimeInForceFillOrKill]).

(** [PlaceOrderRequest.validate]. *)
Definition PlaceOrderRequest_validate (request : NativePlaceOrder) : result error unit :=
  let limit := bool_decide (Type_ request = OrderTypeLimit) in
  validateInstrumentName (InstrumentName request);;
  refuse (negb (bool_decide (Side request = OrderSideBuy)) && negb (bool_decide (Side request = OrderSideSell)))
    "unsupported Crypto.com order side %q";;
  refuse (negb limit && negb (bool_decide (Type_ request = OrderTypeMarket))) "unsupported Crypto.com order type %q";;
  validateClientOrderID (ClientOrderID request);;
  if limit then
    validatePositiveDecimal "order price" (Price request);;
    validatePositiveDecimal "order quantity" (Quantity request);;
    refuse (negb (unset (Notional request))) "limit order notional must be empty";;
    refuse (negb (unset (TimeInForce request)) && negb (TimeInForce_valid (TimeInForce request)))
      "unsupported Crypto.com time in force %q";;
    refuse (PostOnly request && negb (unset (TimeInForce request)) &&
            negb (bool_decide (TimeInForce request = TimeInForceGoodTillCancel)))
      "post-only order must use GOOD_TILL_CANCEL or omit time in force"
  else
    refuse (negb (unset (Price request)) || negb (unset (TimeInForce request)) || PostOnly request)
      "market order cannot set price, time in force, or post-only";;
    if bool_decide (Side request = OrderSideBuy) then
      refuse (negb (unset (Quantity request))) "market buy quantity must be empty; use notional";;
      validatePositiveDecimal "market buy notional" (Notional request)
    else
      refuse (negb (unset (Notional request))) "market sell notional must be empty; use quantity";;
      validatePositiveDecimal "market sell quantity" (Quantity request).

Definition OrderIdentity_validate (request : OrderIdentity) : result error unit :=
  validateOrderIdentity (id_OrderID request) (id_ClientOrderID request).

Definition OpenOrdersRequest_validate (request : NativeOpenOrders) : result error unit :=
  validateOptionalInstrumentName (open_InstrumentName request).

(** ** The client *)

Record NativeOrder : Type := MkOrder {
  ord_OrderID : string;
  ord_ClientOrderID : string;
  ord_Type : string;
  ord_Side : string;
  ord_Quantity : string;
  LimitPrice : string;
  OrderValue : string;
  CumulativeQuantity : string;
  ord_Status : string;
  ord_InstrumentName : string
}.

(** [OrderReceipt] and [CancelAcknowledgement]. *)
Record OrderReference : Type := MkReference { ref_OrderID : string; ref_ClientOrderID : string }.

Record Client (W : Type) : Type := MkClient {
  newCryptoComClientOrderID : io W string;
  sendPlaceOrder : NativePlaceOrder → io W OrderReference;
  sendOrderInfo : OrderIdentity → io W NativeOrder;
  sendCancelOrder : OrderIdentity → io W OrderReference;
  sendOpenOrders : NativeOpenOrders → io W (list NativeOrder)
}.
Arguments newCryptoComClientOrderID {W}.
Arguments sendPlaceOrder {W}.
Arguments sendOrderInfo {W}.
Arguments sendCancelOrder {W}.
Arguments sendOpenOrders {W}.

(** ** The adapter *)

Definition cryptoComInstrumentName (market : Market) : string := Base market +:+ "_" +:+ Quote market.

Definition marketFromCryptoComInstrumentName (value : string) : result error Market :=
  let '(base, quote) := Cut underscore value in
  let market := MkMarket base (default "" quote) in
  require (negb (bool_decide (quote = None)) && is_Ok (Market_Validate market) &&
           bool_decide (cryptoComInstrumentName market = value)) (Errorf "invalid Crypto.com Spot instrument %q");;
  Ok market.

Definition toCryptoComOrderSide (value : string) : string :=
  if bool_decide (value = Unified.SideBuy) then OrderSideBuy else OrderSideSell.

Definition fromCryptoComOrderSide (value : string) : result error string :=
  if bool_decide (value = OrderSideBuy) then Ok Unified.SideBuy
  else if bool_decide (value = OrderSideSell) then Ok Unified.SideSell
  else Err (Errorf "unsupported Crypto.com order side %q").

Definition toCryptoComTimeInForce (value : string) : string * bool :=
  if bool_decide (value = TimeInForceIOC) then (TimeInForceImmediateOrCancel, false)
  else if bool_decide (value = TimeInForceFOK) then (TimeInForceFillOrKill, false)
  else if bool_decide (value = TimeInForcePostOnly) then (TimeInForceGoodTillCancel, true)
  else if bool_decide (value = TimeInForceGTC) then (TimeInForceGoodTillCancel, false)
  else ("", false).

Definition fromCryptoComOrderType (value : string) : result error string :=
  if bool_decide (value = OrderTypeLimit) then Ok Unified.OrderTypeLimit
  else if bool_decide (value = OrderTypeMarket) then Ok Unified.OrderTypeMarket
  else Err (Errorf "unsupported Crypto.com order type %q").

Definition cryptoComDecimalPositive (text : string) : result error bool :=
  if unset text then Ok false
  else
    require (negb (HasPrefix text "-")) (Errorf "Crypto.com executed quantity %q cannot be negative");;
    let '(mantissa, _) := Cut (byte 101) (ToLowerText text) in
    Ok (negb (string_forall (λ c, negb (in_range 49 57 c)) mantissa)).

Definition fromCryptoComOrderStatus (value executedQuantity : string) : result error string :=
  if bool_decide (value ∈ ["PENDING"; "NEW"]) then Ok OrderStatusNew
  else if bool_decide (value = "ACTIVE") then
    positive ← cryptoComDecimalPositive executedQuantity;
    Ok (if positive : bool then OrderStatusPartiallyFilled else OrderStatusNew)
  else if bool_decide (value = "FILLED") then Ok OrderStatusFilled
  else if bool_decide (value = "CANCELED") then Ok OrderStatusCanceled
  else if bool_decide (value = "EXPIRED") then Ok OrderStatusExpired
  else if bool_decide (value = "REJECTED") then Ok OrderStatusRejected
  else Ok OrderStatusUnknown.

Definition fromCryptoComOrder (native : NativeOrder) (market : Market) : result error Order :=
  require (bool_decide (ord_InstrumentName native = cryptoComInstrumentName market))
    (Errorf "Crypto.com order market %q does not match %q");;
  side ← fromCryptoComOrderSide (ord_Side native);
  orderType ← fromCryptoComOrderType (ord_Type native);
  status ← fromCryptoComOrderStatus (ord_Status native) (CumulativeQuantity native);
  Ok (Unified.MkOrder ExchangeCryptoCom (ord_OrderID native) (ord_ClientOrderID native) market
    (ord_InstrumentName native) side orderType status (LimitPrice native) (ord_Quantity native) (OrderValue native)
    (CumulativeQuantity native)).

(** The order that [UnifiedSpot.PlaceOrder] has the client make, and what it returns. *)
Definition nativeOrder (generated : string) (request : PlaceOrderRequest) : NativePlaceOrder :=
  let order := MkPlaceOrder (cryptoComInstrumentName (order_Market request))
    (toCryptoComOrderSide (Unified.Side request)) OrderTypeMarket "" "" "" (clientOrderIDOf generated request) ""
    false in
  if bool_decide (order_Type request = Unified.OrderTypeLimit) then
    let '(timeInForce, postOnly) := toCryptoComTimeInForce (Unified.TimeInForce request) in
    order <| Type_ := OrderTypeLimit |> <| Price := order_Price request |> <| Quantity := order_Quantity request |>
      <| TimeInForce := timeInForce |> <| PostOnly := postOnly |>
  else if bool_decide (Unified.Side request = Unified.SideBuy) then order <| Notional := QuoteAmount request |>
  else order <| Quantity := order_Quantity request |>.

Definition placedOrder (generated : string) (request : PlaceOrderRequest) (receipt : OrderReference) : Order :=
  Unified.MkOrder ExchangeCryptoCom (ref_OrderID receipt) (clientOrderIDOf generated request) (order_Market request)
    (cryptoComInstrumentName (order_Market request)) (Unified.Side request) (order_Type request)
    OrderStatusAcknowledged (order_Price request) (order_Quantity request) (QuoteAmount request) "".

(** Crypto.com takes no amount with a leading zero. *)
Definition acceptedAmount (value : string) : bool := unset value || canonicalDecimalPattern value.
Definition acceptedClientOrderID (value : string) : bool :=
  bool_decide (String.length value ≤ 36)%nat && utf8_Valid value && negb (ContainsControl value).

#[export] Instance adapter : SpotAdapter := {
  exchange := ExchangeCryptoCom;
  nativeMarket := cryptoComInstrumentName;
  supported _ := Ok tt;
  Account := string;
  SpotAdapter.NativeOrder := NativePlaceOrder;
  Reference := OrderReference;
  nativeRequest := nativeOrder;
  validateNative := PlaceOrderRequest_validate;
  placed generated request reference := Ok (placedOrder generated request reference);
  accepts _ request :=
    assetLengths 1 20 (order_Market request) && acceptedClientOrderID (Unified.ClientOrderID request) &&
    (acceptedAmount (order_Price request) && acceptedAmount (order_Quantity request) &&
     acceptedAmount (QuoteAmount request));
  unsetTimeInForce := ""
}.

Section unified_spot.
Context {W : Type} (client : Client W).

Definition PlaceOrder : PlaceOrderRequest → io W Order :=
  SpotAdapter.PlaceOrder (generatedID (newCryptoComClientOrderID client)) (clientPlaceOrder (sendPlaceOrder client)).

Definition identity (request : OrderRequest) : OrderIdentity :=
  MkIdentity (OrderID request) (request_ClientOrderID request).

Definition OrderInfo (request : OrderRequest) : io W Order :=
  lift (OrderRequest_Validate request);;
  native ← validated OrderIdentity_validate (sendOrderInfo client) (identity request);
  lift (fromCryptoComOrder native (request_Market request)).

Definition CancelOrder (request : OrderRequest) : io W Order :=
  lift (OrderRequest_Validate request);;
  reference ← validated OrderIdentity_validate (sendCancelOrder client) (identity request);
  mret (Unified.MkOrder ExchangeCryptoCom (ref_OrderID reference) (ref_ClientOrderID reference)
    (request_Market request) (cryptoComInstrumentName (request_Market request)) "" "" OrderStatusUnknown "" "" "" "").

(** An open order, which is of the market that was asked for. *)
Definition readOrder (request : OpenOrdersRequest) (item : NativeOrder) : result error Order :=
  market ← marketFromCryptoComInstrumentName (ord_InstrumentName item);
  require (match open_Market request with Some wanted => bool_decide (market = wanted) | None => true end)
    (Errorf "Crypto.com open order market %q does not match %q");;
  fromCryptoComOrder item market.

Definition OpenOrders (request : OpenOrdersRequest) : io W (list Order) :=
  lift (OpenOrdersRequest_Validate request);;
  native ← validated OpenOrdersRequest_validate (sendOpenOrders client)
    (MkOpenOrders (match open_Market request with Some market => cryptoComInstrumentName market | None => "" end));
  lift (mapM (readOrder request) native).
End unified_spot.

(** ** The laws *)

Definition readback (order : NativePlaceOrder) : OrderTerms :=
  MkTerms (InstrumentName order)
    (if bool_decide (Side order = OrderSideBuy) then Unified.SideBuy else Unified.SideSell)
    (if bool_decide (Type_ order = OrderTypeMarket) then Unified.OrderTypeMarket else Unified.OrderTypeLimit)
    (if PostOnly order then TimeInForcePostOnly
     else if bool_decide (TimeInForce order = TimeInForceGoodTillCancel) then TimeInForceGTC
     else if bool_decide (TimeInForce order = TimeInForceImmediateOrCancel) then TimeInForceIOC
     else if bool_decide (TimeInForce order = TimeInForceFillOrKill) then TimeInForceFOK
     else "")
    (Quantity order) (Notional order) (Price order) (ClientOrderID order).

Lemma cryptocom_amount name value :
  positive value →
  is_Ok (validatePositiveDecimal name value) = acceptedAmount value ∧ unset value = false.
Proof.
  intros H. unfold validatePositiveDecimal, acceptedAmount. destruct (positive_Rat _ H) as (q & -> & ->).
  destruct (positive_Ok _ H) as (_ & -> & _). split; [|done]. by destruct (canonicalDecimalPattern value).
Qed.

Lemma instrumentName_valid market :
  valid_market market → is_Ok (validateInstrumentName (cryptoComInstrumentName market)) = assetLengths 1 20 market.
Proof.
  intros H. unfold validateInstrumentName. rewrite is_Ok_require, negb_involutive.
  exact (pairPattern_joined underscore 1 20 market eq_refl H).
Qed.

Lemma clientOrderID_accepted id :
  unset id = false → TrimSpace id = id → is_Ok (validateClientOrderID id) = acceptedClientOrderID id.
Proof.
  intros Hid Ht. unfold validateClientOrderID, acceptedClientOrderID. rewrite is_Ok_bind, !is_Ok_require, Ht, Hid.
  rewrite (bool_decide_eq_true_2 (id = id)), (bool_decide_ext (String.length id ≤ 36)%nat (¬ (36 < String.length id)%nat)) by (done || lia).
  rewrite bool_decide_not. by destruct (bool_decide (36 < String.length id)%nat), (utf8_Valid id), (ContainsControl id).
Qed.

#[local] Ltac eval_native :=
  cbv beta iota zeta delta [nativeOrder clientOrderIDOf toCryptoComOrderSide toCryptoComTimeInForce set_field
    order_Market Unified.Side order_Type Unified.TimeInForce order_Quantity QuoteAmount order_Price
    Unified.ClientOrderID InstrumentName Side Type_ Price Quantity Notional ClientOrderID TimeInForce PostOnly];
  eval_closed; cbv beta iota.

Lemma cryptocom_validate_nativeOrder generated request :
  valid_order request →
  is_Ok (PlaceOrderRequest_validate (nativeOrder generated request)) = accepts generated request.
Proof.
  revert request. apply valid_order_cases; intros; order_kinds.
  all: pose proof (instrumentName_valid market H) as Hmarket.
  all: repeat match goal with
         | H : positive ?v |- _ => pose proof (λ name, proj1 (cryptocom_amount name v H));
             pose proof (proj2 (cryptocom_amount "" v H)); clear H
         end.
  all: order_facts; pose proof (clientOrderID_accepted id) as Hid; unfold accepts; simpl; eval_native.
  all: unfold PlaceOrderRequest_validate, TimeInForce_valid; eval_native.
  all: repeat match goal with H : bool_decide _ = false |- _ => rewrite H end.
  all: rewrite is_Ok_bind, Hmarket; eval_guards; rewrite ?Hid by done.
  all: eval_guards; repeat match goal with H : ∀ name : string, _ = acceptedAmount _ |- _ => rewrite H; clear H end.
  all: rewrite <-?andb_assoc; simpl; try done.
Qed.

#[export] Instance laws : SpotAdapterLaws.
Proof.
  split.
  - apply cryptocom_validate_nativeOrder.
  - unfold validateNative; simpl. intros order. change (validates (PlaceOrderRequest_validate order)).
    unfold PlaceOrderRequest_validate, validateInstrumentName, validateClientOrderID, validatePositiveDecimal.
    solve_validates.
  - done.
  - intros generated r1 r2. apply (@terms_iff adapter readback).
    + read_orders; order_facts; unfold nativeRequest; simpl; eval_native;
        rewrite_facts; by vm_compute.
    + same_market nativeOrder.
    + done.
  - by intros * [= <-].
Qed.
End CryptoCom.
