(* ===== verification/KorbitSpot.v ===== *)
(** * Korbit orders: [exchange/korbit/requests.go] and [exchange/korbit/unified.go] *)

From S2P Require Import Prelude GoStrings Decimals GoStrconv Errors Unified SpotAdapter ClientErrors.

Module Korbit.
Definition SideBuy : string := "buy".
Definition SideSell : string := "sell".
Definition OrderTypeLimit : string := "limit".
Definition OrderTypeMarket : string := "market".
Definition OrderTypeBest : string := "best".
Definition TimeInForceGTC : string := "gtc".
Definition TimeInForceIOC : string := "ioc".
Definition TimeInForceFOK : string := "fok".
Definition TimeInForcePostOnly : string := "po".

Abbreviation refuse b message := (require (negb b) (APIValidationError ExchangeKorbit message)).

(** ** Native requests *)

Record NativePlaceOrder : Type := MkPlaceOrder {
  Symbol : string;
  AccountSeq : Z;
  Side : string;
  Price : string;
  Qty : string;
  Amount : string;
  OrderType : string;
  BestNth : Z;
  TimeInForce : string;
  ClientOrderID : string;
  PriceProtection : bool;
  PriceProtectionPercent : Z
}.
#[export] Instance NativePlaceOrder_settable : Settable NativePlaceOrder := λ r,
  MkPlaceOrder (Symbol r) (AccountSeq r) (Side r) (Price r) (Qty r) (Amount r) (OrderType r) (BestNth r)
    (TimeInForce r) (ClientOrderID r) (PriceProtection r) (PriceProtectionPercent r).

(** [OrderInfoRequest] and [CancelOrderRequest] have the same fields and validation. *)
Record OrderIdentity : Type := MkIdentity {
  id_Symbol : string;
  id_AccountSeq : Z;
  id_OrderID : Z;
  id_ClientOrderID : string
}.
Record NativeOpenOrders : Type := MkOpenOrders { open_Symbol : string; open_AccountSeq : Z; Limit : Z }.

Definition underscore : ascii := byte 95.
Definition is_symbol_char (c : ascii) : bool := is_digit c || is_lower c.

(** [^[a-z0-9]+_[a-z0-9]+$], [^[0-9A-Za-z.:_-]{1,36}$]. *)
Definition symbolPattern (s : string) : bool :=
  match Cut underscore s with
  | (base, Some quote) =>
      negb (unset base) && string_forall is_symbol_char base && (negb (unset quote) && string_forall is_symbol_char quote)
  | (_, None) => false
  end.
Definition clientOrderIDPattern : string → bool := matches (λ c, is_alphanumeric c || in_cutset ".:_-" c) 1 36.

Definition validateSymbol (symbol : string) : result error unit :=
  refuse (negb (symbolPattern symbol)) "invalid symbol %q";;
  let '(base, quote) := Cut underscore symbol in
  refuse (bool_decide (base = default "" quote)) "symbol base and quote currencies must differ".

Definition validateAccountSeq (accountSeq : Z) : result error unit :=
  refuse (bool_decide (accountSeq < 0)) "accountSeq cannot be negative".

Definition validateOrderIdentity (orderID : Z) (clientOrderID : string) : result error unit :=
  refuse (eqb (bool_decide (orderID = 0)) (unset clientOrderID))
    "exactly one of order ID or client order ID is required";;
  refuse (bool_decide (orderID < 0)) "order ID must be positive";;
  refuse (negb (unset clientOrderID) && negb (clientOrderIDPattern clientOrderID)) "invalid client order ID".

Definition validatePositiveDecimal (name value : string) : result error unit :=
  refuse (negb (positiveDecimalPattern value) || decimalIsZero value) (name +:+ " must be a positive decimal").

Definition validateMarketOrBestSize (side qty amount : string) : result error unit :=
  if bool_decide (side = SideBuy) then
    validatePositiveDecimal "amount" amount;;
    refuse (negb (unset qty)) "buy order does not accept quantity"
  else
    validatePositiveDecimal "quantity" qty;;
    refuse (negb (unset amount)) "sell order does not accept amount".

Definition validateOrderListLimit (limit : Z) : result error unit :=
  refuse (bool_decide (limit < 0) || bool_decide (1000 < limit))
    "order list limit must be between 1 and 1000 or zero for default".

Definition validLimitOrBest (value : string) : bool :=
  bool_decide (value ∈ [TimeInForceGTC; TimeInForceIOC; TimeInForceFOK; TimeInForcePostOnly]).

(** [PlaceOrderRequest.validate]. *)
Definition PlaceOrderRequest_validate (request : NativePlaceOrder) : result error unit :=
  validateSymbol (Symbol request);;
  validateAccountSeq (AccountSeq request);;
  refuse (negb (bool_decide (Side request = SideBuy)) && negb (bool_decide (Side request = SideSell)))
    "order side must be buy or sell";;
  refuse (negb (clientOrderIDPattern (ClientOrderID request)))
    "client order ID is required and must match [0-9a-zA-Z.:_-]{1,36}";;
  refuse (bool_decide (PriceProtectionPercent request < 0) || bool_decide (100 < PriceProtectionPercent request))
    "price protection percent must be between 1 and 100 or zero for default";;
  refuse (negb (PriceProtection request) && negb (bool_decide (PriceProtectionPercent request = 0)))
    "price protection percent requires price protection";;
  if bool_decide (OrderType request = OrderTypeLimit) then
    validatePositiveDecimal "price" (Price request);;
    validatePositiveDecimal "quantity" (Qty request);;
    refuse (negb (unset (Amount request)) || negb (bool_decide (BestNth request = 0)))
      "limit order does not accept amount or bestNth";;
    refuse (negb (unset (TimeInForce request)) && negb (validLimitOrBest (TimeInForce request)))
      "unsupported limit order timeInForce %q"
  else if bool_decide (OrderType request = OrderTypeMarket) then
    refuse (negb (unset (Price request)) || negb (bool_decide (BestNth request = 0)))
      "market order does not accept price or bestNth";;
    refuse (negb (unset (TimeInForce request)) && negb (bool_decide (TimeInForce request = TimeInForceIOC)))
      "market order timeInForce must be ioc or empty for default";;
    validateMarketOrBestSize (Side request) (Qty request) (Amount request)
  else if bool_decide (OrderType request = OrderTypeBest) then
    refuse (negb (unset (Price request))) "best order does not accept price";;
    refuse (bool_decide (BestNth request < 1) || bool_decide (5 < BestNth request))
      "best order bestNth must be between 1 and 5";;
    refuse (negb (validLimitOrBest (TimeInForce request))) "best order requires a supported timeInForce";;
    validateMarketOrBestSize (Side request) (Qty request) (Amount request)
  else Err (APIValidationError ExchangeKorbit "order type must be limit, market, or best").

Definition OrderIdentity_validate (request : OrderIdentity) : result error unit :=
  validateSymbol (id_Symbol request);;
  validateAccountSeq (id_AccountSeq request);;
  validateOrderIdentity (id_OrderID request) (id_ClientOrderID request).

Definition OpenOrdersRequest_validate (request : NativeOpenOrders) : result error unit :=
  validateSymbol (open_Symbol request);;
  validateAccountSeq (open_AccountSeq request);;
  validateOrderListLimit (Limit request).

(** ** The client *)

Record NativeOrder : Type := MkOrder {
  ord_OrderID : Z;
  ord_ClientOrderID : string;
  ord_Symbol : string;
  ord_OrderType : string;
  ord_Side : string;
  ord_Price : string;
  ord_Qty : string;
  ord_Amount : string;
  ord_FilledQty : string;
  ord_Status : string
}.

Record OrderReference : Type := MkReference { ref_OrderID : Z }.
Record CurrencyPair : Type := MkPair { pair_Symbol : string; pair_BaseCurrency : string; pair_QuoteCurrency : string }.

Record Client (W : Type) : Type := MkClient {
  newKorbitClientOrderID : io W string;
  CurrencyPairs : io W (list CurrencyPair);
  sendPlaceOrder : NativePlaceOrder → io W OrderReference;
  sendOrderInfo : OrderIdentity → io W NativeOrder;
  sendCancelOrder : OrderIdentity → io W unit;
  sendOpenOrders : NativeOpenOrders → io W (list NativeOrder)
}.
Arguments newKorbitClientOrderID {W}.
Arguments CurrencyPairs {W}.
Arguments sendPlaceOrder {W}.
Arguments sendOrderInfo {W}.
Arguments sendCancelOrder {W}.
Arguments sendOpenOrders {W}.

(** ** The adapter *)

Definition korbitSymbol (market : Market) : string := ToLowerText (Base market) +:+ "_" +:+ ToLowerText (Quote market).

Definition fromKorbitSymbol (symbol : string) : result error Market :=
  let '(base, quote) := Cut underscore symbol in
  let market := MkMarket (ToUpperText base) (ToUpperText (default "" quote)) in
  require (negb (bool_decide (quote = None)) && is_Ok (Market_Validate market)) (Errorf "invalid Korbit symbol %q");;
  Ok market.

Definition fromKorbitCurrencyPair (pair : CurrencyPair) : result error Market :=
  let market := MkMarket (ToUpperText (pair_BaseCurrency pair)) (ToUpperText (pair_QuoteCurrency pair)) in
  if is_Ok (Market_Validate market) then Ok market else fromKorbitSymbol (pair_Symbol pair).

Definition toKorbitSide (side : string) : string := if bool_decide (side = Unified.SideBuy) then SideBuy else SideSell.
Definition toUnifiedKorbitSide (side : string) : string :=
  if bool_decide (side = SideBuy) then Unified.SideBuy else Unified.SideSell.
Definition toUnifiedKorbitOrderType (orderType : string) : string :=
  if bool_decide (orderType = OrderTypeLimit) then Unified.OrderTypeLimit else Unified.OrderTypeMarket.

Definition toKorbitTimeInForce (value : string) : string :=
  if bool_decide (value = Unified.TimeInForceGTC) then TimeInForceGTC
  else if bool_decide (value = Unified.TimeInForceIOC) then TimeInForceIOC
  else if bool_decide (value = Unified.TimeInForceFOK) then TimeInForceFOK
  else if bool_decide (value = Unified.TimeInForcePostOnly) then TimeInForcePostOnly
  else "".

Definition toUnifiedKorbitStatus (status : string) : string :=
  if bool_decide (status ∈ ["pending"; "open"]) then OrderStatusNew
  else if bool_decide (status = "partiallyFilled") then OrderStatusPartiallyFilled
  else if bool_decide (status = "filled") then OrderStatusFilled
  else if bool_decide (status ∈ ["canceled"; "partiallyFilledCanceled"]) then OrderStatusCanceled
  else if bool_decide (status = "expired") then OrderStatusExpired
  else OrderStatusUnknown.

Definition fromKorbitOrder (native : NativeOrder) (market : Market) : Order :=
  let '(quantity, quoteAmount) :=
    if negb (bool_decide (ord_OrderType native = OrderTypeLimit)) && bool_decide (ord_Side native = SideBuy)
    then ("", ord_Amount native) else (ord_Qty native, "") in
  Unified.MkOrder ExchangeKorbit (Itoa (ord_OrderID native)) (ord_ClientOrderID native) market (ord_Symbol native)
    (toUnifiedKorbitSide (ord_Side native)) (toUnifiedKorbitOrderType (ord_OrderType native))
    (toUnifiedKorbitStatus (ord_Status native)) (ord_Price native) quantity quoteAmount (ord_FilledQty native).

Definition korbitOrderID (value : string) : result error Z :=
  if unset value then Ok 0
  else
    match ParseInt value with
    | Some orderID =>
        refuse (bool_decide (orderID ≤ 0)) "Korbit order ID must be a positive integer";;
        Ok orderID
    | None => Err (APIValidationError ExchangeKorbit "Korbit order ID must be a positive integer")
    end.

(** The order that [UnifiedSpot.PlaceOrder] has the client make, and what it returns. *)
Definition nativeOrder (generated : string) (request : PlaceOrderRequest) : NativePlaceOrder :=
  let order := MkPlaceOrder (korbitSymbol (order_Market request)) 0 (toKorbitSide (Unified.Side request)) "" "" ""
    OrderTypeMarket 0 "" (clientOrderIDOf generated request) false 0 in
  if bool_decide (order_Type request = Unified.OrderTypeLimit) then
    order <| OrderType := OrderTypeLimit |> <| Price := order_Price request |> <| Qty := order_Quantity request |>
      <| TimeInForce := toKorbitTimeInForce (Unified.TimeInForce request) |>
  else if bool_decide (Unified.Side request = Unified.SideBuy) then order <| Amount := QuoteAmount request |>
  else order <| Qty := order_Quantity request |>.

Definition placedOrder (generated : string) (request : PlaceOrderRequest) (reference : OrderReference) : Order :=
  Unified.MkOrder ExchangeKorbit (Itoa (ref_OrderID reference)) (clientOrderIDOf generated request)
    (order_Market request) (korbitSymbol (order_Market request)) (Unified.Side request) (order_Type request)
    OrderStatusAcknowledged (order_Price request) (order_Quantity request) (QuoteAmount request) "".

#[export] Instance adapter : SpotAdapter := {
  exchange := ExchangeKorbit;
  nativeMarket := korbitSymbol;
  supported _ := Ok tt;
  Account := string;
  SpotAdapter.NativeOrder := NativePlaceOrder;
  Reference := OrderReference;
  nativeRequest := nativeOrder;
  validateNative := PlaceOrderRequest_validate;
  placed generated request reference := Ok (placedOrder generated request reference);
  accepts _ request := clientOrderIDPattern (Unified.ClientOrderID request);
  unsetTimeInForce := ""
}.

Section unified_spot.
Context {W : Type} (client : Client W).

Definition PlaceOrder : PlaceOrderRequest → io W Order :=
  SpotAdapter.PlaceOrder (generatedID (newKorbitClientOrderID client)) (clientPlaceOrder (sendPlaceOrder client)).

Definition identity (request : OrderRequest) (orderID : Z) : OrderIdentity :=
  MkIdentity (korbitSymbol (request_Market request)) 0 orderID (request_ClientOrderID request).

Definition OrderInfo (request : OrderRequest) : io W Order :=
  lift (OrderRequest_Validate request);;
  orderID ← lift (korbitOrderID (OrderID request));
  native ← validated OrderIdentity_validate (sendOrderInfo client) (identity request orderID);
  mret (fromKorbitOrder native (request_Market request)).

Definition CancelOrder (request : OrderRequest) : io W Order :=
  lift (OrderRequest_Validate request);;
  orderID ← lift (korbitOrderID (OrderID request));
  validated OrderIdentity_validate (sendCancelOrder client) (identity request orderID);;
  mret (Unified.MkOrder ExchangeKorbit (OrderID request) (request_ClientOrderID request) (request_Market request)
    (korbitSymbol (request_Market request)) "" "" OrderStatusCancelPending "" "" "" "").

Definition readOrder (native : NativeOrder) : result error Order :=
  market ← fromKorbitSymbol (ord_Symbol native);
  Ok (fromKorbitOrder native market).

(** The open orders of the markets, one after the other. *)
Fixpoint openMarkets (markets : list Market) (orders : list Order) : io W (list Order) :=
  match markets with
  | [] => mret orders
  | market :: markets =>
      native ← validated OpenOrdersRequest_validate (sendOpenOrders client) (MkOpenOrders (korbitSymbol market) 0 1000);
      more ← lift (mapM readOrder native);
      openMarkets markets (orders ++ more)
  end.

Definition OpenOrders (request : OpenOrdersRequest) : io W (list Order) :=
  lift (OpenOrdersRequest_Validate request);;
  markets ← match open_Market request with
            | Some market => mret [market]
            | None => pairs ← CurrencyPairs client; lift (mapM fromKorbitCurrencyPair pairs)
            end;
  openMarkets markets [].
End unified_spot.

(** ** The laws *)

Definition readback (order : NativePlaceOrder) : OrderTerms :=
  MkTerms (Symbol order) (toUnifiedKorbitSide (Side order)) (toUnifiedKorbitOrderType (OrderType order))
    (if bool_decide (TimeInForce order = TimeInForceGTC) then Unified.TimeInForceGTC
     else if bool_decide (TimeInForce order = TimeInForceIOC) then Unified.TimeInForceIOC
     else if bool_decide (TimeInForce order = TimeInForceFOK) then Unified.TimeInForceFOK
     else if bool_decide (TimeInForce order = TimeInForcePostOnly) then Unified.TimeInForcePostOnly
     else "")
    (Qty order) (Amount order) (Price order) (ClientOrderID order).

Lemma asset_char_lower c :
  is_asset_char c = true →
  is_ascii c = true ∧ is_ascii (lower_ascii c) = true ∧ is_symbol_char (lower_ascii c) = true ∧
  upper_ascii (lower_ascii c) = c.
Proof. destruct c as [[] [] [] [] [] [] [] []]; vm_compute; done. Qed.

Lemma ToLowerText_asset s :
  string_forall is_asset_char s = true →
  string_forall is_symbol_char (ToLowerText s) = true ∧ ToUpperText (ToLowerText s) = s ∧
  unset (ToLowerText s) = unset s.
Proof.
  rewrite !string_forall_list. unfold ToUpperText, ToLowerText, map_bytes.
  intros Hs. rewrite !String.list_ascii_of_string_of_list_ascii.
  assert (Forall (λ c, is_ascii c = true ∧ is_ascii (lower_ascii c) = true ∧ is_symbol_char (lower_ascii c) = true ∧
    upper_ascii (lower_ascii c) = c) (String.list_ascii_of_string s)) as H.
  { eapply Forall_impl; [exact Hs|apply asset_char_lower]. }
  rewrite lower_bytes_ascii by (eapply Forall_impl; [exact H|by intros ? (? & ? & ? & ?)]).
  rewrite upper_bytes_ascii by (apply Forall_fmap; eapply Forall_impl; [exact H|by intros ? (? & ? & ? & ?)]).
  split_and!.
  - apply Forall_fmap. eapply Forall_impl; [exact H|by intros ? (? & ? & ? & ?)].
  - assert (upper_ascii <$> (lower_ascii <$> String.list_ascii_of_string s) = String.list_ascii_of_string s) as ->
      by (clear Hs; induction H as [|c l (_ & _ & _ & Hc) _ IH]; [done|]; by rewrite !fmap_cons, Hc, IH).
    apply String.string_of_list_ascii_of_string.
  - by destruct s.
Qed.

Lemma Cut_korbitSymbol market :
  valid_market market → Cut underscore (korbitSymbol market) = (ToLowerText (Base market), Some (ToLowerText (Quote market))).
Proof.
  intros ([_ Hb]%assetPattern_Ok & _). apply (Cut_some underscore).
  destruct (ToLowerText_asset _ Hb) as (Hs & _). revert Hs. apply string_forall_impl.
  intros c Hc. apply negb_true_iff, bool_decide_eq_false. by intros ->.
Qed.

Lemma korbit_symbol_valid market : valid_market market → validateSymbol (korbitSymbol market) = Ok tt.
Proof.
  intros H. unfold validateSymbol, symbolPattern. rewrite Cut_korbitSymbol by done.
  destruct H as ([Hb Hb']%assetPattern_Ok & [Hq Hq']%assetPattern_Ok & Hne).
  destruct (ToLowerText_asset _ Hb') as (-> & Hub & ->), (ToLowerText_asset _ Hq') as (-> & Huq & ->).
  rewrite !bool_decide_eq_false_2; [done|done..|].
  simpl. intros Heq. apply Hne. by rewrite <-Hub, <-Huq, Heq.
Qed.

(** The symbol names its market. *)
Lemma fromKorbitSymbol_spec market : valid_market market → fromKorbitSymbol (korbitSymbol market) = Ok market.
Proof.
  intros H. unfold fromKorbitSymbol. rewrite Cut_korbitSymbol by done. simpl.
  pose proof H as ([_ Hb]%assetPattern_Ok & [_ Hq]%assetPattern_Ok & _).
  destruct (ToLowerText_asset _ Hb) as (_ & -> & _), (ToLowerText_asset _ Hq) as (_ & -> & _).
  apply (Market_Validate_Ok _ tt) in H. destruct market as [base quote]. cbn [Base Quote]. by rewrite H.
Qed.

#[local] Ltac eval_native :=
  cbv beta iota zeta delta [nativeOrder clientOrderIDOf toKorbitSide toKorbitTimeInForce set_field order_Market
    Unified.Side order_Type Unified.TimeInForce order_Quantity QuoteAmount order_Price Unified.ClientOrderID Symbol
    AccountSeq Side Price Qty Amount OrderType BestNth TimeInForce ClientOrderID PriceProtection
    PriceProtectionPercent]; eval_closed; cbv beta iota.

Lemma korbit_validate_nativeOrder generated request :
  valid_order request →
  is_Ok (PlaceOrderRequest_validate (nativeOrder generated request)) =
  clientOrderIDPattern (Unified.ClientOrderID request).
Proof.
  revert request. apply valid_order_cases; intros; order_kinds.
  all: pose proof (korbit_symbol_valid market H) as Hsymbol; order_facts; eval_native.
  all: unfold PlaceOrderRequest_validate, validateAccountSeq, validLimitOrBest, validateMarketOrBestSize,
    validatePositiveDecimal; eval_native.
  all: rewrite_facts; eval_guards; by destruct (clientOrderIDPattern id).
Qed.

#[export] Instance laws : SpotAdapterLaws.
Proof.
  split.
  - apply korbit_validate_nativeOrder.
  - unfold validateNative; simpl. intros order. change (validates (PlaceOrderRequest_validate order)).
    unfold PlaceOrderRequest_validate, validateSymbol, validateAccountSeq, validateMarketOrBestSize,
      validatePositiveDecimal. solve_validates.
  - done.
  - intros generated r1 r2. apply (@terms_iff adapter readback).
    + read_orders; order_facts; unfold nativeRequest; simpl; eval_native;
        rewrite_facts; unfold terms; cbn [nativeMarket adapter order_Market]; generalize (korbitSymbol market); intros;
        by vm_compute.
    + same_market nativeOrder.
    + done.
  - by intros * [= <-].
Qed.
End Korbit.
