(* ===== verification/UpbitSpot.v ===== *)
(** * Upbit orders: [exchange/upbit/requests.go] and [exchange/upbit/unified.go] *)

From S2P Require Import Prelude GoStrings Decimals Errors Unified SpotAdapter ClientErrors.

Module Upbit.
Definition SideAsk : string := "ask".
Definition SideBid : string := "bid".
Definition OrderTypeLimit : string := "limit".
Definition OrderTypePrice : string := "price".
Definition OrderTypeMarket : string := "market".
Definition OrderTypeBest : string := "best".
Definition TimeInForceIOC : string := "ioc".
Definition TimeInForceFOK : string := "fok".
Definition TimeInForcePostOnly : string := "post_only".
Definition OrderStateWait : string := "wait".
Definition OrderStateWatch : string := "watch".

Abbreviation refuse b message := (require (negb b) (APIValidationError ExchangeUpbit message)).

(** ** Native requests *)

Record NativePlaceOrder : Type := MkPlaceOrder {
  Market_ : string;
  Side : string;
  Volume : string;
  Price : string;
  OrderType : string;
  TimeInForce : string;
  Identifier : string;
  SMPType : string
}.
#[export] Instance NativePlaceOrder_settable : Settable NativePlaceOrder := λ r,
  MkPlaceOrder (Market_ r) (Side r) (Volume r) (Price r) (OrderType r) (TimeInForce r) (Identifier r) (SMPType r).

(** [OrderInfoRequest] and [CancelOrderRequest] have the same fields and validation. *)
Record OrderIdentity : Type := MkIdentity { UUID : string; id_Identifier : string }.

Record NativeOpenOrders : Type := MkOpenOrders {
  open_Market : string;
  open_AllMarkets : bool;
  State : string;
  States : list string;
  Page : Z;
  Limit : Z;
  OrderBy : string
}.

(** [utf8.RuneCountInString]: a byte that starts no valid encoding is a rune of
    its own. *)
Definition rune3 (a b c : ascii) : bool :=
  in_range 224 239 a && (if in_range 224 224 a then in_range 160 191 b
                         else if in_range 237 237 a then in_range 128 159 b else continuation b) && continuation c.
Definition rune4 (a b c d : ascii) : bool :=
  in_range 240 244 a && (if in_range 240 240 a then in_range 144 191 b
                         else if in_range 244 244 a then in_range 128 143 b else continuation b) &&
  continuation c && continuation d.

Fixpoint rune_count (l : list ascii) : nat :=
  match l with
  | [] => 0
  | a :: l1 =>
      S match l1 with
        | [] => 0
        | b :: l2 =>
            if in_range 194 223 a && continuation b then rune_count l2
            else
              match l2 with
              | [] => rune_count l1
              | c :: l3 =>
                  if rune3 a b c then rune_count l3
                  else
                    match l3 with
                    | [] => rune_count l1
                    | d :: l4 => if rune4 a b c d then rune_count l4 else rune_count l1
                    end
              end
        end
  end.
Definition RuneCountInString (s : string) : nat := rune_count (String.list_ascii_of_string s).

Definition validateMarket (market : string) : result error unit :=
  refuse (unset market || negb (bool_decide (TrimSpace market = market)) ||
          negb (string_forall (λ c, negb (in_cutset " ,&=" c)) market) || negb (Contains market "-"))
    "invalid market %q".

Definition validateMarketScope (market : string) (allMarkets : bool) : result error unit :=
  if unset market then require allMarkets (APIValidationError ExchangeUpbit "market is required unless AllMarkets is true")
  else
    refuse allMarkets "market and AllMarkets cannot be used together";;
    validateMarket market.

Definition validateOrderIdentity (uuid identifier : string) : result error unit :=
  refuse (eqb (unset uuid) (unset identifier)) "exactly one of UUID or identifier is required";;
  let value := if unset uuid then identifier else uuid in
  refuse (negb (bool_decide (TrimSpace value = value))) "order identity cannot have surrounding whitespace".

Definition validatePositiveDecimal (name value : string) : result error unit :=
  refuse (negb (positiveDecimalPattern value) || decimalIsZero value) (name +:+ " must be a positive decimal").

Definition validateOrderBy (value : string) : result error unit :=
  refuse (negb (bool_decide (value ∈ [""; "asc"; "desc"]))) "orderBy must be asc, desc, or empty".

Definition TimeInForce_valid (value : string) : bool :=
  bool_decide (value ∈ [TimeInForceIOC; TimeInForceFOK; TimeInForcePostOnly]).
Definition SMPType_valid (value : string) : bool :=
  bool_decide (value ∈ ["cancel_maker"; "cancel_taker"; "reduce"]).

(** The part of [PlaceOrderRequest.validate] on the type of the order. *)
Definition validateOrderType (request : NativePlaceOrder) : result error unit :=
  let bid := bool_decide (Side request = SideBid) in
  if bool_decide (OrderType request = OrderTypeLimit) then
    validatePositiveDecimal "volume" (Volume request);;
    validatePositiveDecimal "price" (Price request)
  else if bool_decide (OrderType request = OrderTypePrice) then
    refuse (negb bid) "price order must use bid side";;
    refuse (negb (unset (Volume request))) "price order does not accept volume";;
    validatePositiveDecimal "price" (Price request)
  else if bool_decide (OrderType request = OrderTypeMarket) then
    refuse (negb (bool_decide (Side request = SideAsk))) "market order must use ask side";;
    refuse (negb (unset (Price request))) "market order does not accept price";;
    validatePositiveDecimal "volume" (Volume request)
  else if bool_decide (OrderType request = OrderTypeBest) then
    refuse (negb (bool_decide (TimeInForce request = TimeInForceIOC)) &&
            negb (bool_decide (TimeInForce request = TimeInForceFOK)))
      "best order requires ioc or fok timeInForce";;
    if bid then
      refuse (negb (unset (Volume request))) "best bid order does not accept volume";;
      validatePositiveDecimal "price" (Price request)
    else
      refuse (negb (unset (Price request))) "best ask order does not accept price";;
      validatePositiveDecimal "volume" (Volume request)
  else Err (APIValidationError ExchangeUpbit "orderType must be limit, price, market, or best").

(** [PlaceOrderRequest.validate]. *)
Definition PlaceOrderRequest_validate (request : NativePlaceOrder) : result error unit :=
  validateMarket (Market_ request);;
  refuse (negb (bool_decide (Side request = SideAsk)) && negb (bool_decide (Side request = SideBid)))
    "side must be ask or bid";;
  validateOrderType request;;
  refuse (negb (unset (TimeInForce request)) && negb (TimeInForce_valid (TimeInForce request)))
    "unsupported timeInForce %q";;
  refuse (negb (bool_decide (OrderType request = OrderTypeLimit)) &&
          negb (bool_decide (OrderType request = OrderTypeBest)) && negb (unset (TimeInForce request)))
    "timeInForce is only supported for limit and best orders";;
  refuse (negb (unset (SMPType request)) && negb (SMPType_valid (SMPType request))) "unsupported SMP type %q";;
  refuse (bool_decide (TimeInForce request = TimeInForcePostOnly) && negb (unset (SMPType request)))
    "post_only cannot be combined with SMP";;
  refuse (negb (bool_decide (TrimSpace (Identifier request) = Identifier request)))
    "identifier cannot have surrounding whitespace";;
  refuse (bool_decide (64 < RuneCountInString (Identifier request))%nat) "identifier must be at most 64 characters".

Definition OrderIdentity_validate (request : OrderIdentity) : result error unit :=
  validateOrderIdentity (UUID request) (id_Identifier request).

Definition openState (state : string) : bool := bool_decide (state ∈ [OrderStateWait; OrderStateWatch]).

Definition OpenOrdersRequest_validate (request : NativeOpenOrders) : result error unit :=
  validateMarketScope (open_Market request) (open_AllMarkets request);;
  refuse (negb (unset (State request)) && negb (bool_decide (States request = [])))
    "state and states cannot be used together";;
  refuse (negb (unset (State request)) && negb (openState (State request)))
    "open order state must be wait or watch";;
  require (forallb openState (States request))
    (APIValidationError ExchangeUpbit "open order states must contain only wait or watch");;
  refuse (bool_decide (Page request < 0)) "page cannot be negative";;
  refuse (bool_decide (Limit request < 0) || bool_decide (100 < Limit request))
    "open order limit must be between 1 and 100 or zero for default";;
  validateOrderBy (OrderBy request).

(** ** The client *)

Record NativeOrder : Type := MkOrder {
  ord_UUID : string;
  ord_Side : string;
  ord_OrderType : string;
  ord_Price : string;
  ord_State : string;
  ord_NativeMarket : string;
  ord_Volume : string;
  ExecutedVolume : string;
  ord_Identifier : string
}.

Record Client (W : Type) : Type := MkClient {
  sendPlaceOrder : NativePlaceOrder → io W NativeOrder;
  sendOrderInfo : OrderIdentity → io W NativeOrder;
  sendCancelOrder : OrderIdentity → io W NativeOrder;
  sendOpenOrders : NativeOpenOrders → io W (list NativeOrder)
}.
Arguments sendPlaceOrder {W}.
Arguments sendOrderInfo {W}.
Arguments sendCancelOrder {W}.
Arguments sendOpenOrders {W}.

(** ** The adapter *)

Definition hyphen : ascii := byte 45.

Definition upbitMarket (market : Market) : string := Quote market +:+ "-" +:+ Base market.

Definition fromUpbitMarket (native : string) : result error Market :=
  let '(quote, base) := Cut hyphen native in
  let market := MkMarket (default "" base) quote in
  require (negb (bool_decide (base = None)) && is_Ok (Market_Validate market)) (Errorf "invalid Upbit market %q");;
  Ok market.

Definition toUpbitSide (side : string) : string := if bool_decide (side = SideBuy) then SideBid else SideAsk.
Definition toUnifiedUpbitSide (side : string) : string := if bool_decide (side = SideBid) then SideBuy else SideSell.
Definition toUnifiedUpbitOrderType (orderType : string) : string :=
  if bool_decide (orderType = OrderTypeLimit) then Unified.OrderTypeLimit else Unified.OrderTypeMarket.

Definition toUpbitTimeInForce (value : string) : string :=
  if bool_decide (value = Unified.TimeInForceIOC) then TimeInForceIOC
  else if bool_decide (value = Unified.TimeInForceFOK) then TimeInForceFOK
  else if bool_decide (value = Unified.TimeInForcePostOnly) then TimeInForcePostOnly
  else "".

Definition toUnifiedUpbitStatus (order : NativeOrder) : string :=
  if openState (ord_State order) then
    if negb (unset (ExecutedVolume order)) && negb (decimalIsZero (ExecutedVolume order))
    then OrderStatusPartiallyFilled else OrderStatusNew
  else if bool_decide (ord_State order = "done") then OrderStatusFilled
  else if bool_decide (ord_State order = "cancel") then OrderStatusCanceled
  else OrderStatusUnknown.

Definition fromUpbitOrder (native : NativeOrder) (market : Market) : Order :=
  let '(price, quantity, quoteAmount) :=
    if bool_decide (ord_OrderType native = OrderTypePrice) && bool_decide (ord_Side native = SideBid)
    then ("", "", ord_Price native) else (ord_Price native, ord_Volume native, "") in
  Unified.MkOrder ExchangeUpbit (ord_UUID native) (ord_Identifier native) market (ord_NativeMarket native)
    (toUnifiedUpbitSide (ord_Side native)) (toUnifiedUpbitOrderType (ord_OrderType native))
    (toUnifiedUpbitStatus native) price quantity quoteAmount (ExecutedVolume native).

(** The order that [UnifiedSpot.PlaceOrder] has the client make. *)
Definition nativeOrder (request : PlaceOrderRequest) : NativePlaceOrder :=
  let order := MkPlaceOrder (upbitMarket (order_Market request)) (toUpbitSide (Unified.Side request))
    (order_Quantity request) (order_Price request) "" "" (Unified.ClientOrderID request) "" in
  if bool_decide (order_Type request = Unified.OrderTypeLimit) then
    order <| OrderType := OrderTypeLimit |> <| TimeInForce := toUpbitTimeInForce (Unified.TimeInForce request) |>
  else if bool_decide (Unified.Side request = SideBuy) then
    order <| OrderType := OrderTypePrice |> <| Price := QuoteAmount request |> <| Volume := "" |>
  else order <| OrderType := OrderTypeMarket |> <| Price := "" |>.

#[export] Instance adapter : SpotAdapter := {
  exchange := ExchangeUpbit;
  nativeMarket := upbitMarket;
  supported _ := Ok tt;
  Account := unit;
  SpotAdapter.NativeOrder := NativePlaceOrder;
  Reference := NativeOrder;
  nativeRequest _ := nativeOrder;
  validateNative := PlaceOrderRequest_validate;
  placed _ request native := Ok (fromUpbitOrder native (order_Market request));
  accepts _ request := bool_decide (RuneCountInString (Unified.ClientOrderID request) ≤ 64)%nat;
  unsetTimeInForce := TimeInForceGTC
}.

Section unified_spot.
Context {W : Type} (client : Client W).

Definition PlaceOrder : PlaceOrderRequest → io W Order :=
  SpotAdapter.PlaceOrder noAccount (clientPlaceOrder (sendPlaceOrder client)).

Definition identity (request : OrderRequest) : OrderIdentity :=
  MkIdentity (OrderID request) (request_ClientOrderID request).

Definition OrderInfo (request : OrderRequest) : io W Order :=
  lift (OrderRequest_Validate request);;
  native ← validated OrderIdentity_validate (sendOrderInfo client) (identity request);
  mret (fromUpbitOrder native (request_Market request)).

Definition CancelOrder (request : OrderRequest) : io W Order :=
  lift (OrderRequest_Validate request);;
  native ← validated OrderIdentity_validate (sendCancelOrder client) (identity request);
  mret (fromUpbitOrder native (request_Market request)).

(** An open order: of the market that was asked for, or of the one that it names,
    if it names one. *)
Definition readOrder (request : OpenOrdersRequest) (native : NativeOrder) : Order :=
  fromUpbitOrder native
    match Unified.open_Market request with
    | Some market => market
    | None => match fromUpbitMarket (ord_NativeMarket native) with Ok market => market | Err _ => MkMarket "" "" end
    end.

Definition OpenOrders (request : OpenOrdersRequest) : io W (list Order) :=
  lift (Unified.OpenOrdersRequest_Validate request);;
  natives ← validated OpenOrdersRequest_validate (sendOpenOrders client)
    (MkOpenOrders (match Unified.open_Market request with Some market => upbitMarket market | None => "" end)
       (AllMarkets request) "" [] 0 0 "");
  mret (readOrder request <$> natives).
End unified_spot.

(** ** The laws *)

Definition readback (order : NativePlaceOrder) : OrderTerms :=
  let price := bool_decide (OrderType order = OrderTypePrice) in
  MkTerms (Market_ order) (toUnifiedUpbitSide (Side order)) (toUnifiedUpbitOrderType (OrderType order))
    (if bool_decide (TimeInForce order = TimeInForceIOC) then Unified.TimeInForceIOC
     else if bool_decide (TimeInForce order = TimeInForceFOK) then Unified.TimeInForceFOK
     else if bool_decide (TimeInForce order = TimeInForcePostOnly) then Unified.TimeInForcePostOnly
     else TimeInForceGTC)
    (Volume order) (if price then Price order else "") (if price then "" else Price order) (Identifier order).

Lemma Contains_hyphen s t : Contains (s +:+ "-" +:+ t) "-" = true.
Proof.
  induction s as [|c s IH]; [by destruct t|].
  change (HasPrefix (String c (s +:+ "-" +:+ t)) "-" || Contains (s +:+ "-" +:+ t) "-" = true). rewrite IH. apply orb_true_r.
Qed.

Lemma upbit_market_valid market : valid_market market → validateMarket (upbitMarket market) = Ok tt.
Proof.
  intros H. pose proof (visible_swapped "-" market eq_refl H) as [Hne Hv].
  change (joined "-" (swapped market)) with (upbitMarket market) in *. unfold validateMarket.
  rewrite TrimSpace_visible, (bool_decide_eq_false_2 _ Hne), bool_decide_eq_true_2 by done.
  assert (string_forall (λ c, negb (in_cutset " ,&=" c)) (upbitMarket market) = true) as ->.
  { destruct H as ([_ Hb]%assetPattern_Ok & [_ Hq]%assetPattern_Ok & _). unfold upbitMarket. rewrite !string_forall_append.
    assert (∀ c, is_asset_char c = true → negb (in_cutset " ,&=" c) = true) as Hc
      by (intros [[] [] [] [] [] [] [] []]; vm_compute; done).
    by rewrite (string_forall_impl _ _ _ Hc Hq), (string_forall_impl _ _ _ Hc Hb). }
  unfold upbitMarket. by rewrite Contains_hyphen.
Qed.

#[local] Ltac eval_native :=
  cbv beta iota zeta delta [nativeOrder toUpbitSide toUpbitTimeInForce set_field order_Market Unified.Side order_Type
    Unified.TimeInForce order_Quantity QuoteAmount order_Price Unified.ClientOrderID Market_ Side Volume Price OrderType
    TimeInForce Identifier SMPType]; eval_closed; cbv beta iota.

Lemma upbit_validate_nativeOrder request :
  valid_order request →
  is_Ok (PlaceOrderRequest_validate (nativeOrder request)) =
  bool_decide (RuneCountInString (Unified.ClientOrderID request) ≤ 64)%nat.
Proof.
  revert request. apply valid_order_cases; intros; order_kinds.
  all: pose proof (upbit_market_valid market H) as Hmarket; order_facts; eval_native.
  all: unfold PlaceOrderRequest_validate, validateOrderType, TimeInForce_valid, SMPType_valid, validatePositiveDecimal;
    eval_native.
  all: match goal with H : TrimSpace ?x = ?x |- _ => rewrite H end; rewrite (bool_decide_eq_true_2 (id = id)) by done.
  all: eval_guards; rewrite <-bool_decide_not; apply bool_decide_ext; lia.
Qed.

#[export] Instance laws : SpotAdapterLaws.
Proof.
  split.
  - intros [] request. apply upbit_validate_nativeOrder.
  - unfold validateNative; simpl. intros order. change (validates (PlaceOrderRequest_validate order)).
    unfold PlaceOrderRequest_validate, validateMarket, validateOrderType, validatePositiveDecimal. solve_validates.
  - done.
  - intros [] r1 r2. apply (@terms_iff adapter readback).
    + read_orders; by vm_compute.
    + same_market nativeOrder.
    + done.
  - intros [] request native order [= <-]. unfold fromUpbitOrder. by destruct (_ && _).
Qed.

(** The native name of a market names it. *)
Lemma fromUpbitMarket_spec market : valid_market market → fromUpbitMarket (upbitMarket market) = Ok market.
Proof.
  intros H. unfold fromUpbitMarket.
  assert (Cut hyphen (upbitMarket market) = (Quote market, Some (Base market))) as ->
    by exact (Cut_joined hyphen (swapped market) eq_refl (swapped_valid _ H)).
  apply (Market_Validate_Ok _ tt) in H. destruct market as [base quote]. simpl in *. by rewrite H.
Qed.
End Upbit.
