(* ===== verification/BithumbSpot.v ===== *)
(** * Bithumb orders: [exchange/bithumb/requests.go] and [exchange/bithumb/unified.go] *)

From S2P Require Import Prelude GoStrings Decimals Errors Unified SpotAdapter Pages ClientErrors.

Module Bithumb.
Definition SideAsk : string := "ask".
Definition SideBid : string := "bid".
Definition OrderTypeLimit : string := "limit".
Definition OrderTypePrice : string := "price".
Definition OrderTypeMarket : string := "market".
Definition OrderTypeBest : string := "best".
Definition TimeInForceIOC : string := "ioc".
Definition TimeInForceFOK : string := "fok".
Definition TimeInForcePostOnly : string := "post_only".

Abbreviation refuse b message := (require (negb b) (APIValidationError ExchangeBithumb message)).

(** ** Native requests *)

Record NativePlaceOrder : Type := MkPlaceOrder {
  Market_ : string;
  Side : string;
  Volume : string;
  Price : string;
  OrderType : string;
  TimeInForce : string;
  ClientOrderID : string
}.
#[export] Instance NativePlaceOrder_settable : Settable NativePlaceOrder := λ r,
  MkPlaceOrder (Market_ r) (Side r) (Volume r) (Price r) (OrderType r) (TimeInForce r) (ClientOrderID r).

(** [OrderInfoRequest] and [CancelOrderRequest]: the ID of the exchange is a [UUID]
    in the one and an [OrderID] in the other. *)
Record OrderIdentity : Type := MkIdentity { id_OrderID : string; id_ClientOrderID : string }.

Record PendingOrdersRequest : Type := MkPendingOrders {
  pending_Market : string;
  pending_AllMarkets : bool;
  State : string;
  Limit : Z;
  OrderBy : string;
  NextKey : string
}.

Definition hyphen : ascii := byte 45.

(** [^[A-Z0-9]+-[A-Z0-9]+$], [^[A-Za-z0-9_-]{1,36}$]. *)
Definition marketPattern (s : string) : bool :=
  match Cut hyphen s with
  | (first, Some second) => assetPattern first && assetPattern second
  | (_, None) => false
  end.
Definition clientOrderIDPattern : string → bool := matches (λ c, is_alphanumeric c || in_cutset "_-" c) 1 36.

Definition validateMarket (market : string) : result error unit :=
  refuse (negb (marketPattern market)) "invalid market %q".

Definition validateMarketScope (market : string) (allMarkets : bool) : result error unit :=
  if unset market
  then require allMarkets (APIValidationError ExchangeBithumb "market is required unless AllMarkets is true")
  else
    refuse allMarkets "market and AllMarkets cannot be used together";;
    validateMarket market.

Definition validateOrderIdentity (exchangeID clientOrderID exchangeName : string) : result error unit :=
  refuse (eqb (unset exchangeID) (unset clientOrderID)) ("exactly one of " +:+ exchangeName +:+ " or clientOrderID is required");;
  refuse (negb (bool_decide (TrimSpace exchangeID = exchangeID)) ||
          negb (string_forall (λ c, negb (in_cutset "&=" c)) exchangeID)) ("invalid " +:+ exchangeName);;
  refuse (negb (unset clientOrderID) && negb (clientOrderIDPattern clientOrderID)) "invalid clientOrderID".

Definition validatePositiveDecimal (name value : string) : result error unit :=
  refuse (negb (positiveDecimalPattern value) || decimalIsZero value) (name +:+ " must be a positive decimal").

Definition validateOrderBy (value : string) : result error unit :=
  refuse (negb (bool_decide (value ∈ [""; "asc"; "desc"]))) "orderBy must be asc, desc, or empty".

Definition validateParameterValue (name value : string) : result error unit :=
  refuse (negb (string_forall (λ c, negb (in_cutset "&" c)) value)) (name +:+ " cannot contain ampersand").

Definition TimeInForce_valid (value : string) : bool :=
  bool_decide (value ∈ [TimeInForceIOC; TimeInForceFOK; TimeInForcePostOnly]).

(** The part of [PlaceOrderRequest.validate] on the type of the order. *)
Definition validateOrderType (request : NativePlaceOrder) : result error unit :=
  let bid := bool_decide (Side request = SideBid) in
  let tif := negb (unset (TimeInForce request)) in
  if bool_decide (OrderType request = OrderTypeLimit) then
    validatePositiveDecimal "volume" (Volume request);;
    validatePositiveDecimal "price" (Price request);;
    refuse (tif && negb (TimeInForce_valid (TimeInForce request))) "unsupported timeInForce %q"
  else if bool_decide (OrderType request = OrderTypePrice) then
    refuse (negb bid) "price order must use bid side";;
    refuse (negb (unset (Volume request))) "price order does not accept volume";;
    validatePositiveDecimal "price" (Price request);;
    refuse tif "price order does not accept timeInForce"
  else if bool_decide (OrderType request = OrderTypeMarket) then
    refuse (negb (bool_decide (Side request = SideAsk))) "market order must use ask side";;
    refuse (negb (unset (Price request))) "market order does not accept price";;
    validatePositiveDecimal "volume" (Volume request);;
    refuse tif "market order does not accept timeInForce"
  else if bool_decide (OrderType request = OrderTypeBest) then
    refuse (negb (HasPrefix (Market_ request) "KRW-")) "best order is only supported in KRW markets";;
    refuse (negb (bool_decide (TimeInForce request = TimeInForceIOC)) &&
            negb (bool_decide (TimeInForce request = TimeInForceFOK)))
      "best order requires ioc or fok timeInForce";;
    if bid then
      refuse (negb (unset (Volume request))) "best bid order does not accept volume";;
      validatePositiveDecimal "price" (Price request)
    else
      refuse (negb (unset (Price request))) "best ask order does not accept price";;
      validatePositiveDecimal "volume" (Volume request)
  else Err (APIValidationError ExchangeBithumb "orderType must be limit, price, market, or best").

(** [PlaceOrderRequest.validate]. *)
Definition PlaceOrderRequest_validate (request : NativePlaceOrder) : result error unit :=
  validateMarket (Market_ request);;
  refuse (negb (bool_decide (Side request = SideAsk)) && negb (bool_decide (Side request = SideBid)))
    "side must be ask or bid";;
  refuse (negb (unset (TimeInForce request)) && negb (HasPrefix (Market_ request) "KRW-"))
    "timeInForce is only supported in KRW markets";;
  validateOrderType request;;
  refuse (bool_decide (TimeInForce request = TimeInForcePostOnly) &&
          negb (bool_decide (OrderType request = OrderTypeLimit)))
    "post_only is only supported for limit orders";;
  refuse (negb (unset (ClientOrderID request)) && negb (clientOrderIDPattern (ClientOrderID request)))
    "clientOrderID must contain 1 to 36 letters, digits, underscores, or hyphens".

Definition OrderInfoRequest_validate (request : OrderIdentity) : result error unit :=
  validateOrderIdentity (id_OrderID request) (id_ClientOrderID request) "UUID".
Definition CancelOrderRequest_validate (request : OrderIdentity) : result error unit :=
  validateOrderIdentity (id_OrderID request) (id_ClientOrderID request) "orderID".

Definition PendingOrdersRequest_validate (request : PendingOrdersRequest) : result error unit :=
  validateMarketScope (pending_Market request) (pending_AllMarkets request);;
  refuse (negb (bool_decide (State request ∈ [""; "wait"; "watch"]))) "pending order state must be wait or watch";;
  refuse (bool_decide (Limit request < 0) || bool_decide (100 < Limit request))
    "pending order limit must be between 1 and 100 or zero for default";;
  validateOrderBy (OrderBy request);;
  validateParameterValue "nextKey" (NextKey request).

(** ** The client *)

(** [OrderDetail] and [OrderSummary], whose ID is a [UUID] in the one and an
    [OrderID] in the other. *)
Record NativeOrder : Type := MkOrder {
  ord_OrderID : string;
  ord_ClientOrderID : string;
  ord_Side : string;
  ord_OrderType : string;
  ord_Price : string;
  ord_State : string;
  ord_NativeMarket : string;
  ord_Volume : string;
  ExecutedVolume : string
}.

Record OrderReference : Type := MkReference { ref_OrderID : string; ref_Market : string; ref_ClientOrderID : string }.
Record CancelResult : Type := MkCancelResult { result_OrderID : string; result_ClientOrderID : string }.
Record OrderPage : Type := MkPage { Data : list NativeOrder; HasNext : bool; page_NextKey : string }.

Record Client (W : Type) : Type := MkClient {
  sendPlaceOrder : NativePlaceOrder → io W OrderReference;
  sendOrderInfo : OrderIdentity → io W NativeOrder;
  sendCancelOrder : OrderIdentity → io W CancelResult;
  sendPendingOrders : PendingOrdersRequest → io W OrderPage
}.
Arguments sendPlaceOrder {W}.
Arguments sendOrderInfo {W}.
Arguments sendCancelOrder {W}.
Arguments sendPendingOrders {W}.

(** ** The adapter *)

Definition bithumbMarket (market : Market) : string := Quote market +:+ "-" +:+ Base market.

Definition fromBithumbMarket (native : string) : result error Market :=
  let '(quote, base) := Cut hyphen native in
  let market := MkMarket (default "" base) quote in
  require (negb (bool_decide (base = None)) && is_Ok (Market_Validate market)) (Errorf "invalid Bithumb market %q");;
  Ok market.

Definition toBithumbSide (side : string) : string := if bool_decide (side = SideBuy) then SideBid else SideAsk.
Definition toUnifiedBithumbSide (side : string) : string := if bool_decide (side = SideBid) then SideBuy else SideSell.
Definition toUnifiedBithumbOrderType (orderType : string) : string :=
  if bool_decide (orderType = OrderTypeLimit) then Unified.OrderTypeLimit else Unified.OrderTypeMarket.

Definition toBithumbTimeInForce (value : string) : string :=
  if bool_decide (value = Unified.TimeInForceIOC) then TimeInForceIOC
  else if bool_decide (value = Unified.TimeInForceFOK) then TimeInForceFOK
  else if bool_decide (value = Unified.TimeInForcePostOnly) then TimeInForcePostOnly
  else "".

Definition toUnifiedBithumbStatus (state executedVolume : string) : string :=
  if bool_decide (state ∈ ["wait"; "watch"]) then
    if negb (unset executedVolume) && negb (decimalIsZero executedVolume)
    then OrderStatusPartiallyFilled else OrderStatusNew
  else if bool_decide (state = "done") then OrderStatusFilled
  else if bool_decide (state = "cancel") then OrderStatusCanceled
  else OrderStatusUnknown.

(** [fromBithumbOrderDetail] and [fromBithumbOrderSummary]. *)
Definition fromBithumbOrder (native : NativeOrder) (market : Market) : Order :=
  let '(price, quantity, quoteAmount) :=
    if bool_decide (ord_OrderType native = OrderTypePrice) && bool_decide (ord_Side native = SideBid)
    then ("", "", ord_Price native) else (ord_Price native, ord_Volume native, "") in
  Unified.MkOrder ExchangeBithumb (ord_OrderID native) (ord_ClientOrderID native) market (ord_NativeMarket native)
    (toUnifiedBithumbSide (ord_Side native)) (toUnifiedBithumbOrderType (ord_OrderType native))
    (toUnifiedBithumbStatus (ord_State native) (ExecutedVolume native)) price quantity quoteAmount
    (ExecutedVolume native).

(** The order that [UnifiedSpot.PlaceOrder] has the client make, and what it returns. *)
Definition nativeOrder (request : PlaceOrderRequest) : NativePlaceOrder :=
  let order := MkPlaceOrder (bithumbMarket (order_Market request)) (toBithumbSide (Unified.Side request))
    (order_Quantity request) (order_Price request) "" "" (Unified.ClientOrderID request) in
  if bool_decide (order_Type request = Unified.OrderTypeLimit) then
    order <| OrderType := OrderTypeLimit |> <| TimeInForce := toBithumbTimeInForce (Unified.TimeInForce request) |>
  else if bool_decide (Unified.Side request = SideBuy) then
    order <| OrderType := OrderTypePrice |> <| Price := QuoteAmount request |> <| Volume := "" |>
  else order <| OrderType := OrderTypeMarket |> <| Price := "" |>.

Definition placedOrder (request : PlaceOrderRequest) (reference : OrderReference) : Order :=
  Unified.MkOrder ExchangeBithumb (ref_OrderID reference) (ref_ClientOrderID reference) (order_Market request)
    (ref_Market reference) (Unified.Side request) (order_Type request) OrderStatusAcknowledged (order_Price request)
    (order_Quantity request) (QuoteAmount request) "".

(** Bithumb takes a time in force other than its default in KRW markets only. *)
#[export] Instance adapter : SpotAdapter := {
  exchange := ExchangeBithumb;
  nativeMarket := bithumbMarket;
  supported _ := Ok tt;
  Account := unit;
  SpotAdapter.NativeOrder := NativePlaceOrder;
  Reference := OrderReference;
  nativeRequest _ := nativeOrder;
  validateNative := PlaceOrderRequest_validate;
  placed _ request reference := Ok (placedOrder request reference);
  accepts _ request :=
    clientOrderIDPattern (Unified.ClientOrderID request) &&
    (bool_decide (Unified.TimeInForce request ∈ [""; TimeInForceGTC]) || bool_decide (Quote (order_Market request) = "KRW"));
  unsetTimeInForce := TimeInForceGTC
}.

Section unified_spot.
Context {W : Type} (client : Client W).

Definition PlaceOrder : PlaceOrderRequest → io W Order :=
  SpotAdapter.PlaceOrder noAccount (clientPlaceOrder (sendPlaceOrder client)).

Definition identity (request : OrderRequest) : OrderIdentity :=
  MkIdentity (OrderID request) (request_ClientOrderID request).

Definition OrderInfo (request : OrderRequest) : io W Order :=
  lift (OrderRequest_Validate request);;
  native ← validated OrderInfoRequest_validate (sendOrderInfo client) (identity request);
  mret (fromBithumbOrder native (request_Market request)).

Definition CancelOrder (request : OrderRequest) : io W Order :=
  lift (OrderRequest_Validate request);;
  result ← validated CancelOrderRequest_validate (sendCancelOrder client) (identity request);
  mret (Unified.MkOrder ExchangeBithumb (result_OrderID result) (result_ClientOrderID result) (request_Market request)
    (bithumbMarket (request_Market request)) "" "" OrderStatusCancelPending "" "" "" "").

Definition pendingPage (request : OpenOrdersRequest) (cursor : string) : io W OrderPage :=
  validated PendingOrdersRequest_validate (sendPendingOrders client)
    (MkPendingOrders (match open_Market request with Some market => bithumbMarket market | None => "" end)
       (AllMarkets request) "" 100 "" cursor).

Definition readOrder (request : OpenOrdersRequest) (native : NativeOrder) : result error Order :=
  market ← (if AllMarkets request then fromBithumbMarket (ord_NativeMarket native)
            else Ok (default (MkMarket "" "") (open_Market request)));
  Ok (fromBithumbOrder native market).

Definition nextPage (page : OrderPage) : result error (option string) :=
  if HasNext page then
    if unset (page_NextKey page) then Err (Errorf "Bithumb open orders cursor is empty") else Ok (Some (page_NextKey page))
  else Ok None.

Definition OpenOrders (fuel : nat) (request : OpenOrdersRequest) (w : W) : option (result error (list Order) * W) :=
  match OpenOrdersRequest_Validate request with
  | Err err => Some (Err err, w)
  | Ok _ =>
      collect (pendingPage request) (λ page, mapM (readOrder request) (Data page)) nextPage
        (Errorf "Bithumb open orders returned a repeated cursor") fuel ∅ "" [] w
  end.
End unified_spot.

(** ** The laws *)

Definition readback (order : NativePlaceOrder) : OrderTerms :=
  let price := bool_decide (OrderType order = OrderTypePrice) in
  MkTerms (Market_ order) (toUnifiedBithumbSide (Side order)) (toUnifiedBithumbOrderType (OrderType order))
    (if bool_decide (TimeInForce order = TimeInForceIOC) then Unified.TimeInForceIOC
     else if bool_decide (TimeInForce order = TimeInForceFOK) then Unified.TimeInForceFOK
     else if bool_decide (TimeInForce order = TimeInForcePostOnly) then Unified.TimeInForcePostOnly
     else TimeInForceGTC)
    (Volume order) (if price then Price order else "") (if price then "" else Price order) (ClientOrderID order).

Lemma Cut_bithumbMarket market :
  valid_market market → Cut hyphen (bithumbMarket market) = (Quote market, Some (Base market)).
Proof. intros H. exact (Cut_joined hyphen (swapped market) eq_refl (swapped_valid _ H)). Qed.

Lemma bithumb_market_valid market : valid_market market → validateMarket (bithumbMarket market) = Ok tt.
Proof.
  intros H. unfold validateMarket, marketPattern. rewrite Cut_bithumbMarket by done.
  destruct H as (Hb & Hq & _). by rewrite Hb, Hq.
Qed.

(** The native name of a market names it. *)
Lemma fromBithumbMarket_spec market : valid_market market → fromBithumbMarket (bithumbMarket market) = Ok market.
Proof.
  intros H. unfold fromBithumbMarket. rewrite Cut_bithumbMarket by done.
  apply (Market_Validate_Ok _ tt) in H. destruct market as [base quote]. simpl in *. by rewrite H.
Qed.

Lemma prefix_separated sep s t u :
  string_forall (not_char sep) s = true → string_forall (not_char sep) t = true →
  String.prefix (s +:+ String sep "") (t +:+ String sep u) = bool_decide (t = s).
Proof.
  revert t. induction s as [|a s IH]; intros [|b t]; simpl.
  - intros _ _. destruct (Ascii.ascii_dec sep sep); [by destruct u|done].
  - intros _ [Hb _]%andb_true_iff.
    destruct (Ascii.ascii_dec sep b) as [->|]; [|done]. exfalso. revert Hb. unfold not_char. by rewrite bool_decide_eq_true_2.
  - intros [Ha _]%andb_true_iff _.
    destruct (Ascii.ascii_dec a sep) as [->|]; [|done]. exfalso. revert Ha. unfold not_char. by rewrite bool_decide_eq_true_2.
  - intros [_ Hs]%andb_true_iff [_ Ht]%andb_true_iff. destruct (Ascii.ascii_dec a b) as [->|Hab].
    + rewrite IH by done. apply bool_decide_ext. split; [by intros ->|by intros [= ->]].
    + rewrite bool_decide_eq_false_2; [done|]. by intros [= -> ->].
Qed.

Lemma KRW_prefix market :
  valid_market market → HasPrefix (bithumbMarket market) "KRW-" = bool_decide (Quote market = "KRW").
Proof.
  intros (_ & Hq & _). apply (asset_not_char hyphen) in Hq; [|done].
  exact (prefix_separated hyphen "KRW" (Quote market) (Base market) eq_refl Hq).
Qed.

#[local] Ltac eval_native :=
  cbv beta iota zeta delta [nativeOrder toBithumbSide toBithumbTimeInForce set_field order_Market Unified.Side order_Type
    Unified.TimeInForce order_Quantity QuoteAmount order_Price Unified.ClientOrderID Market_ Side Volume Price OrderType
    TimeInForce ClientOrderID]; eval_closed; cbv beta iota.

Lemma bithumb_validate_nativeOrder request :
  valid_order request → is_Ok (PlaceOrderRequest_validate (nativeOrder request)) = accepts () request.
Proof.
  revert request. apply valid_order_cases; intros; order_kinds.
  all: pose proof (bithumb_market_valid market H) as Hmarket; pose proof (KRW_prefix market H) as Hprefix.
  all: order_facts; unfold accepts; simpl; eval_native.
  all: unfold PlaceOrderRequest_validate, validateOrderType, TimeInForce_valid, validatePositiveDecimal; eval_native.
  all: rewrite ?Hprefix; eval_guards.
  all: try by destruct (clientOrderIDPattern id), (bool_decide (Quote market = "KRW")).
Qed.

#[export] Instance laws : SpotAdapterLaws.
Proof.
  split.
  - intros [] request. apply bithumb_validate_nativeOrder.
  - unfold validateNative; simpl. intros order. change (validates (PlaceOrderRequest_validate order)).
    unfold PlaceOrderRequest_validate, validateMarket, validateOrderType, validatePositiveDecimal. solve_validates.
  - done.
  - intros [] r1 r2. apply (@terms_iff adapter readback).
    + read_orders; by vm_compute.
    + same_market nativeOrder.
    + done.
  - by intros * [= <-].
Qed.
End Bithumb.
