(* ===== verification/CoinoneSpot.v ===== *)
(** * Coinone orders: [exchange/coinone/requests.go] and [exchange/coinone/unified.go] *)

From S2P Require Import Prelude GoStrings Decimals Errors Unified SpotAdapter ClientErrors.

Module Coinone.
Definition SideBuy : string := "BUY".
Definition SideSell : string := "SELL".
Definition OrderTypeLimit : string := "LIMIT".
Definition OrderTypeMarket : string := "MARKET".
Definition OrderTypeStopLimit : string := "STOP_LIMIT".

Abbreviation refuse b message := (require (negb b) (APIValidationError ExchangeCoinone message)).

(** ** Native requests *)

Record NativePlaceOrder : Type := MkPlaceOrder {
  Side : string;
  QuoteCurrency : string;
  TargetCurrency : string;
  Type_ : string;
  Price : string;
  Quantity : string;
  Amount : string;
  LimitPrice : string;
  TriggerPrice : string;
  PostOnly : bool;
  UserOrderID : string
}.
#[export] Instance NativePlaceOrder_settable : Settable NativePlaceOrder := λ r,
  MkPlaceOrder (Side r) (QuoteCurrency r) (TargetCurrency r) (Type_ r) (Price r) (Quantity r) (Amount r) (LimitPrice r)
    (TriggerPrice r) (PostOnly r) (UserOrderID r).

(** [OrderInfoRequest] and [CancelOrderRequest] have the same fields and validation. *)
Record OrderIdentity : Type := MkIdentity {
  id_OrderID : string;
  id_UserOrderID : string;
  id_QuoteCurrency : string;
  id_TargetCurrency : string
}.

Record ActiveOrdersRequest : Type := MkActiveOrders {
  active_QuoteCurrency : string;
  active_TargetCurrency : string;
  active_AllMarkets : bool;
  OrderTypes : list string
}.

(** [^[A-Z0-9]{2,20}$], [^[a-z0-9._-]{1,150}$]. *)
Definition currencyPattern : string → bool := matches is_asset_char 2 20.
Definition userOrderIDPattern : string → bool := matches (λ c, is_digit c || is_lower c || in_cutset "._-" c) 1 150.

Definition validateCurrency (name value : string) : result error unit :=
  refuse (negb (currencyPattern value)) ("invalid " +:+ name +:+ " %q").

Definition validatePair (quoteCurrency targetCurrency : string) : result error unit :=
  validateCurrency "quote currency" quoteCurrency;;
  validateCurrency "target currency" targetCurrency;;
  refuse (bool_decide (quoteCurrency = targetCurrency)) "quote and target currencies must differ".

Definition validateMarketScope (quoteCurrency targetCurrency : string) (allMarkets : bool) : result error unit :=
  if unset quoteCurrency && unset targetCurrency
  then require allMarkets (APIValidationError ExchangeCoinone "currency pair is required unless AllMarkets is true")
  else
    refuse allMarkets "currency pair and AllMarkets cannot be used together";;
    validatePair quoteCurrency targetCurrency.

Definition validateOrderIdentity (orderID userOrderID : string) : result error unit :=
  refuse (eqb (unset orderID) (unset userOrderID)) "exactly one of order ID or user order ID is required";;
  refuse (negb (bool_decide (TrimSpace orderID = orderID)) ||
          negb (string_forall (λ c, negb (in_cutset "&=" c)) orderID)) "invalid order ID";;
  refuse (negb (unset userOrderID) && negb (userOrderIDPattern userOrderID)) "invalid user order ID".

Definition validatePositiveDecimal (name value : string) : result error unit :=
  refuse (negb (positiveDecimalPattern value) || decimalIsZero value) (name +:+ " must be a positive decimal").
Definition validateOptionalPositiveDecimal (name value : string) : result error unit :=
  if unset value then Ok tt else validatePositiveDecimal name value.

(** [PlaceOrderRequest.validate]. *)
Definition PlaceOrderRequest_validate (request : NativePlaceOrder) : result error unit :=
  validatePair (QuoteCurrency request) (TargetCurrency request);;
  refuse (negb (bool_decide (Side request = SideBuy)) && negb (bool_decide (Side request = SideSell)))
    "order side must be BUY or SELL";;
  refuse (negb (unset (UserOrderID request)) && negb (userOrderIDPattern (UserOrderID request)))
    "user order ID must contain 1 to 150 lowercase letters, digits, dots, underscores, or hyphens";;
  if bool_decide (Type_ request = OrderTypeLimit) then
    validatePositiveDecimal "price" (Price request);;
    validatePositiveDecimal "quantity" (Quantity request);;
    refuse (negb (unset (Amount request)) || negb (unset (LimitPrice request)) || negb (unset (TriggerPrice request)))
      "LIMIT order does not accept amount, limit price, or trigger price"
  else if bool_decide (Type_ request = OrderTypeMarket) then
    refuse (negb (unset (Price request)) || negb (unset (TriggerPrice request)) || PostOnly request)
      "MARKET order does not accept price, trigger price, or post only";;
    validateOptionalPositiveDecimal "limit price" (LimitPrice request);;
    if bool_decide (Side request = SideBuy) then
      validatePositiveDecimal "amount" (Amount request);;
      refuse (negb (unset (Quantity request))) "MARKET BUY order does not accept quantity"
    else
      validatePositiveDecimal "quantity" (Quantity request);;
      refuse (negb (unset (Amount request))) "MARKET SELL order does not accept amount"
  else if bool_decide (Type_ request = OrderTypeStopLimit) then
    refuse (negb (unset (Amount request)) || negb (unset (LimitPrice request)) || PostOnly request)
      "STOP_LIMIT order does not accept amount, limit price, or post only";;
    validatePositiveDecimal "price" (Price request);;
    validatePositiveDecimal "quantity" (Quantity request);;
    validatePositiveDecimal "trigger price" (TriggerPrice request)
  else Err (APIValidationError ExchangeCoinone "order type must be LIMIT, MARKET, or STOP_LIMIT").

Definition OrderIdentity_validate (request : OrderIdentity) : result error unit :=
  validatePair (id_QuoteCurrency request) (id_TargetCurrency request);;
  validateOrderIdentity (id_OrderID request) (id_UserOrderID request).

Definition ActiveOrdersRequest_validate (request : ActiveOrdersRequest) : result error unit :=
  validateMarketScope (active_QuoteCurrency request) (active_TargetCurrency request) (active_AllMarkets request);;
  refuse (bool_decide (2 < length (OrderTypes request))%nat) "active order types cannot contain more than two items";;
  fold_result (λ (seen : list string) orderType,
    refuse (negb (bool_decide (orderType = OrderTypeLimit)) && negb (bool_decide (orderType = OrderTypeStopLimit)))
      "active order types support only LIMIT and STOP_LIMIT";;
    refuse (bool_decide (orderType ∈ seen)) "active order types cannot contain duplicates";;
    Ok (orderType :: seen)) [] (OrderTypes request);;
  Ok tt.

(** ** The client *)

(** [OrderDetail]; an [ActiveOrder] is the part without a status and an amount. *)
Record NativeOrder : Type := MkOrder {
  ord_OrderID : string;
  ord_UserOrderID : string;
  ord_Type : string;
  ord_QuoteCurrency : string;
  ord_TargetCurrency : string;
  ord_Side : string;
  ord_Price : string;
  OriginalQuantity : string;
  ExecutedQuantity : string;
  ord_Status : string;
  OriginalAmount : string
}.

Record CancelResult : Type := MkCancelResult {
  result_OrderID : string;
  result_Price : string;
  result_Side : string;
  result_OriginalQuantity : string;
  result_TradedQuantity : string
}.
Record OrderReference : Type := MkReference { ref_OrderID : string }.

Record Client (W : Type) : Type := MkClient {
  sendPlaceOrder : NativePlaceOrder → io W OrderReference;
  sendOrderInfo : OrderIdentity → io W NativeOrder;
  sendCancelOrder : OrderIdentity → io W CancelResult;
  sendActiveOrders : ActiveOrdersRequest → io W (list NativeOrder)
}.
Arguments sendPlaceOrder {W}.
Arguments sendOrderInfo {W}.
Arguments sendCancelOrder {W}.
Arguments sendActiveOrders {W}.

(** ** The adapter *)

Definition coinonePair (quoteCurrency targetCurrency : string) : string :=
  ToUpperText quoteCurrency +:+ "-" +:+ ToUpperText targetCurrency.
Definition coinoneMarket (market : Market) : string := coinonePair (Quote market) (Base market).

Definition toCoinoneSide (side : string) : string := if bool_decide (side = Unified.SideBuy) then SideBuy else SideSell.
Definition toUnifiedCoinoneSide (side : string) : string :=
  if bool_decide (side = SideBuy) then Unified.SideBuy else Unified.SideSell.
Definition toUnifiedCoinoneOrderType (orderType : string) : string :=
  if bool_decide (orderType = OrderTypeMarket) then Unified.OrderTypeMarket else Unified.OrderTypeLimit.

Definition toUnifiedCoinoneStatus (status : string) : string :=
  if bool_decide (status ∈ ["LIVE"; "NOT_TRIGGERED"; "TRIGGERED"]) then OrderStatusNew
  else if bool_decide (status = "PARTIALLY_FILLED") then OrderStatusPartiallyFilled
  else if bool_decide (status = "FILLED") then OrderStatusFilled
  else if bool_decide (status ∈ ["PARTIALLY_CANCELED"; "CANCELED"; "NOT_TRIGGERED_PARTIALLY_CANCELED";
    "NOT_TRIGGERED_CANCELED"; "CANCELED_NO_ORDER"; "CANCELED_LIMIT_PRICE_EXCEED"; "CANCELED_UNDER_PRODUCT_UNIT"])
  then OrderStatusCanceled
  else OrderStatusUnknown.

Definition fromCoinoneOrderDetail (native : NativeOrder) (market : Market) : Order :=
  let '(quantity, quoteAmount) :=
    if bool_decide (ord_Type native = OrderTypeMarket) && bool_decide (ord_Side native = SideBuy)
    then ("", OriginalAmount native) else (OriginalQuantity native, "") in
  Unified.MkOrder ExchangeCoinone (ord_OrderID native) (ord_UserOrderID native) market
    (coinonePair (ord_QuoteCurrency native) (ord_TargetCurrency native)) (toUnifiedCoinoneSide (ord_Side native))
    (toUnifiedCoinoneOrderType (ord_Type native)) (toUnifiedCoinoneStatus (ord_Status native)) (ord_Price native)
    quantity quoteAmount (ExecutedQuantity native).

Definition fromCoinoneActiveOrder (native : NativeOrder) (market : Market) : Order :=
  let status := if negb (unset (ExecutedQuantity native)) && negb (decimalIsZero (ExecutedQuantity native))
                then OrderStatusPartiallyFilled else OrderStatusNew in
  Unified.MkOrder ExchangeCoinone (ord_OrderID native) (ord_UserOrderID native) market
    (coinonePair (ord_QuoteCurrency native) (ord_TargetCurrency native)) (toUnifiedCoinoneSide (ord_Side native))
    (toUnifiedCoinoneOrderType (ord_Type native)) status (ord_Price native) (OriginalQuantity native) ""
    (ExecutedQuantity native).

(** [UnifiedSpot.PlaceOrder] has no native order for a limit order that is to fill at
    once. *)
Definition supportedOrder (request : PlaceOrderRequest) : result error unit :=
  require (negb (bool_decide (order_Type request = Unified.OrderTypeLimit) &&
    (bool_decide (TimeInForce request = TimeInForceIOC) || bool_decide (TimeInForce request = TimeInForceFOK))))
    (UnsupportedCapabilityError ExchangeCoinone "Coinone unified limit orders do not support %s").

(** The order that [UnifiedSpot.PlaceOrder] has the client make, and what it returns. *)
Definition nativeOrder (request : PlaceOrderRequest) : NativePlaceOrder :=
  let order := MkPlaceOrder (toCoinoneSide (Unified.Side request)) (Quote (order_Market request))
    (Base (order_Market request)) "" "" "" "" "" "" false (ClientOrderID request) in
  if bool_decide (order_Type request = Unified.OrderTypeLimit) then
    order <| Type_ := OrderTypeLimit |> <| Price := order_Price request |> <| Quantity := order_Quantity request |>
      <| PostOnly := bool_decide (TimeInForce request = TimeInForcePostOnly) |>
  else
    let order := order <| Type_ := OrderTypeMarket |> in
    if bool_decide (Unified.Side request = Unified.SideBuy) then order <| Amount := QuoteAmount request |>
    else order <| Quantity := order_Quantity request |>.

Definition placedOrder (request : PlaceOrderRequest) (reference : OrderReference) : Order :=
  Unified.MkOrder ExchangeCoinone (ref_OrderID reference) (ClientOrderID request) (order_Market request)
    (coinoneMarket (order_Market request)) (Unified.Side request) (order_Type request) OrderStatusAcknowledged
    (order_Price request) (order_Quantity request) (QuoteAmount request) "".

#[export] Instance adapter : SpotAdapter := {
  exchange := ExchangeCoinone;
  nativeMarket := coinoneMarket;
  supported := supportedOrder;
  Account := unit;
  SpotAdapter.NativeOrder := NativePlaceOrder;
  Reference := OrderReference;
  nativeRequest _ := nativeOrder;
  validateNative := PlaceOrderRequest_validate;
  placed _ request reference := Ok (placedOrder request reference);
  accepts _ request := userOrderIDPattern (ClientOrderID request) && assetLengths 2 20 (order_Market request);
  unsetTimeInForce := TimeInForceGTC
}.

Section unified_spot.
Context {W : Type} (client : Client W).

Definition PlaceOrder : PlaceOrderRequest → io W Order :=
  SpotAdapter.PlaceOrder noAccount (clientPlaceOrder (sendPlaceOrder client)).

Definition identity (request : OrderRequest) : OrderIdentity :=
  MkIdentity (OrderID request) (request_ClientOrderID request) (Quote (request_Market request))
    (Base (request_Market request)).

Definition OrderInfo (request : OrderRequest) : io W Order :=
  lift (OrderRequest_Validate request);;
  native ← validated OrderIdentity_validate (sendOrderInfo client) (identity request);
  mret (fromCoinoneOrderDetail native (request_Market request)).

Definition CancelOrder (request : OrderRequest) : io W Order :=
  lift (OrderRequest_Validate request);;
  native ← validated OrderIdentity_validate (sendCancelOrder client) (identity request);
  mret (Unified.MkOrder ExchangeCoinone (result_OrderID native) (request_ClientOrderID request) (request_Market request)
    (coinoneMarket (request_Market request)) (toUnifiedCoinoneSide (result_Side native)) "" OrderStatusCancelPending
    (result_Price native) (result_OriginalQuantity native) "" (result_TradedQuantity native)).

Definition readOrder (native : NativeOrder) : result error Order :=
  let market := MkMarket (ord_TargetCurrency native) (ord_QuoteCurrency native) in
  match Market_Validate market with
  | Ok _ => Ok (fromCoinoneActiveOrder native market)
  | Err err => Err (Wrapf "invalid Coinone active order market %q: %w" err)
  end.

Definition OpenOrders (request : OpenOrdersRequest) : io W (list Order) :=
  lift (OpenOrdersRequest_Validate request);;
  let '(quote, target) := match open_Market request with
                          | Some market => (Quote market, Base market)
                          | None => ("", "")
                          end in
  natives ← validated ActiveOrdersRequest_validate (sendActiveOrders client)
    (MkActiveOrders quote target (AllMarkets request) []);
  lift (mapM readOrder natives).
End unified_spot.

(** ** The laws *)

Definition readback (order : NativePlaceOrder) : OrderTerms :=
  MkTerms (coinonePair (QuoteCurrency order) (TargetCurrency order)) (toUnifiedCoinoneSide (Side order))
    (toUnifiedCoinoneOrderType (Type_ order)) (if PostOnly order then TimeInForcePostOnly else TimeInForceGTC)
    (Quantity order) (Amount order) (Price order) (UserOrderID order).

Lemma ToUpperText_asset s : string_forall is_asset_char s = true → ToUpperText s = s.
Proof.
  rewrite string_forall_list. intros Hs. unfold ToUpperText, map_bytes.
  assert (∀ c, is_asset_char c = true → is_ascii c = true ∧ upper_ascii c = c) as Hc
    by (intros [[] [] [] [] [] [] [] []]; vm_compute; done).
  rewrite upper_bytes_ascii by (eapply Forall_impl; [exact Hs|apply Hc]).
  assert (upper_ascii <$> String.list_ascii_of_string s = String.list_ascii_of_string s) as ->.
  { induction Hs as [|c l H _ IH]; [done|]. rewrite fmap_cons, IH. f_equal. by apply Hc. }
  apply String.string_of_list_ascii_of_string.
Qed.

Lemma coinoneMarket_joined market : valid_market market → coinoneMarket market = joined "-" (swapped market).
Proof.
  intros ([_ Hb]%assetPattern_Ok & [_ Hq]%assetPattern_Ok & _). unfold coinoneMarket, coinonePair.
  by rewrite !ToUpperText_asset.
Qed.

Lemma coinoneMarket_inj market1 market2 :
  valid_market market1 → valid_market market2 → coinoneMarket market1 = coinoneMarket market2 → market1 = market2.
Proof.
  intros H1 H2. rewrite !coinoneMarket_joined by done. intros Heq.
  apply (joined_inj (byte 45)) in Heq; [|done|by apply swapped_valid..].
  destruct market1, market2. injection Heq as -> ->. done.
Qed.

Lemma pair_accepted market :
  valid_market market → is_Ok (validatePair (Quote market) (Base market)) = assetLengths 2 20 market.
Proof.
  intros ([_ Hb]%assetPattern_Ok & [_ Hq]%assetPattern_Ok & Hne).
  unfold validatePair, validateCurrency, currencyPattern, matches, assetLengths.
  rewrite !is_Ok_bind, !is_Ok_require, !negb_involutive, Hb, Hq, !andb_true_r.
  rewrite (bool_decide_eq_false_2 (Quote market = Base market)) by congruence.
  rewrite andb_true_r. apply andb_comm.
Qed.

#[local] Ltac eval_native :=
  cbv beta iota zeta delta [nativeOrder toCoinoneSide set_field order_Market Unified.Side order_Type TimeInForce
    order_Quantity QuoteAmount order_Price ClientOrderID Side QuoteCurrency TargetCurrency Type_ Price Quantity Amount
    LimitPrice TriggerPrice PostOnly UserOrderID]; eval_closed; cbv beta iota.

Lemma coinone_validate_nativeOrder request :
  valid_order request →
  is_Ok (PlaceOrderRequest_validate (nativeOrder request)) =
  userOrderIDPattern (ClientOrderID request) && assetLengths 2 20 (order_Market request).
Proof.
  revert request. apply valid_order_cases; intros; order_kinds.
  all: pose proof (pair_accepted market H) as Hpair; order_facts; eval_native.
  all: unfold PlaceOrderRequest_validate, validatePositiveDecimal; eval_native.
  all: rewrite is_Ok_bind, Hpair; rewrite_facts; eval_guards.
  all: by destruct (userOrderIDPattern id), (assetLengths 2 20 market).
Qed.

#[export] Instance laws : SpotAdapterLaws.
Proof.
  split.
  - intros [] request. apply coinone_validate_nativeOrder.
  - unfold validateNative; simpl. intros order. change (validates (PlaceOrderRequest_validate order)).
    unfold PlaceOrderRequest_validate, validatePair, validateCurrency, validateOptionalPositiveDecimal,
      validatePositiveDecimal. solve_validates.
  - intros request e. simpl. unfold supportedOrder. by intros [_ ->]%require_Err.
  - intros [] r1 r2. apply (@terms_iff adapter readback).
    + apply (valid_order_cases (λ request, supported request = Ok tt →
        readback (nativeRequest (SpotAdapter:=adapter) () request) = terms request)).
      all: intros; order_kinds; try (by match goal with H : supported _ = _ |- _ => vm_compute in H end).
      all: unfold terms, readback; cbn [nativeMarket adapter]; unfold coinoneMarket; generalize coinonePair; intros pair.
      all: by vm_compute.
    + intros * H1 H2 Hm. apply coinoneMarket_inj in Hm as ->; done.
    + done.
  - by intros * [= <-].
Qed.
End Coinone.
