(* ===== verification/SpotExchanges.v ===== *)
(** * The unified Spot adapters of all exchanges

    [SpotExchange] names the exchanges that have a unified Spot adapter, and the
    definitions of this file pick the client and the operations of each: what
    holds of every adapter is stated here, once. *)

From S2P Require Import Prelude GoStrings Decimals Errors Unified SpotAdapter Pages ClientErrors.
From S2P Require Import BinanceSpot OKXSpot BybitSpot BitgetSpot MEXCSpot KuCoinSpot GateIOSpot HTXSpot CoinbaseSpot KrakenSpot CryptoComSpot KorbitSpot UpbitSpot BithumbSpot CoinoneSpot.

Inductive SpotExchange : Type :=
  SpotBinance | SpotOKX | SpotBybit | SpotBitget | SpotMEXC | SpotKuCoin | SpotGateIO | SpotHTX | SpotCoinbase | SpotKraken | SpotCryptoCom | SpotKorbit | SpotUpbit | SpotBithumb | SpotCoinone.

Definition adapter_of (e : SpotExchange) : SpotAdapter :=
  match e with
  | SpotBinance => Binance.adapter
  | SpotOKX => OKX.adapter
  | SpotBybit => Bybit.adapter
  | SpotBitget => Bitget.adapter
  | SpotMEXC => MEXC.adapter
  | SpotKuCoin => KuCoin.adapter
  | SpotGateIO => GateIO.adapter
  | SpotHTX => HTX.adapter
  | SpotCoinbase => Coinbase.adapter
  | SpotKraken => Kraken.adapter
  | SpotCryptoCom => CryptoCom.adapter
  | SpotKorbit => Korbit.adapter
  | SpotUpbit => Upbit.adapter
  | SpotBithumb => Bithumb.adapter
  | SpotCoinone => Coinone.adapter
  end.

#[export] Instance laws_of (e : SpotExchange) : @SpotAdapterLaws (adapter_of e) :=
  match e with
  | SpotBinance => Binance.laws
  | SpotOKX => OKX.laws
  | SpotBybit => Bybit.laws
  | SpotBitget => Bitget.laws
  | SpotMEXC => MEXC.laws
  | SpotKuCoin => KuCoin.laws
  | SpotGateIO => GateIO.laws
  | SpotHTX => HTX.laws
  | SpotCoinbase => Coinbase.laws
  | SpotKraken => Kraken.laws
  | SpotCryptoCom => CryptoCom.laws
  | SpotKorbit => Korbit.laws
  | SpotUpbit => Upbit.laws
  | SpotBithumb => Bithumb.laws
  | SpotCoinone => Coinone.laws
  end.

(** The native client of an exchange: what [NewUnifiedSpot] is given. *)
Definition ClientOf (e : SpotExchange) (W : Type) : Type :=
  match e with
  | SpotBinance => Binance.Client W
  | SpotOKX => OKX.Client W
  | SpotBybit => Bybit.Client W
  | SpotBitget => Bitget.Client W
  | SpotMEXC => MEXC.Client W
  | SpotKuCoin => KuCoin.Client W
  | SpotGateIO => GateIO.Client W
  | SpotHTX => HTX.Client W
  | SpotCoinbase => Coinbase.Client W
  | SpotKraken => Kraken.Client W
  | SpotCryptoCom => CryptoCom.Client W
  | SpotKorbit => Korbit.Client W
  | SpotUpbit => Upbit.Client W
  | SpotBithumb => Bithumb.Client W
  | SpotCoinone => Coinone.Client W
  end.

(** What the adapter asks for before it makes a native order, and the call that
    sends one. *)
Definition prepare_of {W} (e : SpotExchange) : ClientOf e W → PlaceOrderRequest → io W (@Account (adapter_of e)) :=
  match e with
  | SpotBinance => λ _, noAccount
  | SpotOKX => λ _, noAccount
  | SpotBybit => λ _, noAccount
  | SpotBitget => λ _, noAccount
  | SpotMEXC => λ client, generatedID (MEXC.newMEXCClientOrderID client)
  | SpotKuCoin => λ client, generatedID (KuCoin.newKuCoinClientOrderID client)
  | SpotGateIO => λ client, generatedID (GateIO.newGateIOClientOrderID client)
  | SpotHTX => λ client, HTX.prepare client
  | SpotCoinbase => λ client, generatedID (Coinbase.random client)
  | SpotKraken => λ _, noAccount
  | SpotCryptoCom => λ client, generatedID (CryptoCom.newCryptoComClientOrderID client)
  | SpotKorbit => λ client, generatedID (Korbit.newKorbitClientOrderID client)
  | SpotUpbit => λ _, noAccount
  | SpotBithumb => λ _, noAccount
  | SpotCoinone => λ _, noAccount
  end.

Definition send_of {W} (e : SpotExchange) :
    ClientOf e W → @NativeOrder (adapter_of e) → io W (@Reference (adapter_of e)) :=
  match e with
  | SpotBinance => Binance.sendNewOrder
  | SpotOKX => OKX.sendPlaceOrder
  | SpotBybit => Bybit.sendPlaceOrder
  | SpotBitget => Bitget.sendPlaceOrder
  | SpotMEXC => MEXC.sendPlaceOrder
  | SpotKuCoin => KuCoin.sendPlaceOrder
  | SpotGateIO => GateIO.sendPlaceOrder
  | SpotHTX => HTX.sendPlaceOrder
  | SpotCoinbase => Coinbase.sendPlaceOrder
  | SpotKraken => Kraken.sendPlaceOrder
  | SpotCryptoCom => CryptoCom.sendPlaceOrder
  | SpotKorbit => Korbit.sendPlaceOrder
  | SpotUpbit => Upbit.sendPlaceOrder
  | SpotBithumb => Bithumb.sendPlaceOrder
  | SpotCoinone => Coinone.sendPlaceOrder
  end.

(** [unified.SpotAdapter.PlaceOrder]. *)
Definition placeOrder {W} (e : SpotExchange) : ClientOf e W → PlaceOrderRequest → io W Order :=
  match e with
  | SpotBinance => Binance.PlaceOrder
  | SpotOKX => OKX.PlaceOrder
  | SpotBybit => Bybit.PlaceOrder
  | SpotBitget => Bitget.PlaceOrder
  | SpotMEXC => MEXC.PlaceOrder
  | SpotKuCoin => KuCoin.PlaceOrder
  | SpotGateIO => GateIO.PlaceOrder
  | SpotHTX => HTX.PlaceOrder
  | SpotCoinbase => Coinbase.PlaceOrder
  | SpotKraken => Kraken.PlaceOrder
  | SpotCryptoCom => CryptoCom.PlaceOrder
  | SpotKorbit => Korbit.PlaceOrder
  | SpotUpbit => Upbit.PlaceOrder
  | SpotBithumb => Bithumb.PlaceOrder
  | SpotCoinone => Coinone.PlaceOrder
  end.

(** Some lookups take a page after another: [fuel] bounds them. *)
Definition one_call {W A} (call : io W A) (w : W) : option (result error A * W) := Some (call w).

(** [unified.SpotAdapter.Order]. *)
Definition orderInfo {W} (e : SpotExchange) (fuel : nat) : ClientOf e W → OrderRequest → W → option (result error Order * W) :=
  match e with
  | SpotBinance => λ client request, one_call (Binance.OrderInfo client request)
  | SpotOKX => λ client request, one_call (OKX.OrderInfo client request)
  | SpotBybit => λ client request, one_call (Bybit.OrderInfo client request)
  | SpotBitget => λ client request, one_call (Bitget.OrderInfo client request)
  | SpotMEXC => λ client request, one_call (MEXC.OrderInfo client request)
  | SpotKuCoin => λ client request, one_call (KuCoin.OrderInfo client request)
  | SpotGateIO => λ client request, one_call (GateIO.OrderInfo client request)
  | SpotHTX => λ client request, one_call (HTX.OrderInfo client request)
  | SpotCoinbase => λ client, Coinbase.OrderInfo client fuel
  | SpotKraken => λ client, Kraken.OrderInfo client fuel
  | SpotCryptoCom => λ client request, one_call (CryptoCom.OrderInfo client request)
  | SpotKorbit => λ client request, one_call (Korbit.OrderInfo client request)
  | SpotUpbit => λ client request, one_call (Upbit.OrderInfo client request)
  | SpotBithumb => λ client request, one_call (Bithumb.OrderInfo client request)
  | SpotCoinone => λ client request, one_call (Coinone.OrderInfo client request)
  end.

(** [unified.SpotAdapter.CancelOrder]. *)
Definition cancelOrder {W} (e : SpotExchange) (fuel : nat) : ClientOf e W → OrderRequest → W → option (result error Order * W) :=
  match e with
  | SpotBinance => λ client request, one_call (Binance.CancelOrder client request)
  | SpotOKX => λ client request, one_call (OKX.CancelOrder client request)
  | SpotBybit => λ client request, one_call (Bybit.CancelOrder client request)
  | SpotBitget => λ client request, one_call (Bitget.CancelOrder client request)
  | SpotMEXC => λ client request, one_call (MEXC.CancelOrder client request)
  | SpotKuCoin => λ client request, one_call (KuCoin.CancelOrder client request)
  | SpotGateIO => λ client request, one_call (GateIO.CancelOrder client request)
  | SpotHTX => λ client request, one_call (HTX.CancelOrder client request)
  | SpotCoinbase => λ client, Coinbase.CancelOrder client fuel
  | SpotKraken => λ client request, one_call (Kraken.CancelOrder client request)
  | SpotCryptoCom => λ client request, one_call (CryptoCom.CancelOrder client request)
  | SpotKorbit => λ client request, one_call (Korbit.CancelOrder client request)
  | SpotUpbit => λ client request, one_call (Upbit.CancelOrder client request)
  | SpotBithumb => λ client request, one_call (Bithumb.CancelOrder client request)
  | SpotCoinone => λ client request, one_call (Coinone.CancelOrder client request)
  end.

(** [unified.SpotAdapter.OpenOrders]. *)
Definition openOrders {W} (e : SpotExchange) (fuel : nat) :
    ClientOf e W → OpenOrdersRequest → W → option (result error (list Order) * W) :=
  match e with
  | SpotBinance => λ client request, one_call (Binance.OpenOrders client request)
  | SpotOKX => λ client, OKX.OpenOrders client fuel
  | SpotBybit => λ client, Bybit.OpenOrders client fuel
  | SpotBitget => λ client request, one_call (Bitget.OpenOrders client request)
  | SpotMEXC => λ client request, one_call (MEXC.OpenOrders client request)
  | SpotKuCoin => λ client, KuCoin.OpenOrders client fuel
  | SpotGateIO => λ client request, one_call (GateIO.OpenOrders client request)
  | SpotHTX => λ client request, one_call (HTX.OpenOrders client request)
  | SpotCoinbase => λ client, Coinbase.OpenOrders client fuel
  | SpotKraken => λ client request, one_call (Kraken.OpenOrders client request)
  | SpotCryptoCom => λ client request, one_call (CryptoCom.OpenOrders client request)
  | SpotKorbit => λ client request, one_call (Korbit.OpenOrders client request)
  | SpotUpbit => λ client request, one_call (Upbit.OpenOrders client request)
  | SpotBithumb => λ client, Bithumb.OpenOrders client fuel
  | SpotCoinone => λ client request, one_call (Coinone.OpenOrders client request)
  end.

(** ** Placing an order *)

Lemma placeOrder_generic {W} (e : SpotExchange) (client : ClientOf e W) :
  placeOrder e client = SpotAdapter.PlaceOrder (prepare_of e client) (clientPlaceOrder (send_of e client)).
Proof. by destruct e. Qed.

(** A valid order has a client order ID, so that none is made up for it: only HTX,
    which looks up the ID of the account, asks for anything. *)
Lemma prepare_valid {W} (e : SpotExchange) (client : ClientOf e W) request w :
  valid_order request → e ≠ SpotHTX → ∃ account, prepare_of e client request w = (Ok account, w).
Proof.
  intros (_ & _ & Hid & _) He. apply (bool_decide_eq_false_2 (ClientOrderID request = "")) in Hid.
  destruct e; try done; simpl; unfold generatedID, noAccount; rewrite ?Hid; by eexists.
Qed.

Section placing.
Context {W : Type} (e : SpotExchange) (client : ClientOf e W).
#[local] Hint Extern 0 SpotAdapter => exact (adapter_of e) : typeclass_instances.

Lemma placeOrder_invalid request w :
  ¬ valid_order request → ∃ err, placeOrder e client request w = (Err err, w) ∧ Is err ErrValidation = true.
Proof.
  intros Hv. destruct (PlaceOrderRequest_Validate request) as [[]|err] eqn:Hval.
  { destruct Hv. by apply PlaceOrderRequest_Validate_Ok. }
  exists err. rewrite placeOrder_generic. unfold SpotAdapter.PlaceOrder. rewrite io_bind_lift, Hval.
  split; [done|]. by eapply PlaceOrderRequest_Validate_Err.
Qed.

Lemma placeOrder_valid request w :
  valid_order request →
  placeOrder e client request w =
  (lift (supported request);;
   account ← prepare_of e client request;
   reference ← clientPlaceOrder (send_of e client) (nativeRequest account request);
   lift (placed account request reference)) w.
Proof.
  intros Hv. rewrite placeOrder_generic. unfold SpotAdapter.PlaceOrder. rewrite io_bind_lift.
  apply (PlaceOrderRequest_Validate_Ok _) in Hv. by rewrite Hv.
Qed.

Lemma placeOrder_prepared request account w w' :
  valid_order request → supported request = Ok tt → prepare_of e client request w = (Ok account, w') →
  placeOrder e client request w =
  match validateNative (nativeRequest account request) with
  | Err err => (Err err, w')
  | Ok _ =>
      match send_of e client (nativeRequest account request) w' with
      | (Ok reference, w'') => (placed account request reference, w'')
      | (Err err, w'') => (Err err, w'')
      end
  end.
Proof.
  intros Hv Hs Hp. rewrite placeOrder_valid by done. rewrite io_bind_lift, Hs.
  rewrite io_bind_run, Hp, io_bind_run. unfold clientPlaceOrder. rewrite validated_run.
  destruct (validateNative _) as [[]|err]; [|done]. by destruct (send_of _ _ _ _) as [[]].
Qed.
End placing.

(** ** Answers *)

(** A computation answers only with what satisfies [P], or with an error. *)
Definition answers {W A} (P : A → Prop) (call : io W A) : Prop := ∀ w a w', call w = (Ok a, w') → P a.

Lemma answers_bind {W A B} (P : B → Prop) (m : io W A) (k : A → io W B) :
  (∀ a, answers P (k a)) → answers P (m ≫= k).
Proof.
  intros Hk w b w'. rewrite io_bind_run. destruct (m w) as [[a|err] w1]; [apply Hk|done].
Qed.
Lemma answers_bind_lift {W A B} (P : B → Prop) (r : result error A) (k : A → io W B) :
  (∀ a, r = Ok a → answers P (k a)) → answers P (lift r ≫= k).
Proof. intros Hk w b w'. rewrite io_bind_lift. destruct r as [a|err]; [by apply Hk|done]. Qed.
Lemma answers_ret {W A} (P : A → Prop) (a : A) : P a → answers (W:=W) P (mret a).
Proof. by intros H w b w' [= <- <-]. Qed.
Lemma answers_lift {W A} (P : A → Prop) (r : result error A) : (∀ a, r = Ok a → P a) → answers (W:=W) P (lift r).
Proof. intros H w b w'. unfold lift. intros [= Hr _]. by apply H. Qed.

(** The answer is about the exchange and the market that were asked. *)
Definition identifies (e : SpotExchange) (market : Market) (order : Order) : Prop :=
  ord_Exchange order = @exchange (adapter_of e) ∧ ord_Market order = market.

(** The answers of a call that may take several pages. *)
Definition answers_paged {W A} (P : A → Prop) (call : W → option (result error A * W)) : Prop :=
  ∀ w a w', call w = Some (Ok a, w') → P a.

Lemma answers_one_call {W A} (P : A → Prop) (call : io W A) : answers P call → answers_paged P (one_call call).
Proof. intros H w a w' [= Hc]. by eapply H. Qed.

(** Walks through a call to its answer. *)
Ltac walk_call :=
  repeat match goal with
    | |- answers _ (lift _ ≫= _) => apply answers_bind_lift; intros ? ?
    | |- answers _ (_ ≫= _) => apply answers_bind; intros ?
    | |- answers _ (mret _) => apply answers_ret
    | |- answers _ (lift _) => apply answers_lift
    end.

(** An order made of a native one is about the market it is made for. *)
Ltac destruct_pair := match goal with H : (let '(_, _) := ?x in _) = Ok _ |- _ => destruct x end.
Ltac identify :=
  lazymatch goal with
  | |- ∀ _ : Order, _ =>
      intros order Horder;
      try match type of Horder with ?f _ _ = _ => unfold f in Horder end;
      repeat first [destruct_pair | match goal with H : (_ ≫= _) = Ok _ |- _ => apply result_bind_Ok in H as (? & ? & ?) end];
      simplify_eq; by split
  | |- identifies _ _ (Unified.MkOrder _ _ _ _ _ _ _ _ _ _ _ _) => by split
  | |- identifies _ _ (?f _ _) =>
      unfold f; cbv zeta; repeat match goal with |- context [let '(_, _) := ?x in _] => destruct x end; by split
  end.

Section answering.
Context {W : Type} (e : SpotExchange) (client : ClientOf e W).

Lemma orderInfo_identifies fuel request :
  answers_paged (identifies e (request_Market request)) (orderInfo e fuel client request).
Proof.
  destruct e; simpl in *.
  all: try (apply answers_one_call; match goal with |- answers _ (?call _ _ _) => unfold call end; walk_call; identify).
  all: intros w order w'; unfold Coinbase.OrderInfo, Kraken.OrderInfo.
  all: repeat case_match; intros; simplify_eq; identify.
Qed.

Lemma fromGateIOOrder_identifies native market order :
  GateIO.fromGateIOOrder native market = Ok order → identifies SpotGateIO market order.
Proof. revert order. identify. Qed.

Lemma cancelResolved_identifies (coinbase : Coinbase.Client W) request orderID clientOrderID :
  answers (identifies SpotCoinbase (request_Market request)) (Coinbase.cancelResolved coinbase request orderID clientOrderID).
Proof.
  unfold Coinbase.cancelResolved. apply answers_bind. intros results. apply answers_lift.
  destruct results as [|result [|]]; [done| |done]. identify.
Qed.

Lemma cancelOrder_identifies fuel request :
  answers_paged (identifies e (request_Market request)) (cancelOrder e fuel client request).
Proof.
  destruct e; simpl in *.
  all: try (apply answers_one_call; match goal with |- answers _ (?call _ _ _) => unfold call end; walk_call; cbv zeta; walk_call;
    identify).
  - apply answers_one_call. unfold GateIO.CancelOrder. walk_call. apply fromGateIOOrder_identifies in H0 as [He Hm].
    by split.
  - intros w order w'. unfold Coinbase.CancelOrder.
    repeat case_match; intros; simplify_eq; by eapply cancelResolved_identifies.
Qed.
End answering.

(** ** The names of the markets *)

(** What reads a native market name, where the adapter does. *)
Definition fromNative (e : SpotExchange) : option (string → result error Market) :=
  match e with
  | SpotOKX => Some OKX.fromOKXSpotInstrumentID
  | SpotKuCoin => Some KuCoin.fromKuCoinSymbol
  | SpotGateIO => Some GateIO.fromGateIOSymbol
  | SpotCoinbase => Some Coinbase.fromCoinbaseProductID
  | SpotCryptoCom => Some CryptoCom.marketFromCryptoComInstrumentName
  | SpotKorbit => Some Korbit.fromKorbitSymbol
  | SpotUpbit => Some Upbit.fromUpbitMarket
  | SpotBithumb => Some Bithumb.fromBithumbMarket
  | _ => None
  end.

(** Readers that look for a separator, check the market, and compare its name. *)
Lemma checked_name (sep : ascii) market :
  is_asset_char sep = false → valid_market market →
  Cut sep (joined (String sep "") market) = (Base market, Some (Quote market)) ∧ is_Ok (Market_Validate market) = true.
Proof. intros Hsep H. split; [by apply Cut_joined|]. by rewrite (proj2 (Market_Validate_Ok market tt) H). Qed.

Ltac read_name sep H :=
  destruct (checked_name sep _ eq_refl H) as [Hcut Hok];
  match type of Hcut with
  | ?cut = _ => match goal with |- context [Cut ?s ?t] => change (Cut s t) with cut end
  end;
  rewrite Hcut;
  match type of H with valid_market ?market => destruct market as [base quote] end;
  cbn [Base Quote from_option id] in *; cbv zeta; unfold id in *; rewrite Hok;
  repeat case_bool_decide; done.

Lemma fromNative_name e read market :
  fromNative e = Some read → valid_market market → read (@nativeMarket (adapter_of e) market) = Ok market.
Proof.
  intros He H. destruct e; try done; injection He as <-; cbn [nativeMarket adapter_of].
  - by apply OKX.fromOKXSpotInstrumentID_spec.
  - unfold KuCoin.fromKuCoinSymbol. read_name KuCoin.hyphen H.
  - unfold GateIO.fromGateIOSymbol. read_name GateIO.underscore H.
  - by apply Coinbase.fromCoinbaseProductID_spec.
  - unfold CryptoCom.marketFromCryptoComInstrumentName. read_name CryptoCom.underscore H.
  - by apply Korbit.fromKorbitSymbol_spec.
  - by apply Upbit.fromUpbitMarket_spec.
  - by apply Bithumb.fromBithumbMarket_spec.
Qed.

Lemma Split_inv_one (sep : ascii) s part : Split sep s = [part] → s = part.
Proof.
  revert part. induction s as [|c s IH]; simpl; intros part; [by intros [= <-]|].
  case_bool_decide.
  - intros [= _ Hs]. by destruct s; simpl in Hs; repeat case_match.
  - destruct (Split sep s) as [|x [|]] eqn:Hs; [by destruct s; simpl in Hs; repeat case_match| |done].
    intros [= <-]. by rewrite (IH x).
Qed.

Lemma Split_inv (sep : ascii) s before after : Split sep s = [before; after] → s = before +:+ String sep after.
Proof.
  revert before. induction s as [|c s IH]; simpl; intros before; [done|].
  case_bool_decide as Hc.
  - intros [= <- Hs]. apply Split_inv_one in Hs. by subst.
  - destruct (Split sep s) as [|x rest] eqn:Hs; [done|]. intros [= <- ->]. by rewrite (IH x).
Qed.

(** What a reader accepts is the name of the valid market that it returns; Korbit's
    reader takes any case. *)
Ltac read_back :=
  repeat match goal with
    | H : Cut _ _ = (_, Some _) |- _ => apply Cut_inv in H
    | H : Split _ _ = _ |- _ => apply Split_inv in H
    | H : (_ ≫= _) = Ok _ |- _ => apply result_bind_Ok in H as (? & ? & ?)
    | H : require _ _ = Ok _ |- _ => apply require_Ok in H
    | H : is_Ok (Market_Validate ?m) = true |- _ => destruct (Market_Validate m) eqn:?; [clear H|done]
    | H : Market_Validate _ = Ok _ |- _ => apply Market_Validate_Ok in H
    | H : (_ && _) = true |- _ => apply andb_true_iff in H as [? ?]
    | H : bool_decide _ = true |- _ => apply bool_decide_eq_true in H
    | H : negb _ = true |- _ => apply negb_true_iff in H
    end.

Lemma fromNative_inv e read text market :
  fromNative e = Some read → read text = Ok market →
  valid_market market ∧ (e ≠ SpotKorbit → @nativeMarket (adapter_of e) market = text).
Proof.
  intros He H. destruct e; try done; injection He as <-; cbn [nativeMarket adapter_of].
  - unfold OKX.fromOKXSpotInstrumentID in H. repeat case_match; try done. injection H as <-. read_back. by subst.
  - unfold KuCoin.fromKuCoinSymbol in H. case_match. read_back. simplify_eq. done.
  - unfold GateIO.fromGateIOSymbol in H. case_match. read_back. simplify_eq. done.
  - unfold Coinbase.fromCoinbaseProductID in H. repeat case_match; try done. injection H as <-. read_back. by subst.
  - unfold CryptoCom.marketFromCryptoComInstrumentName in H. case_match. read_back. simplify_eq. done.
  - unfold Korbit.fromKorbitSymbol in H. case_match. read_back. simplify_eq. done.
  - unfold Upbit.fromUpbitMarket in H. destruct (Cut _ _) as [? []] eqn:?; read_back; [|done]. simplify_eq. done.
  - unfold Bithumb.fromBithumbMarket in H. destruct (Cut _ _) as [? []] eqn:?; read_back; [|done]. simplify_eq. done.
Qed.

(** The exchanges that separate the assets in the name of a market. *)
Definition separated (e : SpotExchange) : bool :=
  match e, fromNative e with
  | SpotCoinone, _ => true
  | _, Some _ => true
  | _, None => false
  end.

Lemma nativeMarket_inj e market1 market2 :
  separated e = true → valid_market market1 → valid_market market2 →
  @nativeMarket (adapter_of e) market1 = @nativeMarket (adapter_of e) market2 → market1 = market2.
Proof.
  intros He H1 H2 Heq. destruct (fromNative e) as [read|] eqn:Hread.
  - pose proof (fromNative_name e read market1 Hread H1) as Hm. rewrite Heq, (fromNative_name e read market2) in Hm by done.
    by injection Hm.
  - destruct e; try done. by apply Coinone.coinoneMarket_inj.
Qed.

(** An order with the time in force that an unset one stands for. *)
Definition resolved `{SpotAdapter} (request : PlaceOrderRequest) : PlaceOrderRequest :=
  MkPlaceOrderRequest (order_Market request) (Side request) (order_Type request) (timeInForceTerm (TimeInForce request))
    (order_Quantity request) (QuoteAmount request) (order_Price request) (ClientOrderID request).

Lemma terms_resolved e request1 request2 :
  separated e = true → valid_order request1 → valid_order request2 →
  @terms (adapter_of e) request1 = @terms (adapter_of e) request2 ↔
  @resolved (adapter_of e) request1 = @resolved (adapter_of e) request2.
Proof.
  intros He H1 H2. unfold terms, resolved. split.
  - intros [= Hm -> -> -> -> -> -> ->]. f_equal. apply (nativeMarket_inj e); [done|apply H1|apply H2|done].
  - by intros [= -> -> -> -> -> -> -> ->].
Qed.

(** ** Lists of open orders *)

(** A name for the next page that the exchange may give. *)
Definition namesCursor {W Page} (fetch : string → io W Page) (next : Page → result error (option string)) (c : string) : Prop :=
  ∃ cursor w page w', fetch cursor w = (Ok page, w') ∧ next page = Ok (Some c).

(** What the exchange may do so that the loop over the pages ends: name finitely many
    cursors, or announce a number of pages that stays bounded. *)
Definition boundedPages {W} (e : SpotExchange) (cursors : gset string) (n : Z) :
    ClientOf e W → OpenOrdersRequest → Prop :=
  match e with
  | SpotOKX => λ client request, ∀ c, namesCursor (OKX.fetchPage client request) OKX.nextPage c → c ∈ cursors
  | SpotBybit => λ client request, ∀ c, namesCursor (Bybit.fetchPage client request) Bybit.nextPage c → c ∈ cursors
  | SpotCoinbase => λ client request,
      ∀ c, namesCursor (Coinbase.ordersPage client (Coinbase.openOrdersRequest request)) Coinbase.nextPage c → c ∈ cursors
  | SpotBithumb => λ client request, ∀ c, namesCursor (Bithumb.pendingPage client request) Bithumb.nextPage c → c ∈ cursors
  | SpotKuCoin => λ client request, ∀ native w page w', KuCoin.sendOpenOrders client native w = (Ok page, w') → KuCoin.TotalPages page ≤ n
  | _ => λ _ _, True
  end.

Lemma collect_bounded {W Page A} (fetch : string → io W Page) (read : Page → result error (list A)) next repeated (cursors : gset string) w :
  (∀ c, namesCursor fetch next c → c ∈ cursors) → ∃ fuel r, collect fetch read next repeated fuel ∅ "" [] w = Some r.
Proof.
  intros Hc. destruct (collect_ends fetch read next repeated cursors ∅ "" [] w) as [r Hr].
  - intros cursor w1 page w2 c Hf Hn. apply Hc. by exists cursor, w1, page, w2.
  - set_solver.
  - by exists (S (size (cursors ∖ ∅))), r.
Qed.

Section kucoin.
Context {W : Type} (client : KuCoin.Client W) (n : Z).
Hypothesis total : ∀ native w page w', KuCoin.sendOpenOrders client native w = (Ok page, w') → KuCoin.TotalPages page ≤ n.

Lemma openPages_end fuel symbol pageNumber orders w :
  n - pageNumber < Z.of_nat fuel → (0 < fuel)%nat → is_Some (KuCoin.openPages client fuel symbol pageNumber orders w).
Proof.
  revert pageNumber orders w. induction fuel as [|fuel IH]; intros pageNumber orders w Hn Hf; [lia|]. cbn [KuCoin.openPages].
  rewrite validated_run. destruct (KuCoin.OpenOrdersRequest_validate _) as [?|err]; [|by eexists].
  destruct (KuCoin.sendOpenOrders _ _ _) as [[page|err] w'] eqn:Hsend; [|by eexists].
  apply total in Hsend. destruct (negb _ && _); [by eexists|].
  destruct (mapM _ _) as [more|err]; [|by eexists].
  case_bool_decide as H0; [by eexists|]. case_bool_decide as H1; [by eexists|]. simpl. apply IH; lia.
Qed.

Lemma openSymbols_end symbols orders w :
  is_Some (KuCoin.openSymbols client (S (Z.to_nat n)) symbols orders w).
Proof.
  revert orders w. induction symbols as [|symbol symbols IH]; intros orders w; cbn [KuCoin.openSymbols]; [by eexists|].
  destruct (KuCoin.fromKuCoinSymbol symbol); [|by eexists].
  destruct (openPages_end (S (Z.to_nat n)) symbol 1 orders w) as [[[more|err] w'] ->]; [lia|lia|apply IH|by eexists].
Qed.
End kucoin.

Lemma openOrders_bounded {W} e (client : ClientOf e W) request cursors n w :
  boundedPages e cursors n client request → ∃ fuel r, openOrders e fuel client request w = Some r.
Proof.
  intros Hb. destruct e; simpl in *; try (by exists O; eexists).
  - unfold OKX.OpenOrders. destruct (OpenOrdersRequest_Validate request); [by eapply collect_bounded|by exists O; eexists].
  - unfold Bybit.OpenOrders. destruct (OpenOrdersRequest_Validate request); [by eapply collect_bounded|by exists O; eexists].
  - exists (S (Z.to_nat n)). unfold KuCoin.OpenOrders.
    destruct (OpenOrdersRequest_Validate request); [|by eexists].
    destruct (match open_Market request with Some market => _ | None => _ end) as [[symbols|err] w']; [|by eexists].
    destruct (openSymbols_end client n Hb symbols [] w') as [r ->]. by eexists.
  - unfold Coinbase.OpenOrders. destruct (OpenOrdersRequest_Validate request); [by eapply collect_bounded|by exists O; eexists].
  - unfold Bithumb.OpenOrders. destruct (OpenOrdersRequest_Validate request); [by eapply collect_bounded|by exists O; eexists].
Qed.

(** ** What the adapters promise *)

(** A client of OKX that keeps the orders that it is sent, and a list of open
    orders that it serves in pages. *)
Definition recording (book : list OKX.NativeOrder) : OKX.Client (list OKX.NativePlaceOrder) :=
  OKX.MkClient _ (λ order w, (Ok (OKX.MkReference "1" (OKX.ClientOrderID order)), order :: w))
    (λ _ w, (Ok (OKX.MkOrder "BTC-USDT" "1" "id1" "10" "2" "limit" "buy" "0" "live" ""), w))
    (λ _ w, (Ok (OKX.MkReference "1" "id1"), w))
    (λ request w, (Ok (page_after OKX.ord_OrderID (Z.to_nat (OKX.Limit request)) (OKX.AfterOrderID request) book), w)).

Definition btc_usdt : Market := MkMarket "BTC" "USDT".
Definition limit_order (timeInForce id : string) : PlaceOrderRequest :=
  MkPlaceOrderRequest btc_usdt Unified.SideBuy Unified.OrderTypeLimit timeInForce "2" "" "10" id.

Lemma limit_order_valid timeInForce :
  timeInForce = "" ∨ timeInForce = TimeInForceGTC ∨ timeInForce = TimeInForceIOC → valid_order (limit_order timeInForce "id1").
Proof. intros [->|[->| ->]]; by apply PlaceOrderRequest_Validate_Ok. Qed.

(** The orders that are refused before anything is sent, and the world when they
    are: HTX has been asked for the account by then. *)
Inductive refused {W} (e : SpotExchange) (client : ClientOf e W) (request : PlaceOrderRequest) (w : W) : W → Prop :=
  | refused_contract : ¬ valid_order request → refused e client request w w
  | refused_adapter : valid_order request → @supported (adapter_of e) request ≠ Ok tt → refused e client request w w
  | refused_exchange account w' :
      valid_order request → @supported (adapter_of e) request = Ok tt → prepare_of e client request w = (Ok account, w') →
      @accepts (adapter_of e) account request = false → refused e client request w w'.

Section promises.
Context {W : Type} (e : SpotExchange) (client : ClientOf e W).
#[local] Hint Extern 0 SpotAdapter => exact (adapter_of e) : typeclass_instances.

(** C5: An order that the contract, the adapter and the exchange allow is sent exactly
    once, as the native order made for it, and the result is what the adapter makes
    of the answer. *)
Theorem accepted_order_is_sent request account w w' :
  valid_order request → supported request = Ok tt → prepare_of e client request w = (Ok account, w') →
  accepts account request = true →
  placeOrder e client request w =
  match send_of e client (nativeRequest account request) w' with
  | (Ok reference, w'') => (placed account request reference, w'')
  | (Err err, w'') => (Err err, w'')
  end.
Proof.
  intros Hv Hs Hp Ha. rewrite (placeOrder_prepared e client request account w w') by done.
  rewrite <-(validate_nativeRequest account request Hv) in Ha. by destruct (validateNative _).
Qed.

(** C6: An order that the contract, the adapter or the exchange does not allow is
    refused with a validation error, or as a capability that the exchange lacks,
    and nothing is sent. *)
Theorem refused_order_sends_nothing request w w' :
  refused e client request w w' →
  ∃ err, placeOrder e client request w = (Err err, w') ∧
    (Is err ErrValidation = true ∨ Is err ErrUnsupportedCapability = true).
Proof.
  intros [Hv|Hv Hs|account w'' Hv Hs Hp Ha].
  - destruct (placeOrder_invalid e client request w Hv) as (err & ? & ?). by exists err; auto.
  - rewrite (placeOrder_valid e client request w Hv), io_bind_lift.
    destruct (supported request) as [[]|err] eqn:Herr; [done|]. exists err. split; [done|]. right.
    by eapply supported_Err.
  - rewrite (placeOrder_prepared e client request account w w'') by done.
    rewrite <-(validate_nativeRequest account request Hv) in Ha.
    destruct (validateNative _) as [|err] eqn:Herr; [done|]. exists err. split; [done|]. left.
    by eapply validateNative_Err.
Qed.

(** C7: Two orders become the same native order exactly when they say the same to the
    exchange: the native market, the side, the type, the resolved time in force, the
    amounts, the price and the client order ID.  Where the exchange separates the
    assets of a market, the orders are the same. *)
Theorem same_native_order account request1 request2 :
  valid_order request1 → valid_order request2 → supported request1 = Ok tt → supported request2 = Ok tt →
  (nativeRequest account request1 = nativeRequest account request2 ↔ terms request1 = terms request2) ∧
  (separated e = true →
   nativeRequest account request1 = nativeRequest account request2 ↔ resolved request1 = resolved request2).
Proof.
  intros H1 H2 Hs1 Hs2. pose proof (nativeRequest_terms account request1 request2 H1 H2 Hs1 Hs2) as Hterms.
  split; [done|]. intros Hsep. rewrite Hterms. by apply terms_resolved.
Qed.

(** C8: The readers of native market names are the inverse of the adapters' names on
    the valid markets, and accept nothing else; Korbit's takes any case. *)
Theorem native_market_roundtrip read :
  fromNative e = Some read →
  (∀ market, valid_market market → read (nativeMarket market) = Ok market) ∧
  (∀ text market, read text = Ok market →
     valid_market market ∧ (e ≠ SpotKorbit → nativeMarket market = text)).
Proof.
  intros He. split; [intros market; by apply fromNative_name|]. intros text market. by apply fromNative_inv.
Qed.

(** An order that an adapter reports after placing, looking up or cancelling it
    names the exchange and the market of the request. *)
Theorem orders_answer_the_request fuel :
  (∀ request w order w', placeOrder e client request w = (Ok order, w') → identifies e (order_Market request) order) ∧
  (∀ request w order w', orderInfo e fuel client request w = Some (Ok order, w') →
     identifies e (request_Market request) order) ∧
  (∀ request w order w', cancelOrder e fuel client request w = Some (Ok order, w') →
     identifies e (request_Market request) order).
Proof.
  split_and!.
  - intros request w order w'. rewrite placeOrder_generic. unfold SpotAdapter.PlaceOrder.
    revert w order w'. change (answers (identifies e (order_Market request))
      (SpotAdapter.PlaceOrder (prepare_of e client) (clientPlaceOrder (send_of e client)) request)).
    unfold SpotAdapter.PlaceOrder. walk_call. intros order. apply placed_identity.
  - intros request. apply orderInfo_identifies.
  - intros request. apply cancelOrder_identifies.
Qed.

(** C20: The list of open orders ends: it is cut off at an exchange that names
    infinitely many cursors or announces ever more pages only. *)
Theorem open_orders_end request cursors n w :
  boundedPages e cursors n client request → ∃ fuel r, openOrders e fuel client request w = Some r.
Proof. apply openOrders_bounded. Qed.
End promises.

(** C19: When the open orders of OKX fill several pages, the adapter returns those
    of the market that it is asked for, or of all markets, all of them, each once
    and in the order of the exchange.  The exchange serves the orders of the
    instrument type, the instrument and the order type that a native request
    names, after the order that the request names, as many as its limit says. *)
Theorem okx_open_orders_are_complete {W} (client : OKX.Client W) request book orders w :
  OpenOrdersRequest_Validate request = Ok tt →
  OKX.servesOpenOrders client book →
  let wanted := OKX.openOrdersOf book request in
  NoDup (OKX.ord_OrderID <$> wanted) →
  Forall (λ native, OKX.ord_OrderID native ≠ "" ∧ TrimSpace (OKX.ord_OrderID native) = OKX.ord_OrderID native) wanted →
  mapM (OKX.readOrder request) wanted = Ok orders →
  ∃ fuel, openOrders SpotOKX fuel client request w = Some (Ok orders, w).
Proof.
  intros Hv Hserver wanted Hd Hids Hread. apply (OKX.okx_OpenOrders_complete client request wanted); try done.
  intros cursor w'. rewrite Hserver by done. by rewrite OKX.requested_openOrders.
Qed.

(** ** Witnesses *)

Lemma accepted_order_is_sent_witness :
  placeOrder SpotOKX (recording []) (limit_order TimeInForceIOC "id1") [] =
  (Ok (Unified.MkOrder ExchangeOKX "1" "id1" btc_usdt "BTC-USDT" Unified.SideBuy Unified.OrderTypeLimit
         OrderStatusAcknowledged "10" "2" "" ""),
   [OKX.MkPlaceOrder "SPOT" "BTC-USDT" "cash" "id1" "buy" "" "ioc" "2" "10" false ""]).
Proof.
  rewrite (accepted_order_is_sent SpotOKX (recording []) (limit_order TimeInForceIOC "id1") tt [] []).
  - reflexivity.
  - apply limit_order_valid. tauto.
  - reflexivity.
  - reflexivity.
  - by vm_compute.
Defined.

(** OKX takes no hyphen in a client order ID. *)
Lemma refused_order_sends_nothing_witness :
  ∃ err, placeOrder SpotOKX (recording []) (limit_order TimeInForceIOC "id-1") [] = (Err err, []) ∧
    (Is err ErrValidation = true ∨ Is err ErrUnsupportedCapability = true).
Proof.
  apply (refused_order_sends_nothing SpotOKX (recording []) (limit_order TimeInForceIOC "id-1") [] []).
  apply (refused_exchange SpotOKX (recording []) _ [] tt); [by apply PlaceOrderRequest_Validate_Ok|reflexivity|reflexivity|].
  by vm_compute.
Defined.

Lemma same_native_order_witness :
  @nativeRequest OKX.adapter tt (limit_order "" "id1") = @nativeRequest OKX.adapter tt (limit_order TimeInForceGTC "id1") ∧
  @nativeRequest OKX.adapter tt (limit_order "" "id1") ≠ @nativeRequest OKX.adapter tt (limit_order TimeInForceIOC "id1").
Proof.
  split.
  - apply (same_native_order SpotOKX tt); try reflexivity; apply limit_order_valid; tauto.
  - intros Heq. apply (same_native_order SpotOKX tt) in Heq; try reflexivity; try (apply limit_order_valid; tauto).
    by vm_compute in Heq.
Defined.

Lemma native_market_roundtrip_witness :
  Upbit.fromUpbitMarket "USDT-BTC" = Ok btc_usdt ∧ (∀ text, Upbit.fromUpbitMarket text = Ok btc_usdt → "USDT-BTC" = text).
Proof.
  destruct (native_market_roundtrip SpotUpbit Upbit.fromUpbitMarket eq_refl) as [Hread Hinv]. split.
  - apply (Hread btc_usdt). by apply (Market_Validate_Ok _ tt).
  - intros text H. by apply (Hinv text btc_usdt H).
Defined.

Lemma orders_answer_the_request_witness :
  ∃ order, orderInfo SpotOKX 0 (recording []) (MkOrderRequest btc_usdt "1" "") [] = Some (Ok order, []) ∧
    identifies SpotOKX btc_usdt order.
Proof.
  eexists. split; [by vm_compute|].
  apply (proj1 (proj2 (orders_answer_the_request SpotOKX (recording []) 0)) (MkOrderRequest btc_usdt "1" "") [] _ []).
  by vm_compute.
Defined.

(** A hundred and fifty orders, which take two pages. *)
Definition numbered (n : nat) : string := String.string_of_list_ascii (replicate n (Ascii.ascii_of_N 49)).
Definition long_book : list OKX.NativeOrder :=
  (λ n, OKX.MkOrder "BTC-USDT" (numbered n) "" "10" "2" "limit" "buy" "0" "live" "") <$> seq 1 150.
Definition one_market : OpenOrdersRequest := MkOpenOrdersRequest (Some btc_usdt) false.

Lemma page_after_subset {I} (name : I → string) limit cursor items : page_after name limit cursor items ⊆ items.
Proof.
  assert (after name cursor items ⊆ items) as Hafter.
  { induction items as [|item items IH]; simpl; [done|]. case_bool_decide; set_solver. }
  unfold page_after. intros x Hx. apply elem_of_take in Hx as (i & Hx%list_elem_of_lookup_2 & _).
  case_bool_decide; [done|by apply Hafter].
Qed.

(** Such an exchange names no cursor that is not the name of an item. *)
Lemma recording_bounded book request n :
  boundedPages SpotOKX (list_to_set (OKX.ord_OrderID <$> book)) n (recording book) request.
Proof.
  intros c (cursor & w & page & w' & Hf & Hn). unfold OKX.fetchPage in Hf. rewrite validated_run in Hf.
  destruct (OKX.OpenOrdersRequest_validate _); [|done]. simpl in Hf. injection Hf as <- _.
  unfold OKX.nextPage, cursor_after in Hn. case_bool_decide; [done|].
  destruct (last (page_after _ _ _ _)) as [item|] eqn:Hlast; [|done].
  cbv zeta in Hn. case_bool_decide; [done|]. injection Hn as <-.
  apply elem_of_list_to_set, list_elem_of_fmap_2. eapply page_after_subset. by apply last_Some_elem_of.
Qed.

Lemma open_orders_end_witness :
  ∃ fuel r, openOrders SpotOKX fuel (recording long_book) one_market [] = Some r.
Proof.
  apply (open_orders_end SpotOKX (recording long_book) one_market (list_to_set (OKX.ord_OrderID <$> long_book)) 0 []).
  apply recording_bounded.
Defined.

(** An exchange with the hundred and fifty orders, one of another market before
    them, and one of another instrument type. *)
Definition mixed_book (instrumentType : string) : list OKX.NativeOrder :=
  if bool_decide (instrumentType = OKX.InstrumentTypeSpot)
  then OKX.MkOrder "ETH-USDT" "2" "" "10" "2" "limit" "buy" "0" "live" "" :: long_book
  else [OKX.MkOrder "BTC-USDT-SWAP" "3" "" "10" "2" "limit" "buy" "0" "live" ""].
Definition exchange_of (book : string → list OKX.NativeOrder) : OKX.Client (list OKX.NativePlaceOrder) :=
  OKX.MkClient _ (OKX.sendPlaceOrder (recording [])) (OKX.sendOrderInfo (recording []))
    (OKX.sendCancelOrder (recording []))
    (λ request w, (Ok (page_after OKX.ord_OrderID (Z.to_nat (OKX.Limit request)) (OKX.AfterOrderID request)
                         (OKX.requested book request)), w)).

Lemma mixed_book_wanted : OKX.openOrdersOf mixed_book one_market = long_book.
Proof. by vm_compute. Qed.

Lemma okx_open_orders_are_complete_witness :
  ∃ fuel, openOrders SpotOKX fuel (exchange_of mixed_book) one_market [] =
    Some (Ok ((λ native, OKX.fromOKXOrder native btc_usdt) <$> long_book), []).
Proof.
  apply (okx_open_orders_are_complete (exchange_of mixed_book) one_market mixed_book).
  - reflexivity.
  - intros native w _. reflexivity.
  - rewrite mixed_book_wanted. apply (bool_decide_unpack _). by vm_compute.
  - rewrite mixed_book_wanted. apply (bool_decide_unpack _). by vm_compute.
  - rewrite mixed_book_wanted. by vm_compute.
Defined.
