(* ===== verification/Clients.v ===== *)
(** * What the REST clients make of an answer: [exchange/*/client.go]

    One Module per client, with its classification of errors, the errors it
    builds, and the function from the answer to an order to its acknowledgement,
    which is the rest of the client's [PlaceOrder] after the request.  What
    [encoding/json] reads from a body is a parameter: [unmarshal] gives the fields
    of the client's envelope with the error of the decoding, [target] the value
    that the caller wants.  [accountID] is the account of the credential, empty
    without one. *)

From S2P Require Import Prelude GoStrings Errors Executor ClientErrors.

(** [json.Unmarshal] into an envelope: Go fills what it can before an error. *)
Abbreviation unmarshals E := (string → E * option error).

(** ** Binance Spot: [exchange/binance/client.go] *)

Module Binance.
Record payload : Type := MkPayload { Code : Z; Msg : string }.

Definition exchangeCode (code : Z) : string := if bool_decide (code = 0) then "" else Itoa code.

Definition classifyError (status code : Z) (message : string) (operation : Z) : string * bool :=
  if bool_decide (status = StatusTooManyRequests ∨ status = StatusTeapot ∨ code = -1003) then
    (ErrorRateLimited, true)
  else if bool_decide (code ∈ [-1002; -1022; -2014; -2015] ∨ status = StatusUnauthorized) then
    (ErrorAuthentication, false)
  else if bool_decide (status = StatusForbidden) then (ErrorAuthorization, false)
  else if bool_decide (code ∈ [-2011; -2013; -2026]) then (ErrorOrderNotFound, false)
  else if bool_decide (code = -2010) && Contains (ToLowerText message) "insufficient" then
    (ErrorInsufficientBalance, false)
  else if bool_decide (code = -1007 ∨ StatusInternalServerError ≤ status) then unavailable operation
  else if bool_decide ((StatusBadRequest ≤ status ∧ status < StatusInternalServerError) ∨
                       (code ≤ -1013 ∧ -1199 ≤ code) ∨ code = -1021 ∨ code = -1022) then
    (ErrorValidation, false)
  else (ErrorInternal, false).

Section client.
Context (accountID : string) (unmarshal : unmarshals payload).

Definition decodeError (response : Response) (operation : Z) (cause : option error) : error :=
  let payload := (unmarshal (body_text response)).1 in
  answerError ExchangeBinance accountID
    (firstNonEmpty [Get (resp_Header response) "X-MBX-UUID"; Get (resp_Header response) "X-Response-ID"])
    (classifyError (StatusCode response) (Code payload) (Msg payload) operation)
    response (exchangeCode (Code payload)) (Msg payload) cause.

Definition ensureSuccess (response : Response) (operation : Z) : result error unit :=
  if success (StatusCode response) then Ok tt else Err (decodeError response operation None).

Context {A : Type} (target : string → result error A).

Definition decodeJSON (body : string) : result error A :=
  match target body with Err err => Err (Wrapf "decode Binance JSON response: %w" err) | Ok a => Ok a end.

(** [NewOrder] after its request; [decodeOrder] is [decodeJSON]. *)
Definition NewOrder (response : Response) : result error A :=
  ensureSuccess response OperationMutation;;
  decodeJSON (body_text response).
End client.
End Binance.

(** ** Binance USD-M: [exchange/binance/usdm/client.go] *)

Module BinanceUsdm.
Record payload : Type := MkPayload { Code : Z; Message : string }.

Definition classifyError (status code : Z) (message : string) (operation : Z) : string * bool :=
  if bool_decide (status = 429 ∨ status = 418 ∨ code = -1003) then (ErrorRateLimited, true)
  else if bool_decide (code ∈ [-2014; -2015; -1022; -1021]) then (ErrorAuthentication, false)
  else if bool_decide (code ∈ [-2011; -2013]) then (ErrorOrderNotFound, false)
  else if bool_decide (code ∈ [-2019; -2020]) then (ErrorInsufficientBalance, false)
  else if bool_decide (code = -1008 ∨ message = "Service Unavailable.") ||
          Contains message "Internal error; unable to process" then (ErrorExchangeUnavailable, true)
  else if bool_decide (operation = OperationMutation) &&
          (bool_decide (status = 408 ∨ code = -1007) || Contains (ToLowerText message) "unknown error") then
    (ErrorUnknownExecutionState, false)
  else if bool_decide (500 ≤ status) then unavailable operation
  else if bool_decide (status = 401) then (ErrorAuthentication, false)
  else if bool_decide (status = 403) then (ErrorAuthorization, false)
  else if bool_decide (400 ≤ status ∨ code ≠ 0) then (ErrorValidation, false)
  else (ErrorInternal, false).

Section client.
Context (accountID : string) (unmarshal : unmarshals payload).

Definition decodeError (response : Response) (operation : Z) (cause : option error) : error :=
  let payload := (unmarshal (body_text response)).1 in
  let class := classifyError (StatusCode response) (Code payload) (Message payload) operation in
  let class := if bool_decide (cause ≠ None ∧ class.1 = ErrorInternal) then unreadable operation else class in
  answerError ExchangeBinance accountID (Get (resp_Header response) "X-MBX-UUID") class
    response (Itoa (Code payload)) (Message payload) cause.

Context {A : Type} (target : string → result error A).

Definition decode (response : Response) (operation : Z) : result error A :=
  if negb (success (StatusCode response)) then Err (decodeError response operation None)
  else
    match target (body_text response) with
    | Err err => Err (decodeError response operation (Some (Wrapf "decode Binance USD-M JSON: %w" err)))
    | Ok a => Ok a
    end.
End client.
End BinanceUsdm.

(** ** Bybit: [exchange/bybit/client.go] *)

Module Bybit.
Record envelope : Type := MkEnvelope {
  ReturnCode : Z;
  ReturnMessage : string;
  Result : string;
  Time : Z
}.

Definition classifyError (status : Z) (code message : string) (operation : Z) : string * bool :=
  if bool_decide (status = StatusTooManyRequests ∨ code = "10006") ||
     bool_decide (status = StatusForbidden) && Contains (ToLowerText message) "too frequent" then
    (ErrorRateLimited, true)
  else if bool_decide (code ∈ ["10003"; "10004"; "33004"]) then (ErrorAuthentication, false)
  else if bool_decide (code = "10005") then (ErrorAuthorization, false)
  else if bool_decide (code = "110001") then (ErrorOrderNotFound, false)
  else if bool_decide (code ∈ ["110004"; "110007"; "110012"]) then (ErrorInsufficientBalance, false)
  else if bool_decide (code ∈ ["10000"; "10016"]) then unavailable operation
  else if bool_decide (StatusInternalServerError ≤ status) then unavailable operation
  else if bool_decide (status = StatusUnauthorized) then (ErrorAuthentication, false)
  else if bool_decide (status = StatusForbidden) then (ErrorAuthorization, false)
  else if bool_decide ((StatusBadRequest ≤ status ∧ status < StatusInternalServerError) ∨ code ≠ "") then
    (ErrorValidation, false)
  else (ErrorInternal, false).

Section client.
Context (accountID : string) (unmarshal : unmarshals envelope).

Definition decodeError (response : Response) (code message : string) (operation : Z) (cause : option error) : error :=
  let code := if bool_decide (code = "0") then "" else code in
  answerError ExchangeBybit accountID
    (firstNonEmpty [Get (resp_Header response) "Traceid"; Get (resp_Header response) "X-Request-ID"])
    (classifyError (StatusCode response) code message operation) response code message cause.

Definition decodeBodyError (response : Response) (operation : Z) (cause : error) : error :=
  let class := classifyError (StatusCode response) "" (body_text response) operation in
  let class := if bool_decide (class.1 = ErrorInternal) then unreadable operation else class in
  answerError ExchangeBybit accountID "" class response "" "" (Some (Wrapf "decode Bybit JSON response: %w" cause)).

Definition responseResult (response : Response) (operation : Z) : result error string :=
  let '(envelope, err) := unmarshal (body_text response) in
  match err with
  | Some err => Err (decodeBodyError response operation err)
  | None =>
      if negb (success (StatusCode response)) || negb (bool_decide (ReturnCode envelope = 0)) then
        Err (decodeError response (Itoa (ReturnCode envelope)) (ReturnMessage envelope) operation None)
      else Ok (Result envelope)
  end.

Context {A : Type} (target : string → result error A).

Definition decodeResult (raw : string) : result error A :=
  match target raw with Err err => Err (Wrapf "decode Bybit response result: %w" err) | Ok a => Ok a end.

Definition decodeOrderReference (response : Response) (result : string) (operation : Z) : Prelude.result error A :=
  match decodeResult result with Err err => Err (decodeBodyError response operation err) | Ok a => Ok a end.

(** [PlaceOrder] after its request. *)
Definition PlaceOrder (response : Response) : result error A :=
  result ← responseResult response OperationMutation;
  decodeOrderReference response result OperationMutation.
End client.
End Bybit.

(** ** OKX: [exchange/okx/client.go] *)

Module OKX.
Record envelope : Type := MkEnvelope { Code : string; Message : string; Data : string }.

(** The fields of an acknowledgement that [decodeOrderReference] looks at. *)
Record OrderReference : Type := MkReference {
  StatusCode : string;
  StatusMessage : string;
  OrderID : string;
  ClientOrderID : string
}.

Definition classifyError (status : Z) (code : string) (operation : Z) : string * bool :=
  if bool_decide (status = StatusTooManyRequests ∨ code ∈ ["50011"; "50040"; "50061"]) then (ErrorRateLimited, true)
  else if bool_decide (code ∈ ["50102"; "50103"; "50104"; "50105"; "50106"; "50111"; "50112"; "50113"; "50119"]) then
    (ErrorAuthentication, false)
  else if bool_decide (code ∈ ["50114"; "50120"]) then (ErrorAuthorization, false)
  else if bool_decide (code ∈ ["51400"; "51401"; "51603"]) then (ErrorOrderNotFound, false)
  else if bool_decide (code ∈ ["51008"; "51119"; "51131"]) then (ErrorInsufficientBalance, false)
  else if bool_decide (code ∈ ["50001"; "50004"; "50013"; "50026"; "51149"]) then unavailable operation
  else if bool_decide (StatusInternalServerError ≤ status) then unavailable operation
  else if bool_decide (status = StatusUnauthorized) then (ErrorAuthentication, false)
  else if bool_decide (status = StatusForbidden) then (ErrorAuthorization, false)
  else if bool_decide ((StatusBadRequest ≤ status ∧ status < StatusInternalServerError) ∨ code ≠ "") then
    (ErrorValidation, false)
  else (ErrorInternal, false).

Section client.
Context (accountID : string) (unmarshal : unmarshals envelope).

Definition decodeError (response : Response) (code message : string) (operation : Z) (cause : option error) : error :=
  answerError ExchangeOKX accountID
    (firstNonEmpty [Get (resp_Header response) "OK-ACCESS-TRACE"; Get (resp_Header response) "X-Request-ID"])
    (classifyError (Executor.StatusCode response) code operation) response code message cause.

Definition decodeBodyError (response : Response) (operation : Z) (cause : error) : error :=
  let class := classifyError (Executor.StatusCode response) "" operation in
  let class := if bool_decide (class.1 = ErrorInternal) then unreadable operation else class in
  answerError ExchangeOKX accountID "" class response "" "" (Some (Wrapf "decode OKX JSON response: %w" cause)).

Definition responseData (response : Response) (operation : Z) : result error string :=
  let '(envelope, err) := unmarshal (body_text response) in
  match err with
  | Some err => Err (decodeBodyError response operation err)
  | None =>
      if bool_decide (Code envelope = "") then
        Err (decodeBodyError response operation (Errorf "OKX response code is missing"))
      else if negb (success (Executor.StatusCode response)) || negb (bool_decide (Code envelope = "0")) then
        Err (decodeError response (Code envelope) (Message envelope) operation None)
      else Ok (Data envelope)
  end.

(** [json.Unmarshal] into a slice of raw items, and into an acknowledgement. *)
Context (items : string → result error (list string)) (target : string → result error OrderReference).

Definition decodeData {A} (decode : string → result error A) (raw : string) : result error A :=
  match decode raw with Err err => Err (Wrapf "decode OKX response data: %w" err) | Ok a => Ok a end.

Fixpoint decodeEach (rawItems : list string) : result error (list OrderReference) :=
  match rawItems with
  | [] => Ok []
  | rawItem :: rawItems =>
      item ← decodeData target rawItem;
      others ← decodeEach rawItems;
      Ok (item :: others)
  end.

Definition decodeItems (raw : string) : result error (list OrderReference) :=
  rawItems ← decodeData items raw;
  decodeEach rawItems.

Definition decodeOrderReference (response : Response) (data : string) (operation : Z) : result error OrderReference :=
  match decodeItems data with
  | Err err => Err (decodeBodyError response operation err)
  | Ok [] => Err (decodeBodyError response operation (Errorf "OKX order acknowledgement is empty"))
  | Ok (item :: _) =>
      if bool_decide (StatusCode item = "") then
        Err (decodeBodyError response operation (Errorf "OKX order acknowledgement status code is missing"))
      else if bool_decide (StatusCode item ≠ "" ∧ StatusCode item ≠ "0") then
        Err (decodeError response (StatusCode item) (StatusMessage item) operation None)
      else if bool_decide (OrderID item = "" ∧ ClientOrderID item = "") then
        Err (decodeBodyError response operation (Errorf "OKX order acknowledgement identity is missing"))
      else Ok item
  end.

(** [PlaceOrder] after its request. *)
Definition PlaceOrder (response : Response) : result error OrderReference :=
  data ← responseData response OperationMutation;
  decodeOrderReference response data OperationMutation.
End client.
End OKX.

(** ** Bitget: [exchange/bitget/client.go] *)

Module Bitget.
Record envelope : Type := MkEnvelope { Code : string; Message : string; RequestTime : Z; Data : string }.

Definition classifyError (status : Z) (code : string) (operation : Z) : string * bool :=
  if bool_decide (status = StatusTooManyRequests ∨ code ∈ ["429"; "25004"]) then (ErrorRateLimited, true)
  else if bool_decide (code ∈ ["40001"; "40002"; "40003"; "40005"; "40006"; "40008"; "40009"; "40011"; "40012"]) then
    (ErrorAuthentication, false)
  else if bool_decide (code ∈ ["40014"; "40018"]) then (ErrorAuthorization, false)
  else if bool_decide (code ∈ ["25204"; "43001"; "43004"; "60050"]) then (ErrorOrderNotFound, false)
  else if bool_decide (code ∈ ["25202"; "25203"; "25225"; "25226"; "25227"; "25228"; "40762"; "40798"; "40800";
                               "43012"; "45002"; "45003"; "45004"; "45005"; "45006"; "45007"; "45008"; "50020"]) then
    (ErrorInsufficientBalance, false)
  else if bool_decide (code ∈ ["25000"; "25001"; "25003"; "40010"; "40015"; "40725"; "45001"]) then
    unavailable operation
  else if bool_decide (StatusInternalServerError ≤ status) then unavailable operation
  else if bool_decide (status = StatusUnauthorized) then (ErrorAuthentication, false)
  else if bool_decide (status = StatusForbidden) then (ErrorAuthorization, false)
  else if bool_decide ((StatusBadRequest ≤ status ∧ status < StatusInternalServerError) ∨ code ≠ "") then
    (ErrorValidation, false)
  else (ErrorInternal, false).

Section client.
Context (accountID : string) (unmarshal : unmarshals envelope).

Definition decodeError (response : Response) (code message : string) (operation : Z) (cause : option error) : error :=
  answerError ExchangeBitget accountID
    (firstNonEmpty [Get (resp_Header response) "X-BG-REQUEST-ID"; Get (resp_Header response) "X-Request-ID"])
    (classifyError (StatusCode response) code operation) response code message cause.

Definition decodeBodyError (response : Response) (operation : Z) (cause : error) : error :=
  let class := classifyError (StatusCode response) "" operation in
  let class := if bool_decide (class.1 = ErrorInternal) then unreadable operation else class in
  answerError ExchangeBitget accountID "" class response "" "" (Some (Wrapf "decode Bitget JSON response: %w" cause)).

Definition responseData (response : Response) (operation : Z) : result error string :=
  let '(envelope, err) := unmarshal (body_text response) in
  match err with
  | Some err => Err (decodeBodyError response operation err)
  | None =>
      if negb (success (StatusCode response)) || bool_decide (Code envelope ≠ "00000" ∧ Code envelope ≠ "0") then
        Err (decodeError response (Code envelope) (Message envelope) operation None)
      else Ok (Data envelope)
  end.

Context {A : Type} (target : string → result error A).

Definition decodeData (raw : string) : result error A :=
  match target raw with Err err => Err (Wrapf "decode Bitget response data: %w" err) | Ok a => Ok a end.

(** [PlaceOrder] after its request. *)
Definition PlaceOrder (response : Response) : result error A :=
  data ← responseData response OperationMutation;
  match decodeData data with Err err => Err (decodeBodyError response OperationMutation err) | Ok a => Ok a end.
End client.
End Bitget.

(** ** MEXC: [exchange/mexc/client.go] *)

Module Mexc.
Record envelope : Type := MkEnvelope { Code : string; Message : string; Alt : string }.
Definition emptyEnvelope : envelope := MkEnvelope "" "" "".

Record OrderReference : Type := MkReference { Symbol : string; OrderID : string; ClientOrderID : string }.

Definition classifyError (status : Z) (code : string) (operation : Z) : string * bool :=
  if bool_decide (status = StatusTooManyRequests ∨ status = StatusTeapot ∨ code = "429") then (ErrorRateLimited, true)
  else if bool_decide (StatusInternalServerError ≤ status) then unavailable operation
  else if bool_decide (code ∈ ["400"; "401"; "602"; "10072"; "10073"; "700001"; "700002"; "700003"]) then
    (ErrorAuthentication, false)
  else if bool_decide (code ∈ ["403"; "70011"; "700006"; "700007"]) then (ErrorAuthorization, false)
  else if bool_decide (code = "10101") then (ErrorInsufficientBalance, false)
  else if bool_decide (code ∈ ["-2011"; "22222"]) then (ErrorOrderNotFound, false)
  else if bool_decide (code ∈ ["500"; "503"; "504"; "20002"; "730000"]) then unavailable operation
  else if bool_decide (status = StatusUnauthorized) then (ErrorAuthentication, false)
  else if bool_decide (status = StatusForbidden) then (ErrorAuthorization, false)
  else if bool_decide (StatusBadRequest ≤ status ∨ code ≠ "") then (ErrorValidation, false)
  else (ErrorInternal, false).

Section client.
Context `{JSON} (accountID : string) (unmarshal : unmarshals envelope).

Definition requestID (response : Response) : string :=
  firstNonEmpty [Get (resp_Header response) "X-MEXC-Request-Id"; Get (resp_Header response) "X-Request-Id"].

Definition apiError (response : Response) (code message : string) (operation : Z) (cause : option error) : error :=
  answerError ExchangeMEXC accountID (requestID response) (classifyError (StatusCode response) code operation)
    response code message cause.

Definition decodeBodyErrorForOperation (response : Response) (operation : Z) (cause : error) : error :=
  let class := classifyError (StatusCode response) "" operation in
  let class := if bool_decide (class.1 = ErrorInternal ∨ class.1 = ErrorValidation)
               then unreadable operation else class in
  answerError ExchangeMEXC accountID (requestID response) class response "" ""
    (Some (Wrapf "decode MEXC JSON response: %w" cause)).

Definition decodeBodyError (response : Response) (cause : error) : error :=
  decodeBodyErrorForOperation response OperationRead cause.

Context {A : Type} (target : string → result error A).

Definition decodeResponseForOperation (response : Response) (operation : Z) : result error A :=
  let trimmed := TrimSpace (body_text response) in
  if bool_decide (trimmed = "") || negb (Valid trimmed) then
    Err (decodeBodyErrorForOperation response operation (Errorf "MEXC response is not valid JSON"))
  else
    let '(envelope, err) := if HasPrefix trimmed "{" then unmarshal trimmed else (emptyEnvelope, None) in
    match err, optionalScalarText "value is not scalar" true (Code envelope) with
    | Some err, _ => Err (decodeBodyErrorForOperation response operation err)
    | None, Err err =>
        Err (decodeBodyErrorForOperation response operation (Wrapf "decode MEXC response code: %w" err))
    | None, Ok code =>
        let message := if bool_decide (Message envelope = "") then Alt envelope else Message envelope in
        if negb (success (StatusCode response)) || bool_decide (code ≠ "" ∧ code ≠ "0" ∧ code ≠ "200") then
          Err (apiError response code message operation None)
        else
          match target trimmed with
          | Err err => Err (decodeBodyErrorForOperation response operation err)
          | Ok a => Ok a
          end
    end.
End client.

(** [PlaceOrder] after its request, which had [clientOrderID]. *)
Definition PlaceOrder `{JSON} (accountID : string) (unmarshal : unmarshals envelope)
    (target : string → result error OrderReference) (clientOrderID : string) (response : Response)
    : result error OrderReference :=
  value ← decodeResponseForOperation accountID unmarshal target response OperationMutation;
  if bool_decide (Symbol value = "" ∨ OrderID value = "") then
    Err (decodeBodyErrorForOperation accountID response OperationMutation
      (Errorf "MEXC order response is missing symbol or order ID"))
  else if bool_decide (ClientOrderID value = "") then Ok (MkReference (Symbol value) (OrderID value) clientOrderID)
  else Ok value.
End Mexc.

(** ** Gate.io: [exchange/gateio/client.go] and [exchange/gateio/futures/client.go]

    The two clients differ in the name in their messages, [product]. *)

Module GateIO.
Record envelope : Type := MkEnvelope { Label : string; Message : string; Detail : string }.

Definition classifyError (status : Z) (code message : string) (operation : Z) : string * bool :=
  let normalizedCode := ToUpperText (TrimSpace code) in
  let lowerMessage := ToLowerText message in
  if bool_decide (status = StatusTooManyRequests ∨ normalizedCode ∈ ["TOO_FAST"; "RATE_LIMIT_EXCEEDED"]) then
    (ErrorRateLimited, true)
  else if bool_decide (normalizedCode ∈
      ["INVALID_KEY"; "INVALID_SIGNATURE"; "REQUEST_EXPIRED"; "MISSING_REQUIRED_HEADER"]) then
    (ErrorAuthentication, false)
  else if bool_decide (normalizedCode ∈ ["FORBIDDEN"; "IP_FORBIDDEN"; "READ_ONLY"; "NO_PRIVILEGE"]) then
    (ErrorAuthorization, false)
  else if bool_decide (normalizedCode ∈
      ["BALANCE_NOT_ENOUGH"; "INSUFFICIENT_BALANCE"; "MARGIN_BALANCE_NOT_ENOUGH"]) then
    (ErrorInsufficientBalance, false)
  else if bool_decide (normalizedCode ∈ ["ORDER_NOT_FOUND"; "ORDER_NOT_FOUND_OR_TOO_LATE"]) then
    (ErrorOrderNotFound, false)
  else if bool_decide (normalizedCode ∈ ["INTERNAL"; "SERVER_ERROR"; "SERVICE_UNAVAILABLE"]) then
    unavailable operation
  else if Contains lowerMessage "order" && (Contains lowerMessage "not found" || Contains lowerMessage "not exist") then
    (ErrorOrderNotFound, false)
  else if Contains lowerMessage "balance" &&
          (Contains lowerMessage "not enough" || Contains lowerMessage "insufficient") then
    (ErrorInsufficientBalance, false)
  else if bool_decide (status = StatusUnauthorized) then (ErrorAuthentication, false)
  else if bool_decide (status = StatusForbidden) then (ErrorAuthorization, false)
  else if bool_decide (StatusInternalServerError ≤ status) then unavailable operation
  else if bool_decide (status = StatusNotFound) then (ErrorOrderNotFound, false)
  else if bool_decide (StatusBadRequest ≤ status ∨ normalizedCode ≠ "") then (ErrorValidation, false)
  else (ErrorInternal, false).

Section client.
Context (product accountID : string) (unmarshal : unmarshals envelope).

Definition requestID (response : Response) : string :=
  firstNonEmpty [Get (resp_Header response) "X-Gate-Trace-ID"; Get (resp_Header response) "X-Request-Id"].

Definition apiError (response : Response) (code message : string) (operation : Z) (cause : option error) : error :=
  answerError ExchangeGateIO accountID (requestID response)
    (classifyError (StatusCode response) code message operation) response code message cause.

Definition decodeBodyError (response : Response) (operation : Z) (cause : error) : error :=
  let class := classifyError (StatusCode response) "" "" operation in
  let class := if bool_decide (class.1 = ErrorInternal ∨ class.1 = ErrorValidation)
               then unreadable operation else class in
  answerError ExchangeGateIO accountID (requestID response) class response "" ""
    (Some (Wrapf ("decode " +:+ product +:+ " JSON response: %w") cause)).

Definition errorResponse (response : Response) (operation : Z) : error :=
  let '(envelope, err) := unmarshal (body_text response) in
  match err with
  | Some err =>
      apiError response "" "" operation (Some (Wrapf ("decode " +:+ product +:+ " JSON error response: %w") err))
  | None =>
      let message :=
        if bool_decide (Message envelope = "" ∧ Detail envelope ≠ "" ∧ Detail envelope ≠ "null")
        then trimQuotes (Detail envelope) else Message envelope in
      apiError response (Label envelope) message operation None
  end.

Context {A : Type} (target : string → result error A).

Definition decodeData (response : Response) (operation : Z) : result error A :=
  if negb (success (StatusCode response)) then Err (errorResponse response operation)
  else
    let trimmed := TrimSpace (body_text response) in
    if bool_decide (trimmed = "" ∨ trimmed = "null") then
      Err (decodeBodyError response operation (Errorf (product +:+ " response body is missing")))
    else
      match target trimmed with Err err => Err (decodeBodyError response operation err) | Ok a => Ok a end.

(** [PlaceOrder] after its request; [ID] is the field of the order. *)
Definition PlaceOrder (ID : A → string) (response : Response) : result error A :=
  order ← decodeData response OperationMutation;
  if bool_decide (ID order = "") then
    Err (decodeBodyError response OperationMutation (Errorf (product +:+ " order acknowledgement is empty")))
  else Ok order.
End client.
End GateIO.

(** ** KuCoin: [exchange/kucoin/client.go] and [exchange/kucoin/futures/client.go]

    The two clients differ in [classifyError] and in [product]. *)

Module KuCoin.
Record envelope : Type := MkEnvelope { Code : string; Message : string; Data : string }.

Definition classifySpot (status : Z) (code message : string) (operation : Z) : string * bool :=
  if bool_decide (status = StatusTooManyRequests ∨ code = "429000") then (ErrorRateLimited, true)
  else if bool_decide (code ∈ ["400001"; "400002"; "400003"; "400004"; "400005"]) then (ErrorAuthentication, false)
  else if bool_decide (code ∈ ["400006"; "400007"]) then (ErrorAuthorization, false)
  else if bool_decide (code = "200004") then (ErrorInsufficientBalance, false)
  else if bool_decide (code ∈ ["230005"; "500000"]) then unavailable operation
  else if bool_decide (code = "900001") then (ErrorValidation, false)
  else if bool_decide (status = StatusUnauthorized) then (ErrorAuthentication, false)
  else if bool_decide (status = StatusForbidden) then (ErrorAuthorization, false)
  else if bool_decide (StatusInternalServerError ≤ status) then unavailable operation
  else if bool_decide (status = StatusNotFound) then (ErrorOrderNotFound, false)
  else if bool_decide (StatusBadRequest ≤ status ∨ code ≠ "") then (ErrorValidation, false)
  else (ErrorInternal, false).

Definition classifyFutures (status : Z) (code message : string) (operation : Z) : string * bool :=
  let lowerMessage := ToLowerText message in
  if bool_decide (status = StatusTooManyRequests ∨ code ∈ ["1015"; "200002"; "429000"]) then (ErrorRateLimited, true)
  else if bool_decide (code ∈ ["400001"; "400002"; "400003"; "400004"; "400005"]) then (ErrorAuthentication, false)
  else if bool_decide (code ∈ ["400006"; "400007"; "40010"; "411100"]) then (ErrorAuthorization, false)
  else if bool_decide (code ∈ ["200005"; "300003"]) then (ErrorInsufficientBalance, false)
  else if bool_decide (code ∈ ["300002"; "300014"; "300015"; "500000"]) then unavailable operation
  else if bool_decide (code ∈ ["100001"; "100003"; "200001"; "200003"; "300000"; "300004"; "300005";
                               "300006"; "300007"; "300008"; "300009"; "300010"; "300011"; "300012";
                               "300013"; "300016"; "300017"; "300018"; "330005"; "330011"; "400100"]) then
    (ErrorValidation, false)
  else if Contains lowerMessage "order" && (Contains lowerMessage "not exist" || Contains lowerMessage "not found") then
    (ErrorOrderNotFound, false)
  else if Contains lowerMessage "insufficient balance" || Contains lowerMessage "balance not enough" then
    (ErrorInsufficientBalance, false)
  else if bool_decide (status = StatusUnauthorized) then (ErrorAuthentication, false)
  else if bool_decide (status = StatusForbidden) then (ErrorAuthorization, false)
  else if bool_decide (StatusInternalServerError ≤ status) then unavailable operation
  else if bool_decide (status = StatusNotFound) then (ErrorOrderNotFound, false)
  else if bool_decide (StatusBadRequest ≤ status ∨ code ≠ "") then (ErrorValidation, false)
  else (ErrorInternal, false).

Section client.
Context (product accountID : string) (classifyError : Z → string → string → Z → string * bool).
Context (unmarshal : unmarshals envelope).

Definition requestID (response : Response) : string :=
  firstNonEmpty [Get (resp_Header response) "X-KuCoin-Request-Id"; Get (resp_Header response) "X-Request-Id"].

Definition apiError (response : Response) (code message : string) (operation : Z) (cause : option error) : error :=
  answerError ExchangeKuCoin accountID (requestID response)
    (classifyError (StatusCode response) code message operation) response code message cause.

Definition decodeBodyError (response : Response) (operation : Z) (cause : error) : error :=
  let class := classifyError (StatusCode response) "" "" operation in
  let class := if bool_decide (class.1 = ErrorInternal ∨ class.1 = ErrorValidation)
               then unreadable operation else class in
  answerError ExchangeKuCoin accountID (requestID response) class response "" ""
    (Some (Wrapf ("decode " +:+ product +:+ " JSON response: %w") cause)).

Definition responseData (response : Response) (operation : Z) : result error string :=
  let '(envelope, err) := unmarshal (body_text response) in
  match err with
  | Some err => Err (decodeBodyError response operation err)
  | None =>
      if negb (success (StatusCode response)) || bool_decide (Code envelope ≠ "200000") then
        if bool_decide (Code envelope = "") && success (StatusCode response) then
          Err (decodeBodyError response operation (Errorf (product +:+ " response code is missing")))
        else Err (apiError response (Code envelope) (Message envelope) operation None)
      else Ok (Data envelope)
  end.

Context {A : Type} (target : string → result error A).

Definition decodeData (response : Response) (operation : Z) : result error A :=
  data ← responseData response operation;
  if bool_decide (data = "" ∨ TrimSpace data = "null") then
    Err (decodeBodyError response operation (Errorf (product +:+ " response data is missing")))
  else
    match target data with Err err => Err (decodeBodyError response operation err) | Ok a => Ok a end.

(** [PlaceOrder] after its request; [OrderID] is the field of the acknowledgement. *)
Definition PlaceOrder (OrderID : A → string) (response : Response) : result error A :=
  reference ← decodeData response OperationMutation;
  if bool_decide (OrderID reference = "") then
    Err (decodeBodyError response OperationMutation (Errorf (product +:+ " order acknowledgement is empty")))
  else Ok reference.
End client.
End KuCoin.

(** ** HTX: [exchange/htx/client.go] *)

Module Htx.
Record envelope : Type := MkEnvelope {
  Status : string;
  ErrorCode : string;
  ErrorMessage : string;
  Code : string;
  Message : string
}.

(** The regular expression of one to 64 digits. *)
Definition orderIDPattern (s : string) : bool := nonempty_digits s && bool_decide (String.length s ≤ 64)%nat.

Definition classifyError (status : Z) (code message : string) (operation : Z) : string * bool :=
  let code := ToLowerText (TrimSpace code) in
  let message := ToLowerText (TrimSpace message) in
  if bool_decide (status = StatusTooManyRequests ∨ code ∈ ["too-many-requests"; "frequent-visit"; "1006"]) then
    (ErrorRateLimited, true)
  else if bool_decide (StatusInternalServerError ≤ status) then unavailable operation
  else if bool_decide (status = StatusUnauthorized ∨
      code ∈ ["require-auth"; "login-required"; "api-signature-not-valid"; "1002"; "1003"]) then
    (ErrorAuthentication, false)
  else if bool_decide (status = StatusForbidden ∨ code ∈ ["api-key-no-permission"; "base-operation-forbidden"]) ||
          HasPrefix code "operation-forbidden" || Contains message "permission" || Contains message "ip address" then
    (ErrorAuthorization, false)
  else if bool_decide (code = "order-accountbalance-error") || Contains code "balance" ||
          Contains message "insufficient balance" then
    (ErrorInsufficientBalance, false)
  else if bool_decide (code ∈ ["not-found"; "base-not-found"; "base-record-invalid"; "1007"]) ||
          Contains message "order not found" then
    (ErrorOrderNotFound, false)
  else if bool_decide (code ∈ ["gateway-internal-error"; "service-unavailable"; "base-system-error";
                               "order-update-error"; "request-timeout"; "500"]) ||
          Contains message "request timeout" then
    unavailable operation
  else if bool_decide (StatusBadRequest ≤ status ∨ code ≠ "") then (ErrorValidation, false)
  else (ErrorInternal, false).

Section client.
Context `{JSON} (accountID : string) (unmarshal : unmarshals envelope).

Definition requestID (response : Response) : string :=
  firstNonEmpty [Get (resp_Header response) "request-id"; Get (resp_Header response) "X-Request-Id"].

Definition apiError (response : Response) (code message : string) (operation : Z) (cause : option error) : error :=
  answerError ExchangeHTX accountID (requestID response)
    (classifyError (StatusCode response) code message operation) response code message cause.

Definition decodeBodyErrorForOperation (response : Response) (operation : Z) (cause : error) : error :=
  let class := classifyError (StatusCode response) "" "" operation in
  let class := if bool_decide (class.1 = ErrorInternal ∨ class.1 = ErrorValidation)
               then unreadable operation else class in
  answerError ExchangeHTX accountID (requestID response) class response "" ""
    (Some (Wrapf "decode HTX JSON response: %w" cause)).

Definition decodeBodyError (response : Response) (cause : error) : error :=
  decodeBodyErrorForOperation response OperationRead cause.

Definition decodeResponseForOperation {A} (target : string → result error A) (response : Response) (operation : Z)
    : result error A :=
  let trimmed := TrimSpace (body_text response) in
  if bool_decide (trimmed = "") || negb (Valid trimmed) || negb (HasPrefix trimmed "{") then
    Err (decodeBodyErrorForOperation response operation (Errorf "HTX response is not a JSON object"))
  else
    let '(envelope, err) := unmarshal trimmed in
    match err, optionalScalarText "value is not scalar" false (Code envelope) with
    | Some err, _ => Err (decodeBodyErrorForOperation response operation err)
    | None, Err err =>
        Err (decodeBodyErrorForOperation response operation (Wrapf "decode HTX response code: %w" err))
    | None, Ok code =>
        let code := if bool_decide (ErrorCode envelope ≠ "") then ErrorCode envelope else code in
        let message := if bool_decide (ErrorMessage envelope = "") then Message envelope else ErrorMessage envelope in
        let httpSuccess := success (StatusCode response) in
        let logicalSuccess :=
          bool_decide (Status envelope = "ok" ∨ (Status envelope = "" ∧ (code = "0" ∨ code = "200"))) in
        if httpSuccess && bool_decide (Status envelope = "" ∧ code = "") then
          Err (decodeBodyErrorForOperation response operation (Errorf "HTX response status is missing"))
        else if negb httpSuccess || negb logicalSuccess then Err (apiError response code message operation None)
        else
          match target trimmed with
          | Err err => Err (decodeBodyErrorForOperation response operation err)
          | Ok a => Ok a
          end
    end.

(** [data] reads the field of that name, [target] the value in it. *)
Context (data : string → result error string).

Definition decodeDataForOperation {A} (target : string → result error A) (response : Response) (operation : Z)
    : result error A :=
  data ← decodeResponseForOperation data response operation;
  if bool_decide (TrimSpace data = "") then
    Err (decodeBodyErrorForOperation response operation (Errorf "HTX response data is missing"))
  else
    match target data with
    | Err err => Err (decodeBodyErrorForOperation response operation err)
    | Ok a => Ok a
    end.

(** [PlaceOrder] after its request; a [json.RawMessage] is decoded as it is. *)
Definition PlaceOrder (response : Response) : result error string :=
  data ← decodeDataForOperation Ok response OperationMutation;
  match optionalScalarText "value is not scalar" false data with
  | Err err => Err (decodeBodyErrorForOperation response OperationMutation err)
  | Ok orderID =>
      if negb (orderIDPattern orderID) then
        Err (decodeBodyErrorForOperation response OperationMutation
          (Errorf "HTX order acknowledgement has an invalid order ID"))
      else Ok orderID
  end.
End client.
End Htx.

(** ** Kraken Spot: [exchange/kraken/client.go] *)

Module Kraken.
Record envelope : Type := MkEnvelope { Errors : list string; Result : string }.

Definition classifyError (status : Z) (message : string) (operation : Z) : string * bool :=
  let normalized := ToLowerText message in
  if bool_decide (status = StatusTooManyRequests) || Contains normalized "rate limit" ||
     Contains normalized "throttled" then (ErrorRateLimited, true)
  else if bool_decide (status = StatusUnauthorized) || Contains normalized "invalid key" ||
          Contains normalized "invalid signature" || Contains normalized "invalid nonce" then
    (ErrorAuthentication, false)
  else if bool_decide (status = StatusForbidden) || Contains normalized "permission denied" then
    (ErrorAuthorization, false)
  else if Contains normalized "insufficient funds" then (ErrorInsufficientBalance, false)
  else if Contains normalized "unknown order" || Contains normalized "order not found" then (ErrorOrderNotFound, false)
  else if bool_decide (StatusInternalServerError ≤ status) || Contains normalized "service:unavailable" ||
          Contains normalized "service unavailable" then unavailable operation
  else if bool_decide (StatusBadRequest ≤ status ∨ message ≠ "") then (ErrorValidation, false)
  else (ErrorInternal, false).

Section client.
Context (accountID : string) (unmarshal : unmarshals envelope).

Definition decodeErrorResponse (response : Response) (operation : Z) (exchangeErrors : list string)
    (cause : option error) : error :=
  let message := Join exchangeErrors "; " in
  let message := if bool_decide (message = "") then TrimSpace (body_text response) else message in
  let code := match exchangeErrors with code :: _ => code | [] => "" end in
  answerError ExchangeKraken accountID "" (classifyError (StatusCode response) message operation)
    response code message cause.

Definition decodeBodyError (response : Response) (operation : Z) (cause : error) : error :=
  answerError ExchangeKraken accountID "" (unreadable operation) response "" ""
    (Some (Wrapf "decode Kraken JSON response: %w" cause)).

Definition decodeResult (response : Response) (operation : Z) : result error string :=
  let '(envelope, decodeErr) := unmarshal (body_text response) in
  if negb (success (StatusCode response)) || bool_decide (Errors envelope ≠ []) then
    Err (decodeErrorResponse response operation (Errors envelope) decodeErr)
  else
    match decodeErr with
    | Some err => Err (decodeBodyError response operation err)
    | None =>
        if bool_decide (Result envelope = "" ∨ Result envelope = "null") then
          Err (decodeBodyError response operation (Errorf "Kraken result is empty"))
        else Ok (Result envelope)
    end.

(** [PlaceOrder] after its request; [TransactionIDs] is the field of the
    acknowledgement. *)
Context {A : Type} (target : string → result error A) (TransactionIDs : A → list string).

Definition PlaceOrder (ValidateOnly : bool) (response : Response) : result error A :=
  result ← decodeResult response OperationMutation;
  match target result with
  | Err err => Err (decodeBodyError response OperationMutation err)
  | Ok value =>
      if negb ValidateOnly && bool_decide (TransactionIDs value = []) then
        Err (decodeBodyError response OperationMutation (Errorf "Kraken order acknowledgement is empty"))
      else Ok value
  end.
End client.
End Kraken.

(** ** Kraken Futures: [exchange/kraken/futures/client.go] *)

Module KrakenFutures.
Record envelope : Type := MkEnvelope { Result : string; Error : string; Errors : string }.
Record OrderReference : Type := MkReference { Status : string; OrderID : string }.

Definition classifyError (status : Z) (code message : string) (operation : Z) : string * bool :=
  let normalized := ToLowerText (code +:+ " " +:+ message) in
  if bool_decide (status = StatusTooManyRequests) || Contains normalized "api limit exceeded" ||
     Contains normalized "rate limit" then (ErrorRateLimited, true)
  else if bool_decide (status = StatusUnauthorized) || Contains normalized "authentication" ||
          Contains normalized "invalid api key" || Contains normalized "invalid signature" ||
          Contains normalized "nonce" then (ErrorAuthentication, false)
  else if bool_decide (status = StatusForbidden) || Contains normalized "permission" then (ErrorAuthorization, false)
  else if Contains normalized "insufficient" then (ErrorInsufficientBalance, false)
  else if Contains normalized "order not found" || Contains normalized "unknown order" ||
          Contains normalized "not found" then (ErrorOrderNotFound, false)
  else if bool_decide (StatusInternalServerError ≤ status) || Contains normalized "unavailable" ||
          Contains normalized "server error" then unavailable operation
  else if bool_decide (StatusBadRequest ≤ status ∨ code ≠ "" ∨ message ≠ "") then (ErrorValidation, false)
  else (ErrorInternal, false).

Section client.
Context `{JSON} (accountID : string) (unmarshal : unmarshals envelope).

Definition rawMessageText (raw : string) : string :=
  let trimmed := TrimSpace raw in
  if bool_decide (trimmed = "" ∨ trimmed = "null" ∨ trimmed = quote +:+ quote ∨ trimmed = "[]" ∨ trimmed = "{}") then ""
  else
    match UnmarshalString trimmed, UnmarshalStrings trimmed with
    | Some text, _ => text
    | None, Some texts => Join texts "; "
    | None, None => trimmed
    end.

Definition decodeError (response : Response) (code message : string) (operation : Z) (cause : option error) : error :=
  let message := if bool_decide (message = "") then TrimSpace (body_text response) else message in
  answerError ExchangeKraken accountID (Get (resp_Header response) "X-Request-ID")
    (classifyError (StatusCode response) code message operation) response code message cause.

Definition decodeBodyError (response : Response) (operation : Z) (cause : error) : error :=
  answerError ExchangeKraken accountID "" (unreadable operation) response "" ""
    (Some (Wrapf "decode Kraken Futures JSON response: %w" cause)).

Definition decodeSuccess {A} (target : string → result error A) (response : Response) (operation : Z) : result error A :=
  let '(envelope, decodeErr) := unmarshal (body_text response) in
  let message := firstNonEmpty [rawMessageText (Error envelope); rawMessageText (Errors envelope)] in
  let code := Result envelope in
  let code := if bool_decide (code = "error" ∧ message ≠ "") then message else code in
  if negb (success (StatusCode response)) || bool_decide (Result envelope ≠ "" ∧ Result envelope ≠ "success") ||
     bool_decide (message ≠ "") then
    Err (decodeError response code message operation decodeErr)
  else
    match decodeErr with
    | Some err => Err (decodeBodyError response operation err)
    | None =>
        match target (body_text response) with
        | Err err => Err (decodeBodyError response operation err)
        | Ok a => Ok a
        end
    end.

(** [PlaceOrder] after its request; [SendStatus] reads the field of that name. *)
Context (SendStatus : string → result error string) (target : string → result error OrderReference).

Definition PlaceOrder (response : Response) : result error OrderReference :=
  sendStatus ← decodeSuccess SendStatus response OperationMutation;
  match target sendStatus with
  | Err err => Err (decodeBodyError response OperationMutation err)
  | Ok reference =>
      if bool_decide (Status reference ≠ "placed") then
        Err (decodeError response (Status reference) (Status reference) OperationMutation None)
      else if bool_decide (OrderID reference = "") then
        Err (decodeBodyError response OperationMutation
          (Errorf "Kraken Futures order acknowledgement identity is missing"))
      else Ok reference
  end.
End client.
End KrakenFutures.

(** ** Coinbase: [exchange/coinbase/client.go] *)

Module Coinbase.
(** [Code] is [fmt.Sprint] of the field, [None] for nil. *)
Record envelope : Type := MkEnvelope {
  Error : string;
  ErrorType : string;
  Code : option string;
  Message : string;
  ErrorMessage : string;
  Details : string
}.

(** The answer to an order, with the fields of its [ErrorResponse]. *)
Record orderEnvelope : Type := MkOrderEnvelope {
  Success : bool;
  SuccessResponse : string;
  order_Error : string;
  order_Message : string;
  ErrorDetails : string;
  NewOrderFailureReason : string;
  PreviewFailureReason : string
}.

Definition classifyError (status : Z) (code message : string) (operation : Z) : string * bool :=
  let normalized := ToLowerText (code +:+ " " +:+ message) in
  if bool_decide (status = StatusTooManyRequests) || Contains normalized "rate limit" ||
     Contains normalized "resource_exhausted" then (ErrorRateLimited, true)
  else if bool_decide (status = StatusUnauthorized) || Contains normalized "unauthenticated" ||
          Contains normalized "invalid signature" then (ErrorAuthentication, false)
  else if bool_decide (status = StatusForbidden) || Contains normalized "permission_denied" then
    (ErrorAuthorization, false)
  else if Contains normalized "insufficient" then (ErrorInsufficientBalance, false)
  else if Contains normalized "order_not_found" || Contains normalized "order not found" then
    (ErrorOrderNotFound, false)
  else if bool_decide (StatusInternalServerError ≤ status) then unavailable operation
  else if bool_decide (StatusBadRequest ≤ status ∨ code ≠ "") then (ErrorValidation, false)
  else (ErrorInternal, false).

Section client.
Context (accountID : string) (unmarshal : unmarshals envelope).

Definition apiError (response : Response) (class : string * bool) (code message : string) (cause : option error) : error :=
  answerError ExchangeCoinbase accountID
    (firstNonEmpty [Get (resp_Header response) "X-Request-ID"; Get (resp_Header response) "Trace-ID"])
    class response code message cause.

Definition decodeErrorResponse (response : Response) (operation : Z) (cause : option error) : error :=
  let envelope := (unmarshal (body_text response)).1 in
  let code := firstNonEmpty [Error envelope; ErrorType envelope] in
  let code := if bool_decide (code = "") then default code (Code envelope) else code in
  let message := firstNonEmpty [Message envelope; ErrorMessage envelope; Details envelope] in
  let message := if bool_decide (message = "") then TrimSpace (body_text response) else message in
  apiError response (classifyError (StatusCode response) code message operation) code message cause.

Definition decodeBodyError (response : Response) (operation : Z) (cause : error) : error :=
  answerError ExchangeCoinbase accountID "" (unreadable operation) response "" ""
    (Some (Wrapf "decode Coinbase JSON response: %w" cause)).

Definition decodeSuccess {A} (target : string → result error A) (response : Response) (operation : Z) : result error A :=
  if negb (success (StatusCode response)) then Err (decodeErrorResponse response operation None)
  else
    match target (body_text response) with
    | Err err => Err (decodeBodyError response operation err)
    | Ok a => Ok a
    end.

(** [PlaceOrder] after its request; [OrderID] is the field of the acknowledgement. *)
Context {A : Type} (order : string → result error orderEnvelope) (target : string → result error A) (OrderID : A → string).

Definition PlaceOrder (response : Response) : result error A :=
  envelope ← decodeSuccess order response OperationMutation;
  if negb (Success envelope) then
    let code := firstNonEmpty [NewOrderFailureReason envelope; PreviewFailureReason envelope; order_Error envelope] in
    let message := firstNonEmpty [order_Message envelope; ErrorDetails envelope] in
    Err (apiError response (classifyError (StatusCode response) code message OperationMutation) code message None)
  else
    match target (SuccessResponse envelope) with
    | Err err => Err (decodeBodyError response OperationMutation err)
    | Ok reference =>
        if bool_decide (OrderID reference = "") then
          Err (decodeBodyError response OperationMutation (Errorf "Coinbase order acknowledgement is empty"))
        else Ok reference
    end.
End client.
End Coinbase.

(** ** Crypto.com: [exchange/cryptocom/client.go] and [private_client.go]

    The public client only reads, its errors do not look at the operation. *)

Module CryptoCom.
Record envelope : Type := MkEnvelope { ID : string; Method : string; Code : string; Result : string; Message : string }.

Definition classifyError (status : Z) (code : string) : string * bool :=
  let code := TrimSpace code in
  if bool_decide (code = "40001") then (ErrorValidation, false)
  else if bool_decide (code = "40101") then (ErrorAuthentication, false)
  else if bool_decide (code ∈ ["40801"; "50001"]) then (ErrorExchangeUnavailable, true)
  else if bool_decide (code = "42901") then (ErrorRateLimited, true)
  else if bool_decide (status = StatusTooManyRequests) then (ErrorRateLimited, true)
  else if bool_decide (status = StatusUnauthorized) then (ErrorAuthentication, false)
  else if bool_decide (status = StatusForbidden) then (ErrorAuthorization, false)
  else if bool_decide (StatusInternalServerError ≤ status ∨ status = StatusRequestTimeout) then
    (ErrorExchangeUnavailable, true)
  else if bool_decide (StatusBadRequest ≤ status ∨ code ≠ "") then (ErrorValidation, false)
  else (ErrorInternal, false).

Section client.
Context `{JSON} (unmarshal : unmarshals envelope).

(** [firstNonEmpty], which trims here. *)
Definition firstNonBlank (values : list string) : string := firstNonEmpty (TrimSpace <$> values).

Definition apiError (response : Response) (code message envelopeID : string) (cause : option error) : error :=
  answerError ExchangeCryptoCom ""
    (firstNonBlank [Get (resp_Header response) "X-Request-ID"; Get (resp_Header response) "X-Request-Id"; envelopeID])
    (classifyError (StatusCode response) code) response code message cause.

Definition decodeBodyError (response : Response) (cause : error) : error :=
  answerError ExchangeCryptoCom ""
    (firstNonBlank [Get (resp_Header response) "X-Request-ID"; Get (resp_Header response) "X-Request-Id"])
    (ErrorExchangeUnavailable, true) response "" "" (Some (Wrapf "decode Crypto.com JSON response: %w" cause)).

Definition decodeResult (response : Response) (expectedMethod : string) : result error string :=
  let trimmed := TrimSpace (body_text response) in
  if bool_decide (trimmed = "") || negb (Valid trimmed) || negb (HasPrefix trimmed "{") then
    Err (decodeBodyError response (Errorf "Crypto.com response is not a JSON object"))
  else
    let '(envelope, err) := unmarshal trimmed in
    match err, optionalScalarText "value is not a string or number" false (Code envelope) with
    | Some err, _ => Err (decodeBodyError response err)
    | None, Err err => Err (decodeBodyError response (Wrapf "decode Crypto.com response code: %w" err))
    | None, Ok code =>
        if bool_decide (TrimSpace (Code envelope) = "" ∨ code = "") then
          Err (decodeBodyError response (Errorf "Crypto.com response code is missing"))
        else
          match optionalScalarText "value is not a string or number" false (ID envelope) with
          | Err err => Err (decodeBodyError response (Wrapf "decode Crypto.com response ID: %w" err))
          | Ok requestID =>
              if negb (success (StatusCode response)) || bool_decide (code ≠ "0") then
                Err (apiError response code (Message envelope) requestID None)
              else if bool_decide (Method envelope = "" ∨ Method envelope ≠ expectedMethod) then
                Err (decodeBodyError response (Errorf "unexpected Crypto.com response method %q"))
              else if bool_decide (TrimSpace (Result envelope) = "" ∨ TrimSpace (Result envelope) = "null") then
                Err (decodeBodyError response (Errorf "Crypto.com response result is missing"))
              else Ok (Result envelope)
          end
    end.

(** *** The private client *)

Definition classifyPrivateError (status : Z) (method code : string) (operation : Z) : string * bool :=
  let code := TrimSpace code in
  if bool_decide (code = "306") then (ErrorInsufficientBalance, false)
  else if bool_decide (code ∈ ["212"; "30004"; "40401"] ∧
                       (method = "private/get-order-detail" ∨ method = "private/cancel-order")) then
    (ErrorOrderNotFound, false)
  else if bool_decide (code ∈ ["40101"; "40102"; "10002"]) then (ErrorAuthentication, false)
  else if bool_decide (code ∈ ["40301"; "10003"]) then (ErrorAuthorization, false)
  else if bool_decide (code = "42901") then (ErrorRateLimited, true)
  else if bool_decide (code ∈ ["40801"; "50001"]) then unavailable operation
  else if bool_decide (status = StatusTooManyRequests) then (ErrorRateLimited, true)
  else if bool_decide (status = StatusUnauthorized) then (ErrorAuthentication, false)
  else if bool_decide (status = StatusForbidden) then (ErrorAuthorization, false)
  else if bool_decide (code ≠ "" ∧ code ≠ "0") then (ErrorValidation, false)
  else if bool_decide (StatusInternalServerError ≤ status ∨ status = StatusRequestTimeout) then unavailable operation
  else if bool_decide (StatusBadRequest ≤ status) then (ErrorValidation, false)
  else (ErrorInternal, false).

Context (accountID : string).

Definition privateAPIError (response : Response) (method code message envelopeID : string) (operation : Z)
    (cause : option error) : error :=
  answerError ExchangeCryptoCom accountID
    (firstNonBlank [Get (resp_Header response) "X-Request-ID"; Get (resp_Header response) "X-Request-Id"; envelopeID])
    (classifyPrivateError (StatusCode response) method code operation) response code message cause.

Definition decodePrivateBodyError (response : Response) (operation : Z) (envelopeID : string) (cause : error) : error :=
  answerError ExchangeCryptoCom accountID
    (firstNonBlank [Get (resp_Header response) "X-Request-ID"; Get (resp_Header response) "X-Request-Id"; envelopeID])
    (unavailable operation) response "" "" (Some (Wrapf "decode Crypto.com private JSON response: %w" cause)).

Definition decodePrivateResult (response : Response) (expectedMethod expectedID : string) (operation : Z)
    (resultRequired : bool) : result error string :=
  let trimmed := TrimSpace (body_text response) in
  let unreadable := decodePrivateBodyError response operation in
  if bool_decide (trimmed = "") || negb (Valid trimmed) || negb (HasPrefix trimmed "{") then
    Err (unreadable "" (Errorf "Crypto.com response is not a JSON object"))
  else
    let '(envelope, err) := unmarshal trimmed in
    match err, optionalScalarText "value is not a string or number" false (Code envelope) with
    | Some err, _ | None, Err err => Err (unreadable "" err)
    | None, Ok code =>
        if bool_decide (TrimSpace (Code envelope) = "" ∨ code = "") then
          Err (unreadable "" (Errorf "Crypto.com response code is missing"))
        else
          match optionalScalarText "value is not a string or number" false (ID envelope) with
          | Err err => Err (unreadable "" err)
          | Ok requestID =>
              let resultRaw := TrimSpace (Result envelope) in
              if negb (success (StatusCode response)) || bool_decide (code ≠ "0") then
                Err (privateAPIError response expectedMethod code (Message envelope) requestID operation None)
              else if bool_decide (Method envelope ≠ expectedMethod ∨ requestID ≠ expectedID) then
                Err (unreadable requestID (Errorf "unexpected Crypto.com private response method %q or ID %q"))
              else if bool_decide (resultRaw = "" ∨ resultRaw = "null") then
                if negb resultRequired then Ok ""
                else Err (unreadable requestID (Errorf "Crypto.com response result is missing"))
              else Ok resultRaw
          end
    end.

Definition methodCreateOrder : string := "private/create-order".

(** [PlaceOrder] after its request, which had [requestID] and [clientOrderID]. *)
Context {A : Type} (target : string → result error A) (OrderID ClientOrderID : A → string).

Definition PlaceOrder (requestID clientOrderID : string) (response : Response) : result error A :=
  resultRaw ← decodePrivateResult response methodCreateOrder requestID OperationMutation true;
  match target resultRaw with
  | Err err => Err (decodePrivateBodyError response OperationMutation requestID err)
  | Ok value =>
      if bool_decide (OrderID value = "" ∨ ClientOrderID value ≠ clientOrderID) then
        Err (decodePrivateBodyError response OperationMutation requestID
          (Errorf "Crypto.com order receipt identity is inconsistent"))
      else Ok value
  end.
End client.
End CryptoCom.

(** ** Upbit: [exchange/upbit/client.go] *)

Module Upbit.
(** The fields [name] and [message] of the field [error]. *)
Record envelope : Type := MkEnvelope { Name : string; Message : string }.

Definition classifyError (status : Z) (code : string) (operation : Z) : string * bool :=
  if bool_decide (status = StatusTooManyRequests ∨ status = StatusTeapot) then (ErrorRateLimited, true)
  else if bool_decide (code ∈ ["invalid_query_payload"; "jwt_verification"; "expired_access_key"; "nonce_used";
                               "no_authorization_token"]) then (ErrorAuthentication, false)
  else if bool_decide (code ∈ ["no_authorization_ip"; "out_of_scope"]) then (ErrorAuthorization, false)
  else if bool_decide (code ∈ ["insufficient_funds_ask"; "insufficient_funds_bid"]) then
    (ErrorInsufficientBalance, false)
  else if bool_decide (code = "order_not_found") then (ErrorOrderNotFound, false)
  else if bool_decide (StatusInternalServerError ≤ status) then unavailable operation
  else if bool_decide (status = StatusUnauthorized) then (ErrorAuthentication, false)
  else if bool_decide (status = StatusForbidden) then (ErrorAuthorization, false)
  else if bool_decide (status = StatusNotFound) then (ErrorOrderNotFound, false)
  else if bool_decide (StatusBadRequest ≤ status ∨ code ≠ "") then (ErrorValidation, false)
  else (ErrorInternal, false).

Section client.
Context (accountID : string) (unmarshal : unmarshals envelope).

Definition decodeBodyError (response : Response) (operation : Z) (cause : error) : error :=
  let class := classifyError (StatusCode response) "" operation in
  let class := if bool_decide (class.1 = ErrorInternal) then unreadable operation else class in
  answerError ExchangeUpbit accountID "" class response "" "" (Some (Wrapf "decode Upbit JSON response: %w" cause)).

Definition decodeErrorResponse (response : Response) (operation : Z) : error :=
  let '(envelope, err) := unmarshal (body_text response) in
  match err with
  | Some err => decodeBodyError response operation err
  | None =>
      let code := trimQuotes (Name envelope) in
      answerError ExchangeUpbit accountID
        (firstNonEmpty [Get (resp_Header response) "X-Request-ID"; Get (resp_Header response) "Request-ID"])
        (classifyError (StatusCode response) code operation) response code (Message envelope) None
  end.

Context {A : Type} (target : string → result error A).

(** [decodeResponse], which is what [PlaceOrder] does after its request. *)
Definition decodeResponse (response : Response) (operation : Z) : result error A :=
  if negb (success (StatusCode response)) then Err (decodeErrorResponse response operation)
  else
    match target (body_text response) with
    | Err err => Err (decodeBodyError response operation err)
    | Ok a => Ok a
    end.
End client.
End Upbit.

(** ** Bithumb: [exchange/bithumb/client.go] *)

Module Bithumb.
Record envelope : Type := MkEnvelope { Name : string; Message : string }.

Definition classifyError (status : Z) (code : string) (operation : Z) : string * bool :=
  let normalized := ToLowerText code in
  if bool_decide (status = StatusTooManyRequests ∨ status = StatusTeapot) then (ErrorRateLimited, true)
  else if bool_decide (normalized ∈ ["invalid_query_payload"; "jwt_verification"; "expired_jwt"; "nonce_used";
                                     "no_authorization_token"]) then (ErrorAuthentication, false)
  else if bool_decide (normalized ∈ ["notallowip"; "no_authorization_ip"; "out_of_scope"]) then
    (ErrorAuthorization, false)
  else if bool_decide (normalized = "order_not_found") then (ErrorOrderNotFound, false)
  else if HasPrefix normalized "insufficient_funds_" then (ErrorInsufficientBalance, false)
  else if bool_decide (StatusInternalServerError ≤ status) then unavailable operation
  else if bool_decide (status = StatusUnauthorized) then (ErrorAuthentication, false)
  else if bool_decide (status = StatusForbidden) then (ErrorAuthorization, false)
  else if bool_decide (status = StatusNotFound) then (ErrorOrderNotFound, false)
  else if bool_decide (StatusBadRequest ≤ status ∨ code ≠ "") then (ErrorValidation, false)
  else (ErrorInternal, false).

Section client.
Context (accountID : string) (unmarshal : unmarshals envelope).

Definition decodeBodyError (response : Response) (operation : Z) (cause : error) : error :=
  let class := classifyError (StatusCode response) "" operation in
  let class := if bool_decide (class.1 = ErrorInternal) then unreadable operation else class in
  answerError ExchangeBithumb accountID "" class response "" "" (Some (Wrapf "decode Bithumb JSON response: %w" cause)).

Definition decodeErrorResponse (response : Response) (operation : Z) : error :=
  let '(envelope, err) := unmarshal (body_text response) in
  match err with
  | Some err => decodeBodyError response operation err
  | None =>
      let code := trimQuotes (Name envelope) in
      answerError ExchangeBithumb accountID
        (firstNonEmpty [Get (resp_Header response) "X-Request-ID"; Get (resp_Header response) "Request-ID"])
        (classifyError (StatusCode response) code operation) response code (Message envelope) None
  end.

Context {A : Type} (target : string → result error A).

(** [decodeResponse], which is what [PlaceOrder] does after its request. *)
Definition decodeResponse (response : Response) (operation : Z) : result error A :=
  if negb (success (StatusCode response)) then Err (decodeErrorResponse response operation)
  else
    match target (body_text response) with
    | Err err => Err (decodeBodyError response operation err)
    | Ok a => Ok a
    end.
End client.
End Bithumb.

(** ** Coinone: [exchange/coinone/client.go] *)

Module Coinone.
Record envelope : Type := MkEnvelope { Result : string; ErrorCode : string; ErrorMessage : string }.

Definition classifyError (status : Z) (code : string) (operation : Z) : string * bool :=
  if bool_decide (status = StatusTooManyRequests ∨ code = "4") then (ErrorRateLimited, true)
  else if bool_decide (code ∈ ["8"; "11"; "12"; "23"; "24"; "25"; "27"; "28"; "120"; "121"; "122"; "123";
                               "130"; "131"; "132"; "133"; "151"; "1206"]) then (ErrorAuthentication, false)
  else if bool_decide (code ∈ ["10"; "22"; "40"; "315"]) then (ErrorAuthorization, false)
  else if bool_decide (code ∈ ["103"; "157"]) then (ErrorInsufficientBalance, false)
  else if bool_decide (code = "104") then (ErrorOrderNotFound, false)
  else if bool_decide (code = "405") then unavailable operation
  else if bool_decide (StatusInternalServerError ≤ status) then unavailable operation
  else if bool_decide (status = StatusUnauthorized) then (ErrorAuthentication, false)
  else if bool_decide (status = StatusForbidden) then (ErrorAuthorization, false)
  else if bool_decide (status = StatusNotFound) then (ErrorOrderNotFound, false)
  else if bool_decide (StatusBadRequest ≤ status ∨ code ≠ "") then (ErrorValidation, false)
  else (ErrorInternal, false).

Section client.
Context (accountID : string) (unmarshal : unmarshals envelope).

Definition apiError (response : Response) (operation : Z) (code message : string) : error :=
  answerError ExchangeCoinone accountID
    (firstNonEmpty [Get (resp_Header response) "X-Request-ID"; Get (resp_Header response) "Request-ID"])
    (classifyError (StatusCode response) code operation) response code message None.

Definition decodeBodyError (response : Response) (operation : Z) (cause : error) : error :=
  let class := classifyError (StatusCode response) "" operation in
  let class := if bool_decide (class.1 = ErrorInternal ∨ class.1 = ErrorValidation)
               then unreadable operation else class in
  answerError ExchangeCoinone accountID "" class response "" "" (Some (Wrapf "decode Coinone JSON response: %w" cause)).

Context {A : Type} (target : string → result error A).

Definition decodeResponse (response : Response) (operation : Z) : result error A :=
  let '(envelope, err) := unmarshal (body_text response) in
  match err with
  | Some err => Err (decodeBodyError response operation err)
  | None =>
      if negb (success (StatusCode response)) then
        Err (apiError response operation (ErrorCode envelope) (ErrorMessage envelope))
      else if bool_decide (Result envelope = "" ∨ ErrorCode envelope = "") then
        Err (decodeBodyError response operation (Errorf "Coinone response envelope is incomplete"))
      else if bool_decide (Result envelope ≠ "success" ∨ ErrorCode envelope ≠ "0") then
        Err (apiError response operation (ErrorCode envelope) (ErrorMessage envelope))
      else
        match target (body_text response) with
        | Err err => Err (decodeBodyError response operation err)
        | Ok a => Ok a
        end
  end.

(** [PlaceOrder] after its request; [OrderID] is the field of the acknowledgement. *)
Definition PlaceOrder (OrderID : A → string) (response : Response) : result error A :=
  order ← decodeResponse response OperationMutation;
  if bool_decide (OrderID order = "") then
    Err (decodeBodyError response OperationMutation (Errorf "Coinone order response has no order ID"))
  else Ok order.
End client.
End Coinone.

(** ** Korbit: [exchange/korbit/client.go] *)

Module Korbit.
Record envelope : Type := MkEnvelope { Success : option bool; Data : string; Message : string }.

Definition classifyError (status : Z) (code : string) (operation : Z) : string * bool :=
  if bool_decide (status = StatusTooManyRequests) then (ErrorRateLimited, true)
  else if bool_decide (code = "NO_BALANCE") then (ErrorInsufficientBalance, false)
  else if bool_decide (code ∈ ["ORDER_NOT_FOUND"; "ORDER_ALREADY_CANCELED"; "ORDER_ALREADY_FILLED";
                               "ORDER_ALREADY_EXPIRED"]) then (ErrorOrderNotFound, false)
  else if bool_decide (code = "INVALID_USER_STATUS") then (ErrorAuthorization, false)
  else if bool_decide (code = "TRY_AGAIN") then (ErrorExchangeUnavailable, true)
  else if bool_decide (code = "EXCEED_TIME_WINDOW") then (ErrorValidation, false)
  else if bool_decide (status = StatusUnauthorized) then (ErrorAuthentication, false)
  else if bool_decide (status = StatusForbidden) then (ErrorAuthorization, false)
  else if bool_decide (StatusInternalServerError ≤ status) then unavailable operation
  else if bool_decide (status = StatusNotFound) then (ErrorOrderNotFound, false)
  else if bool_decide (StatusBadRequest ≤ status ∨ code ≠ "") then (ErrorValidation, false)
  else (ErrorInternal, false).

Section client.
Context (accountID : string) (unmarshal : unmarshals envelope).

Definition apiError (response : Response) (operation : Z) (code : string) : error :=
  answerError ExchangeKorbit accountID
    (firstNonEmpty [Get (resp_Header response) "X-Request-ID"; Get (resp_Header response) "X-Korbit-Request-ID"])
    (classifyError (StatusCode response) code operation) response code "" None.

Definition decodeBodyError (response : Response) (operation : Z) (cause : error) : error :=
  let class := classifyError (StatusCode response) "" operation in
  let class := if bool_decide (class.1 = ErrorInternal ∨ class.1 = ErrorValidation)
               then unreadable operation else class in
  answerError ExchangeKorbit accountID "" class response "" "" (Some (Wrapf "decode Korbit JSON response: %w" cause)).

(** [decodeResponse] with a target. *)
Context {A : Type} (target : string → result error A).

Definition decodeResponse (response : Response) (operation : Z) : result error A :=
  let '(envelope, err) := unmarshal (body_text response) in
  match err with
  | Some err => Err (decodeBodyError response operation err)
  | None =>
      if negb (success (StatusCode response)) || bool_decide (Success envelope = Some false) then
        Err (apiError response operation (Message envelope))
      else if bool_decide (Success envelope ≠ Some true) then
        Err (decodeBodyError response operation (Errorf "Korbit response envelope is incomplete"))
      else if bool_decide (Data envelope = "" ∨ TrimSpace (Data envelope) = "null") then
        Err (decodeBodyError response operation (Errorf "Korbit response data is missing"))
      else
        match target (Data envelope) with
        | Err err => Err (decodeBodyError response operation err)
        | Ok a => Ok a
        end
  end.

(** [PlaceOrder] after its request; [OrderID] is the field of the acknowledgement. *)
Definition PlaceOrder (OrderID : A → Z) (response : Response) : result error A :=
  order ← decodeResponse response OperationMutation;
  if bool_decide (OrderID order ≤ 0) then
    Err (decodeBodyError response OperationMutation (Errorf "Korbit order response has no order ID"))
  else Ok order.
End client.
End Korbit.
