(* ===== verification/ClientAnswers.v ===== *)
(** * What the errors of the REST clients mean

    Theorems over all the clients of Clients: how their classifications fit
    together ([classes_are_coherent]), and what the error of an order that the
    exchange answered with success says ([accepted_answers_are_settled]), with
    the clients that say too little. *)

From S2P Require Import Prelude GoStrings Errors Executor ClientErrors Clients.

(** ** The clients *)

Inductive client : Type :=
  | binance | binance_usdm | bybit | okx | bitget | mexc | gateio | gateio_futures | kucoin | kucoin_futures
  | htx | kraken | kraken_futures | coinbase | cryptocom | upbit | bithumb | coinone | korbit.

#[export] Instance client_eq_dec : EqDecision client.
Proof. solve_decision. Defined.

(** What the clients read of an error answer besides its status: the code of the
    exchange, a number for the Binance clients, its message, and the method of a
    Crypto.com request. *)
Record answer : Type := MkAnswer {
  answer_number : Z;
  answer_code : string;
  answer_message : string;
  answer_method : string
}.

(** The [classifyError] of each client: the category, and whether to retry. *)
Definition classify (c : client) (status : Z) (a : answer) (operation : Z) : string * bool :=
  let code := answer_code a in
  let message := answer_message a in
  match c with
  | binance => Binance.classifyError status (answer_number a) message operation
  | binance_usdm => BinanceUsdm.classifyError status (answer_number a) message operation
  | bybit => Bybit.classifyError status code message operation
  | okx => OKX.classifyError status code operation
  | bitget => Bitget.classifyError status code operation
  | mexc => Mexc.classifyError status code operation
  | gateio | gateio_futures => GateIO.classifyError status code message operation
  | kucoin => KuCoin.classifySpot status code message operation
  | kucoin_futures => KuCoin.classifyFutures status code message operation
  | htx => Htx.classifyError status code message operation
  | kraken => Kraken.classifyError status message operation
  | kraken_futures => KrakenFutures.classifyError status code message operation
  | coinbase => Coinbase.classifyError status code message operation
  | cryptocom => CryptoCom.classifyPrivateError status (answer_method a) code operation
  | upbit => Upbit.classifyError status code operation
  | bithumb => Bithumb.classifyError status code operation
  | coinone => Coinone.classifyError status code operation
  | korbit => Korbit.classifyError status code operation
  end.

(** The answers by which an exchange says that it did not execute a request and
    that it may be tried again: on Binance USD-M the code -1008 and two messages,
    on Korbit the code TRY_AGAIN. *)
Definition refuses_to_execute (c : client) (a : answer) : Prop :=
  match c with
  | binance_usdm => answer_number a = -1008 ∨ answer_message a = "Service Unavailable." ∨
                    Contains (answer_message a) "Internal error; unable to process" = true
  | korbit => answer_code a = "TRY_AGAIN"
  | _ => False
  end.

(** Every branch of a classification [class] of [operation], as a property. *)
Definition fits (c : client) (a : answer) (operation : Z) (class : string * bool) : Prop :=
  coherent class ∧
  (operation = OperationMutation → class.1 = ErrorExchangeUnavailable → refuses_to_execute c a).

Lemma fits_unavailable c a operation : fits c a operation (unavailable operation).
Proof. unfold unavailable. by case_bool_decide. Qed.

Lemma fits_if c a operation (b : bool) (x y : string * bool) :
  (b = true → fits c a operation x) → fits c a operation y → fits c a operation (if b then x else y).
Proof. destruct b; auto. Qed.

Create HintDb client.
#[local] Hint Resolve fits_unavailable : client.

(** The branches one after another; a branch that may be retried after a mutation
    is a refusal by its guard. *)
Ltac branch :=
  let Hb := fresh in intros Hb;
  first [by auto with client
        |by split; [vm_compute | intros _ ?; vm_compute in *; discriminate]
        |split; [by vm_compute | intros _ _; go_bool; simpl; tauto]].
Ltac each_branch :=
  repeat (apply fits_if; [branch|]);
  first [by auto with client | by split; [vm_compute | intros _ ?; vm_compute in *; discriminate]].

Lemma classify_fits c status a operation : fits c a operation (classify c status a operation).
Proof.
  destruct c; unfold classify; cbv zeta;
    unfold Binance.classifyError, BinanceUsdm.classifyError, Bybit.classifyError, OKX.classifyError,
      Bitget.classifyError, Mexc.classifyError, GateIO.classifyError, KuCoin.classifySpot, KuCoin.classifyFutures,
      Htx.classifyError, Kraken.classifyError, KrakenFutures.classifyError, Coinbase.classifyError,
      CryptoCom.classifyPrivateError, Upbit.classifyError, Bithumb.classifyError, Coinone.classifyError,
      Korbit.classifyError; cbv zeta; each_branch.
Qed.

Lemma classify_throttled c a operation :
  c ≠ cryptocom → classify c StatusTooManyRequests a operation = (ErrorRateLimited, true).
Proof.
  intros Hc. destruct c; try done; unfold classify; cbv zeta;
    unfold Binance.classifyError, BinanceUsdm.classifyError, Bybit.classifyError, OKX.classifyError,
      Bitget.classifyError, Mexc.classifyError, GateIO.classifyError, KuCoin.classifySpot, KuCoin.classifyFutures,
      Htx.classifyError, Kraken.classifyError, KrakenFutures.classifyError, Coinbase.classifyError,
      Upbit.classifyError, Bithumb.classifyError, Coinone.classifyError, Korbit.classifyError; cbv zeta;
    by rewrite bool_decide_eq_true_2 by (done || by left).
Qed.

(** C33: the classifications of all the clients fit together.  Whatever status,
    code and message an exchange answers with, the error may be retried exactly
    when its category is a rate limit or an unavailable exchange; 429 is a rate
    limit (on Crypto.com a known code comes first); and the error of a mutation
    may only be retried after a rate limit, or when the exchange says that it did
    not execute it: on Binance USD-M with the code -1008 or one of the messages
    "Service Unavailable." and "Internal error; unable to process", on Korbit with
    the code TRY_AGAIN. *)
Theorem classes_are_coherent c status a operation :
  let class := classify c status a operation in
  class.2 = bool_decide (class.1 = ErrorRateLimited ∨ class.1 = ErrorExchangeUnavailable) ∧
  (status = StatusTooManyRequests → c ≠ cryptocom → class = (ErrorRateLimited, true)) ∧
  (operation = OperationMutation → class.2 = true →
     class.1 = ErrorRateLimited ∨ class.1 = ErrorExchangeUnavailable ∧ refuses_to_execute c a).
Proof.
  intros class. destruct (classify_fits c status a operation) as [Hcoh Hmut]. fold class in Hcoh, Hmut.
  split; [done|]. split.
  - intros -> Hc. by apply classify_throttled.
  - intros Hop Ht. rewrite Hcoh, bool_decide_eq_true in Ht. destruct Ht as [?|?]; [by left|right; eauto].
Qed.

(** ** Accepted mutations *)

(** A property of the statuses of success, decided by computation. *)
Definition all_success (f : Z → bool) : bool := forallb (λ n, f (200 + Z.of_nat n)) (seq 0 100).

Lemma all_success_spec f status : all_success f = true → success status = true → f status = true.
Proof.
  intros Hall [H1 H2]%success_bounds. unfold all_success in Hall. rewrite forallb_forall in Hall.
  rewrite <-(Hall (Z.to_nat (status - 200))); [f_equal; lia|]. apply in_seq. lia.
Qed.

(** A classification that is the same for all statuses of success. *)
Lemma success_class (f : Z → string * bool) class status :
  all_success (λ status, bool_decide (f status = class)) = true → success status = true → f status = class.
Proof. intros H Hs. apply (bool_decide_eq_true (f status = class)). exact (all_success_spec _ _ H Hs). Qed.

(** [PlaceOrder] of a client makes [err] of an answer.  What [json.Unmarshal] does
    with an empty body is part of the cases that look at the body again: it is an
    error and fills nothing. *)
Inductive order_error (response : Response) : client → error → Prop :=
  | err_binance {A} (target : string → result error A) accountID unmarshal err :
      Binance.NewOrder accountID unmarshal target response = Err err → order_error response binance err
  | err_usdm {A} (target : string → result error A) accountID unmarshal err :
      BinanceUsdm.decode accountID unmarshal target response OperationMutation = Err err →
      order_error response binance_usdm err
  | err_bybit {A} (target : string → result error A) accountID unmarshal err :
      Bybit.PlaceOrder accountID unmarshal target response = Err err → order_error response bybit err
  | err_okx target accountID unmarshal items err :
      OKX.PlaceOrder accountID unmarshal items target response = Err err → order_error response okx err
  | err_bitget {A} (target : string → result error A) accountID unmarshal err :
      Bitget.PlaceOrder accountID unmarshal target response = Err err → order_error response bitget err
  | err_mexc `{JSON} target accountID unmarshal clientOrderID err :
      Mexc.PlaceOrder accountID unmarshal target clientOrderID response = Err err → order_error response mexc err
  | err_gateio {A} (target : string → result error A) ID accountID unmarshal err :
      GateIO.PlaceOrder "Gate.io" accountID unmarshal target ID response = Err err → order_error response gateio err
  | err_gateio_futures {A} (target : string → result error A) ID accountID unmarshal err :
      GateIO.PlaceOrder "Gate.io Futures" accountID unmarshal target ID response = Err err →
      order_error response gateio_futures err
  | err_kucoin {A} (target : string → result error A) OrderID accountID unmarshal err :
      KuCoin.PlaceOrder "KuCoin" accountID KuCoin.classifySpot unmarshal target OrderID response = Err err →
      order_error response kucoin err
  | err_kucoin_futures {A} (target : string → result error A) OrderID accountID unmarshal err :
      KuCoin.PlaceOrder "KuCoin Futures" accountID KuCoin.classifyFutures unmarshal target OrderID response = Err err →
      order_error response kucoin_futures err
  | err_htx `{JSON} accountID unmarshal data err :
      Htx.PlaceOrder accountID unmarshal data response = Err err → order_error response htx err
  | err_kraken {A} (target : string → result error A) TransactionIDs accountID unmarshal ValidateOnly err :
      (TrimSpace (body_text response) = "" → Kraken.Errors (unmarshal (body_text response)).1 = []) →
      Kraken.PlaceOrder accountID unmarshal target TransactionIDs ValidateOnly response = Err err →
      order_error response kraken err
  | err_kraken_futures `{JSON} accountID unmarshal SendStatus target err :
      (TrimSpace (body_text response) = "" →
         unmarshal (body_text response) = (KrakenFutures.MkEnvelope "" "" "", Some (Errorf "unexpected end of JSON input"))) →
      KrakenFutures.PlaceOrder accountID unmarshal SendStatus target response = Err err →
      order_error response kraken_futures err
  | err_coinbase {A} order (target : string → result error A) OrderID accountID unmarshal err :
      Coinbase.PlaceOrder accountID unmarshal order target OrderID response = Err err → order_error response coinbase err
  | err_cryptocom `{JSON} {A} (target : string → result error A) OrderID ClientOrderID accountID unmarshal requestID id err :
      CryptoCom.PlaceOrder unmarshal accountID target OrderID ClientOrderID requestID id response = Err err →
      order_error response cryptocom err
  | err_upbit {A} (target : string → result error A) accountID unmarshal err :
      Upbit.decodeResponse accountID unmarshal target response OperationMutation = Err err →
      order_error response upbit err
  | err_bithumb {A} (target : string → result error A) accountID unmarshal err :
      Bithumb.decodeResponse accountID unmarshal target response OperationMutation = Err err →
      order_error response bithumb err
  | err_coinone {A} (target : string → result error A) OrderID accountID unmarshal err :
      Coinone.PlaceOrder accountID unmarshal target OrderID response = Err err → order_error response coinone err
  | err_korbit {A} (target : string → result error A) OrderID accountID unmarshal err :
      Korbit.PlaceOrder accountID unmarshal target OrderID response = Err err → order_error response korbit err.

Lemma bybit_no_class status message :
  success status = true → Bybit.classifyError status "" message OperationMutation = (ErrorInternal, false).
Proof.
  intros [H1 H2]%success_bounds. unfold Bybit.classifyError.
  replace (bool_decide (status = StatusForbidden)) with false
    by (symmetry; apply bool_decide_eq_false; unfold StatusForbidden; lia).
  repeat (rewrite bool_decide_eq_false_2
    by (rewrite ?elem_of_cons, ?elem_of_nil; unfold StatusTooManyRequests, StatusInternalServerError,
          StatusUnauthorized, StatusBadRequest; intuition (lia || discriminate))).
  done.
Qed.

(** The bodies that cannot be read. *)
Section unreadable.
Context (response : Response) (accountID : string) (cause : error).
Hypothesis Hs : success (StatusCode response) = true.

Ltac unknown := apply settled_unknown; rewrite (success_class _ (ErrorInternal, false)); by vm_compute.

Lemma usdm_unreadable unmarshal :
  settled "0" (BinanceUsdm.decodeError accountID unmarshal response OperationMutation (Some cause)).
Proof.
  unfold BinanceUsdm.decodeError. destruct (unmarshal _) as [[code message] err]. cbn [fst snd BinanceUsdm.Code BinanceUsdm.Message].
  destruct (decide (code = 0)) as [->|Hcode].
  - destruct (decide (message = "")) as [->|]; [|by apply settled_message]. apply settled_unknown.
    rewrite (success_class (λ status, BinanceUsdm.classifyError status 0 "" OperationMutation) (ErrorInternal, false));
      [done|by vm_compute|done].
  - apply settled_code. by intros H%Itoa_zero.
Qed.

Lemma bybit_unreadable : settled "" (Bybit.decodeBodyError accountID response OperationMutation cause).
Proof. apply settled_unknown. rewrite bybit_no_class by done. done. Qed.

Ltac unreadable classify :=
  apply settled_unknown; by rewrite (success_class (λ s, classify s OperationMutation) (ErrorInternal, false)).

Lemma okx_unreadable : settled "" (OKX.decodeBodyError accountID response OperationMutation cause).
Proof. unreadable (λ s, OKX.classifyError s ""). Qed.
Lemma mexc_unreadable : settled "" (Mexc.decodeBodyErrorForOperation accountID response OperationMutation cause).
Proof. unreadable (λ s, Mexc.classifyError s ""). Qed.
Lemma gateio_unreadable product :
  settled "" (GateIO.decodeBodyError product accountID response OperationMutation cause).
Proof. unreadable (λ s, GateIO.classifyError s "" ""). Qed.
Lemma kucoin_unreadable product :
  settled "" (KuCoin.decodeBodyError product accountID KuCoin.classifySpot response OperationMutation cause).
Proof. unreadable (λ s, KuCoin.classifySpot s "" ""). Qed.
Lemma kucoin_futures_unreadable product :
  settled "" (KuCoin.decodeBodyError product accountID KuCoin.classifyFutures response OperationMutation cause).
Proof. unreadable (λ s, KuCoin.classifyFutures s "" ""). Qed.
Lemma kraken_unreadable : settled "" (Kraken.decodeBodyError accountID response OperationMutation cause).
Proof. by apply settled_unknown. Qed.
Lemma kraken_futures_unreadable : settled "" (KrakenFutures.decodeBodyError accountID response OperationMutation cause).
Proof. by apply settled_unknown. Qed.
Lemma cryptocom_unreadable id :
  settled "" (CryptoCom.decodePrivateBodyError accountID response OperationMutation id cause).
Proof. by apply settled_unknown. Qed.
Lemma upbit_unreadable : settled "" (Upbit.decodeBodyError accountID response OperationMutation cause).
Proof. unreadable (λ s, Upbit.classifyError s ""). Qed.
Lemma bithumb_unreadable : settled "" (Bithumb.decodeBodyError accountID response OperationMutation cause).
Proof. unreadable (λ s, Bithumb.classifyError s ""). Qed.
Lemma coinone_unreadable : settled "" (Coinone.decodeBodyError accountID response OperationMutation cause).
Proof. unreadable (λ s, Coinone.classifyError s ""). Qed.
End unreadable.

Create HintDb settled.
#[export] Hint Resolve usdm_unreadable bybit_unreadable okx_unreadable mexc_unreadable gateio_unreadable
  kucoin_unreadable kucoin_futures_unreadable kraken_unreadable kraken_futures_unreadable cryptocom_unreadable
  upbit_unreadable bithumb_unreadable coinone_unreadable : settled.

(** The clients that tell an accepted mutation from a refused one. *)
Definition tells_apart (c : client) : Prop := c ∉ [binance; bitget; htx; coinbase; korbit].

Section accepted.
Context (response : Response).
Hypothesis Hs : success (StatusCode response) = true.

(** The branches of an answer with success, each with its error. *)
Ltac branches :=
  rewrite ?Hs in *; cbn [negb orb andb] in *;
  repeat (case_match; simplify_eq; rewrite ?Hs in *; cbn [negb orb andb] in *; try done); go_bool; destruct_and?;
  auto with settled.

Lemma bybit_settled {A} (target : string → result error A) accountID unmarshal err :
  Bybit.PlaceOrder accountID unmarshal target response = Err err → settled "" err.
Proof.
  unfold Bybit.PlaceOrder. intros [H|(r & _ & H)]%result_bind_Err.
  - unfold Bybit.responseResult in H. branches. unfold Bybit.decodeError. apply settled_code.
    rewrite bool_decide_eq_false_2; [apply Itoa_nonempty|]. by intros H%Itoa_zero.
  - unfold Bybit.decodeOrderReference in H. branches.
Qed.

Lemma okx_settled target accountID unmarshal items err :
  OKX.PlaceOrder accountID unmarshal items target response = Err err → settled "" err.
Proof.
  unfold OKX.PlaceOrder. intros [H|(r & _ & H)]%result_bind_Err.
  - unfold OKX.responseData in H. branches. by apply settled_code.
  - unfold OKX.decodeOrderReference in H. branches. by apply settled_code.
Qed.

Lemma mexc_settled `{JSON} target accountID unmarshal clientOrderID err :
  Mexc.PlaceOrder accountID unmarshal target clientOrderID response = Err err → settled "" err.
Proof.
  unfold Mexc.PlaceOrder. intros [H0|(r & _ & H0)]%result_bind_Err.
  - unfold Mexc.decodeResponseForOperation in H0. branches; by apply settled_code.
  - branches.
Qed.

Lemma gateio_settled product {A} (target : string → result error A) ID accountID unmarshal err :
  GateIO.PlaceOrder product accountID unmarshal target ID response = Err err → settled "" err.
Proof.
  unfold GateIO.PlaceOrder. intros [H|(r & _ & H)]%result_bind_Err; [unfold GateIO.decodeData in H|]; branches.
Qed.

(** KuCoin, for either classification. *)
Lemma kucoin_settled classify product {A} (target : string → result error A) OrderID accountID unmarshal err :
  (∀ cause, settled "" (KuCoin.decodeBodyError product accountID classify response OperationMutation cause)) →
  KuCoin.PlaceOrder product accountID classify unmarshal target OrderID response = Err err → settled "" err.
Proof.
  intros Hbody. unfold KuCoin.PlaceOrder. intros [H|(r & _ & H)]%result_bind_Err; [|branches].
  unfold KuCoin.decodeData in H. apply result_bind_Err in H as [H|(d & _ & H)]; [|branches].
  unfold KuCoin.responseData in H. branches; apply settled_code; naive_solver.
Qed.

Lemma firstNonEmpty_none values : firstNonEmpty values = "" → Forall (λ v, v = "") values.
Proof.
  induction values as [|v values IH]; [constructor|]. simpl. case_bool_decide as Hv; [done|].
  intros H. constructor; [by destruct (decide (v = ""))|auto].
Qed.

Lemma usdm_settled {A} (target : string → result error A) accountID unmarshal err :
  BinanceUsdm.decode accountID unmarshal target response OperationMutation = Err err → settled "0" err.
Proof. unfold BinanceUsdm.decode. intros H. branches. Qed.

Lemma kraken_settled {A} (target : string → result error A) TransactionIDs accountID unmarshal ValidateOnly err :
  (TrimSpace (body_text response) = "" → Kraken.Errors (unmarshal (body_text response)).1 = []) →
  Kraken.PlaceOrder accountID unmarshal target TransactionIDs ValidateOnly response = Err err → settled "" err.
Proof.
  intros Hblank. unfold Kraken.PlaceOrder. intros [H|(r & _ & H)]%result_bind_Err; [|branches].
  unfold Kraken.decodeResult in H. destruct (unmarshal _) as [envelope decodeErr]. branches.
  apply settled_message. case_bool_decide; [|done]. intros Hb. by apply Hblank in Hb.
Qed.

Lemma kraken_futures_says accountID code message operation cause :
  TrimSpace (body_text response) ≠ "" →
  settled "" (KrakenFutures.decodeError accountID response code message operation cause).
Proof. intros Hb. unfold KrakenFutures.decodeError. apply settled_message. by case_bool_decide. Qed.

Lemma kraken_futures_settled `{JSON} accountID unmarshal SendStatus target err :
  (TrimSpace (body_text response) = "" →
     unmarshal (body_text response) = (KrakenFutures.MkEnvelope "" "" "", Some (Errorf "unexpected end of JSON input"))) →
  KrakenFutures.PlaceOrder accountID unmarshal SendStatus target response = Err err → settled "" err.
Proof.
  intros Hblank. unfold KrakenFutures.PlaceOrder.
  destruct (decide (TrimSpace (body_text response) = "")) as [Hb|Hb].
  - unfold KrakenFutures.decodeSuccess. rewrite (Hblank Hb), Hs. cbn. intros [= <-]. auto with settled.
  - intros [Hd|(r & Hr & Hd)]%result_bind_Err; [unfold KrakenFutures.decodeSuccess in Hd|];
      branches; by apply kraken_futures_says.
Qed.

Lemma cryptocom_settled `{JSON} {A} (target : string → result error A) OrderID ClientOrderID accountID unmarshal requestID id err :
  CryptoCom.PlaceOrder unmarshal accountID target OrderID ClientOrderID requestID id response = Err err → settled "" err.
Proof.
  unfold CryptoCom.PlaceOrder. intros [Hd|(r & Hr & Hd)]%result_bind_Err; [|branches].
  unfold CryptoCom.decodePrivateResult in Hd. branches; apply settled_code; naive_solver.
Qed.

Lemma upbit_settled {A} (target : string → result error A) accountID unmarshal err :
  Upbit.decodeResponse accountID unmarshal target response OperationMutation = Err err → settled "" err.
Proof. unfold Upbit.decodeResponse. intros H. branches. Qed.

Lemma bithumb_settled {A} (target : string → result error A) accountID unmarshal err :
  Bithumb.decodeResponse accountID unmarshal target response OperationMutation = Err err → settled "" err.
Proof. unfold Bithumb.decodeResponse. intros H. branches. Qed.

Lemma coinone_settled {A} (target : string → result error A) OrderID accountID unmarshal err :
  Coinone.PlaceOrder accountID unmarshal target OrderID response = Err err → settled "" err.
Proof.
  unfold Coinone.PlaceOrder. intros [H|(r & _ & H)]%result_bind_Err; [unfold Coinone.decodeResponse in H|]; branches;
    apply settled_code; naive_solver.
Qed.
End accepted.

(** What stands for no code in the errors of a client. *)
Definition no_code (c : client) : string := if bool_decide (c = binance_usdm) then "0" else "".

Lemma accepted_settled c response err :
  success (StatusCode response) = true → order_error response c err → tells_apart c → settled (no_code c) err.
Proof.
  intros Hs H. unfold tells_apart. destruct H; cbn; intros Hc; try (exfalso; apply Hc; set_solver).
  - by eapply usdm_settled.
  - by eapply bybit_settled.
  - by eapply okx_settled.
  - by eapply mexc_settled.
  - by eapply gateio_settled.
  - by eapply gateio_settled.
  - eapply kucoin_settled; [done|intros; by apply kucoin_unreadable|done].
  - eapply kucoin_settled; [done|intros; by apply kucoin_futures_unreadable|done].
  - by eapply kraken_settled.
  - by eapply kraken_futures_settled.
  - by eapply cryptocom_settled.
  - by eapply upbit_settled.
  - by eapply bithumb_settled.
  - by eapply coinone_settled.
Qed.

(** C29: no accepted order is denied.  When an exchange answers the placement of
    an order with success and the client still reports an error, the error says
    that the execution is unknown and must not be retried, or it carries the code
    or the message with which the exchange refused the order: for every client
    but five, whose gaps are below, and whatever the body of the answer is, valid
    or not. *)
Theorem accepted_answers_are_settled c response err :
  success (StatusCode response) = true → order_error response c err → tells_apart c → settled (no_code c) err.
Proof. apply accepted_settled. Qed.

(** ** The gaps *)

(** The error of a mutation denies that it was executed, without a reason. *)
Definition denied (err : error) : Prop :=
  ∃ a, err = API a ∧ Category a = ErrorInternal ∧ ExchangeCode a = "" ∧ ExchangeMessage a = "".

Definition empty_object : Response := MkResponse 200 ∅ (String.list_ascii_of_string "{}").

(** A body without the fields of an envelope leaves them empty. *)
Definition nothing {E} (e : E) : string → E * option error := λ _, (e, None).

(** Four clients deny orders without a reason.  When Bitget, HTX, Coinbase or
    Korbit answers the placement of an order with success but neither confirms
    nor explains, the client reports an internal error with no code and no
    message instead of an unknown execution. *)
Theorem silent_answers_are_denied c :
  c ∈ [bitget; htx; coinbase; korbit] →
  ∃ response err, success (StatusCode response) = true ∧ order_error response c err ∧ denied err.
Proof.
  intros Hc. exists empty_object. repeat (apply elem_of_cons in Hc as [->|Hc]); [..|by apply elem_of_nil in Hc].
  - eexists. split; [done|]. split; [by apply (err_bitget _ (λ _, Ok ()) "" (nothing (Bitget.MkEnvelope "" "" 0 "")))|].
    by eexists.
  - set (J := {| Valid _ := true; UnmarshalString _ := None; UnmarshalStrings _ := None |}).
    eexists. split; [done|]. split; [by apply (err_htx _ "" (nothing (Htx.MkEnvelope "error" "" "" "" "")) Ok)|].
    by eexists.
  - eexists. split; [done|]. split.
    + by apply (err_coinbase _ (λ _, Ok (Coinbase.MkOrderEnvelope false "" "" "" "" "" "")) (λ _, Ok "") id ""
        (nothing (Coinbase.MkEnvelope "" "" None "" "" ""))).
    + by eexists.
  - eexists. split; [done|]. split; [by apply (err_korbit _ (λ _, Ok 0) id "" (nothing (Korbit.MkEnvelope (Some false) "" "")))|].
    by eexists.
Qed.

(** An order that Binance Spot answered with success and a body that is not the
    expected JSON is reported as an error outside the SDK's categories: no
    [APIError], and not the unknown execution that [NewOrder] promises. *)
Lemma binance_unreadable_order {A} accountID unmarshal (target : string → result error A) response cause :
  success (StatusCode response) = true → target (body_text response) = Err (Errorf cause) →
  ∃ err, Binance.NewOrder accountID unmarshal target response = Err err ∧ order_error response binance err ∧
    err = Wrapf "decode Binance JSON response: %w" (Errorf cause).
Proof.
  intros Hs Ht. assert (Binance.NewOrder accountID unmarshal target response =
    Err (Wrapf "decode Binance JSON response: %w" (Errorf cause))) as E.
  { unfold Binance.NewOrder, Binance.ensureSuccess, Binance.decodeJSON. by rewrite Hs, Ht. }
  eexists. split; [done|]. split; [by eapply err_binance|done].
Qed.

(** ** Concrete answers *)

Section examples.
Definition demo_answer (status : Z) (body : string) : Response :=
  MkResponse status ∅ (String.list_ascii_of_string body).

(** A server failure of a USD-M order is not to be retried. *)
Lemma classes_are_coherent_witness :
  classify bybit 429 (MkAnswer 0 "" "" "") OperationMutation = (ErrorRateLimited, true) ∧
  (classify binance_usdm 503 (MkAnswer 0 "" "Unknown error, please check your request." "") OperationMutation).2 = false.
Proof.
  split.
  - apply (classes_are_coherent bybit 429 (MkAnswer 0 "" "" "") OperationMutation); [reflexivity|discriminate].
  - destruct (classes_are_coherent binance_usdm 503 (MkAnswer 0 "" "Unknown error, please check your request." "")
      OperationMutation) as (_ & _ & Hmut).
    apply not_true_is_false. intros H. destruct (Hmut eq_refl H) as [E|[_ [E|[E|E]]]]; vm_compute in E; discriminate.
Defined.

(** Bybit confirms an order in a body that breaks off. *)
Definition demo_bybit_error : error :=
  API (MkAPIError ErrorUnknownExecutionState "bybit" "main" "" false 200 "" ""
    (Some (Wrapf "decode Bybit JSON response: %w" (Errorf "unexpected EOF")))).

Lemma accepted_answers_are_settled_witness : settled "" demo_bybit_error.
Proof.
  apply (accepted_answers_are_settled bybit (demo_answer 200 "{") demo_bybit_error); [reflexivity| |].
  - apply (err_bybit _ (λ _, Ok ()) "main" (λ _, (Bybit.MkEnvelope 0 "" "" 0, Some (Errorf "unexpected EOF")))).
    vm_compute. reflexivity.
  - apply (bool_decide_unpack (bybit ∉ _)). vm_compute. exact I.
Defined.

Lemma silent_answers_are_denied_witness :
  ∃ response err, success (StatusCode response) = true ∧ order_error response bitget err ∧ denied err.
Proof. apply (silent_answers_are_denied bitget). left. Defined.
End examples.
