(* ===== verification/TradeSafety.v ===== *)
(** * Orders from end to end

    The trade runner (Smoke), the pipeline that sends its order (Executor) and
    the client that reads the answer (ClientAnswers), put together: the unified
    adapters hand the errors of their clients on as they are.  The errors that some
    adapters make themselves of an answer that does not fit the order, after the
    client accepted it (SpotExchanges), are not among them. *)

From S2P Require Import Prelude GoStrings Errors RateLimit Unified Executor ClientErrors Clients ClientAnswers Smoke.

(** The error of an order that was sent: the pipeline's, or the client's on an
    answer of success. *)
Inductive sent_order_error (c : client) (e : error) : Prop :=
  | not_delivered parseTime executor ctx execution envs b b' events response :
      exec_Operation execution = OperationMutation →
      Execute parseTime executor ctx execution envs b = (b', events, Returned (response, Some e)) →
      sends events ≠ 0%nat → sent_order_error c e
  | not_understood parseTime executor ctx execution envs b b' events response :
      exec_Operation execution = OperationMutation →
      Execute parseTime executor ctx execution envs b = (b', events, Returned (response, None)) →
      success (StatusCode response) = true → order_error response c e → sent_order_error c e.

(** A reason not to expect the order: the exchange gave one, or no request left. *)
Definition explained (c : client) (e : error) : Prop :=
  exchange_says (no_code c) e ∨ ∃ a, e = API a ∧ Category a = ErrorValidation.

Section orders.
Context (env : environment) (runner : SpotTradeRunner).

Lemma unknown_execution_may_exist e :
  (place_answer env runner).2 = Some e → As evidenceReason e = None → unknown_execution e →
  order_may_exist env runner = true.
Proof.
  intros Hp He (a & -> & Hc & _). unfold order_may_exist. rewrite Hp. apply bool_decide_eq_true.
  unfold classifyFailure. rewrite He. exact Hc.
Qed.


(** C39: an order that Binance accepted can stay open.  When Binance Spot answers
    the order of a trade run with success and a body that [NewOrder] cannot
    read, the run takes the order for not created: it reports a failure, and no
    call of it asks for the order again or cancels it. *)
Theorem unreadable_binance_order_is_left_open {A} accountID unmarshal (target : string → result error A) response cause
    order e ctx report err calls :
  Run env runner ctx [] = ((report, err), calls) → placeCall runner ∈ calls →
  success (StatusCode response) = true → target (body_text response) = Err (Errorf cause) →
  Binance.NewOrder accountID unmarshal target response = Err e → place_answer env runner = (order, Some e) →
  calls = after_place runner ∧ err ≠ None ∧ ∀ request, CancelOrderCall request ∉ call_request <$> calls.
Proof.
  intros Hrun Hplace Hs Ht Hnew Hans.
  destruct (binance_unreadable_order accountID unmarshal target response cause Hs Ht) as (e' & He' & _ & He'').
  rewrite Hnew in He'. injection He' as <-. subst e.
  pose proof (Run_shape env runner ctx) as Hshape. rewrite Hrun in Hshape.
  assert (order_may_exist env runner = false) as Hm by (unfold order_may_exist; by rewrite Hans).
  destruct (run_placed env runner _ _ Hshape Hplace) as [(_ & -> & Hn)|(? & _)]; [|congruence].
  split; [done|]. split; [done|]. intros request Hr. cbn in Hr.
  repeat (apply elem_of_cons in Hr as [Hr|Hr]; [discriminate Hr|]). by apply elem_of_nil in Hr.
Qed.
End orders.

(** ** Concrete orders *)

Section examples.
(** The connection breaks while the order is under way. *)
Definition demo_reset : error := transportError (demo_execution 1) (Errorf "connection reset").
Definition demo_broken : environment := demo_environment (demo_order OrderStatusNew "0", Some demo_reset).


(** Binance accepts the order in a body that breaks off. *)
Definition demo_unread : error := Wrapf "decode Binance JSON response: %w" (Errorf "unexpected end of JSON input").
Definition demo_unread_environment : environment := demo_environment (demo_order "" "", Some demo_unread).

Lemma unreadable_binance_order_is_left_open_witness :
  let run := Run demo_unread_environment demo_runner true [] in
  run.2 = after_place demo_runner ∧ run.1.2 ≠ None.
Proof.
  cbv zeta. destruct (unreadable_binance_order_is_left_open demo_unread_environment demo_runner "main"
    (nothing (Binance.MkPayload 0 "")) (λ _, Err (A:=unit) (Errorf "unexpected end of JSON input")) (demo_answer 200 "{")
    "unexpected end of JSON input" (demo_order "" "") demo_unread true
    (Run demo_unread_environment demo_runner true []).1.1 (Run demo_unread_environment demo_runner true []).1.2
    (Run demo_unread_environment demo_runner true []).2) as (H1 & H2 & _).
  - vm_compute. reflexivity.
  - vm_compute. by right; right; left.
  - vm_compute. reflexivity.
  - reflexivity.
  - vm_compute. reflexivity.
  - vm_compute. reflexivity.
  - split; [exact H1|exact H2].
Defined.
End examples.
