(* ===== verification/StreamCommands.v ===== *)
(** * Streams that confirm their commands

    A managed stream of Gate.io, Gate.io Futures, HTX and Crypto.com keeps the
    set of its subscriptions and the commands whose answer it waits for.
    Subscribing and unsubscribing records a command before it writes it, and a
    refusal undoes what the command recorded; a new connection subscribes
    again to everything recorded.  [CommandStream] is what these streams differ in.

    [step] interleaves one stream, its goroutines and the exchange it is
    connected to: the critical sections of [change], [resubscribe] and
    [handleControl], the commands on their way and the answers on their way
    back.  The second half proves that the recorded subscriptions are those
    that the exchange has, whenever nothing is on its way. *)

From S2P Require Import Prelude GoStrings Errors.

Inductive Operation : Type := Subscribe | Unsubscribe.
#[export] Instance Operation_eq_dec : EqDecision Operation.
Proof. solve_decision. Defined.

(** [pendingStreamCommand]. *)
Record pendingStreamCommand (Subscription : Type) : Type := MkPendingStreamCommand {
  operation : Operation;
  subscription : Subscription
}.
Arguments MkPendingStreamCommand {_} _ _.
Arguments operation {_} _.
Arguments subscription {_} _.

(** The state of [managedStream] that [stateMu] protects. *)
Record managedStream (Subscription : Type) : Type := MkManagedStream {
  subscriptions : gmap string Subscription;
  pending : gmap string (pendingStreamCommand Subscription)
}.
Arguments MkManagedStream {_} _ _.
Arguments subscriptions {_} _.
Arguments pending {_} _.

(** What an exchange streams under a subscription, as its commands name it. *)
Abbreviation Topic := (list string).

(** A command as the exchange reads it. *)
Record command : Type := MkCommand {
  command_id : string;
  command_operation : Operation;
  command_topic : Topic
}.

(** [streamSubscriptionKey]. *)
Class SubscriptionKey (Subscription : Type) : Type := streamSubscriptionKey : Subscription → string.

Section ledger.
Context {Subscription : Type} `{K : !SubscriptionKey Subscription}.

Implicit Types (m : managedStream Subscription) (s : Subscription) (op : Operation).

(** The change of the recorded set that a command makes. *)
Definition apply_operation op s (subscriptions : gmap string Subscription) : gmap string Subscription :=
  match op with
  | Subscribe => <[streamSubscriptionKey s := s]> subscriptions
  | Unsubscribe => delete (streamSubscriptionKey s) subscriptions
  end.

(** [newManagedStream]. *)
Definition newManagedStream (subscriptions : list Subscription) : managedStream Subscription :=
  MkManagedStream (foldl (λ recorded s, <[streamSubscriptionKey s := s]> recorded) ∅ subscriptions) ∅.

(** [change] between its encoding and its write. *)
Definition record_command m (id : string) op s : managedStream Subscription :=
  MkManagedStream (apply_operation op s (subscriptions m))
    (<[id := MkPendingStreamCommand op s]> (pending m)).

(** [rollbackCommandLocked]. *)
Definition rollbackCommandLocked m (p : pendingStreamCommand Subscription) : managedStream Subscription :=
  let key := streamSubscriptionKey (subscription p) in
  MkManagedStream
    (match operation p with
     | Subscribe => delete key (subscriptions m)
     | Unsubscribe => <[key := subscription p]> (subscriptions m)
     end) (pending m).

(** [rollbackCommand]. *)
Definition rollbackCommand m (id : string) : managedStream Subscription :=
  match pending m !! id with
  | None => m
  | Some p => rollbackCommandLocked (MkManagedStream (subscriptions m) (delete id (pending m))) p
  end.

(** The end of [handleControl]: the answer to command [id]. *)
Definition settle m (id : string) (failed : bool) : managedStream Subscription :=
  match pending m !! id with
  | None => m
  | Some p =>
      let m := MkManagedStream (subscriptions m) (delete id (pending m)) in
      if failed then rollbackCommandLocked m p else m
  end.

(** [snapshotSubscriptions]. *)
Definition snapshotSubscriptions m : list Subscription :=
  omap (λ key, subscriptions m !! key) (merge_sort string_le (elements (dom (subscriptions m)))).

End ledger.

Class CommandStream (Subscription Environment Payload Message : Type) : Type := {
  stream_key :: SubscriptionKey Subscription;
  maximumStreamSubscriptions : Z;
  (** What the clock and the credential provider answer is the environment; the
      last argument is the counter of the client, and the new counter comes first. *)
  encodeStreamCommand : Environment → Operation → Subscription → Z → Z * result error (Payload * string);
  (** What the exchange reads in a payload, and what its answer decodes to. *)
  read : Payload → command;
  answer : command → bool → Message;
  handleControl : managedStream Subscription → Message → managedStream Subscription;
  limit_error : error
}.

Section stream.
Context {Subscription Environment Payload Message : Type}
  `{C : !CommandStream Subscription Environment Payload Message}.

Implicit Types (m : managedStream Subscription) (s : Subscription) (op : Operation).

(** ** The stream, its goroutines and its exchange *)

(** Where the goroutine that holds [commandMu] is. *)
Inductive location : Type :=
  | Idle
  | Changing (op : Operation) (todo : list Subscription)
  | Encoding (op : Operation) (s : Subscription) (todo : list Subscription)
  | Writing (op : Operation) (id : string) (payload : Payload) (todo : list Subscription)
  | Resubscribing (todo : list Subscription).

(** [nextID] is the counter of the client, which other streams of the client
    move too; [consuming] tells that [Run] reads the messages of the connection,
    that is, that its [resubscribe] has returned.  [held], [received] and
    [answers] are the exchange's end of the connection: the topics it streams,
    the commands it has not looked at and the answers not read yet. *)
Record world : Type := MkWorld {
  managed : managedStream Subscription;
  nextID : Z;
  pc : location;
  returned : list (option error);
  connected : bool;
  consuming : bool;
  held : gset Topic;
  received : list command;
  answers : list (command * bool)
}.

#[export] Instance world_settable : Settable world := λ w,
  MkWorld (managed w) (nextID w) (pc w) (returned w) (connected w) (consuming w) (held w)
    (received w) (answers w).

Inductive input : Type :=
  | InChange (op : Operation) (subscriptions : list Subscription)
  | InCheck
  | InEncode (environment : Environment)
  | InWrite (err : option error)
  | InResubscribe
  | InResubscribeNext (environment : Environment) (err : option error)
  | InHandle (accept : bool)
  | InAnswer
  | InOther (commands : nat)
  | InConnect
  | InDisconnect.

(** What has reached the exchange. *)
Definition deliver (w : world) (payload : Payload) : world :=
  if connected w then w <| received := received w ++ [read payload] |> else w.

Definition return_ (w : world) (err : option error) : world :=
  w <| pc := Idle |> <| returned := returned w ++ [err] |>.

(** The hook of a connection fails, and the session drops the connection. *)
Definition fail_connection (w : world) : world :=
  w <| pc := Idle |> <| connected := false |> <| consuming := false |>.

(** The first half of the loop body of [change]. *)
Definition check (w : world) op s (todo : list Subscription) : world :=
  let exists_ := bool_decide (is_Some (subscriptions (managed w) !! streamSubscriptionKey s)) in
  let count := Z.of_nat (size (subscriptions (managed w))) in
  if bool_decide (op = Subscribe) && exists_ || bool_decide (op = Unsubscribe) && negb exists_
  then w <| pc := Changing op todo |>
  else if bool_decide (op = Subscribe) && bool_decide (maximumStreamSubscriptions ≤ count)
  then return_ w (Some limit_error)
  else w <| pc := Encoding op s todo |>.

(** Its second half, up to the write. *)
Definition encode (w : world) (environment : Environment) op s (todo : list Subscription) : world :=
  let '(counter, encoded) := encodeStreamCommand environment op s (nextID w) in
  let w := w <| nextID := counter |> in
  match encoded with
  | Err err => return_ w (Some err)
  | Ok (payload, id) =>
      w <| managed := record_command (managed w) id op s |> <| pc := Writing op id payload todo |>
  end.

(** Its end, with what [Session.Write] returns.  A failed write has sent
    nothing, or its connection is lost. *)
Definition write (w : world) op (id : string) (payload : Payload) (todo : list Subscription)
    (err : option error) : world :=
  match err with
  | Some err => return_ (w <| managed := rollbackCommand (managed w) id |>) (Some err)
  | None => (deliver w payload) <| pc := Changing op todo |>
  end.

(** The loop body of [resubscribe]. *)
Definition resubscribeNext (w : world) (environment : Environment) (err : option error) s
    (todo : list Subscription) : world :=
  let '(counter, encoded) := encodeStreamCommand environment Subscribe s (nextID w) in
  let w := w <| nextID := counter |> in
  match encoded, err with
  | Err _, _ | _, Some _ => fail_connection w
  | Ok (payload, id), None =>
      (deliver w payload)
        <| managed := MkManagedStream (subscriptions (managed w))
             (<[id := MkPendingStreamCommand Subscribe s]> (pending (managed w))) |>
        <| pc := Resubscribing todo |>
  end.

(** The exchange may refuse a command, except one that asks for what it does
    already. *)
Definition in_effect (held : gset Topic) (c : command) : bool :=
  match command_operation c with
  | Subscribe => bool_decide (command_topic c ∈ held)
  | Unsubscribe => bool_decide (command_topic c ∉ held)
  end.

Definition obey (held : gset Topic) (c : command) : gset Topic :=
  match command_operation c with
  | Subscribe => {[command_topic c]} ∪ held
  | Unsubscribe => held ∖ {[command_topic c]}
  end.

(** This is an assumption about the exchange, not a documented promise: the
    interleavings are those of an exchange for which doing again what it does
    already is no failure. *)
Definition handle (w : world) (accept : bool) : world :=
  match received w with
  | [] => w
  | c :: rest =>
      let accept := accept || in_effect (held w) c in
      w <| held := if accept then obey (held w) c else held w |>
        <| received := rest |> <| answers := answers w ++ [(c, accept)] |>
  end.

Definition step (w : world) (i : input) : world :=
  match i, pc w with
  | InChange op subscriptions, Idle => w <| pc := Changing op subscriptions |>
  | InCheck, Changing op [] => return_ w None
  | InCheck, Changing op (s :: todo) => check w op s todo
  | InEncode environment, Encoding op s todo => encode w environment op s todo
  | InWrite err, Writing op id payload todo => write w op id payload todo err
  | InResubscribe, Idle =>
      if connected w && negb (consuming w)
      then w <| managed := MkManagedStream (subscriptions (managed w)) ∅ |>
             <| pc := Resubscribing (snapshotSubscriptions (managed w)) |>
      else w
  | InResubscribeNext environment err, Resubscribing (s :: todo) =>
      resubscribeNext w environment err s todo
  | InResubscribeNext environment err, Resubscribing [] =>
      w <| pc := Idle |> <| consuming := connected w |>
  | InHandle accept, _ => handle w accept
  | InAnswer, (Idle | Changing _ _ | Encoding _ _ _ | Writing _ _ _ _) =>
      match consuming w, answers w with
      | true, (c, accepted) :: rest =>
          w <| managed := handleControl (managed w) (answer c accepted) |> <| answers := rest |>
      | _, _ => w
      end
  | InOther commands, _ => w <| nextID := nextID w + Z.of_nat commands |>
  | InConnect, (Idle | Changing _ _ | Encoding _ _ _ | Writing _ _ _ _) =>
      if connected w then w
      else w <| connected := true |> <| consuming := false |> <| held := ∅ |>
             <| received := [] |> <| answers := [] |>
  | InDisconnect, _ => w <| connected := false |> <| consuming := false |>
  | _, _ => w
  end.

Definition initial (m : managedStream Subscription) (counter : Z) : world :=
  MkWorld m counter Idle [] false false ∅ [] [].

Definition run (w : world) (inputs : list input) : world := foldl step w inputs.

End stream.

(** ** What the theorems ask of a stream *)

Class CommandStreamLaws (Subscription Environment Payload Message : Type)
    `{C : !CommandStream Subscription Environment Payload Message} : Type := {
  valid_subscription : Subscription → Prop;
  streamTopic : Subscription → Topic;
  (** The key of a subscription identifies its topic. *)
  topic_key s s' : valid_subscription s → valid_subscription s' →
    streamTopic s = streamTopic s' ↔ streamSubscriptionKey s = streamSubscriptionKey s';
  commandID : Z → string;
  commandID_inj :: Inj (=) (=) commandID;
  encode_counter environment op s counter : counter ≤ (encodeStreamCommand environment op s counter).1;
  encode_Ok environment op s counter counter' payload id :
    valid_subscription s →
    encodeStreamCommand environment op s counter = (counter', Ok (payload, id)) →
    ∃ n, counter < n ≤ counter' ∧ id = commandID n ∧ read payload = MkCommand id op (streamTopic s);
  handle_answer m c accepted :
    (∃ n, command_id c = commandID n) →
    (∀ p, pending m !! command_id c = Some p → operation p = command_operation c) →
    handleControl m (answer c accepted) = settle m (command_id c) (negb accepted)
}.

Section laws.
Context {Subscription Environment Payload Message : Type}
  `{C : !CommandStream Subscription Environment Payload Message}
  `{L : !CommandStreamLaws Subscription Environment Payload Message}.

Implicit Types (m : managedStream Subscription) (s : Subscription) (op : Operation) (t : Topic)
  (c : command) (w : world (Subscription := Subscription) (Payload := Payload)).

Abbreviation subscription_map := (gmap string Subscription).
Abbreviation state := (world (Subscription := Subscription) (Payload := Payload)).
Abbreviation event := (input (Subscription := Subscription) (Environment := Environment)).

(** The topics that a recorded set stands for. *)
Definition recorded (subscriptions : subscription_map) t : Prop :=
  ∃ s, subscriptions !! streamSubscriptionKey s = Some s ∧ streamTopic s = t.

Definition well_keyed (subscriptions : subscription_map) : Prop :=
  map_Forall (λ key s, key = streamSubscriptionKey s ∧ valid_subscription s) subscriptions.

(** The topic has a command whose answer is awaited. *)
Definition pending_on m t (id : string) (op : Operation) : Prop :=
  ∃ s, pending m !! id = Some (MkPendingStreamCommand op s) ∧ streamTopic s = t.

(** ** The schedules of the theorems

    The subscriptions given to the stream are valid, and no subscription is
    changed while an answer about it is awaited. *)
Definition careful w (i : event) : Prop :=
  match i, pc w with
  | InChange op subscriptions, Idle => Forall valid_subscription subscriptions
  | InCheck, Changing op (s :: todo) => ∀ id op', ¬ pending_on (managed w) (streamTopic s) id op'
  | _, _ => True
  end.

Inductive reachable : state → Prop :=
  | reachable_initial subscriptions counter :
      Forall valid_subscription subscriptions →
      reachable (initial (newManagedStream subscriptions) counter)
  | reachable_step w i : reachable w → careful w i → reachable (step w i).

(** ** The recorded set *)

Lemma well_keyed_apply op s (subs : subscription_map) :
  valid_subscription s → well_keyed subs → well_keyed (apply_operation op s subs).
Proof.
  intros Hs Hsubs. destruct op; simpl.
  - by apply map_Forall_insert_2.
  - by apply map_Forall_delete.
Qed.

Lemma recorded_apply op s (subs : subscription_map) t :
  valid_subscription s → well_keyed subs →
  recorded (apply_operation op s subs) t ↔
    t = streamTopic s ∧ op = Subscribe ∨ t ≠ streamTopic s ∧ recorded subs t.
Proof.
  intros Hs Hsubs. unfold recorded. split.
  - intros (s' & Hs' & <-). destruct op; simpl in Hs'.
    + apply lookup_insert_Some in Hs' as [[Hk ->]|[Hk Hs']]; [by left|right].
      split; [|by eauto]. rewrite topic_key; [done|by apply Hsubs in Hs' as [_ ?]|done].
    + apply lookup_delete_Some in Hs' as [Hk Hs']. right.
      split; [|by eauto]. rewrite topic_key; [done|by apply Hsubs in Hs' as [_ ?]|done].
  - intros [[-> ->]|[Ht (s' & Hs' & <-)]]; simpl.
    + exists s. by rewrite lookup_insert_eq.
    + exists s'. rewrite topic_key in Ht; [|by apply Hsubs in Hs' as [_ ?]|done]. split; [|done].
      destruct op; simpl; [rewrite lookup_insert_ne|rewrite lookup_delete_ne]; by auto.
Qed.

Lemma well_keyed_recorded s (subs : subscription_map) :
  valid_subscription s → well_keyed subs →
  recorded subs (streamTopic s) ↔ is_Some (subs !! streamSubscriptionKey s).
Proof.
  intros Hs Hsubs. split.
  - intros (s' & Hs' & Ht). pose proof (Hsubs _ _ Hs') as [_ Hv].
    rewrite topic_key in Ht by done. rewrite Ht in Hs'. by eexists.
  - intros [s' Hs']. pose proof (Hsubs _ _ Hs') as [Hk Hv].
    exists s'. rewrite <-Hk. split; [done|]. by rewrite topic_key.
Qed.

Lemma rollback_apply m p :
  subscriptions (rollbackCommandLocked m p) =
    apply_operation (match operation p with Subscribe => Unsubscribe | Unsubscribe => Subscribe end)
      (subscription p) (subscriptions m).
Proof. by destruct p as [[] s]. Qed.

Lemma pending_rollback m p : pending (rollbackCommandLocked m p) = pending m.
Proof. done. Qed.

Lemma foldl_well_keyed (subs : list Subscription) (r : subscription_map) :
  Forall valid_subscription subs → well_keyed r →
  well_keyed (foldl (λ r s, <[streamSubscriptionKey s := s]> r) r subs).
Proof.
  intros Hs. revert r. induction Hs as [|s subs Hs _ IH]; intros r Hr; [done|].
  apply IH. by apply (well_keyed_apply Subscribe).
Qed.

Lemma elem_of_snapshot m s :
  well_keyed (subscriptions m) →
  s ∈ snapshotSubscriptions m ↔ subscriptions m !! streamSubscriptionKey s = Some s.
Proof.
  intros Hm. unfold snapshotSubscriptions. rewrite list_elem_of_omap. split.
  - intros (key & _ & Hkey). pose proof (Hm _ _ Hkey) as [-> _]. done.
  - intros Hs. exists (streamSubscriptionKey s). split; [|done].
    rewrite merge_sort_Permutation. apply elem_of_elements, elem_of_dom. by eexists.
Qed.

Lemma NoDup_snapshot m :
  well_keyed (subscriptions m) → NoDup (streamTopic <$> snapshotSubscriptions m).
Proof.
  intros Hm. apply NoDup_fmap_2_strong.
  - intros s s' Hs Hs' Heq. apply elem_of_snapshot in Hs, Hs'; [|done..].
    pose proof (Hm _ _ Hs) as [_ Hv]. pose proof (Hm _ _ Hs') as [_ Hv'].
    rewrite topic_key in Heq by done. rewrite Heq in Hs. congruence.
  - unfold snapshotSubscriptions.
    assert (NoDup (merge_sort string_le (elements (dom (subscriptions m))))) as Hnd.
    { rewrite merge_sort_Permutation. apply NoDup_elements. }
    revert Hnd. generalize (merge_sort string_le (elements (dom (subscriptions m)))).
    induction l as [|key keys IH]; intros Hnd; [constructor|]. apply NoDup_cons in Hnd as [Hkey Hnd].
    simpl. destruct (subscriptions m !! key) as [s|] eqn:Hs; [|by apply IH].
    constructor; [|by apply IH]. intros (key' & Hin & Hs')%list_elem_of_omap.
    pose proof (Hm _ _ Hs) as [-> _]. by pose proof (Hm _ _ Hs') as [-> _].
Qed.

(** ** The invariant *)

Definition writing (l : location (Subscription := Subscription) (Payload := Payload)) : option string :=
  match l with Writing op id payload todo => Some id | _ => None end.

Definition quiet m t : Prop := ∀ id op, ¬ pending_on m t id op.

(** What the goroutine that holds the lock knows. *)
Definition location_ok m (l : location (Subscription := Subscription) (Payload := Payload)) : Prop :=
  match l with
  | Idle => True
  | Changing op todo => Forall valid_subscription todo
  | Encoding op s todo =>
      valid_subscription s ∧ Forall valid_subscription todo ∧ quiet m (streamTopic s) ∧
      (recorded (subscriptions m) (streamTopic s) ↔ op = Unsubscribe)
  | Writing op id payload todo =>
      Forall valid_subscription todo ∧
      ∃ t, pending_on m t id op ∧ read payload = MkCommand id op t
  | Resubscribing todo =>
      Forall valid_subscription todo ∧ NoDup (streamTopic <$> todo) ∧
      Forall (λ s, recorded (subscriptions m) (streamTopic s) ∧ quiet m (streamTopic s)) todo
  end.

Definition used (counter : Z) (id : string) : Prop := ∃ n, n ≤ counter ∧ id = commandID n.

Definition in_flight w : list command := (answers w).*1 ++ received w.

(** The stream's own state, whatever the exchange does. *)
Record coherent w : Prop := {
  recorded_valid : well_keyed (subscriptions (managed w));
  pending_valid id p : pending (managed w) !! id = Some p →
    valid_subscription (subscription p) ∧ used (nextID w) id;
  pending_recorded t id op : pending_on (managed w) t id op →
    recorded (subscriptions (managed w)) t ↔ op = Subscribe;
  pending_unique t id id' op op' :
    pending_on (managed w) t id op → pending_on (managed w) t id' op' → id = id';
  pc_ok : location_ok (managed w) (pc w);
  in_flight_used : Forall (used (nextID w)) (command_id <$> in_flight w);
  in_flight_NoDup : NoDup (command_id <$> in_flight w);
  in_flight_pending c p : c ∈ in_flight w → pending (managed w) !! command_id c = Some p →
    operation p = command_operation c ∧ streamTopic (subscription p) = command_topic c;
  writing_fresh id : writing (pc w) = Some id → id ∉ command_id <$> in_flight w
}.

Section topic.
Context (held : gset Topic) (received : list command) (answers : list (command * bool)) (t : Topic).

(** Nothing on its way makes the exchange stream the topic. *)
Definition clean : Prop :=
  t ∉ held ∧ ∀ c, c ∈ received → command_topic c = t → command_operation c = Unsubscribe.

(** The exchange has, and will have, what [P] says. *)
Definition settled (P : Prop) : Prop :=
  P ∧ t ∈ held ∧ t ∉ command_topic <$> received ∨ ¬ P ∧ clean.

(** Command [id] is the last one about the topic on its way, or it is answered
    and in effect as answered. *)
Definition underway (id : string) (op : Operation) : Prop :=
  (∃ l1 c l2, received = l1 ++ c :: l2 ∧ command_id c = id ∧ t ∉ command_topic <$> l2) ∨
  (∃ c (accepted : bool), (c, accepted) ∈ answers ∧ command_id c = id ∧ t ∉ command_topic <$> received ∧
     (t ∈ held ↔ op = (if accepted then Subscribe else Unsubscribe))).

Definition confirmed m (current : option string) : Prop :=
  (quiet m t ∧ settled (recorded (subscriptions m) t)) ∨
  (∃ id op, pending_on m t id op ∧
     if decide (current = Some id) then settled (op = Unsubscribe) else underway id op).

(** Before [resubscribe]: only a pending subscription may be with the exchange. *)
Definition unsent m (current : option string) : Prop :=
  (∃ id, pending_on m t id Subscribe ∧ current ≠ Some id) ∨ clean.
End topic.

Definition synchronized w : Prop :=
  connected w → ∀ t,
    match pc w with
    | Resubscribing todo =>
        t ∈ streamTopic <$> todo ∨ confirmed (held w) (received w) (answers w) t (managed w) None
    | _ =>
        if consuming w
        then confirmed (held w) (received w) (answers w) t (managed w) (writing (pc w))
        else unsent (held w) (received w) t (managed w) (writing (pc w))
    end.

(** ** The exchange's steps *)

Implicit Types (held : gset Topic) (received rest : list command) (answers : list (command * bool))
  (P : Prop) (b : bool).

Lemma elem_of_obey held c t :
  t ∈ obey held c ↔
    (t = command_topic c ∧ command_operation c = Subscribe) ∨ (t ≠ command_topic c ∧ t ∈ held).
Proof.
  unfold obey. destruct (command_operation c) eqn:?; set_unfold; [|naive_solver].
  destruct (decide (t = command_topic c)); naive_solver.
Qed.

(** What the exchange has after it looked at a command. *)
Definition after held (accept : bool) c : gset Topic := if accept then obey held c else held.

Lemma elem_of_after held b c t :
  t ∈ after held (b || in_effect held c) c ↔
    (t = command_topic c ∧ command_operation c =
       (if b || in_effect held c then Subscribe else Unsubscribe)) ∨
    (t ≠ command_topic c ∧ t ∈ held).
Proof.
  unfold after, in_effect. destruct b; simpl; [apply elem_of_obey|].
  destruct (command_operation c) eqn:Hop; case_bool_decide; rewrite ?elem_of_obey, ?Hop;
    destruct (decide (t = command_topic c)) as [->|]; naive_solver.
Qed.

Lemma clean_handle held b c rest t :
  clean held (c :: rest) t → clean (after held (b || in_effect held c) c) rest t.
Proof.
  intros [Ht Hc]. split; [|set_solver]. rewrite elem_of_after. intros [[-> Hop]|[_ ?]]; [|done].
  rewrite (Hc c ltac:(by left) eq_refl) in Hop. unfold in_effect in Hop.
  rewrite (Hc c ltac:(by left) eq_refl), bool_decide_eq_true_2, orb_true_r in Hop by done. done.
Qed.

Lemma settled_handle held b c rest t P :
  settled held (c :: rest) t P → settled (after held (b || in_effect held c) c) rest t P.
Proof.
  intros [(HP & Ht & Hc)|[HP Hc]]; [left|right; split; [done|by apply clean_handle]].
  rewrite fmap_cons, not_elem_of_cons in Hc. destruct Hc. rewrite elem_of_after. auto.
Qed.

Lemma underway_handle held b c rest answers t id op :
  (∀ c', c' ∈ c :: rest → command_id c' = id → op = command_operation c' ∧ t = command_topic c') →
  underway held (c :: rest) answers t id op →
  underway (after held (b || in_effect held c) c) rest
    (answers ++ [(c, b || in_effect held c)]) t id op.
Proof.
  intros Hmatch [(l1 & c' & l2 & Heq & Hid & Hl2)|(c' & v & Hin & Hid & Hrest & Hheld)].
  - destruct l1 as [|c1 l1]; simplify_eq/=; [right|left; by exists l1, c', l2].
    destruct (Hmatch c') as [-> ->]; [by left|done|].
    exists c', (b || in_effect held c'). split_and!; [set_solver|done|done|].
    rewrite elem_of_after. naive_solver.
  - right. exists c', v. rewrite fmap_cons, not_elem_of_cons in Hrest. destruct Hrest.
    split_and!; [set_solver|done|done|]. rewrite elem_of_after. naive_solver.
Qed.

Lemma clean_deliver held received c t :
  command_topic c ≠ t ∨ command_operation c = Unsubscribe →
  clean held received t → clean held (received ++ [c]) t.
Proof.
  intros Hc [Ht Hr]. split; [done|]. intros c' [?| ->%list_elem_of_singleton]%elem_of_app; naive_solver.
Qed.

Lemma settled_deliver held received c t P :
  command_topic c ≠ t → settled held received t P → settled held (received ++ [c]) t P.
Proof.
  intros Hc [(HP & Ht & Hr)|[HP Hr]]; [left|right; split; [done|apply clean_deliver; by auto]].
  rewrite fmap_app. set_solver.
Qed.

Lemma underway_deliver held received answers c t id op :
  command_topic c ≠ t → underway held received answers t id op →
  underway held (received ++ [c]) answers t id op.
Proof.
  intros Hc [(l1 & c' & l2 & -> & Hid & Hl2)|(c' & v & Hin & Hid & Hr & Hheld)].
  - left. exists l1, c', (l2 ++ [c]). rewrite <-app_assoc, fmap_app. set_solver.
  - right. exists c', v. rewrite fmap_app. set_solver.
Qed.

Lemma underway_last held received answers c :
  underway held (received ++ [c]) answers (command_topic c) (command_id c) (command_operation c).
Proof. left. exists received, c, []. set_solver. Qed.

Lemma underway_read held received c v answers t id op :
  command_id c ≠ id → underway held received ((c, v) :: answers) t id op →
  underway held received answers t id op.
Proof.
  intros Hid [?|(c' & v' & Hin & ? & ? & ?)]; [by left|right].
  exists c', v'. apply elem_of_cons in Hin as [[= -> ->]|?]; naive_solver.
Qed.

Lemma confirmed_deliver held received answers c t m current :
  command_topic c ≠ t → confirmed held received answers t m current →
  confirmed held (received ++ [c]) answers t m current.
Proof.
  intros Hc [[Hq Hs]|(id & op & Hp & Hs)].
  - left. split; [done|by apply settled_deliver].
  - right. exists id, op. split; [done|].
    case_decide; [by apply settled_deliver|by apply underway_deliver].
Qed.

Lemma confirmed_handle held b c rest answers t m current :
  (∀ c' id op, c' ∈ c :: rest → command_id c' = id → pending_on m t id op →
     op = command_operation c' ∧ t = command_topic c') →
  confirmed held (c :: rest) answers t m current →
  confirmed (after held (b || in_effect held c) c) rest (answers ++ [(c, b || in_effect held c)])
    t m current.
Proof.
  intros Hmatch [[Hq Hs]|(id & op & Hp & Hs)].
  - left. split; [done|by apply settled_handle].
  - right. exists id, op. split; [done|]. case_decide; [by apply settled_handle|].
    apply underway_handle; [naive_solver|done].
Qed.

Lemma unsent_handle held b c rest t m current :
  unsent held (c :: rest) t m current →
  unsent (after held (b || in_effect held c) c) rest t m current.
Proof. intros [?|?]; [by left|right; by apply clean_handle]. Qed.

(** ** The stream's steps *)

Lemma pending_on_insert (subs : subscription_map) m id op s t id' op' :
  pending m !! id = None →
  pending_on (MkManagedStream subs (<[id := MkPendingStreamCommand op s]> (pending m))) t id' op' ↔
    (id' = id ∧ op' = op ∧ t = streamTopic s) ∨ pending_on m t id' op'.
Proof.
  intros Hid. unfold pending_on. simpl. destruct (decide (id' = id)) as [->|Hne].
  - rewrite lookup_insert_eq. naive_solver.
  - rewrite lookup_insert_ne by done. naive_solver.
Qed.

Lemma pending_on_settle m id failed t id' op' :
  pending_on (settle m id failed) t id' op' ↔ id' ≠ id ∧ pending_on m t id' op'.
Proof.
  unfold settle. destruct (pending m !! id) as [p|] eqn:Hp.
  - assert (pending_on (MkManagedStream (subscriptions m) (delete id (pending m))) t id' op' ↔
      id' ≠ id ∧ pending_on m t id' op') as Heq.
    { unfold pending_on. simpl. setoid_rewrite lookup_delete_Some. naive_solver. }
    by destruct failed.
  - split; [|by intros [_ ?]]. intros H. split; [|done]. intros ->. destruct H as (s & ? & _). congruence.
Qed.

Lemma recorded_settle m id failed p t :
  well_keyed (subscriptions m) → valid_subscription (subscription p) → pending m !! id = Some p →
  recorded (subscriptions (settle m id failed)) t ↔
    if failed then t = streamTopic (subscription p) ∧ operation p = Unsubscribe ∨
                   t ≠ streamTopic (subscription p) ∧ recorded (subscriptions m) t
    else recorded (subscriptions m) t.
Proof.
  intros Hm Hv Hp. unfold settle. rewrite Hp. destruct failed; [|done].
  rewrite rollback_apply, recorded_apply by done. simpl. destruct (operation p); naive_solver.
Qed.

Lemma well_keyed_settle m id failed :
  well_keyed (subscriptions m) →
  (∀ p, pending m !! id = Some p → valid_subscription (subscription p)) →
  well_keyed (subscriptions (settle m id failed)).
Proof.
  intros Hm Hv. unfold settle. destruct (pending m !! id) as [p|] eqn:Hp; [|done].
  destruct failed; [|done]. rewrite rollback_apply. apply well_keyed_apply; auto.
Qed.

(** Topics other than the one of the command keep their records. *)
Lemma recorded_settle_other m id failed t :
  well_keyed (subscriptions m) → (∀ p, pending m !! id = Some p → valid_subscription (subscription p)) →
  (∀ op, ¬ pending_on m t id op) →
  recorded (subscriptions (settle m id failed)) t ↔ recorded (subscriptions m) t.
Proof.
  intros Hm Hv Ht. destruct (pending m !! id) as [p|] eqn:Hp.
  - rewrite recorded_settle by auto. destruct failed; [|done].
    enough (t ≠ streamTopic (subscription p)) by naive_solver.
    intros ->. destruct p as [op s]. apply (Ht op). by exists s.
  - unfold settle. by rewrite Hp.
Qed.

Lemma location_ok_settle m id failed (l : location) :
  well_keyed (subscriptions m) → (∀ p, pending m !! id = Some p → valid_subscription (subscription p)) →
  writing l ≠ Some id → location_ok m l → location_ok (settle m id failed) l.
Proof.
  intros Hm Hv Hl. assert (∀ t, quiet m t → quiet (settle m id failed) t) as Hquiet.
  { intros t Ht id' op' [_ ?]%pending_on_settle. by eapply Ht. }
  destruct l as [|op todo|op s todo|op id' payload todo|todo]; simpl in *; [done..| | |].
  - intros (Hs & Htodo & Hq & Hr). split_and!; [done..|by apply Hquiet|].
    rewrite recorded_settle_other; [done..|]. intros op'. apply Hq.
  - intros (Htodo & t & Ht & Hread). split; [done|]. exists t. split; [|done].
    apply pending_on_settle. split; [congruence|done].
  - intros (Htodo & Hnd & Hall). split_and!; [done..|]. eapply Forall_impl; [exact Hall|].
    intros s [Hr Hq]. split; [|by apply Hquiet]. rewrite recorded_settle_other; [done..|].
    intros op'. apply Hq.
Qed.

Lemma used_mono counter counter' id : counter ≤ counter' → used counter id → used counter' id.
Proof. intros H (n & Hn & ->). exists n. split; [lia|done]. Qed.

Lemma used_fresh counter n id : used counter id → counter < n → id ≠ commandID n.
Proof. intros (k & Hk & ->) Hn Heq. apply (inj commandID) in Heq. lia. Qed.

Lemma Forall_sublist {A} (Q : A → Prop) l k : l `sublist_of` k → Forall Q k → Forall Q l.
Proof. rewrite !Forall_forall. intros Hl Hk x Hx. apply Hk. by eapply elem_of_sublist. Qed.

(** A step that leaves the records alone and sends nothing. *)
Lemma coherent_same w w' :
  coherent w → managed w' = managed w → nextID w ≤ nextID w' →
  in_flight w' `sublist_of` in_flight w → location_ok (managed w) (pc w') →
  (writing (pc w') = None ∨ pc w' = pc w) → coherent w'.
Proof.
  intros [] Hm Hn Hf Hl Hpc. split; rewrite ?Hm; try done.
  - intros id p Hp. destruct (pending_valid0 _ _ Hp). split; [done|by eapply used_mono].
  - eapply Forall_sublist; [by apply fmap_sublist|]. eapply Forall_impl; [done|].
    intros id. by apply used_mono.
  - eapply sublist_NoDup; [done|]. by apply fmap_sublist.
  - intros c p Hc. apply in_flight_pending0. by eapply elem_of_sublist.
  - intros id Hid. destruct Hpc as [Hpc|Hpc]; [congruence|]. rewrite Hpc in Hid.
    intros Hin. apply (writing_fresh0 id Hid). eapply elem_of_sublist; [done|]. by apply fmap_sublist.
Qed.

(** A step that settles a command. *)
Lemma coherent_settle w w' id failed :
  coherent w → managed w' = settle (managed w) id failed → nextID w' = nextID w →
  in_flight w' `sublist_of` in_flight w →
  (location_ok (settle (managed w) id failed) (pc w') ∧ writing (pc w') = None ∨
   pc w' = pc w ∧ writing (pc w) ≠ Some id) → coherent w'.
Proof.
  intros [] Hm Hn Hf Hpc. assert (∀ p, pending (managed w) !! id = Some p → valid_subscription (subscription p)) as Hv.
  { intros p Hp. by apply pending_valid0 in Hp as []. }
  split; rewrite ?Hm, ?Hn.
  - by apply well_keyed_settle.
  - intros id' [op s] Hp. assert (pending_on (settle (managed w) id failed) (streamTopic s) id' op) as Hon.
    { by exists s. } apply pending_on_settle in Hon as [_ (s' & Hs' & _)].
    assert (pending (managed w) !! id' = Some (MkPendingStreamCommand op s)); [|by apply pending_valid0 in H as []].
    revert Hp. unfold settle. destruct (pending (managed w) !! id) eqn:?; [|done].
    destruct failed; simpl; intros Hp%lookup_delete_Some; naive_solver.
  - intros t id' op [Hne Hp]%pending_on_settle. rewrite recorded_settle_other; [by eapply pending_recorded0|done..|].
    intros op' Hop'. apply Hne. by eapply pending_unique0.
  - intros t id1 id2 op1 op2 [_ H1]%pending_on_settle [_ H2]%pending_on_settle. by eapply pending_unique0.
  - destruct Hpc as [[? _]|[-> ?]]; [done|by apply location_ok_settle].
  - eapply Forall_sublist; [by apply fmap_sublist|done].
  - eapply sublist_NoDup; [done|]. by apply fmap_sublist.
  - intros c [op s] Hc Hp. apply in_flight_pending0; [by eapply elem_of_sublist|].
    revert Hp. unfold settle. destruct (pending (managed w) !! id) eqn:?; [|done].
    destruct failed; simpl; intros Hp%lookup_delete_Some; naive_solver.
  - intros id' Hid' Hin. destruct Hpc as [[_ ?]|[Hpc _]]; [congruence|]. rewrite Hpc in Hid'.
    apply (writing_fresh0 id' Hid'). eapply elem_of_sublist; [done|]. by apply fmap_sublist.
Qed.

(** A step that records a command, and may send it. *)
Lemma coherent_record w w' n op s (subs : subscription_map) :
  coherent w → valid_subscription s → quiet (managed w) (streamTopic s) → nextID w < n ≤ nextID w' →
  managed w' = MkManagedStream subs
    (<[commandID n := MkPendingStreamCommand op s]> (pending (managed w))) →
  well_keyed subs →
  (∀ t, recorded subs t ↔ t = streamTopic s ∧ op = Subscribe ∨
     t ≠ streamTopic s ∧ recorded (subscriptions (managed w)) t) →
  in_flight w' = in_flight w ∧ (∀ id, writing (pc w') = Some id → id = commandID n) ∨
  in_flight w' = in_flight w ++ [MkCommand (commandID n) op (streamTopic s)] ∧ writing (pc w') = None →
  location_ok (managed w') (pc w') → coherent w'.
Proof.
  intros [] Hs Hq Hn Hm Hsubs Hrec Hf Hl.
  assert (pending (managed w) !! commandID n = None) as Hid.
  { destruct (pending (managed w) !! commandID n) eqn:Hp; [|done]. apply pending_valid0 in Hp as [_ Hu].
    destruct (used_fresh _ n _ Hu ltac:(lia) eq_refl). }
  assert (commandID n ∉ command_id <$> in_flight w) as Hnew.
  { intros Hin. rewrite Forall_forall in in_flight_used0. destruct (used_fresh _ n _ (in_flight_used0 _ Hin) ltac:(lia) eq_refl). }
  assert (Forall (used (nextID w')) (command_id <$> in_flight w)) as Hused.
  { eapply Forall_impl; [done|]. intros id. apply used_mono. lia. }
  split; try done; rewrite ?Hm.
  - done.
  - simpl. intros id p [[<- <-]|[_ Hp]]%lookup_insert_Some; [split; [done|]|].
    + exists n. split; [lia|done].
    + apply pending_valid0 in Hp as [? ?]. split; [done|]. eapply used_mono; [|done]. lia.
  - intros t id op' Hp. simpl. rewrite Hrec. apply pending_on_insert in Hp as [(-> & -> & ->)|Hp]; [| |done].
    + naive_solver.
    + pose proof (pending_recorded0 _ _ _ Hp). enough (t ≠ streamTopic s) by naive_solver.
      intros ->. by eapply Hq.
  - intros t id id' op1 op2 H1 H2. apply pending_on_insert in H1, H2; [|done..].
    destruct H1 as [(-> & -> & ->)|H1], H2 as [(-> & _ & Ht)|H2]; [done| | |by eapply pending_unique0].
    + by destruct (Hq _ _ H2).
    + subst. by destruct (Hq _ _ H1).
  - destruct Hf as [[-> _]|[-> _]]; [done|]. rewrite fmap_app, Forall_app. split; [done|].
    apply Forall_singleton. exists n. split; [lia|done].
  - destruct Hf as [[-> _]|[-> _]]; [done|]. rewrite fmap_app. apply NoDup_app.
    split_and!; [done| |by apply NoDup_singleton]. intros x Hx ->%list_elem_of_singleton. done.
  - simpl. intros c p Hc [[Hc' <-]|[Hne Hp]]%lookup_insert_Some.
    + destruct Hf as [[Hf _]|[Hf _]]; rewrite Hf in Hc.
      * destruct Hnew. rewrite Hc'. by apply list_elem_of_fmap_2.
      * apply elem_of_app in Hc as [Hc| ->%list_elem_of_singleton]; [|done].
        destruct Hnew. rewrite Hc'. by apply list_elem_of_fmap_2.
    + apply in_flight_pending0; [|done]. destruct Hf as [[Hf _]|[Hf _]]; rewrite Hf in Hc; [done|].
      apply elem_of_app in Hc as [Hc| ->%list_elem_of_singleton]; [done|]. done.
  - intros id Hw. destruct Hf as [[-> Hf]|[_ Hf]]; [|congruence]. by rewrite (Hf _ Hw).
Qed.

(** A step that sends the command recorded. *)
Lemma coherent_send w w' op id payload todo :
  coherent w → pc w = Writing op id payload todo → managed w' = managed w → nextID w' = nextID w →
  in_flight w' = in_flight w ++ [read payload] → pc w' = Changing op todo → coherent w'.
Proof.
  intros [] Hpc Hm Hn Hf Hpc'. rewrite Hpc in *. destruct pc_ok0 as (Htodo & t & (s & Hp & Hs) & Hread).
  specialize (writing_fresh0 id eq_refl).
  split; rewrite ?Hm, ?Hn, ?Hf, ?Hpc', ?Hread; try done.
  - rewrite fmap_app, Forall_app. split; [done|]. apply Forall_singleton. by apply pending_valid0 in Hp as [].
  - rewrite fmap_app. apply NoDup_app. split_and!; [done| |by apply NoDup_singleton].
    intros x Hx ->%list_elem_of_singleton. done.
  - intros c p [Hc| ->%list_elem_of_singleton]%elem_of_app; [by apply in_flight_pending0|].
    simpl. intros Hp'. by simplify_eq.
Qed.

Lemma initial_coherent (subs : list Subscription) (counter : Z) :
  Forall valid_subscription subs → coherent (initial (newManagedStream subs) counter).
Proof.
  intros Hs. split; try done; simpl.
  - by apply foldl_well_keyed; [|apply map_Forall_empty].
  - by intros t id op (s & ? & _).
  - by intros t id id' op op' (s & ? & _).
  - constructor.
Qed.

Definition resubscribing (l : location (Subscription := Subscription) (Payload := Payload)) : bool :=
  match l with Resubscribing _ => true | _ => false end.

(** What [synchronized] says outside [resubscribe]. *)
Definition status w t : Prop :=
  if consuming w
  then confirmed (held w) (received w) (answers w) t (managed w) (writing (pc w))
  else unsent (held w) (received w) t (managed w) (writing (pc w)).

Lemma synchronized_status w :
  resubscribing (pc w) = false → synchronized w ↔ (connected w → ∀ t, status w t).
Proof. unfold synchronized, status. by destruct (pc w). Qed.

Lemma synchronized_same w w' :
  resubscribing (pc w) = false → resubscribing (pc w') = false → writing (pc w') = writing (pc w) →
  managed w' = managed w → (connected w', consuming w', held w', received w', answers w') =
    (connected w, consuming w, held w, received w, answers w) →
  synchronized w → synchronized w'.
Proof.
  intros H1 H2 Hw Hm Heq. rewrite !synchronized_status by done. unfold status.
  injection Heq as -> -> -> -> ->. by rewrite Hw, Hm.
Qed.

Lemma quiet_settle m id failed t : quiet m t → quiet (settle m id failed) t.
Proof. intros Ht id' op' [_ ?]%pending_on_settle. by eapply Ht. Qed.

(** A settled command leaves other topics as they are. *)
Lemma confirmed_settle held received answers t m current id failed :
  well_keyed (subscriptions m) → (∀ p, pending m !! id = Some p → valid_subscription (subscription p)) →
  (∀ op, ¬ pending_on m t id op) →
  confirmed held received answers t m current →
  confirmed held received answers t (settle m id failed) current.
Proof.
  intros Hm Hv Ht [[Hq Hs]|(id' & op & Hp & Hs)].
  - left. split; [by apply quiet_settle|]. pose proof (recorded_settle_other m id failed t Hm Hv Ht).
    unfold settled in *. naive_solver.
  - right. exists id', op. split; [|done]. apply pending_on_settle. split; [|done].
    intros ->. by eapply Ht.
Qed.

Lemma settled_iff held received t (P Q : Prop) :
  (P ↔ Q) → settled held received t P → settled held received t Q.
Proof. unfold settled. naive_solver. Qed.

(** Recording a command leaves other topics as they are. *)
Lemma confirmed_other held received answers t m (subs : subscription_map) id op s :
  t ≠ streamTopic s → pending m !! id = None →
  (recorded subs t ↔ recorded (subscriptions m) t) →
  confirmed held received answers t m None →
  confirmed held received answers t
    (MkManagedStream subs (<[id := MkPendingStreamCommand op s]> (pending m))) (Some id).
Proof.
  intros Ht Hid Hrec [[Hqt Hs]|(id' & op' & Hp & Hs)].
  - left. split.
    + intros id' op' [(_ & _ & ?)|?]%pending_on_insert; [done| |done]. by eapply Hqt.
    + by eapply settled_iff.
  - right. exists id', op'. split; [by apply pending_on_insert; [|right]|].
    rewrite decide_False in Hs by done. rewrite decide_False; [done|].
    intros [= ->]. destruct Hp as (s' & Hp & _). congruence.
Qed.

(** Recording a command about a quiet topic, before it is sent. *)
Lemma confirmed_record held received answers t m (subs : subscription_map) id op s :
  quiet m (streamTopic s) → pending m !! id = None →
  (recorded (subscriptions m) (streamTopic s) ↔ op = Unsubscribe) →
  (∀ t, recorded subs t ↔ t = streamTopic s ∧ op = Subscribe ∨
     t ≠ streamTopic s ∧ recorded (subscriptions m) t) →
  confirmed held received answers t m None →
  confirmed held received answers t
    (MkManagedStream subs (<[id := MkPendingStreamCommand op s]> (pending m))) (Some id).
Proof.
  intros Hq Hid Hr Hrec Hc. destruct (decide (t = streamTopic s)) as [->|Ht].
  - right. exists id, op. split; [by apply pending_on_insert; [|left]|]. rewrite decide_True by done.
    destruct Hc as [[_ Hs]|(id' & op' & Hp & _)]; [|by destruct (Hq _ _ Hp)]. by eapply settled_iff.
  - apply confirmed_other; [done..| |done]. rewrite Hrec. naive_solver.
Qed.

(** Sending a command puts its topic under way. *)
Lemma confirmed_send held received answers t m c :
  (∀ id op, pending_on m (command_topic c) id op → id = command_id c) →
  pending_on m (command_topic c) (command_id c) (command_operation c) →
  (t ≠ command_topic c → confirmed held received answers t m (Some (command_id c))) →
  confirmed held (received ++ [c]) answers t m None.
Proof.
  intros Huniq Hp Ht. destruct (decide (t = command_topic c)) as [->|Hne].
  - right. exists (command_id c), (command_operation c). split; [done|].
    rewrite decide_False by done. apply underway_last.
  - specialize (Ht Hne). apply (confirmed_deliver _ _ _ c) in Ht; [|done].
    destruct Ht as [?|(id & op & Hon & Hs)]; [by left|right]. exists id, op. split; [done|].
    rewrite decide_False by done. case_decide as Hid; [|done]. injection Hid as <-.
    destruct Hon as (s & Hs1 & <-), Hp as (s' & Hs2 & Hs3). congruence.
Qed.

Lemma pending_on_In m id p :
  pending m !! id = Some p → pending_on m (streamTopic (subscription p)) id (operation p).
Proof. intros Hp. exists (subscription p). by destruct p. Qed.

(** The answer to the command under way settles its topic. *)
Lemma confirmed_answer w c (accepted : bool) (unread : list (command * bool)) p t :
  coherent w → answers w = (c, accepted) :: unread → pending (managed w) !! command_id c = Some p →
  status w t → consuming w = true →
  confirmed (held w) (received w) unread t (settle (managed w) (command_id c) (negb accepted))
    (writing (pc w)).
Proof.
  intros Hw Ha Hp Hst Hcons. unfold status in Hst. rewrite Hcons, Ha in Hst.
  pose proof (pending_on_In _ _ _ Hp) as Hon.
  assert (in_flight w = c :: (unread.*1 ++ received w)) as Hf by (unfold in_flight; by rewrite Ha).
  pose proof (in_flight_NoDup _ Hw) as Hnd. rewrite Hf, fmap_cons in Hnd. apply NoDup_cons in Hnd as [Hnd _].
  assert (∀ p, pending (managed w) !! command_id c = Some p → valid_subscription (subscription p)) as Hv.
  { intros p' Hp'. by apply pending_valid in Hp' as []. }
  destruct (decide (t = streamTopic (subscription p))) as [->|Ht].
  - assert (writing (pc w) ≠ Some (command_id c)) as Hcur.
    { intros Hcur. apply (writing_fresh _ Hw _ Hcur). rewrite Hf. set_solver. }
    destruct Hst as [[Hq _]|(id & op & Hp' & Hs)]; [by destruct (Hq _ _ Hon)|].
    assert (id = command_id c) as -> by by eapply pending_unique.
    rewrite decide_False in Hs by done. left. split.
    { intros id' op' [Hne Hon']%pending_on_settle. apply Hne. by eapply pending_unique. }
    destruct Hp' as (s & Hp' & Hs'). rewrite Hp' in Hp. simplify_eq.
    assert (recorded (subscriptions (settle (managed w) (command_id c) (negb accepted))) (streamTopic s) ↔
      op = if accepted then Subscribe else Unsubscribe) as Hrec.
    { rewrite (recorded_settle _ _ _ (MkPendingStreamCommand op s)); [|by apply recorded_valid|by apply Hv|done]. simpl.
      pose proof (pending_recorded _ Hw _ _ _ (pending_on_In _ _ _ Hp')) as Hr. simpl in Hr.
      destruct accepted, op; simpl; naive_solver. }
    destruct Hs as [(l1 & c' & l2 & Heq & Hid & _)|(c' & v & Hin & Hid & Hr & Hh)].
    { destruct Hnd. rewrite Heq, <-Hid. apply list_elem_of_fmap_2. rewrite !elem_of_app. do 2 right. by left. }
    apply elem_of_cons in Hin as [[= -> ->]|Hin].
    2: { destruct Hnd. rewrite <-Hid. apply list_elem_of_fmap_2, elem_of_app. left.
         by apply (list_elem_of_fmap_2 fst unread (c', v)). }
    rewrite <-Hh in Hrec. destruct (decide (streamTopic s ∈ held w)) as [Hin|Hin].
    + left. by rewrite Hrec.
    + right. rewrite Hrec. split; [done|]. split; [done|]. set_solver.
  - apply confirmed_settle; [by apply recorded_valid|done| |].
    { intros op (s & Hs & <-). apply Ht. by rewrite Hp in Hs; simplify_eq. }
    destruct Hst as [?|(id & op & Hp' & Hs)]; [by left|right]. exists id, op. split; [done|].
    case_decide; [done|]. eapply underway_read; [|done]. intros <-.
    destruct Hp' as (s & Hp' & <-). apply Ht. by rewrite Hp in Hp'; simplify_eq.
Qed.

(** ** Preservation *)

Definition invariant w : Prop := coherent w ∧ synchronized w.

Lemma invariant_same w w' :
  invariant w → (managed w', nextID w') = (managed w, nextID w) →
  (connected w', consuming w', held w', received w', answers w') =
    (connected w, consuming w, held w, received w, answers w) →
  resubscribing (pc w) = false → resubscribing (pc w') = false →
  writing (pc w) = None → writing (pc w') = None →
  location_ok (managed w) (pc w') → invariant w'.
Proof.
  intros [Hc Hs] [= Hm Hn] Heq H1 H2 H3 H4 Hl. split.
  - apply (coherent_same w); [done|done|lia| |done|by left].
    unfold in_flight. by injection Heq as _ _ _ -> ->.
  - eapply synchronized_same; [exact H1|done|congruence|done..].
Qed.

Lemma check_invariant w op s todo :
  invariant w → pc w = Changing op (s :: todo) → quiet (managed w) (streamTopic s) →
  invariant (check w op s todo).
Proof.
  intros Hw Hpc Hq. pose proof Hw as [Hc _]. pose proof (pc_ok _ Hc) as Hl. rewrite Hpc in Hl.
  apply Forall_cons in Hl as [Hs Htodo].
  pose proof (well_keyed_recorded s _ Hs (recorded_valid _ Hc)) as Hr.
  unfold check. destruct op; repeat case_bool_decide; simpl; try done;
    (eapply invariant_same; [exact Hw|done|done|by rewrite Hpc|done|by rewrite Hpc|done|simpl]);
    try done; split_and!; try done; naive_solver.
Qed.

Lemma encode_invariant w environment op s todo :
  invariant w → pc w = Encoding op s todo → invariant (encode w environment op s todo).
Proof.
  intros [Hc Hs] Hpc. unfold encode.
  pose proof (encode_counter environment op s (nextID w)) as Hn.
  pose proof (pc_ok _ Hc) as Hl. rewrite Hpc in Hl. destruct Hl as (Hv & Htodo & Hq & Hr).
  destruct (encodeStreamCommand environment op s (nextID w)) as [n' [[payload id]|err]] eqn:He; simpl in Hn.
  2: { split; [by apply (coherent_same w); [..|left]|].
     by apply (synchronized_same w); rewrite ?Hpc. }
  apply encode_Ok in He as (n & Hn' & -> & Hread); [|done].
  assert (pending (managed w) !! commandID n = None) as Hid.
  { destruct (pending (managed w) !! commandID n) eqn:Hp; [|done]. apply (pending_valid _ Hc) in Hp as [_ Hu].
    destruct (used_fresh _ n _ Hu ltac:(lia) eq_refl). }
  assert (∀ t, recorded (apply_operation op s (subscriptions (managed w))) t ↔
    t = streamTopic s ∧ op = Subscribe ∨ t ≠ streamTopic s ∧ recorded (subscriptions (managed w)) t) as Hrec.
  { intros t. apply recorded_apply; [done|by apply recorded_valid]. }
  split.
  - apply (coherent_record w _ n op s (apply_operation op s (subscriptions (managed w)))); try done.
    + apply well_keyed_apply; [done|by apply recorded_valid].
    + left. split; [done|]. by intros id [= <-].
    + simpl. split; [done|]. exists (streamTopic s). split; [|done]. by apply pending_on_insert; [|left].
  - rewrite synchronized_status in Hs |- * by (by rewrite ?Hpc). simpl. intros Hcon t. specialize (Hs Hcon t).
    unfold status in *. simpl in *. rewrite Hpc in Hs. destruct (consuming w).
    + by apply confirmed_record.
    + destruct Hs as [(id & Hp & _)|Hs]; [left|by right]. exists id.
      split; [by apply pending_on_insert; [|right]|]. intros [= <-].
      destruct Hp as (s' & Hp & _). congruence.
Qed.

(** A failed write takes its command back. *)
Lemma rollback_invariant w op id payload todo err :
  invariant w → pc w = Writing op id payload todo →
  invariant (return_ (w <| managed := rollbackCommand (managed w) id |>) err).
Proof.
  intros [Hc Hs] Hpc. pose proof (pc_ok _ Hc) as Hl. rewrite Hpc in Hl.
  destruct Hl as (Htodo & t0 & Hon & Hread).
  rewrite synchronized_status in Hs by by rewrite Hpc. unfold status in Hs. rewrite Hpc in Hs. simpl in Hs.
  assert (∀ p, pending (managed w) !! id = Some p → valid_subscription (subscription p)) as Hv.
  { intros p Hp. by apply (pending_valid _ Hc) in Hp as []. }
  assert (∀ t op', pending_on (managed w) t id op' → t = t0 ∧ op' = op) as Hop.
  { intros t op' (s & H1 & <-). destruct Hon as (s' & H2 & <-). by simplify_eq. }
  assert (rollbackCommand (managed w) id = settle (managed w) id true) as -> by done. split.
  { apply (coherent_settle w _ id true); try done. by left. }
  rewrite synchronized_status by done. intros Hcon t. specialize (Hs Hcon t). unfold status. simpl.
  destruct (decide (t = t0)) as [->|Ht].
  - assert (recorded (subscriptions (settle (managed w) id true)) t0 ↔ op = Unsubscribe) as Hr.
    { destruct Hon as (s & Hp & <-). rewrite (recorded_settle _ _ _ _ _ (recorded_valid _ Hc) (Hv _ Hp) Hp).
      simpl. naive_solver. }
    destruct (consuming w).
    + left. split; [intros id' op' [Hne Hp]%pending_on_settle; apply Hne; by eapply pending_unique|].
      destruct Hs as [[Hq' _]|(id' & op' & Hp & Hs)]; [by destruct (Hq' _ _ Hon)|].
      assert (id' = id) as -> by by eapply pending_unique. rewrite decide_True in Hs by done.
      apply Hop in Hp as [_ ->]. eapply settled_iff; [|done]. by rewrite Hr.
    + right. destruct Hs as [(id' & Hp & Hne)|Hs]; [|done]. destruct Hne.
      f_equal. by eapply pending_unique.
  - assert (∀ op, ¬ pending_on (managed w) t id op) as Hother.
    { intros op' [? _]%Hop. done. }
    destruct (consuming w).
    + apply confirmed_settle; [by apply recorded_valid|done|done|].
      destruct Hs as [?|(id' & op' & Hp & Hs)]; [by left|right]. exists id', op'. split; [done|].
      destruct (decide (Some id = Some id')) as [[= ->]|]; [by destruct (Hother op')|].
      by rewrite decide_False.
    + destruct Hs as [(id' & Hp & Hne)|Hs]; [left|by right]. exists id'. split; [|done].
      apply pending_on_settle. split; [congruence|done].
Qed.

Lemma write_invariant w op id payload todo err :
  invariant w → pc w = Writing op id payload todo → invariant (write w op id payload todo err).
Proof.
  intros Hw Hpc. destruct err as [err|]; [by eapply rollback_invariant|]. simpl.
  destruct Hw as [Hc Hs]. pose proof (pc_ok _ Hc) as Hl. rewrite Hpc in Hl.
  destruct Hl as (Htodo & t0 & Hon & Hread).
  rewrite synchronized_status in Hs by by rewrite Hpc. unfold status in Hs. rewrite Hpc in Hs. simpl in Hs.
  unfold deliver. destruct (connected w) eqn:Hcon; [|split].
  2: { apply (coherent_same w); try done. by left. }
  2: { rewrite synchronized_status by done. intros Hcon'. simpl in Hcon'. by rewrite Hcon in Hcon'. }
  split.
  { eapply (coherent_send w); try done. unfold in_flight. simpl. by rewrite app_assoc. }
  rewrite synchronized_status by done. intros _ t. specialize (Hs I t). unfold status. simpl.
  rewrite Hread. destruct (consuming w).
  - apply confirmed_send; simpl; [|done|done]. intros id' op' Hp. by eapply pending_unique.
  - destruct Hs as [(id' & Hp & Hne)|Hs]; [left|]; [by exists id'|].
    destruct op; [|right; apply clean_deliver; by auto].
    destruct (decide (t = t0)) as [->|]; [left; by exists id|right; apply clean_deliver; by auto].
Qed.

Lemma resubscribe_invariant w :
  invariant w → pc w = Idle → connected w → consuming w = false →
  invariant (w <| managed := MkManagedStream (subscriptions (managed w)) ∅ |>
    <| pc := Resubscribing (snapshotSubscriptions (managed w)) |>).
Proof.
  intros [Hc Hs] Hpc Hcon Hcons.
  assert (∀ t id op, ¬ pending_on (MkManagedStream (subscriptions (managed w)) ∅) t id op) as Hq.
  { intros t id op (s & ? & _). done. }
  pose proof (recorded_valid _ Hc) as Hk. pose proof (elem_of_snapshot (managed w)) as Hsnap.
  split.
  - destruct Hc. split; simpl; try done.
    + intros t id op Hp. by apply Hq in Hp.
    + intros t id id' op op' Hp. by apply Hq in Hp.
    + split_and!.
      * apply Forall_forall. intros s Hin%Hsnap; [|done]. by apply Hk in Hin as [].
      * apply NoDup_snapshot. done.
      * apply Forall_forall. intros s Hin%Hsnap; [|done]. split; [by exists s|]. intros id op. apply Hq.
  - intros _ t. simpl. rewrite synchronized_status in Hs by by rewrite Hpc.
    specialize (Hs Hcon t). unfold status in Hs. rewrite Hcons, Hpc in Hs. simpl in Hs.
    destruct (decide (t ∈ streamTopic <$> snapshotSubscriptions (managed w))) as [|Ht]; [by left|right; left].
    split; [intros id op; apply Hq|]. simpl.
    assert (¬ recorded (subscriptions (managed w)) t) as Hr.
    { intros (s & Hin & <-). apply Ht, list_elem_of_fmap_2. by apply Hsnap. }
    right. split; [done|]. destruct Hs as [(id & Hp & _)|Hs]; [|done].
    destruct Hr. by apply (pending_recorded _ Hc _ _ _ Hp).
Qed.

Lemma handle_invariant w b : invariant w → invariant (handle w b).
Proof.
  intros [Hc Hs]. unfold handle. destruct (received w) as [|c rest] eqn:Hr; [done|].
  set (w' := w <| held := _ |> <| received := _ |> <| answers := _ |>).
  assert (in_flight w' = in_flight w) as Hf.
  { unfold in_flight. simpl. rewrite Hr, fmap_app, <-app_assoc. done. }
  split.
  - apply (coherent_same w); [done|done|done|by rewrite Hf|exact (pc_ok _ Hc)|by right].
  - assert (∀ c' id op t, c' ∈ c :: rest → command_id c' = id → pending_on (managed w) t id op →
      op = command_operation c' ∧ t = command_topic c') as Hmatch.
    { intros c' id op t Hin <- (s & Hp & <-). rewrite <-Hr in Hin.
      eapply (in_flight_pending _ Hc) in Hp; [|by apply elem_of_app; right]. simpl in Hp. naive_solver. }
    intros Hcon t. specialize (Hs Hcon t). subst w'. simpl. rewrite Hr in Hs.
    destruct (pc w); try (destruct (consuming w);
      [apply confirmed_handle; [by eauto|done]|by apply unsent_handle]).
    destruct Hs as [|Hs]; [by left|right]. apply confirmed_handle; [by eauto|done].
Qed.

Lemma answer_invariant w c (accepted : bool) (unread : list (command * bool)) :
  invariant w → consuming w = true → resubscribing (pc w) = false → answers w = (c, accepted) :: unread →
  invariant (w <| managed := handleControl (managed w) (answer c accepted) |> <| answers := unread |>).
Proof.
  intros [Hc Hs] Hcons Hres Ha.
  assert (in_flight w = c :: (unread.*1 ++ received w)) as Hf by (unfold in_flight; by rewrite Ha).
  rewrite handle_answer.
  2: { pose proof (in_flight_used _ Hc) as Hu. rewrite Hf in Hu. apply Forall_cons in Hu as [(n & _ & Hn) _].
       by exists n. }
  2: { intros p Hp. eapply (in_flight_pending _ Hc); [|done]. rewrite Hf. by left. }
  split.
  - apply (coherent_settle w _ (command_id c) (negb accepted)); try done.
    + rewrite Hf. unfold in_flight. simpl. by constructor.
    + right. split; [done|]. intros Hw. apply (writing_fresh _ Hc _ Hw). rewrite Hf. by left.
  - rewrite synchronized_status in Hs |- * by done. intros Hcon t. specialize (Hs Hcon t).
    unfold status. simpl. rewrite Hcons.
    destruct (pending (managed w) !! command_id c) as [p|] eqn:Hp; [by eapply confirmed_answer|].
    unfold settle. rewrite Hp. unfold status in Hs. rewrite Hcons, Ha in Hs.
    destruct Hs as [?|(id & op & Hon & Hs)]; [by left|right]. exists id, op. split; [done|].
    case_decide; [done|]. eapply underway_read; [|done]. intros <-.
    destruct Hon as (s & Hon & _). congruence.
Qed.

Lemma next_invariant w environment err s todo :
  invariant w → pc w = Resubscribing (s :: todo) → invariant (resubscribeNext w environment err s todo).
Proof.
  intros [Hc Hs] Hpc. unfold resubscribeNext.
  pose proof (encode_counter environment Subscribe s (nextID w)) as Hn.
  pose proof (pc_ok _ Hc) as Hl. rewrite Hpc in Hl. destruct Hl as (Hv & Hnd & Hall).
  apply Forall_cons in Hv as [Hv Htodo]. apply Forall_cons in Hall as [[Hr Hq] Hall].
  apply NoDup_cons in Hnd as [Hnd0 Hnd].
  destruct (encodeStreamCommand environment Subscribe s (nextID w)) as [n' encoded] eqn:He; simpl in Hn.
  assert (invariant (fail_connection (w <| nextID := n' |>))) as Hfail.
  { split; [apply (coherent_same w); try done; by left|]. by rewrite synchronized_status. }
  destruct encoded as [[payload id]|err']; [|done]. destruct err; [done|].
  apply encode_Ok in He as (n & Hn' & -> & Hread); [|done].
  assert (pending (managed w) !! commandID n = None) as Hid.
  { destruct (pending (managed w) !! commandID n) eqn:Hp; [|done]. apply (pending_valid _ Hc) in Hp as [_ Hu].
    destruct (used_fresh _ n _ Hu ltac:(lia) eq_refl). }
  set (m := MkManagedStream _ _).
  assert (∀ t, t ≠ streamTopic s → quiet (managed w) t → quiet m t) as Hquiet.
  { intros t Ht Hqt id op [(_ & _ & ?)|Hp]%pending_on_insert; [done| |done]. by eapply Hqt. }
  assert (location_ok m (Resubscribing todo)) as Hlok.
  { split_and!; [done..|]. rewrite Forall_forall in Hall |- *. intros s' Hs'.
    destruct (Hall _ Hs'). split; [done|]. apply Hquiet; [|done]. intros Heq. apply Hnd0. rewrite <-Heq.
    by apply list_elem_of_fmap_2. }
  split.
  - apply (coherent_record w _ n Subscribe s (subscriptions (managed w))); try done.
    + unfold deliver. simpl. destruct (connected w); simpl; lia.
    + by apply recorded_valid.
    + intros t. destruct (decide (t = streamTopic s)) as [->|]; naive_solver.
    + unfold deliver, in_flight. simpl. destruct (connected w); [right|by left].
      split; [|done]. simpl. by rewrite app_assoc, Hread.
  - unfold deliver. simpl. destruct (connected w) eqn:Hcon; [|intros Hcon'; simpl in Hcon'; by rewrite Hcon in Hcon'].
    intros _ t. simpl. specialize (Hs ltac:(by rewrite Hcon) t). rewrite Hpc, fmap_cons, elem_of_cons in Hs.
    destruct (decide (t ∈ streamTopic <$> todo)) as [|Ht]; [by left|right]. rewrite Hread.
    apply confirmed_send; simpl.
    + intros id op [(-> & _ & _)|Hp]%pending_on_insert; [done| |done]. by destruct (Hq _ _ Hp).
    + apply pending_on_insert; [done|by left].
    + intros Hne. apply confirmed_other; [done..|]. naive_solver.
Qed.

Lemma step_invariant w i : invariant w → careful w i → invariant (step w i).
Proof.
  intros Hw Hi. pose proof Hw as [Hc Hs].
  destruct i as [op subs| |environment|err| |environment err|accept| |commands| |]; simpl in *.
  - destruct (pc w) eqn:Hpc; try done.
    eapply invariant_same; [exact Hw|done|done|by rewrite Hpc|done|by rewrite Hpc|done|done].
  - destruct (pc w) as [|op [|s todo]| | |] eqn:Hpc; try done.
    + eapply invariant_same; [exact Hw|done|done|by rewrite Hpc|done|by rewrite Hpc|done|done].
    + by apply check_invariant.
  - destruct (pc w) eqn:Hpc; try done. by apply encode_invariant.
  - destruct (pc w) eqn:Hpc; try done. by apply write_invariant.
  - destruct (pc w) eqn:Hpc; try done. destruct (connected w) eqn:Hcon; [|done].
    destruct (consuming w) eqn:Hcons; [done|]. apply resubscribe_invariant; [done..|by rewrite Hcon|done].
  - destruct (pc w) as [| | | |[|s todo]] eqn:Hpc; try done; [|by apply next_invariant].
    split; [by apply (coherent_same w); [..|left]|].
    rewrite synchronized_status by done. intros Hcon t. specialize (Hs Hcon t). rewrite Hpc in Hs.
    simpl in Hcon. unfold status. simpl. destruct (connected w); [|done].
    destruct Hs as [?%elem_of_nil|?]; done.
  - by apply handle_invariant.
  - assert (resubscribing (pc w) = false → invariant
      (match consuming w, answers w with
       | true, (c, accepted) :: rest =>
           w <| managed := handleControl (managed w) (answer c accepted) |> <| answers := rest |>
       | _, _ => w
       end)) as Hans; [|by destruct (pc w); try apply Hans].
    intros Hres. destruct (consuming w) eqn:Hcons; [|done].
    destruct (answers w) as [|[c accepted] unread] eqn:Ha; [done|]. by apply answer_invariant.
  - split; [apply (coherent_same w); try done; [simpl; lia|exact (pc_ok _ Hc)|by right]|].
    intros Hcon t. exact (Hs Hcon t).
  - assert (resubscribing (pc w) = false → invariant
      (if connected w then w
       else w <| connected := true |> <| consuming := false |> <| held := ∅ |>
             <| received := [] |> <| answers := [] |>)) as Hcon; [|by destruct (pc w); try apply Hcon].
    intros Hres. destruct (connected w); [done|]. split.
    + apply (coherent_same w); try done; [apply sublist_nil_l|exact (pc_ok _ Hc)|by right].
    + rewrite synchronized_status by done. intros _ t. right. split; [done|]. intros c []%elem_of_nil.
  - split; [apply (coherent_same w); try done; [exact (pc_ok _ Hc)|by right]|]. by intros [].
Qed.

Lemma reachable_invariant w : reachable w → invariant w.
Proof.
  induction 1 as [subs counter Hs|w i _ IH Hi]; [|by apply step_invariant].
  split; [by apply initial_coherent|]. by intros [].
Qed.

(** ** Agreement *)

Lemma reachable_run w (inputs : list event) :
  reachable w → (∀ w i, i ∈ inputs → careful w i) → reachable (run w inputs).
Proof.
  revert w. induction inputs as [|i inputs IH]; intros w Hw Hi; [done|].
  apply IH; [|set_solver]. apply reachable_step; [done|]. apply Hi. by left.
Qed.

Lemma drained_agree w :
  reachable w → connected w → consuming w = true → pc w = Idle → received w = [] → answers w = [] →
  pending (managed w) = ∅ ∧ ∀ t, t ∈ held w ↔ recorded (subscriptions (managed w)) t.
Proof.
  intros [Hc Hs]%reachable_invariant Hcon Hcons Hpc Hr Ha.
  rewrite synchronized_status in Hs by by rewrite Hpc.
  assert (∀ t, quiet (managed w) t ∧ (t ∈ held w ↔ recorded (subscriptions (managed w)) t)) as Ht.
  { intros t. specialize (Hs Hcon t). unfold status in Hs. rewrite Hcons, Hpc, Hr, Ha in Hs. simpl in Hs.
    destruct Hs as [[Hq Hs]|(id & op & Hp & Hs)].
    - split; [done|]. destruct Hs as [(? & ? & _)|(? & ? & _)]; naive_solver.
    - rewrite decide_False in Hs by done.
      destruct Hs as [(l1 & c & l2 & Hnil & _)|(c & v & Hin%elem_of_nil & _)]; [|done].
      by destruct l1. }
  split; [|intros t; apply Ht]. apply map_empty. intros id.
  destruct (pending (managed w) !! id) as [p|] eqn:Hp; [|done].
  by destruct (proj1 (Ht _) _ _ (pending_on_In _ _ _ Hp)).
Qed.

Lemma run_handle w (verdicts : list bool) :
  length verdicts = length (received w) →
  let w' := run w (InHandle <$> verdicts) in
  received w' = [] ∧ length (answers w') = (length (answers w) + length (received w))%nat ∧
  managed w' = managed w ∧ pc w' = pc w ∧ connected w' = connected w ∧ consuming w' = consuming w.
Proof.
  simpl. revert w. induction verdicts as [|b verdicts IH]; intros w Hlen.
  - simpl in *. destruct (received w); [|done]. simpl. split_and!; auto.
  - destruct (received w) as [|c rest] eqn:Hr; [done|].
    assert (handle w b = w <| held := after (held w) (b || in_effect (held w) c) c |>
      <| received := rest |> <| answers := answers w ++ [(c, b || in_effect (held w) c)] |>) as Hw.
    { unfold handle. by rewrite Hr. }
    change (run w (InHandle <$> b :: verdicts)) with (run (handle w b) (InHandle <$> verdicts)).
    rewrite Hw. destruct (IH (handle w b)) as (H1 & H2 & H3 & H4 & H5 & H6); rewrite Hw in *.
    { simpl in *. lia. }
    rewrite H1, H2, H3, H4, H5, H6. simpl. rewrite length_app. simpl. split_and!; auto; lia.
Qed.

Lemma run_answers w :
  consuming w = true → pc w = Idle →
  let w' := run w (replicate (length (answers w)) InAnswer) in
  answers w' = [] ∧ received w' = received w ∧ pc w' = Idle ∧ connected w' = connected w ∧
  consuming w' = true ∧ held w' = held w.
Proof.
  simpl. intros Hcons Hpc. remember (length (answers w)) as n eqn:Hn. revert w Hcons Hpc Hn.
  induction n as [|n IH]; intros w Hcons Hpc Hn.
  - simpl. destruct (answers w); [|done]. by split_and!.
  - destruct (answers w) as [|[c accepted] unread] eqn:Ha; [done|]. injection Hn as Hn.
    set (w1 := w <| managed := handleControl (managed w) (answer c accepted) |> <| answers := unread |>).
    assert (step w InAnswer = w1) as Hw1 by (simpl; by rewrite Hpc, Hcons, Ha).
    change (run w (replicate (S n) InAnswer)) with (run (step w InAnswer) (replicate n InAnswer)).
    rewrite Hw1. by destruct (IH w1).
Qed.

(** Whatever the exchange says to what is on its way, the stream and the
    exchange agree once it has said it. *)
Lemma answered_agree w (verdicts : list bool) :
  reachable w → connected w → consuming w = true → pc w = Idle →
  length verdicts = length (received w) →
  let w' := run w ((InHandle <$> verdicts) ++ replicate (length (answers w) + length verdicts) InAnswer) in
  pending (managed w') = ∅ ∧ ∀ t, t ∈ held w' ↔ recorded (subscriptions (managed w')) t.
Proof.
  intros Hw Hcon Hcons Hpc Hlen w'.
  assert (reachable w') as Hw'.
  { apply reachable_run; [done|]. intros w0 i [(b & -> & _)%list_elem_of_fmap|[-> _]%elem_of_replicate]%elem_of_app;
      done. }
  unfold w', run in *. rewrite foldl_app in *. fold (run w (InHandle <$> verdicts)) in *.
  destruct (run_handle w verdicts Hlen) as (H1 & H2 & H3 & H4 & H5 & H6).
  rewrite Hlen, <-H2 in *. set (w1 := run w (InHandle <$> verdicts)) in *.
  destruct (run_answers w1) as (A1 & A2 & A3 & A4 & A5 & A6); [congruence..|].
  unfold run in A1, A2, A3, A4, A5. apply drained_agree; [done| |done|done|congruence|done].
  by rewrite A4, H5.
Qed.

End laws.
