(* ===== verification/StreamReconnect.v ===== *)
(** * A confirmed stream comes back after its connection is lost, or loses a subscription

    When a new connection subscribes again to everything recorded and the
    exchange agrees, the recorded set is what it was and the exchange streams it.
    A subscription that is made, withdrawn and made again before the first
    command is refused is streamed without being recorded. *)

From S2P Require Import Prelude GoStrings Errors StreamCommands.

Section reconnect.
Context {Subscription Environment Payload Message : Type}
  `{C : !CommandStream Subscription Environment Payload Message}
  `{L : !CommandStreamLaws Subscription Environment Payload Message}.

Implicit Types (s : Subscription) (environment : Environment).

Abbreviation state := (world (Subscription := Subscription) (Payload := Payload)).
Abbreviation event := (input (Subscription := Subscription) (Environment := Environment)).
Implicit Types (w : state).

(** The inputs of a reconnection: a connection, the hook with an environment for
    each recorded subscription, and the exchange's agreement with its answers. *)
Definition resubscription (environments : list Environment) : list event :=
  [InConnect; InResubscribe] ++ ((λ environment, InResubscribeNext environment None) <$> environments).

Definition agreement (n : nat) : list event := replicate n (InHandle true) ++ replicate n InAnswer.

(** Every command can be encoded under the environment. *)
Definition encodable environment : Prop :=
  ∀ op s counter, ∃ counter' payload id, encodeStreamCommand environment op s counter = (counter', Ok (payload, id)).

Lemma run_app w (inputs inputs' : list event) : run w (inputs ++ inputs') = run (run w inputs) inputs'.
Proof. apply foldl_app. Qed.

Lemma run_careful w (inputs : list event) :
  reachable w →
  Forall (λ i, match i with InChange _ _ | InCheck => False | _ => True end) inputs → reachable (run w inputs).
Proof.
  intros Hw Hi. apply reachable_run; [done|]. intros w' i Hin.
  rewrite Forall_forall in Hi. specialize (Hi i Hin). by destruct i.
Qed.

(** The loop of [resubscribe]. *)
Lemma run_next w (environments : list Environment) todo :
  pc w = Resubscribing todo → connected w = true → length environments = length todo →
  Forall encodable environments →
  let w' := run w ((λ environment, InResubscribeNext environment None) <$> environments) in
  pc w' = Resubscribing [] ∧ connected w' = true ∧ held w' = held w ∧ answers w' = answers w ∧
  subscriptions (managed w') = subscriptions (managed w) ∧
  length (received w') = (length (received w) + length todo)%nat.
Proof.
  intros Hpc Hcon Hlen Henv. revert w todo Hpc Hcon Hlen.
  induction Henv as [|environment environments He _ IH]; intros w [|s todo] Hpc Hcon Hlen; try done.
  - simpl in Hlen. injection Hlen as Hlen.
    destruct (He Subscribe s (nextID w)) as (counter' & payload & id & Henc).
    set (w1 := step w (InResubscribeNext environment None)).
    change (run w _) with (run w1 ((λ environment, InResubscribeNext environment None) <$> environments)).
    assert (w1 = resubscribeNext w environment None s todo) as Hw1 by (unfold w1; simpl; by rewrite Hpc).
    unfold resubscribeNext in Hw1. rewrite Henc in Hw1. unfold deliver in Hw1. simpl in Hw1. rewrite Hcon in Hw1.
    destruct (IH w1 todo) as (H1 & H2 & H3 & H4 & H5 & H6); [by rewrite Hw1..|done|].
    simpl. rewrite H1, H2, H3, H4, H5, H6, Hw1. simpl. rewrite length_app. simpl. split_and!; auto; lia.
Qed.

(** Answers that agree leave the recorded set alone. *)
Lemma run_agreed w n :
  reachable w → consuming w = true → pc w = Idle → Forall (λ a, a.2 = true) (answers w) →
  subscriptions (managed (run w (replicate n InAnswer))) = subscriptions (managed w).
Proof.
  revert w. induction n as [|n IH]; intros w Hw Hcons Hpc Hall; [done|].
  change (run w (replicate (S n) InAnswer)) with (run (step w InAnswer) (replicate n InAnswer)).
  assert (step w InAnswer = match answers w with
    | (c, accepted) :: rest =>
        w <| managed := handleControl (managed w) (answer c accepted) |> <| answers := rest |>
    | [] => w end) as Hs by (simpl; by rewrite Hpc, Hcons).
  assert (reachable (step w InAnswer)) as Hr by by apply reachable_step.
  rewrite Hs in *. destruct (answers w) as [|[c accepted] rest] eqn:Ha; [apply IH; by rewrite ?Ha|].
  apply Forall_cons in Hall as [Hacc Hall]. simpl in Hacc. subst accepted.
  rewrite IH; [|done..]. simpl. destruct (reachable_invariant _ Hw) as [Hc _].
  assert (in_flight w = c :: (rest.*1 ++ received w)) as Hf by (unfold in_flight; by rewrite Ha).
  rewrite handle_answer.
  - unfold settle. by destruct (pending (managed w) !! command_id c).
  - pose proof (in_flight_used _ Hc) as Hu. rewrite Hf in Hu. apply Forall_cons in Hu as [(k & _ & Hk) _].
    by exists k.
  - intros p Hp. eapply (in_flight_pending _ Hc); [|done]. rewrite Hf. by left.
Qed.

Lemma run_accepted w n :
  Forall (λ a, a.2 = true) (answers w) → Forall (λ a, a.2 = true) (answers (run w (replicate n (InHandle true)))).
Proof.
  revert w. induction n as [|n IH]; intros w Hall; [done|].
  change (run w (replicate (S n) (InHandle true))) with (run (handle w true) (replicate n (InHandle true))).
  apply IH. unfold handle. destruct (received w) as [|c rest]; [done|]. simpl. apply Forall_app. by auto.
Qed.

Lemma length_snapshot (m : managedStream Subscription) :
  length (snapshotSubscriptions m) = size (subscriptions m).
Proof.
  unfold snapshotSubscriptions. rewrite <-size_dom. unfold size, set_size. simpl.
  set (keys := elements (dom (subscriptions m))).
  rewrite <-(Permutation_length (merge_sort_Permutation string_le keys)).
  assert (∀ key, key ∈ merge_sort string_le keys → is_Some (subscriptions m !! key)) as Hkeys.
  { intros key. rewrite merge_sort_Permutation. unfold keys. rewrite elem_of_elements. by apply elem_of_dom. }
  induction (merge_sort string_le keys) as [|key rest IH]; simpl; [done|].
  destruct (Hkeys key) as [s ->]; [by left|]. simpl. f_equal. apply IH. intros key' Hkey'. apply Hkeys. by right.
Qed.

(** A stream that lost its connection, whatever was on its way, has its recorded
    subscriptions again once a new connection has taken its commands. *)
Lemma reconnect_restores w (environments : list Environment) :
  reachable w → pc w = Idle → connected w = false → Forall encodable environments →
  let n := size (subscriptions (managed w)) in
  n = length environments →
  ∀ environment,
  let w' := run w (resubscription (environments ++ [environment]) ++ agreement n) in
  subscriptions (managed w') = subscriptions (managed w) ∧ pending (managed w') = ∅ ∧
  ∀ t, t ∈ held w' ↔ recorded (subscriptions (managed w)) t.
Proof.
  intros Hw Hpc Hcon Henv n Hn environment w'.
  set (w1 := run w [InConnect; InResubscribe]).
  assert (w1 = w <| connected := true |> <| consuming := false |> <| held := ∅ |> <| received := [] |>
    <| answers := [] |> <| managed := MkManagedStream (subscriptions (managed w)) ∅ |>
    <| pc := Resubscribing (snapshotSubscriptions (managed w)) |>) as Hw1.
  { clear -Hpc Hcon. unfold w1, run. destruct w. simpl in *. by subst. }
  destruct (run_next w1 environments (snapshotSubscriptions (managed w)))
    as (N1 & N2 & N3 & N4 & N5 & N6); [by rewrite Hw1..|by rewrite length_snapshot|done|].
  set (w2 := run w1 _) in *.
  assert (run w (resubscription (environments ++ [environment])) =
    w2 <| pc := Idle |> <| consuming := true |>) as Hw2.
  { unfold resubscription. rewrite run_app, fmap_app, run_app. fold w1 w2. unfold run. simpl.
    by rewrite N1, N2. }
  assert (reachable (w2 <| pc := Idle |> <| consuming := true |>)) as Hr2.
  { rewrite <-Hw2. apply run_careful; [done|]. unfold resubscription. rewrite Forall_app, Forall_fmap.
    split; [by repeat constructor|]. by apply Forall_true. }
  unfold w'. rewrite run_app, Hw2. set (w3 := w2 <| pc := Idle |> <| consuming := true |>) in *.
  assert (length (received w3) = n) as Hn3.
  { unfold w3. simpl. rewrite N6, Hw1. simpl. by rewrite length_snapshot. }
  assert (answers w3 = []) as Ha3 by (unfold w3; simpl; by rewrite N4, Hw1).
  destruct (answered_agree w3 (replicate n true)) as [Hp Hh];
    [done|by rewrite (N2 : connected w3 = true)|done|done|by rewrite length_replicate|].
  rewrite Ha3, length_replicate, fmap_replicate in Hp, Hh. simpl in Hp, Hh.
  fold (agreement n) in *.
  destruct (run_handle w3 (replicate n true)) as (K1 & K2 & K3 & K4 & K5 & K6);
    [by rewrite length_replicate|]. rewrite fmap_replicate in *.
  set (w4 := run w3 (replicate n (InHandle true))) in *.
  assert (subscriptions (managed (run w3 (agreement n))) = subscriptions (managed w)) as Hsubs.
  { unfold agreement. rewrite run_app. fold w4. rewrite run_agreed.
    - rewrite K3. unfold w3. simpl. by rewrite N5, Hw1.
    - apply run_careful; [done|]. by apply Forall_replicate.
    - by rewrite K6.
    - by rewrite K4.
    - apply run_accepted. by rewrite Ha3. }
  rewrite <-Hsubs. by split_and!.
Qed.

End reconnect.

(** ** A refusal that comes late *)

Section late.
Context {Subscription Environment Payload Message : Type}
  `{C : !CommandStream Subscription Environment Payload Message}.

Definition change_inputs (op : Operation) (s : Subscription) (environment : Environment) : list input :=
  [InChange op [s]; InCheck; InEncode environment; InWrite None; InCheck].

(** A subscription is made, withdrawn and made again; the exchange refuses the
    first command only, and its answers are read. *)
Definition hasty_inputs (s : Subscription) (first second third : Environment) : list input :=
  change_inputs Subscribe s first ++ change_inputs Unsubscribe s second ++ change_inputs Subscribe s third ++
  (InHandle <$> [false; true; true]) ++ replicate 3 InAnswer.

(** Nothing is on its way, and yet the exchange streams what is not recorded. *)
Definition overlooks `{L : !CommandStreamLaws Subscription Environment Payload Message}
    (w : world (Subscription := Subscription) (Payload := Payload)) (t : Topic) : Prop :=
  connected w = true ∧ consuming w = true ∧ pc w = Idle ∧ received w = [] ∧ answers w = [] ∧
  pending (managed w) = ∅ ∧ t ∈ held w ∧ ¬ recorded (subscriptions (managed w)) t.

Context `{L : !CommandStreamLaws Subscription Environment Payload Message}.

Implicit Types (m : managedStream Subscription) (s : Subscription) (op : Operation).

Lemma not_recorded (subs : gmap string Subscription) t :
  Forall (λ entry, streamTopic entry.2 ≠ t) (map_to_list subs) → ¬ recorded subs t.
Proof.
  intros Hall (s & Hs & Ht). rewrite Forall_forall in Hall.
  by apply (Hall (streamSubscriptionKey s, s)); [apply elem_of_map_to_list|].
Qed.

(** A change of one subscription that is commanded and written. *)
Lemma change_run m n ret h rec ans op s environment n' payload id :
  (match op with
   | Subscribe => subscriptions m !! streamSubscriptionKey s = None ∧
                  Z.of_nat (size (subscriptions m)) < maximumStreamSubscriptions
   | Unsubscribe => is_Some (subscriptions m !! streamSubscriptionKey s)
   end) →
  encodeStreamCommand environment op s n = (n', Ok (payload, id)) →
  read payload = MkCommand id op (streamTopic s) →
  run (MkWorld m n Idle ret true true h rec ans) (change_inputs op s environment) =
  MkWorld (record_command m id op s) n' Idle (ret ++ [None]) true true h
    (rec ++ [MkCommand id op (streamTopic s)]) ans.
Proof.
  intros Hop Henc Hread. unfold run, change_inputs. cbn [foldl step pc]. unfold check. simpl.
  assert (bool_decide (op = Subscribe) && bool_decide (is_Some (subscriptions m !! streamSubscriptionKey s)) ||
          bool_decide (op = Unsubscribe) && negb (bool_decide (is_Some (subscriptions m !! streamSubscriptionKey s)))
          = false) as ->.
  { destruct op; simpl.
    - destruct Hop as [-> _]. done.
    - by rewrite bool_decide_eq_true_2. }
  assert (bool_decide (op = Subscribe) && bool_decide (maximumStreamSubscriptions ≤ Z.of_nat (size (subscriptions m)))
          = false) as ->.
  { destruct op; [|done]. simpl. apply bool_decide_eq_false. destruct Hop. lia. }
  simpl. unfold encode. simpl. rewrite Henc. simpl. unfold deliver. simpl. by rewrite Hread.
Qed.

Lemma settle_pending m id failed : pending (settle m id failed) = delete id (pending m).
Proof.
  unfold settle. destruct (pending m !! id) as [p|] eqn:Hp; [by destruct failed|by rewrite delete_id].
Qed.

(** The three answers are read. *)
Lemma hasty_settled m id1 id2 id3 s :
  pending m = ∅ → subscriptions m !! streamSubscriptionKey s = None →
  id1 ≠ id2 → id1 ≠ id3 → id2 ≠ id3 →
  settle (settle (settle (record_command (record_command (record_command m id1 Subscribe s) id2 Unsubscribe s)
    id3 Subscribe s) id1 true) id2 false) id3 false = m.
Proof.
  destruct m as [subs pend]. simpl. intros -> Hs H12 H13 H23. unfold settle, record_command, rollbackCommandLocked.
  simpl. repeat (simplify_map_eq; simpl). f_equal.
  - apply map_eq. intros k. destruct (decide (k = streamSubscriptionKey s)) as [->|]; by simplify_map_eq.
  - apply map_eq. intros k. by repeat (rewrite lookup_delete || rewrite lookup_insert || case_decide); simplify_map_eq.
Qed.

Lemma nothing_pending_on (m : managedStream Subscription) t :
  Forall (λ entry, streamTopic (subscription entry.2) ≠ t) (map_to_list (pending m)) →
  ∀ id op, ¬ pending_on m t id op.
Proof.
  intros Hall id op (s & Hs & Ht). rewrite Forall_forall in Hall.
  by apply (Hall (id, MkPendingStreamCommand op s)); [apply elem_of_map_to_list|].
Qed.
(** The exchange refuses the first command and obeys the others. *)
Lemma hasty_handled m n ret h id1 id2 id3 t :
  t ∉ h →
  run (MkWorld m n Idle ret true true h
         [MkCommand id1 Subscribe t; MkCommand id2 Unsubscribe t; MkCommand id3 Subscribe t] [])
    (InHandle <$> [false; true; true]) =
  MkWorld m n Idle ret true true ({[t]} ∪ (h ∖ {[t]})) []
    [(MkCommand id1 Subscribe t, false); (MkCommand id2 Unsubscribe t, true); (MkCommand id3 Subscribe t, true)].
Proof.
  intros Ht. unfold run. simpl. unfold handle, in_effect, obey. simpl.
  by rewrite (bool_decide_eq_false_2 (t ∈ h)).
Qed.

Lemma hasty_answered m n ret h a1 a2 a3 :
  run (MkWorld m n Idle ret true true h [] [a1; a2; a3]) (replicate 3 InAnswer) =
  MkWorld (handleControl (handleControl (handleControl m (answer a1.1 a1.2)) (answer a2.1 a2.2)) (answer a3.1 a3.2))
    n Idle ret true true h [] [].
Proof. by destruct a1, a2, a3. Qed.

(** The answers in order undo the last command with the first. *)
Lemma hasty_control m k1 k2 k3 s :
  k1 ≠ k2 → k1 ≠ k3 → k2 ≠ k3 → pending m = ∅ → subscriptions m !! streamSubscriptionKey s = None →
  let m3 := record_command (record_command (record_command m (commandID k1) Subscribe s)
    (commandID k2) Unsubscribe s) (commandID k3) Subscribe s in
  handleControl (handleControl (handleControl m3
    (answer (MkCommand (commandID k1) Subscribe (streamTopic s)) false))
    (answer (MkCommand (commandID k2) Unsubscribe (streamTopic s)) true))
    (answer (MkCommand (commandID k3) Subscribe (streamTopic s)) true) = m.
Proof.
  intros D12 D13 D23 Hpend Habsent. cbv zeta.
  assert (commandID k1 ≠ commandID k2 ∧ commandID k1 ≠ commandID k3 ∧ commandID k2 ≠ commandID k3) as (E12 & E13 & E23)
    by (split_and!; by intros ?%(inj commandID)).
  rewrite (handle_answer _ (MkCommand (commandID k1) _ _)); [|by eexists|].
  2: { intros p. simpl. rewrite !lookup_insert_ne, lookup_insert_eq by done. by intros [= <-]. }
  rewrite (handle_answer _ (MkCommand (commandID k2) _ _)); [|by eexists|].
  2: { intros p. rewrite settle_pending. simpl. rewrite lookup_delete_ne, lookup_insert_ne, lookup_insert_eq by done.
       by intros [= <-]. }
  rewrite (handle_answer _ (MkCommand (commandID k3) _ _)); [|by eexists|].
  2: { intros p. rewrite !settle_pending. simpl. rewrite !lookup_delete_ne, lookup_insert_eq by done.
       by intros [= <-]. }
  by apply hasty_settled.
Qed.

Lemma hasty_run m n ret h s first second third :
  valid_subscription s → pending m = ∅ → subscriptions m !! streamSubscriptionKey s = None →
  Z.of_nat (size (subscriptions m)) < maximumStreamSubscriptions → streamTopic s ∉ h →
  encodable first → encodable second → encodable third →
  ∃ n' ret',
    run (MkWorld m n Idle ret true true h [] []) (hasty_inputs s first second third) =
    MkWorld m n' Idle ret' true true ({[streamTopic s]} ∪ (h ∖ {[streamTopic s]})) [] [].
Proof.
  intros Hs Hpend Habsent Hroom Hheld E1 E2 E3.
  destruct (E1 Subscribe s n) as (n1 & p1 & id1 & H1).
  destruct (E2 Unsubscribe s n1) as (n2 & p2 & id2 & H2).
  destruct (E3 Subscribe s n2) as (n3 & p3 & id3 & H3).
  pose proof (encode_Ok _ _ _ _ _ _ _ Hs H1) as (k1 & Hk1 & -> & R1).
  pose proof (encode_Ok _ _ _ _ _ _ _ Hs H2) as (k2 & Hk2 & -> & R2).
  pose proof (encode_Ok _ _ _ _ _ _ _ Hs H3) as (k3 & Hk3 & -> & R3).
  exists n3, (((ret ++ [None]) ++ [None]) ++ [None]). unfold hasty_inputs. rewrite !run_app.
  rewrite (change_run m n _ _ _ _ Subscribe s first n1 p1 (commandID k1)) by done.
  rewrite (change_run _ n1 _ _ _ _ Unsubscribe s second n2 p2 (commandID k2)); [|simpl|done|done].
  2: { rewrite lookup_insert_eq. by eexists. }
  rewrite (change_run _ n2 _ _ _ _ Subscribe s third n3 p3 (commandID k3)); [|simpl|done|done].
  2: { by rewrite delete_insert_eq, delete_id, Habsent. }
  cbn [app]. rewrite (hasty_handled _ n3) by done. rewrite hasty_answered. cbn [fst snd].
  by rewrite hasty_control by (done || lia).
Qed.

(** A stream without a subscription sends nothing to withdraw it. *)
Lemma unrecorded_unsubscribe w s environment :
  pc w = Idle → subscriptions (managed w) !! streamSubscriptionKey s = None →
  received (run w (change_inputs Unsubscribe s environment)) = received w.
Proof.
  intros Hpc Habsent. destruct w as [m n p ret c cons h rec ans]. simpl in *. subst p.
  unfold run, change_inputs. cbn [foldl step pc]. unfold check. simpl.
  rewrite Habsent. rewrite (bool_decide_eq_false_2 (is_Some None)) by (by intros []). done.
Qed.
End late.
