(* ===== verification/StreamClient.v ===== *)
(** * What the stream clients of all exchanges share

    Every websocket.go builds its client from a configuration, resolves the
    egress route of a stream from the options of a call, refuses a private
    stream without the credential, route and permission it needs, and hands
    [Session] a configuration with the client's reconnect policy.  The
    definitions here are what these files say alike; a file per exchange has
    its addresses, durations, subscriptions and commands.  The parser of
    package net/url is a parameter. *)

From S2P Require Import Prelude GoStrings Decimals Errors Options Credential Executor Session ClientErrors.
From S2P Require Import Unified SpotAdapter StreamCommands.

(** ** Addresses *)

(** A parsed URL; [URL_String] is [URL.String]. *)
Record ParsedURL : Type := MkParsedURL {
  parsed_URL :> URL;
  Path : string;
  RawQuery : string;
  URL_String : string
}.

Abbreviation url_parser := (string → option ParsedURL).

(** [if value == "" { value = text }] and [if value == 0 { value = number }]. *)
Definition orText (value text : string) : string := if bool_decide (value = "") then text else value.
Definition orNumber (value number : Z) : Z := if bool_decide (value = 0) then number else value.

(** The checks of the functions [validate...URL]: [malformed] is the exchange's
    own part of the first, [text] what is kept of the address. *)
Definition validateURL (parse : url_parser) (malformed : ParsedURL → bool) (text : ParsedURL → string)
    (value : string) (allowInsecure : bool) : result error string :=
  match parse value with
  | None => Err (Errorf "WebSocket URL is malformed")
  | Some parsed =>
      require (negb (bool_decide (Host parsed = "") || hasUser parsed || malformed parsed ||
                     negb (bool_decide (Fragment parsed = ""))))
        (Errorf "WebSocket URL is malformed");;
      require (bool_decide (Scheme parsed = "wss") || allowInsecure && bool_decide (Scheme parsed = "ws"))
        (Errorf "WebSocket URL must use WSS");;
      Ok (text parsed)
  end.

(** [fmt.Errorf("invalid ... URL: %w", err)]. *)
Definition labelled {A} (label : string) (r : result error A) : result error A :=
  match r with Ok a => Ok a | Err err => Err (Wrapf label err) end.

(** ** Clients *)

(** The fields that every [StreamClientConfig] has.  [Connector],
    [CredentialProvider] and [Observer] tell that the field is not nil; what they
    do is given where they are called. *)
Record StreamConfig : Type := MkStreamConfig {
  Connector : bool;
  Credentials : option Descriptor;
  CredentialProvider : bool;
  DefaultEgressRouteID : string;
  AllowInsecureWebSocket : bool;
  Observer : bool;
  ReconnectPolicy : option (error → bool);
  Backoff : option Session.Backoff;
  MaxReconnectAttempts : Z;
  PingInterval : Z;
  PingTimeout : Z
}.

(** The fields that every [StreamClient] has. *)
Record StreamClient : Type := MkStreamClient {
  credentials : option Descriptor;
  credentialProvider : bool;
  defaultRouteID : string;
  observer : bool;
  reconnectPolicy : option (error → bool);
  backoff : option Session.Backoff;
  maxReconnectAttempts : Z;
  pingInterval : Z;
  pingTimeout : Z
}.

(** The first checks of [NewStreamClient], for the exchange called [name]. *)
Definition streamRoute (name : string) (config : StreamConfig) : result error string :=
  require (Connector config) (Errorf (name +:+ " stream connector is required"));;
  let defaultRouteID := TrimSpace (DefaultEgressRouteID config) in
  require (negb (bool_decide (defaultRouteID = ""))) (Sentinel ErrMissingEgressRoute);;
  Ok defaultRouteID.

(** Its last checks; the copies of the descriptor's slices are the descriptor. *)
Definition streamCredentials (exchange name : string) (config : StreamConfig)
    : result error (option Descriptor) :=
  match Credentials config with
  | Some descriptor =>
      Validate descriptor;;
      require (bool_decide (Credential.Exchange descriptor = exchange))
        (Errorf ("credential exchange must be " +:+ name));;
      require (CredentialProvider config)
        (Errorf ("credential provider is required for private " +:+ name +:+ " streams"));;
      Ok (Some descriptor)
  | None =>
      require (negb (CredentialProvider config))
        (Errorf "credential descriptor is required with credential provider");;
      Ok None
  end.

Definition streamClient (config : StreamConfig) (route : string) (credentials : option Descriptor)
    (pingInterval pingTimeout : Z) : StreamClient :=
  MkStreamClient credentials (CredentialProvider config) route (Observer config)
    (ReconnectPolicy config) (Backoff config) (MaxReconnectAttempts config) pingInterval pingTimeout.

(** ** Streams *)

(** [resolveStreamRoute]. *)
Definition resolveRoute (name : string) (client : StreamClient)
    (options : list (option RequestOption)) : result error string :=
  resolved ← ResolveRequestOptions (defaultRouteID client) options;
  require (bool_decide (Timeout resolved = 0))
    (Errorf (name +:+ " stream timeout must be controlled by Run context"));;
  Ok (EgressRouteID resolved).

Definition streamAccountID (client : StreamClient) : string :=
  match credentials client with Some descriptor => AccountID descriptor | None => "" end.

(** [streamAuthenticationError] and [streamAuthorizationError]. *)
Definition authenticationError (exchange : string) (client : StreamClient) (cause : error) : error :=
  API (newAPIError ErrorAuthentication exchange (streamAccountID client) false cause).
Definition authorizationError (exchange : string) (client : StreamClient) (cause : error) : error :=
  API (newAPIError ErrorAuthorization exchange (streamAccountID client) false cause).

(** The checks of [PrivateStream] between its route and its session. *)
Definition requireCredentials (exchange name : string) (client : StreamClient) : result error Descriptor :=
  match credentials client, credentialProvider client with
  | Some descriptor, true => Ok descriptor
  | _, _ => Err (authenticationError exchange client (Errorf ("private " +:+ name +:+ " stream requires credentials")))
  end.

Definition requireAccess (exchange : string) (client : StreamClient) (descriptor : Descriptor)
    (route : string) : result error unit :=
  match RequireEgressRoute descriptor route with
  | Err err => Err (authorizationError exchange client err)
  | Ok _ =>
      match RequirePermission descriptor PermissionRead with
      | Err err => Err (authorizationError exchange client err)
      | Ok _ => Ok tt
      end
  end.

Definition privateAccess (exchange name : string) (client : StreamClient) (route : string)
    : result error Descriptor :=
  descriptor ← requireCredentials exchange name client;
  requireAccess exchange client descriptor route;;
  Ok descriptor.

(** A reconnect policy that gives up on the errors that [permanent] tells. *)
Definition policy (permanent : error → bool) (client : StreamClient) (cause : error) : bool :=
  if permanent cause then false
  else match reconnectPolicy client with
       | Some policy => policy cause
       | None => DefaultReconnectPolicy (Some cause)
       end.

(** [errors.Is] of the sentinels that another attempt does not cure. *)
Definition refusal (cause : error) : bool :=
  Is cause ErrAuthentication || Is cause ErrAuthorization || Is cause ErrValidation.

(** [newStreamSession], with a dial request or a source of them. *)
Definition newSession (parse : url_parser) (client : StreamClient) (policy : option (error → bool))
    (route : string) (request : option DialRequest) (onConnect : bool) : result error SessionConfig :=
  NewSession (λ text, parsed_URL <$> parse text)
    (MkSessionConfig true route (default (MkDialRequest "" ∅) request)
       (bool_decide (request = None)) onConnect (observer client) policy (backoff client)
       (maxReconnectAttempts client) 0 (pingInterval client) (pingTimeout client)).

(** A stream: its session, its subscriptions, and the flag of a private one. *)
Record Stream (Subscription : Type) : Type := MkStream {
  stream_session : SessionConfig;
  stream_managed : managedStream Subscription;
  stream_private : bool
}.
Arguments MkStream {_} _ _ _.
Arguments stream_session {_} _.
Arguments stream_managed {_} _.
Arguments stream_private {_} _.

(** [corestream.MessageText] and [MessageBinary]. *)
Definition MessageText : Z := 1.
Definition MessageBinary : Z := 2.

(** The function that [run] gives to the session: a message that does not decode
    asks for another connection, any other is handed to the handler. *)
Definition runMessage {State Decoded} (decode : Message → result error Decoded)
    (handleControl : State → Decoded → State) (state : State) (message : Message)
    : result error (State * Decoded) :=
  match decode message with
  | Err err => Err (default err (ReconnectOnMessageError (Some err)))
  | Ok decoded => Ok (handleControl state decoded, decoded)
  end.

(** ** Lists of subscriptions *)

(** The loop of [validateStreamSubscriptions]: each subscription is validated, and
    its key may occur once. *)
Definition checkDistinct {A B} (validate : A → result error B) (key : B → string) (duplicate : error)
    (seen : list B) (value : A) : result error (list B) :=
  validated ← validate value;
  require (negb (bool_decide (key validated ∈ key <$> seen))) duplicate;;
  Ok (seen ++ [validated]).

Definition validateList {A B} (validate : A → result error B) (key : B → string)
    (maximum : Z) (empty over duplicate : error) (values : list A) : result error (list B) :=
  require (negb (bool_decide (values = []))) empty;;
  require (negb (bool_decide (maximum < Z.of_nat (length values)))) over;;
  fold_result (checkDistinct validate key duplicate) [] values.

(** ** Keys

    A subscription is recorded under its fields, separated by NUL bytes. *)

Definition NUL : ascii := Ascii.ascii_of_N 0.

Fixpoint joinNUL (fields : list string) : string :=
  match fields with
  | [] => ""
  | [field] => field
  | field :: fields => field +:+ String NUL (joinNUL fields)
  end.

Definition no_nul (field : string) : Prop := string_forall (not_char NUL) field = true.

Lemma joinNUL_inj fields fields' :
  length fields = length fields' → Forall no_nul fields → Forall no_nul fields' →
  joinNUL fields = joinNUL fields' → fields = fields'.
Proof.
  intros Hlen. revert fields' Hlen. induction fields as [|x [|y fields] IH]; intros [|x' [|y' fields']] Hlen;
    try done.
  - by intros _ _ [= ->].
  - intros [Hx Hf]%Forall_cons [Hx' Hf']%Forall_cons Heq.
    apply cut_inj in Heq as [-> Heq]; [|done..]. f_equal. apply IH; [|done..]. simpl in *. lia.
Qed.

Lemma no_nul_pretty (z : Z) : no_nul (pretty z).
Proof. by apply pretty_Z_not_char. Qed.

Lemma TrimPrefix_no_nul s prefix : no_nul prefix → no_nul (TrimPrefix s prefix) → no_nul s.
Proof.
  unfold TrimPrefix, no_nul. intros Hp. destruct (HasPrefix s prefix) eqn:Hs; [|done].
  apply HasPrefix_inv in Hs. intros H. rewrite Hs, string_forall_append. by rewrite Hp, H.
Qed.

Lemma Split_cut sep s rest :
  string_forall (not_char sep) s = true → Split sep (s +:+ String sep rest) = s :: Split sep rest.
Proof.
  induction s as [|c s IH]; simpl; [by rewrite bool_decide_eq_true_2|].
  intros [Hc Hs]%andb_true_iff. apply negb_true_iff in Hc. by rewrite Hc, IH.
Qed.

Lemma matches_not_char (chars : ascii → bool) low high sep s :
  chars sep = false → matches chars low high s = true → string_forall (not_char sep) s = true.
Proof.
  unfold matches. intros Hsep H. go_bool. destruct H as [_ H].
  eapply string_forall_impl; [|exact H]. intros c Hc. unfold not_char.
  rewrite bool_decide_eq_false_2; [done|]. intros ->. congruence.
Qed.

(** ** Lemmas *)

Lemma fold_checkDistinct {A B} (validate : A → result error B) key duplicate values seen result :
  NoDup (key <$> seen) → fold_result (checkDistinct validate key duplicate) seen values = Ok result →
  NoDup (key <$> result) ∧ ∃ validated, result = seen ++ validated ∧
    Forall2 (λ value x, validate value = Ok x) values validated.
Proof.
  revert seen. induction values as [|value values IH]; intros seen Hnd; simpl.
  - intros [= ->]. split; [done|]. exists []. by rewrite app_nil_r.
  - rewrite result_bind_Ok. intros (seen' & Hcheck & Hfold). unfold checkDistinct in Hcheck.
    invert_result. rename x into x', H into Hx. go_bool. apply IH in Hfold as (Hnd' & rest & -> & Hall).
    + split; [done|]. exists (x' :: rest). rewrite <-app_assoc. split; [done|]. by constructor.
    + rewrite fmap_app. apply NoDup_app. split_and!; [done| |by apply NoDup_singleton].
      intros k Hk ->%list_elem_of_singleton. done.
Qed.

(** What [validateList] accepts. *)
Lemma validateList_Ok {A B} (validate : A → result error B) key maximum empty over duplicate values result :
  validateList validate key maximum empty over duplicate values = Ok result →
  values ≠ [] ∧ Z.of_nat (length result) ≤ maximum ∧ NoDup (key <$> result) ∧
  Forall2 (λ value x, validate value = Ok x) values result.
Proof.
  unfold validateList. intros H. invert_result. go_bool.
  apply fold_checkDistinct in H as (Hnd & validated & -> & Hall); [|constructor].
  apply Forall2_length in Hall as Hlen. split_and!; [done| |done|done]. simpl. lia.
Qed.

(** The checks that a stream's session has passed. *)
Lemma newSession_Ok parse client permanent route request onConnect session :
  newSession parse client permanent route request onConnect = Ok session →
  Session_EgressRouteID session = route ∧ Session_Request session = default (MkDialRequest "" ∅) request ∧
  Session.OnConnect session = onConnect ∧
  Session.ReconnectPolicy session = Some (default (λ err, DefaultReconnectPolicy (Some err)) permanent) ∧
  Session.MaxReconnectAttempts session = maxReconnectAttempts client ∧
  match request with
  | Some request => validateEndpoint (λ text, parsed_URL <$> parse text) (Endpoint request) = Ok tt
  | None => True
  end.
Proof.
  unfold newSession, NewSession. intros H. invert_result. simpl. split_and!; try done.
  destruct request as [request|]; [|done]. simpl in *.
  by destruct (validateEndpoint _ _) as [[]|].
Qed.

(** A credential that permits private streams through a route. *)
Definition entitled (client : StreamClient) (route : string) : Prop :=
  ∃ descriptor, credentials client = Some descriptor ∧ credentialProvider client = true ∧
    route ∈ AllowedEgressRouteIDs descriptor ∧ PermissionRead ∈ Permissions descriptor.

Lemma requireCredentials_Ok exchange name client descriptor :
  requireCredentials exchange name client = Ok descriptor →
  credentials client = Some descriptor ∧ credentialProvider client = true.
Proof.
  unfold requireCredentials. destruct (credentials client); [|done].
  by destruct (credentialProvider client); [intros [= ->]|].
Qed.

Lemma requireAccess_Ok exchange client descriptor route u :
  requireAccess exchange client descriptor route = Ok u →
  route ∈ AllowedEgressRouteIDs descriptor ∧ PermissionRead ∈ Permissions descriptor.
Proof.
  unfold requireAccess, RequireEgressRoute, RequirePermission, AllowsEgressRoute, AllowsPermission.
  repeat case_bool_decide; naive_solver.
Qed.

Lemma privateAccess_entitled exchange name client route descriptor :
  privateAccess exchange name client route = Ok descriptor → entitled client route.
Proof.
  unfold privateAccess. intros H. invert_result.
  apply requireCredentials_Ok in H0 as []. apply requireAccess_Ok in H1 as []. by exists descriptor.
Qed.

(** [validity H] turns the success of a validation into the facts it checks, one
    goal for each of its branches. *)
Ltac validity_step :=
  match goal with
  | H : (if bool_decide ?P then _ else _) = Ok _ |- _ => case_bool_decide
  | H : Err _ = Ok _ |- _ => discriminate H
  | H : (_ ≫= _) = Ok _ |- _ => apply result_bind_Ok in H as (? & ? & H)
  | H : _ ∨ _ |- _ => destruct H
  | H : _ ∧ _ |- _ => destruct H
  | H : _ ∈ _ :: _ |- _ => apply elem_of_cons in H
  | H : _ ∈ [] |- _ => apply elem_of_nil in H; destruct H
  | H : ?x = Ok ?u |- _ => is_var u; destruct u
  | H : require _ _ = Ok _ |- _ => apply require_Ok in H; go_bool
  end.
Ltac validity H :=
  invert_result; go_bool; repeat (validity_step; subst; try done).
