(* ===== verification/GateIOStream.v ===== *)
(** * Gate.io Spot streams: [exchange/gateio/websocket.go] and [websocket_decode.go]

    The client and its checks, the subscriptions, the commands and their
    signatures, and the answers.  [stream] is the instance of [CommandStream]. *)

From S2P Require Import Prelude GoStrings Decimals Errors Options Credential Executor Session ClientErrors.
From S2P Require Import Unified SpotAdapter GateIOSpot StreamCommands StreamClient.

Definition DefaultWebSocketURL : string := "wss://api.gateio.ws/ws/v4/".
Definition defaultStreamPingInterval : Z := 30 * Second.
Definition defaultStreamPingTimeout : Z := 10 * Second.
Definition maximumStreamSubscriptions_ : Z := 1000.

Definition validationError (message : string) : error := APIValidationError ExchangeGateIO message.

(** ** Clients *)

Record StreamClientConfig : Type := MkConfig {
  config :> StreamConfig;
  WebSocketURL : string
}.

Record GateIOStreamClient : Type := MkClient {
  client :> StreamClient;
  webSocketURL : string
}.

Definition validateWebSocketURL (parse : url_parser) : string → bool → result error string :=
  validateURL parse (λ _, false) URL_String.

Definition NewStreamClient (parse : url_parser) (config : StreamClientConfig)
    : result error GateIOStreamClient :=
  route ← streamRoute "Gate.io" config;
  url ← labelled "invalid Gate.io WebSocket URL: %w"
    (validateWebSocketURL parse (orText (WebSocketURL config) DefaultWebSocketURL)
       (AllowInsecureWebSocket config));
  let pingInterval := orNumber (StreamClient.PingInterval config) defaultStreamPingInterval in
  let pingTimeout := orNumber (StreamClient.PingTimeout config) defaultStreamPingTimeout in
  require (negb (bool_decide (pingInterval < 0) || bool_decide (pingTimeout < 0) ||
                 bool_decide (StreamClient.MaxReconnectAttempts config < 0)))
    (Errorf "Gate.io stream durations or reconnect attempts are invalid");;
  credentials ← streamCredentials ExchangeGateIO "Gate.io" config;
  Ok (MkClient (streamClient config route credentials pingInterval pingTimeout) url).

(** ** Subscriptions *)

Definition StreamChannelTicker : string := "ticker".
Definition StreamChannelTrades : string := "trades".
Definition StreamChannelCandles : string := "candles".
Definition StreamChannelBookTicker : string := "book_ticker".
Definition StreamChannelOrderBookUpdate : string := "order_book_update".
Definition StreamChannelOrderBookV2 : string := "order_book_v2".
Definition StreamChannelOrders : string := "orders".
Definition StreamChannelUserTrades : string := "user_trades".
Definition StreamChannelBalances : string := "balances".

Definition StreamUpdate20Millis : string := "20ms".
Definition StreamUpdate100Millis : string := "100ms".
Definition StreamOrderBookDepth50 : Z := 50.
Definition StreamOrderBookDepth400 : Z := 400.

Record StreamSubscription : Type := MkSubscription {
  Channel : string;
  CurrencyPair : string;
  CandleInterval : string;
  UpdateInterval : string;
  OrderBookDepth : Z
}.

Definition streamCandleIntervalValid (interval : string) : bool :=
  bool_decide (interval ∈ ["10s"; "1m"; "5m"; "15m"; "30m"; "1h"; "4h"; "8h"; "1d"; "7d"]).

Abbreviation refuse b message := (require (negb b) (validationError message)).

Definition validateStreamSubscription (s : StreamSubscription) (private : bool) : result error unit :=
  if private then
    (if bool_decide (Channel s ∈ [StreamChannelOrders; StreamChannelUserTrades])
     then GateIO.validateCurrencyPair (CurrencyPair s)
     else if bool_decide (Channel s = StreamChannelBalances)
     then refuse (negb (unset (CurrencyPair s))) "balance WebSocket subscription does not accept currency pair"
     else Err (validationError "unsupported private WebSocket channel %q"));;
    refuse (negb (unset (CandleInterval s)) || negb (unset (UpdateInterval s)) ||
            negb (bool_decide (OrderBookDepth s = 0)))
      "private WebSocket subscription does not accept interval"
  else
    (if bool_decide (Channel s ∈ [StreamChannelTicker; StreamChannelTrades; StreamChannelBookTicker])
     then Ok tt
     else if bool_decide (Channel s = StreamChannelCandles)
     then refuse (negb (streamCandleIntervalValid (CandleInterval s)))
            "unsupported WebSocket candle interval %q"
     else if bool_decide (Channel s = StreamChannelOrderBookUpdate)
     then refuse (negb (bool_decide (UpdateInterval s = StreamUpdate20Millis)) &&
                  negb (bool_decide (UpdateInterval s = StreamUpdate100Millis)))
            "unsupported WebSocket order book interval %q"
     else if bool_decide (Channel s = StreamChannelOrderBookV2)
     then refuse (negb (bool_decide (OrderBookDepth s = StreamOrderBookDepth50)) &&
                  negb (bool_decide (OrderBookDepth s = StreamOrderBookDepth400)))
            "unsupported WebSocket order book V2 depth %d"
     else Err (validationError "unsupported public WebSocket channel %q"));;
    GateIO.validateCurrencyPair (CurrencyPair s);;
    refuse (negb (bool_decide (Channel s = StreamChannelCandles)) && negb (unset (CandleInterval s)))
      "WebSocket candle interval is only supported for candles";;
    refuse (negb (bool_decide (Channel s = StreamChannelOrderBookUpdate)) && negb (unset (UpdateInterval s)))
      "WebSocket update interval is only supported for order book updates";;
    refuse (negb (bool_decide (Channel s = StreamChannelOrderBookV2)) &&
            negb (bool_decide (OrderBookDepth s = 0)))
      "WebSocket order book depth is only supported for order book V2".

#[export] Instance gateIOSubscriptionKey : SubscriptionKey StreamSubscription := λ s,
  joinNUL [Channel s; CurrencyPair s; CandleInterval s; UpdateInterval s; pretty (OrderBookDepth s)].

Definition validateStreamSubscriptions (subscriptions : list StreamSubscription) (private : bool)
    : result error (list StreamSubscription) :=
  validateList (λ s, validateStreamSubscription s private;; Ok s) streamSubscriptionKey
    maximumStreamSubscriptions_ (validationError "WebSocket subscription is required")
    (validationError "WebSocket subscription count cannot exceed %d")
    (validationError "duplicate WebSocket subscription") subscriptions.

Definition streamChannelName (channel : string) : string :=
  if bool_decide (channel = StreamChannelTicker) then "spot.tickers"
  else if bool_decide (channel = StreamChannelTrades) then "spot.trades"
  else if bool_decide (channel = StreamChannelCandles) then "spot.candlesticks"
  else if bool_decide (channel = StreamChannelBookTicker) then "spot.book_ticker"
  else if bool_decide (channel = StreamChannelOrderBookUpdate) then "spot.order_book_update"
  else if bool_decide (channel = StreamChannelOrderBookV2) then "spot.obu"
  else if bool_decide (channel = StreamChannelOrders) then "spot.orders"
  else if bool_decide (channel = StreamChannelUserTrades) then "spot.usertrades"
  else if bool_decide (channel = StreamChannelBalances) then "spot.balances"
  else "".

Definition streamSubscriptionPayload (s : StreamSubscription) : list string :=
  if bool_decide (Channel s = StreamChannelCandles) then [CandleInterval s; CurrencyPair s]
  else if bool_decide (Channel s = StreamChannelOrderBookUpdate) then [CurrencyPair s; UpdateInterval s]
  else if bool_decide (Channel s = StreamChannelOrderBookV2)
  then ["ob." +:+ CurrencyPair s +:+ "." +:+ pretty (OrderBookDepth s)]
  else if bool_decide (Channel s = StreamChannelBalances) then []
  else [CurrencyPair s].

(** ** Commands *)

(** What the clock and the credential provider answer; the material of a
    [StreamMaterial] is destroyed when the command is encoded. *)
Record StreamMaterial : Type := MkMaterial { material_APIKey : string; material_SecretKey : string }.
Record Environment : Type := MkEnvironment { now_Unix : Z; resolved : result error StreamMaterial }.

Record streamAuthentication : Type := MkAuthentication {
  Method : string;
  APIKey : string;
  Signature : string
}.

Record StreamCommand : Type := MkStreamCommand {
  Time : Z;
  ID : Z;
  command_Channel : string;
  Event : string;
  Payload : list string;
  Auth : option streamAuthentication
}.

Definition event_of (op : Operation) : string :=
  match op with Subscribe => "subscribe" | Unsubscribe => "unsubscribe" end.

Definition streamAuthenticationError : StreamClient → error → error := authenticationError ExchangeGateIO.
Definition streamAuthorizationError : StreamClient → error → error := authorizationError ExchangeGateIO.

Section commands.
(** The lowercase hexadecimal HMAC-SHA-512 of a text under a key. *)
Context (hmacSHA512 : string → string → string).

Definition SignHMACSHA512 (secret payload : string) : result error string :=
  require (negb (bool_decide (secret = ""))) (Errorf "Gate.io HMAC secret is empty");;
  Ok (hmacSHA512 secret payload).

Definition signCommand (client : StreamClient) (environment : Environment) (channel event : string)
    : result error streamAuthentication :=
  match resolved environment with
  | Err err => Err (streamAuthenticationError client err)
  | Ok material =>
      require (negb (bool_decide (material_APIKey material = "") || bool_decide (material_SecretKey material = "")))
        (streamAuthenticationError client (Errorf "Gate.io stream API key and HMAC secret are required"));;
      let signatureText := "channel=" +:+ channel +:+ "&event=" +:+ event +:+ "&time=" +:+
                             pretty (now_Unix environment) in
      match SignHMACSHA512 (material_SecretKey material) signatureText with
      | Err err => Err (streamAuthenticationError client err)
      | Ok signature => Ok (MkAuthentication "api_key" (material_APIKey material) signature)
      end
  end.

(** [encodeStreamCommand], up to its [json.Marshal]; the ID is taken before the
    credentials are resolved. *)
Definition encodeStreamCommand (client : StreamClient) (private : bool) (environment : Environment)
    (op : Operation) (s : StreamSubscription) (nextID : Z) : Z * result error (StreamCommand * string) :=
  let timestamp := now_Unix environment in
  if bool_decide (timestamp ≤ 0)
  then (nextID, Err (validationError "Gate.io stream timestamp must be after the Unix epoch"))
  else
    let id := nextID + 1 in
    let channel := streamChannelName (Channel s) in
    (id,
     authentication ← (if private
                       then (a ← signCommand client environment channel (event_of op); Ok (Some a))
                       else Ok None);
     Ok (MkStreamCommand timestamp id channel (event_of op) (streamSubscriptionPayload s) authentication,
         pretty id)).
End commands.

(** ** Messages *)

Record StreamError : Type := MkStreamError { Code : Z; error_Message : string }.

Record StreamMessage : Type := MkStreamMessage {
  message_ID : string;
  message_Time : Z;
  TimeMilli : Z;
  ChannelName : string;
  message_Channel : string;
  message_Event : string;
  Private : bool;
  Error : option StreamError;
  Result : string;
  Raw : string
}.

Definition streamChannelFromName (name : string) : string :=
  if bool_decide (name = "spot.tickers") then StreamChannelTicker
  else if bool_decide (name = "spot.trades") then StreamChannelTrades
  else if bool_decide (name = "spot.candlesticks") then StreamChannelCandles
  else if bool_decide (name = "spot.book_ticker") then StreamChannelBookTicker
  else if bool_decide (name = "spot.order_book_update") then StreamChannelOrderBookUpdate
  else if bool_decide (name = "spot.obu") then StreamChannelOrderBookV2
  else if bool_decide (name = "spot.orders") then StreamChannelOrders
  else if bool_decide (name = "spot.usertrades") then StreamChannelUserTrades
  else if bool_decide (name = "spot.balances") then StreamChannelBalances
  else "".

Definition streamChannelPrivate (channel : string) : bool :=
  bool_decide (channel = StreamChannelOrders) || bool_decide (channel = StreamChannelUserTrades) ||
  bool_decide (channel = StreamChannelBalances).

Record streamWireMessage : Type := MkWireMessage {
  wire_ID : string;
  wire_Time : Z;
  wire_TimeMilli : Z;
  wire_Channel : string;
  wire_Event : string;
  wire_Error : option StreamError;
  wire_Result : string
}.

Section decode.
(** [json.Valid], and [json.Unmarshal] into the envelope, a string and a number. *)
Context (json_Valid : string → bool) (unmarshalWire : string → result error streamWireMessage)
  (unmarshalString unmarshalNumber : string → result error string).

Definition streamScalarText (raw : string) : result error string :=
  let trimmed := TrimSpace raw in
  if bool_decide (trimmed = "") || bool_decide (trimmed = "null") then Ok ""
  else if HasPrefix trimmed (String (Ascii.ascii_of_N 34) "") then unmarshalString trimmed
  else unmarshalNumber trimmed.

Definition DecodeStreamMessage (message : Message) : result error StreamMessage :=
  require (bool_decide (Message_Type message = MessageText))
    (Errorf "Gate.io JSON stream only accepts text frames");;
  let trimmed := TrimSpace (Message_Data message) in
  require (negb (bool_decide (trimmed = "") || negb (json_Valid trimmed) || HasPrefix trimmed "["))
    (Errorf "invalid Gate.io stream JSON object");;
  wire ← labelled "decode Gate.io stream envelope: %w" (unmarshalWire trimmed);
  require (negb (bool_decide (wire_Channel wire = "")))
    (Errorf "Gate.io stream message has no channel");;
  id ← labelled "decode Gate.io stream message ID: %w" (streamScalarText (wire_ID wire));
  let channel := streamChannelFromName (wire_Channel wire) in
  Ok (MkStreamMessage id (wire_Time wire) (wire_TimeMilli wire) (wire_Channel wire) channel
        (wire_Event wire) (streamChannelPrivate channel) (wire_Error wire) (wire_Result wire) trimmed).
End decode.

Definition handleControl (m : managedStream StreamSubscription) (message : StreamMessage)
    : managedStream StreamSubscription :=
  if bool_decide (message_ID message = "") ||
     (negb (bool_decide (message_Event message = "subscribe")) &&
      negb (bool_decide (message_Event message = "unsubscribe")))
  then m
  else settle m (message_ID message) (bool_decide (is_Some (Error message))).

(** ** Streams *)

Definition resolveStreamRoute : StreamClient → list (option RequestOption) → result error string :=
  resolveRoute "Gate.io".

Definition streamReconnectPolicy : StreamClient → error → bool := policy refusal.

Definition newStreamSession (parse : url_parser) (client : GateIOStreamClient) (route : string)
    : result error SessionConfig :=
  newSession parse client (Some (streamReconnectPolicy client)) route
    (Some (MkDialRequest (webSocketURL client) ∅)) true.

Definition PublicStream (parse : url_parser) (client : GateIOStreamClient)
    (requested : list StreamSubscription) (options : list (option RequestOption))
    : result error (Stream StreamSubscription) :=
  subscriptions ← validateStreamSubscriptions requested false;
  route ← resolveStreamRoute client options;
  session ← newStreamSession parse client route;
  Ok (MkStream session (newManagedStream subscriptions) false).

Definition PrivateStream (parse : url_parser) (client : GateIOStreamClient)
    (requested : list StreamSubscription) (options : list (option RequestOption))
    : result error (Stream StreamSubscription) :=
  subscriptions ← validateStreamSubscriptions requested true;
  route ← resolveStreamRoute client options;
  privateAccess ExchangeGateIO "Gate.io" client route;;
  session ← newStreamSession parse client route;
  Ok (MkStream session (newManagedStream subscriptions) true).

(** [Subscribe] and [Unsubscribe] of both streams, up to [change]. *)
Definition changeStream (private : bool) (op : Operation) (requested : list StreamSubscription)
    : result error (input (Subscription := StreamSubscription) (Environment := Environment)) :=
  validated ← validateStreamSubscriptions requested private;
  Ok (InChange op validated).

(** ** The instance *)

Definition read (payload : StreamCommand) : command :=
  MkCommand (pretty (ID payload))
    (if bool_decide (Event payload = "subscribe") then Subscribe else Unsubscribe)
    (command_Channel payload :: Payload payload).

(** The documented answer to a command: its ID and event, and an error if it is
    refused. *)
Definition answer (c : command) (accepted : bool) : StreamMessage :=
  MkStreamMessage (command_id c) 0 0 "" "" (event_of (command_operation c)) false
    (if accepted then None else Some (MkStreamError 1 "")) "" "".

Definition stream (hmacSHA512 : string → string → string) (client : StreamClient) (private : bool)
    : CommandStream StreamSubscription Environment StreamCommand StreamMessage := {|
  maximumStreamSubscriptions := maximumStreamSubscriptions_;
  StreamCommands.encodeStreamCommand := encodeStreamCommand hmacSHA512 client private;
  StreamCommands.read := read;
  StreamCommands.answer := answer;
  StreamCommands.handleControl := handleControl;
  limit_error := validationError "WebSocket subscription count cannot exceed %d"
|}.

(** ** Its laws *)

Definition valid_subscription (private : bool) (s : StreamSubscription) : Prop :=
  validateStreamSubscription s private = Ok tt.

Definition streamTopic (s : StreamSubscription) : Topic :=
  streamChannelName (Channel s) :: streamSubscriptionPayload s.

Lemma currencyPair_no s c :
  is_asset_char c = false → c ≠ GateIO.underscore → GateIO.validateCurrencyPair s = Ok tt →
  string_forall (not_char c) s = true.
Proof.
  intros Hc Hsep H. unfold GateIO.validateCurrencyPair in H. apply require_Ok in H.
  rewrite negb_involutive in H. by eapply pairPattern_not_char.
Qed.

(** The subscriptions that pass the checks. *)
Inductive shape : bool → StreamSubscription → Prop :=
  | shape_public channel pair :
      channel ∈ [StreamChannelTicker; StreamChannelTrades; StreamChannelBookTicker] →
      GateIO.validateCurrencyPair pair = Ok tt → shape false (MkSubscription channel pair "" "" 0)
  | shape_candles pair interval :
      streamCandleIntervalValid interval = true → GateIO.validateCurrencyPair pair = Ok tt →
      shape false (MkSubscription StreamChannelCandles pair interval "" 0)
  | shape_update pair interval :
      interval ∈ [StreamUpdate20Millis; StreamUpdate100Millis] → GateIO.validateCurrencyPair pair = Ok tt →
      shape false (MkSubscription StreamChannelOrderBookUpdate pair "" interval 0)
  | shape_v2 pair depth :
      depth ∈ [StreamOrderBookDepth50; StreamOrderBookDepth400] → GateIO.validateCurrencyPair pair = Ok tt →
      shape false (MkSubscription StreamChannelOrderBookV2 pair "" "" depth)
  | shape_private channel pair :
      channel ∈ [StreamChannelOrders; StreamChannelUserTrades] → GateIO.validateCurrencyPair pair = Ok tt →
      shape true (MkSubscription channel pair "" "" 0)
  | shape_balances : shape true (MkSubscription StreamChannelBalances "" "" "" 0).

Lemma gateIO_valid_shape private s : valid_subscription private s → shape private s.
Proof.
  unfold valid_subscription, validateStreamSubscription. destruct s as [channel pair candle update depth].
  simpl. destruct private; intros H; validity H; constructor; done || set_solver.
Qed.

Lemma gateIO_shape_no_nul private s :
  shape private s → Forall no_nul [Channel s; CurrencyPair s; CandleInterval s; UpdateInterval s;
                                   pretty (OrderBookDepth s)].
Proof.
  assert (∀ pair, GateIO.validateCurrencyPair pair = Ok tt → no_nul pair) as Hpair.
  { intros pair. by apply currencyPair_no. }
  pose proof (no_nul_pretty 0) as H0.
  destruct 1; rewrite ?Forall_cons; simpl; split_and!; try done; try (by apply Hpair);
    try apply no_nul_pretty; try constructor.
  - set_unfold. by destruct_or!; subst.
  - unfold streamCandleIntervalValid in *. go_bool. set_unfold. by destruct_or!; subst.
  - set_unfold. by destruct_or!; subst.
  - set_unfold. by destruct_or!; subst.
Qed.

(** The key of a subscription determines it, and so does its topic. *)
Lemma gateIO_key_inj private s s' :
  valid_subscription private s → valid_subscription private s' →
  streamSubscriptionKey s = streamSubscriptionKey s' → s = s'.
Proof.
  intros Hs%gateIO_valid_shape%gateIO_shape_no_nul Hs'%gateIO_valid_shape%gateIO_shape_no_nul Heq.
  apply joinNUL_inj in Heq; [|done..]. destruct s, s'. simpl in Heq. by simplify_eq.
Qed.

Lemma gateIO_v2_inj pair pair' depth depth' :
  GateIO.validateCurrencyPair pair = Ok tt → GateIO.validateCurrencyPair pair' = Ok tt →
  streamTopic (MkSubscription StreamChannelOrderBookV2 pair "" "" depth) =
    streamTopic (MkSubscription StreamChannelOrderBookV2 pair' "" "" depth') →
  pair = pair' ∧ depth = depth'.
Proof.
  intros Hp Hp' Heq. unfold streamTopic, streamSubscriptionPayload in Heq. simpl in Heq. injection Heq as Heq.
  apply (cut_inj dot) in Heq as [-> Heq]; [|by apply currencyPair_no..]. by simplify_eq.
Qed.

Lemma gateIO_topic_inj private s s' :
  valid_subscription private s → valid_subscription private s' → streamTopic s = streamTopic s' → s = s'.
Proof.
  intros Hs%gateIO_valid_shape Hs'%gateIO_valid_shape.
  destruct Hs as [c p Hc Hp|p i Hi Hp|p i Hi Hp|p d Hd Hp|c p Hc Hp|];
    inversion Hs' as [c' p' Hc' Hp'|p' i' Hi' Hp'|p' i' Hi' Hp'|p' d' Hd' Hp'|c' p' Hc' Hp'|]; subst;
    first [by intros [-> ->]%gateIO_v2_inj
          |set_unfold; destruct_or?; subst; vm_compute; intros Heq; first [discriminate Heq|by simplify_eq]].
Qed.

Lemma gateIO_topic_key private s s' :
  valid_subscription private s → valid_subscription private s' →
  streamTopic s = streamTopic s' ↔ streamSubscriptionKey s = streamSubscriptionKey s'.
Proof.
  intros Hs Hs'. split; intros Heq; f_equal; [by eapply gateIO_topic_inj|by eapply gateIO_key_inj].
Qed.

#[export] Instance laws (hmacSHA512 : string → string → string) (client : StreamClient) (private : bool) :
  CommandStreamLaws (C := stream hmacSHA512 client private) StreamSubscription Environment StreamCommand
    StreamMessage.
Proof.
  refine {| StreamCommands.valid_subscription := valid_subscription private;
            StreamCommands.streamTopic := streamTopic; commandID := pretty |}.
  - apply gateIO_topic_key.
  - intros environment op s counter. simpl. unfold encodeStreamCommand. case_bool_decide; simpl; lia.
  - intros environment op s counter counter' payload id _. simpl. unfold encodeStreamCommand.
    case_bool_decide as Hnow; [by intros [= _]|]. intros [= <- H]. invert_result. simplify_eq/=.
    exists (counter + 1). split; [lia|]. split; [done|]. unfold read. simpl. by destruct op.
  - intros m c accepted [n Hn] _. simpl. unfold handleControl, answer. simpl.
    rewrite bool_decide_eq_false_2 by (rewrite Hn; apply pretty_Z_nonempty).
    replace (bool_decide (is_Some (if accepted then None else Some (MkStreamError 1 ""))))
      with (negb accepted) by by destruct accepted.
    by destruct (command_operation c).
Defined.
