(* ===== verification/HTXStream.v ===== *)
(** * HTX public streams: [exchange/htx/websocket.go], [websocket_mbp.go] and [websocket_decode.go]

    The client, the subscriptions of the market and depth (MBP) streams, their
    topics, which the decoder reads back, the commands and the answers.
    [stream] is the instance of [CommandStream] for both streams. *)

From S2P Require Import Prelude GoStrings Decimals Errors Options Credential Executor Session ClientErrors.
From S2P Require Import SpotAdapter HTXSpot StreamCommands StreamClient.

Definition DefaultPublicWebSocketURL : string := "wss://api.huobi.pro/ws".
Definition DefaultMBPWebSocketURL : string := "wss://api.huobi.pro/feed".
Definition DefaultPrivateWebSocketURL : string := "wss://api.huobi.pro/ws/v2".
Definition maximumStreamSubscriptions_ : Z := 200.

Definition validationError (message : string) : error := APIValidationError ExchangeHTX message.
Abbreviation refuse b message := (require (negb b) (validationError message)).

(** ** Clients *)

Record StreamClientConfig : Type := MkConfig {
  config :> StreamConfig;
  PublicWebSocketURL : string;
  MBPWebSocketURL : string;
  PrivateWebSocketURL : string
}.

Record HTXStreamClient : Type := MkClient {
  client :> StreamClient;
  publicURL : string;
  mbpURL : string;
  privateURL : string
}.

Definition validateStreamURL (parse : url_parser) : string → bool → result error string :=
  validateURL parse (λ parsed, negb (bool_decide (RawQuery parsed = ""))) URL_String.

(** The sessions have no ping: HTX pings in its messages. *)
Definition NewStreamClient (parse : url_parser) (config : StreamClientConfig)
    : result error HTXStreamClient :=
  route ← streamRoute "HTX" config;
  let check := validateStreamURL parse in
  let insecure := AllowInsecureWebSocket config in
  publicURL ← labelled "invalid HTX public WebSocket URL: %w"
    (check (orText (PublicWebSocketURL config) DefaultPublicWebSocketURL) insecure);
  mbpURL ← labelled "invalid HTX MBP WebSocket URL: %w"
    (check (orText (MBPWebSocketURL config) DefaultMBPWebSocketURL) insecure);
  privateURL ← labelled "invalid HTX private WebSocket URL: %w"
    (check (orText (PrivateWebSocketURL config) DefaultPrivateWebSocketURL) insecure);
  require (negb (bool_decide (StreamClient.MaxReconnectAttempts config < 0)))
    (Errorf "HTX maximum reconnect attempts cannot be negative");;
  credentials ← streamCredentials ExchangeHTX "HTX" config;
  Ok (MkClient (streamClient config route credentials 0 0) publicURL mbpURL privateURL).

(** ** Subscriptions *)

Definition StreamChannelTicker : string := "ticker".
Definition StreamChannelDepth : string := "depth".
Definition StreamChannelBBO : string := "bbo".
Definition StreamChannelTrades : string := "trades".
Definition StreamChannelCandles : string := "candles".
Definition StreamChannelMBP : string := "mbp".

Record StreamSubscription : Type := MkSubscription {
  Channel : string;
  Symbol : string;
  DepthType : string;
  CandleInterval : string;
  Mode : Z;
  MBPDepth : Z
}.

(** [DepthType.valid], [CandleInterval.valid], [StreamMBPDepth.valid] and
    [StreamMBPDepth.refreshSupported]. *)
Definition DepthType_valid (depth : string) : bool :=
  bool_decide (depth ∈ ["step0"; "step1"; "step2"; "step3"; "step4"; "step5"]).
Definition CandleInterval_valid (interval : string) : bool :=
  bool_decide (interval ∈ ["1min"; "5min"; "15min"; "30min"; "60min"; "4hour"; "1day"; "1week"; "1mon"; "1year"]).
Definition StreamMBPDepth_valid (depth : Z) : bool := bool_decide (depth ∈ [5; 20; 150; 400]).
Definition StreamMBPDepth_refreshSupported (depth : Z) : bool := bool_decide (depth ∈ [5; 20; 150]).

Definition validateStreamSubscription (s : StreamSubscription) : result error unit :=
  HTX.validateSymbol (Symbol s);;
  refuse (negb (bool_decide (Mode s = 0))) "public WebSocket subscription does not accept private mode";;
  refuse (negb (bool_decide (MBPDepth s = 0)))
    "general public WebSocket subscription does not accept MBP depth";;
  if bool_decide (Channel s ∈ [StreamChannelTicker; StreamChannelBBO; StreamChannelTrades])
  then refuse (negb (unset (DepthType s)) || negb (unset (CandleInterval s)))
         "WebSocket channel %q does not accept an interval"
  else if bool_decide (Channel s = StreamChannelDepth)
  then
    refuse (negb (DepthType_valid (DepthType s))) "unsupported WebSocket depth type %q";;
    refuse (negb (unset (CandleInterval s))) "depth WebSocket subscription does not accept candle interval"
  else if bool_decide (Channel s = StreamChannelCandles)
  then
    refuse (negb (CandleInterval_valid (CandleInterval s))) "unsupported WebSocket candle interval %q";;
    refuse (negb (unset (DepthType s))) "candle WebSocket subscription does not accept depth type"
  else Err (validationError "unsupported public WebSocket channel %q").

Definition validateMBPStreamSubscription (s : StreamSubscription) : result error unit :=
  refuse (negb (bool_decide (Channel s = StreamChannelMBP))) "unsupported MBP WebSocket channel %q";;
  HTX.validateSymbol (Symbol s);;
  refuse (negb (StreamMBPDepth_valid (MBPDepth s))) "unsupported MBP WebSocket depth %d";;
  refuse (negb (unset (DepthType s)) || negb (unset (CandleInterval s)) || negb (bool_decide (Mode s = 0)))
    "MBP WebSocket subscription contains unrelated options".

#[export] Instance htxSubscriptionKey : SubscriptionKey StreamSubscription := λ s,
  joinNUL [Channel s; Symbol s; DepthType s; CandleInterval s; pretty (Mode s); pretty (MBPDepth s)].

Definition validateStreamSubscriptions (subscriptions : list StreamSubscription)
    : result error (list StreamSubscription) :=
  validateList (λ s, validateStreamSubscription s;; Ok s) streamSubscriptionKey maximumStreamSubscriptions_
    (validationError "WebSocket subscription is required")
    (validationError "WebSocket subscription count cannot exceed %d")
    (validationError "duplicate WebSocket subscription") subscriptions.

Definition validateMBPStreamSubscriptions (subscriptions : list StreamSubscription)
    : result error (list StreamSubscription) :=
  validateList (λ s, validateMBPStreamSubscription s;; Ok s) streamSubscriptionKey maximumStreamSubscriptions_
    (validationError "MBP WebSocket subscription is required")
    (validationError "WebSocket subscription count cannot exceed %d")
    (validationError "duplicate MBP WebSocket subscription") subscriptions.

Definition streamSubscriptionTopic (s : StreamSubscription) : string :=
  if bool_decide (Channel s = StreamChannelTicker) then "market." +:+ Symbol s +:+ ".ticker"
  else if bool_decide (Channel s = StreamChannelDepth)
  then "market." +:+ Symbol s +:+ ".depth." +:+ DepthType s
  else if bool_decide (Channel s = StreamChannelBBO) then "market." +:+ Symbol s +:+ ".bbo"
  else if bool_decide (Channel s = StreamChannelTrades) then "market." +:+ Symbol s +:+ ".trade.detail"
  else if bool_decide (Channel s = StreamChannelCandles)
  then "market." +:+ Symbol s +:+ ".kline." +:+ CandleInterval s
  else if bool_decide (Channel s = StreamChannelMBP)
  then "market." +:+ Symbol s +:+ ".mbp." +:+ pretty (MBPDepth s)
  else "".

Definition parseStreamDepth (value : string) : Z := default 0 (Atoi value).

Definition parseStreamTopic (topic : string) : result error (string * string) :=
  let parts := Split dot topic in
  require (bool_decide (3 ≤ length parts)%nat && bool_decide (parts !! 0%nat = Some "market"))
    (Errorf "invalid HTX stream topic %q");;
  let symbol := default "" (parts !! 1%nat) in
  HTX.validateSymbol symbol;;
  match drop 2 parts with
  | ["ticker"] => Ok (StreamChannelTicker, symbol)
  | ["bbo"] => Ok (StreamChannelBBO, symbol)
  | [kind; value] =>
      if bool_decide (kind = "depth") && DepthType_valid value then Ok (StreamChannelDepth, symbol)
      else if bool_decide (kind = "trade") && bool_decide (value = "detail")
      then Ok (StreamChannelTrades, symbol)
      else if bool_decide (kind = "kline") && CandleInterval_valid value
      then Ok (StreamChannelCandles, symbol)
      else if bool_decide (kind = "mbp") && StreamMBPDepth_valid (parseStreamDepth value)
      then Ok (StreamChannelMBP, symbol)
      else Err (Errorf "unsupported HTX stream topic %q")
  | _ => Err (Errorf "unsupported HTX stream topic %q")
  end.

Definition streamTopicMBPDepth (topic : string) : Z :=
  match Split dot topic with
  | [_; _; kind; value] => if bool_decide (kind = "mbp") then parseStreamDepth value else 0
  | _ => 0
  end.

(** ** Commands *)

(** What [encodeStreamCommand] marshals; a field that is "" is left out. *)
Record StreamCommand : Type := MkStreamCommand {
  Subscribe_ : string;
  Unsubscribe_ : string;
  ID : string
}.

Definition commandID (n : Z) : string := "htx-" +:+ pretty n.

Definition encodeStreamCommand (op : Operation) (s : StreamSubscription) (nextID : Z)
    : Z * result error (StreamCommand * string) :=
  let id := commandID (nextID + 1) in
  let topic := streamSubscriptionTopic s in
  (nextID + 1,
   Ok (match op with
       | Subscribe => MkStreamCommand topic "" id
       | Unsubscribe => MkStreamCommand "" topic id
       end, id)).

(** ** Messages *)

Record StreamError : Type := MkStreamError { Code : string; error_Message : string }.

Record StreamMessage : Type := MkStreamMessage {
  message_ID : string;
  Status : string;
  Topic_ : string;
  message_Channel : string;
  message_Symbol : string;
  Timestamp : Z;
  Ping : option Z;
  Action : string;
  Reply : string;
  message_Code : Z;
  message_Text : string;
  Private : bool;
  message_Mode : Z;
  message_MBPDepth : Z;
  Subscribed : string;
  Unsubscribed : string;
  Error : option StreamError;
  Tick : string;
  Data : string;
  Raw : string
}.
#[export] Instance StreamMessage_settable : Settable StreamMessage := λ m,
  MkStreamMessage (message_ID m) (Status m) (Topic_ m) (message_Channel m) (message_Symbol m) (Timestamp m)
    (Ping m) (Action m) (Reply m) (message_Code m) (message_Text m) (Private m) (message_Mode m)
    (message_MBPDepth m) (Subscribed m) (Unsubscribed m) (Error m) (Tick m) (Data m) (Raw m).

Definition noMessage : StreamMessage :=
  MkStreamMessage "" "" "" "" "" 0 None "" "" 0 "" false 0 0 "" "" None "" "" "".

Record streamWireMessage : Type := MkWireMessage {
  wire_ID : string;
  wire_Status : string;
  wire_Channel : string;
  wire_Time : Z;
  wire_Ping : option Z;
  Subbed : string;
  Unsubbed : string;
  wire_Reply : string;
  ErrorCode : string;
  ErrorText : string;
  wire_Tick : string;
  wire_Data : string
}.

Definition maximumStreamMessageBytes : Z := Z.shiftl 16 20.

Section decode.
(** [json.Valid] and [json.Unmarshal] into the envelope and into a string; what
    package compress/gzip makes of a frame, up to a number of bytes. *)
Context (json_Valid : string → bool) (unmarshalWire : string → result error streamWireMessage)
  (unmarshalString : string → result error string) (gunzip : string → Z → result error string).

Definition optionalScalarText (raw : string) : result error string :=
  let trimmed := TrimSpace raw in
  if bool_decide (trimmed = "") || bool_decide (trimmed = "null") then Ok ""
  else if HasPrefix trimmed (String (Ascii.ascii_of_N 34) "") then unmarshalString trimmed
  else
    require (negb (HasPrefix trimmed "{" || HasPrefix trimmed "[" || negb (json_Valid trimmed)))
      (Errorf "value is not scalar");;
    require (negb (bool_decide (trimmed = "true") || bool_decide (trimmed = "false")))
      (Errorf "value is not a string or number");;
    Ok trimmed.

Definition decodeStreamFrame (message : Message) : result error string :=
  let size s := Z.of_nat (String.length s) in
  if bool_decide (Message_Type message = MessageText) then
    require (negb (bool_decide (maximumStreamMessageBytes < size (Message_Data message))))
      (Errorf "HTX stream text frame exceeds size limit");;
    Ok (Message_Data message)
  else if bool_decide (Message_Type message = MessageBinary) then
    payload ← gunzip (Message_Data message) (maximumStreamMessageBytes + 1);
    require (negb (bool_decide (maximumStreamMessageBytes < size payload)))
      (Errorf "HTX stream binary frame exceeds decompressed size limit");;
    Ok payload
  else Err (Errorf "unsupported HTX stream frame type %d").

(** The fields of a message that its topic gives. *)
Definition withTopic (message : StreamMessage) (topic : string) : result error StreamMessage :=
  '(channel, symbol) ← parseStreamTopic topic;
  Ok (message <| Topic_ := topic |> <| message_Channel := channel |> <| message_Symbol := symbol |>
        <| message_MBPDepth := streamTopicMBPDepth topic |>).

Definition present (s : string) : bool := negb (bool_decide (s = "")).

Definition DecodeStreamMessage (message : Message) : result error StreamMessage :=
  payload ← decodeStreamFrame message;
  let trimmed := TrimSpace payload in
  require (negb (bool_decide (trimmed = "") ||
                 bool_decide (maximumStreamMessageBytes < Z.of_nat (String.length trimmed)) ||
                 negb (json_Valid trimmed) || negb (HasPrefix trimmed "{")))
    (Errorf "invalid HTX stream JSON object");;
  wire ← labelled "decode HTX stream envelope: %w" (unmarshalWire trimmed);
  id ← labelled "decode HTX stream message ID: %w" (optionalScalarText (wire_ID wire));
  let error :=
    if present (ErrorCode wire) || present (ErrorText wire) || bool_decide (wire_Status wire = "error")
    then Some (MkStreamError (ErrorCode wire) (ErrorText wire)) else None in
  let failed := bool_decide (is_Some error) in
  let result := noMessage <| message_ID := id |> <| Status := wire_Status wire |>
    <| Timestamp := wire_Time wire |> <| Ping := wire_Ping wire |> <| Subscribed := Subbed wire |>
    <| Unsubscribed := Unsubbed wire |> <| Reply := wire_Reply wire |> <| Tick := wire_Tick wire |>
    <| Data := wire_Data wire |> <| Raw := trimmed |> <| Error := error |> in
  if bool_decide (is_Some (wire_Ping wire)) then
    require (negb (present id || present (wire_Channel wire) || present (wire_Tick wire) ||
                   present (Subbed wire) || present (Unsubbed wire) || present (wire_Reply wire) ||
                   present (wire_Data wire) || failed))
      (Errorf "HTX heartbeat contains unexpected fields");;
    Ok result
  else if present (wire_Reply wire) then
    require (negb (negb (present id) || negb (present (wire_Status wire)) || present (wire_Channel wire) ||
                   present (wire_Tick wire) || present (Subbed wire) || present (Unsubbed wire) ||
                   negb failed && negb (present (wire_Data wire))))
      (Errorf "HTX refresh response envelope is invalid");;
    '(channel, _) ← parseStreamTopic (wire_Reply wire);
    require (bool_decide (channel = StreamChannelMBP)) (Errorf "HTX refresh response is not an MBP topic");;
    withTopic result (wire_Reply wire)
  else if present (wire_Channel wire) then
    require (negb (negb (present (wire_Tick wire)) || present id || present (Subbed wire) ||
                   present (Unsubbed wire) || present (wire_Data wire) || failed))
      (Errorf "HTX data event envelope is invalid");;
    withTopic result (wire_Channel wire)
  else
    require (present id && present (wire_Status wire))
      (Errorf "HTX stream message has no recognized event");;
    let topic := orText (Subbed wire) (Unsubbed wire) in
    require (negb (negb failed && bool_decide (topic = "")))
      (Errorf "HTX successful control response has no topic");;
    if bool_decide (topic = "") then Ok result else withTopic result topic.
End decode.

Definition handleControl (m : managedStream StreamSubscription) (message : StreamMessage)
    : managedStream StreamSubscription :=
  if bool_decide (message_ID message = "") || bool_decide (Status message = "") then m
  else settle m (message_ID message) (bool_decide (is_Some (Error message))).

(** ** Streams *)

Definition streamAuthenticationError : StreamClient → error → error := authenticationError ExchangeHTX.
Definition streamAuthorizationError : StreamClient → error → error := authorizationError ExchangeHTX.

Definition resolveStreamRoute : StreamClient → list (option RequestOption) → result error string :=
  resolveRoute "HTX".

Definition streamReconnectPolicy : StreamClient → error → bool := policy refusal.

Definition htxSession (parse : url_parser) (client : StreamClient) (url route : string)
    : result error SessionConfig :=
  newSession parse client (Some (streamReconnectPolicy client)) route (Some (MkDialRequest url ∅)) true.

Definition PublicStream (parse : url_parser) (client : HTXStreamClient)
    (requested : list StreamSubscription) (options : list (option RequestOption))
    : result error (Stream StreamSubscription) :=
  subscriptions ← validateStreamSubscriptions requested;
  route ← resolveStreamRoute client options;
  session ← htxSession parse client (publicURL client) route;
  Ok (MkStream session (newManagedStream subscriptions) false).

Definition MBPStream (parse : url_parser) (client : HTXStreamClient)
    (requested : list StreamSubscription) (options : list (option RequestOption))
    : result error (Stream StreamSubscription) :=
  subscriptions ← validateMBPStreamSubscriptions requested;
  route ← resolveStreamRoute client options;
  session ← htxSession parse client (mbpURL client) route;
  Ok (MkStream session (newManagedStream subscriptions) false).

(** [Subscribe] and [Unsubscribe] of the two streams, up to [change]. *)
Definition changeStream (mbp : bool) (op : Operation) (requested : list StreamSubscription)
    : result error (input (Subscription := StreamSubscription) (Environment := unit)) :=
  validated ← (if mbp then validateMBPStreamSubscriptions requested else validateStreamSubscriptions requested);
  Ok (InChange op validated).

(** The fields of [MBPStream] that limit its refresh requests; [lastRefresh] is
    [None] for the zero time. *)
Definition mbpRefreshMinimumInterval : Z := 100 * Millisecond.

Record MBPRefresh : Type := MkMBPRefresh { refreshGeneration : Z; lastRefresh : option Z }.

(** [waitForRefresh]: [now] is the clock when the delay is computed, [canceled]
    what the context says while it waits, and [later] the clock after it. *)
Definition waitForRefresh (refresh : MBPRefresh) (generation now : Z) (canceled : option error) (later : Z)
    : MBPRefresh * result error unit :=
  let refresh := if bool_decide (generation = refreshGeneration refresh) then refresh
                 else MkMBPRefresh generation None in
  let delay := match lastRefresh refresh with
               | None => 0
               | Some last => Time_Sub (last + mbpRefreshMinimumInterval) now
               end in
  match (if bool_decide (0 < delay) then canceled else None) with
  | Some err => (refresh, Err err)
  | None => (MkMBPRefresh (refreshGeneration refresh) (Some later), Ok tt)
  end.

(** What [RequestSnapshot] writes. *)
Record RefreshRequest : Type := MkRefreshRequest { refresh_Request : string; refresh_ID : string }.

(** [RequestSnapshot]: the limiter, the counter of the client and the request;
    [written] is what [Session.Write] returns. *)
Definition RequestSnapshot (m : managedStream StreamSubscription) (refresh : MBPRefresh)
    (s : StreamSubscription) (nextID generation now : Z) (canceled : option error) (later : Z)
    (written : option error) : MBPRefresh * Z * result error RefreshRequest :=
  match
    (validateMBPStreamSubscriptions [s];;
     refuse (negb (StreamMBPDepth_refreshSupported (MBPDepth s)))
       "HTX MBP depth %d does not support refresh request";;
     refuse (bool_decide (subscriptions m !! streamSubscriptionKey s = None))
       "HTX MBP refresh requires an active exact subscription")
  with
  | Err err => (refresh, nextID, Err err)
  | Ok _ =>
      match waitForRefresh refresh generation now canceled later with
      | (refresh, Err err) => (refresh, nextID, Err err)
      | (refresh, Ok _) =>
          let request := MkRefreshRequest (streamSubscriptionTopic s) (commandID (nextID + 1)) in
          (refresh, nextID + 1, match written with Some err => Err err | None => Ok request end)
      end
  end.

(** ** The instance *)

Definition read (payload : StreamCommand) : command :=
  if bool_decide (Subscribe_ payload = "")
  then MkCommand (ID payload) Unsubscribe [Unsubscribe_ payload]
  else MkCommand (ID payload) Subscribe [Subscribe_ payload].

(** The documented answer to a command: its ID, a status, and an error if it is
    refused. *)
Definition answer (c : command) (accepted : bool) : StreamMessage :=
  if accepted then noMessage <| message_ID := command_id c |> <| Status := "ok" |>
  else noMessage <| message_ID := command_id c |> <| Status := "error" |>
         <| Error := Some (MkStreamError "bad-request" "") |>.

#[export] Instance stream : CommandStream StreamSubscription unit StreamCommand StreamMessage := {|
  maximumStreamSubscriptions := maximumStreamSubscriptions_;
  StreamCommands.encodeStreamCommand := λ _, encodeStreamCommand;
  StreamCommands.read := read;
  StreamCommands.answer := answer;
  StreamCommands.handleControl := handleControl;
  limit_error := validationError "WebSocket subscription count cannot exceed %d"
|}.

(** ** Its laws *)

Definition valid_subscription (mbp : bool) (s : StreamSubscription) : Prop :=
  (if mbp then validateMBPStreamSubscription s else validateStreamSubscription s) = Ok tt.

(** The subscriptions that pass the checks. *)
Inductive shape : bool → StreamSubscription → Prop :=
  | shape_plain channel symbol :
      channel ∈ [StreamChannelTicker; StreamChannelBBO; StreamChannelTrades] →
      HTX.validateSymbol symbol = Ok tt → shape false (MkSubscription channel symbol "" "" 0 0)
  | shape_depth symbol depth :
      DepthType_valid depth = true → HTX.validateSymbol symbol = Ok tt →
      shape false (MkSubscription StreamChannelDepth symbol depth "" 0 0)
  | shape_candles symbol interval :
      CandleInterval_valid interval = true → HTX.validateSymbol symbol = Ok tt →
      shape false (MkSubscription StreamChannelCandles symbol "" interval 0 0)
  | shape_mbp symbol depth :
      StreamMBPDepth_valid depth = true → HTX.validateSymbol symbol = Ok tt →
      shape true (MkSubscription StreamChannelMBP symbol "" "" 0 depth).

Lemma htx_valid_shape mbp s : valid_subscription mbp s → shape mbp s.
Proof.
  unfold valid_subscription, validateStreamSubscription, validateMBPStreamSubscription.
  destruct s as [channel symbol depth interval mode mbpDepth]. simpl.
  destruct mbp; intros H; validity H; constructor; first [done|set_solver].
Qed.

Lemma symbol_no s c :
  is_digit c || is_lower c = false → HTX.validateSymbol s = Ok tt → string_forall (not_char c) s = true.
Proof.
  intros Hc H. unfold HTX.validateSymbol in H. apply require_Ok in H. rewrite negb_involutive in H.
  by eapply (matches_not_char (λ c, is_digit c || is_lower c)).
Qed.

Lemma htx_shape_no_nul mbp s :
  shape mbp s → Forall no_nul [Channel s; Symbol s; DepthType s; CandleInterval s; pretty (Mode s);
                               pretty (MBPDepth s)].
Proof.
  assert (∀ symbol, HTX.validateSymbol symbol = Ok tt → no_nul symbol) as Hsymbol.
  { intros symbol. by apply symbol_no. }
  pose proof (no_nul_pretty 0) as H0.
  destruct 1; rewrite ?Forall_cons; simpl; split_and!; try done; try (by apply Hsymbol);
    try apply no_nul_pretty; try constructor.
  - set_unfold. by destruct_or!; subst.
  - unfold DepthType_valid in *. go_bool. set_unfold. by destruct_or!; subst.
  - unfold CandleInterval_valid in *. go_bool. set_unfold. by destruct_or!; subst.
Qed.

(** The key of a subscription determines it. *)
Lemma htx_key_inj mbp s s' :
  valid_subscription mbp s → valid_subscription mbp s' → streamSubscriptionKey s = streamSubscriptionKey s' →
  s = s'.
Proof.
  intros Hs%htx_valid_shape%htx_shape_no_nul Hs'%htx_valid_shape%htx_shape_no_nul Heq.
  apply joinNUL_inj in Heq; [|done..]. destruct s, s'. simpl in Heq. by simplify_eq.
Qed.

Lemma Split_topic symbol rest :
  HTX.validateSymbol symbol = Ok tt →
  Split dot ("market." +:+ symbol +:+ String dot rest) = "market" :: symbol :: Split dot rest.
Proof.
  intros Hs. change ("market." +:+ symbol +:+ String dot rest)
    with ("market" +:+ String dot (symbol +:+ String dot rest)).
  rewrite Split_cut by done. by rewrite Split_cut by by apply symbol_no.
Qed.

(** What follows the symbol in a topic. *)
Definition topic_parts (s : StreamSubscription) : list string :=
  if bool_decide (Channel s = StreamChannelTicker) then ["ticker"]
  else if bool_decide (Channel s = StreamChannelDepth) then ["depth"; DepthType s]
  else if bool_decide (Channel s = StreamChannelBBO) then ["bbo"]
  else if bool_decide (Channel s = StreamChannelTrades) then ["trade"; "detail"]
  else if bool_decide (Channel s = StreamChannelCandles) then ["kline"; CandleInterval s]
  else ["mbp"; pretty (MBPDepth s)].

Lemma Split_two first second :
  string_forall (not_char dot) first = true → string_forall (not_char dot) second = true →
  Split dot (first +:+ String dot second) = [first; second].
Proof. intros Hf Hs. by rewrite Split_cut, Split_none. Qed.

Lemma Split_subscription mbp s :
  shape mbp s → Split dot (streamSubscriptionTopic s) = "market" :: Symbol s :: topic_parts s.
Proof.
  destruct 1 as [channel symbol Hc Hs|symbol depth Hd Hs|symbol interval Hi Hs|symbol depth Hd Hs].
  - set_unfold. destruct_or!; subst.
    + exact (Split_topic symbol "ticker" Hs).
    + exact (Split_topic symbol "bbo" Hs).
    + exact (Split_topic symbol "trade.detail" Hs).
  - change (streamSubscriptionTopic _) with ("market." +:+ symbol +:+ String dot ("depth" +:+ String dot depth)).
    rewrite Split_topic, Split_two; [done|done| |done].
    unfold DepthType_valid in *. go_bool. set_unfold. by destruct_or!; subst.
  - change (streamSubscriptionTopic _) with ("market." +:+ symbol +:+ String dot ("kline" +:+ String dot interval)).
    rewrite Split_topic, Split_two; [done|done| |done].
    unfold CandleInterval_valid in *. go_bool. set_unfold. by destruct_or!; subst.
  - change (streamSubscriptionTopic _) with ("market." +:+ symbol +:+ String dot ("mbp" +:+ String dot (pretty depth))).
    rewrite Split_topic, Split_two; [done|done| |done]. by apply pretty_Z_not_char.
Qed.

(** The decoder reads a topic back. *)
Lemma htx_parse_topic mbp s :
  valid_subscription mbp s →
  parseStreamTopic (streamSubscriptionTopic s) = Ok (Channel s, Symbol s) ∧
  streamTopicMBPDepth (streamSubscriptionTopic s) = MBPDepth s.
Proof.
  intros Hs%htx_valid_shape. unfold parseStreamTopic, streamTopicMBPDepth.
  rewrite (Split_subscription mbp s Hs).
  destruct Hs as [channel symbol Hc Hs|symbol depth Hd Hs|symbol interval Hi Hs|symbol depth Hd Hs]; simpl.
  - rewrite Hs. set_unfold. by destruct_or!; subst.
  - rewrite Hs. simpl. by rewrite Hd.
  - rewrite Hs. simpl. by rewrite Hi.
  - rewrite Hs. unfold StreamMBPDepth_valid in Hd. go_bool. set_unfold. by destruct_or!; subst; vm_compute.
Qed.

Lemma htx_topic_inj mbp s s' :
  valid_subscription mbp s → valid_subscription mbp s' →
  streamSubscriptionTopic s = streamSubscriptionTopic s' → s = s'.
Proof.
  intros Hs%htx_valid_shape Hs'%htx_valid_shape Heq.
  pose proof (Split_subscription mbp s Hs) as Hp. rewrite Heq, (Split_subscription mbp s' Hs') in Hp.
  injection Hp as Hsym Hp. destruct Hs as [c p Hc|p d Hd|p i Hi|p d Hd]; inversion Hs'; subst; set_unfold;
    destruct_or?; subst; vm_compute in Hp; simplify_eq/=; try done.
Qed.

Lemma htx_topic_key mbp s s' :
  valid_subscription mbp s → valid_subscription mbp s' →
  [streamSubscriptionTopic s] = [streamSubscriptionTopic s'] ↔
    streamSubscriptionKey s = streamSubscriptionKey s'.
Proof.
  intros Hs Hs'. split; intros Heq; [injection Heq as Heq|do 2 f_equal]; [f_equal; by eapply htx_topic_inj|by eapply htx_key_inj].
Qed.

Definition laws (mbp : bool) :
  CommandStreamLaws (C := stream) StreamSubscription unit StreamCommand StreamMessage.
Proof.
  refine {| StreamCommands.valid_subscription := valid_subscription mbp;
            StreamCommands.streamTopic s := [streamSubscriptionTopic s];
            StreamCommands.commandID := commandID |}.
  - apply htx_topic_key.
  - intros environment op s counter. simpl. lia.
  - intros environment op s counter counter' payload id Hs. simpl. intros [= <- <- <-].
    exists (counter + 1). split; [lia|]. split; [done|]. unfold read.
    assert (streamSubscriptionTopic s ≠ "") as Ht.
    { intros Ht. pose proof (Split_subscription mbp s (htx_valid_shape _ _ Hs)) as Hp. by rewrite Ht in Hp. }
    destruct op; simpl; [by rewrite bool_decide_eq_false_2|done].
  - intros m c accepted [n Hn] _. simpl. unfold handleControl, answer. rewrite Hn.
    by destruct accepted.
Defined.
