(* ===== verification/CryptoComStream.v ===== *)
(** * Crypto.com market streams: [exchange/cryptocom/websocket.go] and [websocket_decode.go]

    The client and its quotas, the subscriptions, whose key is their topic, the
    commands, the answers, which must repeat the method of their command, and the
    decoder.  [stream] is the instance of [CommandStream]. *)

From S2P Require Import Prelude GoStrings Decimals Errors Options Credential Executor Session ClientErrors.
From S2P Require Import Unified SpotAdapter CryptoComSpot StreamCommands StreamClient.

Definition DefaultMarketWebSocketURL : string := "wss://stream.crypto.com/exchange/v1/market".
Definition DefaultUserWebSocketURL : string := "wss://stream.crypto.com/exchange/v1/user".
Definition DefaultStreamConnectionReadyDelay : Z := Second.
Definition DefaultMarketStreamRequestsPerSecond : Z := 100.
Definition DefaultUserStreamRequestsPerSecond : Z := 150.
Definition maximumCryptoComStreamSubscriptions : Z := 200.

Definition validationError (message : string) : error := APIValidationError ExchangeCryptoCom message.
Abbreviation refuse b message := (require (negb b) (validationError message)).

(** ** Clients *)

Record StreamClientConfig : Type := MkConfig {
  config :> StreamConfig;
  MarketWebSocketURL : string;
  UserWebSocketURL : string;
  ConnectionReadyDelay : Z;
  MarketRequestsPerSecond : Z;
  UserRequestsPerSecond : Z
}.

Record CryptoComStreamClient : Type := MkClient {
  client :> StreamClient;
  marketURL : string;
  userURL : string;
  connectionReadyDelay : Z;
  marketCommandInterval : Z;
  userCommandInterval : Z
}.

Definition validateCryptoComStreamURL (parse : url_parser) : string → bool → result error string :=
  validateURL parse (λ parsed, negb (bool_decide (RawQuery parsed = ""))) URL_String.

Definition NewStreamClient (parse : url_parser) (config : StreamClientConfig)
    : result error CryptoComStreamClient :=
  route ← streamRoute "Crypto.com" config;
  let check := validateCryptoComStreamURL parse in
  let insecure := AllowInsecureWebSocket config in
  marketURL ← labelled "invalid Crypto.com market WebSocket URL: %w"
    (check (orText (MarketWebSocketURL config) DefaultMarketWebSocketURL) insecure);
  userURL ← labelled "invalid Crypto.com user WebSocket URL: %w"
    (check (orText (UserWebSocketURL config) DefaultUserWebSocketURL) insecure);
  let delay := orNumber (ConnectionReadyDelay config) DefaultStreamConnectionReadyDelay in
  require (negb (bool_decide (delay < 0)))
    (Errorf "Crypto.com connection ready delay cannot be negative");;
  let market := orNumber (MarketRequestsPerSecond config) DefaultMarketStreamRequestsPerSecond in
  require (negb (bool_decide (market < 1) || bool_decide (DefaultMarketStreamRequestsPerSecond < market)))
    (Errorf "Crypto.com market stream quota must be between 1 and 100");;
  let user := orNumber (UserRequestsPerSecond config) DefaultUserStreamRequestsPerSecond in
  require (negb (bool_decide (user < 1) || bool_decide (DefaultUserStreamRequestsPerSecond < user)))
    (Errorf "Crypto.com user stream quota must be between 1 and 150");;
  require (negb (bool_decide (StreamClient.MaxReconnectAttempts config < 0)))
    (Errorf "Crypto.com maximum reconnect attempts cannot be negative");;
  credentials ← streamCredentials ExchangeCryptoCom "Crypto.com" config;
  Ok (MkClient (streamClient config route credentials 0 0) marketURL userURL delay
        (Z.quot Second market) (Z.quot Second user)).

(** [waitCommandSlot]: how long a command waits after the last one. *)
Definition commandDelay (lastCommandAt interval now : Z) : Z :=
  Z.max 0 (lastCommandAt + interval - now).

(** ** Subscriptions *)

Definition StreamChannelTicker : string := "ticker".
Definition StreamChannelTrades : string := "trade".
Definition StreamChannelCandles : string := "candlestick".
Definition StreamChannelBook : string := "book".
Definition StreamChannelUserOrders : string := "user.order".
Definition StreamChannelUserTrades : string := "user.trade".
Definition StreamChannelUserBalances : string := "user.balance".

Definition StreamBookSnapshot : string := "SNAPSHOT".
Definition StreamBookSnapshotAndUpdate : string := "SNAPSHOT_AND_UPDATE".
Definition StreamBookUpdate500Milliseconds : string := "500".

Record StreamSubscription : Type := MkSubscription {
  Channel : string;
  InstrumentName : string;
  CandleTimeframe : string;
  BookDepth : Z;
  BookSubscriptionType : string;
  BookUpdateFrequency : string
}.

(** The methods [valid] of the four types. *)
Definition CandleTimeframe_valid (timeframe : string) : bool :=
  bool_decide (timeframe ∈ ["1m"; "5m"; "15m"; "30m"; "1h"; "2h"; "4h"; "12h"; "1D"; "7D"; "14D"; "1M"]).
Definition StreamBookDepth_valid (depth : Z) : bool := bool_decide (depth ∈ [10; 50]).
Definition StreamBookSubscriptionType_valid (value : string) : bool :=
  bool_decide (value ∈ [StreamBookSnapshot; StreamBookSnapshotAndUpdate]).
Definition StreamBookUpdateFrequency_valid (value : string) : bool :=
  bool_decide (value ∈ ["10"; "100"; StreamBookUpdate500Milliseconds]).

Definition validateCryptoComStreamSubscription (s : StreamSubscription) : result error unit :=
  CryptoCom.validateInstrumentName (InstrumentName s);;
  let noBook := unset (BookSubscriptionType s) && unset (BookUpdateFrequency s) &&
                bool_decide (BookDepth s = 0) in
  if bool_decide (Channel s ∈ [StreamChannelTicker; StreamChannelTrades])
  then refuse (negb (unset (CandleTimeframe s)) || negb noBook)
         "WebSocket channel %q does not accept channel-specific settings"
  else if bool_decide (Channel s = StreamChannelCandles)
  then
    refuse (negb (CandleTimeframe_valid (CandleTimeframe s))) "unsupported WebSocket candle timeframe %q";;
    refuse (negb noBook) "candle WebSocket subscription does not accept book settings"
  else if bool_decide (Channel s = StreamChannelBook)
  then
    refuse (negb (unset (CandleTimeframe s))) "book WebSocket subscription does not accept candle timeframe";;
    refuse (negb (StreamBookDepth_valid (BookDepth s))) "unsupported WebSocket book depth %d";;
    refuse (negb (StreamBookSubscriptionType_valid (BookSubscriptionType s)))
      "unsupported WebSocket book subscription type %q";;
    refuse (negb (StreamBookUpdateFrequency_valid (BookUpdateFrequency s)))
      "unsupported WebSocket book update frequency %q";;
    refuse (bool_decide (BookSubscriptionType s = StreamBookSnapshot) &&
            negb (bool_decide (BookUpdateFrequency s = StreamBookUpdate500Milliseconds)))
      "snapshot WebSocket book frequency must be 500 milliseconds"
  else Err (validationError "unsupported public WebSocket channel %q").

Definition cryptoComStreamSubscriptionTopic (s : StreamSubscription) : string :=
  if bool_decide (Channel s ∈ [StreamChannelTicker; StreamChannelTrades])
  then Channel s +:+ "." +:+ InstrumentName s
  else if bool_decide (Channel s = StreamChannelCandles)
  then Channel s +:+ "." +:+ CandleTimeframe s +:+ "." +:+ InstrumentName s
  else if bool_decide (Channel s = StreamChannelBook)
  then Channel s +:+ "." +:+ InstrumentName s +:+ "." +:+ pretty (BookDepth s)
  else "".

(** [cryptoComStreamSubscriptionKey]. *)
#[export] Instance cryptoComSubscriptionKey : SubscriptionKey StreamSubscription :=
  cryptoComStreamSubscriptionTopic.

Definition validateCryptoComStreamSubscriptions (subscriptions : list StreamSubscription)
    : result error (list StreamSubscription) :=
  validateList (λ s, validateCryptoComStreamSubscription s;; Ok s) streamSubscriptionKey
    maximumCryptoComStreamSubscriptions (validationError "WebSocket subscription is required")
    (validationError "WebSocket subscription count cannot exceed %d")
    (validationError "duplicate WebSocket subscription") subscriptions.

(** The channel, the instrument and the depth that a topic names. *)
Definition parseCryptoComStreamSubscription (value : string) : result error (string * string * Z) :=
  '(channel, instrumentName, depth) ←
    match Split dot value with
    | ["user"; "order"] => Ok (StreamChannelUserOrders, "", 0)
    | ["user"; "order"; instrument] => Ok (StreamChannelUserOrders, instrument, 0)
    | ["user"; "trade"] => Ok (StreamChannelUserTrades, "", 0)
    | ["user"; "trade"; instrument] => Ok (StreamChannelUserTrades, instrument, 0)
    | ["user"; "balance"] => Ok (StreamChannelUserBalances, "", 0)
    | [channel; instrument] =>
        if bool_decide (channel ∈ [StreamChannelTicker; StreamChannelTrades]) then Ok (channel, instrument, 0)
        else Err (Errorf "unsupported Crypto.com stream subscription %q")
    | [channel; second; third] =>
        if bool_decide (channel = StreamChannelCandles) && CandleTimeframe_valid second
        then Ok (StreamChannelCandles, third, 0)
        else if bool_decide (channel = StreamChannelBook)
        then
          match Atoi third with
          | Some depth =>
              require (StreamBookDepth_valid depth) (Errorf "invalid Crypto.com stream subscription %q");;
              Ok (StreamChannelBook, second, depth)
          | None => Err (Errorf "invalid Crypto.com stream subscription %q")
          end
        else Err (Errorf "unsupported Crypto.com stream subscription %q")
    | _ => Err (Errorf "unsupported Crypto.com stream subscription %q")
    end;
  (if bool_decide (instrumentName = "") then Ok tt else CryptoCom.validateInstrumentName instrumentName);;
  Ok (channel, instrumentName, depth).

(** ** Commands *)

Record StreamCommand : Type := MkStreamCommand {
  ID : string;
  Method : string;
  Channels : list string;
  command_BookSubscriptionType : string;
  command_BookUpdateFrequency : string;
  Nonce : string
}.

Definition method_of (op : Operation) : string :=
  match op with Subscribe => "subscribe" | Unsubscribe => "unsubscribe" end.

(** The environment is the clock in milliseconds. *)
Definition encodeStreamCommand (nonceValue : Z) (op : Operation) (s : StreamSubscription) (nextID : Z)
    : Z * result error (StreamCommand * string) :=
  if bool_decide (nonceValue ≤ 0)
  then (nextID, Err (validationError "Crypto.com stream nonce must be after the Unix epoch"))
  else
    let id := pretty (nextID + 1) in
    let book := bool_decide (op = Subscribe) && bool_decide (Channel s = StreamChannelBook) in
    (nextID + 1,
     Ok (MkStreamCommand id (method_of op) [cryptoComStreamSubscriptionTopic s]
           (if book then BookSubscriptionType s else "") (if book then BookUpdateFrequency s else "")
           (pretty nonceValue), id)).

(** ** Messages *)

Record StreamError : Type := MkStreamError { Code : string; error_Message : string; Original : string }.

Record StreamMessage : Type := MkStreamMessage {
  message_ID : string;
  message_Method : string;
  message_Code : string;
  message_InstrumentName : string;
  message_Subscription : string;
  message_Channel : string;
  Depth : Z;
  Private : bool;
  Heartbeat : bool;
  Error : option StreamError;
  Data : string;
  Raw : string
}.

Record streamWireMessage : Type := MkWireMessage {
  wire_ID : string;
  wire_Method : string;
  wire_Code : string;
  wire_Result : string;
  wire_Message : string;
  wire_Original : string
}.

Record streamWireResult : Type := MkWireResult {
  result_InstrumentName : string;
  result_Subscription : string;
  result_Channel : string;
  result_Depth : Z;
  result_Data : string
}.

Definition cryptoComPrivateStreamChannel (channel : string) : bool :=
  bool_decide (channel = StreamChannelUserOrders) || bool_decide (channel = StreamChannelUserTrades) ||
  bool_decide (channel = StreamChannelUserBalances).

(** [strings.SplitN(channel, ".", 2)[0]] is the text before the first dot. *)
Definition cryptoComStreamChannelName (channel : string) : string :=
  if cryptoComPrivateStreamChannel channel then (Cut dot channel).1 else channel.

Definition maximumCryptoComStreamMessageBytes : Z := Z.shiftl 16 20.

Definition controlMethod (method : string) : bool :=
  bool_decide (method ∈ ["subscribe"; "unsubscribe"; "public/respond-heartbeat"; "public/auth"]).

Section decode.
(** [json.Valid] and [json.Unmarshal] into the envelope, the result, an array and
    a string. *)
Context (json_Valid : string → bool) (unmarshalWire : string → result error streamWireMessage)
  (unmarshalResult : string → result error streamWireResult) (unmarshalArray : string → result error unit)
  (unmarshalString : string → result error string).

Definition optionalScalarText (raw : string) : result error string :=
  let trimmed := TrimSpace raw in
  if bool_decide (trimmed = "") || bool_decide (trimmed = "null") then Ok ""
  else if HasPrefix trimmed (String (Ascii.ascii_of_N 34) "") then unmarshalString trimmed
  else
    require (negb (HasPrefix trimmed "{" || HasPrefix trimmed "[" || negb (json_Valid trimmed) ||
                   bool_decide (trimmed = "true") || bool_decide (trimmed = "false")))
      (Errorf "value is not a string or number");;
    Ok trimmed.

(** The int of the platform has 64 bits. *)
Definition intFromInteger (value : Z) : result error Z :=
  require (bool_decide (int64 value = value)) (Errorf "Crypto.com %s exceeds platform integer range");;
  Ok value.

Definition DecodeStreamMessage (message : Message) : result error StreamMessage :=
  require (bool_decide (Message_Type message = MessageText))
    (Errorf "unsupported Crypto.com stream frame type %d");;
  let trimmed := TrimSpace (Message_Data message) in
  require (negb (bool_decide (trimmed = "") ||
                 bool_decide (maximumCryptoComStreamMessageBytes < Z.of_nat (String.length trimmed)) ||
                 negb (json_Valid trimmed) || negb (HasPrefix trimmed "{")))
    (Errorf "invalid Crypto.com stream JSON object");;
  wire ← labelled "decode Crypto.com stream envelope: %w" (unmarshalWire trimmed);
  id ← labelled "decode Crypto.com stream message ID: %w" (optionalScalarText (wire_ID wire));
  require (negb (bool_decide (id = ""))) (Errorf "Crypto.com stream message ID is missing");;
  code ← labelled "decode Crypto.com stream response code: %w" (optionalScalarText (wire_Code wire));
  require (negb (bool_decide (code = ""))) (Errorf "Crypto.com stream response code is missing");;
  let method := wire_Method wire in
  require (negb (bool_decide (method = ""))) (Errorf "Crypto.com stream method is missing");;
  let plain heartbeat error := MkStreamMessage id method code "" "" "" 0 false heartbeat error "" trimmed in
  if negb (bool_decide (code = "0"))
  then Ok (plain false (Some (MkStreamError code (wire_Message wire) (wire_Original wire))))
  else
    require (bool_decide (wire_Message wire = "") && bool_decide (wire_Original wire = ""))
      (Errorf "successful Crypto.com stream response contains error fields");;
    let resultRaw := TrimSpace (wire_Result wire) in
    if bool_decide (method = "public/heartbeat") then
      require (bool_decide (resultRaw = "")) (Errorf "Crypto.com heartbeat contains an unexpected result");;
      Ok (plain true None)
    else if bool_decide (resultRaw ∈ [""; "null"; "{}"]) then
      require (controlMethod method) (Errorf "unsupported Crypto.com stream method %q");;
      Ok (plain false None)
    else
      require (HasPrefix resultRaw "{") (Errorf "Crypto.com stream result is not an object");;
      wireResult ← labelled "decode Crypto.com stream result: %w" (unmarshalResult resultRaw);
      let dataRaw := TrimSpace (result_Data wireResult) in
      if bool_decide (result_Subscription wireResult = "") then
        require (bool_decide (result_InstrumentName wireResult = "") &&
                 bool_decide (result_Channel wireResult = "") && bool_decide (result_Depth wireResult = 0) &&
                 bool_decide (dataRaw = "") && controlMethod method)
          (Errorf "Crypto.com stream data subscription is missing");;
        Ok (plain false None)
      else
        '(channel, instrumentName, depth) ←
          parseCryptoComStreamSubscription (result_Subscription wireResult);
        require (bool_decide (method = "subscribe") &&
                 bool_decide (result_InstrumentName wireResult = instrumentName) &&
                 bool_decide (result_Channel wireResult = cryptoComStreamChannelName channel))
          (Errorf "Crypto.com stream data metadata is inconsistent");;
        resultDepth ← intFromInteger (result_Depth wireResult);
        require (bool_decide (resultDepth =
                   if bool_decide (channel = StreamChannelBook) then depth else 0))
          (Errorf "Crypto.com stream data depth is inconsistent");;
        require (negb (bool_decide (dataRaw = "")) && HasPrefix dataRaw "[")
          (Errorf "Crypto.com stream data is not an array");;
        labelled "decode Crypto.com stream data array: %w" (unmarshalArray dataRaw);;
        Ok (MkStreamMessage id method code instrumentName (result_Subscription wireResult) channel depth
              (cryptoComPrivateStreamChannel channel) false None dataRaw trimmed).
End decode.

(** [handleControl], with its error. *)
Definition handleControl (m : managedStream StreamSubscription) (message : StreamMessage)
    : managedStream StreamSubscription * option error :=
  if bool_decide (message_ID message = "") || Heartbeat message ||
     (negb (bool_decide (message_Method message = "subscribe")) &&
      negb (bool_decide (message_Method message = "unsubscribe")))
  then (m, None)
  else
    match pending m !! message_ID message with
    | None => (m, None)
    | Some p =>
        if bool_decide (message_Method message = method_of (operation p))
        then (settle m (message_ID message) (bool_decide (is_Some (Error message))), None)
        else (settle m (message_ID message) true,
              Some (Errorf "Crypto.com stream response method %q does not match %q"))
    end.

(** The function that [Run] gives to the session, between its decoder and its
    handler; [heartbeat] is what [respondHeartbeat] returns and [reconnected] what
    [Session.Reconnect] then does. *)
Definition handleMarketMessage (m : managedStream StreamSubscription) (message : StreamMessage)
    (heartbeat reconnected : option error) : managedStream StreamSubscription * result error bool :=
  if Private message
  then (m, Err (Errorf "Crypto.com market stream received private user data"))
  else
    match (if Heartbeat message then heartbeat else None) with
    | Some err => (m, match reconnected with Some _ => Err err | None => Ok false end)
    | None =>
        match handleControl m message with
        | (m, Some err) => (m, Err err)
        | (m, None) => (m, Ok true)
        end
    end.

(** ** Streams *)

Definition resolveStreamRoute : StreamClient → list (option RequestOption) → result error string :=
  resolveRoute "Crypto.com".

Definition streamReconnectPolicy : StreamClient → error → bool := policy refusal.

Definition PublicStream (parse : url_parser) (client : CryptoComStreamClient)
    (requested : list StreamSubscription) (options : list (option RequestOption))
    : result error (Stream StreamSubscription) :=
  subscriptions ← validateCryptoComStreamSubscriptions requested;
  route ← resolveStreamRoute client options;
  session ← newSession parse client (Some (streamReconnectPolicy client)) route
    (Some (MkDialRequest (marketURL client) ∅)) true;
  Ok (MkStream session (newManagedStream subscriptions) false).

(** [Subscribe] and [Unsubscribe], up to [change]. *)
Definition changeStream (op : Operation) (requested : list StreamSubscription)
    : result error (input (Subscription := StreamSubscription) (Environment := Z)) :=
  validated ← validateCryptoComStreamSubscriptions requested;
  Ok (InChange op validated).

(** ** The instance *)

Definition read (payload : StreamCommand) : command :=
  MkCommand (ID payload)
    (if bool_decide (Method payload = "subscribe") then Subscribe else Unsubscribe) (Channels payload).

(** The documented answer to a command: its ID and method, and an error if it is
    refused. *)
Definition answer (c : command) (accepted : bool) : StreamMessage :=
  MkStreamMessage (command_id c) (method_of (command_operation c)) (if accepted then "0" else "40004")
    "" "" "" 0 false false (if accepted then None else Some (MkStreamError "40004" "" "")) "" "".

#[export] Instance stream : CommandStream StreamSubscription Z StreamCommand StreamMessage := {|
  maximumStreamSubscriptions := maximumCryptoComStreamSubscriptions;
  StreamCommands.encodeStreamCommand := encodeStreamCommand;
  StreamCommands.read := read;
  StreamCommands.answer := answer;
  StreamCommands.handleControl m message := (handleControl m message).1;
  limit_error := validationError "WebSocket subscription count cannot exceed %d"
|}.

(** ** Its laws *)

Definition valid_subscription (s : StreamSubscription) : Prop :=
  validateCryptoComStreamSubscription s = Ok tt.

#[export] Instance laws : CommandStreamLaws (C := stream) StreamSubscription Z StreamCommand StreamMessage.
Proof.
  refine {| StreamCommands.valid_subscription := valid_subscription;
            StreamCommands.streamTopic s := [cryptoComStreamSubscriptionTopic s]; commandID := pretty |}.
  - intros s s' _ _. split; [by injection 1|]. intros Heq. f_equal. exact Heq.
  - intros environment op s counter. simpl. unfold encodeStreamCommand. case_bool_decide; simpl; lia.
  - intros environment op s counter counter' payload id _. simpl. unfold encodeStreamCommand.
    case_bool_decide as Hnow; [by intros [= _]|]. intros [= <- <- <-].
    exists (counter + 1). split; [lia|]. split; [done|]. unfold read. simpl. by destruct op.
  - intros m c accepted [n Hn] Hop. simpl. unfold handleControl, answer. simpl.
    rewrite bool_decide_eq_false_2 by (rewrite Hn; apply pretty_Z_nonempty).
    replace (bool_decide (is_Some (if accepted then None else Some (MkStreamError "40004" "" ""))))
      with (negb accepted) by by destruct accepted.
    assert (bool_decide (method_of (command_operation c) = "subscribe") ||
            bool_decide (method_of (command_operation c) = "unsubscribe") = true) as Hm
      by by destruct (command_operation c).
    destruct (bool_decide (method_of (command_operation c) = "subscribe")),
      (bool_decide (method_of (command_operation c) = "unsubscribe")); try done; simpl;
      (destruct (pending m !! command_id c) as [p|] eqn:Hp; [|unfold settle; by rewrite Hp]);
      by rewrite (Hop p eq_refl), bool_decide_eq_true_2.
Defined.

(** ** The decoder reads a topic back *)

Lemma instrument_no_dot s : CryptoCom.validateInstrumentName s = Ok tt → string_forall (not_char dot) s = true.
Proof.
  intros H. unfold CryptoCom.validateInstrumentName in H. apply require_Ok in H. rewrite negb_involutive in H.
  by apply (pairPattern_not_char CryptoCom.underscore 1 20).
Qed.

Lemma instrument_nonempty s : CryptoCom.validateInstrumentName s = Ok tt → s ≠ "".
Proof. by intros H ->. Qed.

(** The texts that two parts without dots make. *)
Lemma Split_parts first second :
  string_forall (not_char dot) first = true → string_forall (not_char dot) second = true →
  Split dot (first +:+ "." +:+ second) = [first; second].
Proof.
  intros Hf Hs. change (first +:+ "." +:+ second) with (first +:+ String dot second).
  by rewrite Split_cut, Split_none.
Qed.

Lemma Atoi_depth depth : StreamBookDepth_valid depth = true → Atoi (pretty depth) = Some depth.
Proof. unfold StreamBookDepth_valid. intros H. go_bool. set_unfold. by destruct_or!; subst; vm_compute. Qed.

Lemma cryptoCom_parse_topic s :
  valid_subscription s →
  parseCryptoComStreamSubscription (cryptoComStreamSubscriptionTopic s) =
    Ok (Channel s, InstrumentName s, BookDepth s).
Proof.
  unfold valid_subscription, validateCryptoComStreamSubscription.
  destruct s as [channel instrument candle depth type frequency]. simpl. intros H.
  assert (CryptoCom.validateInstrumentName instrument = Ok tt) as Hi.
  { by destruct (CryptoCom.validateInstrumentName instrument) as [[]|]. }
  pose proof (instrument_nonempty _ Hi) as Hne. pose proof (instrument_no_dot _ Hi) as Hdot.
  validity H; unfold parseCryptoComStreamSubscription, cryptoComStreamSubscriptionTopic; simpl;
    change ("" +:+ ?s) with s.
  1,2: by rewrite Split_none by done; simpl; rewrite bool_decide_eq_false_2, Hi by done.
  2,3: rewrite Split_parts; [|done|by apply pretty_Z_not_char]; rewrite Atoi_depth by done; simpl.
  2,3: by rewrite H4; simpl; rewrite bool_decide_eq_false_2, Hi by done.
  unfold CandleTimeframe_valid in *. go_bool.
  rewrite Split_parts; [| |done]; [|set_unfold; by destruct_or!; subst].
  rewrite bool_decide_eq_true_2 by done. simpl. by rewrite bool_decide_eq_false_2, Hi by done.
Qed.
