(* ===== verification/StreamExchanges.v ===== *)
(** * The confirmed streams of all exchanges

    [StreamExchange] names the streams whose commands are confirmed, and
    [stream_of] gives the client and the operations of each: what holds of every
    one of them is stated here, once.  A [history] is what can happen to a stream
    that a client has opened. *)

From S2P Require Import Prelude GoStrings Errors Options Credential Executor Session ClientErrors SpotAdapter.
From S2P Require Import StreamCommands StreamReconnect StreamClient.
From S2P Require Import GateIOStream GateIOFuturesStream HTXStream CryptoComStream.

(** What a client opens: a stream with its commands. *)
Record ConfirmedStream : Type := MkConfirmedStream {
  Subscription : Type;
  Environment : Type;
  Payload : Type;
  Reply : Type;
  operations :: CommandStream Subscription Environment Payload Reply;
  promises :: CommandStreamLaws Subscription Environment Payload Reply;
  stream_client : StreamClient;
  stream_endpoint : string;
  exchange_name : string;
  is_private : bool;
  open : list Subscription → list (option RequestOption) → result error (Stream Subscription);
  changeOf : Operation → list Subscription →
    result error (input (Subscription := Subscription) (Environment := Environment))
}.

Inductive StreamExchange : Type :=
  | StreamGateIO (client : GateIOStreamClient) (private : bool)
  | StreamGateIOFutures (client : GateIOFuturesStreamClient) (settlement : string) (private : bool)
  | StreamHTX (client : HTXStreamClient) (mbp : bool)
  | StreamCryptoCom (client : CryptoComStreamClient).

Section streams.
Context (parse : url_parser) (hmacSHA512 : string → string → string).

Definition stream_of (x : StreamExchange) : ConfirmedStream :=
  match x with
  | StreamGateIO client private =>
      MkConfirmedStream _ _ _ _ _ (GateIOStream.laws hmacSHA512 client private)
        client (GateIOStream.webSocketURL client) "Gate.io" private
        ((if private then GateIOStream.PrivateStream else GateIOStream.PublicStream) parse client)
        (GateIOStream.changeStream private)
  | StreamGateIOFutures client settlement private =>
      MkConfirmedStream _ _ _ _ _ (GateIOFuturesStream.laws hmacSHA512 client private)
        client (TrimSuffix (GateIOFuturesStream.webSocketURL client) "/" +:+ "/" +:+ settlement)
        "Gate.io Futures" private
        (λ subscriptions,
           (if private then GateIOFuturesStream.PrivateStream else GateIOFuturesStream.PublicStream)
             parse client (MkStreamRequest settlement subscriptions))
        (GateIOFuturesStream.changeStream private)
  | StreamHTX client mbp =>
      MkConfirmedStream _ _ _ _ _ (HTXStream.laws mbp)
        client (if mbp then mbpURL client else publicURL client) "HTX" false
        ((if mbp then MBPStream else HTXStream.PublicStream) parse client)
        (HTXStream.changeStream mbp)
  | StreamCryptoCom client =>
      MkConfirmedStream _ _ _ _ _ CryptoComStream.laws
        client (marketURL client) "Crypto.com" false
        (CryptoComStream.PublicStream parse client) CryptoComStream.changeStream
  end.

Abbreviation Subscriptions x := (Subscription (stream_of x)).
Abbreviation world_of x := (world (Subscription := Subscription (stream_of x)) (Payload := Payload (stream_of x))).
Abbreviation input_of x :=
  (input (Subscription := Subscription (stream_of x)) (Environment := Environment (stream_of x))).

(** The calls and events of a history: [Subscribe] and [Unsubscribe] are given
    what their checks accept, and no subscription is changed while an answer
    about it is awaited. *)
Definition permitted x (w : world_of x) (i : input_of x) : Prop :=
  match i, pc w with
  | InChange op subscriptions, Idle => ∃ requested, changeOf (stream_of x) op requested = Ok i
  | InCheck, Changing op (s :: todo) => ∀ id op', ¬ pending_on (managed w) (StreamCommands.streamTopic s) id op'
  | _, _ => True
  end.

Inductive history (x : StreamExchange) : world_of x → Prop :=
  | history_opened requested options s counter :
      open (stream_of x) requested options = Ok s → history x (initial (stream_managed s) counter)
  | history_step w i : history x w → permitted x w i → history x (step w i).

(** ** What opening a stream establishes *)

Lemma validated_Forall {A} (validate : A → result error unit) key maximum empty over duplicate requested
    (subscriptions : list A) :
  validateList (λ s, validate s;; Ok s) key maximum empty over duplicate requested = Ok subscriptions →
  Forall (λ s, validate s = Ok tt) subscriptions.
Proof.
  intros (_ & _ & _ & H)%validateList_Ok. eapply Forall2_Forall_r; [exact H|].
  apply Forall_forall. intros s _ y Hy. destruct (validate s) as [[]|] eqn:Hs; [|done]. naive_solver.
Qed.

(** What a stream is made of, and what its client has checked. *)
Record opened x (options : list (option RequestOption)) (s : Stream (Subscriptions x)) : Prop := {
  opened_managed : ∃ subscriptions, stream_managed s = newManagedStream (K := stream_key) subscriptions ∧
    Forall StreamCommands.valid_subscription subscriptions;
  opened_route : resolveRoute (exchange_name (stream_of x)) (stream_client (stream_of x)) options =
    Ok (Session_EgressRouteID (stream_session s));
  opened_endpoint : Endpoint (Session_Request (stream_session s)) = stream_endpoint (stream_of x);
  opened_policy : Session.ReconnectPolicy (stream_session s) =
    Some (policy refusal (stream_client (stream_of x)));
  opened_private : stream_private s = is_private (stream_of x);
  opened_entitled : is_private (stream_of x) →
    entitled (stream_client (stream_of x)) (Session_EgressRouteID (stream_session s))
}.

Lemma open_opened x requested options s :
  open (stream_of x) requested options = Ok s → opened x options s.
Proof.
  destruct x as [client [] |client settlement []|client []|client]; simpl; intros H;
    unfold GateIOStream.PrivateStream, GateIOStream.PublicStream, GateIOFuturesStream.PrivateStream,
      GateIOFuturesStream.PublicStream, MBPStream, HTXStream.PublicStream, CryptoComStream.PublicStream in H;
    invert_result; simpl in *;
    match goal with
    | H : _ = Ok ?session |- opened _ _ (MkStream ?session _ _) =>
        apply newSession_Ok in H as (Hroute & Hrequest & _ & Hpolicy & _)
    end;
    (split; simpl;
     [eexists; split; [done|by eapply validated_Forall]
     |by rewrite Hroute|by rewrite Hrequest|by rewrite Hpolicy|done|]); try done;
    intros _; rewrite Hroute.
  - by eapply privateAccess_entitled.
  - match goal with H : requireCredentials _ _ _ = Ok ?d |- _ => apply requireCredentials_Ok in H as [];
      exists d end.
    match goal with H : requireAccess _ _ _ _ = Ok _ |- _ => by apply requireAccess_Ok in H as [] end.
Qed.

Lemma change_valid x op requested i :
  changeOf (stream_of x) op requested = Ok i →
  ∃ subscriptions, i = InChange op subscriptions ∧ Forall StreamCommands.valid_subscription subscriptions.
Proof.
  destruct x as [client []|client settlement []|client []|client]; simpl; intros H;
    unfold GateIOStream.changeStream, GateIOFuturesStream.changeStream, HTXStream.changeStream,
      CryptoComStream.changeStream in H; invert_result; eexists; (split; [done|by eapply validated_Forall]).
Qed.

Lemma history_reachable x w : history x w → reachable w.
Proof.
  induction 1 as [requested options s counter Ho|w i _ IH Hi].
  - apply open_opened in Ho as [(subs & -> & Hv) _ _ _ _ _]. by apply reachable_initial.
  - apply reachable_step; [done|]. unfold permitted, careful in *. destruct i; try done.
    destruct (pc w); try done. destruct Hi as (requested & (subs & [= ->] & Hv)%change_valid). done.
Qed.

(** ** What the streams promise *)

(** C14: As long as no subscription is changed while the answer to an earlier
    command about it is awaited, whatever else has happened to a stream - changes,
    refusals, failed writes, lost connections, new ones - once the exchange has
    looked at the commands on their way and its answers are read, however it
    decided (it does not refuse a command that asks for what it does already), no
    command is pending and the subscriptions recorded are exactly what the
    exchange streams. *)
Theorem answered_streams_agree x w verdicts :
  history x w → connected w = true → consuming w = true → pc w = Idle →
  length verdicts = length (received w) →
  let w' := run w ((InHandle <$> verdicts) ++ replicate (length (answers w) + length verdicts) InAnswer) in
  pending (managed w') = ∅ ∧ ∀ t, t ∈ held w' ↔ recorded (subscriptions (managed w')) t.
Proof. intros Hw%history_reachable Hcon. apply answered_agree; [done|by rewrite Hcon]. Qed.

(** C15: A stream whose connection was lost, with any commands and answers on
    their way, subscribes again on the next connection to exactly what it has
    recorded: when the exchange agrees, the recorded set is unchanged, nothing
    is pending, and the exchange streams it. *)
Theorem reconnection_restores_streams x w environments environment :
  history x w → pc w = Idle → connected w = false → Forall encodable environments →
  length environments = size (subscriptions (managed w)) →
  let w' := run w (resubscription (environments ++ [environment]) ++ agreement (length environments)) in
  subscriptions (managed w') = subscriptions (managed w) ∧ pending (managed w') = ∅ ∧
  ∀ t, t ∈ held w' ↔ recorded (subscriptions (managed w)) t.
Proof. intros Hw%history_reachable Hpc Hcon Henv Hlen. rewrite Hlen. by apply reconnect_restores. Qed.

(** C16: The session of an opened stream is pinned to the route that its options
    resolve to and dials the client's address; a private stream only opens with a
    credential and a provider, on a route its credential allows, and with the
    permission to read. *)
Theorem streams_keep_their_route x requested options s :
  open (stream_of x) requested options = Ok s →
  (∃ resolved, ResolveRequestOptions (defaultRouteID (stream_client (stream_of x))) options = Ok resolved ∧
     Timeout resolved = 0 ∧ Session_EgressRouteID (stream_session s) = EgressRouteID resolved) ∧
  Endpoint (Session_Request (stream_session s)) = stream_endpoint (stream_of x) ∧
  stream_private s = is_private (stream_of x) ∧
  (stream_private s = true → entitled (stream_client (stream_of x)) (Session_EgressRouteID (stream_session s))).
Proof.
  intros [_ Hroute Hurl _ Hprivate Hentitled]%open_opened. split_and!; [|done|done|].
  - unfold resolveRoute in Hroute. invert_result. go_bool. by eexists.
  - rewrite Hprivate. intros Hp. apply Hentitled. by rewrite Hp.
Qed.

(** A failure to encode a command is one that another connection does not cure. *)
Lemma refusal_authentication exchange client cause :
  refusal (authenticationError exchange client cause) = true.
Proof. done. Qed.

Lemma refusal_validation exchange message : refusal (APIValidationError exchange message) = true.
Proof. done. Qed.

Lemma unencodable_refusal x environment op s counter err :
  (StreamCommands.encodeStreamCommand (CommandStream := operations (stream_of x)) environment op s counter).2 =
    Err err → refusal err = true.
Proof.
  destruct x as [client []|client settlement []|client mbp|client]; simpl;
    unfold GateIOStream.encodeStreamCommand, GateIOFuturesStream.encodeStreamCommand,
      CryptoComStream.encodeStreamCommand, GateIOStream.signCommand, GateIOFuturesStream.signCommand,
      GateIOStream.SignHMACSHA512, GateIOFuturesStream.SignHMACSHA512, require;
    repeat (case_match; simpl); by intros [= <-].
Qed.

(** The session gives up. *)
Definition given_up (w : Session.world) (err : error) : Prop :=
  Session.pc w = Finishing err ∨ Session.pc w = Finished err.

Lemma given_up_step parseURL parseTime config w err i :
  Session.started (session w) = true → given_up w err →
  let w' := Session.step parseURL parseTime config w i in
  Session.started (session w') = true ∧ given_up w' err.
Proof.
  unfold given_up. intros Hs Hw. destruct i; simpl; unfold start, Session_Close, Reconnect, Write;
    try (unfold runStep; destruct Hw as [Hw|Hw]; rewrite Hw; simpl; by auto).
  - rewrite Hs. by destruct (closed (session w)).
  - by destruct (closed (session w)).
  - destruct (closed (session w)); [done|]. by destruct (connection (session w)).
  - destruct (closed (session w)); [done|]. by destruct (connection (session w)).
Qed.

Lemma given_up_run parseURL parseTime config w err inputs :
  Session.started (session w) = true → given_up w err →
  given_up (foldl (Session.step parseURL parseTime config) w inputs) err.
Proof.
  revert w. induction inputs as [|i inputs IH]; intros w Hs Hw; [done|]. simpl.
  edestruct given_up_step as [Hs' Hw']; [exact Hs|exact Hw|]. by apply IH.
Qed.

(** C17: When the hook of a stream cannot encode the command of a subscription -
    the provider has no credential, a key is empty, the clock is before 1970 - the
    session gives up: it drops the connection, and whatever happens afterwards it
    dials no other and returns that error, unless it was stopped before. *)
Theorem unencodable_streams_stop parseURL parseTime x requested options s environment op subscription
    counter err w attempt conn gen random now inputs :
  open (stream_of x) requested options = Ok s →
  (StreamCommands.encodeStreamCommand (CommandStream := operations (stream_of x)) environment op subscription
     counter).2 = Err err →
  Session.reachable parseURL parseTime (stream_session s) w → Session.pc w = Hooking attempt conn gen →
  ∃ reason, (reason = err ∨ stopError w = Some reason) ∧
    given_up (foldl (Session.step parseURL parseTime (stream_session s)) w
      ([InHook (Some err); InReconnectStep random now] ++ inputs)) reason.
Proof.
  intros [_ _ _ Hpolicy _ _]%open_opened Herr%unencodable_refusal Hw Hpc.
  rewrite foldl_app. set (w' := foldl _ w [_; _]).
  assert (Session.started (session w) = true) as Hs.
  { destruct (Session.started (session w)) eqn:Hs; [done|]. by eapply started_running in Hs; [|done]; congruence. }
  set (reason := default err (stopError w)).
  exists reason. split; [unfold reason; destruct (stopError w); by auto|].
  assert (started (session w') = true ∧ Session.pc w' = Finishing reason) as [Hs' Hw'].
  { unfold w', reason. simpl. unfold runStep at 2 4. rewrite Hpc. simpl. unfold waitToReconnect, stopError. rewrite Hpolicy.
    assert (closed (remove (session w) conn) = closed (session w)) as Hc by (unfold remove; by case_match).
    assert (started (remove (session w) conn) = started (session w)) as Hst by (unfold remove; by case_match).
    simpl. rewrite Hc, Hst. unfold policy. rewrite Herr. destruct (closed (session w)); [done|].
    simpl. by destruct (ctxErr w). }
  apply given_up_run; [done|by left].
Qed.

End streams.

(** A list of inputs is permitted. *)
Fixpoint all_permitted parse hmac x w (inputs : list (input (Environment := Environment (stream_of parse hmac x)))) : Prop :=
  match inputs with
  | [] => True
  | i :: inputs => permitted parse hmac x w i ∧ all_permitted parse hmac x (step w i) inputs
  end.

Lemma history_run parse hmac x w inputs :
  history parse hmac x w → all_permitted parse hmac x w inputs → history parse hmac x (run w inputs).
Proof.
  revert w. induction inputs as [|i inputs IH]; intros w Hw; [done|]. intros [Hi Hrest].
  apply IH; [by apply history_step|done].
Qed.

(** ** Topics are read back *)

(** C18: The decoders read back what the commands name: HTX and Crypto.com find
    the channel, the symbol or instrument and the depth of a subscription in its
    topic, and Gate.io finds its channel, and whether it is private, in the name
    of the channel. *)
Theorem stream_topics_roundtrip :
  (∀ mbp s, HTXStream.valid_subscription mbp s →
     parseStreamTopic (streamSubscriptionTopic s) = Ok (HTXStream.Channel s, HTXStream.Symbol s) ∧
     streamTopicMBPDepth (streamSubscriptionTopic s) = MBPDepth s) ∧
  (∀ s, CryptoComStream.valid_subscription s →
     parseCryptoComStreamSubscription (cryptoComStreamSubscriptionTopic s) =
       Ok (CryptoComStream.Channel s, CryptoComStream.InstrumentName s, CryptoComStream.BookDepth s)) ∧
  (∀ private s, GateIOStream.valid_subscription private s →
     GateIOStream.streamChannelFromName (GateIOStream.streamChannelName (GateIOStream.Channel s)) =
       GateIOStream.Channel s ∧
     GateIOStream.streamChannelPrivate (GateIOStream.Channel s) = private) ∧
  (∀ private s, GateIOFuturesStream.valid_subscription private s →
     GateIOFuturesStream.streamChannelFromName (GateIOFuturesStream.streamChannelName
       (GateIOFuturesStream.Channel s)) = GateIOFuturesStream.Channel s ∧
     GateIOFuturesStream.streamChannelPrivate (GateIOFuturesStream.Channel s) = private).
Proof.
  split_and!.
  - intros mbp s. apply htx_parse_topic.
  - apply cryptoCom_parse_topic.
  - intros private s Hs%gateIO_valid_shape. destruct Hs; set_unfold; destruct_or?; by subst.
  - intros private s Hs%gateIOFutures_valid_shape. destruct Hs; set_unfold; destruct_or?; by subst.
Qed.

(** ** A refusal that comes late *)

(** C38: A refusal that comes late loses a subscription.  Take any stream of the four
    exchanges with nothing under way and room for a subscription that it has not
    recorded.  When the subscription is made, withdrawn and made again before the
    first command is answered, and the exchange refuses that first command only,
    the refusal undoes the last command too: the exchange streams the topic, but
    the recorded set is what it was, so that the next connection does not
    subscribe to it and withdrawing it sends nothing. *)
Theorem late_refusal_loses_a_subscription parse hmac x (w : world (Payload := Payload (stream_of parse hmac x)))
    s first second third :
  let stream := stream_of parse hmac x in
  history parse hmac x w → connected w = true → consuming w = true → pc w = Idle →
  received w = [] → answers w = [] →
  StreamCommands.valid_subscription (CommandStreamLaws := promises stream) s →
  ¬ recorded (L := promises stream) (subscriptions (managed w)) (StreamCommands.streamTopic s) →
  Z.of_nat (size (subscriptions (managed w))) < StreamCommands.maximumStreamSubscriptions (CommandStream := operations stream) →
  Forall (encodable (C := operations stream)) [first; second; third] →
  let w' := run w (hasty_inputs s first second third) in
  overlooks (L := promises stream) w' (StreamCommands.streamTopic s) ∧
  subscriptions (managed w') = subscriptions (managed w) ∧
  s ∉ snapshotSubscriptions (managed w') ∧
  ∀ environment, received (run w' (change_inputs Unsubscribe s environment)) = [].
Proof.
  cbv zeta. intros Hw%history_reachable Hcon Hcons Hpc Hrec Hans Hs Hnew Hroom Hencode.
  apply Forall_cons in Hencode as [H1 Hencode]. apply Forall_cons in Hencode as [H2 [H3 _]%Forall_cons].
  destruct (answered_agree w []) as [Hpend Hheld]; [done|by rewrite Hcon|done|done|by rewrite Hrec|].
  rewrite Hans in Hpend, Hheld. simpl in Hpend, Hheld.
  pose proof (recorded_valid _ (proj1 (reachable_invariant _ Hw))) as Hkeyed.
  assert (subscriptions (managed w) !! streamSubscriptionKey s = None) as Habsent.
  { apply eq_None_not_Some. rewrite <-well_keyed_recorded by done. exact Hnew. }
  destruct w as [m n p ret con cons h rec ans].
  cbn [managed received answers connected consuming pc held] in *. subst con cons p rec ans.
  destruct (hasty_run m n ret h s first second third Hs Hpend Habsent Hroom) as (n' & ret' & Hrun);
    [by rewrite Hheld|exact H1|exact H2|exact H3|].
  rewrite Hrun. unfold overlooks. cbn [managed received answers connected consuming pc held].
  split; [split_and!; [reflexivity..|exact Hpend| |exact Hnew]|split; [reflexivity|split]].
  - apply elem_of_union_l, elem_of_singleton_2. reflexivity.
  - intros Hin%elem_of_snapshot; [|exact Hkeyed]. congruence.
  - intros environment. by apply unrecorded_unsubscribe.
Qed.

Lemma permitted_check parse hmac x (w : world (Payload := Payload (stream_of parse hmac x))) op s todo :
  pc w = Changing op (s :: todo) →
  Forall (λ entry, StreamCommands.streamTopic (subscription entry.2) ≠ StreamCommands.streamTopic s)
    (map_to_list (pending (managed w))) →
  permitted parse hmac x w InCheck.
Proof. intros Hpc Hall. unfold permitted. rewrite Hpc. by apply nothing_pending_on. Qed.

Lemma permitted_end parse hmac x (w : world (Payload := Payload (stream_of parse hmac x))) op :
  pc w = Changing op [] → permitted parse hmac x w InCheck.
Proof. intros Hpc. unfold permitted. by rewrite Hpc. Qed.

Lemma permitted_change parse hmac x (w : world (Payload := Payload (stream_of parse hmac x))) op requested subs :
  pc w = Idle → changeOf (stream_of parse hmac x) op requested = Ok (InChange op subs) →
  permitted parse hmac x w (InChange op subs).
Proof. intros Hpc Hc. unfold permitted. rewrite Hpc. by exists requested. Qed.

(** ** Concrete streams *)

Definition demo_parse : url_parser := λ text, Some (MkParsedURL (MkURL "wss" "stream.example" false "") "" "" text).
Definition demo_hmac (key text : string) : string := key +:+ text.
Definition demo_descriptor : Descriptor :=
  MkDescriptor "account" ExchangeGateIO "secret" [PermissionRead] ["route"].
Definition demo_stream_client : StreamClient :=
  MkStreamClient (Some demo_descriptor) true "route" false None None 3 0 0.

Definition demo_gateIO (private : bool) : StreamExchange :=
  StreamGateIO (GateIOStream.MkClient demo_stream_client "wss://stream.example/ws") private.
Definition demo_gateIOFutures : StreamExchange :=
  StreamGateIOFutures (GateIOFuturesStream.MkClient demo_stream_client "7" "wss://stream.example/ws") "usdt" false.
Definition demo_htx : StreamExchange :=
  StreamHTX (HTXStream.MkClient demo_stream_client "wss://stream.example/ws" "wss://stream.example/feed"
    "wss://stream.example/v2") false.
Definition demo_cryptoCom : StreamExchange :=
  StreamCryptoCom (CryptoComStream.MkClient demo_stream_client "wss://stream.example/market"
    "wss://stream.example/user" 0 0 0).

Abbreviation demo_stream_of := (stream_of demo_parse demo_hmac).

(** ** Witnesses *)

Definition demo_ticker : GateIOStream.StreamSubscription := GateIOStream.MkSubscription "ticker" "BTC_USDT" "" "" 0.
Definition demo_trades : GateIOStream.StreamSubscription := GateIOStream.MkSubscription "trades" "BTC_USDT" "" "" 0.
Definition demo_environment : GateIOStream.Environment :=
  GateIOStream.MkEnvironment 1700000000 (Err (Errorf "unused")).
Definition demo_public : ConfirmedStream := demo_stream_of (demo_gateIO false).
Abbreviation demo_world := (world (Subscription := Subscription demo_public) (Payload := Payload demo_public)).

(** A stream of one subscription, and one with which another subscription is
    made: two commands are with the exchange. *)
Definition demo_fresh : demo_world :=
  initial (newManagedStream (K := GateIOStream.gateIOSubscriptionKey) [demo_ticker]) 0.
Definition demo_inputs : list (input (Subscription := Subscription demo_public)) :=
  [InConnect; InResubscribe; InResubscribeNext demo_environment None;
   InResubscribeNext demo_environment None] ++ change_inputs Subscribe demo_trades demo_environment.
Definition demo_before : demo_world := run demo_fresh demo_inputs.

Lemma demo_fresh_history : history demo_parse demo_hmac (demo_gateIO false) demo_fresh.
Proof.
  assert (match open demo_public [demo_ticker] [] with
          | Ok s => stream_managed s = newManagedStream (K := GateIOStream.gateIOSubscriptionKey) [demo_ticker]
          | Err _ => False end) as Ho by (vm_compute; reflexivity).
  destruct (open demo_public [demo_ticker] []) as [s|] eqn:Hs; [|destruct Ho].
  unfold demo_fresh. rewrite <-Ho. by apply (history_opened _ _ (demo_gateIO false) [demo_ticker] []).
Qed.

Lemma demo_history : history demo_parse demo_hmac (demo_gateIO false) demo_before.
Proof.
  apply history_run; [exact demo_fresh_history|].
  do 4 (split; [exact I|]).
  split; [by apply (permitted_change _ _ (demo_gateIO false) _ Subscribe [demo_trades]); vm_compute|].
  split; [apply (permitted_check _ _ (demo_gateIO false) _ Subscribe demo_trades []);
          [by vm_compute|apply (bool_decide_unpack _); by vm_compute]|].
  do 2 (split; [exact I|]).
  split; [by apply (permitted_end _ _ (demo_gateIO false) _ Subscribe); vm_compute|exact I].
Qed.

Lemma answered_streams_agree_witness :
  history demo_parse demo_hmac (demo_gateIO false) demo_before ∧
  let w' := run (C := operations demo_public) demo_before
    ((InHandle <$> [true; false]) ++ replicate (length (answers demo_before) + 2) InAnswer) in
  pending (managed w') = ∅ ∧
  ∀ t, t ∈ held w' ↔ recorded (L := promises demo_public) (subscriptions (managed w')) t.
Proof.
  split; [exact demo_history|].
  apply (answered_streams_agree demo_parse demo_hmac (demo_gateIO false) demo_before [true; false]);
    [exact demo_history|vm_compute; reflexivity..].
Defined.

(** The connection is lost while both answers are awaited. *)
Definition demo_lost : demo_world := step (C := operations demo_public) demo_before InDisconnect.

Lemma demo_lost_history : history demo_parse demo_hmac (demo_gateIO false) demo_lost.
Proof. apply (history_step _ _ (demo_gateIO false)); [exact demo_history|exact I]. Qed.

Lemma demo_encodable : encodable (C := operations demo_public) demo_environment.
Proof. intros op s counter. by do 3 eexists. Qed.

(** The stream of one subscription, connected and confirmed. *)
Definition demo_ready : demo_world := run (C := operations demo_public) demo_fresh
  [InConnect; InResubscribe; InResubscribeNext demo_environment None; InResubscribeNext demo_environment None;
   InHandle true; InAnswer].

Lemma demo_ready_history : history demo_parse demo_hmac (demo_gateIO false) demo_ready.
Proof. apply history_run; [exact demo_fresh_history|]. repeat (split; [exact I|]). exact I. Qed.

Lemma late_refusal_loses_a_subscription_witness :
  let w' := run (C := operations demo_public) demo_ready
    (hasty_inputs demo_trades demo_environment demo_environment demo_environment) in
  overlooks (L := promises demo_public) w' ["spot.trades"; "BTC_USDT"] ∧
  subscriptions (managed w') = subscriptions (managed demo_ready).
Proof.
  destruct (late_refusal_loses_a_subscription demo_parse demo_hmac (demo_gateIO false) demo_ready demo_trades
    demo_environment demo_environment demo_environment) as (Ho & Hs & _);
    [exact demo_ready_history|vm_compute; reflexivity..| | | | |].
  - vm_compute. reflexivity.
  - apply (not_recorded (L := promises demo_public)). apply (bool_decide_unpack _). by vm_compute.
  - by vm_compute.
  - repeat constructor; exact demo_encodable.
  - split; [exact Ho|exact Hs].
Defined.

Lemma reconnection_restores_streams_witness :
  history demo_parse demo_hmac (demo_gateIO false) demo_lost ∧
  size (pending (managed demo_lost)) = 2%nat ∧
  let w' := run (C := operations demo_public) demo_lost
    (resubscription ([demo_environment; demo_environment] ++ [demo_environment]) ++ agreement 2) in
  subscriptions (managed w') = subscriptions (managed demo_lost) ∧ pending (managed w') = ∅ ∧
  ∀ t, t ∈ held w' ↔ recorded (L := promises demo_public) (subscriptions (managed demo_lost)) t.
Proof.
  split; [exact demo_lost_history|]. split; [by vm_compute|].
  apply (reconnection_restores_streams demo_parse demo_hmac (demo_gateIO false) demo_lost
    [demo_environment; demo_environment] demo_environment).
  - exact demo_lost_history.
  - by vm_compute.
  - by vm_compute.
  - repeat constructor; exact demo_encodable.
  - by vm_compute.
Defined.

(** A private stream, whose session is connected. *)
Definition demo_orders : GateIOStream.StreamSubscription := GateIOStream.MkSubscription "orders" "BTC_USDT" "" "" 0.
Definition demo_private : ConfirmedStream := demo_stream_of (demo_gateIO true).

Definition demo_hooking (config : SessionConfig) : Session.world :=
  foldl (Session.step (λ text, parsed_URL <$> demo_parse text) (λ _, None) config) Session.initial
    [InRun; InStep; InSource (Err (Errorf "unused")); Session.InConnect None; InStep].

Lemma demo_private_open :
  ∃ s, open demo_private [demo_orders] [] = Ok s ∧ stream_private s = true ∧
    Session.pc (demo_hooking (stream_session s)) = Hooking 0 0%nat 1.
Proof.
  assert (match open demo_private [demo_orders] [] with
          | Ok s => stream_private s = true ∧ Session.pc (demo_hooking (stream_session s)) = Hooking 0 0%nat 1
          | Err _ => False end) as Ho by (vm_compute; split; reflexivity).
  destruct (open demo_private [demo_orders] []) as [s|]; [by exists s|destruct Ho].
Qed.

Lemma streams_keep_their_route_witness :
  ∃ s, open demo_private [demo_orders] [] = Ok s ∧ stream_private s = true ∧
    entitled demo_stream_client (Session_EgressRouteID (stream_session s)).
Proof.
  destruct demo_private_open as (s & Ho & Hp & _). exists s. split; [exact Ho|]. split; [exact Hp|].
  destruct (streams_keep_their_route demo_parse demo_hmac (demo_gateIO true) [demo_orders] [] s Ho)
    as (_ & _ & _ & Hentitled).
  exact (Hentitled Hp).
Defined.

(** The provider has no credential for the command. *)
Definition demo_denied : GateIOStream.Environment :=
  GateIOStream.MkEnvironment 1700000000 (Err (Errorf "no credential")).
Definition demo_denial : error :=
  GateIOStream.streamAuthenticationError demo_stream_client (Errorf "no credential").

Lemma unencodable_streams_stop_witness :
  ∃ s reason, open demo_private [demo_orders] [] = Ok s ∧
    let w := demo_hooking (stream_session s) in
    Session.pc w = Hooking 0 0%nat 1 ∧ (reason = demo_denial ∨ stopError w = Some reason) ∧
    given_up (foldl (Session.step (λ text, parsed_URL <$> demo_parse text) (λ _, None) (stream_session s)) w
      ([InHook (Some demo_denial); InReconnectStep 0 0] ++ [InTimer; InStep; InRun])) reason.
Proof.
  destruct demo_private_open as (s & Ho & _ & Hw). exists s.
  destruct (unencodable_streams_stop demo_parse demo_hmac (λ text, parsed_URL <$> demo_parse text) (λ _, None)
    (demo_gateIO true) [demo_orders] [] s demo_denied Subscribe demo_orders 0 demo_denial
    (demo_hooking (stream_session s)) 0 0%nat 1 0 0 [InTimer; InStep; InRun])
    as (reason & Hreason & Hgiven).
  - exact Ho.
  - by vm_compute.
  - apply foldl_step_reachable. apply rtc_refl.
  - exact Hw.
  - exists reason. split; [exact Ho|]. split; [exact Hw|]. split; [exact Hreason|exact Hgiven].
Defined.

Lemma stream_topics_roundtrip_witness :
  let s := HTXStream.MkSubscription "mbp" "btcusdt" "" "" 0 150 in
  HTXStream.valid_subscription true s ∧ streamSubscriptionTopic s = "market.btcusdt.mbp.150" ∧
  parseStreamTopic "market.btcusdt.mbp.150" = Ok ("mbp", "btcusdt").
Proof.
  assert (HTXStream.valid_subscription true (HTXStream.MkSubscription "mbp" "btcusdt" "" "" 0 150)) as Hs
    by by vm_compute.
  split; [exact Hs|]. split; [by vm_compute|].
  exact (proj1 (proj1 stream_topics_roundtrip true _ Hs)).
Defined.
