(* ===== verification/EndpointLimits.v ===== *)
(** * The rate limits of the REST clients: [exchange/*/limits.go]

    One Module per client.  A limit function sets the rules of the buckets that
    a request draws on and returns what it charges to them; it threads the
    limiter's backend, because [SetRule] starts a changed rule with an empty
    bucket and because an error after the first rule leaves that rule set.  The
    functions that read an answer's headers move a bucket up to the usage the
    exchange reports. *)

From S2P Require Import Prelude GoStrings GoStrconv Errors RateLimit Executor ClientErrors.

Abbreviation limiting A := (memoryBackend * result error A)%type.

(** [if err := limiter.SetRule(rule); err != nil] and what follows it. *)
Definition setRule {A} (backend : memoryBackend) (rule : Rule)
    (next : memoryBackend → limiting A) : limiting A :=
  match SetRule backend rule with
  | Err err => (backend, Err err)
  | Ok backend => next backend
  end.

(** A limit that refuses before it sets a rule. *)
Definition refuseLimit {A} (backend : memoryBackend) (message : string) : limiting A :=
  (backend, Err (Errorf message)).

(** The [rateLimit] structs: what a client keeps of a rule to read the answer's
    headers with; [rate_header] is a field of Coinone's alone. *)
Record rateLimit : Type := MkRateLimit {
  rate_key : string;
  rate_limit : Z;
  rate_window : Z;
  rate_header : string
}.

Definition blank (s : string) : bool := bool_decide (TrimSpace s = "").

(** [limiter.SetRule(ratelimit.Rule{Key: value.key, ...})], charging units. *)
Definition register (backend : memoryBackend) (value : rateLimit) (units : Z)
    : limiting (rateLimit * list Charge) :=
  setRule backend (MkRule (rate_key value) (rate_limit value) (rate_window value)) (λ backend,
    (backend, Ok (value, [MkCharge (rate_key value) units]))).

(** [limiter.ObserveUsed] and [limiter.BlockFor] with their errors dropped. *)
Definition observed (backend : memoryBackend) (now : Z) (key : string) (used : Z) : memoryBackend :=
  (ObserveUsed backend now key used).1.
Definition blocked (backend : memoryBackend) (now : Z) (key : string) (duration : Z) : memoryBackend :=
  (BlockFor backend now [key] duration).1.

Definition between (low z high : Z) : bool := bool_decide (low ≤ z ≤ high).

(** [time.Unix(0, 0)] on the clock of the limiter. *)
Definition unixEpoch : Z := 62135596800 * Second.

(** [time.Duration.String]: the largest units that fit, with the fraction of the
    last one cut at its final nonzero digit. *)
Definition micro : string := String (byte 194) (String (byte 181) "s").

Definition fraction_text (value scale : Z) : string :=
  let digits := pretty value in
  let zeros := String.string_of_list_ascii (replicate (Z.to_nat scale - String.length digits) (byte 48)) in
  let kept := String.string_of_list_ascii (reverse (drop_while (λ c, bool_decide (c = byte 48))
    (reverse (String.list_ascii_of_string (zeros +:+ digits))))) in
  if bool_decide (kept = "") then "" else "." +:+ kept.

Definition Duration_String (d : Z) : string :=
  let u := Z.abs d in
  let body :=
    if bool_decide (u = 0) then "0s"
    else if bool_decide (u < 1000) then pretty u +:+ "ns"
    else if bool_decide (u < 1000000) then pretty (u / 1000) +:+ fraction_text (u mod 1000) 3 +:+ micro
    else if bool_decide (u < Second) then pretty (u / Millisecond) +:+ fraction_text (u mod Millisecond) 6 +:+ "ms"
    else
      let seconds := u / Second in
      let tail := pretty (seconds mod 60) +:+ fraction_text (u mod Second) 9 +:+ "s" in
      let minutes := seconds / 60 in
      if bool_decide (minutes = 0) then tail
      else
        let tail := pretty (minutes mod 60) +:+ "m" +:+ tail in
        let hours := minutes / 60 in
        if bool_decide (hours = 0) then tail else pretty hours +:+ "h" +:+ tail in
  if bool_decide (d < 0) then "-" +:+ body else body.

Example duration_texts :
  Duration_String (90 * Minute) = "1h30m0s" ∧ Duration_String 1500000 = "1.5ms" ∧
  Duration_String (2 * Second + 50 * Millisecond) = "2.05s" ∧ Duration_String 999 = "999ns".
Proof. vm_compute. done. Qed.

(** ** OKX: [exchange/okx/limits.go] *)

Module OKX.
Record endpointLimit : Type := MkEndpointLimit {
  requests : Z;
  window : Z;
  account : bool;
  discriminator : string
}.

Definition publicLimit (requests window : Z) (discriminator : string) : endpointLimit :=
  MkEndpointLimit requests window false discriminator.
Definition accountLimit (requests window : Z) (discriminator : string) : endpointLimit :=
  MkEndpointLimit requests window true discriminator.

Definition durationKey (window : Z) : string :=
  if bool_decide (Z.rem window Second = 0) then pretty (Z.quot window Second) +:+ "seconds"
  else Duration_String window.

Definition rateLimitEndpointKey (scope scopeID method path discriminator : string) (window : Z) : string :=
  let key := "okx:" +:+ scope +:+ ":" +:+ scopeID +:+ ":endpoint:" +:+ ToUpperText method +:+ ":" +:+
             TrimPrefix path "/" in
  let key := if bool_decide (discriminator ≠ "") then key +:+ ":" +:+ discriminator else key in
  key +:+ ":" +:+ durationKey window.

Definition rateLimitCharges (limiter : memoryBackend) (routeID accountID method path : string)
    (limit : endpointLimit) : limiting (list Charge) :=
  let '(scope, scopeID) := if account limit then ("account", accountID) else ("route", routeID) in
  if blank scopeID then refuseLimit limiter "OKX endpoint rate limit requires %s scope ID"
  else
    let key := rateLimitEndpointKey scope scopeID method path (discriminator limit) (window limit) in
    setRule limiter (MkRule key (requests limit) (window limit)) (λ limiter,
      (limiter, Ok [MkCharge key 1])).
End OKX.

(** ** Bybit: [exchange/bybit/limits.go] *)

Module Bybit.
Definition globalRequestsPerFiveSeconds : Z := 600.

Record endpointLimit : Type := MkEndpointLimit { perSecond : Z; account : bool }.
Definition publicLimit (perSecond : Z) : endpointLimit := MkEndpointLimit perSecond false.
Definition accountLimit (perSecond : Z) : endpointLimit := MkEndpointLimit perSecond true.

Definition rateLimitEndpointKey (scope scopeID path : string) : string :=
  "bybit:" +:+ scope +:+ ":" +:+ scopeID +:+ ":endpoint:" +:+ TrimPrefix path "/" +:+ ":1second".

Definition rateLimitCharges (limiter : memoryBackend) (routeID accountID path : string)
    (limit : endpointLimit) : limiting (list Charge) :=
  let globalKey := "bybit:route:" +:+ routeID +:+ ":global:5seconds" in
  setRule limiter (MkRule globalKey globalRequestsPerFiveSeconds (5 * Second)) (λ limiter,
  let '(scope, scopeID) := if account limit then ("account", accountID) else ("route", routeID) in
  if blank scopeID then refuseLimit limiter "Bybit endpoint rate limit requires %s scope ID"
  else
    let endpointKey := rateLimitEndpointKey scope scopeID path in
    setRule limiter (MkRule endpointKey (perSecond limit) Second) (λ limiter,
      (limiter, Ok [MkCharge globalKey 1; MkCharge endpointKey 1]))).

Definition observeRemaining (limiter : memoryBackend) (now : Z) (scope scopeID path : string)
    (limit : endpointLimit) (header : Header) : memoryBackend :=
  match Atoi (TrimSpace (Get header "X-Bapi-Limit")), Atoi (TrimSpace (Get header "X-Bapi-Limit-Status")) with
  | Some reportedLimit, Some remaining =>
      if bool_decide (reportedLimit ≠ perSecond limit) || negb (between 0 remaining reportedLimit) then limiter
      else observed limiter now (rateLimitEndpointKey scope scopeID path) (reportedLimit - remaining)
  | _, _ => limiter
  end.
End Bybit.

(** ** Bitget: [exchange/bitget/limits.go] *)

Module Bitget.
Definition globalRequestsPerMinute : Z := 6000.

Record endpointLimit : Type := MkEndpointLimit { perSecond : Z; account : bool }.
Definition publicLimit (perSecond : Z) : endpointLimit := MkEndpointLimit perSecond false.
Definition accountLimit (perSecond : Z) : endpointLimit := MkEndpointLimit perSecond true.

Definition rateLimitEndpointKey (scope scopeID path : string) : string :=
  "bitget:" +:+ scope +:+ ":" +:+ scopeID +:+ ":endpoint:" +:+ TrimPrefix path "/" +:+ ":1second".

Definition rateLimitCharges (limiter : memoryBackend) (routeID accountID path : string)
    (limit : endpointLimit) : limiting (list Charge) :=
  let globalKey := "bitget:route:" +:+ routeID +:+ ":global:1minute" in
  setRule limiter (MkRule globalKey globalRequestsPerMinute Minute) (λ limiter,
  let '(scope, scopeID) := if account limit then ("account", accountID) else ("route", routeID) in
  if blank scopeID then refuseLimit limiter "Bitget endpoint rate limit requires %s scope ID"
  else
    let endpointKey := rateLimitEndpointKey scope scopeID path in
    setRule limiter (MkRule endpointKey (perSecond limit) Second) (λ limiter,
      (limiter, Ok [MkCharge globalKey 1; MkCharge endpointKey 1]))).

Definition observeRemaining (limiter : memoryBackend) (now : Z) (scope scopeID path : string)
    (limit : endpointLimit) (header : Header) : memoryBackend :=
  match Atoi (TrimSpace (Get header "x-mbx-used-remain-limit")) with
  | Some remaining =>
      if negb (between 0 remaining (perSecond limit)) then limiter
      else observed limiter now (rateLimitEndpointKey scope scopeID path) (perSecond limit - remaining)
  | None => limiter
  end.
End Bitget.

(** ** HTX: [exchange/htx/limits.go] *)

Module HTX.
(** [rateGroup] is a Go string type. *)
Definition rateGroupAccount : string := "account".
Definition rateGroupOrder : string := "order".
Definition rateGroupOrderRead : string := "order-read".
Definition rateGroupTradeHistory : string := "trade-history".

Definition publicRateLimit (limiter : memoryBackend) (routeID endpoint : string) (requestsPerSecond : Z)
    : limiting (rateLimit * list Charge) :=
  if blank routeID || blank endpoint || bool_decide (requestsPerSecond < 1) then
    refuseLimit limiter "invalid HTX public rate limit"
  else
    register limiter (MkRateLimit ("htx:route:" +:+ routeID +:+ ":public:" +:+ endpoint +:+ ":1second")
                        requestsPerSecond Second "") 1.

Definition privateRateLimit (limiter : memoryBackend) (accountID group : string) (quota : Z)
    : limiting (rateLimit * list Charge) :=
  if blank accountID || blank group || bool_decide (quota < 1) then
    refuseLimit limiter "invalid HTX private rate limit"
  else
    register limiter (MkRateLimit ("htx:account:" +:+ accountID +:+ ":" +:+ group +:+ ":2seconds")
                        quota (2 * Second) "") 1.

(** [time.UnixMilli(raw).Sub(now)] and [time.Unix(raw, 0).Sub(now)] saturate. *)
Definition rateLimitExpireDuration (value : string) (now : Z) : option Z :=
  match ParseInt (TrimSpace value) with
  | None => None
  | Some raw =>
      if bool_decide (raw ≤ 0) then None
      else if bool_decide (1000000000000 ≤ raw) then
        let duration := Time_Sub (unixEpoch + raw * Millisecond) now in
        if bool_decide (duration ≤ 0) then None else Some duration
      else if bool_decide (1000000000 ≤ raw) then
        let duration := Time_Sub (unixEpoch + raw * Second) now in
        if bool_decide (duration ≤ 0) then None else Some duration
      else Some (int64 (raw * Millisecond))
  end.

Definition observeRateLimit (limiter : memoryBackend) (value : rateLimit) (header : Header) (now : Z)
    : memoryBackend :=
  match Atoi (TrimSpace (Get header "X-HB-RateLimit-Requests-Remain")) with
  | None => limiter
  | Some remaining =>
      if negb (between 0 remaining (rate_limit value)) then limiter
      else
        let limiter := observed limiter now (rate_key value) (rate_limit value - remaining) in
        if bool_decide (remaining ≠ 0) then limiter
        else
          match rateLimitExpireDuration (Get header "X-HB-RateLimit-Requests-Expire") now with
          | Some duration => blocked limiter now (rate_key value) duration
          | None => limiter
          end
  end.
End HTX.

(** ** Coinone: [exchange/coinone/limits.go] *)

Module Coinone.
Definition publicRateLimit (limiter : memoryBackend) (routeID : string) (requestsPerMinute : Z)
    : limiting (rateLimit * list Charge) :=
  register limiter (MkRateLimit ("coinone:route:" +:+ routeID +:+ ":public:1minute")
                      requestsPerMinute Minute "Public-Ratelimit-Remaining") 1.

Definition privateRateLimit (limiter : memoryBackend) (accountID : string) (order : bool)
    (privateRequestsPerSecond orderRequestsPerSecond : Z) : limiting (rateLimit * list Charge) :=
  if blank accountID then refuseLimit limiter "Coinone private rate limit requires portfolio account ID"
  else
    let '(group, limit, header) :=
      if order then ("order", orderRequestsPerSecond, "Private-Order-Ratelimit-Remaining")
      else ("private", privateRequestsPerSecond, "Private-Ratelimit-Remaining") in
    register limiter (MkRateLimit ("coinone:account:" +:+ accountID +:+ ":" +:+ group +:+ ":1second")
                        limit Second header) 1.

Definition observeRateLimit (limiter : memoryBackend) (now : Z) (value : rateLimit) (header : Header)
    : memoryBackend :=
  match Atoi (TrimSpace (Get header (rate_header value))) with
  | None => limiter
  | Some remaining =>
      if negb (between 0 remaining (rate_limit value)) then limiter
      else observed limiter now (rate_key value) (rate_limit value - remaining)
  end.
End Coinone.

(** ** Upbit: [exchange/upbit/limits.go] *)

Module Upbit.
Record rateGroup : Type := MkRateGroup { name : string; perSecond : Z; account : bool }.

Definition marketRate : rateGroup := MkRateGroup "market" 10 false.
Definition tickerRate : rateGroup := MkRateGroup "ticker" 10 false.
Definition orderBookRate : rateGroup := MkRateGroup "orderbook" 10 false.
Definition tradeRate : rateGroup := MkRateGroup "trade" 10 false.
Definition candleRate : rateGroup := MkRateGroup "candle" 10 false.
Definition defaultRate : rateGroup := MkRateGroup "default" 30 true.
Definition orderRate : rateGroup := MkRateGroup "order" 12 true.

Definition rateLimitKey (scope scopeID group : string) : string :=
  "upbit:" +:+ scope +:+ ":" +:+ scopeID +:+ ":" +:+ group +:+ ":1second".

Definition rateLimitCharges (limiter : memoryBackend) (routeID accountID : string) (group : rateGroup)
    : limiting (list Charge * string) :=
  let '(scope, scopeID) := if account group then ("account", accountID) else ("route", routeID) in
  if blank scopeID then refuseLimit limiter "Upbit rate group %q requires %s scope ID"
  else
    let key := rateLimitKey scope scopeID (name group) in
    setRule limiter (MkRule key (perSecond group) Second) (λ limiter,
      (limiter, Ok ([MkCharge key 1], key))).

(** The loop of [parseRemainingRequest] over the fields. *)
Fixpoint readFields (fields : list string) (group : string) (remaining : Z) : string * Z :=
  match fields with
  | [] => (group, remaining)
  | field :: fields =>
      match Cut (byte 61) (TrimSpace field) with
      | (_, None) => readFields fields group remaining
      | (key, Some item) =>
          if bool_decide (key = "group") then readFields fields item remaining
          else if bool_decide (key = "sec") then
            match Atoi item with
            | Some parsed => readFields fields group (if bool_decide (0 ≤ parsed) then parsed else remaining)
            | None => readFields fields group remaining
            end
          else readFields fields group remaining
      end
  end.

Definition parseRemainingRequest (value : string) : string * Z * bool :=
  let '(group, remaining) := readFields (Split (byte 59) value) "" (-1) in
  (group, remaining, bool_decide (group ≠ "") && bool_decide (0 ≤ remaining)).

Example parse_remaining :
  parseRemainingRequest "group=order; min=719; sec=11" = ("order", 11, true) ∧
  (parseRemainingRequest "sec=x").2 = false.
Proof. by vm_compute. Qed.

Definition observeRemaining (limiter : memoryBackend) (now : Z) (key : string) (group : rateGroup)
    (header : Header) : memoryBackend :=
  let '(reported, remaining, ok) := parseRemainingRequest (Get header "Remaining-Req") in
  if negb ok || bool_decide (reported ≠ name group) || bool_decide (perSecond group < remaining) then limiter
  else observed limiter now key (perSecond group - remaining).
End Upbit.

(** ** KuCoin: [exchange/kucoin/limits.go] *)

Module KuCoin.
(** [ratePool] is a Go string type. *)
Definition ratePoolPublic : string := "public".
Definition ratePoolSpot : string := "spot".
Definition ratePoolManagement : string := "management".

Record endpointLimit : Type := MkEndpointLimit { pool : string; weight : Z }.
Definition publicLimit (weight : Z) : endpointLimit := MkEndpointLimit ratePoolPublic weight.
Definition spotLimit (weight : Z) : endpointLimit := MkEndpointLimit ratePoolSpot weight.
Definition managementLimit (weight : Z) : endpointLimit := MkEndpointLimit ratePoolManagement weight.

Definition rateLimitCharges (limiter : memoryBackend) (routeID accountID : string) (limit : endpointLimit)
    (publicQuota spotQuota managementQuota : Z) : limiting (rateLimit * list Charge) :=
  let charge scope scopeID quota :=
    if blank scopeID then refuseLimit limiter "KuCoin %s rate limit requires scope ID"
    else
      register limiter
        (MkRateLimit ("kucoin:" +:+ scope +:+ ":" +:+ scopeID +:+ ":" +:+ pool limit +:+ ":30seconds")
           quota (30 * Second) "") (weight limit) in
  if bool_decide (pool limit = ratePoolSpot) then charge "account" accountID spotQuota
  else if bool_decide (pool limit = ratePoolManagement) then charge "account" accountID managementQuota
  else if bool_decide (pool limit = ratePoolPublic) then charge "route" routeID publicQuota
  else refuseLimit limiter "unsupported KuCoin rate limit pool %q".

(** [strconv.Atoi] with the value it returns next to its error: a number out of
    range is clamped, and a malformed one is 0. *)
Definition Atoi_value (s : string) : Z :=
  match Atoi s with
  | Some value => value
  | None =>
      match s with
      | String c rest =>
          let negative := bool_decide (c = byte 45) in
          let digits := if negative || bool_decide (c = byte 43) then rest else s in
          if nonempty_digits digits then (if negative then MinInt64 else MaxInt64) else 0
      | EmptyString => 0
      end
  end.

Definition observeRateLimit (limiter : memoryBackend) (now : Z) (value : rateLimit) (header : Header)
    : memoryBackend :=
  let reported := TrimSpace (Get header "gw-ratelimit-limit") in
  let remaining := TrimSpace (Get header "gw-ratelimit-remaining") in
  let limiter :=
    if bool_decide (Atoi reported = Some (rate_limit value)) && bool_decide (is_Some (Atoi remaining)) &&
       between 0 (Atoi_value remaining) (rate_limit value)
    then observed limiter now (rate_key value) (rate_limit value - Atoi_value remaining) else limiter in
  if bool_decide (Atoi_value remaining ≠ 0) then limiter
  else
    match ParseInt (TrimSpace (Get header "gw-ratelimit-reset")) with
    | Some resetMillis =>
        if bool_decide (0 < resetMillis) then blocked limiter now (rate_key value) (int64 (resetMillis * Millisecond))
        else limiter
    | None => limiter
    end.
End KuCoin.

(** ** KuCoin Futures: [exchange/kucoin/futures/limits.go] *)

Module KuCoinFutures.
Definition ratePoolPublic : string := "public".
Definition ratePoolFutures : string := "futures".

Record endpointLimit : Type := MkEndpointLimit { pool : string; weight : Z }.
Definition publicLimit (weight : Z) : endpointLimit := MkEndpointLimit ratePoolPublic weight.
Definition futuresLimit (weight : Z) : endpointLimit := MkEndpointLimit ratePoolFutures weight.

Definition rateLimitCharges (limiter : memoryBackend) (routeID accountID : string) (limit : endpointLimit)
    (publicQuota futuresQuota : Z) : limiting (rateLimit * list Charge) :=
  let charge scope scopeID quota :=
    if blank scopeID then refuseLimit limiter "KuCoin Futures %s rate limit requires scope ID"
    else
      register limiter
        (MkRateLimit ("kucoin-futures:" +:+ scope +:+ ":" +:+ scopeID +:+ ":" +:+ pool limit +:+ ":30seconds")
           quota (30 * Second) "") (weight limit) in
  if bool_decide (pool limit = ratePoolFutures) then charge "account" accountID futuresQuota
  else if bool_decide (pool limit = ratePoolPublic) then charge "route" routeID publicQuota
  else refuseLimit limiter "unsupported KuCoin Futures rate limit pool %q".

(** The same text as [observeRateLimit] of the Spot client. *)
Definition observeRateLimit : memoryBackend → Z → rateLimit → Header → memoryBackend := KuCoin.observeRateLimit.
End KuCoinFutures.

(** ** Gate.io: [exchange/gateio/limits.go] *)

Module GateIO.
Definition ratePoolPublic : string := "public".
Definition ratePoolPrivate : string := "private".
Definition ratePoolOrder : string := "spot-order".
Definition ratePoolCancel : string := "spot-cancel".

Record endpointLimit : Type := MkEndpointLimit { pool : string; endpoint : string; market : string }.
Definition publicLimit (endpoint : string) : endpointLimit := MkEndpointLimit ratePoolPublic endpoint "".
Definition privateLimit (endpoint : string) : endpointLimit := MkEndpointLimit ratePoolPrivate endpoint "".
Definition orderLimit (market : string) : endpointLimit := MkEndpointLimit ratePoolOrder "" market.
Definition cancelLimit : endpointLimit := MkEndpointLimit ratePoolCancel "" "".

Definition rateLimitCharges (limiter : memoryBackend) (routeID accountID : string) (limit : endpointLimit)
    (publicQuota privateQuota orderQuota cancelQuota : Z) : limiting (rateLimit * list Charge) :=
  if bool_decide (pool limit = ratePoolPublic) then
    if blank routeID || blank (endpoint limit) then
      refuseLimit limiter "Gate.io public rate limit requires route and endpoint"
    else
      register limiter
        (MkRateLimit ("gateio:route:" +:+ routeID +:+ ":public:" +:+ endpoint limit +:+ ":10seconds")
           publicQuota (10 * Second) "") 1
  else if bool_decide (pool limit = ratePoolPrivate) then
    if blank accountID || blank (endpoint limit) then
      refuseLimit limiter "Gate.io private rate limit requires account and endpoint"
    else
      register limiter
        (MkRateLimit ("gateio:account:" +:+ accountID +:+ ":private:" +:+ endpoint limit +:+ ":10seconds")
           privateQuota (10 * Second) "") 1
  else if bool_decide (pool limit = ratePoolOrder) then
    if blank accountID || blank (market limit) then
      refuseLimit limiter "Gate.io order rate limit requires account and market"
    else
      register limiter
        (MkRateLimit ("gateio:account:" +:+ accountID +:+ ":spot-order:" +:+ market limit +:+ ":1second")
           orderQuota Second "") 1
  else if bool_decide (pool limit = ratePoolCancel) then
    if blank accountID then refuseLimit limiter "Gate.io cancel rate limit requires account"
    else
      register limiter
        (MkRateLimit ("gateio:account:" +:+ accountID +:+ ":spot-cancel:1second") cancelQuota Second "") 1
  else refuseLimit limiter "unsupported Gate.io rate limit pool %q".

(** [parseSeconds] is [int64(x * 1e9)] for the finite number that
    [strconv.ParseFloat] reads, in floating point. *)
Definition observeRateLimit (parseSeconds : string → option Z) (limiter : memoryBackend)
    (value : rateLimit) (header : Header) (now : Z) : memoryBackend :=
  match Atoi (TrimSpace (Get header "X-Gate-RateLimit-Limit")),
        Atoi (TrimSpace (Get header "X-Gate-RateLimit-Requests-Remain")) with
  | Some reportedLimit, Some remaining =>
      if bool_decide (reportedLimit ≠ rate_limit value) || negb (between 0 remaining (rate_limit value)) then limiter
      else
        let limiter := observed limiter now (rate_key value) (rate_limit value - remaining) in
        if bool_decide (remaining ≠ 0) then limiter
        else
          match parseSeconds (TrimSpace (Get header "X-Gate-RateLimit-Reset-Timestamp")) with
          | None => limiter
          | Some reset =>
              let resetAt := unixEpoch + reset in
              if bool_decide (now < resetAt) then blocked limiter now (rate_key value) (Time_Sub resetAt now)
              else limiter
          end
  | _, _ => limiter
  end.
End GateIO.

(** ** Gate.io Futures: [exchange/gateio/futures/limits.go] *)

Module GateIOFutures.
Definition ratePoolPublic : string := "public".
Definition ratePoolPrivate : string := "private".
Definition ratePoolOrder : string := "futures-order".
Definition ratePoolCancel : string := "futures-cancel".

Record endpointLimit : Type := MkEndpointLimit { pool : string; endpoint : string }.
Definition publicLimit (endpoint : string) : endpointLimit := MkEndpointLimit ratePoolPublic endpoint.
Definition privateLimit (endpoint : string) : endpointLimit := MkEndpointLimit ratePoolPrivate endpoint.
Definition orderLimit : endpointLimit := MkEndpointLimit ratePoolOrder "".
Definition cancelLimit : endpointLimit := MkEndpointLimit ratePoolCancel "".

Definition rateLimitCharges (limiter : memoryBackend) (routeID accountID : string) (limit : endpointLimit)
    (publicQuota privateQuota orderQuota cancelQuota : Z) : limiting (rateLimit * list Charge) :=
  if bool_decide (pool limit = ratePoolPublic) then
    if blank routeID || blank (endpoint limit) then
      refuseLimit limiter "Gate.io Futures public rate limit requires route and endpoint"
    else
      register limiter
        (MkRateLimit ("gateio:route:" +:+ routeID +:+ ":futures-public:" +:+ endpoint limit +:+ ":10seconds")
           publicQuota (10 * Second) "") 1
  else if bool_decide (pool limit = ratePoolPrivate) then
    if blank accountID || blank (endpoint limit) then
      refuseLimit limiter "Gate.io Futures private rate limit requires account and endpoint"
    else
      register limiter
        (MkRateLimit ("gateio:account:" +:+ accountID +:+ ":futures-private:" +:+ endpoint limit +:+ ":10seconds")
           privateQuota (10 * Second) "") 1
  else if bool_decide (pool limit = ratePoolOrder) then
    if blank accountID then refuseLimit limiter "Gate.io Futures order rate limit requires account"
    else
      register limiter
        (MkRateLimit ("gateio:account:" +:+ accountID +:+ ":futures-order:1second") orderQuota Second "") 1
  else if bool_decide (pool limit = ratePoolCancel) then
    if blank accountID then refuseLimit limiter "Gate.io Futures cancel rate limit requires account"
    else
      register limiter
        (MkRateLimit ("gateio:account:" +:+ accountID +:+ ":futures-cancel:1second") cancelQuota Second "") 1
  else refuseLimit limiter "unsupported Gate.io Futures rate limit pool %q".

(** The same text as [observeRateLimit] of the Spot client. *)
Definition observeRateLimit : (string → option Z) → memoryBackend → rateLimit → Header → Z → memoryBackend :=
  GateIO.observeRateLimit.
End GateIOFutures.

(** ** MEXC: [exchange/mexc/limits.go] *)

Module MEXC.
Record endpointLimit : Type := MkEndpointLimit { name : string; weight : Z }.
Definition publicLimit (name : string) (weight : Z) : endpointLimit := MkEndpointLimit name weight.

Definition currentPrivateWeight : Z := 10.
Definition privateLimit (name : string) (endpointWeight : Z) : endpointLimit :=
  MkEndpointLimit name
    (if bool_decide (endpointWeight < currentPrivateWeight) then currentPrivateWeight else endpointWeight).

Definition publicRateLimitCharges (limiter : memoryBackend) (routeID : string) (limit : endpointLimit)
    (quota : Z) : limiting (list Charge) :=
  if blank routeID || blank (name limit) || bool_decide (weight limit < 1) then
    refuseLimit limiter "invalid MEXC public rate limit"
  else
    let key := "mexc:route:" +:+ routeID +:+ ":public:" +:+ name limit +:+ ":10seconds" in
    setRule limiter (MkRule key quota (10 * Second)) (λ limiter, (limiter, Ok [MkCharge key (weight limit)])).

Definition privateRateLimitCharges (limiter : memoryBackend) (routeID accountID : string)
    (limit : endpointLimit) (endpointQuota : Z) (frequencyName : string) (frequencyQuota : Z)
    : limiting (list Charge) :=
  if blank routeID || blank accountID || blank (name limit) || bool_decide (weight limit < 1) ||
     blank frequencyName || bool_decide (frequencyQuota < 1) then
    refuseLimit limiter "invalid MEXC private rate limit"
  else
    let routeKey := "mexc:route:" +:+ routeID +:+ ":private:" +:+ name limit +:+ ":10seconds" in
    let accountKey := "mexc:account:" +:+ accountID +:+ ":private:" +:+ name limit +:+ ":10seconds" in
    let frequencyKey := "mexc:account:" +:+ accountID +:+ ":" +:+ frequencyName +:+ ":1second" in
    setRule limiter (MkRule routeKey endpointQuota (10 * Second)) (λ limiter,
    setRule limiter (MkRule accountKey endpointQuota (10 * Second)) (λ limiter,
    setRule limiter (MkRule frequencyKey frequencyQuota Second) (λ limiter,
      (limiter, Ok [MkCharge routeKey (weight limit); MkCharge accountKey (weight limit);
                    MkCharge frequencyKey 1])))).
End MEXC.

(** ** Korbit: [exchange/korbit/limits.go] *)

Module Korbit.
Definition rateGroupPublic : string := "public".
Definition rateGroupPrivate : string := "private".
Definition rateGroupOrderPlace : string := "order-place".
Definition rateGroupOrderCancel : string := "order-cancel".

Definition registerRateLimit (limiter : memoryBackend) (value : rateLimit)
    : limiting (rateLimit * list Charge) := register limiter value 1.

Definition publicRateLimit (limiter : memoryBackend) (routeID : string) (requestsPerSecond : Z)
    : limiting (rateLimit * list Charge) :=
  registerRateLimit limiter
    (MkRateLimit ("korbit:route:" +:+ routeID +:+ ":public:1second") requestsPerSecond Second "").

Definition privateRateLimit (limiter : memoryBackend) (accountID group : string)
    (privateRequestsPerSecond orderRequestsPerSecond : Z) : limiting (rateLimit * list Charge) :=
  if blank accountID then refuseLimit limiter "Korbit private rate limit requires account ID"
  else
    let limit := if bool_decide (group = rateGroupOrderPlace ∨ group = rateGroupOrderCancel)
                 then orderRequestsPerSecond else privateRequestsPerSecond in
    registerRateLimit limiter
      (MkRateLimit ("korbit:account:" +:+ accountID +:+ ":" +:+ group +:+ ":1second") limit Second "").

Fixpoint findRemaining (parts : list string) : option Z :=
  match parts with
  | [] => None
  | part :: parts =>
      match Cut (byte 61) (TrimSpace part) with
      | (key, Some rawValue) =>
          if EqualFold (TrimSpace key) "remaining" then Atoi (TrimSpace rawValue) else findRemaining parts
      | (_, None) => findRemaining parts
      end
  end.

Definition parseRateLimitRemaining (header : string) : option Z := findRemaining (Split (byte 44) header).

Definition observeRateLimit (limiter : memoryBackend) (now : Z) (value : rateLimit) (header : Header)
    : memoryBackend :=
  match parseRateLimitRemaining (Get header "Ratelimit") with
  | None => limiter
  | Some remaining =>
      if negb (between 0 remaining (rate_limit value)) then limiter
      else observed limiter now (rate_key value) (rate_limit value - remaining)
  end.
End Korbit.

(** ** Kraken Futures: [exchange/kraken/futures/limits.go] *)

Module KrakenFutures.
Definition durationKey (window : Z) : string := OKX.durationKey window.

Definition publicRateLimitCharges (limiter : memoryBackend) (routeID : string) (requestsPerSecond : Z)
    : limiting (list Charge) :=
  let key := "kraken-futures:route:" +:+ routeID +:+ ":public:1second" in
  setRule limiter (MkRule key requestsPerSecond Second) (λ limiter, (limiter, Ok [MkCharge key 1])).

Definition privateRateLimitCharges (limiter : memoryBackend) (accountID : string) (pointLimit window cost : Z)
    : limiting (list Charge) :=
  if bool_decide (accountID = "") then refuseLimit limiter "Kraken Futures private rate limit requires account ID"
  else if bool_decide (cost < 1 ∨ pointLimit < cost) then
    refuseLimit limiter "Kraken Futures endpoint cost must be between 1 and %d"
  else
    let key := "kraken-futures:account:" +:+ accountID +:+ ":derivatives:" +:+ durationKey window in
    setRule limiter (MkRule key pointLimit window) (λ limiter, (limiter, Ok [MkCharge key cost])).
End KrakenFutures.

(** ** Kraken: [exchange/kraken/limits.go] *)

Module Kraken.
(** [limitKind] is a Go [uint8] with these four constants. *)
Inductive limitKind : Type := limitPublic | limitPrivate | limitPrivateHistory | limitTrading.

#[export] Instance limitKind_dec : EqDecision limitKind.
Proof. solve_decision. Defined.

Definition rateLimitCharges (limiter : memoryBackend) (routeID accountID pair : string) (kind : limitKind)
    (publicRequestsPerSecond privateCounterLimit privateCounterWindow tradingRequestsPerSecond : Z)
    : limiting (list Charge) :=
  if bool_decide (kind = limitPublic) then
    let key := "kraken:route:" +:+ routeID +:+ ":public:1second" in
    setRule limiter (MkRule key publicRequestsPerSecond Second) (λ limiter, (limiter, Ok [MkCharge key 1]))
  else if bool_decide (accountID = "") then refuseLimit limiter "Kraken private rate limit requires account ID"
  else if bool_decide (kind = limitTrading) then
    let pair := if bool_decide (pair = "") then "unknown" else pair in
    let key := "kraken:account:" +:+ accountID +:+ ":trading:" +:+ pair +:+ ":1second" in
    setRule limiter (MkRule key tradingRequestsPerSecond Second) (λ limiter, (limiter, Ok [MkCharge key 1]))
  else
    let key := "kraken:account:" +:+ accountID +:+ ":private-counter" in
    setRule limiter (MkRule key privateCounterLimit privateCounterWindow) (λ limiter,
      (limiter, Ok [MkCharge key (if bool_decide (kind = limitPrivateHistory) then 4 else 1)])).
End Kraken.

(** ** Crypto.com: [exchange/cryptocom/limits.go] *)

Module CryptoCom.
Definition DefaultPublicRequestsPerSecond : Z := 100.

Definition publicRateLimit (limiter : memoryBackend) (routeID method : string) (requestsPerSecond : Z)
    : limiting (list Charge) :=
  if blank routeID || blank method || bool_decide (requestsPerSecond < 1) ||
     bool_decide (DefaultPublicRequestsPerSecond < requestsPerSecond) then
    refuseLimit limiter "invalid Crypto.com public rate limit"
  else
    let key := "cryptocom:route:" +:+ routeID +:+ ":public:" +:+ method +:+ ":1second" in
    setRule limiter (MkRule key requestsPerSecond Second) (λ limiter, (limiter, Ok [MkCharge key 1])).

(** The [switch] on the method: its quota and window. *)
Definition methodQuota (method : string) (orderQuota detailQuota historyQuota otherQuota : Z) : Z * Z :=
  if bool_decide (method ∈ ["create-order"; "cancel-order"; "cancel-all-orders"]) then
    (orderQuota, 100 * Millisecond)
  else if bool_decide (method = "get-order-detail") then (detailQuota, 100 * Millisecond)
  else if bool_decide (method ∈ ["get-trades"; "get-order-history"]) then (historyQuota, Second)
  else (otherQuota, 100 * Millisecond).

Definition privateRateLimit (limiter : memoryBackend) (accountID method : string)
    (orderQuota detailQuota historyQuota otherQuota : Z) : limiting (list Charge) :=
  if blank accountID || blank method then refuseLimit limiter "invalid Crypto.com private rate limit"
  else
    let '(limit, window) := methodQuota method orderQuota detailQuota historyQuota otherQuota in
    if bool_decide (limit < 1) then refuseLimit limiter "invalid Crypto.com private rate limit quota"
    else
      let windowName := if bool_decide (window = Second) then "1second" else "100milliseconds" in
      let key := "cryptocom:account:" +:+ accountID +:+ ":private:" +:+ method +:+ ":" +:+ windowName in
      setRule limiter (MkRule key limit window) (λ limiter, (limiter, Ok [MkCharge key 1])).
End CryptoCom.

(** ** Bithumb: [exchange/bithumb/limits.go] *)

Module Bithumb.
(** [rateLimitGroup] is a Go string type. *)
Definition rateLimitPublicOther : string := "public-other".
Definition rateLimitPublicTicker : string := "public-ticker".
Definition rateLimitPublicOrderBook : string := "public-orderbook".
Definition rateLimitPublicTrade : string := "public-trade".
Definition rateLimitPublicCandle : string := "public-candle".
Definition rateLimitPrivateOther : string := "private-other".
Definition rateLimitOrderCreate : string := "order-create".
Definition rateLimitOrderCancel : string := "order-cancel".

Definition rateLimitCharges (limiter : memoryBackend) (routeID group : string) (requestsPerSecond : Z)
    : limiting (list Charge) :=
  if bool_decide (routeID = "") then refuseLimit limiter "Bithumb rate limit requires egress route ID"
  else if bool_decide (group = "") then refuseLimit limiter "Bithumb rate limit group is required"
  else
    let key := "bithumb:route:" +:+ routeID +:+ ":" +:+ group +:+ ":1second" in
    setRule limiter (MkRule key requestsPerSecond Second) (λ limiter, (limiter, Ok [MkCharge key 1])).
End Bithumb.

(** ** Coinbase: [exchange/coinbase/limits.go] *)

Module Coinbase.
Definition rateLimitCharges (limiter : memoryBackend) (routeID accountID : string) (private : bool)
    (publicRequestsPerSecond privateRequestsPerSecond : Z) : limiting (list Charge) :=
  let routeKey := "coinbase:route:" +:+ routeID +:+ ":all:1second" in
  setRule limiter (MkRule routeKey publicRequestsPerSecond Second) (λ limiter,
  let charges := [MkCharge routeKey 1] in
  if negb private then (limiter, Ok charges)
  else if bool_decide (accountID = "") then refuseLimit limiter "Coinbase private rate limit requires account ID"
  else
    let accountKey := "coinbase:account:" +:+ accountID +:+ ":private:1second" in
    setRule limiter (MkRule accountKey privateRequestsPerSecond Second) (λ limiter,
      (limiter, Ok (charges ++ [MkCharge accountKey 1])))).
End Coinbase.

(** ** Binance USD-M: [exchange/binance/usdm/limits.go] *)

(** A limit of the exchange information that Binance answers with. *)
Record RateLimitInfo : Type := MkRateLimitInfo {
  Type_ : string;
  Interval : string;
  IntervalNum : Z;
  InfoLimit : Z
}.

Module BinanceUsdm.
Definition requestWeightPerMinute : Z := 2400.
Definition ordersPerTenSeconds : Z := 300.
Definition ordersPerMinute : Z := 1200.

Record limitCatalog : Type := MkLimitCatalog {
  requestWeight : Z;
  ordersTenSecs : Z;
  ordersOneMin : Z
}.

Definition newLimitCatalog : limitCatalog :=
  MkLimitCatalog requestWeightPerMinute ordersPerTenSeconds ordersPerMinute.

(** One iteration of [limitCatalog.update]. *)
Definition updateRule (catalog : limitCatalog) (rule : RateLimitInfo) : limitCatalog :=
  let typeName := ToUpperText (Type_ rule) in
  let interval := ToUpperText (Interval rule) in
  if bool_decide (InfoLimit rule ≤ 0) then catalog
  else if bool_decide (typeName = "REQUEST_WEIGHT" ∧ interval = "MINUTE" ∧ IntervalNum rule = 1) then
    MkLimitCatalog (InfoLimit rule) (ordersTenSecs catalog) (ordersOneMin catalog)
  else if bool_decide (typeName = "ORDERS" ∧ interval = "SECOND" ∧ IntervalNum rule = 10) then
    MkLimitCatalog (requestWeight catalog) (InfoLimit rule) (ordersOneMin catalog)
  else if bool_decide (typeName = "ORDERS" ∧ interval = "MINUTE" ∧ IntervalNum rule = 1) then
    MkLimitCatalog (requestWeight catalog) (ordersTenSecs catalog) (InfoLimit rule)
  else catalog.

Definition update (catalog : limitCatalog) (rules : list RateLimitInfo) : limitCatalog :=
  foldl updateRule catalog rules.

Definition rateLimitKey (scope scopeID kind window : string) : string :=
  "binance-usdm:" +:+ scope +:+ ":" +:+ scopeID +:+ ":" +:+ kind +:+ ":" +:+ window.

(** The loop of [limitCatalog.charges] over the rules and their units. *)
Fixpoint chargeRules (limiter : memoryBackend) (rules : list (Rule * Z)) : limiting (list Charge) :=
  match rules with
  | [] => (limiter, Ok [])
  | (rule, units) :: rules =>
      if bool_decide (units ≤ 0) then chargeRules limiter rules
      else if Contains (RuleKey rule) "::" then
        refuseLimit limiter "Binance USD-M rate limit scope ID is required"
      else
        setRule limiter rule (λ limiter,
          match chargeRules limiter rules with
          | (limiter, Ok charges) => (limiter, Ok (MkCharge (RuleKey rule) units :: charges))
          | (limiter, Err err) => (limiter, Err err)
          end)
  end.

Definition charges (catalog : limitCatalog) (limiter : memoryBackend) (routeID accountID : string)
    (weight orderUnits : Z) : limiting (list Charge) :=
  chargeRules limiter
    [(MkRule (rateLimitKey "route" routeID "request_weight" "1minute") (requestWeight catalog) Minute, weight);
     (MkRule (rateLimitKey "account" accountID "orders" "10seconds") (ordersTenSecs catalog) (10 * Second),
      orderUnits);
     (MkRule (rateLimitKey "account" accountID "orders" "1minute") (ordersOneMin catalog) Minute, orderUnits)].

Definition observeHeader (now : Z) (header : Header) (limiter : memoryBackend)
    (observation : string * string) : memoryBackend :=
  let '(key, name) := observation in
  if Contains key "::" then limiter
  else
    match Atoi (TrimSpace (Get header name)) with
    | Some used => if bool_decide (0 ≤ used) then observed limiter now key used else limiter
    | None => limiter
    end.

Definition observeHeaders (limiter : memoryBackend) (now : Z) (routeID accountID : string) (header : Header)
    : memoryBackend :=
  foldl (observeHeader now header) limiter
    [(rateLimitKey "route" routeID "request_weight" "1minute", "X-MBX-USED-WEIGHT-1M");
     (rateLimitKey "account" accountID "orders" "10seconds", "X-MBX-ORDER-COUNT-10S");
     (rateLimitKey "account" accountID "orders" "1minute", "X-MBX-ORDER-COUNT-1M")].

Definition depthWeight (limit : Z) : Z :=
  if bool_decide (limit ≤ 50) then 2
  else if bool_decide (limit ≤ 100) then 5
  else if bool_decide (limit ≤ 500) then 10 else 20.

Definition candleWeight (limit : Z) : Z :=
  if bool_decide (limit = 0 ∨ limit < 100) then 1
  else if bool_decide (limit < 500) then 2
  else if bool_decide (limit ≤ 1000) then 5 else 10.
End BinanceUsdm.

(** ** Binance Spot: [exchange/binance/limits.go] *)

Module Binance.
Definition rateLimitRequestWeight : string := "REQUEST_WEIGHT".
Definition rateLimitRawRequests : string := "RAW_REQUESTS".
Definition rateLimitOrders : string := "ORDERS".

Record limitSpec : Type := MkLimitSpec {
  typeName : string;
  interval : string;
  intervalNum : Z;
  limit : Z;
  window : Z
}.

Definition identity (spec : limitSpec) : string :=
  typeName spec +:+ ":" +:+ pretty (intervalNum spec) +:+ interval spec.

Definition key (spec : limitSpec) (scope scopeID : string) : string :=
  "binance:" +:+ scope +:+ ":" +:+ scopeID +:+ ":" +:+ ToLowerText (typeName spec) +:+ ":" +:+
  pretty (intervalNum spec) +:+ ToLowerText (interval spec).

Abbreviation limitCatalog := (gmap string limitSpec).

Definition addSpec (specs : limitCatalog) (spec : limitSpec) : limitCatalog := <[identity spec := spec]> specs.

Definition newLimitCatalog : limitCatalog :=
  foldl addSpec ∅
    [MkLimitSpec rateLimitRequestWeight "MINUTE" 1 6000 Minute;
     MkLimitSpec rateLimitRawRequests "MINUTE" 5 300000 (5 * Minute);
     MkLimitSpec rateLimitOrders "SECOND" 10 100 (10 * Second);
     MkLimitSpec rateLimitOrders "DAY" 1 200000 (24 * 60 * Minute)].

Definition rateLimitWindow (interval : string) (count : Z) : option Z :=
  if bool_decide (count ≤ 0) then None
  else
    let interval := ToUpperText interval in
    if bool_decide (interval = "SECOND") then Some (int64 (count * Second))
    else if bool_decide (interval = "MINUTE") then Some (int64 (count * Minute))
    else if bool_decide (interval = "HOUR") then Some (int64 (count * (60 * Minute)))
    else if bool_decide (interval = "DAY") then Some (int64 (count * (24 * 60 * Minute)))
    else None.

(** One iteration of [limitCatalog.update]. *)
Definition updateSpec (specs : limitCatalog) (info : RateLimitInfo) : limitCatalog :=
  match rateLimitWindow (Interval info) (IntervalNum info) with
  | None => specs
  | Some window =>
      if bool_decide (InfoLimit info ≤ 0) then specs
      else
        let spec := MkLimitSpec (ToUpperText (Type_ info)) (ToUpperText (Interval info)) (IntervalNum info)
                      (InfoLimit info) window in
        if bool_decide (typeName spec ∉ [rateLimitRequestWeight; rateLimitRawRequests; rateLimitOrders]) then specs
        else addSpec specs spec
  end.

Definition update (specs : limitCatalog) (limits : list RateLimitInfo) : limitCatalog :=
  foldl updateSpec specs limits.

(** The [switch] on the kind of a limit: units, scope and scope ID. *)
Definition specUnits (routeID accountID : string) (requestWeight orderUnits : Z) (spec : limitSpec)
    : Z * string * string :=
  if bool_decide (typeName spec = rateLimitRequestWeight) then (requestWeight, "route", routeID)
  else if bool_decide (typeName spec = rateLimitRawRequests) then (1, "route", routeID)
  else if bool_decide (typeName spec = rateLimitOrders) then (orderUnits, "account", accountID)
  else (0, "", "").

(** [limitCatalog.charges] over the specs in the order in which the map gives
    them. *)
Fixpoint charges (limiter : memoryBackend) (specs : list limitSpec) (routeID accountID : string)
    (requestWeight orderUnits : Z) : limiting (list Charge) :=
  match specs with
  | [] => (limiter, Ok [])
  | spec :: specs =>
      let '(units, scope, scopeID) := specUnits routeID accountID requestWeight orderUnits spec in
      if bool_decide (units ≤ 0) then charges limiter specs routeID accountID requestWeight orderUnits
      else if blank scopeID then refuseLimit limiter "rate limit %s requires %s scope ID"
      else
        let key := key spec scope scopeID in
        setRule limiter (MkRule key (limit spec) (window spec)) (λ limiter,
          match charges limiter specs routeID accountID requestWeight orderUnits with
          | (limiter, Ok charges) => (limiter, Ok (MkCharge key units :: charges))
          | (limiter, Err err) => (limiter, Err err)
          end)
  end.

Definition headerSuffix (spec : limitSpec) : string :=
  let letter :=
    if bool_decide (interval spec = "SECOND") then "S"
    else if bool_decide (interval spec = "MINUTE") then "M"
    else if bool_decide (interval spec = "HOUR") then "H"
    else if bool_decide (interval spec = "DAY") then "D" else "" in
  pretty (intervalNum spec) +:+ letter.

(** [firstHeader] over the headers in the order in which the map gives them;
    their names are ASCII. *)
Definition firstHeader (headers : list (string * list string)) (name : string) : string :=
  match filter (λ entry, EqualFold entry.1 name = true ∧ entry.2 ≠ []) headers with
  | (_, value :: _) :: _ => value
  | _ => ""
  end.

Definition parsePositiveInt (value : string) : option Z :=
  match Atoi (TrimSpace value) with
  | Some parsed => if bool_decide (0 ≤ parsed) then Some parsed else None
  | None => None
  end.

(** One iteration of [limitCatalog.observeHeaders]. *)
Definition observeSpec (now : Z) (routeID accountID : string) (headers : list (string * list string))
    (limiter : memoryBackend) (spec : limitSpec) : memoryBackend :=
  let observe prefix scope scopeID :=
    if bool_decide (scopeID = "") then limiter
    else
      match parsePositiveInt (firstHeader headers (prefix +:+ headerSuffix spec)) with
      | Some used => observed limiter now (key spec scope scopeID) used
      | None => limiter
      end in
  if bool_decide (typeName spec = rateLimitRequestWeight) then observe "X-MBX-USED-WEIGHT-" "route" routeID
  else if bool_decide (typeName spec = rateLimitOrders) then observe "X-MBX-ORDER-COUNT-" "account" accountID
  else limiter.

Definition observeHeaders (limiter : memoryBackend) (now : Z) (specs : list limitSpec)
    (routeID accountID : string) (headers : list (string * list string)) : memoryBackend :=
  foldl (observeSpec now routeID accountID headers) limiter specs.
End Binance.
