(* ===== verification/RestClient.v ===== *)
(** * The parts that the REST clients share: [exchange/*/client.go]

    Every [client.go] repeats the same construction of a client, the same
    resolution of a call's options and credentials and the same use of the
    pipeline; they differ in names, rate limits and signatures.  What repeats is
    a definition here, the rest is in the modules of [RestClients].  A request is
    what the pipeline sends, with its query, headers and body, so that a
    signature can be compared with the request it travels with.

    Functions of the cryptographic and encoding packages of Go's standard
    library are the fields of [Library]. *)

From S2P Require Import Prelude GoStrings Decimals Errors Options Credential RateLimit Executor Session.
From S2P Require Import ClientErrors SpotAdapter StreamClient EndpointLimits.

(** ** [net/url] *)

(** [shouldEscape] in a query component and in a path. *)
Definition unreserved (c : ascii) : bool :=
  let n := Ascii.N_of_ascii c in
  bool_decide (48 ≤ n ≤ 57 ∨ 65 ≤ n ≤ 90 ∨ 97 ≤ n ≤ 122)%N || bool_decide (n ∈ [45; 46; 95; 126]%N).
Definition path_safe (c : ascii) : bool :=
  unreserved c || bool_decide (Ascii.N_of_ascii c ∈ [36; 38; 43; 44; 47; 58; 59; 61; 64]%N).

Definition hex_digit (n : N) : ascii := byte (if bool_decide (n < 10)%N then 48 + n else 55 + n)%N.
Definition percent (c : ascii) : string :=
  let n := Ascii.N_of_ascii c in
  String (byte 37) (String (hex_digit (n / 16)) (String (hex_digit (n mod 16)) "")).

Fixpoint escape (encode : ascii → string) (s : string) : string :=
  match s with
  | EmptyString => ""
  | String c s => encode c +:+ escape encode s
  end.

(** [url.QueryEscape] and [URL.EscapedPath] of a URL whose [RawPath] is empty. *)
Definition QueryEscape : string → string := escape (λ c,
  if unreserved c then String c ""
  else if bool_decide (c = byte 32) then "+" else percent c).
Definition EscapedPath : string → string := escape (λ c, if path_safe c then String c "" else percent c).

Example QueryEscape_runs : QueryEscape "a b/c=1&~" = "a+b%2Fc%3D1%26~" ∧ EscapedPath "/v1/a b" = "/v1/a%20b".
Proof. by vm_compute. Qed.

(** [url.Values], [Values.Set] and [Values.Encode]. *)
Abbreviation Values := (gmap string (list string)).
Definition Values_Set (values : Values) (key value : string) : Values := <[key := [value]]> values.

Definition entry_le (e f : string * list string) : Prop := string_le e.1 f.1.

#[export] Instance entry_le_dec : RelDecision entry_le.
Proof. intros e f. unfold entry_le, string_le. apply _. Defined.

Definition encodePairs (entry : string * list string) : list string :=
  (λ value, QueryEscape entry.1 +:+ "=" +:+ QueryEscape value) <$> entry.2.

Definition Encode (values : Values) : string :=
  let entries := merge_sort entry_le (map_to_list values) in
  Join (mjoin (encodePairs <$> entries)) "&".

Example Encode_runs :
  Encode {["symbol" := ["BTC USDT"]; "limit" := ["5"; "6"]]} = "limit=5&limit=6&symbol=BTC+USDT".
Proof. by vm_compute. Qed.

(** [url.PathUnescape]. *)
Definition hex_value (c : ascii) : option N :=
  let n := Ascii.N_of_ascii c in
  if bool_decide (48 ≤ n ≤ 57)%N then Some (n - 48)%N
  else if bool_decide (65 ≤ n ≤ 70)%N then Some (n - 55)%N
  else if bool_decide (97 ≤ n ≤ 102)%N then Some (n - 87)%N else None.

Fixpoint PathUnescape (s : string) : option string :=
  match s with
  | EmptyString => Some ""
  | String c rest =>
      if bool_decide (c = byte 37) then
        match rest with
        | String h (String l rest) =>
            high ← hex_value h; low ← hex_value l; decoded ← PathUnescape rest;
            Some (String (byte (16 * high + low)) decoded)
        | _ => None
        end
      else decoded ← PathUnescape rest; Some (String c decoded)
  end.

(** [strings.ReplaceAll] of a text that is not empty; each replacement skips the
    text. *)
Fixpoint replaceAll (fuel : nat) (s old new : string) : string :=
  match fuel with
  | O => s
  | S fuel =>
      match s with
      | EmptyString => ""
      | String c rest =>
          if HasPrefix s old then new +:+ replaceAll fuel (drop_bytes (String.length old) s) old new
          else String c (replaceAll fuel rest old new)
      end
  end.
Definition ReplaceAll (s old new : string) : string := replaceAll (String.length s) s old new.

(** [strings.TrimRight(s, "/")] and [TrimLeft]. *)
Definition slash (c : ascii) : bool := bool_decide (c = byte 47).
Definition TrimRightSlashes (s : string) : string :=
  String.string_of_list_ascii (reverse (drop_while slash (reverse (String.list_ascii_of_string s)))).
Definition TrimLeftSlashes (s : string) : string :=
  String.string_of_list_ascii (drop_while slash (String.list_ascii_of_string s)).

(** ** [net/http] requests *)

Record HTTPRequest : Type := MkHTTPRequest {
  request_method : string;
  request_host : string;
  request_path : string;
  request_query : string;
  request_headers : gmap string string;
  request_body : string
}.

(** [Header.Set] and [Header.Get]. *)
Definition Header_Set (request : HTTPRequest) (key value : string) : HTTPRequest :=
  MkHTTPRequest (request_method request) (request_host request) (request_path request) (request_query request)
    (<[canonical_key true key := value]> (request_headers request)) (request_body request).
Definition header (request : HTTPRequest) (key : string) : string :=
  default "" (request_headers request !! canonical_key true key).

(** [http.NewRequest] on a URL that the client composed, whose method is one of
    the constants of [net/http]. *)
Definition NewRequest (base : ParsedURL) (method path query body : string) : HTTPRequest :=
  MkHTTPRequest method (Host base) path query ∅ body.

(** The request as the pipeline sends it, and as it is received: a request with
    a URL. *)
Definition plain_request (request : HTTPRequest) : Request :=
  MkRequest (request_method request) (Some (request_path request)) (request_host request)
    (request_query request) (request_headers request) (request_body request).
Definition received (request : Request) : option HTTPRequest :=
  path ← URL_Path request;
  Some (MkHTTPRequest (Method request) (URL_Host request) path (URL_RawQuery request)
          (req_Header request) (req_Body request)).

Lemma received_plain request : received (plain_request request) = Some request.
Proof. by destruct request. Qed.

Lemma header_Set_same request key value : header (Header_Set request key value) key = value.
Proof. unfold header, Header_Set. simpl. by rewrite lookup_insert_eq. Qed.

Lemma header_Set_other request key key' value :
  canonical_key true key ≠ canonical_key true key' →
  header (Header_Set request key value) key' = header request key'.
Proof. intros H. unfold header, Header_Set. simpl. by rewrite lookup_insert_ne. Qed.

(** ** The standard library *)

Inductive field : Type :=
  | FieldText (text : string)
  | FieldInteger (z : Z)
  | FieldTruth (b : bool)
  | FieldTexts (texts : list string)
  | FieldObject (members : list (string * field)).

Class Library : Type := {
  HMAC_SHA256 : string → string → string;
  HMAC_SHA512 : string → string → string;
  SHA256 : string → string;
  SHA512 : string → string;
  EncodeHex : string → string;
  EncodeBase64 : string → string;
  EncodeRawURLBase64 : string → string;
  DecodeBase64 : string → result error string;
  (** [time.Time.Format] in UTC. *)
  FormatTime : string → Z → string;
  (** A signature with the private key in a PEM block: its errors are those of
      the PEM and PKCS packages. *)
  SignEd25519 : string → string → result error string;
  ParseP256Key : string → result error string;
  SignES256 : string → string → result error string;
  (** [json.Marshal] of a struct with these members. *)
  MarshalFields : list (string * field) → string
}.

(** A [SignHMAC...] function: the keyed hash in an encoding, of a secret that is
    not empty.  Writing to a hash does not fail. *)
Definition signHMAC (hash : string → string → string) (encode : string → string) (message : string)
    (secret payload : string) : result error string :=
  if bool_decide (secret = "") then Err (Errorf message) else Ok (encode (hash secret payload)).

(** [time.Time.Unix] and [UnixMilli]. *)
Definition Unix (t : Z) : Z := (t - unixEpoch) / Second.
Definition UnixMilli (t : Z) : Z := (t - unixEpoch) / Millisecond.

(** ** Clients *)

Record Config : Type := MkConfig {
  config_Executor : bool;
  config_Credentials : option Descriptor;
  config_CredentialProvider : bool;
  config_DefaultEgressRouteID : string;
  config_BaseURL : string;
  config_AllowInsecureHTTP : bool;
  config_RequestTimeout : Z
}.

(** [Settings] are the fields of one exchange alone: its quotas, its receive
    window, its signing mode. *)
Record Client (Settings : Type) : Type := MkClient {
  client_credentials : option Descriptor;
  client_credentialProvider : bool;
  client_defaultEgressRouteID : string;
  client_baseURL : ParsedURL;
  client_requestTimeout : Z;
  settings : Settings
}.
Arguments MkClient {Settings} _ _ _ _ _ _.
Arguments client_credentials {Settings} _.
Arguments client_credentialProvider {Settings} _.
Arguments client_defaultEgressRouteID {Settings} _.
Arguments client_baseURL {Settings} _.
Arguments client_requestTimeout {Settings} _.
Arguments settings {Settings} _.

Definition DefaultRequestTimeout : Z := 10 * Second.

(** The first checks of every [New], and what is kept of the route: its trimmed
    text, but in Binance Spot the text as it was given. *)
Definition clientRoute (keep : string → string) (label : string) (config : Config) : result error string :=
  require (config_Executor config) (Errorf (label +:+ " executor is required"));;
  let route := TrimSpace (config_DefaultEgressRouteID config) in
  require (negb (bool_decide (route = ""))) (Sentinel ErrMissingEgressRoute);;
  Ok (keep (config_DefaultEgressRouteID config)).

(** The base URL: [pathAllowed] tells which paths it may have, [cleanPath] what
    is kept of it, or that the path is refused after all. *)
Definition clientURL (parse : url_parser) (label : string) (pathAllowed : string → bool)
    (cleanPath : string → result error string) (text : string) (config : Config) : result error ParsedURL :=
  match parse text with
  | None => Err (Errorf ("invalid " +:+ label +:+ " base URL %q"))
  | Some parsed =>
      require (negb (bool_decide (Host parsed = "") || hasUser parsed ||
                     negb (bool_decide (RawQuery parsed = "")) || negb (bool_decide (Fragment parsed = "")) ||
                     negb (pathAllowed (Path parsed))))
        (Errorf ("invalid " +:+ label +:+ " base URL %q"));;
      require (bool_decide (Scheme parsed = "https") ||
               config_AllowInsecureHTTP config && bool_decide (Scheme parsed = "http"))
        (Errorf (label +:+ " base URL must use HTTPS"));;
      path ← cleanPath (Path parsed);
      Ok (MkParsedURL parsed path (RawQuery parsed) (URL_String parsed))
  end.

(** The rule of most clients: no path at all. *)
Definition rootOnly (path : string) : bool := bool_decide (path = "") || bool_decide (path = "/").
Definition noPath (path : string) : result error string := Ok "".

Definition clientTimeout (label : string) (config : Config) : result error Z :=
  let timeout := orNumber (config_RequestTimeout config) DefaultRequestTimeout in
  require (bool_decide (0 ≤ timeout)) (Errorf (label +:+ " request timeout cannot be negative"));;
  Ok timeout.

(** The last checks; the copy of a descriptor is the descriptor. *)
Definition clientCredentials (exchange label : string) (config : Config) : result error (option Descriptor) :=
  match config_Credentials config with
  | Some descriptor =>
      Validate descriptor;;
      require (bool_decide (Credential.Exchange descriptor = exchange))
        (Errorf ("credential exchange must be " +:+ label));;
      require (config_CredentialProvider config)
        (Errorf ("credential provider is required for private " +:+ label +:+ " requests"));;
      Ok (Some descriptor)
  | None =>
      require (negb (config_CredentialProvider config))
        (Errorf "credential descriptor is required with credential provider");;
      Ok None
  end.

(** [New], with the checks of the exchange's own settings between the timeout
    and the credentials; [keep] is what becomes of the default route. *)
Definition newClientKeeping {Settings} (keep : string → string) (parse : url_parser) (exchange label : string)
    (pathAllowed : string → bool) (cleanPath : string → result error string) (baseURL : string)
    (ownSettings : result error Settings) (config : Config) : result error (Client Settings) :=
  route ← clientRoute keep label config;
  baseURL ← clientURL parse label pathAllowed cleanPath baseURL config;
  timeout ← clientTimeout label config;
  settings ← ownSettings;
  credentials ← clientCredentials exchange label config;
  Ok (MkClient credentials (config_CredentialProvider config) route baseURL timeout settings).

(** The [New] of every client but Binance Spot trims the route. *)
Definition newClient {Settings} := @newClientKeeping Settings TrimSpace.

(** [if config.Quota == 0 { config.Quota = default }] and the check that follows
    it on every quota. *)
Definition positive (quotas : list Z) (message : string) : result error unit :=
  require (forallb (λ quota, bool_decide (1 ≤ quota)) quotas) (Errorf message).

(** ** Calls *)

(** The secret that a credential provider resolves, as bytes. *)
Record SecretMaterial : Type := MkSecretMaterial {
  secret_APIKey : string;
  secret_SecretKey : string;
  secret_Passphrase : string
}.

(** What one attempt meets: the pipeline's part, of which the result of the
    request builder is not read, the provider's answer, the client's clock and
    its source of nonces, and what the client's atomic clock offset and last
    nonce hold when the attempt reads them. *)
Record callEnv : Type := MkCallEnv {
  call_env : attemptEnv;
  call_material : result error SecretMaterial;
  call_now : Z;
  call_nonce : result error string;
  call_clockOffset : Z;
  call_previousNonce : Z
}.

Definition with_build (env : attemptEnv) (build : result error HTTPRequest) : attemptEnv :=
  MkAttemptEnv (env_wait env)
    (match build with Ok request => Ok (Some (plain_request request)) | Err err => Err err end)
    (env_do env) (env_ctxErr env) (env_now env) (env_elapsed env) (env_random env) (env_interrupt env).

Definition call_result : Type := memoryBackend * list event * outcome (Response * option error).

Definition refused (backend : memoryBackend) (err : error) : call_result :=
  (backend, [], Returned (emptyResponse, Some err)).

Section call.
Context (parseTime : string → option Z) (executor : Executor) {Settings : Type}
  (exchange label : string) (client : Client Settings).

(** [resolveOptions]. *)
Definition resolveOptions (options : list (option RequestOption)) : result error RequestOptions :=
  resolved ← ResolveRequestOptions (client_defaultEgressRouteID client) options;
  Ok (MkRequestOptions (EgressRouteID resolved)
        (orNumber (Timeout resolved) (client_requestTimeout client))).

(** [client.executor.Execute] with the client's request builder. *)
Definition execute (ctx : bool) (accountID : string) (resolved : RequestOptions) (charges : list Charge)
    (operation : Z) (build : callEnv → result error HTTPRequest) (calls : Z → callEnv)
    (backend : memoryBackend) : call_result :=
  Execute parseTime executor ctx
    (MkExecution exchange "" accountID (EgressRouteID resolved) (Timeout resolved) charges operation true)
    (λ attempt, with_build (call_env (calls attempt)) (build (calls attempt))) backend.

(** [if err == nil { observe(...) }]: an answer updates the limiter. *)
Definition observing (observe : Response → memoryBackend → memoryBackend) (r : call_result) : call_result :=
  match r with
  | (backend, events, Returned (response, None)) =>
      (observe response backend, events, Returned (response, None))
  | r => r
  end.

(** [executePublic]: the limits of the route, then the pipeline. *)
Definition publicCall {Limit} (limits : string → memoryBackend → limiting (Limit * list Charge))
    (observe : string → Limit → Response → memoryBackend → memoryBackend)
    (build : callEnv → result error HTTPRequest) (ctx : bool) (options : list (option RequestOption))
    (calls : Z → callEnv) (backend : memoryBackend) : call_result :=
  match resolveOptions options with
  | Err err => refused backend err
  | Ok resolved =>
      match limits (EgressRouteID resolved) backend with
      | (backend, Err err) => refused backend err
      | (backend, Ok (limit, charges)) =>
          observing (observe (EgressRouteID resolved) limit)
            (execute ctx "" resolved charges OperationRead build calls backend)
      end
  end.

Definition accountError (category accountID : string) (cause : error) : error :=
  API (newAPIError category exchange accountID false cause).

(** The guards of [executePrivate] between its options and its limits. *)
Definition requireAccount (route permission : string) : result error Descriptor :=
  match client_credentials client, client_credentialProvider client with
  | Some descriptor, true =>
      match RequireEgressRoute descriptor route with
      | Err err => Err (accountError ErrorAuthorization (AccountID descriptor) err)
      | Ok _ =>
          match RequirePermission descriptor permission with
          | Err err => Err (accountError ErrorAuthorization (AccountID descriptor) err)
          | Ok _ => Ok descriptor
          end
      end
  | _, _ =>
      Err (accountError ErrorAuthentication "" (Errorf ("private " +:+ label +:+ " request requires credentials")))
  end.

(** The start of every private [Build]: the provider's material, whose members
    the exchange requires, then the signed request; [missing] is the client's
    text for a member that is empty. *)
Definition withMaterial (accountID missing : string) (passphrase : bool)
    (sign : callEnv → SecretMaterial → result error HTTPRequest) (call : callEnv) : result error HTTPRequest :=
  match call_material call with
  | Err err => Err (accountError ErrorAuthentication accountID err)
  | Ok material =>
      if bool_decide (secret_APIKey material = "") || bool_decide (secret_SecretKey material = "") ||
         passphrase && bool_decide (secret_Passphrase material = "")
      then Err (accountError ErrorAuthentication accountID (Errorf missing))
      else sign call material
  end.

(** [executePrivate], called [executeSigned] by some clients: the account's
    guards and limits, then the pipeline with a builder that signs. *)
Definition privateCall {Limit}
    (limits : string → string → memoryBackend → limiting (Limit * list Charge))
    (observe : string → string → Limit → Response → memoryBackend → memoryBackend)
    (missing : string) (passphrase : bool)
    (sign : string → callEnv → SecretMaterial → result error HTTPRequest)
    (permission : string) (operation : Z) (ctx : bool) (options : list (option RequestOption))
    (calls : Z → callEnv) (backend : memoryBackend) : call_result :=
  match resolveOptions options with
  | Err err => refused backend err
  | Ok resolved =>
      match requireAccount (EgressRouteID resolved) permission with
      | Err err => refused backend err
      | Ok descriptor =>
          match limits (EgressRouteID resolved) (AccountID descriptor) backend with
          | (backend, Err err) => refused backend err
          | (backend, Ok (limit, charges)) =>
              observing (observe (EgressRouteID resolved) (AccountID descriptor) limit)
                (execute ctx (AccountID descriptor) resolved charges operation
                   (withMaterial (AccountID descriptor) missing passphrase (sign (AccountID descriptor))) calls backend)
          end
      end
  end.
End call.

(** A limit function whose client reads no headers. *)
Definition unobserved (r : limiting (list Charge)) : limiting (unit * list Charge) :=
  (r.1, charges ← r.2; Ok (tt, charges)).
Definition ignoreAnswer {A} (_ : A) (_ : Response) (backend : memoryBackend) : memoryBackend := backend.
