(* ===== verification/HMACClients.v ===== *)
(** * The REST clients that sign with HMAC: [exchange/*/client.go], [signer.go]

    One Module per client: its settings and [New], its signature, and its two
    ways of sending a request, which are the templates of [RestClient] with the
    client's rate limits, the headers it reads and the request it builds. *)

From S2P Require Import Prelude GoStrings Decimals Errors Options Credential RateLimit Executor Session.
From S2P Require Import ClientErrors SpotAdapter StreamClient EndpointLimits RestClient.

(** The headers that every [newRequest] sets. *)
Definition jsonRequest (base : ParsedURL) (method path query body : string) : HTTPRequest :=
  let request := NewRequest base method path query body in
  let request := Header_Set request "Accept" "application/json" in
  let request := Header_Set request "Content-Type" "application/json" in
  Header_Set request "User-Agent" "cex-sdk-go/0".

Definition newline : string := String (byte 10) "".

(** [endpoint := request.URL.EscapedPath()], with the query when there is one. *)
Definition requestTarget (path query : string) : string :=
  EscapedPath path +:+ (if bool_decide (query = "") then "" else "?" +:+ query).

(** A signing error, reported as a failure of the account's credential. *)
Definition signing {A} (exchange accountID : string) (r : result error A) : result error A :=
  match r with Ok a => Ok a | Err err => Err (accountError exchange ErrorAuthentication accountID err) end.

(** The arguments of a private call that every client takes. *)
Record privateRequest : Type := MkPrivateRequest {
  private_method : string;
  private_path : string;
  private_query : Values;
  private_body : string;
  private_permission : string;
  private_operation : Z
}.

(** ** OKX: [exchange/okx] *)

Module OKX.
Section client.
Context `{Library} (parseTime : string → option Z) (executor : Executor).

Record okxSettings : Type := MkSettings { demoTrading : bool }.
Definition DefaultBaseURL : string := "https://www.okx.com".
Definition okxTimestampLayout : string := "2006-01-02T15:04:05.000Z".

Definition New (parse : url_parser) (demoTrading : bool) (config : Config) : result error (Client okxSettings) :=
  newClient parse ExchangeOKX "OKX" rootOnly noPath (orText (config_BaseURL config) DefaultBaseURL)
    (Ok (MkSettings demoTrading)) config.

Definition SignHMACSHA256 : string → string → result error string :=
  signHMAC HMAC_SHA256 EncodeBase64 "OKX HMAC secret is required".
Definition signaturePayload (timestamp method requestPath body : string) : string :=
  timestamp +:+ method +:+ requestPath +:+ body.

Definition newRequest (client : Client okxSettings) (method path : string) (query : Values) (body : string)
    : HTTPRequest :=
  let request := jsonRequest (client_baseURL client) method path (Encode query) body in
  if demoTrading (settings client) then Header_Set request "x-simulated-trading" "1" else request.

Definition sign (client : Client okxSettings) (arguments : privateRequest) (accountID : string)
    (call : callEnv) (material : SecretMaterial) : result error HTTPRequest :=
  let request := newRequest client (private_method arguments) (private_path arguments)
                   (private_query arguments) (private_body arguments) in
  let timestampMillis := int64 (UnixMilli (call_now call) + call_clockOffset call) in
  let timestamp := FormatTime okxTimestampLayout (unixEpoch + timestampMillis * Millisecond) in
  signature ← SignHMACSHA256 (secret_SecretKey material)
    (signaturePayload timestamp (private_method arguments)
       (requestTarget (request_path request) (request_query request)) (private_body arguments));
  let request := Header_Set request "OK-ACCESS-KEY" (secret_APIKey material) in
  let request := Header_Set request "OK-ACCESS-SIGN" signature in
  let request := Header_Set request "OK-ACCESS-TIMESTAMP" timestamp in
  Ok (Header_Set request "OK-ACCESS-PASSPHRASE" (secret_Passphrase material)).

Definition executePublic (client : Client okxSettings) (method path : string) (query : Values)
    (limit : EndpointLimits.OKX.endpointLimit) :=
  publicCall parseTime executor ExchangeOKX client
    (λ route limiter, unobserved (EndpointLimits.OKX.rateLimitCharges limiter route "" method path limit))
    (λ _, ignoreAnswer) (λ _, Ok (newRequest client method path query "")).

Definition executeSigned (client : Client okxSettings) (arguments : privateRequest)
    (limit : EndpointLimits.OKX.endpointLimit) :=
  privateCall parseTime executor ExchangeOKX "OKX" client
    (λ route account limiter, unobserved (EndpointLimits.OKX.rateLimitCharges limiter route account
       (private_method arguments) (private_path arguments) limit))
    (λ _ _, ignoreAnswer) "OKX API key, HMAC secret, and passphrase are required" true (sign client arguments)
    (private_permission arguments) (private_operation arguments).
End client.
End OKX.

(** ** Bybit: [exchange/bybit] *)

Module Bybit.
Section client.
Context `{Library} (parseTime : string → option Z) (executor : Executor).

Record bybitSettings : Type := MkSettings { receiveWindowMillis : Z }.
Definition DefaultBaseURL : string := "https://api.bybit.com".
Definition DefaultTestnetBaseURL : string := "https://api-testnet.bybit.com".
Definition DefaultReceiveWindow : Z := 5 * Second.

Definition New (parse : url_parser) (testnet : bool) (receiveWindow : Z) (config : Config)
    : result error (Client bybitSettings) :=
  let baseURL := orText (config_BaseURL config) (if testnet then DefaultTestnetBaseURL else DefaultBaseURL) in
  let receiveWindow := orNumber receiveWindow DefaultReceiveWindow in
  newClient parse ExchangeBybit "Bybit" rootOnly noPath baseURL
    (require (bool_decide (0 < receiveWindow ≤ 60 * Second) && bool_decide (Z.rem receiveWindow Millisecond = 0))
       (Errorf "Bybit receive window must be 1-60000 whole milliseconds");;
     Ok (MkSettings (Z.quot receiveWindow Millisecond))) config.

Definition SignHMACSHA256 : string → string → result error string :=
  signHMAC HMAC_SHA256 EncodeHex "Bybit HMAC secret is required".
Definition signaturePayload (timestamp apiKey : string) (receiveWindow : Z) (content : string) : string :=
  timestamp +:+ apiKey +:+ pretty receiveWindow +:+ content.

Definition newRequest (client : Client bybitSettings) (method path : string) (query : Values) (body : string)
    : HTTPRequest := jsonRequest (client_baseURL client) method path (Encode query) body.

Definition sign (client : Client bybitSettings) (arguments : privateRequest) (accountID : string)
    (call : callEnv) (material : SecretMaterial) : result error HTTPRequest :=
  let request := newRequest client (private_method arguments) (private_path arguments)
                   (private_query arguments) (private_body arguments) in
  let timestamp := pretty (int64 (UnixMilli (call_now call) + call_clockOffset call)) in
  let content := if bool_decide (private_method arguments = "GET") then request_query request
                 else private_body arguments in
  signature ← SignHMACSHA256 (secret_SecretKey material)
    (signaturePayload timestamp (secret_APIKey material) (receiveWindowMillis (settings client)) content);
  let request := Header_Set request "X-BAPI-API-KEY" (secret_APIKey material) in
  let request := Header_Set request "X-BAPI-TIMESTAMP" timestamp in
  let request := Header_Set request "X-BAPI-RECV-WINDOW" (pretty (receiveWindowMillis (settings client))) in
  Ok (Header_Set request "X-BAPI-SIGN" signature).

Definition executePublic (now : Z) (client : Client bybitSettings) (method path : string) (query : Values)
    (limit : EndpointLimits.Bybit.endpointLimit) :=
  publicCall parseTime executor ExchangeBybit client
    (λ route limiter, unobserved (EndpointLimits.Bybit.rateLimitCharges limiter route "" path limit))
    (λ route _ response limiter,
       EndpointLimits.Bybit.observeRemaining limiter now "route" route path limit (resp_Header response))
    (λ _, Ok (newRequest client method path query "")).

Definition executeSigned (now : Z) (client : Client bybitSettings) (arguments : privateRequest)
    (limit : EndpointLimits.Bybit.endpointLimit) :=
  privateCall parseTime executor ExchangeBybit "Bybit" client
    (λ route account limiter,
       unobserved (EndpointLimits.Bybit.rateLimitCharges limiter route account (private_path arguments) limit))
    (λ _ account _ response limiter, EndpointLimits.Bybit.observeRemaining limiter now "account" account
       (private_path arguments) limit (resp_Header response))
    "Bybit API key and HMAC secret are required" false (sign client arguments) (private_permission arguments) (private_operation arguments).
End client.
End Bybit.

(** ** Bitget: [exchange/bitget] *)

Module Bitget.
Section client.
Context `{Library} (parseTime : string → option Z) (executor : Executor).

Record bitgetSettings : Type := MkSettings { locale : string; demoTrading : bool }.
Definition DefaultBaseURL : string := "https://api.bitget.com".

Definition New (parse : url_parser) (locale : string) (demoTrading : bool) (config : Config)
    : result error (Client bitgetSettings) :=
  let locale := orText locale "en-US" in
  newClient parse ExchangeBitget "Bitget" rootOnly noPath (orText (config_BaseURL config) DefaultBaseURL)
    (require (bool_decide (TrimSpace locale = locale)) (Errorf "Bitget locale cannot have surrounding whitespace");;
     Ok (MkSettings locale demoTrading)) config.

Definition SignHMACSHA256 : string → string → result error string :=
  signHMAC HMAC_SHA256 EncodeBase64 "Bitget HMAC secret is required".
Definition signaturePayload (timestamp method path query body : string) : string :=
  timestamp +:+ ToUpperText method +:+ path +:+
  (if bool_decide (query = "") then "" else "?" +:+ query) +:+ body.

Definition newRequest (client : Client bitgetSettings) (method path : string) (query : Values) (body : string)
    : HTTPRequest :=
  let request := jsonRequest (client_baseURL client) method path (Encode query) body in
  let request := Header_Set request "locale" (locale (settings client)) in
  if demoTrading (settings client) then Header_Set request "paptrading" "1" else request.

Definition sign (client : Client bitgetSettings) (arguments : privateRequest) (accountID : string)
    (call : callEnv) (material : SecretMaterial) : result error HTTPRequest :=
  let request := newRequest client (private_method arguments) (private_path arguments)
                   (private_query arguments) (private_body arguments) in
  let timestamp := pretty (UnixMilli (call_now call)) in
  signature ← SignHMACSHA256 (secret_SecretKey material)
    (signaturePayload timestamp (private_method arguments) (request_path request) (request_query request)
       (private_body arguments));
  let request := Header_Set request "ACCESS-KEY" (secret_APIKey material) in
  let request := Header_Set request "ACCESS-SIGN" signature in
  let request := Header_Set request "ACCESS-TIMESTAMP" timestamp in
  Ok (Header_Set request "ACCESS-PASSPHRASE" (secret_Passphrase material)).

Definition executePublic (now : Z) (client : Client bitgetSettings) (method path : string) (query : Values)
    (limit : EndpointLimits.Bitget.endpointLimit) :=
  publicCall parseTime executor ExchangeBitget client
    (λ route limiter, unobserved (EndpointLimits.Bitget.rateLimitCharges limiter route "" path limit))
    (λ route _ response limiter,
       EndpointLimits.Bitget.observeRemaining limiter now "route" route path limit (resp_Header response))
    (λ _, Ok (newRequest client method path query "")).

Definition executeSigned (now : Z) (client : Client bitgetSettings) (arguments : privateRequest)
    (limit : EndpointLimits.Bitget.endpointLimit) :=
  privateCall parseTime executor ExchangeBitget "Bitget" client
    (λ route account limiter,
       unobserved (EndpointLimits.Bitget.rateLimitCharges limiter route account (private_path arguments) limit))
    (λ _ account _ response limiter, EndpointLimits.Bitget.observeRemaining limiter now "account" account
       (private_path arguments) limit (resp_Header response))
    "Bitget API key, HMAC secret, and passphrase are required" true (sign client arguments) (private_permission arguments) (private_operation arguments).
End client.
End Bitget.

(** ** Binance Spot: [exchange/binance] *)

Module Binance.
Section client.
Context `{Library} (parseTime : string → option Z) (executor : Executor).

Record binanceSettings : Type := MkSettings { receiveWindowMillis : Z }.
Definition DefaultBaseURL : string := "https://api.binance.com".
Definition DefaultReceiveWindow : Z := 5 * Second.

(** The base URL may have a path; the route is kept as it was given. *)
Definition New (parse : url_parser) (receiveWindow : Z) (config : Config) : result error (Client binanceSettings) :=
  let receiveWindow := orNumber receiveWindow DefaultReceiveWindow in
  newClientKeeping id parse ExchangeBinance "Binance" (λ _, true) (λ path, Ok (TrimSuffix path "/"))
    (orText (config_BaseURL config) DefaultBaseURL)
    (require (bool_decide (0 < receiveWindow ≤ 60 * Second) && bool_decide (Z.rem receiveWindow Millisecond = 0))
       (Errorf "Binance receive window must be 1-60000 whole milliseconds");;
     Ok (MkSettings (Z.quot receiveWindow Millisecond))) config.

Definition SignHMACSHA256 : string → string → result error string :=
  signHMAC HMAC_SHA256 EncodeHex "Binance HMAC secret key is empty".

Definition newRequest (client : Client binanceSettings) (method path : string) (values : Values)
    (signature : string) : HTTPRequest :=
  let path := TrimSuffix (Path (client_baseURL client)) "/" +:+ path in
  let rawQuery := Encode values in
  let rawQuery :=
    if bool_decide (signature = "") then rawQuery
    else (if bool_decide (rawQuery = "") then "" else rawQuery +:+ "&") +:+ "signature=" +:+ QueryEscape signature in
  let request := NewRequest (client_baseURL client) method path rawQuery "" in
  let request := Header_Set request "Accept" "application/json" in
  Header_Set request "User-Agent" "cex-sdk-go/0".

Definition signedTimestampMillis (call : callEnv) : Z := int64 (UnixMilli (call_now call) + call_clockOffset call).

Definition sign (client : Client binanceSettings) (arguments : privateRequest) (accountID : string)
    (call : callEnv) (material : SecretMaterial) : result error HTTPRequest :=
  let signedValues := Values_Set (private_query arguments) "recvWindow"
                        (pretty (receiveWindowMillis (settings client))) in
  let signedValues := Values_Set signedValues "timestamp" (pretty (signedTimestampMillis call)) in
  let payload := Encode signedValues in
  signature ← SignHMACSHA256 (secret_SecretKey material) payload;
  let request := newRequest client (private_method arguments) (private_path arguments) signedValues signature in
  Ok (Header_Set request "X-MBX-APIKEY" (secret_APIKey material)).

(** [specs] are the limits of the catalogue, and [headers] the answer's headers,
    in the orders in which their maps give them. *)
Definition executePublic (now : Z) (specs : list EndpointLimits.Binance.limitSpec)
    (headers : Response → list (string * list string)) (client : Client binanceSettings)
    (method path : string) (values : Values) (requestWeight : Z) :=
  publicCall parseTime executor ExchangeBinance client
    (λ route limiter, unobserved (EndpointLimits.Binance.charges limiter specs route "" requestWeight 0))
    (λ route _ response limiter, EndpointLimits.Binance.observeHeaders limiter now specs route "" (headers response))
    (λ _, Ok (newRequest client method path values "")).

Definition executeSigned (now : Z) (specs : list EndpointLimits.Binance.limitSpec)
    (headers : Response → list (string * list string)) (client : Client binanceSettings)
    (arguments : privateRequest) (requestWeight orderUnits : Z) :=
  privateCall parseTime executor ExchangeBinance "Binance" client
    (λ route account limiter,
       unobserved (EndpointLimits.Binance.charges limiter specs route account requestWeight orderUnits))
    (λ route account _ response limiter,
       EndpointLimits.Binance.observeHeaders limiter now specs route account (headers response))
    "Binance API key and HMAC secret are required" false (sign client arguments) (private_permission arguments) (private_operation arguments).
End client.
End Binance.

(** ** Binance USD-M: [exchange/binance/usdm] *)

Module BinanceUsdm.
Section client.
Context `{Library} (parseTime : string → option Z) (executor : Executor).

Record usdmSettings : Type := MkSettings { receiveWindow : Z }.
Definition DefaultBaseURL : string := "https://fapi.binance.com".
Definition DefaultReceiveWindow : Z := 5 * Second.

Definition New (parse : url_parser) (receiveWindow : Z) (config : Config) : result error (Client usdmSettings) :=
  let receiveWindow := orNumber receiveWindow DefaultReceiveWindow in
  newClient parse ExchangeBinance "Binance USD-M" rootOnly noPath (orText (config_BaseURL config) DefaultBaseURL)
    (require (bool_decide (1 ≤ Z.quot receiveWindow Millisecond) && bool_decide (receiveWindow ≤ Minute))
       (Errorf "receive window must be between 1 millisecond and 1 minute");;
     Ok (MkSettings receiveWindow)) config.

Definition newRequest (client : Client usdmSettings) (method path : string) (values : Values) : HTTPRequest :=
  let request := NewRequest (client_baseURL client) method path (Encode values) "" in
  let request := Header_Set request "Accept" "application/json" in
  Header_Set request "User-Agent" "cex-sdk-go/0".

(** [binance.SignHMACSHA256]. *)
Definition SignHMACSHA256 : string → string → result error string :=
  signHMAC HMAC_SHA256 EncodeHex "Binance HMAC secret key is empty".

Definition sign (client : Client usdmSettings) (arguments : privateRequest) (accountID : string)
    (call : callEnv) (material : SecretMaterial) : result error HTTPRequest :=
  let finalValues := Values_Set (private_query arguments) "recvWindow"
                       (pretty (Z.quot (receiveWindow (settings client)) Millisecond)) in
  let finalValues := Values_Set finalValues "timestamp"
                       (pretty (int64 (UnixMilli (call_now call) + call_clockOffset call))) in
  signature ← SignHMACSHA256 (secret_SecretKey material) (Encode finalValues);
  let finalValues := Values_Set finalValues "signature" signature in
  let request := newRequest client (private_method arguments) (private_path arguments) finalValues in
  Ok (Header_Set request "X-MBX-APIKEY" (secret_APIKey material)).

Definition executePublic (now : Z) (catalog : EndpointLimits.BinanceUsdm.limitCatalog)
    (client : Client usdmSettings) (path : string) (values : Values) (weight : Z) :=
  publicCall parseTime executor ExchangeBinance client
    (λ route limiter, unobserved (EndpointLimits.BinanceUsdm.charges catalog limiter route "" weight 0))
    (λ route _ response limiter,
       EndpointLimits.BinanceUsdm.observeHeaders limiter now route "" (resp_Header response))
    (λ _, Ok (newRequest client "GET" path values)).

Definition executeSigned (now : Z) (catalog : EndpointLimits.BinanceUsdm.limitCatalog)
    (client : Client usdmSettings) (arguments : privateRequest) (weight orders : Z) :=
  privateCall parseTime executor ExchangeBinance "Binance USD-M" client
    (λ route account limiter, unobserved (EndpointLimits.BinanceUsdm.charges catalog limiter route account weight orders))
    (λ route account _ response limiter,
       EndpointLimits.BinanceUsdm.observeHeaders limiter now route account (resp_Header response))
    "Binance API key and HMAC secret are required" false (sign client arguments) (private_permission arguments) (private_operation arguments).
End client.
End BinanceUsdm.

(** ** MEXC: [exchange/mexc] *)

Module MEXC.
Section client.
Context `{Library} (parseTime : string → option Z) (executor : Executor).

Record mexcSettings : Type := MkSettings {
  endpointQuota : Z;
  receiveWindow : Z;
  orderQuota : Z;
  cancelQuota : Z;
  privateReadQuota : Z;
  accountQuota : Z
}.
Definition DefaultBaseURL : string := "https://api.mexc.com".

(** The defaults of [New], in the order of the fields. *)
Definition withDefaults (given : mexcSettings) : mexcSettings :=
  MkSettings (orNumber (endpointQuota given) 500) (orNumber (receiveWindow given) (5 * Second))
    (orNumber (orderQuota given) 5) (orNumber (cancelQuota given) 50)
    (orNumber (privateReadQuota given) 50) (orNumber (accountQuota given) 2).

Definition New (parse : url_parser) (given : mexcSettings) (config : Config) : result error (Client mexcSettings) :=
  let own := withDefaults given in
  newClient parse ExchangeMEXC "MEXC" rootOnly noPath (orText (config_BaseURL config) DefaultBaseURL)
    (positive [endpointQuota own] "MEXC endpoint quota must be positive";;
     require (bool_decide (Millisecond ≤ receiveWindow own ≤ 60 * Second))
       (Errorf "MEXC receive window must be between 1ms and 60s");;
     positive [orderQuota own; cancelQuota own; privateReadQuota own; accountQuota own]
       "MEXC private request quotas must be positive";;
     Ok own) config.

Definition SignHMACSHA256 : string → string → result error string :=
  signHMAC HMAC_SHA256 EncodeHex "MEXC HMAC secret is required".

Definition newRequest (client : Client mexcSettings) (method path : string) (query : Values) : HTTPRequest :=
  jsonRequest (client_baseURL client) method path (Encode query) "".

Definition sign (client : Client mexcSettings) (arguments : privateRequest) (accountID : string)
    (call : callEnv) (material : SecretMaterial) : result error HTTPRequest :=
  let timestamp := UnixMilli (call_now call) in
  require (bool_decide (0 < timestamp)) (APIValidationError ExchangeMEXC "MEXC timestamp must be after the Unix epoch");;
  let signedQuery := Values_Set (private_query arguments) "recvWindow"
                       (pretty (Z.quot (receiveWindow (settings client)) Millisecond)) in
  let signedQuery := Values_Set signedQuery "timestamp" (pretty timestamp) in
  signature ← signing ExchangeMEXC accountID (SignHMACSHA256 (secret_SecretKey material) (Encode signedQuery));
  let signedQuery := Values_Set signedQuery "signature" signature in
  let request := newRequest client (private_method arguments) (private_path arguments) signedQuery in
  Ok (Header_Set request "X-MEXC-APIKEY" (secret_APIKey material)).

Definition executePublic (client : Client mexcSettings) (path : string) (query : Values)
    (limit : EndpointLimits.MEXC.endpointLimit) :=
  publicCall parseTime executor ExchangeMEXC client
    (λ route limiter, unobserved (EndpointLimits.MEXC.publicRateLimitCharges limiter route limit
       (endpointQuota (settings client))))
    (λ _, ignoreAnswer) (λ _, Ok (newRequest client "GET" path query)).

Definition executePrivate (client : Client mexcSettings) (arguments : privateRequest)
    (limit : EndpointLimits.MEXC.endpointLimit) (frequencyName : string) (frequencyQuota : Z) :=
  privateCall parseTime executor ExchangeMEXC "MEXC" client
    (λ route account limiter, unobserved (EndpointLimits.MEXC.privateRateLimitCharges limiter route account limit
       (endpointQuota (settings client)) frequencyName frequencyQuota))
    (λ _ _, ignoreAnswer) "MEXC API key and HMAC secret are required" false (sign client arguments)
    (private_permission arguments) (private_operation arguments).
End client.
End MEXC.

(** ** HTX: [exchange/htx] *)

Module HTX.
Section client.
Context `{Library} (parseTime : string → option Z) (executor : Executor).

Record htxSettings : Type := MkSettings {
  publicRequestsPerSecond : Z;
  accountQuota : Z;
  orderQuota : Z;
  orderReadQuota : Z;
  tradeHistoryQuota : Z
}.
Definition DefaultBaseURL : string := "https://api.huobi.pro".

Definition withDefaults (given : htxSettings) : htxSettings :=
  MkSettings (orNumber (publicRequestsPerSecond given) 10) (orNumber (accountQuota given) 100)
    (orNumber (orderQuota given) 100) (orNumber (orderReadQuota given) 50)
    (orNumber (tradeHistoryQuota given) 20).

Definition New (parse : url_parser) (given : htxSettings) (config : Config) : result error (Client htxSettings) :=
  let own := withDefaults given in
  newClient parse ExchangeHTX "HTX" rootOnly noPath (orText (config_BaseURL config) DefaultBaseURL)
    (positive [publicRequestsPerSecond own] "HTX public request quota must be positive";;
     positive [accountQuota own; orderQuota own; orderReadQuota own; tradeHistoryQuota own]
       "HTX private request quotas must be positive";;
     Ok own) config.

Definition SignHMACSHA256Base64 : string → string → result error string :=
  signHMAC HMAC_SHA256 EncodeBase64 "HTX HMAC secret is required".
Definition SignaturePayload (method host path query : string) : string :=
  ToUpperText method +:+ newline +:+ ToLowerText host +:+ newline +:+ path +:+ newline +:+ query.
Definition canonicalQuery (values : Values) : string := ReplaceAll (Encode values) "+" "%20".

(** [newRequestWithBody]; [newRequest] has no body. *)
Definition newRequestWithBody (client : Client htxSettings) (method path : string) (query : Values)
    (body : string) : HTTPRequest := jsonRequest (client_baseURL client) method path (Encode query) body.

Definition sign (client : Client htxSettings) (arguments : privateRequest) (accountID : string)
    (call : callEnv) (material : SecretMaterial) : result error HTTPRequest :=
  require (bool_decide (0 < Unix (call_now call)))
    (APIValidationError ExchangeHTX "HTX timestamp must be after the Unix epoch");;
  let signedQuery := Values_Set (private_query arguments) "AccessKeyId" (secret_APIKey material) in
  let signedQuery := Values_Set signedQuery "SignatureMethod" "HmacSHA256" in
  let signedQuery := Values_Set signedQuery "SignatureVersion" "2" in
  let signedQuery := Values_Set signedQuery "Timestamp" (FormatTime "2006-01-02T15:04:05" (call_now call)) in
  let payload := SignaturePayload (private_method arguments) (ToLowerText (Host (client_baseURL client)))
                   (private_path arguments) (canonicalQuery signedQuery) in
  signature ← signing ExchangeHTX accountID (SignHMACSHA256Base64 (secret_SecretKey material) payload);
  let signedQuery := Values_Set signedQuery "Signature" signature in
  Ok (newRequestWithBody client (private_method arguments) (private_path arguments) signedQuery
        (private_body arguments)).

Definition executePublic (now : Z) (client : Client htxSettings) (path : string) (query : Values)
    (endpoint : string) :=
  publicCall parseTime executor ExchangeHTX client
    (λ route limiter, EndpointLimits.HTX.publicRateLimit limiter route endpoint
       (publicRequestsPerSecond (settings client)))
    (λ _ limit response limiter, EndpointLimits.HTX.observeRateLimit limiter limit (resp_Header response) now)
    (λ _, Ok (newRequestWithBody client "GET" path query "")).

Definition executePrivate (now : Z) (client : Client htxSettings) (arguments : privateRequest)
    (group : string) (quota : Z) :=
  privateCall parseTime executor ExchangeHTX "HTX" client
    (λ _ account limiter, EndpointLimits.HTX.privateRateLimit limiter account group quota)
    (λ _ _ limit response limiter, EndpointLimits.HTX.observeRateLimit limiter limit (resp_Header response) now)
    "HTX access key and HMAC secret are required" false (sign client arguments) (private_permission arguments) (private_operation arguments).
End client.
End HTX.

(** ** KuCoin: [exchange/kucoin], and its futures client [exchange/kucoin/futures] *)

Module KuCoin.
Section client.
Context `{Library} (parseTime : string → option Z) (executor : Executor).

Record kucoinSettings : Type := MkSettings {
  apiKeyVersion : string;
  publicQuota : Z;
  spotQuota : Z;
  managementQuota : Z
}.
Definition DefaultBaseURL : string := "https://api.kucoin.com".

Definition withDefaults (given : kucoinSettings) : kucoinSettings :=
  MkSettings (orText (apiKeyVersion given) "2") (orNumber (publicQuota given) 2000)
    (orNumber (spotQuota given) 4000) (orNumber (managementQuota given) 2000).

Definition New (parse : url_parser) (given : kucoinSettings) (config : Config) : result error (Client kucoinSettings) :=
  let own := withDefaults given in
  newClient parse ExchangeKuCoin "KuCoin" rootOnly noPath (orText (config_BaseURL config) DefaultBaseURL)
    (require (bool_decide (apiKeyVersion own ∈ ["1"; "2"])) (Errorf "KuCoin API key version must be 1 or 2");;
     positive [publicQuota own; spotQuota own; managementQuota own] "KuCoin request quotas must be positive";;
     Ok own) config.

Definition SignHMACSHA256 : string → string → result error string :=
  signHMAC HMAC_SHA256 EncodeBase64 "KuCoin HMAC secret is required".
Definition signaturePayload (timestamp method endpoint body : string) : string :=
  timestamp +:+ ToUpperText method +:+ endpoint +:+ body.

(** The builder of both clients, from the key version and the request. *)
Definition signRequest (exchange apiKeyVersion accountID : string) (request : HTTPRequest)
    (method body : string) (call : callEnv) (material : SecretMaterial) : result error HTTPRequest :=
  let timestamp := pretty (UnixMilli (call_now call)) in
  require (negb (bool_decide (timestamp = "0") || HasPrefix timestamp "-"))
    (APIValidationError exchange "KuCoin timestamp must be after the Unix epoch");;
  signature ← signing exchange accountID (SignHMACSHA256 (secret_SecretKey material)
    (signaturePayload timestamp method (requestTarget (request_path request) (request_query request)) body));
  passphrase ← (if bool_decide (apiKeyVersion = "2")
                then signing exchange accountID
                       (SignHMACSHA256 (secret_SecretKey material) (secret_Passphrase material))
                else Ok (secret_Passphrase material));
  let request := Header_Set request "KC-API-KEY" (secret_APIKey material) in
  let request := Header_Set request "KC-API-SIGN" signature in
  let request := Header_Set request "KC-API-TIMESTAMP" timestamp in
  let request := Header_Set request "KC-API-PASSPHRASE" passphrase in
  Ok (Header_Set request "KC-API-KEY-VERSION" apiKeyVersion).

Definition newRequest (client : Client kucoinSettings) (method path : string) (query : Values) (body : string)
    : HTTPRequest := jsonRequest (client_baseURL client) method path (Encode query) body.

Definition sign (client : Client kucoinSettings) (arguments : privateRequest) (accountID : string)
    (call : callEnv) (material : SecretMaterial) : result error HTTPRequest :=
  signRequest ExchangeKuCoin (apiKeyVersion (settings client)) accountID
    (newRequest client (private_method arguments) (private_path arguments) (private_query arguments)
       (private_body arguments))
    (private_method arguments) (private_body arguments) call material.

Definition executePublic (now : Z) (client : Client kucoinSettings) (method path : string) (query : Values)
    (limit : EndpointLimits.KuCoin.endpointLimit) :=
  publicCall parseTime executor ExchangeKuCoin client
    (λ route limiter, EndpointLimits.KuCoin.rateLimitCharges limiter route "" limit
       (publicQuota (settings client)) (spotQuota (settings client)) (managementQuota (settings client)))
    (λ _ limit response limiter, EndpointLimits.KuCoin.observeRateLimit limiter now limit (resp_Header response))
    (λ _, Ok (newRequest client method path query "")).

Definition executePrivate (now : Z) (client : Client kucoinSettings) (arguments : privateRequest)
    (limit : EndpointLimits.KuCoin.endpointLimit) :=
  privateCall parseTime executor ExchangeKuCoin "KuCoin" client
    (λ route account limiter, EndpointLimits.KuCoin.rateLimitCharges limiter route account limit
       (publicQuota (settings client)) (spotQuota (settings client)) (managementQuota (settings client)))
    (λ _ _ limit response limiter, EndpointLimits.KuCoin.observeRateLimit limiter now limit (resp_Header response))
    "KuCoin API key, HMAC secret, and passphrase are required" true (sign client arguments) (private_permission arguments) (private_operation arguments).
End client.
End KuCoin.

Module KuCoinFutures.
Section client.
Context `{Library} (parseTime : string → option Z) (executor : Executor).

Record kucoinFuturesSettings : Type := MkSettings {
  apiKeyVersion : string;
  publicQuota : Z;
  futuresQuota : Z
}.
Definition DefaultBaseURL : string := "https://api-futures.kucoin.com".

Definition withDefaults (given : kucoinFuturesSettings) : kucoinFuturesSettings :=
  MkSettings (orText (apiKeyVersion given) "2") (orNumber (publicQuota given) 2000)
    (orNumber (futuresQuota given) 2000).

Definition New (parse : url_parser) (given : kucoinFuturesSettings) (config : Config)
    : result error (Client kucoinFuturesSettings) :=
  let own := withDefaults given in
  newClient parse ExchangeKuCoin "KuCoin Futures" rootOnly noPath (orText (config_BaseURL config) DefaultBaseURL)
    (require (bool_decide (apiKeyVersion own ∈ ["1"; "2"])) (Errorf "KuCoin Futures API key version must be 1 or 2");;
     positive [publicQuota own; futuresQuota own] "KuCoin Futures request quotas must be positive";;
     Ok own) config.

Definition newRequest (client : Client kucoinFuturesSettings) (method path : string) (query : Values)
    (body : string) : HTTPRequest := jsonRequest (client_baseURL client) method path (Encode query) body.

Definition sign (client : Client kucoinFuturesSettings) (arguments : privateRequest) (accountID : string)
    (call : callEnv) (material : SecretMaterial) : result error HTTPRequest :=
  KuCoin.signRequest ExchangeKuCoin (apiKeyVersion (settings client)) accountID
    (newRequest client (private_method arguments) (private_path arguments) (private_query arguments)
       (private_body arguments))
    (private_method arguments) (private_body arguments) call material.

Definition executePublic (now : Z) (client : Client kucoinFuturesSettings) (method path : string)
    (query : Values) (limit : EndpointLimits.KuCoinFutures.endpointLimit) :=
  publicCall parseTime executor ExchangeKuCoin client
    (λ route limiter, EndpointLimits.KuCoinFutures.rateLimitCharges limiter route "" limit
       (publicQuota (settings client)) (futuresQuota (settings client)))
    (λ _ limit response limiter,
       EndpointLimits.KuCoinFutures.observeRateLimit limiter now limit (resp_Header response))
    (λ _, Ok (newRequest client method path query "")).

Definition executePrivate (now : Z) (client : Client kucoinFuturesSettings) (arguments : privateRequest)
    (limit : EndpointLimits.KuCoinFutures.endpointLimit) :=
  privateCall parseTime executor ExchangeKuCoin "KuCoin Futures" client
    (λ route account limiter, EndpointLimits.KuCoinFutures.rateLimitCharges limiter route account limit
       (publicQuota (settings client)) (futuresQuota (settings client)))
    (λ _ _ limit response limiter,
       EndpointLimits.KuCoinFutures.observeRateLimit limiter now limit (resp_Header response))
    "KuCoin Futures API key, HMAC secret, and passphrase are required" true (sign client arguments) (private_permission arguments) (private_operation arguments).
End client.
End KuCoinFutures.

(** ** Gate.io: [exchange/gateio], and its futures client [exchange/gateio/futures] *)

Module GateIO.
Section client.
Context `{Library} (parseTime : string → option Z) (executor : Executor).

Record gateioSettings : Type := MkSettings {
  publicQuota : Z;
  privateQuota : Z;
  orderQuota : Z;
  cancelQuota : Z
}.
Definition DefaultBaseURL : string := "https://api.gateio.ws".
Definition apiPrefix : string := "/api/v4".

Definition withDefaults (given : gateioSettings) : gateioSettings :=
  MkSettings (orNumber (publicQuota given) 200) (orNumber (privateQuota given) 200)
    (orNumber (orderQuota given) 10) (orNumber (cancelQuota given) 200).

Definition checkQuotas (own : gateioSettings) : result error gateioSettings :=
  positive [publicQuota own; privateQuota own; orderQuota own; cancelQuota own]
    "Gate.io request quotas must be positive";;
  Ok own.

Definition New (parse : url_parser) (given : gateioSettings) (config : Config) : result error (Client gateioSettings) :=
  newClient parse ExchangeGateIO "Gate.io" rootOnly noPath (orText (config_BaseURL config) DefaultBaseURL)
    (checkQuotas (withDefaults given)) config.

Definition PayloadHash (body : string) : string := EncodeHex (SHA512 body).
Definition signaturePayload (method path rawQuery bodyHash timestamp : string) : string :=
  ToUpperText method +:+ newline +:+ path +:+ newline +:+ rawQuery +:+ newline +:+ bodyHash +:+ newline +:+ timestamp.
Definition SignHMACSHA512 : string → string → result error string :=
  signHMAC HMAC_SHA512 EncodeHex "Gate.io HMAC secret is empty".

Definition newRequest (client : Client gateioSettings) (method path : string) (query : Values) (body : string)
    : HTTPRequest := jsonRequest (client_baseURL client) method (apiPrefix +:+ path) (Encode query) body.

Definition sign (client : Client gateioSettings) (arguments : privateRequest) (accountID : string)
    (call : callEnv) (material : SecretMaterial) : result error HTTPRequest :=
  let request := newRequest client (private_method arguments) (private_path arguments)
                   (private_query arguments) (private_body arguments) in
  let timestamp := Unix (call_now call) in
  require (bool_decide (0 < timestamp))
    (APIValidationError ExchangeGateIO "Gate.io timestamp must be after the Unix epoch");;
  let timestampText := pretty timestamp in
  signature ← signing ExchangeGateIO accountID (SignHMACSHA512 (secret_SecretKey material)
    (signaturePayload (private_method arguments) (EscapedPath (request_path request)) (request_query request)
       (PayloadHash (private_body arguments)) timestampText));
  let request := Header_Set request "KEY" (secret_APIKey material) in
  let request := Header_Set request "Timestamp" timestampText in
  Ok (Header_Set request "SIGN" signature).

Definition executePublic (parseSeconds : string → option Z) (now : Z) (client : Client gateioSettings)
    (method path : string) (query : Values) (limit : EndpointLimits.GateIO.endpointLimit) :=
  publicCall parseTime executor ExchangeGateIO client
    (λ route limiter, EndpointLimits.GateIO.rateLimitCharges limiter route "" limit (publicQuota (settings client))
       (privateQuota (settings client)) (orderQuota (settings client)) (cancelQuota (settings client)))
    (λ _ limit response limiter,
       EndpointLimits.GateIO.observeRateLimit parseSeconds limiter limit (resp_Header response) now)
    (λ _, Ok (newRequest client method path query "")).

Definition executePrivate (parseSeconds : string → option Z) (now : Z) (client : Client gateioSettings)
    (arguments : privateRequest) (limit : EndpointLimits.GateIO.endpointLimit) :=
  privateCall parseTime executor ExchangeGateIO "Gate.io" client
    (λ route account limiter, EndpointLimits.GateIO.rateLimitCharges limiter route account limit
       (publicQuota (settings client)) (privateQuota (settings client)) (orderQuota (settings client))
       (cancelQuota (settings client)))
    (λ _ _ limit response limiter,
       EndpointLimits.GateIO.observeRateLimit parseSeconds limiter limit (resp_Header response) now)
    "Gate.io API key and HMAC secret are required" false (sign client arguments) (private_permission arguments) (private_operation arguments).
End client.
End GateIO.

Module GateIOFutures.
Section client.
Context `{Library} (parseTime : string → option Z) (executor : Executor).

Definition DefaultBaseURL : string := "https://api.gateio.ws".

(** The fields of the Spot client's settings, with another default for orders. *)
Definition withDefaults (given : GateIO.gateioSettings) : GateIO.gateioSettings :=
  GateIO.MkSettings (orNumber (GateIO.publicQuota given) 200) (orNumber (GateIO.privateQuota given) 200)
    (orNumber (GateIO.orderQuota given) 100) (orNumber (GateIO.cancelQuota given) 200).

Definition New (parse : url_parser) (given : GateIO.gateioSettings) (config : Config)
    : result error (Client GateIO.gateioSettings) :=
  newClient parse ExchangeGateIO "Gate.io Futures" rootOnly noPath (orText (config_BaseURL config) DefaultBaseURL)
    (GateIO.checkQuotas (withDefaults given)) config.

Definition executePublic (parseSeconds : string → option Z) (now : Z) (client : Client GateIO.gateioSettings)
    (method path : string) (query : Values) (limit : EndpointLimits.GateIOFutures.endpointLimit) :=
  publicCall parseTime executor ExchangeGateIO client
    (λ route limiter, EndpointLimits.GateIOFutures.rateLimitCharges limiter route "" limit
       (GateIO.publicQuota (settings client)) (GateIO.privateQuota (settings client))
       (GateIO.orderQuota (settings client)) (GateIO.cancelQuota (settings client)))
    (λ _ limit response limiter,
       EndpointLimits.GateIOFutures.observeRateLimit parseSeconds limiter limit (resp_Header response) now)
    (λ _, Ok (GateIO.newRequest client method path query "")).

(** The builder has the text of the Spot client's. *)
Definition executePrivate (parseSeconds : string → option Z) (now : Z) (client : Client GateIO.gateioSettings)
    (arguments : privateRequest) (limit : EndpointLimits.GateIOFutures.endpointLimit) :=
  privateCall parseTime executor ExchangeGateIO "Gate.io Futures" client
    (λ route account limiter, EndpointLimits.GateIOFutures.rateLimitCharges limiter route account limit
       (GateIO.publicQuota (settings client)) (GateIO.privateQuota (settings client))
       (GateIO.orderQuota (settings client)) (GateIO.cancelQuota (settings client)))
    (λ _ _ limit response limiter,
       EndpointLimits.GateIOFutures.observeRateLimit parseSeconds limiter limit (resp_Header response) now)
    "Gate.io Futures API key and HMAC secret are required" false (GateIO.sign client arguments) (private_permission arguments) (private_operation arguments).
End client.
End GateIOFutures.
