(* ===== verification/TokenClients.v ===== *)
(** * The REST clients with form, JWT and payload signatures

    Kraken and Kraken Futures sign with a decoded base64 secret and a nonce,
    Korbit with HMAC or Ed25519, Coinone and Crypto.com over their own payload,
    Upbit, Bithumb and Coinbase with a JSON web token.  One Module per client, as
    in [HMACClients]. *)

From S2P Require Import Prelude GoStrings Decimals Errors Options Credential RateLimit Executor Session.
From S2P Require Import ClientErrors SpotAdapter StreamClient EndpointLimits RestClient HMACClients.

(** ** Kraken: [exchange/kraken] *)

(** [nextNonce] of the two Kraken clients: the clock in milliseconds as an
    unsigned integer, or the successor of the last nonce. *)
Definition nextNonce (call : callEnv) : Z :=
  let candidate := uint64 (UnixMilli (call_now call)) in
  if bool_decide (candidate ≤ call_previousNonce call) then uint64 (call_previousNonce call + 1) else candidate.

Module Kraken.
Section client.
Context `{Library} (parseTime : string → option Z) (executor : Executor).

Record krakenSettings : Type := MkSettings {
  publicRequestsPerSecond : Z;
  privateCounterLimit : Z;
  privateCounterWindow : Z;
  tradingRequestsPerSecond : Z
}.
Definition DefaultBaseURL : string := "https://api.kraken.com".

Definition withDefaults (given : krakenSettings) : krakenSettings :=
  MkSettings (orNumber (publicRequestsPerSecond given) 1) (orNumber (privateCounterLimit given) 20)
    (orNumber (privateCounterWindow given) (40 * Second)) (orNumber (tradingRequestsPerSecond given) 1).

Definition New (parse : url_parser) (given : krakenSettings) (config : Config) : result error (Client krakenSettings) :=
  let own := withDefaults given in
  newClient parse ExchangeKraken "Kraken" rootOnly noPath (orText (config_BaseURL config) DefaultBaseURL)
    (require (bool_decide (1 ≤ publicRequestsPerSecond own ∧ 4 ≤ privateCounterLimit own ∧
                           Second ≤ privateCounterWindow own ∧ 1 ≤ tradingRequestsPerSecond own))
       (Errorf "Kraken request limits are invalid");;
     Ok own) config.

(** [strings.ContainsAny(path, "?#\r\n")]. *)
Definition forbidden (path : string) : bool :=
  negb (string_forall (λ c, negb (bool_decide (Ascii.N_of_ascii c ∈ [63; 35; 13; 10]%N))) path).

(** The secret is base64; the signature covers the path, the nonce and the
    encoded form. *)
Definition SignREST (path nonce encodedPayload encodedSecret : string) : result error string :=
  require (HasPrefix path "/0/private/" && negb (forbidden path)) (Errorf "Kraken private request path is invalid");;
  require (negb (blank nonce)) (Errorf "Kraken nonce is required");;
  match DecodeBase64 encodedSecret with
  | Err err => Err (Wrapf "decode Kraken API secret: %w" err)
  | Ok secret =>
      require (negb (bool_decide (secret = ""))) (Errorf "Kraken API secret is required");;
      Ok (EncodeBase64 (HMAC_SHA512 secret (path +:+ SHA256 (nonce +:+ encodedPayload))))
  end.

Definition newRequest (client : Client krakenSettings) (method path : string) (query : Values) (body : string)
    : HTTPRequest :=
  let request := NewRequest (client_baseURL client) method path (Encode query) body in
  let request := Header_Set request "Accept" "application/json" in
  let request := Header_Set request "User-Agent" "cex-sdk-go/0" in
  if bool_decide (method = "POST") then Header_Set request "Content-Type" "application/x-www-form-urlencoded"
  else request.

Definition sign (client : Client krakenSettings) (arguments : privateRequest) (accountID : string)
    (call : callEnv) (material : SecretMaterial) : result error HTTPRequest :=
  let nonce := pretty (nextNonce call) in
  let payload := Encode (Values_Set (private_query arguments) "nonce" nonce) in
  signature ← signing ExchangeKraken accountID
    (SignREST (private_path arguments) nonce payload (secret_SecretKey material));
  let request := newRequest client "POST" (private_path arguments) ∅ payload in
  let request := Header_Set request "API-Key" (secret_APIKey material) in
  Ok (Header_Set request "API-Sign" signature).

Definition limits (client : Client krakenSettings) (pair : string) (kind : EndpointLimits.Kraken.limitKind)
    (route account : string) (limiter : memoryBackend) : limiting (unit * list Charge) :=
  unobserved (EndpointLimits.Kraken.rateLimitCharges limiter route account pair kind
    (publicRequestsPerSecond (settings client)) (privateCounterLimit (settings client))
    (privateCounterWindow (settings client)) (tradingRequestsPerSecond (settings client))).

Definition executePublic (client : Client krakenSettings) (path : string) (query : Values) :=
  publicCall parseTime executor ExchangeKraken client
    (λ route, limits client "" EndpointLimits.Kraken.limitPublic route "")
    (λ _, ignoreAnswer) (λ _, Ok (newRequest client "GET" path query "")).

Definition executePrivate (client : Client krakenSettings) (arguments : privateRequest)
    (limit : EndpointLimits.Kraken.limitKind) (pair : string) :=
  privateCall parseTime executor ExchangeKraken "Kraken" client (limits client pair limit)
    (λ _ _, ignoreAnswer) "Kraken API key and Base64 secret are required" false (sign client arguments)
    (private_permission arguments) (private_operation arguments).
End client.
End Kraken.

(** ** Kraken Futures: [exchange/kraken/futures] *)

Module KrakenFutures.
Section client.
Context `{Library} (parseTime : string → option Z) (executor : Executor).

Record krakenFuturesSettings : Type := MkSettings {
  publicRequestsPerSecond : Z;
  derivativesPointLimit : Z;
  derivativesWindow : Z
}.
Definition DefaultBaseURL : string := "https://futures.kraken.com".

Definition withDefaults (given : krakenFuturesSettings) : krakenFuturesSettings :=
  MkSettings (orNumber (publicRequestsPerSecond given) 20) (orNumber (derivativesPointLimit given) 500)
    (orNumber (derivativesWindow given) (10 * Second)).

Definition New (parse : url_parser) (given : krakenFuturesSettings) (config : Config)
    : result error (Client krakenFuturesSettings) :=
  let own := withDefaults given in
  newClient parse ExchangeKraken "Kraken Futures" rootOnly noPath (orText (config_BaseURL config) DefaultBaseURL)
    (require (bool_decide (1 ≤ publicRequestsPerSecond own ∧ 25 ≤ derivativesPointLimit own ∧
                           Second ≤ derivativesWindow own))
       (Errorf "Kraken Futures request limits are invalid");;
     Ok own) config.

Definition SignAuthent (postData nonce endpointPath encodedSecret : string) : result error string :=
  require (HasPrefix endpointPath "/api/v3/" && negb (Kraken.forbidden endpointPath))
    (Errorf "Kraken Futures endpoint path is invalid");;
  require (negb (blank nonce)) (Errorf "Kraken Futures nonce is required");;
  match DecodeBase64 encodedSecret with
  | Err err => Err (Wrapf "decode Kraken Futures API secret: %w" err)
  | Ok secret =>
      require (negb (bool_decide (secret = ""))) (Errorf "Kraken Futures API secret is required");;
      Ok (EncodeBase64 (HMAC_SHA512 secret (SHA256 (postData +:+ nonce +:+ endpointPath))))
  end.

(** The parameters travel in the query, those of a POST as well. *)
Definition newRequest (client : Client krakenFuturesSettings) (method path : string) (query : Values) : HTTPRequest :=
  let request := NewRequest (client_baseURL client) method path (Encode query) "" in
  let request := Header_Set request "Accept" "application/json" in
  let request := Header_Set request "User-Agent" "cex-sdk-go/0" in
  if bool_decide (method = "POST") then Header_Set request "Content-Type" "application/x-www-form-urlencoded"
  else request.

Definition sign (client : Client krakenFuturesSettings) (arguments : privateRequest) (accountID : string)
    (call : callEnv) (material : SecretMaterial) : result error HTTPRequest :=
  let request := newRequest client (private_method arguments) (private_path arguments) (private_query arguments) in
  let nonce := pretty (nextNonce call) in
  let signingPath := TrimPrefix (private_path arguments) "/derivatives" in
  signature ← signing ExchangeKraken accountID
    (SignAuthent (request_query request) nonce signingPath (secret_SecretKey material));
  let request := Header_Set request "APIKey" (secret_APIKey material) in
  let request := Header_Set request "Authent" signature in
  Ok (Header_Set request "Nonce" nonce).

Definition executePublic (client : Client krakenFuturesSettings) (path : string) (query : Values) :=
  publicCall parseTime executor ExchangeKraken client
    (λ route limiter, unobserved (EndpointLimits.KrakenFutures.publicRateLimitCharges limiter route
       (publicRequestsPerSecond (settings client))))
    (λ _, ignoreAnswer) (λ _, Ok (newRequest client "GET" path query)).

Definition executePrivate (client : Client krakenFuturesSettings) (arguments : privateRequest) (cost : Z) :=
  privateCall parseTime executor ExchangeKraken "Kraken Futures" client
    (λ _ account limiter, unobserved (EndpointLimits.KrakenFutures.privateRateLimitCharges limiter account
       (derivativesPointLimit (settings client)) (derivativesWindow (settings client)) cost))
    (λ _ _, ignoreAnswer) "Kraken Futures API key and Base64 secret are required" false (sign client arguments)
    (private_permission arguments) (private_operation arguments).
End client.
End KrakenFutures.

(** ** Korbit: [exchange/korbit] *)

Module Korbit.
Section client.
Context `{Library} (parseTime : string → option Z) (executor : Executor).

Record korbitSettings : Type := MkSettings {
  signingMode : string;
  receiveWindow : Z;
  publicRequestsPerSecond : Z;
  privateRequestsPerSecond : Z;
  orderRequestsPerSecond : Z
}.
Definition DefaultBaseURL : string := "https://api.korbit.co.kr".

(** [SigningMode] is a Go string type. *)
Definition SigningModeHMACSHA256 : string := "HMAC-SHA256".
Definition SigningModeED25519 : string := "ED25519".

Definition withDefaults (given : korbitSettings) : korbitSettings :=
  MkSettings (orText (signingMode given) SigningModeHMACSHA256) (orNumber (receiveWindow given) 5000)
    (orNumber (publicRequestsPerSecond given) 50) (orNumber (privateRequestsPerSecond given) 50)
    (orNumber (orderRequestsPerSecond given) 30).

Definition New (parse : url_parser) (given : korbitSettings) (config : Config) : result error (Client korbitSettings) :=
  let own := withDefaults given in
  newClient parse ExchangeKorbit "Korbit" rootOnly noPath (orText (config_BaseURL config) DefaultBaseURL)
    (require (bool_decide (signingMode own ∈ [SigningModeHMACSHA256; SigningModeED25519]))
       (Errorf "unsupported Korbit signing mode %q");;
     require (bool_decide (1 ≤ receiveWindow own ≤ 60000))
       (Errorf "Korbit receive window must be between 1 and 60000 milliseconds");;
     positive [publicRequestsPerSecond own; privateRequestsPerSecond own; orderRequestsPerSecond own]
       "Korbit request limits must be positive";;
     Ok own) config.

Definition SignHMACSHA256 (secretKey encodedParameters : string) : result error string :=
  require (negb (bool_decide (secretKey = ""))) (Errorf "Korbit HMAC secret key is required");;
  require (negb (bool_decide (encodedParameters = ""))) (Errorf "Korbit signing input is required");;
  Ok (EncodeHex (HMAC_SHA256 secretKey encodedParameters)).

Definition SignED25519 (privateKeyPEM encodedParameters : string) : result error string :=
  require (negb (bool_decide (privateKeyPEM = ""))) (Errorf "Korbit ED25519 private key is required");;
  require (negb (bool_decide (encodedParameters = ""))) (Errorf "Korbit signing input is required");;
  signature ← SignEd25519 privateKeyPEM encodedParameters;
  Ok (EncodeBase64 signature).

Definition signParameters (mode secretKey encodedParameters : string) : result error string :=
  if bool_decide (mode = SigningModeHMACSHA256) then SignHMACSHA256 secretKey encodedParameters
  else if bool_decide (mode = SigningModeED25519) then SignED25519 secretKey encodedParameters
  else Err (Errorf "unsupported Korbit signing mode %q").

(** The parameters are the body of a POST and the query of the other methods. *)
Definition newRequest (client : Client korbitSettings) (method path encodedParameters : string) : HTTPRequest :=
  let post := bool_decide (method = "POST") in
  let request := NewRequest (client_baseURL client) method path
                   (if post then "" else encodedParameters) (if post then encodedParameters else "") in
  let request := Header_Set request "Accept" "application/json" in
  let request := Header_Set request "User-Agent" "cex-sdk-go/0" in
  if post then Header_Set request "Content-Type" "application/x-www-form-urlencoded" else request.

Definition sign (client : Client korbitSettings) (arguments : privateRequest) (accountID : string)
    (call : callEnv) (material : SecretMaterial) : result error HTTPRequest :=
  let timestamp := UnixMilli (call_now call) in
  require (bool_decide (0 < timestamp))
    (APIValidationError ExchangeKorbit "Korbit timestamp must be after the Unix epoch");;
  let finalParameters := Values_Set (private_query arguments) "timestamp" (pretty timestamp) in
  let finalParameters := Values_Set finalParameters "recvWindow" (pretty (receiveWindow (settings client))) in
  let unsigned := Encode finalParameters in
  signature ← signing ExchangeKorbit accountID
    (signParameters (signingMode (settings client)) (secret_SecretKey material) unsigned);
  let signed := unsigned +:+ "&signature=" +:+ QueryEscape signature in
  let request := newRequest client (private_method arguments) (private_path arguments) signed in
  Ok (Header_Set request "X-KAPI-KEY" (secret_APIKey material)).

Definition executePublic (now : Z) (client : Client korbitSettings) (path : string) (parameters : Values) :=
  publicCall parseTime executor ExchangeKorbit client
    (λ route limiter, EndpointLimits.Korbit.publicRateLimit limiter route (publicRequestsPerSecond (settings client)))
    (λ _ limit response limiter, EndpointLimits.Korbit.observeRateLimit limiter now limit (resp_Header response))
    (λ _, Ok (newRequest client "GET" path (Encode parameters))).

Definition executePrivate (now : Z) (client : Client korbitSettings) (arguments : privateRequest) (group : string) :=
  privateCall parseTime executor ExchangeKorbit "Korbit" client
    (λ _ account limiter, EndpointLimits.Korbit.privateRateLimit limiter account group
       (privateRequestsPerSecond (settings client)) (orderRequestsPerSecond (settings client)))
    (λ _ _ limit response limiter, EndpointLimits.Korbit.observeRateLimit limiter now limit (resp_Header response))
    "Korbit API key and signing key are required" false (sign client arguments) (private_permission arguments) (private_operation arguments).
End client.
End Korbit.

(** ** Coinone: [exchange/coinone] *)

Module Coinone.
Section client.
Context `{Library} (parseTime : string → option Z) (executor : Executor).

Record coinoneSettings : Type := MkSettings {
  publicRequestsPerMinute : Z;
  privateRequestsPerSecond : Z;
  orderRequestsPerSecond : Z
}.
Definition DefaultBaseURL : string := "https://api.coinone.co.kr".

Definition withDefaults (given : coinoneSettings) : coinoneSettings :=
  MkSettings (orNumber (publicRequestsPerMinute given) 1200) (orNumber (privateRequestsPerSecond given) 80)
    (orNumber (orderRequestsPerSecond given) 40).

Definition New (parse : url_parser) (given : coinoneSettings) (config : Config) : result error (Client coinoneSettings) :=
  let own := withDefaults given in
  newClient parse ExchangeCoinone "Coinone" rootOnly noPath (orText (config_BaseURL config) DefaultBaseURL)
    (positive [publicRequestsPerMinute own; privateRequestsPerSecond own; orderRequestsPerSecond own]
       "Coinone request limits must be positive";;
     Ok own) config.

(** [payloadField] of [payload.go]: the key and the JSON text of the value. *)
Record payloadField : Type := MkPayloadField { field_key : string; field_value : string }.

(** [encodePrivatePayload]; [jsonText] is [json.Marshal] of a text. *)
Definition encodeField (jsonText : string → string) (field : payloadField) : string :=
  jsonText (field_key field) +:+ ":" +:+ field_value field.

Definition encodePrivatePayload (jsonText : string → string) (accessToken nonce : string)
    (fields : list payloadField) : result error string :=
  require (negb (bool_decide (accessToken = ""))) (Errorf "Coinone access token is required");;
  require (negb (bool_decide (nonce = ""))) (Errorf "Coinone nonce is required");;
  let allFields := [MkPayloadField "access_token" (jsonText accessToken); MkPayloadField "nonce" (jsonText nonce)]
                   ++ fields in
  Ok ("{" +:+ Join (encodeField jsonText <$> allFields) "," +:+ "}").

Definition SignPayload (secretKey body : string) : result error (string * string) :=
  require (negb (bool_decide (secretKey = ""))) (Errorf "Coinone secret key is required");;
  require (negb (bool_decide (body = ""))) (Errorf "Coinone payload body is required");;
  let encoded := EncodeBase64 body in
  Ok (encoded, EncodeHex (HMAC_SHA512 secretKey encoded)).

Definition newRequest (client : Client coinoneSettings) (method path : string) (query : Values) (body : string)
    : HTTPRequest := jsonRequest (client_baseURL client) method path (Encode query) body.

Definition sign (jsonText : string → string) (client : Client coinoneSettings) (path : string)
    (fields : list payloadField) (accountID : string) (call : callEnv) (material : SecretMaterial)
    : result error HTTPRequest :=
  nonce ← call_nonce call;
  privateBody ← encodePrivatePayload jsonText (secret_APIKey material) nonce fields;
  signed ← SignPayload (secret_SecretKey material) privateBody;
  let request := newRequest client "POST" path ∅ privateBody in
  let request := Header_Set request "X-COINONE-PAYLOAD" signed.1 in
  Ok (Header_Set request "X-COINONE-SIGNATURE" signed.2).

Definition executePublic (now : Z) (client : Client coinoneSettings) (path : string) (query : Values) :=
  publicCall parseTime executor ExchangeCoinone client
    (λ route limiter, EndpointLimits.Coinone.publicRateLimit limiter route (publicRequestsPerMinute (settings client)))
    (λ _ limit response limiter, EndpointLimits.Coinone.observeRateLimit limiter now limit (resp_Header response))
    (λ _, Ok (newRequest client "GET" path query "")).

Definition executePrivate (jsonText : string → string) (now : Z) (client : Client coinoneSettings)
    (path : string) (fields : list payloadField) (order : bool) (permission : string) (operation : Z) :=
  privateCall parseTime executor ExchangeCoinone "Coinone" client
    (λ _ account limiter, EndpointLimits.Coinone.privateRateLimit limiter account order
       (privateRequestsPerSecond (settings client)) (orderRequestsPerSecond (settings client)))
    (λ _ _ limit response limiter, EndpointLimits.Coinone.observeRateLimit limiter now limit (resp_Header response))
    "Coinone access token and secret key are required" false (sign jsonText client path fields) permission operation.
End client.
End Coinone.

(** ** Crypto.com: [exchange/cryptocom/client.go], [private_client.go] *)

(** The values that request parameters are made of; [UnsupportedParameter] is a
    value of any other Go type.  The keys of an object are distinct. *)
Inductive parameter : Type :=
  | NullParameter
  | BoolParameter (b : bool)
  | TextParameter (text : string)
  | TextsParameter (texts : list string)
  | ListParameter (items : list parameter)
  | ObjectParameter (members : list (string * parameter))
  | UnsupportedParameter.

Module CryptoCom.
Section client.
Context `{Library} (parseTime : string → option Z) (executor : Executor).

Record cryptoComSettings : Type := MkSettings {
  publicRequestsPerSecond : Z;
  orderRequestsPer100Milliseconds : Z;
  orderDetailRequestsPer100Milliseconds : Z;
  historyRequestsPerSecond : Z;
  otherPrivateRequestsPer100Milliseconds : Z
}.
Definition DefaultBaseURL : string := "https://api.crypto.com/exchange/v1".

Definition withDefaults (given : cryptoComSettings) : cryptoComSettings :=
  MkSettings (orNumber (publicRequestsPerSecond given) 100) (orNumber (orderRequestsPer100Milliseconds given) 15)
    (orNumber (orderDetailRequestsPer100Milliseconds given) 30) (orNumber (historyRequestsPerSecond given) 1)
    (orNumber (otherPrivateRequestsPer100Milliseconds given) 3).

(** [path.Clean] of the elements of a path. *)
Fixpoint cleanElements (rooted : bool) (elements kept : list string) : list string :=
  match elements with
  | [] => reverse kept
  | element :: elements =>
      if bool_decide (element = "") || bool_decide (element = ".") then cleanElements rooted elements kept
      else if bool_decide (element = "..") then
        match kept with
        | last :: others =>
            if bool_decide (last = "..") then cleanElements rooted elements (".." :: kept)
            else cleanElements rooted elements others
        | [] => cleanElements rooted elements (if rooted then [] else [".."])
        end
      else cleanElements rooted elements (element :: kept)
  end.

Definition pathClean (path : string) : string :=
  let rooted := HasPrefix path "/" in
  let cleaned := (if rooted then "/" else "") +:+ Join (cleanElements rooted (Split (byte 47) path) []) "/" in
  if bool_decide (cleaned = "") then "." else cleaned.

Example pathClean_runs : pathClean "/exchange//v1/../v1/" = "/exchange/v1" ∧ pathClean "" = ".".
Proof. by vm_compute. Qed.

Definition cleanPath (path : string) : result error string :=
  let cleaned := pathClean (TrimSpace path) in
  let cleaned := if bool_decide (cleaned = ".") || bool_decide (cleaned = "/") then "" else cleaned in
  require (bool_decide (cleaned = "") || bool_decide (cleaned = "/exchange/v1"))
    (Errorf "invalid Crypto.com base URL path %q");;
  Ok (TrimRightSlashes cleaned).

Definition within (quota most : Z) : bool := bool_decide (1 ≤ quota ≤ most).

Definition New (parse : url_parser) (given : cryptoComSettings) (config : Config)
    : result error (Client cryptoComSettings) :=
  let own := withDefaults given in
  newClient parse ExchangeCryptoCom "Crypto.com" (λ _, true) cleanPath
    (orText (TrimSpace (config_BaseURL config)) DefaultBaseURL)
    (require (within (publicRequestsPerSecond own) 100) (Errorf "Crypto.com public request quota must be between 1 and 100");;
     require (within (orderRequestsPer100Milliseconds own) 15 && within (orderDetailRequestsPer100Milliseconds own) 30 &&
              within (historyRequestsPerSecond own) 1 && within (otherPrivateRequestsPer100Milliseconds own) 3)
       (Errorf "Crypto.com private request quotas exceed official limits");;
     Ok own) config.

Definition maximumParameterDepth : Z := 32.

(** [appendParameterValue]: the members of an object in the order of their keys,
    the first error in that order. *)
Definition member_le (m n : string * result error string) : Prop := string_le m.1 n.1.

#[local] Instance member_le_dec : RelDecision member_le.
Proof. intros m n. unfold member_le, string_le. apply _. Defined.

Fixpoint concatResults (results : list (result error string)) : result error string :=
  match results with
  | [] => Ok ""
  | r :: results => text ← r; rest ← concatResults results; Ok (text +:+ rest)
  end.

Definition memberText (member : string * result error string) : result error string :=
  text ← member.2; Ok (member.1 +:+ text).

Fixpoint appendParameterValue (value : parameter) (depth : Z) : result error string :=
  if bool_decide (maximumParameterDepth < depth) then
    Err (Errorf "Crypto.com signing parameters exceed maximum nesting depth")
  else
    match value with
    | NullParameter => Ok "null"
    | BoolParameter b => Ok (if b then "true" else "false")
    | TextParameter text => Ok text
    | TextsParameter texts => Ok (foldr String.append "" texts)
    | ListParameter items => concatResults ((λ item, appendParameterValue item (depth + 1)) <$> items)
    | ObjectParameter members =>
        concatResults (memberText <$> merge_sort member_le
          ((λ member, (member.1, appendParameterValue member.2 (depth + 1))) <$> members))
    | UnsupportedParameter => Err (Errorf "unsupported Crypto.com signing parameter type %T")
    end.

Definition ParamsString (params : list (string * parameter)) : result error string :=
  appendParameterValue (ObjectParameter params) 0.

(** [clonePrivateParams]: the copy is the value, when its depth and its types
    allow it. *)
Fixpoint clonePrivateParameterValue (value : parameter) (depth : Z) : result error unit :=
  if bool_decide (maximumParameterDepth < depth) then
    Err (Errorf "Crypto.com private parameters exceed maximum nesting depth")
  else
    match value with
    | ListParameter items =>
        foldr (λ item r, clonePrivateParameterValue item (depth + 1);; r) (Ok tt) items
    | ObjectParameter members =>
        foldr (λ member r, clonePrivateParameterValue member.2 (depth + 1);; r) (Ok tt) members
    | UnsupportedParameter => Err (Errorf "unsupported Crypto.com private parameter type %T")
    | _ => Ok tt
    end.

(** [strconv.ParseUint(value, 10, 63)]. *)
Definition validateUnsignedIntegerString (value : string) (allowZero : bool) : result error unit :=
  require (negb (bool_decide (value = "") || negb (bool_decide (TrimSpace value = value))))
    (Errorf "integer string is empty or padded");;
  require (nonempty_digits value && bool_decide (digits_value 0 value < 2 ^ 63)) (Errorf "invalid integer");;
  require (allowZero || negb (bool_decide (digits_value 0 value = 0))) (Errorf "integer must be positive").

Definition Sign (method id apiKey : string) (params : list (string * parameter)) (nonce secret : string)
    : result error string :=
  require (negb (blank method || bool_decide (apiKey = "") || bool_decide (secret = "")))
    (Errorf "Crypto.com signing method, API key, and secret are required");;
  labelled "invalid Crypto.com request ID: %w" (validateUnsignedIntegerString id true);;
  labelled "invalid Crypto.com nonce: %w" (validateUnsignedIntegerString nonce false);;
  parameterString ← ParamsString params;
  Ok (EncodeHex (HMAC_SHA256 secret (method +:+ id +:+ apiKey +:+ parameterString +:+ nonce))).

Definition endpointPath (client : Client cryptoComSettings) (method : string) : string :=
  TrimRightSlashes (Path (client_baseURL client)) +:+ "/" +:+ TrimLeftSlashes method.

(** [marshal] is [json.Marshal] of a [privateRequestEnvelope]. *)
Record privateRequestEnvelope : Type := MkEnvelope {
  ID : string;
  Method : string;
  APIKey : string;
  Params : list (string * parameter);
  Nonce : string;
  Sig : string
}.

Definition newRequest (client : Client cryptoComSettings) (method : string) (query : Values) : HTTPRequest :=
  jsonRequest (client_baseURL client) "GET" (endpointPath client method) (Encode query) "".
Definition newPrivateRequest (client : Client cryptoComSettings) (method body : string) : HTTPRequest :=
  jsonRequest (client_baseURL client) "POST" (endpointPath client method) "" body.

Definition sign (marshal : privateRequestEnvelope → result error string) (client : Client cryptoComSettings)
    (method requestID : string) (params : list (string * parameter)) (accountID : string)
    (call : callEnv) (material : SecretMaterial) : result error HTTPRequest :=
  let nonceValue := UnixMilli (call_now call) in
  require (bool_decide (0 < nonceValue))
    (APIValidationError ExchangeCryptoCom "Crypto.com nonce must be after the Unix epoch");;
  let nonce := pretty nonceValue in
  match Sign method requestID (secret_APIKey material) params nonce (secret_SecretKey material) with
  | Err err => Err (accountError ExchangeCryptoCom ErrorInternal accountID err)
  | Ok signature =>
      match marshal (MkEnvelope requestID method (secret_APIKey material) params nonce signature) with
      | Err err => Err (Wrapf "encode Crypto.com private request: %w" err)
      | Ok body => Ok (newPrivateRequest client method body)
      end
  end.

Definition executePublic (client : Client cryptoComSettings) (method : string) (query : Values) :=
  publicCall parseTime executor ExchangeCryptoCom client
    (λ route limiter, unobserved (EndpointLimits.CryptoCom.publicRateLimit limiter route (TrimPrefix method "public/")
       (publicRequestsPerSecond (settings client))))
    (λ _, ignoreAnswer) (λ _, Ok (newRequest client method query)).

(** The limits, then the copy of the parameters and the next request ID, whose
    failures also end the call before the pipeline. *)
Definition prepare (client : Client cryptoComSettings) (method : string) (requestIDValue : Z)
    (params : list (string * parameter)) (account : string) (limiter : memoryBackend) : limiting (unit * list Charge) :=
  match EndpointLimits.CryptoCom.privateRateLimit limiter account (TrimPrefix method "private/")
          (orderRequestsPer100Milliseconds (settings client))
          (orderDetailRequestsPer100Milliseconds (settings client))
          (historyRequestsPerSecond (settings client))
          (otherPrivateRequestsPer100Milliseconds (settings client)) with
  | (limiter, Err err) => (limiter, Err err)
  | (limiter, Ok charges) =>
      match clonePrivateParameterValue (ObjectParameter params) 0 with
      | Err err => (limiter, Err (accountError ExchangeCryptoCom ErrorInternal account err))
      | Ok _ =>
          if bool_decide (requestIDValue ≤ 0) then
            (limiter, Err (accountError ExchangeCryptoCom ErrorInternal account
                             (Errorf "Crypto.com request ID space is exhausted")))
          else (limiter, Ok (tt, charges))
      end
  end.

Definition executePrivate (marshal : privateRequestEnvelope → result error string)
    (client : Client cryptoComSettings) (method : string) (requestIDValue : Z)
    (params : list (string * parameter)) (permission : string) (operation : Z) :=
  privateCall parseTime executor ExchangeCryptoCom "Crypto.com" client
    (λ _, prepare client method requestIDValue params) (λ _ _, ignoreAnswer)
    "Crypto.com API key and HMAC secret are required" false (sign marshal client method (pretty requestIDValue) params) permission operation.
End client.
End CryptoCom.

(** ** Upbit: [exchange/upbit] *)

(** [parameters] of Upbit and Bithumb: the parameters in their order. *)
Abbreviation parameters := (list (string * string)).

(** [parameters.encoded] of the two packages. *)
Definition encoded (values : parameters) : string :=
  Join ((λ value, ReplaceAll (QueryEscape value.1) "%5B%5D" "[]" +:+ "=" +:+ QueryEscape value.2) <$> values) "&".

(** The members of a JWT's claims that name the query. *)
Definition queryMembers (query : string) (hash : string → string) : list (string * field) :=
  if bool_decide (query = "") then []
  else [("query_hash", FieldText (hash query)); ("query_hash_alg", FieldText "SHA512")].

Module Upbit.
Section client.
Context `{Library} (parseTime : string → option Z) (executor : Executor).

Definition DefaultBaseURL : string := "https://api.upbit.com".

Definition New (parse : url_parser) (config : Config) : result error (Client unit) :=
  newClient parse ExchangeUpbit "Upbit" rootOnly noPath (orText (config_BaseURL config) DefaultBaseURL) (Ok tt) config.

Definition hashString (values : parameters) : result error string :=
  match PathUnescape (encoded values) with
  | Some decoded => Ok decoded
  | None => Err (Wrapf "decode Upbit query hash input: %w" (Errorf "invalid URL escape"))
  end.

(** [jwtHeader] is the encoding of this text. *)
Definition jwtHeaderText : string :=
  "{" +:+ quote +:+ "alg" +:+ quote +:+ ":" +:+ quote +:+ "HS512" +:+ quote +:+ "," +:+
  quote +:+ "typ" +:+ quote +:+ ":" +:+ quote +:+ "JWT" +:+ quote +:+ "}".
Definition QueryHash (query : string) : string := EncodeHex (SHA512 query).

Definition SignJWT (accessKey secretKey nonce query : string) : result error string :=
  require (negb (bool_decide (accessKey = "") || bool_decide (secretKey = "")))
    (Errorf "Upbit access key and secret key are required");;
  require (negb (bool_decide (nonce = ""))) (Errorf "Upbit JWT nonce is required");;
  let payload := MarshalFields ([("access_key", FieldText accessKey); ("nonce", FieldText nonce)]
                                ++ queryMembers query QueryHash) in
  let unsigned := EncodeRawURLBase64 jwtHeaderText +:+ "." +:+ EncodeRawURLBase64 payload in
  Ok (unsigned +:+ "." +:+ EncodeRawURLBase64 (HMAC_SHA512 secretKey unsigned)).

Definition newRequest (client : Client unit) (method path : string) (query : parameters) (body : string)
    : HTTPRequest := jsonRequest (client_baseURL client) method path (encoded query) body.

Definition sign (client : Client unit) (method path : string) (params : parameters) (body accountID : string)
    (call : callEnv) (material : SecretMaterial) : result error HTTPRequest :=
  nonce ← call_nonce call;
  hashInput ← hashString params;
  token ← SignJWT (secret_APIKey material) (secret_SecretKey material) nonce hashInput;
  let query := if bool_decide (method = "POST") then [] else params in
  Ok (Header_Set (newRequest client method path query body) "Authorization" ("Bearer " +:+ token)).

Definition executePublic (now : Z) (client : Client unit) (path : string) (query : parameters)
    (group : EndpointLimits.Upbit.rateGroup) :=
  publicCall parseTime executor ExchangeUpbit client
    (λ route limiter, let r := EndpointLimits.Upbit.rateLimitCharges limiter route "" group in
       (r.1, charged ← r.2; Ok (charged.2, charged.1)))
    (λ _ rateKey response limiter,
       EndpointLimits.Upbit.observeRemaining limiter now rateKey group (resp_Header response))
    (λ _, Ok (newRequest client "GET" path query "")).

Definition executeSigned (now : Z) (client : Client unit) (method path : string) (params : parameters)
    (body : string) (group : EndpointLimits.Upbit.rateGroup) (permission : string) (operation : Z) :=
  privateCall parseTime executor ExchangeUpbit "Upbit" client
    (λ route account limiter, let r := EndpointLimits.Upbit.rateLimitCharges limiter route account group in
       (r.1, charged ← r.2; Ok (charged.2, charged.1)))
    (λ _ _ rateKey response limiter,
       EndpointLimits.Upbit.observeRemaining limiter now rateKey group (resp_Header response))
    "Upbit access key and secret key are required" false (sign client method path params body) permission operation.
End client.
End Upbit.

(** ** Bithumb: [exchange/bithumb] *)

Module Bithumb.
Section client.
Context `{Library} (parseTime : string → option Z) (executor : Executor).

Record bithumbSettings : Type := MkSettings {
  publicRequestsPerSecond : Z;
  privateRequestsPerSecond : Z;
  orderRequestsPerSecond : Z
}.
Definition DefaultBaseURL : string := "https://api.bithumb.com".

Definition withDefaults (given : bithumbSettings) : bithumbSettings :=
  MkSettings (orNumber (publicRequestsPerSecond given) 150) (orNumber (privateRequestsPerSecond given) 140)
    (orNumber (orderRequestsPerSecond given) 140).

Definition New (parse : url_parser) (given : bithumbSettings) (config : Config) : result error (Client bithumbSettings) :=
  let own := withDefaults given in
  newClient parse ExchangeBithumb "Bithumb" rootOnly noPath (orText (config_BaseURL config) DefaultBaseURL)
    (positive [publicRequestsPerSecond own; privateRequestsPerSecond own; orderRequestsPerSecond own]
       "Bithumb request limits must be positive";;
     Ok own) config.

Definition hashString (values : parameters) : string :=
  Join ((λ value, value.1 +:+ "=" +:+ value.2) <$> values) "&".

Definition jwtHeaderText : string :=
  "{" +:+ quote +:+ "alg" +:+ quote +:+ ":" +:+ quote +:+ "HS256" +:+ quote +:+ "," +:+
  quote +:+ "typ" +:+ quote +:+ ":" +:+ quote +:+ "JWT" +:+ quote +:+ "}".
Definition QueryHash (query : string) : string := EncodeHex (SHA512 query).

Definition SignJWT (accessKey secretKey nonce : string) (timestamp : Z) (query : string) : result error string :=
  require (negb (bool_decide (accessKey = "") || bool_decide (secretKey = "")))
    (Errorf "Bithumb access key and secret key are required");;
  require (negb (bool_decide (nonce = ""))) (Errorf "Bithumb JWT nonce is required");;
  require (bool_decide (0 < timestamp)) (Errorf "Bithumb JWT timestamp must be positive");;
  let payload := MarshalFields ([("access_key", FieldText accessKey); ("nonce", FieldText nonce);
                                 ("timestamp", FieldInteger timestamp)] ++ queryMembers query QueryHash) in
  let unsigned := EncodeRawURLBase64 jwtHeaderText +:+ "." +:+ EncodeRawURLBase64 payload in
  Ok (unsigned +:+ "." +:+ EncodeRawURLBase64 (HMAC_SHA256 secretKey unsigned)).

Definition newRequest (client : Client bithumbSettings) (method path : string) (query : parameters)
    (body : string) : HTTPRequest := jsonRequest (client_baseURL client) method path (encoded query) body.

Definition sign (client : Client bithumbSettings) (method path : string) (params : parameters)
    (body accountID : string) (call : callEnv) (material : SecretMaterial) : result error HTTPRequest :=
  nonce ← call_nonce call;
  token ← SignJWT (secret_APIKey material) (secret_SecretKey material) nonce (UnixMilli (call_now call))
            (hashString params);
  let query := if bool_decide (method = "POST") then [] else params in
  Ok (Header_Set (newRequest client method path query body) "Authorization" ("Bearer " +:+ token)).

Definition executePublic (client : Client bithumbSettings) (path : string) (query : parameters) (group : string) :=
  publicCall parseTime executor ExchangeBithumb client
    (λ route limiter, unobserved (EndpointLimits.Bithumb.rateLimitCharges limiter route group
       (publicRequestsPerSecond (settings client))))
    (λ _, ignoreAnswer) (λ _, Ok (newRequest client "GET" path query "")).

Definition executePrivate (client : Client bithumbSettings) (method path : string) (params : parameters)
    (body group permission : string) (operation : Z) :=
  let limit := if bool_decide (group = EndpointLimits.Bithumb.rateLimitOrderCreate ∨
                               group = EndpointLimits.Bithumb.rateLimitOrderCancel)
               then orderRequestsPerSecond (settings client) else privateRequestsPerSecond (settings client) in
  privateCall parseTime executor ExchangeBithumb "Bithumb" client
    (λ route _ limiter, unobserved (EndpointLimits.Bithumb.rateLimitCharges limiter route group limit))
    (λ _ _, ignoreAnswer) "Bithumb access key and secret key are required" false (sign client method path params body) permission operation.
End client.
End Bithumb.

(** ** Coinbase: [exchange/coinbase] *)

Module Coinbase.
Section client.
Context `{Library} (parseTime : string → option Z) (executor : Executor).

Record coinbaseSettings : Type := MkSettings { publicRequestsPerSecond : Z; privateRequestsPerSecond : Z }.
Definition DefaultBaseURL : string := "https://api.coinbase.com".
Definition jwtLifetime : Z := 2 * Minute.

Definition withDefaults (given : coinbaseSettings) : coinbaseSettings :=
  MkSettings (orNumber (publicRequestsPerSecond given) 10) (orNumber (privateRequestsPerSecond given) 10).

Definition New (parse : url_parser) (given : coinbaseSettings) (config : Config) : result error (Client coinbaseSettings) :=
  let own := withDefaults given in
  newClient parse ExchangeCoinbase "Coinbase" rootOnly noPath (orText (config_BaseURL config) DefaultBaseURL)
    (positive [publicRequestsPerSecond own; privateRequestsPerSecond own] "Coinbase request limits must be positive";;
     Ok own) config.

Definition containsAny (codes : list N) (s : string) : bool :=
  negb (string_forall (λ c, negb (bool_decide (Ascii.N_of_ascii c ∈ codes))) s).

(** [parseECPrivateKey]: escaped line ends are restored, then the PEM and X.509
    packages read a key on P-256. *)
Definition parseECPrivateKey (privateKeyPEM : string) : result error string :=
  let newline := String (byte 10) "" in
  ParseP256Key (if Contains privateKeyPEM newline then privateKeyPEM
                else ReplaceAll privateKeyPEM (String (byte 92) "n") newline).

(** [nonce] are the random bytes in hexadecimal. *)
Definition signJWT (keyName privateKeyPEM : string) (now : Z) (nonce : result error string) (uri : string)
    : result error string :=
  require (negb (blank keyName)) (Errorf "Coinbase API key name is required");;
  key ← parseECPrivateKey privateKeyPEM;
  nonce ← nonce;
  let header := MarshalFields [("alg", FieldText "ES256"); ("kid", FieldText keyName); ("nonce", FieldText nonce);
                               ("typ", FieldText "JWT")] in
  let claims := MarshalFields ([("sub", FieldText keyName); ("iss", FieldText "cdp");
                                ("nbf", FieldInteger (Unix now)); ("exp", FieldInteger (Unix (now + jwtLifetime)))]
                               ++ (if bool_decide (uri = "") then [] else [("uri", FieldText uri)])) in
  let signingInput := EncodeRawURLBase64 header +:+ "." +:+ EncodeRawURLBase64 claims in
  signature ← SignES256 key signingInput;
  Ok (signingInput +:+ "." +:+ EncodeRawURLBase64 signature).

Definition SignRESTJWT (keyName method host path privateKeyPEM : string) (now : Z) (nonce : result error string)
    : result error string :=
  let method := ToUpperText (TrimSpace method) in
  require (negb (bool_decide (method = "") || containsAny [32; 9; 13; 10]%N method))
    (Errorf "Coinbase JWT request method is invalid");;
  let host := TrimSpace host in
  require (negb (bool_decide (host = "") || containsAny [32; 47; 9; 13; 10]%N host))
    (Errorf "Coinbase JWT request host is invalid");;
  require (HasPrefix path "/" && negb (containsAny [63; 35; 13; 10]%N path))
    (Errorf "Coinbase JWT request path is invalid");;
  signJWT keyName privateKeyPEM now nonce (method +:+ " " +:+ host +:+ path).

Definition newRequest (client : Client coinbaseSettings) (method path : string) (query : Values) (body : string)
    : HTTPRequest := jsonRequest (client_baseURL client) method path (Encode query) body.

Definition sign (client : Client coinbaseSettings) (arguments : privateRequest) (accountID : string)
    (call : callEnv) (material : SecretMaterial) : result error HTTPRequest :=
  let request := newRequest client (private_method arguments) (private_path arguments)
                   (private_query arguments) (private_body arguments) in
  token ← signing ExchangeCoinbase accountID
    (SignRESTJWT (secret_APIKey material) (private_method arguments) (Host (client_baseURL client))
       (private_path arguments) (secret_SecretKey material) (call_now call) (call_nonce call));
  Ok (Header_Set request "Authorization" ("Bearer " +:+ token)).

Definition executePublic (client : Client coinbaseSettings) (method path : string) (query : Values) :=
  publicCall parseTime executor ExchangeCoinbase client
    (λ route limiter, unobserved (EndpointLimits.Coinbase.rateLimitCharges limiter route "" false
       (publicRequestsPerSecond (settings client)) (privateRequestsPerSecond (settings client))))
    (λ _, ignoreAnswer)
    (λ _, Ok (Header_Set (newRequest client method path query "") "Cache-Control" "no-cache")).

Definition executePrivate (client : Client coinbaseSettings) (arguments : privateRequest) :=
  privateCall parseTime executor ExchangeCoinbase "Coinbase" client
    (λ route account limiter, unobserved (EndpointLimits.Coinbase.rateLimitCharges limiter route account true
       (publicRequestsPerSecond (settings client)) (privateRequestsPerSecond (settings client))))
    (λ _ _, ignoreAnswer) "Coinbase API key name and EC private key are required" false (sign client arguments)
    (private_permission arguments) (private_operation arguments).
End client.
End Coinbase.
