(* ===== verification/RestSafety.v ===== *)
(** * The private requests of the REST clients

    What every client guarantees of the requests that need an account: they
    leave only for an account that may make them, through a route it may use, and
    the signature they carry is the one the exchange computes from the request
    that it receives.  A client is an instance of [SignedClient]: its private
    call is the template of [RestClient], and its law relates its builder to the
    exchange's check. *)

From S2P Require Import Prelude GoStrings Decimals Errors Options Credential RateLimit Executor Session.
From S2P Require Import ClientErrors SpotAdapter StreamClient EndpointLimits RestClient HMACClients TokenClients.

(** ** The pipeline sends what the builder builds *)

Section sends.
Context (parseTime : string → option Z) (executor : Executor).

Lemma executeAttempt_sent execution attempt env backend backend' events r route request :
  executeAttempt parseTime executor execution attempt env backend = (backend', events, r) →
  Sent route request ∈ events →
  route = exec_EgressRouteID execution ∧ env_build env = Ok (Some request).
Proof.
  unfold executeAttempt, receive, observe, applyRetryAfter. intros Hrun Hin.
  repeat (case_match; simplify_eq/=); set_solver.
Qed.

Lemma waitBeforeRetry_sent env attempt events r route request :
  waitBeforeRetry executor env attempt = (events, r) → Sent route request ∉ events.
Proof. unfold waitBeforeRetry. intros Hrun. repeat (case_match; simplify_eq/=); set_solver. Qed.

Lemma executeLoop_sent execution envs remaining attempt backend backend' events r route request :
  executeLoop parseTime executor execution envs remaining attempt backend = (backend', events, r) →
  Sent route request ∈ events →
  route = exec_EgressRouteID execution ∧ ∃ k, env_build (envs k) = Ok (Some request).
Proof.
  revert attempt backend backend' events r. induction remaining as [|n IH];
    intros attempt backend backend' events r Hrun Hin; simpl in Hrun; [simplify_eq; set_solver|].
  destruct (executeAttempt _ _ _ _ _ _) as [[b es] res] eqn:Ha.
  assert (Hfirst : Sent route request ∈ es →
    route = exec_EgressRouteID execution ∧ ∃ k, env_build (envs k) = Ok (Some request)).
  { intros H. eapply executeAttempt_sent in Ha as [-> Hb]; [|exact H]. eauto. }
  destruct res as [[[response retry] err]| |]; [|simplify_eq; auto..].
  destruct (negb retry || _); [simplify_eq; auto|].
  destruct (waitBeforeRetry _ _ _) as [slept w] eqn:Hw.
  pose proof (waitBeforeRetry_sent _ _ _ _ route request Hw).
  destruct w as [[werr|]| |]; [| |simplify_eq; set_solver..].
  - simplify_eq. apply elem_of_app in Hin as [?|?]; [auto|set_solver].
  - destruct (executeLoop _ _ _ _ _ _ _) as [[b' es'] r'] eqn:Hloop. simplify_eq.
    rewrite !elem_of_app in Hin. destruct Hin as [?|[?|?]]; [auto|done|eauto].
Qed.

Lemma Execute_sent ctx execution envs backend backend' events r route request :
  Execute parseTime executor ctx execution envs backend = (backend', events, r) →
  Sent route request ∈ events →
  route = exec_EgressRouteID execution ∧ ∃ k, env_build (envs k) = Ok (Some request).
Proof.
  unfold Execute. intros Hrun Hin. repeat (case_match; simplify_eq/=; [set_solver|]).
  eapply executeLoop_sent; eauto.
Qed.
End sends.

(** ** The guards of a private call *)

(** The account of a client may make a request with this permission. *)
Definition entitled {Settings} (client : Client Settings) (route permission : string) (descriptor : Descriptor) : Prop :=
  client_credentials client = Some descriptor ∧ client_credentialProvider client = true ∧
  route ∈ AllowedEgressRouteIDs descriptor ∧ permission ∈ Permissions descriptor.

(** A secret with every member that the exchange asks for. *)
Definition complete (passphrase : bool) (material : SecretMaterial) : Prop :=
  secret_APIKey material ≠ "" ∧ secret_SecretKey material ≠ "" ∧
  (passphrase = true → secret_Passphrase material ≠ "").

Section guards.
Context (parseTime : string → option Z) (executor : Executor) {Settings Limit : Type}
  (exchange label : string) (client : Client Settings).

Lemma requireAccount_Ok route permission descriptor :
  requireAccount exchange label client route permission = Ok descriptor ↔
  entitled client route permission descriptor.
Proof.
  unfold requireAccount, entitled, RequireEgressRoute, RequirePermission, AllowsEgressRoute, AllowsPermission.
  destruct (client_credentials client) as [d|], (client_credentialProvider client);
    repeat case_bool_decide; naive_solver.
Qed.

Lemma requireAccount_Err route permission err :
  requireAccount exchange label client route permission = Err err →
  (∀ descriptor, ¬ entitled client route permission descriptor) ∧
  ∃ category account cause, err = accountError exchange category account cause ∧
    category = if bool_decide (is_Some (client_credentials client)) && client_credentialProvider client
               then ErrorAuthorization else ErrorAuthentication.
Proof.
  intros Herr. split.
  { intros descriptor He. apply requireAccount_Ok in He. congruence. }
  unfold requireAccount in Herr.
  destruct (client_credentials client) as [d|], (client_credentialProvider client);
    repeat (case_match; simplify_eq/=); eauto 10.
Qed.

Lemma withMaterial_Ok accountID missing passphrase sign call request :
  withMaterial exchange accountID missing passphrase sign call = Ok request →
  ∃ material, call_material call = Ok material ∧ complete passphrase material ∧ sign call material = Ok request.
Proof.
  unfold withMaterial, complete. destruct (call_material call) as [material|]; [|done].
  destruct (bool_decide (secret_APIKey _ = "")) eqn:H1; [done|].
  destruct (bool_decide (secret_SecretKey _ = "")) eqn:H2; [done|]. simpl.
  apply bool_decide_eq_false in H1, H2.
  destruct (passphrase && _) eqn:H3; [done|]. intros Hs. exists material. split_and!; try done.
  intros ->. by apply bool_decide_eq_false in H3.
Qed.

Context (limits : string → string → memoryBackend → limiting (Limit * list Charge))
  (observe : string → string → Limit → Response → memoryBackend → memoryBackend)
  (missing : string) (passphrase : bool) (sign : string → callEnv → SecretMaterial → result error HTTPRequest)
  (permission : string) (operation : Z).

Lemma observing_events f r : (observing f r).1.2 = r.1.2.
Proof. by destruct r as [[? ?] [[? [?|]]| |]]. Qed.

(** What a private call sends: a request that the client's builder signed for an
    entitled account, through the route that the options name. *)
Lemma privateCall_sent ctx options calls backend route request :
  Sent route request ∈ (privateCall parseTime executor exchange label client limits observe missing passphrase
                          sign permission operation ctx options calls backend).1.2 →
  ∃ resolved descriptor k material signed,
    resolveOptions client options = Ok resolved ∧ route = EgressRouteID resolved ∧
    entitled client route permission descriptor ∧
    call_material (calls k) = Ok material ∧ complete passphrase material ∧
    sign (AccountID descriptor) (calls k) material = Ok signed ∧ request = plain_request signed.
Proof.
  unfold privateCall. destruct (resolveOptions client options) as [resolved|err] eqn:Hr; [|simpl; set_solver].
  destruct (requireAccount _ _ _ _ _) as [descriptor|err] eqn:Ha; [|simpl; set_solver].
  apply requireAccount_Ok in Ha.
  destruct (limits _ _ _) as [b [[limit charges]|err]]; [|simpl; set_solver].
  rewrite observing_events. unfold execute. intros Hin.
  destruct (Execute _ _ _ _ _ _) as [[b' events] r] eqn:He.
  eapply Execute_sent in He as [Hroute [k Hb]]; [|exact Hin]. simpl in Hroute, Hb.
  destruct (withMaterial _ _ _ _ _ _) as [signed|] eqn:Hw; [|done].
  apply withMaterial_Ok in Hw as (material & Hm & Hc & Hs). simplify_eq.
  exists resolved, descriptor, k, material, signed. done.
Qed.

(** Without an entitled account the call is over before the rate limits, the
    pipeline and the secret. *)
Lemma privateCall_refused ctx options calls backend resolved :
  resolveOptions client options = Ok resolved →
  (∀ descriptor, ¬ entitled client (EgressRouteID resolved) permission descriptor) →
  ∃ category account cause,
    privateCall parseTime executor exchange label client limits observe missing passphrase
      sign permission operation ctx options calls backend =
    refused backend (accountError exchange category account cause) ∧
    category = if bool_decide (is_Some (client_credentials client)) && client_credentialProvider client
               then ErrorAuthorization else ErrorAuthentication.
Proof.
  intros Hr Hn. unfold privateCall. rewrite Hr.
  destruct (requireAccount _ _ _ _ _) as [descriptor|err] eqn:Ha.
  { apply requireAccount_Ok in Ha. by destruct (Hn descriptor). }
  apply requireAccount_Err in Ha as (_ & category & account & cause & -> & Hc). eauto.
Qed.
End guards.

(** ** Clients *)

(** A REST client with an account: [Args] are the arguments of its private calls,
    [Own] its settings.  [verifies] is the exchange's check of a request against
    the secret of the account it names; [fair] rules out parameters that already
    have a signature, and hashes with an empty encoding. *)
Class SignedClient (Args Own : Type) : Type := {
  exchange_of : string;
  private_call : (string → option Z) → Executor → Client Own → Args → bool → list (option RequestOption) →
    (Z → callEnv) → memoryBackend → call_result;
  needs_passphrase : bool;
  permission_of : Args → string;
  operation_of : Args → Z;
  sign_request : Client Own → Args → string → callEnv → SecretMaterial → result error HTTPRequest;
  fair : Args → Prop;
  verifies : Client Own → Args → SecretMaterial → HTTPRequest → Prop
}.

Class SignedClientLaws (Args Own : Type) `{SignedClient Args Own} : Prop := {
  private_call_is parseTime executor client args :
    ∃ (Limit : Type) label (limits : string → string → memoryBackend → limiting (Limit * list Charge)) observe missing,
      private_call parseTime executor client args =
      privateCall parseTime executor exchange_of label client limits observe missing needs_passphrase
        (sign_request client args) (permission_of args) (operation_of args);
  signed_verifies client args accountID call material request :
    fair args → complete needs_passphrase material →
    sign_request client args accountID call material = Ok request → verifies client args material request
}.

(** * The signatures of the private requests

    What each exchange checks of a request, read off the request alone and the
    secret of the account: the clients are instances of [SignedClient], and
    their laws are that their builders pass the check. *)

(** The hash that a [signHMAC] function gives for a secret. *)
Lemma signHMAC_Ok hash encode message secret payload signature :
  signHMAC hash encode message secret payload = Ok signature → signature = encode (hash secret payload).
Proof. unfold signHMAC. by case_bool_decide; intros; simplify_eq. Qed.

Lemma signing_Ok {A} exchange accountID (r : result error A) a : signing exchange accountID r = Ok a → r = Ok a.
Proof. by destruct r. Qed.

(** The parameters of a query whose member [name] is the signature [signature]
    of the others. *)
Definition signed_query (query name signature : string) (covered : Values) : Prop :=
  query = Encode (Values_Set covered name signature) ∧ covered !! name = None.

Lemma Values_Set_other (values : Values) key name value :
  key ≠ name → values !! name = None → Values_Set values key value !! name = None.
Proof. intros. unfold Values_Set. by rewrite lookup_insert_ne. Qed.

Create HintDb signatures.
#[export] Hint Resolve Values_Set_other : signatures.

(** The encoding of parameters is empty only without parameters. *)
Lemma append_empty s t : s +:+ t = "" → s = "" ∧ t = "".
Proof. by destruct s. Qed.

Lemma append_assoc s t u : (s +:+ t) +:+ u = s +:+ (t +:+ u).
Proof. induction s as [|c s IH]; [done|]. exact (f_equal (String c) IH). Qed.

Lemma Join_empty l sep x : Join l sep = "" → x ∈ l → x = "".
Proof.
  induction l as [|y [|z l] IH]; simpl; [set_solver|intros ->; set_solver|].
  intros [-> [_ H]%append_empty]%append_empty. rewrite elem_of_cons. naive_solver.
Qed.

Lemma Encode_nonempty (values : Values) key value : values !! key = Some [value] → Encode values ≠ "".
Proof.
  intros Hk Hempty. unfold Encode in Hempty.
  assert (QueryEscape key +:+ "=" +:+ QueryEscape value = "") as [_ ?]%append_empty; [|done].
  eapply Join_empty; [exact Hempty|]. apply list_elem_of_join. exists (encodePairs (key, [value])).
  split; [by left|]. apply list_elem_of_fmap. exists (key, [value]). split; [done|].
  by rewrite elem_of_sort, elem_of_map_to_list.
Qed.

Lemma Values_Set_same (values : Values) key value : Values_Set values key value !! key = Some [value].
Proof. unfold Values_Set. by rewrite lookup_insert_eq. Qed.

(** One step of a builder: a fallible step that succeeded, a check that passed. *)
Ltac sign_step :=
  match goal with
  | H : (_ ≫= _) = Ok _ |- _ =>
      let a := fresh "a" in let Ha := fresh "Ha" in
      apply result_bind_Ok in H as [a [Ha H]]
  | H : require _ _ = Ok _ |- _ => apply require_Ok in H
  | H : signing _ _ _ = Ok _ |- _ => apply signing_Ok in H
  | H : signHMAC _ _ _ _ _ = Ok _ |- _ => apply signHMAC_Ok in H; subst
  | H : Ok _ = Ok _ |- _ => injection H as H; subst
  end.

Ltac read_headers :=
  repeat first [rewrite header_Set_same | rewrite header_Set_other by (vm_compute; discriminate)].

(** The goals of a law: the builder's steps, then the headers of its request. *)
Ltac verify :=
  repeat sign_step; cbv zeta in *; repeat sign_step; simpl;
  split_and?; read_headers; eauto with signatures.

(** ** Signatures in headers *)

Section headers.
Context `{Library}.

(** A JSON web token: a header, claims, and the signature of the two. *)
Definition unsigned_token (header : string) (claims : list (string * field)) : string :=
  EncodeRawURLBase64 header +:+ "." +:+ EncodeRawURLBase64 (MarshalFields claims).
Definition signed_token (sign : string → string) (header : string) (claims : list (string * field)) : string :=
  let unsigned := unsigned_token header claims in
  unsigned +:+ "." +:+ EncodeRawURLBase64 (sign unsigned).

#[export] Instance okx_signed : SignedClient (privateRequest * EndpointLimits.OKX.endpointLimit) OKX.okxSettings := {
  exchange_of := ExchangeOKX;
  private_call parseTime executor client args := OKX.executeSigned parseTime executor client args.1 args.2;
  needs_passphrase := true;
  permission_of args := private_permission args.1;
  operation_of args := private_operation args.1;
  sign_request client args := OKX.sign client args.1;
  fair _ := True;
  verifies _ _ material request :=
    header request "OK-ACCESS-KEY" = secret_APIKey material ∧
    header request "OK-ACCESS-PASSPHRASE" = secret_Passphrase material ∧
    header request "OK-ACCESS-SIGN" = EncodeBase64 (HMAC_SHA256 (secret_SecretKey material)
      (header request "OK-ACCESS-TIMESTAMP" +:+ request_method request +:+
       requestTarget (request_path request) (request_query request) +:+ request_body request))
}.

#[export] Instance okx_signed_laws : SignedClientLaws (privateRequest * EndpointLimits.OKX.endpointLimit) OKX.okxSettings.
Proof.
  split; [intros; do 5 eexists; reflexivity|].
  intros client [arguments limit] accountID call material request _ _ Hs. cbn in Hs |- *.
  unfold OKX.sign, OKX.SignHMACSHA256, OKX.newRequest in Hs. destruct (OKX.demoTrading _); verify.
Qed.
#[export] Instance bybit_signed : SignedClient (Z * privateRequest * EndpointLimits.Bybit.endpointLimit) Bybit.bybitSettings := {
  exchange_of := ExchangeBybit;
  private_call parseTime executor client args := Bybit.executeSigned parseTime executor args.1.1 client args.1.2 args.2;
  needs_passphrase := false;
  permission_of args := private_permission args.1.2;
  operation_of args := private_operation args.1.2;
  sign_request client args := Bybit.sign client args.1.2;
  fair args := True;
  verifies client args material request :=
    header request "X-BAPI-API-KEY" = secret_APIKey material ∧
    header request "X-BAPI-SIGN" = EncodeHex (HMAC_SHA256 (secret_SecretKey material)
      (header request "X-BAPI-TIMESTAMP" +:+ header request "X-BAPI-API-KEY" +:+
       header request "X-BAPI-RECV-WINDOW" +:+
       (if bool_decide (request_method request = "GET") then request_query request else request_body request)))
}.

#[export] Instance bybit_signed_laws : SignedClientLaws (Z * privateRequest * EndpointLimits.Bybit.endpointLimit) Bybit.bybitSettings.
Proof.
  split; [intros; do 5 eexists; reflexivity|].
  intros client [[now arguments] limit] accountID call material request Hfair Hc Hs. cbn in Hfair, Hs |- *.
  unfold Bybit.sign, Bybit.SignHMACSHA256, Bybit.newRequest in Hs. verify.
Qed.

#[export] Instance bitget_signed : SignedClient (Z * privateRequest * EndpointLimits.Bitget.endpointLimit) Bitget.bitgetSettings := {
  exchange_of := ExchangeBitget;
  private_call parseTime executor client args := Bitget.executeSigned parseTime executor args.1.1 client args.1.2 args.2;
  needs_passphrase := true;
  permission_of args := private_permission args.1.2;
  operation_of args := private_operation args.1.2;
  sign_request client args := Bitget.sign client args.1.2;
  fair args := True;
  verifies client args material request :=
    header request "ACCESS-KEY" = secret_APIKey material ∧
    header request "ACCESS-PASSPHRASE" = secret_Passphrase material ∧
    header request "ACCESS-SIGN" = EncodeBase64 (HMAC_SHA256 (secret_SecretKey material)
      (header request "ACCESS-TIMESTAMP" +:+ ToUpperText (request_method request) +:+ request_path request +:+
       (if bool_decide (request_query request = "") then "" else "?" +:+ request_query request) +:+
       request_body request))
}.

#[export] Instance bitget_signed_laws : SignedClientLaws (Z * privateRequest * EndpointLimits.Bitget.endpointLimit) Bitget.bitgetSettings.
Proof.
  split; [intros; do 5 eexists; reflexivity|].
  intros client [[now arguments] limit] accountID call material request Hfair Hc Hs. cbn in Hfair, Hs |- *.
  unfold Bitget.sign, Bitget.SignHMACSHA256, Bitget.newRequest in Hs. destruct (Bitget.demoTrading _); verify.
Qed.

#[export] Instance kucoin_signed : SignedClient (Z * privateRequest * EndpointLimits.KuCoin.endpointLimit) KuCoin.kucoinSettings := {
  exchange_of := ExchangeKuCoin;
  private_call parseTime executor client args := KuCoin.executePrivate parseTime executor args.1.1 client args.1.2 args.2;
  needs_passphrase := true;
  permission_of args := private_permission args.1.2;
  operation_of args := private_operation args.1.2;
  sign_request client args := KuCoin.sign client args.1.2;
  fair args := True;
  verifies client args material request :=
    header request "KC-API-KEY" = secret_APIKey material ∧
    header request "KC-API-SIGN" = EncodeBase64 (HMAC_SHA256 (secret_SecretKey material)
      (header request "KC-API-TIMESTAMP" +:+ ToUpperText (request_method request) +:+
       requestTarget (request_path request) (request_query request) +:+ request_body request)) ∧
    header request "KC-API-PASSPHRASE" =
      (if bool_decide (header request "KC-API-KEY-VERSION" = "2")
       then EncodeBase64 (HMAC_SHA256 (secret_SecretKey material) (secret_Passphrase material))
       else secret_Passphrase material)
}.

#[export] Instance kucoin_signed_laws : SignedClientLaws (Z * privateRequest * EndpointLimits.KuCoin.endpointLimit) KuCoin.kucoinSettings.
Proof.
  split; [intros; do 5 eexists; reflexivity|].
  intros client [[now arguments] limit] accountID call material request Hfair Hc Hs. cbn in Hfair, Hs |- *.
  unfold KuCoin.sign, KuCoin.signRequest, KuCoin.SignHMACSHA256, KuCoin.newRequest in Hs. repeat sign_step.
  destruct (bool_decide (_ = "2")) eqn:Hversion; verify; by rewrite Hversion.
Qed.

#[export] Instance kucoinFutures_signed : SignedClient (Z * privateRequest * EndpointLimits.KuCoinFutures.endpointLimit) KuCoinFutures.kucoinFuturesSettings := {
  exchange_of := ExchangeKuCoin;
  private_call parseTime executor client args := KuCoinFutures.executePrivate parseTime executor args.1.1 client args.1.2 args.2;
  needs_passphrase := true;
  permission_of args := private_permission args.1.2;
  operation_of args := private_operation args.1.2;
  sign_request client args := KuCoinFutures.sign client args.1.2;
  fair args := True;
  verifies client args material request :=
    header request "KC-API-KEY" = secret_APIKey material ∧
    header request "KC-API-SIGN" = EncodeBase64 (HMAC_SHA256 (secret_SecretKey material)
      (header request "KC-API-TIMESTAMP" +:+ ToUpperText (request_method request) +:+
       requestTarget (request_path request) (request_query request) +:+ request_body request)) ∧
    header request "KC-API-PASSPHRASE" =
      (if bool_decide (header request "KC-API-KEY-VERSION" = "2")
       then EncodeBase64 (HMAC_SHA256 (secret_SecretKey material) (secret_Passphrase material))
       else secret_Passphrase material)
}.

#[export] Instance kucoinFutures_signed_laws : SignedClientLaws (Z * privateRequest * EndpointLimits.KuCoinFutures.endpointLimit) KuCoinFutures.kucoinFuturesSettings.
Proof.
  split; [intros; do 5 eexists; reflexivity|].
  intros client [[now arguments] limit] accountID call material request Hfair Hc Hs. cbn in Hfair, Hs |- *.
  unfold KuCoinFutures.sign, KuCoin.signRequest, KuCoin.SignHMACSHA256, KuCoinFutures.newRequest in Hs. repeat sign_step.
  destruct (bool_decide (_ = "2")) eqn:Hversion; verify; by rewrite Hversion.
Qed.

#[export] Instance gateio_signed : SignedClient ((string → option Z) * Z * privateRequest * EndpointLimits.GateIO.endpointLimit) GateIO.gateioSettings := {
  exchange_of := ExchangeGateIO;
  private_call parseTime executor client args := GateIO.executePrivate parseTime executor args.1.1.1 args.1.1.2 client args.1.2 args.2;
  needs_passphrase := false;
  permission_of args := private_permission args.1.2;
  operation_of args := private_operation args.1.2;
  sign_request client args := GateIO.sign client args.1.2;
  fair args := True;
  verifies client args material request :=
    header request "KEY" = secret_APIKey material ∧
    header request "SIGN" = EncodeHex (HMAC_SHA512 (secret_SecretKey material)
      (ToUpperText (request_method request) +:+ newline +:+ EscapedPath (request_path request) +:+ newline +:+
       request_query request +:+ newline +:+ EncodeHex (SHA512 (request_body request)) +:+ newline +:+
       header request "Timestamp"))
}.

#[export] Instance gateio_signed_laws : SignedClientLaws ((string → option Z) * Z * privateRequest * EndpointLimits.GateIO.endpointLimit) GateIO.gateioSettings.
Proof.
  split; [intros; do 5 eexists; reflexivity|].
  intros client [[[parseSeconds now] arguments] limit] accountID call material request Hfair Hc Hs. cbn in Hfair, Hs |- *.
  unfold GateIO.sign, GateIO.SignHMACSHA512, GateIO.newRequest in Hs. verify.
Qed.

#[export] Instance gateioFutures_signed : SignedClient ((string → option Z) * Z * privateRequest * EndpointLimits.GateIOFutures.endpointLimit) GateIO.gateioSettings := {
  exchange_of := ExchangeGateIO;
  private_call parseTime executor client args := GateIOFutures.executePrivate parseTime executor args.1.1.1 args.1.1.2 client args.1.2 args.2;
  needs_passphrase := false;
  permission_of args := private_permission args.1.2;
  operation_of args := private_operation args.1.2;
  sign_request client args := GateIO.sign client args.1.2;
  fair args := True;
  verifies client args material request :=
    header request "KEY" = secret_APIKey material ∧
    header request "SIGN" = EncodeHex (HMAC_SHA512 (secret_SecretKey material)
      (ToUpperText (request_method request) +:+ newline +:+ EscapedPath (request_path request) +:+ newline +:+
       request_query request +:+ newline +:+ EncodeHex (SHA512 (request_body request)) +:+ newline +:+
       header request "Timestamp"))
}.

#[export] Instance gateioFutures_signed_laws : SignedClientLaws ((string → option Z) * Z * privateRequest * EndpointLimits.GateIOFutures.endpointLimit) GateIO.gateioSettings.
Proof.
  split; [intros; do 5 eexists; reflexivity|].
  intros client [[[parseSeconds now] arguments] limit] accountID call material request Hfair Hc Hs. cbn in Hfair, Hs |- *.
  unfold GateIO.sign, GateIO.SignHMACSHA512, GateIO.newRequest in Hs. verify.
Qed.

(** ** Signatures in the query *)

#[export] Instance binance_signed : SignedClient (Z * list EndpointLimits.Binance.limitSpec * (Response → list (string * list string)) * privateRequest * Z * Z) Binance.binanceSettings := {
  exchange_of := ExchangeBinance;
  private_call parseTime executor client args := Binance.executeSigned parseTime executor
    args.1.1.1.1.1 args.1.1.1.1.2 args.1.1.1.2 client args.1.1.2 args.1.2 args.2;
  needs_passphrase := false;
  permission_of args := private_permission args.1.1.2;
  operation_of args := private_operation args.1.1.2;
  sign_request client args := Binance.sign client args.1.1.2;
  fair args := ∀ secret payload : string, EncodeHex (HMAC_SHA256 secret payload) ≠ "";
  verifies client args material request :=
    header request "X-MBX-APIKEY" = secret_APIKey material ∧
    ∃ values, request_query request = Encode values +:+ "&signature=" +:+
        QueryEscape (EncodeHex (HMAC_SHA256 (secret_SecretKey material) (Encode values)))
}.

#[export] Instance binance_signed_laws : SignedClientLaws (Z * list EndpointLimits.Binance.limitSpec * (Response → list (string * list string)) * privateRequest * Z * Z) Binance.binanceSettings.
Proof.
  split; [intros; do 5 eexists; reflexivity|].
  intros client [[[[[now specs] headers] arguments] weight] orders] accountID call material request Hfair Hc Hs. cbn in Hfair, Hs |- *.
  unfold Binance.sign, Binance.SignHMACSHA256, Binance.newRequest in Hs. repeat sign_step. simpl in *. split; [by read_headers|].
  eexists. simpl. rewrite (bool_decide_eq_false_2 (EncodeHex _ = "")) by apply Hfair.
  rewrite (bool_decide_eq_false_2 (Encode _ = "")) by (eapply Encode_nonempty, Values_Set_same).
  by rewrite append_assoc.
Qed.

#[export] Instance usdm_signed : SignedClient (Z * EndpointLimits.BinanceUsdm.limitCatalog * privateRequest * Z * Z) BinanceUsdm.usdmSettings := {
  exchange_of := ExchangeBinance;
  private_call parseTime executor client args := BinanceUsdm.executeSigned parseTime executor args.1.1.1.1 args.1.1.1.2 client args.1.1.2 args.1.2 args.2;
  needs_passphrase := false;
  permission_of args := private_permission args.1.1.2;
  operation_of args := private_operation args.1.1.2;
  sign_request client args := BinanceUsdm.sign client args.1.1.2;
  fair args := private_query args.1.1.2 !! "signature" = None;
  verifies client args material request :=
    header request "X-MBX-APIKEY" = secret_APIKey material ∧
    ∃ covered, signed_query (request_query request) "signature"
      (EncodeHex (HMAC_SHA256 (secret_SecretKey material) (Encode covered))) covered
}.

#[export] Instance usdm_signed_laws : SignedClientLaws (Z * EndpointLimits.BinanceUsdm.limitCatalog * privateRequest * Z * Z) BinanceUsdm.usdmSettings.
Proof.
  split; [intros; do 5 eexists; reflexivity|].
  intros client [[[[now catalog] arguments] weight] orders] accountID call material request Hfair Hc Hs. cbn in Hfair, Hs |- *.
  unfold BinanceUsdm.sign, BinanceUsdm.SignHMACSHA256, BinanceUsdm.newRequest in Hs. repeat sign_step. split; [by read_headers|].
  eexists. split; [reflexivity|]. auto with signatures.
Qed.

#[export] Instance mexc_signed : SignedClient (privateRequest * EndpointLimits.MEXC.endpointLimit * string * Z) MEXC.mexcSettings := {
  exchange_of := ExchangeMEXC;
  private_call parseTime executor client args := MEXC.executePrivate parseTime executor client args.1.1.1 args.1.1.2 args.1.2 args.2;
  needs_passphrase := false;
  permission_of args := private_permission args.1.1.1;
  operation_of args := private_operation args.1.1.1;
  sign_request client args := MEXC.sign client args.1.1.1;
  fair args := private_query args.1.1.1 !! "signature" = None;
  verifies client args material request :=
    header request "X-MEXC-APIKEY" = secret_APIKey material ∧
    ∃ covered, signed_query (request_query request) "signature"
      (EncodeHex (HMAC_SHA256 (secret_SecretKey material) (Encode covered))) covered
}.

#[export] Instance mexc_signed_laws : SignedClientLaws (privateRequest * EndpointLimits.MEXC.endpointLimit * string * Z) MEXC.mexcSettings.
Proof.
  split; [intros; do 5 eexists; reflexivity|].
  intros client [[[arguments limit] name] quota] accountID call material request Hfair Hc Hs. cbn in Hfair, Hs |- *.
  unfold MEXC.sign, MEXC.SignHMACSHA256, MEXC.newRequest in Hs. repeat sign_step. split; [by read_headers|].
  eexists. split; [reflexivity|]. auto with signatures.
Qed.

#[export] Instance htx_signed : SignedClient (Z * privateRequest * string * Z) HTX.htxSettings := {
  exchange_of := ExchangeHTX;
  private_call parseTime executor client args := HTX.executePrivate parseTime executor args.1.1.1 client args.1.1.2 args.1.2 args.2;
  needs_passphrase := false;
  permission_of args := private_permission args.1.1.2;
  operation_of args := private_operation args.1.1.2;
  sign_request client args := HTX.sign client args.1.1.2;
  fair args := private_query args.1.1.2 !! "Signature" = None;
  verifies client args material request :=
    ∃ covered, covered !! "AccessKeyId" = Some [secret_APIKey material] ∧
      signed_query (request_query request) "Signature"
        (EncodeBase64 (HMAC_SHA256 (secret_SecretKey material)
           (ToUpperText (request_method request) +:+ newline +:+ ToLowerText (ToLowerText (request_host request)) +:+ newline +:+
            request_path request +:+ newline +:+ ReplaceAll (Encode covered) "+" "%20"))) covered
}.

#[export] Instance htx_signed_laws : SignedClientLaws (Z * privateRequest * string * Z) HTX.htxSettings.
Proof.
  split; [intros; do 5 eexists; reflexivity|].
  intros client [[[now arguments] group] quota] accountID call material request Hfair Hc Hs. cbn in Hfair, Hs |- *.
  unfold HTX.sign, HTX.SignHMACSHA256Base64, HTX.newRequestWithBody in Hs. repeat sign_step. eexists. split; [|split; [reflexivity|]]; [|auto with signatures].
  by unfold Values_Set; rewrite !lookup_insert_ne, lookup_insert_eq by done.
Qed.

(** ** Signatures of forms, payloads and tokens *)

#[export] Instance kraken_signed : SignedClient (privateRequest * EndpointLimits.Kraken.limitKind * string) Kraken.krakenSettings := {
  exchange_of := ExchangeKraken;
  private_call parseTime executor client args := Kraken.executePrivate parseTime executor client args.1.1 args.1.2 args.2;
  needs_passphrase := false;
  permission_of args := private_permission args.1.1;
  operation_of args := private_operation args.1.1;
  sign_request client args := Kraken.sign client args.1.1;
  fair args := True;
  verifies client args material request :=
    header request "API-Key" = secret_APIKey material ∧
    ∃ values nonce secret, request_body request = Encode values ∧ values !! "nonce" = Some [nonce] ∧
      DecodeBase64 (secret_SecretKey material) = Ok secret ∧ secret ≠ "" ∧
      header request "API-Sign" = EncodeBase64 (HMAC_SHA512 secret
        (request_path request +:+ SHA256 (nonce +:+ request_body request)))
}.

#[export] Instance kraken_signed_laws : SignedClientLaws (privateRequest * EndpointLimits.Kraken.limitKind * string) Kraken.krakenSettings.
Proof.
  split; [intros; do 5 eexists; reflexivity|].
  intros client [[arguments limit] pair] accountID call material request Hfair Hc Hs. cbn in Hfair, Hs |- *.
  unfold Kraken.sign, Kraken.SignREST, Kraken.newRequest in Hs. repeat sign_step.
  destruct (DecodeBase64 _) as [secret|]; [|done]. repeat sign_step.
  split; [by read_headers|]. eexists _, _, secret. split_and!; [reflexivity|apply Values_Set_same|done| |by read_headers].
  by apply negb_bool_decide.
Qed.

#[export] Instance krakenFutures_signed : SignedClient (privateRequest * Z) KrakenFutures.krakenFuturesSettings := {
  exchange_of := ExchangeKraken;
  private_call parseTime executor client args := KrakenFutures.executePrivate parseTime executor client args.1 args.2;
  needs_passphrase := false;
  permission_of args := private_permission args.1;
  operation_of args := private_operation args.1;
  sign_request client args := KrakenFutures.sign client args.1;
  fair args := True;
  verifies client args material request :=
    header request "APIKey" = secret_APIKey material ∧
    ∃ secret, DecodeBase64 (secret_SecretKey material) = Ok secret ∧ secret ≠ "" ∧
      header request "Authent" = EncodeBase64 (HMAC_SHA512 secret
        (SHA256 (request_query request +:+ header request "Nonce" +:+
                 TrimPrefix (request_path request) "/derivatives")))
}.

#[export] Instance krakenFutures_signed_laws : SignedClientLaws (privateRequest * Z) KrakenFutures.krakenFuturesSettings.
Proof.
  split; [intros; do 5 eexists; reflexivity|].
  intros client [arguments cost] accountID call material request Hfair Hc Hs. cbn in Hfair, Hs |- *.
  unfold KrakenFutures.sign, KrakenFutures.SignAuthent, KrakenFutures.newRequest in Hs. repeat sign_step.
  destruct (DecodeBase64 _) as [secret|]; [|done]. repeat sign_step.
  destruct (bool_decide (private_method arguments = "POST")); simpl; (split; [by read_headers|]);
    exists secret; (split; [done|]); (split; [by apply negb_bool_decide|by read_headers]).
Qed.

#[export] Instance korbit_signed : SignedClient (Z * privateRequest * string) Korbit.korbitSettings := {
  exchange_of := ExchangeKorbit;
  private_call parseTime executor client args := Korbit.executePrivate parseTime executor args.1.1 client args.1.2 args.2;
  needs_passphrase := false;
  permission_of args := private_permission args.1.2;
  operation_of args := private_operation args.1.2;
  sign_request client args := Korbit.sign client args.1.2;
  fair args := True;
  verifies client args material request :=
    header request "X-KAPI-KEY" = secret_APIKey material ∧
    ∃ payload signature,
      (if bool_decide (request_method request = "POST") then request_body request else request_query request) =
        payload +:+ "&signature=" +:+ QueryEscape signature ∧
      if bool_decide (Korbit.signingMode (settings client) = Korbit.SigningModeHMACSHA256)
      then signature = EncodeHex (HMAC_SHA256 (secret_SecretKey material) payload)
      else ∃ raw, SignEd25519 (secret_SecretKey material) payload = Ok raw ∧ signature = EncodeBase64 raw
}.

#[export] Instance korbit_signed_laws : SignedClientLaws (Z * privateRequest * string) Korbit.korbitSettings.
Proof.
  split; [intros; do 5 eexists; reflexivity|].
  intros client [[now arguments] group] accountID call material request Hfair Hc Hs. cbn in Hfair, Hs |- *.
  unfold Korbit.sign, Korbit.signParameters, Korbit.newRequest in Hs. repeat sign_step.
  set (parameters := Encode _) in *.
  split; [destruct (bool_decide (private_method arguments = "POST")); by read_headers|].
  exists parameters. eexists. split.
  { destruct (bool_decide (private_method arguments = "POST")) eqn:Hpost; simpl; by rewrite Hpost. }
  destruct (bool_decide (_ = Korbit.SigningModeHMACSHA256)).
  - unfold Korbit.SignHMACSHA256 in Ha0. by repeat sign_step.
  - destruct (bool_decide (_ = Korbit.SigningModeED25519)); [|done]. unfold Korbit.SignED25519 in Ha0. repeat sign_step. eauto.
Qed.

#[export] Instance coinone_signed : SignedClient ((string → string) * Z * string * list Coinone.payloadField * bool * string * Z) Coinone.coinoneSettings := {
  exchange_of := ExchangeCoinone;
  private_call parseTime executor client args := Coinone.executePrivate parseTime executor
    args.1.1.1.1.1.1 args.1.1.1.1.1.2 client args.1.1.1.1.2 args.1.1.1.2 args.1.1.2 args.1.2 args.2;
  needs_passphrase := false;
  permission_of args := args.1.2;
  operation_of args := args.2;
  sign_request client args := Coinone.sign args.1.1.1.1.1.1 client args.1.1.1.1.2 args.1.1.1.2;
  fair args := True;
  verifies client args material request :=
    header request "X-COINONE-PAYLOAD" = EncodeBase64 (request_body request) ∧
    header request "X-COINONE-SIGNATURE" =
      EncodeHex (HMAC_SHA512 (secret_SecretKey material) (header request "X-COINONE-PAYLOAD"))
}.

#[export] Instance coinone_signed_laws : SignedClientLaws ((string → string) * Z * string * list Coinone.payloadField * bool * string * Z) Coinone.coinoneSettings.
Proof.
  split; [intros; do 5 eexists; reflexivity|].
  intros client [[[[[[jsonText now] path] fields] order] permission] operation] accountID call material request Hfair Hc Hs. cbn in Hfair, Hs |- *.
  unfold Coinone.sign, Coinone.SignPayload, Coinone.newRequest in Hs. verify.
Qed.

#[export] Instance cryptoCom_signed : SignedClient ((CryptoCom.privateRequestEnvelope → result error string) * string * Z * list (string * parameter) * string * Z) CryptoCom.cryptoComSettings := {
  exchange_of := ExchangeCryptoCom;
  private_call parseTime executor client args := CryptoCom.executePrivate parseTime executor
    args.1.1.1.1.1 client args.1.1.1.1.2 args.1.1.1.2 args.1.1.2 args.1.2 args.2;
  needs_passphrase := false;
  permission_of args := args.1.2;
  operation_of args := args.2;
  sign_request client args := CryptoCom.sign args.1.1.1.1.1 client args.1.1.1.1.2 (pretty args.1.1.1.2) args.1.1.2;
  fair args := True;
  verifies client args material request :=
    ∃ envelope text, args.1.1.1.1.1 envelope = Ok (request_body request) ∧
      CryptoCom.APIKey envelope = secret_APIKey material ∧ CryptoCom.ParamsString (CryptoCom.Params envelope) = Ok text ∧
      CryptoCom.Sig envelope = EncodeHex (HMAC_SHA256 (secret_SecretKey material)
        (CryptoCom.Method envelope +:+ CryptoCom.ID envelope +:+ CryptoCom.APIKey envelope +:+ text +:+
         CryptoCom.Nonce envelope))
}.

#[export] Instance cryptoCom_signed_laws : SignedClientLaws ((CryptoCom.privateRequestEnvelope → result error string) * string * Z * list (string * parameter) * string * Z) CryptoCom.cryptoComSettings.
Proof.
  split; [intros; do 5 eexists; reflexivity|].
  intros client [[[[[marshal method] requestID] params] permission] operation] accountID call material request Hfair Hc Hs. cbn in Hfair, Hs |- *.
  unfold CryptoCom.sign, CryptoCom.newPrivateRequest in Hs. repeat sign_step. destruct (CryptoCom.Sign _ _ _ _ _ _) as [signature|] eqn:Hsign; [|done].
  destruct (marshal _) as [body|] eqn:Hbody; [|done]. repeat sign_step.
  unfold CryptoCom.Sign in Hsign. repeat sign_step.
  eexists _, _. split; [exact Hbody|]. simpl. by eauto.
Qed.

#[export] Instance upbit_signed : SignedClient (Z * string * string * parameters * string * EndpointLimits.Upbit.rateGroup * string * Z) unit := {
  exchange_of := ExchangeUpbit;
  private_call parseTime executor client args := Upbit.executeSigned parseTime executor
    args.1.1.1.1.1.1.1 client args.1.1.1.1.1.1.2 args.1.1.1.1.1.2 args.1.1.1.1.2 args.1.1.1.2 args.1.1.2 args.1.2 args.2;
  needs_passphrase := false;
  permission_of args := args.1.2;
  operation_of args := args.2;
  sign_request client args := Upbit.sign client args.1.1.1.1.1.1.2 args.1.1.1.1.1.2 args.1.1.1.1.2 args.1.1.1.2;
  fair args := True;
  verifies client args material request :=
    ∃ nonce input,
      header request "Authorization" = "Bearer " +:+ signed_token (HMAC_SHA512 (secret_SecretKey material))
        Upbit.jwtHeaderText ([("access_key", FieldText (secret_APIKey material)); ("nonce", FieldText nonce)]
                             ++ queryMembers input Upbit.QueryHash) ∧
      (request_method request ≠ "POST" → PathUnescape (request_query request) = Some input)
}.

#[export] Instance upbit_signed_laws : SignedClientLaws (Z * string * string * parameters * string * EndpointLimits.Upbit.rateGroup * string * Z) unit.
Proof.
  split; [intros; do 5 eexists; reflexivity|].
  intros client [[[[[[[now method] path] params] body] group] permission] operation] accountID call material request Hfair Hc Hs. cbn in Hfair, Hs |- *.
  unfold Upbit.sign, Upbit.SignJWT, Upbit.newRequest, Upbit.hashString in Hs. repeat sign_step.
  destruct (PathUnescape _) as [input|] eqn:Hinput; [|done]. repeat sign_step.
  eexists _, _. split; [by read_headers|]. simpl. intros Hpost. by rewrite bool_decide_eq_false_2.
Qed.

#[export] Instance bithumb_signed : SignedClient (string * string * parameters * string * string * string * Z) Bithumb.bithumbSettings := {
  exchange_of := ExchangeBithumb;
  private_call parseTime executor client args := Bithumb.executePrivate parseTime executor
    client args.1.1.1.1.1.1 args.1.1.1.1.1.2 args.1.1.1.1.2 args.1.1.1.2 args.1.1.2 args.1.2 args.2;
  needs_passphrase := false;
  permission_of args := args.1.2;
  operation_of args := args.2;
  sign_request client args := Bithumb.sign client args.1.1.1.1.1.1 args.1.1.1.1.1.2 args.1.1.1.1.2 args.1.1.1.2;
  fair args := True;
  verifies client args material request :=
    ∃ nonce timestamp params,
      header request "Authorization" = "Bearer " +:+ signed_token (HMAC_SHA256 (secret_SecretKey material))
        Bithumb.jwtHeaderText ([("access_key", FieldText (secret_APIKey material)); ("nonce", FieldText nonce);
                                ("timestamp", FieldInteger timestamp)]
                               ++ queryMembers (Bithumb.hashString params) Bithumb.QueryHash) ∧
      (request_method request ≠ "POST" → request_query request = encoded params) ∧ 0 < timestamp
}.

#[export] Instance bithumb_signed_laws : SignedClientLaws (string * string * parameters * string * string * string * Z) Bithumb.bithumbSettings.
Proof.
  split; [intros; do 5 eexists; reflexivity|].
  intros client [[[[[[method path] params] body] group] permission] operation] accountID call material request Hfair Hc Hs. cbn in Hfair, Hs |- *.
  unfold Bithumb.sign, Bithumb.SignJWT, Bithumb.newRequest in Hs. repeat sign_step.
  eexists _, _, params. split; [by read_headers|]. simpl. split; [|by eapply bool_decide_eq_true].
  intros Hpost. by rewrite bool_decide_eq_false_2.
Qed.

#[export] Instance coinbase_signed : SignedClient (privateRequest) Coinbase.coinbaseSettings := {
  exchange_of := ExchangeCoinbase;
  private_call parseTime executor client args := Coinbase.executePrivate parseTime executor client args;
  needs_passphrase := false;
  permission_of args := private_permission args;
  operation_of args := private_operation args;
  sign_request client args := Coinbase.sign client args;
  fair args := True;
  verifies client args material request :=
    ∃ key nonce issued signature,
      let unsigned := unsigned_token
        (MarshalFields [("alg", FieldText "ES256"); ("kid", FieldText (secret_APIKey material));
                        ("nonce", FieldText nonce); ("typ", FieldText "JWT")])
        [("sub", FieldText (secret_APIKey material)); ("iss", FieldText "cdp"); ("nbf", FieldInteger (Unix issued));
         ("exp", FieldInteger (Unix (issued + 2 * Minute)));
         ("uri", FieldText (ToUpperText (TrimSpace (request_method request)) +:+ " " +:+
                            TrimSpace (request_host request) +:+ request_path request))] in
      Coinbase.parseECPrivateKey (secret_SecretKey material) = Ok key ∧ SignES256 key unsigned = Ok signature ∧
      header request "Authorization" = "Bearer " +:+ unsigned +:+ "." +:+ EncodeRawURLBase64 signature
}.

#[export] Instance coinbase_signed_laws : SignedClientLaws (privateRequest) Coinbase.coinbaseSettings.
Proof.
  split; [intros; do 5 eexists; reflexivity|].
  intros client arguments accountID call material request Hfair Hc Hs. cbn in Hfair, Hs |- *.
  unfold Coinbase.sign, Coinbase.SignRESTJWT, Coinbase.signJWT, Coinbase.newRequest in Hs. repeat sign_step.
  rewrite (bool_decide_eq_false_2 (_ +:+ " " +:+ _ = "")) in * by (intros [_ [=]]%append_empty).
  exists a4, a5, (call_now call), a6. split; [done|]. split; [exact Ha6|].
  rewrite header_Set_same. reflexivity.
Qed.

End headers.
