(* ===== verification/RestExchanges.v ===== *)
(** * What the REST clients promise of private requests

    [RestExchange] names the nineteen clients of [HMACClients] and [TokenClients],
    [NewOf] their constructors and [signed_of] their private calls.  What holds of
    every [SignedClient] is stated of the class; its instances are these. *)

From S2P Require Import Prelude GoStrings Decimals Errors Options Credential RateLimit Executor Session.
From S2P Require Import ClientErrors SpotAdapter StreamClient EndpointLimits RestClient HMACClients TokenClients.
From S2P Require Import RestSafety.

(** ** The nineteen clients *)

Inductive RestExchange : Type :=
  | RestOKX | RestBybit | RestBitget | RestBinance | RestBinanceUsdm | RestMEXC | RestHTX | RestKuCoin
  | RestKuCoinFutures | RestGateIO | RestGateIOFutures | RestKraken | RestKrakenFutures | RestKorbit | RestCoinone
  | RestCryptoCom | RestUpbit | RestBithumb | RestCoinbase.

#[export] Instance RestExchange_eq_dec : EqDecision RestExchange.
Proof. solve_decision. Defined.

(** The settings of a client, and what its [New] takes besides the common
    configuration. *)
Definition SettingsOf (x : RestExchange) : Type :=
  match x with
  | RestOKX => OKX.okxSettings | RestBybit => Bybit.bybitSettings | RestBitget => Bitget.bitgetSettings
  | RestBinance => Binance.binanceSettings | RestBinanceUsdm => BinanceUsdm.usdmSettings
  | RestMEXC => MEXC.mexcSettings | RestHTX => HTX.htxSettings | RestKuCoin => KuCoin.kucoinSettings
  | RestKuCoinFutures => KuCoinFutures.kucoinFuturesSettings
  | RestGateIO | RestGateIOFutures => GateIO.gateioSettings
  | RestKraken => Kraken.krakenSettings | RestKrakenFutures => KrakenFutures.krakenFuturesSettings
  | RestKorbit => Korbit.korbitSettings | RestCoinone => Coinone.coinoneSettings
  | RestCryptoCom => CryptoCom.cryptoComSettings | RestUpbit => unit | RestBithumb => Bithumb.bithumbSettings
  | RestCoinbase => Coinbase.coinbaseSettings
  end.

Definition GivenOf (x : RestExchange) : Type :=
  match x with
  | RestOKX => bool
  | RestBybit => bool * Z
  | RestBitget => string * bool
  | RestBinance | RestBinanceUsdm => Z
  | x => SettingsOf x
  end.

Definition NewOf (x : RestExchange) (parse : url_parser) :
    GivenOf x → Config → result error (Client (SettingsOf x)) :=
  match x with
  | RestOKX => OKX.New parse
  | RestBybit => λ given, Bybit.New parse given.1 given.2
  | RestBitget => λ given, Bitget.New parse given.1 given.2
  | RestBinance => Binance.New parse
  | RestBinanceUsdm => BinanceUsdm.New parse
  | RestMEXC => MEXC.New parse
  | RestHTX => HTX.New parse
  | RestKuCoin => KuCoin.New parse
  | RestKuCoinFutures => KuCoinFutures.New parse
  | RestGateIO => GateIO.New parse
  | RestGateIOFutures => GateIOFutures.New parse
  | RestKraken => Kraken.New parse
  | RestKrakenFutures => KrakenFutures.New parse
  | RestKorbit => Korbit.New parse
  | RestCoinone => Coinone.New parse
  | RestCryptoCom => CryptoCom.New parse
  | RestUpbit => λ _, Upbit.New parse
  | RestBithumb => Bithumb.New parse
  | RestCoinbase => Coinbase.New parse
  end.

(** The exchange that a client's credential must name. *)
Definition nameOf (x : RestExchange) : string :=
  match x with
  | RestOKX => ExchangeOKX | RestBybit => ExchangeBybit | RestBitget => ExchangeBitget
  | RestBinance | RestBinanceUsdm => ExchangeBinance | RestMEXC => ExchangeMEXC | RestHTX => ExchangeHTX
  | RestKuCoin | RestKuCoinFutures => ExchangeKuCoin | RestGateIO | RestGateIOFutures => ExchangeGateIO
  | RestKraken | RestKrakenFutures => ExchangeKraken | RestKorbit => ExchangeKorbit
  | RestCoinone => ExchangeCoinone | RestCryptoCom => ExchangeCryptoCom | RestUpbit => ExchangeUpbit
  | RestBithumb => ExchangeBithumb | RestCoinbase => ExchangeCoinbase
  end.

(** The arguments of a client's private calls. *)
Definition ArgsOf `{Library} (x : RestExchange) : Type :=
  match x with
  | RestOKX => privateRequest * EndpointLimits.OKX.endpointLimit
  | RestBybit => Z * privateRequest * EndpointLimits.Bybit.endpointLimit
  | RestBitget => Z * privateRequest * EndpointLimits.Bitget.endpointLimit
  | RestBinance => Z * list EndpointLimits.Binance.limitSpec * (Response → list (string * list string)) *
                   privateRequest * Z * Z
  | RestBinanceUsdm => Z * EndpointLimits.BinanceUsdm.limitCatalog * privateRequest * Z * Z
  | RestMEXC => privateRequest * EndpointLimits.MEXC.endpointLimit * string * Z
  | RestHTX => Z * privateRequest * string * Z
  | RestKuCoin => Z * privateRequest * EndpointLimits.KuCoin.endpointLimit
  | RestKuCoinFutures => Z * privateRequest * EndpointLimits.KuCoinFutures.endpointLimit
  | RestGateIO => (string → option Z) * Z * privateRequest * EndpointLimits.GateIO.endpointLimit
  | RestGateIOFutures => (string → option Z) * Z * privateRequest * EndpointLimits.GateIOFutures.endpointLimit
  | RestKraken => privateRequest * EndpointLimits.Kraken.limitKind * string
  | RestKrakenFutures => privateRequest * Z
  | RestKorbit => Z * privateRequest * string
  | RestCoinone => (string → string) * Z * string * list Coinone.payloadField * bool * string * Z
  | RestCryptoCom => (CryptoCom.privateRequestEnvelope → result error string) * string * Z *
                     list (string * parameter) * string * Z
  | RestUpbit => Z * string * string * parameters * string * EndpointLimits.Upbit.rateGroup * string * Z
  | RestBithumb => string * string * parameters * string * string * string * Z
  | RestCoinbase => privateRequest
  end.

#[export] Instance signed_of `{Library} (x : RestExchange) : SignedClient (ArgsOf x) (SettingsOf x) :=
  match x with
  | RestOKX => okx_signed | RestBybit => bybit_signed | RestBitget => bitget_signed | RestBinance => binance_signed
  | RestBinanceUsdm => usdm_signed | RestMEXC => mexc_signed | RestHTX => htx_signed | RestKuCoin => kucoin_signed
  | RestKuCoinFutures => kucoinFutures_signed | RestGateIO => gateio_signed
  | RestGateIOFutures => gateioFutures_signed | RestKraken => kraken_signed
  | RestKrakenFutures => krakenFutures_signed | RestKorbit => korbit_signed | RestCoinone => coinone_signed
  | RestCryptoCom => cryptoCom_signed | RestUpbit => upbit_signed | RestBithumb => bithumb_signed
  | RestCoinbase => coinbase_signed
  end.

#[export] Instance signed_laws_of `{Library} (x : RestExchange) : SignedClientLaws (ArgsOf x) (SettingsOf x).
Proof. destruct x; simpl; apply _. Qed.

(** ** Construction *)

(** What [New] establishes of a client: [kept] tells what becomes of the route. *)
Record sound_client {Own} (kept : string → string) (exchange : string) (config : Config) (client : Client Own) : Prop := {
  sound_route : client_defaultEgressRouteID client = kept (config_DefaultEgressRouteID config) ∧
    TrimSpace (config_DefaultEgressRouteID config) ≠ "";
  sound_timeout : 0 < client_requestTimeout client;
  sound_scheme : Scheme (client_baseURL client) = "https" ∨
    config_AllowInsecureHTTP config = true ∧ Scheme (client_baseURL client) = "http";
  sound_host : Host (client_baseURL client) ≠ "" ∧ hasUser (client_baseURL client) = false ∧
    RawQuery (client_baseURL client) = "" ∧ Fragment (client_baseURL client) = "";
  sound_provider : client_credentialProvider client = bool_decide (is_Some (client_credentials client));
  sound_credentials : ∀ descriptor, client_credentials client = Some descriptor →
    config_Credentials config = Some descriptor ∧
    valid_descriptor descriptor ∧ Credential.Exchange descriptor = exchange
}.

Lemma clientRoute_Ok keep label config route :
  clientRoute keep label config = Ok route →
  route = keep (config_DefaultEgressRouteID config) ∧ TrimSpace (config_DefaultEgressRouteID config) ≠ "".
Proof. unfold clientRoute. intros H. invert_result. by go_bool. Qed.

Lemma clientURL_Ok parse label pathAllowed cleanPath text config url :
  clientURL parse label pathAllowed cleanPath text config = Ok url →
  (Scheme url = "https" ∨ config_AllowInsecureHTTP config = true ∧ Scheme url = "http") ∧
  Host url ≠ "" ∧ hasUser url = false ∧ RawQuery url = "" ∧ Fragment url = "".
Proof.
  unfold clientURL. destruct (parse text) as [parsed|]; [|done]. intros H. invert_result. simpl.
  go_bool. naive_solver.
Qed.

Lemma clientTimeout_Ok label config timeout : clientTimeout label config = Ok timeout → 0 < timeout.
Proof.
  unfold clientTimeout, orNumber. intros H. invert_result. go_bool. case_bool_decide; [done|lia].
Qed.

Lemma clientCredentials_Ok exchange label config credentials :
  clientCredentials exchange label config = Ok credentials →
  credentials = config_Credentials config ∧
  config_CredentialProvider config = bool_decide (is_Some credentials) ∧
  (∀ descriptor, credentials = Some descriptor → valid_descriptor descriptor ∧ Credential.Exchange descriptor = exchange).
Proof.
  unfold clientCredentials. destruct (config_Credentials config) as [d|]; intros H; invert_result; go_bool.
  - pose proof (Validate_spec d). destruct (Validate d); [|done].
    rewrite bool_decide_eq_true_2 by eauto. naive_solver.
  - naive_solver.
Qed.

Lemma newClient_sound {Own} keep parse exchange label pathAllowed cleanPath baseURL own config
    (client : Client Own) :
  newClientKeeping keep parse exchange label pathAllowed cleanPath baseURL own config = Ok client →
  sound_client keep exchange config client.
Proof.
  unfold newClientKeeping. intros H. invert_result.
  match goal with Hr : clientRoute _ _ _ = _ |- _ => apply clientRoute_Ok in Hr end.
  match goal with Hu : clientURL _ _ _ _ _ _ = _ |- _ => apply clientURL_Ok in Hu as [Hs Hh] end.
  match goal with Ht : clientTimeout _ _ = _ |- _ => apply clientTimeout_Ok in Ht end.
  match goal with Hc : clientCredentials _ _ _ = _ |- _ => apply clientCredentials_Ok in Hc as (-> & Hp & Hv) end.
  constructor; try done. intros descriptor Hd. split; [done|by apply Hv].
Qed.

(** C12: A client that one of the nineteen [New]s accepts has a default route that is
    not blank - as it was given in Binance Spot, trimmed in every other client - and
    a positive timeout, talks HTTPS unless plain HTTP was allowed, to a host
    without user information, query or fragment; it has a credential provider
    exactly when it has a credential, and that credential is the configured one,
    valid and of the client's own exchange. *)
Theorem constructed_clients_are_sound (x : RestExchange) parse (given : GivenOf x) config client :
  NewOf x parse given config = Ok client →
  sound_client (if decide (x = RestBinance) then id else TrimSpace) (nameOf x) config client.
Proof. destruct x; simpl; intros H; eapply newClient_sound; exact H. Qed.

(** ** Private calls *)

Section private_calls.
Context `{Library} {Args Own : Type} `{SignedClientLaws Args Own}.
Context (parseTime : string → option Z) (executor : Executor) (client : Client Own) (args : Args)
  (ctx : bool) (options : list (option RequestOption)) (calls : Z → callEnv) (backend : memoryBackend).

(** C10: A private request leaves only through the route that the call's options
    name, and only for a client with a credential and its provider whose account
    may use that route and has the permission of the call. *)
Theorem private_requests_are_entitled route request :
  Sent route request ∈ (private_call parseTime executor client args ctx options calls backend).1.2 →
  ∃ resolved descriptor,
    resolveOptions client options = Ok resolved ∧ route = EgressRouteID resolved ∧
    entitled client route (permission_of args) descriptor.
Proof.
  destruct (private_call_is parseTime executor client args) as (Limit & label & limits & observe & missing & ->).
  intros (resolved & descriptor & k & material & signed & Hr & -> & He & _)%privateCall_sent. eauto.
Qed.

(** C11: A private call without an entitled account returns an authentication
    error when the client has no credential or provider and an authorization
    error when the account may not use the route or lacks the permission; it
    sends nothing, asks for no secret and charges no rate limit. *)
Theorem refused_private_calls_leave_no_trace resolved :
  resolveOptions client options = Ok resolved →
  (∀ descriptor, ¬ entitled client (EgressRouteID resolved) (permission_of args) descriptor) →
  ∃ account cause,
    private_call parseTime executor client args ctx options calls backend =
    (backend, [], Returned (emptyResponse, Some (accountError exchange_of
       (if bool_decide (is_Some (client_credentials client)) && client_credentialProvider client
        then ErrorAuthorization else ErrorAuthentication) account cause))).
Proof.
  intros Hr Hn.
  destruct (private_call_is parseTime executor client args) as (Limit & label & limits & observe & missing & ->).
  destruct (privateCall_refused parseTime executor exchange_of label client limits observe missing needs_passphrase
    (sign_request client args) (permission_of args) (operation_of args) ctx options calls backend resolved Hr Hn)
    as (category & account & cause & -> & ->). by exists account, cause.
Qed.
End private_calls.


(** ** A client and its calls *)

Section demo.

#[local] Instance demo_library : Library := {
  HMAC_SHA256 secret payload := secret +:+ payload;
  HMAC_SHA512 secret payload := secret +:+ payload;
  SHA256 s := s;
  SHA512 s := s;
  EncodeHex s := s;
  EncodeBase64 s := s;
  EncodeRawURLBase64 s := s;
  DecodeBase64 s := Ok s;
  FormatTime _ t := pretty t;
  SignEd25519 key s := Ok s;
  ParseP256Key key := Ok key;
  SignES256 key s := Ok s;
  MarshalFields _ := "{}"
}.

Definition demo_url : ParsedURL := MkParsedURL (MkURL "https" "www.okx.com" false "") "" "" "https://www.okx.com".
Definition demo_descriptor : Descriptor := MkDescriptor "main" ExchangeOKX "vault" ["read"] ["seoul"].
Definition demo_config : Config := MkConfig true (Some demo_descriptor) true " seoul " "" false 0.

Definition demo_okx : Client OKX.okxSettings :=
  MkClient (Some demo_descriptor) true "seoul" demo_url (10 * Second) (OKX.MkSettings false).

Lemma demo_okx_New : OKX.New (λ _, Some demo_url) false demo_config = Ok demo_okx.
Proof. by vm_compute. Qed.

Definition demo_executor : Executor := MkExecutor 1000 (MkReadRetryPolicy 2 0 0) false.
Definition demo_now : Z := unixEpoch + 1700000000 * Second.

(** The first attempt fails on its way, the second is answered. *)
Definition demo_call (attempt : Z) : callEnv :=
  MkCallEnv
    (MkAttemptEnv [MkWaitIteration id demo_now demo_now None] (Ok None)
       (if bool_decide (attempt = 1) then Err (Errorf "connection reset")
        else Ok (MkHTTPResponse 200 ∅ (MkBody [] None))) None demo_now 1 0 None)
    (Ok (MkSecretMaterial "key" "secret" "phrase")) demo_now (Ok "nonce") 0 0.

Definition demo_args : privateRequest * EndpointLimits.OKX.endpointLimit :=
  (MkPrivateRequest "GET" "/api/v5/account/balance" ∅ "" "read" OperationRead,
   EndpointLimits.OKX.accountLimit 10 (2 * Second) "").

Definition demo_result : call_result :=
  private_call (λ _, None) demo_executor demo_okx demo_args true [] demo_call newMemoryBackend.

(** What leaves; the hash of this library is the secret and the text. *)
Definition demo_request : Request :=
  MkRequest "GET" (Some "/api/v5/account/balance") "www.okx.com" ""
    (list_to_map [("Accept", "application/json"); ("Content-Type", "application/json"); ("User-Agent", "cex-sdk-go/0");
                  ("Ok-Access-Key", "key"); ("Ok-Access-Passphrase", "phrase");
                  ("Ok-Access-Timestamp", pretty demo_now);
                  ("Ok-Access-Sign", "secret" +:+ pretty demo_now +:+ "GET/api/v5/account/balance")]) "".

Lemma demo_events : demo_result.1.2 = [Built; Sent "seoul" demo_request; Built; Sent "seoul" demo_request].
Proof. by vm_compute. Qed.

Lemma constructed_clients_are_sound_witness : sound_client TrimSpace ExchangeOKX demo_config demo_okx.
Proof. apply (constructed_clients_are_sound RestOKX (λ _, Some demo_url) false demo_config demo_okx demo_okx_New). Defined.

Lemma private_requests_are_entitled_witness :
  ∃ resolved descriptor, resolveOptions demo_okx [] = Ok resolved ∧ "seoul" = EgressRouteID resolved ∧
    entitled demo_okx "seoul" (permission_of demo_args) descriptor.
Proof.
  apply (private_requests_are_entitled (λ _, None) demo_executor demo_okx demo_args true [] demo_call
    newMemoryBackend "seoul" demo_request).
  fold demo_result. rewrite demo_events. right. by left.
Defined.


(** The same account may not use another route. *)
Lemma refused_private_calls_leave_no_trace_witness :
  ∃ account cause,
    private_call (λ _, None) demo_executor demo_okx demo_args true [Some (WithEgressRoute "tokyo")] demo_call
      newMemoryBackend =
    (newMemoryBackend, [], Returned (emptyResponse,
       Some (accountError (@exchange_of _ _ okx_signed) ErrorAuthorization account cause))).
Proof.
  apply (refused_private_calls_leave_no_trace (λ _, None) demo_executor demo_okx demo_args true
    [Some (WithEgressRoute "tokyo")] demo_call newMemoryBackend (MkRequestOptions "tokyo" (10 * Second))).
  - by vm_compute.
  - intros descriptor ([= <-] & _ & Hroute & _). apply list_elem_of_singleton in Hroute. done.
Defined.

End demo.
