(* ===== verification/Endpoints.v ===== *)
(** * The methods of the REST clients: [exchange/*/orders.go], [account.go], [market.go]

    A method checks its request, sends it by [executePrivate] or [executePublic],
    and decodes the answer.  [clientMethod] is these three parts, so that what is
    common to the methods is proved once; the functions that put a request into
    parameters, which every [requests.go] repeats, are here too. *)

From S2P Require Import Prelude GoStrings Decimals Errors Options Credential RateLimit Executor Session Unified.
From S2P Require Import ClientErrors SpotAdapter StreamClient EndpointLimits RestClient HMACClients TokenClients RestSafety.

(** ** Parameters *)

Definition setIfNotEmpty (values : Values) (key value : string) : Values :=
  if bool_decide (value = "") then values else Values_Set values key value.
Definition setPositiveInt (values : Values) (key : string) (value : Z) : Values :=
  if bool_decide (0 < value) then Values_Set values key (pretty value) else values.
Definition setTime (values : Values) (key : string) (value : option Z) : Values :=
  match value with Some t => Values_Set values key (pretty (UnixMilli t)) | None => values end.

(** [url.PathEscape], one segment of a path. *)
Definition PathEscape : string → string := escape (λ c,
  if unreserved c || bool_decide (Ascii.N_of_ascii c ∈ [36; 38; 43; 58; 61; 64]%N) then String c "" else percent c).

(** The members of a JSON object, with and without [omitempty]. *)
Definition textField (name value : string) : list (string * field) := [(name, FieldText value)].
Definition optionalField (name value : string) : list (string * field) :=
  if bool_decide (value = "") then [] else [(name, FieldText value)].
Definition optionalInteger (name : string) (value : Z) : list (string * field) :=
  if bool_decide (value = 0) then [] else [(name, FieldInteger value)].
Definition optionalTruth (name : string) (value : bool) : list (string * field) :=
  if value then [(name, FieldTruth value)] else [].

(** [parameters] of Upbit and Bithumb, which keep their order; [jsonText] encodes a
    string. *)
Definition addText (values : parameters) (key value : string) : parameters :=
  if bool_decide (value = "") then values else values ++ [(key, value)].
Definition addInt (values : parameters) (key : string) (value : Z) : parameters :=
  if bool_decide (0 < value) then addText values key (pretty value) else values.
Definition addBool (values : parameters) (key : string) (value : bool) : parameters :=
  if value then addText values key "true" else values.
Definition addTexts (values : parameters) (key : string) (texts : list string) : parameters :=
  foldl (λ values text, addText values key text) values texts.
Definition encodeOrderBody (jsonText : string → string) (params : parameters) : string :=
  "{" +:+ Join ((λ value : string * string, jsonText value.1 +:+ ":" +:+ jsonText value.2) <$> params) "," +:+ "}".

(** [request.Limit < low || request.Limit > high]. *)
Definition outside (low z high : Z) : bool := bool_decide (z < low) || bool_decide (high < z).

(** Optional texts that Go checks in the order of a map: the order only decides
    which error comes first. *)
Definition validateOptionalTexts (texts : list (string * string)) : result error unit :=
  fold_result (λ _ text, validateOptionalText text.1 text.2) tt texts.

(** Texts that are valid one by one and distinct. *)
Fixpoint validateDistinct (check : string → result error unit) (duplicate : error) (seen values : list string)
    : result error unit :=
  match values with
  | [] => Ok tt
  | value :: values =>
      check value;;
      require (negb (bool_decide (value ∈ seen))) duplicate;;
      validateDistinct check duplicate (value :: seen) values
  end.

(** A filter, which is sent with commas between its texts. *)
Definition validateFilter (name comma duplicate : string) : list string → result error unit :=
  validateDistinct (λ value, validateRequiredText name value;; refuse (Contains value ",") comma)
    (validationError duplicate) [].

(** Both times are set, and the first is after the second, or more than a duration before it. *)
Definition startsAfter (start finish : option Z) : bool :=
  match start, finish with Some s, Some f => bool_decide (f < s) | _, _ => false end.
Definition longerThan (start finish : option Z) (duration : Z) : bool :=
  match start, finish with Some s, Some f => bool_decide (duration < Time_Sub f s) | _, _ => false end.

(** A time that is set but not after the Unix epoch, in seconds or in milliseconds. *)
Definition beforeEpoch (value : option Z) : bool :=
  match value with Some t => bool_decide (Unix t ≤ 0) | None => false end.
Definition beforeEpochMilli (value : option Z) : bool :=
  match value with Some t => bool_decide (UnixMilli t ≤ 0) | None => false end.
Definition setSeconds (values : Values) (key : string) (value : option Z) : Values :=
  match value with Some t => Values_Set values key (pretty (Unix t)) | None => values end.

(** ** Methods *)

Record clientMethod (Request A : Type) : Type := MkMethod {
  method_check : result error unit;
  method_request : Request;
  method_answer : Response → result error A
}.
Arguments MkMethod {Request A} _ _ _.
Arguments method_check {Request A} _.
Arguments method_request {Request A} _.
Arguments method_answer {Request A} _ _.

Definition answered {A} (answer : Response → result error A) (r : call_result)
    : memoryBackend * list event * outcome (result error A) :=
  let '(backend, events, out) := r in
  (backend, events,
   match out with
   | Returned (response, None) => Returned (answer response)
   | Returned (_, Some err) => Returned (Err err)
   | Panicked => Panicked
   | Blocked => Blocked
   end).

(** Calling a method of a client that sends requests with [send]. *)
Definition callMethod {Request A} (send : Request → memoryBackend → call_result)
    (method : clientMethod Request A) (backend : memoryBackend)
    : memoryBackend * list event * outcome (result error A) :=
  match method_check method with
  | Err err => (backend, [], Returned (Err err))
  | Ok _ => answered (method_answer method) (send (method_request method) backend)
  end.

(** The requests of the methods: most reads are a GET with a query; a change is a
    POST with a JSON body, or a DELETE with a query. *)
Definition getRead (path : string) (values : Values) : privateRequest :=
  MkPrivateRequest "GET" path values "" PermissionRead OperationRead.
Definition formRead (path : string) (values : Values) : privateRequest :=
  MkPrivateRequest "POST" path values "" PermissionRead OperationRead.
Definition postTrade (path : string) (body : string) : privateRequest :=
  MkPrivateRequest "POST" path ∅ body PermissionTrade OperationMutation.
Definition changeValues (method path : string) (values : Values) : privateRequest :=
  MkPrivateRequest method path values "" PermissionTrade OperationMutation.

(** ** [encoding/json]

    [Unmarshal type text] reads a Go struct of the client, of which [Text],
    [Integer] and [Items] are members by their JSON names: a text, a number, and
    an array of [json.RawMessage].  [RawItems] and [RawEntries] read an array and an
    object by themselves. *)
Class Decoder : Type := {
  decoded : Type;
  Unmarshal : string → string → result error decoded;
  RawItems : string → result error (list string);
  RawEntries : string → result error (gmap string string);
  Text : decoded → string → string;
  Integer : decoded → string → Z;
  Items : decoded → string → list string
}.

(** A list of items with the cursor of the next page and the text it came from. *)
Record page (A : Type) : Type := MkPage { page_items : list A; page_cursor : string; page_raw : string }.
Arguments MkPage {A} _ _ _.
Arguments page_items {A} _.
Arguments page_cursor {A} _.
Arguments page_raw {A} _.

(** [return Zero, client.decodeBodyError(...)] for a failed decoding. *)
Definition orBody {A} (bodyError : error → error) (r : result error A) : result error A :=
  match r with Ok a => Ok a | Err err => Err (bodyError err) end.

(** [client.clockOffsetMillis.Store(serverMillis - midpointMillis)] of the methods
    that read the exchange's clock: the midpoint of the client's own clock before
    and after. *)
Definition clockOffset (startedAt finishedAt serverMillis : Z) : Z :=
  int64 (serverMillis - int64 (UnixMilli startedAt + Z.quot (Z.quot (Time_Sub finishedAt startedAt) Millisecond) 2)).

(** A list whose items are decoded one by one. *)
Definition decodeEach `{Decoder} (type : string) (rawItems : list string) : result error (list decoded) :=
  mapM (Unmarshal type) rawItems.

(** The entries of a JSON object in the order of [sort.Strings]. *)
Definition key_le (e f : string * string) : Prop := string_le e.1 f.1.

#[export] Instance key_le_dec : RelDecision key_le.
Proof. intros e f. unfold key_le, string_le. apply _. Defined.

Definition sortedEntries (entries : gmap string string) : list (string * string) :=
  merge_sort key_le (map_to_list entries).

(** The only item that a caller wants of a list. *)
Definition firstItem {A} (missing : error) (items : list A) : result error A :=
  match items with item :: _ => Ok item | [] => Err missing end.

(** ** What every method does *)

Section methods.
Context {Request A : Type} (send : Request → memoryBackend → call_result).

(** A request that its method refuses goes nowhere. *)
Lemma callMethod_refused (method : clientMethod Request A) backend err :
  method_check method = Err err → callMethod send method backend = (backend, [], Returned (Err err)).
Proof. unfold callMethod. by intros ->. Qed.

(** What leaves is what the client sends for the method's request. *)
Lemma callMethod_sent (method : clientMethod Request A) backend e :
  e ∈ (callMethod send method backend).1.2 →
  method_check method = Ok tt ∧ e ∈ (send (method_request method) backend).1.2.
Proof.
  unfold callMethod. destruct (method_check method) as [[]|]; simpl; [|set_solver].
  unfold answered. by destruct (send _ _) as [[? ?] ?].
Qed.
End methods.
