(* ===== verification/BinanceEndpoints.v ===== *)
(** * The methods of the Binance Spot client: [exchange/binance/client.go], [order_queries.go], [market.go], [requests.go], [market_requests.go] *)

From S2P Require Import Prelude GoStrings GoStrconv Decimals Errors Credential RateLimit Executor Unified ClientErrors SpotAdapter BinanceSpot Clients.
From S2P Require Import EndpointLimits RestClient HMACClients RestSafety Endpoints.

Module BinanceApi.
Import BinanceSpot.Binance.

Section methods.
(** [specs] are the limits of the catalogue and [headers] an answer's headers, in
    the orders in which their maps give them. *)
Context `{Library} `{Decoder} (now : Z) (specs : list EndpointLimits.Binance.limitSpec).
Context (headers : Response → list (string * list string)).
Context (accountID : string) (unmarshal : unmarshals Clients.Binance.payload).

Definition decodeError := Clients.Binance.decodeError accountID unmarshal.
Definition ensureSuccess : Response → Z → result error unit := Clients.Binance.ensureSuccess accountID unmarshal.
Definition decodeJSON {A} : (string → result error A) → string → result error A := Clients.Binance.decodeJSON.

Abbreviation signed A :=
  (clientMethod (Z * list EndpointLimits.Binance.limitSpec * (Response → list (string * list string)) * privateRequest * Z * Z) A).
Abbreviation unsigned A :=
  (clientMethod (Z * list EndpointLimits.Binance.limitSpec * (Response → list (string * list string)) * string * Values * Z) A).

Definition private (request : privateRequest) (requestWeight orderUnits : Z) :=
  (now, specs, headers, request, requestWeight, orderUnits).
Definition public (path : string) (values : Values) (requestWeight : Z) :=
  (now, specs, headers, path, values, requestWeight).

(** ** Answers *)

Definition valueAnswer (type : string) (response : Response) : result error decoded :=
  ensureSuccess response OperationRead;;
  decodeJSON (Unmarshal type) (body_text response).

Definition decodeOrders (body : string) : result error (list decoded) :=
  rawOrders ← decodeJSON RawItems body;
  mapM (decodeJSON (Unmarshal "Order")) rawOrders.

Definition ordersAnswer (response : Response) : result error (list decoded) :=
  ensureSuccess response OperationRead;;
  decodeOrders (body_text response).

(** ** Orders *)

Definition setInt64 (values : Values) (key : string) (value : option Z) : Values :=
  match value with Some n => Values_Set values key (pretty n) | None => values end.

Definition NewOrderRequest_values (request : NewOrderRequest) : Values :=
  let values := Values_Set ∅ "symbol" (Symbol request) in
  let values := Values_Set values "side" (Side request) in
  let values := Values_Set values "type" (Type_ request) in
  let values := setIfNotEmpty values "timeInForce" (TimeInForce request) in
  let values := setIfNotEmpty values "quantity" (Quantity request) in
  let values := setIfNotEmpty values "quoteOrderQty" (QuoteOrderQuantity request) in
  let values := setIfNotEmpty values "price" (Price request) in
  let values := setIfNotEmpty values "newClientOrderId" (ClientOrderID request) in
  let values := setInt64 values "strategyId" (StrategyID request) in
  let values := setInt64 values "strategyType" (StrategyType request) in
  let values := setIfNotEmpty values "stopPrice" (StopPrice request) in
  let values := setInt64 values "trailingDelta" (TrailingDelta request) in
  let values := setIfNotEmpty values "icebergQty" (IcebergQuantity request) in
  let values := setIfNotEmpty values "newOrderRespType" (ResponseType request) in
  let values := setIfNotEmpty values "selfTradePreventionMode" (SelfTradePreventionMode request) in
  let values := setIfNotEmpty values "pegPriceType" (PegPriceType request) in
  let values := setInt64 values "pegOffsetValue" (PegOffsetValue request) in
  setIfNotEmpty values "pegOffsetType" (PegOffsetType request).

Definition NewOrder (request : NewOrderRequest) : signed decoded :=
  MkMethod (NewOrderRequest_validate request)
    (private (changeValues "POST" "/api/v3/order" (NewOrderRequest_values request)) 1 1)
    (Clients.Binance.NewOrder accountID unmarshal (Unmarshal "Order")).

Definition QueryOrderRequest_values (request : QueryOrderRequest) : Values :=
  let values := setInt64 (Values_Set ∅ "symbol" (query_Symbol request)) "orderId" (query_OrderID request) in
  setIfNotEmpty values "origClientOrderId" (query_OriginalClientOrderID request).

Definition QueryOrder (request : QueryOrderRequest) : signed decoded :=
  MkMethod (QueryOrderRequest_validate request)
    (private (getRead "/api/v3/order" (QueryOrderRequest_values request)) 4 0) (valueAnswer "Order").

Definition CancelOrderRequest_values (request : CancelOrderRequest) : Values :=
  let values := setInt64 (Values_Set ∅ "symbol" (cancel_Symbol request)) "orderId" (cancel_OrderID request) in
  let values := setIfNotEmpty values "origClientOrderId" (cancel_OriginalClientOrderID request) in
  let values := setIfNotEmpty values "newClientOrderId" (cancel_NewClientOrderID request) in
  setIfNotEmpty values "cancelRestrictions" (cancel_Restriction request).

Definition CancelOrder (request : CancelOrderRequest) : signed decoded :=
  MkMethod (CancelOrderRequest_validate request)
    (private (changeValues "DELETE" "/api/v3/order" (CancelOrderRequest_values request)) 1 0)
    (λ response,
       ensureSuccess response OperationMutation;;
       decodeJSON (Unmarshal "Order") (body_text response)).

(** All symbols cost more. *)
Definition OpenOrders (request : NativeOpenOrdersRequest) : signed (list decoded) :=
  MkMethod (OpenOrdersRequest_validate request)
    (if AllSymbols request then private (getRead "/api/v3/openOrders" ∅) 80 0
     else private (getRead "/api/v3/openOrders" (Values_Set ∅ "symbol" (native_Symbol request))) 6 0)
    ordersAnswer.

Record AllOrdersRequest : Type := MkAllOrders {
  all_Symbol : string;
  all_OrderID : option Z;
  all_StartTime : option Z;
  all_EndTime : option Z;
  all_Limit : Z
}.

Definition AllOrdersRequest_validate (request : AllOrdersRequest) : result error unit :=
  validateSymbol (all_Symbol request);;
  refuse (match all_OrderID request with Some n => bool_decide (n ≤ 0) | None => false end) "orderId must be positive";;
  refuse (outside 0 (all_Limit request) 1000) "all orders limit must be between 1 and 1000 or zero for default";;
  refuse (startsAfter (all_StartTime request) (all_EndTime request)) "startTime cannot be after endTime";;
  refuse (longerThan (all_StartTime request) (all_EndTime request) (24 * 60 * Minute))
    "startTime and endTime cannot span more than 24 hours".

Definition AllOrdersRequest_values (request : AllOrdersRequest) : Values :=
  let values := setInt64 (Values_Set ∅ "symbol" (all_Symbol request)) "orderId" (all_OrderID request) in
  let values := setTime (setTime values "startTime" (all_StartTime request)) "endTime" (all_EndTime request) in
  setPositiveInt values "limit" (all_Limit request).

Definition AllOrders (request : AllOrdersRequest) : signed (list decoded) :=
  MkMethod (AllOrdersRequest_validate request)
    (private (getRead "/api/v3/allOrders" (AllOrdersRequest_values request)) 20 0) ordersAnswer.

(** ** Account *)

Definition Account (omitZeroBalances : bool) : signed decoded :=
  MkMethod (Ok tt)
    (private (getRead "/api/v3/account" (if omitZeroBalances then Values_Set ∅ "omitZeroBalances" "true" else ∅)) 20 0)
    (valueAnswer "Account").

(** ** Market data *)

Definition Ping : unsigned unit :=
  MkMethod (Ok tt) (public "/api/v3/ping" ∅ 1) (λ response, valueAnswer "map[string]json.RawMessage" response;; Ok tt).

(** The server's time and the offset that the client's clock gets; [startedAt] is
    read when the request is built and [finishedAt] after its answer. *)
Definition ServerTime (startedAt finishedAt : Z) : unsigned (Z * Z) :=
  MkMethod (Ok tt) (public "/api/v3/time" ∅ 1)
    (λ response,
       payload ← valueAnswer "ServerTime" response;
       let serverTime := Integer payload "serverTime" in
       require (bool_decide (0 < serverTime))
         (decodeError response OperationRead (Some (Errorf "invalid server time")));;
       Ok (serverTime, clockOffset startedAt finishedAt serverTime)).

(** The rules of the exchange and the catalogue of limits after them;
    [rateLimits] reads the member of that name. *)
Definition ExchangeInfo (rateLimits : decoded → list EndpointLimits.RateLimitInfo) (limits : EndpointLimits.Binance.limitCatalog)
    (symbol : string) : unsigned (decoded * EndpointLimits.Binance.limitCatalog) :=
  MkMethod (if negb (unset symbol) then validateSymbol symbol else Ok tt)
    (public "/api/v3/exchangeInfo" (setIfNotEmpty ∅ "symbol" symbol) 20)
    (λ response,
       info ← valueAnswer "ExchangeInfo" response;
       Ok (info, EndpointLimits.Binance.update limits (rateLimits info))).

(** [TickerPriceRequest] and [BookTickerRequest] are a symbol. *)
Definition TickerPrice (symbol : string) : unsigned decoded :=
  MkMethod (validateSymbol symbol) (public "/api/v3/ticker/price" (Values_Set ∅ "symbol" symbol) 2)
    (valueAnswer "TickerPrice").
Definition BookTicker (symbol : string) : unsigned decoded :=
  MkMethod (validateSymbol symbol) (public "/api/v3/ticker/bookTicker" (Values_Set ∅ "symbol" symbol) 2)
    (valueAnswer "BookTicker").

(** [OrderBookRequest] and [RecentTradesRequest]: a symbol and a limit. *)
Definition OrderBookRequest_validate (symbol : string) (limit : Z) : result error unit :=
  validateSymbol symbol;;
  refuse (outside 0 limit 5000) "order book limit must be between 1 and 5000 or zero for default".
Definition RecentTradesRequest_validate (symbol : string) (limit : Z) : result error unit :=
  validateSymbol symbol;;
  refuse (outside 0 limit 1000) "recent trades limit must be between 1 and 1000 or zero for default".
Definition OrderBookRequest_values (symbol : string) (limit : Z) : Values :=
  setPositiveInt (Values_Set ∅ "symbol" symbol) "limit" limit.
Definition OrderBookRequest_weight (limit : Z) : Z :=
  if bool_decide (limit = 0 ∨ limit ≤ 100) then 5
  else if bool_decide (limit ≤ 500) then 25
  else if bool_decide (limit ≤ 1000) then 50
  else 250.

Definition OrderBook (symbol : string) (limit : Z) : unsigned decoded :=
  MkMethod (OrderBookRequest_validate symbol limit)
    (public "/api/v3/depth" (OrderBookRequest_values symbol limit) (OrderBookRequest_weight limit))
    (valueAnswer "OrderBook").

Definition RecentTrades (symbol : string) (limit : Z) : unsigned decoded :=
  MkMethod (RecentTradesRequest_validate symbol limit)
    (public "/api/v3/trades" (OrderBookRequest_values symbol limit) 25) (valueAnswer "[]PublicTrade").

Definition KlineInterval_valid (interval : string) : bool :=
  bool_decide (interval ∈ ["1s"; "1m"; "3m"; "5m"; "15m"; "30m"; "1h"; "2h"; "4h"; "6h"; "8h"; "12h"; "1d"; "3d";
                           "1w"; "1M"]).

Record KlinesRequest : Type := MkKlines {
  klines_Symbol : string;
  Interval : string;
  klines_StartTime : option Z;
  klines_EndTime : option Z;
  TimeZone : string;
  klines_Limit : Z
}.

Definition KlinesRequest_validate (request : KlinesRequest) : result error unit :=
  validateSymbol (klines_Symbol request);;
  refuse (negb (KlineInterval_valid (Interval request))) "unsupported kline interval %q";;
  refuse (outside 0 (klines_Limit request) 1000) "kline limit must be between 1 and 1000 or zero for default";;
  refuse (startsAfter (klines_StartTime request) (klines_EndTime request)) "kline startTime cannot be after endTime";;
  refuse (negb (unset (TimeZone request)) && negb (bool_decide (TrimSpace (TimeZone request) = TimeZone request)))
    "kline timeZone cannot have surrounding whitespace".

Definition KlinesRequest_values (request : KlinesRequest) : Values :=
  let values := Values_Set (Values_Set ∅ "symbol" (klines_Symbol request)) "interval" (Interval request) in
  let values := setTime (setTime values "startTime" (klines_StartTime request)) "endTime" (klines_EndTime request) in
  setPositiveInt (setIfNotEmpty values "timeZone" (TimeZone request)) "limit" (klines_Limit request).

Definition Klines (request : KlinesRequest) : unsigned decoded :=
  MkMethod (KlinesRequest_validate request)
    (public "/api/v3/klines" (KlinesRequest_values request) 2) (valueAnswer "[]Kline").
End methods.
End BinanceApi.
