(* ===== verification/OKXEndpoints.v ===== *)
(** * The methods of the OKX client: [exchange/okx/orders.go], [account.go], [market.go], [requests.go] *)

From S2P Require Import Prelude GoStrings GoStrconv Decimals Errors Credential RateLimit Executor Unified ClientErrors SpotAdapter OKXSpot Clients.
From S2P Require Import EndpointLimits RestClient HMACClients RestSafety Endpoints.

Module OKXApi.
Import OKXSpot.OKX.

Section methods.
Context `{Library} `{Decoder} (accountID : string) (unmarshal : unmarshals Clients.OKX.envelope).

Definition responseData := Clients.OKX.responseData accountID unmarshal.
Definition decodeBodyError := Clients.OKX.decodeBodyError accountID.

Definition accountLimit (requests : Z) := EndpointLimits.OKX.accountLimit requests (2 * Second).
Definition publicLimit (requests : Z) := EndpointLimits.OKX.publicLimit requests (2 * Second).

(** [executeSigned] and [executePublic] take these. *)
Abbreviation signed A := (clientMethod (privateRequest * EndpointLimits.OKX.endpointLimit) A).
Abbreviation unsigned A := (clientMethod (string * Values * EndpointLimits.OKX.endpointLimit) A).

(** ** Answers *)

Definition decodeData {A} : (string → result error A) → string → result error A := Clients.OKX.decodeData.

Definition decodeItems (type : string) (raw : string) : result error (list decoded) :=
  rawItems ← decodeData RawItems raw;
  mapM (decodeData (Unmarshal type)) rawItems.

Definition listAnswer (type : string) (response : Response) : result error (list decoded) :=
  data ← responseData response OperationRead;
  orBody (decodeBodyError response OperationRead) (decodeItems type data).

Definition firstAnswer (type missing : string) (response : Response) : result error decoded :=
  data ← responseData response OperationRead;
  orBody (decodeBodyError response OperationRead)
    (items ← decodeItems type data; firstItem (Errorf missing) items).

Definition readReference (raw : string) : result error Clients.OKX.OrderReference :=
  item ← Unmarshal "OrderReference" raw;
  Ok (Clients.OKX.MkReference (Text item "sCode") (Text item "sMsg") (Text item "ordId") (Text item "clOrdId")).

Definition referenceAnswer : Response → result error Clients.OKX.OrderReference :=
  Clients.OKX.PlaceOrder accountID unmarshal RawItems readReference.

Definition decodeOrderPage (response : Response) : result error (page decoded) :=
  data ← responseData response OperationRead;
  orders ← orBody (decodeBodyError response OperationRead) (decodeItems "Order" data);
  Ok (MkPage orders "" data).

(** ** Orders *)

(** [encodeBody] of the requests with a body. *)
Definition PlaceOrderRequest_fields (request : NativePlaceOrder) : list (string * field) :=
  textField "instId" (InstrumentID request) ++ textField "tdMode" (TradeMode request) ++
  optionalField "clOrdId" (ClientOrderID request) ++ textField "side" (Side request) ++
  optionalField "posSide" (PositionSide request) ++ textField "ordType" (OrderType request) ++
  textField "sz" (Quantity request) ++ optionalField "px" (Price request) ++
  optionalTruth "reduceOnly" (ReduceOnly request) ++ optionalField "tgtCcy" (TargetCurrency request).

Definition CancelOrderRequest_fields (request : OrderIdentity) : list (string * field) :=
  textField "instId" (id_InstrumentID request) ++ optionalField "ordId" (id_OrderID request) ++
  optionalField "clOrdId" (id_ClientOrderID request).

Definition PlaceOrder (request : NativePlaceOrder) : signed Clients.OKX.OrderReference :=
  MkMethod (PlaceOrderRequest_validate request)
    (postTrade "/api/v5/trade/order" (MarshalFields (PlaceOrderRequest_fields request)), accountLimit 60 (InstrumentID request))
    referenceAnswer.

Definition CancelOrder (request : OrderIdentity) : signed Clients.OKX.OrderReference :=
  MkMethod (OrderIdentity_validate request)
    (postTrade "/api/v5/trade/cancel-order" (MarshalFields (CancelOrderRequest_fields request)), accountLimit 60 (id_InstrumentID request))
    referenceAnswer.

Definition OrderInfoRequest_values (request : OrderIdentity) : Values :=
  let values := Values_Set ∅ "instId" (id_InstrumentID request) in
  let values := setIfNotEmpty values "ordId" (id_OrderID request) in
  setIfNotEmpty values "clOrdId" (id_ClientOrderID request).

Definition OrderInfo (request : OrderIdentity) : signed decoded :=
  MkMethod (OrderIdentity_validate request)
    (getRead "/api/v5/trade/order" (OrderInfoRequest_values request),
     accountLimit 60 (id_InstrumentID request))
    (λ response,
       data ← responseData response OperationRead;
       items ← orBody (decodeBodyError response OperationRead) (decodeItems "Order" data);
       firstItem (Clients.OKX.decodeError accountID response "51603" "order does not exist" OperationRead None) items).

Definition instrumentTypeValues (instrumentType : string) : Values := Values_Set ∅ "instType" instrumentType.

Definition setOrderListValues (values : Values) (instrumentID orderType state after before : string)
    (begin finish : option Z) (limit : Z) : Values :=
  let values := setIfNotEmpty values "instId" instrumentID in
  let values := setIfNotEmpty values "ordType" orderType in
  let values := setIfNotEmpty values "state" state in
  let values := setIfNotEmpty values "after" after in
  let values := setIfNotEmpty values "before" before in
  let values := setTime values "begin" begin in
  let values := setTime values "end" finish in
  setPositiveInt values "limit" limit.

Definition OpenOrdersRequest_values (request : NativeOpenOrders) : Values :=
  setOrderListValues (instrumentTypeValues (open_InstrumentType request)) (open_InstrumentID request)
    (open_OrderType request) "" (AfterOrderID request) (BeforeOrderID request) None None (Limit request).

Definition OpenOrders (request : NativeOpenOrders) : signed (page decoded) :=
  MkMethod (OpenOrdersRequest_validate request)
    (getRead "/api/v5/trade/orders-pending" (OpenOrdersRequest_values request), accountLimit 60 "")
    decodeOrderPage.

Record OrderHistoryRequest : Type := MkOrderHistory {
  history_InstrumentType : string;
  history_InstrumentID : string;
  history_OrderType : string;
  history_State : string;
  history_AfterOrderID : string;
  history_BeforeOrderID : string;
  history_BeginTime : option Z;
  history_EndTime : option Z;
  history_Limit : Z
}.

Definition OrderHistoryRequest_validate (request : OrderHistoryRequest) : result error unit :=
  validateInstrumentType (history_InstrumentType request);;
  validateOptionalText "instId" (history_InstrumentID request);;
  refuse (negb (unset (history_OrderType request)) && negb (OrderType_valid (history_OrderType request)))
    "unsupported order type %q";;
  validateOptionalText "state" (history_State request);;
  refuse (startsAfter (history_BeginTime request) (history_EndTime request))
    "order history begin time cannot be after end time";;
  refuse (longerThan (history_BeginTime request) (history_EndTime request) (7 * 24 * 60 * Minute))
    "order history time range cannot exceed 7 days";;
  validateOrderPage (history_AfterOrderID request) (history_BeforeOrderID request) (history_Limit request).

Definition OrderHistoryRequest_values (request : OrderHistoryRequest) : Values :=
  setOrderListValues (instrumentTypeValues (history_InstrumentType request)) (history_InstrumentID request)
    (history_OrderType request) (history_State request) (history_AfterOrderID request)
    (history_BeforeOrderID request) (history_BeginTime request) (history_EndTime request) (history_Limit request).

Definition OrderHistory (request : OrderHistoryRequest) : signed (page decoded) :=
  MkMethod (OrderHistoryRequest_validate request)
    (getRead "/api/v5/trade/orders-history" (OrderHistoryRequest_values request), accountLimit 40 "")
    decodeOrderPage.

(** ** Account *)

Definition BalanceRequest_validate (Currencies : list string) : result error unit :=
  validateFilter "ccy" "currency cannot contain a comma" "duplicate currency %q" Currencies.
Definition BalanceRequest_values (Currencies : list string) : Values :=
  if bool_decide (Currencies = []) then ∅ else Values_Set ∅ "ccy" (Join Currencies ",").

(** [BalanceRequest] has one field. *)
Definition Balance (Currencies : list string) : signed decoded :=
  MkMethod (BalanceRequest_validate Currencies)
    (getRead "/api/v5/account/balance" (BalanceRequest_values Currencies), accountLimit 10 "")
    (firstAnswer "Balance" "OKX balance response is empty").

Record PositionsRequest : Type := MkPositions {
  positions_InstrumentType : string;
  positions_InstrumentID : string;
  PositionID : string
}.

Definition PositionsRequest_validate (request : PositionsRequest) : result error unit :=
  refuse (negb (bool_decide (positions_InstrumentType request = InstrumentTypeSwap)))
    "positions support only SWAP instrument type";;
  validateOptionalText "instId" (positions_InstrumentID request);;
  validateOptionalText "posId" (PositionID request).

Definition PositionsRequest_values (request : PositionsRequest) : Values :=
  let values := instrumentTypeValues (positions_InstrumentType request) in
  let values := setIfNotEmpty values "instId" (positions_InstrumentID request) in
  setIfNotEmpty values "posId" (PositionID request).

Definition Positions (request : PositionsRequest) : signed (list decoded) :=
  MkMethod (PositionsRequest_validate request)
    (getRead "/api/v5/account/positions" (PositionsRequest_values request), accountLimit 10 "")
    (listAnswer "Position").

(** ** Market data *)

(** The answer of [ServerTime]: the exchange's clock in milliseconds. *)
Definition serverMillis (response : Response) : result error Z :=
  data ← responseData response OperationRead;
  orBody (decodeBodyError response OperationRead)
    (items ← decodeItems "serverTime" data;
     item ← firstItem (Errorf "OKX server time response is empty") items;
     match ParseInt (Text item "ts") with
     | None => Err (Errorf "strconv.ParseInt")
     | Some millis => require (bool_decide (0 < millis)) (Errorf "invalid OKX server time");; Ok millis
     end).

Definition ServerTime : unsigned Z := MkMethod (Ok tt) ("/api/v5/public/time", ∅, publicLimit 10 "") serverMillis.

Record InstrumentsRequest : Type := MkInstruments {
  instruments_InstrumentType : string;
  Underlying : string;
  InstrumentFamily : string;
  instruments_InstrumentID : string
}.

Definition InstrumentsRequest_validate (request : InstrumentsRequest) : result error unit :=
  validateInstrumentType (instruments_InstrumentType request);;
  validateOptionalTexts [("uly", Underlying request); ("instFamily", InstrumentFamily request);
                         ("instId", instruments_InstrumentID request)];;
  refuse (bool_decide (instruments_InstrumentType request = InstrumentTypeSpot) &&
          (negb (unset (Underlying request)) || negb (unset (InstrumentFamily request))))
    "Spot instruments do not accept uly or instFamily".

Definition InstrumentsRequest_values (request : InstrumentsRequest) : Values :=
  let values := instrumentTypeValues (instruments_InstrumentType request) in
  let values := setIfNotEmpty values "uly" (Underlying request) in
  let values := setIfNotEmpty values "instFamily" (InstrumentFamily request) in
  setIfNotEmpty values "instId" (instruments_InstrumentID request).

Definition Instruments (request : InstrumentsRequest) : unsigned (list decoded) :=
  MkMethod (InstrumentsRequest_validate request)
    ("/api/v5/public/instruments", InstrumentsRequest_values request,
     publicLimit 20 (instruments_InstrumentType request))
    (listAnswer "Instrument").

(** [TickersRequest] has one field. *)
Definition Tickers (instrumentType : string) : unsigned (list decoded) :=
  MkMethod (validateInstrumentType instrumentType)
    ("/api/v5/market/tickers", instrumentTypeValues instrumentType, publicLimit 20 "")
    (listAnswer "Ticker").

(** [OrderBookRequest] and [RecentTradesRequest]: an instrument and a size. *)
Definition OrderBookRequest_validate (instrumentID : string) (size : Z) : result error unit :=
  validateRequiredText "instId" instrumentID;;
  refuse (outside 0 size 400) "order book size must be between 1 and 400 or zero for default".
Definition OrderBookRequest_values (instrumentID : string) (size : Z) : Values :=
  setPositiveInt (Values_Set ∅ "instId" instrumentID) "sz" size.

Definition OrderBook (instrumentID : string) (size : Z) : unsigned decoded :=
  MkMethod (OrderBookRequest_validate instrumentID size)
    ("/api/v5/market/books", OrderBookRequest_values instrumentID size, publicLimit 40 "")
    (firstAnswer "OrderBook" "OKX order book response is empty").

Definition RecentTradesRequest_validate (instrumentID : string) (limit : Z) : result error unit :=
  validateRequiredText "instId" instrumentID;;
  refuse (outside 0 limit 500) "recent trade limit must be between 1 and 500 or zero for default".
Definition RecentTradesRequest_values (instrumentID : string) (limit : Z) : Values :=
  setPositiveInt (Values_Set ∅ "instId" instrumentID) "limit" limit.

Definition RecentTrades (instrumentID : string) (limit : Z) : unsigned (list decoded) :=
  MkMethod (RecentTradesRequest_validate instrumentID limit)
    ("/api/v5/market/trades", RecentTradesRequest_values instrumentID limit, publicLimit 100 "")
    (listAnswer "PublicTrade").

Definition CandleInterval_valid (interval : string) : bool :=
  bool_decide (interval ∈ ["1m"; "3m"; "5m"; "15m"; "30m"; "1H"; "2H"; "4H"; "6H"; "12H"; "1D"; "2D"; "3D"; "1W";
    "1M"; "3M"]).

Record CandlesRequest : Type := MkCandles {
  candles_InstrumentID : string;
  Interval : string;
  candles_After : option Z;
  candles_Before : option Z;
  candles_Limit : Z
}.

Definition CandlesRequest_validate (request : CandlesRequest) : result error unit :=
  validateRequiredText "instId" (candles_InstrumentID request);;
  refuse (negb (CandleInterval_valid (Interval request))) "unsupported candle interval %q";;
  refuse (outside 0 (candles_Limit request) 300) "candle limit must be between 1 and 300 or zero for default".

Definition CandlesRequest_values (request : CandlesRequest) : Values :=
  let values := Values_Set ∅ "instId" (candles_InstrumentID request) in
  let values := Values_Set values "bar" (Interval request) in
  let values := setTime values "after" (candles_After request) in
  let values := setTime values "before" (candles_Before request) in
  setPositiveInt values "limit" (candles_Limit request).

Definition Candles (request : CandlesRequest) : unsigned (list decoded) :=
  MkMethod (CandlesRequest_validate request)
    ("/api/v5/market/candles", CandlesRequest_values request, publicLimit 40 "")
    (listAnswer "Candle").
End methods.
End OKXApi.
