(* ===== verification/BybitEndpoints.v ===== *)
(** * The methods of the Bybit client: [exchange/bybit/orders.go], [account.go], [market.go], [requests.go] *)

From S2P Require Import Prelude GoStrings GoStrconv Decimals Errors Credential RateLimit Executor Unified ClientErrors SpotAdapter BybitSpot Clients.
From S2P Require Import EndpointLimits RestClient HMACClients RestSafety Endpoints.

Module BybitApi.
Import BybitSpot.Bybit.

Section methods.
(** [now] is the limiter's clock when the answer is observed. *)
Context `{Library} `{Decoder} (now : Z) (accountID : string) (unmarshal : unmarshals Clients.Bybit.envelope).

Definition responseResult := Clients.Bybit.responseResult accountID unmarshal.
Definition decodeBodyError := Clients.Bybit.decodeBodyError accountID.

Abbreviation signed A := (clientMethod (Z * privateRequest * EndpointLimits.Bybit.endpointLimit) A).
Abbreviation unsigned A := (clientMethod (Z * string * Values * EndpointLimits.Bybit.endpointLimit) A).

Definition private (request : privateRequest) (perSecond : Z) := (now, request, EndpointLimits.Bybit.accountLimit perSecond).
Definition public (path : string) (values : Values) (perSecond : Z) :=
  (now, path, values, EndpointLimits.Bybit.publicLimit perSecond).

(** ** Answers *)

Definition decodeResult (type : string) : string → result error decoded := Clients.Bybit.decodeResult (Unmarshal type).

(** The pages: the items of a list, the cursor and the text. *)
Definition decodePage (type : string) (response : Response) (result : string) : Prelude.result error (page decoded) :=
  orBody (decodeBodyError response OperationRead)
    (rawPage ← decodeResult "page" result;
     items ← mapM (decodeResult type) (Items rawPage "list");
     Ok (Endpoints.MkPage items (Text rawPage "nextPageCursor") result)).

Definition pageAnswer (type : string) (response : Response) : result error (page decoded) :=
  result ← responseResult response OperationRead;
  decodePage type response result.

Definition listAnswer (type : string) (response : Response) : result error (list decoded) :=
  page_items <$> pageAnswer type response.

Definition valueAnswer (type : string) (response : Response) : result error decoded :=
  result ← responseResult response OperationRead;
  orBody (decodeBodyError response OperationRead) (decodeResult type result).

Definition referenceAnswer : Response → result error decoded :=
  Clients.Bybit.PlaceOrder accountID unmarshal (Unmarshal "OrderReference").

(** ** Orders *)

Definition PlaceOrderRequest_fields (request : NativePlaceOrder) : list (string * field) :=
  textField "category" (Category request) ++ textField "symbol" (Symbol request) ++ textField "side" (Side request) ++
  textField "orderType" (OrderType request) ++ textField "qty" (Quantity request) ++
  optionalField "price" (Price request) ++ optionalField "timeInForce" (TimeInForce request) ++
  optionalInteger "positionIdx" (PositionIndex request) ++ optionalField "orderLinkId" (OrderLinkID request) ++
  optionalTruth "reduceOnly" (ReduceOnly request) ++ optionalTruth "closeOnTrigger" (CloseOnTrigger request) ++
  optionalField "marketUnit" (MarketUnit request).

Definition CancelOrderRequest_fields (request : OrderIdentity) : list (string * field) :=
  textField "category" (id_Category request) ++ textField "symbol" (id_Symbol request) ++
  optionalField "orderId" (id_OrderID request) ++ optionalField "orderLinkId" (id_OrderLinkID request).

Definition PlaceOrder (request : NativePlaceOrder) : signed decoded :=
  MkMethod (PlaceOrderRequest_validate request)
    (private (postTrade "/v5/order/create" (MarshalFields (PlaceOrderRequest_fields request))) 10)
    referenceAnswer.

Definition CancelOrder (request : OrderIdentity) : signed decoded :=
  MkMethod (CancelOrderRequest_validate request)
    (private (postTrade "/v5/order/cancel" (MarshalFields (CancelOrderRequest_fields request))) 10)
    referenceAnswer.

Definition categoryValues (category : string) : Values := Values_Set ∅ "category" category.

Definition OrderInfoRequest_values (request : OrderIdentity) : Values :=
  let values := categoryValues (id_Category request) in
  let values := setIfNotEmpty values "symbol" (id_Symbol request) in
  let values := setIfNotEmpty values "orderId" (id_OrderID request) in
  setIfNotEmpty values "orderLinkId" (id_OrderLinkID request).

Definition OrderInfo (request : OrderIdentity) : signed decoded :=
  MkMethod (OrderInfoRequest_validate request)
    (private (getRead "/v5/order/realtime" (OrderInfoRequest_values request)) 20)
    (λ response,
       orders ← listAnswer "Order" response;
       firstItem (Clients.Bybit.decodeError accountID response "110001" "order not found" OperationRead None) orders).

Definition orderFilterValues (category symbol baseCoin settleCoin : string) : Values :=
  let values := categoryValues category in
  let values := setIfNotEmpty values "symbol" symbol in
  let values := setIfNotEmpty values "baseCoin" baseCoin in
  setIfNotEmpty values "settleCoin" settleCoin.

Definition OpenOrdersRequest_values (request : NativeOpenOrders) : Values :=
  let values := orderFilterValues (open_Category request) (open_Symbol request) (BaseCoin request) (SettleCoin request) in
  let values := setPositiveInt values "limit" (Limit request) in
  setIfNotEmpty values "cursor" (Cursor request).

Definition OpenOrders (request : NativeOpenOrders) : signed (page decoded) :=
  MkMethod (OpenOrdersRequest_validate request)
    (private (getRead "/v5/order/realtime" (OpenOrdersRequest_values request)) 20)
    (pageAnswer "Order").

Record OrderHistoryRequest : Type := MkOrderHistory {
  history_Category : string;
  history_Symbol : string;
  history_BaseCoin : string;
  history_SettleCoin : string;
  history_StartTime : option Z;
  history_EndTime : option Z;
  history_Limit : Z;
  history_Cursor : string
}.

Definition OrderHistoryRequest_validate (request : OrderHistoryRequest) : result error unit :=
  validateCategory (history_Category request);;
  validateOrderFilters (history_Symbol request) (history_BaseCoin request) (history_SettleCoin request);;
  refuse (startsAfter (history_StartTime request) (history_EndTime request))
    "order history start time cannot be after end time";;
  refuse (longerThan (history_StartTime request) (history_EndTime request) (7 * 24 * 60 * Minute))
    "order history time range cannot exceed 7 days";;
  validatePage (history_Limit request) 50 (history_Cursor request).

Definition OrderHistoryRequest_values (request : OrderHistoryRequest) : Values :=
  let values := orderFilterValues (history_Category request) (history_Symbol request) (history_BaseCoin request)
                  (history_SettleCoin request) in
  let values := setTime values "startTime" (history_StartTime request) in
  let values := setTime values "endTime" (history_EndTime request) in
  let values := setPositiveInt values "limit" (history_Limit request) in
  setIfNotEmpty values "cursor" (history_Cursor request).

Definition OrderHistory (request : OrderHistoryRequest) : signed (page decoded) :=
  MkMethod (OrderHistoryRequest_validate request)
    (private (getRead "/v5/order/history" (OrderHistoryRequest_values request)) 20)
    (pageAnswer "Order").

(** ** Account *)

Definition AccountTypeUnified : string := "UNIFIED".

Definition WalletBalanceRequest_validate (AccountType : string) (Coins : list string) : result error unit :=
  refuse (negb (unset AccountType) && negb (bool_decide (AccountType = AccountTypeUnified)))
    "account type must be UNIFIED or empty for default";;
  validateFilter "coin" "coin cannot contain a comma" "duplicate coin %q" Coins.

Definition WalletBalanceRequest_values (AccountType : string) (Coins : list string) : Values :=
  let values := Values_Set ∅ "accountType" (if unset AccountType then AccountTypeUnified else AccountType) in
  if bool_decide (Coins = []) then values else Values_Set values "coin" (Join Coins ",").

(** [WalletBalanceRequest] has two fields. *)
Definition WalletBalance (AccountType : string) (Coins : list string) : signed (list decoded) :=
  MkMethod (WalletBalanceRequest_validate AccountType Coins)
    (private (getRead "/v5/account/wallet-balance" (WalletBalanceRequest_values AccountType Coins)) 20)
    (listAnswer "WalletAccount").

Record PositionsRequest : Type := MkPositions {
  positions_Category : string;
  positions_Symbol : string;
  positions_SettleCoin : string;
  positions_Limit : Z;
  positions_Cursor : string
}.

Definition PositionsRequest_validate (request : PositionsRequest) : result error unit :=
  refuse (negb (bool_decide (positions_Category request = CategoryLinear))) "positions support only linear category";;
  validateOptionalText "symbol" (positions_Symbol request);;
  validateOptionalText "settleCoin" (positions_SettleCoin request);;
  refuse (unset (positions_Symbol request) && unset (positions_SettleCoin request)) "symbol or settleCoin is required";;
  validatePage (positions_Limit request) 200 (positions_Cursor request).

Definition PositionsRequest_values (request : PositionsRequest) : Values :=
  let values := categoryValues (positions_Category request) in
  let values := setIfNotEmpty values "symbol" (positions_Symbol request) in
  let values := setIfNotEmpty values "settleCoin" (positions_SettleCoin request) in
  let values := setPositiveInt values "limit" (positions_Limit request) in
  setIfNotEmpty values "cursor" (positions_Cursor request).

Definition Positions (request : PositionsRequest) : signed (page decoded) :=
  MkMethod (PositionsRequest_validate request)
    (private (getRead "/v5/position/list" (PositionsRequest_values request)) 20)
    (pageAnswer "Position").

(** ** Market data *)

(** The server's clock is a member of the envelope. *)
Definition serverMillis (response : Response) : result error Z :=
  _ ← responseResult response OperationRead;
  let millis := Clients.Bybit.Time (unmarshal (body_text response)).1 in
  if bool_decide (millis ≤ 0) then Err (decodeBodyError response OperationRead (Errorf "invalid Bybit server time"))
  else Ok millis.

Definition ServerTime : unsigned Z := MkMethod (Ok tt) (public "/v5/market/time" ∅ 50) serverMillis.

Record InstrumentsRequest : Type := MkInstruments {
  instruments_Category : string;
  instruments_Symbol : string;
  instruments_BaseCoin : string;
  Status : string;
  instruments_Limit : Z;
  instruments_Cursor : string
}.

Definition InstrumentsRequest_validate (request : InstrumentsRequest) : result error unit :=
  validateCategory (instruments_Category request);;
  validateOptionalText "symbol" (instruments_Symbol request);;
  validateOptionalText "baseCoin" (instruments_BaseCoin request);;
  validateOptionalText "status" (Status request);;
  validatePage (instruments_Limit request) 1000 (instruments_Cursor request).

Definition InstrumentsRequest_values (request : InstrumentsRequest) : Values :=
  let values := categoryValues (instruments_Category request) in
  let values := setIfNotEmpty values "symbol" (instruments_Symbol request) in
  let values := setIfNotEmpty values "baseCoin" (instruments_BaseCoin request) in
  let values := setIfNotEmpty values "status" (Status request) in
  let values := setPositiveInt values "limit" (instruments_Limit request) in
  setIfNotEmpty values "cursor" (instruments_Cursor request).

Definition Instruments (request : InstrumentsRequest) : unsigned (page decoded) :=
  MkMethod (InstrumentsRequest_validate request)
    (public "/v5/market/instruments-info" (InstrumentsRequest_values request) 20)
    (pageAnswer "Instrument").

(** [TickersRequest]: a category and a symbol. *)
Definition TickersRequest_validate (category symbol : string) : result error unit :=
  validateCategory category;;
  validateOptionalText "symbol" symbol.
Definition TickersRequest_values (category symbol : string) : Values :=
  setIfNotEmpty (categoryValues category) "symbol" symbol.
Definition Tickers (category symbol : string) : unsigned (list decoded) :=
  MkMethod (TickersRequest_validate category symbol)
    (public "/v5/market/tickers" (TickersRequest_values category symbol) 20)
    (listAnswer "Ticker").

(** [OrderBookRequest] and [RecentTradesRequest]: a category, a symbol and a limit. *)
Definition OrderBookRequest_validate (category symbol : string) (limit : Z) : result error unit :=
  validateCategory category;;
  validateRequiredText "symbol" symbol;;
  refuse (outside 0 limit 1000) "order book limit must be between 1 and %d or zero for default".
Definition RecentTradesRequest_validate (category symbol : string) (limit : Z) : result error unit :=
  validateCategory category;;
  validateRequiredText "symbol" symbol;;
  refuse (outside 0 limit 1000) "recent trade limit must be between 1 and 1000 or zero for default".
Definition OrderBookRequest_values (category symbol : string) (limit : Z) : Values :=
  setPositiveInt (Values_Set (categoryValues category) "symbol" symbol) "limit" limit.

Definition OrderBook (category symbol : string) (limit : Z) : unsigned decoded :=
  MkMethod (OrderBookRequest_validate category symbol limit)
    (public "/v5/market/orderbook" (OrderBookRequest_values category symbol limit) 20)
    (valueAnswer "OrderBook").

Definition RecentTrades (category symbol : string) (limit : Z) : unsigned (list decoded) :=
  MkMethod (RecentTradesRequest_validate category symbol limit)
    (public "/v5/market/recent-trade" (OrderBookRequest_values category symbol limit) 20)
    (listAnswer "PublicTrade").

Definition CandleInterval_valid (interval : string) : bool :=
  bool_decide (interval ∈ ["1"; "3"; "5"; "15"; "30"; "60"; "120"; "240"; "360"; "720"; "D"; "W"; "M"]).

Record CandlesRequest : Type := MkCandles {
  candles_Category : string;
  candles_Symbol : string;
  Interval : string;
  candles_StartTime : option Z;
  candles_EndTime : option Z;
  candles_Limit : Z
}.

Definition CandlesRequest_validate (request : CandlesRequest) : result error unit :=
  validateCategory (candles_Category request);;
  validateRequiredText "symbol" (candles_Symbol request);;
  refuse (negb (CandleInterval_valid (Interval request))) "unsupported candle interval %q";;
  refuse (outside 0 (candles_Limit request) 1000) "candle limit must be between 1 and 1000 or zero for default";;
  refuse (startsAfter (candles_StartTime request) (candles_EndTime request))
    "candle start time cannot be after end time".

Definition CandlesRequest_values (request : CandlesRequest) : Values :=
  let values := categoryValues (candles_Category request) in
  let values := Values_Set values "symbol" (candles_Symbol request) in
  let values := Values_Set values "interval" (Interval request) in
  let values := setTime values "start" (candles_StartTime request) in
  let values := setTime values "end" (candles_EndTime request) in
  setPositiveInt values "limit" (candles_Limit request).

Definition Candles (request : CandlesRequest) : unsigned (list decoded) :=
  MkMethod (CandlesRequest_validate request)
    (public "/v5/market/kline" (CandlesRequest_values request) 20)
    (listAnswer "Candle").
End methods.
End BybitApi.
