(* ===== verification/BitgetEndpoints.v ===== *)
(** * The methods of the Bitget client: [exchange/bitget/orders.go], [account.go], [market.go], [requests.go] *)

From S2P Require Import Prelude GoStrings GoStrconv Decimals Errors Credential RateLimit Executor Unified ClientErrors SpotAdapter BitgetSpot Clients.
From S2P Require Import EndpointLimits RestClient HMACClients RestSafety Endpoints.

Module BitgetApi.
Import BitgetSpot.Bitget.

Section methods.
Context `{Library} `{Decoder} (now : Z) (accountID : string) (unmarshal : unmarshals Clients.Bitget.envelope).

Definition responseData := Clients.Bitget.responseData accountID unmarshal.
Definition decodeBodyError := Clients.Bitget.decodeBodyError accountID.

Abbreviation signed A := (clientMethod (Z * privateRequest * EndpointLimits.Bitget.endpointLimit) A).
Abbreviation unsigned A := (clientMethod (Z * string * Values * EndpointLimits.Bitget.endpointLimit) A).

Definition private (request : privateRequest) (perSecond : Z) := (now, request, EndpointLimits.Bitget.accountLimit perSecond).
Definition public (path : string) (values : Values) (perSecond : Z) :=
  (now, path, values, EndpointLimits.Bitget.publicLimit perSecond).

(** ** Answers *)

Definition decodeData {A} : (string → result error A) → string → result error A := Clients.Bitget.decodeData.

(** The data of an answer, decoded. *)
Definition dataAnswer {A} (decode : string → result error A) (response : Response) : result error A :=
  data ← responseData response OperationRead;
  orBody (decodeBodyError response OperationRead) (decode data).

Definition valueAnswer (type : string) : Response → result error decoded := dataAnswer (decodeData (Unmarshal type)).

Definition decodeItems (type : string) (raw : string) : result error (list decoded) :=
  rawItems ← decodeData RawItems raw;
  mapM (decodeData (Unmarshal type)) rawItems.

Definition decodeOrderPage (type : string) (data : string) : result error (page decoded) :=
  rawPage ← decodeData (Unmarshal "page") data;
  items ← mapM (decodeData (Unmarshal type)) (Items rawPage "list");
  Ok (Endpoints.MkPage items (Text rawPage "cursor") data).

Definition referenceAnswer : Response → result error decoded :=
  Clients.Bitget.PlaceOrder accountID unmarshal (Unmarshal "OrderReference").

(** ** Orders *)

Definition PlaceOrderRequest_fields (request : NativePlaceOrder) : list (string * field) :=
  textField "category" (Category request) ++ textField "symbol" (Symbol request) ++ textField "qty" (Quantity request) ++
  optionalField "price" (Price request) ++ textField "side" (Side request) ++ textField "orderType" (OrderType request) ++
  optionalField "timeInForce" (TimeInForce request) ++ optionalField "posSide" (PositionSide request) ++
  optionalField "clientOid" (ClientOrderID request) ++ optionalField "reduceOnly" (ReduceOnly request) ++
  optionalField "stpMode" (SelfTradePrevention request).

Definition CancelOrderRequest_fields (request : NativeCancelOrder) : list (string * field) :=
  optionalField "orderId" (cancel_OrderID request) ++ optionalField "clientOid" (cancel_ClientOrderID request) ++
  optionalField "category" (cancel_Category request).

Definition PlaceOrder (request : NativePlaceOrder) : signed decoded :=
  MkMethod (PlaceOrderRequest_validate request)
    (private (postTrade "/api/v3/trade/place-order" (MarshalFields (PlaceOrderRequest_fields request))) 10)
    referenceAnswer.

Definition CancelOrder (request : NativeCancelOrder) : signed decoded :=
  MkMethod (CancelOrderRequest_validate request)
    (private (postTrade "/api/v3/trade/cancel-order" (MarshalFields (CancelOrderRequest_fields request))) 10)
    referenceAnswer.

Definition OrderInfoRequest_values (request : NativeOrderInfo) : Values :=
  setIfNotEmpty (setIfNotEmpty ∅ "orderId" (info_OrderID request)) "clientOid" (info_ClientOrderID request).

Definition OrderInfo (request : NativeOrderInfo) : signed decoded :=
  MkMethod (OrderInfoRequest_validate request)
    (private (getRead "/api/v3/trade/order-info" (OrderInfoRequest_values request)) 20)
    (valueAnswer "Order").

Definition setPageValues (values : Values) (symbol : string) (start finish : option Z) (limit : Z) (cursor : string) : Values :=
  let values := setIfNotEmpty values "symbol" symbol in
  let values := setTime values "startTime" start in
  let values := setTime values "endTime" finish in
  let values := setPositiveInt values "limit" limit in
  setIfNotEmpty values "cursor" cursor.

Definition OpenOrdersRequest_values (request : NativeOpenOrders) : Values :=
  let values := if AllCategories request then ∅ else Values_Set ∅ "category" (open_Category request) in
  setPageValues values (open_Symbol request) (StartTime request) (EndTime request) (Limit request) (Cursor request).

Definition OpenOrders (request : NativeOpenOrders) : signed (page decoded) :=
  MkMethod (OpenOrdersRequest_validate request)
    (private (getRead "/api/v3/trade/unfilled-orders" (OpenOrdersRequest_values request)) 20)
    (dataAnswer (decodeOrderPage "Order")).

Record OrderHistoryRequest : Type := MkOrderHistory {
  history_Category : string;
  history_Symbol : string;
  history_StartTime : option Z;
  history_EndTime : option Z;
  history_Limit : Z;
  history_Cursor : string
}.

Definition OrderHistoryRequest_validate (request : OrderHistoryRequest) : result error unit :=
  validateCategory (history_Category request);;
  validateOptionalSymbol (history_Symbol request);;
  validatePage (history_StartTime request) (history_EndTime request) (30 * 24 * 60 * Minute) (history_Limit request)
    (history_Cursor request).

Definition OrderHistoryRequest_values (request : OrderHistoryRequest) : Values :=
  setPageValues (Values_Set ∅ "category" (history_Category request)) (history_Symbol request)
    (history_StartTime request) (history_EndTime request) (history_Limit request) (history_Cursor request).

Definition OrderHistory (request : OrderHistoryRequest) : signed (page decoded) :=
  MkMethod (OrderHistoryRequest_validate request)
    (private (getRead "/api/v3/trade/history-orders" (OrderHistoryRequest_values request)) 20)
    (dataAnswer (decodeOrderPage "Order")).

(** ** Account *)

Definition AccountAssets : signed decoded :=
  MkMethod (Ok tt) (private (getRead "/api/v3/account/assets" ∅) 20) (valueAnswer "AccountAssets").

Definition categorySymbolValues (category symbol : string) : Values :=
  setIfNotEmpty (Values_Set ∅ "category" category) "symbol" symbol.

(** [PositionsRequest]: a category, a symbol and a side. *)
Definition PositionsRequest_validate (category symbol positionSide : string) : result error unit :=
  refuse (negb (bool_decide (category = CategoryUSDTFutures))) "positions currently support only USDT-FUTURES";;
  validateOptionalSymbol symbol;;
  refuse (negb (unset positionSide) && negb (PositionSide_valid positionSide)) "posSide must be long or short".

Definition PositionsRequest_values (category symbol positionSide : string) : Values :=
  setIfNotEmpty (categorySymbolValues category symbol) "posSide" positionSide.

Definition Positions (category symbol positionSide : string) : signed (list decoded) :=
  MkMethod (PositionsRequest_validate category symbol positionSide)
    (private (getRead "/api/v3/position/current-position" (PositionsRequest_values category symbol positionSide)) 20)
    (λ response, page_items <$> dataAnswer (decodeOrderPage "Position") response).

(** ** Market data *)

(** [InstrumentsRequest] and [TickersRequest]: a category and a symbol. *)
Definition InstrumentsRequest_validate (category symbol : string) : result error unit :=
  validateCategory category;;
  validateOptionalSymbol symbol.

Definition Instruments (category symbol : string) : unsigned (list decoded) :=
  MkMethod (InstrumentsRequest_validate category symbol)
    (public "/api/v3/market/instruments" (categorySymbolValues category symbol) 20)
    (dataAnswer (decodeItems "Instrument")).

Definition Tickers (category symbol : string) : unsigned (list decoded) :=
  MkMethod (InstrumentsRequest_validate category symbol)
    (public "/api/v3/market/tickers" (categorySymbolValues category symbol) 20)
    (dataAnswer (decodeItems "Ticker")).

(** [OrderBookRequest] and [RecentFillsRequest]: a category, a symbol and a limit. *)
Definition OrderBookRequest_validate (category symbol : string) (limit : Z) : result error unit :=
  validateCategory category;;
  validateSymbol symbol;;
  refuse (outside 0 limit 1000) "order book limit must be between 1 and 1000 or zero for default".
Definition RecentFillsRequest_validate (category symbol : string) (limit : Z) : result error unit :=
  validateCategory category;;
  validateSymbol symbol;;
  refuse (outside 0 limit 100) "recent fills limit must be between 1 and 100 or zero for default".
Definition OrderBookRequest_values (category symbol : string) (limit : Z) : Values :=
  setPositiveInt (categorySymbolValues category symbol) "limit" limit.

Definition OrderBook (category symbol : string) (limit : Z) : unsigned decoded :=
  MkMethod (OrderBookRequest_validate category symbol limit)
    (public "/api/v3/market/orderbook" (OrderBookRequest_values category symbol limit) 20)
    (valueAnswer "OrderBook").

Definition RecentFills (category symbol : string) (limit : Z) : unsigned (list decoded) :=
  MkMethod (RecentFillsRequest_validate category symbol limit)
    (public "/api/v3/market/fills" (OrderBookRequest_values category symbol limit) 20)
    (dataAnswer (decodeItems "PublicFill")).

Definition CandleInterval_valid (interval : string) : bool :=
  bool_decide (interval ∈ ["1m"; "3m"; "5m"; "15m"; "30m"; "1H"; "4H"; "6H"; "12H"; "1D"]).
Definition CandleTypeMarket : string := "market".
Definition CandleType_valid (candleType : string) : bool :=
  bool_decide (candleType ∈ [CandleTypeMarket; "mark"; "index"; "premium"]).

Record CandlesRequest : Type := MkCandles {
  candles_Category : string;
  candles_Symbol : string;
  Interval : string;
  candles_StartTime : option Z;
  candles_EndTime : option Z;
  CandleType : string;
  candles_Limit : Z
}.

Definition CandlesRequest_validate (request : CandlesRequest) : result error unit :=
  validateCategory (candles_Category request);;
  validateSymbol (candles_Symbol request);;
  refuse (negb (CandleInterval_valid (Interval request))) "unsupported candle interval %q";;
  refuse (negb (unset (CandleType request)) && negb (CandleType_valid (CandleType request))) "unsupported candle type %q";;
  refuse (bool_decide (candles_Category request = CategorySpot) && negb (unset (CandleType request)) &&
          negb (bool_decide (CandleType request = CandleTypeMarket))) "Spot candles only support market price";;
  refuse (outside 0 (candles_Limit request) 1000) "candle limit must be between 1 and 1000 or zero for default";;
  refuse (startsAfter (candles_StartTime request) (candles_EndTime request)) "candle startTime cannot be after endTime".

Definition CandlesRequest_values (request : CandlesRequest) : Values :=
  let values := categorySymbolValues (candles_Category request) (candles_Symbol request) in
  let values := Values_Set values "interval" (Interval request) in
  let values := setTime values "startTime" (candles_StartTime request) in
  let values := setTime values "endTime" (candles_EndTime request) in
  let values := setIfNotEmpty values "type" (CandleType request) in
  setPositiveInt values "limit" (candles_Limit request).

Definition Candles (request : CandlesRequest) : unsigned (list decoded) :=
  MkMethod (CandlesRequest_validate request)
    (public "/api/v3/market/candles" (CandlesRequest_values request) 20)
    (dataAnswer (decodeItems "Candle")).
End methods.
End BitgetApi.
