(* ===== verification/MEXCEndpoints.v ===== *)
(** * The methods of the MEXC client: [exchange/mexc/orders.go], [account.go], [market.go], [requests.go] *)

From S2P Require Import Prelude GoStrings GoStrconv Decimals Errors Credential RateLimit Executor Unified ClientErrors SpotAdapter MEXCSpot Clients.
From S2P Require Import EndpointLimits RestClient HMACClients RestSafety Endpoints.

Module MEXCApi.
Import MEXCSpot.MEXC.

Section methods.
(** [own] are the quotas of the client. *)
Context `{Library} `{Decoder} `{JSON} (own : HMACClients.MEXC.mexcSettings) (accountID : string).
Context (unmarshal : unmarshals Clients.Mexc.envelope).

Definition decodeBodyErrorForOperation := Clients.Mexc.decodeBodyErrorForOperation accountID.
Definition decodeBodyError := Clients.Mexc.decodeBodyError accountID.
Definition decodeResponseForOperation {A} (target : string → result error A) : Response → Z → result error A :=
  Clients.Mexc.decodeResponseForOperation accountID unmarshal target.
Definition decodeResponse {A} (target : string → result error A) (response : Response) : result error A :=
  decodeResponseForOperation target response OperationRead.

Abbreviation signed A := (clientMethod (privateRequest * EndpointLimits.MEXC.endpointLimit * string * Z) A).
Abbreviation unsigned A := (clientMethod (string * Values * EndpointLimits.MEXC.endpointLimit) A).

Definition private (request : privateRequest) (name : string) (weight : Z) (frequencyName : string) (frequencyQuota : Z) :=
  (request, EndpointLimits.MEXC.privateLimit name weight, frequencyName, frequencyQuota).
Definition privateRead (path : string) (values : Values) (name : string) (weight : Z) :=
  private (getRead path values) name weight "private-read" (HMACClients.MEXC.privateReadQuota own).
Definition public (path : string) (values : Values) (name : string) (weight : Z) :=
  (path, values, EndpointLimits.MEXC.publicLimit name weight).

(** ** Answers *)

Definition valueAnswer (type : string) (response : Response) : result error decoded :=
  decodeResponse (Unmarshal type) response.

(** A list whose items are decoded one by one. *)
Definition listAnswer (type : string) (response : Response) : result error (list decoded) :=
  rawItems ← decodeResponse RawItems response;
  orBody (decodeBodyError response) (mapM (Unmarshal type) rawItems).

Definition missingOrder (order : decoded) : bool := bool_decide (Text order "symbol" = "" ∨ Text order "orderId" = "").

Definition decodeOrder (operation : Z) (response : Response) : result error decoded :=
  order ← decodeResponseForOperation (Unmarshal "Order") response operation;
  require (negb (missingOrder order)) (decodeBodyErrorForOperation response operation
    (Errorf "MEXC order response is missing symbol or order ID"));;
  Ok order.

Definition decodeOrders (response : Response) : result error (list decoded) :=
  rawItems ← decodeResponse RawItems response;
  orBody (decodeBodyError response)
    (mapM (λ raw,
       order ← Unmarshal "Order" raw;
       require (negb (missingOrder order)) (Errorf "MEXC order list item is missing symbol or order ID");;
       Ok order) rawItems).

Definition readReference (raw : string) : result error Clients.Mexc.OrderReference :=
  value ← Unmarshal "OrderReference" raw;
  Ok (Clients.Mexc.MkReference (Text value "symbol") (Text value "orderId") (Text value "clientOrderId")).

(** ** Orders *)

Definition PlaceOrderRequest_values (request : NativePlaceOrder) : Values :=
  let values := Values_Set ∅ "newClientOrderId" (ClientOrderID request) in
  let values := Values_Set values "side" (Side request) in
  let values := Values_Set values "symbol" (Symbol request) in
  let values := Values_Set values "type" (Type_ request) in
  let values := setIfNotEmpty values "quantity" (Quantity request) in
  let values := setIfNotEmpty values "quoteOrderQty" (QuoteQuantity request) in
  setIfNotEmpty values "price" (Price request).

Definition PlaceOrder (request : NativePlaceOrder) : signed Clients.Mexc.OrderReference :=
  MkMethod (PlaceOrderRequest_validate request)
    (private (changeValues "POST" "/api/v3/order" (PlaceOrderRequest_values request)) "order" 1
       "order" (HMACClients.MEXC.orderQuota own))
    (Clients.Mexc.PlaceOrder accountID unmarshal readReference (ClientOrderID request)).

(** [OrderInfoRequest.values] and [CancelOrderRequest.values]. *)
Definition OrderInfoRequest_values (request : OrderIdentity) : Values :=
  let values := Values_Set ∅ "symbol" (id_Symbol request) in
  let values := setIfNotEmpty values "orderId" (id_OrderID request) in
  setIfNotEmpty values "origClientOrderId" (id_ClientOrderID request).

Definition OrderInfo (request : OrderIdentity) : signed decoded :=
  MkMethod (OrderIdentity_validate request)
    (privateRead "/api/v3/order" (OrderInfoRequest_values request) "order-info" 2)
    (decodeOrder OperationRead).

Definition CancelOrder (request : OrderIdentity) : signed decoded :=
  MkMethod (OrderIdentity_validate request)
    (private (changeValues "DELETE" "/api/v3/order" (OrderInfoRequest_values request)) "cancel-order" 1
       "cancel" (HMACClients.MEXC.cancelQuota own))
    (decodeOrder OperationMutation).

Definition OpenOrdersRequest_values (request : NativeOpenOrders) : Values :=
  Values_Set ∅ "symbol" (if negb (unset (open_Symbol request)) then open_Symbol request
                         else Join (open_Symbols request) ",").

Definition OpenOrders (request : NativeOpenOrders) : signed (list decoded) :=
  MkMethod (OpenOrdersRequest_validate request)
    (privateRead "/api/v3/openOrders" (OpenOrdersRequest_values request) "open-orders" 3)
    decodeOrders.

Definition validateLimit (limit : Z) : result error unit :=
  refuse (outside 0 limit 1000) "limit must be between 1 and 1000 or zero".

Definition validateTimeRange (start finish : option Z) (maximum : Z) : result error unit :=
  refuse (beforeEpochMilli start || beforeEpochMilli finish) "%s timestamps must be after the Unix epoch";;
  match start, finish with
  | Some s, Some f =>
      refuse (negb (bool_decide (s < f))) "%s start must be before end";;
      refuse (bool_decide (maximum < Time_Sub f s)) "%s range exceeds %s"
  | _, _ => Ok tt
  end.

Definition setTimeRange (values : Values) (start finish : option Z) : Values :=
  setTime (setTime values "startTime" start) "endTime" finish.

Record AllOrdersRequest : Type := MkAllOrders {
  all_Symbol : string;
  all_Start : option Z;
  all_End : option Z;
  all_Limit : Z
}.

Definition AllOrdersRequest_validate (request : AllOrdersRequest) : result error unit :=
  validateSymbol (all_Symbol request);;
  validateLimit (all_Limit request);;
  validateTimeRange (all_Start request) (all_End request) (7 * 24 * 60 * Minute).

Definition AllOrdersRequest_values (request : AllOrdersRequest) : Values :=
  setPositiveInt (setTimeRange (Values_Set ∅ "symbol" (all_Symbol request)) (all_Start request) (all_End request))
    "limit" (all_Limit request).

Definition AllOrders (request : AllOrdersRequest) : signed (list decoded) :=
  MkMethod (AllOrdersRequest_validate request)
    (privateRead "/api/v3/allOrders" (AllOrdersRequest_values request) "all-orders" 10)
    decodeOrders.

Record MyTradesRequest : Type := MkMyTrades {
  trades_Symbol : string;
  trades_OrderID : string;
  trades_Start : option Z;
  trades_End : option Z;
  trades_Limit : Z
}.

Definition MyTradesRequest_validate (request : MyTradesRequest) : result error unit :=
  validateSymbol (trades_Symbol request);;
  refuse (negb (unset (trades_OrderID request)) && negb (orderIDPattern (trades_OrderID request))) "invalid order ID %q";;
  refuse (outside 0 (trades_Limit request) 100) "account trade limit must be between 1 and 100 or zero";;
  validateTimeRange (trades_Start request) (trades_End request) (31 * 24 * 60 * Minute).

Definition MyTradesRequest_values (request : MyTradesRequest) : Values :=
  let values := setIfNotEmpty (Values_Set ∅ "symbol" (trades_Symbol request)) "orderId" (trades_OrderID request) in
  setPositiveInt (setTimeRange values (trades_Start request) (trades_End request)) "limit" (trades_Limit request).

Definition MyTrades (request : MyTradesRequest) : signed (list decoded) :=
  MkMethod (MyTradesRequest_validate request)
    (privateRead "/api/v3/myTrades" (MyTradesRequest_values request) "my-trades" 10)
    (listAnswer "AccountTrade").

(** ** Account *)

(** The list is a member of the envelope. *)
Definition SelfSymbols : signed (list string) :=
  MkMethod (Ok tt) (privateRead "/api/v3/selfSymbols" ∅ "self-symbols" 1)
    (λ response, envelope ← valueAnswer "symbols" response; Ok (Items envelope "data")).

Definition Account : signed (decoded * list decoded) :=
  MkMethod (Ok tt)
    (private (getRead "/api/v3/account" ∅) "account" 10 "account" (HMACClients.MEXC.accountQuota own))
    (λ response,
       wire ← valueAnswer "Account" response;
       balances ← orBody (decodeBodyError response) (mapM (Unmarshal "Balance") (Items wire "balances"));
       Ok (wire, balances)).

(** ** Market data *)

Definition Ping : unsigned unit :=
  MkMethod (Ok tt) (public "/api/v3/ping" ∅ "ping" 1) (λ response, valueAnswer "struct{}" response;; Ok tt).

Definition ServerTime : unsigned decoded :=
  MkMethod (Ok tt) (public "/api/v3/time" ∅ "time" 1)
    (λ response,
       value ← valueAnswer "ServerTime" response;
       require (bool_decide (0 < Integer value "serverTime"))
         (decodeBodyError response (Errorf "MEXC server time is invalid"));;
       Ok value).

Definition DefaultSymbols : unsigned (list string) :=
  MkMethod (Ok tt) (public "/api/v3/defaultSymbols" ∅ "default-symbols" 1)
    (λ response,
       envelope ← valueAnswer "symbols" response;
       require (negb (bool_decide (Items envelope "data" = [])))
         (decodeBodyError response (Errorf "MEXC default symbol list is empty"));;
       Ok (Items envelope "data")).

(** [ExchangeInfoRequest]: a symbol or a list of them. *)
Definition ExchangeInfoRequest_validate (symbol : string) (symbols : list string) : result error unit :=
  refuse (negb (unset symbol) && negb (bool_decide (symbols = []))) "exchange info accepts symbol or symbols, not both";;
  if negb (unset symbol) then validateSymbol symbol
  else validateDistinct validateSymbol
         (APIValidationError ExchangeMEXC "exchange info symbols contain a duplicate") [] symbols.

Definition ExchangeInfoRequest_values (symbol : string) (symbols : list string) : Values :=
  let values := setIfNotEmpty ∅ "symbol" symbol in
  if bool_decide (symbols = []) then values else Values_Set values "symbols" (Join symbols ",").

Definition ExchangeInfo (symbol : string) (symbols : list string) : unsigned (decoded * list decoded) :=
  MkMethod (ExchangeInfoRequest_validate symbol symbols)
    (public "/api/v3/exchangeInfo" (ExchangeInfoRequest_values symbol symbols) "exchange-info" 10)
    (λ response,
       wire ← valueAnswer "ExchangeInfo" response;
       items ← orBody (decodeBodyError response) (mapM (Unmarshal "Symbol") (Items wire "symbols"));
       Ok (wire, items)).

(** [OrderBookRequest] and [TradesRequest]: a symbol and a limit. *)
Definition OrderBookRequest_validate (symbol : string) (limit : Z) : result error unit :=
  validateSymbol symbol;;
  refuse (outside 0 limit 5000) "order book limit must be between 1 and 5000 or zero".
Definition TradesRequest_validate (symbol : string) (limit : Z) : result error unit :=
  validateSymbol symbol;;
  validateLimit limit.
Definition TradesRequest_values (symbol : string) (limit : Z) : Values :=
  setPositiveInt (Values_Set ∅ "symbol" symbol) "limit" limit.

Definition OrderBook (symbol : string) (limit : Z) : unsigned decoded :=
  MkMethod (OrderBookRequest_validate symbol limit)
    (public "/api/v3/depth" (TradesRequest_values symbol limit) "depth" 1) (valueAnswer "OrderBook").

Definition RecentTrades (symbol : string) (limit : Z) : unsigned (list decoded) :=
  MkMethod (TradesRequest_validate symbol limit)
    (public "/api/v3/trades" (TradesRequest_values symbol limit) "trades" 5) (listAnswer "PublicTrade").

Record AggregateTradesRequest : Type := MkAggregateTrades {
  aggregate_Symbol : string;
  aggregate_Start : option Z;
  aggregate_End : option Z;
  aggregate_Limit : Z
}.

Definition AggregateTradesRequest_validate (request : AggregateTradesRequest) : result error unit :=
  validateSymbol (aggregate_Symbol request);;
  validateLimit (aggregate_Limit request);;
  match aggregate_Start request, aggregate_End request with
  | Some s, Some f =>
      refuse (bool_decide (UnixMilli s ≤ 0) || bool_decide (UnixMilli f ≤ 0))
        "aggregate trade timestamps must be after the Unix epoch";;
      refuse (bool_decide (f < s)) "aggregate trade start cannot be after end"
  | None, None => Ok tt
  | _, _ => Err (APIValidationError ExchangeMEXC "aggregate trade start and end must be used together")
  end.

(** Valid requests have both times or none. *)
Definition AggregateTradesRequest_values (request : AggregateTradesRequest) : Values :=
  setTimeRange (setPositiveInt (Values_Set ∅ "symbol" (aggregate_Symbol request)) "limit" (aggregate_Limit request))
    (aggregate_Start request) (aggregate_End request).

Definition AggregateTrades (request : AggregateTradesRequest) : unsigned (list decoded) :=
  MkMethod (AggregateTradesRequest_validate request)
    (public "/api/v3/aggTrades" (AggregateTradesRequest_values request) "aggregate-trades" 1)
    (listAnswer "AggregateTrade").

Definition CandleInterval_valid (interval : string) : bool :=
  bool_decide (interval ∈ ["1m"; "5m"; "15m"; "30m"; "60m"; "4h"; "1d"; "1W"; "1M"]).

Record CandlesRequest : Type := MkCandles {
  candles_Symbol : string;
  Interval : string;
  candles_Start : option Z;
  candles_End : option Z;
  candles_Limit : Z
}.

Definition CandlesRequest_validate (request : CandlesRequest) : result error unit :=
  validateSymbol (candles_Symbol request);;
  refuse (negb (CandleInterval_valid (Interval request))) "unsupported candle interval %q";;
  validateLimit (candles_Limit request);;
  refuse (beforeEpochMilli (candles_Start request) || beforeEpochMilli (candles_End request))
    "candle timestamps must be after the Unix epoch";;
  match candles_Start request, candles_End request with
  | Some s, Some f => refuse (negb (bool_decide (s < f))) "candle start must be before end"
  | _, _ => Ok tt
  end.

Definition CandlesRequest_values (request : CandlesRequest) : Values :=
  let values := Values_Set (Values_Set ∅ "symbol" (candles_Symbol request)) "interval" (Interval request) in
  setTimeRange (setPositiveInt values "limit" (candles_Limit request)) (candles_Start request) (candles_End request).

Definition Candles (request : CandlesRequest) : unsigned decoded :=
  MkMethod (CandlesRequest_validate request)
    (public "/api/v3/klines" (CandlesRequest_values request) "klines" 1) (valueAnswer "[]Candle").

(** The four statistics of one symbol. *)
Definition symbolMethod (path name type symbol : string) : unsigned decoded :=
  MkMethod (validateSymbol symbol) (public path (Values_Set ∅ "symbol" symbol) name 1) (valueAnswer type).

Definition AveragePrice : string → unsigned decoded := symbolMethod "/api/v3/avgPrice" "average-price" "AveragePrice".
Definition Ticker24H : string → unsigned decoded := symbolMethod "/api/v3/ticker/24hr" "ticker-24h" "Ticker24H".
Definition PriceTicker : string → unsigned decoded := symbolMethod "/api/v3/ticker/price" "price-ticker" "PriceTicker".
Definition BookTicker : string → unsigned decoded := symbolMethod "/api/v3/ticker/bookTicker" "book-ticker" "BookTicker".
End methods.
End MEXCApi.
