(* ===== verification/KuCoinEndpoints.v ===== *)
(** * The methods of the KuCoin client: [exchange/kucoin/orders.go], [account.go], [market.go], [requests.go] *)

From S2P Require Import Prelude GoStrings GoStrconv Decimals Errors Credential RateLimit Executor Unified ClientErrors SpotAdapter KuCoinSpot Clients.
From S2P Require Import EndpointLimits RestClient HMACClients RestSafety Endpoints.

Module KuCoinApi.
Import KuCoinSpot.KuCoin.

Section methods.
Context `{Library} `{Decoder} (now : Z) (accountID : string) (unmarshal : unmarshals Clients.KuCoin.envelope).

Definition decodeBodyError := Clients.KuCoin.decodeBodyError "KuCoin" accountID Clients.KuCoin.classifySpot.
Definition decodeData {A} (target : string → result error A) : Response → Z → result error A :=
  Clients.KuCoin.decodeData "KuCoin" accountID Clients.KuCoin.classifySpot unmarshal target.

Abbreviation signed A := (clientMethod (Z * privateRequest * EndpointLimits.KuCoin.endpointLimit) A).
Abbreviation unsigned A := (clientMethod (Z * string * Values * EndpointLimits.KuCoin.endpointLimit) A).

Definition spot (request : privateRequest) (weight : Z) := (now, request, EndpointLimits.KuCoin.spotLimit weight).
Definition public (path : string) (values : Values) (weight : Z) :=
  (now, path, values, EndpointLimits.KuCoin.publicLimit weight).

(** ** Answers *)

Definition valueAnswer (type : string) (response : Response) : result error decoded :=
  decodeData (Unmarshal type) response OperationRead.

Definition listAnswer (type : string) (response : Response) : result error (list decoded) :=
  rawItems ← decodeData RawItems response OperationRead;
  orBody (decodeBodyError response OperationRead) (decodeEach type rawItems).

(** ** Orders *)

Definition PlaceOrderRequest_fields (request : NativePlaceOrder) : list (string * field) :=
  textField "clientOid" (ClientOrderID request) ++ textField "symbol" (Symbol request) ++ textField "type" (Type_ request) ++
  textField "side" (Side request) ++ optionalField "price" (Price request) ++ optionalField "size" (Size request) ++
  optionalField "funds" (Funds request) ++ optionalField "timeInForce" (TimeInForce request) ++
  optionalTruth "postOnly" (PostOnly request) ++ optionalInteger "cancelAfter" (CancelAfter request) ++
  optionalField "remark" (Remark request) ++ optionalField "tags" (Tags request).

Definition PlaceOrder (request : NativePlaceOrder) : signed decoded :=
  MkMethod (PlaceOrderRequest_validate request)
    (spot (postTrade "/api/v1/hf/orders" (MarshalFields (PlaceOrderRequest_fields request))) 1)
    (Clients.KuCoin.PlaceOrder "KuCoin" accountID Clients.KuCoin.classifySpot unmarshal (Unmarshal "OrderReference")
       (λ reference, Text reference "orderId")).

Definition orderIdentityPath (orderID clientOrderID : string) : string :=
  if negb (unset orderID) then "/api/v1/hf/orders/" +:+ PathEscape orderID
  else "/api/v1/hf/orders/client-order/" +:+ PathEscape clientOrderID.

(** [OrderInfoRequest.values] and [CancelOrderRequest.values]. *)
Definition OrderIdentity_values (request : OrderIdentity) : Values := Values_Set ∅ "symbol" (id_Symbol request).

Definition OrderInfo (request : OrderIdentity) : signed decoded :=
  MkMethod (OrderIdentity_validate request)
    (spot (getRead (orderIdentityPath (id_OrderID request) (id_ClientOrderID request)) (OrderIdentity_values request)) 2)
    (valueAnswer "Order").

Definition CancelOrder (request : OrderIdentity) : signed decoded :=
  MkMethod (OrderIdentity_validate request)
    (spot (changeValues "DELETE" (orderIdentityPath (id_OrderID request) (id_ClientOrderID request))
             (OrderIdentity_values request)) 1)
    (λ response,
       reference ← decodeData (Unmarshal "OrderReference") response OperationMutation;
       require (negb (unset (Text reference "orderId") && unset (Text reference "clientOid")))
         (decodeBodyError response OperationMutation (Errorf "KuCoin cancel acknowledgement is empty"));;
       Ok reference).

Definition OpenOrderSymbols : signed (list string) :=
  MkMethod (Ok tt) (spot (getRead "/api/v1/hf/orders/active/symbols" ∅) 2)
    (λ response,
       answer ← decodeData (Unmarshal "symbols") response OperationRead;
       let symbols := Items answer "symbols" in
       orBody (decodeBodyError response OperationRead) (mapM validateSymbol symbols);;
       orBody (decodeBodyError response OperationRead)
         (validateDistinct (λ _, Ok tt) (Errorf "KuCoin open order symbols response contains a duplicate") [] symbols);;
       Ok symbols).

Definition OpenOrdersRequest_values (request : NativeOpenOrders) : Values :=
  let values := Values_Set ∅ "symbol" (open_Symbol request) in
  setPositiveInt (setPositiveInt values "pageNum" (PageNumber request)) "pageSize" (PageSize request).

(** The page with its number, size and totals, and its orders. *)
Definition OpenOrders (request : NativeOpenOrders) : signed (decoded * list decoded) :=
  MkMethod (OpenOrdersRequest_validate request)
    (spot (getRead "/api/v1/hf/orders/active/page" (OpenOrdersRequest_values request)) 2)
    (λ response,
       rawPage ← decodeData (Unmarshal "page") response OperationRead;
       orders ← orBody (decodeBodyError response OperationRead) (decodeEach "Order" (Items rawPage "items"));
       Ok (rawPage, orders)).

(** ** Account *)

Definition AccountTypeMain : string := "main".
Definition AccountTypeTrade : string := "trade".

(** The regular expression [[A-Z0-9]{2,20}]. *)
Definition currencyPattern : string → bool := matches is_asset_char 2 20.

(** [AccountsRequest]: a currency and an account type. *)
Definition AccountsRequest_validate (currency accountType : string) : result error unit :=
  refuse (negb (unset currency) && negb (currencyPattern currency)) "invalid account currency %q";;
  refuse (negb (unset accountType) && negb (bool_decide (accountType = AccountTypeMain)) &&
          negb (bool_decide (accountType = AccountTypeTrade))) "account type must be main, trade, or empty".

Definition AccountsRequest_values (currency accountType : string) : Values :=
  setIfNotEmpty (setIfNotEmpty ∅ "currency" currency) "type" accountType.

Definition Accounts (currency accountType : string) : signed (list decoded) :=
  MkMethod (AccountsRequest_validate currency accountType)
    (now, getRead "/api/v1/accounts" (AccountsRequest_values currency accountType),
     EndpointLimits.KuCoin.managementLimit 5)
    (listAnswer "Account").

(** ** Market data *)

Definition Symbols : unsigned (list decoded) :=
  MkMethod (Ok tt) (public "/api/v2/symbols" ∅ 4) (listAnswer "Symbol").

Definition Ticker (symbol : string) : unsigned decoded :=
  MkMethod (validateSymbol symbol) (public "/api/v1/market/orderbook/level1" (Values_Set ∅ "symbol" symbol) 2)
    (valueAnswer "Ticker").

(** [OrderBookRequest]: a symbol and a size. *)
Definition OrderBookRequest_validate (symbol : string) (size : Z) : result error unit :=
  validateSymbol symbol;;
  refuse (negb (bool_decide (size = 20)) && negb (bool_decide (size = 100))) "order book size must be 20 or 100".

Definition OrderBook (symbol : string) (size : Z) : unsigned decoded :=
  MkMethod (OrderBookRequest_validate symbol size)
    (public ("/api/v1/market/orderbook/level2_" +:+ pretty size) (Values_Set ∅ "symbol" symbol) 2)
    (valueAnswer "OrderBook").

(** [RecentTradesRequest] is a symbol. *)
Definition RecentTrades (symbol : string) : unsigned (list decoded) :=
  MkMethod (validateSymbol symbol) (public "/api/v1/market/histories" (Values_Set ∅ "symbol" symbol) 3)
    (listAnswer "PublicTrade").

Definition CandleInterval_valid (interval : string) : bool :=
  bool_decide (interval ∈ ["1min"; "3min"; "5min"; "15min"; "30min"; "1hour"; "2hour"; "4hour"; "6hour"; "8hour";
                           "12hour"; "1day"; "1week"]).

Record CandlesRequest : Type := MkCandles {
  candles_Symbol : string;
  Interval : string;
  candles_Start : option Z;
  candles_End : option Z
}.

Definition CandlesRequest_validate (request : CandlesRequest) : result error unit :=
  validateSymbol (candles_Symbol request);;
  refuse (negb (CandleInterval_valid (Interval request))) "unsupported candle interval %q";;
  refuse (beforeEpoch (candles_Start request) || beforeEpoch (candles_End request))
    "candle timestamps must be after the Unix epoch";;
  match candles_Start request, candles_End request with
  | Some s, Some f => refuse (negb (bool_decide (s < f))) "candle start must be before end"
  | _, _ => Ok tt
  end.

Definition CandlesRequest_values (request : CandlesRequest) : Values :=
  let values := Values_Set (Values_Set ∅ "symbol" (candles_Symbol request)) "type" (Interval request) in
  setSeconds (setSeconds values "startAt" (candles_Start request)) "endAt" (candles_End request).

Definition Candles (request : CandlesRequest) : unsigned decoded :=
  MkMethod (CandlesRequest_validate request)
    (public "/api/v1/market/candles" (CandlesRequest_values request) 3) (valueAnswer "[]Candle").
End methods.
End KuCoinApi.
