(* ===== verification/GateIOEndpoints.v ===== *)
(** * The methods of the Gate.io client: [exchange/gateio/orders.go], [account.go], [market.go], [requests.go] *)

From S2P Require Import Prelude GoStrings GoStrconv Decimals Errors Credential RateLimit Executor Unified ClientErrors SpotAdapter GateIOSpot Clients.
From S2P Require Import EndpointLimits RestClient HMACClients RestSafety Endpoints.

Module GateIOApi.
Import GateIOSpot.GateIO.

Section methods.
(** [parseSeconds] reads the reset time of a rate limit header. *)
Context `{Library} `{Decoder} (parseSeconds : string → option Z) (now : Z) (accountID : string).
Context (unmarshal : unmarshals Clients.GateIO.envelope).

Definition decodeBodyError := Clients.GateIO.decodeBodyError "Gate.io" accountID.
Definition decodeData {A} (target : string → result error A) : Response → Z → result error A :=
  Clients.GateIO.decodeData "Gate.io" accountID unmarshal target.

Abbreviation signed A := (clientMethod ((string → option Z) * Z * privateRequest * EndpointLimits.GateIO.endpointLimit) A).
Abbreviation unsigned A := (clientMethod ((string → option Z) * Z * string * Values * EndpointLimits.GateIO.endpointLimit) A).

Definition private (request : privateRequest) (limit : EndpointLimits.GateIO.endpointLimit) :=
  (parseSeconds, now, request, limit).
Definition public (path : string) (values : Values) (endpoint : string) :=
  (parseSeconds, now, path, values, EndpointLimits.GateIO.publicLimit endpoint).

(** ** Answers *)

Definition valueAnswer (type : string) (response : Response) : result error decoded :=
  decodeData (Unmarshal type) response OperationRead.

Definition listAnswer (type : string) (response : Response) : result error (list decoded) :=
  rawItems ← decodeData RawItems response OperationRead;
  orBody (decodeBodyError response OperationRead) (decodeEach type rawItems).

Definition decodeOrder (response : Response) (operation : Z) : result error decoded :=
  decodeData (Unmarshal "Order") response operation.
Definition decodeTrades : Response → result error (list decoded) := listAnswer "Trade".

(** ** Orders *)

Definition PlaceOrderRequest_fields (request : NativePlaceOrder) : list (string * field) :=
  textField "text" (ClientOrderID request) ++ textField "currency_pair" (CurrencyPair request) ++
  textField "type" (Type_ request) ++ textField "account" (GateIOSpot.GateIO.Account request) ++ textField "side" (Side request) ++
  textField "amount" (Amount request) ++ optionalField "price" (Price request) ++
  textField "time_in_force" (TimeInForce request).

Definition PlaceOrder (request : NativePlaceOrder) : signed decoded :=
  MkMethod (PlaceOrderRequest_validate request)
    (private (postTrade "/spot/orders" (MarshalFields (PlaceOrderRequest_fields request)))
       (EndpointLimits.GateIO.orderLimit (CurrencyPair request)))
    (Clients.GateIO.PlaceOrder "Gate.io" accountID unmarshal (Unmarshal "Order") (λ order, Text order "id")).

Definition orderPath (request : OrderIdentity) : string := "/spot/orders/" +:+ PathEscape (id_OrderID request).
Definition orderValues (request : OrderIdentity) : Values := Values_Set ∅ "currency_pair" (id_CurrencyPair request).

Definition OrderInfo (request : OrderIdentity) : signed decoded :=
  MkMethod (OrderIdentity_validate request)
    (private (getRead (orderPath request) (orderValues request)) (EndpointLimits.GateIO.privateLimit "order-info"))
    (λ response, decodeOrder response OperationRead).

Definition CancelOrder (request : OrderIdentity) : signed decoded :=
  MkMethod (OrderIdentity_validate request)
    (private (changeValues "DELETE" (orderPath request) (orderValues request)) EndpointLimits.GateIO.cancelLimit)
    (λ response,
       order ← decodeOrder response OperationMutation;
       require (negb (unset (Text order "id")))
         (decodeBodyError response OperationMutation (Errorf "Gate.io cancel acknowledgement is empty"));;
       Ok order).

Definition OpenOrdersRequest_values (request : NativeOpenOrders) : Values :=
  let values := Values_Set ∅ "account" "spot" in
  setPositiveInt (setPositiveInt values "page" (Page request)) "limit" (Limit request).

(** A group with its currency pair and total, and its orders. *)
Definition decodeGroup (raw : string) : result error (decoded * list decoded) :=
  group ← Unmarshal "OpenOrderGroup" raw;
  orders ← decodeEach "Order" (Items group "orders");
  Ok (group, orders).

Definition OpenOrders (request : NativeOpenOrders) : signed (list (decoded * list decoded)) :=
  MkMethod (OpenOrdersRequest_validate request)
    (private (getRead "/spot/open_orders" (OpenOrdersRequest_values request))
       (EndpointLimits.GateIO.privateLimit "open-orders"))
    (λ response,
       rawGroups ← decodeData RawItems response OperationRead;
       orBody (decodeBodyError response OperationRead) (mapM decodeGroup rawGroups)).

Record MyTradesRequest : Type := MkMyTrades {
  trades_CurrencyPair : string;
  trades_OrderID : string;
  trades_Page : Z;
  trades_Limit : Z
}.

Definition MyTradesRequest_validate (request : MyTradesRequest) : result error unit :=
  (if negb (unset (trades_CurrencyPair request)) then validateCurrencyPair (trades_CurrencyPair request) else Ok tt);;
  (if negb (unset (trades_OrderID request)) then
     refuse (unset (trades_CurrencyPair request)) "currency pair is required with order ID";;
     refuse (negb (orderIDPattern (trades_OrderID request))) "invalid order ID"
   else Ok tt);;
  validatePage (trades_Page request) (trades_Limit request).

Definition MyTradesRequest_values (request : MyTradesRequest) : Values :=
  let values := setIfNotEmpty ∅ "currency_pair" (trades_CurrencyPair request) in
  let values := setIfNotEmpty values "order_id" (trades_OrderID request) in
  setPositiveInt (setPositiveInt values "page" (trades_Page request)) "limit" (trades_Limit request).

Definition MyTrades (request : MyTradesRequest) : signed (list decoded) :=
  MkMethod (MyTradesRequest_validate request)
    (private (getRead "/spot/my_trades" (MyTradesRequest_values request)) (EndpointLimits.GateIO.privateLimit "my-trades"))
    decodeTrades.

(** ** Account *)

(** The regular expression [[A-Z0-9]{2,20}]. *)
Definition currencyPattern : string → bool := matches is_asset_char 2 20.

(** [AccountsRequest] is a currency. *)
Definition AccountsRequest_validate (currency : string) : result error unit :=
  refuse (negb (unset currency) && negb (currencyPattern currency)) "invalid currency %q".
Definition AccountsRequest_values (currency : string) : Values := setIfNotEmpty ∅ "currency" currency.

Definition Accounts (currency : string) : signed (list decoded) :=
  MkMethod (AccountsRequest_validate currency)
    (private (getRead "/spot/accounts" (AccountsRequest_values currency)) (EndpointLimits.GateIO.privateLimit "accounts"))
    (listAnswer "Account").

(** ** Market data *)

Definition CurrencyPairs : unsigned (list decoded) :=
  MkMethod (Ok tt) (public "/spot/currency_pairs" ∅ "currency-pairs") (listAnswer "CurrencyPair").

Definition Ticker (currencyPair : string) : unsigned decoded :=
  MkMethod (validateCurrencyPair currencyPair)
    (public "/spot/tickers" (Values_Set ∅ "currency_pair" currencyPair) "tickers")
    (λ response,
       rawItems ← decodeData RawItems response OperationRead;
       match rawItems with
       | [raw] => orBody (decodeBodyError response OperationRead) (Unmarshal "Ticker" raw)
       | _ => Err (decodeBodyError response OperationRead
                (Errorf "Gate.io ticker response must contain exactly one item"))
       end).

Definition validateLimit (limit : Z) : result error unit :=
  refuse (outside 0 limit 1000) "limit must be between 1 and 1000 or zero".

(** [OrderBookRequest] and [TradesRequest]: a currency pair and a limit. *)
Definition OrderBookRequest_validate (currencyPair : string) (limit : Z) : result error unit :=
  validateCurrencyPair currencyPair;;
  refuse (outside 0 limit 100) "order book limit must be between 1 and 100 or zero".
Definition OrderBookRequest_values (currencyPair : string) (limit : Z) : Values :=
  setPositiveInt (Values_Set (Values_Set ∅ "currency_pair" currencyPair) "with_id" "true") "limit" limit.
Definition TradesRequest_validate (currencyPair : string) (limit : Z) : result error unit :=
  validateCurrencyPair currencyPair;;
  validateLimit limit.
Definition TradesRequest_values (currencyPair : string) (limit : Z) : Values :=
  setPositiveInt (Values_Set ∅ "currency_pair" currencyPair) "limit" limit.

Definition OrderBook (currencyPair : string) (limit : Z) : unsigned decoded :=
  MkMethod (OrderBookRequest_validate currencyPair limit)
    (public "/spot/order_book" (OrderBookRequest_values currencyPair limit) "order-book") (valueAnswer "OrderBook").

Definition RecentTrades (currencyPair : string) (limit : Z) : unsigned (list decoded) :=
  MkMethod (TradesRequest_validate currencyPair limit)
    (public "/spot/trades" (TradesRequest_values currencyPair limit) "trades") decodeTrades.

Definition CandleInterval_valid (interval : string) : bool :=
  bool_decide (interval ∈ ["1s"; "10s"; "1m"; "5m"; "15m"; "30m"; "1h"; "4h"; "8h"; "1d"; "7d"; "30d"]).

Record CandlesRequest : Type := MkCandles {
  candles_CurrencyPair : string;
  Interval : string;
  candles_Limit : Z;
  From : option Z;
  To : option Z
}.

Definition CandlesRequest_validate (request : CandlesRequest) : result error unit :=
  validateCurrencyPair (candles_CurrencyPair request);;
  refuse (negb (CandleInterval_valid (Interval request))) "unsupported candle interval %q";;
  refuse (outside 0 (candles_Limit request) 1000) "candle limit must be between 1 and 1000 or zero";;
  refuse (bool_decide (0 < candles_Limit request) && bool_decide (From request ≠ None ∨ To request ≠ None))
    "candle limit cannot be combined with from or to";;
  refuse (beforeEpoch (From request) || beforeEpoch (To request)) "candle timestamps must be after the Unix epoch";;
  match From request, To request with
  | Some from, Some to => refuse (negb (bool_decide (from < to))) "candle from must be before to"
  | _, _ => Ok tt
  end.

Definition CandlesRequest_values (request : CandlesRequest) : Values :=
  let values := Values_Set (Values_Set ∅ "currency_pair" (candles_CurrencyPair request)) "interval" (Interval request) in
  let values := setPositiveInt values "limit" (candles_Limit request) in
  setSeconds (setSeconds values "from" (From request)) "to" (To request).

Definition Candles (request : CandlesRequest) : unsigned decoded :=
  MkMethod (CandlesRequest_validate request)
    (public "/spot/candlesticks" (CandlesRequest_values request) "candlesticks") (valueAnswer "[]Candle").
End methods.
End GateIOApi.
