(* ===== verification/HTXEndpoints.v ===== *)
(** * The methods of the HTX client: [exchange/htx/orders.go], [account.go], [market.go], [requests.go] *)

From S2P Require Import Prelude GoStrings GoStrconv Decimals Errors Credential RateLimit Executor Unified ClientErrors SpotAdapter HTXSpot Clients.
From S2P Require Import EndpointLimits RestClient HMACClients RestSafety Endpoints.

Module HTXApi.
Import HTXSpot.HTX.

Section methods.
(** [own] are the quotas of the client; [data] reads the field of that name. *)
Context `{Library} `{Decoder} `{JSON} (now : Z) (own : HMACClients.HTX.htxSettings) (accountID : string).
Context (unmarshal : unmarshals Clients.Htx.envelope) (data : string → result error string).

Definition decodeBodyErrorForOperation := Clients.Htx.decodeBodyErrorForOperation accountID.
Definition decodeBodyError := Clients.Htx.decodeBodyError accountID.
Definition decodeResponse {A} (target : string → result error A) (response : Response) : result error A :=
  Clients.Htx.decodeResponseForOperation accountID unmarshal target response OperationRead.
Definition decodeDataForOperation {A} (target : string → result error A) : Response → Z → result error A :=
  Clients.Htx.decodeDataForOperation accountID unmarshal data target.

Abbreviation signed A := (clientMethod (Z * privateRequest * string * Z) A).
Abbreviation unsigned A := (clientMethod (Z * string * Values * string) A).

Definition account (request : privateRequest) :=
  (now, request, EndpointLimits.HTX.rateGroupAccount, HMACClients.HTX.accountQuota own).
Definition order (request : privateRequest) :=
  (now, request, EndpointLimits.HTX.rateGroupOrder, HMACClients.HTX.orderQuota own).
Definition orderRead (request : privateRequest) :=
  (now, request, EndpointLimits.HTX.rateGroupOrderRead, HMACClients.HTX.orderReadQuota own).
Definition tradeHistory (request : privateRequest) :=
  (now, request, EndpointLimits.HTX.rateGroupTradeHistory, HMACClients.HTX.tradeHistoryQuota own).

(** ** Answers *)

(** An item whose texts of these names are set. *)
Definition required (type missing : string) (names : list string) (raw : string) : result error decoded :=
  item ← Unmarshal type raw;
  require (negb (existsb (λ name, unset (Text item name)) names)) (Errorf missing);;
  Ok item.

Definition itemsAnswer (type missing : string) (names : list string) (response : Response) : result error (list decoded) :=
  rawItems ← decodeDataForOperation RawItems response OperationRead;
  orBody (decodeBodyError response) (mapM (required type missing names) rawItems).

Definition decodeOrder (response : Response) : result error decoded :=
  value ← decodeDataForOperation (Unmarshal "Order") response OperationRead;
  require (negb (unset (Text value "id") || unset (Text value "symbol")))
    (decodeBodyError response (Errorf "HTX order response is missing an order ID or symbol"));;
  Ok value.
Definition decodeOrders : Response → result error (list decoded) :=
  itemsAnswer "Order" "HTX order list item is missing an order ID or symbol" ["id"; "symbol"].
Definition decodeMatchResults : Response → result error (list decoded) :=
  itemsAnswer "MatchResult" "HTX match result is missing an ID or order ID" ["id"; "order-id"].

(** ** Orders *)

(** The members of the body of an order. *)
Definition PlaceOrderRequest_fields (request : NativePlaceOrder) : list (string * field) :=
  textField "account-id" (AccountID request) ++ textField "amount" (Amount request) ++
  optionalField "price" (Price request) ++ textField "source" "spot-api" ++ textField "symbol" (Symbol request) ++
  textField "type" (orderType request) ++ textField "client-order-id" (ClientOrderID request) ++
  optionalInteger "self-match-prevent" (if SelfMatchPrevent request then 1 else 0).

Definition PlaceOrder (request : NativePlaceOrder) : signed (string * string) :=
  MkMethod (PlaceOrderRequest_validate request)
    (order (postTrade "/v1/order/orders/place" (MarshalFields (PlaceOrderRequest_fields request))))
    (λ response, orderID ← Clients.Htx.PlaceOrder accountID unmarshal data response; Ok (orderID, ClientOrderID request)).

Definition OrderInfo (request : NativeOrderInfo) : signed decoded :=
  MkMethod (OrderInfoRequest_validate request)
    (orderRead
       (if negb (unset (info_ClientOrderID request))
        then getRead "/v1/order/orders/getClientOrder" (Values_Set ∅ "clientOrderId" (info_ClientOrderID request))
        else getRead ("/v1/order/orders/" +:+ info_OrderID request) ∅))
    decodeOrder.

Record CancelResult : Type := MkCancelResult {
  result_OrderID : string;
  result_ClientOrderID : string;
  result_StatusCode : option Z
}.

(** The request of [CancelOrder]: a client order ID is in its body. *)
Definition cancelRequest (request : NativeCancelOrder) : privateRequest :=
  if negb (unset (cancel_ClientOrderID request))
  then postTrade "/v1/order/orders/submitCancelClientOrder"
         (MarshalFields (textField "client-order-id" (cancel_ClientOrderID request)))
  else changeValues "POST" ("/v1/order/orders/" +:+ cancel_OrderID request +:+ "/submitcancel")
         (setIfNotEmpty ∅ "symbol" (cancel_Symbol request)).

Definition cancelAnswer (request : NativeCancelOrder) (response : Response) : result error CancelResult :=
  let failed := decodeBodyErrorForOperation response OperationMutation in
  raw ← decodeDataForOperation Ok response OperationMutation;
  value ← orBody failed (optionalScalarText "value is not scalar" false raw);
  require (negb (unset value)) (failed (Errorf "HTX cancel acknowledgement is empty"));;
  if negb (unset (cancel_OrderID request)) then
    require (orderIDPattern value) (failed (Errorf "HTX cancel acknowledgement has an invalid order ID"));;
    Ok (MkCancelResult value (cancel_ClientOrderID request) None)
  else
    match Atoi value with
    | Some statusCode => Ok (MkCancelResult "" (cancel_ClientOrderID request) (Some statusCode))
    | None => Err (failed (Wrapf "decode HTX cancel status code: %w" (Errorf "strconv.Atoi")))
    end.

Definition CancelOrder (request : NativeCancelOrder) : signed CancelResult :=
  MkMethod (CancelOrderRequest_validate request) (order (cancelRequest request)) (cancelAnswer request).

(** The cursor, direction and size that end the parameters of a list. *)
Definition setCursor (values : Values) (from direction : string) (size : Z) : Values :=
  setPositiveInt (setIfNotEmpty (setIfNotEmpty values "from" from) "direct" direction) "size" size.

Definition OpenOrdersRequest_values (request : NativeOpenOrders) : Values :=
  let values := setIfNotEmpty ∅ "account-id" (open_AccountID request) in
  let values := setIfNotEmpty values "symbol" (open_Symbol request) in
  let values := setIfNotEmpty values "side" (open_Side request) in
  setCursor values (From request) (Direction request) (Size request).

Definition OpenOrders (request : NativeOpenOrders) : signed (list decoded) :=
  MkMethod (OpenOrdersRequest_validate request)
    (orderRead (getRead "/v1/order/openOrders" (OpenOrdersRequest_values request))) decodeOrders.

Definition validateOrderTypes : list string → result error unit :=
  validateDistinct (λ value, refuse (negb (OrderType_valid value)) "unsupported HTX order type %q")
    (APIValidationError ExchangeHTX "HTX order types contain a duplicate") [].

Definition validateTimeRange (start finish : option Z) : result error unit :=
  refuse (beforeEpochMilli start || beforeEpochMilli finish) "query timestamps must be after the Unix epoch";;
  match start, finish with
  | Some s, Some f =>
      refuse (negb (bool_decide (s < f))) "query start must be before end";;
      refuse (bool_decide (48 * 60 * Minute < Time_Sub f s)) "query time range cannot exceed 48 hours"
  | _, _ => Ok tt
  end.

Definition setOrderTypes (values : Values) (types : list string) : Values :=
  if bool_decide (types = []) then values else Values_Set values "types" (Join types ",").
Definition joinOrderStates (states : list string) : string := Join states ",".
Definition setTimeRange (values : Values) (start finish : option Z) : Values :=
  setTime (setTime values "start-time" start) "end-time" finish.

(** [OrderHistoryRequest], and without the states [MatchResultsRequest]. *)
Record OrderHistoryRequest : Type := MkOrderHistory {
  history_Symbol : string;
  Types : list string;
  States : list string;
  Start : option Z;
  End_ : option Z;
  history_From : string;
  history_Direction : string;
  history_Size : Z
}.

Definition OrderHistoryRequest_validate (request : OrderHistoryRequest) : result error unit :=
  validateSymbol (history_Symbol request);;
  refuse (bool_decide (States request = [])) "order history states are required";;
  validateOrderTypes (Types request);;
  validateDistinct
    (λ state, refuse (negb (bool_decide (state ∈ ["filled"; "partial-canceled"; "canceled"])))
       "unsupported order history state %q")
    (APIValidationError ExchangeHTX "order history states contain a duplicate") [] (States request);;
  validateTimeRange (Start request) (End_ request);;
  validateCursor (history_From request) (history_Direction request);;
  refuse (outside 0 (history_Size request) 100) "order history size must be between 1 and 100 or zero".

Definition OrderHistoryRequest_values (request : OrderHistoryRequest) : Values :=
  let values := Values_Set (Values_Set ∅ "symbol" (history_Symbol request)) "states" (joinOrderStates (States request)) in
  let values := setTimeRange (setOrderTypes values (Types request)) (Start request) (End_ request) in
  setCursor values (history_From request) (history_Direction request) (history_Size request).

Definition OrderHistory (request : OrderHistoryRequest) : signed (list decoded) :=
  MkMethod (OrderHistoryRequest_validate request)
    (orderRead (getRead "/v1/order/orders" (OrderHistoryRequest_values request))) decodeOrders.

Definition MatchResultsRequest_validate (request : OrderHistoryRequest) : result error unit :=
  validateSymbol (history_Symbol request);;
  validateOrderTypes (Types request);;
  validateTimeRange (Start request) (End_ request);;
  validateCursor (history_From request) (history_Direction request);;
  refuse (outside 0 (history_Size request) 500) "match result size must be between 1 and 500 or zero".

Definition MatchResultsRequest_values (request : OrderHistoryRequest) : Values :=
  let values := setOrderTypes (Values_Set ∅ "symbol" (history_Symbol request)) (Types request) in
  let values := setTimeRange values (Start request) (End_ request) in
  setCursor values (history_From request) (history_Direction request) (history_Size request).

Definition MatchResults (request : OrderHistoryRequest) : signed (list decoded) :=
  MkMethod (MatchResultsRequest_validate request)
    (tradeHistory (getRead "/v1/order/matchresults" (MatchResultsRequest_values request))) decodeMatchResults.

Definition OrderMatches (orderID : string) : signed (list decoded) :=
  MkMethod (refuse (negb (orderIDPattern orderID)) "invalid HTX order ID %q")
    (orderRead (getRead ("/v1/order/orders/" +:+ orderID +:+ "/matchresults") ∅)) decodeMatchResults.

(** ** Account *)

Definition Accounts : signed (list decoded) :=
  MkMethod (Ok tt) (account (getRead "/v1/account/accounts" ∅))
    (itemsAnswer "Account" "HTX account item is missing an ID" ["id"]).

Definition AccountBalance (account_ID : string) : signed (decoded * list decoded) :=
  MkMethod (refuse (negb (accountIDPattern account_ID)) "invalid HTX account ID %q")
    (account (getRead ("/v1/account/accounts/" +:+ account_ID +:+ "/balance") ∅))
    (λ response,
       wire ← decodeDataForOperation (Unmarshal "AccountBalance") response OperationRead;
       require (negb (unset (Text wire "id")))
         (decodeBodyError response (Errorf "HTX account balance is missing an account ID"));;
       balances ← orBody (decodeBodyError response) (decodeEach "Balance" (Items wire "list"));
       Ok (wire, balances)).

(** ** Market data *)

Definition public (path : string) (values : Values) (endpoint : string) := (now, path, values, endpoint).

(** The items of the [data] of an envelope. *)
Definition envelopeItems (type : string) (response : Response) : result error (decoded * list decoded) :=
  envelope ← decodeResponse (Unmarshal "data") response;
  items ← orBody (decodeBodyError response) (decodeEach type (Items envelope "data"));
  Ok (envelope, items).

(** The [tick] of an envelope. *)
Definition tickAnswer (type : string) (response : Response) : result error (decoded * decoded) :=
  envelope ← decodeResponse (Unmarshal "tick") response;
  wire ← orBody (decodeBodyError response) (Unmarshal type (Text envelope "tick"));
  Ok (envelope, wire).

Definition ServerTime : unsigned Z :=
  MkMethod (Ok tt) (public "/v1/common/timestamp" ∅ "timestamp")
    (λ response,
       envelope ← decodeResponse (Unmarshal "data") response;
       require (bool_decide (0 < Integer envelope "data"))
         (decodeBodyError response (Errorf "HTX server time is invalid"));;
       Ok (Integer envelope "data")).

(** [MarketSymbolsRequest]: symbols and the time of the last update. *)
Definition MarketSymbolsRequest_validate (symbols : list string) (updatedSince : option Z) : result error unit :=
  validateDistinct validateSymbol (APIValidationError ExchangeHTX "market symbols contain a duplicate") [] symbols;;
  refuse (beforeEpochMilli updatedSince) "market symbol update time must be after the Unix epoch".
Definition MarketSymbolsRequest_values (symbols : list string) (updatedSince : option Z) : Values :=
  setTime (if bool_decide (symbols = []) then ∅ else Values_Set ∅ "symbols" (Join symbols ",")) "ts" updatedSince.

Definition MarketSymbols (symbols : list string) (updatedSince : option Z) : unsigned (decoded * list decoded) :=
  MkMethod (MarketSymbolsRequest_validate symbols updatedSince)
    (public "/v1/settings/common/market-symbols" (MarketSymbolsRequest_values symbols updatedSince) "market-symbols")
    (envelopeItems "MarketSymbol").

Definition Ticker (symbol : string) : unsigned (decoded * decoded) :=
  MkMethod (validateSymbol symbol) (public "/market/detail/merged" (Values_Set ∅ "symbol" symbol) "ticker")
    (tickAnswer "AggregatedTicker").

Definition Tickers : unsigned (list decoded) :=
  MkMethod (Ok tt) (public "/market/tickers" ∅ "tickers")
    (λ response, answer ← envelopeItems "MarketTicker" response; Ok answer.2).

Definition DepthStep0 : string := "step0".
Definition DepthType_valid (value : string) : bool :=
  bool_decide (value ∈ [DepthStep0; "step1"; "step2"; "step3"; "step4"; "step5"]).

(** [OrderBookRequest]: a symbol, a depth and a type. *)
Definition OrderBookRequest_validate (symbol : string) (depth : Z) (depthType : string) : result error unit :=
  validateSymbol symbol;;
  refuse (negb (bool_decide (depth ∈ [0; 5; 10; 20]))) "order book depth must be 5, 10, 20, or zero";;
  refuse (negb (unset depthType) && negb (DepthType_valid depthType)) "unsupported order book depth type %q".
Definition OrderBookRequest_values (symbol : string) (depth : Z) (depthType : string) : Values :=
  let depthType := if unset depthType then DepthStep0 else depthType in
  setPositiveInt (Values_Set (Values_Set ∅ "symbol" symbol) "type" depthType) "depth" depth.

Definition OrderBook (symbol : string) (depth : Z) (depthType : string) : unsigned decoded :=
  MkMethod (OrderBookRequest_validate symbol depth depthType)
    (public "/market/depth" (OrderBookRequest_values symbol depth depthType) "order-book")
    (λ response, answer ← tickAnswer "OrderBook" response; Ok answer.2).

Definition decodeTradeBatch (response : Response) (raw : string) : result error (decoded * list decoded) :=
  wire ← orBody (decodeBodyError response) (Unmarshal "TradeBatch" raw);
  trades ← orBody (decodeBodyError response) (decodeEach "PublicTrade" (Items wire "data"));
  Ok (wire, trades).

Definition LatestTrade (symbol : string) : unsigned (decoded * list decoded) :=
  MkMethod (validateSymbol symbol) (public "/market/trade" (Values_Set ∅ "symbol" symbol) "latest-trade")
    (λ response,
       envelope ← decodeResponse (Unmarshal "tick") response;
       decodeTradeBatch response (Text envelope "tick")).

Definition validateSize (size : Z) : result error unit :=
  refuse (outside 0 size 2000) "result size must be between 1 and 2000 or zero".

(** [TradesRequest]: a symbol and a size. *)
Definition TradesRequest_validate (symbol : string) (size : Z) : result error unit :=
  validateSymbol symbol;;
  validateSize size.
Definition TradesRequest_values (symbol : string) (size : Z) : Values :=
  setPositiveInt (Values_Set ∅ "symbol" symbol) "size" size.

Definition RecentTrades (symbol : string) (size : Z) : unsigned (list (decoded * list decoded)) :=
  MkMethod (TradesRequest_validate symbol size)
    (public "/market/history/trade" (TradesRequest_values symbol size) "recent-trades")
    (λ response,
       envelope ← decodeResponse (Unmarshal "data") response;
       mapM (decodeTradeBatch response) (Items envelope "data")).

Definition CandleInterval_valid (interval : string) : bool :=
  bool_decide (interval ∈ ["1min"; "5min"; "15min"; "30min"; "60min"; "4hour"; "1day"; "1week"; "1mon"; "1year"]).

(** [CandlesRequest]: a symbol, an interval and a size. *)
Definition CandlesRequest_validate (symbol interval : string) (size : Z) : result error unit :=
  validateSymbol symbol;;
  refuse (negb (CandleInterval_valid interval)) "unsupported candle interval %q";;
  validateSize size.
Definition CandlesRequest_values (symbol interval : string) (size : Z) : Values :=
  setPositiveInt (Values_Set (Values_Set ∅ "symbol" symbol) "period" interval) "size" size.

Definition Candles (symbol interval : string) (size : Z) : unsigned (list decoded) :=
  MkMethod (CandlesRequest_validate symbol interval size)
    (public "/market/history/kline" (CandlesRequest_values symbol interval size) "candles")
    (λ response, answer ← envelopeItems "Candle" response; Ok answer.2).
End methods.
End HTXApi.
