(* ===== verification/CoinbaseEndpoints.v ===== *)
(** * The methods of the Coinbase client: [exchange/coinbase/orders.go], [account.go], [market.go], [requests.go] *)

From S2P Require Import Prelude GoStrings GoStrconv Decimals Errors Credential RateLimit Executor Unified ClientErrors SpotAdapter CoinbaseSpot Clients.
From S2P Require Import EndpointLimits RestClient HMACClients TokenClients RestSafety Endpoints.

Module CoinbaseApi.
Import CoinbaseSpot.Coinbase.

Section methods.
(** [parseISO] is [time.Parse] of [time.RFC3339Nano], and [orderEnvelope] reads the
    answer to an order. *)
Context `{Library} `{Decoder} (parseISO : string → result error Z) (accountID : string).
Context (unmarshal : unmarshals Clients.Coinbase.envelope) (orderEnvelope : string → result error Clients.Coinbase.orderEnvelope).

Definition decodeBodyError := Clients.Coinbase.decodeBodyError accountID.
Definition decodeSuccess {A} (target : string → result error A) : Response → Z → result error A :=
  Clients.Coinbase.decodeSuccess accountID unmarshal target.

Abbreviation signed A := (clientMethod privateRequest A).
Abbreviation unsigned A := (clientMethod (string * Values) A).

Definition publicPrefix : string := "/api/v3/brokerage".
Definition read (path : string) (values : Values) : privateRequest := getRead (publicPrefix +:+ path) values.
Definition public (path : string) (values : Values) : string * Values := (publicPrefix +:+ path, values).

(** ** Answers *)

Definition valueAnswer (type : string) (response : Response) : result error decoded :=
  decodeSuccess (Unmarshal type) response OperationRead.

(** A struct with a list of [json.RawMessage] in the member [name]. *)
Definition itemsAnswer (operation : Z) (type name : string) (response : Response) : result error (decoded * list decoded) :=
  rawPage ← decodeSuccess (Unmarshal "page") response operation;
  items ← orBody (decodeBodyError response operation) (decodeEach type (Items rawPage name));
  Ok (rawPage, items).

(** A struct with one value in the member [name]. *)
Definition memberAnswer (type name : string) (response : Response) : result error decoded :=
  envelope ← decodeSuccess (Unmarshal "envelope") response OperationRead;
  orBody (decodeBodyError response OperationRead) (Unmarshal type (Text envelope name)).

(** ** Paths *)

(** The regular expression of one or more letters, digits, dots, underscores and
    hyphens. *)
Definition pathSegmentPattern (s : string) : bool :=
  negb (unset s) && string_forall (λ c, is_alphanumeric c || in_cutset "._-" c) s.

Definition escapePathSegment (name value : string) : result error string :=
  validateRequiredText name value;;
  refuse (negb (pathSegmentPattern value)) (name +:+ " contains unsupported path characters");;
  Ok value.

(** ** Orders *)

Definition optionalObject (name : string) (members : option (list (string * field))) : list (string * field) :=
  match members with Some members => [(name, FieldObject members)] | None => [] end.

Definition MarketIOC_fields (market : MarketIOCConfiguration) : list (string * field) :=
  optionalField "quote_size" (QuoteSize market) ++ optionalField "base_size" (market_BaseSize market).
Definition LimitGTC_fields (limit : LimitGTCConfiguration) : list (string * field) :=
  textField "base_size" (gtc_BaseSize limit) ++ textField "limit_price" (gtc_LimitPrice limit) ++
  optionalTruth "post_only" (PostOnly limit).
Definition Limit_fields (limit : LimitConfiguration) : list (string * field) :=
  textField "base_size" (BaseSize limit) ++ textField "limit_price" (LimitPrice limit).

Definition OrderConfiguration_fields (configuration : OrderConfiguration) : list (string * field) :=
  optionalObject "market_market_ioc" (MarketIOC_fields <$> MarketMarketIOC configuration) ++
  optionalObject "limit_limit_gtc" (LimitGTC_fields <$> LimitLimitGTC configuration) ++
  optionalObject "sor_limit_ioc" (Limit_fields <$> SORLimitIOC configuration) ++
  optionalObject "limit_limit_fok" (Limit_fields <$> LimitLimitFOK configuration).

Definition PlaceOrderRequest_fields (request : NativePlaceOrder) : list (string * field) :=
  textField "client_order_id" (ClientOrderID request) ++ textField "product_id" (ProductID request) ++
  textField "side" (Side request) ++
  [("order_configuration", FieldObject (OrderConfiguration_fields (Configuration request)))].

Definition PlaceOrder (request : NativePlaceOrder) : signed decoded :=
  MkMethod (PlaceOrderRequest_validate request)
    (postTrade (publicPrefix +:+ "/orders") (MarshalFields (PlaceOrderRequest_fields request)))
    (Clients.Coinbase.PlaceOrder accountID unmarshal orderEnvelope (Unmarshal "OrderReference")
       (λ reference, Text reference "order_id")).

Definition CancelOrders (request : CancelOrdersRequest) : signed (list decoded) :=
  MkMethod (CancelOrdersRequest_validate request)
    (postTrade (publicPrefix +:+ "/orders/batch_cancel") (MarshalFields [("order_ids", FieldTexts (OrderIDs request))]))
    (λ response, answer ← itemsAnswer OperationMutation "CancelResult" "results" response; Ok answer.2).

(** The segment is the ID itself. *)
Definition OrderInfo (orderID : string) : signed decoded :=
  MkMethod (escapePathSegment "order ID" orderID;; Ok tt) (read ("/orders/historical/" +:+ orderID) ∅)
    (memberAnswer "Order" "order").

(** [values.Add] of every item to a key that was not there before. *)
Definition addAll (values : Values) (key : string) (items : list string) : Values :=
  if bool_decide (items = []) then values else <[key := default [] (values !! key) ++ items]> values.
Definition setTime (values : Values) (key : string) (value : option Z) : Values :=
  match value with Some t => Values_Set values key (FormatTime "2006-01-02T15:04:05Z07:00" t) | None => values end.
Definition ProductTypeSpot : string := "SPOT".

Definition OrdersRequest_values (request : OrdersRequest) : Values :=
  let values := addAll (addAll ∅ "product_ids" (ProductIDs request)) "order_status" (OrderStatuses request) in
  let values := setTime (setTime values "start_date" (Start request)) "end_date" (End_ request) in
  let values := setIfNotEmpty values "order_side" (OrderSide request) in
  let values := Values_Set values "product_type" ProductTypeSpot in
  setIfNotEmpty (setPositiveInt values "limit" (Limit request)) "cursor" (Cursor request).

(** The page with its sequence, cursor and whether there is another, and its items. *)
Definition Orders (request : OrdersRequest) : signed (decoded * list decoded) :=
  MkMethod (OrdersRequest_validate request) (read "/orders/historical/batch" (OrdersRequest_values request))
    (itemsAnswer OperationRead "Order" "orders").

Record FillsRequest : Type := MkFills {
  fills_OrderIDs : list string;
  fills_ProductIDs : list string;
  fills_Start : option Z;
  fills_End : option Z;
  fills_Limit : Z;
  fills_Cursor : string
}.

Definition FillsRequest_validate (request : FillsRequest) : result error unit :=
  validateTextList "order ID" (fills_OrderIDs request) 100;;
  validateTextList "product ID" (fills_ProductIDs request) 100;;
  validateTimeRange (fills_Start request) (fills_End request);;
  validatePage (fills_Limit request) 1000 (fills_Cursor request).

Definition FillsRequest_values (request : FillsRequest) : Values :=
  let values := addAll (addAll ∅ "order_ids" (fills_OrderIDs request)) "product_ids" (fills_ProductIDs request) in
  let values := setTime values "start_sequence_timestamp" (fills_Start request) in
  let values := setTime values "end_sequence_timestamp" (fills_End request) in
  setIfNotEmpty (setPositiveInt values "limit" (fills_Limit request)) "cursor" (fills_Cursor request).

Definition Fills (request : FillsRequest) : signed (decoded * list decoded) :=
  MkMethod (FillsRequest_validate request) (read "/orders/historical/fills" (FillsRequest_values request))
    (itemsAnswer OperationRead "Fill" "fills").

(** ** Accounts *)

(** [AccountsRequest]: a limit, a cursor and a portfolio. *)
Definition AccountsRequest_validate (limit : Z) (cursor retailPortfolioID : string) : result error unit :=
  refuse (outside 0 limit 250) "account limit must be between 1 and 250 or zero for default";;
  validateOptionalText "cursor" cursor;;
  validateOptionalText "retail portfolio ID" retailPortfolioID.
Definition AccountsRequest_values (limit : Z) (cursor retailPortfolioID : string) : Values :=
  setIfNotEmpty (setIfNotEmpty (setPositiveInt ∅ "limit" limit) "cursor" cursor) "retail_portfolio_id" retailPortfolioID.

Definition Accounts (limit : Z) (cursor retailPortfolioID : string) : signed (decoded * list decoded) :=
  MkMethod (AccountsRequest_validate limit cursor retailPortfolioID)
    (read "/accounts" (AccountsRequest_values limit cursor retailPortfolioID))
    (itemsAnswer OperationRead "Account" "accounts").

Definition Account (accountUUID : string) : signed decoded :=
  MkMethod (escapePathSegment "account UUID" accountUUID;; Ok tt) (read ("/accounts/" +:+ accountUUID) ∅)
    (memberAnswer "Account" "account").

(** ** Market data *)

Definition ServerTime : unsigned Z :=
  MkMethod (Ok tt) (public "/time" ∅)
    (λ response,
       answer ← valueAnswer "ServerTime" response;
       orBody (decodeBodyError response OperationRead) (parseISO (Text answer "iso"))).

(** [ProductsRequest]: a limit, an offset and product IDs. *)
Definition ProductsRequest_validate (limit offset : Z) (productIDs : list string) : result error unit :=
  refuse (outside 0 limit 1000) "product limit must be between 1 and 1000 or zero for default";;
  refuse (bool_decide (offset < 0)) "product offset cannot be negative";;
  validateTextList "product ID" productIDs 100.
Definition ProductsRequest_values (limit offset : Z) (productIDs : list string) : Values :=
  let values := setPositiveInt (setPositiveInt ∅ "limit" limit) "offset" offset in
  addAll (Values_Set values "product_type" ProductTypeSpot) "product_ids" productIDs.

Definition Products (limit offset : Z) (productIDs : list string) : unsigned (list decoded) :=
  MkMethod (ProductsRequest_validate limit offset productIDs)
    (public "/market/products" (ProductsRequest_values limit offset productIDs))
    (λ response, answer ← itemsAnswer OperationRead "Product" "products" response; Ok answer.2).

Definition Product (productID : string) : unsigned decoded :=
  MkMethod (escapePathSegment "product ID" productID;; Ok tt) (public ("/market/products/" +:+ productID) ∅)
    (valueAnswer "Product").

(** [OrderBookRequest]: a product, a limit and an increment. *)
Definition OrderBookRequest_validate (productID : string) (limit : Z) (increment : string) : result error unit :=
  validateRequiredText "product ID" productID;;
  refuse (outside 0 limit 1000) "order book limit must be between 1 and 1000 or zero for default";;
  refuse (negb (unset increment) && negb (isPositiveDecimal increment))
    "aggregation price increment must be a positive decimal string".
Definition OrderBookRequest_values (productID : string) (limit : Z) (increment : string) : Values :=
  setIfNotEmpty (setPositiveInt (Values_Set ∅ "product_id" productID) "limit" limit) "aggregation_price_increment" increment.

(** [productOf] reads the product of the price book. *)
Definition OrderBook (productOf : decoded → string) (productID : string) (limit : Z) (increment : string) : unsigned decoded :=
  MkMethod (OrderBookRequest_validate productID limit increment)
    (public "/market/product_book" (OrderBookRequest_values productID limit increment))
    (λ response,
       book ← valueAnswer "OrderBook" response;
       require (negb (unset (productOf book)))
         (decodeBodyError response OperationRead (Errorf "Coinbase order book is empty"));;
       Ok book).

(** [MarketTradesRequest]: a product, a limit and a range. *)
Definition MarketTradesRequest_validate (productID : string) (limit : Z) (start finish : option Z) : result error unit :=
  validateRequiredText "product ID" productID;;
  refuse (outside 1 limit 1000) "market trade limit must be between 1 and 1000";;
  validateTimeRange start finish.
Definition MarketTradesRequest_values (limit : Z) (start finish : option Z) : Values :=
  setSeconds (setSeconds (setPositiveInt ∅ "limit" limit) "start" start) "end" finish.

Definition MarketTrades (productID : string) (limit : Z) (start finish : option Z) : unsigned (decoded * list decoded) :=
  MkMethod (MarketTradesRequest_validate productID limit start finish;; escapePathSegment "product ID" productID;; Ok tt)
    (public ("/market/products/" +:+ productID +:+ "/ticker") (MarketTradesRequest_values limit start finish))
    (itemsAnswer OperationRead "MarketTrade" "trades").

Definition CandleGranularity_valid (granularity : string) : bool :=
  bool_decide (granularity ∈ ["ONE_MINUTE"; "FIVE_MINUTE"; "FIFTEEN_MINUTE"; "THIRTY_MINUTE"; "ONE_HOUR"; "TWO_HOUR";
                              "FOUR_HOUR"; "SIX_HOUR"; "ONE_DAY"]).

(** Times in nanoseconds from the zero [time.Time] on. *)
Record CandlesRequest : Type := MkCandles {
  candles_ProductID : string;
  candles_Start : Z;
  candles_End : Z;
  Granularity : string;
  candles_Limit : Z
}.

Definition CandlesRequest_validate (request : CandlesRequest) : result error unit :=
  validateRequiredText "product ID" (candles_ProductID request);;
  refuse (bool_decide (candles_Start request = 0) || bool_decide (candles_End request = 0) ||
          negb (bool_decide (candles_Start request < candles_End request)))
    "candle start and end must define an increasing time range";;
  refuse (negb (CandleGranularity_valid (Granularity request))) "unsupported candle granularity %q";;
  refuse (outside 0 (candles_Limit request) 350) "candle limit must be between 1 and 350 or zero for default".

Definition CandlesRequest_values (request : CandlesRequest) : Values :=
  let values := Values_Set ∅ "start" (pretty (Unix (candles_Start request))) in
  let values := Values_Set values "end" (pretty (Unix (candles_End request))) in
  setPositiveInt (Values_Set values "granularity" (Granularity request)) "limit" (candles_Limit request).

Definition Candles (request : CandlesRequest) : unsigned decoded :=
  MkMethod (CandlesRequest_validate request;; escapePathSegment "product ID" (candles_ProductID request);; Ok tt)
    (public ("/market/products/" +:+ candles_ProductID request +:+ "/candles") (CandlesRequest_values request))
    (valueAnswer "Candles").
End methods.
End CoinbaseApi.
