(* ===== verification/KrakenEndpoints.v ===== *)
(** * The methods of the Kraken client: [exchange/kraken/orders.go], [account.go], [market.go], [requests.go] *)

From S2P Require Import Prelude GoStrings GoStrconv Decimals Errors Credential RateLimit Executor Unified ClientErrors SpotAdapter KrakenSpot Clients.
From S2P Require Import EndpointLimits RestClient HMACClients TokenClients RestSafety Endpoints.

Module KrakenApi.
Import KrakenSpot.Kraken.

(** ** Tuples of an answer *)

Record TickerData : Type := MkTicker {
  PairID : string;
  AskPrice : string;
  AskWholeLotVolume : string;
  AskLotVolume : string;
  BidPrice : string;
  BidWholeLotVolume : string;
  BidLotVolume : string;
  LastPrice : string;
  LastVolume : string;
  VolumeToday : string;
  Volume24Hours : string;
  VWAPToday : string;
  VWAP24Hours : string;
  TradesToday : Z;
  Trades24Hours : Z;
  LowToday : string;
  Low24Hours : string;
  HighToday : string;
  High24Hours : string;
  OpenPrice : string
}.
Record BookLevel : Type := MkLevel { level_Price : string; level_Volume : string; Timestamp : Z }.
Record OrderBookData : Type := MkBook { book_PairID : string; Asks : list BookLevel; Bids : list BookLevel }.
Record PublicTrade : Type := MkTrade {
  trade_Price : string;
  trade_Volume : string;
  Time : string;
  trade_Side : string;
  trade_OrderType : string;
  Misc : string;
  TradeID : Z
}.
Record Candle : Type := MkCandle {
  candle_Time : Z;
  Open : string;
  High : string;
  Low : string;
  Close : string;
  VWAP : string;
  candle_Volume : string;
  TradeCount : Z
}.

Section methods.
(** [number] reads a [json.Number], and [truncated] is [strconv.ParseFloat] with
    its value as an [int64]. *)
Context `{Library} `{Decoder} `{JSON} (number : string → result error string) (truncated : string → result error Z).
Context (accountID : string) (unmarshal : unmarshals Clients.Kraken.envelope).

Definition decodeResult := Clients.Kraken.decodeResult accountID unmarshal.
Definition decodeBodyError := Clients.Kraken.decodeBodyError accountID.

Abbreviation signed A := (clientMethod (privateRequest * EndpointLimits.Kraken.limitKind * string) A).
Abbreviation unsigned A := (clientMethod (string * Values) A).

Definition privatePrefix : string := "/0/private/".
Definition publicPrefix : string := "/0/public/".

Definition read (name : string) (values : Values) (limit : EndpointLimits.Kraken.limitKind) :=
  (formRead (privatePrefix +:+ name) values, limit, "").
Definition trading (name : string) (values : Values) (pair : string) :=
  (changeValues "POST" (privatePrefix +:+ name) values, EndpointLimits.Kraken.limitTrading, pair).

(** ** Answers *)

Definition resultAnswer {A} (operation : Z) (decode : string → result error A) (response : Response) : result error A :=
  raw ← decodeResult response operation;
  orBody (decodeBodyError response operation) (decode raw).

Definition scalarString (raw : string) : result error string :=
  match UnmarshalString raw with Some value => Ok value | None => number raw end.

Definition scalarInt64 (raw : string) : result error Z :=
  value ← scalarString raw;
  match ParseInt value with Some integer => Ok integer | None => truncated value end.

(** The objects of a map in the order of their keys. *)
Definition decodeEntries {A} (decode : string → string → result error A) (raw : string) : result error (list A) :=
  entries ← RawEntries raw;
  mapM (λ entry : string * string, decode entry.1 entry.2) (sortedEntries entries).

Definition keyed (type key raw : string) : result error (string * decoded) :=
  value ← Unmarshal type raw;
  Ok (key, value).

Definition decodeOrderMap : string → result error (list (string * decoded)) := decodeEntries (keyed "Order").

(** ** Orders *)

Definition setBool (values : Values) (key : string) (value : bool) : Values :=
  if value then Values_Set values key "true" else values.

Definition PlaceOrderRequest_values (request : NativePlaceOrder) : Values :=
  let values := Values_Set ∅ "pair" (Pair request) in
  let values := Values_Set values "type" (Side request) in
  let values := Values_Set values "ordertype" (OrderType request) in
  let values := Values_Set values "volume" (Volume request) in
  let values := setIfNotEmpty values "price" (Price request) in
  let values := setIfNotEmpty values "cl_ord_id" (ClientOrderID request) in
  let values := setIfNotEmpty values "timeinforce" (TimeInForce request) in
  let flags := (if PostOnly request then ["post"] else []) ++ (if VolumeInQuote request then ["viqc"] else []) in
  let values := if bool_decide (flags = []) then values else Values_Set values "oflags" (Join flags ",") in
  setBool values "validate" (ValidateOnly request).

Definition PlaceOrder (request : NativePlaceOrder) : signed decoded :=
  MkMethod (PlaceOrderRequest_validate request)
    (trading "AddOrder" (PlaceOrderRequest_values request) (Pair request))
    (Clients.Kraken.PlaceOrder accountID unmarshal (Unmarshal "OrderReference") (λ value, Items value "txid")
       (ValidateOnly request)).

Definition CancelOrderRequest_values (request : NativeCancelOrder) : Values :=
  let values := setIfNotEmpty ∅ "txid" (cancel_TransactionID request) in
  setIfNotEmpty (setIfNotEmpty values "cl_ord_id" (cancel_ClientOrderID request)) "pair" (cancel_Pair request).

(** [pending] reads the member of that name. *)
Definition CancelOrder (pending : decoded → bool) (request : NativeCancelOrder) : signed decoded :=
  MkMethod (CancelOrderRequest_validate request)
    (trading "CancelOrder" (CancelOrderRequest_values request) (cancel_Pair request))
    (λ response,
       canceled ← resultAnswer OperationMutation (Unmarshal "CancelResult") response;
       require (negb (bool_decide (Integer canceled "count" < 1) && negb (pending canceled)))
         (decodeBodyError response OperationMutation (Errorf "Kraken cancel acknowledgement is empty"));;
       Ok canceled).

Definition OrderInfoRequest_values (request : NativeOrderInfo) : Values :=
  setBool (Values_Set ∅ "txid" (Join (TransactionIDs request) ",")) "trades" (info_IncludeTrades request).

Definition OrderInfo (request : NativeOrderInfo) : signed (list (string * decoded)) :=
  MkMethod (OrderInfoRequest_validate request)
    (read "QueryOrders" (OrderInfoRequest_values request) EndpointLimits.Kraken.limitPrivate)
    (resultAnswer OperationRead decodeOrderMap).

Definition OpenOrdersRequest_values (request : NativeOpenOrders) : Values :=
  setIfNotEmpty (setBool ∅ "trades" (open_IncludeTrades request)) "cl_ord_id" (open_ClientOrderID request).

(** A page's entries with their number: for open orders how many they are. *)
Definition OpenOrders (request : NativeOpenOrders) : signed (list (string * decoded) * Z) :=
  MkMethod (OpenOrdersRequest_validate request)
    (read "OpenOrders" (OpenOrdersRequest_values request) EndpointLimits.Kraken.limitPrivate)
    (resultAnswer OperationRead (λ raw,
       page ← Unmarshal "OrderPage" raw;
       orders ← decodeOrderMap (Text page "open");
       Ok (orders, Z.of_nat (length orders)))).

Definition ClosedOrdersRequest_values (request : NativeClosedOrders) : Values :=
  let values := setBool ∅ "trades" (closed_IncludeTrades request) in
  let values := setIfNotEmpty values "cl_ord_id" (closed_ClientOrderID request) in
  let values := setSeconds (setSeconds values "start" (Start request)) "end" (End_ request) in
  setIfNotEmpty (setPositiveInt values "ofs" (Offset request)) "closetime" (CloseTime request).

Definition ClosedOrders (request : NativeClosedOrders) : signed (list (string * decoded) * Z) :=
  MkMethod (ClosedOrdersRequest_validate request)
    (read "ClosedOrders" (ClosedOrdersRequest_values request) EndpointLimits.Kraken.limitPrivateHistory)
    (resultAnswer OperationRead (λ raw,
       page ← Unmarshal "OrderPage" raw;
       orders ← decodeOrderMap (Text page "closed");
       Ok (orders, Integer page "count"))).

Record TradesHistoryRequest : Type := MkTradesHistory {
  history_Type : string;
  history_IncludeTrades : bool;
  history_Start : option Z;
  history_End : option Z;
  history_Offset : Z
}.

Definition TradesHistoryRequest_validate (request : TradesHistoryRequest) : result error unit :=
  refuse (negb (unset (history_Type request)) &&
          negb (bool_decide (history_Type request ∈
                  ["all"; "any position"; "closed position"; "closing position"; "no position"])))
    "unsupported trade history type %q";;
  validateTimeRange (history_Start request) (history_End request);;
  refuse (bool_decide (history_Offset request < 0)) "trade history offset cannot be negative".

Definition TradesHistoryRequest_values (request : TradesHistoryRequest) : Values :=
  let values := setBool (setIfNotEmpty ∅ "type" (history_Type request)) "trades" (history_IncludeTrades request) in
  let values := setSeconds (setSeconds values "start" (history_Start request)) "end" (history_End request) in
  setPositiveInt values "ofs" (history_Offset request).

Definition TradesHistory (request : TradesHistoryRequest) : signed (list (string * decoded) * Z) :=
  MkMethod (TradesHistoryRequest_validate request)
    (read "TradesHistory" (TradesHistoryRequest_values request) EndpointLimits.Kraken.limitPrivateHistory)
    (resultAnswer OperationRead (λ raw,
       page ← Unmarshal "TradePage" raw;
       trades ← decodeEntries (keyed "TradeFill") (Text page "trades");
       Ok (trades, Integer page "count"))).

(** ** Account *)

Definition Balance : signed decoded :=
  MkMethod (Ok tt) (read "Balance" ∅ EndpointLimits.Kraken.limitPrivate)
    (resultAnswer OperationRead (Unmarshal "map[string]string")).
Definition ExtendedBalance : signed decoded :=
  MkMethod (Ok tt) (read "BalanceEx" ∅ EndpointLimits.Kraken.limitPrivate)
    (resultAnswer OperationRead (Unmarshal "map[string]ExtendedBalanceDetail")).

(** ** Market data *)

Definition public (name : string) (values : Values) := (publicPrefix +:+ name, values).

Definition ServerTime : unsigned decoded :=
  MkMethod (Ok tt) (public "Time" ∅)
    (λ response,
       serverTime ← resultAnswer OperationRead (Unmarshal "ServerTime") response;
       require (bool_decide (0 < Integer serverTime "unixtime"))
         (decodeBodyError response OperationRead (Errorf "Kraken server time is empty"));;
       Ok serverTime).

Definition validatePairs (pairs : list string) (required : bool) : result error unit :=
  refuse (required && bool_decide (pairs = [])) "at least one pair is required";;
  validateDistinct validatePair (APIValidationError ExchangeKraken "duplicate pair %q") [] pairs.
Definition pairListValues (pairs : list string) : Values :=
  if bool_decide (pairs = []) then ∅ else Values_Set ∅ "pair" (Join pairs ",").

(** [AssetPairsRequest] and [TickersRequest] are pairs. *)
Definition AssetPairs (pairs : list string) : unsigned (list (string * decoded)) :=
  MkMethod (validatePairs pairs false) (public "AssetPairs" (pairListValues pairs))
    (resultAnswer OperationRead (decodeEntries (keyed "AssetPair"))).

(** [group[index]] of a tuple that is long enough. *)
Definition at_index (group : list string) (index : nat) : string := default "" (group !! index).
Definition stringsAt (group : list string) : list nat → result error (list string) :=
  mapM (λ index, scalarString (at_index group index)).

(** The members of a ticker that are tuples, with the items that they need. *)
Definition tickerGroups (value : decoded) : list (list string * nat) :=
  [(Items value "a", 3); (Items value "b", 3); (Items value "c", 2); (Items value "v", 2);
   (Items value "p", 2); (Items value "t", 2); (Items value "l", 2); (Items value "h", 2)]%nat.

Definition parseTicker (pairID raw : string) : result error TickerData :=
  value ← Unmarshal "Ticker" raw;
  require (negb (existsb (λ group : list string * nat, bool_decide (length group.1 < group.2)%nat) (tickerGroups value)))
    (Errorf "Kraken ticker tuple %d is too short");;
  ask ← stringsAt (Items value "a") [0; 1; 2]%nat;
  bid ← stringsAt (Items value "b") [0; 1; 2]%nat;
  closeValues ← stringsAt (Items value "c") [0; 1]%nat;
  volume ← stringsAt (Items value "v") [0; 1]%nat;
  vwap ← stringsAt (Items value "p") [0; 1]%nat;
  low ← stringsAt (Items value "l") [0; 1]%nat;
  high ← stringsAt (Items value "h") [0; 1]%nat;
  tradesToday ← scalarInt64 (at_index (Items value "t") 0);
  trades24Hours ← scalarInt64 (at_index (Items value "t") 1);
  openPrice ← scalarString (Text value "o");
  Ok (MkTicker pairID (at_index ask 0) (at_index ask 1) (at_index ask 2) (at_index bid 0) (at_index bid 1)
    (at_index bid 2) (at_index closeValues 0) (at_index closeValues 1) (at_index volume 0) (at_index volume 1)
    (at_index vwap 0) (at_index vwap 1) tradesToday trades24Hours (at_index low 0) (at_index low 1)
    (at_index high 0) (at_index high 1) openPrice).

Definition Tickers (pairs : list string) : unsigned (list TickerData) :=
  MkMethod (validatePairs pairs false) (public "Ticker" (pairListValues pairs))
    (resultAnswer OperationRead (decodeEntries parseTicker)).

Definition singleMapEntry (entries : gmap string string) : result error (string * string) :=
  match map_to_list entries with
  | [entry] => Ok entry
  | _ => Err (Errorf "Kraken response contains %d dynamic entries, want 1")
  end.

(** No caller excludes a key. *)
Definition singleDynamicEntry (raw : string) : result error (string * string) :=
  entries ← RawEntries raw;
  singleMapEntry entries.

Definition parseBookLevel (tuple : list string) : result error BookLevel :=
  require (negb (bool_decide (length tuple < 3)%nat)) (Errorf "Kraken order book tuple is too short");;
  price ← scalarString (at_index tuple 0);
  volume ← scalarString (at_index tuple 1);
  timestamp ← scalarInt64 (at_index tuple 2);
  Ok (MkLevel price volume timestamp).
Definition parseBookLevels : list (list string) → result error (list BookLevel) := mapM parseBookLevel.

(** A member that is an array of arrays. *)
Definition tuples (items : list string) : result error (list (list string)) := mapM RawItems items.

(** [OrderBookRequest]: a pair and a count. *)
Definition OrderBookRequest_validate (pair : string) (count : Z) : result error unit :=
  validatePair pair;;
  refuse (outside 0 count 500) "order book count must be between 1 and 500 or zero for default".
Definition OrderBookRequest_values (pair : string) (count : Z) : Values :=
  setPositiveInt (Values_Set ∅ "pair" pair) "count" count.

Definition OrderBook (pair : string) (count : Z) : unsigned OrderBookData :=
  MkMethod (OrderBookRequest_validate pair count) (public "Depth" (OrderBookRequest_values pair count))
    (resultAnswer OperationRead (λ raw,
       entry ← singleDynamicEntry raw;
       bookData ← Unmarshal "OrderBook" entry.2;
       askTuples ← tuples (Items bookData "asks");
       bidTuples ← tuples (Items bookData "bids");
       asks ← parseBookLevels askTuples;
       bids ← parseBookLevels bidTuples;
       Ok (MkBook entry.1 asks bids))).

(** The entry [last] and the only other one. *)
Definition withCursor (missing : string) (raw : string) : result error (string * string * string) :=
  entries ← RawEntries raw;
  match entries !! "last" with
  | None => Err (Errorf missing)
  | Some last =>
      entry ← singleMapEntry (delete "last" entries);
      Ok (entry.1, entry.2, last)
  end.

Definition parsePublicTrade (tuple : list string) : result error PublicTrade :=
  require (negb (bool_decide (length tuple < 6)%nat)) (Errorf "Kraken public trade tuple is too short");;
  price ← scalarString (at_index tuple 0);
  volume ← scalarString (at_index tuple 1);
  timeValue ← scalarString (at_index tuple 2);
  side ← scalarString (at_index tuple 3);
  orderType ← scalarString (at_index tuple 4);
  misc ← scalarString (at_index tuple 5);
  tradeID ← (if bool_decide (6 < length tuple)%nat then scalarInt64 (at_index tuple 6) else Ok 0);
  Ok (MkTrade price volume timeValue side orderType misc tradeID).

(** [RecentTradesRequest]: a pair, a cursor and a count. *)
Definition validateOptionalUnsigned (name value : string) : result error unit :=
  refuse (negb (unset value) && bool_decide (ParseUint value = None)) (name +:+ " must be an unsigned integer string").
Definition RecentTradesRequest_validate (pair since : string) (count : Z) : result error unit :=
  validatePair pair;;
  refuse (outside 0 count 1000) "recent trade count must be between 1 and 1000 or zero for default";;
  validateOptionalUnsigned "since" since.
Definition RecentTradesRequest_values (pair since : string) (count : Z) : Values :=
  setPositiveInt (setIfNotEmpty (Values_Set ∅ "pair" pair) "since" since) "count" count.

Definition RecentTrades (pair since : string) (count : Z) : unsigned (string * list PublicTrade * string) :=
  MkMethod (RecentTradesRequest_validate pair since count) (public "Trades" (RecentTradesRequest_values pair since count))
    (resultAnswer OperationRead (λ raw,
       entry ← withCursor "Kraken recent trades cursor is missing" raw;
       rawTuples ← RawItems entry.1.2;
       tuples ← tuples rawTuples;
       trades ← mapM parsePublicTrade tuples;
       last ← scalarString entry.2;
       Ok (entry.1.1, trades, last))).

Definition parseCandle (tuple : list string) : result error Candle :=
  require (negb (bool_decide (length tuple < 8)%nat)) (Errorf "Kraken candle tuple is too short");;
  timestamp ← scalarInt64 (at_index tuple 0);
  values ← stringsAt tuple [1; 2; 3; 4; 5; 6]%nat;
  tradeCount ← scalarInt64 (at_index tuple 7);
  Ok (MkCandle timestamp (at_index values 0) (at_index values 1) (at_index values 2) (at_index values 3)
    (at_index values 4) (at_index values 5) tradeCount).

(** Minutes. *)
Definition CandleInterval_valid (interval : Z) : bool :=
  bool_decide (interval ∈ [1; 5; 15; 30; 60; 240; 1440; 10080; 21600]).

(** [CandlesRequest]: a pair, an interval and a time. *)
Definition CandlesRequest_validate (pair : string) (interval since : Z) : result error unit :=
  validatePair pair;;
  refuse (negb (CandleInterval_valid interval)) "unsupported candle interval %d";;
  refuse (bool_decide (since < 0)) "candle since cannot be negative".
Definition CandlesRequest_values (pair : string) (interval since : Z) : Values :=
  setPositiveInt (Values_Set (Values_Set ∅ "pair" pair) "interval" (pretty interval)) "since" since.

Definition Candles (pair : string) (interval since : Z) : unsigned (string * list Candle * Z) :=
  MkMethod (CandlesRequest_validate pair interval since) (public "OHLC" (CandlesRequest_values pair interval since))
    (resultAnswer OperationRead (λ raw,
       entry ← withCursor "Kraken candle cursor is missing" raw;
       rawTuples ← RawItems entry.1.2;
       tuples ← tuples rawTuples;
       items ← mapM parseCandle tuples;
       last ← scalarInt64 entry.2;
       Ok (entry.1.1, items, last))).
End methods.
End KrakenApi.
