(* ===== verification/CryptoComEndpoints.v ===== *)
(** * The methods of the Crypto.com client: [exchange/cryptocom/orders.go], [account.go], [market.go], [requests.go] *)

From S2P Require Import Prelude GoStrings GoStrconv Decimals Errors Credential RateLimit Executor Unified ClientErrors SpotAdapter CryptoComSpot Clients.
From S2P Require Import EndpointLimits RestClient HMACClients TokenClients RestSafety Endpoints.

Module CryptoComApi.
Import CryptoComSpot.CryptoCom.

Section methods.
(** [marshal] and [requestID] are the encoder and the next ID of a private
    request. *)
Context `{Library} `{Decoder} `{JSON} (marshal : TokenClients.CryptoCom.privateRequestEnvelope → result error string).
Context (requestID : Z) (accountID : string) (unmarshal : unmarshals Clients.CryptoCom.envelope).

Definition decodeBodyError := Clients.CryptoCom.decodeBodyError.
Definition decodeResult := Clients.CryptoCom.decodeResult unmarshal.
Definition decodePrivateBodyError (response : Response) (operation : Z) : error → error :=
  Clients.CryptoCom.decodePrivateBodyError accountID response operation (pretty requestID).
Definition decodePrivateResult (response : Response) (method : string) (operation : Z) (required : bool) : result error string :=
  Clients.CryptoCom.decodePrivateResult unmarshal accountID response method (pretty requestID) operation required.

Abbreviation signed A :=
  (clientMethod ((TokenClients.CryptoCom.privateRequestEnvelope → result error string) * string * Z *
                 list (string * parameter) * string * Z) A).
Abbreviation unsigned A := (clientMethod (string * Values) A).

Definition reads (method : string) (params : list (string * parameter)) :=
  (marshal, method, requestID, params, PermissionRead, OperationRead).
Definition changes (method : string) (params : list (string * parameter)) :=
  (marshal, method, requestID, params, PermissionTrade, OperationMutation).

Definition methodCreateOrder : string := "private/create-order".
Definition methodGetOrderDetail : string := "private/get-order-detail".
Definition methodCancelOrder : string := "private/cancel-order".
Definition methodGetOpenOrders : string := "private/get-open-orders".
Definition methodGetOrderHistory : string := "private/get-order-history".
Definition methodGetAccountTrades : string := "private/get-trades".
Definition methodUserBalance : string := "private/user-balance".

(** ** Parameters *)

Definition setStringParam (params : list (string * parameter)) (key value : string) : list (string * parameter) :=
  if unset value then params else params ++ [(key, TextParameter value)].

Definition PlaceOrderRequest_params (request : NativePlaceOrder) : list (string * parameter) :=
  let params := [("instrument_name", TextParameter (InstrumentName request)); ("side", TextParameter (Side request));
                 ("type", TextParameter (Type_ request)); ("client_oid", TextParameter (ClientOrderID request))] in
  let params := setStringParam params "price" (Price request) in
  let params := setStringParam params "quantity" (Quantity request) in
  let params := setStringParam params "notional" (Notional request) in
  let params := setStringParam params "time_in_force" (TimeInForce request) in
  if PostOnly request then params ++ [("exec_inst", TextsParameter ["POST_ONLY"])] else params.

Definition orderIdentityParams (orderID clientOrderID : string) : list (string * parameter) :=
  setStringParam (setStringParam [] "order_id" orderID) "client_oid" clientOrderID.

(** ** Answers *)

(** A result that is an object whose [data] is an array. *)
Definition dataItems (failed : error → error) (message resultRaw : string) : result error (list string) :=
  value ← orBody failed (Unmarshal "result" resultRaw);
  let trimmed := TrimSpace (Text value "data") in
  require (HasPrefix trimmed "[") (failed (Errorf message));;
  orBody failed (RawItems trimmed).

Definition decodeDataItems (response : Response) : string → result error (list string) :=
  dataItems (decodeBodyError response) "Crypto.com response data is not an array".
Definition decodePrivateDataItems (response : Response) (operation : Z) : string → result error (list string) :=
  dataItems (decodePrivateBodyError response operation) "Crypto.com private response data is not an array".

Definition knownSide (value : decoded) : bool :=
  bool_decide (Text value "side" = OrderSideBuy ∨ Text value "side" = OrderSideSell).

(** An item that satisfies a test. *)
Definition checked (failed : error → error) (type message : string) (valid : decoded → bool) (raw : string)
    : result error decoded :=
  value ← orBody failed (Unmarshal type raw);
  require (valid value) (failed (Errorf message));;
  Ok value.

Definition decodeOrder (response : Response) : string → result error decoded :=
  checked (decodePrivateBodyError response OperationRead) "Order" "Crypto.com order identity or side is invalid"
    (λ value, negb (unset (Text value "order_id")) && negb (unset (Text value "instrument_name")) && knownSide value).

(** ** Orders *)

Definition PlaceOrder (request : NativePlaceOrder) : signed decoded :=
  MkMethod (PlaceOrderRequest_validate request) (changes methodCreateOrder (PlaceOrderRequest_params request))
    (Clients.CryptoCom.PlaceOrder unmarshal accountID (Unmarshal "OrderReceipt") (λ value, Text value "order_id")
       (λ value, Text value "client_oid") (pretty requestID) (ClientOrderID request)).

Definition OrderInfo (request : OrderIdentity) : signed decoded :=
  MkMethod (OrderIdentity_validate request)
    (reads methodGetOrderDetail (orderIdentityParams (id_OrderID request) (id_ClientOrderID request)))
    (λ response,
       resultRaw ← decodePrivateResult response methodGetOrderDetail OperationRead true;
       value ← decodeOrder response resultRaw;
       require (negb (negb (unset (id_OrderID request)) && negb (bool_decide (Text value "order_id" = id_OrderID request)) ||
                      negb (unset (id_ClientOrderID request)) &&
                      negb (bool_decide (Text value "client_oid" = id_ClientOrderID request))))
         (decodePrivateBodyError response OperationRead (Errorf "Crypto.com order detail identity is inconsistent"));;
       Ok value).

(** [unmarshalInto] decodes into an acknowledgement that has the IDs of the
    request: a member that is not there leaves its field. *)
Definition CancelOrder (unmarshalInto : string → OrderReference → result error OrderReference) (request : OrderIdentity)
    : signed OrderReference :=
  MkMethod (OrderIdentity_validate request)
    (changes methodCancelOrder (orderIdentityParams (id_OrderID request) (id_ClientOrderID request)))
    (λ response,
       resultRaw ← decodePrivateResult response methodCancelOrder OperationMutation false;
       let value := MkReference (id_OrderID request) (id_ClientOrderID request) in
       let failed := decodePrivateBodyError response OperationMutation in
       value ← (if unset resultRaw then Ok value else orBody failed (unmarshalInto resultRaw value));
       require (negb (negb (unset (id_OrderID request)) && negb (unset (ref_OrderID value)) &&
                      negb (bool_decide (ref_OrderID value = id_OrderID request)) ||
                      negb (unset (id_ClientOrderID request)) && negb (unset (ref_ClientOrderID value)) &&
                      negb (bool_decide (ref_ClientOrderID value = id_ClientOrderID request))))
         (failed (Errorf "Crypto.com cancel acknowledgement identity is inconsistent"));;
       Ok value).

(** Every item is of the instrument that was asked for, if one was. *)
Definition ofInstrument (instrumentName : string) (value : decoded) : bool :=
  unset instrumentName || bool_decide (Text value "instrument_name" = instrumentName).

Definition orderList (check : result error unit) (method : string) (params : list (string * parameter))
    (instrumentName : string) : signed (list decoded) :=
  MkMethod check (reads method params)
    (λ response,
       resultRaw ← decodePrivateResult response method OperationRead true;
       itemsRaw ← decodePrivateDataItems response OperationRead resultRaw;
       mapM (λ itemRaw,
         item ← decodeOrder response itemRaw;
         require (ofInstrument instrumentName item)
           (decodePrivateBodyError response OperationRead (Errorf "unexpected Crypto.com order instrument %q"));;
         Ok item) itemsRaw).

Definition OpenOrders (request : NativeOpenOrders) : signed (list decoded) :=
  orderList (OpenOrdersRequest_validate request) methodGetOpenOrders
    (setStringParam [] "instrument_name" (open_InstrumentName request)) (open_InstrumentName request).

Definition validateTimeRange (start finish : option Z) : result error unit :=
  refuse (beforeEpochMilli start || beforeEpochMilli finish) "query timestamps must be after the Unix epoch";;
  match start, finish with
  | Some s, Some f => refuse (negb (bool_decide (s < f))) "query start must be before end"
  | _, _ => Ok tt
  end.

(** [time.Time.UnixNano], which wraps outside its range. *)
Definition UnixNano (t : Z) : Z := int64 (t - unixEpoch).
Definition beforeEpochNano (value : option Z) : bool :=
  match value with Some t => bool_decide (UnixNano t ≤ 0) | None => false end.

Definition validatePrivateHistory (start finish : option Z) (limit : Z) : result error unit :=
  validateTimeRange start finish;;
  refuse (beforeEpochNano start || beforeEpochNano finish)
    "private history timestamps exceed the supported nanosecond range";;
  refuse (outside 0 limit 100) "private history limit must be between 1 and 100 or zero".

Definition nanosecondsParam (key : string) (value : option Z) : list (string * parameter) :=
  match value with Some t => [(key, TextParameter (pretty (UnixNano t)))] | None => [] end.

Definition privateHistoryParams (instrumentName : string) (start finish : option Z) (limit : Z) : list (string * parameter) :=
  setStringParam [] "instrument_name" instrumentName ++ nanosecondsParam "start_time" start ++
  nanosecondsParam "end_time" finish ++
  (if bool_decide (0 < limit) then [("limit", TextParameter (pretty limit))] else []).

(** [OrderHistoryRequest] and [AccountTradesRequest] have the same fields, checks
    and parameters. *)
Record OrderHistoryRequest : Type := MkOrderHistory {
  history_InstrumentName : string;
  history_Start : option Z;
  history_End : option Z;
  history_Limit : Z
}.

Definition OrderHistoryRequest_validate (request : OrderHistoryRequest) : result error unit :=
  validateOptionalInstrumentName (history_InstrumentName request);;
  validatePrivateHistory (history_Start request) (history_End request) (history_Limit request).
Definition OrderHistoryRequest_params (request : OrderHistoryRequest) : list (string * parameter) :=
  privateHistoryParams (history_InstrumentName request) (history_Start request) (history_End request)
    (history_Limit request).

Definition OrderHistory (request : OrderHistoryRequest) : signed (list decoded) :=
  orderList (OrderHistoryRequest_validate request) methodGetOrderHistory (OrderHistoryRequest_params request)
    (history_InstrumentName request).

Definition AccountTrades (request : OrderHistoryRequest) : signed (list decoded) :=
  MkMethod (OrderHistoryRequest_validate request) (reads methodGetAccountTrades (OrderHistoryRequest_params request))
    (λ response,
       let failed := decodePrivateBodyError response OperationRead in
       resultRaw ← decodePrivateResult response methodGetAccountTrades OperationRead true;
       itemsRaw ← decodePrivateDataItems response OperationRead resultRaw;
       mapM (λ itemRaw,
         item ← checked failed "AccountTrade" "Crypto.com account trade identity or side is invalid"
                  (λ value, negb (unset (Text value "order_id")) && negb (unset (Text value "trade_id")) &&
                            negb (unset (Text value "instrument_name")) && knownSide value) itemRaw;
         require (ofInstrument (history_InstrumentName request) item)
           (failed (Errorf "Crypto.com account trade instrument is inconsistent"));;
         Ok item) itemsRaw).

(** ** Account *)

(** [PositionBalances] are the balances of a decoded account. *)
Definition decodeBalanceAccount (PositionBalances : decoded → list decoded) (response : Response) (raw : string)
    : result error decoded :=
  let failed := decodePrivateBodyError response OperationRead in
  value ← checked failed "BalanceAccount" "Crypto.com balance account instrument is missing"
            (λ value, negb (unset (Text value "instrument_name"))) raw;
  collections ← orBody failed (Unmarshal "collections" raw);
  require (forallb (λ balance : string * decoded, negb (unset (Text balance.2 "instrument_name")))
             (zip (Items collections "position_balances") (PositionBalances value)))
    (failed (Errorf "Crypto.com position balance instrument is missing"));;
  Ok value.

Definition Balance (PositionBalances : decoded → list decoded) : signed (list decoded) :=
  MkMethod (Ok tt) (reads methodUserBalance [])
    (λ response,
       resultRaw ← decodePrivateResult response methodUserBalance OperationRead true;
       itemsRaw ← decodePrivateDataItems response OperationRead resultRaw;
       mapM (decodeBalanceAccount PositionBalances response) itemsRaw).

(** ** Market data *)

Definition methodGetInstruments : string := "public/get-instruments".
Definition methodGetTickers : string := "public/get-tickers".
Definition methodGetBook : string := "public/get-book".
Definition methodGetTrades : string := "public/get-trades".
Definition methodGetCandlestick : string := "public/get-candlestick".

(** The items of the data of a public method that satisfy a test. *)
Definition publicItems (method type message : string) (valid : decoded → bool) (response : Response)
    : result error (list decoded) :=
  resultRaw ← decodeResult response method;
  itemsRaw ← decodeDataItems response resultRaw;
  mapM (checked (decodeBodyError response) type message valid) itemsRaw.

Definition Instruments : unsigned (list decoded) :=
  MkMethod (Ok tt) (methodGetInstruments, ∅)
    (publicItems methodGetInstruments "Instrument" "Crypto.com instrument identity is missing"
       (λ value, negb (unset (Text value "symbol")) && negb (unset (Text value "inst_type")))).

Definition decodeTickers : Response → result error (list decoded) :=
  publicItems methodGetTickers "Ticker" "Crypto.com ticker instrument is missing" (λ value, negb (unset (Text value "i"))).

Definition Ticker (instrumentName : string) : unsigned decoded :=
  MkMethod (validateInstrumentName instrumentName) (methodGetTickers, Values_Set ∅ "instrument_name" instrumentName)
    (λ response,
       items ← decodeTickers response;
       firstItem (decodeBodyError response (Errorf "Crypto.com ticker for %q is missing"))
         (filter (λ item, Text item "i" = instrumentName) items)).

Definition Tickers : unsigned (list decoded) := MkMethod (Ok tt) (methodGetTickers, ∅) decodeTickers.

(** [OrderBookRequest]: an instrument and a depth. *)
Definition OrderBookRequest_validate (instrumentName : string) (depth : Z) : result error unit :=
  validateInstrumentName instrumentName;;
  refuse (outside 1 depth 50) "order book depth must be between 1 and 50".
Definition OrderBookRequest_values (instrumentName : string) (depth : Z) : Values :=
  Values_Set (Values_Set ∅ "instrument_name" instrumentName) "depth" (pretty depth).

(** An [int] holds every [int64] of an answer. *)
Definition OrderBook (instrumentName : string) (depth : Z) : unsigned decoded :=
  MkMethod (OrderBookRequest_validate instrumentName depth)
    (methodGetBook, OrderBookRequest_values instrumentName depth)
    (λ response,
       let failed := decodeBodyError response in
       resultRaw ← decodeResult response methodGetBook;
       value ← orBody failed (Unmarshal "OrderBook" resultRaw);
       match bool_decide (Text value "instrument_name" = instrumentName ∧ Integer value "depth" = depth), Items value "data" with
       | true, [data] => orBody failed (Unmarshal "snapshot" data)
       | _, _ => Err (failed (Errorf "Crypto.com order book metadata is inconsistent"))
       end).

Definition setTimeRange (values : Values) (start finish : option Z) : Values :=
  setTime (setTime values "start_ts" start) "end_ts" finish.

(** [TradesRequest]: an instrument, a count and a range. *)
Definition TradesRequest_validate (instrumentName : string) (count : Z) (start finish : option Z) : result error unit :=
  validateInstrumentName instrumentName;;
  refuse (bool_decide (count < 0)) "trade count must be positive or zero";;
  validateTimeRange start finish.
Definition TradesRequest_values (instrumentName : string) (count : Z) (start finish : option Z) : Values :=
  setTimeRange (setPositiveInt (Values_Set ∅ "instrument_name" instrumentName) "count" count) start finish.

Definition RecentTrades (instrumentName : string) (count : Z) (start finish : option Z) : unsigned (list decoded) :=
  MkMethod (TradesRequest_validate instrumentName count start finish)
    (methodGetTrades, TradesRequest_values instrumentName count start finish)
    (publicItems methodGetTrades "Trade" "Crypto.com trade identity or side is invalid"
       (λ value, bool_decide (Text value "i" = instrumentName) &&
                 bool_decide (Text value "s" = "BUY" ∨ Text value "s" = "SELL"))).

Definition CandleTimeframe_valid (timeframe : string) : bool :=
  bool_decide (timeframe ∈ ["1m"; "5m"; "15m"; "30m"; "1h"; "2h"; "4h"; "12h"; "1D"; "7D"; "14D"; "1M"]).

Record CandlesRequest : Type := MkCandles {
  candles_InstrumentName : string;
  Timeframe : string;
  candles_Count : Z;
  candles_Start : option Z;
  candles_End : option Z
}.

Definition CandlesRequest_validate (request : CandlesRequest) : result error unit :=
  validateInstrumentName (candles_InstrumentName request);;
  refuse (negb (CandleTimeframe_valid (Timeframe request))) "unsupported Crypto.com candle timeframe %q";;
  refuse (bool_decide (candles_Count request < 0)) "candle count must be positive or zero";;
  validateTimeRange (candles_Start request) (candles_End request).
Definition CandlesRequest_values (request : CandlesRequest) : Values :=
  let values := Values_Set (Values_Set ∅ "instrument_name" (candles_InstrumentName request)) "timeframe" (Timeframe request) in
  setTimeRange (setPositiveInt values "count" (candles_Count request)) (candles_Start request) (candles_End request).

Definition Candles (request : CandlesRequest) : unsigned (list decoded) :=
  MkMethod (CandlesRequest_validate request) (methodGetCandlestick, CandlesRequest_values request)
    (λ response,
       let failed := decodeBodyError response in
       resultRaw ← decodeResult response methodGetCandlestick;
       value ← orBody failed (Unmarshal "Candles" resultRaw);
       require (bool_decide (Text value "instrument_name" = candles_InstrumentName request ∧
                             Text value "interval" = Timeframe request))
         (failed (Errorf "Crypto.com candlestick metadata is inconsistent"));;
       let dataRaw := TrimSpace (Text value "data") in
       require (HasPrefix dataRaw "[") (failed (Errorf "Crypto.com candlestick data is not an array"));;
       itemsRaw ← orBody failed (RawItems dataRaw);
       orBody failed (decodeEach "Candle" itemsRaw)).
End methods.
End CryptoComApi.
