(* ===== verification/KorbitEndpoints.v ===== *)
(** * The methods of the Korbit client: [exchange/korbit/orders.go], [account.go], [market.go], [requests.go] *)

From S2P Require Import Prelude GoStrings GoStrconv Decimals Errors Credential RateLimit Executor Unified ClientErrors SpotAdapter KorbitSpot Clients.
From S2P Require Import EndpointLimits RestClient HMACClients TokenClients RestSafety Endpoints.

Module KorbitApi.
Import KorbitSpot.Korbit.

Section methods.
Context `{Library} `{Decoder} (now : Z) (accountID : string) (unmarshal : unmarshals Clients.Korbit.envelope).

Definition decodeBodyError := Clients.Korbit.decodeBodyError accountID.
Definition decodeResponse {A} (target : string → result error A) : Response → Z → result error A :=
  Clients.Korbit.decodeResponse accountID unmarshal target.

(** [decodeResponse] without a target: the data is not looked at. *)
Definition decodeEnvelope (response : Response) (operation : Z) : result error unit :=
  let '(envelope, err) := unmarshal (body_text response) in
  match err with
  | Some err => Err (decodeBodyError response operation err)
  | None =>
      if negb (success (StatusCode response)) || bool_decide (Clients.Korbit.Success envelope = Some false) then
        Err (Clients.Korbit.apiError accountID response operation (Clients.Korbit.Message envelope))
      else if bool_decide (Clients.Korbit.Success envelope ≠ Some true) then
        Err (decodeBodyError response operation (Errorf "Korbit response envelope is incomplete"))
      else Ok tt
  end.

Abbreviation signed A := (clientMethod (Z * privateRequest * string) A).
Abbreviation unsigned A := (clientMethod (Z * string * Values) A).

Definition read (path : string) (values : Values) :=
  (now, getRead path values, EndpointLimits.Korbit.rateGroupPrivate).

(** ** Answers *)

Definition decodeItems (type : string) (response : Response) : result error (list decoded) :=
  rawItems ← decodeResponse RawItems response OperationRead;
  orBody (decodeBodyError response OperationRead) (decodeEach type rawItems).

Definition valueAnswer (type : string) (response : Response) : result error decoded :=
  decodeResponse (Unmarshal type) response OperationRead.

(** ** Orders *)

Definition setAccountSeq (values : Values) (accountSeq : Z) : Values := setPositiveInt values "accountSeq" accountSeq.

Definition PlaceOrderRequest_values (request : NativePlaceOrder) : Values :=
  let values := Values_Set ∅ "symbol" (Symbol request) in
  let values := Values_Set values "side" (Side request) in
  let values := Values_Set values "orderType" (OrderType request) in
  let values := Values_Set values "clientOrderId" (ClientOrderID request) in
  let values := setAccountSeq values (AccountSeq request) in
  let values := setIfNotEmpty values "price" (Price request) in
  let values := setIfNotEmpty values "qty" (Qty request) in
  let values := setIfNotEmpty values "amt" (Amount request) in
  let values := setPositiveInt values "bestNth" (BestNth request) in
  let values := setIfNotEmpty values "timeInForce" (TimeInForce request) in
  let values := if PriceProtection request then Values_Set values "pp" "true" else values in
  setPositiveInt values "ppPercent" (PriceProtectionPercent request).

Definition PlaceOrder (request : NativePlaceOrder) : signed decoded :=
  MkMethod (PlaceOrderRequest_validate request)
    (now, changeValues "POST" "/v2/orders" (PlaceOrderRequest_values request), EndpointLimits.Korbit.rateGroupOrderPlace)
    (Clients.Korbit.PlaceOrder accountID unmarshal (Unmarshal "OrderReference") (λ order, Integer order "orderId")).

Definition orderIdentityValues (symbol : string) (accountSeq orderID : Z) (clientOrderID : string) : Values :=
  let values := setAccountSeq (Values_Set ∅ "symbol" symbol) accountSeq in
  setIfNotEmpty (setPositiveInt values "orderId" orderID) "clientOrderId" clientOrderID.

(** [OrderInfoRequest.values] and [CancelOrderRequest.values]. *)
Definition OrderIdentity_values (request : OrderIdentity) : Values :=
  orderIdentityValues (id_Symbol request) (id_AccountSeq request) (id_OrderID request) (id_ClientOrderID request).

Definition OrderInfo (request : OrderIdentity) : signed decoded :=
  MkMethod (OrderIdentity_validate request) (read "/v2/orders" (OrderIdentity_values request))
    (λ response,
       order ← valueAnswer "Order" response;
       require (bool_decide (0 < Integer order "orderId"))
         (decodeBodyError response OperationRead (Errorf "Korbit order detail has no order ID"));;
       Ok order).

(** The result says that the cancellation was accepted. *)
Definition CancelOrder (request : OrderIdentity) : signed bool :=
  MkMethod (OrderIdentity_validate request)
    (now, changeValues "DELETE" "/v2/orders" (OrderIdentity_values request), EndpointLimits.Korbit.rateGroupOrderCancel)
    (λ response, decodeEnvelope response OperationMutation;; Ok true).

Definition OpenOrdersRequest_values (request : NativeOpenOrders) : Values :=
  setPositiveInt (setAccountSeq (Values_Set ∅ "symbol" (open_Symbol request)) (open_AccountSeq request))
    "limit" (Limit request).

Definition OpenOrders (request : NativeOpenOrders) : signed (list decoded) :=
  MkMethod (OpenOrdersRequest_validate request) (read "/v2/openOrders" (OpenOrdersRequest_values request))
    (decodeItems "Order").

Definition after (value : option Z) (t : Z) : bool :=
  match value with Some v => bool_decide (t < v) | None => false end.
Definition olderThan (value : option Z) (t duration : Z) : bool :=
  match value with Some v => bool_decide (duration < Time_Sub t v) | None => false end.

(** A [t] of zero is the zero [time.Time], without which the range is not
    compared with the present. *)
Definition validateOptionalTimeRange (start finish : option Z) (t maximum : Z) : result error unit :=
  refuse (beforeEpochMilli start || beforeEpochMilli finish) "timestamps must be after the Unix epoch";;
  refuse (match start, finish with Some s, Some f => negb (bool_decide (s < f)) | _, _ => false end)
    "start time must be before end time";;
  (if negb (bool_decide (t = 0)) then
     refuse (after start t || after finish t) "time range cannot be in the future";;
     refuse (olderThan start t maximum) "time range cannot start more than 36 hours ago";;
     refuse (olderThan finish t maximum) "time range cannot end more than 36 hours ago"
   else Ok tt);;
  refuse (bool_decide (0 < maximum) && longerThan start finish maximum) "time range cannot exceed 36 hours".

(** [OrderHistoryRequest] and [MyTradesRequest] have the same fields, checks and
    parameters. *)
Record OrderHistoryRequest : Type := MkOrderHistory {
  history_Symbol : string;
  history_AccountSeq : Z;
  history_Start : option Z;
  history_End : option Z;
  history_Limit : Z
}.

Definition OrderHistoryRequest_validate (request : OrderHistoryRequest) (t : Z) : result error unit :=
  validateSymbol (history_Symbol request);;
  validateAccountSeq (history_AccountSeq request);;
  validateOrderListLimit (history_Limit request);;
  validateOptionalTimeRange (history_Start request) (history_End request) t (36 * 60 * Minute).

Definition historyValues (symbol : string) (accountSeq : Z) (start finish : option Z) (limit : Z) : Values :=
  let values := setAccountSeq (Values_Set ∅ "symbol" symbol) accountSeq in
  setPositiveInt (setTime (setTime values "startTime" start) "endTime" finish) "limit" limit.
Definition OrderHistoryRequest_values (request : OrderHistoryRequest) : Values :=
  historyValues (history_Symbol request) (history_AccountSeq request) (history_Start request) (history_End request)
    (history_Limit request).

(** [t] is the client's clock when the request is checked. *)
Definition OrderHistory (t : Z) (request : OrderHistoryRequest) : signed (list decoded) :=
  MkMethod (OrderHistoryRequest_validate request t) (read "/v2/allOrders" (OrderHistoryRequest_values request))
    (decodeItems "Order").
Definition MyTrades (t : Z) (request : OrderHistoryRequest) : signed (list decoded) :=
  MkMethod (OrderHistoryRequest_validate request t) (read "/v2/myTrades" (OrderHistoryRequest_values request))
    (decodeItems "PrivateTrade").

(** ** Account *)

(** The regular expression [[a-z0-9]{2,20}]. *)
Definition currencyPattern : string → bool := matches is_symbol_char 2 20.

(** [BalanceRequest]: a sub-account and currencies. *)
Definition BalanceRequest_validate (accountSeq : Z) (currencies : list string) : result error unit :=
  validateAccountSeq accountSeq;;
  refuse (bool_decide (100 < length currencies)%nat) "balance currencies cannot exceed 100 items";;
  validateDistinct (λ currency, refuse (negb (currencyPattern currency)) "invalid balance currency %q")
    (APIValidationError ExchangeKorbit "duplicate balance currency %q") [] currencies.
Definition BalanceRequest_values (accountSeq : Z) (currencies : list string) : Values :=
  let values := setAccountSeq ∅ accountSeq in
  if bool_decide (currencies = []) then values else Values_Set values "currencies" (Join currencies ",").

Definition Balances (accountSeq : Z) (currencies : list string) : signed (list decoded) :=
  MkMethod (BalanceRequest_validate accountSeq currencies)
    (read "/v2/balance" (BalanceRequest_values accountSeq currencies)) (decodeItems "Balance").

(** ** Market data *)

Definition public (path : string) (values : Values) := (now, path, values).

Definition ServerTime : unsigned decoded :=
  MkMethod (Ok tt) (public "/v2/time" ∅) (valueAnswer "ServerTime").

Definition validateSymbols (symbols : list string) : result error unit :=
  refuse (bool_decide (100 < length symbols)%nat) "ticker symbols cannot exceed 100 items";;
  validateDistinct validateSymbol (APIValidationError ExchangeKorbit "duplicate symbol %q") [] symbols.

(** [TickersRequest]: symbols, or all of them. *)
Definition TickersRequest_validate (symbols : list string) (allSymbols : bool) : result error unit :=
  if bool_decide (symbols = []) then
    refuse (negb allSymbols) "ticker symbols are required unless AllSymbols is true"
  else
    refuse allSymbols "ticker symbols and AllSymbols cannot be used together";;
    validateSymbols symbols.
Definition TickersRequest_values (symbols : list string) : Values :=
  if bool_decide (symbols = []) then ∅ else Values_Set ∅ "symbol" (Join symbols ",").

Definition Tickers (symbols : list string) (allSymbols : bool) : unsigned (list decoded) :=
  MkMethod (TickersRequest_validate symbols allSymbols) (public "/v2/tickers" (TickersRequest_values symbols))
    (decodeItems "Ticker").

Definition validateOptionalPositiveDecimal (name value : string) : result error unit :=
  if unset value then Ok tt else validatePositiveDecimal name value.

(** [OrderBookRequest]: a symbol and a level. *)
Definition OrderBookRequest_validate (symbol level : string) : result error unit :=
  validateSymbol symbol;;
  validateOptionalPositiveDecimal "order book level" level.
Definition OrderBookRequest_values (symbol level : string) : Values :=
  setIfNotEmpty (Values_Set ∅ "symbol" symbol) "level" level.

Definition OrderBook (symbol level : string) : unsigned decoded :=
  MkMethod (OrderBookRequest_validate symbol level) (public "/v2/orderbook" (OrderBookRequest_values symbol level))
    (valueAnswer "OrderBook").

(** [RecentTradesRequest]: a symbol and a limit. *)
Definition RecentTradesRequest_validate (symbol : string) (limit : Z) : result error unit :=
  validateSymbol symbol;;
  refuse (outside 0 limit 500) "recent trade limit must be between 1 and 500 or zero for default".
Definition RecentTradesRequest_values (symbol : string) (limit : Z) : Values :=
  setPositiveInt (Values_Set ∅ "symbol" symbol) "limit" limit.

Definition RecentTrades (symbol : string) (limit : Z) : unsigned (list decoded) :=
  MkMethod (RecentTradesRequest_validate symbol limit) (public "/v2/trades" (RecentTradesRequest_values symbol limit))
    (decodeItems "PublicTrade").

Definition CandleInterval_valid (interval : string) : bool :=
  bool_decide (interval ∈ ["1"; "5"; "15"; "30"; "60"; "240"; "1D"; "1W"]).

Record CandlesRequest : Type := MkCandles {
  candles_Symbol : string;
  Interval : string;
  candles_Start : option Z;
  candles_End : option Z;
  candles_Limit : Z
}.

Definition CandlesRequest_validate (request : CandlesRequest) : result error unit :=
  validateSymbol (candles_Symbol request);;
  refuse (negb (CandleInterval_valid (Interval request))) "unsupported candle interval %q";;
  refuse (outside 1 (candles_Limit request) 200) "candle limit must be between 1 and 200";;
  validateOptionalTimeRange (candles_Start request) (candles_End request) 0 0.
Definition CandlesRequest_values (request : CandlesRequest) : Values :=
  let values := Values_Set (Values_Set ∅ "symbol" (candles_Symbol request)) "interval" (Interval request) in
  let values := Values_Set values "limit" (pretty (candles_Limit request)) in
  setTime (setTime values "start" (candles_Start request)) "end" (candles_End request).

Definition Candles (request : CandlesRequest) : unsigned (list decoded) :=
  MkMethod (CandlesRequest_validate request) (public "/v2/candles" (CandlesRequest_values request)) (decodeItems "Candle").

Definition CurrencyPairs : unsigned (list decoded) :=
  MkMethod (Ok tt) (public "/v2/currencyPairs" ∅) (decodeItems "CurrencyPair").

(** [TickSizePolicyRequest] is a symbol. *)
Definition TickSizePolicy (symbol : string) : unsigned (list decoded) :=
  MkMethod (validateSymbol symbol) (public "/v2/tickSizePolicy" (Values_Set ∅ "symbol" symbol))
    (decodeItems "TickSizePolicy").
End methods.
End KorbitApi.
