(* ===== verification/UpbitEndpoints.v ===== *)
(** * The methods of the Upbit client: [exchange/upbit/orders.go], [account.go], [market.go], [requests.go] *)

From S2P Require Import Prelude GoStrings GoStrconv Decimals Errors Credential RateLimit Executor Unified ClientErrors SpotAdapter UpbitSpot Clients.
From S2P Require Import EndpointLimits RestClient HMACClients TokenClients RestSafety Endpoints.

Module UpbitApi.
Import UpbitSpot.Upbit.

Section methods.
(** [jsonText] is [json.Marshal] of a string, and [rfc3339] a time in its own
    location. *)
Context `{Library} `{Decoder} (now : Z) (jsonText : string → string) (rfc3339 : Z → string) (accountID : string).
Context (unmarshal : unmarshals Clients.Upbit.envelope).

Definition decodeBodyError := Clients.Upbit.decodeBodyError accountID.
Definition decodeResponse {A} (target : string → result error A) : Response → Z → result error A :=
  Clients.Upbit.decodeResponse accountID unmarshal target.

Abbreviation signed A :=
  (clientMethod (Z * string * string * parameters * string * EndpointLimits.Upbit.rateGroup * string * Z) A).
Abbreviation unsigned A := (clientMethod (Z * string * parameters * EndpointLimits.Upbit.rateGroup) A).

Definition read (path : string) (params : parameters) :=
  (now, "GET", path, params, "", EndpointLimits.Upbit.defaultRate, PermissionRead, OperationRead).
Definition change (method path : string) (params : parameters) (body : string) (group : EndpointLimits.Upbit.rateGroup) :=
  (now, method, path, params, body, group, PermissionTrade, OperationMutation).

(** ** Answers *)

Definition decodeItems (type : string) (response : Response) : result error (list decoded) :=
  rawItems ← decodeResponse RawItems response OperationRead;
  orBody (λ err, decodeBodyError response OperationRead (Wrapf "decode Upbit response item: %w" err))
    (decodeEach type rawItems).

Definition decodeOrder (response : Response) (operation : Z) : result error decoded :=
  decodeResponse (Unmarshal "Order") response operation.

(** ** Orders *)

Definition PlaceOrderRequest_parameters (request : NativePlaceOrder) : parameters :=
  let values := addText [] "market" (Market_ request) in
  let values := addText values "side" (Side request) in
  let values := addText values "volume" (Volume request) in
  let values := addText values "price" (Price request) in
  let values := addText values "ord_type" (OrderType request) in
  let values := addText values "time_in_force" (TimeInForce request) in
  let values := addText values "identifier" (Identifier request) in
  addText values "smp_type" (SMPType request).

Definition PlaceOrder (request : NativePlaceOrder) : signed decoded :=
  let params := PlaceOrderRequest_parameters request in
  MkMethod (PlaceOrderRequest_validate request)
    (change "POST" "/v1/orders" params (encodeOrderBody jsonText params) EndpointLimits.Upbit.orderRate)
    (λ response, decodeOrder response OperationMutation).

Definition orderIdentityParameters (uuid identifier : string) : parameters :=
  addText (addText [] "uuid" uuid) "identifier" identifier.

(** [OrderInfoRequest.parameters] and [CancelOrderRequest.parameters]. *)
Definition OrderIdentity_parameters (request : OrderIdentity) : parameters :=
  orderIdentityParameters (UUID request) (id_Identifier request).

Definition OrderInfo (request : OrderIdentity) : signed decoded :=
  MkMethod (OrderIdentity_validate request) (read "/v1/order" (OrderIdentity_parameters request))
    (λ response, decodeOrder response OperationRead).

Definition CancelOrder (request : OrderIdentity) : signed decoded :=
  MkMethod (OrderIdentity_validate request)
    (change "DELETE" "/v1/order" (OrderIdentity_parameters request) "" EndpointLimits.Upbit.defaultRate)
    (λ response, decodeOrder response OperationMutation).

Definition OpenOrdersRequest_parameters (request : NativeOpenOrders) : parameters :=
  let values := addText (addText [] "market" (open_Market request)) "state" (State request) in
  let values := addTexts values "states[]" (States request) in
  let values := addInt (addInt values "page" (Page request)) "limit" (Limit request) in
  addText values "order_by" (OrderBy request).

Definition OpenOrders (request : NativeOpenOrders) : signed (list decoded) :=
  MkMethod (OpenOrdersRequest_validate request) (read "/v1/orders/open" (OpenOrdersRequest_parameters request))
    (decodeItems "Order").

Record ClosedOrdersRequest : Type := MkClosedOrders {
  closed_Market : string;
  closed_AllMarkets : bool;
  closed_State : string;
  closed_States : list string;
  StartTime : option Z;
  EndTime : option Z;
  closed_Limit : Z;
  closed_OrderBy : string
}.

Definition closedState (state : string) : bool := bool_decide (state ∈ ["done"; "cancel"]).

Definition ClosedOrdersRequest_validate (request : ClosedOrdersRequest) : result error unit :=
  validateMarketScope (closed_Market request) (closed_AllMarkets request);;
  refuse (negb (unset (closed_State request)) && negb (bool_decide (closed_States request = [])))
    "state and states cannot be used together";;
  refuse (negb (unset (closed_State request)) && negb (closedState (closed_State request)))
    "closed order state must be done or cancel";;
  refuse (negb (forallb closedState (closed_States request))) "closed order states must contain only done or cancel";;
  refuse (startsAfter (StartTime request) (EndTime request)) "startTime cannot be after endTime";;
  refuse (longerThan (StartTime request) (EndTime request) (7 * 24 * 60 * Minute))
    "closed order time range cannot exceed seven days";;
  refuse (outside 0 (closed_Limit request) 1000) "closed order limit must be between 1 and 1000 or zero for default";;
  validateOrderBy (closed_OrderBy request).

Definition addTime (values : parameters) (key : string) (value : option Z) : parameters :=
  match value with Some t => addText values key (rfc3339 t) | None => values end.

Definition ClosedOrdersRequest_parameters (request : ClosedOrdersRequest) : parameters :=
  let values := addText (addText [] "market" (closed_Market request)) "state" (closed_State request) in
  let values := addTexts values "states[]" (closed_States request) in
  let values := addTime (addTime values "start_time" (StartTime request)) "end_time" (EndTime request) in
  addText (addInt values "limit" (closed_Limit request)) "order_by" (closed_OrderBy request).

Definition ClosedOrders (request : ClosedOrdersRequest) : signed (list decoded) :=
  MkMethod (ClosedOrdersRequest_validate request) (read "/v1/orders/closed" (ClosedOrdersRequest_parameters request))
    (decodeItems "Order").

(** ** Account *)

Definition Accounts : signed (list decoded) := MkMethod (Ok tt) (read "/v1/accounts" []) (decodeItems "Balance").

(** ** Market data *)

Definition public (path : string) (params : parameters) (group : EndpointLimits.Upbit.rateGroup) :=
  (now, path, params, group).

Definition Markets (includeDetails : bool) : unsigned (list decoded) :=
  MkMethod (Ok tt) (public "/v1/market/all" (addBool [] "is_details" includeDetails) EndpointLimits.Upbit.marketRate)
    (decodeItems "Market").

Definition validateMarkets (markets : list string) : result error unit :=
  refuse (bool_decide (markets = []) || bool_decide (100 < length markets)%nat)
    "markets must contain between 1 and 100 items";;
  validateDistinct validateMarket (APIValidationError ExchangeUpbit "duplicate market %q") [] markets.

(** [TickersRequest] is its markets, [OrderBooksRequest] has a count too. *)
Definition Tickers (markets : list string) : unsigned (list decoded) :=
  MkMethod (validateMarkets markets) (public "/v1/ticker" [("markets", Join markets ",")] EndpointLimits.Upbit.tickerRate)
    (decodeItems "Ticker").

Definition OrderBooksRequest_validate (markets : list string) (count : Z) : result error unit :=
  validateMarkets markets;;
  refuse (outside 0 count 30) "order book count must be between 1 and 30 or zero for default".
Definition OrderBooksRequest_parameters (markets : list string) (count : Z) : parameters :=
  addInt [("markets", Join markets ",")] "count" count.

Definition OrderBooks (markets : list string) (count : Z) : unsigned (list decoded) :=
  MkMethod (OrderBooksRequest_validate markets count)
    (public "/v1/orderbook" (OrderBooksRequest_parameters markets count) EndpointLimits.Upbit.orderBookRate)
    (decodeItems "OrderBook").

Record RecentTradesRequest : Type := MkRecentTrades {
  trades_Market : string;
  trades_To : string;
  trades_Count : Z;
  trades_Cursor : Z;
  DaysAgo : Z
}.

Definition RecentTradesRequest_validate (request : RecentTradesRequest) : result error unit :=
  validateMarket (trades_Market request);;
  refuse (outside 0 (trades_Count request) 500) "recent trade count must be between 1 and 500 or zero for default";;
  refuse (bool_decide (trades_Cursor request < 0)) "recent trade cursor cannot be negative";;
  refuse (outside 0 (DaysAgo request) 7) "daysAgo must be between 1 and 7 or zero".
Definition RecentTradesRequest_parameters (request : RecentTradesRequest) : parameters :=
  let values := addText [("market", trades_Market request)] "to" (trades_To request) in
  let values := addInt (addInt values "count" (trades_Count request)) "cursor" (trades_Cursor request) in
  addInt values "days_ago" (DaysAgo request).

Definition RecentTrades (request : RecentTradesRequest) : unsigned (list decoded) :=
  MkMethod (RecentTradesRequest_validate request)
    (public "/v1/trades/ticks" (RecentTradesRequest_parameters request) EndpointLimits.Upbit.tradeRate)
    (decodeItems "PublicTrade").

Definition MinuteUnit_valid (unit : Z) : bool := bool_decide (unit ∈ [1; 3; 5; 10; 15; 30; 60; 240]).

Record MinuteCandlesRequest : Type := MkMinuteCandles {
  candles_Market : string;
  candles_Unit : Z;
  candles_To : string;
  candles_Count : Z
}.

Definition MinuteCandlesRequest_validate (request : MinuteCandlesRequest) : result error unit :=
  validateMarket (candles_Market request);;
  refuse (negb (MinuteUnit_valid (candles_Unit request))) "unsupported minute candle unit %d";;
  refuse (outside 0 (candles_Count request) 200) "candle count must be between 1 and 200 or zero for default".
Definition MinuteCandlesRequest_parameters (request : MinuteCandlesRequest) : parameters :=
  addInt (addText [("market", candles_Market request)] "to" (candles_To request)) "count" (candles_Count request).

Definition MinuteCandles (request : MinuteCandlesRequest) : unsigned (list decoded) :=
  MkMethod (MinuteCandlesRequest_validate request)
    (public ("/v1/candles/minutes/" +:+ pretty (candles_Unit request)) (MinuteCandlesRequest_parameters request)
       EndpointLimits.Upbit.candleRate) (decodeItems "Candle").
End methods.
End UpbitApi.
