(* ===== verification/BithumbEndpoints.v ===== *)
(** * The methods of the Bithumb client: [exchange/bithumb/orders.go], [account.go], [market.go], [requests.go] *)

From S2P Require Import Prelude GoStrings GoStrconv Decimals Errors Credential RateLimit Executor Unified ClientErrors SpotAdapter BithumbSpot Clients.
From S2P Require Import EndpointLimits RestClient HMACClients TokenClients RestSafety Endpoints.

Module BithumbApi.
Import BithumbSpot.Bithumb.

Section methods.
(** [jsonText] is [json.Marshal] of a string. *)
Context `{Library} `{Decoder} (jsonText : string → string) (accountID : string).
Context (unmarshal : unmarshals Clients.Bithumb.envelope).

Definition decodeBodyError := Clients.Bithumb.decodeBodyError accountID.
Definition decodeResponse {A} (target : string → result error A) : Response → Z → result error A :=
  Clients.Bithumb.decodeResponse accountID unmarshal target.

Abbreviation signed A := (clientMethod (string * string * parameters * string * string * string * Z) A).
Abbreviation unsigned A := (clientMethod (string * parameters * string) A).

Definition read (path : string) (params : parameters) :=
  ("GET", path, params, "", EndpointLimits.Bithumb.rateLimitPrivateOther, PermissionRead, OperationRead).
Definition change (method path : string) (params : parameters) (body group : string) :=
  (method, path, params, body, group, PermissionTrade, OperationMutation).

(** ** Answers *)

Definition decodeItems (type : string) (response : Response) : result error (list decoded) :=
  rawItems ← decodeResponse RawItems response OperationRead;
  orBody (λ err, decodeBodyError response OperationRead (Wrapf "decode Bithumb response item: %w" err))
    (decodeEach type rawItems).

Definition valueAnswer (type : string) (operation : Z) (response : Response) : result error decoded :=
  decodeResponse (Unmarshal type) response operation.

(** The page with its next key and whether there is another, and its orders. *)
Definition decodeOrderPage (response : Response) : result error (decoded * list decoded) :=
  envelope ← decodeResponse (Unmarshal "page") response OperationRead;
  items ← orBody (λ err, decodeBodyError response OperationRead (Wrapf "decode Bithumb order page item: %w" err))
            (decodeEach "OrderSummary" (Items envelope "data"));
  Ok (envelope, items).

(** ** Orders *)

Definition PlaceOrderRequest_parameters (request : NativePlaceOrder) : parameters :=
  let values := addText [] "market" (Market_ request) in
  let values := addText values "side" (Side request) in
  let values := addText values "volume" (Volume request) in
  let values := addText values "price" (Price request) in
  let values := addText values "order_type" (OrderType request) in
  let values := addText values "time_in_force" (TimeInForce request) in
  addText values "client_order_id" (ClientOrderID request).

Definition PlaceOrder (request : NativePlaceOrder) : signed decoded :=
  let params := PlaceOrderRequest_parameters request in
  MkMethod (PlaceOrderRequest_validate request)
    (change "POST" "/v2/orders" params (encodeOrderBody jsonText params) EndpointLimits.Bithumb.rateLimitOrderCreate)
    (valueAnswer "OrderReference" OperationMutation).

Definition OrderInfoRequest_parameters (request : OrderIdentity) : parameters :=
  addText (addText [] "uuid" (id_OrderID request)) "client_order_id" (id_ClientOrderID request).

Definition OrderInfo (request : OrderIdentity) : signed decoded :=
  MkMethod (OrderInfoRequest_validate request) (read "/v1/order" (OrderInfoRequest_parameters request))
    (valueAnswer "OrderDetail" OperationRead).

Definition CancelOrderRequest_parameters (request : OrderIdentity) : parameters :=
  addText (addText [] "order_id" (id_OrderID request)) "client_order_id" (id_ClientOrderID request).

Definition CancelOrder (request : OrderIdentity) : signed decoded :=
  MkMethod (CancelOrderRequest_validate request)
    (change "DELETE" "/v2/order" (CancelOrderRequest_parameters request) "" EndpointLimits.Bithumb.rateLimitOrderCancel)
    (valueAnswer "CancelResult" OperationMutation).

Definition PendingOrdersRequest_parameters (request : PendingOrdersRequest) : parameters :=
  let values := addText (addText [] "market" (pending_Market request)) "state" (State request) in
  let values := addText (addInt values "limit" (Limit request)) "order_by" (OrderBy request) in
  addText values "next_key" (NextKey request).

Definition PendingOrders (request : PendingOrdersRequest) : signed (decoded * list decoded) :=
  MkMethod (PendingOrdersRequest_validate request) (read "/v2/orders/pending" (PendingOrdersRequest_parameters request))
    decodeOrderPage.

Record OrderHistoryRequest : Type := MkOrderHistory {
  history_Market : string;
  history_AllMarkets : bool;
  history_State : string;
  history_States : list string;
  StartTime : option Z;
  EndTime : option Z;
  history_Limit : Z;
  history_OrderBy : string;
  history_NextKey : string
}.

Definition closedState (state : string) : bool := bool_decide (state ∈ ["done"; "cancel"]).

Definition OrderHistoryRequest_validate (request : OrderHistoryRequest) : result error unit :=
  validateMarketScope (history_Market request) (history_AllMarkets request);;
  refuse (negb (unset (history_State request)) && negb (bool_decide (history_States request = [])))
    "state and states cannot be used together";;
  refuse (negb (unset (history_State request)) && negb (closedState (history_State request)))
    "history state must be done or cancel";;
  refuse (negb (forallb closedState (history_States request))) "history states must contain only done or cancel";;
  refuse (startsAfter (StartTime request) (EndTime request)) "startTime cannot be after endTime";;
  refuse (longerThan (StartTime request) (EndTime request) (7 * 24 * 60 * Minute))
    "order history time range cannot exceed seven days";;
  refuse (outside 0 (history_Limit request) 1000) "order history limit must be between 1 and 1000 or zero for default";;
  validateOrderBy (history_OrderBy request);;
  validateParameterValue "nextKey" (history_NextKey request).

Definition addMillis (values : parameters) (key : string) (value : option Z) : parameters :=
  match value with Some t => addText values key (pretty (UnixMilli t)) | None => values end.

Definition OrderHistoryRequest_parameters (request : OrderHistoryRequest) : parameters :=
  let values := addText (addText [] "market" (history_Market request)) "state" (history_State request) in
  let values := addTexts values "states[]" (history_States request) in
  let values := addMillis (addMillis values "start_time" (StartTime request)) "end_time" (EndTime request) in
  let values := addText (addInt values "limit" (history_Limit request)) "order_by" (history_OrderBy request) in
  addText values "next_key" (history_NextKey request).

Definition OrderHistory (request : OrderHistoryRequest) : signed (decoded * list decoded) :=
  MkMethod (OrderHistoryRequest_validate request) (read "/v2/orders/history" (OrderHistoryRequest_parameters request))
    decodeOrderPage.

(** ** Account *)

Definition Accounts : signed (list decoded) := MkMethod (Ok tt) (read "/v1/accounts" []) (decodeItems "Balance").

(** ** Market data *)

Definition public (path : string) (params : parameters) (group : string) := (path, params, group).

Definition Markets (includeDetails : bool) : unsigned (list decoded) :=
  MkMethod (Ok tt)
    (public "/v1/market/all" (addBool [] "isDetails" includeDetails) EndpointLimits.Bithumb.rateLimitPublicOther)
    (decodeItems "Market").

Definition validateMarkets (markets : list string) : result error unit :=
  refuse (bool_decide (markets = []) || bool_decide (100 < length markets)%nat)
    "markets must contain between 1 and 100 items";;
  validateDistinct validateMarket (APIValidationError ExchangeBithumb "duplicate market %q") [] markets.

(** [TickersRequest] and [OrderBooksRequest] are markets. *)
Definition Tickers (markets : list string) : unsigned (list decoded) :=
  MkMethod (validateMarkets markets)
    (public "/v1/ticker" [("markets", Join markets ",")] EndpointLimits.Bithumb.rateLimitPublicTicker)
    (decodeItems "Ticker").
Definition OrderBooks (markets : list string) : unsigned (list decoded) :=
  MkMethod (validateMarkets markets)
    (public "/v1/orderbook" [("markets", Join markets ",")] EndpointLimits.Bithumb.rateLimitPublicOrderBook)
    (decodeItems "OrderBook").

Record RecentTradesRequest : Type := MkRecentTrades {
  trades_Market : string;
  trades_To : string;
  trades_Count : Z;
  trades_Cursor : Z;
  DaysAgo : Z
}.

Definition RecentTradesRequest_validate (request : RecentTradesRequest) : result error unit :=
  validateMarket (trades_Market request);;
  refuse (outside 0 (trades_Count request) 500) "recent trade count must be between 1 and 500 or zero for default";;
  refuse (bool_decide (trades_Cursor request < 0)) "recent trade cursor cannot be negative";;
  refuse (outside 0 (DaysAgo request) 7) "daysAgo must be between 1 and 7 or zero";;
  validateParameterValue "to" (trades_To request).
Definition RecentTradesRequest_parameters (request : RecentTradesRequest) : parameters :=
  let values := addText [("market", trades_Market request)] "to" (trades_To request) in
  let values := addInt (addInt values "count" (trades_Count request)) "cursor" (trades_Cursor request) in
  addInt values "daysAgo" (DaysAgo request).

Definition RecentTrades (request : RecentTradesRequest) : unsigned (list decoded) :=
  MkMethod (RecentTradesRequest_validate request)
    (public "/v1/trades/ticks" (RecentTradesRequest_parameters request) EndpointLimits.Bithumb.rateLimitPublicTrade)
    (decodeItems "PublicTrade").

Definition MinuteUnit_valid (unit : Z) : bool := bool_decide (unit ∈ [1; 3; 5; 10; 15; 30; 60; 240]).

Record MinuteCandlesRequest : Type := MkMinuteCandles {
  candles_Market : string;
  candles_Unit : Z;
  candles_To : string;
  candles_Count : Z
}.

Definition MinuteCandlesRequest_validate (request : MinuteCandlesRequest) : result error unit :=
  validateMarket (candles_Market request);;
  refuse (negb (MinuteUnit_valid (candles_Unit request))) "unsupported minute candle unit %d";;
  refuse (outside 0 (candles_Count request) 200) "candle count must be between 1 and 200 or zero for default";;
  validateParameterValue "to" (candles_To request).
Definition MinuteCandlesRequest_parameters (request : MinuteCandlesRequest) : parameters :=
  addInt (addText [("market", candles_Market request)] "to" (candles_To request)) "count" (candles_Count request).

Definition MinuteCandles (request : MinuteCandlesRequest) : unsigned (list decoded) :=
  MkMethod (MinuteCandlesRequest_validate request)
    (public ("/v1/candles/minutes/" +:+ pretty (candles_Unit request)) (MinuteCandlesRequest_parameters request)
       EndpointLimits.Bithumb.rateLimitPublicCandle) (decodeItems "Candle").
End methods.
End BithumbApi.
