(* ===== verification/CoinoneEndpoints.v ===== *)
(** * The methods of the Coinone client: [exchange/coinone/orders.go], [account.go], [market.go], [requests.go], [payload.go] *)

From S2P Require Import Prelude GoStrings GoStrconv Decimals Errors Credential RateLimit Executor Unified ClientErrors SpotAdapter CoinoneSpot Clients.
From S2P Require Import EndpointLimits RestClient HMACClients TokenClients RestSafety Endpoints.

Module CoinoneApi.
Import CoinoneSpot.Coinone.

(** ** [payload.go] *)

(** [jsonText] is [json.Marshal] of a string. *)
Section payload.
Context (jsonText : string → string).

Abbreviation payloadFields := (list TokenClients.Coinone.payloadField).
Abbreviation payloadField := TokenClients.Coinone.MkPayloadField.

Definition addString (fields : payloadFields) (key value : string) : payloadFields :=
  if unset value then fields else fields ++ [payloadField key (jsonText value)].
Definition addBool (fields : payloadFields) (key : string) (value : bool) : payloadFields :=
  fields ++ [payloadField key (if value then "true" else "false")].

(** [addInt] and [addInt64]. *)
Definition addNumber (fields : payloadFields) (key : string) (value : Z) : payloadFields :=
  if bool_decide (0 < value) then fields ++ [payloadField key (pretty value)] else fields.
Definition addStrings (fields : payloadFields) (key : string) (values : list string) : payloadFields :=
  if bool_decide (values = []) then fields
  else fields ++ [payloadField key ("[" +:+ Join (jsonText <$> values) "," +:+ "]")].

Definition pairFields (quoteCurrency targetCurrency : string) : payloadFields :=
  addString (addString [] "quote_currency" quoteCurrency) "target_currency" targetCurrency.

Definition orderIdentityFields (orderID userOrderID quoteCurrency targetCurrency : string) : payloadFields :=
  let values := addString (addString [] "order_id" orderID) "user_order_id" userOrderID in
  addString (addString values "quote_currency" quoteCurrency) "target_currency" targetCurrency.

(** ** Requests *)

Definition PlaceOrderRequest_fields (request : NativePlaceOrder) : payloadFields :=
  let values := addString [] "side" (Side request) in
  let values := addString values "quote_currency" (QuoteCurrency request) in
  let values := addString values "target_currency" (TargetCurrency request) in
  let values := addString values "type" (Type_ request) in
  let values := addString values "price" (Price request) in
  let values := addString values "qty" (Quantity request) in
  let values := addString values "amount" (Amount request) in
  let values := addString values "limit_price" (LimitPrice request) in
  let values := addString values "trigger_price" (TriggerPrice request) in
  let values := if bool_decide (Type_ request = OrderTypeLimit)
                then addBool values "post_only" (PostOnly request) else values in
  addString values "user_order_id" (UserOrderID request).

(** [OrderInfoRequest.fields] and [CancelOrderRequest.fields]. *)
Definition OrderInfoRequest_fields (request : OrderIdentity) : payloadFields :=
  orderIdentityFields (id_OrderID request) (id_UserOrderID request) (id_QuoteCurrency request)
    (id_TargetCurrency request).

Definition ActiveOrdersRequest_fields (request : ActiveOrdersRequest) : payloadFields :=
  addStrings (pairFields (active_QuoteCurrency request) (active_TargetCurrency request)) "order_type"
    (OrderTypes request).

(** The times are [None] when they are Go's zero time. *)
Record CompletedOrdersRequest : Type := MkCompletedOrders {
  completed_QuoteCurrency : string;
  completed_TargetCurrency : string;
  completed_AllMarkets : bool;
  ToTradeID : string;
  completed_Size : Z;
  From : option Z;
  To : option Z
}.

Definition CompletedOrdersRequest_validate (now : Z) (request : CompletedOrdersRequest) : result error unit :=
  validateMarketScope (completed_QuoteCurrency request) (completed_TargetCurrency request)
    (completed_AllMarkets request);;
  refuse (outside 1 (completed_Size request) 100) "completed order size must be between 1 and 100";;
  match From request, To request with
  | Some from, Some to =>
      refuse (bool_decide (UnixMilli from ≤ 0) || bool_decide (UnixMilli to ≤ 0))
        "completed order timestamps must be after the Unix epoch";;
      refuse (bool_decide (to < from)) "completed order from cannot be after to";;
      refuse (bool_decide (90 * 24 * 60 * Minute < Time_Sub to from)) "completed order range cannot exceed 90 days";;
      refuse (bool_decide (now < from) || bool_decide (now < to)) "completed order range cannot be in the future";;
      refuse (negb (bool_decide (TrimSpace (ToTradeID request) = ToTradeID request)))
        "invalid completed order trade cursor"
  | _, _ => refuse true "completed order from and to are required"
  end.

(** Go's zero time is before the epoch, so it adds no field. *)
Definition addMillis (fields : payloadFields) (key : string) (value : option Z) : payloadFields :=
  match value with Some t => addNumber fields key (UnixMilli t) | None => fields end.

Definition CompletedOrdersRequest_fields (request : CompletedOrdersRequest) : payloadFields :=
  let values := pairFields (completed_QuoteCurrency request) (completed_TargetCurrency request) in
  let values := addString values "to_trade_id" (ToTradeID request) in
  let values := addNumber values "size" (completed_Size request) in
  addMillis (addMillis values "from_ts" (From request)) "to_ts" (To request).
End payload.

Section methods.
(** [now] is the limiter's clock when the answer is observed. *)
Context `{Library} `{Decoder} (jsonText : string → string) (now : Z) (accountID : string).
Context (unmarshal : unmarshals Clients.Coinone.envelope).

Definition decodeBodyError := Clients.Coinone.decodeBodyError accountID.
Definition decodeResponse {A} (target : string → result error A) : Response → Z → result error A :=
  Clients.Coinone.decodeResponse accountID unmarshal target.

Abbreviation signed A :=
  (clientMethod ((string → string) * Z * string * list TokenClients.Coinone.payloadField * bool * string * Z) A).
Abbreviation unsigned A := (clientMethod (Z * string * Values) A).

Definition read (path : string) (fields : list TokenClients.Coinone.payloadField) (order : bool) :=
  (jsonText, now, path, fields, order, PermissionRead, OperationRead).
Definition change (path : string) (fields : list TokenClients.Coinone.payloadField) :=
  (jsonText, now, path, fields, true, PermissionTrade, OperationMutation).
Definition public (path : string) (values : Values) := (now, path, values).

(** ** Answers *)

Definition decodeRawItems (type : string) (response : Response) (rawItems : list string) : result error (list decoded) :=
  orBody (λ err, decodeBodyError response OperationRead (Wrapf "decode Coinone response item: %w" err))
    (decodeEach type rawItems).

(** The list that is a member of the answer. *)
Definition listAnswer (member type : string) (response : Response) : result error (list decoded) :=
  envelope ← decodeResponse (Unmarshal member) response OperationRead;
  decodeRawItems type response (Items envelope member).

(** ** Orders *)

Definition PlaceOrder (request : NativePlaceOrder) : signed decoded :=
  MkMethod (PlaceOrderRequest_validate request)
    (change "/v2.1/order" (PlaceOrderRequest_fields jsonText request))
    (Clients.Coinone.PlaceOrder accountID unmarshal (Unmarshal "order_id") (λ envelope, Text envelope "order_id")).

(** The order is a member of the answer or, without it, the whole answer. *)
Definition orderAnswer (response : Response) : result error decoded :=
  envelope ← decodeResponse (Unmarshal "order") response OperationRead;
  let order := Text envelope "order" in
  let rawOrder := if negb (unset order) && negb (bool_decide (order = "null")) then order else body_text response in
  result ← orBody (λ err, decodeBodyError response OperationRead (Wrapf "decode Coinone order detail: %w" err))
             (Unmarshal "OrderDetail" rawOrder);
  if unset (Text result "order_id")
  then Err (decodeBodyError response OperationRead (Errorf "Coinone order detail has no order ID"))
  else Ok result.

Definition OrderInfo (request : OrderIdentity) : signed decoded :=
  MkMethod (OrderIdentity_validate request)
    (read "/v2.1/order/detail" (OrderInfoRequest_fields jsonText request) true) orderAnswer.

Definition CancelOrder (request : OrderIdentity) : signed decoded :=
  MkMethod (OrderIdentity_validate request)
    (change "/v2.1/order/cancel" (OrderInfoRequest_fields jsonText request))
    (λ response,
       result ← decodeResponse (Unmarshal "CancelResult") response OperationMutation;
       if unset (Text result "order_id")
       then Err (decodeBodyError response OperationMutation (Errorf "Coinone cancel response has no order ID"))
       else Ok result).

Definition ActiveOrders (request : ActiveOrdersRequest) : signed (list decoded) :=
  MkMethod (ActiveOrdersRequest_validate request)
    (read "/v2.1/order/active_orders" (ActiveOrdersRequest_fields jsonText request) true)
    (listAnswer "active_orders" "ActiveOrder").

(** [clock] is the client's [now]. *)
Definition CompletedOrders (clock : Z) (request : CompletedOrdersRequest) : signed (list decoded) :=
  MkMethod (CompletedOrdersRequest_validate clock request)
    (read ("/v2.1/order/completed_orders" +:+ (if completed_AllMarkets request then "/all" else ""))
       (CompletedOrdersRequest_fields jsonText request) true)
    (listAnswer "completed_orders" "CompletedTrade").

(** ** Account *)

Definition Accounts : signed (list decoded) :=
  MkMethod (Ok tt) (read "/v2.1/account/balance/all" [] false) (listAnswer "balances" "Balance").

(** ** Market data *)

(** [MarketsRequest] is a currency. *)
Definition Markets (quoteCurrency : string) : unsigned (list decoded) :=
  MkMethod (validateCurrency "quote currency" quoteCurrency)
    (public ("/public/v2/markets/" +:+ PathEscape quoteCurrency) ∅)
    (listAnswer "markets" "Market").

Definition pairPath (prefix quoteCurrency targetCurrency : string) : string :=
  prefix +:+ "/" +:+ PathEscape quoteCurrency +:+ "/" +:+ PathEscape targetCurrency.

Record OrderBookRequest : Type := MkOrderBook {
  book_QuoteCurrency : string;
  book_TargetCurrency : string;
  book_Size : Z;
  OrderBookUnit : string
}.

Definition OrderBookRequest_validate (request : OrderBookRequest) : result error unit :=
  validatePair (book_QuoteCurrency request) (book_TargetCurrency request);;
  refuse (bool_decide (book_Size request ∉ [0; 5; 10; 15; 16]))
    "order book size must be 5, 10, 15, 16, or zero for default";;
  validateOptionalPositiveDecimal "order book unit" (OrderBookUnit request).

Definition OrderBookRequest_values (request : OrderBookRequest) : Values :=
  setIfNotEmpty (setPositiveInt ∅ "size" (book_Size request)) "order_book_unit" (OrderBookUnit request).

Definition OrderBook (request : OrderBookRequest) : unsigned decoded :=
  MkMethod (OrderBookRequest_validate request)
    (public (pairPath "/public/v2/orderbook" (book_QuoteCurrency request) (book_TargetCurrency request))
       (OrderBookRequest_values request))
    (λ response, decodeResponse (Unmarshal "OrderBook") response OperationRead).

(** [RecentTradesRequest]: a pair and a size. *)
Definition RecentTradesRequest_validate (quoteCurrency targetCurrency : string) (size : Z) : result error unit :=
  validatePair quoteCurrency targetCurrency;;
  refuse (bool_decide (size ∉ [0; 10; 50; 100; 150; 200]))
    "recent trade size must be 10, 50, 100, 150, 200, or zero for default".
Definition RecentTradesRequest_values (size : Z) : Values := setPositiveInt ∅ "size" size.

Definition RecentTrades (quoteCurrency targetCurrency : string) (size : Z) : unsigned (list decoded) :=
  MkMethod (RecentTradesRequest_validate quoteCurrency targetCurrency size)
    (public (pairPath "/public/v2/trades" quoteCurrency targetCurrency) (RecentTradesRequest_values size))
    (listAnswer "transactions" "PublicTrade").

(** [TickerRequest]: a pair and whether to add data.  The answer is a list of one. *)
Definition TickerRequest_values (additionalData : bool) : Values :=
  if additionalData then Values_Set ∅ "additional_data" "true" else ∅.

Definition Ticker (quoteCurrency targetCurrency : string) (additionalData : bool) : unsigned decoded :=
  MkMethod (validatePair quoteCurrency targetCurrency)
    (public (pairPath "/public/v2/ticker_new" quoteCurrency targetCurrency) (TickerRequest_values additionalData))
    (λ response,
       items ← listAnswer "tickers" "Ticker" response;
       match items with
       | [item] => Ok item
       | _ => Err (decodeBodyError response OperationRead
                     (Errorf "Coinone individual ticker response contains %d items"))
       end).

Definition CandleInterval_valid (interval : string) : bool :=
  bool_decide (interval ∈ ["1m"; "3m"; "5m"; "10m"; "15m"; "30m"; "1h"; "2h"; "4h"; "6h"; "1d"; "1w"; "1mon"]).

Record CandlesRequest : Type := MkCandles {
  candles_QuoteCurrency : string;
  candles_TargetCurrency : string;
  Interval : string;
  Timestamp : Z;
  candles_Size : Z
}.

Definition CandlesRequest_validate (request : CandlesRequest) : result error unit :=
  validatePair (candles_QuoteCurrency request) (candles_TargetCurrency request);;
  refuse (negb (CandleInterval_valid (Interval request))) "unsupported candle interval %q";;
  refuse (bool_decide (Timestamp request < 0)) "candle timestamp cannot be negative";;
  refuse (outside 0 (candles_Size request) 500) "candle size must be between 1 and 500 or zero for default".

Definition CandlesRequest_values (request : CandlesRequest) : Values :=
  let values := Values_Set ∅ "interval" (Interval request) in
  let values := setPositiveInt values "timestamp" (Timestamp request) in
  setPositiveInt values "size" (candles_Size request).

(** The page says whether it is the last one. *)
Definition Candles (request : CandlesRequest) : unsigned (decoded * list decoded) :=
  MkMethod (CandlesRequest_validate request)
    (public (pairPath "/public/v2/chart" (candles_QuoteCurrency request) (candles_TargetCurrency request))
       (CandlesRequest_values request))
    (λ response,
       envelope ← decodeResponse (Unmarshal "chart") response OperationRead;
       items ← decodeRawItems "Candle" response (Items envelope "chart");
       Ok (envelope, items)).
End methods.
End CoinoneApi.
