(* ===== verification/OrderRequests.v ===== *)
(** * From a unified order to a signed HTTP request

    The clients that the unified adapters use place an order in three steps:
    the adapter makes a native order ([SpotAdapter]), a method of the client puts
    it into parameters ([Endpoints]), and the client signs them and sends them
    ([SignedClient]).  [OrderClient] joins the three: how the parameters of an
    order travel in a request, and what an exchange reads of them.  Its laws are
    proved for the clients of all exchanges with a unified adapter, and the
    theorems are about each of them. *)

From S2P Require Import Prelude GoStrings GoStrconv Decimals Errors Options Credential RateLimit Executor Session Unified SpotAdapter Clients ClientErrors.
From S2P Require Import BinanceSpot OKXSpot BybitSpot BitgetSpot MEXCSpot KuCoinSpot GateIOSpot HTXSpot CoinbaseSpot KrakenSpot CryptoComSpot KorbitSpot UpbitSpot BithumbSpot CoinoneSpot.
From S2P Require Import StreamClient EndpointLimits RestClient HMACClients TokenClients RestSafety Endpoints.
From S2P Require Import BinanceEndpoints OKXEndpoints BybitEndpoints BitgetEndpoints MEXCEndpoints KuCoinEndpoints GateIOEndpoints HTXEndpoints CoinbaseEndpoints KrakenEndpoints CryptoComEndpoints KorbitEndpoints UpbitEndpoints BithumbEndpoints CoinoneEndpoints.

(** * Queries, and what an exchange reads of them

    Requests carry parameters as [url.Values] in a query or in a form.
    [ParseQuery] is [url.ParseQuery], the way back: it reads what [Encode] wrote. *)

Definition ampersand : ascii := byte 38.
Definition equals : ascii := byte 61.

(** [url.QueryUnescape]. *)
Fixpoint QueryUnescape (s : string) : option string :=
  match s with
  | EmptyString => Some ""
  | String c rest =>
      if bool_decide (c = byte 37) then
        match rest with
        | String h (String l rest) =>
            high ← hex_value h; low ← hex_value l; decoded ← QueryUnescape rest;
            Some (String (byte (16 * high + low)) decoded)
        | _ => None
        end
      else
        decoded ← QueryUnescape rest;
        Some (String (if bool_decide (c = byte 43) then byte 32 else c) decoded)
  end.

(** [url.ParseQuery]: the pairs between ampersands, of which an empty one is
    skipped; a key keeps its values in their order. *)
Definition parsePair (pair : string) : option (string * string) :=
  let '(key, value) := Cut equals pair in
  key ← QueryUnescape key; value ← QueryUnescape (default "" value); Some (key, value).

Definition addPair (values : Values) (pair : string * string) : Values :=
  <[pair.1 := default [] (values !! pair.1) ++ [pair.2]]> values.

Definition ParseQuery (query : string) : option Values :=
  pairs ← mapM parsePair (filter (λ pair, pair ≠ "") (Split ampersand query));
  Some (foldl addPair ∅ pairs).

(** [Values.Get]. *)
Definition Values_Get (values : Values) (key : string) : string :=
  match values !! key with Some (value :: _) => value | _ => "" end.

Example ParseQuery_runs :
  ParseQuery "limit=5&limit=6&&symbol=BTC+US%44T" = Some {["symbol" := ["BTC USDT"]; "limit" := ["5"; "6"]]}.
Proof. by vm_compute. Qed.

(** ** Reading back an escaped text *)

Lemma QueryUnescape_char c rest :
  QueryUnescape ((if unreserved c then String c "" else if bool_decide (c = byte 32) then "+" else percent c) +:+ rest) =
  (decoded ← QueryUnescape rest; Some (String c decoded)).
Proof. destruct c as [[] [] [] [] [] [] [] []]; reflexivity. Qed.

Lemma QueryUnescape_escape s : QueryUnescape (QueryEscape s) = Some s.
Proof.
  unfold QueryEscape. induction s as [|c s IH]; [done|]. cbn [escape]. by rewrite QueryUnescape_char, IH.
Qed.

(** An escaped text has none of the characters that structure a query. *)
Definition structural (c : ascii) : bool := bool_decide (c = ampersand) || bool_decide (c = equals).

Lemma QueryEscape_plain s : string_forall (λ c, negb (structural c)) (QueryEscape s) = true.
Proof.
  unfold QueryEscape. induction s as [|c s IH]; [done|]. cbn [escape]. rewrite string_forall_append, IH, andb_true_r.
  destruct c as [[] [] [] [] [] [] [] []]; reflexivity.
Qed.

Lemma QueryEscape_not_char sep s :
  structural sep = true → string_forall (not_char sep) (QueryEscape s) = true.
Proof.
  intros Hsep. eapply string_forall_impl; [|apply QueryEscape_plain]. intros c Hc.
  unfold not_char. apply negb_true_iff, bool_decide_eq_false. intros ->. by rewrite Hsep in Hc.
Qed.

(** ** Reading back a query *)

Lemma Split_Join sep l :
  l ≠ [] → Forall (λ part, string_forall (not_char sep) part = true) l → Split sep (Join l (String sep "")) = l.
Proof.
  induction l as [|part [|next l] IH]; intros Hl Hparts; [done| |]; apply Forall_cons in Hparts as [Hp Hparts].
  - by apply Split_none.
  - change (Split sep (part +:+ String sep (Join (next :: l) (String sep ""))) = part :: next :: l).
    rewrite Split_cut by done. by rewrite IH.
Qed.

Definition pairText (pair : string * string) : string := QueryEscape pair.1 +:+ "=" +:+ QueryEscape pair.2.

Lemma parsePair_text pair : parsePair (pairText pair) = Some pair.
Proof.
  destruct pair as [key value]. change (parsePair (QueryEscape key +:+ String equals (QueryEscape value)) = Some (key, value)).
  unfold parsePair. rewrite Cut_some by by apply QueryEscape_not_char.
  rewrite QueryUnescape_escape. simpl. by rewrite QueryUnescape_escape.
Qed.

Lemma pairText_not_ampersand pair : string_forall (not_char ampersand) (pairText pair) = true.
Proof.
  unfold pairText. rewrite !string_forall_append, !QueryEscape_not_char by done. done.
Qed.

Lemma pairText_nonempty pair : pairText pair ≠ "".
Proof. unfold pairText. by destruct (QueryEscape pair.1). Qed.

Lemma filter_pairTexts (pairs : list (string * string)) : filter (λ pair, pair ≠ "") (pairText <$> pairs) = pairText <$> pairs.
Proof.
  induction pairs as [|pair pairs IH]; [done|]. rewrite fmap_cons, filter_cons_True by apply pairText_nonempty.
  by rewrite IH.
Qed.

Lemma parsePair_texts (pairs : list (string * string)) : mapM parsePair (pairText <$> pairs) = Some pairs.
Proof. apply mapM_Some, Forall2_fmap_l, Forall_Forall2_diag, Forall_true, parsePair_text. Qed.

Lemma ParseQuery_pairs (pairs : list (string * string)) : ParseQuery (Join (pairText <$> pairs) "&") = Some (foldl addPair ∅ pairs).
Proof.
  unfold ParseQuery. destruct (decide (pairs = [])) as [->|Hne]; [done|].
  change "&" with (String ampersand ""). rewrite Split_Join, filter_pairTexts, parsePair_texts; [done|by destruct pairs|].
  apply Forall_fmap, Forall_true, pairText_not_ampersand.
Qed.

(** The pairs of an entry, and of parameters in the order in which they are
    encoded. *)
Definition entryPairs (entry : string * list string) : list (string * string) := pair entry.1 <$> entry.2.
Definition queryPairs (values : Values) : list (string * string) :=
  mjoin (entryPairs <$> merge_sort entry_le (map_to_list values)).

Lemma Encode_pairs values : Encode values = Join (pairText <$> queryPairs values) "&".
Proof.
  unfold Encode, queryPairs. f_equal.
  induction (merge_sort entry_le (map_to_list values)) as [|entry entries IH]; [done|].
  rewrite !fmap_cons. simpl. rewrite fmap_app, IH. f_equal.
  unfold encodePairs, entryPairs. by rewrite <-list_fmap_compose.
Qed.

Lemma addPair_entry values entry :
  entry.2 ≠ [] → values !! entry.1 = None → foldl addPair values (entryPairs entry) = <[entry.1 := entry.2]> values.
Proof.
  destruct entry as [key texts]. unfold entryPairs. simpl. intros Hne Hnone.
  induction texts as [|text texts IH] using rev_ind; [done|].
  rewrite fmap_app, foldl_app. simpl. unfold addPair at 1. simpl.
  destruct (decide (texts = [])) as [->|Ht].
  { simpl. change (foldl addPair values []) with values. by rewrite Hnone. }
  rewrite IH by done. by rewrite lookup_insert_eq, insert_insert_eq.
Qed.

Lemma addPairs values entries :
  NoDup entries.*1 → (∀ entry, entry ∈ entries → entry.2 ≠ [] ∧ values !! entry.1 = None) →
  foldl addPair values (mjoin (entryPairs <$> entries)) = list_to_map entries ∪ values.
Proof.
  revert values. induction entries as [|entry entries IH]; intros values Hnd He; [by rewrite left_id_L by apply _|].
  rewrite fmap_cons in *. apply NoDup_cons in Hnd as [Hnew Hnd]. simpl. rewrite foldl_app.
  destruct (He entry) as [Hne Hnone]; [left|]. rewrite addPair_entry by done. rewrite IH; [|done|].
  - destruct entry as [key texts]. simpl in *. rewrite <-insert_union_l, insert_union_r; [done|].
    by apply not_elem_of_list_to_map_1.
  - intros entry' Hin. destruct (He entry') as [? Hn]; [by right|]. split; [done|].
    rewrite lookup_insert_ne; [done|]. intros Heq. apply Hnew. rewrite Heq. by apply list_elem_of_fmap_2.
Qed.

(** What [Set] and [Encode] wrote is what is read. *)
Lemma ParseQuery_Encode values :
  (∀ key texts, values !! key = Some texts → texts ≠ []) → ParseQuery (Encode values) = Some values.
Proof.
  intros Hne. rewrite Encode_pairs, ParseQuery_pairs. unfold queryPairs.
  assert (merge_sort entry_le (map_to_list values) ≡ₚ map_to_list values) as Hperm by apply merge_sort_Permutation.
  rewrite addPairs.
  - rewrite right_id_L by apply _. f_equal. rewrite <-(list_to_map_to_list values) at 2.
    apply list_to_map_proper; [|done]. rewrite Hperm. apply NoDup_fst_map_to_list.
  - rewrite Hperm. apply NoDup_fst_map_to_list.
  - intros [key texts] Hin. rewrite Hperm in Hin. apply elem_of_map_to_list in Hin. split; [by eapply Hne|done].
Qed.

Lemma Join_snoc l text sep : l ≠ [] → Join (l ++ [text]) sep = Join l sep +:+ sep +:+ text.
Proof.
  induction l as [|first [|next l] IH]; intros Hl; [done..|].
  change (first +:+ (sep +:+ Join ((next :: l) ++ [text]) sep) = (first +:+ (sep +:+ Join (next :: l) sep)) +:+ sep +:+ text).
  rewrite IH by done. by rewrite !append_assoc.
Qed.

Lemma foldl_addPair_queryPairs values :
  (∀ key texts, values !! key = Some texts → texts ≠ []) → foldl addPair ∅ (queryPairs values) = values.
Proof. intros Hne. apply ParseQuery_Encode in Hne. rewrite Encode_pairs, ParseQuery_pairs in Hne. congruence. Qed.

(** A signature that follows the parameters it is about. *)
Lemma ParseQuery_signed values signature :
  (∀ key texts, values !! key = Some texts → texts ≠ []) → Encode values ≠ "" → values !! "signature" = None →
  ParseQuery (Encode values +:+ "&signature=" +:+ QueryEscape signature) =
  Some (Values_Set values "signature" signature).
Proof.
  intros Hne Hempty Hnone.
  assert (Encode values +:+ "&signature=" +:+ QueryEscape signature =
          Join (pairText <$> queryPairs values ++ [("signature", signature)]) "&") as ->.
  { rewrite fmap_app. rewrite (Join_snoc _ (pairText ("signature", signature))), <-Encode_pairs; [done|]. intros Hnil. apply Hempty. by rewrite Encode_pairs, Hnil. }
  rewrite ParseQuery_pairs, foldl_app, foldl_addPair_queryPairs by done. simpl. unfold addPair. simpl. by rewrite Hnone.
Qed.

(** ** Reading parameters one by one *)

Lemma Get_set_same values key value : Values_Get (Values_Set values key value) key = value.
Proof. unfold Values_Get, Values_Set. by rewrite lookup_insert_eq. Qed.

Lemma Get_set_other values key key' value :
  key' ≠ key → Values_Get (Values_Set values key value) key' = Values_Get values key'.
Proof. intros. unfold Values_Get, Values_Set. by rewrite lookup_insert_ne. Qed.

Lemma Get_optional_same values key value :
  Values_Get values key = "" → Values_Get (setIfNotEmpty values key value) key = value.
Proof. intros Hnone. unfold setIfNotEmpty. case_bool_decide; [by subst|apply Get_set_same]. Qed.

Lemma Get_optional_other values key key' value :
  key' ≠ key → Values_Get (setIfNotEmpty values key value) key' = Values_Get values key'.
Proof. intros. unfold setIfNotEmpty. case_bool_decide; [done|by apply Get_set_other]. Qed.

Lemma Get_empty key : Values_Get ∅ key = "".
Proof. unfold Values_Get. by rewrite lookup_empty. Qed.

(** Parameters that do not have a key, and whose keys all have values. *)
Lemma absent_empty key : (∅ : Values) !! key = None.
Proof. apply lookup_empty. Qed.

Lemma absent_optional (values : Values) key name value :
  key ≠ name → values !! name = None → setIfNotEmpty values key value !! name = None.
Proof. intros. unfold setIfNotEmpty. case_bool_decide; [done|by apply Values_Set_other]. Qed.

Definition inhabited (values : Values) : Prop := ∀ key texts, values !! key = Some texts → texts ≠ [].

Lemma inhabited_empty : inhabited ∅.
Proof. intros key texts. by rewrite lookup_empty. Qed.

Lemma inhabited_set values key value : inhabited values → inhabited (Values_Set values key value).
Proof. intros H key' texts. unfold Values_Set. rewrite lookup_insert_Some. intros [[_ <-]|[_ Hl]]; [done|by eapply H]. Qed.

Lemma inhabited_optional values key value : inhabited values → inhabited (setIfNotEmpty values key value).
Proof. unfold setIfNotEmpty. case_bool_decide; [done|apply inhabited_set]. Qed.

#[export] Hint Resolve absent_empty absent_optional inhabited_empty inhabited_set inhabited_optional : signatures.
#[export] Hint Extern 1 (_ ≠ _) => discriminate : signatures.

(** [values] without some keys: what a request says beside its authentication. *)
Definition without (keys : list string) (values : Values) : Values := foldr delete values keys.

Lemma delete_Values_Set (values : Values) key value : values !! key = None → delete key (Values_Set values key value) = values.
Proof. intros. unfold Values_Set. by rewrite delete_insert_id. Qed.

(** The members of a JSON object. *)
Fixpoint member (name : string) (members : list (string * field)) : option field :=
  match members with
  | [] => None
  | (key, value) :: members => if bool_decide (key = name) then Some value else member name members
  end.
Definition asText (value : option field) : string := match value with Some (FieldText text) => text | _ => "" end.
Definition asInteger (value : option field) : Z := match value with Some (FieldInteger z) => z | _ => 0 end.
Definition asTruth (value : option field) : bool := match value with Some (FieldTruth b) => b | _ => false end.
Definition asObject (value : option field) : option (list (string * field)) :=
  match value with Some (FieldObject members) => Some members | _ => None end.

Lemma member_app name l k :
  member name (l ++ k) = match member name l with Some value => Some value | None => member name k end.
Proof. induction l as [|[key value] l IH]; [done|]. simpl. by case_bool_decide. Qed.

Lemma member_text name key value :
  member name (textField key value) = if bool_decide (key = name) then Some (FieldText value) else None.
Proof. done. Qed.
Lemma member_optional name key value :
  member name (optionalField key value) =
  if bool_decide (key = name) then (if bool_decide (value = "") then None else Some (FieldText value)) else None.
Proof. unfold optionalField. by destruct (bool_decide (value = "")), (bool_decide (key = name)) eqn:Hkey; simpl; rewrite ?Hkey. Qed.
Lemma member_integer name key value :
  member name (optionalInteger key value) =
  if bool_decide (key = name) then (if bool_decide (value = 0) then None else Some (FieldInteger value)) else None.
Proof. unfold optionalInteger. by destruct (bool_decide (value = 0)), (bool_decide (key = name)) eqn:Hkey; simpl; rewrite ?Hkey. Qed.
Lemma member_truth name key (value : bool) :
  member name (optionalTruth key value) =
  if bool_decide (key = name) then (if value then Some (FieldTruth value) else None) else None.
Proof. unfold optionalTruth. destruct value; simpl; by case_bool_decide. Qed.

(** What is read of optional members. *)
Lemma asText_optional value : asText (if bool_decide (value = "") then None else Some (FieldText value)) = value.
Proof. by case_bool_decide. Qed.
Lemma asInteger_optional value : asInteger (if bool_decide (value = 0) then None else Some (FieldInteger value)) = value.
Proof. by case_bool_decide. Qed.
Lemma asTruth_optional (value : bool) : asTruth (if value then Some (FieldTruth value) else None) = value.
Proof. by destruct value. Qed.

(** The members of a body, read one by one. *)
Ltac read_members :=
  rewrite ?member_app, ?member_text, ?member_optional, ?member_integer, ?member_truth; cbn [member]; eval_closed;
  cbn [asText asInteger asTruth];
  repeat match goal with
    | |- context [match (if ?b then None else Some ?v) with Some x => Some x | None => None end] =>
        replace (match (if b then None else Some v) with Some x => Some x | None => None end)
          with (if b then None else Some v) by (by destruct b)
    | |- context [match (if ?b then Some ?v else None) with Some x => Some x | None => None end] =>
        replace (match (if b then Some v else None) with Some x => Some x | None => None end)
          with (if b then Some v else None) by (by destruct b)
    end;
  rewrite ?asText_optional, ?asInteger_optional, ?asTruth_optional; try done.

(** The values of parameters, read one by one. *)
Ltac read_values :=
  repeat first
    [ rewrite Get_set_same
    | rewrite Get_set_other by discriminate
    | rewrite Get_optional_other by discriminate
    | rewrite Get_optional_same by read_values
    | rewrite Get_empty ]; try done.

(** * Orders *)

(** [Parameters] are what the exchange receives of an order; [read_order] is the
    order it understands. *)
Class OrderClient (A : SpotAdapter) (Args Own : Type) `{SignedClient Args Own} : Type := {
  Acknowledgement : Type;
  Parameters : Type;
  placeMethod : NativeOrder → clientMethod Args Acknowledgement;
  parameters_of : NativeOrder → Parameters;
  carries : Parameters → HTTPRequest → Prop;
  read_order : Parameters → NativeOrder
}.

Class OrderClientLaws (A : SpotAdapter) (Args Own : Type) `{SignedClient Args Own, !OrderClient A Args Own} : Prop := {
  place_check order : method_check (placeMethod order) = validateNative order;
  place_permission order : permission_of (method_request (placeMethod order)) = PermissionTrade;
  place_operation order : operation_of (method_request (placeMethod order)) = OperationMutation;
  place_carries client order accountID call material request :
    fair (method_request (placeMethod order)) →
    sign_request client (method_request (placeMethod order)) accountID call material = Ok request →
    request_method request = "POST" ∧ carries (parameters_of order) request;
  read_parameters account request :
    read_order (parameters_of (nativeRequest account request)) = nativeRequest account request
}.

(** A JSON body, and parameters beside those of the authentication. *)
Definition body_carries `{Library} (members : list (string * field)) (request : HTTPRequest) : Prop :=
  request_body request = MarshalFields members.
Definition query_carries (authentication : list string) (values : Values) (query : string) : Prop :=
  ∃ all, ParseQuery query = Some all ∧ without authentication all = values.

(** The goals of the laws. *)
Ltac sent := repeat sign_step; cbv zeta in *; repeat sign_step; by split.
Ltac reading unfolding :=
  match goal with |- _ = ?order => destruct order end; unfolding;
  cbn -[textField optionalField optionalInteger optionalTruth app member asText asInteger asTruth asObject
        Values_Get Values_Set setIfNotEmpty] in *; f_equal; read_members; read_values.
Ltac native unfolding := intros; cbn; unfolding; repeat case_match; done.

(** ** Orders in a JSON body *)

Module OKXOrders.
Import OKXSpot.OKX.
Definition read_order (members : list (string * field)) : NativePlaceOrder :=
  MkPlaceOrder InstrumentTypeSpot (asText (member "instId" members)) (asText (member "tdMode" members))
    (asText (member "clOrdId" members)) (asText (member "side" members)) (asText (member "posSide" members))
    (asText (member "ordType" members)) (asText (member "sz" members)) (asText (member "px" members))
    (asTruth (member "reduceOnly" members)) (asText (member "tgtCcy" members)).

Lemma okx_read_fields order :
  InstrumentType order = InstrumentTypeSpot → read_order (OKXApi.PlaceOrderRequest_fields order) = order.
Proof. intros Htype. reading ltac:(unfold read_order, OKXApi.PlaceOrderRequest_fields). Qed.

Section orders.
Context `{Library} `{Decoder} (accountID : string) (unmarshal : unmarshals Clients.OKX.envelope).
#[export] Instance client : @OrderClient adapter _ _ okx_signed := {
  placeMethod := OKXApi.PlaceOrder accountID unmarshal;
  parameters_of := OKXApi.PlaceOrderRequest_fields;
  carries := body_carries;
  OrderRequests.read_order := read_order
}.
#[export] Instance laws : OrderClientLaws adapter _ _.
Proof.
  split; try done.
  - intros client order accountID' call material request _ Hs. cbn in Hs.
    unfold HMACClients.OKX.sign, HMACClients.OKX.newRequest in Hs. destruct (HMACClients.OKX.demoTrading _); sent.
  - intros [] request. apply okx_read_fields.
    native ltac:(unfold nativeOrder).
Qed.
End orders.
End OKXOrders.

Module BybitOrders.
Import BybitSpot.Bybit.
Definition read_order (members : list (string * field)) : NativePlaceOrder :=
  MkPlaceOrder (asText (member "category" members)) (asText (member "symbol" members)) (asText (member "side" members))
    (asText (member "orderType" members)) (asText (member "qty" members)) (asText (member "price" members))
    (asText (member "timeInForce" members)) (asInteger (member "positionIdx" members))
    (asText (member "orderLinkId" members)) (asTruth (member "reduceOnly" members))
    (asTruth (member "closeOnTrigger" members)) (asText (member "marketUnit" members)).

Lemma bybit_read_fields order : read_order (BybitApi.PlaceOrderRequest_fields order) = order.
Proof. reading ltac:(unfold read_order, BybitApi.PlaceOrderRequest_fields). Qed.

Section orders.
Context `{Library} `{Decoder} (now : Z) (accountID : string) (unmarshal : unmarshals Clients.Bybit.envelope).
#[export] Instance client : @OrderClient adapter _ _ bybit_signed := {
  placeMethod := BybitApi.PlaceOrder now accountID unmarshal;
  parameters_of := BybitApi.PlaceOrderRequest_fields;
  carries := body_carries;
  OrderRequests.read_order := read_order
}.
#[export] Instance laws : OrderClientLaws adapter _ _.
Proof.
  split; try done.
  - intros client order accountID' call material request _ Hs. cbn in Hs.
    unfold HMACClients.Bybit.sign, HMACClients.Bybit.newRequest in Hs. sent.
  - intros account request. apply bybit_read_fields.
Qed.
End orders.
End BybitOrders.

Module BitgetOrders.
Import BitgetSpot.Bitget.
Definition read_order (members : list (string * field)) : NativePlaceOrder :=
  MkPlaceOrder (asText (member "category" members)) (asText (member "symbol" members)) (asText (member "qty" members))
    (asText (member "price" members)) (asText (member "side" members)) (asText (member "orderType" members))
    (asText (member "timeInForce" members)) (asText (member "posSide" members)) (asText (member "clientOid" members))
    (asText (member "reduceOnly" members)) (asText (member "stpMode" members)).

Lemma bitget_read_fields order : read_order (BitgetApi.PlaceOrderRequest_fields order) = order.
Proof. reading ltac:(unfold read_order, BitgetApi.PlaceOrderRequest_fields). Qed.

Section orders.
Context `{Library} `{Decoder} (now : Z) (accountID : string) (unmarshal : unmarshals Clients.Bitget.envelope).
#[export] Instance client : @OrderClient adapter _ _ bitget_signed := {
  placeMethod := BitgetApi.PlaceOrder now accountID unmarshal;
  parameters_of := BitgetApi.PlaceOrderRequest_fields;
  carries := body_carries;
  OrderRequests.read_order := read_order
}.
#[export] Instance laws : OrderClientLaws adapter _ _.
Proof.
  split; try done.
  - intros client order accountID' call material request _ Hs. cbn in Hs.
    unfold HMACClients.Bitget.sign, HMACClients.Bitget.newRequest in Hs. destruct (HMACClients.Bitget.demoTrading _); sent.
  - intros account request. apply bitget_read_fields.
Qed.
End orders.
End BitgetOrders.

Module KuCoinOrders.
Import KuCoinSpot.KuCoin.
Definition read_order (members : list (string * field)) : NativePlaceOrder :=
  MkPlaceOrder (asText (member "clientOid" members)) (asText (member "symbol" members)) (asText (member "type" members))
    (asText (member "side" members)) (asText (member "price" members)) (asText (member "size" members))
    (asText (member "funds" members)) (asText (member "timeInForce" members)) (asTruth (member "postOnly" members))
    (asInteger (member "cancelAfter" members)) (asText (member "remark" members)) (asText (member "tags" members)).

Lemma kucoin_read_fields order : read_order (KuCoinApi.PlaceOrderRequest_fields order) = order.
Proof. reading ltac:(unfold read_order, KuCoinApi.PlaceOrderRequest_fields). Qed.

Section orders.
Context `{Library} `{Decoder} (now : Z) (accountID : string) (unmarshal : unmarshals Clients.KuCoin.envelope).
#[export] Instance client : @OrderClient adapter _ _ kucoin_signed := {
  placeMethod := KuCoinApi.PlaceOrder now accountID unmarshal;
  parameters_of := KuCoinApi.PlaceOrderRequest_fields;
  carries := body_carries;
  OrderRequests.read_order := read_order
}.
#[export] Instance laws : OrderClientLaws adapter _ _.
Proof.
  split; try done.
  - intros client order accountID' call material request _ Hs. cbn in Hs.
    unfold HMACClients.KuCoin.sign, HMACClients.KuCoin.signRequest, HMACClients.KuCoin.newRequest in Hs. sent.
  - intros account request. apply kucoin_read_fields.
Qed.
End orders.
End KuCoinOrders.

Module GateIOOrders.
Import GateIOSpot.GateIO.
Definition read_order (members : list (string * field)) : NativePlaceOrder :=
  MkPlaceOrder (asText (member "text" members)) (asText (member "currency_pair" members)) (asText (member "type" members))
    (asText (member "account" members)) (asText (member "side" members)) (asText (member "amount" members))
    (asText (member "price" members)) (asText (member "time_in_force" members)).

Lemma gateio_read_fields order : read_order (GateIOApi.PlaceOrderRequest_fields order) = order.
Proof. reading ltac:(unfold read_order, GateIOApi.PlaceOrderRequest_fields). Qed.

Section orders.
Context `{Library} `{Decoder} (parseSeconds : string → option Z) (now : Z) (accountID : string)
  (unmarshal : unmarshals Clients.GateIO.envelope).
#[export] Instance client : @OrderClient adapter _ _ gateio_signed := {
  placeMethod := GateIOApi.PlaceOrder parseSeconds now accountID unmarshal;
  parameters_of := GateIOApi.PlaceOrderRequest_fields;
  carries := body_carries;
  OrderRequests.read_order := read_order
}.
#[export] Instance laws : OrderClientLaws adapter _ _.
Proof.
  split; try done.
  - intros client order accountID' call material request _ Hs. cbn in Hs.
    unfold HMACClients.GateIO.sign, HMACClients.GateIO.newRequest in Hs. sent.
  - intros account request. apply gateio_read_fields.
Qed.
End orders.
End GateIOOrders.

Module HTXOrders.
Import HTXSpot.HTX.
Definition hyphen : ascii := byte 45.

Definition read_order (members : list (string * field)) : NativePlaceOrder :=
  let '(side, kind) := Cut hyphen (asText (member "type" members)) in
  MkPlaceOrder (asText (member "account-id" members)) (asText (member "client-order-id" members))
    (asText (member "symbol" members)) side (default "" kind) (asText (member "amount" members))
    (asText (member "price" members)) (bool_decide (asInteger (member "self-match-prevent" members) = 1)).

Lemma orderType_cut order :
  Side order = SideBuy ∨ Side order = SideSell → Cut hyphen (orderType order) = (Side order, Some (Kind order)).
Proof. intros Hside. apply (Cut_some hyphen (Side order)). by destruct Hside as [-> | ->]. Qed.

Lemma htx_read_fields order :
  Side order = SideBuy ∨ Side order = SideSell → read_order (HTXApi.PlaceOrderRequest_fields order) = order.
Proof.
  intros Hside. unfold read_order, HTXApi.PlaceOrderRequest_fields.
  assert (asText (member "type" (HTXApi.PlaceOrderRequest_fields order)) = orderType order) as Htype
    by (unfold HTXApi.PlaceOrderRequest_fields; read_members).
  fold (HTXApi.PlaceOrderRequest_fields order). rewrite Htype, orderType_cut by done. clear.
  destruct order as [account id symbol side kind amount price prevent]. unfold HTXApi.PlaceOrderRequest_fields.
  cbn -[textField optionalField optionalInteger app member asText asInteger]. f_equal; read_members. by destruct prevent.
Qed.

Section orders.
Context `{Library} `{Decoder} `{JSON} (now : Z) (own : HMACClients.HTX.htxSettings) (accountID : string).
Context (unmarshal : unmarshals Clients.Htx.envelope) (data : string → result error string).
#[export] Instance client : @OrderClient adapter _ _ htx_signed := {
  placeMethod := HTXApi.PlaceOrder now own accountID unmarshal data;
  parameters_of := HTXApi.PlaceOrderRequest_fields;
  carries := body_carries;
  OrderRequests.read_order := read_order
}.
#[export] Instance laws : OrderClientLaws adapter _ _.
Proof.
  split; try done.
  - intros client order accountID' call material request _ Hs. cbn in Hs.
    unfold HMACClients.HTX.sign, HMACClients.HTX.newRequestWithBody in Hs. sent.
  - intros account request. apply htx_read_fields. cbn. unfold nativeOrder, toHTXSide.
    repeat case_match; simpl; auto.
Qed.
End orders.
End HTXOrders.

Module CoinbaseOrders.
Import CoinbaseSpot.Coinbase.
Definition read_market (members : list (string * field)) : MarketIOCConfiguration :=
  MkMarketIOC (asText (member "quote_size" members)) (asText (member "base_size" members)).
Definition read_gtc (members : list (string * field)) : LimitGTCConfiguration :=
  MkLimitGTC (asText (member "base_size" members)) (asText (member "limit_price" members))
    (asTruth (member "post_only" members)).
Definition read_limit (members : list (string * field)) : LimitConfiguration :=
  MkLimit (asText (member "base_size" members)) (asText (member "limit_price" members)).
Definition read_configuration (members : list (string * field)) : OrderConfiguration :=
  MkConfiguration (read_market <$> asObject (member "market_market_ioc" members))
    (read_gtc <$> asObject (member "limit_limit_gtc" members)) (read_limit <$> asObject (member "sor_limit_ioc" members))
    (read_limit <$> asObject (member "limit_limit_fok" members)).
Definition read_order (members : list (string * field)) : NativePlaceOrder :=
  MkPlaceOrder (asText (member "client_order_id" members)) (asText (member "product_id" members))
    (asText (member "side" members))
    (read_configuration (default [] (asObject (member "order_configuration" members)))).

Lemma member_object name key members :
  member name (CoinbaseApi.optionalObject key members) =
  if bool_decide (key = name) then FieldObject <$> members else None.
Proof. destruct members; simpl; by case_bool_decide. Qed.

Lemma read_market_fields market : read_market (CoinbaseApi.MarketIOC_fields market) = market.
Proof. reading ltac:(unfold read_market, CoinbaseApi.MarketIOC_fields). Qed.
Lemma read_gtc_fields limit : read_gtc (CoinbaseApi.LimitGTC_fields limit) = limit.
Proof. reading ltac:(unfold read_gtc, CoinbaseApi.LimitGTC_fields). Qed.
Lemma read_limit_fields limit : read_limit (CoinbaseApi.Limit_fields limit) = limit.
Proof. reading ltac:(unfold read_limit, CoinbaseApi.Limit_fields). Qed.

Lemma read_object {A} (read : list (string * field) → A) (write : A → list (string * field)) value :
  (∀ a, read (write a) = a) → read <$> asObject (FieldObject <$> (write <$> value)) = value.
Proof. intros H. destruct value; simpl; by rewrite ?H. Qed.

Lemma read_configuration_fields configuration :
  read_configuration (CoinbaseApi.OrderConfiguration_fields configuration) = configuration.
Proof.
  destruct configuration as [market gtc ioc fok]. unfold read_configuration, CoinbaseApi.OrderConfiguration_fields.
  rewrite !member_app, !member_object. eval_closed. cbn [MarketMarketIOC LimitLimitGTC SORLimitIOC LimitLimitFOK].
  repeat match goal with
    | |- context [match (FieldObject <$> ?o) with Some x => Some x | None => None end] =>
        replace (match (FieldObject <$> o) with Some x => Some x | None => None end) with (FieldObject <$> o) by (by destruct o)
    end.
  f_equal; apply read_object; auto using read_market_fields, read_gtc_fields, read_limit_fields.
Qed.

Lemma coinbase_read_fields order : read_order (CoinbaseApi.PlaceOrderRequest_fields order) = order.
Proof.
  destruct order. unfold read_order, CoinbaseApi.PlaceOrderRequest_fields. simpl. f_equal. apply read_configuration_fields.
Qed.

Section orders.
Context `{Library} `{Decoder} (accountID : string) (unmarshal : unmarshals Clients.Coinbase.envelope).
Context (orderEnvelope : string → result error Clients.Coinbase.orderEnvelope).
#[export] Instance client : @OrderClient adapter _ _ coinbase_signed := {
  placeMethod := CoinbaseApi.PlaceOrder accountID unmarshal orderEnvelope;
  parameters_of := CoinbaseApi.PlaceOrderRequest_fields;
  carries := body_carries;
  OrderRequests.read_order := read_order
}.
#[export] Instance laws : OrderClientLaws adapter _ _.
Proof.
  split; try done.
  - intros client order accountID' call material request _ Hs. cbn in Hs.
    unfold TokenClients.Coinbase.sign, TokenClients.Coinbase.newRequest in Hs. sent.
  - intros account request. apply coinbase_read_fields.
Qed.
End orders.
End CoinbaseOrders.

(** ** Orders in a query or a form *)

Lemma absent_setInt64 (values : Values) key name value :
  key ≠ name → values !! name = None → BinanceApi.setInt64 values key value !! name = None.
Proof. destruct value; simpl; [apply Values_Set_other|done]. Qed.
Lemma inhabited_setInt64 values key value : inhabited values → inhabited (BinanceApi.setInt64 values key value).
Proof. destruct value; simpl; [apply inhabited_set|done]. Qed.
Lemma absent_setPositiveInt (values : Values) key name value :
  key ≠ name → values !! name = None → setPositiveInt values key value !! name = None.
Proof. unfold setPositiveInt. case_bool_decide; [apply Values_Set_other|done]. Qed.
Lemma inhabited_setPositiveInt values key value : inhabited values → inhabited (setPositiveInt values key value).
Proof. unfold setPositiveInt. case_bool_decide; [apply inhabited_set|done]. Qed.
Lemma absent_setBool (values : Values) key name value :
  key ≠ name → values !! name = None → KrakenApi.setBool values key value !! name = None.
Proof. destruct value; simpl; [apply Values_Set_other|done]. Qed.
Lemma inhabited_setBool values key value : inhabited values → inhabited (KrakenApi.setBool values key value).
Proof. destruct value; simpl; [apply inhabited_set|done]. Qed.

(** Parameters that a client sets one after the other. *)
Ltac absent :=
  repeat first
    [ apply absent_empty
    | apply Values_Set_other; [discriminate|] | apply absent_optional; [discriminate|]
    | apply absent_setInt64; [discriminate|] | apply absent_setPositiveInt; [discriminate|]
    | apply absent_setBool; [discriminate|] | case_match ].
Ltac inhabit :=
  repeat first
    [ apply inhabited_empty | apply inhabited_set | apply inhabited_optional
    | apply inhabited_setInt64 | apply inhabited_setPositiveInt | apply inhabited_setBool | case_match ].

Section query.
Context (values : Values) (Hinhabited : inhabited values).

Lemma carries_form key text :
  values !! key = None → query_carries [key] values (Encode (Values_Set values key text)).
Proof using Hinhabited.
  intros Hkey. eexists. split; [by apply ParseQuery_Encode, inhabited_set|]. simpl. by apply delete_Values_Set.
Qed.

Context (first second third : string) (Hfirst : values !! first = None) (Hsecond : values !! second = None)
  (Hthird : values !! third = None) (H12 : first ≠ second) (H13 : first ≠ third) (H23 : second ≠ third).

Lemma without_three text1 text2 text3 :
  without [first; second; third]
    (Values_Set (Values_Set (Values_Set values first text1) second text2) third text3) = values.
Proof using All.
  simpl. rewrite !delete_Values_Set; auto with signatures.
Qed.

Lemma carries_query text1 text2 text3 :
  query_carries [first; second; third] values
    (Encode (Values_Set (Values_Set (Values_Set values first text1) second text2) third text3)).
Proof using All.
  eexists. split; [by apply ParseQuery_Encode; repeat apply inhabited_set|apply without_three].
Qed.
End query.

Lemma carries_signed values first second text1 text2 signature :
  inhabited values → values !! first = None → values !! second = None → values !! "signature" = None →
  first ≠ second → first ≠ "signature" → second ≠ "signature" →
  query_carries [first; second; "signature"] values
    (Encode (Values_Set (Values_Set values first text1) second text2) +:+ "&signature=" +:+ QueryEscape signature).
Proof.
  intros Hi H1 H2 H3 H12 H13 H23. eexists. split; [|by apply without_three].
  apply ParseQuery_signed; [by repeat apply inhabited_set|eapply Encode_nonempty, Values_Set_same|].
  auto with signatures.
Qed.

Module MEXCOrders.
Import MEXCSpot.MEXC.
Definition read_order (values : Values) : NativePlaceOrder :=
  MkPlaceOrder (Values_Get values "newClientOrderId") (Values_Get values "symbol") (Values_Get values "side")
    (Values_Get values "type") (Values_Get values "quantity") (Values_Get values "quoteOrderQty")
    (Values_Get values "price").

Lemma mexc_read_values order : read_order (MEXCApi.PlaceOrderRequest_values order) = order.
Proof. reading ltac:(unfold read_order, MEXCApi.PlaceOrderRequest_values). Qed.

Section orders.
Context `{Library} `{Decoder} `{JSON} (own : HMACClients.MEXC.mexcSettings) (accountID : string).
Context (unmarshal : unmarshals Clients.Mexc.envelope).
#[export] Instance client : @OrderClient adapter _ _ mexc_signed := {
  placeMethod := MEXCApi.PlaceOrder own accountID unmarshal;
  parameters_of := MEXCApi.PlaceOrderRequest_values;
  carries values request := query_carries ["recvWindow"; "timestamp"; "signature"] values (request_query request);
  OrderRequests.read_order := read_order
}.
#[export] Instance laws : OrderClientLaws adapter _ _.
Proof.
  split; try done.
  - intros client order accountID' call material request _ Hs. cbn in Hs.
    unfold HMACClients.MEXC.sign, HMACClients.MEXC.newRequest in Hs. repeat sign_step. split; [done|].
    cbn -[MEXCApi.PlaceOrderRequest_values]. apply carries_query; try discriminate; unfold MEXCApi.PlaceOrderRequest_values; [inhabit|absent..].
  - intros account request. apply mexc_read_values.
Qed.
End orders.
End MEXCOrders.

Module BinanceOrders.
Import BinanceSpot.Binance.

(** The adapter leaves the numbers unset. *)
Definition read_order (values : Values) : NewOrderRequest :=
  MkNewOrder (Values_Get values "symbol") (Values_Get values "side") (Values_Get values "type")
    (Values_Get values "timeInForce") (Values_Get values "quantity") (Values_Get values "quoteOrderQty")
    (Values_Get values "price") (Values_Get values "newClientOrderId") None None (Values_Get values "stopPrice") None
    (Values_Get values "icebergQty") (Values_Get values "newOrderRespType")
    (Values_Get values "selfTradePreventionMode") (Values_Get values "pegPriceType") None
    (Values_Get values "pegOffsetType").

Lemma binance_read_values order :
  StrategyID order = None → StrategyType order = None → TrailingDelta order = None → PegOffsetValue order = None →
  read_order (BinanceApi.NewOrderRequest_values order) = order.
Proof.
  destruct order. simpl. intros -> -> -> ->. unfold read_order, BinanceApi.NewOrderRequest_values.
  cbn -[Values_Get Values_Set setIfNotEmpty]. f_equal; read_values.
Qed.

Section orders.
Context `{Library} `{Decoder} (now : Z) (specs : list EndpointLimits.Binance.limitSpec).
Context (headers : Response → list (string * list string)).
Context (accountID : string) (unmarshal : unmarshals Clients.Binance.payload).
#[export] Instance client : @OrderClient adapter _ _ binance_signed := {
  placeMethod := BinanceApi.NewOrder now specs headers accountID unmarshal;
  parameters_of := BinanceApi.NewOrderRequest_values;
  carries values request := query_carries ["recvWindow"; "timestamp"; "signature"] values (request_query request);
  OrderRequests.read_order := read_order
}.
#[export] Instance laws : OrderClientLaws adapter _ _.
Proof.
  split; try done.
  - intros client order accountID' call material request Hfair Hs. cbn in Hfair, Hs.
    unfold HMACClients.Binance.sign, HMACClients.Binance.SignHMACSHA256, HMACClients.Binance.newRequest in Hs.
    repeat sign_step. split; [done|]. cbn -[BinanceApi.NewOrderRequest_values].
    rewrite (bool_decide_eq_false_2 (EncodeHex _ = "")) by apply Hfair.
    rewrite (bool_decide_eq_false_2 (Encode _ = "")) by (eapply Encode_nonempty, Values_Set_same).
    rewrite append_assoc. apply carries_signed; try discriminate; unfold BinanceApi.NewOrderRequest_values; [inhabit|absent..].
  - intros account request. cbn. apply binance_read_values; native ltac:(unfold nativeOrder).
Qed.
End orders.
End BinanceOrders.

Module KorbitOrders.
Import KorbitSpot.Korbit.

(** The adapter leaves the numbers and the price protection unset. *)
Definition read_order (values : Values) : NativePlaceOrder :=
  MkPlaceOrder (Values_Get values "symbol") 0 (Values_Get values "side") (Values_Get values "price")
    (Values_Get values "qty") (Values_Get values "amt") (Values_Get values "orderType") 0
    (Values_Get values "timeInForce") (Values_Get values "clientOrderId") false 0.

Lemma korbit_read_values order :
  AccountSeq order = 0 → BestNth order = 0 → PriceProtection order = false → PriceProtectionPercent order = 0 →
  read_order (KorbitApi.PlaceOrderRequest_values order) = order.
Proof.
  destruct order. simpl. intros -> -> -> ->. unfold read_order, KorbitApi.PlaceOrderRequest_values, KorbitApi.setAccountSeq.
  unfold setPositiveInt. cbn -[Values_Get Values_Set setIfNotEmpty]. eval_closed. cbn -[Values_Get Values_Set setIfNotEmpty].
  f_equal; read_values.
Qed.

Section orders.
Context `{Library} `{Decoder} (now : Z) (accountID : string) (unmarshal : unmarshals Clients.Korbit.envelope).
#[export] Instance client : @OrderClient adapter _ _ korbit_signed := {
  placeMethod := KorbitApi.PlaceOrder now accountID unmarshal;
  parameters_of := KorbitApi.PlaceOrderRequest_values;
  carries values request := query_carries ["timestamp"; "recvWindow"; "signature"] values (request_body request);
  OrderRequests.read_order := read_order
}.
#[export] Instance laws : OrderClientLaws adapter _ _.
Proof.
  split; try done.
  - intros client order accountID' call material request Hfair Hs. cbn in Hs.
    unfold TokenClients.Korbit.sign, TokenClients.Korbit.newRequest in Hs. repeat sign_step. split; [done|].
    cbn -[KorbitApi.PlaceOrderRequest_values]. apply carries_signed; try discriminate;
      unfold KorbitApi.PlaceOrderRequest_values, KorbitApi.setAccountSeq; [inhabit|absent..].
  - intros account request. cbn. apply korbit_read_values; native ltac:(unfold nativeOrder).
Qed.
End orders.
End KorbitOrders.

Module KrakenOrders.
Import KrakenSpot.Kraken.

(** The flags are names with commas between them. *)
Definition comma : ascii := byte 44.
Definition read_order (values : Values) : NativePlaceOrder :=
  let flags := Split comma (Values_Get values "oflags") in
  MkPlaceOrder (Values_Get values "pair") (Values_Get values "type") (Values_Get values "ordertype")
    (Values_Get values "timeinforce") (Values_Get values "volume") (Values_Get values "price")
    (Values_Get values "cl_ord_id") (bool_decide ("post" ∈ flags)) (bool_decide ("viqc" ∈ flags))
    (bool_decide (Values_Get values "validate" = "true")).

Lemma kraken_read_values order : read_order (KrakenApi.PlaceOrderRequest_values order) = order.
Proof.
  destruct order as [? ? ? ? ? ? ? post viqc validate]. unfold read_order, KrakenApi.PlaceOrderRequest_values, KrakenApi.setBool.
  destruct post, viqc, validate; cbn -[Values_Get Values_Set setIfNotEmpty Split]; eval_closed;
    cbn -[Values_Get Values_Set setIfNotEmpty Split]; f_equal; read_values.
Qed.

Section orders.
Context `{Library} `{Decoder} `{JSON} (number : string → result error string) (truncated : string → result error Z).
Context (accountID : string) (unmarshal : unmarshals Clients.Kraken.envelope).
#[export] Instance client : @OrderClient adapter _ _ kraken_signed := {
  placeMethod := KrakenApi.PlaceOrder accountID unmarshal;
  parameters_of := KrakenApi.PlaceOrderRequest_values;
  carries values request := query_carries ["nonce"] values (request_body request);
  OrderRequests.read_order := read_order
}.
#[export] Instance laws : OrderClientLaws adapter _ _.
Proof.
  split; try done.
  - intros client order accountID' call material request Hfair Hs. cbn in Hs.
    unfold TokenClients.Kraken.sign, TokenClients.Kraken.newRequest in Hs. repeat sign_step. split; [done|].
    cbn -[KrakenApi.PlaceOrderRequest_values]. apply carries_form; unfold KrakenApi.PlaceOrderRequest_values; [inhabit|absent].
  - intros account request. apply kraken_read_values.
Qed.
End orders.
End KrakenOrders.

(** ** Orders in a list of pairs *)

(** The pairs of Upbit and Bithumb, and the parameters of Crypto.com, as members. *)
Definition text_members : parameters → list (string * field) := fmap (λ pair, (pair.1, FieldText pair.2)).

Lemma text_members_add values key value :
  text_members (addText values key value) = text_members values ++ optionalField key value.
Proof.
  unfold addText, optionalField. case_bool_decide; [by rewrite app_nil_r|]. unfold text_members. by rewrite fmap_app.
Qed.

Definition as_field (value : parameter) : field :=
  match value with
  | TextParameter text => FieldText text
  | TextsParameter texts => FieldTexts texts
  | BoolParameter b => FieldTruth b
  | _ => FieldObject []
  end.
Definition parameter_members : list (string * parameter) → list (string * field) := fmap (λ pair, (pair.1, as_field pair.2)).

Lemma parameter_members_set params key value :
  parameter_members (CryptoComApi.setStringParam params key value) = parameter_members params ++ optionalField key value.
Proof.
  unfold CryptoComApi.setStringParam, optionalField. case_bool_decide; [by rewrite app_nil_r|].
  unfold parameter_members. by rewrite fmap_app.
Qed.

Module UpbitOrders.
Import UpbitSpot.Upbit.
Definition read_order (params : parameters) : NativePlaceOrder :=
  let members := text_members params in
  MkPlaceOrder (asText (member "market" members)) (asText (member "side" members)) (asText (member "volume" members))
    (asText (member "price" members)) (asText (member "ord_type" members)) (asText (member "time_in_force" members))
    (asText (member "identifier" members)) (asText (member "smp_type" members)).

Lemma upbit_read_params order : read_order (UpbitApi.PlaceOrderRequest_parameters order) = order.
Proof.
  destruct order. unfold read_order, UpbitApi.PlaceOrderRequest_parameters. cbv zeta. rewrite !text_members_add.
  cbn -[optionalField app member asText]. f_equal; read_members.
Qed.

Section orders.
Context `{Library} `{Decoder} (now : Z) (jsonText : string → string) (accountID : string).
Context (unmarshal : unmarshals Clients.Upbit.envelope).
#[export] Instance client : @OrderClient adapter _ _ upbit_signed := {
  placeMethod := UpbitApi.PlaceOrder now jsonText accountID unmarshal;
  parameters_of := UpbitApi.PlaceOrderRequest_parameters;
  carries params request := request_body request = encodeOrderBody jsonText params;
  OrderRequests.read_order := read_order
}.
#[export] Instance laws : OrderClientLaws adapter _ _.
Proof.
  split; try done.
  - intros client order accountID' call material request _ Hs. cbn in Hs.
    unfold TokenClients.Upbit.sign, TokenClients.Upbit.newRequest in Hs. sent.
  - intros account request. apply upbit_read_params.
Qed.
End orders.
End UpbitOrders.

Module BithumbOrders.
Import BithumbSpot.Bithumb.
Definition read_order (params : parameters) : NativePlaceOrder :=
  let members := text_members params in
  MkPlaceOrder (asText (member "market" members)) (asText (member "side" members)) (asText (member "volume" members))
    (asText (member "price" members)) (asText (member "order_type" members))
    (asText (member "time_in_force" members)) (asText (member "client_order_id" members)).

Lemma bithumb_read_params order : read_order (BithumbApi.PlaceOrderRequest_parameters order) = order.
Proof.
  destruct order. unfold read_order, BithumbApi.PlaceOrderRequest_parameters. cbv zeta. rewrite !text_members_add.
  cbn -[optionalField app member asText]. f_equal; read_members.
Qed.

Section orders.
Context `{Library} `{Decoder} (jsonText : string → string) (accountID : string).
Context (unmarshal : unmarshals Clients.Bithumb.envelope).
#[export] Instance client : @OrderClient adapter _ _ bithumb_signed := {
  placeMethod := BithumbApi.PlaceOrder jsonText accountID unmarshal;
  parameters_of := BithumbApi.PlaceOrderRequest_parameters;
  carries params request := request_body request = encodeOrderBody jsonText params;
  OrderRequests.read_order := read_order
}.
#[export] Instance laws : OrderClientLaws adapter _ _.
Proof.
  split; try done.
  - intros client order accountID' call material request _ Hs. cbn in Hs.
    unfold TokenClients.Bithumb.sign, TokenClients.Bithumb.newRequest in Hs. sent.
  - intros account request. apply bithumb_read_params.
Qed.
End orders.
End BithumbOrders.

Module CryptoComOrders.
Import CryptoComSpot.CryptoCom.
Definition read_order (params : list (string * parameter)) : NativePlaceOrder :=
  let members := parameter_members params in
  MkPlaceOrder (asText (member "instrument_name" members)) (asText (member "side" members))
    (asText (member "type" members)) (asText (member "price" members)) (asText (member "quantity" members))
    (asText (member "notional" members)) (asText (member "client_oid" members))
    (asText (member "time_in_force" members))
    (match member "exec_inst" members with Some (FieldTexts texts) => bool_decide ("POST_ONLY" ∈ texts) | _ => false end).

Lemma parameter_members_app l k : parameter_members (l ++ k) = parameter_members l ++ parameter_members k.
Proof. apply fmap_app. Qed.

Lemma cryptocom_read_params order : read_order (CryptoComApi.PlaceOrderRequest_params order) = order.
Proof.
  destruct order as [? ? ? ? ? ? ? ? post]. unfold read_order, CryptoComApi.PlaceOrderRequest_params. cbv zeta.
  destruct post; cbn [PostOnly]; rewrite ?parameter_members_app, !parameter_members_set;
    cbn -[optionalField app member asText]; f_equal; read_members.
Qed.

Section orders.
Context `{Library} `{Decoder} `{JSON} (marshal : TokenClients.CryptoCom.privateRequestEnvelope → result error string).
Context (requestID : Z) (accountID : string) (unmarshal : unmarshals Clients.CryptoCom.envelope).
#[export] Instance client : @OrderClient adapter _ _ cryptoCom_signed := {
  placeMethod := CryptoComApi.PlaceOrder marshal requestID accountID unmarshal;
  parameters_of := CryptoComApi.PlaceOrderRequest_params;
  carries params request := ∃ envelope, marshal envelope = Ok (request_body request) ∧
    TokenClients.CryptoCom.Method envelope = CryptoComApi.methodCreateOrder ∧
    TokenClients.CryptoCom.Params envelope = params;
  OrderRequests.read_order := read_order
}.
#[export] Instance laws : OrderClientLaws adapter _ _.
Proof.
  split; try done.
  - intros client order accountID' call material request _ Hs. cbn in Hs.
    unfold TokenClients.CryptoCom.sign, TokenClients.CryptoCom.newPrivateRequest in Hs. repeat sign_step.
    destruct (TokenClients.CryptoCom.Sign _ _ _ _ _ _) as [signature|]; [|done].
    destruct (marshal _) as [body|] eqn:Hbody; [|done]. repeat sign_step. split; [done|]. by eexists.
  - intros account request. apply cryptocom_read_params.
Qed.
End orders.
End CryptoComOrders.

Module CoinoneOrders.
Import CoinoneSpot.Coinone.

(** The fields of an order with their values, and the JSON text of each. *)
Definition written (order : NativePlaceOrder) : list (string * field) :=
  optionalField "side" (Side order) ++ optionalField "quote_currency" (QuoteCurrency order) ++
  optionalField "target_currency" (TargetCurrency order) ++ optionalField "type" (Type_ order) ++
  optionalField "price" (Price order) ++ optionalField "qty" (Quantity order) ++ optionalField "amount" (Amount order) ++
  optionalField "limit_price" (LimitPrice order) ++ optionalField "trigger_price" (TriggerPrice order) ++
  (if bool_decide (Type_ order = OrderTypeLimit) then [("post_only", FieldTruth (PostOnly order))] else []) ++
  optionalField "user_order_id" (UserOrderID order).

Definition payload_of (jsonText : string → string) : list (string * field) → list TokenClients.Coinone.payloadField :=
  fmap (λ pair, TokenClients.Coinone.MkPayloadField pair.1
    (match pair.2 with FieldText text => jsonText text | FieldTruth true => "true" | _ => "false" end)).

Lemma addString_payload jsonText members key value :
  CoinoneApi.addString jsonText (payload_of jsonText members) key value =
  payload_of jsonText (members ++ optionalField key value).
Proof.
  unfold CoinoneApi.addString, optionalField. case_bool_decide; [by rewrite app_nil_r|].
  unfold payload_of. by rewrite fmap_app.
Qed.

Lemma addBool_payload jsonText members key value :
  CoinoneApi.addBool (payload_of jsonText members) key value = payload_of jsonText (members ++ [(key, FieldTruth value)]).
Proof. unfold CoinoneApi.addBool, payload_of. rewrite fmap_app. by destruct value. Qed.

Lemma fields_written jsonText order :
  CoinoneApi.PlaceOrderRequest_fields jsonText order = payload_of jsonText (written order).
Proof.
  unfold CoinoneApi.PlaceOrderRequest_fields, written. cbv zeta.
  change (CoinoneApi.addString jsonText [] "side" (Side order))
    with (CoinoneApi.addString jsonText (payload_of jsonText []) "side" (Side order)).
  rewrite !addString_payload. case_bool_decide; rewrite ?addBool_payload, ?addString_payload, <-!app_assoc; done.
Qed.

(** An order that is not a limit order has no flag to be taken for one. *)
Definition read_order (members : list (string * field)) : NativePlaceOrder :=
  MkPlaceOrder (asText (member "side" members)) (asText (member "quote_currency" members))
    (asText (member "target_currency" members)) (asText (member "type" members)) (asText (member "price" members))
    (asText (member "qty" members)) (asText (member "amount" members)) (asText (member "limit_price" members))
    (asText (member "trigger_price" members)) (asTruth (member "post_only" members))
    (asText (member "user_order_id" members)).

Lemma read_written order :
  (Type_ order ≠ OrderTypeLimit → PostOnly order = false) → read_order (written order) = order.
Proof.
  intros Hpost. destruct order. cbn in Hpost. unfold read_order, written. cbn -[optionalField app member asText asTruth].
  case_bool_decide; [|rewrite Hpost by done]; f_equal; read_members.
Qed.

Section orders.
Context `{Library} `{Decoder} (jsonText : string → string) (now : Z) (accountID : string).
Context (unmarshal : unmarshals Clients.Coinone.envelope).
#[export] Instance client : @OrderClient adapter _ _ coinone_signed := {
  placeMethod := CoinoneApi.PlaceOrder jsonText now accountID unmarshal;
  parameters_of := written;
  carries members request := ∃ key nonce,
    TokenClients.Coinone.encodePrivatePayload jsonText key nonce (payload_of jsonText members) = Ok (request_body request);
  OrderRequests.read_order := read_order
}.
#[export] Instance laws : OrderClientLaws adapter _ _.
Proof.
  split; try done.
  - intros client order accountID' call material request _ Hs. cbn in Hs. rewrite fields_written in Hs.
    unfold TokenClients.Coinone.sign, TokenClients.Coinone.newRequest in Hs.
    apply result_bind_Ok in Hs as (nonce & _ & Hs). apply result_bind_Ok in Hs as (body & Hbody & Hs).
    apply result_bind_Ok in Hs as (signed & _ & Hs). injection Hs as <-. split; [done|]. by eexists _, _.
  - intros account request. apply read_written. cbn. unfold nativeOrder. by repeat case_match.
Qed.
End orders.
End CoinoneOrders.
