(* ===== verification/OrderExchanges.v ===== *)
(** * The way of an order, from the unified contract to the exchange

    The fifteen exchanges with a unified Spot adapter, each with the REST client
    that its adapter uses: [place_order] is the client's method for the native
    order that the adapter made, over the client's private call.  The theorem
    joins the layers below: adapter, parameters, signature, pipeline. *)

From S2P Require Import Prelude GoStrings Decimals Errors Options Credential RateLimit Executor Session Unified SpotAdapter SpotExchanges.
From S2P Require Import Clients ClientErrors EndpointLimits RestClient HMACClients TokenClients RestSafety RestExchanges Endpoints MEXCEndpoints OrderRequests.

(** The REST client of an exchange. *)
Definition rest_of (e : SpotExchange) : RestExchange :=
  match e with
  | SpotBinance => RestBinance | SpotOKX => RestOKX | SpotBybit => RestBybit | SpotBitget => RestBitget
  | SpotMEXC => RestMEXC | SpotKuCoin => RestKuCoin | SpotGateIO => RestGateIO | SpotHTX => RestHTX
  | SpotCoinbase => RestCoinbase | SpotKraken => RestKraken | SpotCryptoCom => RestCryptoCom
  | SpotKorbit => RestKorbit | SpotUpbit => RestUpbit | SpotBithumb => RestBithumb | SpotCoinone => RestCoinone
  end.

(** What the methods use of [encoding/json] and [time] beside [Decoder], and the
    headers of an answer. *)
Class OrderCoding : Type := {
  unmarshalOKX : unmarshals Clients.OKX.envelope;
  unmarshalBybit : unmarshals Clients.Bybit.envelope;
  unmarshalBitget : unmarshals Clients.Bitget.envelope;
  unmarshalMEXC : unmarshals Clients.Mexc.envelope;
  unmarshalKuCoin : unmarshals Clients.KuCoin.envelope;
  unmarshalGateIO : unmarshals Clients.GateIO.envelope;
  unmarshalHTX : unmarshals Clients.Htx.envelope;
  unmarshalData : string → result error string;
  unmarshalCoinbase : unmarshals Clients.Coinbase.envelope;
  unmarshalOrder : string → result error Clients.Coinbase.orderEnvelope;
  unmarshalKraken : unmarshals Clients.Kraken.envelope;
  unmarshalCryptoCom : unmarshals Clients.CryptoCom.envelope;
  marshalCryptoCom : TokenClients.CryptoCom.privateRequestEnvelope → result error string;
  unmarshalKorbit : unmarshals Clients.Korbit.envelope;
  unmarshalUpbit : unmarshals Clients.Upbit.envelope;
  unmarshalBithumb : unmarshals Clients.Bithumb.envelope;
  unmarshalCoinone : unmarshals Clients.Coinone.envelope;
  unmarshalBinance : unmarshals Clients.Binance.payload;
  marshalText : string → string;
  parseSeconds : string → option Z;
  headersOf : Response → list (string * list string)
}.

(** What a method reads of the moment: the clock, the next request ID, and the
    limits that Binance announced. *)
Record moment : Type := MkMoment {
  moment_now : Z;
  moment_requestID : Z;
  moment_specs : list EndpointLimits.Binance.limitSpec
}.

(** The account that the client's errors name. *)
Definition accountOf {Own} (client : Client Own) : string := from_option AccountID "" (client_credentials client).

Section orders.
Context `{Library} `{Decoder} `{JSON} `{OrderCoding}.

Definition orders_of (e : SpotExchange) (m : moment) :
    Client (SettingsOf (rest_of e)) →
    @OrderClient (adapter_of e) (ArgsOf (rest_of e)) (SettingsOf (rest_of e)) (signed_of (rest_of e)) :=
  match e with
  | SpotBinance => λ client, BinanceOrders.client (moment_now m) (moment_specs m) headersOf (accountOf client) unmarshalBinance
  | SpotOKX => λ client, OKXOrders.client (accountOf client) unmarshalOKX
  | SpotBybit => λ client, BybitOrders.client (moment_now m) (accountOf client) unmarshalBybit
  | SpotBitget => λ client, BitgetOrders.client (moment_now m) (accountOf client) unmarshalBitget
  | SpotMEXC => λ client, MEXCOrders.client (settings client) (accountOf client) unmarshalMEXC
  | SpotKuCoin => λ client, KuCoinOrders.client (moment_now m) (accountOf client) unmarshalKuCoin
  | SpotGateIO => λ client, GateIOOrders.client parseSeconds (moment_now m) (accountOf client) unmarshalGateIO
  | SpotHTX => λ client, HTXOrders.client (moment_now m) (settings client) (accountOf client) unmarshalHTX unmarshalData
  | SpotCoinbase => λ client, CoinbaseOrders.client (accountOf client) unmarshalCoinbase unmarshalOrder
  | SpotKraken => λ client, KrakenOrders.client (accountOf client) unmarshalKraken
  | SpotCryptoCom => λ client, CryptoComOrders.client marshalCryptoCom (moment_requestID m) (accountOf client) unmarshalCryptoCom
  | SpotKorbit => λ client, KorbitOrders.client (moment_now m) (accountOf client) unmarshalKorbit
  | SpotUpbit => λ client, UpbitOrders.client (moment_now m) marshalText (accountOf client) unmarshalUpbit
  | SpotBithumb => λ client, BithumbOrders.client marshalText (accountOf client) unmarshalBithumb
  | SpotCoinone => λ client, CoinoneOrders.client marshalText (moment_now m) (accountOf client) unmarshalCoinone
  end.

Lemma orders_laws e m client :
  @OrderClientLaws (adapter_of e) (ArgsOf (rest_of e)) (SettingsOf (rest_of e)) (signed_of (rest_of e)) (orders_of e m client).
Proof.
  destruct e;
    [ apply BinanceOrders.laws | apply OKXOrders.laws | apply BybitOrders.laws | apply BitgetOrders.laws
    | apply MEXCOrders.laws | apply KuCoinOrders.laws | apply GateIOOrders.laws | apply HTXOrders.laws
    | apply CoinbaseOrders.laws | apply KrakenOrders.laws | apply CryptoComOrders.laws | apply KorbitOrders.laws
    | apply UpbitOrders.laws | apply BithumbOrders.laws | apply CoinoneOrders.laws ].
Qed.

(** An order has no parameter that is called like a signature. *)
Lemma orders_fair e m client order :
  (∀ secret payload, EncodeHex (HMAC_SHA256 secret payload) ≠ "") →
  @fair _ _ (signed_of (rest_of e)) (method_request (@placeMethod _ _ _ _ (orders_of e m client) order)).
Proof.
  intros Hhex. destruct e; try exact I; [exact Hhex| |done].
  cbn -[MEXCApi.PlaceOrderRequest_values]. unfold MEXCApi.PlaceOrderRequest_values. absent.
Qed.
End orders.

(** ** A change that a client makes *)

Ltac quiet := cbn; split_and!; [unfold sends; simpl; lia|set_solver|done].

Lemma observing_Returned f r response : (observing f r).2 = Returned (response, None) → r.2 = Returned (response, None).
Proof. destruct r as [[? ?] [[? [?|]]| |]]; naive_solver. Qed.

Lemma Execute_answered parseTime executor ctx execution envs backend response :
  exec_Operation execution = OperationMutation →
  (Execute parseTime executor ctx execution envs backend).2 = Returned (response, None) →
  sends (Execute parseTime executor ctx execution envs backend).1.2 = 1%nat.
Proof.
  intros Hop. destruct (Execute_cases parseTime executor ctx execution envs backend) as [[e ->]|[-> _]]; [done|].
  rewrite Hop. simpl. destruct (executeAttempt _ _ _ _ _ _) as [[b es] r] eqn:Ha.
  apply executeAttempt_cases in Ha as [_ Ha]. destruct r as [[[r retry] err]| |]; rewrite ?orb_true_r; simpl; [|done..].
  intros [= -> ->]. eauto.
Qed.

Lemma privateCall_change parseTime executor {Settings Limit} exchange label (client : Client Settings)
    (limits : string → string → memoryBackend → limiting (Limit * list Charge)) observe missing passphrase sign
    permission operation ctx options calls backend :
  operation = OperationMutation →
  let r := privateCall parseTime executor exchange label client limits observe missing passphrase sign
             permission operation ctx options calls backend in
  (sends r.1.2 ≤ 1)%nat ∧ (∀ delay, Slept delay ∉ r.1.2) ∧
  (∀ response, r.2 = Returned (response, None) → sends r.1.2 = 1%nat).
Proof.
  intros ->. unfold privateCall, refused. destruct (resolveOptions client options) as [resolved|]; [|by quiet].
  destruct (requireAccount _ _ _ _ _) as [descriptor|]; [|by quiet].
  destruct (limits _ _ _) as [b [[limit charges]|]]; [|by quiet].
  cbv zeta. rewrite observing_events. unfold execute.
  match goal with |- context [Execute _ _ _ ?execution ?envs ?b] =>
    pose proof (Execute_mutation_quiet parseTime executor ctx execution envs b eq_refl) as [Hs Hq];
    pose proof (Execute_answered parseTime executor ctx execution envs b) as Ha end.
  split_and!; [done..|]. intros response Hr%observing_Returned. by eapply Ha.
Qed.

(** ** Placing an order *)

Section placing.
Context {A : SpotAdapter} {Args Own : Type} `{rest : SignedClient Args Own} `{!OrderClient A Args Own}.
Context (parseTime : string → option Z) (executor : Executor) (client : Client Own).

(** The client's method that places an order. *)
Definition place_order (order : NativeOrder) (ctx : bool) (options : list (option RequestOption)) (calls : Z → callEnv)
    : memoryBackend → memoryBackend * list event * outcome (result error Acknowledgement) :=
  callMethod (λ args, private_call parseTime executor client args ctx options calls) (placeMethod order).

(** What the exchange finds in a request that it received through a route. *)
Record delivered (order : NativeOrder) (options : list (option RequestOption)) (calls : Z → callEnv)
    (route : string) (request : Request) : Prop := {
  delivered_entitled : ∃ resolved descriptor, resolveOptions client options = Ok resolved ∧
    route = EgressRouteID resolved ∧ entitled client route PermissionTrade descriptor;
  delivered_order : ∃ k material full parameters, call_material (calls k) = Ok material ∧
    complete needs_passphrase material ∧ received request = Some full ∧ request_method full = "POST" ∧
    verifies client (method_request (placeMethod order)) material full ∧
    carries parameters full ∧ read_order parameters = order
}.

Context `{!SpotAdapterLaws, !SignedClientLaws Args Own, !OrderClientLaws A Args Own}.

(** A call of a method answers without an error only when its request was answered so. *)
Lemma answered_Ok {X} (answer : Response → result error X) r :
  (answered answer r).1 = r.1 ∧
  (∀ x, (answered answer r).2 = Returned (Ok x) → ∃ response, r.2 = Returned (response, None)).
Proof. unfold answered. destruct r as [[? ?] [[? [?|]]| |]]; simpl; naive_solver. Qed.

Lemma place_order_once order ctx options calls backend :
  let r := place_order order ctx options calls backend in
  (sends r.1.2 ≤ 1)%nat ∧ (∀ delay, Slept delay ∉ r.1.2) ∧
  (∀ acknowledgement, r.2 = Returned (Ok acknowledgement) → sends r.1.2 = 1%nat).
Proof using All.
  cbv zeta. unfold place_order, callMethod. destruct (method_check _); [|by quiet].
  pose proof (place_operation order) as Hop.
  destruct (private_call_is parseTime executor client (method_request (placeMethod order)))
    as (Limit & label & limits & observe & missing & ->).
  match goal with |- context [answered ?answer ?r] => destruct (answered_Ok answer r) as [-> Ha] end.
  eapply privateCall_change in Hop as (Hs & Hq & Hr). split_and!; [exact Hs|exact Hq|].
  intros acknowledgement [response Hx]%Ha. by eapply Hr.
Qed.

Lemma place_order_delivers request account ctx options calls backend route sent :
  valid_order request → fair (method_request (placeMethod (nativeRequest account request))) →
  Sent route sent ∈ (place_order (nativeRequest account request) ctx options calls backend).1.2 →
  accepts account request = true ∧ delivered (nativeRequest account request) options calls route sent.
Proof using All.
  intros Hv Hfair [Hcheck Hin]%callMethod_sent. rewrite place_check in Hcheck. split.
  { by rewrite <-validate_nativeRequest, Hcheck. }
  destruct (private_call_is parseTime executor client (method_request (placeMethod (nativeRequest account request))))
    as (Limit & label & limits & observe & missing & Hcall).
  rewrite Hcall in Hin. rewrite place_permission in Hin.
  apply privateCall_sent in Hin as (resolved & descriptor & k & material & signed & Hr & -> & He & Hm & Hc & Hs & ->).
  split; [by exists resolved, descriptor|].
  pose proof (place_carries _ _ _ _ _ _ Hfair Hs) as [Hpost Hcarries].
  exists k, material, signed, (parameters_of (nativeRequest account request)). rewrite received_plain.
  split_and!; try done; [by eapply signed_verifies|apply read_parameters].
Qed.
End placing.


(** ** An order on OKX *)

Section demo.

#[local] Instance demo_library : Library := {
  HMAC_SHA256 secret payload := secret +:+ payload;
  HMAC_SHA512 secret payload := secret +:+ payload;
  SHA256 s := s;
  SHA512 s := s;
  EncodeHex s := "0x" +:+ s;
  EncodeBase64 s := s;
  EncodeRawURLBase64 s := s;
  DecodeBase64 s := Ok s;
  FormatTime _ t := pretty t;
  SignEd25519 key s := Ok s;
  ParseP256Key key := Ok key;
  SignES256 key s := Ok s;
  MarshalFields members := "{" +:+ Join ((λ m, m.1 +:+ "=" +:+ asText (Some m.2)) <$> members) "," +:+ "}"
}.

(** Answers are the number of the new order. *)
#[local] Instance demo_decoder : Decoder := {
  decoded := string;
  Unmarshal _ text := Ok text;
  RawItems text := Ok [text];
  RawEntries _ := Ok ∅;
  Text item name := if bool_decide (name = "ordId") then item else if bool_decide (name = "sCode") then "0" else "";
  Integer _ _ := 0;
  Items _ _ := []
}.
#[local] Instance demo_json : JSON := { Valid _ := true; UnmarshalString := Some; UnmarshalStrings text := Some [text] }.

Definition nothing {E} (empty : E) : unmarshals E := λ _, (empty, None).
Definition unread {A} : string → result error A := λ _, Err (Errorf "unexpected end of JSON input").

#[local] Instance demo_coding : OrderCoding := {
  unmarshalOKX text := (Clients.OKX.MkEnvelope "0" "" text, None);
  unmarshalBybit := nothing (Clients.Bybit.MkEnvelope 0 "" "" 0);
  unmarshalBitget := nothing (Clients.Bitget.MkEnvelope "" "" 0 "");
  unmarshalMEXC := nothing Clients.Mexc.emptyEnvelope;
  unmarshalKuCoin := nothing (Clients.KuCoin.MkEnvelope "" "" "");
  unmarshalGateIO := nothing (Clients.GateIO.MkEnvelope "" "" "");
  unmarshalHTX := nothing (Clients.Htx.MkEnvelope "" "" "" "" "");
  unmarshalData := unread;
  unmarshalCoinbase := nothing (Clients.Coinbase.MkEnvelope "" "" None "" "" "");
  unmarshalOrder := unread;
  unmarshalKraken := nothing (Clients.Kraken.MkEnvelope [] "");
  unmarshalCryptoCom := nothing (Clients.CryptoCom.MkEnvelope "" "" "" "" "");
  marshalCryptoCom _ := unread "";
  unmarshalKorbit := nothing (Clients.Korbit.MkEnvelope None "" "");
  unmarshalUpbit := nothing (Clients.Upbit.MkEnvelope "" "");
  unmarshalBithumb := nothing (Clients.Bithumb.MkEnvelope "" "");
  unmarshalCoinone := nothing (Clients.Coinone.MkEnvelope "" "" "");
  unmarshalBinance := nothing (Clients.Binance.MkPayload 0 "");
  marshalText text := text;
  parseSeconds _ := None;
  headersOf _ := []
}.

Definition trading_okx : Client OKX.okxSettings :=
  MkClient (Some (MkDescriptor "main" ExchangeOKX "vault" [PermissionTrade] ["seoul"])) true "seoul" demo_url
    (10 * Second) (OKX.MkSettings false).
Definition demo_order : PlaceOrderRequest :=
  MkPlaceOrderRequest (MkMarket "BTC" "USDT") SideBuy OrderTypeLimit "" "2" "" "10" "id1".
Definition answered_call (attempt : Z) : callEnv :=
  MkCallEnv
    (MkAttemptEnv [MkWaitIteration id demo_now demo_now None] (Ok None)
       (Ok (MkHTTPResponse 200 ∅ (MkBody (String.list_ascii_of_string "7") None))) None demo_now 1 0 None)
    (Ok (MkSecretMaterial "key" "secret" "phrase")) demo_now (Ok "nonce") 0 0.

Definition demo_placed : memoryBackend * list event * outcome (result error Clients.OKX.OrderReference) :=
  @place_order _ _ _ okx_signed (orders_of SpotOKX (MkMoment demo_now 1 []) trading_okx) (λ _, None) demo_executor
    trading_okx (OKXSpot.OKX.nativeOrder demo_order) true [] answered_call newMemoryBackend.

Definition demo_body : string := "{instId=BTC-USDT,tdMode=cash,clOrdId=id1,side=buy,ordType=limit,sz=2,px=10}".
Definition demo_sent : Request :=
  MkRequest "POST" (Some "/api/v5/trade/order") "www.okx.com" ""
    (list_to_map [("Accept", "application/json"); ("Content-Type", "application/json"); ("User-Agent", "cex-sdk-go/0");
                  ("Ok-Access-Key", "key"); ("Ok-Access-Passphrase", "phrase");
                  ("Ok-Access-Timestamp", pretty demo_now);
                  ("Ok-Access-Sign", "secret" +:+ pretty demo_now +:+ "POST/api/v5/trade/order" +:+ demo_body)]) demo_body.

Lemma demo_placed_is :
  demo_placed.1.2 = [Built; Sent "seoul" demo_sent] ∧
  demo_placed.2 = Returned (Ok (Clients.OKX.MkReference "0" "" "7" "")).
Proof. split; by vm_compute. Qed.

Lemma demo_order_valid : valid_order demo_order.
Proof. by apply PlaceOrderRequest_Validate_Ok. Qed.

Lemma demo_hex (secret payload : string) : EncodeHex (HMAC_SHA256 secret payload) ≠ "".
Proof. discriminate. Qed.

End demo.
